(* ===== verification/_CoqProject ===== *)
-Q . S2P
Prelude.v
GoStrings.v
Base64.v
Store.v
ServerUtil.v
Protocol.v
Session.v
Vnet.v
Router.v
Link.v
Relay.v
SecureFrame.v
WinArgs.v
WinService.v
GoJSON.v
LanIdentity.v
ServerUDP.v
Pending.v
Replay.v
Paths.v
P2PState.v
P2P.v
P2PInv.v
P2PTransport.v
Rotation.v
Delivery.v
Gorm.v
ControlStore.v
LanAlloc.v
AdminAuth.v
LanAdmin.v
ControlLaws.v
Settings.v
SettingsLaws.v
Machine.v
ClientConfig.v
Updates.v
AgentServe.v
AgentLaws.v
Releases.v
LanServe.v
Views.v
LanClient.v
Wintun.v
LanPolicy.v
LanStates.v
Forward.v
FastPath.v
Bootstrap.v
AgentTunnel.v
Conversations.v
LanLoops.v
Upnp.v
NatProbe.v
ClientMain.v
ServerMain.v
LanMain.v
Agent.v
AgentLoop.v
TunnelRun.v
ClientPages.v
