(* ===== verification/Prelude.v ===== *)
(** * UDP Tunnel: a verification of the rendezvous server and its two clients

    The repository holds a server and two Windows clients. The server (internal/server)
    answers UDP datagrams of devices: it registers them, introduces the two ends of a
    pair, relays what they cannot send directly, and serves an HTTP interface to devices
    and to administrators over a database. The port-forwarding agent (cmd/client) pulls
    forwarding rules and keeps one KCP tunnel per peer and profile, over which it carries
    TCP connections. The LAN client (cmd/UDPTunnelLAN) puts a device into a virtual
    network: it reads packets off a TUN device, routes them, seals them per peer, and
    sends them on a direct, tunnelled or relayed path.

    ** How the files correspond to the code

    Shared ground.
    - [Prelude]: results, machine integers, time, bytes, generic lemmas, automation.
    - [GoStrings], [Base64]: what is used of strings, strconv, net, base64.
    - [Store]: the records of internal/store/store.go.  [Protocol]: internal/protocol.
    - [ServerUtil]: internal/server/util.go.
    - [GoJSON]: what encoding/json does with objects and structs.  - [WinArgs]: the
      quoting of command lines in the elevate_windows.go and service_windows.go of both
      clients.  - [Machine]: internal/machineid and the device ids.
    - [Gorm]: tables behind gorm.io/gorm, a class with laws.

    The packet layer of the LAN client.
    - [Session]: internal/packet/session.go. Replay window, nonces, sealing and opening,
      key agreement.  - [Router]: internal/packet/router.go.  - [Link]:
      internal/packet/link.go.  - [Vnet]: internal/vnet/network.go.
    - [LanIdentity]: internal/lan.  - [SecureFrame]: internal/secure/frame.go.

    The server.
    - [ControlStore]: internal/controlstore, the database; [ControlLaws]: that it does
      what the handlers are proved against.  - [Settings], [SettingsLaws]:
      internal/config, internal/server/settings.go and the settings across restarts.
    - [AgentServe], [AgentLaws], [Views]: handlers_agent.go, handlers_admin.go, views.go.
    - [Releases]: handlers_release.go and the installers.
    - [ServerMain]: the start, cmd/server and server.go, and the routes, http.go.
    - [ServerUDP]: internal/server/udp.go.  - [Relay]: internal/lantransport and
      internal/server/lan_packet_relay.go.
    - [AdminAuth]: auth_jwt.go, auth.go and the change of the password.
    - [LanAlloc], [LanAdmin], [LanServe]: handlers_lan.go.  - [LanPolicy], [LanStates]:
      what follows from them, up to the routers of the devices.

    The LAN runtime, cmd/UDPTunnelLAN/packet_runtime.go.
    - [Pending]: traffic classes and the queue of frames without a path.
    - [Replay]: the sending loop, over the interface [Replay.Transport].
    - [Paths]: session intents, hot and learned paths.
    - [P2PState], [P2P]: the peers and every operation on them; [P2PInv]: the runtime as
      a transition system; [P2PTransport]: the proof that it implements the interface;
      [Rotation], [Delivery]: what follows end to end.
    - [LanClient]: the adapter, router and links of a start, main.go.  - [Wintun]: the
      adapter itself, internal/wintun.  - [LanLoops]: the other loops of the runtime, its
      keys and readiness.
    - [LanMain]: the files of internal/lan, config_ui.go, elevate_windows.go,
      bootstrap.go, and what a command line starts.

    The port-forwarding agent.
    - [Forward]: internal/forward/forward.go.  - [AgentTunnel]: runTunnelOnce of
      cmd/client/main.go and internal/tunnel.  - [Agent]: the worker of a tunnel.
    - [AgentLoop]: the loop over all of them.
    - [ClientConfig]: its configuration, file and settings page.  - [Updates]: update.go,
      version.go.  - [Bootstrap]: its requests to the server.  - [NatProbe]: the probe of
      the NAT.  - [TunnelRun]: a run of a tunnel from its socket to its end, and what its
      worker does then.  - [ClientPages]: the page's hooks per mode, the update helper, the
      events of the loop.  - [ClientMain]: what a command line starts, from all of these.
    Used by both clients: [Conversations], internal/tunnel; [Upnp], internal/upnp;
    [WinService], the service_windows.go of both. [FastPath]: internal/lanfastpath, which
    nothing calls.

    ** How the code is represented

    A struct is a record, an enumeration an inductive type or the code's own string, a
    map a [gmap]. An operation is a function from the state to the new state with its
    answer and the effects it has outside (datagrams, database writes, HTTP posts), in
    order; a guard of the code is a test in the same place. A call that returns a value
    and an error is a [result] or an [option]. What runs under a mutex runs as one step;
    what the code starts with [go] is a step of its own, and the steps interleave freely
    in the transition systems ([P2PInv.p2p_step], [AgentTunnel.tun_step],
    [Agent.worker_step], [AgentLoop.agent_reachable]). Integers that can wrap carry
    their wrap-around ([u16], [u32], [u64], [i64]); lengths and times that cannot in any
    run are plain. The clock, random bytes, name resolution and the outcome of a write
    are arguments or fields of an environment record. Where Go walks a map the model
    walks [map_to_list], and theorems about such a walk do not depend on its order
    unless they say so.

    Third-party code is a class or a record with laws: AEADs, X25519 and HKDF
    ([Session.AEADLaws], [Session.X25519Laws]), Ed25519 ([LanIdentity.Ed25519Laws]),
    SHA-256, HMAC, bcrypt and JSON of claims ([AdminAuth.AuthPrimitives]), encoding/json
    of messages and objects ([Protocol.MessageJSON], [GoJSON.GoJSONLaws]), time stamps
    and durations ([GoStrings.GoTimeLaws], [Settings.GoDuration]), the routing of gin
    ([ServerMain.Gin]) and the tables of gorm and MySQL ([Gorm.GormLaws]). The handlers
    are proved against interfaces of the database ([AdminAuth.AdminStore],
    [LanAdmin.LanStore]), which [ControlLaws] discharges. Files are a map from paths to
    contents with what may be read and written ([ClientConfig.FS]). Each class has an
    instance by a concrete function, with which the witnesses of the theorems are
    evaluated.

    ** What the theorems show

    - Packets on the LAN: a sealed frame is delivered at most once, in every order of
      arrival, exactly when an abstract 64-entry window admits it ([Session]); the router
      forwards exactly the packets it should and its MSS clamp is right ([Router]); the
      sessions, the pending queue, the hot paths and the flags of a peer keep their
      invariants in every run ([Link], [Pending], [Paths], [P2PInv]); the sending loop
      neither stalls nor loses a frame it reported sent ([Replay], [P2PTransport]); what
      one device sends another writes to its TUN device, directly and relayed
      ([Delivery]).
    - The server: who can change the registered peers, whom the relays forward to, the
      bounds of the relay queue ([ServerUDP], [Relay]); the sessions of administrators
      ([AdminAuth]); the allocation of addresses terminates and finds a free one
      ([LanAlloc]); the policy an administrator writes is the policy the routers of the
      devices enforce ([LanPolicy]); the views are faithful to the reports ([LanStates]).
      The database does what the handlers count on ([ControlLaws]); settings survive a
      restart ([SettingsLaws]); the rules of a device never share a port ([AgentLaws]);
      an uploaded installer is the one handed out ([Releases]); no handler is reached
      past its guard ([ServerMain]).
    - The agent: two agents of a rule meet and open one conversation ([AgentTunnel]); the
      workers are those of the rules, no wake-up is lost ([AgentLoop]); forwarded streams
      are transparent ([Forward]); a restart settles on one configuration
      ([ClientConfig]), the probe finds the NAT ([NatProbe]), the agent runs with what
      the server serves ([ClientMain]), a release is installed only with its checksum
      ([Updates]).
    - Both clients: what a page without rights saves reaches the file through the
      elevated helper ([ClientMain], [LanMain], over [WinArgs]); a device keeps its
      identity ([LanMain]); a port mapping holds while it is renewed ([Upnp]); the packets
      of a conversation reach it ([Conversations]).

    Some theorems show that the code does not do what it means to: the replay window
    moves for an unauthenticated frame ([Session.forged_frame_moves_window]), a frame
    can be removed in place of another ([Pending.remove_after_expiry_drops_wrong_frame]),
    a rotation keeps sending to a dead tunnel ([Rotation]), a refresh token can be used
    twice in a race ([AdminAuth]), a changed prefix strands its devices ([LanPolicy]),
    a relayed tunnel is cut, an unsealed punch is taken and UPnP tears tunnels down
    ([AgentTunnel], [AgentLoop]), rules and networks created disabled are enabled
    ([AgentLaws], [ControlLaws]), a server whose key was removed hears nobody and one
    that gained a key stays in the legacy mode ([ServerMain], [SettingsLaws]), a LAN
    client whose first request fails never tries again ([LanMain]), one conversation id
    in 256 is deaf ([Conversations]), an agent's mapping is never renewed ([Upnp]), a
    service slow to stop is not restarted ([WinService]), the path of a service doubles
    its backslashes ([WinArgs]).

    ** Bounds and fuel

    Functions with a fuel argument get enough by construction: the loops that shed
    pending frames run with the length of the queue, each turn drops one
    ([Pending]); the walk over option bytes of a TCP header with the length of the
    header ([Router]); the search for a free address with the number of addresses of the
    network, and [LanAlloc.allocateVirtualAddress_correct] shows it is enough; reading a
    line with the length of what can be read ([Forward]); the search for a free prefix
    with its 256 candidates ([Vnet]).

    ** Not modelled

    - Third-party protocols: KCP, smux, TLS, gin, gorm and MySQL, gateways' port mapping,
      the Windows driver, netsh, PowerShell and the service manager. They are classes, or
      their outcomes are arguments; SessionStats of internal/tunnel reads a private field
      of KCP by reflection.
    - Trays, icons, log files, the HTML of the pages, opening a browser: calls of the
      system without a state of their own. The stubs of other
      systems, which do nothing or refuse.
    - The administrator's front end (frontend-admin), which is no Go.
    *)

From Stdlib Require Export Strings.Byte Strings.String ZArith Lia.
From stdpp Require Export prelude gmap strings sorting list pretty.

#[export] Set Default Goal Selector "1".

(* ------------------------------------------------------------------ *)
(** ** Scope, results, monadic notation *)

Declare Scope udp_scope.
Delimit Scope udp_scope with udp.
Open Scope Z_scope.

(** The value of a Go call that returns [(v, err)]: either the value with a nil
    error, or the error. *)
Inductive result (E A : Type) : Type :=
  | Ok (a : A)
  | Err (e : E).
Arguments Ok {E A} a.
Arguments Err {E A} e.

#[export] Instance result_eq_dec {E A} `{EqDecision E, EqDecision A} : EqDecision (result E A).
Proof. solve_decision. Defined.

#[export] Instance result_ret {E} : MRet (result E) := fun _ a => Ok a.
#[export] Instance result_bind {E} : MBind (result E) := fun _ _ f m =>
  match m with Ok a => f a | Err e => Err e end.

Definition is_ok {E A} (r : result E A) : bool :=
  match r with Ok _ => true | Err _ => false end.

(* ------------------------------------------------------------------ *)
(** ** Machine integers *)

(** Go's [uint64], [uint32] and [uint16] arithmetic wraps around. *)
Definition u64 (x : Z) : Z := x mod 2 ^ 64.
Definition u32 (x : Z) : Z := x mod 2 ^ 32.
Definition u16 (x : Z) : Z := x mod 2 ^ 16.

(** [int] and [int64] wrap in two's complement. *)
Definition i64 (x : Z) : Z := (x + 2 ^ 63) mod 2 ^ 64 - 2 ^ 63.

Definition is_u64 (x : Z) : Prop := 0 <= x < 2 ^ 64.

(** Go's [time.Time], as nanoseconds since January 1, year 1, UTC: the zero time
    is 0. [time.Time.Sub] saturates at the bounds of [time.Duration]. *)
Definition Time : Type := Z.
Definition Duration : Type := Z.
Definition time_zero : Time := 0.
Definition IsZero (t : Time) : bool := bool_decide (t = time_zero).
Definition time_sub (a b : Time) : Duration :=
  Z.max (- 2 ^ 63) (Z.min (2 ^ 63 - 1) (a - b)).
Definition time_add (t : Time) (d : Duration) : Time := t + d.
Definition millisecond : Duration := 1000000.
Definition second : Duration := 1000 * millisecond.
Definition minute : Duration := 60 * second.
Definition hour : Duration := 60 * minute.

Lemma u64_bound x : 0 <= u64 x < 2 ^ 64.
Proof. apply Z.mod_pos_bound; lia. Qed.

Lemma u64_small x : 0 <= x < 2 ^ 64 -> u64 x = x.
Proof. apply Z.mod_small. Qed.

Lemma u64_add_l x y : u64 (u64 x + y) = u64 (x + y).
Proof. apply Zplus_mod_idemp_l. Qed.

Lemma u64_add_r x y : u64 (x + u64 y) = u64 (x + y).
Proof. apply Zplus_mod_idemp_r. Qed.

Lemma u32_bound x : 0 <= u32 x < 2 ^ 32.
Proof. apply Z.mod_pos_bound; lia. Qed.

Lemma u16_bound x : 0 <= u16 x < 2 ^ 16.
Proof. apply Z.mod_pos_bound; lia. Qed.

(** Saturation keeps the order against every duration a program can write. *)
Lemma time_sub_le a b d : - 2 ^ 63 <= d < 2 ^ 63 - 1 -> time_sub a b <= d <-> a - b <= d.
Proof. unfold time_sub. lia. Qed.

Lemma time_sub_refl a : time_sub a a = 0.
Proof. unfold time_sub. lia. Qed.

(* ------------------------------------------------------------------ *)
(** ** Tactics *)

Create HintDb udp discriminated.
#[export] Hint Resolve u64_bound u32_bound u16_bound : udp.

(** Case analysis on the tests of a handler's body, with the impossible
    branches closed. *)
Ltac case_tests :=
  repeat (case_decide || case_bool_decide || case_match); simplify_eq/=.

(** Split every [if decide] / [match] of the goal, try to close each branch by arithmetic. *)
Ltac branches := case_tests; try done; try lia.

(** Decide a closed proposition by evaluation. *)
Ltac decide_now := apply (bool_decide_unpack _); vm_compute; exact I.

(** [lia] with division and remainder. *)
Ltac dlia := Z.to_euclidean_division_equations; lia.

(** Turn boolean tests in hypotheses into propositions. *)
Ltac bools :=
  repeat match goal with
  | H : andb _ _ = true |- _ => apply andb_true_iff in H; destruct H
  | H : orb _ _ = false |- _ => apply orb_false_iff in H; destruct H
  | H : negb _ = true |- _ => apply negb_true_iff in H
  | H : negb _ = false |- _ => apply negb_false_iff in H
  | H : bool_decide _ = true |- _ => apply bool_decide_eq_true in H
  | H : bool_decide _ = false |- _ => apply bool_decide_eq_false in H
  end.

(* ------------------------------------------------------------------ *)
(** ** Bytes *)

Notation byte := Byte.byte.

#[export] Instance byte_eq_decision : EqDecision byte := Byte.byte_eq_dec.
#[export] Instance byte_inhabited : Inhabited byte := populate x00.

(** [byte(z)] and [int(b)] of Go. *)
Definition z2b (z : Z) : byte := default x00 (Byte.of_N (Z.to_N (z mod 256))).
Definition b2z (b : byte) : Z := Z.of_N (Byte.to_N b).

Lemma b2z_bound b : 0 <= b2z b < 256.
Proof. unfold b2z. pose proof (Byte.to_N_bounded b). lia. Qed.
#[export] Hint Resolve b2z_bound : udp.

Lemma b2z_z2b z : b2z (z2b z) = z mod 256.
Proof.
  unfold b2z, z2b. pose proof (Z.mod_pos_bound z 256 ltac:(lia)).
  destruct (Byte.of_N _) as [b|] eqn:E; simpl.
  - apply Byte.to_of_N in E. lia.
  - apply Byte.of_N_None_iff in E. lia.
Qed.

Lemma b2z_inj a b : b2z a = b2z b -> a = b.
Proof.
  unfold b2z. intros H%N2Z.inj.
  apply (inj Some). by rewrite <- !Byte.of_to_N, H.
Qed.

Lemma z2b_b2z b : z2b (b2z b) = b.
Proof. apply b2z_inj. rewrite b2z_z2b. apply Z.mod_small, b2z_bound. Qed.

Lemma z2b_inj_small x y : 0 <= x < 256 -> 0 <= y < 256 -> z2b x = z2b y -> x = y.
Proof. intros ?? E%(f_equal b2z). rewrite !b2z_z2b, !Z.mod_small in E; lia. Qed.

(** Big-endian encoding of [binary.BigEndian]: [be_put n z] is the [n] bytes
    [PutUintN] writes, [be_get] what [UintN] reads. *)
Fixpoint be_put (n : nat) (z : Z) : list byte :=
  match n with
  | O => []
  | S n' => be_put n' (z / 256) ++ [z2b z]
  end.

Definition be_get (l : list byte) : Z := fold_left (fun acc b => acc * 256 + b2z b) l 0.

Lemma length_be_put n z : length (be_put n z) = n.
Proof. revert z; induction n; intros; simpl; [done|]. rewrite length_app, IHn. simpl. lia. Qed.

Lemma be_get_snoc l b : be_get (l ++ [b]) = be_get l * 256 + b2z b.
Proof. unfold be_get. by rewrite fold_left_app. Qed.

Lemma be_get_put n z : be_get (be_put n z) = z mod 256 ^ Z.of_nat n.
Proof.
  revert z; induction n; intros z; [by rewrite Z.mod_1_r|].
  cbn [be_put]. rewrite be_get_snoc, IHn, b2z_z2b.
  rewrite Nat2Z.inj_succ, Z.pow_succ_r by lia.
  rewrite Z.rem_mul_r by (try lia; apply Z.pow_nonzero; lia). lia.
Qed.

Lemma be_get_put_small n z : 0 <= z < 256 ^ Z.of_nat n -> be_get (be_put n z) = z.
Proof. intros. rewrite be_get_put. by apply Z.mod_small. Qed.

Lemma be_put_get l : be_put (length l) (be_get l) = l.
Proof.
  induction l as [|b l IH] using rev_ind; [done|].
  rewrite length_app, Nat.add_1_r. cbn [be_put]. rewrite be_get_snoc.
  pose proof (b2z_bound b). rewrite Z.div_add_l, Z.div_small, Z.add_0_r, IH by lia.
  f_equal. f_equal. apply b2z_inj. rewrite b2z_z2b.
  rewrite Z.add_comm, Z_mod_plus_full. apply Z.mod_small. lia.
Qed.

Lemma be_get_bound l : 0 <= be_get l < 256 ^ Z.of_nat (length l).
Proof.
  induction l as [|b l IH] using rev_ind; [by vm_compute|].
  rewrite be_get_snoc, length_app, Nat2Z.inj_add. simpl length.
  rewrite Z.pow_add_r by lia. change (256 ^ Z.of_nat 1) with 256.
  pose proof (b2z_bound b). lia.
Qed.

Lemma be_put_inj n x y :
  0 <= x < 256 ^ Z.of_nat n -> 0 <= y < 256 ^ Z.of_nat n -> be_put n x = be_put n y -> x = y.
Proof. intros ?? E%(f_equal be_get). by rewrite !be_get_put_small in E. Qed.

#[export] Hint Rewrite length_be_put @length_app @length_take @length_drop @length_replicate : lens.
Ltac lens := autorewrite with lens; simpl length.

(* ------------------------------------------------------------------ *)
(** ** Slices and strings *)

(** [l[a:b]] and [l[i]] inside the bounds the callers check. *)
Definition slice {A} (l : list A) (a b : nat) : list A := take (b - a) (drop a l).
Definition at_ (l : list byte) (i : nat) : byte := default x00 (l !! i).

Lemma length_slice {A} (l : list A) a b :
  (a <= b)%nat -> (b <= length l)%nat -> length (slice l a b) = (b - a)%nat.
Proof. intros. unfold slice. lens. lia. Qed.

Lemma slice_app_l {A} (l k : list A) a b :
  (b <= length l)%nat -> slice (l ++ k) a b = slice l a b.
Proof.
  intros. unfold slice. destruct (decide (a <= length l)%nat).
  - rewrite drop_app_le, take_app_le by (lens; lia). done.
  - replace (b - a)%nat with 0%nat by lia. done.
Qed.

(** Conversions between Go's [string] and [[]byte]. *)
Definition bytes_of (s : string) : list byte := list_byte_of_string s.
Definition string_of (l : list byte) : string := string_of_list_byte l.

Lemma string_of_bytes_of s : string_of (bytes_of s) = s.
Proof. apply string_of_list_byte_of_string. Qed.

Lemma bytes_of_string_of l : bytes_of (string_of l) = l.
Proof. apply list_byte_of_string_of_list_byte. Qed.

Lemma bytes_of_cons c s : bytes_of (String c s) = Ascii.byte_of_ascii c :: bytes_of s.
Proof. reflexivity. Qed.

Lemma length_bytes_of s : length (bytes_of s) = String.length s.
Proof. induction s; [done|]. rewrite bytes_of_cons. simpl. by f_equal. Qed.
#[export] Hint Rewrite length_bytes_of : lens.

Lemma bytes_of_app s t : bytes_of (s ++ t)%string = bytes_of s ++ bytes_of t.
Proof.
  induction s as [|c s IH]; [done|].
  change (String c s ++ t)%string with (String c (s ++ t)).
  rewrite !bytes_of_cons, IH. done.
Qed.

Lemma string_of_inj l k : string_of l = string_of k -> l = k.
Proof. intros E%(f_equal bytes_of). by rewrite !bytes_of_string_of in E. Qed.

Lemma bytes_of_inj s t : bytes_of s = bytes_of t -> s = t.
Proof. intros E%(f_equal string_of). by rewrite !string_of_bytes_of in E. Qed.

(** ["\x00"], ["\t"], ["\n"] and [" "]. *)
Definition NUL : string := String (Ascii.ascii_of_nat 0) EmptyString.
Definition TAB : string := String (Ascii.ascii_of_nat 9) EmptyString.
Definition LF : string := String (Ascii.ascii_of_nat 10) EmptyString.

(** [sort.Strings], and [sort.Slice] on distinct string keys: Go compares strings
    byte by byte, as [String.le] does. *)
Definition sort_strings (l : list string) : list string := merge_sort String.le l.

Lemma sort_strings_perm l : sort_strings l ≡ₚ l.
Proof. apply merge_sort_Permutation. Qed.

Lemma sort_strings_sorted l : Sorted String.le (sort_strings l).
Proof. apply Sorted_merge_sort, _. Qed.

Lemma sort_strings_unique l k : l ≡ₚ k -> sort_strings l = sort_strings k.
Proof.
  intros H. apply (Sorted_unique String.le); [apply sort_strings_sorted..|].
  by rewrite !sort_strings_perm.
Qed.

(* ------------------------------------------------------------------ *)
(** ** Stable sorting *)

(** [sort.SliceStable] by a numeric key: an element goes after those of its key. *)
Fixpoint stable_insert {A} (key : A -> Z) (x : A) (l : list A) : list A :=
  match l with
  | [] => [x]
  | y :: l' => if decide (key x <= key y) then x :: l else y :: stable_insert key x l'
  end.

Definition stable_sort {A} (key : A -> Z) (l : list A) : list A := foldr (stable_insert key) [] l.

Lemma stable_insert_perm {A} (key : A -> Z) x l : stable_insert key x l ≡ₚ x :: l.
Proof. induction l as [|y l IH]; simpl; [done|]. case_decide; [done|]. rewrite IH. apply Permutation_swap. Qed.

Lemma stable_sort_perm {A} (key : A -> Z) l : stable_sort key l ≡ₚ l.
Proof. induction l as [|x l IH]; simpl; [done|]. by rewrite stable_insert_perm, IH. Qed.

Lemma stable_insert_sorted {A} (key : A -> Z) x l :
  Sorted (fun a b => key a <= key b) l -> Sorted (fun a b => key a <= key b) (stable_insert key x l).
Proof.
  induction 1 as [|y l Hs IH Hhd]; simpl; [by repeat constructor|].
  case_decide; [by repeat constructor|].
  constructor; [done|]. destruct l as [|z l]; simpl; [constructor; lia|].
  inversion Hhd; subst. case_decide; constructor; lia.
Qed.

Lemma stable_sort_sorted {A} (key : A -> Z) l : Sorted (fun a b => key a <= key b) (stable_sort key l).
Proof. induction l; simpl; [constructor|]. by apply stable_insert_sorted. Qed.

(** Elements of one key keep their order. *)
Lemma stable_insert_class {A} (key : A -> Z) k x l :
  filter (fun a => key a = k) (stable_insert key x l) = filter (fun a => key a = k) (x :: l).
Proof.
  induction l as [|y l IH]; [done|]. cbn [stable_insert]. case_decide; [done|].
  rewrite (filter_cons _ y), IH, !(filter_cons _ x), (filter_cons _ y). repeat case_decide; try done. lia.
Qed.

Lemma stable_sort_class {A} (key : A -> Z) k l :
  filter (fun a => key a = k) (stable_sort key l) = filter (fun a => key a = k) l.
Proof.
  induction l as [|x l IH]; [done|]. cbn [stable_sort foldr]. fold (stable_sort key l).
  rewrite stable_insert_class, !filter_cons, IH. done.
Qed.

(** Sorting commutes with dropping elements. *)
Lemma stable_insert_filter {A} (key : A -> Z) (P : A -> Prop) `{!forall a, Decision (P a)} x l :
  Sorted (fun a b => key a <= key b) l ->
  filter P (stable_insert key x l) = (if decide (P x) then stable_insert key x (filter P l) else filter P l).
Proof.
  intros Hs. apply Sorted_StronglySorted in Hs; [|intros ?????; simpl in *; lia]. induction Hs as [|y l Hs IH Hall]; simpl.
  { rewrite filter_cons. done. }
  destruct (decide (key x <= key y)) as [Hle|Hgt].
  - rewrite (filter_cons _ x). case_decide; [|done]. rewrite filter_cons.
    case_decide; simpl; [by rewrite decide_True|].
    destruct (filter P l) as [|z m] eqn:E; simpl; [done|]. rewrite decide_True; [done|].
    assert (z ∈ filter P l) as [_ Hz]%list_elem_of_filter by (rewrite E; left).
    rewrite Forall_forall in Hall. specialize (Hall z Hz). simpl in Hall. lia.
  - rewrite !filter_cons, IH. repeat case_decide; simpl; try done; by rewrite decide_False.
Qed.

Lemma stable_sort_filter {A} (key : A -> Z) (P : A -> Prop) `{!forall a, Decision (P a)} l :
  filter P (stable_sort key l) = stable_sort key (filter P l).
Proof.
  induction l as [|x l IH]; [done|]. cbn [stable_sort foldr]. fold (stable_sort key l).
  rewrite stable_insert_filter by apply stable_sort_sorted. rewrite IH, filter_cons. by case_decide.
Qed.
