(* ===== verification/GoStrings.v ===== *)
(** * GoStrings: the string, number and address functions of Go's standard library

    What the program uses of [strings], [strconv] and [net], on Go's byte strings:
    trimming, case folding, searching, decimal numbers, and the textual form of IP
    addresses and prefixes. Case mapping of non-ASCII text needs Unicode's tables;
    those are the operations of the class [GoUnicode]. *)

From S2P Require Import Prelude.

(* ------------------------------------------------------------------ *)
(** ** Byte tests *)

Definition is_ascii (s : string) : bool := forallb (fun b => b2z b <? 128) (bytes_of s).

Definition is_digit (b : byte) : bool := (48 <=? b2z b) && (b2z b <=? 57).

Definition lower_byte (b : byte) : byte :=
  if (65 <=? b2z b) && (b2z b <=? 90) then z2b (b2z b + 32) else b.
Definition upper_byte (b : byte) : byte :=
  if (97 <=? b2z b) && (b2z b <=? 122) then z2b (b2z b - 32) else b.

(* ------------------------------------------------------------------ *)
(** ** [strings.TrimSpace] *)

(** The UTF-8 encodings of the runes of [unicode.IsSpace]. *)
Definition space_runes : list (list byte) :=
  [[x09]; [x0a]; [x0b]; [x0c]; [x0d]; [x20]; [xc2; x85]; [xc2; xa0]; [xe1; x9a; x80];
   [xe2; x80; x80]; [xe2; x80; x81]; [xe2; x80; x82]; [xe2; x80; x83]; [xe2; x80; x84];
   [xe2; x80; x85]; [xe2; x80; x86]; [xe2; x80; x87]; [xe2; x80; x88]; [xe2; x80; x89];
   [xe2; x80; x8a]; [xe2; x80; xa8]; [xe2; x80; xa9]; [xe2; x80; xaf]; [xe2; x81; x9f];
   [xe3; x80; x80]].

Definition starts_with (p l : list byte) : bool := bool_decide (take (length p) l = p).

(** Drop the runes of [runes] the text starts with; the text's length bounds the steps. *)
Fixpoint trim_prefixes (runes : list (list byte)) (fuel : nat) (l : list byte) : list byte :=
  match fuel with
  | O => l
  | S fuel' =>
    match List.find (fun p => starts_with p l) runes with
    | Some p => trim_prefixes runes fuel' (drop (length p) l)
    | None => l
    end
  end.

Definition trim_left (l : list byte) : list byte := trim_prefixes space_runes (length l) l.
Definition trim_right (l : list byte) : list byte :=
  rev (trim_prefixes (map (@rev byte) space_runes) (length l) (rev l)).

Definition TrimSpace (s : string) : string := string_of (trim_right (trim_left (bytes_of s))).

(* ------------------------------------------------------------------ *)
(** ** Case *)

(** Unicode's case tables, for strings that are not ASCII. *)
Class GoUnicode := {
  unicode_lower : string -> string;
  unicode_upper : string -> string;
  unicode_fold_eq : string -> string -> bool;
}.

Section Case.
  Context `{GU : GoUnicode}.

Definition ToLower (s : string) : string :=
  if is_ascii s then string_of (map lower_byte (bytes_of s)) else unicode_lower s.
Definition ToUpper (s : string) : string :=
  if is_ascii s then string_of (map upper_byte (bytes_of s)) else unicode_upper s.
Definition EqualFold (s t : string) : bool :=
  if is_ascii s && is_ascii t
  then bool_decide (map lower_byte (bytes_of s) = map lower_byte (bytes_of t))
  else unicode_fold_eq s t.

End Case.

(* ------------------------------------------------------------------ *)
(** ** Searching and splitting *)

Definition HasPrefix (s p : string) : bool := starts_with (bytes_of p) (bytes_of s).

(** Offset of the first occurrence of [sep]. *)
Fixpoint index_bytes (sep l : list byte) : option nat :=
  if starts_with sep l then Some 0%nat
  else match l with
       | [] => None
       | _ :: l' => option_map S (index_bytes sep l')
       end.

Definition Contains (s sep : string) : bool :=
  match index_bytes (bytes_of sep) (bytes_of s) with Some _ => true | None => false end.

(** [strings.Split] by a one-byte separator, and [strings.Join]. *)
Fixpoint split_bytes (sep : byte) (l : list byte) : list (list byte) :=
  match l with
  | [] => [[]]
  | b :: l' =>
    if decide (b = sep) then [] :: split_bytes sep l'
    else match split_bytes sep l' with
         | w :: ws => (b :: w) :: ws
         | [] => [[b]]
         end
  end.

Definition Split (s : string) (sep : byte) : list string := map string_of (split_bytes sep (bytes_of s)).
Definition Join (l : list string) (sep : string) : string := String.concat sep l.

(** [strings.Cut] at the first [sep]. *)
Fixpoint cut_bytes (sep : byte) (l : list byte) : option (list byte * list byte) :=
  match l with
  | [] => None
  | b :: l' => if decide (b = sep) then Some ([], l') else option_map (fun '(x, y) => (b :: x, y)) (cut_bytes sep l')
  end.

Lemma split_bytes_app sep w rest : sep ∉ w -> split_bytes sep (w ++ sep :: rest) = w :: split_bytes sep rest.
Proof.
  induction w as [|b w IH]; intros Hw; cbn [app split_bytes]; [by rewrite decide_True|].
  apply not_elem_of_cons in Hw as [Hb Hw]. rewrite decide_False by done. by rewrite IH.
Qed.

Lemma split_bytes_none sep w : sep ∉ w -> split_bytes sep w = [w].
Proof.
  induction w as [|b w IH]; intros Hw; cbn [split_bytes]; [done|].
  apply not_elem_of_cons in Hw as [Hb Hw]. rewrite decide_False by done. by rewrite IH.
Qed.


(* ------------------------------------------------------------------ *)
(** ** Numbers *)

Definition FormatInt (z : Z) : string := pretty z.
Definition FormatBool (b : bool) : string := if b then "true" else "false".

Definition digits_value (l : list byte) : option Z :=
  if bool_decide (l <> []) && forallb is_digit l
  then Some (fold_left (fun acc b => acc * 10 + (b2z b - 48)) l 0) else None.

(** [strconv.Atoi] and [ParseInt(s, 10, 64)]; [None] is an error. *)
Definition Atoi (s : string) : option Z :=
  let l := bytes_of s in
  let signed := starts_with [x2b] l || starts_with [x2d] l in
  v ← digits_value (if signed then drop 1 l else l);
  let z := if starts_with [x2d] l then - v else v in
  if decide (- 2 ^ 63 <= z < 2 ^ 63) then Some z else None.

(** The position of the last [c]. *)
Fixpoint last_index (c : byte) (l : list byte) : option nat :=
  match l with
  | [] => None
  | b :: l' => match last_index c l' with
               | Some i => Some (S i)
               | None => if decide (b = c) then Some 0%nat else None
               end
  end.

Definition first_index (c : byte) (l : list byte) : option nat := fst <$> list_find (fun b => b = c) l.

(** [net.SplitHostPort]. *)
Definition SplitHostPort (hostport : string) : option (string * string) :=
  let l := bytes_of hostport in
  i ← last_index x3a l;
  '(host, j, k) ←
    (if decide (head l = Some x5b) then
       e ← first_index x5d l;
       if decide (S e = i) then Some (slice l 1 e, 1%nat, S e) else None
     else if decide (x3a ∈ take i l) then None else Some (take i l, 0%nat, 0%nat));
  if decide (x5b ∈ drop j l \/ x5d ∈ drop k l) then None
  else Some (string_of host, string_of (drop (S i) l)).

(* ------------------------------------------------------------------ *)
(** ** Time stamps *)

(** [t.Format(time.RFC3339)] in the zone of the process, and [time.Parse]. *)
Class GoTime := {
  RFC3339 : Time -> string;
  ParseRFC3339 : string -> option Time;
}.

(** A time survives a time stamp up to the fraction of a second, and a time stamp is
    not empty and has no space around it. *)
Class GoTimeLaws (GT : GoTime) : Prop := {
  parse_format t : 0 <= t -> exists t', ParseRFC3339 (RFC3339 t) = Some t' /\ t' <= t < t' + second;
  format_trimmed t : TrimSpace (RFC3339 t) = RFC3339 t;
  format_nonempty t : RFC3339 t <> EmptyString;
}.

(* ------------------------------------------------------------------ *)
(** ** Addresses *)

(** A field of a dotted address: at most 255, no leading zero. *)
Definition parse_octet (l : list byte) : option byte :=
  if decide (l <> [x30] /\ take 1 l = [x30]) then None
  else v ← digits_value l; if decide (v <= 255) then Some (z2b v) else None.

Definition parse_ipv4 (l : list byte) : option (list byte) :=
  match map parse_octet (split_bytes x2e l) with
  | [Some a; Some b; Some c; Some d] => Some [a; b; c; d]
  | _ => None
  end.

Definition hex_value (b : byte) : option Z :=
  let z := b2z b in
  if (48 <=? z) && (z <=? 57) then Some (z - 48)
  else if (97 <=? z) && (z <=? 102) then Some (z - 87)
  else if (65 <=? z) && (z <=? 70) then Some (z - 55)
  else None.

(** A group of hexadecimal digits at the head of the text: its value, how many
    digits, and the rest. *)
Fixpoint hex_group (acc : Z) (n : nat) (l : list byte) : Z * nat * list byte :=
  match l with
  | b :: l' => match hex_value b with
               | Some v => hex_group (acc * 16 + v) (S n) l'
               | None => (acc, n, l)
               end
  | [] => (acc, n, [])
  end.

(** The loop of [netip]'s parser: [ip] holds the bytes so far, [ell] the offset of
    the [::]. At most eight groups are read. *)
Fixpoint ipv6_groups (fuel : nat) (ip : list byte) (ell : option nat) (l : list byte)
  : option (list byte * option nat * list byte) :=
  match fuel with
  | O => Some (ip, ell, l)
  | S fuel' =>
    let '(acc, n, rest) := hex_group 0 0 l in
    if decide (n = 0%nat \/ (4 < n)%nat) then None
    else if starts_with [x2e] rest then
      if decide (ell = None /\ length ip <> 12%nat) then None
      else if decide (16 < length ip + 4)%nat then None
      else ds ← parse_ipv4 l; Some (ip ++ ds, ell, [])
    else
      let ip' := ip ++ be_put 2 acc in
      if decide (rest = []) then Some (ip', ell, [])
      else if negb (starts_with [x3a] rest) || bool_decide (length rest = 1%nat) then None
      else if starts_with [x3a; x3a] rest then
        if decide (ell <> None) then None
        else if decide (length rest = 2%nat) then Some (ip', Some (length ip'), [])
        else ipv6_groups fuel' ip' (Some (length ip')) (drop 2 rest)
      else ipv6_groups fuel' ip' ell (drop 1 rest)
  end.

Definition parse_ipv6 (l : list byte) : option (list byte) :=
  let start :=
    if starts_with [x3a; x3a] l then
      if decide (length l = 2%nat) then Some ([], Some 0%nat, [])
      else ipv6_groups 8 [] (Some 0%nat) (drop 2 l)
    else ipv6_groups 8 [] None l in
  '(ip, ell, rest) ← start;
  if decide (rest <> []) then None
  else if decide (length ip = 16%nat) then
    match ell with Some _ => None | None => Some ip end
  else match ell with
  | None => None
  | Some e =>
    if decide (16 < length ip)%nat then None
    else Some (take e ip ++ replicate (16 - length ip) x00 ++ drop e ip)
  end.

Definition v4_in_v6_prefix : list byte := replicate 10 x00 ++ [xff; xff].

(** [net.ParseIP]: the 16-byte form, [None] for nil; the first of '.', ':' or '%'
    picks the family, and a zone is refused. *)
Definition ParseIP (s : string) : option (list byte) :=
  match List.find (fun b => bool_decide (b = x2e \/ b = x3a \/ b = x25)) (bytes_of s) with
  | Some b =>
    if decide (b = x2e) then app v4_in_v6_prefix <$> parse_ipv4 (bytes_of s)
    else if decide (b = x3a /\ x25 ∉ bytes_of s) then parse_ipv6 (bytes_of s)
    else None
  | None => None
  end.

(** [IP.To4]: nil stays nil. *)
Definition To4 (ip : option (list byte)) : option (list byte) :=
  l ← ip;
  if decide (length l = 4%nat) then Some l
  else if decide (length l = 16%nat /\ take 12 l = v4_in_v6_prefix) then Some (drop 12 l)
  else None.

(** [IP.String] of a 4-byte address. *)
Definition IPv4_String (ip : list byte) : string :=
  Join (map (fun b => FormatInt (b2z b)) ip) ".".

(** [net.ParseCIDR] for an IPv4 prefix: the address and the prefix length. *)
Definition ParseCIDR4 (s : string) : option (list byte * Z) :=
  let l := bytes_of s in
  i ← index_bytes [x2f] l;
  ip ← parse_ipv4 (take i l);
  n ← digits_value (drop (S i) l);
  if decide (n <= 32) then Some (ip, n) else None.

(* ------------------------------------------------------------------ *)
(** ** Laws *)

Lemma is_ascii_bytes s : is_ascii s = true <-> Forall (fun b => b2z b < 128) (bytes_of s).
Proof.
  unfold is_ascii. rewrite forallb_forall, Forall_forall.
  split; intros H x Hx; [apply Z.ltb_lt, H; by apply list_elem_of_In|].
  apply Z.ltb_lt, H. by apply list_elem_of_In.
Qed.

Lemma starts_with_spec p l : starts_with p l = true <-> p `prefix_of` l.
Proof.
  unfold starts_with. rewrite bool_decide_eq_true. split.
  - intros E. exists (drop (length p) l). by rewrite <- E at 1; rewrite take_drop.
  - intros [k ->]. apply take_app_length.
Qed.

Section Trim.
  Variable runes : list (list byte).
  Hypothesis runes_nonempty : Forall (fun p => p <> []) runes.

Definition no_head (l : list byte) : Prop := List.find (fun p => starts_with p l) runes = None.

Lemma find_rune_nonempty l p : List.find (fun p => starts_with p l) runes = Some p -> p <> [] /\ p `prefix_of` l.
Proof.
  intros [Hin Hs]%List.find_some. split; [|by apply starts_with_spec].
  rewrite Forall_forall in runes_nonempty. apply runes_nonempty. by apply list_elem_of_In.
Qed.

(** Trimming reaches text with nothing to trim, and is a suffix of its input. *)
Lemma trim_prefixes_no_head fuel : forall l, (length l <= fuel)%nat -> no_head (trim_prefixes runes fuel l).
Proof.
  induction fuel as [|fuel IH]; intros l Hl; simpl.
  - destruct l; [|simpl in Hl; lia]. unfold no_head.
    destruct (List.find _ _) as [p|] eqn:E; [|done].
    apply find_rune_nonempty in E as [Hne [k Hk]]. by destruct p.
  - destruct (List.find _ _) as [p|] eqn:E; [|done].
    apply find_rune_nonempty in E as [Hne [k ->]]. apply IH.
    rewrite drop_app_length. rewrite length_app in Hl. destruct p; [done|]. simpl in Hl. lia.
Qed.

Lemma trim_prefixes_fix fuel l : no_head l -> trim_prefixes runes fuel l = l.
Proof. unfold no_head. intros H. destruct fuel; simpl; [done|]. by rewrite H. Qed.

Lemma trim_prefixes_suffix fuel : forall l, trim_prefixes runes fuel l `suffix_of` l.
Proof.
  induction fuel as [|fuel IH]; intros l; simpl; [done|].
  destruct (List.find _ _); [|done]. etrans; [apply IH|]. apply suffix_drop.
Qed.

Lemma no_head_prefix l k : no_head l -> k `prefix_of` l -> no_head k.
Proof.
  unfold no_head. intros Hl Hk. destruct (List.find (fun p => starts_with p k) runes) as [p|] eqn:E; [|done].
  apply List.find_some in E as [Hin Hs]. pose proof (List.find_none _ _ Hl p Hin) as Hn.
  simpl in Hn. apply starts_with_spec in Hs. rewrite <- not_true_iff_false, starts_with_spec in Hn.
  exfalso. apply Hn. by etrans.
Qed.

End Trim.

Lemma space_runes_nonempty : Forall (fun p => p <> []) space_runes.
Proof. repeat constructor; done. Qed.

Lemma rev_space_runes_nonempty : Forall (fun p => p <> []) (map (@rev byte) space_runes).
Proof. repeat constructor; done. Qed.

(** Trimming is idempotent. *)
Lemma trim_bytes_idem l :
  trim_right (trim_left (trim_right (trim_left l))) = trim_right (trim_left l).
Proof.
  unfold trim_left at 1. rewrite trim_prefixes_fix.
  - unfold trim_right at 1. rewrite trim_prefixes_fix; [by rewrite rev_involutive|].
    unfold trim_right. rewrite rev_involutive.
    apply trim_prefixes_no_head; [apply rev_space_runes_nonempty|]. rewrite length_rev. lia.
  - apply (no_head_prefix space_runes (trim_left l)).
    + apply trim_prefixes_no_head; [apply space_runes_nonempty|lia].
    + unfold trim_right. destruct (trim_prefixes_suffix (map (@rev byte) space_runes)
        (length (trim_left l)) (rev (trim_left l))) as [k Hk].
      exists (rev k). rewrite <- rev_app_distr, <- Hk, rev_involutive. done.
Qed.

Lemma TrimSpace_idem s : TrimSpace (TrimSpace s) = TrimSpace s.
Proof. unfold TrimSpace. rewrite bytes_of_string_of, trim_bytes_idem. done. Qed.

Lemma TrimSpace_empty : TrimSpace EmptyString = EmptyString.
Proof. reflexivity. Qed.

#[global] Arguments TrimSpace : simpl never.
#[export] Hint Rewrite TrimSpace_idem TrimSpace_empty : udp.

(** Parsed addresses have the width of their family. *)
Lemma parse_ipv4_length l ip : parse_ipv4 l = Some ip -> length ip = 4%nat.
Proof. unfold parse_ipv4. intros. repeat case_match; by simplify_eq/=. Qed.

Lemma To4_length ip l : To4 ip = Some l -> length l = 4%nat.
Proof.
  unfold To4. destruct ip as [k|]; [|done]. simpl. intros. case_decide; [by simplify_eq|].
  case_decide as H2; [|done]. simplify_eq. lens. lia.
Qed.

(** A trivial instance for closed examples over ASCII text. *)
Definition ascii_unicode : GoUnicode := {|
  unicode_lower := id; unicode_upper := id; unicode_fold_eq s t := bool_decide (s = t);
|}.

(* ------------------------------------------------------------------ *)
(** ** A time stamp format for closed examples *)

(** The nanoseconds in binary, the lowest digit first. *)
Fixpoint bin (p : positive) : list byte :=
  match p with xH => [x31] | xO p => x30 :: bin p | xI p => x31 :: bin p end.

Fixpoint unbin (l : list byte) : option positive :=
  match l with
  | [] => None
  | [b] => if decide (b = x31) then Some xH else None
  | b :: l' => p ← unbin l'; Some (if decide (b = x30) then xO p else xI p)
  end.

Lemma bin_nonempty p : bin p <> [].
Proof. by destruct p. Qed.

Lemma unbin_bin p : unbin (bin p) = Some p.
Proof.
  induction p as [p IH|p IH|]; cbn [bin]; [| |reflexivity];
    destruct (bin p) as [|b l] eqn:E; try (by destruct (bin_nonempty p));
    change (unbin (?x :: b :: l)) with (q ← unbin (b :: l); Some (if decide (x = x30) then xO q else xI q));
    by rewrite IH.
Qed.

Definition bin_time : GoTime := {|
  RFC3339 t := string_of (bin (Z.to_pos (t + 1)));
  ParseRFC3339 s := p ← unbin (bytes_of s); Some (Zpos p - 1);
|}.

Lemma no_head_byte runes b l :
  forallb (fun p : list byte => match p with [] => false | c :: _ => negb (bool_decide (c = b)) end) runes = true ->
  no_head runes (b :: l).
Proof.
  intros H. unfold no_head. destruct (List.find _ _) as [p|] eqn:E; [|done]. exfalso.
  apply List.find_some in E as [Hin [k Hk]%starts_with_spec].
  rewrite forallb_forall in H. specialize (H p Hin). destruct p as [|c p]; [done|].
  injection Hk as -> _. by rewrite bool_decide_eq_true_2 in H.
Qed.

(** Printable ASCII text has no space to trim. *)
Definition is_plain (b : byte) : bool := (33 <=? b2z b) && (b2z b <=? 126).

Lemma digit_plain b : is_digit b = true -> is_plain b = true.
Proof. unfold is_digit, is_plain. rewrite !andb_true_iff, !Z.leb_le. lia. Qed.

Lemma plain_no_head (runes : list (list byte)) b l : is_plain b = true ->
  forallb (fun p : list byte => match p with [] => false | c :: _ => negb (is_plain c) end) runes = true -> no_head runes (b :: l).
Proof.
  intros Hb Hr. unfold no_head. destruct (List.find _ _) as [p|] eqn:E; [|done]. exfalso.
  apply List.find_some in E as [Hin [k Hk]%starts_with_spec]. rewrite forallb_forall in Hr. specialize (Hr p Hin).
  destruct p as [|c p]; [done|]. injection Hk as -> _. by rewrite Hb in Hr.
Qed.

Lemma trim_between_plain b l m c k : is_plain b = true -> is_plain c = true -> b :: l = m -> m = k ++ [c] ->
  TrimSpace (string_of m) = string_of m.
Proof.
  intros Hb Hc El Ek. unfold TrimSpace. rewrite bytes_of_string_of. f_equal. unfold trim_left. rewrite trim_prefixes_fix.
  - unfold trim_right. rewrite trim_prefixes_fix; [by rewrite rev_involutive|]. rewrite Ek, rev_app_distr. by apply plain_no_head.
  - rewrite <- El. by apply plain_no_head.
Qed.

Lemma TrimSpace_plain s : Forall (fun b => is_plain b = true) (bytes_of s) -> TrimSpace s = s.
Proof.
  intros H. rewrite <- (string_of_bytes_of s). destruct (bytes_of s) as [|b l] eqn:E; [done|].
  destruct (exists_last (l := b :: l) ltac:(done)) as (k & c & Ek). rewrite Ek in H.
  apply Forall_app in H as Hc. destruct Hc as [_ [Hc _]%Forall_cons]. rewrite <- Ek in H. apply Forall_cons in H as [Hb _].
  exact (trim_between_plain b l (b :: l) c k Hb Hc eq_refl Ek).
Qed.

Lemma bin_head p : exists b l, bin p = b :: l /\ (b = x30 \/ b = x31).
Proof. destruct p; simpl; eauto. Qed.

Lemma bin_last p : exists l, bin p = l ++ [x31].
Proof.
  induction p as [p [l IH]|p [l IH]|]; simpl; [| |by exists []]; rewrite IH; [by exists (x31 :: l)|by exists (x30 :: l)].
Qed.

Lemma bin_trimmed p : TrimSpace (string_of (bin p)) = string_of (bin p).
Proof.
  unfold TrimSpace. rewrite bytes_of_string_of. f_equal. unfold trim_left. rewrite trim_prefixes_fix.
  - unfold trim_right. rewrite trim_prefixes_fix; [by rewrite rev_involutive|].
    destruct (bin_last p) as [l ->]. rewrite rev_app_distr. by apply no_head_byte.
  - destruct (bin_head p) as (b & l & -> & [->| ->]); by apply no_head_byte.
Qed.

Lemma bin_time_laws : GoTimeLaws bin_time.
Proof.
  split.
  - intros t Ht. exists t. split; [|unfold second, millisecond; lia]. simpl.
    rewrite bytes_of_string_of, unbin_bin. simpl. f_equal. lia.
  - intros t. apply bin_trimmed.
  - intros t E%(f_equal bytes_of). simpl in E. rewrite bytes_of_string_of in E. by apply bin_nonempty in E.
Qed.

(* ------------------------------------------------------------------ *)
(** ** Separators *)

(** A text is cut in one way at the first separator, and in one way at the last. *)
Lemma app_sep_inj (sep : byte) (a b c d : list byte) : sep ∉ a -> sep ∉ c -> a ++ sep :: b = c ++ sep :: d -> a = c /\ b = d.
Proof.
  revert c. induction a as [|x a IH]; intros [|y c] Ha Hc E; simplify_eq/=.
  - done.
  - exfalso. apply Hc. by left.
  - exfalso. apply Ha. by left.
  - destruct (IH c) as [-> ->]; [set_solver|set_solver|done|done].
Qed.

Lemma app_last_sep_inj (sep : byte) (a b c d : list byte) : sep ∉ b -> sep ∉ d -> a ++ sep :: b = c ++ sep :: d -> a = c /\ b = d.
Proof.
  intros Hb Hd E. apply (f_equal reverse) in E. rewrite !reverse_app, !reverse_cons, <- !app_assoc in E.
  apply app_sep_inj in E as [E1 E2]; [|by rewrite elem_of_reverse..].
  by apply (inj reverse) in E1, E2.
Qed.

(** Decimal numbers are made of digits and a sign. *)
Definition number_byte (b : byte) : bool := is_digit b || bool_decide (b = x2d).

Lemma FormatInt_bytes z : Forall (fun b => number_byte b = true) (bytes_of (FormatInt z)).
Proof.
  assert (HN : forall n s, Forall (fun b => number_byte b = true) (bytes_of s) -> Forall (fun b => number_byte b = true) (bytes_of (pretty_N_go n s))).
  { intros n. induction (N.lt_wf_0 n) as [n _ IH]. intros s Hs. destruct (decide (n = 0%N)) as [->|Hn].
    { by rewrite pretty_N_go_0. }
    rewrite pretty_N_go_step by lia. apply IH; [apply N.div_lt; lia|].
    rewrite bytes_of_cons. constructor; [|done]. unfold pretty_N_char. repeat case_match; done. }
  assert (HP : forall n : N, Forall (fun b => number_byte b = true) (bytes_of (pretty n))).
  { intros n. unfold pretty, pretty_N. case_decide; [subst; by repeat constructor|by apply HN]. }
  unfold FormatInt. destruct z; [by repeat constructor|apply HP|].
  change (Forall (fun b => number_byte b = true) (bytes_of ("-" ++ pretty (Npos p))%string)). rewrite bytes_of_app.
  apply Forall_app. split; [by repeat constructor|apply HP].
Qed.

Lemma FormatInt_no_byte b z : number_byte b = false -> b ∉ bytes_of (FormatInt z).
Proof. intros Hb Hin. pose proof (FormatInt_bytes z) as H. rewrite Forall_forall in H. by rewrite (H b Hin) in Hb. Qed.
