(* ===== verification/Base64.v ===== *)
(** * Base64: Go's [base64.StdEncoding]

    Keys, signatures and relayed payloads travel as base64 text. Decoding skips
    line breaks, wants the padding, and ignores the unused bits of the last group,
    as the standard library does. *)

From S2P Require Import Prelude GoStrings.

Definition b64_char (i : Z) : byte :=
  if i <? 26 then z2b (65 + i)
  else if i <? 52 then z2b (97 + (i - 26))
  else if i <? 62 then z2b (48 + (i - 52))
  else if i =? 62 then x2b else x2f.

Definition b64_index (b : byte) : option Z :=
  let z := b2z b in
  if (65 <=? z) && (z <=? 90) then Some (z - 65)
  else if (97 <=? z) && (z <=? 122) then Some (z - 97 + 26)
  else if (48 <=? z) && (z <=? 57) then Some (z - 48 + 52)
  else if z =? 43 then Some 62
  else if z =? 47 then Some 63
  else None.

Definition pad_char : byte := x3d.

Fixpoint b64_encode (l : list byte) : list byte :=
  match l with
  | [] => []
  | [a] =>
    let n := b2z a * 16 in [b64_char (n / 64); b64_char (n mod 64); pad_char; pad_char]
  | [a; b] =>
    let n := (b2z a * 256 + b2z b) * 4 in
    [b64_char (n / 4096); b64_char (n / 64 mod 64); b64_char (n mod 64); pad_char]
  | a :: b :: c :: rest =>
    let n := (b2z a * 256 + b2z b) * 256 + b2z c in
    [b64_char (n / 262144); b64_char (n / 4096 mod 64); b64_char (n / 64 mod 64); b64_char (n mod 64)] ++
    b64_encode rest
  end.

(** The groups of four, after the line breaks are gone. *)
Fixpoint b64_decode_groups (l : list byte) : option (list byte) :=
  match l with
  | [] => Some []
  | a :: b :: c :: d :: rest =>
    i ← b64_index a;
    j ← b64_index b;
    if decide (c = pad_char /\ d = pad_char /\ rest = []) then Some [z2b ((i * 64 + j) / 16)]
    else
      k ← b64_index c;
      if decide (d = pad_char /\ rest = []) then Some (be_put 2 (((i * 64 + j) * 64 + k) / 4))
      else
        m ← b64_index d;
        tail ← b64_decode_groups rest;
        Some (be_put 3 (((i * 64 + j) * 64 + k) * 64 + m) ++ tail)
  | _ => None
  end.

Definition is_newline (b : byte) : bool := bool_decide (b = x0a \/ b = x0d).

Definition EncodeToString (l : list byte) : string := string_of (b64_encode l).
Definition DecodeString (s : string) : option (list byte) :=
  b64_decode_groups (List.filter (fun b => negb (is_newline b)) (bytes_of s)).

(* ------------------------------------------------------------------ *)
(** ** Round trip *)

Lemma b64_table : forallb (fun i => bool_decide (b64_index (b64_char i) = Some i) &&
  negb (is_newline (b64_char i)) && negb (bool_decide (b64_char i = pad_char))) (seqZ 0 64) = true.
Proof. by vm_compute. Qed.

Lemma b64_char_spec i : 0 <= i < 64 ->
  b64_index (b64_char i) = Some i /\ is_newline (b64_char i) = false /\ b64_char i <> pad_char.
Proof.
  intros Hi. pose proof b64_table as T. rewrite forallb_forall in T.
  specialize (T i). rewrite <- list_elem_of_In, elem_of_seqZ in T. specialize (T ltac:(lia)).
  bools. done.
Qed.

Lemma b64_index_char i : 0 <= i < 64 -> b64_index (b64_char i) = Some i.
Proof. apply b64_char_spec. Qed.

Lemma b64_char_not_pad i : 0 <= i < 64 -> b64_char i <> pad_char.
Proof. apply b64_char_spec. Qed.

Lemma triple_ind (P : list byte -> Prop) :
  P [] -> (forall a, P [a]) -> (forall a b, P [a; b]) -> (forall a b c l, P l -> P (a :: b :: c :: l)) -> forall l, P l.
Proof.
  intros H0 H1 H2 H3. fix IH 1. intros [|a [|b [|c l]]]; [done|apply H1|apply H2|apply H3, IH].
Qed.

Lemma be_get_pair a b : be_get [a; b] = b2z a * 256 + b2z b.
Proof. unfold be_get. simpl. lia. Qed.

Lemma be_get_triple a b c : be_get [a; b; c] = (b2z a * 256 + b2z b) * 256 + b2z c.
Proof. unfold be_get. simpl. lia. Qed.

Lemma b64_encode_no_newline l : List.filter (fun b => negb (is_newline b)) (b64_encode l) = b64_encode l.
Proof.
  assert (K : forall i k, 0 <= i < 64 -> List.filter (fun b => negb (is_newline b)) (b64_char i :: k) =
    b64_char i :: List.filter (fun b => negb (is_newline b)) k).
  { intros i k Hi. simpl. by destruct (b64_char_spec i Hi) as (_ & -> & _). }
  induction l as [|a|a b|a b c l IH] using triple_ind; [done|..]; cbn [b64_encode app];
    pose proof (b2z_bound a); try pose proof (b2z_bound b); try pose proof (b2z_bound c);
    rewrite !K by dlia; try done. by rewrite IH.
Qed.

Lemma b64_decode_encode l : b64_decode_groups (b64_encode l) = Some l.
Proof.
  induction l as [|a|a b|a b c l IH] using triple_ind; [done|..]; cbn [b64_encode app b64_decode_groups];
    pose proof (b2z_bound a); try pose proof (b2z_bound b); try pose proof (b2z_bound c).
  - rewrite !b64_index_char by dlia. simpl. f_equal. f_equal.
    etrans; [|apply (z2b_b2z a)]. f_equal. dlia.
  - rewrite ?b64_index_char by dlia. cbn [mbind option_bind].
    rewrite decide_False by (intros [E _]; revert E; apply b64_char_not_pad; dlia).
    rewrite ?b64_index_char by dlia. cbn [mbind option_bind]. rewrite decide_True by done.
    f_equal. etrans; [|apply (be_put_get [a; b])]. rewrite be_get_pair. cbn [length]. f_equal. dlia.
  - set (n := (b2z a * 256 + b2z b) * 256 + b2z c). assert (Hn : 0 <= n < 2 ^ 24) by (unfold n; lia).
    rewrite ?b64_index_char by dlia. cbn [mbind option_bind].
    rewrite decide_False by (intros [E _]; revert E; apply b64_char_not_pad; dlia).
    rewrite ?b64_index_char by dlia. cbn [mbind option_bind].
    rewrite decide_False by (intros [E _]; revert E; apply b64_char_not_pad; dlia).
    rewrite ?b64_index_char by dlia. cbn [mbind option_bind]. rewrite IH. cbn [mbind option_bind].
    change (a :: b :: c :: l) with ([a; b; c] ++ l). f_equal. f_equal.
    etrans; [|apply (be_put_get [a; b; c])]. rewrite be_get_triple. cbn [length]. fold n. f_equal. dlia.
Qed.

Lemma DecodeString_EncodeToString l : DecodeString (EncodeToString l) = Some l.
Proof. unfold DecodeString, EncodeToString. by rewrite bytes_of_string_of, b64_encode_no_newline, b64_decode_encode. Qed.

(* ------------------------------------------------------------------ *)
(** ** [base64.RawURLEncoding]: another alphabet, no padding *)

Definition to_url (b : byte) : byte := if decide (b = x2b) then x2d else if decide (b = x2f) then x5f else b.
Definition from_url (b : byte) : option byte :=
  if decide (b = x2d) then Some x2b else if decide (b = x5f) then Some x2f
  else if decide (b = x2b \/ b = x2f \/ b = pad_char) then None else Some b.

Definition unpadded (l : list byte) : list byte := List.filter (fun b => negb (bool_decide (b = pad_char))) (b64_encode l).
Definition padding (l : list byte) : list byte := replicate ((4 - length l mod 4) mod 4) pad_char.

Definition RawURLEncode (l : list byte) : string := string_of (map to_url (unpadded l)).
Definition RawURLDecode (s : string) : option (list byte) :=
  cs ← mapM from_url (List.filter (fun b => negb (is_newline b)) (bytes_of s));
  b64_decode_groups (cs ++ padding cs).

Lemma filter_char i k : 0 <= i < 64 ->
  List.filter (fun b => negb (bool_decide (b = pad_char))) (b64_char i :: k) =
  b64_char i :: List.filter (fun b => negb (bool_decide (b = pad_char))) k.
Proof. intros Hi. simpl. by rewrite bool_decide_eq_false_2 by by apply b64_char_not_pad. Qed.

Lemma unpadded_chars l : Forall (fun c => exists i, 0 <= i < 64 /\ c = b64_char i) (unpadded l).
Proof.
  induction l as [|a|a b|a b c l IH] using triple_ind; unfold unpadded; cbn [b64_encode app]; [constructor|..];
    pose proof (b2z_bound a); try pose proof (b2z_bound b); try pose proof (b2z_bound c);
    rewrite !filter_char by dlia; repeat (constructor; [eexists; split; [|reflexivity]; dlia|]); [constructor..|exact IH].
Qed.

Lemma unpadded_padding l : unpadded l ++ padding (unpadded l) = b64_encode l.
Proof.
  induction l as [|a|a b|a b c l IH] using triple_ind; unfold unpadded; cbn [b64_encode app]; [done|..];
    pose proof (b2z_bound a); try pose proof (b2z_bound b); try pose proof (b2z_bound c);
    rewrite !filter_char by dlia; try done.
  fold (unpadded l). cbn [app]. repeat f_equal. etrans; [|exact IH]. f_equal. unfold padding. cbn [length]. f_equal.
  f_equal. f_equal. change (S (S (S (S (length (unpadded l)))))) with (4 + length (unpadded l))%nat.
  replace (4 + length (unpadded l))%nat with (length (unpadded l) + 1 * 4)%nat by lia. by rewrite Nat.Div0.mod_add.
Qed.

Lemma url_table : forallb (fun i => bool_decide (from_url (to_url (b64_char i)) = Some (b64_char i)) &&
  negb (is_newline (to_url (b64_char i))) && negb (bool_decide (to_url (b64_char i) = x2e)) &&
  is_plain (to_url (b64_char i))) (seqZ 0 64) = true.
Proof. by vm_compute. Qed.

Lemma url_char_spec i : 0 <= i < 64 ->
  from_url (to_url (b64_char i)) = Some (b64_char i) /\ is_newline (to_url (b64_char i)) = false /\
  to_url (b64_char i) <> x2e /\ is_plain (to_url (b64_char i)) = true.
Proof.
  intros Hi. pose proof url_table as T. rewrite forallb_forall in T.
  specialize (T i). rewrite <- list_elem_of_In, elem_of_seqZ in T. specialize (T ltac:(lia)). bools. done.
Qed.

Lemma RawURLDecode_Encode l : RawURLDecode (RawURLEncode l) = Some l.
Proof.
  unfold RawURLDecode, RawURLEncode. rewrite bytes_of_string_of.
  assert (E : mapM from_url (List.filter (fun b => negb (is_newline b)) (map to_url (unpadded l))) = Some (unpadded l)).
  { induction (unpadded_chars l) as [|c k (i & Hi & ->) Hk IH]; [done|].
    destruct (url_char_spec i Hi) as (E1 & E2 & _). cbn [map List.filter]. rewrite E2. cbn [negb mapM]. by rewrite E1, IH. }
  rewrite E. cbn [mbind option_bind]. by rewrite unpadded_padding, b64_decode_encode.
Qed.

(** The text has no dot: the parts of a token do not run together. *)
Lemma RawURLEncode_no_dot l : x2e ∉ bytes_of (RawURLEncode l).
Proof.
  unfold RawURLEncode. rewrite bytes_of_string_of. induction (unpadded_chars l) as [|c k (i & Hi & ->) Hk IH]; [set_solver|].
  cbn [map]. destruct (url_char_spec i Hi) as (_ & _ & E & _). apply not_elem_of_cons. by split.
Qed.

Lemma RawURLEncode_plain l : Forall (fun b => is_plain b = true) (bytes_of (RawURLEncode l)).
Proof.
  unfold RawURLEncode. rewrite bytes_of_string_of. induction (unpadded_chars l) as [|c k (i & Hi & ->) Hk IH]; [constructor|].
  cbn [map]. destruct (url_char_spec i Hi) as (_ & _ & _ & E). by constructor.
Qed.
