(* ===== verification/Store.v ===== *)
(** * Store: the shared data model (internal/store/store.go)

    The records the client, the server and the control store exchange, and the
    validation of profiles and forwarding rules. Field names carry a prefix per
    record; the rest of the name is the source's. *)

From S2P Require Import Prelude GoStrings.

(* ------------------------------------------------------------------ *)
(** ** Records *)

(** The scalars stored in a [map[string]any]. *)
Inductive GoAny : Type :=
  | AnyInt (z : Z)
  | AnyString (s : string)
  | AnyBool (b : bool).

Record Device : Type := mkDevice {
  dev_ID : string; dev_Name : string; dev_Addr : string; dev_UpnpAddr : string;
  dev_Want : string; dev_Online : bool; dev_Enabled : bool; dev_LastSeen : string;
  dev_CreatedAt : string; dev_HealthSummary : string; dev_LastError : string;
  dev_ProductCapabilities : list string; dev_AgentOnline : bool; dev_LastAgentSeen : string;
  dev_AgentLastSource : string; dev_LANOnline : bool; dev_LastLANSeen : string;
  dev_LANLastSource : string; dev_LANLastError : string; dev_LANVirtualIP : string;
  dev_LANNetworkID : Z; dev_LANAdapterState : string; dev_LANSelectedCIDR : string;
  dev_LANRouteConflict : string; dev_LANPathSummary : string; dev_LANActiveSessions : Z;
  dev_LANHotPaths : Z; dev_LANSocketRotations : Z; dev_LANRotationReason : string;
}.

Record DeviceProductState : Type := mkDeviceProductState {
  dps_DeviceID : string; dps_Product : string; dps_Online : bool; dps_LastSeenAt : string;
  dps_LastSource : string; dps_Version : string; dps_LastError : string;
  dps_Metadata : gmap string GoAny;
}.

Record ForwardRule : Type := mkForwardRule {
  fr_ID : Z; fr_Name : string; fr_SourceID : string; fr_TargetID : string; fr_Profile : string;
  fr_LocalPort : Z; fr_TargetHost : string; fr_TargetPort : Z; fr_Enabled : bool;
  fr_CreatedAt : string; fr_UpdatedAt : string; fr_RuntimeState : string; fr_LastError : string;
  fr_LastUpdatedAt : string; fr_Attempt : Z; fr_NextRetryAt : string;
}.

Record Session : Type := mkSession {
  ses_ID : Z; ses_SourceID : string; ses_TargetID : string; ses_Profile : string;
  ses_Path : string; ses_RelayBytes : Z; ses_StartedAt : string; ses_LastSeen : string;
  ses_EndedAt : string;
}.

Record Metrics : Type := mkMetrics {
  met_Devices : Z; met_OnlineDevices : Z; met_ForwardRules : Z; met_ActiveSessions : Z;
  met_RelayBytes : Z;
}.

Record AuditEvent : Type := mkAuditEvent {
  ae_ID : Z; ae_Kind : string; ae_Detail : string; ae_CreatedAt : string;
}.

Record AuditFilter : Type := mkAuditFilter {
  af_Kind : string; af_Keyword : string; af_From : string; af_To : string; af_Limit : Z;
}.

Record TunnelState : Type := mkTunnelState {
  ts_DeviceID : string; ts_PeerID : string; ts_Profile : string; ts_State : string;
  ts_Via : string; ts_NATType : string; ts_PublicAddr : string; ts_ConvID : Z; ts_RTTMs : Z;
  ts_LastError : string; ts_Attempt : Z; ts_NextRetryAt : string; ts_LastTransitionAt : string;
  ts_UpdatedAt : string;
}.

Record AdminRefreshToken : Type := mkAdminRefreshToken {
  art_ID : Z; art_UserID : string; art_TokenHash : string; art_ExpiresAt : string;
  art_RevokedAt : string; art_CreatedAt : string; art_LastUsedAt : string;
  art_UserAgent : string; art_IP : string;
}.

Record AdminUser : Type := mkAdminUser {
  au_ID : string; au_Username : string; au_Name : string; au_Role : string;
  au_ForcePasswordChange : bool; au_PasswordVersion : Z; au_PasswordHash : string;
  au_CreatedAt : string; au_UpdatedAt : string;
}.

Record VirtualNetwork : Type := mkVirtualNetwork {
  vn_ID : Z; vn_Name : string; vn_CIDR : string; vn_MTU : Z; vn_MSS : Z; vn_PathPolicy : string;
  vn_TCPFastPath : string; vn_Enabled : bool; vn_CreatedAt : string; vn_UpdatedAt : string;
}.

Record VirtualAddress : Type := mkVirtualAddress {
  va_DeviceID : string; va_NetworkID : Z; va_VirtualIP : string; va_Hostname : string;
  va_DNSEnabled : bool; va_CreatedAt : string; va_UpdatedAt : string;
}.

Record VirtualDeviceKey : Type := mkVirtualDeviceKey {
  vk_DeviceID : string; vk_Algorithm : string; vk_PublicKey : string; vk_CreatedAt : string;
  vk_UpdatedAt : string;
}.

Record VirtualDeviceGroup : Type := mkVirtualDeviceGroup {
  vg_ID : string; vg_Name : string; vg_CreatedAt : string; vg_UpdatedAt : string;
}.

Record VirtualDeviceGroupMember : Type := mkVirtualDeviceGroupMember {
  vgm_GroupID : string; vgm_DeviceID : string; vgm_CreatedAt : string;
}.

Record VirtualACLRule : Type := mkVirtualACLRule {
  acl_ID : Z; acl_NetworkID : Z; acl_SourceDeviceID : string; acl_SourceGroupID : string;
  acl_TargetDeviceID : string; acl_TargetGroupID : string; acl_Protocol : string;
  acl_PortStart : Z; acl_PortEnd : Z; acl_Action : string; acl_Enabled : bool;
  acl_CreatedAt : string; acl_UpdatedAt : string;
}.

Record VirtualRoute : Type := mkVirtualRoute {
  vr_ID : Z; vr_DeviceID : string; vr_NetworkID : Z; vr_CIDR : string; vr_Advertise : bool;
  vr_Accept : bool; vr_CreatedAt : string; vr_UpdatedAt : string;
}.

Record VirtualPeerState : Type := mkVirtualPeerState {
  ps_DeviceID : string; ps_PeerID : string; ps_NetworkID : Z; ps_State : string;
  ps_Path : string; ps_DataPath : string; ps_PathReason : string; ps_NATType : string;
  ps_FallbackReason : string; ps_TrafficClass : string; ps_TCPFastPath : string;
  ps_AdapterState : string; ps_RouteConflict : string; ps_SelectedCIDR : string; ps_MTU : Z;
  ps_MSS : Z; ps_RTTMs : Z; ps_EstimatedBps : Z; ps_TxBytes : Z; ps_RxBytes : Z;
  ps_DropReason : string; ps_LastError : string; ps_ActiveSessions : Z; ps_HotPaths : Z;
  ps_RelayDisabled : bool; ps_SocketRotations : Z; ps_LastRotationAt : string;
  ps_LastRotationReason : string; ps_LastHandshakeAt : string; ps_LastTransitionAt : string;
  ps_UpdatedAt : string;
}.

Record VirtualPeerPathEvent : Type := mkVirtualPeerPathEvent {
  pe_ID : Z; pe_DeviceID : string; pe_PeerID : string; pe_NetworkID : Z; pe_Path : string;
  pe_DataPath : string; pe_PathReason : string; pe_TrafficClass : string; pe_TxBytes : Z;
  pe_RxBytes : Z; pe_CreatedAt : string;
}.

Record VirtualLearnedPath : Type := mkVirtualLearnedPath {
  lp_DeviceID : string; lp_PeerID : string; lp_NetworkID : Z; lp_DstPort : Z;
  lp_Protocol : string; lp_Path : string; lp_PublicAddr : string; lp_SuccessCount : Z;
  lp_FailureCount : Z; lp_LastSuccessAt : string; lp_LastFailureAt : string;
  lp_LastFailure : string; lp_Quality : string; lp_PreheatEnabled : bool; lp_UpdatedAt : string;
}.

(* ------------------------------------------------------------------ *)
(** ** Profiles and rules *)

Definition ProfileInteractive : string := "interactive".
Definition ProfileBulk : string := "bulk".
Definition ProfileLANPacket : string := "lan-packet".

Inductive rule_error : Type :=
  | ErrProfile      (* "profile must be interactive or bulk" *)
  | ErrIDsRequired  (* "source_id and target_id are required" *)
  | ErrIDsEqual     (* "source_id and target_id must differ" *)
  | ErrPorts        (* "ports must be 1..65535" *)
  | ErrTargetHost.  (* "target_host is required" *)

#[export] Instance rule_error_eq_dec : EqDecision rule_error.
Proof. solve_decision. Defined.

Section Rules.
  Context `{GU : GoUnicode}.

Definition NormalizeProfile (profile : string) : string :=
  let p := TrimSpace (ToLower profile) in
  if decide (p = EmptyString) then ProfileInteractive else p.

Definition ValidProfile (profile : string) : bool :=
  let p := NormalizeProfile profile in
  bool_decide (p = ProfileInteractive \/ p = ProfileBulk).

Definition Validate (r : ForwardRule) : result rule_error unit :=
  let profile := NormalizeProfile (fr_Profile r) in
  if negb (ValidProfile profile) then Err ErrProfile
  else if decide (fr_SourceID r = EmptyString \/ fr_TargetID r = EmptyString) then Err ErrIDsRequired
  else if decide (fr_SourceID r = fr_TargetID r) then Err ErrIDsEqual
  else if decide (fr_LocalPort r <= 0 \/ 65536 <= fr_LocalPort r \/
                  fr_TargetPort r <= 0 \/ 65536 <= fr_TargetPort r) then Err ErrPorts
  else if decide (fr_TargetHost r = EmptyString) then Err ErrTargetHost
  else Ok tt.

Lemma NormalizeProfile_nonempty p : NormalizeProfile p <> EmptyString.
Proof. unfold NormalizeProfile. by case_decide. Qed.

End Rules.
