(* ===== verification/ServerUtil.v ===== *)
(** * ServerUtil: the helpers of the HTTP server (internal/server/util.go)

    The errors of the handlers and the status they are answered with, and the
    addresses read off a request. *)

From S2P Require Import Prelude GoStrings.

(** An [error] of a handler: an [*apiError], [sql.ErrNoRows], another error of the
    database, or that of a [net] parser. *)
Inductive api_error : Type :=
  | ApiError (Status : Z) (Code Message : string)
  | ErrNoRows
  | DBError (message : string)
  | ParseError.

#[export] Instance api_error_eq_dec : EqDecision api_error.
Proof. solve_decision. Defined.

Definition StatusOK : Z := 200.
Definition badRequest (code message : string) : api_error := ApiError 400 code message.
Definition unauthorized (code message : string) : api_error := ApiError 401 code message.
Definition methodNotAllowed : api_error := ApiError 405 "method_not_allowed" "method not allowed".

(** The status line of [writeJSONOrError]. *)
Definition writeJSONOrError {A} (r : result api_error A) : Z :=
  match r with
  | Ok _ => StatusOK
  | Err (ApiError status _ _) => status
  | Err ErrNoRows => 404
  | Err _ => 500
  end.

(* ------------------------------------------------------------------ *)
(** ** Addresses of a request *)

(** [net.JoinHostPort]. *)
Definition JoinHostPort (host port : string) : string :=
  if decide (x3a ∈ bytes_of host) then ("[" ++ host ++ "]:" ++ port)%string else (host ++ ":" ++ port)%string.

Definition requestAddr (RemoteAddr : string) : string :=
  match SplitHostPort RemoteAddr with
  | None => RemoteAddr
  | Some (host, port) => JoinHostPort host port
  end.

Definition externalUDPAddr (Host udpListen : string) : string :=
  let host := match SplitHostPort Host with Some (h, _) => h | None => EmptyString end in
  let host := if decide (host = EmptyString) then Host else host in
  match SplitHostPort udpListen with
  | None => JoinHostPort host "7000"
  | Some (udpHost, udpPort) =>
    let udpHost := if decide (udpHost ∈ [EmptyString; "0.0.0.0"%string; "::"%string]) then host else udpHost in
    JoinHostPort udpHost udpPort
  end.

Definition requestBaseURL (tls : bool) (ForwardedProto Host : string) : string :=
  let scheme := if tls then "https"%string else "http"%string in
  let xf := TrimSpace ForwardedProto in
  let scheme := if decide (xf <> EmptyString) then xf else scheme in
  (scheme ++ "://" ++ Host)%string.

Definition portFromAddr (addr : string) (fallback : Z) : Z :=
  match SplitHostPort addr with
  | None => fallback
  | Some (_, p) => default fallback (Atoi p)
  end.

(** internal/server/auth_jwt.go. *)
Definition requestIP (ForwardedFor RemoteAddr : string) : string :=
  let xf := TrimSpace ForwardedFor in
  if decide (xf <> EmptyString) then
    match cut_bytes x2c (bytes_of xf) with
    | Some (ip, _) => TrimSpace (string_of ip)
    | None => xf
    end
  else match cut_bytes x3a (bytes_of RemoteAddr) with
  | None => RemoteAddr
  | Some (host, _) => string_of host
  end.

(* ------------------------------------------------------------------ *)
(** ** Handlers over a database *)

(** A handler on the database [DB]: [None] when it does not return. *)
Definition handler (DB A : Type) : Type := DB -> option (result api_error A * DB).

#[export] Instance handler_ret {DB} : MRet (handler DB) := fun _ a s => Some (Ok a, s).
#[export] Instance handler_bind {DB} : MBind (handler DB) := fun _ _ f m s =>
  match m s with
  | None => None
  | Some (Err e, s') => Some (Err e, s')
  | Some (Ok a, s') => f a s'
  end.

Definition fail {DB A} (e : api_error) : handler DB A := fun s => Some (Err e, s).
(** A read, a write and a pure step that may refuse. *)
Definition reads {DB A} (r : DB -> result api_error A) : handler DB A := fun s => Some (r s, s).
Definition writes {DB} (w : DB -> option api_error * DB) : handler DB unit := fun s =>
  match w s with (None, s') => Some (Ok tt, s') | (Some e, s') => Some (Err e, s') end.
Definition pure_ {DB A} (r : result api_error A) : handler DB A := fun s => Some (r, s).
Definition get_state {DB} : handler DB DB := fun s => Some (Ok s, s).

(** A handler that answered with success. *)
Definition answers {DB A} (h : handler DB A) (s : DB) (a : A) (s' : DB) : Prop := h s = Some (Ok a, s').

Lemma answers_bind {DB A B} (m : handler DB A) (f : A -> handler DB B) s b s' :
  answers (m ≫= f) s b s' <-> exists a s1, answers m s a s1 /\ answers (f a) s1 b s'.
Proof.
  unfold answers, mbind, handler_bind. destruct (m s) as [[[a|e] s1]|] eqn:E; split.
  - intros H. by exists a, s1.
  - intros (a' & s1' & [= <- <-] & H). done.
  - done.
  - by intros (? & ? & ? & _).
  - done.
  - by intros (? & ? & ? & _).
Qed.

Lemma answers_reads {DB A} (r : DB -> result api_error A) s a s' : answers (reads r) s a s' <-> r s = Ok a /\ s' = s.
Proof. unfold answers, reads. split; [by intros [= -> <-]|by intros [-> ->]]. Qed.

Lemma answers_writes {DB} (w : DB -> option api_error * DB) s u s' : answers (writes w) s u s' <-> w s = (None, s').
Proof. unfold answers, writes. destruct u, (w s) as [[e|] s1]; split; by intros [=]; subst. Qed.

Lemma answers_pure {DB A} (r : result api_error A) (s : DB) a s' : answers (pure_ r) s a s' <-> r = Ok a /\ s' = s.
Proof. unfold answers, pure_. split; [by intros [= -> <-]|by intros [-> ->]]. Qed.

Lemma answers_ret {DB A} (x : A) (s : DB) a s' : answers (mret x) s a s' <-> a = x /\ s' = s.
Proof. unfold answers, mret, handler_ret. split; [by intros [= <- <-]|by intros [-> ->]]. Qed.

Lemma answers_fail {DB A} e (s : DB) (a : A) s' : answers (fail e) s a s' <-> False.
Proof. done. Qed.

Lemma answers_get_state {DB} (s : DB) a s' : answers get_state s a s' <-> a = s /\ s' = s.
Proof. unfold answers, get_state. split; [by intros [= <- <-]|by intros [-> ->]]. Qed.
