(* ===== verification/Protocol.v ===== *)
(** * Protocol: control messages (internal/protocol/protocol.go)

    The JSON datagrams the devices and the rendezvous server exchange in clear or
    sealed. Their encoding is that of encoding/json, a parameter. *)

From S2P Require Import Prelude.

(* ------------------------------------------------------------------ *)
(** ** Messages (internal/protocol) *)

Definition MsgRegister : string := "register".
Definition MsgPeerInfo : string := "peer".
Definition MsgPunch : string := "punch".
Definition MsgPunchAck : string := "punchack".
Definition MsgData : string := "data".
Definition MsgKeepAlive : string := "ka".
Definition MsgStunReq : string := "stunq".
Definition MsgStunResp : string := "stunr".
Definition MsgLANRegister : string := "lan_register".

Record Message : Type := mkMessage {
  Type_ : string; From : string; Name : string; Peer : string; msg_Profile : string; Addr : string;
  UpnpAddr : string; msg_Payload : string; Timestamp : Z; Signature : string;
}.

(** [json.Marshal] and [json.Unmarshal] on [Message]. *)
Class MessageJSON := {
  Encode : Message -> list byte;
  Decode : list byte -> option Message;
}.
