(* ===== verification/Session.v ===== *)
(** * Session: the LAN packet session layer (internal/packet/session.go)

    Replay window, nonce and header construction, the sealing and opening codec
    and the derivation of the directional keys. The AEAD (golang.org/x/crypto's
    ChaCha20-Poly1305), HKDF and X25519 are not part of the repository: they are
    the operations of the classes [cipherAEAD] and [SessionCrypto], and what the
    code relies on is stated in [AEADLaws] and [X25519Laws]. *)

From S2P Require Import Prelude.

Definition TypeIPv4 : byte := x01.
Definition frameVersion : byte := x01.
Definition headerLen : nat := 24.
Definition replayWindowSize : Z := 64.
Definition magic : list byte := bytes_of "UDPL".

Inductive packet_error : Type :=
  | ErrBadKey
  | ErrFrame
  | ErrReplay
  | ErrDerive       (* "derive packet key" *)
  | ErrAEAD         (* chacha20poly1305.New *)
  | ErrPeerKey      (* "bad peer x25519 public key" *)
  | ErrX25519.      (* curve25519.X25519 *)

#[export] Instance packet_error_eq_dec : EqDecision packet_error.
Proof. solve_decision. Defined.

(* ------------------------------------------------------------------ *)
(** ** The replay window *)

Record replayWindow : Type := { rw_max : Z; rw_bits : Z }.

Definition replayWindow_zero : replayWindow := {| rw_max := 0; rw_bits := 0 |}.

Definition Accept (w : replayWindow) (seq : Z) : bool * replayWindow :=
  if decide (seq = 0) then (false, w)
  else if decide (rw_max w = 0) then (true, {| rw_max := seq; rw_bits := 1 |})
  else if decide (rw_max w < seq) then
    let shift := u64 (seq - rw_max w) in
    let bits :=
      if decide (replayWindowSize <= shift) then 1
      else Z.lor (u64 (Z.shiftl (rw_bits w) shift)) 1 in
    (true, {| rw_max := seq; rw_bits := bits |})
  else
    let delta := u64 (rw_max w - seq) in
    if decide (replayWindowSize <= delta \/ Z.land (rw_bits w) (u64 (Z.shiftl 1 delta)) <> 0)
    then (false, w)
    else (true, {| rw_max := rw_max w; rw_bits := Z.lor (rw_bits w) (u64 (Z.shiftl 1 delta)) |}).

Definition Rollback (w : replayWindow) (seq : Z) : replayWindow :=
  if decide (rw_max w = seq) then {| rw_max := rw_max w; rw_bits := Z.ldiff (rw_bits w) 1 |}
  else if decide (seq < rw_max w) then
    let delta := u64 (rw_max w - seq) in
    if decide (delta < replayWindowSize)
    then {| rw_max := rw_max w; rw_bits := Z.ldiff (rw_bits w) (u64 (Z.shiftl 1 delta)) |}
    else w
  else w.

(** Abstract window: the highest sequence number and the set of those accepted
    (and not rolled back). It admits a number that is new and not older than the
    last 64. *)
Definition win_admits (max : Z) (S : gset Z) (seq : Z) : bool :=
  bool_decide (seq <> 0 /\ max - replayWindowSize < seq /\ seq ∉ S).

Lemma win_admits_true max S seq :
  win_admits max S seq = true <-> seq <> 0 /\ max - 64 < seq /\ seq ∉ S.
Proof. apply bool_decide_eq_true. Qed.

Lemma win_admits_false max S seq :
  win_admits max S seq = false <-> ~ (seq <> 0 /\ max - 64 < seq /\ seq ∉ S).
Proof. apply bool_decide_eq_false. Qed.

(** The window represents [S]: bit [i] says whether [max - i] is in [S]. *)
Record win_rel (w : replayWindow) (S : gset Z) : Prop := {
  wr_max : is_u64 (rw_max w);
  wr_pos : forall s, s ∈ S -> 0 < s <= rw_max w;
  wr_bits : forall i, 0 <= i ->
    Z.testbit (rw_bits w) i = true <-> i < 64 /\ rw_max w - i ∈ S;
}.

Lemma shiftl1_u64 d : 0 <= d < 64 -> u64 (Z.shiftl 1 d) = 2 ^ d.
Proof.
  intros. rewrite Z.shiftl_mul_pow2, Z.mul_1_l by lia. apply u64_small.
  split; [lia|]. apply Z.pow_lt_mono_r; lia.
Qed.

Lemma pow2_bit d i : 0 <= d -> Z.testbit (2 ^ d) i = true <-> i = d.
Proof. intros. rewrite Z.pow2_bits_eqb, Z.eqb_eq by lia. naive_solver. Qed.

Lemma lor_pow2_bit b d i : 0 <= d ->
  Z.testbit (Z.lor b (2 ^ d)) i = true <-> i = d \/ Z.testbit b i = true.
Proof. intros. rewrite Z.lor_spec, orb_true_iff, pow2_bit by lia. tauto. Qed.

Lemma ldiff_pow2_bit b d i : 0 <= d ->
  Z.testbit (Z.ldiff b (2 ^ d)) i = true <-> i <> d /\ Z.testbit b i = true.
Proof.
  intros. rewrite Z.ldiff_spec, andb_true_iff, negb_true_iff, <- not_true_iff_false, pow2_bit by lia.
  tauto.
Qed.

Lemma land_pow2_nonzero b d : 0 <= d -> Z.land b (2 ^ d) <> 0 <-> Z.testbit b d = true.
Proof.
  intros Hd. rewrite <- not_false_iff_true. apply not_iff_compat. split; intros H.
  - apply (f_equal (fun z => Z.testbit z d)) in H.
    by rewrite Z.land_spec, Z.pow2_bits_true, Z.bits_0, andb_true_r in H by lia.
  - apply Z.bits_inj'. intros i Hi. rewrite Z.land_spec, Z.bits_0, Z.pow2_bits_eqb by lia.
    destruct (Z.eqb_spec d i) as [<-|]; [by rewrite H|by rewrite andb_false_r].
Qed.

Lemma u64_shiftl_bit b s i : 0 <= s -> 0 <= i ->
  Z.testbit (u64 (Z.shiftl b s)) i = true <-> i < 64 /\ s <= i /\ Z.testbit b (i - s) = true.
Proof.
  intros. unfold u64. destruct (decide (i < 64)).
  - rewrite Z.mod_pow2_bits_low, Z.shiftl_spec by lia.
    destruct (decide (s <= i)); [tauto|]. rewrite Z.testbit_neg_r by lia. naive_solver.
  - rewrite Z.mod_pow2_bits_high by lia. naive_solver.
Qed.

Lemma win_rel_zero : win_rel replayWindow_zero ∅.
Proof. split; simpl; [split; lia|set_solver|]. intros. rewrite Z.bits_0. set_solver. Qed.

(** A number past the window becomes its maximum; the bits move with it. *)
Lemma win_rel_advance w S seq bits :
  win_rel w S -> is_u64 seq -> rw_max w < seq ->
  (forall i, 0 <= i -> Z.testbit bits i = true <->
     i = 0 \/ i < 64 /\ seq - rw_max w <= i /\ Z.testbit (rw_bits w) (i - (seq - rw_max w)) = true) ->
  win_rel {| rw_max := seq; rw_bits := bits |} ({[seq]} ∪ S).
Proof.
  intros [Hm Hp Hb] Hs Hlt Hbits. unfold is_u64 in *. split; simpl; [done| |].
  - intros s [->%elem_of_singleton|Hin%Hp]%elem_of_union; lia.
  - intros i Hi. rewrite Hbits, elem_of_union, elem_of_singleton by done. split.
    + intros [->|(? & ? & Ht)]; [split; [lia|left; lia]|].
      apply Hb in Ht as [? Hin]; [|lia]. split; [lia|]. right.
      by replace (seq - i) with (rw_max w - (i - (seq - rw_max w))) by lia.
    + intros [? [?|Hin]]; [left; lia|]. right. pose proof (Hp _ Hin). split_and!; [lia..|].
      apply Hb; [lia|]. split; [lia|].
      by replace (rw_max w - (i - (seq - rw_max w))) with (seq - i) by lia.
Qed.

Lemma win_rel_set_bit w S d :
  win_rel w S -> 0 <= d < 64 -> d < rw_max w ->
  win_rel {| rw_max := rw_max w; rw_bits := Z.lor (rw_bits w) (2 ^ d) |} ({[rw_max w - d]} ∪ S).
Proof.
  intros [Hm Hp Hb] Hd Hlt. split; simpl; [done| |].
  - intros s [->%elem_of_singleton|Hin%Hp]%elem_of_union; lia.
  - intros i Hi. rewrite lor_pow2_bit, Hb, elem_of_union, elem_of_singleton by lia.
    split; [intros [->|[??]]; [split; [lia|by left]|tauto]|intros [? [?|?]]; [left; lia|tauto]].
Qed.

Lemma win_rel_clear_bit w S d :
  win_rel w S -> 0 <= d < 64 ->
  win_rel {| rw_max := rw_max w; rw_bits := Z.ldiff (rw_bits w) (2 ^ d) |} (S ∖ {[rw_max w - d]}).
Proof.
  intros [Hm Hp Hb] Hd. split; simpl; [done| |].
  - intros s [Hin%Hp _]%elem_of_difference. done.
  - intros i Hi. rewrite ldiff_pow2_bit, Hb, elem_of_difference, elem_of_singleton by lia.
    split; [intros (? & ? & ?); split_and!; [done..|lia]|intros (? & ? & Hne); split_and!; [|done..]].
    intros ->. by apply Hne.
Qed.

(** The bits [Accept] computes when the window advances. *)
Lemma advance_bits w seq :
  is_u64 seq -> rw_max w < seq -> is_u64 (rw_max w) -> forall i, 0 <= i ->
  Z.testbit (if decide (replayWindowSize <= u64 (seq - rw_max w)) then 1
             else Z.lor (u64 (Z.shiftl (rw_bits w) (u64 (seq - rw_max w)))) 1) i = true <->
  i = 0 \/ i < 64 /\ seq - rw_max w <= i /\ Z.testbit (rw_bits w) (i - (seq - rw_max w)) = true.
Proof.
  unfold is_u64, replayWindowSize. intros ? ? ? i Hi. rewrite u64_small by lia.
  change 1 with (2 ^ 0) at 1 2. case_decide.
  - rewrite pow2_bit by lia. naive_solver lia.
  - rewrite lor_pow2_bit, u64_shiftl_bit by lia. tauto.
Qed.

(** [Accept] implements the abstract window: it admits exactly what the window
    admits and then records it. *)
Lemma Accept_refines w S seq :
  win_rel w S -> is_u64 seq ->
  (Accept w seq).1 = win_admits (rw_max w) S seq /\
  win_rel (Accept w seq).2 (if (Accept w seq).1 then {[seq]} ∪ S else S) /\
  rw_max (Accept w seq).2 = (if (Accept w seq).1 then Z.max (rw_max w) seq else rw_max w).
Proof.
  intros HR Hs. pose proof HR as [Hm Hp Hb]. unfold Accept.
  destruct (decide (seq = 0)) as [->|Hz].
  { split_and!; [symmetry; apply win_admits_false; naive_solver|done..]. }
  assert (Hnew : rw_max w < seq -> true = win_admits (rw_max w) S seq).
  { intros ?. symmetry. apply win_admits_true. split_and!; [done|lia|]. intros ?%Hp. lia. }
  pose proof Hs as Hs'. unfold is_u64 in Hs'.
  destruct (decide (rw_max w = 0)) as [Hm0|Hm0]; simpl.
  { split_and!; [apply Hnew; lia|apply win_rel_advance with w; try done; [lia|]|lia].
    intros i Hi. change 1 with (2 ^ 0). rewrite pow2_bit by lia.
    split; [tauto|]. intros [?|(? & ? & Ht)]; [done|].
    apply Hb in Ht as [_ ?%Hp]; lia. }
  destruct (decide (rw_max w < seq)) as [Hlt|Hge]; simpl.
  { split_and!; [auto|apply win_rel_advance with w; try done; by apply advance_bits|lia]. }
  unfold is_u64, replayWindowSize in *. rewrite u64_small by lia.
  case_decide as Hd; simpl.
  { split_and!; [|done..]. symmetry. apply win_admits_false. intros (_ & ? & Hn).
    destruct Hd as [?|Hd]; [lia|]. rewrite shiftl1_u64, land_pow2_nonzero, Hb in Hd by lia.
    destruct Hd as [_ Hd]. by replace (rw_max w - (rw_max w - seq)) with seq in Hd by lia. }
  apply Decidable.not_or in Hd as [Hd1 Hd2].
  rewrite shiftl1_u64 in * by lia. rewrite land_pow2_nonzero, Hb in Hd2 by lia.
  assert (seq ∉ S) by (intros ?; apply Hd2; split; [lia|];
    by replace (rw_max w - (rw_max w - seq)) with seq by lia).
  split_and!; [symmetry; apply win_admits_true; split_and!; [done|lia|done]| |lia].
  replace ({[seq]} : gset Z) with ({[rw_max w - (rw_max w - seq)]} : gset Z) by (f_equal; lia).
  apply win_rel_set_bit; [done|lia..].
Qed.

(** A number above the maximum is always admitted and becomes the maximum. *)
Lemma Accept_newer w S seq :
  win_rel w S -> is_u64 seq -> 0 < seq -> rw_max w < seq ->
  win_admits (rw_max w) S seq = true /\ (Accept w seq).1 = true /\
  win_rel (Accept w seq).2 ({[seq]} ∪ S) /\ rw_max (Accept w seq).2 = seq.
Proof.
  intros HR Hu Hpos Hlt.
  assert (Hadm : win_admits (rw_max w) S seq = true).
  { apply win_admits_true. split_and!; [lia..|]. intros Hin%(wr_pos _ _ HR). lia. }
  destruct (Accept_refines w S seq HR Hu) as (Ha & HR' & Hm).
  rewrite Ha, Hadm in *. split_and!; [done..|]. lia.
Qed.

(** [Rollback] forgets the number and keeps the maximum. *)
Lemma Rollback_refines w S seq :
  win_rel w S -> is_u64 seq -> rw_max w - 64 < seq ->
  win_rel (Rollback w seq) (S ∖ {[seq]}) /\ rw_max (Rollback w seq) = rw_max w.
Proof.
  intros HR Hs Hin. pose proof HR as [Hm Hp Hb]. unfold Rollback, replayWindowSize, is_u64 in *.
  case_decide as He.
  { split; [|done]. replace seq with (rw_max w - 0) by lia.
    change 1 with (2 ^ 0). apply win_rel_clear_bit; [done|lia]. }
  case_decide as Hlt.
  { rewrite u64_small by lia. rewrite decide_True, shiftl1_u64 by lia. split; [|done].
    replace ({[seq]} : gset Z) with ({[rw_max w - (rw_max w - seq)]} : gset Z) by (f_equal; lia).
    apply win_rel_clear_bit; [done|lia]. }
  split; [|done]. replace (S ∖ {[seq]}) with S; [done|].
  apply set_eq. intros s. split; [|set_solver]. intros H. pose proof (Hp s H). set_solver by lia.
Qed.

(* ------------------------------------------------------------------ *)
(** ** The codec *)

(** golang.org/x/crypto/chacha20poly1305, the interface [cipherAEAD] of the code:
    [aead_seal nonce plaintext ad] is what Seal appends to its destination. *)
Record cipherAEAD : Type := {
  aead_seal : list byte -> list byte -> list byte -> list byte;
  aead_open : list byte -> list byte -> list byte -> option (list byte);
  aead_overhead : nat;
}.

(** Documented behaviour of the AEAD: a sealed text is longer by the overhead,
    opens to its plaintext, and nothing else opens under that nonce and data. *)
Class AEADLaws (a : cipherAEAD) : Prop := {
  aead_seal_length n p ad : length (aead_seal a n p ad) = (length p + aead_overhead a)%nat;
  aead_open_seal n p ad : aead_open a n (aead_seal a n p ad) ad = Some p;
  aead_open_inv n c ad p : aead_open a n c ad = Some p -> c = aead_seal a n p ad;
}.

Record Codec : Type := mkCodec {
  networkID : Z;
  typ : byte;
  aead : option cipherAEAD;
  nextSeq : Z;
  replay : replayWindow;
}.

Definition set_nextSeq (c : Codec) (n : Z) : Codec :=
  mkCodec (networkID c) (typ c) (aead c) n (replay c).
Definition set_replay (c : Codec) (w : replayWindow) : Codec :=
  mkCodec (networkID c) (typ c) (aead c) (nextSeq c) w.

Definition nonceFrom (nid seq : Z) : list byte := be_put 8 nid ++ be_put 4 (u32 seq).

Definition header (c : Codec) (seq : Z) : list byte :=
  magic ++ [frameVersion; typ c; x00; x00] ++ be_put 8 (networkID c) ++ be_put 8 seq.

(** The receiver is a [*Codec]: nil is [None]. Each call returns its result and
    the codec afterwards. *)
Definition Seal (c : option Codec) (payload : list byte) : result packet_error (list byte) * option Codec :=
  match c with
  | None => (Err ErrBadKey, c)
  | Some c' =>
    match aead c' with
    | None => (Err ErrBadKey, c)
    | Some a =>
      let seq := nextSeq c' in
      let c1 := set_nextSeq c' (u64 (nextSeq c' + 1)) in
      let h := header c1 seq in
      let nonce := nonceFrom (networkID c1) seq in
      (Ok (h ++ aead_seal a nonce payload h), Some c1)
    end
  end.

Definition frame_networkID (frame : list byte) : Z := be_get (slice frame 8 16).
Definition frame_seq (frame : list byte) : Z := be_get (slice frame 16 24).

Definition Open (c : option Codec) (frame : list byte) : result packet_error (list byte) * option Codec :=
  match c with
  | None => (Err ErrBadKey, c)
  | Some c' =>
    match aead c' with
    | None => (Err ErrBadKey, c)
    | Some a =>
      if decide ((length frame < headerLen + aead_overhead a)%nat \/
                 take 4 frame <> magic \/ at_ frame 4 <> frameVersion) then (Err ErrFrame, c)
      else if decide (at_ frame 5 <> typ c') then (Err ErrFrame, c)
      else
        let nid := frame_networkID frame in
        if decide (nid <> networkID c') then (Err ErrFrame, c)
        else
          let seq := frame_seq frame in
          let '(ok, w) := Accept (replay c') seq in
          if negb ok then (Err ErrReplay, Some (set_replay c' w))
          else
            let h := take headerLen frame in
            match aead_open a (nonceFrom nid seq) (drop headerLen frame) h with
            | None => (Err ErrFrame, Some (set_replay c' (Rollback w seq)))
            | Some plain => (Ok plain, Some (set_replay c' w))
            end
    end
  end.

#[global] Arguments Accept : simpl never.
#[global] Arguments Rollback : simpl never.
#[global] Arguments Seal : simpl never.
#[global] Arguments Open : simpl never.
#[global] Arguments headerLen : simpl never.

(* ------------------------------------------------------------------ *)
(** ** Keys *)

Record SessionKeys : Type := { AB : list byte; BA : list byte }.

(** x/crypto's HKDF-SHA256, ChaCha20-Poly1305 constructor and X25519. *)
Class SessionCrypto := {
  hkdf_read : list byte -> list byte -> list byte -> nat -> option (list byte);
  chacha_new : list byte -> option cipherAEAD;
  x25519 : list byte -> list byte -> option (list byte);
  x25519_base : list byte;
}.

Section Keys.
  Context `{SC : SessionCrypto}.

Definition hkdfKey (secret salt info : list byte) : result packet_error (list byte) :=
  match hkdf_read secret salt info 32 with
  | None => Err ErrDerive
  | Some key => Ok key
  end.

(** The salt of [DeriveSessionKeys], with the two devices already sorted. *)
Definition session_salt (nid : Z) (sessionID : string) (devices : list string) : list byte :=
  be_put 8 nid ++ [x00] ++ bytes_of sessionID ++
  [x00] ++ bytes_of (default EmptyString (devices !! 0%nat)) ++
  [x00] ++ bytes_of (default EmptyString (devices !! 1%nat)).

Definition DeriveSessionKeys (sharedSecret : list byte) (nid : Z) (sessionID deviceA deviceB : string)
  : result packet_error SessionKeys :=
  if decide (length sharedSecret = 0%nat) then Err ErrBadKey
  else
    let salt := session_salt nid sessionID (sort_strings [deviceA; deviceB]) in
    ab ← hkdfKey sharedSecret salt (bytes_of "udp-tunnel-lan/session/v1/a-to-b");
    ba ← hkdfKey sharedSecret salt (bytes_of "udp-tunnel-lan/session/v1/b-to-a");
    Ok {| AB := ab; BA := ba |}.

Definition NewCodec (key : list byte) (nid : Z) (t : byte) : result packet_error (option Codec) :=
  match chacha_new key with
  | None => Err ErrAEAD
  | Some a =>
    let t' := if decide (t = x00) then TypeIPv4 else t in
    Ok (Some (mkCodec nid t' (Some a) 1 replayWindow_zero))
  end.

(** cmd/UDPTunnelLAN/packet_runtime.go: the codecs of a peer, from the decoded
    X25519 public key of the peer ([None]: it did not decode). *)
Definition lanPeerCodecsFromX25519 (selfPriv : list byte) (peerRaw : option (list byte)) (selfID peerID : string)
  : result packet_error (option Codec * option Codec) :=
  match peerRaw with
  | None => Err ErrPeerKey
  | Some raw =>
    if decide (length raw <> 32%nat) then Err ErrPeerKey
    else match x25519 selfPriv raw with
    | None => Err ErrX25519
    | Some secret =>
      keys ← DeriveSessionKeys secret 0 "x25519-v1" selfID peerID;
      if decide (String.ltb selfID peerID = true) then
        tx ← NewCodec (AB keys) 0 TypeIPv4;
        rx ← NewCodec (BA keys) 0 TypeIPv4;
        Ok (tx, rx)
      else
        tx ← NewCodec (BA keys) 0 TypeIPv4;
        rx ← NewCodec (AB keys) 0 TypeIPv4;
        Ok (tx, rx)
    end
  end.

End Keys.

(* ------------------------------------------------------------------ *)
(** ** Frames *)

Lemma length_header c seq : length (header c seq) = headerLen.
Proof. unfold header. lens. done. Qed.
#[export] Hint Rewrite length_header : lens.

(** What [Open] reads back from a frame that starts with a header. *)
Lemma header_fields c seq body :
  let f := header c seq ++ body in
  take 4 f = magic /\ at_ f 4 = frameVersion /\ at_ f 5 = typ c /\
  slice f 8 16 = be_put 8 (networkID c) /\ slice f 16 24 = be_put 8 seq /\
  take headerLen f = header c seq /\ drop headerLen f = body.
Proof.
  cbv zeta. rewrite (take_app_length' _ _ headerLen), (drop_app_length' _ _ headerLen) by (by rewrite length_header).
  unfold slice, at_, header. rewrite <- !(assoc_L (++)).
  split_and!; try reflexivity.
Qed.

Lemma frame_seq_header c seq body : is_u64 seq -> frame_seq (header c seq ++ body) = seq.
Proof.
  intros. unfold frame_seq. destruct (header_fields c seq body) as (_&_&_&_&->&_).
  by apply be_get_put_small.
Qed.

Lemma frame_networkID_header c seq body :
  is_u64 (networkID c) -> frame_networkID (header c seq ++ body) = networkID c.
Proof.
  intros. unfold frame_networkID. destruct (header_fields c seq body) as (_&_&_&->&_).
  by apply be_get_put_small.
Qed.

(** The frame [Seal] makes for a payload at a sequence number. *)
Definition sealed_frame (c : Codec) (a : cipherAEAD) (seq : Z) (payload : list byte) : list byte :=
  header c seq ++ aead_seal a (nonceFrom (networkID c) seq) payload (header c seq).

(** Two ends of a channel: same network, type and cipher. *)
Record peers (tx rx : Codec) (a : cipherAEAD) : Prop := {
  pe_net : networkID tx = networkID rx;
  pe_typ : typ tx = typ rx;
  pe_tx : aead tx = Some a;
  pe_rx : aead rx = Some a;
  pe_u64 : is_u64 (networkID tx);
}.

Lemma Seal_eq c a payload :
  aead c = Some a ->
  Seal (Some c) payload =
    (Ok (sealed_frame c a (nextSeq c) payload), Some (set_nextSeq c (u64 (nextSeq c + 1)))).
Proof. intros Ha. unfold Seal. by rewrite Ha. Qed.

(** The cleartext checks of [Open], as one predicate. *)
Definition cleartext_ok (c : Codec) (a : cipherAEAD) (f : list byte) : Prop :=
  (headerLen + aead_overhead a <= length f)%nat /\ take 4 f = magic /\ at_ f 4 = frameVersion /\
  at_ f 5 = typ c /\ frame_networkID f = networkID c.

Lemma frame_seq_u64 f : is_u64 (frame_seq f).
Proof.
  unfold is_u64, frame_seq. pose proof (be_get_bound (slice f 16 24)) as H.
  assert (length (slice f 16 24) <= 8)%nat by (unfold slice; lens; lia).
  assert (256 ^ Z.of_nat (length (slice f 16 24)) <= 256 ^ 8) by (apply Z.pow_le_mono_r; lia).
  lia.
Qed.

(** [Open] past the cleartext checks. *)
Lemma Open_eq c a f :
  aead c = Some a -> cleartext_ok c a f ->
  Open (Some c) f =
    let w := (Accept (replay c) (frame_seq f)).2 in
    if (Accept (replay c) (frame_seq f)).1 then
      match aead_open a (nonceFrom (networkID c) (frame_seq f)) (drop headerLen f) (take headerLen f) with
      | None => (Err ErrFrame, Some (set_replay c (Rollback w (frame_seq f))))
      | Some plain => (Ok plain, Some (set_replay c w))
      end
    else (Err ErrReplay, Some (set_replay c w)).
Proof.
  intros Ha (Hlen & H4 & Hv & Ht & Hn). unfold Open. rewrite Ha.
  rewrite decide_False by naive_solver lia. rewrite decide_False, decide_False by naive_solver.
  cbv zeta. destruct (Accept _ _) as [[] w]; simpl; [|done]. by rewrite Hn.
Qed.

(** Without them, it changes nothing. *)
Lemma Open_bad_cleartext c a f :
  aead c = Some a -> ~ cleartext_ok c a f -> Open (Some c) f = (Err ErrFrame, Some c).
Proof.
  intros Ha Hno. unfold Open, cleartext_ok in *. rewrite Ha.
  case_decide as H1; [done|]. case_decide as H2; [done|]. cbv zeta. case_decide as H3; [done|].
  exfalso. apply Hno. apply Decidable.not_or in H1 as [? H1]. apply Decidable.not_or in H1 as [H1 H1'].
  split_and!; [lia|(done || by apply dec_stable)..].
Qed.

Lemma cleartext_ok_sealed tx rx a seq p :
  AEADLaws a -> peers tx rx a -> cleartext_ok rx a (sealed_frame tx a seq p).
Proof.
  intros HL [Hn Ht _ _ Hu]. unfold cleartext_ok, sealed_frame.
  destruct (header_fields tx seq (aead_seal a (nonceFrom (networkID tx) seq) p (header tx seq)))
    as (-> & -> & -> & _).
  rewrite frame_networkID_header by done. split_and!; try done.
  lens. rewrite aead_seal_length. lia.
Qed.

(** A frame a peer sealed is delivered exactly when the window admits its number,
    and refused as a replay otherwise. *)
Lemma Open_sealed tx rx a S seq p :
  AEADLaws a -> peers tx rx a -> is_u64 seq -> win_rel (replay rx) S ->
  Open (Some rx) (sealed_frame tx a seq p) =
    (if win_admits (rw_max (replay rx)) S seq then Ok p else Err ErrReplay,
     Some (set_replay rx (Accept (replay rx) seq).2)).
Proof.
  intros HL HP Hs HR.
  rewrite (Open_eq rx a); [|exact (pe_rx _ _ _ HP)|by apply cleartext_ok_sealed].
  cbv zeta. unfold sealed_frame. rewrite frame_seq_header by done.
  destruct (header_fields tx seq (aead_seal a (nonceFrom (networkID tx) seq) p (header tx seq)))
    as (_ & _ & _ & _ & _ & -> & ->).
  destruct (Accept_refines (replay rx) S seq HR Hs) as [<- _].
  destruct (Accept _ _) as [[] w]; simpl; [|done].
  by rewrite <- (pe_net _ _ _ HP), aead_open_seal.
Qed.

(* ------------------------------------------------------------------ *)
(** ** A receiver over a whole trace *)

(** The receiver handles the frames of the wire one after the other. *)
Fixpoint open_all (c : option Codec) (frames : list (list byte)) : list (result packet_error (list byte)) * option Codec :=
  match frames with
  | [] => ([], c)
  | f :: fs =>
    let '(r, c1) := Open c f in
    let '(rs, c2) := open_all c1 fs in
    (r :: rs, c2)
  end.

(** The sequence numbers of the frames it delivered. *)
Fixpoint delivered (frames : list (list byte)) (rs : list (result packet_error (list byte))) : list Z :=
  match frames, rs with
  | f :: fs, Ok _ :: rs' => frame_seq f :: delivered fs rs'
  | _ :: fs, Err _ :: rs' => delivered fs rs'
  | _, _ => []
  end.

Fixpoint seal_all (c : option Codec) (ps : list (list byte)) : list (list byte) * option Codec :=
  match ps with
  | [] => ([], c)
  | p :: ps' =>
    let '(r, c1) := Seal c p in
    let '(fs, c2) := seal_all c1 ps' in
    (match r with Ok f => f :: fs | Err _ => fs end, c2)
  end.

(** One [Open]: the window still represents a set, and that set only gains the
    number of a delivered frame. *)
Lemma Open_step c a S f :
  aead c = Some a -> win_rel (replay c) S ->
  let '(r, c') := Open (Some c) f in
  exists w' S', c' = Some (set_replay c w') /\ win_rel w' S' /\ rw_max (replay c) <= rw_max w' /\
  match r with
  | Ok _ => S' = {[frame_seq f]} ∪ S /\ frame_seq f <= rw_max w' /\
            win_admits (rw_max (replay c)) S (frame_seq f) = true
  | Err _ => S' = S
  end.
Proof.
  intros Ha HR. pose proof (frame_seq_u64 f) as Hu.
  assert (Hset : Some c = Some (set_replay c (replay c))) by (by destruct c).
  destruct (Accept_refines (replay c) S (frame_seq f) HR Hu) as (Hadm & HR' & Hmax).
  destruct (decide ((headerLen + aead_overhead a <= length f)%nat /\ take 4 f = magic /\
    at_ f 4 = frameVersion /\ at_ f 5 = typ c /\ frame_networkID f = networkID c)) as [Hc|Hc].
  2: { rewrite (Open_bad_cleartext c a) by done. exists (replay c), S. done. }
  rewrite (Open_eq c a) by done. cbv zeta.
  destruct (Accept _ _) as [[] w]; cbn [fst snd] in *.
  - symmetry in Hadm. destruct (aead_open _ _ _ _).
    + exists w, ({[frame_seq f]} ∪ S). split_and!; try done; lia.
    + pose proof Hadm as (Hz & Hlo & Hni)%win_admits_true.
      destruct (Rollback_refines w ({[frame_seq f]} ∪ S) (frame_seq f) HR' Hu) as [HRb Hmb].
      { lia. }
      eexists _, S. split_and!; [done| |lia|done].
      by replace (({[frame_seq f]} ∪ S) ∖ {[frame_seq f]}) with S in HRb by set_solver.
  - exists w, S. split_and!; [done|done|lia|done].
Qed.

(** Numbers that were delivered before are still in the window or too old. *)
Definition remembered (w : replayWindow) (S : gset Z) (s : Z) : Prop :=
  s <= rw_max w /\ (rw_max w - 64 < s -> s ∈ S).

Lemma remembered_refused w S s : remembered w S s -> win_admits (rw_max w) S s = false.
Proof. intros [_ H]. apply win_admits_false. naive_solver. Qed.

Lemma remembered_mono w S w' S' s :
  rw_max w <= rw_max w' -> S ⊆ S' -> remembered w S s -> remembered w' S' s.
Proof. intros ? Hs [? H]. split; [lia|]. intros. apply Hs, H. lia. Qed.

Lemma delivered_fresh frames : forall c a S (D : list Z),
  aead c = Some a -> win_rel (replay c) S -> (forall s, s ∈ D -> remembered (replay c) S s) ->
  NoDup (delivered frames (open_all (Some c) frames).1) /\
  (forall s, s ∈ delivered frames (open_all (Some c) frames).1 -> s ∉ D).
Proof.
  induction frames as [|f fs IH]; intros c a S D Ha HR HD; simpl.
  { split; [constructor|]. intros s Hs. by apply elem_of_nil in Hs. }
  pose proof (Open_step c a S f Ha HR) as Hst.
  destruct (Open (Some c) f) as [r c'].
  destruct Hst as (w' & S' & -> & HR' & Hmax & Hr).
  destruct (open_all (Some (set_replay c w')) fs) as [rs c2] eqn:E. simpl.
  destruct r as [p|e].
  - destruct Hr as (-> & Hle & Hadm).
    assert (Hmem : remembered w' ({[frame_seq f]} ∪ S) (frame_seq f)) by (split; set_solver).
    destruct (IH (set_replay c w') a _ (frame_seq f :: D) Ha HR') as [Hnd Hni].
    { intros s [->|Hs]%elem_of_cons; [done|].
      apply remembered_mono with (replay c) S; [done|set_solver|auto]. }
    rewrite E in Hnd, Hni. simpl in *. split.
    + constructor; [|done]. intros Hin. by apply Hni, not_elem_of_cons in Hin as [? _].
    + intros s [->|Hs]%elem_of_cons.
      * intros Hin%HD%remembered_refused. congruence.
      * apply Hni, not_elem_of_cons in Hs as [_ ?]. done.
  - subst S'. destruct (IH (set_replay c w') a S D Ha HR') as [Hnd Hni].
    { intros s Hs. apply remembered_mono with (replay c) S; auto. }
    by rewrite E in Hnd, Hni.
Qed.

(** C1. Whatever frames arrive, forged, duplicated or reordered, a fresh receiver
    never delivers two frames with the same sequence number. *)
Theorem open_never_delivers_twice (c : Codec) (a : cipherAEAD) (frames : list (list byte)) :
  aead c = Some a -> replay c = replayWindow_zero ->
  NoDup (delivered frames (open_all (Some c) frames).1).
Proof.
  intros Ha Hw. apply (delivered_fresh frames c a ∅ []); [done| |].
  - rewrite Hw. apply win_rel_zero.
  - intros s Hs. by apply elem_of_nil in Hs.
Qed.

(** The numbers a sender uses, in order. *)
Lemma open_all_sealed ps : forall tx rx a S,
  AEADLaws a -> peers tx rx a -> win_rel (replay rx) S ->
  0 < nextSeq tx -> nextSeq tx + Z.of_nat (length ps) <= 2 ^ 64 -> rw_max (replay rx) < nextSeq tx ->
  (open_all (Some rx) (seal_all (Some tx) ps).1).1 = map Ok ps.
Proof.
  induction ps as [|p ps IH]; intros tx rx a S HL HP HR Hpos Hb Hlt; [done|].
  cbn [seal_all]. rewrite (Seal_eq tx a) by apply HP. simpl length in Hb.
  assert (Hu : is_u64 (nextSeq tx)) by (unfold is_u64; lia).
  destruct (seal_all _ ps) as [fs tx'] eqn:E. cbn [fst snd open_all].
  rewrite (Open_sealed tx rx a S) by done.
  destruct (Accept_newer (replay rx) S (nextSeq tx) HR Hu Hpos Hlt) as (-> & _ & HR' & Hmax).
  set (rx' := set_replay rx (Accept (replay rx) (nextSeq tx)).2).
  destruct (decide (ps = [])) as [->|Hne]; [by simplify_eq/=|].
  assert (length ps <> 0%nat) by (by destruct ps).
  assert (Hn : u64 (nextSeq tx + 1) = nextSeq tx + 1) by (apply u64_small; lia).
  assert (HP' : peers (set_nextSeq tx (u64 (nextSeq tx + 1))) rx' a) by (destruct HP; by split).
  specialize (IH _ rx' a ({[nextSeq tx]} ∪ S) HL HP' HR').
  rewrite E in IH. cbn [fst] in IH. destruct (open_all (Some rx') fs) as [rs c2].
  cbn [map fst]. f_equal. apply IH; simpl; lia.
Qed.

(** A receiver that has seen nothing newer delivers every payload a peer
    seals, in order: the round trip of the channel. *)
Theorem channel_delivers_in_order (tx rx : Codec) (a : cipherAEAD) (ps : list (list byte)) :
  AEADLaws a -> peers tx rx a -> replay rx = replayWindow_zero ->
  0 < nextSeq tx -> nextSeq tx + Z.of_nat (length ps) <= 2 ^ 64 ->
  (open_all (Some rx) (seal_all (Some tx) ps).1).1 = map Ok ps.
Proof.
  intros HL HP Hw Hpos Hb. apply open_all_sealed with a ∅; try done.
  - rewrite Hw. apply win_rel_zero.
  - rewrite Hw. done.
Qed.

(** C2. A frame a peer sealed is delivered exactly when its number is new and less
    than 64 behind the highest one, in whatever order frames arrive. *)
Theorem open_sealed_iff_admitted (tx rx : Codec) (a : cipherAEAD) (S : gset Z) (seq : Z) (p : list byte) :
  AEADLaws a -> peers tx rx a -> is_u64 seq -> win_rel (replay rx) S ->
  (Open (Some rx) (sealed_frame tx a seq p)).1 =
    if win_admits (rw_max (replay rx)) S seq then Ok p else Err ErrReplay.
Proof. intros. by rewrite (Open_sealed tx rx a S). Qed.

(** Authenticity: a delivered payload was sealed under the receiver's key,
    with the number and the header the frame carries. *)
Theorem open_ok_authentic (c : Codec) (a : cipherAEAD) (f p : list byte) (c' : option Codec) :
  AEADLaws a -> aead c = Some a -> Open (Some c) f = (Ok p, c') ->
  f = take headerLen f ++ aead_seal a (nonceFrom (networkID c) (frame_seq f)) p (take headerLen f) /\
  frame_networkID f = networkID c /\ at_ f 5 = typ c.
Proof.
  intros HL Ha HO.
  destruct (decide ((headerLen + aead_overhead a <= length f)%nat /\ take 4 f = magic /\
    at_ f 4 = frameVersion /\ at_ f 5 = typ c /\ frame_networkID f = networkID c)) as [Hc|Hc].
  2: by rewrite (Open_bad_cleartext c a) in HO.
  rewrite (Open_eq c a) in HO by done. cbv zeta in HO.
  destruct (Accept _ _) as [[] w]; cbn [fst snd] in *; [|done].
  destruct (aead_open _ _ _ _) eqn:Hop; [|done]. simplify_eq/=.
  apply aead_open_inv in Hop. split; [|tauto]. by rewrite <- Hop, take_drop.
Qed.

(** A frame that fails authentication still moves the window: after one with a
    number [s] past the window, every genuine frame up to [s - 64] is refused. *)
Theorem forged_frame_moves_window (tx rx : Codec) (a : cipherAEAD) (S : gset Z) (f : list byte) :
  AEADLaws a -> peers tx rx a -> win_rel (replay rx) S -> cleartext_ok rx a f ->
  rw_max (replay rx) < frame_seq f ->
  aead_open a (nonceFrom (networkID rx) (frame_seq f)) (drop headerLen f) (take headerLen f) = None ->
  exists rx', Open (Some rx) f = (Err ErrFrame, Some rx') /\ rw_max (replay rx') = frame_seq f /\
  forall seq p, is_u64 seq -> seq <= frame_seq f - 64 ->
    (Open (Some rx') (sealed_frame tx a seq p)).1 = Err ErrReplay.
Proof.
  intros HL HP HR Hc Hlt Hno. pose proof (frame_seq_u64 f) as Hu.
  rewrite (Open_eq rx a) by (done || apply HP). cbv zeta. rewrite Hno.
  pose proof (wr_max _ _ HR) as Hm. unfold is_u64 in Hm.
  destruct (Accept_newer (replay rx) S (frame_seq f) HR Hu ltac:(lia) Hlt) as (_ & -> & HR' & Hmax).
  destruct (Rollback_refines _ _ (frame_seq f) HR' Hu ltac:(lia)) as [HRb Hmb].
  eexists. split_and!; [done|simpl; lia|].
  intros seq p Hs Hle.
  erewrite Open_sealed; [|done|by destruct HP|done|exact HRb].
  cbn [fst]. replace (win_admits _ _ _) with false; [done|].
  symmetry. apply win_admits_false. simpl. intros (_ & ? & _). lia.
Qed.

Lemma nonceFrom_inj_low nid s1 s2 :
  nonceFrom nid s1 = nonceFrom nid s2 <-> s1 mod 2 ^ 32 = s2 mod 2 ^ 32.
Proof.
  unfold nonceFrom, u32. split; [|by intros ->]. intros E%app_inv_head.
  apply be_put_inj in E; [done|apply Z.mod_pos_bound; lia..].
Qed.

(** C3. The nonces of a run of frames are pairwise distinct exactly when the run
    is no longer than 2^32 frames: only the low 32 bits of the number reach the
    nonce, so frame [seq + 2^32] is sealed under the nonce of frame [seq]. *)
Theorem nonces_distinct_iff (nid seq n : Z) : 0 <= n ->
  NoDup (map (fun i => nonceFrom nid (seq + i)) (seqZ 0 n)) <-> n <= 2 ^ 32.
Proof.
  intros Hn. change (map (fun i => nonceFrom nid (seq + i)) (seqZ 0 n))
    with ((fun i => nonceFrom nid (seq + i)) <$> seqZ 0 n). split.
  - intros Hnd. destruct (decide (n <= 2 ^ 32)) as [|Hgt]; [done|exfalso].
    assert (Hl : forall i, 0 <= i < n -> ((fun i => nonceFrom nid (seq + i)) <$> seqZ 0 n) !! Z.to_nat i
      = Some (nonceFrom nid (seq + i))).
    { intros i Hi. rewrite list_lookup_fmap, lookup_seqZ_lt by lia. simpl. do 2 f_equal. lia. }
    pose proof (proj1 (NoDup_alt _) Hnd (Z.to_nat 0) (Z.to_nat (2 ^ 32)) (nonceFrom nid (seq + 0))
      (Hl 0 ltac:(lia))) as Heq.
    rewrite (Hl (2 ^ 32)) in Heq by lia.
    assert (Hn0 : nonceFrom nid (seq + 2 ^ 32) = nonceFrom nid (seq + 0)).
    { apply nonceFrom_inj_low. rewrite Z.add_0_r. dlia. }
    rewrite Hn0 in Heq. specialize (Heq eq_refl). lia.
  - intros Hle. apply NoDup_fmap_2_strong; [|apply NoDup_seqZ].
    intros x y Hx%elem_of_seqZ Hy%elem_of_seqZ E%nonceFrom_inj_low.
    assert (Hd : (x - y) mod 2 ^ 32 = 0).
    { replace (x - y) with ((seq + x) - (seq + y)) by lia. by rewrite Zminus_mod, E, Z.sub_diag. }
    apply Z.mod_divide in Hd as [k Hk]; [|lia]. assert (k = 0) by lia. lia.
Qed.

Section KeyTheorems.
  Context `{SC : SessionCrypto}.

(** Both devices derive the same keys, whichever is named first. *)
Theorem DeriveSessionKeys_symmetric (secret : list byte) (nid : Z) (session deviceA deviceB : string) :
  DeriveSessionKeys secret nid session deviceA deviceB =
  DeriveSessionKeys secret nid session deviceB deviceA.
Proof.
  unfold DeriveSessionKeys. rewrite (sort_strings_unique [deviceA; deviceB] [deviceB; deviceA]);
    [done|apply Permutation_swap].
Qed.

Lemma String_ltb_antisym a b : a <> b -> String.ltb b a = negb (String.ltb a b).
Proof.
  intros Hne. unfold String.ltb. rewrite (String.compare_antisym b a).
  destruct (String.compare a b) eqn:E; try done.
  exfalso. apply Hne. by apply String.compare_eq_iff.
Qed.

(** The Diffie-Hellman property of X25519, for the two key pairs of a session. *)
Definition x25519_agree (privA pubA privB pubB : list byte) : Prop :=
  x25519 privA pubB = x25519 privB pubA.

(** Two peers build matching codecs: what one sends with, the other receives
    with, in both directions. *)
Theorem peer_codecs_agree (privA pubA privB pubB : list byte) (idA idB : string) (tx rx : option Codec) :
  x25519_agree privA pubA privB pubB -> idA <> idB -> length pubA = 32%nat ->
  lanPeerCodecsFromX25519 privA (Some pubB) idA idB = Ok (tx, rx) ->
  lanPeerCodecsFromX25519 privB (Some pubA) idB idA = Ok (rx, tx).
Proof.
  unfold x25519_agree, lanPeerCodecsFromX25519. intros Hdh Hne Hla HA.
  rewrite (decide_False (P := length pubA <> 32%nat)) by lia.
  case_decide; [done|]. rewrite <- Hdh.
  destruct (x25519 privA pubB) as [secret|]; [|done].
  rewrite (DeriveSessionKeys_symmetric _ _ _ idB idA).
  destruct (DeriveSessionKeys _ _ _ _ _) as [keys|]; [|done]. simpl in *.
  rewrite (String_ltb_antisym idA idB) by done.
  destruct (String.ltb idA idB); simpl in *;
    destruct (NewCodec (AB keys) 0 TypeIPv4), (NewCodec (BA keys) 0 TypeIPv4); by simplify_eq/=.
Qed.
End KeyTheorems.

(* ------------------------------------------------------------------ *)
(** ** Witnesses *)

(** A concrete cipher that satisfies the laws: the text followed by a 16-byte tag
    of everything the real one authenticates. *)
Definition toy_tag (key n ad p : list byte) : list byte := be_put 16 (be_get (key ++ n ++ ad ++ p)).
Definition toy_aead (key : list byte) : cipherAEAD := {|
  aead_seal n p ad := p ++ toy_tag key n ad p;
  aead_open n c ad :=
    let p := take (length c - 16) c in
    if decide (drop (length c - 16) c = toy_tag key n ad p) then Some p else None;
  aead_overhead := 16;
|}.

#[export] Instance toy_laws key : AEADLaws (toy_aead key).
Proof.
  assert (Hlen : forall n ad p, length (toy_tag key n ad p) = 16%nat) by (intros; apply length_be_put).
  split; simpl; intros n.
  - intros p ad. by rewrite length_app, Hlen.
  - intros p ad. replace (length (p ++ toy_tag key n ad p) - 16)%nat with (length p)
      by (rewrite length_app, Hlen; lia).
    rewrite take_app_length, drop_app_length. by rewrite decide_True.
  - intros c ad p. case_decide as Hd; [|done]. intros [= <-]. by rewrite <- Hd, take_drop.
Qed.

#[export] Instance toy_crypto : SessionCrypto := {|
  hkdf_read secret salt info n := Some (be_put n (be_get (secret ++ salt ++ info)));
  chacha_new key := Some (toy_aead key);
  x25519 priv pub := Some (be_put 32 (be_get priv * be_get pub));
  x25519_base := be_put 32 1;
|}.

Definition toy_codec : Codec := mkCodec 7 TypeIPv4 (Some (toy_aead [x2a])) 1 replayWindow_zero.

Lemma pair_fst_eq {A B} (x : A * B) (a : A) : x.1 = a -> x = (a, x.2).
Proof. by destruct x; intros <-. Qed.

Lemma toy_peers : peers toy_codec toy_codec (toy_aead [x2a]).
Proof. split; try done. Qed.

Lemma open_never_delivers_twice_witness :
  delivered [sealed_frame toy_codec (toy_aead [x2a]) 5 [x01]; sealed_frame toy_codec (toy_aead [x2a]) 5 [x01]]
    (open_all (Some toy_codec)
      [sealed_frame toy_codec (toy_aead [x2a]) 5 [x01]; sealed_frame toy_codec (toy_aead [x2a]) 5 [x01]]).1 = [5] /\
  NoDup (delivered [sealed_frame toy_codec (toy_aead [x2a]) 5 [x01]]
    (open_all (Some toy_codec) [sealed_frame toy_codec (toy_aead [x2a]) 5 [x01]]).1).
Proof.
  split; [by vm_compute|].
  apply (open_never_delivers_twice toy_codec (toy_aead [x2a])); reflexivity.
Defined.

Lemma channel_delivers_in_order_witness :
  (open_all (Some toy_codec) (seal_all (Some toy_codec) [[x01]; [x02; x03]]).1).1 = [Ok [x01]; Ok [x02; x03]].
Proof.
  apply (channel_delivers_in_order toy_codec toy_codec (toy_aead [x2a]) [[x01]; [x02; x03]]
    (toy_laws [x2a]) toy_peers); [reflexivity|reflexivity|simpl; lia].
Defined.

Lemma open_sealed_iff_admitted_witness :
  (Open (Some toy_codec) (sealed_frame toy_codec (toy_aead [x2a]) 9 [x01])).1 = Ok [x01].
Proof.
  rewrite (open_sealed_iff_admitted toy_codec toy_codec (toy_aead [x2a]) ∅ 9 [x01]
    (toy_laws [x2a]) toy_peers ltac:(unfold is_u64; lia) win_rel_zero). by vm_compute.
Defined.

Lemma open_ok_authentic_witness :
  let f := sealed_frame toy_codec (toy_aead [x2a]) 9 [x01] in
  f = take headerLen f ++
      aead_seal (toy_aead [x2a]) (nonceFrom 7 (frame_seq f)) [x01] (take headerLen f).
Proof.
  intros f. refine (proj1 (open_ok_authentic toy_codec (toy_aead [x2a]) f [x01]
    (Open (Some toy_codec) f).2 (toy_laws [x2a]) eq_refl (pair_fst_eq _ _ _))).
  subst f. by vm_compute.
Defined.

Definition toy_forged : list byte := header toy_codec 1000 ++ be_put 16 0.

Lemma forged_frame_moves_window_witness :
  exists rx', Open (Some toy_codec) toy_forged = (Err ErrFrame, Some rx') /\
  (Open (Some rx') (sealed_frame toy_codec (toy_aead [x2a]) 1 [x01])).1 = Err ErrReplay.
Proof.
  destruct (forged_frame_moves_window toy_codec toy_codec (toy_aead [x2a]) ∅ toy_forged
    (toy_laws [x2a]) toy_peers win_rel_zero) as (rx' & HO & _ & Hno).
  - unfold cleartext_ok. decide_now.
  - decide_now.
  - by vm_compute.
  - exists rx'. split; [done|]. apply Hno; [split; lia|decide_now].
Defined.

Lemma peer_codecs_agree_witness :
  match lanPeerCodecsFromX25519 (be_put 32 3) (Some (be_put 32 5)) "dev-a" "dev-b" with
  | Ok (tx, rx) => lanPeerCodecsFromX25519 (be_put 32 5) (Some (be_put 32 3)) "dev-b" "dev-a" = Ok (rx, tx)
  | Err _ => False
  end.
Proof.
  assert (Hok : is_ok (lanPeerCodecsFromX25519 (be_put 32 3) (Some (be_put 32 5)) "dev-a" "dev-b") = true)
    by (vm_compute; reflexivity).
  destruct (lanPeerCodecsFromX25519 (be_put 32 3) _ _ _) as [[tx rx]|] eqn:E; [|discriminate Hok].
  apply (peer_codecs_agree (be_put 32 3) (be_put 32 3) (be_put 32 5) (be_put 32 5) "dev-a" "dev-b");
    [vm_compute; reflexivity|decide_now|vm_compute; reflexivity|exact E].
Defined.

Lemma nonces_distinct_iff_witness :
  NoDup (map (fun i => nonceFrom 7 (1 + i)) (seqZ 0 5)).
Proof. apply (nonces_distinct_iff 7 1 5); lia. Defined.
