(* ===== verification/Vnet.v ===== *)
(** * Vnet: virtual network parameters and address conflicts (internal/vnet/network.go)

    The MSS for an MTU, the prefix overlap test and the search for a free prefix,
    with the parts of Go's [net.IPNet] they use. *)

From S2P Require Import Prelude GoStrings.

(* ------------------------------------------------------------------ *)
(** ** [net.IPNet] *)

Record IPNet : Type := mkIPNet { net_IP : list byte; net_Mask : list byte }.

Definition band (x y : byte) : byte := z2b (Z.land (b2z x) (b2z y)).
Definition CIDRMask (ones bits : Z) : list byte := be_put (Z.to_nat (bits / 8)) (2 ^ bits - 2 ^ (bits - ones)).

(** [netip.ParseAddr] without a zone: 4 or 16 bytes. *)
Definition parse_addr (l : list byte) : option (list byte) :=
  b ← List.find (fun b => bool_decide (b = x2e \/ b = x3a \/ b = x25)) l;
  if decide (b = x2e) then parse_ipv4 l
  else if decide (b = x3a /\ x25 ∉ l) then parse_ipv6 l else None.

Definition ParseCIDR (s : string) : option IPNet :=
  let l := bytes_of s in
  i ← index_bytes [x2f] l;
  ip ← parse_addr (take i l);
  n ← digits_value (drop (S i) l);
  let bits := 8 * Z.of_nat (length ip) in
  if decide (n <= bits) then
    let m := CIDRMask n bits in Some (mkIPNet (zip_with band ip m) m)
  else None.

(** [IP.To4] on the slice itself, and the pair of [networkNumberAndMask]. *)
Definition to4_or_self (ip : list byte) : list byte := default ip (To4 (Some ip)).
Definition numberAndMask (n : IPNet) : list byte * list byte :=
  let ip := to4_or_self (net_IP n) in
  (ip, if decide (length (net_Mask n) = 16%nat /\ length ip = 4%nat) then drop 12 (net_Mask n) else net_Mask n).

Definition net_Contains (n : IPNet) (ip : list byte) : bool :=
  let '(nn, m) := numberAndMask n in
  let x := to4_or_self ip in
  bool_decide (length x = length nn) && bool_decide (zip_with band nn m = zip_with band x m).

Definition ip_Equal (a b : list byte) : bool := bool_decide (to4_or_self a = to4_or_self b).

(** [IPMask.Size] for masks that are a run of ones. *)
Definition mask_Size (m : list byte) : Z * Z :=
  let bits := 8 * Z.of_nat (length m) in
  match List.find (fun n => bool_decide (m = CIDRMask n bits)) (seqZ 0 (bits + 1)) with
  | Some n => (n, bits)
  | None => (0, 0)
  end.

(* ------------------------------------------------------------------ *)
(** ** The source's definitions *)

Definition DefaultCIDR : string := "172.16.10.0/24".
Definition DefaultMTU : Z := 1280.
Definition DefaultMSS : Z := 1200.

Record Route : Type := mkRoute { rt_CIDR : string; rt_Interface : string }.
Record Conflict : Type := mkConflict { cf_CIDR : string; cf_Existing : Route; cf_Conflicts : bool }.

Definition Route_zero : Route := mkRoute EmptyString EmptyString.

Definition MSSForMTU (mtu : Z) : Z :=
  let mtu := if decide (mtu <= 0) then DefaultMTU else mtu in
  let mss := mtu - 40 in
  if decide (DefaultMSS < mss) then DefaultMSS
  else if decide (mss < 536) then 536 else mss.

Definition ipNetLast (n : IPNet) : list byte :=
  match To4 (Some (net_IP n)) with
  | None => net_IP n
  | Some ip =>
    let v := be_get ip in
    let m := be_get (take 4 (net_Mask n)) in
    be_put 4 (Z.lor v (Z.lxor m (2 ^ 32 - 1)))
  end.

Definition cidrOverlap (a b : IPNet) : bool :=
  net_Contains a (net_IP b) || net_Contains b (net_IP a) ||
  ip_Equal (ipNetLast a) (net_IP b) || ip_Equal (ipNetLast b) (net_IP a).

Definition isDefaultRoute (n : IPNet) : bool :=
  let '(ones, bits) := mask_Size (net_Mask n) in bool_decide (bits = 32 /\ ones = 0).

(** What the loop does with one route: [true] when it returns the conflict. *)
Definition route_conflicts (target : IPNet) (route : Route) : bool :=
  if decide (rt_CIDR route = EmptyString) then false
  else match ParseCIDR (rt_CIDR route) with
  | None => false
  | Some existing => negb (isDefaultRoute existing) && cidrOverlap target existing
  end.

Definition DetectConflict (targetCIDR : string) (routes : list Route) : option Conflict :=
  match ParseCIDR targetCIDR with
  | None => None
  | Some target =>
    match List.find (route_conflicts target) routes with
    | Some route => Some (mkConflict targetCIDR route true)
    | None => Some (mkConflict targetCIDR Route_zero false)
    end
  end.

Definition candidates (preferred : string) : list string :=
  preferred :: map (fun i => String.append "172.16." (String.append (FormatInt i) ".0/24")) (seqZ 10 245).

(** The search stops at the first candidate that does not parse or is free. *)
Fixpoint first_free (cs : list string) (routes : list Route) : option string :=
  match cs with
  | [] => None
  | c :: cs' =>
    match DetectConflict c routes with
    | None => None
    | Some conflict => if cf_Conflicts conflict then first_free cs' routes else Some c
    end
  end.

Definition NextAvailableCIDR (preferred : string) (routes : list Route) : option string :=
  first_free (candidates preferred) routes.

(* ------------------------------------------------------------------ *)
(** ** Prefixes as ranges *)

Lemma MSSForMTU_bounds mtu : 536 <= MSSForMTU mtu <= 1200.
Proof. unfold MSSForMTU, DefaultMTU, DefaultMSS. branches. Qed.

(** Byte-wise masking is masking of the number. *)
Lemma b2z_band x y : b2z (band x y) = Z.land (b2z x) (b2z y).
Proof.
  unfold band. rewrite b2z_z2b. apply Z.mod_small. unfold b2z. rewrite <- N2Z.inj_land.
  pose proof (N.land_le_l (Byte.to_N x) (Byte.to_N y)). pose proof (Byte.to_N_bounded x). lia.
Qed.

Lemma testbit_snoc a x i : 0 <= x < 256 -> 0 <= i ->
  Z.testbit (a * 256 + x) i = if decide (i < 8) then Z.testbit x i else Z.testbit a (i - 8).
Proof.
  intros Hx Hi. case_decide.
  - rewrite <- (Z.mod_pow2_bits_low (a * 256 + x) 8 i) by lia.
    f_equal. change (2 ^ 8) with 256. dlia.
  - replace i with (i - 8 + 8) at 1 by lia. rewrite <- Z.div_pow2_bits by lia.
    f_equal. change (2 ^ 8) with 256. dlia.
Qed.

Lemma land_snoc a b x y : 0 <= x < 256 -> 0 <= y < 256 -> 0 <= Z.land x y < 256 ->
  Z.land (a * 256 + x) (b * 256 + y) = Z.land a b * 256 + Z.land x y.
Proof.
  intros. apply Z.bits_inj'. intros i Hi.
  rewrite Z.land_spec, !testbit_snoc by done. case_decide; by rewrite Z.land_spec.
Qed.

Lemma be_get_band l k : length l = length k ->
  be_get (zip_with band l k) = Z.land (be_get l) (be_get k).
Proof.
  revert k. induction l as [|b l IH] using rev_ind; intros k Hk.
  { by destruct k. }
  destruct k as [|c k _] using rev_ind; [lens; rewrite length_app in Hk; simpl in Hk; lia|].
  rewrite !length_app in Hk. simpl in Hk.
  rewrite zip_with_app by lia. cbn [zip_with]. rewrite !be_get_snoc, b2z_band, IH by lia.
  rewrite land_snoc; auto with udp. rewrite <- b2z_band. apply b2z_bound.
Qed.

Lemma be_get_inj l k : length l = length k -> be_get l = be_get k -> l = k.
Proof. intros Hl E. by rewrite <- (be_put_get l), <- (be_put_get k), Hl, E. Qed.

(** An IPv4 prefix of length [n], from the number of its address. *)
Definition prefix4 (v n : Z) : IPNet :=
  mkIPNet (be_put 4 (Z.land v (2 ^ 32 - 2 ^ (32 - n)))) (CIDRMask n 32).

Lemma mask_clears v k : 0 <= k <= 32 -> 0 <= v < 2 ^ 32 ->
  Z.land v (2 ^ 32 - 2 ^ k) = v / 2 ^ k * 2 ^ k.
Proof.
  intros Hk Hv. replace (2 ^ 32 - 2 ^ k) with (Z.shiftl (Z.ones (32 - k)) k).
  2: { rewrite Z.shiftl_mul_pow2, Z.ones_equiv by lia.
       replace (2 ^ 32) with (2 ^ (32 - k) * 2 ^ k) by (rewrite <- Z.pow_add_r by lia; f_equal; lia). lia. }
  rewrite <- Z.shiftl_mul_pow2, <- Z.shiftr_div_pow2 by lia.
  apply Z.bits_inj'. intros i Hi. rewrite Z.land_spec.
  destruct (decide (i < k)); [by rewrite !Z.shiftl_spec_low, andb_false_r by lia|].
  rewrite !Z.shiftl_spec, Z.shiftr_spec by lia. replace (i - k + k) with i by lia.
  destruct (decide (i < 32)).
  - rewrite Z.ones_spec_low by lia. apply andb_true_r.
  - rewrite Z.ones_spec_high by lia. rewrite andb_false_r. symmetry.
    destruct (decide (v = 0)) as [->|]; [apply Z.bits_0|].
    apply Z.bits_above_log2; [lia|]. apply Z.log2_lt_pow2; [lia|].
    apply Z.lt_le_trans with (2 ^ 32); [lia|apply Z.pow_le_mono_r; lia].
Qed.

Lemma length_prefix4 v n : length (net_IP (prefix4 v n)) = 4%nat /\ length (net_Mask (prefix4 v n)) = 4%nat.
Proof. unfold prefix4, CIDRMask. cbn [net_IP net_Mask]. by rewrite !length_be_put. Qed.

Lemma to4_or_self_4 ip : length ip = 4%nat -> to4_or_self ip = ip.
Proof. intros H. unfold to4_or_self, To4. simpl. by rewrite decide_True. Qed.

Lemma be_get_mask n : 0 <= n <= 32 -> be_get (CIDRMask n 32) = 2 ^ 32 - 2 ^ (32 - n).
Proof.
  intros. unfold CIDRMask. apply be_get_put_small. change (256 ^ Z.of_nat (Z.to_nat (32 / 8))) with (2 ^ 32).
  assert (0 < 2 ^ (32 - n) <= 2 ^ 32) by (split; [lia|apply Z.pow_le_mono_r; lia]). lia.
Qed.

(** The block number of an address under a prefix of length [n]. *)
Definition block (n v : Z) : Z := v / 2 ^ (32 - n).

Lemma be_get_4 ip : length ip = 4%nat -> 0 <= be_get ip < 2 ^ 32.
Proof. intros H. pose proof (be_get_bound ip) as B. rewrite H in B. exact B. Qed.

Lemma prefix4_IP v n : 0 <= n <= 32 -> 0 <= v < 2 ^ 32 ->
  be_get (net_IP (prefix4 v n)) = block n v * 2 ^ (32 - n).
Proof.
  intros. cbn [prefix4 net_IP]. rewrite mask_clears by lia. apply be_get_put_small.
  change (256 ^ Z.of_nat 4) with (2 ^ 32). unfold block.
  pose proof (Z.mul_div_le v (2 ^ (32 - n)) ltac:(lia)). pose proof (Z.div_pos v (2 ^ (32 - n))). lia.
Qed.

Lemma block_mul n k : 0 <= n <= 32 -> block n (k * 2 ^ (32 - n)) = k.
Proof. intros. apply Z.div_mul. assert (0 < 2 ^ (32 - n)) by lia. lia. Qed.

Lemma Contains_prefix4 v n ip : 0 <= n <= 32 -> 0 <= v < 2 ^ 32 -> length ip = 4%nat ->
  net_Contains (prefix4 v n) ip = true <-> block n (be_get ip) = block n v.
Proof.
  intros Hn Hv Hip. destruct (length_prefix4 v n) as [H1 H2].
  unfold net_Contains, numberAndMask. rewrite !to4_or_self_4 by done.
  rewrite (decide_False (P := _ = 16%nat /\ _)) by (rewrite H2; lia).
  rewrite (bool_decide_eq_true_2 (length ip = _)) by congruence.
  rewrite andb_true_l, bool_decide_eq_true. pose proof (be_get_4 ip Hip).
  pose proof (be_get_4 _ H1). pose proof (prefix4_IP v n Hn Hv) as HIP.
  assert (0 < 2 ^ (32 - n)) by lia.
  assert (Hget : forall l, length l = 4%nat ->
    be_get (zip_with band l (net_Mask (prefix4 v n))) = block n (be_get l) * 2 ^ (32 - n)).
  { intros l Hl. rewrite be_get_band by congruence. cbn [prefix4 net_Mask]. rewrite be_get_mask by done.
    apply mask_clears; [lia|]. by apply be_get_4. }
  split.
  - intros E%(f_equal be_get). rewrite !Hget, HIP, block_mul in E by done.
    apply Z.mul_cancel_r in E; lia.
  - intros E. apply be_get_inj; [rewrite !length_zip_with; lia|].
    by rewrite !Hget, HIP, block_mul, E by done.
Qed.

(** Of two prefixes that share an address, the finer one lies in the coarser. *)
Lemma block_coarser n m x : 0 <= n <= m -> m <= 32 -> 0 <= x ->
  block n (block m x * 2 ^ (32 - m)) = block n x.
Proof.
  intros Hn Hm Hx. unfold block.
  replace (2 ^ (32 - n)) with (2 ^ (32 - m) * 2 ^ (m - n)) by (rewrite <- Z.pow_add_r by lia; f_equal; lia).
  assert (0 < 2 ^ (32 - m)) by lia. assert (0 < 2 ^ (m - n)) by lia.
  rewrite <- !Z.div_div by lia. by rewrite Z.div_mul by lia.
Qed.

Lemma land_disjoint_low b k : 0 <= k -> Z.land (b * 2 ^ k) (Z.ones k) = 0.
Proof.
  intros Hk. rewrite <- Z.shiftl_mul_pow2 by lia.
  apply Z.bits_inj'. intros i Hi. rewrite Z.land_spec, Z.bits_0. destruct (decide (i < k)).
  - by rewrite Z.shiftl_spec_low.
  - rewrite Z.ones_spec_high by lia. apply andb_false_r.
Qed.

(** The complement of a mask. *)
Lemma mask_complement k : 0 <= k <= 32 -> Z.lxor (2 ^ 32 - 2 ^ k) (2 ^ 32 - 1) = Z.ones k.
Proof.
  intros Hk. change (2 ^ 32 - 1) with (Z.ones 32).
  assert (D : Z.land (2 ^ 32 - 2 ^ k) (Z.ones k) = 0).
  { replace (2 ^ 32 - 2 ^ k) with ((2 ^ (32 - k) - 1) * 2 ^ k); [apply land_disjoint_low; lia|].
    rewrite Z.mul_sub_distr_r, <- Z.pow_add_r, Z.mul_1_l by lia. do 2 f_equal. lia. }
  assert (E : Z.lxor (2 ^ 32 - 2 ^ k) (Z.ones k) = Z.ones 32).
  { rewrite <- Z.add_nocarry_lxor by done. rewrite !Z.ones_equiv. lia. }
  by rewrite <- E, <- Z.lxor_assoc, Z.lxor_nilpotent, Z.lxor_0_l.
Qed.

Lemma block_bound n v : 0 <= n <= 32 -> 0 <= v < 2 ^ 32 -> 0 <= block n v /\ (block n v + 1) * 2 ^ (32 - n) <= 2 ^ 32.
Proof.
  intros Hn Hv. assert (0 < 2 ^ (32 - n)) by lia. assert (0 < 2 ^ n) by lia.
  assert (E : 2 ^ n * 2 ^ (32 - n) = 2 ^ 32) by (rewrite <- Z.pow_add_r by lia; f_equal; lia).
  unfold block. split; [by apply Z.div_pos; lia|].
  assert (v / 2 ^ (32 - n) < 2 ^ n) by (apply Z.div_lt_upper_bound; lia).
  rewrite <- E. apply Z.mul_le_mono_nonneg_r; lia.
Qed.

Lemma ipNetLast_block v n : 0 <= n <= 32 -> 0 <= v < 2 ^ 32 ->
  length (ipNetLast (prefix4 v n)) = 4%nat /\ block n (be_get (ipNetLast (prefix4 v n))) = block n v.
Proof.
  intros Hn Hv. destruct (length_prefix4 v n) as [H1 H2]. unfold ipNetLast, To4. cbn [mbind option_bind].
  rewrite decide_True by done. rewrite length_be_put. split; [done|].
  rewrite prefix4_IP by done. rewrite (take_ge (net_Mask _)) by lia.
  cbn [prefix4 net_Mask]. rewrite be_get_mask, mask_complement by lia.
  destruct (block_bound n v Hn Hv) as [Hb0 Hb]. assert (0 < 2 ^ (32 - n)) by lia.
  rewrite <- Z.add_nocarry_lor by (apply (land_disjoint_low (block n v) (32 - n)); lia). rewrite Z.ones_equiv.
  rewrite be_get_put_small by (change (256 ^ Z.of_nat 4) with (2 ^ 32); lia).
  unfold block at 1. rewrite Z.div_add_l by lia. rewrite Z.div_small by lia. lia.
Qed.

Lemma prefix4_block v n : 0 <= n <= 32 -> 0 <= v < 2 ^ 32 -> block n (be_get (net_IP (prefix4 v n))) = block n v.
Proof. intros. by rewrite prefix4_IP, block_mul by done. Qed.

(** The overlap test on IPv4 prefixes says whether they share an address. *)
Lemma cidrOverlap_prefix4 v n w m :
  0 <= n <= 32 -> 0 <= m <= 32 -> 0 <= v < 2 ^ 32 -> 0 <= w < 2 ^ 32 ->
  cidrOverlap (prefix4 v n) (prefix4 w m) = true <->
  exists ip, length ip = 4%nat /\ net_Contains (prefix4 v n) ip = true /\ net_Contains (prefix4 w m) ip = true.
Proof.
  intros Hn Hm Hv Hw. destruct (length_prefix4 v n) as [Lv _], (length_prefix4 w m) as [Lw _].
  destruct (ipNetLast_block v n Hn Hv) as [Llv Blv], (ipNetLast_block w m Hm Hw) as [Llw Blw].
  assert (Self : forall u k, 0 <= k <= 32 -> 0 <= u < 2 ^ 32 -> net_Contains (prefix4 u k) (net_IP (prefix4 u k)) = true).
  { intros u k Hk Hu. rewrite (Contains_prefix4 u k _ Hk Hu (proj1 (length_prefix4 u k))).
    exact (prefix4_block u k Hk Hu). }
  unfold cidrOverlap, ip_Equal. rewrite !orb_true_iff, !bool_decide_eq_true, !to4_or_self_4 by done. split.
  - intros [[[H|H]|H]|H].
    + exists (net_IP (prefix4 w m)); auto.
    + exists (net_IP (prefix4 v n)); auto.
    + exists (net_IP (prefix4 w m)). split_and!; [done| |by auto].
      rewrite <- H. by apply Contains_prefix4.
    + exists (net_IP (prefix4 v n)). split_and!; [done|by auto|].
      rewrite <- H. by apply Contains_prefix4.
  - intros (ip & Lip & Cv & Cw). left; left. pose proof (be_get_4 ip Lip).
    rewrite !Contains_prefix4 in * by done.
    destruct (decide (n <= m)); [left|right].
    + rewrite prefix4_IP by done. rewrite <- Cw, block_coarser by lia. done.
    + rewrite prefix4_IP by done. rewrite <- Cv, block_coarser by lia. done.
Qed.

(** What [ParseCIDR] returns for an IPv4 prefix. *)
Lemma zip_band_mask ip n : length ip = 4%nat -> 0 <= n <= 32 ->
  mkIPNet (zip_with band ip (CIDRMask n 32)) (CIDRMask n 32) = prefix4 (be_get ip) n.
Proof.
  intros Hip Hn. unfold prefix4. f_equal.
  assert (Lm : length (CIDRMask n 32) = 4%nat) by (unfold CIDRMask; by rewrite length_be_put).
  apply be_get_inj; [by rewrite length_zip_with, length_be_put, Hip, Lm|].
  rewrite be_get_band, be_get_mask by congruence || done. symmetry. apply be_get_put_small.
  pose proof (be_get_4 ip Hip). change (256 ^ Z.of_nat 4) with (2 ^ 32).
  rewrite mask_clears by lia. destruct (block_bound n (be_get ip) Hn H) as [H0 Hb]. unfold block in *.
  assert (0 < 2 ^ (32 - n)) by lia. rewrite Z.mul_add_distr_r in Hb.
  split; [apply Z.mul_nonneg_nonneg|]; lia.
Qed.

Lemma digits_value_nonneg l v : digits_value l = Some v -> 0 <= v.
Proof.
  unfold digits_value. destruct (_ && _) eqn:E; [|done]. intros [= <-].
  apply andb_true_iff in E as [_ E].
  assert (G : forall k acc, 0 <= acc -> forallb is_digit k = true ->
    0 <= fold_left (fun acc b => acc * 10 + (b2z b - 48)) k acc).
  { induction k as [|b k IH]; intros acc Ha Hk; simpl in *; [done|].
    apply andb_true_iff in Hk as [Hb Hk]. apply IH; [|done].
    unfold is_digit in Hb. apply andb_true_iff in Hb as [Hb%Z.leb_le _]. lia. }
  by apply G.
Qed.

Lemma ParseCIDR_4 s net : ParseCIDR s = Some net -> length (net_IP net) = 4%nat ->
  exists v n, 0 <= n <= 32 /\ 0 <= v < 2 ^ 32 /\ net = prefix4 v n.
Proof.
  unfold ParseCIDR. cbv zeta. intros H L.
  destruct (index_bytes _ _) as [i|]; [|done]. simpl in H.
  destruct (parse_addr _) as [ip|]; [|done]. simpl in H.
  destruct (digits_value _) as [n|] eqn:Hn; [|done]. simpl in H.
  apply digits_value_nonneg in Hn. case_decide as Hle; [|done]. simplify_eq. simpl in L.
  unfold CIDRMask in L. rewrite length_zip_with, length_be_put in L.
  rewrite Z.mul_comm, Z.div_mul, Nat2Z.id, Nat.min_id in L by lia. rename L into Hip. rewrite Hip in *. change (8 * Z.of_nat 4) with 32 in *.
  exists (be_get ip), n. split; [lia|]. split; [by apply be_get_4|].
  apply zip_band_mask; [done|lia].
Qed.

Lemma DetectConflict_free c routes cf : DetectConflict c routes = Some cf -> cf_Conflicts cf = false ->
  exists target, ParseCIDR c = Some target /\ forall r, r ∈ routes -> route_conflicts target r = false.
Proof.
  unfold DetectConflict. destruct (ParseCIDR c) as [target|]; [|done].
  destruct (List.find _ _) eqn:E; intros [= <-] Hc; [done|].
  exists target. split; [done|]. intros r Hr. apply (List.find_none _ _ E). by apply list_elem_of_In.
Qed.

Lemma first_free_spec cs routes c : first_free cs routes = Some c ->
  c ∈ cs /\ exists cf, DetectConflict c routes = Some cf /\ cf_Conflicts cf = false.
Proof.
  induction cs as [|c' cs IH]; simpl; [done|].
  destruct (DetectConflict c' routes) as [cf|] eqn:E; [|done].
  destruct (cf_Conflicts cf) eqn:Hc; intros H.
  - destruct (IH H) as [? ?]. split; [by right|done].
  - simplify_eq. split; [by left|eauto].
Qed.

(** A prefix the search returns shares no address with any IPv4 route of the
    system, default routes and unreadable routes apart. *)
Theorem NextAvailableCIDR_disjoint (preferred c : string) (routes : list Route) (target net : IPNet) (r : Route) (ip : list byte) :
  NextAvailableCIDR preferred routes = Some c -> ParseCIDR c = Some target -> length (net_IP target) = 4%nat ->
  r ∈ routes -> ParseCIDR (rt_CIDR r) = Some net -> length (net_IP net) = 4%nat -> isDefaultRoute net = false ->
  length ip = 4%nat -> net_Contains target ip = true -> net_Contains net ip = false.
Proof.
  intros Hn Hc L4 Hr Hp Ln Hd Lip Ct. apply not_true_iff_false. intros Cn.
  apply first_free_spec in Hn as [_ (cf & Hdc & Hf)].
  destruct (DetectConflict_free _ _ _ Hdc Hf) as (t & Ht & Hall). simplify_eq.
  specialize (Hall r Hr). unfold route_conflicts in Hall. rewrite Hp, Hd in Hall.
  destruct (decide (rt_CIDR r = EmptyString)) as [E|_]; [by rewrite E in Hp|].
  destruct (ParseCIDR_4 _ _ Hc L4) as (v & n & ? & ? & ->).
  destruct (ParseCIDR_4 _ _ Hp Ln) as (w & m & ? & ? & ->).
  apply not_true_iff_false in Hall. apply Hall. simpl. apply cidrOverlap_prefix4; eauto.
Qed.

Lemma NextAvailableCIDR_disjoint_witness :
  NextAvailableCIDR "172.16.10.0/24" [mkRoute "172.16.10.0/23" "eth0"; mkRoute "0.0.0.0/0" "eth0"] = Some "172.16.12.0/24"%string /\
  net_Contains (prefix4 (172 * 2 ^ 24 + 16 * 2 ^ 16 + 10 * 2 ^ 8) 23) [xac; x10; x0c; x05] = false.
Proof.
  split; [by vm_compute|].
  apply (NextAvailableCIDR_disjoint "172.16.10.0/24" "172.16.12.0/24"
    [mkRoute "172.16.10.0/23" "eth0"; mkRoute "0.0.0.0/0" "eth0"]
    (prefix4 (172 * 2 ^ 24 + 16 * 2 ^ 16 + 12 * 2 ^ 8) 24) _ (mkRoute "172.16.10.0/23" "eth0"));
    try (vm_compute; reflexivity). by left.
Defined.
