(* ===== verification/Router.v ===== *)
(** * Router: the LAN packet router (internal/packet/router.go)

    IPv4 parsing, the TCP MSS clamp with its checksums, the access rules and the
    routing of an outbound packet. A packet is a list of bytes; an operation that
    writes into the packet or the router returns the new one. *)

From S2P Require Import Prelude GoStrings Store Vnet.

Definition IPv4ProtocolICMP : byte := x01.
Definition IPv4ProtocolTCP : byte := x06.
Definition IPv4ProtocolUDP : byte := x11.

Definition DropACLDeny : string := "acl_deny".
Definition DropRouteMiss : string := "route_miss".
Definition DropMTU : string := "mtu_drop".
Definition DropPeerUnavailable : string := "peer_unavailable".
Definition DropInvalidPacket : string := "invalid_packet".
Definition DropUnsupportedProtocol : string := "unsupported_protocol".

Inductive router_error : Type :=
  | ErrNetworkID          (* "network_id is required" *)
  | ErrSourceDevice       (* "source device id is required" *)
  | ErrRouterNil          (* "router is nil" *)
  | ErrInvalidIPv4 (what : string)
  | ErrRouteMiss
  | ErrACLDeny
  | ErrMTUDrop
  | ErrPeerUnavailable
  | ErrUnsupportedProtocol.

#[export] Instance router_error_eq_dec : EqDecision router_error.
Proof. solve_decision. Defined.

Record IPv4Header : Type := mkIPv4Header {
  HeaderLen : nat; TotalLen : nat; Protocol : byte; SourceIP : list byte; DestIP : list byte;
  SourcePort : Z; DestPort : Z; TCPSYN : bool; PayloadSize : nat;
}.

Record RoutedFrame : Type := mkRoutedFrame {
  rf_NetworkID : Z; rf_SrcDevice : string; rf_DstDevice : string; rf_PacketType : byte;
  rf_Payload : list byte; rf_Header : IPv4Header;
}.

Record DropStats : Type := mkDropStats {
  ACLDeny : Z; RouteMiss : Z; MTU : Z; PeerUnavailable : Z; InvalidPacket : Z; UnsupportedProtocol : Z;
}.

Record RouterStats : Type := mkRouterStats {
  TxBytes : Z; RxBytes : Z; TxPackets : Z; RxPackets : Z; Drops : DropStats;
}.

Definition DropStats_zero : DropStats := mkDropStats 0 0 0 0 0 0.
Definition RouterStats_zero : RouterStats := mkRouterStats 0 0 0 0 DropStats_zero.

Record RouterConfig : Type := mkRouterConfig {
  cfg_NetworkID : Z; cfg_SourceDeviceID : string; cfg_MTU : Z; cfg_Addresses : list VirtualAddress;
  cfg_ACLRules : list VirtualACLRule; cfg_PeerAvailable : gmap string bool;
}.

Record Router : Type := mkRouter {
  r_networkID : Z; r_sourceDeviceID : string; r_mtu : Z; r_routes : gmap string string;
  r_acl : list VirtualACLRule; r_peerAvailable : gmap string bool; r_stats : RouterStats;
}.

Definition set_stats (r : Router) (s : RouterStats) : Router :=
  mkRouter (r_networkID r) (r_sourceDeviceID r) (r_mtu r) (r_routes r) (r_acl r) (r_peerAvailable r) s.

(* ------------------------------------------------------------------ *)
(** ** Reading and writing packets *)

(** [binary.BigEndian.Uint16(l[i:i+2])] and its counterpart. *)
Definition get16 (l : list byte) (i : nat) : Z := be_get (slice l i (i + 2)).
Definition put16 (i : nat) (v : Z) (l : list byte) : list byte :=
  take i l ++ be_put 2 (u16 v) ++ drop (i + 2) l.

(** The four-bit fields: [b >> 4] and [b & 0x0f]. *)
Definition hi4 (b : byte) : nat := Z.to_nat (Z.shiftr (b2z b) 4).
Definition lo4 (b : byte) : nat := Z.to_nat (Z.land (b2z b) 15).

Definition ParseIPv4 (packet : list byte) : result router_error IPv4Header :=
  if decide (length packet < 20)%nat then Err (ErrInvalidIPv4 "too short")
  else if decide (hi4 (at_ packet 0) <> 4%nat) then Err (ErrInvalidIPv4 "bad version")
  else
    let ihl := (lo4 (at_ packet 0) * 4)%nat in
    if decide (ihl < 20 \/ length packet < ihl)%nat then Err (ErrInvalidIPv4 "bad header length")
    else
      let totalLen := Z.to_nat (get16 packet 2) in
      if decide (totalLen < ihl \/ length packet < totalLen)%nat then Err (ErrInvalidIPv4 "bad total length")
      else
        let proto := at_ packet 9 in
        let hdr sp dp syn :=
          mkIPv4Header ihl totalLen proto (slice packet 12 16) (slice packet 16 20) sp dp syn (totalLen - ihl) in
        if decide (proto = IPv4ProtocolTCP /\ (ihl + 20 <= totalLen)%nat) then
          let tcp := slice packet ihl totalLen in
          let dataOffset := (hi4 (at_ tcp 12) * 4)%nat in
          if decide (20 <= dataOffset <= length tcp)%nat
          then Ok (hdr (get16 tcp 0) (get16 tcp 2) (bool_decide (Z.land (b2z (at_ tcp 13)) 2 <> 0)))
          else Ok (hdr 0 0 false)
        else if decide (proto = IPv4ProtocolUDP /\ (ihl + 8 <= totalLen)%nat) then
          let udp := slice packet ihl totalLen in
          Ok (hdr (get16 udp 0) (get16 udp 2) false)
        else Ok (hdr 0 0 false).

(** The 32-bit sum of [checksum] over the words of [data], the odd byte last. *)
Fixpoint sum_words (sum : Z) (data : list byte) : Z :=
  match data with
  | a :: b :: rest => sum_words (u32 (sum + be_get [a; b])) rest
  | [a] => u32 (sum + Z.shiftl (b2z a) 8)
  | [] => sum
  end.

Fixpoint fold_carry (fuel : nat) (sum : Z) : Z :=
  match fuel with
  | O => sum
  | S fuel' =>
    if decide (Z.shiftr sum 16 <> 0)
    then fold_carry fuel' (u32 (Z.land sum 65535 + Z.shiftr sum 16)) else sum
  end.

Definition checksum (data : list byte) : Z := Z.lxor (u16 (fold_carry 3 (sum_words 0 data))) 65535.

Definition recomputeIPv4HeaderChecksum (header : list byte) : list byte :=
  let zeroed := <[11%nat := x00]> (<[10%nat := x00]> header) in
  put16 10 (checksum zeroed) zeroed.

(** The TCP pseudo header of the packet, followed by the segment, padded to even length. *)
Definition pseudo_segment (packet tcp : list byte) : list byte :=
  let p := slice packet 12 16 ++ slice packet 16 20 ++ [x00; IPv4ProtocolTCP] ++
           be_put 2 (u16 (Z.of_nat (length tcp))) ++ tcp in
  if decide (length p mod 2 = 1)%nat then p ++ [x00] else p.

Definition recomputeTCPChecksum (packet : list byte) (header : IPv4Header) : list byte :=
  let tcp := slice packet (HeaderLen header) (TotalLen header) in
  let zeroed := <[17%nat := x00]> (<[16%nat := x00]> tcp) in
  let tcp' := put16 16 (checksum (pseudo_segment packet zeroed)) zeroed in
  take (HeaderLen header) packet ++ tcp' ++ drop (TotalLen header) packet.

(** The option loop of [ClampTCPMSS]; each round moves [i] forward, so
    [dataOffset - i] rounds are enough ([clamp_options_fuel]). *)
Fixpoint clamp_options (fuel i dataOffset : nat) (maxMSS : Z) (tcp : list byte) (changed : bool)
  : list byte * bool :=
  match fuel with
  | O => (tcp, changed)
  | S fuel' =>
    if decide (dataOffset <= i)%nat then (tcp, changed)
    else
      let kind := at_ tcp i in
      if decide (kind = x00) then clamp_options fuel' dataOffset dataOffset maxMSS tcp changed
      else if decide (kind = x01) then clamp_options fuel' (i + 1) dataOffset maxMSS tcp changed
      else if decide (dataOffset <= i + 1)%nat then clamp_options fuel' dataOffset dataOffset maxMSS tcp changed
      else
        let l := Z.to_nat (b2z (at_ tcp (i + 1))) in
        if decide (l < 2 \/ dataOffset < i + l)%nat
        then clamp_options fuel' dataOffset dataOffset maxMSS tcp changed
        else if decide (kind = x02 /\ l = 4%nat /\ maxMSS < get16 tcp (i + 2))
        then clamp_options fuel' (i + l) dataOffset maxMSS (put16 (i + 2) maxMSS tcp) true
        else clamp_options fuel' (i + l) dataOffset maxMSS tcp changed
  end.

Definition ClampTCPMSS (packet : list byte) (maxMSS : Z) : bool * list byte :=
  match ParseIPv4 packet with
  | Err _ => (false, packet)
  | Ok header =>
    if decide (Protocol header <> IPv4ProtocolTCP \/ TCPSYN header = false \/ maxMSS <= 0) then (false, packet)
    else
      let tcp := slice packet (HeaderLen header) (TotalLen header) in
      let dataOffset := (hi4 (at_ tcp 12) * 4)%nat in
      if decide (dataOffset < 20 \/ length tcp < dataOffset)%nat then (false, packet)
      else
        let '(tcp', changed) := clamp_options dataOffset 20 dataOffset maxMSS tcp false in
        let packet1 := take (HeaderLen header) packet ++ tcp' ++ drop (TotalLen header) packet in
        if changed : bool then
          let packet2 := recomputeIPv4HeaderChecksum (take (HeaderLen header) packet1) ++
                         drop (HeaderLen header) packet1 in
          (true, recomputeTCPChecksum (take (TotalLen header) packet2) header ++
                 drop (TotalLen header) packet2)
        else (false, packet1)
  end.

(* ------------------------------------------------------------------ *)
(** ** Access rules *)

Section Rules.
  Context `{GU : GoUnicode}.

Definition matchProtocol (ruleProtocol : string) (packetProtocol : byte) : bool :=
  let p := ToLower (TrimSpace ruleProtocol) in
  if decide (p ∈ [""; "any"; "*"]%string) then true
  else if decide (p = "tcp"%string) then bool_decide (packetProtocol = IPv4ProtocolTCP)
  else if decide (p = "icmp"%string) then bool_decide (packetProtocol = IPv4ProtocolICMP)
  else if decide (p = "udp"%string) then bool_decide (packetProtocol = IPv4ProtocolUDP)
  else match Atoi ruleProtocol with
       | None => false
       | Some n => bool_decide (0 <= n <= 255 /\ z2b n = packetProtocol)
       end.

Definition matchACLRule (rule : VirtualACLRule) (networkID : Z) (srcDevice dstDevice : string) (header : IPv4Header) : bool :=
  if decide (acl_SourceDeviceID rule <> EmptyString /\ acl_SourceDeviceID rule <> srcDevice) then false
  else if decide (acl_TargetDeviceID rule <> EmptyString /\ acl_TargetDeviceID rule <> dstDevice) then false
  else if decide (acl_SourceGroupID rule <> EmptyString /\ acl_SourceGroupID rule <> FormatInt networkID) then false
  else if decide (acl_TargetGroupID rule <> EmptyString /\ acl_TargetGroupID rule <> FormatInt networkID) then false
  else if negb (matchProtocol (acl_Protocol rule) (Protocol header)) then false
  else if decide (acl_PortStart rule <= 0 /\ acl_PortEnd rule <= 0) then true
  else if decide (DestPort header <= 0) then false
  else
    let start := if decide (acl_PortStart rule <= 0) then acl_PortEnd rule else acl_PortStart rule in
    let end_ := if decide (acl_PortEnd rule <= 0) then start else acl_PortEnd rule in
    bool_decide (start <= DestPort header <= end_).

(** The loop of [allowACL]: a matching deny returns at once. *)
Fixpoint allow_loop (acl : list VirtualACLRule) (networkID : Z) (src dst : string) (header : IPv4Header) (allowed : bool) : bool :=
  match acl with
  | [] => allowed
  | rule :: rest =>
    if negb (acl_Enabled rule) || negb (bool_decide (acl_NetworkID rule = networkID)) ||
       negb (matchACLRule rule networkID src dst header)
    then allow_loop rest networkID src dst header allowed
    else if EqualFold (TrimSpace (acl_Action rule)) "deny" then false
    else if EqualFold (TrimSpace (acl_Action rule)) "allow" || bool_decide (TrimSpace (acl_Action rule) = EmptyString)
    then allow_loop rest networkID src dst header true
    else allow_loop rest networkID src dst header allowed
  end.

Definition allowACL (acl : list VirtualACLRule) (networkID : Z) (src dst : string) (header : IPv4Header) : bool :=
  allow_loop acl networkID src dst header true.

End Rules.

(* ------------------------------------------------------------------ *)
(** ** The router *)

Definition buildRoutes (networkID : Z) (addresses : list VirtualAddress) : gmap string string :=
  fold_left (fun routes address =>
    if decide (va_NetworkID address <> networkID \/ TrimSpace (va_DeviceID address) = EmptyString) then routes
    else match To4 (ParseIP (TrimSpace (va_VirtualIP address))) with
         | None => routes
         | Some ip => <[IPv4_String ip := va_DeviceID address]> routes
         end) addresses ∅.

Definition NewRouter (cfg : RouterConfig) : result router_error Router :=
  if decide (cfg_NetworkID cfg <= 0) then Err ErrNetworkID
  else if decide (TrimSpace (cfg_SourceDeviceID cfg) = EmptyString) then Err ErrSourceDevice
  else
    let mtu := if decide (cfg_MTU cfg <= 0) then DefaultMTU else cfg_MTU cfg in
    Ok (mkRouter (cfg_NetworkID cfg) (cfg_SourceDeviceID cfg) mtu
          (buildRoutes (cfg_NetworkID cfg) (cfg_Addresses cfg)) (cfg_ACLRules cfg)
          (cfg_PeerAvailable cfg) RouterStats_zero).

Definition UpdateConfig (r : option Router) (addresses : list VirtualAddress) (acl : list VirtualACLRule)
  (peerAvailable : gmap string bool) : option Router :=
  match r with
  | None => None
  | Some r => Some (mkRouter (r_networkID r) (r_sourceDeviceID r) (r_mtu r)
                      (buildRoutes (r_networkID r) addresses) acl peerAvailable (r_stats r))
  end.

Definition inc (x : Z) : Z := u64 (x + 1).

Definition recordDrop (reason : string) (r : Router) : Router :=
  let s := r_stats r in
  let d := Drops s in
  let d' :=
    if decide (reason = DropACLDeny) then
      mkDropStats (inc (ACLDeny d)) (RouteMiss d) (MTU d) (PeerUnavailable d) (InvalidPacket d) (UnsupportedProtocol d)
    else if decide (reason = DropRouteMiss) then
      mkDropStats (ACLDeny d) (inc (RouteMiss d)) (MTU d) (PeerUnavailable d) (InvalidPacket d) (UnsupportedProtocol d)
    else if decide (reason = DropMTU) then
      mkDropStats (ACLDeny d) (RouteMiss d) (inc (MTU d)) (PeerUnavailable d) (InvalidPacket d) (UnsupportedProtocol d)
    else if decide (reason = DropPeerUnavailable) then
      mkDropStats (ACLDeny d) (RouteMiss d) (MTU d) (inc (PeerUnavailable d)) (InvalidPacket d) (UnsupportedProtocol d)
    else if decide (reason = DropUnsupportedProtocol) then
      mkDropStats (ACLDeny d) (RouteMiss d) (MTU d) (PeerUnavailable d) (InvalidPacket d) (inc (UnsupportedProtocol d))
    else
      mkDropStats (ACLDeny d) (RouteMiss d) (MTU d) (PeerUnavailable d) (inc (InvalidPacket d)) (UnsupportedProtocol d) in
  set_stats r (mkRouterStats (TxBytes s) (RxBytes s) (TxPackets s) (RxPackets s) d').

(** The receiver is a [*Router]. *)
Definition RecordInbound (r : option Router) (frame : RoutedFrame) : option Router :=
  match r with
  | None => None
  | Some r =>
    let s := r_stats r in
    Some (set_stats r (mkRouterStats (TxBytes s) (u64 (RxBytes s + Z.of_nat (length (rf_Payload frame))))
                         (TxPackets s) (inc (RxPackets s)) (Drops s)))
  end.

Definition Stats (r : option Router) : RouterStats :=
  match r with None => RouterStats_zero | Some r => r_stats r end.

Section Route.
  Context `{GU : GoUnicode}.

Definition RouteOutbound (r : option Router) (packet : list byte)
  : result router_error RoutedFrame * option Router :=
  match r with
  | None => (Err ErrRouterNil, None)
  | Some r =>
    let mtu := r_mtu r in
    if decide (mtu < Z.of_nat (length packet)) then (Err ErrMTUDrop, Some (recordDrop DropMTU r))
    else match ParseIPv4 packet with
    | Err e => (Err e, Some (recordDrop DropInvalidPacket r))
    | Ok header =>
      if decide (Protocol header ∉ [IPv4ProtocolTCP; IPv4ProtocolUDP; IPv4ProtocolICMP])
      then (Err ErrUnsupportedProtocol, Some (recordDrop DropUnsupportedProtocol r))
      else
        let dstDevice := default EmptyString (r_routes r !! IPv4_String (DestIP header)) in
        if decide (dstDevice = EmptyString) then (Err ErrRouteMiss, Some (recordDrop DropRouteMiss r))
        else if decide (r_peerAvailable r !! dstDevice = Some false)
        then (Err ErrPeerUnavailable, Some (recordDrop DropPeerUnavailable r))
        else if negb (allowACL (r_acl r) (r_networkID r) (r_sourceDeviceID r) dstDevice header)
        then (Err ErrACLDeny, Some (recordDrop DropACLDeny r))
        else
          let payload := take (TotalLen header) packet in
          let '(payload, header) :=
            if decide (Protocol header = IPv4ProtocolTCP) then
              let payload' := (ClampTCPMSS payload (MSSForMTU mtu)).2 in
              (payload', match ParseIPv4 payload' with Ok h => h | Err _ => mkIPv4Header 0 0 x00 [] [] 0 0 false 0 end)
            else (payload, header) in
          let frame := mkRoutedFrame (r_networkID r) (r_sourceDeviceID r) dstDevice x01 payload header in
          let s := r_stats r in
          (Ok frame,
           Some (set_stats r (mkRouterStats (u64 (TxBytes s + Z.of_nat (length payload))) (RxBytes s)
                                (inc (TxPackets s)) (RxPackets s) (Drops s))))
    end
  end.

End Route.

(* ------------------------------------------------------------------ *)
(** ** Lookups through reads and writes *)

Lemma slice_agree {A} (l k : list A) a b :
  (forall j, (a <= j < b)%nat -> l !! j = k !! j) -> slice l a b = slice k a b.
Proof.
  intros H. apply list_eq. intros i. unfold slice.
  destruct (decide (i < b - a)%nat).
  - rewrite !lookup_take_lt, !lookup_drop by done. apply H. lia.
  - rewrite !lookup_take_ge by lia. done.
Qed.

Lemma get16_agree l k i : l !! i = k !! i -> l !! S i = k !! S i -> get16 l i = get16 k i.
Proof.
  intros H0 H1. unfold get16. f_equal. apply slice_agree. intros j Hj.
  destruct (decide (j = i)) as [->|]; [done|]. by replace j with (S i) by lia.
Qed.

Lemma at_agree l k i : l !! i = k !! i -> at_ l i = at_ k i.
Proof. unfold at_. by intros ->. Qed.

Lemma length_put16 i v l : (i + 2 <= length l)%nat -> length (put16 i v l) = length l.
Proof. intros. unfold put16. lens. lia. Qed.

Lemma put16_lookup_ne i v l j : (i + 2 <= length l)%nat -> j <> i -> j <> S i -> put16 i v l !! j = l !! j.
Proof.
  intros. unfold put16. destruct (decide (j < i)%nat).
  - rewrite lookup_app_l by (lens; lia). by rewrite lookup_take_lt.
  - rewrite lookup_app_r, lookup_app_r by (lens; lia). lens. rewrite lookup_drop. f_equal. lia.
Qed.

Lemma get16_put16 i v l : (i + 2 <= length l)%nat -> 0 <= v < 2 ^ 16 -> get16 (put16 i v l) i = v.
Proof.
  intros. unfold get16, slice, put16. replace (i + 2 - i)%nat with 2%nat by lia.
  rewrite drop_app_length' by (lens; lia). rewrite take_app_length' by (by lens).
  unfold u16. rewrite Z.mod_small by lia. by apply be_get_put_small.
Qed.

Lemma get16_bound l i : 0 <= get16 l i < 2 ^ 16.
Proof.
  unfold get16. pose proof (be_get_bound (slice l i (i + 2))) as B.
  assert (length (slice l i (i + 2)) <= 2)%nat by (unfold slice; lens; lia).
  assert (256 ^ Z.of_nat (length (slice l i (i + 2))) <= 256 ^ 2) by (apply Z.pow_le_mono_r; lia).
  change (256 ^ 2) with (2 ^ 16) in *. lia.
Qed.

Lemma slice_lookup {A} (l : list A) a b j : (j < b - a)%nat -> slice l a b !! j = l !! (a + j)%nat.
Proof. intros. unfold slice. by rewrite lookup_take_lt, lookup_drop. Qed.

(** Replacing a middle part of a list by one of its length. *)
Definition splice {A} (l m : list A) (a b : nat) : list A := take a l ++ m ++ drop b l.

Lemma length_splice {A} (l m : list A) a b :
  (a <= b)%nat -> (b <= length l)%nat -> length m = (b - a)%nat -> length (splice l m a b) = length l.
Proof. intros. unfold splice. lens. lia. Qed.

Lemma splice_lookup_in {A} (l m : list A) a b j :
  (a <= b)%nat -> (b <= length l)%nat -> length m = (b - a)%nat -> (a <= j < b)%nat -> splice l m a b !! j = m !! (j - a)%nat.
Proof.
  intros. unfold splice. rewrite lookup_app_r, lookup_app_l by (lens; lia). f_equal. lens. lia.
Qed.

Lemma splice_lookup_out {A} (l m : list A) a b j :
  (a <= b)%nat -> (b <= length l)%nat -> length m = (b - a)%nat -> ~ (a <= j < b)%nat -> splice l m a b !! j = l !! j.
Proof.
  intros. unfold splice. destruct (decide (j < a)%nat).
  - rewrite lookup_app_l by (lens; lia). by rewrite lookup_take_lt.
  - rewrite lookup_app_r, lookup_app_r by (lens; lia). rewrite lookup_drop. f_equal. lens. lia.
Qed.

Lemma slice_splice {A} (l m : list A) a b :
  (a <= b)%nat -> (b <= length l)%nat -> length m = (b - a)%nat -> slice (splice l m a b) a b = m.
Proof.
  intros. unfold slice, splice. rewrite drop_app_length' by (lens; lia).
  by rewrite take_app_length' by done.
Qed.

Lemma splice_slice {A} (l : list A) a b : (a <= b)%nat -> splice l (slice l a b) a b = l.
Proof.
  intros. unfold splice, slice. rewrite <- (take_drop a l) at 4. f_equal.
  rewrite <- (take_drop (b - a) (drop a l)) at 2. f_equal. rewrite drop_drop. f_equal. lia.
Qed.

(* ------------------------------------------------------------------ *)
(** ** Parsing *)

(** What a successful parse guarantees of the lengths. *)
Record header_wf (packet : list byte) (h : IPv4Header) : Prop := {
  hw_ihl : (20 <= HeaderLen h <= TotalLen h)%nat;
  hw_ihl4 : HeaderLen h = (lo4 (at_ packet 0) * 4)%nat;
  hw_total : (TotalLen h <= length packet)%nat;
  hw_total16 : Z.of_nat (TotalLen h) = get16 packet 2;
  hw_ver : hi4 (at_ packet 0) = 4%nat;
  hw_proto : Protocol h = at_ packet 9;
  hw_src : SourceIP h = slice packet 12 16;
  hw_dst : DestIP h = slice packet 16 20;
  hw_pay : PayloadSize h = (TotalLen h - HeaderLen h)%nat;
  hw_sport : 0 <= SourcePort h < 2 ^ 16;
  hw_dport : 0 <= DestPort h < 2 ^ 16;
  hw_syn : TCPSYN h = true -> Protocol h = IPv4ProtocolTCP /\
    let tcp := slice packet (HeaderLen h) (TotalLen h) in
    (20 <= hi4 (at_ tcp 12) * 4 <= length tcp)%nat /\ Z.land (b2z (at_ tcp 13)) 2 <> 0;
}.

Lemma ParseIPv4_wf packet h : ParseIPv4 packet = Ok h -> header_wf packet h.
Proof.
  unfold ParseIPv4. cbv zeta. pose proof (get16_bound packet 2) as Hg.
  case_decide as H1; [done|]. case_decide as H2; [done|].
  case_decide as H3; [done|]. case_decide as H4; [done|].
  set (tcp := slice _ _ _). pose proof (get16_bound tcp 0). pose proof (get16_bound tcp 2).
  case_decide as H5.
  - case_decide as H6; intros [= <-]; split; simpl; try done; try lia.
    intros Hb%bool_decide_eq_true. tauto.
  - case_decide; intros [= <-]; split; simpl; done || lia.
Qed.

(** The bytes [ParseIPv4] reads. *)
Definition parse_reads (h : IPv4Header) (j : nat) : Prop :=
  j = 0%nat \/ j = 2%nat \/ j = 3%nat \/ j = 9%nat \/ (12 <= j < 20)%nat \/
  (HeaderLen h <= j < HeaderLen h + 4)%nat \/ j = (HeaderLen h + 12)%nat \/ j = (HeaderLen h + 13)%nat.

Lemma ParseIPv4_agree packet packet' h :
  ParseIPv4 packet = Ok h -> (TotalLen h <= length packet')%nat ->
  (forall j, (j < TotalLen h)%nat -> parse_reads h j -> packet' !! j = packet !! j) -> ParseIPv4 packet' = Ok h.
Proof.
  intros HP HL HA. pose proof (ParseIPv4_wf _ _ HP) as W.
  pose proof (hw_ihl _ _ W) as Hi. pose proof (hw_total _ _ W).
  assert (E0 : at_ packet' 0 = at_ packet 0) by (apply at_agree, HA; unfold parse_reads; lia).
  assert (E2 : get16 packet' 2 = get16 packet 2) by (apply get16_agree; apply HA; unfold parse_reads; lia).
  assert (E9 : at_ packet' 9 = at_ packet 9) by (apply at_agree, HA; unfold parse_reads; lia).
  assert (ES : slice packet' 12 16 = slice packet 12 16) by (apply slice_agree; intros; apply HA; unfold parse_reads; lia).
  assert (ED : slice packet' 16 20 = slice packet 16 20) by (apply slice_agree; intros; apply HA; unfold parse_reads; lia).
  rewrite <- HP. unfold ParseIPv4. cbv zeta. rewrite E0, E2, E9, ES, ED.
  rewrite <- (hw_ihl4 _ _ W), <- (hw_total16 _ _ W), Nat2Z.id, <- (hw_proto _ _ W).
  rewrite !(decide_False (P := (_ < 20)%nat)) by lia.
  case_decide; [done|]. rewrite !(decide_False (P := (_ < 20 \/ _ < _)%nat)) by lia.
  rewrite !(decide_False (P := (_ < HeaderLen h \/ _ < _)%nat)) by lia.
  set (tcp := slice packet (HeaderLen h) (TotalLen h)) in *; set (tcp' := slice packet' (HeaderLen h) (TotalLen h)) in *.
  assert (EL : length tcp' = length tcp) by (unfold tcp, tcp'; rewrite !length_slice; lia).
  assert (ET : forall j, (j < TotalLen h - HeaderLen h)%nat -> parse_reads h (HeaderLen h + j) -> tcp' !! j = tcp !! j)
    by (intros j Hj Hr; unfold tcp, tcp'; rewrite !slice_lookup by done; apply HA; [lia|done]).
  assert (EG : forall j, (j + 2 <= TotalLen h - HeaderLen h)%nat -> j = 0%nat \/ j = 2%nat -> get16 tcp' j = get16 tcp j)
    by (intros j ? ?; apply get16_agree; apply ET; unfold parse_reads; lia).
  rewrite EL. case_decide as H5.
  - rewrite !EG by lia. rewrite (at_agree tcp' tcp 12), (at_agree tcp' tcp 13); [done|..];
      apply ET; unfold parse_reads; lia.
  - case_decide; [|done]. by rewrite !EG by lia.
Qed.

(** Bytes past the total length do not matter. *)
Lemma ParseIPv4_take packet h : ParseIPv4 packet = Ok h -> ParseIPv4 (take (TotalLen h) packet) = Ok h.
Proof.
  intros HP. pose proof (hw_total _ _ (ParseIPv4_wf _ _ HP)). apply (ParseIPv4_agree packet); [done|lens; lia|].
  intros j Hj _. by apply lookup_take_lt.
Qed.

(* ------------------------------------------------------------------ *)
(** ** Checksums *)

(** The exact sum of the 16-bit words. *)
Fixpoint sum16 (data : list byte) : Z :=
  match data with
  | a :: b :: rest => be_get [a; b] + sum16 rest
  | [a] => b2z a * 256
  | [] => 0
  end.

Lemma pair_ind (P : list byte -> Prop) :
  P [] -> (forall a, P [a]) -> (forall a b l, P l -> P (a :: b :: l)) -> forall l, P l.
Proof.
  intros H0 H1 H2. fix IH 1. intros [|a [|b l]]; [done|apply H1|apply H2, IH].
Qed.

Lemma be_get_2 a b : be_get [a; b] = b2z a * 256 + b2z b.
Proof. unfold be_get. simpl. lia. Qed.

Lemma sum16_bound l : 0 <= sum16 l /\ 2 * sum16 l <= 65535 * (Z.of_nat (length l) + 1).
Proof.
  induction l as [|a|a b l IH] using pair_ind; cbn [sum16 length]; [lia| |].
  - pose proof (b2z_bound a). lia.
  - rewrite be_get_2. pose proof (b2z_bound a). pose proof (b2z_bound b). lia.
Qed.

Lemma sum16_app l k : Nat.even (length l) = true -> sum16 (l ++ k) = sum16 l + sum16 k.
Proof.
  induction l as [|a|a b l IH] using pair_ind; simpl; intros He; [done|done|]. rewrite IH by done. lia.
Qed.

Lemma sum16_positive l a k : 0 < b2z a -> 0 < sum16 (l ++ a :: k).
Proof.
  intros Ha. induction l as [|b|b c l IH] using pair_ind.
  - destruct k as [|c k]; cbn [app sum16]; [lia|]. rewrite be_get_2.
    pose proof (b2z_bound c). pose proof (sum16_bound k). lia.
  - change ([b] ++ a :: k) with (b :: a :: k). cbn [sum16]. rewrite be_get_2. pose proof (b2z_bound b).
    pose proof (sum16_bound k). lia.
  - change ((b :: c :: l) ++ a :: k) with (b :: c :: (l ++ a :: k)). cbn [sum16]. rewrite be_get_2.
    pose proof (b2z_bound b). pose proof (b2z_bound c). lia.
Qed.

Lemma sum_words_exact l : forall acc, 0 <= acc -> acc + sum16 l < 2 ^ 32 -> sum_words acc l = acc + sum16 l.
Proof.
  induction l as [|a|a b l IH] using pair_ind; cbn [sum16 sum_words]; intros acc Ha Hb; [lia| |].
  - rewrite Z.shiftl_mul_pow2 by lia. pose proof (b2z_bound a). unfold u32. apply Z.mod_small. lia.
  - rewrite be_get_2 in *. pose proof (sum16_bound l). pose proof (b2z_bound a). pose proof (b2z_bound b).
    replace (u32 (acc + (b2z a * 256 + b2z b))) with (acc + (b2z a * 256 + b2z b))
      by (unfold u32; rewrite Z.mod_small; lia).
    rewrite IH; lia.
Qed.

(** Folding the carries keeps the sum modulo 65535 and lands in 16 bits. *)
Lemma fold_carry_spec s : 0 <= s < 2 ^ 32 ->
  let r := fold_carry 3 s in 0 <= r <= 65535 /\ r mod 65535 = s mod 65535 /\ (r = 0 <-> s = 0).
Proof.
  assert (Step : forall x, 0 <= x < 2 ^ 32 -> Z.shiftr x 16 = x / 65536 /\
    u32 (Z.land x 65535 + Z.shiftr x 16) = x mod 65536 + x / 65536).
  { intros x Hx. rewrite Z.shiftr_div_pow2 by lia. change (2 ^ 16) with 65536. split; [done|].
    change 65535 with (Z.ones 16). rewrite Z.land_ones by lia. change (2 ^ 16) with 65536.
    unfold u32. rewrite Z.mod_small; [done|]. dlia. }
  intros Hs. cbv zeta.
  assert (Small : forall n x, 0 <= x < 65536 -> fold_carry n x = x).
  { intros n x Hx. destruct n; cbn [fold_carry]; [done|]. rewrite decide_False; [done|].
    rewrite Z.shiftr_div_pow2 by lia. change (2 ^ 16) with 65536. rewrite Z.div_small; lia. }
  assert (Mod : forall x, 0 <= x < 2 ^ 32 -> (x mod 65536 + x / 65536) mod 65535 = x mod 65535).
  { intros x Hx. rewrite (Z.div_mod x 65536) at 3 by lia.
    replace (65536 * (x / 65536) + x mod 65536) with (x mod 65536 + x / 65536 + x / 65536 * 65535) by lia.
    by rewrite Z_mod_plus_full. }
  destruct (decide (s < 65536)); [rewrite Small by lia; split_and!; lia|].
  set (s1 := s mod 65536 + s / 65536). assert (H1 : 0 < s1 <= 131070) by (unfold s1; dlia).
  assert (E1 : fold_carry 3 s = fold_carry 2 s1).
  { cbn [fold_carry]. destruct (Step s Hs) as [A B]. rewrite decide_True by (rewrite A; dlia).
    by rewrite B. }
  rewrite E1. destruct (decide (s1 < 65536)).
  { rewrite Small by lia. split; [lia|]. split; [by apply Mod|lia]. }
  set (s2 := s1 mod 65536 + s1 / 65536). assert (H2 : 0 < s2 <= 65535) by (unfold s2; dlia).
  assert (E2 : fold_carry 2 s1 = fold_carry 1 s2).
  { cbn [fold_carry]. destruct (Step s1 ltac:(lia)) as [A B]. rewrite decide_True by (rewrite A; dlia).
    by rewrite B. }
  rewrite E2, Small by lia. split; [lia|]. split; [|lia].
  unfold s2. rewrite Mod by lia. by apply Mod.
Qed.

Definition fits (l : list byte) : Prop := Z.of_nat (length l) < 2 ^ 17 - 2.

Lemma checksum_eq l : fits l -> checksum l = 65535 - fold_carry 3 (sum16 l) /\ 0 <= sum16 l < 2 ^ 32.
Proof.
  intros Hl. unfold fits in Hl. pose proof (sum16_bound l).
  assert (Hs : 0 <= sum16 l < 2 ^ 32) by lia. split; [|done].
  unfold checksum. rewrite sum_words_exact, Z.add_0_l by lia.
  destruct (fold_carry_spec _ Hs) as (Hr & _). unfold u16. rewrite Z.mod_small by lia.
  set (r := fold_carry 3 (sum16 l)) in *. change 65535 with (Z.ones 16) at 1.
  assert (D : Z.land r (Z.lxor r (Z.ones 16)) = 0).
  { apply Z.bits_inj'. intros i Hi. rewrite Z.land_spec, Z.lxor_spec, Z.bits_0.
    destruct (decide (i < 16)); [rewrite Z.ones_spec_low by lia; by destruct (Z.testbit r i)|].
    destruct (decide (r = 0)) as [->|]; [by rewrite Z.bits_0|].
    rewrite (Z.bits_above_log2 r); [done|lia|]. apply Z.log2_lt_pow2; [lia|].
    apply Z.lt_le_trans with (2 ^ 16); [lia|apply Z.pow_le_mono_r; lia]. }
  pose proof (Z.add_nocarry_lxor _ _ D) as E.
  rewrite <- Z.lxor_assoc, Z.lxor_nilpotent, Z.lxor_0_l in E. change (Z.ones 16) with 65535 in E at 2. lia.
Qed.

Lemma checksum_bound l : fits l -> 0 <= checksum l < 2 ^ 16.
Proof.
  intros Hl. destruct (checksum_eq l Hl) as [-> Hs]. destruct (fold_carry_spec _ Hs) as (Hr & _). lia.
Qed.

(** Data with its checksum in place sums to zero, in one's complement. *)
Lemma checksum_verifies a b :
  Nat.even (length a) = true -> fits (a ++ [x00; x00] ++ b) -> 0 < sum16 (a ++ [x00; x00] ++ b) ->
  checksum (a ++ be_put 2 (checksum (a ++ [x00; x00] ++ b)) ++ b) = 0.
Proof.
  intros He Hf Hp. set (z := a ++ [x00; x00] ++ b) in *. pose proof (checksum_bound z Hf) as Hc.
  set (c := checksum z) in *. set (k := a ++ be_put 2 c ++ b).
  assert (HL : length k = length z) by (unfold k, z; lens; lia).
  assert (Hfk : fits k) by (unfold fits; rewrite HL; exact Hf).
  assert (Es : sum16 k = sum16 z + c).
  { unfold k, z. rewrite !sum16_app by done.
    change (sum16 (be_put 2 c)) with (be_get (be_put 2 c) + 0).
    rewrite be_get_put_small by (change (256 ^ Z.of_nat 2) with (2 ^ 16); lia).
    change (sum16 [x00; x00]) with 0. lia. }
  destruct (checksum_eq z Hf) as [Ec Hz]. destruct (checksum_eq k Hfk) as [-> Hk].
  destruct (fold_carry_spec _ Hz) as (Hr1 & Hr2 & _). destruct (fold_carry_spec _ Hk) as (Hq1 & Hq2 & Hq3).
  fold c in Ec. set (r := fold_carry 3 (sum16 z)) in *. set (q := fold_carry 3 (sum16 k)) in *.
  assert (Hm : q mod 65535 = 0).
  { rewrite Hq2, Es, Ec. rewrite Zplus_mod, <- Hr2, <- Zplus_mod.
    replace (r + (65535 - r)) with (1 * 65535) by lia. by rewrite Z_mod_mult. }
  assert (q <> 0) by (rewrite Hq3; lia). dlia.
Qed.

Lemma zero16 i l : (i + 2 <= length l)%nat ->
  <[S i := x00]> (<[i := x00]> l) = take i l ++ [x00; x00] ++ drop (i + 2) l.
Proof.
  intros Hi. apply list_eq. intros j.
  destruct (decide (j = S i)) as [->|].
  { rewrite list_lookup_insert_eq by (rewrite length_insert; lia).
    rewrite lookup_app_r by (lens; lia). lens. by replace (S i - i `min` length l)%nat with 1%nat by lia. }
  rewrite list_lookup_insert_ne by done. destruct (decide (j = i)) as [->|].
  { rewrite list_lookup_insert_eq by lia. rewrite lookup_app_r by (lens; lia). lens.
    by replace (i - i `min` length l)%nat with 0%nat by lia. }
  rewrite list_lookup_insert_ne by done. destruct (decide (j < i)%nat).
  - rewrite lookup_app_l by (lens; lia). by rewrite lookup_take_lt.
  - rewrite lookup_app_r, lookup_app_r by (lens; lia). rewrite lookup_drop. f_equal. lens. lia.
Qed.

Lemma put16_zero16 i v l : (i + 2 <= length l)%nat ->
  put16 i v (<[S i := x00]> (<[i := x00]> l)) = take i l ++ be_put 2 (u16 v) ++ drop (i + 2) l.
Proof.
  intros. rewrite zero16 by done. unfold put16. f_equal.
  - by rewrite take_app_length' by (lens; lia).
  - f_equal. rewrite drop_app, drop_app. lens. rewrite !drop_ge by (lens; lia). simpl.
    replace (i + 2 - i `min` length l - 2)%nat with 0%nat by lia. done.
Qed.

(** The checksum fields verify after they are recomputed. *)
Definition ipv4_checksum_ok (packet : list byte) (h : IPv4Header) : Prop :=
  checksum (take (HeaderLen h) packet) = 0.
Definition tcp_checksum_ok (packet : list byte) (h : IPv4Header) : Prop :=
  checksum (pseudo_segment packet (slice packet (HeaderLen h) (TotalLen h))) = 0.

(** The checksum of data with a zeroed field, written into that field. *)
Lemma checksum_field_verifies pre i l post :
  Nat.even (length pre + i) = true -> (i + 2 <= length l)%nat -> fits (pre ++ l ++ post) ->
  0 < sum16 (pre ++ (take i l ++ [x00; x00] ++ drop (i + 2) l) ++ post) ->
  checksum (pre ++ (take i l ++
    be_put 2 (u16 (checksum (pre ++ (take i l ++ [x00; x00] ++ drop (i + 2) l) ++ post))) ++ drop (i + 2) l) ++ post) = 0.
Proof.
  intros He Hi Hf Hp.
  assert (Ht : length (take i l) = i) by (lens; lia).
  assert (Hlen : length (take i l ++ [x00; x00] ++ drop (i + 2) l) = length l) by (lens; lia).
  replace (pre ++ (take i l ++ [x00; x00] ++ drop (i + 2) l) ++ post)
    with ((pre ++ take i l) ++ [x00; x00] ++ (drop (i + 2) l ++ post)) in *
    by (by rewrite <- !(assoc_L (++))).
  assert (Hfz : fits ((pre ++ take i l) ++ [x00; x00] ++ (drop (i + 2) l ++ post))).
  { unfold fits in *. revert Hf. lens. lia. }
  pose proof (checksum_bound _ Hfz) as Hb. unfold u16. rewrite Z.mod_small by done.
  set (c := checksum _) in *.
  replace (pre ++ (take i l ++ be_put 2 c ++ drop (i + 2) l) ++ post)
    with ((pre ++ take i l) ++ be_put 2 c ++ (drop (i + 2) l ++ post)) by (by rewrite <- !(assoc_L (++))).
  apply checksum_verifies; [|done..]. rewrite length_app, Ht. done.
Qed.

Lemma recomputeIPv4_verifies hdr :
  (20 <= length hdr)%nat -> fits hdr -> 0 < b2z (at_ hdr 0) -> checksum (recomputeIPv4HeaderChecksum hdr) = 0.
Proof.
  intros Hl Hf Hp. unfold recomputeIPv4HeaderChecksum. rewrite put16_zero16, zero16 by lia.
  pose proof (checksum_field_verifies [] 10 hdr []) as H. rewrite !app_nil_r, !app_nil_l in H.
  apply H; [done|lia|done|].
  destruct hdr as [|b hdr]; [simpl in Hl; lia|]. apply (sum16_positive []). done.
Qed.

Definition pseudo_prefix (packet : list byte) (n : nat) : list byte :=
  slice packet 12 16 ++ slice packet 16 20 ++ [x00] ++ IPv4ProtocolTCP :: be_put 2 (u16 (Z.of_nat n)).
Definition pad (n : nat) : list byte := if decide (n mod 2 = 1)%nat then [x00] else [].

Lemma length_pseudo_prefix packet n : (20 <= length packet)%nat -> length (pseudo_prefix packet n) = 12%nat.
Proof. intros. unfold pseudo_prefix. rewrite !length_app, !length_slice by lia. done. Qed.

Lemma pseudo_prefix_agree packet packet' n :
  (forall j, (12 <= j < 20)%nat -> packet !! j = packet' !! j) -> pseudo_prefix packet n = pseudo_prefix packet' n.
Proof.
  intros H. unfold pseudo_prefix.
  rewrite (slice_agree packet packet' 12 16), (slice_agree packet packet' 16 20); [done|..]; intros; apply H; lia.
Qed.

Lemma pseudo_segment_eq packet tcp : (20 <= length packet)%nat ->
  pseudo_segment packet tcp = pseudo_prefix packet (length tcp) ++ tcp ++ pad (12 + length tcp).
Proof.
  intros Hp. unfold pseudo_segment.
  replace (slice packet 12 16 ++ slice packet 16 20 ++ [x00; IPv4ProtocolTCP] ++ be_put 2 (u16 (Z.of_nat (length tcp))) ++ tcp)
    with (pseudo_prefix packet (length tcp) ++ tcp)
    by (unfold pseudo_prefix; by rewrite <- !(assoc_L (++))).
  cbv zeta. rewrite length_app, length_pseudo_prefix by done. unfold pad.
  case_decide; rewrite ?app_nil_r, <- ?(assoc_L (++)); done.
Qed.

Lemma pseudo_positive packet n k : 0 < sum16 (pseudo_prefix packet n ++ k).
Proof.
  unfold pseudo_prefix. rewrite (assoc_L (++) (slice packet 16 20)), (assoc_L (++) (slice packet 12 16)), <- (assoc_L (++)).
  by apply sum16_positive.
Qed.

(** After [recomputeTCPChecksum], the packet differs in the checksum field of the
    segment only, and the segment verifies. *)
Lemma recomputeTCP_spec packet h :
  (20 <= HeaderLen h)%nat -> (HeaderLen h + 18 <= TotalLen h)%nat -> (TotalLen h <= length packet)%nat ->
  Z.of_nat (TotalLen h) < 65536 ->
  let packet' := recomputeTCPChecksum packet h in
  length packet' = length packet /\ tcp_checksum_ok packet' h /\
  (forall j, j <> (HeaderLen h + 16)%nat -> j <> (HeaderLen h + 17)%nat -> packet' !! j = packet !! j).
Proof.
  intros H1 H2 H3 H4. cbv zeta. unfold recomputeTCPChecksum. cbv zeta.
  set (tcp := slice packet (HeaderLen h) (TotalLen h)).
  assert (Lt : length tcp = (TotalLen h - HeaderLen h)%nat) by (unfold tcp; rewrite length_slice; lia).
  set (z := <[17%nat := x00]> (<[16%nat := x00]> tcp)).
  assert (Lz : length z = length tcp) by (unfold z; by rewrite !length_insert).
  set (c := checksum (pseudo_segment packet z)). set (tcp' := put16 16 c z).
  assert (Lt' : length tcp' = length tcp) by (unfold tcp'; rewrite length_put16; lia).
  fold (splice packet tcp' (HeaderLen h) (TotalLen h)). set (packet' := splice _ _ _ _).
  assert (LP : length packet' = length packet) by (apply length_splice; lia).
  assert (HS : forall j, j <> (HeaderLen h + 16)%nat -> j <> (HeaderLen h + 17)%nat -> packet' !! j = packet !! j).
  { intros j ? ?. destruct (decide (HeaderLen h <= j < TotalLen h)%nat).
    - unfold packet'. rewrite splice_lookup_in by lia. unfold tcp'. rewrite put16_lookup_ne by lia.
      unfold z. rewrite !list_lookup_insert_ne by lia. unfold tcp. rewrite slice_lookup by lia. f_equal. lia.
    - apply splice_lookup_out; lia. }
  split_and!; [done| |done].
  unfold tcp_checksum_ok, packet'. rewrite slice_splice by lia. fold packet'.
  rewrite pseudo_segment_eq by lia.
  rewrite (pseudo_prefix_agree packet' packet) by (intros; apply HS; lia).
  rewrite Lt'. set (pre := pseudo_prefix packet (length tcp)). set (post := pad (12 + length tcp)).
  assert (Lpre : length pre = 12%nat) by (apply length_pseudo_prefix; lia).
  assert (Lpost : (length post <= 1)%nat) by (unfold post, pad; case_decide; simpl; lia).
  assert (Ez : z = take 16 tcp ++ [x00; x00] ++ drop (16 + 2) tcp) by (apply zero16; lia).
  assert (Ec : c = checksum (pre ++ (take 16 tcp ++ [x00; x00] ++ drop (16 + 2) tcp) ++ post)).
  { unfold c. rewrite pseudo_segment_eq by lia. rewrite Lz, Ez. done. }
  assert (Et : tcp' = take 16 tcp ++ be_put 2 (u16 c) ++ drop (16 + 2) tcp) by (apply put16_zero16; lia).
  rewrite Et, Ec. apply checksum_field_verifies; [by rewrite Lpre|lia| |apply pseudo_positive].
  unfold fits. rewrite !length_app, Lpre. lia.
Qed.

(* ------------------------------------------------------------------ *)
(** ** The MSS clamp *)

(** The MSS options of a segment, found by the same walk. *)
Fixpoint mss_options (fuel i dataOffset : nat) (tcp : list byte) : list Z :=
  match fuel with
  | O => []
  | S fuel' =>
    if decide (dataOffset <= i)%nat then []
    else
      let kind := at_ tcp i in
      if decide (kind = x00) then []
      else if decide (kind = x01) then mss_options fuel' (i + 1) dataOffset tcp
      else if decide (dataOffset <= i + 1)%nat then []
      else
        let l := Z.to_nat (b2z (at_ tcp (i + 1))) in
        if decide (l < 2 \/ dataOffset < i + l)%nat then []
        else if decide (kind = x02 /\ l = 4%nat)
        then get16 tcp (i + 2) :: mss_options fuel' (i + l) dataOffset tcp
        else mss_options fuel' (i + l) dataOffset tcp
  end.

Lemma mss_options_agree fuel : forall i d tcp tcp',
  (forall j, (i <= j < d)%nat -> tcp' !! j = tcp !! j) ->
  mss_options fuel i d tcp' = mss_options fuel i d tcp.
Proof.
  induction fuel as [|fuel IH]; intros i d tcp tcp' H; cbn [mss_options]; [done|].
  case_decide; [done|]. cbv zeta. rewrite (at_agree tcp' tcp i) by (apply H; lia).
  case_decide; [done|]. case_decide; [apply IH; intros; apply H; lia|]. case_decide; [done|].
  rewrite (at_agree tcp' tcp (i + 1)) by (apply H; lia). set (l := Z.to_nat _) in *.
  case_decide; [done|]. case_decide as Hm.
  - rewrite (get16_agree tcp' tcp (i + 2)) by (apply H; lia). f_equal. apply IH. intros; apply H; lia.
  - apply IH. intros; apply H; lia.
Qed.

(** With enough fuel, the loop's result does not depend on it: it has terminated. *)
Lemma clamp_options_exit fuel i d m tcp ch : (d <= i)%nat -> clamp_options fuel i d m tcp ch = (tcp, ch).
Proof. intros. destruct fuel; simpl; [done|]. by rewrite decide_True. Qed.

Lemma clamp_options_fuel f1 : forall f2 i d m tcp ch,
  (d - i <= f1)%nat -> (d - i <= f2)%nat -> clamp_options f1 i d m tcp ch = clamp_options f2 i d m tcp ch.
Proof.
  induction f1 as [|f1 IH]; intros f2 i d m tcp ch H1 H2.
  { by rewrite !clamp_options_exit by lia. }
  destruct (decide (d <= i)%nat); [by rewrite !clamp_options_exit by lia|].
  destruct f2 as [|f2]; [lia|]. cbn [clamp_options]. rewrite !(decide_False (P := (d <= i)%nat)) by done.
  cbv zeta.
  repeat case_decide; apply IH; lia.
Qed.

(** What the option loop does to a segment. *)
Record clamped (i d : nat) (m : Z) (tcp tcp' : list byte) (ch ch' : bool) : Prop := {
  cl_len : length tcp' = length tcp;
  cl_out : forall j, ~ (i <= j < d)%nat -> tcp' !! j = tcp !! j;
  cl_mss : forall fuel, mss_options fuel i d tcp' = map (Z.min m) (mss_options fuel i d tcp);
  cl_same : ch' = false -> tcp' = tcp /\ ch = false;
}.

Lemma clamped_refl i d m tcp ch :
  (forall fuel, mss_options fuel i d tcp = []) -> clamped i d m tcp tcp ch ch.
Proof. intros H. split; try done. intros. by rewrite H. Qed.

Lemma clamp_options_spec fuel : forall i d m tcp ch tcp' ch',
  (d - i <= fuel)%nat -> (d <= length tcp)%nat -> 0 < m < 2 ^ 16 ->
  clamp_options fuel i d m tcp ch = (tcp', ch') -> clamped i d m tcp tcp' ch ch'.
Proof.
  induction fuel as [|fuel IH]; intros i d m tcp ch tcp' ch' Hf Hl Hm HC.
  { injection HC as <- <-. apply clamped_refl. intros [|f]; simpl; [done|]. by rewrite decide_True by lia. }
  cbn [clamp_options] in HC. case_decide as Hi.
  { injection HC as <- <-. apply clamped_refl. intros [|f]; simpl; [done|]. by rewrite decide_True. }
  cbv zeta in HC. case_decide as H0.
  { rewrite clamp_options_exit in HC by lia. injection HC as <- <-. apply clamped_refl.
    intros [|f]; simpl; [done|]. by rewrite decide_False, decide_True. }
  case_decide as H1.
  { apply IH in HC as [A B C D]; [|lia..]. split; [done|intros; apply B; lia| |done].
    intros [|f]; [done|]. cbn [mss_options]. cbv zeta.
    rewrite !(decide_False (P := (d <= i)%nat)) by lia. rewrite (at_agree tcp' tcp i) by (apply B; lia).
    rewrite H1. apply C. }
  case_decide as H2.
  { rewrite clamp_options_exit in HC by lia. injection HC as <- <-. apply clamped_refl.
    intros [|f]; simpl; [done|]. rewrite !decide_False, decide_True by (done || lia). done. }
  set (l := Z.to_nat (b2z (at_ tcp (i + 1)))) in *. case_decide as H3.
  { rewrite clamp_options_exit in HC by lia. injection HC as <- <-. apply clamped_refl.
    intros [|f]; cbn [mss_options]; [done|]. cbv zeta. fold l. rewrite 4 decide_False, decide_True by (done || lia). done. }
  set (tcp1 := if decide (at_ tcp i = x02 /\ l = 4%nat /\ m < get16 tcp (i + 2)) then put16 (i + 2) m tcp else tcp).
  set (ch1 := if decide (at_ tcp i = x02 /\ l = 4%nat /\ m < get16 tcp (i + 2)) then true else ch).
  assert (HC' : clamp_options fuel (i + l) d m tcp1 ch1 = (tcp', ch')) by (unfold tcp1, ch1; case_decide; done).
  clear HC.
  assert (L1 : length tcp1 = length tcp) by (unfold tcp1; case_decide; [apply length_put16; lia|done]).
  assert (O1 : forall j, ~ (i + 2 <= j < i + l)%nat -> tcp1 !! j = tcp !! j).
  { intros j Hj. unfold tcp1. case_decide; [|done]. apply put16_lookup_ne; lia. }
  apply IH in HC' as [A B C D]; [|lia..].
  split; [congruence|intros j Hj; rewrite B, O1 by lia; done| |].
  2: { intros Hc. destruct (D Hc) as [-> E]. unfold tcp1, ch1 in *. case_decide; [done|auto]. }
  intros [|f]; [done|]. cbn [mss_options]. cbv zeta.
  rewrite (at_agree tcp' tcp i), (at_agree tcp' tcp (i + 1)) by (rewrite B, O1 by lia; done). fold l.
  rewrite !(decide_False (P := (d <= i)%nat)), !(decide_False (P := at_ tcp i = x00)),
    !(decide_False (P := at_ tcp i = x01)), !(decide_False (P := (d <= i + 1)%nat)),
    !(decide_False (P := (l < 2 \/ d < i + l)%nat)) by done.
  rewrite C, (mss_options_agree f (i + l) d tcp tcp1) by (intros; apply O1; lia).
  case_decide as H4; [|done]. cbn [map]. f_equal. destruct H4 as [K2 L4].
  rewrite (get16_agree tcp' tcp1) by (apply B; lia). unfold tcp1. case_decide as H5.
  - rewrite get16_put16 by lia. lia.
  - assert (get16 tcp (i + 2) <= m) by (destruct (decide (m < get16 tcp (i + 2))); [tauto|lia]). lia.
Qed.

(** Recomputing the header checksum of a packet. *)
Lemma recomputeIPv4_spec packet n :
  (20 <= n)%nat -> (n <= length packet)%nat -> Z.of_nat n < 65536 -> 0 < b2z (at_ packet 0) ->
  let packet' := recomputeIPv4HeaderChecksum (take n packet) ++ drop n packet in
  length packet' = length packet /\ checksum (take n packet') = 0 /\
  (forall j, j <> 10%nat -> j <> 11%nat -> packet' !! j = packet !! j).
Proof.
  intros H1 H2 H3 H4. cbv zeta. set (hdr := take n packet).
  assert (Lh : length hdr = n) by (unfold hdr; lens; lia).
  assert (Lr : length (recomputeIPv4HeaderChecksum hdr) = n).
  { unfold recomputeIPv4HeaderChecksum. rewrite length_put16; rewrite !length_insert; lia. }
  split_and!.
  - rewrite length_app, Lr. lens. lia.
  - rewrite take_app_length' by done. apply recomputeIPv4_verifies; [lia|unfold fits; lia|].
    unfold hdr, at_. rewrite lookup_take_lt by lia. exact H4.
  - intros j ? ?. destruct (decide (j < n)%nat).
    + rewrite lookup_app_l by lia. unfold recomputeIPv4HeaderChecksum.
      rewrite put16_lookup_ne by (rewrite ?length_insert; lia).
      rewrite !list_lookup_insert_ne by done. unfold hdr. by rewrite lookup_take_lt.
    + rewrite lookup_app_r, Lr by lia. rewrite lookup_drop. f_equal. lia.
Qed.

(** The MSS options of a packet with a TCP segment. *)
Definition tcp_segment (packet : list byte) (h : IPv4Header) : list byte := slice packet (HeaderLen h) (TotalLen h).
Definition data_offset (packet : list byte) (h : IPv4Header) : nat := (hi4 (at_ (tcp_segment packet h) 12) * 4)%nat.
Definition packet_mss (packet : list byte) (h : IPv4Header) : list Z :=
  mss_options (data_offset packet h) 20 (data_offset packet h) (tcp_segment packet h).

Lemma header_TotalLen_small packet h : header_wf packet h -> Z.of_nat (TotalLen h) < 65536.
Proof. intros W. rewrite (hw_total16 _ _ W). apply get16_bound. Qed.

Lemma version_positive packet h : header_wf packet h -> 0 < b2z (at_ packet 0).
Proof.
  intros W. pose proof (hw_ver _ _ W) as Hv. unfold hi4 in Hv.
  destruct (Z.eq_dec (b2z (at_ packet 0)) 0) as [E|]; [by rewrite E in Hv|].
  pose proof (b2z_bound (at_ packet 0)). lia.
Qed.

(** The packet with both checksums recomputed. *)
Definition rechecksum (packet : list byte) (h : IPv4Header) : list byte :=
  let packet2 := recomputeIPv4HeaderChecksum (take (HeaderLen h) packet) ++ drop (HeaderLen h) packet in
  recomputeTCPChecksum (take (TotalLen h) packet2) h ++ drop (TotalLen h) packet2.

Lemma rechecksum_spec packet h :
  header_wf packet h -> (HeaderLen h + 20 <= TotalLen h)%nat ->
  let packet' := rechecksum packet h in
  length packet' = length packet /\ ipv4_checksum_ok packet' h /\ tcp_checksum_ok packet' h /\
  (forall j, j <> 10%nat -> j <> 11%nat -> j <> (HeaderLen h + 16)%nat -> j <> (HeaderLen h + 17)%nat ->
    packet' !! j = packet !! j).
Proof.
  intros W Htcp. cbv zeta. pose proof (hw_ihl _ _ W). pose proof (hw_total _ _ W).
  pose proof (header_TotalLen_small _ _ W).
  destruct (recomputeIPv4_spec packet (HeaderLen h)) as (L2 & C2 & S2);
    [lia|lia|lia|by apply (version_positive _ h)|].
  unfold rechecksum. cbv zeta. set (packet2 := recomputeIPv4HeaderChecksum _ ++ _) in *.
  destruct (recomputeTCP_spec (take (TotalLen h) packet2) h) as (L3 & C3 & S3); [lia|lia|lens; lia|lia|].
  set (p3 := recomputeTCPChecksum _ h) in *. rewrite length_take, L2, Nat.min_l in L3 by lia.
  assert (HS : forall j, j <> (HeaderLen h + 16)%nat -> j <> (HeaderLen h + 17)%nat ->
    (p3 ++ drop (TotalLen h) packet2) !! j = packet2 !! j).
  { intros j ? ?. destruct (decide (j < TotalLen h)%nat).
    - rewrite lookup_app_l by lia. rewrite S3 by done. by rewrite lookup_take_lt.
    - rewrite lookup_app_r, L3 by lia. rewrite lookup_drop. f_equal. lia. }
  split_and!.
  - rewrite length_app, L3. lens. lia.
  - unfold ipv4_checksum_ok. rewrite <- C2. f_equal. apply list_eq. intros j.
    destruct (decide (j < HeaderLen h)%nat); [rewrite !lookup_take_lt by done; apply HS; lia|
      by rewrite !lookup_take_ge by lia].
  - unfold tcp_checksum_ok in *. rewrite slice_app_l by lia.
    rewrite <- C3. f_equal. rewrite !pseudo_segment_eq by (rewrite ?length_app; lia).
    f_equal. apply pseudo_prefix_agree. intros j Hj. by rewrite lookup_app_l by lia.
  - intros j ? ? ? ?. rewrite HS by done. by apply S2.
Qed.

Lemma data_offset_agree packet packet' h :
  (HeaderLen h + 20 <= TotalLen h)%nat ->
  (forall j, (HeaderLen h + 12 = j)%nat -> packet' !! j = packet !! j) -> data_offset packet' h = data_offset packet h.
Proof.
  intros Hl H. unfold data_offset, tcp_segment. f_equal. f_equal. apply at_agree.
  rewrite !slice_lookup by lia. by apply H.
Qed.

(** The clamp, for a SYN. *)
Lemma ClampTCPMSS_syn packet h m ch packet' :
  ParseIPv4 packet = Ok h -> TCPSYN h = true -> 0 < m < 2 ^ 16 -> ClampTCPMSS packet m = (ch, packet') ->
  length packet' = length packet /\
  (forall j, ~ (HeaderLen h + 20 <= j < HeaderLen h + data_offset packet h)%nat ->
    j <> 10%nat -> j <> 11%nat -> j <> (HeaderLen h + 16)%nat -> j <> (HeaderLen h + 17)%nat ->
    packet' !! j = packet !! j) /\
  packet_mss packet' h = map (Z.min m) (packet_mss packet h) /\
  (if ch then ipv4_checksum_ok packet' h /\ tcp_checksum_ok packet' h else packet' = packet).
Proof.
  intros HP HS Hm HC. pose proof (ParseIPv4_wf _ _ HP) as W.
  destruct (hw_syn _ _ W HS) as (Hproto & Hd & _).
  pose proof (hw_ihl _ _ W) as Hi. pose proof (hw_total _ _ W) as Ht.
  unfold ClampTCPMSS in HC. rewrite HP in HC. cbv zeta in HC.
  fold (tcp_segment packet h) in HC, Hd. fold (data_offset packet h) in HC, Hd.
  rewrite decide_False in HC by (rewrite HS; intros [?|[?|?]]; [done|done|lia]).
  assert (Lt : length (tcp_segment packet h) = (TotalLen h - HeaderLen h)%nat)
    by (unfold tcp_segment; rewrite length_slice; lia).
  rewrite decide_False in HC by lia. set (d := data_offset packet h) in *.
  destruct (clamp_options _ _ _ _ _ _) as [tcp' ch'] eqn:Ec.
  apply clamp_options_spec in Ec as [A B C D]; [|lia..].
  fold (splice packet tcp' (HeaderLen h) (TotalLen h)) in HC. set (p1 := splice packet tcp' _ _) in *.
  assert (L1 : length p1 = length packet) by (apply length_splice; lia).
  assert (S1 : forall j, ~ (HeaderLen h + 20 <= j < HeaderLen h + d)%nat -> p1 !! j = packet !! j).
  { intros j Hj. destruct (decide (HeaderLen h <= j < TotalLen h)%nat).
    - unfold p1. rewrite splice_lookup_in by lia. rewrite B by lia. unfold tcp_segment.
      rewrite slice_lookup by lia. f_equal. lia.
    - apply splice_lookup_out; lia. }
  assert (T1 : tcp_segment p1 h = tcp') by (apply slice_splice; lia).
  destruct ch'.
  - fold (rechecksum p1 h) in HC. injection HC as <- <-.
    assert (W1 : header_wf p1 h).
    { apply ParseIPv4_wf, (ParseIPv4_agree packet); [done|lia|].
      intros j _ Hj. apply S1. unfold parse_reads in Hj. lia. }
    destruct (rechecksum_spec p1 h W1 ltac:(lia)) as (L3 & C4 & C5 & S3).
    split; [congruence|]. split; [intros; rewrite S3, S1 by done; done|]. split; [|done].
    unfold packet_mss. rewrite (data_offset_agree packet) by (try lia; intros; rewrite S3, S1 by lia; done).
    fold d. rewrite <- C, <- T1. apply mss_options_agree. intros j Hj. unfold tcp_segment.
    rewrite !slice_lookup by lia. apply S3; lia.
  - injection HC as <- <-. destruct (D eq_refl) as [-> _].
    assert (E1 : p1 = packet) by (apply splice_slice; lia).
    rewrite E1 in *. split_and!; try done. unfold packet_mss. fold d. by rewrite <- C.
Qed.

Lemma ClampTCPMSS_other packet m :
  (forall h, ParseIPv4 packet = Ok h -> TCPSYN h = false) -> ClampTCPMSS packet m = (false, packet).
Proof.
  intros H. unfold ClampTCPMSS. destruct (ParseIPv4 packet) as [h|]; [|done].
  by rewrite decide_True by (right; left; by apply H).
Qed.

(** The clamp keeps the parsed header. *)
Lemma ClampTCPMSS_parse packet h m :
  ParseIPv4 packet = Ok h -> 0 < m < 2 ^ 16 ->
  ParseIPv4 (ClampTCPMSS packet m).2 = Ok h /\ length (ClampTCPMSS packet m).2 = length packet.
Proof.
  intros HP Hm. pose proof (ParseIPv4_wf _ _ HP) as W. pose proof (hw_ihl _ _ W). pose proof (hw_total _ _ W).
  destruct (TCPSYN h) eqn:HS.
  - destruct (ClampTCPMSS packet m) as [ch p'] eqn:E.
    destruct (ClampTCPMSS_syn _ _ _ _ _ HP HS Hm E) as (L & A & _). simpl. split; [|done].
    apply (ParseIPv4_agree packet); [done|lia|]. intros j _ Hj. apply A; unfold parse_reads in Hj; lia.
  - rewrite ClampTCPMSS_other; [by split|]. intros h0 E. congruence.
Qed.

(** C5. The clamp of a SYN lowers every MSS option above the bound to it and no
    other, leaves the header and the data as they parse, and recomputes both
    checksums whenever it changed the packet. *)
Theorem ClampTCPMSS_correct (packet packet' : list byte) (h : IPv4Header) (maxMSS : Z) (changed : bool) :
  ParseIPv4 packet = Ok h -> TCPSYN h = true -> 0 < maxMSS < 2 ^ 16 ->
  ClampTCPMSS packet maxMSS = (changed, packet') ->
  ParseIPv4 packet' = Ok h /\ length packet' = length packet /\
  packet_mss packet' h = map (Z.min maxMSS) (packet_mss packet h) /\
  drop (HeaderLen h + data_offset packet h) packet' = drop (HeaderLen h + data_offset packet h) packet /\
  (if changed then ipv4_checksum_ok packet' h /\ tcp_checksum_ok packet' h else packet' = packet).
Proof.
  intros HP HS Hm HC. pose proof (ClampTCPMSS_parse packet h maxMSS HP Hm) as HP'.
  destruct (ClampTCPMSS_syn _ _ _ _ _ HP HS Hm HC) as (HL & HA & HM & HX). rewrite HC in HP'.
  pose proof (hw_ihl _ _ (ParseIPv4_wf _ _ HP)). destruct (hw_syn _ _ (ParseIPv4_wf _ _ HP) HS) as (_ & Hd & _).
  split_and!; [apply HP'|done|done| |done].
  apply list_eq. intros j. rewrite !lookup_drop. unfold data_offset, tcp_segment in *. apply HA; lia.
Qed.

(* ------------------------------------------------------------------ *)
(** ** Access rules *)

Section RuleTheorems.
  Context `{GU : GoUnicode}.

(** The rule denies the packet. *)
Definition denies (networkID : Z) (src dst : string) (h : IPv4Header) (rule : VirtualACLRule) : bool :=
  acl_Enabled rule && bool_decide (acl_NetworkID rule = networkID) &&
  matchACLRule rule networkID src dst h && EqualFold (TrimSpace (acl_Action rule)) "deny".

Lemma allowACL_existsb acl networkID src dst h :
  allowACL acl networkID src dst h = negb (existsb (denies networkID src dst h) acl).
Proof.
  unfold allowACL. induction acl as [|rule acl IH]; simpl; [done|].
  unfold denies at 1. destruct (acl_Enabled rule); simpl; [|done].
  destruct (bool_decide _); simpl; [|done]. destruct (matchACLRule _ _ _ _ _); simpl; [|done].
  destruct (EqualFold _ "deny"); simpl; [done|]. by destruct (_ || _).
Qed.

(** The access rules admit a packet unless an enabled rule of the network that
    matches it denies it: the order of the rules and the allow rules do not matter. *)
Theorem allowACL_iff (acl : list VirtualACLRule) (networkID : Z) (src dst : string) (h : IPv4Header) :
  allowACL acl networkID src dst h = true <-> ~ exists rule, rule ∈ acl /\ denies networkID src dst h rule = true.
Proof.
  rewrite allowACL_existsb, negb_true_iff, <- not_true_iff_false, existsb_exists.
  split; intros H (rule & Hin & Hd); apply H; exists rule; by rewrite list_elem_of_In in *.
Qed.

End RuleTheorems.

(* ------------------------------------------------------------------ *)
(** ** Routing *)

Definition total_events (s : RouterStats) : Z :=
  TxPackets s + ACLDeny (Drops s) + RouteMiss (Drops s) + MTU (Drops s) + PeerUnavailable (Drops s) +
  InvalidPacket (Drops s) + UnsupportedProtocol (Drops s).

Lemma u64_cong x y k : x = y + k * 2 ^ 64 -> u64 x = u64 y.
Proof. intros ->. unfold u64. by rewrite Z_mod_plus_full. Qed.

Lemma inc_shift x : exists k, inc x = x + 1 + k * 2 ^ 64.
Proof. exists (- ((x + 1) / 2 ^ 64)). unfold inc, u64. rewrite Z.mod_eq by lia. lia. Qed.

(** A drop counts one event, whatever the reason, and no forwarded packet. *)
Lemma recordDrop_total reason r :
  let s' := r_stats (recordDrop reason r) in
  u64 (total_events s') = u64 (total_events (r_stats r) + 1) /\ TxPackets s' = TxPackets (r_stats r).
Proof.
  unfold recordDrop, total_events. cbv zeta.
  repeat case_decide; cbn; (split; [|done]);
    match goal with |- context [inc ?x] => destruct (inc_shift x) as [k ->] end;
    apply u64_cong with k; lia.
Qed.

Section RouteTheorems.
  Context `{GU : GoUnicode}.

(** A packet the router would forward to [dst], with the header [h]. *)
Definition routable (r : Router) (packet : list byte) (h : IPv4Header) (dst : string) : Prop :=
  Z.of_nat (length packet) <= r_mtu r /\ ParseIPv4 packet = Ok h /\
  Protocol h ∈ [IPv4ProtocolTCP; IPv4ProtocolUDP; IPv4ProtocolICMP] /\
  r_routes r !! IPv4_String (DestIP h) = Some dst /\ dst <> EmptyString /\
  r_peerAvailable r !! dst <> Some false /\
  ~ exists rule, rule ∈ r_acl r /\ denies (r_networkID r) (r_sourceDeviceID r) dst h rule = true.

(** The payload of a forwarded packet. *)
Definition forwarded_payload (r : Router) (packet : list byte) (h : IPv4Header) : list byte :=
  let p := take (TotalLen h) packet in
  if decide (Protocol h = IPv4ProtocolTCP) then (ClampTCPMSS p (MSSForMTU (r_mtu r))).2 else p.

Lemma RouteOutbound_cases r packet :
  (exists h dst, routable r packet h dst /\
    (RouteOutbound (Some r) packet).1 = Ok (mkRoutedFrame (r_networkID r) (r_sourceDeviceID r) dst x01
      (forwarded_payload r packet h) h)) \/
  (exists e, (RouteOutbound (Some r) packet).1 = Err e /\ forall h dst, ~ routable r packet h dst).
Proof.
  unfold RouteOutbound, routable. cbv zeta.
  case_decide as Hm; [right; eexists; split; [done|]; intros h dst (? & _); lia|].
  destruct (ParseIPv4 packet) as [h|e] eqn:HP; [|right; eexists; split; [done|]; intros h dst (_ & ? & _); done].
  case_decide as Hp; [right; eexists; split; [done|]; intros h' dst (_ & ? & ? & _); simplify_eq; done|].
  destruct (r_routes r !! IPv4_String (DestIP h)) as [dst|] eqn:Hr.
  2: { right. rewrite decide_True by done. eexists; split; [done|]. intros h' dst (_ & ? & _ & Hr' & _). simplify_eq. }
  simpl default.
  case_decide as Hd; [right; eexists; split; [done|]; intros h' dst' (_ & ? & _ & ? & ? & _); simplify_eq|].
  case_decide as Ha; [right; eexists; split; [done|]; intros h' dst' (_ & ? & _ & ? & _ & ? & _); simplify_eq|].
  destruct (allowACL _ _ _ _ _) eqn:Hacl; simpl.
  2: { right. eexists; split; [done|]. intros h' dst' (_ & ? & _ & ? & _ & _ & Hn). simplify_eq.
       apply not_true_iff_false in Hacl. rewrite allowACL_existsb, negb_true_iff, <- not_true_iff_false, existsb_exists in Hacl.
       apply Hacl. intros (x & ? & ?). apply Hn. exists x. by rewrite list_elem_of_In. }
  left. exists h, dst. split.
  - split_and!; try done; [lia|]. rewrite allowACL_existsb, negb_true_iff, <- not_true_iff_false, existsb_exists in Hacl.
    intros (x & Hx & ?). apply Hacl. exists x. by rewrite list_elem_of_In in Hx.
  - unfold forwarded_payload. cbv zeta. case_decide as Ht; [|done].
    destruct (ClampTCPMSS_parse (take (TotalLen h) packet) h (MSSForMTU (r_mtu r))) as [-> _];
      [by apply ParseIPv4_take| |done].
    pose proof (MSSForMTU_bounds (r_mtu r)). lia.
Qed.

(** C4. The router forwards exactly the packets that fit the MTU, parse, carry
    TCP, UDP or ICMP, have a route to a device not known to be unavailable, and that
    no access rule denies; the frame names the route's device. *)
Theorem RouteOutbound_forwards_iff (r : Router) (packet : list byte) (dst : string) :
  (exists f, (RouteOutbound (Some r) packet).1 = Ok f /\ rf_DstDevice f = dst) <->
  exists h, routable r packet h dst.
Proof.
  destruct (RouteOutbound_cases r packet) as [(h & dst' & HR & ->)|(e & -> & HN)].
  - split.
    + intros (f & [= <-] & <-). by exists h.
    + intros (h' & HR'). eexists; split; [done|]. simpl.
      destruct HR as (_ & P1 & _ & R1 & _), HR' as (_ & P2 & _ & R2 & _).
      rewrite P1 in P2. injection P2 as <-. congruence.
  - split; [by intros (f & ? & _)|]. intros (h & HR). by destruct (HN h dst HR).
Qed.

(** The payload of a forwarded frame is the packet cut to its total length; a
    TCP SYN has its MSS options within the tunnel's MSS, with valid checksums if
    they had to change. *)
Theorem RouteOutbound_payload (r : Router) (packet : list byte) (f : RoutedFrame) :
  (RouteOutbound (Some r) packet).1 = Ok f ->
  let h := rf_Header f in
  ParseIPv4 packet = Ok h /\ ParseIPv4 (rf_Payload f) = Ok h /\ length (rf_Payload f) = TotalLen h /\
  (TCPSYN h = false -> rf_Payload f = take (TotalLen h) packet) /\
  (TCPSYN h = true -> Forall (fun mss => mss <= MSSForMTU (r_mtu r)) (packet_mss (rf_Payload f) h)) /\
  (rf_Payload f <> take (TotalLen h) packet ->
    ipv4_checksum_ok (rf_Payload f) h /\ tcp_checksum_ok (rf_Payload f) h).
Proof.
  intros HR. destruct (RouteOutbound_cases r packet) as [(h & dst & (_ & HP & _) & E)|(e & E & _)];
    rewrite E in HR; [|done]. injection HR as <-. cbv zeta. cbn [rf_Header rf_Payload].
  pose proof (ParseIPv4_take _ _ HP) as HT. pose proof (ParseIPv4_wf _ _ HP) as W.
  pose proof (hw_total _ _ W). pose proof (MSSForMTU_bounds (r_mtu r)) as Hm.
  assert (LT : length (take (TotalLen h) packet) = TotalLen h) by (lens; lia).
  unfold forwarded_payload. cbv zeta. set (m := MSSForMTU (r_mtu r)) in *.
  set (p := take (TotalLen h) packet) in *.
  destruct (TCPSYN h) eqn:HS.
  - rewrite decide_True by (by apply (hw_syn _ _ W)).
    destruct (ClampTCPMSS_parse p h m HT ltac:(lia)) as [HP' HL'].
    destruct (ClampTCPMSS p m) as [ch p'] eqn:HC.
    destruct (ClampTCPMSS_syn p h m ch p' HT HS ltac:(lia) HC) as (_ & _ & HM & HX).
    cbn [snd] in *. split_and!; [done|done|congruence|done| |].
    + intros _. rewrite HM. apply Forall_forall. intros x (y & -> & _)%list_elem_of_fmap. lia.
    + intros Hne. by destruct ch.
  - assert (E2 : (if decide (Protocol h = IPv4ProtocolTCP) then (ClampTCPMSS p m).2 else p) = p).
    { case_decide; [|done]. rewrite ClampTCPMSS_other; [done|]. intros h' ?. congruence. }
    rewrite E2. split_and!; done.
Qed.

(** Every outbound packet is counted once: exactly one of the forwarded
    packets and the drop counters grows, and the forwarded ones grow exactly when a
    frame is returned; the routes, rules and availability are untouched. *)
Theorem RouteOutbound_counts (r : Router) (packet : list byte) :
  exists r', (RouteOutbound (Some r) packet).2 = Some r' /\
  u64 (total_events (r_stats r')) = u64 (total_events (r_stats r) + 1) /\
  TxPackets (r_stats r') =
    (if is_ok (RouteOutbound (Some r) packet).1 then inc (TxPackets (r_stats r)) else TxPackets (r_stats r)) /\
  set_stats r' (r_stats r) = r.
Proof.
  assert (Drop : forall reason, u64 (total_events (r_stats (recordDrop reason r))) = u64 (total_events (r_stats r) + 1) /\
    TxPackets (r_stats (recordDrop reason r)) = TxPackets (r_stats r) /\
    set_stats (recordDrop reason r) (r_stats r) = r).
  { intros reason. destruct (recordDrop_total reason r) as [? ?]. split_and!; [done..|by destruct r]. }
  unfold RouteOutbound. cbv zeta.
  case_decide; [eexists; split; [done|apply Drop]|].
  destruct (ParseIPv4 packet) as [h|e]; [|eexists; split; [done|apply Drop]].
  do 3 (case_decide; [eexists; split; [done|apply Drop]|]).
  destruct (negb _); [eexists; split; [done|apply Drop]|].
  destruct (if decide (Protocol h = IPv4ProtocolTCP) then _ else _) as [payload h'].
  eexists. split; [done|]. simpl. split_and!; [|done|by destruct r].
  unfold total_events. simpl. destruct (inc_shift (TxPackets (r_stats r))) as [k ->].
  apply u64_cong with k. lia.
Qed.

End RouteTheorems.

(* ------------------------------------------------------------------ *)
(** ** Construction *)

(** The address gives the route of the textual address [k]. *)
Definition routes_to (networkID : Z) (k : string) (a : VirtualAddress) : bool :=
  bool_decide (va_NetworkID a = networkID) && negb (bool_decide (TrimSpace (va_DeviceID a) = EmptyString)) &&
  bool_decide (IPv4_String <$> To4 (ParseIP (TrimSpace (va_VirtualIP a))) = Some k).

Lemma buildRoutes_snoc nid l a :
  buildRoutes nid (l ++ [a]) =
    if decide (va_NetworkID a <> nid \/ TrimSpace (va_DeviceID a) = EmptyString) then buildRoutes nid l
    else match To4 (ParseIP (TrimSpace (va_VirtualIP a))) with
         | None => buildRoutes nid l
         | Some ip => <[IPv4_String ip := va_DeviceID a]> (buildRoutes nid l)
         end.
Proof. unfold buildRoutes. by rewrite fold_left_app. Qed.

Lemma buildRoutes_lookup nid l k :
  buildRoutes nid l !! k = va_DeviceID <$> List.find (routes_to nid k) (rev l).
Proof.
  induction l as [|a l IH] using rev_ind; [done|].
  rewrite buildRoutes_snoc, rev_app_distr. cbn [rev app List.find]. unfold routes_to at 1.
  case_decide as Hv.
  { rewrite IH. destruct Hv as [Hv|Hv]; [by rewrite bool_decide_eq_false_2 by done|].
    rewrite (bool_decide_eq_true_2 (TrimSpace _ = _)) by done. by rewrite andb_false_r. }
  apply Decidable.not_or in Hv as [Hn Hd]. apply dec_stable in Hn.
  rewrite bool_decide_eq_true_2, bool_decide_eq_false_2 by done. cbn [andb negb].
  destruct (To4 _) as [ip|]; cbn [fmap option_fmap option_map]; [|by rewrite bool_decide_eq_false_2 by done].
  destruct (decide (IPv4_String ip = k)) as [<-|Hk].
  - rewrite lookup_insert_eq. by rewrite bool_decide_eq_true_2.
  - rewrite lookup_insert_ne by done. rewrite bool_decide_eq_false_2 by congruence. done.
Qed.

(** A new router routes an address to the device of the last entry of its
    network with that IPv4 address and a device; it has a positive MTU, keeps the
    rules, and starts with empty counters. *)
Theorem NewRouter_routes (cfg : RouterConfig) (r : Router) (k : string) :
  NewRouter cfg = Ok r ->
  r_routes r !! k = va_DeviceID <$> List.find (routes_to (r_networkID r) k) (rev (cfg_Addresses cfg)) /\
  0 < r_mtu r /\ 0 < r_networkID r /\ r_acl r = cfg_ACLRules cfg /\ total_events (r_stats r) = 0.
Proof.
  unfold NewRouter. case_decide; [done|]. case_decide; [done|]. intros [= <-]. simpl.
  split_and!; [apply buildRoutes_lookup|unfold DefaultMTU; case_decide; lia|lia|done|done].
Qed.

(* ------------------------------------------------------------------ *)
(** ** Witnesses *)

(** A SYN from 172.16.10.1:12345 to 172.16.10.2:443 with an MSS option of 1460. *)
Definition toy_syn : list byte :=
  [x45; x00; x00; x2c; x00; x00; x00; x00; x40; x06; x00; x00; xac; x10; x0a; x01; xac; x10; x0a; x02;
   x30; x39; x01; xbb; x00; x00; x00; x01; x00; x00; x00; x00; x60; x02; xff; xff; x00; x00; x00; x00;
   x02; x04; x05; xb4].

Definition toy_header : IPv4Header :=
  mkIPv4Header 20 44 IPv4ProtocolTCP [xac; x10; x0a; x01] [xac; x10; x0a; x02] 12345 443 true 24.

Definition toy_config : RouterConfig :=
  mkRouterConfig 7 "dev-a" 0 [mkVirtualAddress "dev-b" 7 " 172.16.10.2" "" false "" ""] [] ∅.

Definition toy_router : Router :=
  mkRouter 7 "dev-a" 1280 {["172.16.10.2"%string := "dev-b"%string]} [] ∅ RouterStats_zero.

Lemma ClampTCPMSS_correct_witness :
  packet_mss toy_syn toy_header = [1460] /\
  ParseIPv4 (ClampTCPMSS toy_syn 1200).2 = Ok toy_header /\
  packet_mss (ClampTCPMSS toy_syn 1200).2 toy_header = [1200].
Proof.
  split; [by vm_compute|].
  destruct (ClampTCPMSS_correct toy_syn (ClampTCPMSS toy_syn 1200).2 toy_header 1200 true) as (A & _ & B & _);
    [by vm_compute|reflexivity|lia|by vm_compute|].
  split; [exact A|]. rewrite B. by vm_compute.
Defined.

Lemma RouteOutbound_payload_witness :
  exists f, (@RouteOutbound ascii_unicode (Some toy_router) toy_syn).1 = Ok f /\
    Forall (fun mss => mss <= 1200) (packet_mss (rf_Payload f) (rf_Header f)).
Proof.
  destruct (@RouteOutbound ascii_unicode (Some toy_router) toy_syn).1 as [f|e] eqn:E;
    [|exfalso; vm_compute in E; discriminate E].
  exists f. split; [reflexivity|].
  destruct (@RouteOutbound_payload ascii_unicode toy_router toy_syn f E) as (_ & _ & _ & _ & H & _).
  apply H. vm_compute in E. by injection E as <-.
Defined.

Lemma NewRouter_routes_witness :
  exists r, NewRouter toy_config = Ok r /\ r_routes r !! "172.16.10.2"%string = Some "dev-b"%string.
Proof.
  destruct (NewRouter toy_config) as [r|] eqn:E; [|exfalso; vm_compute in E; discriminate E].
  exists r. split; [reflexivity|].
  destruct (NewRouter_routes toy_config r "172.16.10.2" E) as [-> _].
  assert (r_networkID r = 7) as -> by (vm_compute in E; by injection E as <-). by vm_compute.
Defined.
