(* ===== verification/Link.v ===== *)
(** * Link: the sessions with LAN peers (internal/packet/link.go)

    The link manager keeps one session per peer, on the direct or the relay path.
    Its map is a [gmap]; each operation takes the time it reads from the clock and
    returns the manager after it. The loops over the map do not depend on its order. *)

From S2P Require Import Prelude GoStrings Store.

Definition LinkPathP2P : string := "p2p".
Definition LinkPathRelay : string := "relay".
Definition DefaultMaxPeerSessions : Z := 64.
Definition DefaultKeepAliveEvery : Duration := 15 * second.
Definition DefaultIdleTimeout : Duration := 2 * minute.

Inductive link_error : Type := ErrPeerSessionLimit | ErrPeerNotFound | ErrLinkUnavailable.

#[export] Instance link_error_eq_dec : EqDecision link_error.
Proof. solve_decision. Defined.

Record PeerEndpoint : Type := mkPeerEndpoint { ep_DeviceID : string; ep_Addr : string; ep_UPnPAddr : string }.

Record LinkConfig : Type := mkLinkConfig {
  lc_DeviceID : string; lc_ForceRelay : bool; lc_MaxPeerSessions : Z;
  lc_KeepAliveEvery : Duration; lc_IdleTimeout : Duration;
}.

Record PeerSession : Type := mkPeerSession {
  PeerID : string; Profile : string; Path : string; Endpoint : PeerEndpoint; Relay : PeerEndpoint;
  State : string; Attempt : Z; LastError : string; CreatedAt : Time; LastSeenAt : Time;
  LastSentAt : Time; LastRecvAt : Time; NetworkEpoch : Z; s_TxBytes : Z; s_RxBytes : Z;
  s_RelayBytes : Z; s_KeepAlives : Z;
}.

Record LinkStats : Type := mkLinkStats {
  ActiveSessions : Z; Created : Z; Rebuilt : Z; Closed : Z; l_TxBytes : Z; l_RxBytes : Z;
  l_RelayBytes : Z; l_KeepAlives : Z; LimitDrops : Z;
}.

Definition LinkStats_zero : LinkStats := mkLinkStats 0 0 0 0 0 0 0 0 0.

Record LinkFrame : Type := mkLinkFrame { lf_PeerID : string; lf_Path : string; lf_Payload : list byte }.

Record LinkManager : Type := mkLinkManager {
  m_deviceID : string; m_forceRelay : bool; m_maxSessions : Z; m_keepAliveEvery : Duration;
  m_idleTimeout : Duration; m_sessions : gmap string PeerSession; m_stats : LinkStats;
}.

Definition with_sessions (m : LinkManager) (ss : gmap string PeerSession) (st : LinkStats) : LinkManager :=
  mkLinkManager (m_deviceID m) (m_forceRelay m) (m_maxSessions m) (m_keepAliveEvery m) (m_idleTimeout m) ss st.

(* ------------------------------------------------------------------ *)
(** ** Operations *)

Definition NewLinkManager (cfg : LinkConfig) : LinkManager :=
  mkLinkManager (lc_DeviceID cfg) (lc_ForceRelay cfg)
    (if decide (lc_MaxPeerSessions cfg <= 0) then DefaultMaxPeerSessions else lc_MaxPeerSessions cfg)
    (if decide (lc_KeepAliveEvery cfg <= 0) then DefaultKeepAliveEvery else lc_KeepAliveEvery cfg)
    (if decide (lc_IdleTimeout cfg <= 0) then DefaultIdleTimeout else lc_IdleTimeout cfg)
    ∅ LinkStats_zero.

Definition endpoint_zero : PeerEndpoint := mkPeerEndpoint EmptyString EmptyString EmptyString.

(** [&PeerSession{PeerID: key, Profile: ..., CreatedAt: now}]. *)
Definition new_session (key : string) (now : Time) : PeerSession :=
  mkPeerSession key ProfileLANPacket EmptyString endpoint_zero endpoint_zero EmptyString 0 EmptyString
    now time_zero time_zero time_zero 0 0 0 0 0.

Definition UpsertPeer (now : Time) (m : LinkManager) (peer relay : PeerEndpoint) (p2pReady : bool)
  : result link_error PeerSession * LinkManager :=
  let key := ep_DeviceID peer in
  let st := m_stats m in
  if decide (key = EmptyString) then (Err ErrPeerNotFound, m)
  else
    let existing := m_sessions m !! key in
    if decide (existing = None /\ m_maxSessions m <= Z.of_nat (size (m_sessions m))) then
      (Err ErrPeerSessionLimit,
       with_sessions m (m_sessions m)
         (mkLinkStats (ActiveSessions st) (Created st) (Rebuilt st) (Closed st) (l_TxBytes st) (l_RxBytes st)
            (l_RelayBytes st) (l_KeepAlives st) (u64 (LimitDrops st + 1))))
    else
      let session := default (new_session key now) existing in
      let created := match existing with None => u64 (Created st + 1) | Some _ => Created st end in
      let path := if negb (m_forceRelay m) && p2pReady then LinkPathP2P else LinkPathRelay in
      let rebuilt := if decide (Path session <> EmptyString /\ Path session <> path)
                     then u64 (Rebuilt st + 1) else Rebuilt st in
      let session' :=
        mkPeerSession (PeerID session) (Profile session) path peer relay path (Attempt session) EmptyString
          (CreatedAt session) now (LastSentAt session) (LastRecvAt session) (NetworkEpoch session)
          (s_TxBytes session) (s_RxBytes session) (s_RelayBytes session) (s_KeepAlives session) in
      (Ok session',
       with_sessions m (<[key := session']> (m_sessions m))
         (mkLinkStats (ActiveSessions st) created rebuilt (Closed st) (l_TxBytes st) (l_RxBytes st)
            (l_RelayBytes st) (l_KeepAlives st) (LimitDrops st))).

Definition Send (now : Time) (m : LinkManager) (peerID : string) (payload : list byte)
  : result link_error LinkFrame * LinkManager :=
  match m_sessions m !! peerID with
  | None => (Err ErrPeerNotFound, m)
  | Some session =>
    if decide (State session = EmptyString \/ Path session = EmptyString) then (Err ErrLinkUnavailable, m)
    else
      let n := Z.of_nat (length payload) in
      let st := m_stats m in
      let relayed := bool_decide (Path session = LinkPathRelay) in
      let session' :=
        mkPeerSession (PeerID session) (Profile session) (Path session) (Endpoint session) (Relay session)
          (State session) (Attempt session) (LastError session) (CreatedAt session) (LastSeenAt session)
          now (LastRecvAt session) (NetworkEpoch session) (u64 (s_TxBytes session + n)) (s_RxBytes session)
          (if relayed then u64 (s_RelayBytes session + n) else s_RelayBytes session) (s_KeepAlives session) in
      (Ok (mkLinkFrame peerID (Path session) payload),
       with_sessions m (<[peerID := session']> (m_sessions m))
         (mkLinkStats (ActiveSessions st) (Created st) (Rebuilt st) (Closed st) (u64 (l_TxBytes st + n)) (l_RxBytes st)
            (if relayed then u64 (l_RelayBytes st + n) else l_RelayBytes st) (l_KeepAlives st) (LimitDrops st)))
  end.

Definition Receive (now : Time) (m : LinkManager) (peerID : string) (payload : list byte) (path : string)
  : result link_error unit * LinkManager :=
  match m_sessions m !! peerID with
  | None => (Err ErrPeerNotFound, m)
  | Some session =>
    let n := Z.of_nat (length payload) in
    let st := m_stats m in
    let moved := bool_decide (path <> EmptyString /\ path <> Path session) in
    let session' :=
      mkPeerSession (PeerID session) (Profile session) (if moved then path else Path session)
        (Endpoint session) (Relay session) (if moved then path else State session) (Attempt session)
        (LastError session) (CreatedAt session) (LastSeenAt session) (LastSentAt session) now
        (NetworkEpoch session) (s_TxBytes session) (u64 (s_RxBytes session + n)) (s_RelayBytes session)
        (s_KeepAlives session) in
    (Ok tt,
     with_sessions m (<[peerID := session']> (m_sessions m))
       (mkLinkStats (ActiveSessions st) (Created st) (Rebuilt st) (Closed st) (l_TxBytes st)
          (u64 (l_RxBytes st + n)) (l_RelayBytes st) (l_KeepAlives st) (LimitDrops st)))
  end.

(** The condition of [DueKeepAlives] on one session, and what it does to it. *)
Definition keepalive_due (m : LinkManager) (now : Time) (s : PeerSession) : bool :=
  negb (bool_decide (Path s = EmptyString)) && negb (bool_decide (State s = EmptyString)) &&
  (IsZero (LastSentAt s) || bool_decide (m_keepAliveEvery m <= time_sub now (LastSentAt s))).

Definition mark_keepalive (now : Time) (s : PeerSession) : PeerSession :=
  mkPeerSession (PeerID s) (Profile s) (Path s) (Endpoint s) (Relay s) (State s) (Attempt s) (LastError s)
    (CreatedAt s) (LastSeenAt s) now (LastRecvAt s) (NetworkEpoch s) (s_TxBytes s) (s_RxBytes s)
    (s_RelayBytes s) (u64 (s_KeepAlives s + 1)).

(** [sort.Slice] by peer. *)
Definition frame_le (a b : LinkFrame) : Prop := String.le (lf_PeerID a) (lf_PeerID b).
#[export] Instance frame_le_dec : RelDecision frame_le.
Proof. intros a b. unfold frame_le. apply _. Defined.
#[export] Instance frame_le_total : Total frame_le.
Proof. intros a b. unfold frame_le. apply (total String.le). Qed.
#[export] Instance frame_le_trans : Transitive frame_le.
Proof. intros a b c. unfold frame_le. apply transitivity. Qed.

Definition DueKeepAlives (now : Time) (m : LinkManager) : list LinkFrame * LinkManager :=
  let due := filter (fun kv => keepalive_due m now kv.2 = true) (m_sessions m) in
  let st := m_stats m in
  let out := map (fun kv => mkLinkFrame (PeerID kv.2) (Path kv.2) []) (map_to_list due) in
  (merge_sort frame_le out,
   with_sessions m
     ((fun s => if keepalive_due m now s then mark_keepalive now s else s) <$> m_sessions m)
     (mkLinkStats (ActiveSessions st) (Created st) (Rebuilt st) (Closed st) (l_TxBytes st) (l_RxBytes st)
        (l_RelayBytes st) (u64 (l_KeepAlives st + Z.of_nat (size due))) (LimitDrops st))).

Definition RebuildForNetworkChange (now : Time) (m : LinkManager) : LinkManager :=
  let st := m_stats m in
  with_sessions m
    ((fun s => mkPeerSession (PeerID s) (Profile s) EmptyString (Endpoint s) (Relay s) "rebuilding" (Attempt s)
        "network_changed" (CreatedAt s) now (LastSentAt s) (LastRecvAt s) (u64 (NetworkEpoch s + 1))
        (s_TxBytes s) (s_RxBytes s) (s_RelayBytes s) (s_KeepAlives s)) <$> m_sessions m)
    (mkLinkStats (ActiveSessions st) (Created st) (u64 (Rebuilt st + Z.of_nat (size (m_sessions m)))) (Closed st)
       (l_TxBytes st) (l_RxBytes st) (l_RelayBytes st) (l_KeepAlives st) (LimitDrops st)).

(** The two [continue] tests of [CleanupIdle]. *)
Definition idle (m : LinkManager) (now : Time) (s : PeerSession) : bool :=
  if decide (IsZero (LastSeenAt s) = false /\ time_sub now (LastSeenAt s) <= m_idleTimeout m) then false
  else if decide (IsZero (LastSeenAt s) = true /\ time_sub now (CreatedAt s) <= m_idleTimeout m) then false
  else true.

Definition CleanupIdle (now : Time) (m : LinkManager) : list string * LinkManager :=
  let dead := filter (fun kv => idle m now kv.2 = true) (m_sessions m) in
  let st := m_stats m in
  (sort_strings (map fst (map_to_list dead)),
   with_sessions m (filter (fun kv => idle m now kv.2 = false) (m_sessions m))
     (mkLinkStats (ActiveSessions st) (Created st) (Rebuilt st) (u64 (Closed st + Z.of_nat (size dead)))
        (l_TxBytes st) (l_RxBytes st) (l_RelayBytes st) (l_KeepAlives st) (LimitDrops st))).

Definition SessionOf (m : LinkManager) (peerID : string) : option PeerSession := m_sessions m !! peerID.

Definition Link_Stats (m : LinkManager) : LinkStats :=
  let st := m_stats m in
  mkLinkStats (u64 (Z.of_nat (size (m_sessions m)))) (Created st) (Rebuilt st) (Closed st) (l_TxBytes st)
    (l_RxBytes st) (l_RelayBytes st) (l_KeepAlives st) (LimitDrops st).

(* ------------------------------------------------------------------ *)
(** ** Reachable managers *)

Inductive link_op : Type :=
  | OpUpsert (peer relay : PeerEndpoint) (p2pReady : bool)
  | OpSend (peerID : string) (payload : list byte)
  | OpReceive (peerID : string) (payload : list byte) (path : string)
  | OpKeepAlives
  | OpRebuild
  | OpCleanup.

Definition apply_op (now : Time) (m : LinkManager) (op : link_op) : LinkManager :=
  match op with
  | OpUpsert peer relay ready => (UpsertPeer now m peer relay ready).2
  | OpSend id payload => (Send now m id payload).2
  | OpReceive id payload path => (Receive now m id payload path).2
  | OpKeepAlives => (DueKeepAlives now m).2
  | OpRebuild => RebuildForNetworkChange now m
  | OpCleanup => (CleanupIdle now m).2
  end.

Inductive reachable (cfg : LinkConfig) : LinkManager -> Prop :=
  | reach_new : reachable cfg (NewLinkManager cfg)
  | reach_step m now op : reachable cfg m -> reachable cfg (apply_op now m op).

(** A session is filed under its peer and carries the LAN profile; it has a path
    exactly when it is usable, and its state then names the path. *)
Record session_wf (key : string) (s : PeerSession) : Prop := {
  sw_key : PeerID s = key;
  sw_nonempty : key <> EmptyString;
  sw_profile : Profile s = ProfileLANPacket;
  sw_state : State s = if decide (Path s = EmptyString) then "rebuilding"%string else Path s;
}.

Record link_inv (m : LinkManager) : Prop := {
  li_max : 0 < m_maxSessions m;
  li_size : Z.of_nat (size (m_sessions m)) <= m_maxSessions m;
  li_wf : map_Forall session_wf (m_sessions m);
  li_count : u64 (Created (m_stats m)) = u64 (Closed (m_stats m) + Z.of_nat (size (m_sessions m)));
}.

Lemma link_inv_update m key s s' st :
  link_inv m -> m_sessions m !! key = Some s -> session_wf key s' ->
  Created st = Created (m_stats m) -> Closed st = Closed (m_stats m) ->
  link_inv (with_sessions m (<[key := s']> (m_sessions m)) st).
Proof.
  intros [H1 H2 H3 H4] Hs Hw HC HD.
  assert (Hsz : size (<[key := s']> (m_sessions m)) = size (m_sessions m)) by (by rewrite map_size_insert, Hs).
  split; simpl; rewrite ?Hsz, ?HC, ?HD; try done. by apply map_Forall_insert_2.
Qed.

Lemma link_inv_fmap m f st :
  link_inv m -> (forall k s, session_wf k s -> session_wf k (f s)) ->
  Created st = Created (m_stats m) -> Closed st = Closed (m_stats m) ->
  link_inv (with_sessions m (f <$> m_sessions m) st).
Proof.
  intros [H1 H2 H3 H4] Hf HC HD. split; simpl; rewrite ?map_size_fmap, ?HC, ?HD; try done.
  intros k s' (s & <- & Hs)%lookup_fmap_Some. apply Hf. by apply H3.
Qed.

Lemma UpsertPeer_inv now m peer relay ready : link_inv m -> link_inv (UpsertPeer now m peer relay ready).2.
Proof.
  intros HI. pose proof HI as [H1 H2 H3 H4]. unfold UpsertPeer. case_decide as Hk; [done|].
  case_decide as Hfull; [by split|]. cbv zeta. simpl.
  set (path := if negb _ && _ then _ else _).
  assert (Hpath : path <> EmptyString) by (unfold path; by destruct (_ && _)).
  destruct (m_sessions m !! ep_DeviceID peer) as [s|] eqn:E; simpl.
  - eapply link_inv_update; [done|exact E| |done..]. destruct (H3 _ _ E).
    split; simpl; [done..|]. by rewrite decide_False.
  - assert (Hsz : size (<[ep_DeviceID peer := mkPeerSession (ep_DeviceID peer) ProfileLANPacket path peer relay path 0
      EmptyString now now time_zero time_zero 0 0 0 0 0]> (m_sessions m)) = S (size (m_sessions m)))
      by (by rewrite map_size_insert, E).
    split; simpl; rewrite ?Hsz; try done.
    + destruct (decide (m_maxSessions m <= Z.of_nat (size (m_sessions m)))); [by destruct Hfull|lia].
    + apply map_Forall_insert_2; [|done]. split; simpl; [done..|]. by rewrite decide_False.
    + rewrite u64_add_l || idtac. unfold u64 in *. rewrite Zmod_mod, Nat2Z.inj_succ, <- Zplus_mod_idemp_l, H4.
      rewrite Zplus_mod_idemp_l. f_equal. lia.
Qed.

Lemma Send_inv now m id payload : link_inv m -> link_inv (Send now m id payload).2.
Proof.
  intros HI. unfold Send. destruct (m_sessions m !! id) as [s|] eqn:E; [|done]. case_decide; [done|].
  eapply link_inv_update; [done|exact E| |done..]. destruct (li_wf _ HI _ _ E). by split.
Qed.

Lemma Receive_inv now m id payload path : link_inv m -> link_inv (Receive now m id payload path).2.
Proof.
  intros HI. unfold Receive. destruct (m_sessions m !! id) as [s|] eqn:E; [|done].
  eapply link_inv_update; [done|exact E| |done..]. destruct (li_wf _ HI _ _ E). split; simpl; [done..|].
  case_bool_decide as Hm; [|done]. by rewrite decide_False by tauto.
Qed.

Lemma DueKeepAlives_inv now m : link_inv m -> link_inv (DueKeepAlives now m).2.
Proof. intros HI. apply link_inv_fmap; [done| |done..]. intros k s []. simpl. destruct (keepalive_due m now s); by split. Qed.

Lemma Rebuild_inv now m : link_inv m -> link_inv (RebuildForNetworkChange now m).
Proof. intros HI. apply link_inv_fmap; [done| |done..]. intros k s []. by split. Qed.

Lemma filter_partition {A} (f : A -> bool) (m : gmap string A) :
  (size (filter (fun kv => f kv.2 = true) m) + size (filter (fun kv => f kv.2 = false) m) = size m)%nat.
Proof.
  assert (E : filter (fun kv => f kv.2 = false) m = filter (fun kv => ~ f kv.2 = true) m).
  { apply map_filter_ext. intros. simpl. by rewrite not_true_iff_false. }
  rewrite E, <- map_size_disj_union by apply map_disjoint_filter_complement.
  by rewrite map_filter_union_complement.
Qed.

Lemma CleanupIdle_inv now m : link_inv m -> link_inv (CleanupIdle now m).2.
Proof.
  intros [H1 H2 H3 H4]. unfold CleanupIdle. simpl.
  pose proof (filter_partition (idle m now) (m_sessions m)) as Hp.
  split; simpl; [done|lia| |].
  - intros k s Hs%map_lookup_filter_Some_1_1. by apply H3.
  - rewrite H4, u64_add_l. f_equal. lia.
Qed.

(** C6. Whatever the sequence of operations and the times they read, the manager
    never holds more sessions than its limit, every session is filed under its own
    peer with a state that matches its path, and the sessions opened minus those
    closed are the ones it holds. *)
Theorem link_reachable_inv (cfg : LinkConfig) (m : LinkManager) :
  reachable cfg m -> link_inv m /\ (0 < lc_MaxPeerSessions cfg -> m_maxSessions m = lc_MaxPeerSessions cfg).
Proof.
  induction 1 as [|m now op _ [IH IHm]].
  - unfold NewLinkManager, DefaultMaxPeerSessions. split; [|simpl; intros; case_decide; lia].
    split; simpl; rewrite ?map_size_empty; [case_decide; lia|case_decide; lia|apply map_Forall_empty|done].
  - split; [|intros Hc; rewrite <- (IHm Hc)].
    + destruct op; cbn [apply_op]; auto using UpsertPeer_inv, Send_inv, Receive_inv, DueKeepAlives_inv, Rebuild_inv, CleanupIdle_inv.
    + destruct op; cbn [apply_op]; try done.
      * unfold UpsertPeer. cbv zeta. case_decide; [done|]. by case_decide.
      * unfold Send. destruct (_ !! _); [|done]. by case_decide.
      * unfold Receive. by destruct (_ !! _).
Qed.

(** [CleanupIdle] closes exactly the sessions last refreshed (or, never
    refreshed, created) longer than the idle timeout ago, and reports their peers in
    order; traffic does not count as a refresh. *)
Theorem CleanupIdle_spec (now : Time) (m : LinkManager) (k : string) :
  let '(closed, m') := CleanupIdle now m in
  Sorted String.le closed /\
  (k ∈ closed <-> exists s, m_sessions m !! k = Some s /\
     m_idleTimeout m < time_sub now (if IsZero (LastSeenAt s) then CreatedAt s else LastSeenAt s)) /\
  m_sessions m' !! k = (if decide (k ∈ closed) then None else m_sessions m !! k).
Proof.
  unfold CleanupIdle. set (closed := sort_strings _). set (m' := with_sessions _ _ _).
  assert (Hidle : forall s, idle m now s = true <->
    m_idleTimeout m < time_sub now (if IsZero (LastSeenAt s) then CreatedAt s else LastSeenAt s)).
  { intros s. unfold idle. destruct (IsZero (LastSeenAt s)); repeat case_decide; split; try done; intros; lia || naive_solver lia. }
  assert (Hin : k ∈ closed <-> exists s, m_sessions m !! k = Some s /\ idle m now s = true).
  { unfold closed. rewrite sort_strings_perm. rewrite list_elem_of_fmap. split.
    - intros ([k' s] & -> & Hk%elem_of_map_to_list). apply map_lookup_filter_Some in Hk as [??]. eauto.
    - intros (s & ? & ?). exists (k, s). split; [done|]. apply elem_of_map_to_list, map_lookup_filter_Some. done. }
  split_and!; [apply sort_strings_sorted|rewrite Hin; naive_solver|].
  unfold m'. simpl. case_decide as Hc.
  - apply map_lookup_filter_None. right. apply Hin in Hc as (s & Hs & Hi). intros s' Hs'. simpl. replace s' with s by congruence. by rewrite Hi.
  - destruct (m_sessions m !! k) as [s|] eqn:E; [|by apply map_lookup_filter_None; left].
    apply map_lookup_filter_Some. split; [done|]. simpl. apply not_true_iff_false. intros Hi. apply Hc, Hin. eauto.
Qed.

(** [DueKeepAlives] returns one empty frame, on the session's path, for every
    usable session silent for the interval, in the order of the peers; at the same
    moment nothing more is due. *)
Theorem DueKeepAlives_spec (cfg : LinkConfig) (now : Time) (m : LinkManager) (k : string) :
  reachable cfg m -> now <> time_zero -> 0 < m_keepAliveEvery m ->
  let '(frames, m') := DueKeepAlives now m in
  Sorted frame_le frames /\
  (k ∈ map lf_PeerID frames <-> exists s, m_sessions m !! k = Some s /\ keepalive_due m now s = true) /\
  NoDup (map lf_PeerID frames) /\
  (DueKeepAlives now m').1 = [].
Proof.
  intros HR Hnow Hpos. destruct (link_reachable_inv cfg m HR) as [HI _].
  unfold DueKeepAlives. set (due := filter _ (m_sessions m)). set (out := map _ (map_to_list due)).
  assert (Hkeys : map lf_PeerID out = (map_to_list due).*1).
  { unfold out. rewrite map_map. apply map_ext_in. intros [k' s] Hk. apply list_elem_of_In, elem_of_map_to_list in Hk.
    apply map_lookup_filter_Some in Hk as [Hk _]. simpl. apply (sw_key _ _ (li_wf _ HI _ _ Hk)). }
  assert (Hperm : map lf_PeerID (merge_sort frame_le out) ≡ₚ (map_to_list due).*1).
  { rewrite <- Hkeys. apply Permutation_map, merge_sort_Permutation. }
  split_and!.
  - apply (Sorted_merge_sort _).
  - rewrite Hperm, list_elem_of_fmap. split.
    + intros ([k' s] & -> & Hk%elem_of_map_to_list). apply map_lookup_filter_Some in Hk as [??]. eauto.
    + intros (s & ? & ?). exists (k, s). split; [done|]. apply elem_of_map_to_list, map_lookup_filter_Some. done.
  - rewrite Hperm. apply NoDup_fst_map_to_list.
  - cbn [fst]. match goal with |- merge_sort _ (map _ (map_to_list ?d)) = [] => assert (d = ∅) as ->; [|done] end.
    apply map_empty. intros k'. apply map_lookup_filter_None. right.
    intros s' Hs' Hdue. simpl in Hs', Hdue. apply lookup_fmap_Some in Hs' as (s & <- & Hs).
    destruct (keepalive_due m now s) eqn:E.
    + unfold keepalive_due in Hdue. simpl in Hdue. rewrite time_sub_refl in Hdue.
      unfold IsZero in Hdue. rewrite (bool_decide_eq_false_2 (now = time_zero)) in Hdue by done.
      rewrite (bool_decide_eq_false_2 (m_keepAliveEvery m <= 0)) in Hdue by lia.
      rewrite orb_false_r, andb_false_r in Hdue. done.
    + unfold keepalive_due in *. simpl in Hdue. congruence.
Qed.

(* ------------------------------------------------------------------ *)
(** ** Witnesses *)

Definition toy_link_config : LinkConfig := mkLinkConfig "dev-a" false 1 0 0.
Definition toy_peer : PeerEndpoint := mkPeerEndpoint "dev-b" "1.2.3.4:5" EmptyString.
Definition toy_manager : LinkManager :=
  apply_op 5 (NewLinkManager toy_link_config) (OpUpsert toy_peer endpoint_zero true).

Lemma toy_manager_reachable : reachable toy_link_config toy_manager.
Proof. apply reach_step, reach_new. Qed.

Lemma link_reachable_inv_witness : m_maxSessions toy_manager = 1 /\ link_inv toy_manager.
Proof.
  destruct (link_reachable_inv toy_link_config toy_manager toy_manager_reachable) as [HI HM].
  split; [apply HM; reflexivity|exact HI].
Defined.

Lemma DueKeepAlives_spec_witness :
  (DueKeepAlives 9 toy_manager).1 = [mkLinkFrame "dev-b" "p2p" []] /\
  (DueKeepAlives 9 (DueKeepAlives 9 toy_manager).2).1 = [].
Proof.
  split; [by vm_compute|].
  pose proof (DueKeepAlives_spec toy_link_config 9 toy_manager "dev-b" toy_manager_reachable) as H.
  destruct (DueKeepAlives 9 toy_manager) as [fs m'].
  apply H; [discriminate|reflexivity].
Defined.
