(* ===== verification/Relay.v ===== *)
(** * Relay: relayed LAN frames (internal/lantransport, internal/server/lan_packet_relay.go)

    The envelope of a frame relayed over UDP, and the server's store-and-forward
    queue for frames relayed over HTTP with the two handlers that use it. *)

From S2P Require Import Prelude GoStrings Base64 Session.

(* ------------------------------------------------------------------ *)
(** ** The UDP relay envelope (lantransport/relay.go) *)

Definition relayMagic : list byte := bytes_of "ULR1".

Record RelayFrame : Type := mkRelayFrame { SrcDevice : string; DstDevice : string; Payload : list byte }.

Definition IsRelayFrame (data : list byte) : bool := bool_decide (take 4 data = relayMagic).

(** [None] is [ErrRelayFrame]. *)
Definition PackRelayFrame (frame : RelayFrame) : option (list byte) :=
  if decide (SrcDevice frame = EmptyString \/ DstDevice frame = EmptyString \/ Payload frame = [] \/
             (255 < String.length (SrcDevice frame))%nat \/ (255 < String.length (DstDevice frame))%nat)
  then None
  else Some (relayMagic ++ be_put 2 (u16 (Z.of_nat (String.length (SrcDevice frame)))) ++
             be_put 2 (u16 (Z.of_nat (String.length (DstDevice frame)))) ++
             bytes_of (SrcDevice frame) ++ bytes_of (DstDevice frame) ++ Payload frame).

Definition UnpackRelayFrameView (data : list byte) : option RelayFrame :=
  if negb (IsRelayFrame data) || bool_decide (length data < 8)%nat then None
  else
    let srcLen := Z.to_nat (be_get (slice data 4 6)) in
    let dstLen := Z.to_nat (be_get (slice data 6 8)) in
    if decide (srcLen <= 0 \/ dstLen <= 0 \/ length data <= 8 + srcLen + dstLen)%nat then None
    else
      let src := string_of (slice data 8 (8 + srcLen)) in
      let dst := string_of (slice data (8 + srcLen) (8 + srcLen + dstLen)) in
      let payload := drop (8 + srcLen + dstLen) data in
      if decide (payload = []) then None else Some (mkRelayFrame src dst payload).

(** The copy of [UnpackRelayFrame] is the same value. *)
Definition UnpackRelayFrame (data : list byte) : option RelayFrame := UnpackRelayFrameView data.

(* ------------------------------------------------------------------ *)
(** ** Sealed datagrams (lantransport/datagram.go) *)

Definition IsFrame (data : list byte) : bool := bool_decide (take 4 data = bytes_of "UDPL").

Inductive transport_error : Type :=
  | ErrUnavailable
  | ErrCodec (e : packet_error).

Definition lift_codec {A} (r : result packet_error A) : result transport_error A :=
  match r with Ok a => Ok a | Err e => Err (ErrCodec e) end.

Definition transport_Seal (codec : option Codec) (payload : list byte)
  : result transport_error (list byte) * option Codec :=
  match codec with
  | None => (Err ErrUnavailable, None)
  | Some _ => let '(r, c) := Session.Seal codec payload in (lift_codec r, c)
  end.

Definition transport_Open (codec : option Codec) (frame : list byte)
  : result transport_error (list byte) * option Codec :=
  match codec with
  | None => (Err ErrUnavailable, None)
  | Some _ => let '(r, c) := Session.Open codec frame in (lift_codec r, c)
  end.

(* ------------------------------------------------------------------ *)
(** ** The server's queue (server/lan_packet_relay.go) *)

Definition lanPacketMaxBatch : Z := 64.
Definition lanPacketMaxPayload : Z := 64 * 1024.

Record lanPacketRelayFrame : Type := mkRelayEntry {
  q_NetworkID : Z; q_SrcDevice : string; q_DstDevice : string; q_Type : byte; q_Payload : string;
  q_QueuedAt : string;
}.

Record lanPacketRelay : Type := mkPacketRelay {
  limit : Z; byDevice : gmap string (list lanPacketRelayFrame); dropped : Z;
}.

Definition newLANPacketRelay (lim : Z) : lanPacketRelay :=
  mkPacketRelay (if decide (lim <= 0) then 256 else lim) ∅ 0.

(** A missing key of the map reads as nil. *)
Definition queue (r : lanPacketRelay) (d : string) : list lanPacketRelayFrame := default [] (byDevice r !! d).

Definition with_QueuedAt (f : lanPacketRelayFrame) (now : string) : lanPacketRelayFrame :=
  mkRelayEntry (q_NetworkID f) (q_SrcDevice f) (q_DstDevice f) (q_Type f) (q_Payload f) now.

Definition Enqueue (now : string) (r : lanPacketRelay) (f : lanPacketRelayFrame) : lanPacketRelay :=
  let frame := with_QueuedAt f now in
  let q := queue r (q_DstDevice frame) ++ [frame] in
  let n := Z.of_nat (length q) in
  if decide (limit r < n) then
    mkPacketRelay (limit r) (<[q_DstDevice frame := drop (Z.to_nat (n - limit r)) q]> (byDevice r))
      (u64 (dropped r + u64 (n - limit r)))
  else mkPacketRelay (limit r) (<[q_DstDevice frame := q]> (byDevice r)) (dropped r).

Definition Poll (r : lanPacketRelay) (deviceID : string) (max : Z)
  : (list lanPacketRelayFrame * Z * Z) * lanPacketRelay :=
  let q := queue r deviceID in
  if decide (q = []) then (([], 0, dropped r), r)
  else
    let max := if decide (max <= 0 \/ lanPacketMaxBatch < max) then lanPacketMaxBatch else max in
    let max := if decide (Z.of_nat (length q) < max) then Z.of_nat (length q) else max in
    let out := take (Z.to_nat max) q in
    let m := if decide (max = Z.of_nat (length q)) then delete deviceID (byDevice r)
             else <[deviceID := drop (Z.to_nat max) q]> (byDevice r) in
    let r' := mkPacketRelay (limit r) m (dropped r) in
    ((out, Z.of_nat (length (queue r' deviceID)), dropped r), r').

(** *** Handlers *)

Record relay_app : Type := mkRelayApp { lanRelay : lanPacketRelay; totalRelayed : Z }.

Inductive relay_response : Type :=
  | RespBadRequest (code message : string)
  | RespAccepted (n : Z)
  | RespFrames (frames : list lanPacketRelayFrame).

(** One round of the loop of [handleLANPacketSend]. *)
Definition send_frame (now : string) (deviceID : string) (st : relay_app * Z) (f : lanPacketRelayFrame) : relay_app * Z :=
  let '(a, accepted) := st in
  let src := if decide (q_SrcDevice f = EmptyString) then deviceID else q_SrcDevice f in
  if decide (src <> deviceID \/ q_DstDevice f = EmptyString \/ q_NetworkID f <= 0) then st
  else match DecodeString (q_Payload f) with
  | None => st
  | Some payload =>
    if decide (payload = [] \/ lanPacketMaxPayload < Z.of_nat (length payload)) then st
    else
      let f' := mkRelayEntry (q_NetworkID f) src (q_DstDevice f) (q_Type f) (EncodeToString payload) (q_QueuedAt f) in
      (mkRelayApp (Enqueue now (lanRelay a) f') (u64 (totalRelayed a + Z.of_nat (length payload))), accepted + 1)
  end.

(** The request is the decoded body, [None] when it is not JSON. *)
Definition handleLANPacketSend (allowRelay : bool) (now : string) (a : relay_app)
  (req : option (string * list lanPacketRelayFrame)) : relay_response * relay_app :=
  if negb allowRelay then (RespBadRequest "relay_disabled" "LAN packet relay is disabled", a)
  else match req with
  | None => (RespBadRequest "bad_json" "bad json", a)
  | Some (deviceID, frames) =>
    if decide (TrimSpace deviceID = EmptyString) then (RespBadRequest "bad_json" "bad json", a)
    else
      let '(a', accepted) := fold_left (send_frame now deviceID) frames (a, 0) in
      (RespAccepted accepted, a')
  end.

(** One attempt of the polling loop; [None] means it waits for the next tick, and
    an empty batch is the answer at the deadline. *)
Definition handleLANPacketPoll_attempt (a : relay_app) (deviceID : string) (max : Z)
  : option relay_response * relay_app :=
  let '((frames, remaining, drops), r) := Poll (lanRelay a) deviceID max in
  if decide (0 < length frames)%nat then (Some (RespFrames frames), mkRelayApp r (totalRelayed a))
  else (None, mkRelayApp r (totalRelayed a)).

(** The loop, over the attempts until the deadline; between two of them other
    requests change the application. *)
Fixpoint handleLANPacketPoll_loop (ticks : list (relay_app -> relay_app)) (a : relay_app) (deviceID : string) (max : Z)
  : relay_response * relay_app :=
  match handleLANPacketPoll_attempt a deviceID max with
  | (Some resp, a') => (resp, a')
  | (None, a') =>
    match ticks with
    | [] => (RespFrames [], a')
    | others :: ticks' => handleLANPacketPoll_loop ticks' (others a') deviceID max
    end
  end.

Definition handleLANPacketPoll (allowRelay : bool) (ticks : list (relay_app -> relay_app)) (a : relay_app)
  (req : option (string * Z)) : relay_response * relay_app :=
  if negb allowRelay then (RespBadRequest "relay_disabled" "LAN packet relay is disabled", a)
  else match req with
  | None => (RespBadRequest "bad_json" "bad json", a)
  | Some (deviceID, max) =>
    if decide (TrimSpace deviceID = EmptyString) then (RespBadRequest "bad_json" "bad json", a)
    else handleLANPacketPoll_loop ticks a deviceID max
  end.

(* ------------------------------------------------------------------ *)
(** ** Envelopes *)

Lemma string_length_pos s : s <> EmptyString -> (0 < String.length s)%nat.
Proof. destruct s; simpl; [done|lia]. Qed.

Lemma unpack_pack (f : RelayFrame) (data : list byte) :
  PackRelayFrame f = Some data ->
  UnpackRelayFrame data = Some f /\ IsRelayFrame data = true /\ IsFrame data = false.
Proof.
  unfold PackRelayFrame. case_decide as Hc; [done|]. intros HP. apply Some_inj in HP. rewrite <- HP. clear HP data.
  repeat apply Decidable.not_or in Hc as [? Hc].
  pose proof (string_length_pos (SrcDevice f) ltac:(done)). pose proof (string_length_pos (DstDevice f) ltac:(done)).
  set (s := bytes_of (SrcDevice f)). set (d := bytes_of (DstDevice f)).
  assert (Ls : length s = String.length (SrcDevice f)) by apply length_bytes_of.
  assert (Ld : length d = String.length (DstDevice f)) by apply length_bytes_of.
  rewrite <- Ls, <- Ld in *.
  set (data := relayMagic ++ be_put 2 (u16 (Z.of_nat (length s))) ++ be_put 2 (u16 (Z.of_nat (length d))) ++
    s ++ d ++ Payload f).
  assert (R : IsRelayFrame data = true) by (by apply bool_decide_eq_true).
  split; [|split; [done|by apply bool_decide_eq_false]].
  unfold UnpackRelayFrame, UnpackRelayFrameView. rewrite R.
  assert (HB : forall n, (n <= 255)%nat -> Z.to_nat (be_get (be_put 2 (u16 (Z.of_nat n)))) = n).
  { intros n Hn. unfold u16. rewrite Z.mod_small by lia.
    rewrite be_get_put_small by (change (256 ^ Z.of_nat 2) with 65536; lia). lia. }
  change (slice data 4 6) with (be_put 2 (u16 (Z.of_nat (length s)))).
  change (slice data 6 8) with (be_put 2 (u16 (Z.of_nat (length d)))). rewrite !HB by lia.
  assert (Hdrop : forall n, drop (8 + n) data = drop n (s ++ d ++ Payload f)) by reflexivity.
  assert (Lp : length (Payload f) <> 0%nat) by (by destruct (Payload f)).
  assert (Ldata : length data = (8 + length s + length d + length (Payload f))%nat).
  { unfold data. rewrite !length_app, !length_be_put. change (length relayMagic) with 4%nat. lia. }
  rewrite bool_decide_eq_false_2 by lia. cbn [negb orb]. rewrite decide_False by lia.
  unfold slice. replace (8 + length s - 8)%nat with (length s) by lia.
  replace (8 + length s + length d - (8 + length s))%nat with (length d) by lia.
  change (drop 8 data) with (s ++ d ++ Payload f).
  rewrite <- Nat.add_assoc, !Hdrop.
  rewrite take_app_length, drop_app_length, take_app_length, <- drop_drop, drop_app_length, drop_app_length.
  rewrite decide_False by done. unfold s, d. rewrite !string_of_bytes_of. by destruct f.
Qed.

(** A packed relay frame unpacks to itself, is recognised as a relay frame and
    never as a sealed LAN frame. *)
Theorem UnpackRelayFrame_PackRelayFrame (f : RelayFrame) (data : list byte) :
  PackRelayFrame f = Some data ->
  UnpackRelayFrame data = Some f /\ IsRelayFrame data = true /\ IsFrame data = false.
Proof. apply unpack_pack. Qed.

(* ------------------------------------------------------------------ *)
(** ** The queue over a history *)

Inductive relay_op : Type :=
  | OpEnqueue (now : string) (f : lanPacketRelayFrame)
  | OpPoll (deviceID : string) (max : Z).

(** The relay with everything ever enqueued and everything ever polled. *)
Record relay_run : Type := mkRun { run_relay : lanPacketRelay; run_in : list lanPacketRelayFrame; run_out : list lanPacketRelayFrame }.

Definition run_op (s : relay_run) (op : relay_op) : relay_run :=
  match op with
  | OpEnqueue now f => mkRun (Enqueue now (run_relay s) f) (run_in s ++ [with_QueuedAt f now]) (run_out s)
  | OpPoll d max => let '((out, _, _), r) := Poll (run_relay s) d max in mkRun r (run_in s) (run_out s ++ out)
  end.

Definition run_ops (lim : Z) (ops : list relay_op) : relay_run :=
  fold_left run_op ops (mkRun (newLANPacketRelay lim) [] []).

Definition to_device (d : string) (l : list lanPacketRelayFrame) : list lanPacketRelayFrame :=
  List.filter (fun f => bool_decide (q_DstDevice f = d)) l.

Definition queued_total (r : lanPacketRelay) : nat := map_fold (fun _ q n => (length q + n)%nat) 0%nat (byDevice r).

(** Invariant: for each device, what was polled and what waits is what was
    enqueued, in order, less the frames dropped, which the counter counts. *)
Record relay_inv (s : relay_run) : Prop := {
  ri_limit : 0 < limit (run_relay s);
  ri_len : forall d, Z.of_nat (length (queue (run_relay s) d)) <= limit (run_relay s);
  ri_own : forall d, to_device d (queue (run_relay s) d) = queue (run_relay s) d;
  ri_fifo : forall d, to_device d (run_out s) ++ queue (run_relay s) d `sublist_of` to_device d (run_in s);
  ri_suffix : forall d, queue (run_relay s) d `suffix_of` to_device d (run_in s);
  ri_count : exists k : nat, dropped (run_relay s) = u64 (Z.of_nat k) /\
    (length (run_in s) = length (run_out s) + queued_total (run_relay s) + k)%nat;
}.

Lemma to_device_app d l k : to_device d (l ++ k) = to_device d l ++ to_device d k.
Proof. apply List.filter_app. Qed.

Lemma map_fold_length_delete {A} (m : gmap string (list A)) d :
  map_fold (fun _ q n => (length q + n)%nat) 0%nat m =
  (length (default [] (m !! d)) + map_fold (fun _ q n => (length q + n)%nat) 0%nat (delete d m))%nat.
Proof.
  destruct (m !! d) as [q|] eqn:E; simpl.
  - rewrite (map_fold_delete_L _ _ d q m); [done| |done]. intros. lia.
  - by rewrite delete_id.
Qed.

Lemma map_fold_length_insert {A} (m : gmap string (list A)) d q :
  (map_fold (fun _ q n => (length q + n)%nat) 0%nat (<[d := q]> m) + length (default [] (m !! d)) =
   length q + map_fold (fun _ q n => (length q + n)%nat) 0%nat m)%nat.
Proof.
  rewrite (map_fold_length_delete (<[d := q]> m) d), (map_fold_length_delete m d).
  rewrite lookup_insert_eq, delete_insert_eq. simpl. lia.
Qed.

Lemma to_device_take d n l : to_device d l = l -> to_device d (take n l) = take n l /\ to_device d (drop n l) = drop n l.
Proof.
  intros E. rewrite <- (take_drop n l) in E at 1. rewrite to_device_app in E.
  assert (Hle : forall k, (length (to_device d k) <= length k)%nat).
  { induction k as [|x k IH]; simpl; [lia|]. case_bool_decide; simpl; lia. }
  assert (L : length (to_device d (take n l)) = length (take n l)).
  { pose proof (f_equal length E) as E2. rewrite length_app in E2.
    pose proof (Hle (take n l)). pose proof (Hle (drop n l)).
    rewrite <- (take_drop n l) in E2 at 3. rewrite length_app in E2. lia. }
  rewrite <- (take_drop n l) in E at 3. by apply app_inj_1 in E.
Qed.

Lemma to_device_other d d' l : d <> d' -> to_device d l = l -> to_device d' l = [].
Proof.
  intros Hd E. rewrite <- E. clear E. induction l as [|x l IH]; [done|]. simpl.
  case_bool_decide; [|done]. simpl. rewrite bool_decide_eq_false_2 by congruence. done.
Qed.

(** The queue [Enqueue] leaves for a device: the last [limit] frames. *)
Lemma Enqueue_queue now r f d : 0 < limit r ->
  let q := queue r (q_DstDevice f) ++ [with_QueuedAt f now] in
  queue (Enqueue now r f) d =
    (if decide (q_DstDevice f = d) then drop (length q - Z.to_nat (limit r)) q else queue r d) /\
  limit (Enqueue now r f) = limit r.
Proof.
  intros Hl. cbv zeta. unfold Enqueue. cbv zeta. simpl q_DstDevice.
  set (q := queue r (q_DstDevice f) ++ _).
  case_decide as Hf; (split; [|done]); unfold queue at 1; simpl; case_decide as Hd; subst.
  - rewrite lookup_insert_eq. simpl. f_equal. lia.
  - by rewrite lookup_insert_ne.
  - rewrite lookup_insert_eq. simpl. replace (length q - Z.to_nat (limit r))%nat with 0%nat by lia. done.
  - by rewrite lookup_insert_ne.
Qed.

Lemma Enqueue_inv s now f : relay_inv s -> relay_inv (run_op s (OpEnqueue now f)).
Proof.
  intros [H1 H2 H3 H4 H5 (k & Hk & Hc)]. set (r := run_relay s) in *.
  set (f' := with_QueuedAt f now). set (q := queue r (q_DstDevice f) ++ [f']).
  assert (Hq : forall d, queue (Enqueue now r f) d =
    if decide (q_DstDevice f = d) then drop (length q - Z.to_nat (limit r)) q else queue r d)
    by (intros d; apply (Enqueue_queue now r f d H1)).
  assert (Hl : limit (Enqueue now r f) = limit r) by apply (Enqueue_queue now r f EmptyString H1).
  assert (Hto : forall d, to_device d (run_in s ++ [f']) =
    to_device d (run_in s) ++ (if decide (q_DstDevice f = d) then [f'] else [])).
  { intros d. rewrite to_device_app. f_equal. simpl. case_bool_decide; by case_decide. }
  assert (Hown : to_device (q_DstDevice f) q = q).
  { unfold q. rewrite to_device_app, H3. f_equal. simpl. by rewrite bool_decide_eq_true_2. }
  assert (Hdrop : forall n, drop n q `suffix_of` q) by (intros; apply suffix_drop).
  split; simpl; fold r f'.
  - by rewrite Hl.
  - intros d. rewrite Hq, Hl. case_decide; [|apply H2]. rewrite length_drop. lia.
  - intros d. rewrite Hq. case_decide as Hd; [subst; by apply to_device_take|apply H3].
  - intros d. rewrite Hq, Hto. case_decide as Hd; [|rewrite app_nil_r; apply H4].
    subst d. etrans; [apply sublist_app; [reflexivity|apply sublist_drop]|].
    unfold q. rewrite (assoc_L (++)). apply sublist_app; [apply H4|reflexivity].
  - intros d. rewrite Hq, Hto. case_decide as Hd; [|rewrite app_nil_r; apply H5].
    subst d. etrans; [apply Hdrop|]. unfold q. destruct (H5 (q_DstDevice f)) as [p ->].
    exists p. by rewrite (assoc_L (++)).
  - assert (Hlen : length q = S (length (queue r (q_DstDevice f)))) by (unfold q; rewrite length_app; simpl; lia).
    exists (k + (length q - Z.to_nat (limit r)))%nat. unfold Enqueue. cbv zeta. simpl q_DstDevice. fold f' q.
    rewrite length_app. simpl length.
    case_decide as Hf; simpl.
    + split; [rewrite Hk, u64_add_l, u64_add_r; f_equal; lia|].
      pose proof (map_fold_length_insert (byDevice r) (q_DstDevice f) (drop (Z.to_nat (Z.of_nat (length q) - limit r)) q)) as HM.
      rewrite length_drop in HM. unfold queued_total in *. simpl. fold (queue r (q_DstDevice f)) in HM. lia.
    + split; [rewrite Hk; f_equal; lia|].
      pose proof (map_fold_length_insert (byDevice r) (q_DstDevice f) q) as HM.
      unfold queued_total in *. simpl. fold (queue r (q_DstDevice f)) in HM. lia.
Qed.

(** How many frames [Poll] takes. *)
Definition poll_count (r : lanPacketRelay) (d : string) (max : Z) : nat :=
  Nat.min (length (queue r d)) (Z.to_nat (if decide (max <= 0 \/ 64 < max) then 64 else max)).

Lemma Poll_eq r d max : 
  (Poll r d max).1.1.1 = take (poll_count r d max) (queue r d) /\
  (forall d', queue (Poll r d max).2 d' = if decide (d = d') then drop (poll_count r d max) (queue r d) else queue r d') /\
  limit (Poll r d max).2 = limit r /\ dropped (Poll r d max).2 = dropped r /\
  queued_total r = (length (Poll r d max).1.1.1 + queued_total (Poll r d max).2)%nat.
Proof.
  unfold Poll, poll_count. cbv zeta. set (q := queue r d). set (mx := if decide (_ \/ 64 < _) then 64 else max).
  change (if decide (max <= 0 \/ lanPacketMaxBatch < max) then lanPacketMaxBatch else max) with mx.
  assert (Hmx : 0 < mx) by (unfold mx; case_decide; lia).
  case_decide as Hq.
  { simpl. rewrite Hq, take_nil, drop_nil. split_and!; try done.
    intros d'. case_decide; [subst; exact Hq|done]. }
  set (n := if decide (Z.of_nat (length q) < mx) then Z.of_nat (length q) else mx).
  assert (Hn : Z.to_nat n = Nat.min (length q) (Z.to_nat mx)) by (unfold n; case_decide; lia).
  simpl. rewrite Hn. set (t := Nat.min _ _) in *.
  assert (Ht : (t <= length q)%nat) by lia.
  split; [done|]. split; [|split_and!; try done].
  - intros d'. case_decide as He; unfold queue; simpl.
    + assert (t = length q) as -> by lia. case_decide; subst.
      * rewrite lookup_delete_eq, drop_all. done.
      * by rewrite lookup_delete_ne.
    + case_decide; subst; [by rewrite lookup_insert_eq|by rewrite lookup_insert_ne].
  - unfold queued_total. simpl. rewrite length_take. case_decide as He.
    + pose proof (map_fold_length_delete (byDevice r) d) as HM. fold (queue r d) q in HM. lia.
    + pose proof (map_fold_length_insert (byDevice r) d (drop t q)) as HM. fold (queue r d) q in HM.
      rewrite length_drop in HM. lia.
Qed.

Lemma Poll_inv s d max : relay_inv s -> relay_inv (run_op s (OpPoll d max)).
Proof.
  intros [H1 H2 H3 H4 H5 (k & Hk & Hc)]. set (r := run_relay s) in *.
  unfold run_op. fold r. destruct (Poll_eq r d max) as (P1 & P2 & P3 & P4 & P5).
  destruct (Poll r d max) as [[[out rem] drops] r']. cbn [fst snd] in *. subst out.
  set (n := poll_count r d max) in *.
  split; simpl.
  - by rewrite P3.
  - intros d'. rewrite P2, P3. case_decide; [|apply H2]. rewrite length_drop. pose proof (H2 d). lia.
  - intros d'. rewrite P2. case_decide; [subst; by apply to_device_take|apply H3].
  - intros d'. rewrite P2, to_device_app, <- (assoc_L (++)). case_decide as Hd.
    + subst d'. rewrite (proj1 (to_device_take d n (queue r d) (H3 d))), take_drop. apply H4.
    + rewrite (to_device_other d d' (take n (queue r d))); [apply H4|done|by apply to_device_take].
  - intros d'. rewrite P2. case_decide; [subst; etrans; [apply suffix_drop|apply H5]|apply H5].
  - exists k. rewrite P4. split; [done|]. rewrite length_app. lia.
Qed.

(** C7. Whatever the requests, the relay keeps at most its limit of frames per
    device, hands each device its frames in the order they came, keeps the newest
    ones when it must drop, and accounts for every frame: polled, waiting or counted
    as dropped. *)
Theorem relay_queue_correct (lim : Z) (ops : list relay_op) : relay_inv (run_ops lim ops).
Proof.
  unfold run_ops. assert (H0 : relay_inv (mkRun (newLANPacketRelay lim) [] [])).
  { unfold newLANPacketRelay. split; simpl; [case_decide; lia|..|by exists 0%nat];
      intros d; unfold queue; simpl; rewrite lookup_empty; simpl; [case_decide; lia|done|done|apply suffix_nil]. }
  revert H0. generalize (mkRun (newLANPacketRelay lim) [] []).
  induction ops as [|op ops IH]; intros s Hs; simpl; [done|]. apply IH.
  destruct op; [by apply Enqueue_inv|by apply Poll_inv].
Qed.

(* ------------------------------------------------------------------ *)
(** ** The send handler *)

(** The frame the handler queues for a frame of the request, if it accepts it. *)
Definition accept_frame (deviceID : string) (f : lanPacketRelayFrame) : option lanPacketRelayFrame :=
  let src := if decide (q_SrcDevice f = EmptyString) then deviceID else q_SrcDevice f in
  if decide (src <> deviceID \/ q_DstDevice f = EmptyString \/ q_NetworkID f <= 0) then None
  else
    payload ← DecodeString (q_Payload f);
    if decide (payload = [] \/ lanPacketMaxPayload < Z.of_nat (length payload)) then None
    else Some (mkRelayEntry (q_NetworkID f) src (q_DstDevice f) (q_Type f) (EncodeToString payload) (q_QueuedAt f)).

Lemma send_frame_accept now deviceID a n f :
  let '(a', n') := send_frame now deviceID (a, n) f in
  lanRelay a' = fold_left (Enqueue now) (option_list (accept_frame deviceID f)) (lanRelay a) /\
  n' = n + Z.of_nat (length (option_list (accept_frame deviceID f))).
Proof.
  unfold send_frame, accept_frame. set (src := if decide (q_SrcDevice f = EmptyString) then _ else _).
  case_decide as H1; [simpl; split; [done|lia]|].
  destruct (DecodeString _) as [payload|]; [|simpl; split; [done|lia]].
  cbn [mbind option_bind]. case_decide as H2; simpl; (split; [done|lia]).
Qed.

Lemma send_all_accept now deviceID fs : forall a n, let '(a', n') := fold_left (send_frame now deviceID) fs (a, n) in
  lanRelay a' = fold_left (Enqueue now) (omap (accept_frame deviceID) fs) (lanRelay a) /\
  n' = n + Z.of_nat (length (omap (accept_frame deviceID) fs)).
Proof.
  induction fs as [|f fs IH]; intros a0 n; [simpl; split; [done|lia]|]. cbn [fold_left].
  change (omap (accept_frame deviceID) (f :: fs)) with
    (match accept_frame deviceID f with Some y => y :: omap (accept_frame deviceID) fs | None => omap (accept_frame deviceID) fs end).
  pose proof (send_frame_accept now deviceID a0 n f) as Hf. destruct (send_frame _ _ _ _) as [a1 n1].
  destruct Hf as [Hr ->]. specialize (IH a1 (n + Z.of_nat (length (option_list (accept_frame deviceID f))))).
  destruct (fold_left _ fs _) as [a2 n2]. destruct IH as [-> ->]. rewrite Hr.
  destruct (accept_frame deviceID f); simpl; (split; [done|lia]).
Qed.

(** The handler queues, in order, exactly the frames of the request that name
    no other source than the caller, a destination, a network and a payload of 1 to
    65536 bytes; what it queues names the caller as source, and it reports how many. *)
Theorem handleLANPacketSend_correct (now : string) (a : relay_app) (deviceID : string) (frames : list lanPacketRelayFrame) :
  TrimSpace deviceID <> EmptyString ->
  let accepted := omap (accept_frame deviceID) frames in
  let '(resp, a') := handleLANPacketSend true now a (Some (deviceID, frames)) in
  resp = RespAccepted (Z.of_nat (length accepted)) /\
  lanRelay a' = fold_left (Enqueue now) accepted (lanRelay a) /\
  Forall (fun f => q_SrcDevice f = deviceID /\ q_DstDevice f <> EmptyString /\ 0 < q_NetworkID f /\
    exists payload, DecodeString (q_Payload f) = Some payload /\ 0 < Z.of_nat (length payload) <= 65536) accepted.
Proof.
  intros Hd. cbv zeta. unfold handleLANPacketSend. cbn [negb]. rewrite decide_False by done.
  pose proof (send_all_accept now deviceID) as Hloop.
  specialize (Hloop frames a 0). destruct (fold_left _ frames _) as [a' n'] . destruct Hloop as [-> ->].
  split_and!; [done|done|].
  apply Forall_forall. intros g (f & _ & Hg)%list_elem_of_omap. unfold accept_frame in Hg.
  set (src := if decide (q_SrcDevice f = EmptyString) then _ else _) in *. case_decide as H1; [done|]. destruct (DecodeString (q_Payload f)) as [payload|]; [|done].
  cbn [mbind option_bind] in Hg. case_decide as H2; [done|]. injection Hg as <-. simpl.
  unfold lanPacketMaxPayload in H2. apply Decidable.not_or in H1 as [H1 H1']. apply Decidable.not_or in H1' as [? ?].
  apply Decidable.not_or in H2 as [? ?].
  split_and!; [by apply dec_stable in H1|done|lia|].
  exists payload. rewrite DecodeString_EncodeToString. split; [done|]. destruct payload; [done|]. simpl in *. lia.
Qed.

(* ------------------------------------------------------------------ *)
(** ** Witnesses *)

Definition toy_relay_frame : RelayFrame := mkRelayFrame "dev-a" "dev-b" [x01; x02].

Lemma UnpackRelayFrame_PackRelayFrame_witness :
  match PackRelayFrame toy_relay_frame with
  | Some data => UnpackRelayFrame data = Some toy_relay_frame
  | None => False
  end.
Proof.
  destruct (PackRelayFrame toy_relay_frame) as [data|] eqn:E; [|vm_compute in E; discriminate E].
  apply (UnpackRelayFrame_PackRelayFrame toy_relay_frame data E).
Defined.

Definition toy_entry : lanPacketRelayFrame := mkRelayEntry 7 "" "dev-b" x01 "AQI=" "".

Lemma handleLANPacketSend_correct_witness :
  (handleLANPacketSend true "t" (mkRelayApp (newLANPacketRelay 1) 0) (Some ("dev-a"%string, [toy_entry; toy_entry]))).1
    = RespAccepted 2.
Proof.
  pose proof (handleLANPacketSend_correct "t" (mkRelayApp (newLANPacketRelay 1) 0) "dev-a" [toy_entry; toy_entry]) as H.
  assert (Hd : TrimSpace "dev-a" <> EmptyString) by (vm_compute; discriminate).
  specialize (H Hd). cbv zeta in H.
  destruct (handleLANPacketSend _ _ _ _) as [resp a']. destruct H as [-> _]. by vm_compute.
Defined.
