(* ===== verification/SecureFrame.v ===== *)
(** * SecureFrame: pre-shared-key frames (internal/secure/frame.go)

    The sealing of control and KCP datagrams under a pre-shared key, and the KCP
    conversation id of two peers. XChaCha20-Poly1305, HKDF and HMAC-SHA256 are the
    operations of [SecureCrypto]; the random nonce is an argument of [Seal]. *)

From S2P Require Import Prelude GoStrings.
From S2P Require Session.

Definition KindControl : byte := x01.
Definition KindKCP : byte := x02.
Definition frameVersion : byte := x01.
Definition NonceSizeX : nat := 24.
Definition headerLen : nat := 4 + 1 + 1 + NonceSizeX.
Definition magic : list byte := bytes_of "UDPT".
Definition infoFrameKey : list byte := bytes_of "udp-tunnel/frame-key/v1".
Definition infoConvIDKey : list byte := bytes_of "udp-tunnel/kcp-conv/v1".

Inductive secure_error : Type := ErrNotFrame | ErrBadFrame | ErrBadPSK | ErrNonce | ErrDeriveKey | ErrNewX | ErrOpen.

#[export] Instance secure_error_eq_dec : EqDecision secure_error.
Proof. solve_decision. Defined.

Record Codec : Type := mkCodec { aead : Session.cipherAEAD }.

Class SecureCrypto := {
  hkdf_sha256 : list byte -> list byte -> nat -> option (list byte);
  newX : list byte -> option Session.cipherAEAD;
  hmac_sha256 : list byte -> list byte -> list byte;
}.

Section Crypto.
  Context `{SC : SecureCrypto}.

Definition derive (psk : string) (info : list byte) (size : nat) : result secure_error (list byte) :=
  match hkdf_sha256 (bytes_of psk) info size with None => Err ErrDeriveKey | Some key => Ok key end.

Definition NewCodec (psk : string) : result secure_error Codec :=
  if decide (psk = EmptyString) then Err ErrBadPSK
  else
    key ← derive psk infoFrameKey 32;
    match newX key with None => Err ErrNewX | Some a => Ok (mkCodec a) end.

Definition ConvID (psk a b profile : string) : Z :=
  let ids := sort_strings [a; b] in
  let sum := hmac_sha256 (bytes_of psk)
    (infoConvIDKey ++ [x00] ++ bytes_of (default EmptyString (ids !! 0%nat)) ++ [x00] ++
     bytes_of (default EmptyString (ids !! 1%nat)) ++ [x00] ++ bytes_of profile) in
  let v := be_get (take 4 sum) in
  if decide (v = 0) then 1 else v.

End Crypto.

Definition IsFrame (b : list byte) : bool := bool_decide ((6 <= length b)%nat /\ take 4 b = magic).

(** [None] for the nonce is a failed read of the random source. *)
Definition Seal (c : option Codec) (nonce : option (list byte)) (kind : byte) (plaintext : list byte)
  : result secure_error (list byte) :=
  match c, nonce with
  | None, _ => Err ErrBadPSK
  | Some _, None => Err ErrNonce
  | Some c, Some n =>
    let ad := magic ++ [frameVersion; kind] ++ n in
    Ok (ad ++ Session.aead_seal (aead c) n plaintext ad)
  end.

Definition Open (c : option Codec) (frame : list byte) : result secure_error (byte * list byte) :=
  match c with
  | None => Err ErrBadPSK
  | Some c =>
    if negb (IsFrame frame) then Err ErrNotFrame
    else if decide ((length frame < headerLen + 16)%nat \/ at_ frame 4 <> frameVersion) then Err ErrBadFrame
    else
      match Session.aead_open (aead c) (slice frame 6 headerLen) (drop headerLen frame) (take headerLen frame) with
      | None => Err ErrOpen
      | Some plain => Ok (at_ frame 5, plain)
      end
  end.

(* ------------------------------------------------------------------ *)
(** ** Theorems *)

Section Roundtrip.
  Variables (a : Session.cipherAEAD) (nonce : list byte).
  Hypothesis laws : Session.AEADLaws a.
  Hypothesis overhead : Session.aead_overhead a = 16%nat.
  Hypothesis nonce_size : length nonce = NonceSizeX.

(** What one holder of the key seals, another opens: kind and text come back,
    for every kind, text and nonce. *)
Theorem Open_Seal (kind : byte) (plaintext : list byte) :
  exists frame, Seal (Some (mkCodec a)) (Some nonce) kind plaintext = Ok frame /\
    IsFrame frame = true /\ Open (Some (mkCodec a)) frame = Ok (kind, plaintext).
Proof.
  eexists. split; [reflexivity|].
  set (ad := magic ++ [frameVersion; kind] ++ nonce).
  set (ct := Session.aead_seal _ nonce plaintext ad).
  assert (La : length ad = headerLen) by (unfold ad; rewrite !length_app, nonce_size; reflexivity).
  assert (Lc : length ct = (length plaintext + 16)%nat) by (unfold ct; rewrite Session.aead_seal_length; simpl; lia).
  assert (HI : IsFrame (ad ++ ct) = true).
  { apply bool_decide_eq_true. split; [rewrite length_app, La; unfold headerLen; lia|reflexivity]. }
  split; [done|]. unfold Open. rewrite HI. cbn [negb].
  rewrite decide_False.
  2: { rewrite length_app, La, Lc. intros [?|H]; [lia|]. by apply H. }
  rewrite take_app_length', drop_app_length' by done.
  assert (Es : slice (ad ++ ct) 6 headerLen = nonce).
  { rewrite slice_app_l by lia. unfold slice, ad. change (drop 6 _) with nonce.
    apply take_ge. rewrite nonce_size. unfold headerLen. lia. }
  rewrite Es. cbn [aead]. unfold ct. by rewrite Session.aead_open_seal.
Qed.

(** A frame with another text does not open to it. *)
Lemma Open_authentic (frame p : list byte) (kind : byte) :
  Open (Some (mkCodec a)) frame = Ok (kind, p) ->
  drop headerLen frame = Session.aead_seal a (slice frame 6 headerLen) p (take headerLen frame) /\ kind = at_ frame 5.
Proof.
  unfold Open. destruct (IsFrame frame); [|done]. simpl. case_decide; [done|].
  destruct (Session.aead_open _ _ _ _) eqn:E; [|done]. intros [= <- <-]. split; [|done].
  by apply Session.aead_open_inv.
Qed.
End Roundtrip.

(** The conversation id does not depend on which peer asks, is never zero and
    fits in 32 bits. *)
Theorem ConvID_agrees `{SC : SecureCrypto} (psk a b profile : string) :
  ConvID psk a b profile = ConvID psk b a profile /\ 1 <= ConvID psk a b profile < 2 ^ 32.
Proof.
  unfold ConvID. split.
  - rewrite (sort_strings_unique [a; b] [b; a]); [done|apply Permutation_swap].
  - set (v := be_get _). pose proof (be_get_bound (take 4 (hmac_sha256 (bytes_of psk)
      (infoConvIDKey ++ [x00] ++ bytes_of (default EmptyString (sort_strings [a; b] !! 0%nat)) ++ [x00] ++
       bytes_of (default EmptyString (sort_strings [a; b] !! 1%nat)) ++ [x00] ++ bytes_of profile)))) as B.
    fold v in B. rewrite length_take in B.
    assert (256 ^ Z.of_nat (4 `min` length (hmac_sha256 (bytes_of psk)
      (infoConvIDKey ++ [x00] ++ bytes_of (default EmptyString (sort_strings [a; b] !! 0%nat)) ++ [x00] ++
       bytes_of (default EmptyString (sort_strings [a; b] !! 1%nat)) ++ [x00] ++ bytes_of profile))) <= 256 ^ 4)
      by (apply Z.pow_le_mono_r; lia).
    case_decide; lia.
Qed.

Definition toy_nonce : list byte := replicate NonceSizeX x07.

Lemma Open_Seal_witness :
  exists frame, Seal (Some (mkCodec (Session.toy_aead [x2a]))) (Some toy_nonce) KindKCP [x01; x02] = Ok frame /\
    IsFrame frame = true /\ Open (Some (mkCodec (Session.toy_aead [x2a]))) frame = Ok (KindKCP, [x01; x02]).
Proof.
  apply (Open_Seal (Session.toy_aead [x2a]) toy_nonce (Session.toy_laws [x2a])); reflexivity.
Defined.
