(* ===== verification/WinArgs.v ===== *)
(** * WinArgs: command lines of the Windows helpers (elevate_windows.go, service_windows.go)

    A program that needs more rights starts itself again through the shell, which takes
    one command line and not a list of arguments: [joinWindowsArgs] quotes the arguments
    and the [os] package of the started program splits the line again. The two are
    inverses ([elevated_arguments_arrive]). The command line of the service is written
    with Go's own quoting instead, which is not one the splitting undoes
    ([service_path_doubles_backslashes]). *)

From S2P Require Import Prelude GoStrings.

(* ------------------------------------------------------------------ *)
(** ** UTF-8, as [for range] and [utf8.DecodeRune] read it *)

Definition in_range (b : byte) (lo hi : Z) : bool := (lo <=? b2z b) && (b2z b <=? hi).
Definition continuation (b : byte) : bool := in_range b 128 191.

(** The length of the rune [l] starts with; 0 when its bytes are not one. *)
Definition rune_length (l : list byte) : nat :=
  match l with
  | [] => O
  | b0 :: l =>
    if in_range b0 0 127 then 1%nat
    else match l with
    | [] => O
    | b1 :: l =>
      if in_range b0 194 223 then (if continuation b1 then 2%nat else O)
      else match l with
      | [] => O
      | b2 :: l =>
        if in_range b0 224 239 then
          (if in_range b1 (if b2z b0 =? 224 then 160 else 128) (if b2z b0 =? 237 then 159 else 191) && continuation b2 then 3%nat else O)
        else match l with
        | [] => O
        | b3 :: _ =>
          if in_range b0 240 244 then
            (if in_range b1 (if b2z b0 =? 240 then 144 else 128) (if b2z b0 =? 244 then 143 else 191) && continuation b2 && continuation b3
             then 4%nat else O)
          else O
        end
      end
    end
  end.

(** [utf8.RuneError], what a byte outside a rune reads as. *)
Definition RuneError : list byte := [xef; xbf; xbd].

(** The text in the pieces a [for range] loop takes: runes, and the bytes that are in
    none. A step takes a byte at least: the length of the text is fuel enough. *)
Fixpoint pieces (fuel : nat) (l : list byte) : list (list byte) :=
  match fuel, l with
  | S fuel, _ :: _ => let n := Nat.max 1 (rune_length l) in take n l :: pieces fuel (drop n l)
  | _, _ => []
  end.

(** The rune the loop reads for a piece, encoded again. *)
Definition rune_of (piece : list byte) : list byte := match rune_length piece with O => RuneError | _ => piece end.
Definition runes (l : list byte) : list (list byte) := map rune_of (pieces (length l) l).

(** [utf8.Valid]. *)
Fixpoint valid_utf8 (fuel : nat) (l : list byte) : bool :=
  match fuel, l with
  | S fuel, _ :: _ => match rune_length l with O => false | n => valid_utf8 fuel (drop n l) end
  | _, _ => true
  end.
Definition ValidString (s : string) : bool := valid_utf8 (String.length s) (bytes_of s).

(* ------------------------------------------------------------------ *)
(** ** Quoting (elevate_windows.go) *)

Definition backslash : byte := x5c.
Definition dquote : byte := x22.
Definition bs (n : nat) : list byte := replicate n backslash.

(** What [strings.ContainsAny] looks for: the blanks and the double quote. *)
Definition special (b : byte) : bool := bool_decide (b ∈ [x20; x09; x0a; x0b; dquote]).

(** The loop: backslashes wait for the rune after them. *)
Fixpoint quote_runes (backslashes : nat) (rs : list (list byte)) : list byte :=
  match rs with
  | [] => bs (backslashes * 2)
  | r :: rs =>
    if decide (r = [backslash]) then quote_runes (S backslashes) rs
    else if decide (r = [dquote]) then bs (backslashes * 2 + 1) ++ r ++ quote_runes 0 rs
    else bs backslashes ++ r ++ quote_runes 0 rs
  end.

Definition quote_bytes (l : list byte) : list byte :=
  if decide (l = []) then [dquote; dquote]
  else if negb (existsb special l) then l
  else dquote :: quote_runes 0 (runes l) ++ [dquote].

Definition quoteWindowsArg (arg : string) : string := string_of (quote_bytes (bytes_of arg)).
Definition joinWindowsArgs (args : list string) : string := Join (map quoteWindowsArg args) " ".

(* ------------------------------------------------------------------ *)
(** ** Splitting, as the [os] package does when a program starts *)

Fixpoint readNextArg (cmd b : list byte) (inquote : bool) (nslash : nat) : list byte * list byte :=
  match cmd with
  | [] => (b ++ bs nslash, [])
  | c :: cmd =>
    if bool_decide (c = x20 \/ c = x09) && negb inquote then (b ++ bs nslash, cmd)
    else if decide (c = dquote) then
      let b := b ++ bs (nslash / 2) in
      if Nat.even nslash then
        match cmd with
        | c' :: cmd' =>
          if inquote && bool_decide (c' = dquote) then readNextArg cmd' (b ++ [dquote]) (negb inquote) 0
          else readNextArg cmd b (negb inquote) 0
        | [] => readNextArg cmd b (negb inquote) 0
        end
      else readNextArg cmd (b ++ [dquote]) inquote 0
    else if decide (c = backslash) then readNextArg cmd b inquote (S nslash)
    else readNextArg cmd (b ++ bs nslash ++ [c]) inquote 0
  end.

(** A step takes a byte at least: the length of the line is fuel enough. *)
Fixpoint split_command (fuel : nat) (cmd : list byte) : list (list byte) :=
  match fuel, cmd with
  | S fuel, c :: cmd' =>
    if decide (c = x20 \/ c = x09) then split_command fuel cmd'
    else let '(arg, rest) := readNextArg cmd [] false 0 in arg :: split_command fuel rest
  | _, _ => []
  end.

Definition commandLineToArgv (cmd : string) : list string := map string_of (split_command (String.length cmd) (bytes_of cmd)).

(* ------------------------------------------------------------------ *)
(** ** The command line of the service (service_windows.go) *)

Definition hex_digit (z : Z) : byte := z2b (if z <? 10 then 48 + z else 87 + z).
Fixpoint hex_digits (n : nat) (z : Z) : list byte := match n with O => [] | S n => hex_digits n (z / 16) ++ [hex_digit (z mod 16)] end.

Definition rune_value (r : list byte) : Z :=
  match map b2z r with
  | [a; b] => (a - 192) * 64 + (b - 128)
  | [a; b; c] => ((a - 224) * 64 + (b - 128)) * 64 + (c - 128)
  | [a; b; c; d] => (((a - 240) * 64 + (b - 128)) * 64 + (c - 128)) * 64 + (d - 128)
  | [a] => a
  | _ => 0
  end.

(** [strconv.IsPrint] on the runes beyond ASCII. *)
Class GoPrint := { is_print : list byte -> bool }.

Section Quote.
  Context `{GP : GoPrint}.

(** The escapes with a letter of their own. *)
Definition control_letter (b : byte) : option byte :=
  match b2z b with
  | 7 => Some x61 | 8 => Some x62 | 12 => Some x66 | 10 => Some x6e | 13 => Some x72 | 9 => Some x74 | 11 => Some x76
  | _ => None
  end.

Definition quote_piece (r : list byte) : list byte :=
  match r with
  | [b] =>
    if decide (b = dquote \/ b = backslash) then [backslash; b]
    else if in_range b 32 126 then r
    else match control_letter b with
    | Some c => [backslash; c]
    | None => [backslash; x78] ++ hex_digits 2 (b2z b)
    end
  | _ =>
    if is_print r then r
    else if rune_value r <? 65536 then [backslash; x75] ++ hex_digits 4 (rune_value r)
    else [backslash; x55] ++ hex_digits 8 (rune_value r)
  end.

(** [strconv.Quote], which [%q] prints. *)
Definition Quote (s : string) : list byte :=
  dquote :: concat (map quote_piece (pieces (String.length s) (bytes_of s))) ++ [dquote].

Definition serviceBinaryPath (exePath configPath : string) : string :=
  string_of (Quote exePath ++ bytes_of " -service -config " ++ Quote configPath).
End Quote.

(* ------------------------------------------------------------------ *)
(** ** Splitting what was quoted *)

Definition stops (rest : list byte) : Prop := rest = [] \/ exists more, rest = x20 :: more.
Definition after (rest : list byte) : list byte := tail rest.

Lemma read_stop rest b n : stops rest -> readNextArg rest b false n = (b ++ bs n, after rest).
Proof. intros [->|[more ->]]; reflexivity. Qed.

Lemma read_slashes k : forall l b q n, readNextArg (bs k ++ l) b q n = readNextArg l b q (n + k).
Proof.
  induction k as [|k IH]; intros l b q n; simpl; [by rewrite Nat.add_0_r|].
  rewrite IH. f_equal. lia.
Qed.

(** Inside quotes any byte but the two special ones is taken as it is. *)
Lemma read_quoted_byte c l b n : c <> dquote -> c <> backslash -> readNextArg (c :: l) b true n = readNextArg l (b ++ bs n ++ [c]) true 0.
Proof. intros H1 H2. simpl. rewrite andb_false_r. by rewrite !decide_False by done. Qed.

Lemma read_quoted_bytes r : forall l b, dquote ∉ r -> backslash ∉ r -> readNextArg (r ++ l) b true 0 = readNextArg l (b ++ r) true 0.
Proof.
  induction r as [|c r IH]; intros l b H1 H2; [by rewrite app_nil_r|].
  rewrite not_elem_of_cons in H1, H2. rewrite <- app_comm_cons, read_quoted_byte, IH by naive_solver.
  simpl. by rewrite <- app_assoc.
Qed.

Lemma bs_snoc n : bs n ++ [backslash] = bs (S n).
Proof. unfold bs. by rewrite <- replicate_cons_app. Qed.

(** A piece of a text is a quote, a backslash, or has neither. *)
Definition plain_rune (r : list byte) : Prop := r = [backslash] \/ r = [dquote] \/ (r <> [] /\ dquote ∉ r /\ backslash ∉ r).

Lemma read_quoted rs : forall n b rest, Forall plain_rune rs -> stops rest ->
  readNextArg (quote_runes n rs ++ dquote :: rest) b true 0 = (b ++ bs n ++ concat rs, after rest).
Proof.
  induction rs as [|r rs IH]; intros n b rest F R; cbn [quote_runes concat].
  - rewrite read_slashes. cbn [readNextArg Nat.add]. rewrite andb_false_r, decide_True by done.
    rewrite Nat.div_mul, Nat.even_mul, orb_true_r by lia. rewrite app_nil_r.
    destruct R as [->|[more ->]]; cbn; by rewrite app_nil_r.
  - apply Forall_cons in F as [Fr F]. case_decide as D1; [|case_decide as D2].
    + subst r. rewrite IH by done. rewrite <- bs_snoc. by rewrite <- !app_assoc.
    + subst r. rewrite <- !app_assoc, read_slashes. cbn [readNextArg app Nat.add]. rewrite andb_false_r, decide_True by done.
      assert (E : Nat.even (n * 2 + 1) = false) by (rewrite Nat.even_add, Nat.even_mul, orb_true_r; reflexivity).
      rewrite E. replace ((n * 2 + 1) / 2)%nat with n by (rewrite Nat.div_add_l by lia; simpl; lia).
      rewrite IH by done. simpl. by rewrite <- !app_assoc.
    + destruct Fr as [?|[?|(Hne & H1 & H2)]]; [done..|]. destruct r as [|c r]; [done|].
      rewrite not_elem_of_cons in H1, H2. rewrite <- !app_assoc, read_slashes, <- app_comm_cons, read_quoted_byte by naive_solver.
      rewrite read_quoted_bytes, IH by naive_solver. simpl. by rewrite <- !app_assoc.
Qed.

(* ------------------------------------------------------------------ *)
(** ** Runes of a valid text *)

Ltac rune_cases l :=
  destruct l as [|?b0 l]; cbn [rune_length]; [|destruct (in_range b0 0 127) eqn:?;
    [|destruct l as [|?b1 l]; [|destruct (in_range b0 194 223) eqn:?; [destruct (continuation b1) eqn:?|
      destruct l as [|?b2 l]; [|destruct (in_range b0 224 239) eqn:?; [destruct (in_range b1 _ _ && continuation b2) eqn:?|
        destruct l as [|?b3 l]; [|destruct (in_range b0 240 244) eqn:?; [destruct (in_range b1 _ _ && continuation b2 && continuation b3) eqn:?|]]]]]]]].

Lemma rune_length_take l : rune_length l <> O -> rune_length (take (rune_length l) l) = rune_length l.
Proof.
  rune_cases l; intros D; try done; cbn [take rune_length];
    repeat match goal with H : ?x = _ |- context [?x] => rewrite H end; reflexivity.
Qed.

Lemma rune_length_le l : (rune_length l <= length l)%nat.
Proof. rune_cases l; simpl; lia. Qed.

Lemma in_range_spec b lo hi : in_range b lo hi = true <-> lo <= b2z b <= hi.
Proof. unfold in_range. rewrite andb_true_iff. lia. Qed.

Lemma rune_plain l : rune_length l <> O -> plain_rune (take (rune_length l) l).
Proof.
  assert (P : forall r, r <> [] -> Forall (fun b => 128 <= b2z b) r -> plain_rune r).
  { intros r Hr F. right. right. rewrite Forall_forall in F. split_and!; [done|intros I; apply F in I; by vm_compute in I..]. }
  rune_cases l; intros D; try done; cbn [take].
  1: { destruct (decide (b0 = backslash)) as [->|]; [by left|]. destruct (decide (b0 = dquote)) as [->|]; [by right; left|].
       right. right. rewrite !list_elem_of_singleton. done. }
  all: apply P; [done|]; unfold continuation in *; rewrite ?andb_true_iff, ?in_range_spec in *;
    repeat apply Forall_cons_2; try apply Forall_nil_2; destruct (b2z b0 =? 224), (b2z b0 =? 240); lia.
Qed.

Lemma concat_pieces fuel : forall l, (length l <= fuel)%nat -> concat (pieces fuel l) = l.
Proof.
  induction fuel as [|fuel IH]; intros [|b l] Hl; simpl in *; try done; try lia.
  rewrite IH by (rewrite length_drop; simpl; lia). by rewrite (take_drop (Nat.max 1 _) (b :: l)).
Qed.

Lemma valid_pieces fuel : forall l, valid_utf8 fuel l = true -> Forall (fun r => rune_of r = r /\ plain_rune r) (pieces fuel l).
Proof.
  induction fuel as [|fuel IH]; intros l; [done|]. cbn [valid_utf8 pieces]. destruct l as [|b l]; [done|].
  destruct (rune_length (b :: l)) as [|n] eqn:E; [done|]. intros V. rewrite Nat.max_r by lia. apply Forall_cons_2; [|by apply IH].
  rewrite <- E. split; [|apply rune_plain; by rewrite E].
  unfold rune_of. rewrite rune_length_take by (by rewrite E). by rewrite E.
Qed.

Lemma runes_valid s : ValidString s = true -> concat (runes (bytes_of s)) = bytes_of s /\ Forall plain_rune (runes (bytes_of s)).
Proof.
  unfold ValidString, runes. rewrite <- length_bytes_of. intros V. pose proof (valid_pieces _ _ V) as F.
  assert (E : map rune_of (pieces (length (bytes_of s)) (bytes_of s)) = pieces (length (bytes_of s)) (bytes_of s)).
  { rewrite <- (list_fmap_id (pieces _ _)) at 2. apply list_fmap_ext. intros i r I. by eapply Forall_lookup_1 in F as [? _]. }
  rewrite E. split; [by apply concat_pieces|]. eapply Forall_impl; [exact F|]. by intros r [_ H].
Qed.

(* ------------------------------------------------------------------ *)
(** ** Arguments arrive *)

Lemma read_bare l : forall b n rest, existsb special l = false -> stops rest ->
  readNextArg (l ++ rest) b false n = (b ++ bs n ++ l, after rest).
Proof.
  induction l as [|c l IH]; intros b n rest H R; cbn [app]; [rewrite app_nil_r; by apply read_stop|].
  simpl in H. apply orb_false_iff in H as [Hc H]. apply bool_decide_eq_false in Hc.
  assert (c <> x20 /\ c <> x09 /\ c <> dquote) as (N1 & N2 & N3) by (split_and!; intros ->; apply Hc; set_solver).
  cbn [readNextArg]. rewrite bool_decide_eq_false_2 by tauto. cbn [andb]. rewrite (decide_False (P := c = dquote)) by done.
  case_decide as D; [subst c|]; rewrite IH by done.
  - rewrite <- bs_snoc. by rewrite <- !app_assoc.
  - cbn [bs replicate app]. by rewrite <- !app_assoc.
Qed.

(** An opening quote. *)
Lemma read_open l b : readNextArg (dquote :: l) b false 0 = readNextArg l b true 0.
Proof. cbn. rewrite app_nil_r. by destruct l. Qed.

Lemma read_quote_bytes s rest : ValidString s = true -> stops rest ->
  readNextArg (quote_bytes (bytes_of s) ++ rest) [] false 0 = (bytes_of s, after rest).
Proof.
  intros V R. unfold quote_bytes. case_decide as D; [|case_match eqn:E].
  - rewrite D. destruct R as [->|[more ->]]; reflexivity.
  - by rewrite read_bare by (try apply negb_true_iff; done).
  - apply runes_valid in V as [V F]. rewrite <- app_comm_cons, read_open, <- app_assoc. cbn [app]. rewrite read_quoted by done.
    by rewrite V.
Qed.

Lemma quote_bytes_head l : exists c t, quote_bytes l = c :: t /\ c <> x20 /\ c <> x09.
Proof.
  unfold quote_bytes. case_decide as D; [by exists dquote, [dquote]|]. case_match eqn:E.
  - destruct l as [|c t]; [done|]. exists c, t. apply negb_true_iff in E. simpl in E. apply orb_false_iff in E as [E _].
    apply bool_decide_eq_false in E. split; [done|]. split; intros ->; apply E; set_solver.
  - by eexists dquote, _.
Qed.

(** One argument read and the fuel that is left. *)
Lemma split_step fuel c t arg rest : c <> x20 -> c <> x09 -> readNextArg (c :: t ++ rest) [] false 0 = (arg, after rest) ->
  (length (c :: t ++ rest) <= fuel)%nat ->
  exists fuel', (length (after rest) <= fuel')%nat /\ split_command fuel (c :: t ++ rest) = arg :: split_command fuel' (after rest).
Proof.
  intros N1 N2 E Hf. destruct fuel as [|fuel]; [simpl in Hf; lia|]. exists fuel. split.
  - simpl in Hf. rewrite length_app in Hf. unfold after. destruct rest; simpl in *; lia.
  - cbn [split_command]. rewrite decide_False by tauto. by rewrite E.
Qed.

Lemma split_end fuel : split_command fuel [] = [].
Proof. by destruct fuel. Qed.

Lemma split_joined args : forall fuel, Forall (fun s => ValidString s = true) args ->
  (length (bytes_of (joinWindowsArgs args)) <= fuel)%nat -> split_command fuel (bytes_of (joinWindowsArgs args)) = map bytes_of args.
Proof.
  induction args as [|s args IH]; intros fuel F Hf; [apply split_end|].
  apply Forall_cons in F as [V F]. set (rest := match args with [] => [] | _ => x20 :: bytes_of (joinWindowsArgs args) end).
  assert (E : bytes_of (joinWindowsArgs (s :: args)) = quote_bytes (bytes_of s) ++ rest).
  { unfold joinWindowsArgs, Join, rest. destruct args as [|s' args]; cbn [map String.concat]; unfold quoteWindowsArg at 1;
      rewrite ?bytes_of_app, ?bytes_of_string_of; [by rewrite app_nil_r|reflexivity]. }
  assert (R : stops rest) by (unfold rest; destruct args; [by left|by right; eexists]).
  rewrite E in *. destruct (quote_bytes_head (bytes_of s)) as (c & t & Q & N1 & N2).
  pose proof (read_quote_bytes s rest V R) as P. rewrite Q, <- app_comm_cons in P, Hf |- *.
  destruct (split_step fuel c t (bytes_of s) rest) as (fuel' & Hf' & ->); [done..|]. cbn [map]. f_equal.
  unfold rest in *. destruct args as [|s' args]; [apply split_end|]. by apply IH.
Qed.

(** A program that starts itself again with more rights receives the arguments it
    passed: splitting the command line undoes the quoting for every list of arguments
    in UTF-8, with blanks, quotes and backslashes in any places, empty ones too. *)
Theorem elevated_arguments_arrive (args : list string) : Forall (fun s => ValidString s = true) args ->
  commandLineToArgv (joinWindowsArgs args) = args.
Proof.
  intros F. unfold commandLineToArgv. rewrite split_joined; [|done|by rewrite length_bytes_of].
  rewrite map_map. rewrite <- (list_fmap_id args) at 2. apply list_fmap_ext. intros i s _. apply string_of_bytes_of.
Qed.

(** A path with a blank and a final backslash, nothing, and a quote before a backslash. *)
Definition awkward_args : list string := ["-config"%string; "C:\My Dir\"%string; EmptyString; string_of [backslash; dquote; x20; backslash]].

Lemma elevated_arguments_arrive_witness : commandLineToArgv (joinWindowsArgs awkward_args) = awkward_args.
Proof. apply elevated_arguments_arrive. repeat (apply Forall_cons_2; [vm_compute; reflexivity|]). apply Forall_nil_2. Defined.

(* ------------------------------------------------------------------ *)
(** ** The service's command line *)

(** Each backslash of a path comes twice. *)
Definition doubled (l : list byte) : list byte := concat (map (fun b => if decide (b = backslash) then [backslash; backslash] else [b]) l).

Definition path_byte (b : byte) : Prop := 32 <= b2z b <= 126 /\ b <> dquote.

Lemma ascii_pieces fuel : forall l, (length l <= fuel)%nat -> Forall path_byte l -> pieces fuel l = map (fun b => [b]) l.
Proof.
  induction fuel as [|fuel IH]; intros [|b l] Hl F; simpl in Hl; try done; try lia.
  apply Forall_cons in F as [[P _] F]. cbn [pieces map].
  assert (E : rune_length (b :: l) = 1%nat) by (cbn [rune_length]; by replace (in_range b 0 127) with true by (symmetry; apply in_range_spec; lia)).
  rewrite E. cbn. by rewrite drop_0, IH by (done || lia).
Qed.

Lemma Quote_path `{GP : GoPrint} s : Forall path_byte (bytes_of s) -> Quote s = dquote :: doubled (bytes_of s) ++ [dquote].
Proof.
  intros F. unfold Quote. rewrite ascii_pieces by (by rewrite ?length_bytes_of). do 3 f_equal. unfold doubled. rewrite map_map.
  f_equal. apply list_fmap_ext. intros i b I. eapply Forall_lookup_1 in F as [P N]; [|exact I]. cbn [quote_piece].
  case_decide as D; case_decide as D'; try naive_solver. by replace (in_range b 32 126) with true by (symmetry; by apply in_range_spec).
Qed.

Lemma read_doubled l : forall b, Forall path_byte l -> last l <> Some backslash ->
  forall rest, stops rest -> readNextArg (doubled l ++ dquote :: rest) b true 0 = (b ++ doubled l, after rest).
Proof.
  assert (G : forall l b n, Forall path_byte l -> (last l <> Some backslash) -> (l = [] -> n = O) -> forall rest, stops rest ->
    readNextArg (doubled l ++ dquote :: rest) b true n = (b ++ bs n ++ doubled l, after rest)).
  { clear. induction l as [|c l IH]; intros b n F La Hn rest R.
    - rewrite Hn by done. cbn. destruct R as [->|[more ->]]; cbn; by rewrite !app_nil_r.
    - apply Forall_cons in F as [[_ Nq] F]. cbn [doubled map concat]. fold (doubled l). case_decide as D.
      + subst c. assert (Hl : l <> []) by (intros ->; by apply La). rewrite <- app_assoc.
        change ([backslash; backslash] ++ ?t) with (bs 2 ++ t). rewrite read_slashes. rewrite IH; [|done| |done|done].
        * unfold bs. rewrite replicate_add. by rewrite <- !app_assoc.
        * intros E. apply La. destruct l; [done|exact E].
      + cbn [app]. rewrite read_quoted_byte by done.
        destruct l as [|c' l]; [destruct R as [->|[more ->]]; cbn; by rewrite <- !app_assoc|].
        rewrite IH by (try done; intros E; by apply La). cbn [bs replicate app]. by rewrite <- !app_assoc. }
  intros b F La rest R. rewrite (G l b O F La) by done. done.
Qed.

(** The service manager is given another path than the one of the program: Go's quoting
    doubles backslashes and splitting a command line keeps both. *)
Theorem service_path_doubles_backslashes `{GP : GoPrint} (exePath configPath : string) :
  Forall path_byte (bytes_of exePath) -> Forall path_byte (bytes_of configPath) ->
  last (bytes_of exePath) <> Some backslash -> last (bytes_of configPath) <> Some backslash ->
  commandLineToArgv (serviceBinaryPath exePath configPath) =
    [string_of (doubled (bytes_of exePath)); "-service"%string; "-config"%string; string_of (doubled (bytes_of configPath))].
Proof.
  intros F1 F2 L1 L2. unfold commandLineToArgv, serviceBinaryPath. rewrite <- length_bytes_of, bytes_of_string_of.
  rewrite !Quote_path by done.
  match goal with |- context [split_command (length ?l) _] => remember (length l) as fuel eqn:Ef; assert (Hf : (length l <= fuel)%nat) by lia; clear Ef end.
  set (last_arg := x20 :: dquote :: doubled (bytes_of configPath) ++ [dquote]).
  assert (E : (dquote :: doubled (bytes_of exePath) ++ [dquote]) ++ bytes_of " -service -config " ++ dquote :: doubled (bytes_of configPath) ++ [dquote] =
    dquote :: (doubled (bytes_of exePath) ++ [dquote]) ++ x20 :: bytes_of "-service" ++ x20 :: bytes_of "-config" ++ last_arg) by reflexivity.
  rewrite E in *. clear E.
  destruct (split_step fuel dquote (doubled (bytes_of exePath) ++ [dquote]) (doubled (bytes_of exePath)) (x20 :: bytes_of "-service" ++ x20 :: bytes_of "-config" ++ last_arg))
    as (f1 & H1 & ->); [done..| |done|].
  { rewrite read_open, <- app_assoc. apply read_doubled; [done..|]. right. by eexists. }
  destruct (split_step f1 x2d (bytes_of "service") (bytes_of "-service") (x20 :: bytes_of "-config" ++ last_arg)) as (f2 & H2 & E2); [done..| |done|].
  { apply (read_bare (bytes_of "-service") [] 0); [reflexivity|right; by eexists]. }
  destruct (split_step f2 x2d (bytes_of "config") (bytes_of "-config") last_arg) as (f3 & H3 & E3); [done..| |done|].
  { apply (read_bare (bytes_of "-config") [] 0); [reflexivity|right; by eexists]. }
  destruct (split_step f3 dquote (doubled (bytes_of configPath) ++ [dquote]) (doubled (bytes_of configPath)) []) as (f4 & H4 & E4); [done..| | |].
  { rewrite read_open, app_nil_r. apply read_doubled; [done..|]. by left. }
  { by rewrite app_nil_r. }
  cbn [after tail last_arg] in *. change (bytes_of "-service" ++ ?t) with (x2d :: bytes_of "service" ++ t). rewrite E2.
  change (bytes_of "-config" ++ ?t) with (x2d :: bytes_of "config" ++ t). rewrite E3. rewrite app_nil_r in E4. rewrite E4. cbn [after tail].
  rewrite split_end. reflexivity.
Qed.

Lemma path_bytes_of l : forallb (fun b => in_range b 32 126 && negb (bool_decide (b = dquote))) l = true -> Forall path_byte l.
Proof.
  rewrite forallb_forall. intros F. apply Forall_forall. intros b I. apply list_elem_of_In, F in I.
  rewrite andb_true_iff, negb_true_iff, bool_decide_eq_false, in_range_spec in I. exact I.
Qed.

(** The share the installation may be on starts with four backslashes instead of two. *)
Lemma service_path_doubles_backslashes_witness :
  commandLineToArgv (serviceBinaryPath (GP := {| is_print _ := true |}) "\\host\udp\client.exe" "client.json") =
    ["\\\\host\\udp\\client.exe"; "-service"; "-config"; "client.json"]%string.
Proof.
  apply (service_path_doubles_backslashes (GP := {| is_print _ := true |}) "\\host\udp\client.exe" "client.json");
    try (apply path_bytes_of; reflexivity); vm_compute; discriminate.
Defined.
