(* ===== verification/WinService.v ===== *)
(** * WinService: the Windows services of both clients (service_windows.go, elevate_windows.go)

    The two files are the same program for two names. The service manager and the registry
    are not under src/: what the code asks of them is the class [ServiceManager], what it
    counts on is [ServiceManagerLaws]. *)

From S2P Require Import Prelude GoStrings WinArgs.

(* ------------------------------------------------------------------ *)
(** ** The running service *)

Inductive svc_cmd : Type := Interrogate | Stop | Shutdown | OtherCmd.

(** What [Execute] sends to the manager. *)
Inductive svc_report : Type := StartPending | Running | StopPending | CurrentStatus.

(** What its [select] sees: a request, or that the program's [run] has returned. *)
Inductive svc_event : Type := Request (c : svc_cmd) | RunDone.

#[export] Instance svc_cmd_eq_dec : EqDecision svc_cmd.
Proof. solve_decision. Defined.

#[export] Instance svc_event_eq_dec : EqDecision svc_event.
Proof. solve_decision. Defined.

(** Where [Execute] is after some events: in its loop, waiting for [run] to return after
    cancelling its context, or returned with an exit code. *)
Inductive svc_state : Type := Looping | Stopping | Exited (code : Z).

#[export] Instance svc_state_eq_dec : EqDecision svc_state.
Proof. solve_decision. Defined.

Fixpoint execute_loop (events : list svc_event) (s : svc_state) : list svc_report * svc_state :=
  match events with
  | [] => ([], s)
  | ev :: events =>
    match s, ev with
    | Looping, Request Interrogate => let '(out, s) := execute_loop events Looping in (CurrentStatus :: out, s)
    | Looping, Request OtherCmd => execute_loop events Looping
    | Looping, Request (Stop | Shutdown) => let '(out, s) := execute_loop events Stopping in (StopPending :: out, s)
    | Looping, RunDone => let '(out, s) := execute_loop events (Exited 0) in (StopPending :: out, s)
    | Stopping, RunDone => execute_loop events (Exited 0)
    | Stopping, Request _ => execute_loop events Stopping
    | Exited code, _ => ([], Exited code)
    end
  end.

Definition Execute (events : list svc_event) : list svc_report * svc_state :=
  let '(out, s) := execute_loop events Looping in (StartPending :: Running :: out, s).

(* ------------------------------------------------------------------ *)
(** ** The manager *)

Record service_config : Type := mkServiceConfig { sc_DisplayName : string; sc_Automatic : bool; sc_BinaryPathName : string }.

(** Errors are their texts, [None] is success; [Query] gives the state as a number. *)
Class ServiceManager (W : Type) := {
  Connect : W -> option string;
  OpenService : string -> W -> option string;
  Config : string -> W -> result string service_config;
  UpdateConfig : string -> service_config -> W -> option string * W;
  CreateService : string -> string -> service_config -> list string -> W -> option string * W;
  Recovery : string -> W -> option string * W;               (* sc.exe failure *)
  ControlStop : string -> W -> option string * W;
  Start : string -> W -> option string * W;
  Delete : string -> W -> option string * W;
  Query : string -> W -> result string Z;
  Sleep : Duration -> W -> W;
  OpenRunKey : W -> option string;
  SetRunValue : string -> string -> W -> option string * W;
  DeleteRunValue : string -> W -> W;
}.

Definition svc_Stopped : Z := 1.
Definition svc_StartPending : Z := 2.
Definition svc_StopPending : Z := 3.
Definition svc_Running : Z := 4.

Section Manager.
  Context {W : Type} `{SM : ServiceManager W} `{GP : GoPrint} `{GU : GoUnicode}.
  (** The name of the service, the one shown, and the value under the key of the programs
      that start at log-on. *)
  Variables (name display windowsRunKeyName : string).

Definition installWindowsService (exePath configPath : string) (w : W) : option string * W :=
  match Connect w with
  | Some e => (Some e, w)
  | None =>
    match OpenService name w with
    | None =>
      match Config name w with
      | Err e => (Some e, w)
      | Ok _ =>
        match UpdateConfig name (mkServiceConfig display true (serviceBinaryPath exePath configPath)) w with
        | (Some e, w) => (Some e, w)
        | (None, w) => Recovery name w
        end
      end
    | Some _ =>
      match CreateService name exePath (mkServiceConfig display true EmptyString) ["-service"; "-config"; configPath]%string w with
      | (Some e, w) => (Some e, w)
      | (None, w) => Recovery name w
      end
    end
  end.

Definition uninstallWindowsService (w : W) : option string * W :=
  match Connect w with
  | Some e => (Some e, w)
  | None =>
    match OpenService name w with
    | Some _ => (None, w)
    | None => Delete name (Sleep (500 * millisecond) (ControlStop name w).2)
    end
  end.

Definition startWindowsService (w : W) : option string * W :=
  match Connect w with
  | Some e => (Some e, w)
  | None =>
    match OpenService name w with
    | Some e => (Some e, w)
    | None =>
      match Start name w with
      | (Some e, w) => (if Contains (ToLower e) "already running" then None else Some e, w)
      | (None, w) => (None, w)
      end
    end
  end.

Definition stopWindowsService (w : W) : option string * W :=
  match Connect w with
  | Some e => (Some e, w)
  | None => match OpenService name w with Some e => (Some e, w) | None => ControlStop name w end
  end.

(** The text and whether there is an error beside it. *)
Definition queryWindowsServiceStatus (w : W) : string * bool :=
  match Connect w with
  | Some _ => ("unknown", true)
  | None =>
    match OpenService name w with
    | Some _ => ("missing", false)
    | None =>
      match Query name w with
      | Err _ => ("unknown", true)
      | Ok st =>
        (if decide (st = svc_Running) then "running" else if decide (st = svc_Stopped) then "stopped"
         else if decide (st = svc_StartPending) then "start_pending" else if decide (st = svc_StopPending) then "stop_pending"
         else FormatInt st, false)
      end
    end
  end.

Definition quiet (status : string) : bool := bool_decide (status ∈ ["stopped"; "missing"; "unknown"]%string).

(** The polls of [restartWindowsService] that are left. *)
Fixpoint await_stop (polls : nat) (w : W) : W :=
  match polls with
  | O => w
  | S polls => if quiet (queryWindowsServiceStatus w).1 then w else await_stop polls (Sleep (250 * millisecond) w)
  end.

Definition restartWindowsService (w : W) : option string * W :=
  startWindowsService (await_stop 40 (stopWindowsService w).2).

(** [elevated] launches the program with more rights: its command line, and the error. *)
Definition restartWindowsServiceWithElevation (denied : string -> bool) (elevated : string -> option string) (w : W) : option string * W :=
  match restartWindowsService w with
  | (None, w) => (None, w)
  | (Some e, w) => if denied e then (elevated (joinWindowsArgs ["-restart-service"%string]), w) else (Some e, w)
  end.

(** *** The tray at log-on *)

Definition trayCommand (exePath configPath : string) : string :=
  (string_of (Quote exePath) ++ " -tray -config " ++ string_of (Quote configPath))%string.

Definition ensureTrayStartup (exePath configPath : string) (w : W) : option string * W :=
  match OpenRunKey w with Some e => (Some e, w) | None => SetRunValue windowsRunKeyName (trayCommand exePath configPath) w end.

Definition removeTrayStartup (w : W) : option string * W :=
  match OpenRunKey w with Some _ => (None, w) | None => (None, DeleteRunValue windowsRunKeyName w) end.
End Manager.

(** The two programs. The LAN client's copy of the code is in a module of its own. *)
Definition windowsServiceName : string := "UDPTunnelAgent".
Definition agentRunKeyName : string := "UDPTunnelTray".

Module Lan.
Section Lan.
  Context {W : Type} `{SM : ServiceManager W} `{GP : GoPrint} `{GU : GoUnicode}.

Definition ServiceName : string := "UDPTunnelLAN".
Definition ProductName : string := "UDP Tunnel LAN".
Definition windowsRunKeyName : string := "UDPTunnelLANTray".
Definition Execute : list svc_event -> list svc_report * svc_state := Execute.
Definition installWindowsService : string -> string -> W -> option string * W := installWindowsService ServiceName ProductName.
Definition serviceBinaryPath : string -> string -> string := serviceBinaryPath.
Definition uninstallWindowsService : W -> option string * W := uninstallWindowsService ServiceName.
Definition startWindowsService : W -> option string * W := startWindowsService ServiceName.
Definition stopWindowsService : W -> option string * W := stopWindowsService ServiceName.
Definition queryWindowsServiceStatus : W -> string * bool := queryWindowsServiceStatus ServiceName.
Definition restartWindowsService : W -> option string * W := restartWindowsService ServiceName.
Definition restartWindowsServiceWithElevation : (string -> bool) -> (string -> option string) -> W -> option string * W :=
  restartWindowsServiceWithElevation ServiceName.
Definition ensureTrayStartup : string -> string -> W -> option string * W := ensureTrayStartup windowsRunKeyName.
Definition removeTrayStartup : W -> option string * W := removeTrayStartup windowsRunKeyName.
Definition joinWindowsArgs : list string -> string := joinWindowsArgs.
Definition quoteWindowsArg : string -> string := quoteWindowsArg.
End Lan.
End Lan.

(* ------------------------------------------------------------------ *)
(** ** How a service ends, and what a restart does *)

(** A service that is told to stop, and one whose program ends by itself, by an error as
    well, end the same way: with exit code 0, which the manager does not take for a
    failure to recover from. *)
Lemma execute_ends (events : list svc_event) :
  (Execute events).2 = if decide (RunDone ∈ events) then Exited 0
    else if decide (Request Stop ∈ events \/ Request Shutdown ∈ events) then Stopping else Looping.
Proof.
  assert (HE : forall c es, execute_loop es (Exited c) = ([], Exited c)) by (intros c [|e es]; done).
  assert (HS : forall es, (execute_loop es Stopping).2 = if decide (RunDone ∈ es) then Exited 0 else Stopping).
  { induction es as [|e es IH]; [done|]. destruct e as [c|]; cbn [execute_loop].
    - rewrite IH. apply decide_ext. rewrite elem_of_cons. naive_solver.
    - rewrite HE. rewrite decide_True by (by left). done. }
  assert (HL : (execute_loop events Looping).2 = if decide (RunDone ∈ events) then Exited 0
    else if decide (Request Stop ∈ events \/ Request Shutdown ∈ events) then Stopping else Looping).
  { induction events as [|e es IH]; [done|]. destruct e as [c|]; cbn [execute_loop].
    - destruct c.
      + destruct (execute_loop es Looping) as [out s]. cbn in *. rewrite IH. repeat case_decide; rewrite ?elem_of_cons in *; naive_solver.
      + specialize (HS es). destruct (execute_loop es Stopping) as [out s]. cbn in *. rewrite HS. repeat case_decide; rewrite ?elem_of_cons in *; naive_solver.
      + specialize (HS es). destruct (execute_loop es Stopping) as [out s]. cbn in *. rewrite HS. repeat case_decide; rewrite ?elem_of_cons in *; naive_solver.
      + rewrite IH. repeat case_decide; rewrite ?elem_of_cons in *; naive_solver.
    - rewrite HE. rewrite decide_True by (by left). done. }
  unfold Execute. destruct (execute_loop events Looping). exact HL.
Qed.

(** A start is refused while the service is not stopped, with the text of Windows. *)
Definition already_running : string := "An instance of the service is already running.".

Class ServiceManagerLaws (W : Type) (SM : ServiceManager W) : Prop := {
  start_refused name w st : Query name w = Ok st -> st <> svc_Stopped -> Start name w = (Some already_running, w);
}.

Section Restart.
  Context {W : Type} {SM : ServiceManager W} {L : ServiceManagerLaws W SM} `{GU : GoUnicode}.
  Variable name : string.

(** The world after some polls of a quarter of a second. *)
Definition polled (n : nat) (w : W) : W := Nat.iter n (Sleep (250 * millisecond)) w.

Definition reachable_service (w : W) : Prop := Connect w = None /\ OpenService name w = None.

Lemma polled_S n w : polled (S n) w = polled n (Sleep (250 * millisecond) w).
Proof. unfold polled. by rewrite Nat.iter_succ_r. Qed.

Lemma busy_status w st : reachable_service w -> Query name w = Ok st -> st ∈ [svc_StartPending; svc_StopPending; svc_Running] ->
  quiet (queryWindowsServiceStatus name w).1 = false.
Proof.
  intros [HC HO] HQ Hst. unfold queryWindowsServiceStatus. rewrite HC, HO, HQ.
  rewrite !elem_of_cons, elem_of_nil in Hst. destruct Hst as [->|[->|[->|[]]]]; reflexivity.
Qed.

Lemma stopped_status w : reachable_service w -> Query name w = Ok svc_Stopped -> quiet (queryWindowsServiceStatus name w).1 = true.
Proof. intros [HC HO] HQ. unfold queryWindowsServiceStatus. by rewrite HC, HO, HQ. Qed.

Definition busy (w : W) : Prop := exists st, Query name w = Ok st /\ st ∈ [svc_StartPending; svc_StopPending; svc_Running].

Lemma await_busy n polls w : (n <= polls)%nat -> (forall k, (k < n)%nat -> reachable_service (polled k w) /\ busy (polled k w)) ->
  await_stop name polls w = await_stop name (polls - n) (polled n w).
Proof.
  revert polls w. induction n as [|n IH]; intros polls w Hn H; [by rewrite Nat.sub_0_r|].
  destruct polls as [|polls]; [lia|]. destruct (H 0%nat ltac:(lia)) as [HR (st & HQ & Hst)]. cbn [await_stop].
  rewrite (busy_status w st) by done. rewrite (IH polls (Sleep (250 * millisecond) w)).
  - by rewrite polled_S.
  - lia.
  - intros k Hk. rewrite <- polled_S. apply H. lia.
Qed.

(** A restart starts the service at the first poll that finds it stopped, if that is
    within ten seconds; of a service that takes longer to stop it reports success all the
    same and starts nothing, since the refusal of the manager is taken for success. *)
Theorem restart_within_ten_seconds (w : W) (n : nat) :
  let w0 := (stopWindowsService name w).2 in
  (forall k, (k <= 40)%nat -> reachable_service (polled k w0)) -> (forall k, (k < n)%nat -> busy (polled k w0)) ->
  ((n < 40)%nat -> Query name (polled n w0) = Ok svc_Stopped -> restartWindowsService name w = startWindowsService name (polled n w0)) /\
  ((40 < n)%nat -> restartWindowsService name w = (None, polled 40 w0)).
Proof.
  intros w0 HR HB. unfold restartWindowsService. fold w0.
  assert (HA : forall m, (m <= 40)%nat -> (m <= n)%nat -> await_stop name 40 w0 = await_stop name (40 - m) (polled m w0)).
  { intros m H1 H2. apply await_busy; [done|]. intros k Hk. split; [apply HR|apply HB]; lia. }
  split; intros Hn.
  - intros HQ. rewrite (HA n) by lia.
    destruct (40 - n)%nat as [|m] eqn:E; [lia|]. cbn [await_stop]. by rewrite stopped_status by (done || apply HR; lia).
  - rewrite (HA 40%nat) by lia. cbn [Nat.sub await_stop].
    destruct (HB 40%nat Hn) as (st & HQ & Hst). destruct (HR 40%nat (le_n _)) as [HC HO]. unfold startWindowsService. rewrite HC, HO.
    rewrite (start_refused name _ st HQ) by (intros ->; rewrite !elem_of_cons, elem_of_nil in Hst; naive_solver). reflexivity.
Qed.

(** A restart by a user without the rights to reach the manager is asked of a program
    started with them. *)
Lemma restart_asks_for_rights denied elevated e (w : W) : Connect w = Some e -> denied e = true ->
  restartWindowsServiceWithElevation name denied elevated w = (elevated "-restart-service"%string, w).
Proof.
  intros HC HD. assert (Q : quiet (queryWindowsServiceStatus name w).1 = true) by (unfold queryWindowsServiceStatus; by rewrite HC).
  unfold restartWindowsServiceWithElevation, restartWindowsService, stopWindowsService. rewrite HC. change 40%nat with (S 39). cbn [snd await_stop].
  rewrite Q. unfold startWindowsService. by rewrite HC, HD.
Qed.
End Restart.

(* ------------------------------------------------------------------ *)
(** ** Witness *)

#[local] Existing Instance ascii_unicode.

(** One service: its state, and how many quarters of a second it takes to stop. *)
Record toy_manager : Type := mkToyManager { tm_state : Z; tm_left : nat; tm_starts : nat }.

#[export] Instance toy_service_manager : ServiceManager toy_manager := {|
  Connect _ := None; OpenService _ _ := None;
  Config _ _ := Ok (mkServiceConfig EmptyString true EmptyString);
  UpdateConfig _ _ w := (None, w); CreateService _ _ _ _ w := (None, w); Recovery _ w := (None, w);
  ControlStop _ w := (None, if decide (tm_state w = svc_Running) then mkToyManager svc_StopPending (tm_left w) (tm_starts w) else w);
  Start _ w := if decide (tm_state w = svc_Stopped) then (None, mkToyManager svc_Running (tm_left w) (S (tm_starts w))) else (Some already_running, w);
  Delete _ w := (None, w); Query _ w := Ok (tm_state w);
  Sleep _ w := if decide (tm_state w = svc_StopPending)
    then match tm_left w with S (S n) => mkToyManager svc_StopPending (S n) (tm_starts w) | _ => mkToyManager svc_Stopped 0 (tm_starts w) end else w;
  OpenRunKey _ := None; SetRunValue _ _ w := (None, w); DeleteRunValue _ w := w;
|}.

#[export] Instance toy_service_laws : ServiceManagerLaws toy_manager toy_service_manager.
Proof. split. intros name w st. cbn. intros [= <-] H. by rewrite decide_False. Qed.

Lemma toy_reachable w : reachable_service "svc" w.
Proof. by split. Qed.

Lemma toy_busy_spec w n : forallb (fun k => bool_decide (tm_state (polled k w) ∈ [svc_StartPending; svc_StopPending; svc_Running])) (seq 0 n) = true ->
  forall k, (k < n)%nat -> busy "svc" (polled k w).
Proof.
  intros H k Hk. exists (tm_state (polled k w)). split; [done|]. rewrite forallb_forall in H. apply (bool_decide_eq_true_1 _), H, in_seq. lia.
Qed.

Lemma restart_within_ten_seconds_witness :
  tm_starts (restartWindowsService "svc" (mkToyManager svc_Running 3 0)).2 = 1%nat /\
  (let '(err, w) := restartWindowsService "svc" (mkToyManager svc_Running 60 0) in err = None /\ tm_starts w = 0%nat).
Proof.
  split.
  - destruct (restart_within_ten_seconds "svc" (mkToyManager svc_Running 3 0) 3 (fun _ _ => toy_reachable _)
      (toy_busy_spec (mkToyManager svc_StopPending 3 0) 3 eq_refl)) as [R _]. rewrite R; [vm_compute; reflexivity|lia|vm_compute; reflexivity].
  - destruct (restart_within_ten_seconds "svc" (mkToyManager svc_Running 60 0) 41 (fun _ _ => toy_reachable _)
      (toy_busy_spec (mkToyManager svc_StopPending 60 0) 41 eq_refl)) as [_ R]. rewrite R by lia. vm_compute. split; reflexivity.
Defined.
