(* ===== verification/GoJSON.v ===== *)
(** * GoJSON: JSON objects as encoding/json reads them into structs

    The texts themselves are a parameter; here is what the code relies on: an object
    written field by field is read again as the same fields, and how the fields of an
    object are matched with those of a struct. *)

From S2P Require Import Prelude GoStrings WinArgs.
From stdpp Require Import countable.
Open Scope Z_scope.

Inductive json : Type :=
  | JNull
  | JBool (b : bool)
  | JNumber (literal : string)
  | JString (s : string)
  | JArray (l : list json)
  | JObject (fields : list (string * json)).

Definition object : Type := list (string * json).

(** [json.Marshal] of a struct, [json.Indent], [json.Unmarshal] into a struct and
    [Decoder.Decode]. [None] is an error: not JSON, or not an object; [null] reads as the
    object without fields. *)
Class GoJSON := {
  Marshal : object -> list byte;
  Indent : list byte -> list byte;
  Unmarshal : list byte -> option object;
  DecodeFirst : list byte -> option object;
}.

(** What survives being written: text in UTF-8, integers, and lists of texts. *)
Definition is_text (v : json) : bool := match v with JString s => ValidString s | _ => false end.
Definition writable (v : json) : bool :=
  match v with
  | JBool _ => true
  | JNumber l => match Atoi l with Some z => bool_decide (FormatInt z = l) | None => false end
  | JString s => ValidString s
  | JArray l => forallb is_text l
  | _ => false
  end.
Definition writable_object (o : object) : bool := forallb (fun kv => ValidString kv.1 && writable kv.2) o.

Class GoJSONLaws (GJ : GoJSON) : Prop := {
  unmarshal_pretty o : writable_object o = true -> Unmarshal (Indent (Marshal o) ++ [x0a]) = Some o;
  decode_marshal o n : writable_object o = true -> DecodeFirst (Marshal o ++ replicate n x0a) = Some o;
}.

(* ------------------------------------------------------------------ *)
(** ** Reading a struct *)

Section Struct.
  Context `{GU : GoUnicode}.

(** The field of the struct a key is for: its name, or else a name that differs in
    case. *)
Definition resolve (names : list string) (key : string) : option string :=
  if decide (key ∈ names) then Some key else List.find (fun n => EqualFold n key) names.

(** The values an object has for a field, in order. *)
Definition values (names : list string) (o : object) (name : string) : list json :=
  map snd (List.filter (fun kv => bool_decide (resolve names kv.1 = Some name)) o).
End Struct.

(** A field takes the values one after the other. *)
Definition read_values {A} (f : A -> json -> option A) (zero : A) (vs : list json) : option A :=
  foldl (fun acc v => a ← acc; f a v) (Some zero) vs.

Definition as_string : list json -> option string :=
  read_values (fun s v => match v with JString s => Some s | JNull => Some s | _ => None end) EmptyString.
Definition as_bool : list json -> option bool :=
  read_values (fun b v => match v with JBool b => Some b | JNull => Some b | _ => None end) false.
Definition as_bool_ptr : list json -> option (option bool) :=
  read_values (fun _ v => match v with JBool b => Some (Some b) | JNull => Some None | _ => None end) None.
(** An [int] or [int64] field. *)
Definition as_int : list json -> option Z :=
  read_values (fun z v => match v with JNumber l => Atoi l | JNull => Some z | _ => None end) 0%Z.
Definition text_item (v : json) : option string := match v with JString s => Some s | JNull => Some EmptyString | _ => None end.
Definition as_strings : list json -> option (list string) :=
  read_values (fun _ v => match v with JArray l => mapM text_item l | JNull => Some [] | _ => None end) [].

(** A field with [omitempty]. *)
Definition omit_string (name s : string) : object := if decide (s = EmptyString) then [] else [(name, JString s)].

Lemma resolve_exact `{GU : GoUnicode} names k : k ∈ names -> resolve names k = Some k.
Proof. intros H. unfold resolve. by rewrite decide_True. Qed.

(** An object that uses the names of the struct. *)
Lemma values_exact `{GU : GoUnicode} names o name : forallb (fun kv => bool_decide (kv.1 ∈ names)) o = true ->
  values names o name = map snd (List.filter (fun kv => bool_decide (kv.1 = name)) o).
Proof.
  intros F. unfold values. f_equal. induction o as [|[k v] o IH]; [done|]. simpl in F |- *. apply andb_true_iff in F as [K F].
  apply bool_decide_eq_true in K. rewrite resolve_exact by done. rewrite (IH F).
  by rewrite (bool_decide_ext (Some k = Some name) (k = name)) by naive_solver.
Qed.

Lemma text_items l : mapM text_item (map JString l) = Some l.
Proof. induction l as [|s l IH]; [done|]. simpl. by rewrite IH. Qed.

(* ------------------------------------------------------------------ *)
(** ** Integers printed and read *)

Definition digit_step (acc : Z) (b : byte) : Z := acc * 10 + (b2z b - 48).

Lemma pretty_digit (d : N) : (d < 10)%N ->
  is_digit (Ascii.byte_of_ascii (pretty_N_char d)) = true /\ b2z (Ascii.byte_of_ascii (pretty_N_char d)) - 48 = Z.of_N d.
Proof.
  intros H. assert (F : Forall (fun d => is_digit (Ascii.byte_of_ascii (pretty_N_char d)) = true /\
    b2z (Ascii.byte_of_ascii (pretty_N_char d)) - 48 = Z.of_N d) [0; 1; 2; 3; 4; 5; 6; 7; 8; 9]%N) by (repeat apply Forall_cons_2; [by split..|apply Forall_nil_2]).
  rewrite Forall_forall in F. apply F. assert (d = 0 \/ d = 1 \/ d = 2 \/ d = 3 \/ d = 4 \/ d = 5 \/ d = 6 \/ d = 7 \/ d = 8 \/ d = 9)%N by lia. set_solver.
Qed.

Lemma pretty_go_value n : forall s, forallb is_digit (bytes_of s) = true ->
  forallb is_digit (bytes_of (pretty_N_go n s)) = true /\ fold_left digit_step (bytes_of (pretty_N_go n s)) 0 = fold_left digit_step (bytes_of s) (Z.of_N n).
Proof.
  induction (N.lt_wf_0 n) as [n _ IH]. intros s Hs. destruct (decide (n = 0%N)) as [->|Hn]; [by rewrite pretty_N_go_0|].
  rewrite pretty_N_go_step by lia. destruct (pretty_digit (n mod 10)) as [D V]; [apply N.mod_lt; lia|].
  destruct (IH (n / 10)%N) with (s := String (pretty_N_char (n mod 10)) s) as [F E]; [apply N.div_lt; lia|by rewrite bytes_of_cons; cbn [forallb]; rewrite D|].
  split; [exact F|]. rewrite E, bytes_of_cons. cbn [fold_left]. f_equal. unfold digit_step. rewrite V.
  pose proof (N.div_mod n 10). lia.
Qed.

Lemma pretty_value n : digits_value (bytes_of (pretty n)) = Some (Z.of_N n).
Proof.
  destruct (decide (n = 0%N)) as [->|Hn]; [reflexivity|]. unfold digits_value, pretty, pretty_N. rewrite decide_False by done.
  destruct (pretty_go_value n EmptyString eq_refl) as [F E]. fold digit_step. rewrite F, E.
  rewrite bool_decide_eq_true_2; [done|]. intros H. rewrite H in E. simpl in E. lia.
Qed.

Lemma digits_unsigned l v : digits_value l = Some v -> starts_with [x2b] l = false /\ starts_with [x2d] l = false.
Proof.
  unfold digits_value. destruct l as [|b l]; [done|]. destruct (_ && _) eqn:E; [|done]. intros _. apply andb_true_iff in E as [_ E].
  cbn [forallb] in E. apply andb_true_iff in E as [E _]. unfold starts_with. cbn [length take].
  split; apply bool_decide_eq_false_2; intros [= ->]; discriminate E.
Qed.

(** An [int] survives being printed. *)
Lemma Atoi_FormatInt z : - 2 ^ 63 <= z < 2 ^ 63 -> Atoi (FormatInt z) = Some z.
Proof.
  intros Hz. unfold Atoi, FormatInt. assert (P : forall n : N, digits_value (bytes_of (pretty n)) = Some (Z.of_N n)) by apply pretty_value.
  destruct z as [|p|p].
  - reflexivity.
  - change (pretty (Zpos p)) with (pretty (Npos p)). destruct (digits_unsigned _ _ (P (Npos p))) as [-> ->]. cbn [orb]. cbv iota zeta.
    rewrite P. cbn [mbind option_bind]. by rewrite decide_True by (simpl Z.of_N; lia).
  - change (pretty (Zneg p)) with ("-" ++ pretty (Npos p))%string. rewrite bytes_of_app.
    change (bytes_of "-") with [x2d]. cbn [app]. change (starts_with [x2d] (x2d :: ?l)) with true. rewrite orb_true_r. cbv iota zeta. cbn [drop]. rewrite drop_0.
    rewrite P. cbn [mbind option_bind]. by rewrite decide_True by (simpl Z.of_N; lia).
Qed.

Lemma writable_int z : - 2 ^ 63 <= z < 2 ^ 63 -> writable (JNumber (FormatInt z)) = true.
Proof. intros H. cbn [writable]. rewrite Atoi_FormatInt by done. by apply bool_decide_eq_true. Qed.

(* ------------------------------------------------------------------ *)
(** ** A JSON for closed examples *)

Definition flat : Type := bool + (string + (string + list string)).

Definition flatten (v : json) : flat :=
  match v with
  | JBool b => inl b
  | JNumber s => inr (inl s)
  | JString s => inr (inr (inl s))
  | JArray l => inr (inr (inr (omap (fun v => match v with JString s => Some s | _ => None end) l)))
  | _ => inl false
  end.
Definition unflatten (v : flat) : json :=
  match v with
  | inl b => JBool b
  | inr (inl s) => JNumber s
  | inr (inr (inl s)) => JString s
  | inr (inr (inr l)) => JArray (map JString l)
  end.

Definition toy_read (l : list byte) : option object :=
  p ← unbin (List.filter (fun b => negb (bool_decide (b = x0a))) l);
  o ← decode (A := list (string * flat)) p;
  Some (map (fun kv => (kv.1, unflatten kv.2)) o).

Definition toy_gojson : GoJSON := {|
  Marshal o := bin (encode (map (fun kv => (kv.1, flatten kv.2)) o));
  Indent l := l; Unmarshal := toy_read; DecodeFirst := toy_read;
|}.

Lemma unflatten_flatten v : writable v = true -> unflatten (flatten v) = v.
Proof.
  destruct v as [|b|s|s|l|o]; try done. simpl. intros F. f_equal. induction l as [|v l IH]; [done|].
  simpl in F |- *. apply andb_true_iff in F as [Fv F]. destruct v; try done. simpl. f_equal. by apply IH.
Qed.

Lemma bin_no_newline p n : List.filter (fun b => negb (bool_decide (b = x0a))) (bin p ++ replicate n x0a) = bin p.
Proof.
  rewrite filter_app. assert (E : List.filter (fun b => negb (bool_decide (b = x0a))) (replicate n x0a) = []) by (by induction n).
  rewrite E, app_nil_r. induction p as [p IH|p IH|]; simpl; by rewrite ?IH.
Qed.

Lemma toy_gojson_laws : GoJSONLaws toy_gojson.
Proof.
  assert (R : forall o n, writable_object o = true -> toy_read (@Marshal toy_gojson o ++ replicate n x0a) = Some o).
  { intros o n W. unfold toy_read. cbn [Marshal toy_gojson]. rewrite bin_no_newline, unbin_bin. cbn [mbind option_bind].
    rewrite decode_encode. cbn. f_equal. rewrite map_map. rewrite <- (list_fmap_id o) at 2. apply list_fmap_ext.
    intros i [k v] I. unfold writable_object in W. rewrite forallb_forall in W. simpl. f_equal. apply unflatten_flatten.
    assert (In (k, v) o) as In' by (apply list_elem_of_In; by eapply list_elem_of_lookup_2). apply W in In'. by apply andb_true_iff in In' as [_ ?]. }
  split; [intros o; apply (R o 1%nat)|exact R].
Qed.
