(* ===== verification/LanIdentity.v ===== *)
(** * LanIdentity: device identities and signed registration (internal/lan/identity.go, signature.go)

    The Ed25519 identity of a LAN device and the signature over its registration.
    Ed25519 itself is the class [Ed25519]; what the code relies on is [Ed25519Laws]. *)

From S2P Require Import Prelude GoStrings Base64.

Definition IdentityKeyAlgorithm : string := "ed25519".
Definition PrivateKeySize : nat := 64.
Definition PublicKeySize : nat := 32.
Definition SignatureSize : nat := 64.

(** crypto/ed25519. *)
Class Ed25519 := {
  ed_sign : list byte -> list byte -> list byte;
  ed_verify : list byte -> list byte -> list byte -> bool;
  ed_public : list byte -> list byte;
}.

Class Ed25519Laws `{Ed25519} : Prop := {
  ed_sign_length priv m : length (ed_sign priv m) = SignatureSize;
  ed_verify_sign priv m : ed_verify (ed_public priv) m (ed_sign priv m) = true;
}.

Record Identity : Type := mkIdentity { id_Algorithm : string; id_PrivateKey : string; id_PublicKey : string }.

Inductive identity_error : Type :=
  | ErrAlgorithm | ErrPrivateKey | ErrPublicKey | ErrKeyMismatch | ErrSignature | ErrBadSignature.

Definition RegisterTranscriptPayload (from peer profile : string) (ts : Z) (payload : string) : list byte :=
  bytes_of (Join ["udp-tunnel-lan/register/v1"%string; TrimSpace from; TrimSpace peer; TrimSpace profile;
                  FormatInt ts; TrimSpace payload] LF).

Section Identity.
  Context `{ED : Ed25519}.

Definition ValidateIdentity (id : Identity) : result identity_error unit :=
  if decide (id_Algorithm id <> IdentityKeyAlgorithm) then Err ErrAlgorithm
  else match DecodeString (id_PrivateKey id) with
  | None => Err ErrPrivateKey
  | Some priv =>
    if decide (length priv <> PrivateKeySize) then Err ErrPrivateKey
    else match DecodeString (id_PublicKey id) with
    | None => Err ErrPublicKey
    | Some pub =>
      if decide (length pub <> PublicKeySize) then Err ErrPublicKey
      else if decide (ed_public priv <> pub) then Err ErrKeyMismatch
      else Ok tt
    end
  end.

(** [GenerateIdentity] on the key the random source gave. *)
Definition GenerateIdentity (priv : list byte) : Identity :=
  mkIdentity IdentityKeyAlgorithm (EncodeToString priv) (EncodeToString (ed_public priv)).

Definition SignRegisterPayload (id : Identity) (from peer profile : string) (ts : Z) (payload : string)
  : result identity_error string :=
  match DecodeString (id_PrivateKey id) with
  | None => Err ErrPrivateKey
  | Some priv =>
    if decide (length priv <> PrivateKeySize) then Err ErrPrivateKey
    else Ok (EncodeToString (ed_sign priv (RegisterTranscriptPayload from peer profile ts payload)))
  end.

Definition VerifyRegisterPayload (publicKey from peer profile : string) (ts : Z) (payload signature : string)
  : result identity_error unit :=
  match DecodeString publicKey with
  | None => Err ErrPublicKey
  | Some pub =>
    if decide (length pub <> PublicKeySize) then Err ErrPublicKey
    else match DecodeString signature with
    | None => Err ErrSignature
    | Some sig =>
      if decide (length sig <> SignatureSize) then Err ErrSignature
      else if ed_verify pub (RegisterTranscriptPayload from peer profile ts payload) sig then Ok tt
      else Err ErrBadSignature
    end
  end.

(** A generated identity is valid. *)
Lemma ValidateIdentity_Generate priv :
  length priv = PrivateKeySize -> length (ed_public priv) = PublicKeySize ->
  ValidateIdentity (GenerateIdentity priv) = Ok tt.
Proof.
  intros Hp Hq. unfold ValidateIdentity, GenerateIdentity. simpl.
  rewrite !DecodeString_EncodeToString. rewrite !decide_False by (intros H; by apply H). done.
Qed.

(** The signature a valid identity makes for a registration verifies under its
    public key, for the same registration up to surrounding white space. *)
Theorem VerifyRegister_Sign `{EL : !Ed25519Laws} (id : Identity) (from peer profile payload sig : string)
  (from' peer' profile' payload' : string) (ts : Z) :
  ValidateIdentity id = Ok tt ->
  SignRegisterPayload id from peer profile ts payload = Ok sig ->
  TrimSpace from' = TrimSpace from -> TrimSpace peer' = TrimSpace peer ->
  TrimSpace profile' = TrimSpace profile -> TrimSpace payload' = TrimSpace payload ->
  VerifyRegisterPayload (id_PublicKey id) from' peer' profile' ts payload' sig = Ok tt.
Proof.
  unfold ValidateIdentity, SignRegisterPayload, VerifyRegisterPayload, RegisterTranscriptPayload.
  intros HV HS -> -> -> ->. case_decide; [done|]. destruct (DecodeString (id_PrivateKey id)) as [priv|]; [|done].
  case_decide; [done|]. destruct (DecodeString (id_PublicKey id)) as [pub|]; [|done].
  case_decide; [done|]. case_decide as Hk; [done|]. subst pub.
  apply (f_equal (fun r => match r with Ok s => s | Err _ => EmptyString end)) in HS. subst sig.
  rewrite DecodeString_EncodeToString, decide_False by (intros Hn; by apply Hn, ed_sign_length).
  by rewrite ed_verify_sign.
Qed.

End Identity.

(* ------------------------------------------------------------------ *)
(** ** The transcript binds its fields *)

Definition one_line (s : string) : Prop := x0a ∉ bytes_of s.

Lemma bytes_of_LF s t : bytes_of (s ++ LF ++ t)%string = bytes_of s ++ x0a :: bytes_of t.
Proof. rewrite !bytes_of_app. done. Qed.

Lemma pretty_one_line z : one_line (FormatInt z).
Proof. by apply FormatInt_no_byte. Qed.

Lemma trim_prefixes_elem runes fuel l b : b ∈ trim_prefixes runes fuel l -> b ∈ l.
Proof. intros H. destruct (trim_prefixes_suffix runes fuel l) as [k ->]. apply elem_of_app. by right. Qed.

Lemma TrimSpace_one_line s : one_line s -> one_line (TrimSpace s).
Proof.
  unfold one_line, TrimSpace. rewrite bytes_of_string_of. intros H Hin. apply H.
  unfold trim_right in Hin. rewrite list_elem_of_In, <- in_rev, <- list_elem_of_In in Hin.
  apply trim_prefixes_elem in Hin. rewrite list_elem_of_In, <- in_rev, <- list_elem_of_In in Hin.
  by apply trim_prefixes_elem in Hin.
Qed.

Lemma transcript_bytes from peer profile ts payload :
  RegisterTranscriptPayload from peer profile ts payload =
  bytes_of "udp-tunnel-lan/register/v1" ++ x0a :: (bytes_of (TrimSpace from) ++ x0a ::
  (bytes_of (TrimSpace peer) ++ x0a :: (bytes_of (TrimSpace profile) ++ x0a ::
  (bytes_of (FormatInt ts) ++ x0a :: bytes_of (TrimSpace payload))))).
Proof. unfold RegisterTranscriptPayload, Join. cbn [String.concat]. by rewrite !bytes_of_LF. Qed.

(** For fields without line breaks the signed transcript determines the
    devices, the profile, the timestamp and the key of the registration: a signature
    cannot be moved to another registration. *)
Theorem transcript_injective (from peer profile payload from' peer' profile' payload' : string) (ts ts' : Z) :
  one_line from -> one_line peer -> one_line profile ->
  one_line from' -> one_line peer' -> one_line profile' ->
  RegisterTranscriptPayload from peer profile ts payload = RegisterTranscriptPayload from' peer' profile' ts' payload' ->
  TrimSpace from = TrimSpace from' /\ TrimSpace peer = TrimSpace peer' /\ TrimSpace profile = TrimSpace profile' /\
  ts = ts' /\ TrimSpace payload = TrimSpace payload'.
Proof.
  intros H1 H2 H3 H4 H5 H6 E. rewrite !transcript_bytes in E. apply app_inv_head in E. injection E as E.
  apply app_sep_inj in E as [E1 E]; [|by apply TrimSpace_one_line..].
  apply app_sep_inj in E as [E2 E]; [|by apply TrimSpace_one_line..].
  apply app_sep_inj in E as [E3 E]; [|by apply TrimSpace_one_line..].
  apply app_sep_inj in E as [E4 E5]; [|apply pretty_one_line..].
  apply bytes_of_inj in E1, E2, E3, E4, E5. split_and!; try done. by apply (inj pretty).
Qed.

(* ------------------------------------------------------------------ *)
(** ** Witnesses *)

(** A toy scheme: the signature is the message's number with the key's. *)
#[export] Instance toy_ed : Ed25519 := {|
  ed_sign priv m := be_put SignatureSize (be_get (take 32 priv ++ m));
  ed_verify pub m sig := bool_decide (sig = be_put SignatureSize (be_get (pub ++ m)));
  ed_public priv := take 32 priv;
|}.

#[export] Instance toy_ed_laws : Ed25519Laws.
Proof. split; intros; [apply length_be_put|by apply bool_decide_eq_true]. Qed.

Definition toy_identity : Identity := GenerateIdentity (replicate 64 x05).

Lemma VerifyRegister_Sign_witness :
  match SignRegisterPayload toy_identity "dev-a" "dev-b" "lan-packet" 1700000000 "key" with
  | Ok sig => VerifyRegisterPayload (id_PublicKey toy_identity) " dev-a" "dev-b" "lan-packet" 1700000000 "key" sig = Ok tt
  | Err _ => False
  end.
Proof.
  destruct (SignRegisterPayload toy_identity "dev-a" "dev-b" "lan-packet" 1700000000 "key") as [sig|] eqn:E;
    [|vm_compute in E; discriminate E].
  apply (VerifyRegister_Sign toy_identity "dev-a" "dev-b" "lan-packet" "key" sig " dev-a" "dev-b" "lan-packet" "key" 1700000000);
    [by vm_compute|exact E|by vm_compute|reflexivity..].
Defined.

Lemma transcript_injective_witness :
  TrimSpace " dev-a" = TrimSpace "dev-a".
Proof.
  destruct (transcript_injective " dev-a" "b" "p" "" "dev-a" "b" "p" "" 5 5) as [H _];
    [unfold one_line; decide_now..|by vm_compute|exact H].
Defined.
