(* ===== verification/ServerUDP.v ===== *)
(** * ServerUDP: the rendezvous server (internal/server/udp.go)

    Registration and pairing of devices, the two relays, the dispatch of a received
    datagram and the periodic cleanup. A UDP address is its text (the code compares
    and stores addresses by [String()]). What a step reads from outside, the clock,
    the database, the random nonces, the order in which Go walks a map and the result
    of a send, is in the record [Env]; what it does outside is its list of effects. *)

From S2P Require Import Prelude GoStrings Store Protocol Session Relay LanIdentity.
From S2P Require SecureFrame.

(* ------------------------------------------------------------------ *)
(** ** State *)

Record peer : Type := mkPeer {
  p_id : string; p_addr : string; p_upnpAddr : string; p_lanKey : string; p_want : string;
  p_profile : string; p_lastSeen : Time; p_sessionID : Z;
}.

Record pairRoute : Type := mkPairRoute { pr_dst : string; pr_lastSeen : Time; pr_sessionID : Z }.

(** The settings the UDP side reads. *)
Record Config : Type := mkConfig {
  PeerTTL : Duration; PairTTL : Duration; RelayIdleTimeout : Duration;
  AllowRelay : bool; LANAllowRelay : bool; AllowLegacy : bool;
}.

Record App : Type := mkApp {
  cfg : Config; codec : option SecureFrame.Codec;
  totalRegister : Z; totalPaired : Z; totalRelayed : Z;
  peers : gmap string (gmap string peer); pairByID : gmap string Z;
  pairs : gmap string pairRoute; lanPeers : gmap string (gmap string peer);
}.

Inductive effect : Type :=
  | WriteToUDP (data : list byte) (dst : string)
  | UpsertDevice (id name addr upnpAddr want : string)
  | TouchSession (sessionID n : Z)
  | MarkOfflineBefore (t : Time)
  | EndIdleSessions (t : Time).

(** What one step reads. *)
Record Env : Type := mkEnv {
  now : Time;
  nonce_for : string -> option (list byte);              (* rand.Read, per destination *)
  send_ok : string -> bool;                              (* WriteToUDP's error is nil *)
  GetVirtualDeviceKey : string -> option (string * string); (* algorithm, public key; None: error *)
  StartSession : string -> string -> option Z;           (* None: error *)
  pick : list peer -> option peer;                       (* first of a map walk *)
}.

Definition with_maps (a : App) (ps : gmap string (gmap string peer)) (ids : gmap string Z)
  (prs : gmap string pairRoute) (lps : gmap string (gmap string peer)) : App :=
  mkApp (cfg a) (codec a) (totalRegister a) (totalPaired a) (totalRelayed a) ps ids prs lps.

Definition add_counters (a : App) (reg paired relayed : Z) : App :=
  mkApp (cfg a) (codec a) (u64 (totalRegister a + reg)) (u64 (totalPaired a + paired))
    (u64 (totalRelayed a + relayed)) (peers a) (pairByID a) (pairs a) (lanPeers a).

(* ------------------------------------------------------------------ *)
(** ** Handlers *)

Section Server.
  Context `{GU : GoUnicode} `{ED : Ed25519} `{MJ : MessageJSON}.

Definition normalizeRegisterProfile (profile : string) : string :=
  if decide (NormalizeProfile profile = ProfileLANPacket) then ProfileLANPacket else NormalizeProfile profile.

Definition peerSlotKey (want profile : string) : string :=
  String.append want (String.append NUL (normalizeRegisterProfile profile)).

Definition pairKey (a b profile : string) : string :=
  if String.ltb a b
  then String.append a (String.append NUL (String.append b (String.append NUL (NormalizeProfile profile))))
  else String.append b (String.append NUL (String.append a (String.append NUL (NormalizeProfile profile)))).

Definition writePlainControl (dst : string) (msg : Message) : list effect := [WriteToUDP (Encode msg) dst].

Definition writeControl (e : Env) (a : App) (dst : string) (msg : Message) : list effect :=
  match codec a with
  | None => [WriteToUDP (Encode msg) dst]
  | Some c =>
    match SecureFrame.Seal (Some c) (nonce_for e dst) SecureFrame.KindControl (Encode msg) with
    | Err _ => []
    | Ok b => [WriteToUDP b dst]
    end
  end.

Definition peer_message (to about : peer) : Message :=
  mkMessage MsgPeerInfo "" "" (p_id about) (p_profile to) (p_addr about) (p_upnpAddr about) (p_lanKey about) 0 "".

Definition sendPeer (e : Env) (a : App) (to about : peer) : list effect :=
  writeControl e a (p_addr to) (peer_message to about).
Definition sendLANPeer (to about : peer) : list effect := writePlainControl (p_addr to) (peer_message to about).

Definition stun_response (src : string) : Message := mkMessage MsgStunResp "" "" "" "" src "" "" 0 "".

(** [lookupPeer] and [lookupLANPeerLocked], on the map they read. *)
Definition lookup_in (ps : gmap string (gmap string peer)) (from want profile : string) : option peer :=
  byWant ← ps !! from; byWant !! peerSlotKey want profile.

Definition lookupPeer (a : App) (from want profile : string) : option peer := lookup_in (peers a) from want profile.
Definition lookupLANPeerLocked (a : App) (from want profile : string) : option peer :=
  lookup_in (lanPeers a) from want profile.

(** The session id, and the ids with it; 0 when the database fails. *)
Definition ensurePairSession (e : Env) (ids : gmap string Z) (aID bID profile : string) : Z * gmap string Z :=
  let key := pairKey aID bID profile in
  match ids !! key with
  | Some id => (id, ids)
  | None =>
    match StartSession e aID bID with
    | None => (0, ids)
    | Some id => (id, <[key := id]> ids)
    end
  end.

(** Both handlers file the peer under its device and slot, drop the route of the
    socket it replaces, and look for the counterpart. *)
Definition file_peer (ps : gmap string (gmap string peer)) (prs : gmap string pairRoute) (self : peer)
  : gmap string (gmap string peer) * gmap string pairRoute :=
  let byWant := default ∅ (ps !! p_id self) in
  let slot := peerSlotKey (p_want self) (p_profile self) in
  let prs' := match byWant !! slot with
              | Some old => if decide (p_addr old <> p_addr self) then delete (p_addr old) prs else prs
              | None => prs
              end in
  (<[p_id self := <[slot := self]> byWant]> ps, prs').

Definition set_session (p : peer) (sid : Z) : peer :=
  mkPeer (p_id p) (p_addr p) (p_upnpAddr p) (p_lanKey p) (p_want p) (p_profile p) (p_lastSeen p) sid.

(** [p.sessionID = sid] through the pointer stored at a slot. *)
Definition write_session (ps : gmap string (gmap string peer)) (from slot : string) (sid : Z)
  : gmap string (gmap string peer) :=
  alter (alter (fun p => set_session p sid) slot) from ps.

(** The common end of both handlers, once the counterpart is found: the routes in
    both directions and the session of the pair. *)
Definition pair_up (e : Env) (ids : gmap string Z) (ps : gmap string (gmap string peer)) (prs : gmap string pairRoute)
  (self other : peer) : gmap string Z * gmap string (gmap string peer) * gmap string pairRoute :=
  let profile := p_profile self in
  let '(sid, ids') := ensurePairSession e ids (p_id self) (p_id other) profile in
  let ps1 := write_session ps (p_id self) (peerSlotKey (p_want self) profile) sid in
  let ps2 := write_session ps1 (p_want self) (peerSlotKey (p_id self) profile) sid in
  let prs1 := <[p_addr self := mkPairRoute (p_addr other) (now e) sid]> prs in
  (ids', ps2, <[p_addr other := mkPairRoute (p_addr self) (now e) sid]> prs1).

Definition handleRegister (e : Env) (a : App) (src : string) (msg : Message) : App * list effect :=
  let profile := normalizeRegisterProfile (msg_Profile msg) in
  let a := add_counters a 1 0 0 in
  let db := [UpsertDevice (From msg) (Name msg) src (UpnpAddr msg) (Peer msg)] in
  let self := mkPeer (From msg) src (UpnpAddr msg) "" (Peer msg) profile (now e) 0 in
  let '(ps, prs) := file_peer (peers a) (pairs a) self in
  match lookup_in ps (Peer msg) (From msg) profile with
  | None => (with_maps a ps (pairByID a) prs (lanPeers a), db)
  | Some other =>
    let '(ids, ps2, prs2) := pair_up e (pairByID a) ps prs self other in
    (add_counters (with_maps a ps2 ids prs2 (lanPeers a)) 0 1 0,
     db ++ sendPeer e a self other ++ sendPeer e a other self)
  end.

(** [time.Unix(ts, 0)]: Go keeps the seconds since year 1 in an [int64]. *)
Definition unix_time (ts : Z) : Time := i64 (ts + 62135596800) * second.

(** The checks of [handleLANRegister] before it touches the state. *)
Definition lan_register_ok (e : Env) (msg : Message) : bool :=
  let profile := normalizeRegisterProfile (msg_Profile msg) in
  bool_decide (profile = ProfileLANPacket) && bool_decide (From msg <> EmptyString) &&
  bool_decide (Peer msg <> EmptyString) && bool_decide (Signature msg <> EmptyString) &&
  match GetVirtualDeviceKey e (From msg) with
  | None => false
  | Some (algorithm, publicKey) =>
    bool_decide (algorithm = IdentityKeyAlgorithm) &&
    is_ok (VerifyRegisterPayload publicKey (From msg) (Peer msg) profile (Timestamp msg) (msg_Payload msg) (Signature msg)) &&
    let age := time_sub (now e) (unix_time (Timestamp msg)) in
    bool_decide (- (5 * minute) <= age <= 5 * minute)
  end.

Definition handleLANRegister (e : Env) (a : App) (src : string) (msg : Message) : App * list effect :=
  if negb (lan_register_ok e msg) then (a, [])
  else
    let profile := normalizeRegisterProfile (msg_Profile msg) in
    let db := [UpsertDevice (From msg) (Name msg) src (UpnpAddr msg) (Peer msg)] in
    let self := mkPeer (From msg) src (UpnpAddr msg) (msg_Payload msg) (Peer msg) profile (now e) 0 in
    let '(ps, prs) := file_peer (lanPeers a) (pairs a) self in
    match lookup_in ps (Peer msg) (From msg) profile with
    | None => (with_maps a (peers a) (pairByID a) prs ps, db)
    | Some other =>
      let '(ids, ps2, prs2) := pair_up e (pairByID a) ps prs self other in
      (with_maps a (peers a) ids prs2 ps2, db ++ sendLANPeer self other ++ sendLANPeer other self)
    end.

(** The peers the walk of [handleLANUDPRelay] may meet for a device. *)
Definition peers_with_id (ps : gmap string (gmap string peer)) (id : string) : list peer :=
  List.filter (fun p => bool_decide (p_id p = id)) (concat (map (fun kv => map snd (map_to_list kv.2)) (map_to_list ps))).

(** [true]: the datagram was one of the relay's. *)
Definition handleLANUDPRelay (e : Env) (a : App) (src : string) (data : list byte) : bool * App * list effect :=
  if negb (IsRelayFrame data) then (false, a, [])
  else if negb (LANAllowRelay (cfg a)) then (true, a, [])
  else match UnpackRelayFrame data with
  | None => (true, a, [])
  | Some frame =>
    match pick e (peers_with_id (lanPeers a) (DstDevice frame)) with
    | None => (true, a, [])
    | Some p =>
      if negb (send_ok e (p_addr p)) then (true, a, [WriteToUDP data (p_addr p)])
      else (true, add_counters a 0 0 (Z.of_nat (length (Payload frame))), [WriteToUDP data (p_addr p)])
    end
  end.

Definition starts_brace (data : list byte) : bool := bool_decide (take 1 data = [x7b]).

Definition handleRelay (e : Env) (a : App) (src : string) (data : list byte) : bool * App * list effect :=
  if negb (AllowRelay (cfg a)) then (false, a, [])
  else
    let isKCP : option bool :=   (* None: the secure frame does not open *)
      if SecureFrame.IsFrame data && bool_decide (codec a <> None) then
        match SecureFrame.Open (codec a) data with
        | Err _ => None
        | Ok (kind, _) => Some (bool_decide (kind = SecureFrame.KindKCP))
        end
      else Some (negb (starts_brace data)) in
    match isKCP with
    | None => (true, a, [])
    | Some false => (false, a, [])
    | Some true =>
      match pairs a !! src with
      | None => (false, a, [])
      | Some route =>
        if send_ok e (pr_dst route) then
          let n := Z.of_nat (length data) in
          let route' := mkPairRoute (pr_dst route) (now e) (pr_sessionID route) in
          (true, with_maps (add_counters a 0 0 n) (peers a) (pairByID a) (<[src := route']> (pairs a)) (lanPeers a),
           [WriteToUDP data (pr_dst route); TouchSession (pr_sessionID route) n])
        else (true, a, [WriteToUDP data (pr_dst route)])
      end
    end.

Definition openPacket (a : App) (data : list byte) : option (byte * list byte) :=
  if SecureFrame.IsFrame data then
    match codec a with
    | None => None
    | Some c => match SecureFrame.Open (Some c) data with Err _ => None | Ok r => Some r end
    end
  else if AllowLegacy (cfg a) && starts_brace data then Some (SecureFrame.KindControl, data)
  else None.

(** One datagram of [runUDP]. *)
Definition runUDP_step (e : Env) (a : App) (src : string) (data : list byte) : App * list effect :=
  let '(done1, a1, fx1) := handleLANUDPRelay e a src data in
  if done1 then (a1, fx1)
  else
    let '(done2, a2, fx2) := handleRelay e a1 src data in
    if done2 then (a2, fx2)
    else match openPacket a2 data with
    | None =>
      match Decode data with
      | Some msg =>
        if decide (Type_ msg = MsgLANRegister) then handleLANRegister e a2 src msg
        else if decide (Type_ msg = MsgStunReq) then (a2, writePlainControl src (stun_response src))
        else (a2, [])
      | None => (a2, [])
      end
    | Some (kind, payload) =>
      if decide (kind <> SecureFrame.KindControl) then (a2, [])
      else match Decode payload with
      | None => (a2, [])
      | Some msg =>
        if decide (Type_ msg = MsgStunReq) then (a2, writeControl e a2 src (stun_response src))
        else if decide (Type_ msg = MsgRegister) then handleRegister e a2 src msg
        else if decide (Type_ msg = MsgLANRegister) then handleLANRegister e a2 src msg
        else (a2, [])
      end
    end.

(** One datagram of [runStunAlt]. *)
Definition is_stun_req (data : list byte) : bool :=
  match Decode data with Some msg => bool_decide (Type_ msg = MsgStunReq) | None => false end.

Definition runStunAlt_step (e : Env) (a : App) (src : string) (data : list byte) : list effect :=
  if is_stun_req data then writePlainControl src (stun_response src)
  else match openPacket a data with
  | None => []
  | Some (kind, payload) =>
    if decide (kind <> SecureFrame.KindControl) then []
    else if is_stun_req payload then writeControl e a src (stun_response src) else []
  end.

End Server.

(* ------------------------------------------------------------------ *)
(** ** Cleanup *)

Definition peer_expired (a : App) (t : Time) (p : peer) : bool := bool_decide (PeerTTL (cfg a) < time_sub t (p_lastSeen p)).

(** The addresses of the expired peers of a map, and the map without them and
    without the devices left with no slot. *)
Definition expired_addrs (a : App) (t : Time) (ps : gmap string (gmap string peer)) : list string :=
  concat (map (fun kv => map (fun sp => p_addr sp.2)
    (map_to_list (filter (fun sp => peer_expired a t sp.2 = true) kv.2))) (map_to_list ps)).

Definition prune_peers (a : App) (t : Time) (ps : gmap string (gmap string peer)) : gmap string (gmap string peer) :=
  filter (fun kv => kv.2 <> ∅) ((fun byWant => filter (fun sp => peer_expired a t sp.2 = false) byWant) <$> ps).

Definition delete_all (keys : list string) (m : gmap string pairRoute) : gmap string pairRoute :=
  fold_left (fun m k => delete k m) keys m.

Definition cleanupExpiredPeers (t : Time) (a : App) : App :=
  with_maps a (prune_peers a t (peers a)) (pairByID a)
    (delete_all (expired_addrs a t (lanPeers a)) (delete_all (expired_addrs a t (peers a)) (pairs a)))
    (prune_peers a t (lanPeers a)).

(** One tick of [cleanupLoop]. *)
Definition cleanup_tick (t : Time) (a : App) : App * list effect :=
  let a1 := cleanupExpiredPeers t a in
  (with_maps a1 (peers a1) (pairByID a1)
     (filter (fun kv => time_sub t (pr_lastSeen kv.2) <= PairTTL (cfg a)) (pairs a1)) (lanPeers a1),
   [MarkOfflineBefore (time_add t (- PeerTTL (cfg a))); EndIdleSessions (time_add t (- RelayIdleTimeout (cfg a)))]).

(* ------------------------------------------------------------------ *)
(** ** Keys and sessions *)

Section Theorems.
  Context `{GU : GoUnicode} `{ED : Ed25519} `{MJ : MessageJSON}.

Lemma pairKey_comm a b profile : pairKey a b profile = pairKey b a profile.
Proof.
  unfold pairKey. destruct (decide (a = b)) as [->|Hne]; [done|].
  rewrite (String_ltb_antisym b a) by done. by destruct (String.ltb b a).
Qed.

(** The two directions of a pair share one session: once opened, the session
    of a pair is found again from either side and no other is started. *)
Theorem ensurePairSession_shared (e e' : Env) (ids : gmap string Z) (x y profile : string) (id : Z) :
  StartSession e x y = Some id ->
  let '(sid, ids') := ensurePairSession e ids x y profile in
  ensurePairSession e' ids' x y profile = (sid, ids') /\
  ensurePairSession e' ids' y x profile = (sid, ids') /\
  (forall k, k <> pairKey x y profile -> ids' !! k = ids !! k).
Proof.
  intros Hs. unfold ensurePairSession. rewrite (pairKey_comm y x).
  destruct (ids !! pairKey x y profile) as [sid|] eqn:E.
  - by rewrite E.
  - rewrite Hs, lookup_insert_eq. split_and!; [done..|]. intros k Hk. by rewrite lookup_insert_ne.
Qed.

(* ------------------------------------------------------------------ *)
(** ** The peer maps *)

Lemma lookup_in_Some ps from want profile p :
  lookup_in ps from want profile = Some p <->
  exists byWant, ps !! from = Some byWant /\ byWant !! peerSlotKey want profile = Some p.
Proof. unfold lookup_in. destruct (ps !! from); simpl; naive_solver. Qed.

(** Every peer is filed under its own device and slot. *)
Definition filed (ps : gmap string (gmap string peer)) : Prop :=
  forall from byWant slot p, ps !! from = Some byWant -> byWant !! slot = Some p ->
    p_id p = from /\ slot = peerSlotKey (p_want p) (p_profile p).

Lemma file_peer_filed ps prs self : filed ps -> filed (file_peer ps prs self).1.
Proof.
  intros HF from byWant slot p. simpl. rewrite lookup_insert_Some. intros [[<- <-]|[? Hl]] Hs.
  - apply lookup_insert_Some in Hs as [[<- <-]|[? Hs]]; [done|].
    destruct (ps !! p_id self) as [bw|] eqn:E; simpl in Hs; [by eapply HF|done].
  - by eapply HF.
Qed.

Lemma write_session_lookup ps from slot sid from' slot' :
  (bw ← write_session ps from slot sid !! from'; bw !! slot') =
  (if decide (from = from' /\ slot = slot') then (fun p => set_session p sid) <$> (bw ← ps !! from'; bw !! slot')
   else bw ← ps !! from'; bw !! slot').
Proof.
  unfold write_session. destruct (decide (from = from')) as [<-|Hf].
  - rewrite lookup_alter_eq. destruct (ps !! from) as [bw|]; simpl; [|by case_decide].
    destruct (decide (slot = slot')) as [<-|Hs].
    + rewrite decide_True by done. by rewrite lookup_alter_eq.
    + rewrite decide_False by naive_solver. by rewrite lookup_alter_ne.
  - rewrite lookup_alter_ne by done. by rewrite decide_False by naive_solver.
Qed.

Lemma write_session_filed ps from slot sid : filed ps -> filed (write_session ps from slot sid).
Proof.
  intros HF from' bw' slot' p Hb Hp.
  pose proof (write_session_lookup ps from slot sid from' slot') as E. rewrite Hb in E. simpl in E. rewrite Hp in E.
  destruct (ps !! from') as [bw|] eqn:Eb; simpl in E; [|by case_decide].
  case_decide; [|by eapply HF].
  symmetry in E. apply fmap_Some in E as (p0 & E0 & ->). simpl. by eapply HF.
Qed.

(** A slot of a peer map keeps its peer, up to the session. *)
Definition same_peer (p q : peer) : Prop := set_session p 0 = set_session q 0.

Lemma write_session_same ps from slot sid from' want profile p :
  lookup_in ps from' want profile = Some p ->
  exists q, lookup_in (write_session ps from slot sid) from' want profile = Some q /\ same_peer p q.
Proof.
  intros H. unfold lookup_in in *. rewrite write_session_lookup, H. case_decide; [|by exists p].
  exists (set_session p sid). split; [done|]. by destruct p.
Qed.

Lemma file_peer_lookup_self ps prs self :
  lookup_in (file_peer ps prs self).1 (p_id self) (p_want self) (p_profile self) = Some self.
Proof. unfold lookup_in. simpl. rewrite lookup_insert_eq. simpl. by rewrite lookup_insert_eq. Qed.

Lemma file_peer_lookup_other ps prs self from want profile :
  from <> p_id self -> lookup_in (file_peer ps prs self).1 from want profile = lookup_in ps from want profile.
Proof. intros. unfold lookup_in. simpl. by rewrite lookup_insert_ne. Qed.

(* ------------------------------------------------------------------ *)
(** ** Registration *)

Lemma normalize_idem profile :
  normalizeRegisterProfile profile = NormalizeProfile profile.
Proof. unfold normalizeRegisterProfile. by case_decide. Qed.

(** The routes [pair_up] leaves. *)
Lemma pair_up_routes e ids ps prs self other ids' ps' prs' :
  pair_up e ids ps prs self other = (ids', ps', prs') -> p_addr self <> p_addr other ->
  exists sid, prs' !! p_addr self = Some (mkPairRoute (p_addr other) (now e) sid) /\
    prs' !! p_addr other = Some (mkPairRoute (p_addr self) (now e) sid).
Proof.
  unfold pair_up. destruct (ensurePairSession _ _ _ _ _) as [sid ids1]. intros [= <- <- <-] Hne.
  exists sid. by rewrite lookup_insert_ne, !lookup_insert_eq by done.
Qed.

(** The peer a registration files. *)
Definition registered (e : Env) (src : string) (msg : Message) (lanKey : string) : peer :=
  mkPeer (From msg) src (UpnpAddr msg) lanKey (Peer msg) (normalizeRegisterProfile (msg_Profile msg)) (now e) 0.

Lemma handleRegister_files e a src msg :
  exists q, lookup_in (peers (handleRegister e a src msg).1) (From msg) (Peer msg)
      (normalizeRegisterProfile (msg_Profile msg)) = Some q /\ same_peer (registered e src msg "") q.
Proof.
  unfold handleRegister. fold (registered e src msg "").
  pose proof (file_peer_lookup_self (peers (add_counters a 1 0 0)) (pairs (add_counters a 1 0 0)) (registered e src msg "")) as HL.
  destruct (file_peer _ _ _) as [ps prs]. simpl in HL.
  destruct (lookup_in ps (Peer msg) (From msg) _) as [other|]; simpl; [|by eexists].
  unfold pair_up. destruct (ensurePairSession _ _ _ _ _) as [sid ids]. simpl.
  destruct (write_session_same ps (From msg) (peerSlotKey (Peer msg) (normalizeRegisterProfile (msg_Profile msg))) sid _ _ _ _ HL)
    as (q1 & H1 & S1).
  destruct (write_session_same _ (Peer msg) (peerSlotKey (From msg) (normalizeRegisterProfile (msg_Profile msg))) sid _ _ _ _ H1)
    as (q2 & H2 & S2).
  exists q2. split; [exact H2|]. unfold same_peer in *. congruence.
Qed.

(** A registration whose counterpart is filed makes the routes of both. *)
Lemma handleRegister_routes e a src msg q :
  let profile := normalizeRegisterProfile (msg_Profile msg) in
  lookup_in (peers a) (Peer msg) (From msg) profile = Some q -> Peer msg <> From msg -> p_addr q <> src ->
  exists sid, pairs (handleRegister e a src msg).1 !! src = Some (mkPairRoute (p_addr q) (now e) sid) /\
    pairs (handleRegister e a src msg).1 !! p_addr q = Some (mkPairRoute src (now e) sid) /\
    cfg (handleRegister e a src msg).1 = cfg a.
Proof.
  cbv zeta. intros HL Hne Ha. unfold handleRegister. fold (registered e src msg "").
  pose proof (file_peer_lookup_other (peers (add_counters a 1 0 0)) (pairs (add_counters a 1 0 0))
    (registered e src msg "") (Peer msg) (From msg) (normalizeRegisterProfile (msg_Profile msg)) Hne) as E.
  destruct (file_peer _ _ _) as [ps prs]. simpl in E. rewrite E, HL.
  destruct (pair_up _ _ _ _ _ _) as [[ids ps2] prs2] eqn:EP.
  apply pair_up_routes in EP as (sid & H1 & H2); [|done]. exists sid. simpl. done.
Qed.

(** A raw datagram: not a secure frame and not a JSON text. *)
Definition raw_datagram (data : list byte) : Prop :=
  SecureFrame.IsFrame data = false /\ starts_brace data = false.

Lemma handleRelay_raw e a src data route :
  AllowRelay (cfg a) = true -> raw_datagram data -> pairs a !! src = Some route -> send_ok e (pr_dst route) = true ->
  (handleRelay e a src data).1.1 = true /\
  (handleRelay e a src data).2 = [WriteToUDP data (pr_dst route); TouchSession (pr_sessionID route) (Z.of_nat (length data))].
Proof. intros Hr [Hf Hb] Hp Hs. unfold handleRelay. rewrite Hr, Hf, Hb, Hp. simpl. by rewrite Hs. Qed.

(** Two devices that register for each other under one profile, in either
    order and whatever happened before, are connected: the server relays what each
    sends to the address the other registered from, unchanged. *)
Theorem register_connects (e1 e2 e3 : Env) (a : App) (srcA srcB : string) (msgA msgB : Message) (data : list byte) :
  Peer msgA = From msgB -> Peer msgB = From msgA -> From msgA <> From msgB -> srcA <> srcB ->
  NormalizeProfile (msg_Profile msgA) = NormalizeProfile (msg_Profile msgB) ->
  AllowRelay (cfg a) = true -> raw_datagram data -> send_ok e3 srcA = true -> send_ok e3 srcB = true ->
  let a2 := (handleRegister e2 (handleRegister e1 a srcA msgA).1 srcB msgB).1 in
  exists sid, (handleRelay e3 a2 srcA data).2 = [WriteToUDP data srcB; TouchSession sid (Z.of_nat (length data))] /\
    (handleRelay e3 a2 srcB data).2 = [WriteToUDP data srcA; TouchSession sid (Z.of_nat (length data))].
Proof.
  intros HA HB Hid Hsrc Hprof Hrelay Hraw Hs1 Hs2. cbv zeta.
  destruct (handleRegister_files e1 a srcA msgA) as (q & Hq & Hsame).
  assert (Hcfg : cfg (handleRegister e1 a srcA msgA).1 = cfg a).
  { unfold handleRegister. destruct (file_peer _ _ _) as [ps prs].
    destruct (lookup_in ps _ _ _); [|done]. by destruct (pair_up _ _ _ _ _ _) as [[? ?] ?]. }
  set (a1 := (handleRegister e1 a srcA msgA).1) in *.
  assert (Hqa : p_addr q = srcA) by (apply (f_equal p_addr) in Hsame; exact (eq_sym Hsame)).
  rewrite HA, <- HB in Hq.
  assert (Hn : normalizeRegisterProfile (msg_Profile msgA) = normalizeRegisterProfile (msg_Profile msgB))
    by (rewrite !normalize_idem; done).
  rewrite Hn, <- HA, HB in Hq. rewrite <- HB, HA in Hq.
  destruct (handleRegister_routes e2 a1 srcB msgB q Hq) as (sid & R1 & R2 & Hc2);
    [congruence|congruence|].
  rewrite Hqa in *. exists sid.
  split; [apply (handleRelay_raw e3 _ srcA data _) in R2|apply (handleRelay_raw e3 _ srcB data _) in R1];
    try done; try (by rewrite Hc2, Hcfg).
  - apply R2.
  - apply R1.
Qed.

(** The peer a registration pairs with is told its address and keys, and the
    other way round: on a server without a pre-shared key both get a [peer] message. *)
Theorem handleRegister_introduces (e : Env) (a : App) (src : string) (msg : Message) (q : peer) :
  let profile := normalizeRegisterProfile (msg_Profile msg) in
  lookupPeer a (Peer msg) (From msg) profile = Some q -> Peer msg <> From msg -> codec a = None ->
  let self := registered e src msg "" in
  (handleRegister e a src msg).2 =
    [UpsertDevice (From msg) (Name msg) src (UpnpAddr msg) (Peer msg);
     WriteToUDP (Encode (peer_message self q)) src;
     WriteToUDP (Encode (peer_message q self)) (p_addr q)].
Proof.
  cbv zeta. intros HL Hne Hc. unfold handleRegister. fold (registered e src msg "").
  pose proof (file_peer_lookup_other (peers (add_counters a 1 0 0)) (pairs (add_counters a 1 0 0))
    (registered e src msg "") (Peer msg) (From msg) (normalizeRegisterProfile (msg_Profile msg)) Hne) as E.
  destruct (file_peer _ _ _) as [ps prs]. simpl in E. unfold lookupPeer in HL. rewrite E, HL.
  destruct (pair_up _ _ _ _ _ _) as [[ids ps2] prs2].
  unfold sendPeer, writeControl. simpl. by rewrite Hc.
Qed.

(* ------------------------------------------------------------------ *)
(** ** Who may change the state *)

Lemma handleLANUDPRelay_maps e a src data :
  let '(_, a', _) := handleLANUDPRelay e a src data in
  peers a' = peers a /\ lanPeers a' = lanPeers a /\ pairs a' = pairs a /\ cfg a' = cfg a /\ codec a' = codec a.
Proof.
  unfold handleLANUDPRelay. repeat (destruct (negb _); [done|]).
  destruct (UnpackRelayFrame data) as [f|]; [|done]. destruct (pick e _) as [p|]; [|done].
  by destruct (negb (send_ok e (p_addr p))).
Qed.

Lemma handleRelay_maps e a src data :
  let '(_, a', _) := handleRelay e a src data in
  peers a' = peers a /\ lanPeers a' = lanPeers a /\ cfg a' = cfg a /\ codec a' = codec a.
Proof.
  unfold handleRelay. destruct (negb _); [done|]. set (k := if _ && _ then _ else _).
  destruct k as [[]|]; [|done..]. destruct (pairs a !! src) as [r|]; [|done]. by destruct (send_ok e (pr_dst r)).
Qed.

Lemma handleRegister_maps e a src msg :
  lanPeers (handleRegister e a src msg).1 = lanPeers a.
Proof.
  unfold handleRegister. destruct (file_peer _ _ _) as [ps prs].
  destruct (lookup_in ps _ _ _); [|done]. by destruct (pair_up _ _ _ _ _ _) as [[? ?] ?].
Qed.

Lemma handleLANRegister_maps e a src msg :
  peers (handleLANRegister e a src msg).1 = peers a /\
  (lan_register_ok e msg = false -> handleLANRegister e a src msg = (a, [])).
Proof.
  unfold handleLANRegister. destruct (lan_register_ok e msg); cbn [negb]; [|done].
  destruct (file_peer _ _ _) as [ps prs]. split; [|done].
  destruct (lookup_in ps _ _ _); [|done]. by destruct (pair_up _ _ _ _ _ _) as [[? ?] ?].
Qed.

Lemma lan_register_ok_signed e msg : lan_register_ok e msg = true ->
  exists publicKey, GetVirtualDeviceKey e (From msg) = Some (IdentityKeyAlgorithm, publicKey) /\
    VerifyRegisterPayload publicKey (From msg) (Peer msg) ProfileLANPacket (Timestamp msg) (msg_Payload msg) (Signature msg) = Ok tt /\
    - (5 * minute) <= time_sub (now e) (unix_time (Timestamp msg)) <= 5 * minute.
Proof.
  unfold lan_register_ok. intros H. bools.
  destruct (GetVirtualDeviceKey e (From msg)) as [[alg pub]|]; [|done]. bools. simplify_eq.
  match goal with H : normalizeRegisterProfile _ = _ |- _ => rewrite H in * end.
  exists pub. split_and!; try done; try lia.
  destruct (VerifyRegisterPayload _ _ _ _ _ _ _) as [[]|]; done.
Qed.

(** Close a goal whose state kept both peer maps. *)
Ltac maps_same := cbn [fst]; split; intros Hne; destruct Hne; congruence.


(* ------------------------------------------------------------------ *)
(** ** Reachable servers *)

(** Only the map of the other kind of peer stays as it is. *)
Lemma handleRegister_filed e a src msg : filed (peers a) -> filed (peers (handleRegister e a src msg).1).
Proof.
  intros HF. unfold handleRegister. fold (registered e src msg "").
  pose proof (file_peer_filed (peers (add_counters a 1 0 0)) (pairs (add_counters a 1 0 0)) (registered e src msg "") HF) as H1.
  destruct (file_peer _ _ _) as [ps prs]. destruct (lookup_in ps _ _ _) as [other|]; [|done].
  unfold pair_up. destruct (ensurePairSession _ _ _ _ _) as [sid ids]. simpl. by do 2 apply write_session_filed.
Qed.

Lemma handleLANRegister_filed e a src msg : filed (lanPeers a) -> filed (lanPeers (handleLANRegister e a src msg).1).
Proof.
  intros HF. unfold handleLANRegister. destruct (negb _); [done|]. fold (registered e src msg (msg_Payload msg)).
  pose proof (file_peer_filed (lanPeers a) (pairs a) (registered e src msg (msg_Payload msg)) HF) as H1.
  destruct (file_peer _ _ _) as [ps prs]. destruct (lookup_in ps _ _ _) as [other|]; [|done].
  unfold pair_up. destruct (ensurePairSession _ _ _ _ _) as [sid ids]. simpl. by do 2 apply write_session_filed.
Qed.

Definition app_filed (a : App) : Prop := filed (peers a) /\ filed (lanPeers a).

Lemma runUDP_step_filed e a src data : app_filed a -> app_filed (runUDP_step e a src data).1.
Proof.
  intros [HP HL]. unfold runUDP_step.
  pose proof (handleLANUDPRelay_maps e a src data) as M1. destruct (handleLANUDPRelay e a src data) as [[d1 a1] fx1].
  destruct M1 as (P1 & L1 & _). destruct d1; [unfold app_filed; cbn [fst]; rewrite P1, L1; by split|].
  pose proof (handleRelay_maps e a1 src data) as M2. destruct (handleRelay e a1 src data) as [[d2 a2] fx2].
  destruct M2 as (P2 & L2 & _).
  assert (HP2 : filed (peers a2)) by (rewrite P2, P1; done). assert (HL2 : filed (lanPeers a2)) by (rewrite L2, L1; done).
  assert (HR : forall msg, app_filed (handleRegister e a2 src msg).1).
  { intros msg. split; [by apply handleRegister_filed|by rewrite handleRegister_maps]. }
  assert (HN : forall msg, app_filed (handleLANRegister e a2 src msg).1).
  { intros msg. split; [by rewrite (proj1 (handleLANRegister_maps e a2 src msg))|by apply handleLANRegister_filed]. }
  assert (Hsame : forall fx : list effect, app_filed (a2, fx).1) by done.
  destruct d2; [done|]. destruct (openPacket a2 data) as [[kind payload]|].
  - case_decide; [done|]. destruct (Decode payload) as [msg|]; [|done]. repeat case_decide; done.
  - destruct (Decode data) as [msg|]; [|done]. repeat case_decide; done.
Qed.

Lemma prune_lookup a t ps from bw : prune_peers a t ps !! from = Some bw ->
  exists bw0, ps !! from = Some bw0 /\ bw = filter (fun sp => peer_expired a t sp.2 = false) bw0 /\ bw <> ∅.
Proof.
  unfold prune_peers. rewrite map_lookup_filter_Some, lookup_fmap_Some. intros ((bw0 & <- & H) & Hne). by exists bw0.
Qed.

Lemma prune_filed a t ps : filed ps -> filed (prune_peers a t ps).
Proof.
  intros HF from bw slot p (bw0 & Hb & -> & _)%prune_lookup [Hp _]%map_lookup_filter_Some. by eapply HF.
Qed.

Inductive server_reachable (c : Config) (k : option SecureFrame.Codec) : App -> Prop :=
  | sr_new : server_reachable c k (mkApp c k 0 0 0 ∅ ∅ ∅ ∅)
  | sr_packet a e src data : server_reachable c k a -> server_reachable c k (runUDP_step e a src data).1
  | sr_cleanup a t : server_reachable c k a -> server_reachable c k (cleanup_tick t a).1.

Lemma reachable_filed c k a : server_reachable c k a -> app_filed a.
Proof.
  induction 1 as [|a e src data _ IH|a t _ [HP HL]].
  - split; intros from bw slot p H; simpl in H; by rewrite lookup_empty in H.
  - by apply runUDP_step_filed.
  - split; simpl; by apply prune_filed.
Qed.

Lemma peers_with_id_elem ps id p :
  p ∈ peers_with_id ps id <-> p_id p = id /\ exists from bw slot, ps !! from = Some bw /\ bw !! slot = Some p.
Proof.
  unfold peers_with_id. rewrite !list_elem_of_In, filter_In, in_concat, bool_decide_eq_true. split.
  - intros [(l & Hl & Hp) ?]. split; [done|]. apply in_map_iff in Hl as ([from bw] & <- & Hf).
    apply in_map_iff in Hp as ([slot q] & <- & Hs). exists from, bw, slot.
    apply list_elem_of_In, elem_of_map_to_list in Hf. by apply list_elem_of_In, elem_of_map_to_list in Hs.
  - intros [? (from & bw & slot & Hf & Hs)]. split; [|done]. exists (map snd (map_to_list bw)).
    split; apply in_map_iff; [exists (from, bw)|exists (slot, p)]; split; try done;
      by apply list_elem_of_In, elem_of_map_to_list.
Qed.

(** The LAN relay hands a frame, unchanged, to an address its destination
    device registered from, whatever the order of Go's map walk, and sends nothing
    when the device is not registered. *)
Theorem handleLANUDPRelay_correct (c : Config) (k : option SecureFrame.Codec) (e : Env) (a : App)
  (src : string) (frame : RelayFrame) (data : list byte) :
  server_reachable c k a -> LANAllowRelay (cfg a) = true -> PackRelayFrame frame = Some data ->
  (forall l, match pick e l with Some p => p ∈ l | None => l = [] end) ->
  let '(handled, a', fx) := handleLANUDPRelay e a src data in
  handled = true /\ peers a' = peers a /\ lanPeers a' = lanPeers a /\
  ((exists bw slot p, lanPeers a !! DstDevice frame = Some bw /\ bw !! slot = Some p /\ fx = [WriteToUDP data (p_addr p)]) \/
   (fx = [] /\ forall bw slot p, lanPeers a !! DstDevice frame = Some bw -> bw !! slot <> Some p)).
Proof.
  intros HR Hrel Hpack Hpick. destruct (reachable_filed _ _ _ HR) as [_ HF].
  destruct (unpack_pack frame data Hpack) as (Hu & Hi & _).
  unfold handleLANUDPRelay. rewrite Hi, Hrel, Hu. cbn [negb].
  specialize (Hpick (peers_with_id (lanPeers a) (DstDevice frame))).
  destruct (pick e _) as [p|].
  - apply peers_with_id_elem in Hpick as (Hid & from & bw & slot & Hb & Hs).
    destruct (HF _ _ _ _ Hb Hs) as [Hfrom _]. rewrite Hid in Hfrom. subst from.
    destruct (negb (send_ok e (p_addr p))); (split_and!; [done..|]; left; eauto 10).
  - split_and!; try done. right. split; [done|]. intros bw slot p Hb Hs.
    assert (Hin : p ∈ peers_with_id (lanPeers a) (DstDevice frame)).
    { apply peers_with_id_elem. split; [by apply (HF _ _ _ _ Hb Hs)|]. eauto. }
    rewrite Hpick in Hin. by apply elem_of_nil in Hin.
Qed.

(* ------------------------------------------------------------------ *)
(** ** Cleanup *)

Lemma delete_all_lookup keys m k : delete_all keys m !! k = if decide (k ∈ keys) then None else m !! k.
Proof.
  unfold delete_all. revert m. induction keys as [|x keys IH]; intros m; simpl; [done|].
  rewrite IH. destruct (decide (k = x)) as [->|Hx].
  - rewrite lookup_delete_eq, (decide_True (P := x ∈ x :: keys)) by (by left). by case_decide.
  - rewrite lookup_delete_ne by done. do 2 case_decide; try done; set_solver.
Qed.

Lemma expired_addrs_elem a t ps addr :
  addr ∈ expired_addrs a t ps <-> exists from bw slot p, ps !! from = Some bw /\ bw !! slot = Some p /\
    peer_expired a t p = true /\ p_addr p = addr.
Proof.
  unfold expired_addrs. rewrite list_elem_of_In, in_concat. split.
  - intros (l & Hl & Hp). apply in_map_iff in Hl as ([from bw] & <- & Hf).
    apply in_map_iff in Hp as ([slot q] & <- & Hs).
    apply list_elem_of_In, elem_of_map_to_list in Hf.
    apply list_elem_of_In, elem_of_map_to_list, map_lookup_filter_Some in Hs as [??]. eauto 10.
  - intros (from & bw & slot & p & Hf & Hs & He & <-).
    eexists. split; [apply in_map_iff; exists (from, bw); split; [reflexivity|]|].
    + by apply list_elem_of_In, elem_of_map_to_list.
    + apply in_map_iff. exists (slot, p). split; [done|].
      apply list_elem_of_In, elem_of_map_to_list, map_lookup_filter_Some. done.
Qed.

Lemma prune_slot a t ps from slot p :
  (exists bw, prune_peers a t ps !! from = Some bw /\ bw !! slot = Some p) <->
  (exists bw, ps !! from = Some bw /\ bw !! slot = Some p) /\ peer_expired a t p = false.
Proof.
  split.
  - intros (bw & (bw0 & Hb & -> & _)%prune_lookup & [Hs He]%map_lookup_filter_Some). eauto.
  - intros [(bw & Hb & Hs) He]. exists (filter (fun sp => peer_expired a t sp.2 = false) bw).
    assert (Hf : filter (fun sp => peer_expired a t sp.2 = false) bw !! slot = Some p) by (by apply map_lookup_filter_Some).
    split; [|done]. unfold prune_peers. apply map_lookup_filter_Some. split.
    + apply lookup_fmap_Some. by exists bw.
    + simpl. intros E. by rewrite E, lookup_empty in Hf.
Qed.

(** A cleanup tick removes exactly the peers not seen for the peer timeout and
    the devices left without peers, and exactly the routes idle for the pair timeout
    or from an address a removed peer had. *)
Theorem cleanup_tick_correct (t : Time) (a : App) :
  let a' := (cleanup_tick t a).1 in
  (forall from slot p, (exists bw, peers a' !! from = Some bw /\ bw !! slot = Some p) <->
     (exists bw, peers a !! from = Some bw /\ bw !! slot = Some p) /\ time_sub t (p_lastSeen p) <= PeerTTL (cfg a)) /\
  (forall from slot p, (exists bw, lanPeers a' !! from = Some bw /\ bw !! slot = Some p) <->
     (exists bw, lanPeers a !! from = Some bw /\ bw !! slot = Some p) /\ time_sub t (p_lastSeen p) <= PeerTTL (cfg a)) /\
  (forall from, peers a' !! from <> Some ∅ /\ lanPeers a' !! from <> Some ∅) /\
  (forall k r, pairs a' !! k = Some r <-> pairs a !! k = Some r /\ time_sub t (pr_lastSeen r) <= PairTTL (cfg a) /\
     k ∉ expired_addrs a t (peers a) /\ k ∉ expired_addrs a t (lanPeers a)).
Proof.
  cbv zeta. assert (Hexp : forall p, peer_expired a t p = false <-> time_sub t (p_lastSeen p) <= PeerTTL (cfg a)).
  { intros p. unfold peer_expired. rewrite bool_decide_eq_false. lia. }
  split_and!.
  - intros from slot p. simpl. by rewrite prune_slot, Hexp.
  - intros from slot p. simpl. by rewrite prune_slot, Hexp.
  - intros from. simpl. split; intros (bw0 & _ & _ & Hne)%prune_lookup; done.
  - intros k r. simpl. rewrite map_lookup_filter_Some, !delete_all_lookup. simpl.
    repeat case_decide; naive_solver.
Qed.

End Theorems.

(* ------------------------------------------------------------------ *)
(** ** Witnesses *)

Definition toy_msg (from want : string) : Message := mkMessage MsgRegister from "" want "bulk" "" "" "" 0 "".

(** A one-message encoding: the text is the sender's name. *)
Definition toy_json : MessageJSON := {|
  Encode m := bytes_of (From m);
  Decode b := if decide (b = []) then None else Some (toy_msg (string_of b) "dev-b");
|}.

Definition toy_env : Env :=
  mkEnv 1000 (fun _ => Some SecureFrame.toy_nonce) (fun _ => true) (fun _ => None) (fun _ _ => Some 42)
    (fun l => head l).

Definition toy_cfg : Config := mkConfig (10 * second) (10 * second) (10 * second) true true false.
Definition toy_app : App := mkApp toy_cfg None 0 0 0 ∅ ∅ ∅ ∅.
Definition toy_secure_app : App :=
  mkApp toy_cfg (Some (SecureFrame.mkCodec (Session.toy_aead [x2a]))) 0 0 0 ∅ ∅ ∅ ∅.

Lemma ensurePairSession_shared_witness :
  ensurePairSession (GU := ascii_unicode) toy_env (ensurePairSession (GU := ascii_unicode) toy_env ∅ "a" "b" "bulk").2 "b" "a" "bulk"
    = ensurePairSession (GU := ascii_unicode) toy_env ∅ "a" "b" "bulk".
Proof.
  pose proof (ensurePairSession_shared (GU := ascii_unicode) toy_env toy_env ∅ "a" "b" "bulk" 42 eq_refl) as H.
  destruct (ensurePairSession toy_env ∅ "a" "b" "bulk") as [sid ids]. apply H.
Defined.

Lemma register_connects_witness :
  let a2 := (handleRegister (GU := ascii_unicode) (MJ := toy_json) toy_env
    (handleRegister (GU := ascii_unicode) (MJ := toy_json) toy_env toy_app "1.1.1.1:1" (toy_msg "dev-a" "dev-b")).1
    "2.2.2.2:2" (toy_msg "dev-b" "dev-a")).1 in
  exists sid, (handleRelay toy_env a2 "1.1.1.1:1" [x01; x02]).2 = [WriteToUDP [x01; x02] "2.2.2.2:2"; TouchSession sid 2] /\
    (handleRelay toy_env a2 "2.2.2.2:2" [x01; x02]).2 = [WriteToUDP [x01; x02] "1.1.1.1:1"; TouchSession sid 2].
Proof.
  apply (register_connects (GU := ascii_unicode) (MJ := toy_json) toy_env toy_env toy_env toy_app "1.1.1.1:1" "2.2.2.2:2"
    (toy_msg "dev-a" "dev-b") (toy_msg "dev-b" "dev-a") [x01; x02]);
    try reflexivity; try (vm_compute; discriminate). split; reflexivity.
Defined.

Lemma handleRegister_introduces_witness :
  let a1 := (handleRegister (GU := ascii_unicode) (MJ := toy_json) toy_env toy_app "1.1.1.1:1" (toy_msg "dev-a" "dev-b")).1 in
  length (handleRegister (GU := ascii_unicode) (MJ := toy_json) toy_env a1 "2.2.2.2:2" (toy_msg "dev-b" "dev-a")).2 = 3%nat.
Proof.
  intros a1.
  rewrite (handleRegister_introduces (GU := ascii_unicode) (MJ := toy_json) toy_env a1 "2.2.2.2:2" (toy_msg "dev-b" "dev-a")
    (registered (GU := ascii_unicode) toy_env "1.1.1.1:1" (toy_msg "dev-a" "dev-b") ""));
    [reflexivity|by vm_compute|vm_compute; discriminate|reflexivity].
Defined.

(** A registration sealed under the key. *)
Definition toy_sealed : list byte :=
  match SecureFrame.Seal (codec toy_secure_app) (Some SecureFrame.toy_nonce) SecureFrame.KindControl (bytes_of "dev-a") with
  | Ok b => b | Err _ => []
  end.


Lemma handleLANUDPRelay_correct_witness :
  match PackRelayFrame (mkRelayFrame "dev-a" "dev-b" [x01]) with
  | Some data => (handleLANUDPRelay toy_env toy_app "1.1.1.1:1" data).1.1 = true
  | None => False
  end.
Proof.
  destruct (PackRelayFrame (mkRelayFrame "dev-a" "dev-b" [x01])) as [data|] eqn:E; [|vm_compute in E; discriminate E].
  pose proof (handleLANUDPRelay_correct (GU := ascii_unicode) (MJ := toy_json) toy_cfg None toy_env toy_app "1.1.1.1:1"
    (mkRelayFrame "dev-a" "dev-b" [x01]) data (sr_new _ _) eq_refl E) as H.
  assert (Hp : forall l, match pick toy_env l with Some p => p ∈ l | None => l = [] end)
    by (intros [|p l]; [reflexivity|by left]).
  specialize (H Hp). destruct (handleLANUDPRelay _ _ _ _) as [[h a'] fx]. apply H.
Defined.
