(* ===== verification/Pending.v ===== *)
(** * Pending: frames waiting for a path (cmd/UDPTunnelLAN/packet_runtime.go)

    The outbound half of the LAN runtime: the classes of traffic, the queue of frames
    that have no path yet, with its bounds by count, bytes, peer and session, and the
    loop that replays it ([sendPackets] and its [flush]) over a transport. Every
    reading of the clock is an argument. The loops that drop frames run with fuel
    [length frames]: each turn drops one. *)

From S2P Require Import Prelude GoStrings Store Router.

(* ------------------------------------------------------------------ *)
(** ** Constants *)

Definition lanThroughputBatchMax : nat := 16.
Definition lanThroughputBatchDelay : Duration := 15 * millisecond.
Definition lanPacketPollInterval : Duration := 10 * millisecond.
Definition lanRelayBackoff : Duration := 500 * millisecond.
Definition lanPendingTTL : Duration := 5 * second.
Definition lanPendingMaxFrames : Z := 128.
Definition lanPendingMaxBytes : Z := 1024 * 1024.
Definition lanPendingMaxPerPeer : Z := 32.
Definition lanPendingMaxPerSession : Z := 8.

Definition lanTrafficCritical : string := "critical".
Definition lanTrafficInteractive : string := "interactive".
Definition lanTrafficThroughput : string := "throughput".
Definition lanTCPFastPathOff : string := "off".
Definition lanTCPFastPathFallback : string := "packet_fallback".
Definition lanTCPFastPathAttempt : string := "attempt".

(* ------------------------------------------------------------------ *)
(** ** Classes of traffic *)

Definition isLANInteractivePort (port : Z) : bool := bool_decide (port ∈ [22; 53; 3389]).
Definition isLANFastPathPort (port : Z) : bool := bool_decide (port ∈ [139; 445; 3389]).
Definition isLANHotPathPort (port : Z) : bool := bool_decide (port ∈ [22; 139; 445; 3389]).

Definition small_frame (frame : RoutedFrame) : bool := bool_decide (length (rf_Payload frame) <= 256)%nat.

Definition classifyLANFrame (frame : RoutedFrame) : string :=
  let h := rf_Header frame in
  let rest := if small_frame frame then lanTrafficInteractive else lanTrafficThroughput in
  if decide (Protocol h = IPv4ProtocolICMP) then lanTrafficCritical
  else if decide (Protocol h = IPv4ProtocolTCP) then
    if TCPSYN h then lanTrafficCritical
    else if isLANInteractivePort (SourcePort h) || isLANInteractivePort (DestPort h) || small_frame frame
    then lanTrafficInteractive else rest
  else if decide (Protocol h = IPv4ProtocolUDP) then
    if bool_decide (SourcePort h = 53) || bool_decide (DestPort h = 53) || small_frame frame
    then lanTrafficInteractive else rest
  else rest.

Definition lanFramePriority (frame : RoutedFrame) : Z :=
  if decide (classifyLANFrame frame = lanTrafficCritical) then 0
  else if decide (classifyLANFrame frame = lanTrafficInteractive) then 1 else 2.

Definition isLANTCPFastPathCandidateForPolicy (frame : RoutedFrame) (policy : string) : bool :=
  let h := rf_Header frame in
  if decide (TrimSpace policy = "off"%string) then false
  else if decide (TrimSpace policy = "force"%string)
  then bool_decide (Protocol h = IPv4ProtocolTCP) && negb (TCPSYN h)
  else if decide (Protocol h <> IPv4ProtocolTCP \/ TCPSYN h = true) then false
  else if isLANFastPathPort (SourcePort h) || isLANFastPathPort (DestPort h) then true
  else bool_decide (classifyLANFrame frame = lanTrafficThroughput) &&
       bool_decide (1024 <= Z.of_nat (length (rf_Payload frame))).

Definition isLANTCPFastPathCandidate (frame : RoutedFrame) : bool :=
  isLANTCPFastPathCandidateForPolicy frame "auto".

Definition lanTCPFastPathDecision (frame : RoutedFrame) (policy : string) (available : bool) : string :=
  if decide (TrimSpace policy = "off"%string) then lanTCPFastPathOff
  else if negb (isLANTCPFastPathCandidateForPolicy frame policy) then lanTCPFastPathFallback
  else if negb available then lanTCPFastPathFallback
  else lanTCPFastPathAttempt.

(** The empty list stands for a nil address, as in the headers of [Router]. *)
Definition lanFrameSessionKey (frame : RoutedFrame) : string :=
  let h := rf_Header frame in
  if decide (TrimSpace (rf_DstDevice frame) = EmptyString \/ Protocol h = x00) then EmptyString
  else if decide (Protocol h = IPv4ProtocolTCP \/ Protocol h = IPv4ProtocolUDP) then
    if decide (SourcePort h <= 0 \/ DestPort h <= 0 \/ SourceIP h = [] \/ DestIP h = []) then EmptyString
    else Join [FormatInt (rf_NetworkID frame); rf_DstDevice frame; FormatInt (b2z (Protocol h));
               IPv4_String (SourceIP h); IPv4_String (DestIP h);
               FormatInt (SourcePort h); FormatInt (DestPort h)] NUL
  else EmptyString.

(* ------------------------------------------------------------------ *)
(** ** The queue *)

Record lanPendingFrame : Type := mkPendingFrame {
  pf_frame : RoutedFrame; pf_at : Time; pf_size : Z; pf_id : Z;
}.

#[export] Instance IPv4Header_eq_dec : EqDecision IPv4Header.
Proof. solve_decision. Defined.
#[export] Instance RoutedFrame_eq_dec : EqDecision RoutedFrame.
Proof. solve_decision. Defined.
#[export] Instance lanPendingFrame_eq_dec : EqDecision lanPendingFrame.
Proof. solve_decision. Defined.

(** [lanPendingStats]; the fields [Frames] and [Bytes] are filled by [pending_Stats]. *)
Record lanPendingStats : Type := mkPendingStats {
  n_Frames : Z; n_Bytes : Z; n_Added : Z; n_Dropped : Z; n_Expired : Z;
  n_TCP : Z; n_UDP : Z; n_ICMP : Z; n_Interactive : Z; n_Throughput : Z;
}.

Record lanPendingQueue : Type := mkPendingQueue {
  maxFrames : Z; maxBytes : Z; maxPerPeer : Z; maxPerSession : Z; ttl : Duration;
  bytes : Z; frames : list lanPendingFrame; nextID : Z; stats : lanPendingStats;
}.

Definition newLANPendingQueue (max_frames max_bytes : Z) (t : Duration) : lanPendingQueue :=
  mkPendingQueue max_frames max_bytes lanPendingMaxPerPeer lanPendingMaxPerSession t 0 [] 0
    (mkPendingStats 0 0 0 0 0 0 0 0 0 0).

Definition set_queue (q : lanPendingQueue) (fs : list lanPendingFrame) (b id : Z) (st : lanPendingStats)
  : lanPendingQueue :=
  mkPendingQueue (maxFrames q) (maxBytes q) (maxPerPeer q) (maxPerSession q) (ttl q) b fs id st.

Definition bump_dropped (st : lanPendingStats) : lanPendingStats :=
  mkPendingStats (n_Frames st) (n_Bytes st) (n_Added st) (inc (n_Dropped st)) (n_Expired st)
    (n_TCP st) (n_UDP st) (n_ICMP st) (n_Interactive st) (n_Throughput st).

Definition bump_expired (st : lanPendingStats) (k : Z) : lanPendingStats :=
  mkPendingStats (n_Frames st) (n_Bytes st) (n_Added st) (n_Dropped st) (u64 (n_Expired st + k))
    (n_TCP st) (n_UDP st) (n_ICMP st) (n_Interactive st) (n_Throughput st).

Definition sum_sizes (fs : list lanPendingFrame) : Z := foldr (fun it acc => pf_size it + acc) 0 fs.

Definition pending_expired (q : lanPendingQueue) (now : Time) (it : lanPendingFrame) : Prop :=
  ttl q < time_sub now (pf_at it).

#[export] Instance pending_expired_dec q now it : Decision (pending_expired q now it) := Z_lt_dec _ _.

Definition prune (now : Time) (q : lanPendingQueue) : lanPendingQueue :=
  if decide (ttl q <= 0) then q
  else
    let next := filter (fun it => ~ pending_expired q now it) (frames q) in
    set_queue q next (sum_sizes next) (nextID q)
      (bump_expired (stats q) (Z.of_nat (length (frames q) - length next))).

Definition dropAt (index : nat) (q : lanPendingQueue) : lanPendingQueue :=
  match frames q !! index with
  | None => q
  | Some item =>
    set_queue q (take index (frames q) ++ drop (S index) (frames q)) (bytes q - pf_size item) (nextID q)
      (bump_dropped (stats q))
  end.

(** The loop of the two candidate searches: the first frame of the highest number. *)
Fixpoint candidate_loop (matches : RoutedFrame -> bool) (i : nat) (best : option (nat * Z))
  (l : list lanPendingFrame) : option (nat * Z) :=
  match l with
  | [] => best
  | item :: l' =>
    let priority := lanFramePriority (pf_frame item) in
    let better := match best with None => true | Some (_, p) => bool_decide (p < priority) end in
    candidate_loop matches (S i) (if matches (pf_frame item) && better then Some (i, priority) else best) l'
  end.

Definition dropCandidateIndex (q : lanPendingQueue) : nat :=
  match frames q with
  | [] => 0%nat
  | item :: l => fst (default (0%nat, 0) (candidate_loop (fun _ => true) 1
                                             (Some (0%nat, lanFramePriority (pf_frame item))) l))
  end.

Definition dropMatchingCandidateIndex (matches : RoutedFrame -> bool) (q : lanPendingQueue) : nat :=
  fst (default (0%nat, 0) (candidate_loop matches 0 None (frames q))).

Definition of_peer (peerID : string) (frame : RoutedFrame) : bool := bool_decide (rf_DstDevice frame = peerID).
Definition of_session (sessionKey : string) (frame : RoutedFrame) : bool :=
  bool_decide (lanFrameSessionKey frame = sessionKey).

Definition dropPeerCandidateIndex (peerID : string) (q : lanPendingQueue) : nat :=
  dropMatchingCandidateIndex (of_peer peerID) q.
Definition dropSessionCandidateIndex (sessionKey : string) (q : lanPendingQueue) : nat :=
  dropMatchingCandidateIndex (of_session sessionKey) q.

Definition count_matching (matches : RoutedFrame -> bool) (fs : list lanPendingFrame) : Z :=
  Z.of_nat (length (filter (fun it => matches (pf_frame it) = true) fs)).
Definition countPeer (peerID : string) (q : lanPendingQueue) : Z := count_matching (of_peer peerID) (frames q).
Definition countSession (sessionKey : string) (q : lanPendingQueue) : Z :=
  count_matching (of_session sessionKey) (frames q).

(** [for over(q) { q.dropAt(pick(q)) }]. *)
Fixpoint drop_while (fuel : nat) (over : lanPendingQueue -> bool) (pick : lanPendingQueue -> nat)
  (q : lanPendingQueue) : lanPendingQueue :=
  match fuel with
  | O => q
  | S fuel' => if over q then drop_while fuel' over pick (dropAt (pick q) q) else q
  end.

Definition over_capacity (q : lanPendingQueue) : bool :=
  bool_decide (maxFrames q < Z.of_nat (length (frames q))) ||
  (bool_decide (0 < maxBytes q) && bool_decide (maxBytes q < bytes q)).

Definition trim (q : lanPendingQueue) : lanPendingQueue :=
  drop_while (length (frames q)) over_capacity dropCandidateIndex q.

Definition trimPeer (peerID : string) (q : lanPendingQueue) : lanPendingQueue :=
  if decide (maxPerPeer q <= 0 \/ TrimSpace peerID = EmptyString) then q
  else drop_while (length (frames q)) (fun q => bool_decide (maxPerPeer q < countPeer peerID q))
         (dropPeerCandidateIndex peerID) q.

Definition trimSession (sessionKey : string) (q : lanPendingQueue) : lanPendingQueue :=
  if decide (maxPerSession q <= 0 \/ TrimSpace sessionKey = EmptyString) then q
  else drop_while (length (frames q)) (fun q => bool_decide (maxPerSession q < countSession sessionKey q))
         (dropSessionCandidateIndex sessionKey) q.

Definition bump_added (st : lanPendingStats) (frame : RoutedFrame) : lanPendingStats :=
  let proto := Protocol (rf_Header frame) in
  let class := classifyLANFrame frame in
  let up (b : bool) (n : Z) := if b then inc n else n in
  mkPendingStats (n_Frames st) (n_Bytes st) (inc (n_Added st)) (n_Dropped st) (n_Expired st)
    (up (bool_decide (proto = IPv4ProtocolTCP)) (n_TCP st))
    (up (bool_decide (proto = IPv4ProtocolUDP)) (n_UDP st))
    (up (bool_decide (proto = IPv4ProtocolICMP)) (n_ICMP st))
    (up (bool_decide (class = lanTrafficInteractive)) (n_Interactive st))
    (up (bool_decide (class = lanTrafficThroughput)) (n_Throughput st)).

(** One turn of the loop of [Add]. *)
Definition append_frame (now : Time) (q : lanPendingQueue) (frame : RoutedFrame) : lanPendingQueue :=
  let id := inc (nextID q) in
  let size := Z.of_nat (length (rf_Payload frame)) in
  set_queue q (frames q ++ [mkPendingFrame frame now size id]) (bytes q + size) id (bump_added (stats q) frame).

Definition add_one (now : Time) (q : lanPendingQueue) (frame : RoutedFrame) : lanPendingQueue :=
  trimSession (lanFrameSessionKey frame) (trimPeer (rf_DstDevice frame) (trim (append_frame now q frame))).

Definition Add (now : Time) (fs : list RoutedFrame) (q : lanPendingQueue) : lanPendingQueue :=
  fold_left (add_one now) fs (prune now q).

(** [sort.SliceStable] by priority. *)
Definition by_priority (fs : list lanPendingFrame) : list lanPendingFrame :=
  stable_sort (fun it => lanFramePriority (pf_frame it)) fs.

Definition Frames (now : Time) (q : lanPendingQueue) : list RoutedFrame * lanPendingQueue :=
  let q := prune now q in (map pf_frame (by_priority (frames q)), q).

Definition FrameIDs (now : Time) (q : lanPendingQueue) : list Z * lanPendingQueue :=
  let q := prune now q in (map pf_id (by_priority (frames q)), q).

(** [delivered] is the set of indices that map to true; [t1] and [t2] are the clock
    at the two prunes. *)
Definition Remove (t1 t2 : Time) (delivered : list nat) (q : lanPendingQueue) : lanPendingQueue :=
  if decide (delivered = []) then prune t1 q
  else
    let '(orderedIDs, q) := FrameIDs t1 q in
    let deliveredIDs := omap (fun i => orderedIDs !! i) delivered in
    let next := filter (fun it => pf_id it ∉ deliveredIDs) (frames q) in
    prune t2 (set_queue q next (sum_sizes next) (nextID q) (stats q)).

Definition Len (now : Time) (q : lanPendingQueue) : Z * lanPendingQueue :=
  let q := prune now q in (Z.of_nat (length (frames q)), q).
Definition Bytes (now : Time) (q : lanPendingQueue) : Z * lanPendingQueue :=
  let q := prune now q in (bytes q, q).
Definition pending_Stats (now : Time) (q : lanPendingQueue) : lanPendingStats * lanPendingQueue :=
  let q := prune now q in
  let st := stats q in
  (mkPendingStats (Z.of_nat (length (frames q))) (bytes q) (n_Added st) (n_Dropped st) (n_Expired st)
     (n_TCP st) (n_UDP st) (n_ICMP st) (n_Interactive st) (n_Throughput st), q).

(* ------------------------------------------------------------------ *)
(** ** The candidate search *)

(** The frame at [k] is the first of the highest number among those that match. *)
Definition is_candidate (matches : RoutedFrame -> bool) (fs : list lanPendingFrame) (k : nat) : Prop :=
  exists item, fs !! k = Some item /\ matches (pf_frame item) = true /\
    forall j it, fs !! j = Some it -> matches (pf_frame it) = true ->
      lanFramePriority (pf_frame it) <= lanFramePriority (pf_frame item) /\
      ((j < k)%nat -> lanFramePriority (pf_frame it) < lanFramePriority (pf_frame item)).

Definition best_of (matches : RoutedFrame -> bool) (fs : list lanPendingFrame) (best : option (nat * Z)) : Prop :=
  match best with
  | None => forall it, it ∈ fs -> matches (pf_frame it) = false
  | Some (k, p) => is_candidate matches fs k /\
                   exists item, fs !! k = Some item /\ p = lanFramePriority (pf_frame item)
  end.

Lemma best_of_snoc matches pre item best :
  best_of matches pre best ->
  best_of matches (pre ++ [item])
    (if matches (pf_frame item) && match best with None => true | Some (_, p) => bool_decide (p < lanFramePriority (pf_frame item)) end
     then Some (length pre, lanFramePriority (pf_frame item)) else best).
Proof.
  intros Hb.
  assert (Hnew : forall j it, (pre ++ [item]) !! j = Some it -> pre !! j = Some it \/ (j = length pre /\ it = item)).
  { intros j it [H|[Hj H]]%lookup_app_Some; [by left|]. apply list_lookup_singleton_Some in H. right. split; [lia|naive_solver]. }
  assert (Hlast : (pre ++ [item]) !! length pre = Some item) by by apply list_lookup_middle.
  destruct (matches (pf_frame item)) eqn:Em; simpl.
  - destruct best as [[k p]|]; [case_bool_decide as Hp|].
    + destruct Hb as [(it0 & Hk & Hm & Hall) (it0' & Hk' & ->)]. simplify_eq.
      split; [|by exists item]. exists item. split; [done|]. split; [done|].
      intros j it [Hj|[-> ->]]%Hnew Hmj; [destruct (Hall j it Hj Hmj); lia|lia].
    + destruct Hb as [(it0 & Hk & Hm & Hall) (it0' & Hk' & ->)]. simplify_eq.
      assert (Hk2 : (pre ++ [item]) !! k = Some it0) by by apply lookup_app_l_Some.
      split; [|by exists it0]. exists it0. split; [done|]. split; [done|].
      apply lookup_lt_Some in Hk. intros j it [Hj|[-> ->]]%Hnew Hmj; [by apply Hall|lia].
    + split; [|by exists item]. exists item. split; [done|]. split; [done|].
      intros j it [Hj|[-> ->]]%Hnew Hmj; [|lia].
      apply list_elem_of_lookup_2, Hb in Hj. congruence.
  - destruct best as [[k p]|]; simpl.
    + destruct Hb as [(it0 & Hk & Hm & Hall) (it0' & Hk' & ->)]. simplify_eq.
      assert (Hk2 : (pre ++ [item]) !! k = Some it0) by by apply lookup_app_l_Some.
      split; [|by exists it0]. exists it0. split; [done|]. split; [done|].
      intros j it [Hj|[-> ->]]%Hnew Hmj; [by apply Hall|congruence].
    + intros it [H| ->%list_elem_of_singleton]%elem_of_app; [by apply Hb|done].
Qed.

Lemma candidate_loop_best matches l : forall pre best,
  best_of matches pre best -> best_of matches (pre ++ l) (candidate_loop matches (length pre) best l).
Proof.
  induction l as [|item l IH]; intros pre best Hb; [by rewrite app_nil_r|].
  cbn [candidate_loop]. replace (S (length pre)) with (length (pre ++ [item])) by (rewrite length_app; simpl; lia).
  rewrite cons_middle, (assoc_L app). apply IH. by apply best_of_snoc.
Qed.

Lemma dropMatching_candidate matches q :
  (exists it, it ∈ frames q /\ matches (pf_frame it) = true) ->
  is_candidate matches (frames q) (dropMatchingCandidateIndex matches q).
Proof.
  intros (it & Hin & Hm). unfold dropMatchingCandidateIndex.
  pose proof (candidate_loop_best matches (frames q) [] None) as H. simpl in H.
  destruct (candidate_loop _ _ _ _) as [[k p]|]; [apply H; set_solver|].
  exfalso. rewrite (H ltac:(set_solver) it Hin) in Hm. done.
Qed.

Lemma dropCandidate_candidate q :
  frames q <> [] -> is_candidate (fun _ => true) (frames q) (dropCandidateIndex q).
Proof.
  unfold dropCandidateIndex. destruct (frames q) as [|item l]; [done|intros _].
  pose proof (candidate_loop_best (fun _ => true) l [item] (Some (0%nat, lanFramePriority (pf_frame item)))) as H.
  simpl in H. assert (Hc : is_candidate (fun _ => true) [item] 0).
  { exists item. split; [done|]. split; [done|]. intros [|j] it Hj; simplify_eq/=. intros; lia. }
  destruct (candidate_loop _ _ _ _) as [[k p]|].
  - apply H. split; [done|]. by exists item.
  - discriminate (H ltac:(split; [done|by exists item]) item ltac:(left)).
Qed.

(* ------------------------------------------------------------------ *)
(** ** Dropping frames *)

(** What a run of the dropping loop may change: matching frames go, each at least as
    far down the classes as the matching frames that stay, the older first. *)
Record shed (matches : RoutedFrame -> bool) (q q' : lanPendingQueue) : Prop := {
  shed_sub : frames q' `sublist_of` frames q;
  shed_bytes : bytes q' - sum_sizes (frames q') = bytes q - sum_sizes (frames q);
  shed_caps : maxFrames q' = maxFrames q /\ maxBytes q' = maxBytes q /\ maxPerPeer q' = maxPerPeer q /\
              maxPerSession q' = maxPerSession q /\ ttl q' = ttl q /\ nextID q' = nextID q;
  shed_least : forall x s, x ∈ frames q -> x ∉ frames q' -> s ∈ frames q' ->
    matches (pf_frame x) = true /\
    (matches (pf_frame s) = true ->
     lanFramePriority (pf_frame s) <= lanFramePriority (pf_frame x) /\
     (StronglySorted Z.lt (map pf_id (frames q)) ->
      lanFramePriority (pf_frame s) = lanFramePriority (pf_frame x) -> pf_id x < pf_id s));
}.

Lemma sum_sizes_app l k : sum_sizes (l ++ k) = sum_sizes l + sum_sizes k.
Proof. induction l as [|x l IH]; simpl; [done|]. unfold sum_sizes in *. simpl. lia. Qed.

Lemma shed_refl matches q : shed matches q q.
Proof. split; try done. all: intros; exfalso; auto. Qed.

Lemma sorted_map_sublist (l k : list lanPendingFrame) :
  l `sublist_of` k -> StronglySorted Z.lt (map pf_id k) -> StronglySorted Z.lt (map pf_id l).
Proof.
  induction 1 as [|x l k Hs IH|x l k Hs IH]; simpl; intros H; [done| |]; apply StronglySorted_inv in H as [H1 H2].
  - constructor; [auto|]. rewrite Forall_forall in *. intros y (z & -> & Hz)%list_elem_of_fmap. apply H2.
    apply list_elem_of_fmap. exists z. split; [done|]. by eapply elem_of_sublist.
  - auto.
Qed.

Lemma sorted_ids_lookup (fs : list lanPendingFrame) j k a b :
  StronglySorted Z.lt (map pf_id fs) -> fs !! j = Some a -> fs !! k = Some b -> (j < k)%nat -> pf_id a < pf_id b.
Proof.
  revert j k. induction fs as [|x fs IH]; intros j k; [done|].
  simpl. intros [H1 H2]%StronglySorted_inv Hj Hk Hlt. destruct k as [|k]; [lia|]. simpl in Hk.
  destruct j as [|j]; simplify_eq/=; [|apply (IH j k); auto with lia].
  rewrite Forall_forall in H2. apply H2. apply list_elem_of_fmap. exists b.
  split; [done|]. by eapply list_elem_of_lookup_2.
Qed.

Lemma dropAt_shed matches k q : is_candidate matches (frames q) k -> shed matches q (dropAt k q).
Proof.
  intros (item & Hk & Hm & Hall). unfold dropAt. rewrite Hk.
  pose proof (take_drop_middle _ _ _ Hk) as E.
  split; simpl; [| |done|].
  - rewrite <- E at 3. apply sublist_app; [done|]. by apply sublist_cons.
  - assert (sum_sizes (frames q) = sum_sizes (take k (frames q)) + (pf_size item + sum_sizes (drop (S k) (frames q)))) as ->.
    { rewrite <- E at 1. by rewrite sum_sizes_app. }
    rewrite sum_sizes_app. lia.
  - intros x s Hx Hnx Hs.
    assert (Hxi : x = item).
    { rewrite <- E in Hx. apply elem_of_app in Hx as [Hx|[->|Hx]%elem_of_cons]; [|done|]; exfalso; apply Hnx; set_solver. }
    subst x. split; [done|]. intros Hms.
    assert (exists j, frames q !! j = Some s /\ j <> k) as (j & Hj & Hjk).
    { apply elem_of_app in Hs as [(j & Hj)%list_elem_of_lookup|(j & Hj)%list_elem_of_lookup].
      - apply lookup_take_Some in Hj as [Hj Hlt]. exists j. split; [done|lia].
      - rewrite lookup_drop in Hj. exists (S k + j)%nat. split; [done|lia]. }
    destruct (Hall j s Hj Hms) as [Hle Hlt]. split; [done|]. intros Hsorted Heq.
    apply (sorted_ids_lookup (frames q) k j); [done..|].
    destruct (decide (j < k)%nat) as [Hjlt|]; [specialize (Hlt Hjlt); lia|lia].
Qed.

Lemma dropAt_length matches k q :
  is_candidate matches (frames q) k -> length (frames q) = S (length (frames (dropAt k q))).
Proof.
  intros (item & Hk & _). unfold dropAt. rewrite Hk. simpl.
  rewrite <- (take_drop_middle _ _ _ Hk) at 1. rewrite !length_app. simpl. lia.
Qed.

Lemma shed_trans matches q1 q2 q3 : shed matches q1 q2 -> shed matches q2 q3 -> shed matches q1 q3.
Proof.
  intros [S1 B1 C1 L1] [S2 B2 C2 L2]. split; [by transitivity (frames q2)|lia|intuition congruence|].
  intros x s Hx Hnx Hs. destruct (decide (x ∈ frames q2)) as [Hx2|Hnx2].
  - destruct (L2 x s Hx2 Hnx Hs) as [Hm H]. split; [done|]. intros Hms. destruct (H Hms) as [? Ht].
    split; [done|]. intros Hsort. apply Ht. by apply (sorted_map_sublist _ (frames q1)).
  - apply (L1 x s Hx Hnx2). by apply (elem_of_sublist _ _ _ Hs).
Qed.

(** Enough fuel: the loop stops because nothing is over the bound any more. *)
Lemma drop_while_spec matches over pick :
  (forall q, over q = true -> is_candidate matches (frames q) (pick q)) ->
  forall fuel q, (length (frames q) <= fuel)%nat ->
  shed matches q (drop_while fuel over pick q) /\ over (drop_while fuel over pick q) = false.
Proof.
  intros Hpick. induction fuel as [|fuel IH]; intros q Hf; simpl.
  - split; [apply shed_refl|]. destruct (over q) eqn:E; [|done].
    apply Hpick in E as (it & Hk & _). apply lookup_lt_Some in Hk. lia.
  - destruct (over q) eqn:E; [|split; [apply shed_refl|done]].
    pose proof (Hpick q E) as Hc. pose proof (dropAt_length _ _ _ Hc).
    destruct (IH (dropAt (pick q) q)) as [H1 H2]; [lia|].
    split; [|done]. eapply shed_trans; [by apply dropAt_shed|done].
Qed.

(* ------------------------------------------------------------------ *)
(** ** The invariant *)

Record pending_core (q : lanPendingQueue) : Prop := {
  core_bytes : bytes q = sum_sizes (frames q);
  core_sizes : Forall (fun it => pf_size it = Z.of_nat (length (rf_Payload (pf_frame it)))) (frames q);
  core_sorted : StronglySorted Z.lt (map pf_id (frames q));
  core_ids : Forall (fun it => pf_id it <= nextID q) (frames q);
  core_max : 0 <= maxFrames q;
}.

Record pending_bounds (q : lanPendingQueue) : Prop := {
  bound_frames : Z.of_nat (length (frames q)) <= maxFrames q;
  bound_bytes : 0 < maxBytes q -> bytes q <= maxBytes q;
  bound_peer : forall p, 0 < maxPerPeer q -> TrimSpace p <> EmptyString -> countPeer p q <= maxPerPeer q;
  bound_session : forall k, 0 < maxPerSession q -> TrimSpace k <> EmptyString -> countSession k q <= maxPerSession q;
}.

(** Both survive the loss of frames. *)
Record shrinks (q q' : lanPendingQueue) : Prop := {
  shrinks_sub : frames q' `sublist_of` frames q;
  shrinks_bytes : bytes q = sum_sizes (frames q) -> bytes q' = sum_sizes (frames q');
  shrinks_caps : maxFrames q' = maxFrames q /\ maxBytes q' = maxBytes q /\ maxPerPeer q' = maxPerPeer q /\
                 maxPerSession q' = maxPerSession q /\ ttl q' = ttl q /\ nextID q' = nextID q;
}.

Lemma shed_shrinks matches q q' : shed matches q q' -> shrinks q q'.
Proof. intros [S B C _]. split; [done|lia|done]. Qed.

Lemma shrinks_trans q1 q2 q3 : shrinks q1 q2 -> shrinks q2 q3 -> shrinks q1 q3.
Proof. intros [S1 B1 C1] [S2 B2 C2]. split; [by transitivity (frames q2)|auto|intuition congruence]. Qed.

Lemma prune_shrinks now q : shrinks q (prune now q).
Proof. unfold prune. case_decide; split; simpl; try done. apply sublist_filter. Qed.

Lemma Forall_sublist {A} (P : A -> Prop) (l k : list A) : l `sublist_of` k -> Forall P k -> Forall P l.
Proof. rewrite !Forall_forall. intros Hs H x Hx. apply H. by apply (elem_of_sublist _ _ _ Hx). Qed.

Lemma count_matching_sublist m l k : l `sublist_of` k -> count_matching m l <= count_matching m k.
Proof.
  unfold count_matching. induction 1 as [|x l k Hs IH|x l k Hs IH]; [done| |];
    rewrite ?(filter_cons _ x); case_decide; simpl; lia.
Qed.

Lemma sum_sizes_sublist l k :
  l `sublist_of` k -> Forall (fun it => 0 <= pf_size it) k -> sum_sizes l <= sum_sizes k.
Proof.
  unfold sum_sizes. induction 1 as [|x l k Hs IH|x l k Hs IH]; simpl; intros H; [done| |];
    apply Forall_cons in H as [H1 H2]; specialize (IH H2); lia.
Qed.

Lemma shrinks_core q q' : shrinks q q' -> pending_core q -> pending_core q'.
Proof.
  intros [S B C] [H1 H2 H3 H4 H5]. destruct C as (C1 & _ & _ & _ & _ & C6). split.
  - auto.
  - by eapply Forall_sublist.
  - by apply (sorted_map_sublist _ (frames q)).
  - rewrite C6. by eapply Forall_sublist.
  - by rewrite C1.
Qed.

Lemma core_nonneg q : pending_core q -> Forall (fun it => 0 <= pf_size it) (frames q).
Proof. intros [_ H _ _ _]. eapply Forall_impl; [done|]. simpl. lia. Qed.

Lemma shrinks_count q q' m : shrinks q q' -> count_matching m (frames q') <= count_matching m (frames q).
Proof. intros [S _ _]. by apply count_matching_sublist. Qed.

Lemma shrinks_bytes_le q q' : shrinks q q' -> pending_core q -> bytes q' <= bytes q.
Proof.
  intros Hs Hc. pose proof (core_bytes _ Hc) as H1. pose proof (core_bytes _ (shrinks_core _ _ Hs Hc)) as H2.
  rewrite H1, H2. apply sum_sizes_sublist; [apply Hs|by apply core_nonneg].
Qed.

Lemma shrinks_pending_bounds q q' : shrinks q q' -> pending_core q -> pending_bounds q -> pending_bounds q'.
Proof.
  intros Hs Hc [B1 B2 B3 B4]. pose proof (shrinks_bytes_le _ _ Hs Hc).
  pose proof (sublist_length _ _ (shrinks_sub _ _ Hs)).
  destruct (shrinks_caps _ _ Hs) as (C1 & C2 & C3 & C4 & _). split; rewrite ?C1, ?C2, ?C3, ?C4.
  - lia.
  - intros. specialize (B2 ltac:(done)). lia.
  - intros p Hp Ht. pose proof (shrinks_count _ _ (of_peer p) Hs). specialize (B3 p Hp Ht). unfold countPeer in *. lia.
  - intros p Hp Ht. pose proof (shrinks_count _ _ (of_session p) Hs). specialize (B4 p Hp Ht). unfold countSession in *. lia.
Qed.

Lemma count_matching_witness m fs n :
  0 <= n -> n < count_matching m fs -> exists it, it ∈ fs /\ m (pf_frame it) = true.
Proof.
  unfold count_matching. intros Hn H. destruct (filter _ fs) as [|it l] eqn:E; simpl in H; [lia|].
  assert (it ∈ filter (fun it => m (pf_frame it) = true) fs) as [? ?]%list_elem_of_filter by (rewrite E; left).
  by exists it.
Qed.

Lemma trim_spec q :
  pending_core q -> shed (fun _ => true) q (trim q) /\ over_capacity (trim q) = false.
Proof.
  intros Hc. unfold trim.
  (* over capacity needs a frame: the byte count of an empty queue is zero *)
  assert (H : forall fuel q, pending_core q -> (length (frames q) <= fuel)%nat ->
    shed (fun _ => true) q (drop_while fuel over_capacity dropCandidateIndex q) /\
    over_capacity (drop_while fuel over_capacity dropCandidateIndex q) = false);
    [|apply H; [done|lia]].
  clear q Hc. intros fuel. induction fuel as [|fuel IH]; intros q Hc Hf; simpl.
  - split; [apply shed_refl|]. unfold over_capacity. destruct Hc as [H1 _ _ _ H5].
    destruct (frames q); simpl in *; [|lia]. rewrite H1.
    apply orb_false_iff. split; [apply bool_decide_eq_false; lia|].
    apply andb_false_iff. destruct (decide (0 < maxBytes q)); [right|left]; apply bool_decide_eq_false; lia.
  - destruct (over_capacity q) eqn:E; [|split; [apply shed_refl|done]].
    assert (frames q <> []) as Hne.
    { intros Hn. unfold over_capacity in E. destruct Hc as [H1 _ _ _ H5]. rewrite Hn in *. simpl in *.
      rewrite H1 in E. apply orb_true_iff in E as [E|E]; bools; lia. }
    pose proof (dropCandidate_candidate q Hne) as Hcand. pose proof (dropAt_length _ _ _ Hcand).
    pose proof (dropAt_shed _ _ _ Hcand) as Hsh.
    destruct (IH (dropAt (dropCandidateIndex q) q)) as [H1 H2]; [|lia|].
    { eapply shrinks_core; [by eapply shed_shrinks|done]. }
    split; [by eapply shed_trans|done].
Qed.

Lemma drop_matching_spec m (cap : lanPendingQueue -> Z) :
  (forall k q, cap (dropAt k q) = cap q) ->
  forall fuel q, 0 < cap q -> (length (frames q) <= fuel)%nat ->
  let q' := drop_while fuel (fun q => bool_decide (cap q < count_matching m (frames q)))
              (dropMatchingCandidateIndex m) q in
  shed m q q' /\ count_matching m (frames q') <= cap q.
Proof.
  intros Hcap. induction fuel as [|fuel IH]; intros q Hc Hf q'; subst q'; simpl.
  - split; [apply shed_refl|]. destruct (frames q); [|simpl in Hf; lia]. unfold count_matching. simpl. lia.
  - case_bool_decide as Ho; [|split; [apply shed_refl|lia]].
    pose proof (dropMatching_candidate m q) as Hcand. specialize (Hcand (count_matching_witness m _ (cap q) ltac:(lia) Ho)).
    pose proof (dropAt_length _ _ _ Hcand). rewrite <- (Hcap (dropMatchingCandidateIndex m q) q).
    destruct (IH (dropAt (dropMatchingCandidateIndex m q) q)) as [H1 H2]; [by rewrite Hcap|lia|].
    split; [|done]. eapply shed_trans; [by apply dropAt_shed|done].
Qed.

Lemma trimPeer_spec p q :
  shed (of_peer p) q (trimPeer p q) /\
  (0 < maxPerPeer q -> TrimSpace p <> EmptyString -> countPeer p (trimPeer p q) <= maxPerPeer q).
Proof.
  unfold trimPeer. case_decide as Hd; [split; [apply shed_refl|intros; destruct Hd; [lia|done]]|].
  destruct (drop_matching_spec (of_peer p) maxPerPeer) with (fuel := length (frames q)) (q := q) as [H1 H2];
    [|lia|lia|done].
  intros k q'. unfold dropAt. by case_match.
Qed.

Lemma trimSession_spec k q :
  shed (of_session k) q (trimSession k q) /\
  (0 < maxPerSession q -> TrimSpace k <> EmptyString -> countSession k (trimSession k q) <= maxPerSession q).
Proof.
  unfold trimSession. case_decide as Hd; [split; [apply shed_refl|intros; destruct Hd; [lia|done]]|].
  destruct (drop_matching_spec (of_session k) maxPerSession) with (fuel := length (frames q)) (q := q) as [H1 H2];
    [|lia|lia|done].
  intros i q'. unfold dropAt. by case_match.
Qed.

Lemma count_matching_snoc m fs it :
  count_matching m (fs ++ [it]) = count_matching m fs + (if m (pf_frame it) then 1 else 0).
Proof.
  unfold count_matching. rewrite filter_app, length_app, filter_cons.
  destruct (m (pf_frame it)); case_decide; simpl; lia || congruence.
Qed.

Lemma append_core now q f : pending_core q -> nextID q < 2 ^ 64 - 1 -> 0 <= nextID q -> pending_core (append_frame now q f).
Proof.
  intros [H1 H2 H3 H4 H5] Hid Hid0. unfold append_frame.
  assert (inc (nextID q) = nextID q + 1) as Ei by (unfold inc; apply u64_small; lia).
  split; simpl; [| | | |done].
  - rewrite sum_sizes_app. cbn. lia.
  - apply Forall_app. split; [done|]. by constructor.
  - rewrite map_app, Ei. simpl. clear H1 H2. induction (frames q) as [|x l IH]; simpl in *.
    + repeat constructor.
    + apply StronglySorted_inv in H3 as [H3 H6]. apply Forall_cons in H4 as [H4 H7].
      constructor; [auto|]. apply Forall_app. split; [done|]. repeat constructor. lia.
  - rewrite Ei. apply Forall_app. split; [|repeat constructor; simpl; lia].
    eapply Forall_impl; [done|]. simpl. lia.
Qed.

Definition caps (q : lanPendingQueue) : Z * Z * Z * Z := (maxFrames q, maxBytes q, maxPerPeer q, maxPerSession q).

Lemma shrinks_caps_eq q q' : shrinks q q' -> caps q' = caps q.
Proof. intros [_ _ (C1 & C2 & C3 & C4 & _)]. unfold caps. congruence. Qed.

Lemma add_one_wf now q f :
  pending_core q -> pending_bounds q -> 0 <= nextID q < 2 ^ 64 - 1 ->
  pending_core (add_one now q f) /\ pending_bounds (add_one now q f) /\
  nextID (add_one now q f) = nextID q + 1 /\ caps (add_one now q f) = caps q.
Proof.
  intros Hc [B1 B2 B3 B4] Hid. pose proof (append_core now q f Hc ltac:(lia) ltac:(lia)) as Hc0.
  unfold add_one. set (q0 := append_frame now q f) in *.
  destruct (trim_spec q0 Hc0) as [S1 O1]. set (q1 := trim q0) in *.
  destruct (trimPeer_spec (rf_DstDevice f) q1) as [S2 O2]. set (q2 := trimPeer _ q1) in *.
  destruct (trimSession_spec (lanFrameSessionKey f) q2) as [S3 O3]. set (q3 := trimSession _ q2) in *.
  apply shed_shrinks in S1, S2, S3.
  pose proof (shrinks_trans _ _ _ S2 S3) as S23. pose proof (shrinks_trans _ _ _ S1 S23) as S123.
  pose proof (shrinks_core _ _ S1 Hc0) as Hc1.
  destruct (shrinks_caps _ _ S123) as (C1 & C2 & C3 & C4 & _ & C6).
  destruct (shrinks_caps _ _ S1) as (E1 & E2 & E3 & E4 & _).
  destruct (shrinks_caps _ _ S2) as (F1 & F2 & F3 & F4 & _).
  split; [by apply (shrinks_core _ _ S123)|]. split.
  2:{ split; [rewrite C6; simpl; unfold inc; apply u64_small; lia|by rewrite (shrinks_caps_eq _ _ S123)]. }
  unfold over_capacity in O1. apply orb_false_iff in O1 as [O1 O1']. bools.
  pose proof (sublist_length _ _ (shrinks_sub _ _ S23)). pose proof (shrinks_bytes_le _ _ S23 Hc1).
  split.
  - lia.
  - intros Hb. apply andb_false_iff in O1' as [?|?]; bools; lia.
  - intros p Hp Ht. destruct (decide (p = rf_DstDevice f)) as [->|Hne].
    + pose proof (shrinks_count _ _ (of_peer (rf_DstDevice f)) S3). unfold countPeer in *.
      specialize (O2 ltac:(lia) Ht). lia.
    + pose proof (shrinks_count _ _ (of_peer p) S123) as Hle. unfold countPeer in *.
      change (frames q0) with (frames q ++ [mkPendingFrame f now (Z.of_nat (length (rf_Payload f))) (inc (nextID q))]) in Hle.
      rewrite count_matching_snoc in Hle. unfold of_peer at 3 in Hle. simpl in Hle.
      rewrite bool_decide_eq_false_2 in Hle by done. specialize (B3 p). change (maxPerPeer q0) with (maxPerPeer q) in C3. rewrite C3 in *. specialize (B3 Hp Ht). lia.
  - intros k Hp Ht. destruct (decide (k = lanFrameSessionKey f)) as [->|Hne].
    + unfold countSession in *. specialize (O3 ltac:(lia) Ht). lia.
    + pose proof (shrinks_count _ _ (of_session k) S123) as Hle. unfold countSession in *.
      change (frames q0) with (frames q ++ [mkPendingFrame f now (Z.of_nat (length (rf_Payload f))) (inc (nextID q))]) in Hle.
      rewrite count_matching_snoc in Hle. unfold of_session at 3 in Hle. simpl in Hle.
      rewrite bool_decide_eq_false_2 in Hle by done. change (maxPerSession q0) with (maxPerSession q) in C4. rewrite C4 in *. specialize (B4 k Hp Ht). lia.
Qed.

(* ------------------------------------------------------------------ *)
(** ** Histories *)

(** [Len], [Bytes], [Stats], [Frames] and [FrameIDs] change the queue by a prune. *)
Inductive pending_op : Type :=
  | OpAdd (now : Time) (fs : list RoutedFrame)
  | OpRemove (t1 t2 : Time) (delivered : list nat)
  | OpRead (now : Time).

Definition run_op (q : lanPendingQueue) (op : pending_op) : lanPendingQueue :=
  match op with
  | OpAdd now fs => Add now fs q
  | OpRemove t1 t2 d => Remove t1 t2 d q
  | OpRead now => prune now q
  end.

Definition added (op : pending_op) : Z :=
  match op with OpAdd _ fs => Z.of_nat (length fs) | _ => 0 end.

Definition total_added (ops : list pending_op) : Z := foldr (fun op acc => added op + acc) 0 ops.

Lemma total_added_nonneg ops : 0 <= total_added ops.
Proof. unfold total_added. induction ops as [|op ops IH]; simpl; [lia|]. destruct op; simpl; lia. Qed.

Lemma Remove_shrinks t1 t2 d q : shrinks q (Remove t1 t2 d q).
Proof.
  unfold Remove. case_decide; [apply prune_shrinks|]. simpl.
  eapply shrinks_trans; [apply (prune_shrinks t1)|]. eapply shrinks_trans; [|apply prune_shrinks].
  split; simpl; [apply sublist_filter|done|done].
Qed.

Definition pending_wf (q : lanPendingQueue) : Prop := pending_core q /\ pending_bounds q /\ 0 <= nextID q.

Lemma shrinks_wf q q' : shrinks q q' -> pending_wf q -> pending_wf q' /\ nextID q' = nextID q /\ caps q' = caps q.
Proof.
  intros Hs (Hc & Hb & Hn). destruct (shrinks_caps _ _ Hs) as (_ & _ & _ & _ & _ & C6).
  split; [|split; [done|by apply shrinks_caps_eq]].
  split; [by eapply shrinks_core|]. split; [by eapply shrinks_pending_bounds|lia].
Qed.

Lemma add_all_wf now fs : forall q,
  pending_wf q -> nextID q + Z.of_nat (length fs) < 2 ^ 64 ->
  let q' := fold_left (add_one now) fs q in
  pending_wf q' /\ nextID q' = nextID q + Z.of_nat (length fs) /\ caps q' = caps q.
Proof.
  induction fs as [|f fs IH]; intros q (Hc & Hb & Hn) Hid; cbn [fold_left length] in *; [split_and!; done || lia|].
  destruct (add_one_wf now q f Hc Hb ltac:(lia)) as (Hc1 & Hb1 & Hn1 & Hk1).
  destruct (IH (add_one now q f)) as (H1 & H2 & H3); [split_and!; [done..|lia]|lia|].
  split; [done|]. split; [lia|congruence].
Qed.

Lemma run_op_wf q op :
  pending_wf q -> nextID q + added op < 2 ^ 64 ->
  pending_wf (run_op q op) /\ nextID (run_op q op) = nextID q + added op /\ caps (run_op q op) = caps q.
Proof.
  intros Hw Hid. destruct op as [now fs|t1 t2 d|now]; simpl in *.
  - destruct (shrinks_wf _ _ (prune_shrinks now q) Hw) as (Hw' & En & Ek). unfold Add.
    rewrite <- En, <- Ek. apply add_all_wf; [done|lia].
  - destruct (shrinks_wf _ _ (Remove_shrinks t1 t2 d q) Hw) as (? & ? & ?). split_and!; done || lia.
  - destruct (shrinks_wf _ _ (prune_shrinks now q) Hw) as (? & ? & ?). split_and!; done || lia.
Qed.

Lemma run_ops_wf ops : forall q,
  pending_wf q -> nextID q + total_added ops < 2 ^ 64 ->
  pending_wf (fold_left run_op ops q) /\ caps (fold_left run_op ops q) = caps q.
Proof.
  induction ops as [|op ops IH]; intros q Hw Hid; [done|].
  change (total_added (op :: ops)) with (added op + total_added ops) in Hid.
  pose proof (total_added_nonneg ops). destruct (run_op_wf q op Hw) as (H1 & H2 & H3); [lia|].
  destruct (IH (run_op q op) H1) as [H4 H5]; [lia|]. cbn [fold_left]. split; [done|congruence].
Qed.

Lemma new_queue_wf mf mb t : 0 <= mf -> pending_wf (newLANPendingQueue mf mb t).
Proof.
  intros H. unfold pending_wf. simpl. split_and!; [split; simpl; try done; constructor| |done].
  split; unfold countPeer, countSession, count_matching; simpl; done || lia.
Qed.

Lemma sum_sizes_payloads fs :
  Forall (fun it => pf_size it = Z.of_nat (length (rf_Payload (pf_frame it)))) fs ->
  sum_sizes fs = foldr (fun it acc => Z.of_nat (length (rf_Payload (pf_frame it))) + acc) 0 fs.
Proof. unfold sum_sizes. induction 1; simpl; congruence. Qed.

(** C9. Whatever is queued, replayed, removed or expires, the byte count of the queue
    is the sum of its payloads, its ids are distinct and in order of arrival, and the
    bounds on frames, bytes, frames per peer and frames per session hold. *)
Theorem pending_queue_bounded (max_frames max_bytes : Z) (t : Duration) (ops : list pending_op) :
  0 <= max_frames -> total_added ops < 2 ^ 64 ->
  let q := fold_left run_op ops (newLANPendingQueue max_frames max_bytes t) in
  bytes q = foldr (fun it acc => Z.of_nat (length (rf_Payload (pf_frame it))) + acc) 0 (frames q) /\
  StronglySorted Z.lt (map pf_id (frames q)) /\
  Z.of_nat (length (frames q)) <= max_frames /\
  (0 < max_bytes -> bytes q <= max_bytes) /\
  (forall p, TrimSpace p <> EmptyString -> countPeer p q <= lanPendingMaxPerPeer) /\
  (forall k, TrimSpace k <> EmptyString -> countSession k q <= lanPendingMaxPerSession).
Proof.
  intros Hm Ht q.
  destruct (run_ops_wf ops (newLANPendingQueue max_frames max_bytes t)) as ((Hc & Hb & _) & Hk);
    [by apply new_queue_wf|simpl; lia|]. fold q in Hc, Hb, Hk. unfold caps in Hk. simpl in Hk. injection Hk as K1 K2 K3 K4.
  destruct Hb as [B1 B2 B3 B4]. rewrite K1, ?K2, ?K3, ?K4 in *.
  split; [rewrite (core_bytes _ Hc); by apply sum_sizes_payloads, Hc|].
  split; [apply Hc|]. split_and!; [done|done|..]; intros; [apply B3|apply B4]; done.
Qed.

(* ------------------------------------------------------------------ *)
(** ** What is shed, replayed and removed *)


(** The elements of [l] whose position, from [i], is not in [d]. *)
Fixpoint drop_positions {A} (i : nat) (d : list nat) (l : list A) : list A :=
  match l with
  | [] => []
  | x :: l' => if decide (i ∈ d) then drop_positions (S i) d l' else x :: drop_positions (S i) d l'
  end.

Lemma filter_positions {A} (P : A -> Prop) `{!forall x, Decision (P x)} d l : forall n,
  (forall i x, l !! i = Some x -> P x <-> (n + i)%nat ∉ d) -> filter P l = drop_positions n d l.
Proof.
  induction l as [|x l IH]; intros n HP; [done|]. cbn [drop_positions]. rewrite filter_cons.
  pose proof (HP 0%nat x eq_refl) as H0. rewrite Nat.add_0_r in H0.
  rewrite (IH (S n)).
  - repeat case_decide; tauto.
  - intros i y Hy. rewrite (HP (S i) y Hy). replace (n + S i)%nat with (S n + i)%nat by lia. done.
Qed.

Lemma drop_positions_fmap {A B} (f : A -> B) d l : forall n, map f (drop_positions n d l) = drop_positions n d (map f l).
Proof. induction l as [|x l IH]; intros n; [done|]. simpl. case_decide; simpl; by rewrite IH. Qed.

Definition none_expires (now : Time) (q : lanPendingQueue) : Prop :=
  ttl q <= 0 \/ forall it, it ∈ frames q -> ~ pending_expired q now it.

Lemma prune_none now q : none_expires now q -> frames (prune now q) = frames q.
Proof.
  intros Hn. unfold prune. case_decide; [done|]. destruct Hn as [|Hn]; [lia|]. simpl.
  induction (frames q) as [|x l IH]; [done|]. rewrite filter_cons_True by (apply Hn; left).
  f_equal. apply IH. intros it Hit. apply Hn. by right.
Qed.

Lemma sorted_NoDup l : StronglySorted Z.lt l -> NoDup l.
Proof.
  induction 1 as [|x l Hs IH Hall]; constructor; [|done]. rewrite Forall_forall in Hall.
  intros Hin. specialize (Hall x Hin). lia.
Qed.

Lemma omap_positions (ids : list Z) (d : list nat) i x :
  NoDup ids -> ids !! i = Some x -> x ∈ omap (fun j => ids !! j) d <-> i ∈ d.
Proof.
  intros Hnd Hi. rewrite list_elem_of_omap. split.
  - intros (j & Hj & E). by rewrite <- (NoDup_lookup _ _ _ _ Hnd E Hi).
  - intros Hd. by exists i.
Qed.

Lemma Remove_frames t1 t2 d q :
  pending_core q -> none_expires t1 q -> none_expires t2 q ->
  by_priority (frames (Remove t1 t2 d q)) = drop_positions 0 d (by_priority (frames q)).
Proof.
  intros Hc H1 H2. unfold Remove. case_decide as Hd.
  - rewrite prune_none by done. subst d. generalize 0%nat.
    induction (by_priority _) as [|x l IH]; intros n; [done|]. cbn [drop_positions].
    rewrite decide_False by apply not_elem_of_nil. by f_equal.
  - cbn [FrameIDs]. set (q1 := prune t1 q). assert (E1 : frames q1 = frames q) by by apply prune_none.
    pose proof (shrinks_caps _ _ (prune_shrinks t1 q)) as (_ & _ & _ & _ & C5 & _). fold q1 in C5.
    set (ids := map pf_id (by_priority (frames q1))).
    set (q2 := set_queue _ _ _ _ _).
    assert (E2 : frames (prune t2 q2) = frames q2).
    { apply prune_none. unfold none_expires, pending_expired in *. simpl. rewrite C5, E1.
      destruct H2 as [H2|H2]; [by left|right]. intros it [_ Hit]%list_elem_of_filter. by apply H2. }
    rewrite E2. subst q2. simpl. unfold by_priority at 1. rewrite <- stable_sort_filter.
    fold (by_priority (frames q1)). rewrite E1. apply filter_positions. intros i x Hi. simpl.
    rewrite (omap_positions _ d i (pf_id x)); [done| |].
    + subst ids. unfold by_priority. rewrite E1.
      apply (NoDup_Permutation_proper _ (map pf_id (frames q))); [by rewrite stable_sort_perm|].
      apply sorted_NoDup, Hc.
    + subst ids. rewrite list_lookup_fmap, E1, Hi. done.
Qed.

(** Replay offers every waiting frame once, the urgent classes first, each class
    in order of arrival; and, while nothing expires, removing the positions that were
    delivered leaves exactly the frames at the other positions, still in that order. *)
Theorem replay_order_and_removal (t0 t1 t2 : Time) (d : list nat) (q0 : lanPendingQueue) :
  pending_core q0 ->
  let '(offered, q) := Frames t0 q0 in
  none_expires t1 q -> none_expires t2 q ->
  offered ≡ₚ map pf_frame (frames q) /\
  Sorted (fun a b => lanFramePriority a <= lanFramePriority b) offered /\
  (forall class, filter (fun f => lanFramePriority f = class) offered =
                 filter (fun f => lanFramePriority f = class) (map pf_frame (frames q))) /\
  fst (Frames t2 (Remove t1 t2 d q)) = drop_positions 0 d offered.
Proof.
  intros Hc. cbn [Frames]. set (q := prune t0 q0). intros H1 H2.
  assert (Hcq : pending_core q) by (eapply shrinks_core; [apply prune_shrinks|done]).
  split_and!.
  - apply Permutation_map, stable_sort_perm.
  - pose proof (stable_sort_sorted (fun it => lanFramePriority (pf_frame it)) (frames q)) as Hs.
    unfold by_priority. induction Hs as [|x l Hs IH Hhd]; simpl; constructor; [done|]. destruct Hhd; by constructor.
  - intros class. unfold by_priority.
    assert (Hf : forall l, filter (fun f => lanFramePriority f = class) (map pf_frame l) =
                           map pf_frame (filter (fun it => lanFramePriority (pf_frame it) = class) l)).
    { induction l as [|x l IH]; [done|]. cbn [map]. rewrite !filter_cons, IH. by case_decide. }
    rewrite !Hf. f_equal. apply stable_sort_class.
  - cbn [Frames fst]. rewrite <- drop_positions_fmap, <- (Remove_frames t1 t2 d q) by done.
    pose proof (Remove_shrinks t1 t2 d q) as Hs.
    rewrite prune_none; [done|]. destruct (shrinks_caps _ _ Hs) as (_ & _ & _ & _ & C5 & _).
    unfold none_expires, pending_expired. rewrite C5. destruct H2 as [|H2]; [by left|right].
    intros it Hit. apply H2. by apply (elem_of_sublist _ _ _ Hit), Hs.
Qed.

(* ------------------------------------------------------------------ *)
(** ** Examples *)

Definition toy_udp (port : Z) (n : nat) : RoutedFrame :=
  mkRoutedFrame 1 "a" "b" x01 (replicate n x00)
    (mkIPv4Header 20 100 IPv4ProtocolUDP [x0a; x00; x00; x01] [x0a; x00; x00; x02] 5000 port false 80).

(** The first frame is six seconds old when the batch is removed, the others one. *)
Definition toy_pending : lanPendingQueue :=
  Add (5 * second) [toy_udp 53 20; toy_udp 80 20] (Add 0 [toy_udp 9 20] (newLANPendingQueue 128 (1024 * 1024) lanPendingTTL)).

(** A frame that expires between the replay and the removal shifts the positions:
    here frames 0 and 1 were delivered and frame 2 was not, but the removal drops frame
    2, which is lost, and keeps frame 0's successor, which is sent a second time. *)
Theorem remove_after_expiry_drops_wrong_frame :
  let '(offered, q) := Frames (5 * second) toy_pending in
  offered = [toy_udp 9 20; toy_udp 53 20; toy_udp 80 20] /\
  map pf_frame (frames (Remove (6 * second) (6 * second) [0%nat; 1%nat] q)) = [] /\
  map pf_frame (frames (Remove (6 * second) (6 * second) [1%nat] q)) = [toy_udp 53 20] /\
  drop_positions 0 [1%nat] offered = [toy_udp 9 20; toy_udp 80 20].
Proof. vm_compute. split_and!; reflexivity. Qed.

Lemma pending_queue_bounded_witness :
  let ops := [OpAdd 0 [toy_udp 9 20]; OpAdd 1 [toy_udp 53 20; toy_udp 80 20]; OpRead 2; OpRemove 3 3 [0%nat]] in
  total_added ops = 3 /\
  Z.of_nat (length (frames (fold_left run_op ops (newLANPendingQueue 2 30 lanPendingTTL)))) <= 2.
Proof.
  intros ops. split; [reflexivity|].
  destruct (pending_queue_bounded 2 30 lanPendingTTL ops) as (_ & _ & H & _); [lia|vm_compute; reflexivity|exact H].
Defined.


Lemma replay_order_and_removal_witness :
  let q := Add 0 [toy_udp 9 300; toy_udp 53 20] (newLANPendingQueue 128 1000 lanPendingTTL) in
  fst (Frames 2 (Remove 1 2 [0%nat] (snd (Frames 0 q)))) = [toy_udp 9 300].
Proof.
  intros q.
  destruct (add_all_wf 0 [toy_udp 9 300; toy_udp 53 20] (newLANPendingQueue 128 1000 lanPendingTTL)) as ((Hc & _) & _);
    [by apply new_queue_wf|vm_compute; reflexivity|].
  pose proof (replay_order_and_removal 0 1 2 [0%nat] q Hc) as H.
  destruct H as (_ & _ & _ & H); [right; apply Forall_forall; clear; decide_now..|]. exact H.
Defined.
