(* ===== verification/Replay.v ===== *)
(** * Replay: the sending loop of the LAN runtime (cmd/UDPTunnelLAN/packet_runtime.go)

    [sendPackets] batches the frames of the router, files them in the pending queue and
    offers the queue to the peer-to-peer path, then to the UDP relay, then to the HTTP
    relay. It uses the P2P component through the interface [Transport]; what it relies
    on is the record [TransportLaws]; [P2PTransport] proves it of [P2P]. *)

From S2P Require Import Prelude GoStrings Store Router Pending.

(* ------------------------------------------------------------------ *)
(** ** The interface *)

(** The operations of [lanP2P] and of the relay client the loop calls, over their
    state [S]. A boolean is [err == nil]; [None] is an error. *)
Record Transport (S : Type) : Type := mkTransport {
  tr_RecordSessionIntent : Time -> S -> RoutedFrame -> S;
  tr_Send : Time -> S -> RoutedFrame -> bool * S;
  tr_LinkSend : Time -> S -> string -> list byte -> S;
  tr_CanRelay : S -> string -> bool;
  tr_SealRelayFrames : S -> list RoutedFrame -> option (list RoutedFrame) * S;
  tr_SendUDPRelayFrame : S -> RoutedFrame -> bool * S;
  tr_postRelayFrames : S -> string -> list RoutedFrame -> bool * S;
}.
Arguments mkTransport {S} _ _ _ _ _ _ _.
Arguments tr_RecordSessionIntent {S} _ _ _ _.
Arguments tr_Send {S} _ _ _ _.
Arguments tr_LinkSend {S} _ _ _ _ _.
Arguments tr_CanRelay {S} _ _ _.
Arguments tr_SealRelayFrames {S} _ _ _.
Arguments tr_SendUDPRelayFrame {S} _ _ _.
Arguments tr_postRelayFrames {S} _ _ _ _.

(** [accepted s f]: some path has taken [f]; [sealed_of f g]: [g] is [f] sealed for
    the relay. *)
Record TransportLaws {S} (tr : Transport S) (accepted : S -> RoutedFrame -> Prop)
  (sealed_of : RoutedFrame -> RoutedFrame -> Prop) : Prop := {
  (* what was taken stays taken, and a peer that can be relayed to stays so *)
  law_send_keeps : forall t s f g, accepted s g -> accepted (snd (tr_Send tr t s f)) g;
  law_link_keeps : forall t s d p g, accepted s g -> accepted (tr_LinkSend tr t s d p) g;
  law_seal_keeps : forall s fs g, accepted s g -> accepted (snd (tr_SealRelayFrames tr s fs)) g;
  law_udp_keeps : forall s f g, accepted s g -> accepted (snd (tr_SendUDPRelayFrame tr s f)) g;
  law_post_keeps : forall s u fs g, accepted s g -> accepted (snd (tr_postRelayFrames tr s u fs)) g;
  law_send_relay : forall t s f d, tr_CanRelay tr s d = true -> tr_CanRelay tr (snd (tr_Send tr t s f)) d = true;
  law_link_relay : forall t s d' p d, tr_CanRelay tr s d = true -> tr_CanRelay tr (tr_LinkSend tr t s d' p) d = true;
  (* what a path reports taken is taken *)
  law_send : forall t s f, fst (tr_Send tr t s f) = true -> accepted (snd (tr_Send tr t s f)) f;
  law_seal : forall s fs out, Forall (fun f => tr_CanRelay tr s (rf_DstDevice f) = true) fs ->
    fst (tr_SealRelayFrames tr s fs) = Some out -> Forall2 sealed_of fs out;
  law_udp : forall s f g, sealed_of f g -> fst (tr_SendUDPRelayFrame tr s g) = true ->
    accepted (snd (tr_SendUDPRelayFrame tr s g)) f;
  law_post : forall s u fs gs, Forall2 sealed_of fs gs -> fst (tr_postRelayFrames tr s u gs) = true ->
    Forall (accepted (snd (tr_postRelayFrames tr s u gs))) fs;
}.
Arguments law_send_keeps {S tr accepted sealed_of}.
Arguments law_link_keeps {S tr accepted sealed_of}.
Arguments law_seal_keeps {S tr accepted sealed_of}.
Arguments law_udp_keeps {S tr accepted sealed_of}.
Arguments law_post_keeps {S tr accepted sealed_of}.
Arguments law_send_relay {S tr accepted sealed_of}.
Arguments law_link_relay {S tr accepted sealed_of}.
Arguments law_send {S tr accepted sealed_of}.
Arguments law_seal {S tr accepted sealed_of}.
Arguments law_udp {S tr accepted sealed_of}.
Arguments law_post {S tr accepted sealed_of}.

(* ------------------------------------------------------------------ *)
(** ** The loop *)

(** The variables of [sendPackets]; [timer] is the delay of the armed timer. *)
Record sender : Type := mkSender {
  batch : list RoutedFrame; pending : lanPendingQueue; relayBackoffUntil : Time; timer : option Duration;
}.

(** The clock at each reading in one [flush], in the order of the code. *)
Record flush_clock : Type := mkFlushClock {
  fc_add : Time; fc_frames : Time; fc_stats : Time; fc_send : nat -> Time; fc_backoff : Time;
  fc_failed : Time; fc_remove1 : Time; fc_remove2 : Time;
}.

Section Sender.
  Context {S : Type}.
  Variable serverHTTP : string.
  (** [None] is a nil [p2p]. *)
  Variable p2p : option (Transport S).

(** The first loop of [flush]: the positions delivered peer to peer, and the frames
    left for the relay with their positions. *)
Fixpoint send_loop (tr : Transport S) (clock : nat -> Time) (i : nat) (s : S) (fs : list RoutedFrame)
  : list nat * list (nat * RoutedFrame) * S :=
  match fs with
  | [] => ([], [], s)
  | frame :: fs' =>
    let '(ok, s1) := tr_Send tr (clock i) s frame in
    if (ok : bool) then
      let s2 := tr_LinkSend tr (clock i) s1 (rf_DstDevice frame) (rf_Payload frame) in
      let '(delivered, relay, s3) := send_loop tr clock (Datatypes.S i) s2 fs' in (i :: delivered, relay, s3)
    else
      let canRelay := tr_CanRelay tr s1 (rf_DstDevice frame) in
      let '(delivered, relay, s3) := send_loop tr clock (Datatypes.S i) s1 fs' in
      (delivered, if canRelay then (i, frame) :: relay else relay, s3)
  end.

(** The loop over the sealed frames: the positions the UDP relay took. *)
Fixpoint udp_loop (tr : Transport S) (i : nat) (s : S) (fs : list RoutedFrame) : list nat * S :=
  match fs with
  | [] => ([], s)
  | frame :: fs' =>
    let '(ok, s1) := tr_SendUDPRelayFrame tr s frame in
    let '(sent, s2) := udp_loop tr (Datatypes.S i) s1 fs' in
    (if (ok : bool) then i :: sent else sent, s2)
  end.

(** [flush], after the frames were read: what is delivered, the new backoff and the
    transport. *)
Definition offer (tr : Transport S) (c : flush_clock) (backoff : Time) (s : S) (fs : list RoutedFrame)
  : list nat * Time * S :=
  let '(delivered, relay, s) := send_loop tr (fc_send c) 0 s fs in
  if decide (relay = []) then (delivered, backoff, s)
  else if decide (IsZero backoff = false /\ fc_backoff c < backoff) then (delivered, backoff, s)
  else
    let relayIndexes := map fst relay in
    let '(sealed, s) := tr_SealRelayFrames tr s (map snd relay) in
    match sealed with
    | None => (delivered, time_add (fc_failed c) lanRelayBackoff, s)
    | Some relayFrames =>
      if decide (relayFrames = []) then (delivered, backoff, s)
      else
        let '(udpDelivered, s) := udp_loop tr 0 s relayFrames in
        let delivered := delivered ++ omap (fun i => relayIndexes !! i) udpDelivered in
        if decide (length udpDelivered = length relayFrames) then (delivered, backoff, s)
        else if decide (TrimSpace serverHTTP = EmptyString) then (delivered, backoff, s)
        else
          let '(ok, s) := tr_postRelayFrames tr s serverHTTP relayFrames in
          if (ok : bool) then (delivered ++ relayIndexes, backoff, s)
          else (delivered, time_add (fc_failed c) lanRelayBackoff, s)
    end.

(** Filing the batch, the first lines of [flush]. *)
Definition file_batch (c : flush_clock) (x : sender) : lanPendingQueue :=
  if decide (batch x = []) then pending x else Add (fc_add c) (batch x) (pending x).

Definition flush (c : flush_clock) (x : sender) (s : S) : sender * S :=
  let '(fs, q) := Frames (fc_frames c) (file_batch c x) in
  if decide (fs = []) then (mkSender [] q (relayBackoffUntil x) (timer x), s)
  else
    let '(_, q) := pending_Stats (fc_stats c) q in
    let '(delivered, backoff, s') :=
      match p2p with
      | None => ([], relayBackoffUntil x, s)
      | Some tr => offer tr c (relayBackoffUntil x) s fs
      end in
    (mkSender [] (Remove (fc_remove1 c) (fc_remove2 c) delivered q) backoff (timer x), s').

Definition armTimer (d : Duration) (x : sender) : sender :=
  mkSender (batch x) (pending x) (relayBackoffUntil x)
    (Some (if decide (d <= 0) then lanThroughputBatchDelay else d)).
Definition stopTimer (x : sender) : sender := mkSender (batch x) (pending x) (relayBackoffUntil x) None.

(** [pending.Len() > 0]. *)
Definition pending_nonempty (now : Time) (x : sender) : bool * sender :=
  let '(n, q) := Len now (pending x) in
  (bool_decide (0 < n), mkSender (batch x) q (relayBackoffUntil x) (timer x)).

(** A frame received from [outbound]; [now] is the clock at [RecordSessionIntent] and
    [len_now] at the test after the flush, which Go skips when the batch is not empty. *)
Definition on_outbound (now : Time) (c : flush_clock) (len_now : Time) (frame : RoutedFrame) (x : sender) (s : S)
  : sender * S :=
  let s := match p2p with None => s | Some tr => tr_RecordSessionIntent tr now s frame end in
  let x := mkSender (batch x ++ [frame]) (pending x) (relayBackoffUntil x) (timer x) in
  if decide (lanFramePriority frame <= 1 \/ (lanThroughputBatchMax <= length (batch x))%nat) then
    let '(x, s) := flush c (stopTimer x) s in
    if decide (batch x <> []) then (armTimer lanPacketPollInterval x, s)
    else let '(more, x) := pending_nonempty len_now x in
         (if (more : bool) then armTimer lanPacketPollInterval x else x, s)
  else (if decide (length (batch x) = 1%nat) then armTimer lanThroughputBatchDelay x else x, s).

(** The timer fires. *)
Definition on_timer (c : flush_clock) (len_now : Time) (x : sender) (s : S) : sender * S :=
  let '(x, s) := flush c (stopTimer x) s in
  let '(more, x) := pending_nonempty len_now x in
  (if (more : bool) then armTimer lanPacketPollInterval x else x, s).

(** The [select] of the loop: the timer fires only while it is armed. *)
Inductive sendPackets_step : sender * S -> sender * S -> Prop :=
  | step_outbound now c len_now frame x s :
      sendPackets_step (x, s) (on_outbound now c len_now frame x s)
  | step_timer c len_now d x s :
      timer x = Some d -> sendPackets_step (x, s) (on_timer c len_now x s).

Definition sendPackets_init : sender :=
  mkSender [] (newLANPendingQueue lanPendingMaxFrames lanPendingMaxBytes lanPendingTTL) time_zero None.

(* ------------------------------------------------------------------ *)
(** ** Nothing is lost *)

  Context (accepted : S -> RoutedFrame -> Prop) (sealed_of : RoutedFrame -> RoutedFrame -> Prop).

Lemma send_loop_spec tr (L : TransportLaws tr accepted sealed_of) clock fs : forall i s,
  let '(delivered, relay, s') := send_loop tr clock i s fs in
  (forall g, accepted s g -> accepted s' g) /\
  (forall d, tr_CanRelay tr s d = true -> tr_CanRelay tr s' d = true) /\
  (forall j, j ∈ delivered -> exists k f, j = (i + k)%nat /\ fs !! k = Some f /\ accepted s' f) /\
  Forall (fun jf => exists k, jf.1 = (i + k)%nat /\ fs !! k = Some jf.2 /\
                    tr_CanRelay tr s' (rf_DstDevice jf.2) = true) relay.
Proof.
  induction fs as [|frame fs IH]; intros i s; cbn [send_loop].
  { split_and!; [done|done| |done]. intros j Hj. by apply not_elem_of_nil in Hj. }
  pose proof (law_send_keeps L (clock i) s frame) as Kk. pose proof (law_send_relay L (clock i) s frame) as Kr.
  pose proof (law_send L (clock i) s frame) as Ks.
  destruct (tr_Send tr (clock i) s frame) as [ok s1]. simpl in *. destruct ok.
  - set (s2 := tr_LinkSend tr (clock i) s1 _ _). specialize (IH (Datatypes.S i) s2).
    pose proof (law_link_keeps L (clock i) s1 (rf_DstDevice frame) (rf_Payload frame)) as Lk.
    pose proof (law_link_relay L (clock i) s1 (rf_DstDevice frame) (rf_Payload frame)) as Lr. fold s2 in Lk, Lr.
    destruct (send_loop tr clock _ s2 fs) as [[delivered relay] s3]. destruct IH as (I1 & I2 & I3 & I4).
    split_and!; [auto|auto| |].
    + intros j [->|Hj]%elem_of_cons; [exists 0%nat, frame; split_and!; [lia|done|auto]|].
      destruct (I3 j Hj) as (k & f & -> & Hk & Hf). exists (Datatypes.S k), f. split_and!; [lia|done|done].
    + eapply Forall_impl; [exact I4|]. intros [j f] (k & -> & Hk & Hr). exists (Datatypes.S k).
      simpl. split_and!; [lia|done|done].
  - specialize (IH (Datatypes.S i) s1). destruct (tr_CanRelay tr s1 (rf_DstDevice frame)) eqn:Er;
    destruct (send_loop tr clock _ s1 fs) as [[delivered relay] s3]; destruct IH as (I1 & I2 & I3 & I4);
    (split_and!; [auto|auto| |]).
    1,3: intros j Hj; destruct (I3 j Hj) as (k & f & -> & Hk & Hf); exists (Datatypes.S k), f; split_and!; [lia|done|done].
    1: constructor; [exists 0%nat; simpl; split_and!; [lia|done|auto]|].
    all: eapply Forall_impl; [exact I4|]; intros [j f] (k & -> & Hk & Hr); exists (Datatypes.S k);
      simpl; split_and!; [lia|done|done].
Qed.

Lemma udp_loop_spec tr (L : TransportLaws tr accepted sealed_of) : forall gs fs i s,
  Forall2 sealed_of fs gs ->
  let '(sent, s') := udp_loop tr i s gs in
  (forall g, accepted s g -> accepted s' g) /\
  (forall j, j ∈ sent -> exists k f, j = (i + k)%nat /\ fs !! k = Some f /\ accepted s' f).
Proof.
  induction gs as [|g gs IH]; intros fs i s Hf; cbn [udp_loop].
  { split; [done|]. intros j Hj. by apply not_elem_of_nil in Hj. }
  inversion Hf as [|f ? fs' ? Hfg Hfs]; subst.
  pose proof (law_udp_keeps L s g) as Kk. pose proof (law_udp L s f g Hfg) as Ks.
  destruct (tr_SendUDPRelayFrame tr s g) as [ok s1]. simpl in *.
  specialize (IH fs' (Datatypes.S i) s1 Hfs). destruct (udp_loop tr _ s1 gs) as [sent s2]. destruct IH as (I1 & I2).
  split; [auto|]. intros j Hj. assert (j = i /\ ok = true \/ j ∈ sent) as [[-> ->]|Hj'].
  { destruct ok; [apply elem_of_cons in Hj as [->|]; auto|auto]. }
  - exists 0%nat, f. split_and!; [lia|done|auto].
  - destruct (I2 j Hj') as (k & f' & -> & Hk & Hf'). exists (Datatypes.S k), f'. split_and!; [lia|done|done].
Qed.

Definition all_accepted (s : S) (fs : list RoutedFrame) (d : list nat) : Prop :=
  forall j, j ∈ d -> exists f, fs !! j = Some f /\ accepted s f.

Lemma all_accepted_mono s s' fs d :
  (forall g, accepted s g -> accepted s' g) -> all_accepted s fs d -> all_accepted s' fs d.
Proof. intros H Hd j (f & Hj & Hf)%Hd. exists f. auto. Qed.

Lemma all_accepted_app s fs d1 d2 : all_accepted s fs d1 -> all_accepted s fs d2 -> all_accepted s fs (d1 ++ d2).
Proof. intros H1 H2 j [Hj|Hj]%elem_of_app; auto. Qed.

(** The relay entries, read through their positions. *)
Lemma relay_positions s fs relay js :
  Forall (fun jf : nat * RoutedFrame => fs !! jf.1 = Some jf.2) relay ->
  (forall k f, k ∈ js -> map snd relay !! k = Some f -> accepted s f) ->
  (forall k, k ∈ js -> (k < length relay)%nat) ->
  all_accepted s fs (omap (fun k => map fst relay !! k) js).
Proof.
  intros Hr Ha Hlen j (k & Hk & Hj)%list_elem_of_omap.
  destruct (lookup_lt_is_Some_2 relay k (Hlen k Hk)) as [[j' f] E].
  rewrite list_lookup_fmap, E in Hj. simplify_eq/=. exists f.
  rewrite Forall_forall in Hr. split; [by apply (Hr (j, f)), (list_elem_of_lookup_2 _ k)|].
  apply (Ha k f Hk). by rewrite list_lookup_fmap, E.
Qed.

Lemma offer_spec tr (L : TransportLaws tr accepted sealed_of) c backoff s fs :
  let '(delivered, _, s') := offer tr c backoff s fs in all_accepted s' fs delivered.
Proof.
  unfold offer. pose proof (send_loop_spec tr L (fc_send c) fs 0 s) as H.
  destruct (send_loop _ _ _ _ _) as [[delivered relay] s1]. destruct H as (_ & _ & Hd & Hr).
  assert (Hd1 : all_accepted s1 fs delivered).
  { intros j (k & f & -> & Hk & Hf)%Hd. by exists f. }
  case_decide; [done|]. case_decide; [done|].
  assert (Hpos : Forall (fun jf => fs !! jf.1 = Some jf.2) relay).
  { eapply Forall_impl; [exact Hr|]. intros jf (k & -> & Hk & _). done. }
  assert (Hcan : Forall (fun f => tr_CanRelay tr s1 (rf_DstDevice f) = true) (map snd relay)).
  { apply Forall_fmap. eapply Forall_impl; [exact Hr|]. intros jf (k & _ & _ & Hc). done. }
  pose proof (law_seal_keeps L s1 (map snd relay)) as Kk. pose proof (law_seal L s1 (map snd relay)) as Ks.
  destruct (tr_SealRelayFrames tr s1 (map snd relay)) as [[gs|] s2]; cbn [fst snd] in *;
    [|by eapply all_accepted_mono].
  specialize (Ks gs Hcan eq_refl). case_decide; [by eapply all_accepted_mono|].
  pose proof (udp_loop_spec tr L gs (map snd relay) 0 s2 Ks) as Hu.
  destruct (udp_loop tr 0 s2 gs) as [sent s3]. destruct Hu as [Ku Hsent].
  assert (H3 : all_accepted s3 fs (delivered ++ omap (fun i => map fst relay !! i) sent)).
  { apply all_accepted_app; [apply (all_accepted_mono s1); [auto|done]|].
    apply relay_positions; [done| |].
    - intros k f (k' & f' & -> & Hk & Hf)%Hsent E. simpl in *. by simplify_eq.
    - intros k (k' & f' & -> & Hk & _)%Hsent. apply lookup_lt_Some in Hk. by rewrite length_map in Hk. }
  case_decide; [done|]. case_decide; [done|].
  pose proof (law_post_keeps L s3 serverHTTP gs) as Kp. pose proof (law_post L s3 serverHTTP _ _ Ks) as Hp.
  destruct (tr_postRelayFrames tr s3 serverHTTP gs) as [ok s4]. cbn [fst snd] in *.
  destruct ok; [|by apply (all_accepted_mono s3)].
  apply all_accepted_app; [by apply (all_accepted_mono s3)|].
  intros j ([j' f] & -> & Hjf)%list_elem_of_fmap. exists f. rewrite Forall_forall in Hpos.
  split; [by apply (Hpos (j', f))|]. specialize (Hp eq_refl). rewrite Forall_forall in Hp. apply Hp.
  apply list_elem_of_fmap. by exists (j', f).
Qed.

(** No frame of the queue is older than its lifetime before [flush] is done. *)
Definition fresh_during (c : flush_clock) (q : lanPendingQueue) : Prop :=
  Forall (fun t => none_expires t q) [fc_frames c; fc_stats c; fc_remove1 c; fc_remove2 c].

Lemma frames_prune_none t q : none_expires t q -> frames (prune t q) = frames q /\ ttl (prune t q) = ttl q.
Proof. intros H. split; [by apply prune_none|]. unfold prune. by case_decide. Qed.

Lemma none_expires_eq t q q' : frames q' = frames q -> ttl q' = ttl q -> none_expires t q -> none_expires t q'.
Proof. unfold none_expires, pending_expired. by intros -> ->. Qed.

Lemma drop_positions_kept {A} (l : list A) d : forall n j x,
  l !! j = Some x -> (n + j)%nat ∉ d -> x ∈ drop_positions n d l.
Proof.
  induction l as [|y l IH]; intros n j x Hj Hd; [done|]. cbn [drop_positions].
  destruct j as [|j]; simplify_eq/=.
  - rewrite Nat.add_0_r in Hd. rewrite decide_False by done. by left.
  - specialize (IH (Datatypes.S n) j x Hj). replace (n + Datatypes.S j)%nat with (Datatypes.S n + j)%nat in Hd by lia.
    case_decide; [|right]; by apply IH.
Qed.

(** A flush loses no frame, over any transport that keeps the laws. *)
Lemma flush_keeps_frames (tr : Transport S) (L : TransportLaws tr accepted sealed_of)
  (c : flush_clock) (x : sender) (s : S) (it : lanPendingFrame) :
  p2p = Some tr -> pending_core (file_batch c x) -> fresh_during c (file_batch c x) ->
  it ∈ frames (file_batch c x) ->
  let '(x', s') := flush c x s in
  it ∈ frames (pending x') \/ accepted s' (pf_frame it).
Proof.
  intros Hp Hc Hf Hit. unfold flush. set (q0 := file_batch c x) in *. cbn [Frames pending_Stats].
  apply Forall_cons in Hf as [F1 [F2 [F3 [F4 _]%Forall_cons]%Forall_cons]%Forall_cons].
  destruct (frames_prune_none _ _ F1) as [E1 T1]. set (q1 := prune (fc_frames c) q0) in *.
  case_decide as Hnil.
  { simpl. left. by rewrite E1. }
  destruct (frames_prune_none (fc_stats c) q1) as [E2 T2]; [by apply (none_expires_eq _ q0)|].
  set (q2 := prune (fc_stats c) q1) in *. rewrite E1 in E2. rewrite T1 in T2.
  rewrite Hp. set (fs := map pf_frame (by_priority (frames q1))).
  pose proof (offer_spec tr L c (relayBackoffUntil x) s fs) as Ho.
  destruct (offer _ _ _ _ _) as [[delivered backoff] s']. cbn [pending].
  assert (Hc2 : pending_core q2).
  { eapply shrinks_core; [apply prune_shrinks|]. eapply shrinks_core; [apply prune_shrinks|done]. }
  pose proof (Remove_frames (fc_remove1 c) (fc_remove2 c) delivered q2 Hc2) as Hr.
  specialize (Hr (none_expires_eq _ _ _ E2 T2 F3) (none_expires_eq _ _ _ E2 T2 F4)).
  rewrite E2 in Hr. rewrite <- (stable_sort_perm (fun it => lanFramePriority (pf_frame it)) (frames q0)) in Hit.
  fold (by_priority (frames q0)) in Hit. apply list_elem_of_lookup in Hit as [j Hj].
  destruct (decide (j ∈ delivered)) as [Hd|Hd].
  - right. destruct (Ho j Hd) as (f & Hjf & Hacc). subst fs. rewrite E1, list_lookup_fmap, Hj in Hjf. by simplify_eq/=.
  - left. rewrite <- (stable_sort_perm (fun it => lanFramePriority (pf_frame it))). fold (by_priority (frames (Remove (fc_remove1 c) (fc_remove2 c) delivered q2))).
    rewrite Hr. by apply (drop_positions_kept _ _ 0 j).
Qed.

End Sender.

(* ------------------------------------------------------------------ *)
(** ** The timer *)

Section Timer.
  Context {S : Type}.
  Variable serverHTTP : string.
  Variable p2p : option (Transport S).

Definition stall_free (x : sender) : Prop :=
  (batch x <> [] \/ frames (pending x) <> [] -> timer x <> None) /\ (length (batch x) < lanThroughputBatchMax)%nat.

Lemma flush_batch c x s : batch (flush serverHTTP p2p c x s).1 = [].
Proof. unfold flush. cbn [Frames pending_Stats]. case_decide; [done|]. by repeat case_match. Qed.

Lemma pending_nonempty_spec now x :
  let '(more, x') := pending_nonempty now x in
  batch x' = batch x /\ (more = false -> frames (pending x') = []).
Proof.
  unfold pending_nonempty. cbn [Len]. split; [done|]. intros H%bool_decide_eq_false. simpl.
  destruct (frames (prune now (pending x))); [done|]. simpl in H. lia.
Qed.

Lemma after_flush_stall_free now x :
  batch x = [] ->
  let '(more, x') := pending_nonempty now x in stall_free (if (more : bool) then armTimer lanPacketPollInterval x' else x').
Proof.
  intros Hb. pose proof (pending_nonempty_spec now x) as H. destruct (pending_nonempty now x) as [more x'].
  destruct H as [H1 H2]. rewrite Hb in H1. unfold stall_free, lanThroughputBatchMax. destruct more; simpl; rewrite H1; simpl; [split; [done|lia]|].
  rewrite H2 by done. split; [tauto|lia].
Qed.

(** C11. The loop never stalls: whatever arrives and however the paths behave, while a
    frame is batched or waiting the timer that triggers the next flush is armed, and a
    batch stays below its bound. *)
Theorem sendPackets_never_stalls (s0 : S) (st : sender * S) :
  rtc (sendPackets_step serverHTTP p2p) (sendPackets_init, s0) st -> stall_free (fst st).
Proof.
  assert (H0 : stall_free (fst (sendPackets_init, s0))).
  { split; simpl; [tauto|unfold lanThroughputBatchMax; lia]. }
  revert H0. generalize (sendPackets_init, s0). intros st0 H0 Hr. revert H0.
  induction Hr as [st0|st0 st1 st Hs Hr IH]; [done|]. intros H0. apply IH. clear IH Hr st.
  destruct Hs as [now c len_now frame x s|c len_now d x s Ht]; simpl in *.
  - unfold on_outbound. cbv zeta.
    generalize (match p2p with None => s | Some tr => tr_RecordSessionIntent tr now s frame end). intros s1.
    set (x1 := mkSender (batch x ++ [frame]) (pending x) (relayBackoffUntil x) (timer x)).
    case_decide as Hflush.
    + pose proof (flush_batch c (stopTimer x1) s1) as Hb. destruct (flush serverHTTP p2p c (stopTimer x1) s1) as [x2 s2].
      simpl in Hb. rewrite decide_False by tauto. pose proof (after_flush_stall_free len_now x2 Hb) as H.
      by destruct (pending_nonempty len_now x2).
    + apply Decidable.not_or in Hflush as [_ Hlen]. simpl in Hlen. unfold stall_free.
      assert (batch x = [] \/ timer x <> None) as Ht.
      { destruct H0 as [H0 _]. destruct (batch x); [by left|right]. apply H0. by left. }
      rewrite length_app in Hlen. simpl in Hlen.
      case_decide as H1; simpl in *; rewrite length_app in *; simpl in *; (split; [|lia]); [done|].
      intros _. destruct Ht as [Ht|Ht]; [rewrite Ht in H1; simpl in H1; lia|done].
  - unfold on_timer. pose proof (flush_batch c (stopTimer x) s) as Hb. destruct (flush serverHTTP p2p c (stopTimer x) s) as [x2 s2].
    simpl in Hb. pose proof (after_flush_stall_free len_now x2 Hb) as H. by destruct (pending_nonempty len_now x2).
Qed.

End Timer.

(* ------------------------------------------------------------------ *)
(** ** Examples *)

(** A transport that logs what it takes: UDP port 53 goes peer to peer, small frames
    through the UDP relay, the rest through HTTP. *)
Definition toy_transport : Transport (list RoutedFrame) :=
  mkTransport (fun _ s _ => s)
    (fun _ s f => if decide (DestPort (rf_Header f) = 53) then (true, f :: s) else (false, s))
    (fun _ s _ _ => s)
    (fun _ _ => true)
    (fun s fs => (Some fs, s))
    (fun s f => if decide (length (rf_Payload f) < 100)%nat then (true, f :: s) else (false, s))
    (fun s _ fs => (true, fs ++ s)).

Definition toy_sender : sender :=
  mkSender [toy_udp 53 20; toy_udp 9 20; toy_udp 9 300]
    (newLANPendingQueue lanPendingMaxFrames lanPendingMaxBytes lanPendingTTL) time_zero None.
Definition toy_clock : flush_clock := mkFlushClock 1 1 1 (fun _ => 1) 1 1 1 1.

Lemma sendPackets_never_stalls_witness :
  let '(x, s) := on_outbound "" (Some toy_transport) 1 toy_clock 1 (toy_udp 9 300) sendPackets_init [] in
  stall_free x /\ timer x = Some lanThroughputBatchDelay.
Proof.
  split; [|vm_compute; reflexivity].
  apply (sendPackets_never_stalls "" (Some toy_transport) []
           (on_outbound "" (Some toy_transport) 1 toy_clock 1 (toy_udp 9 300) sendPackets_init [])).
  eapply rtc_l; [apply step_outbound|apply rtc_refl].
Defined.
