(* ===== verification/Paths.v ===== *)
(** * Paths: session intents and learned paths (cmd/UDPTunnelLAN/packet_runtime.go)

    The path policy of a network, the short-lived record of TCP sessions a device
    opens, and the hot paths: the public addresses that worked for a peer and port,
    kept for twenty minutes, reported to the server and loaded again. Each map is a
    [gmap] under its mutex; a function takes the map and the clock and returns the map.
    Go walks a map in no fixed order: here it is the order of [map_to_list], and only
    the choice between equally old intents depends on it. *)

From S2P Require Import Prelude GoStrings Store Router Pending.

Definition lanSessionIntentTTL : Duration := 30 * second.
Definition lanSessionIntentMax : nat := 256.
Definition lanHotPathTTL : Duration := 20 * minute.
Definition lanHotPathKeepAliveMin : Duration := 30 * second.
Definition lanHotPathKeepAliveMid : Duration := 60 * second.
Definition lanHotPathKeepAliveMax : Duration := 2 * minute.

(* ------------------------------------------------------------------ *)
(** ** Path policy *)

Record lanPathPolicyConfig : Type := mkPathPolicy {
  pp_Name : string; PreferRelay : bool; RelayOnly : bool; RelayEnabled : bool; RelayConfigured : bool;
}.

Definition lanPathPolicy (network : VirtualNetwork) : string :=
  if decide (TrimSpace (vn_PathPolicy network) ∈ ["auto"; "prefer_relay"; "relay_only"]%string)
  then TrimSpace (vn_PathPolicy network) else "prefer_p2p".

Definition newLANPathPolicy (network : VirtualNetwork) : lanPathPolicyConfig :=
  let name := lanPathPolicy network in
  mkPathPolicy name (bool_decide (name = "prefer_relay"%string \/ name = "relay_only"%string))
    (bool_decide (name = "relay_only"%string)) true true.

Definition relayAvailable (p : lanPathPolicyConfig) : bool := negb (RelayConfigured p) || RelayEnabled p.

(* ------------------------------------------------------------------ *)
(** ** Session intents *)

Record lanSessionIntent : Type := mkIntent {
  si_Key : string; si_PeerID : string; si_Protocol : string; si_SrcIP : string; si_DstIP : string;
  si_SrcPort : Z; si_DstPort : Z; si_TrafficClass : string; si_FirstSeen : Time; si_LastSeen : Time;
  si_Packets : Z;
}.

Definition newLANSessionIntent (frame : RoutedFrame) (now : Time) : option lanSessionIntent :=
  let h := rf_Header frame in
  if decide (Protocol h <> IPv4ProtocolTCP \/ TCPSYN h = false \/ TrimSpace (rf_DstDevice frame) = EmptyString)
  then None
  else
    let key := lanFrameSessionKey frame in
    if decide (key = EmptyString) then None
    else Some (mkIntent key (rf_DstDevice frame) "tcp" (IPv4_String (SourceIP h)) (IPv4_String (DestIP h))
                 (SourcePort h) (DestPort h) (classifyLANFrame frame) now now 1).

Notation intents := (gmap string lanSessionIntent).

(** The inner loop of [pruneSessionIntentsLocked]; [oldestKey == ""] starts it. *)
Definition older (best : string * Time) (e : string * lanSessionIntent) : string * Time :=
  if decide (best.1 = EmptyString \/ si_LastSeen e.2 < best.2) then (e.1, si_LastSeen e.2) else best.
Definition oldest_intent (m : intents) : string := (fold_left older (map_to_list m) (EmptyString, time_zero)).1.

Fixpoint drop_oldest (fuel : nat) (m : intents) : intents :=
  match fuel with
  | O => m
  | S fuel' => if decide (lanSessionIntentMax < size m)%nat then drop_oldest fuel' (delete (oldest_intent m) m) else m
  end.

Definition intent_live (now : Time) (i : lanSessionIntent) : Prop := ~ (lanSessionIntentTTL < time_sub now (si_LastSeen i)).
#[export] Instance intent_live_dec now i : Decision (intent_live now i).
Proof. unfold intent_live. apply _. Defined.

Definition pruneSessionIntentsLocked (now : Time) (m : intents) : intents :=
  let m := filter (fun e => intent_live now e.2) m in drop_oldest (size m) m.

(** The part of [RecordSessionIntent] under [sessionMu]. *)
Definition record_intent (now : Time) (intent : lanSessionIntent) (m : intents) : intents :=
  let m := pruneSessionIntentsLocked now m in
  match m !! si_Key intent with
  | None => <[si_Key intent := intent]> m
  | Some e =>
    <[si_Key intent := mkIntent (si_Key e) (si_PeerID e) (si_Protocol e) (si_SrcIP e) (si_DstIP e) (si_SrcPort e)
                         (si_DstPort e) (si_TrafficClass intent) (si_FirstSeen e) now (si_Packets e + 1)]> m
  end.

Definition sessionIntent (now : Time) (peerID : string) (srcPort dstPort : Z) (m : intents)
  : option lanSessionIntent * intents :=
  let m := pruneSessionIntentsLocked now m in
  (List.find (fun i => bool_decide (si_PeerID i = peerID /\ si_SrcPort i = srcPort /\ si_DstPort i = dstPort))
     (map snd (map_to_list m)), m).

Definition activeSessionIntentsForPeer (now : Time) (peerID : string) (m : intents) : list lanSessionIntent * intents :=
  let m := pruneSessionIntentsLocked now m in
  (filter (fun i => si_PeerID i = peerID) (map snd (map_to_list m)), m).

Definition sessionIntentCount (now : Time) (m : intents) : nat * intents :=
  let m := pruneSessionIntentsLocked now m in (size m, m).

(* ------------------------------------------------------------------ *)
(** ** Hot paths *)

Record lanHotPath : Type := mkHotPath {
  hp_Key : string; hp_PeerID : string; hp_DstPort : Z; hp_PublicAddr : string; hp_Path : string;
  hp_TrafficClass : string; hp_Successes : Z; hp_Failures : Z; hp_LastSuccess : Time; hp_LastUsed : Time;
  hp_NextKeepAliveAt : Time; hp_LastFailure : string;
}.

Notation hotpaths := (gmap string lanHotPath).

Definition hotPathKey (peerID : string) (dstPort : Z) : string :=
  if decide (TrimSpace peerID = EmptyString \/ dstPort <= 0) then EmptyString
  else String.append peerID (String.append NUL (FormatInt dstPort)).

Definition hot_live (now : Time) (h : lanHotPath) : Prop :=
  ~ (lanHotPathTTL < time_sub now (hp_LastUsed h) \/ lanHotPathTTL < time_sub now (hp_LastSuccess h)).
#[export] Instance hot_live_dec now h : Decision (hot_live now h).
Proof. unfold hot_live. apply _. Defined.

Definition pruneHotPathsLocked (now : Time) (m : hotpaths) : hotpaths := filter (fun e => hot_live now e.2) m.

Definition hotPathKeepAliveEvery (idle : Duration) : Duration :=
  if decide (idle < 2 * minute) then lanHotPathKeepAliveMin
  else if decide (idle < 10 * minute) then lanHotPathKeepAliveMid
  else lanHotPathKeepAliveMax.

Definition use_hot (now : Time) (h : lanHotPath) : lanHotPath :=
  mkHotPath (hp_Key h) (hp_PeerID h) (hp_DstPort h) (hp_PublicAddr h) (hp_Path h) (hp_TrafficClass h) (hp_Successes h)
    (hp_Failures h) (hp_LastSuccess h) now (hp_NextKeepAliveAt h) (hp_LastFailure h).

Definition hotPath (now : Time) (peerID : string) (dstPort : Z) (m : hotpaths) : option lanHotPath * hotpaths :=
  let m := pruneHotPathsLocked now m in
  let key := hotPathKey peerID dstPort in
  match m !! key with
  | None => (None, m)
  | Some hot => (Some (use_hot now hot), <[key := use_hot now hot]> m)
  end.

(** One intent of the loop of [rememberHotPath]; [addr] is [peer.addr.String()]. *)
Definition remember_one (now : Time) (peerID addr path : string) (m : hotpaths) (intent : lanSessionIntent) : hotpaths :=
  if negb (isLANHotPathPort (si_DstPort intent)) then m
  else
    let key := hotPathKey peerID (si_DstPort intent) in
    let hot := default (mkHotPath key peerID (si_DstPort intent) EmptyString EmptyString EmptyString 0 0
                          time_zero time_zero time_zero EmptyString) (m !! key) in
    let successes := if decide (minute < time_sub now (hp_LastSuccess hot) \/ hp_Successes hot = 0)
                     then hp_Successes hot + 1 else hp_Successes hot in
    <[key := mkHotPath (hp_Key hot) (hp_PeerID hot) (hp_DstPort hot) addr path (si_TrafficClass intent) successes
               (hp_Failures hot) now now (time_add now (hotPathKeepAliveEvery (time_sub now now))) EmptyString]> m.

(** [rememberHotPath] after its guards on the peer: [intents] are the active intents
    of the peer. *)
Definition remember_hot_paths (now : Time) (peerID addr path : string) (active : list lanSessionIntent) (m : hotpaths)
  : hotpaths :=
  if decide (active = []) then m
  else fold_left (remember_one now peerID addr path) active (pruneHotPathsLocked now m).

Definition fail_hot (reason : string) (h : lanHotPath) : lanHotPath :=
  mkHotPath (hp_Key h) (hp_PeerID h) (hp_DstPort h) (hp_PublicAddr h) (hp_Path h) (hp_TrafficClass h) (hp_Successes h)
    (hp_Failures h + 1) (hp_LastSuccess h) (hp_LastUsed h) (hp_NextKeepAliveAt h) reason.

Definition markHotPathFailure (peerID : string) (dstPort : Z) (reason : string) (m : hotpaths) : hotpaths :=
  let key := hotPathKey peerID dstPort in
  match m !! key with
  | None => m
  | Some hot =>
    let hot := fail_hot reason hot in
    let m := <[key := hot]> m in
    if decide (2 <= hp_Failures hot) then delete (hp_Key hot) m else m
  end.

Definition markHotPathsForPeerFailed (peerID reason : string) (m : hotpaths) : hotpaths :=
  omap (fun h => if decide (hp_PeerID h <> peerID) then Some h
                 else if decide (2 <= hp_Failures (fail_hot reason h)) then None else Some (fail_hot reason h)) m.

Definition hotPathCount (now : Time) (m : hotpaths) : nat * hotpaths :=
  let m := pruneHotPathsLocked now m in (size m, m).

(** The entries of a peer whose keep-alive is due, and the map with the next one set:
    the locked part of [sendDueHotPathKeepAlive]. *)
Definition keepalive_is_due (now : Time) (peerID : string) (h : lanHotPath) : Prop :=
  hp_PeerID h = peerID /\ IsZero (hp_NextKeepAliveAt h) = false /\ hp_NextKeepAliveAt h <= now.
#[export] Instance keepalive_is_due_dec now peerID h : Decision (keepalive_is_due now peerID h).
Proof. unfold keepalive_is_due. apply _. Defined.

Definition schedule_hot (now : Time) (h : lanHotPath) : lanHotPath :=
  mkHotPath (hp_Key h) (hp_PeerID h) (hp_DstPort h) (hp_PublicAddr h) (hp_Path h) (hp_TrafficClass h) (hp_Successes h)
    (hp_Failures h) (hp_LastSuccess h) (hp_LastUsed h)
    (time_add now (hotPathKeepAliveEvery (time_sub now (hp_LastUsed h)))) (hp_LastFailure h).

Definition due_keepalives (now : Time) (peerID : string) (m : hotpaths) : list Z * hotpaths :=
  let m := pruneHotPathsLocked now m in
  (map (fun e => hp_DstPort e.2) (filter (fun e => keepalive_is_due now peerID e.2) (map_to_list m)),
   (fun h => if decide (keepalive_is_due now peerID h) then schedule_hot now h else h) <$> m).

(* ------------------------------------------------------------------ *)
(** ** Learned paths *)

Definition learnedPathQuality (successes failures : Z) (lastFailure : string) : string :=
  if decide (3 <= successes /\ failures = 0) then "good"
  else if decide (failures < successes) then "ok"
  else if decide (lastFailure <> EmptyString) then "degraded"
  else "unknown".

Section Learned.
  Context `{GT : GoTime}.

Definition parseLANTimeOr (value : string) (fallback : Time) : Time := default fallback (ParseRFC3339 (TrimSpace value)).
Definition formatLANTime (t : Time) : string := if IsZero t then EmptyString else RFC3339 t.

(** One path of the loop of [LoadLearnedPaths]. *)
Definition load_one (now : Time) (m : hotpaths) (path : VirtualLearnedPath) : hotpaths :=
  if decide (lp_DstPort path <= 0 \/ TrimSpace (lp_PeerID path) = EmptyString \/
             TrimSpace (lp_PublicAddr path) = EmptyString \/ lp_PreheatEnabled path = false) then m
  else
    let key := hotPathKey (lp_PeerID path) (lp_DstPort path) in
    <[key := mkHotPath key (lp_PeerID path) (lp_DstPort path) (lp_PublicAddr path) (lp_Path path) (lp_Quality path)
               (lp_SuccessCount path) (lp_FailureCount path) (parseLANTimeOr (lp_LastSuccessAt path) now) now
               (time_add now lanHotPathKeepAliveMin) (lp_LastFailure path)]> m.

Definition LoadLearnedPaths (now : Time) (paths : list VirtualLearnedPath) (m : hotpaths) : hotpaths :=
  fold_left (load_one now) paths m.

Definition snapshot_one (now : Time) (deviceID : string) (networkID : Z) (h : lanHotPath) : option VirtualLearnedPath :=
  if decide (hp_Successes h < 2 /\ hp_Failures h = 0) then None
  else Some (mkVirtualLearnedPath deviceID (hp_PeerID h) networkID (hp_DstPort h) "tcp" (hp_Path h) (hp_PublicAddr h)
               (hp_Successes h) (hp_Failures h) (formatLANTime (hp_LastSuccess h)) EmptyString (hp_LastFailure h)
               (learnedPathQuality (hp_Successes h) (hp_Failures h) (hp_LastFailure h)) true (formatLANTime now)).

Definition LearnedPathsSnapshot (now : Time) (deviceID : string) (networkID : Z) (m : hotpaths)
  : list VirtualLearnedPath * hotpaths :=
  let m := pruneHotPathsLocked now m in
  (omap (snapshot_one now deviceID networkID) (map snd (map_to_list m)), m).

End Learned.

(* ------------------------------------------------------------------ *)
(** ** Intents are bounded *)

(** The walk ends on an entry of the map, no younger than any other. *)
Lemma oldest_fold l : forall best,
  Forall (fun e => e.1 <> EmptyString) l ->
  let r := fold_left older l best in
  ((best.1 <> EmptyString /\ r = best) \/ (exists e, e ∈ l /\ r = (e.1, si_LastSeen e.2)) \/ (l = [] /\ r = best)) /\
  (best.1 <> EmptyString -> r.2 <= best.2) /\
  (forall e, e ∈ l -> r.2 <= si_LastSeen e.2).
Proof.
  induction l as [|e l IH]; intros best Hne; cbn [fold_left].
  { split_and!; [by right; right|done|]. intros e He. by apply not_elem_of_nil in He. }
  apply Forall_cons in Hne as [He Hne]. destruct (IH (older best e) Hne) as (H1 & H2 & H3). cbv zeta in *.
  set (r := fold_left older l (older best e)) in *. clearbody r. unfold older in H1, H2, H3. case_decide as Hd; simpl in *.
  - specialize (H2 He). split_and!.
    + right. left. destruct H1 as [[_ H1]|[(e' & He' & H1)|[-> H1]]].
      * exists e. split; [left|done]. * exists e'. split; [by right|done]. * exists e. split; [left|done].
    + intros Hb. destruct Hd; [done|]. lia.
    + intros e' [->|He']%elem_of_cons; [done|auto].
  - apply Decidable.not_or in Hd as [Hb Hlt]. specialize (H2 Hb). split_and!.
    + destruct H1 as [[_ H1]|[(e' & He' & H1)|[-> H1]]]; [by left| |by left].
      right. left. exists e'. split; [by right|done].
    + done.
    + intros e' [->|He']%elem_of_cons; [lia|auto].
Qed.

Definition named (m : intents) : Prop := m !! EmptyString = None.

Lemma oldest_intent_spec m :
  named m -> m <> ∅ ->
  exists i, m !! oldest_intent m = Some i /\ forall k j, m !! k = Some j -> si_LastSeen i <= si_LastSeen j.
Proof.
  intros Hn Hm. unfold oldest_intent.
  assert (Hne : Forall (fun e : string * lanSessionIntent => e.1 <> EmptyString) (map_to_list m)).
  { apply Forall_forall. intros [k i] Hk%elem_of_map_to_list. simpl. intros ->. unfold named in Hn. change (m !! EmptyString = Some i) in Hk. by rewrite Hn in Hk. }
  destruct (oldest_fold _ (EmptyString, time_zero) Hne) as (H1 & _ & H3). cbv zeta in *.
  set (r := fold_left _ _ _) in *.
  destruct H1 as [[H1 _]|[([k i] & He & Hr)|[H1 _]]]; [done| |by apply map_to_list_empty_iff in H1].
  rewrite Hr in H3. rewrite Hr. simpl in *. exists i. split; [by apply elem_of_map_to_list|].
  intros k' j Hj%elem_of_map_to_list. by apply (H3 (k', j)).
Qed.

(** Dropping stops at the bound, keeps the youngest and changes no entry. *)
Lemma drop_oldest_spec fuel : forall m, named m -> (size m <= fuel)%nat ->
  let m' := drop_oldest fuel m in
  (size m' <= lanSessionIntentMax)%nat /\ m' ⊆ m /\
  (forall k i k' j, m !! k = Some i -> m' !! k = None -> m' !! k' = Some j -> si_LastSeen i <= si_LastSeen j).
Proof.
  induction fuel as [|fuel IH]; intros m Hn Hs; cbn [drop_oldest].
  - split_and!; [lia|done|]. intros. congruence.
  - case_decide as Hd; [|split_and!; [lia|done|intros; congruence]].
    assert (Hm : m <> ∅) by (intros ->; rewrite map_size_empty in Hd; lia).
    destruct (oldest_intent_spec m Hn Hm) as (i0 & Hi0 & Hold).
    destruct (IH (delete (oldest_intent m) m)) as (I1 & I2 & I3).
    + unfold named. apply lookup_delete_None. by right.
    + rewrite map_size_delete, Hi0. lia.
    + split_and!; [done|etrans; [done|apply delete_subseteq]|].
      intros k i k' j Hk Hk' Hj. destruct (decide (k = oldest_intent m)) as [->|Hne].
      * rewrite Hi0 in Hk. injection Hk as <-. apply (Hold k'). eapply lookup_weaken; [exact Hj|].
        etrans; [exact I2|apply delete_subseteq].
      * apply (I3 k i k' j); [by rewrite lookup_delete_ne|done|done].
Qed.

Lemma pruneSessionIntentsLocked_spec now m : named m ->
  let m' := pruneSessionIntentsLocked now m in
  (size m' <= lanSessionIntentMax)%nat /\ m' ⊆ m /\ map_Forall (fun _ i => intent_live now i) m' /\
  (forall k i k' j, m !! k = Some i -> m' !! k = None -> intent_live now i -> m' !! k' = Some j ->
     si_LastSeen i <= si_LastSeen j).
Proof.
  intros Hn. unfold pruneSessionIntentsLocked. set (f := filter _ m).
  assert (Hnf : named f) by (apply map_lookup_filter_None; by left).
  destruct (drop_oldest_spec (size f) f Hnf ltac:(lia)) as (H1 & H2 & H3). cbv zeta.
  assert (Hsub : f ⊆ m) by apply map_filter_subseteq.
  split_and!; [done|by etrans| |].
  - intros k i Hk. eapply lookup_weaken in Hk; [|exact H2]. by apply map_lookup_filter_Some in Hk as [_ ?].
  - intros k i k' j Hk Hk' Hl Hj. apply (H3 k i k' j); [by apply map_lookup_filter_Some|done|done].
Qed.

(** Recording a session keeps the record small and current: at most the bound of
    256 and the new one, none older than 30 seconds, the new one present with the time
    of its frame, every other one as it was; and one that was dropped while current is
    no younger than any that was kept. *)
Theorem record_intent_bounded (now : Time) (frame : RoutedFrame) (intent : lanSessionIntent) (m : intents) :
  named m -> newLANSessionIntent frame now = Some intent ->
  let m' := record_intent now intent m in
  named m' /\ (size m' <= lanSessionIntentMax + 1)%nat /\ map_Forall (fun _ i => intent_live now i) m' /\
  (exists i, m' !! lanFrameSessionKey frame = Some i /\ si_LastSeen i = now) /\
  (forall k i, k <> lanFrameSessionKey frame -> m' !! k = Some i -> m !! k = Some i) /\
  (forall k i k' j, m !! k = Some i -> m' !! k = None -> intent_live now i ->
     m' !! k' = Some j -> k' <> lanFrameSessionKey frame -> si_LastSeen i <= si_LastSeen j).
Proof.
  intros Hn Hi. destruct (pruneSessionIntentsLocked_spec now m Hn) as (H1 & H2 & H3 & H4). cbv zeta in *.
  unfold newLANSessionIntent in Hi. case_decide; [done|]. case_decide as Hkey; [done|]. injection Hi as <-.
  unfold record_intent. cbn [si_Key]. set (key := lanFrameSessionKey frame) in *. set (p := pruneSessionIntentsLocked now m) in *.
  assert (Hlive : forall i, si_LastSeen i = now -> intent_live now i).
  { intros i Ei. unfold intent_live. rewrite Ei, time_sub_refl. unfold lanSessionIntentTTL, second, millisecond. lia. }
  assert (Hins : forall i, si_LastSeen i = now ->
    named (<[key := i]> p) /\ (size (<[key := i]> p) <= lanSessionIntentMax + 1)%nat /\
    map_Forall (fun _ i => intent_live now i) (<[key := i]> p) /\
    (exists i', <[key := i]> p !! key = Some i' /\ si_LastSeen i' = now) /\
    (forall k j, k <> key -> <[key := i]> p !! k = Some j -> m !! k = Some j) /\
    (forall k i0 k' j, m !! k = Some i0 -> <[key := i]> p !! k = None -> intent_live now i0 ->
      <[key := i]> p !! k' = Some j -> k' <> key -> si_LastSeen i0 <= si_LastSeen j)).
  { intros i Ei. split_and!.
    - unfold named. rewrite lookup_insert_ne by done. destruct (p !! EmptyString) as [x|] eqn:E; [|done].
      eapply lookup_weaken in E; [|exact H2]. unfold named in Hn. congruence.
    - rewrite map_size_insert. destruct (p !! key); unfold id; lia.
    - apply map_Forall_insert_2; [by apply Hlive|done].
    - exists i. by rewrite lookup_insert_eq.
    - intros k j Hne. rewrite lookup_insert_ne by done. intros Hj. by eapply lookup_weaken.
    - intros k i0 k' j Hk Hk' Hl Hj Hne'. apply lookup_insert_None in Hk' as [Hk' _].
      rewrite lookup_insert_ne in Hj by done. by apply (H4 k i0 k' j). }
  destruct (p !! key) as [e|]; by apply Hins.
Qed.

(* ------------------------------------------------------------------ *)
(** ** Hot paths *)

(** A path is filed under the key of its peer and port, and has failed at most once. *)
Record hot_wf (k : string) (h : lanHotPath) : Prop := {
  hw_key : k = hotPathKey (hp_PeerID h) (hp_DstPort h);
  hw_self : hp_Key h = k;
  hw_named : k <> EmptyString;
  hw_failures : 0 <= hp_Failures h < 2;
}.

Lemma hotPathKey_nonempty peerID port : TrimSpace peerID <> EmptyString -> 0 < port -> hotPathKey peerID port <> EmptyString.
Proof. intros Hp Hd. unfold hotPathKey. rewrite decide_False by (intros [?|?]; [done|lia]). by destruct peerID. Qed.

Section HotOps.
  Context `{GT : GoTime}.

Inductive hot_op : Type :=
  | HotLookup (now : Time) (peerID : string) (port : Z)
  | HotRemember (now : Time) (peerID addr path : string) (active : list lanSessionIntent)
  | HotFailure (peerID : string) (port : Z) (reason : string)
  | HotPeerFailed (peerID reason : string)
  | HotPrune (now : Time)
  | HotKeepAlive (now : Time) (peerID : string)
  | HotLoad (now : Time) (paths : list VirtualLearnedPath).

Definition run_hot (m : hotpaths) (op : hot_op) : hotpaths :=
  match op with
  | HotLookup now p d => (hotPath now p d m).2
  | HotRemember now p a path active => remember_hot_paths now p a path active m
  | HotFailure p d r => markHotPathFailure p d r m
  | HotPeerFailed p r => markHotPathsForPeerFailed p r m
  | HotPrune now => pruneHotPathsLocked now m
  | HotKeepAlive now p => (due_keepalives now p m).2
  | HotLoad now paths => LoadLearnedPaths now paths m
  end.

(** Peers have a name, and the server returns what devices report. *)
Definition hot_op_ok (op : hot_op) : Prop :=
  match op with
  | HotRemember _ p _ _ _ => TrimSpace p <> EmptyString
  | HotLoad _ paths => Forall (fun path => 0 <= lp_FailureCount path < 2) paths
  | _ => True
  end.

Lemma prune_hot_wf now (m : hotpaths) : map_Forall hot_wf m -> map_Forall hot_wf (pruneHotPathsLocked now m).
Proof. intros H k h [Hk _]%map_lookup_filter_Some. by apply H. Qed.

Lemma remember_one_wf now p a path m i :
  TrimSpace p <> EmptyString -> map_Forall hot_wf m -> map_Forall hot_wf (remember_one now p a path m i).
Proof.
  intros Hp H. unfold remember_one. destruct (isLANHotPathPort _) eqn:Ep; cbn [negb]; [|done].
  assert (Hd : 0 < si_DstPort i).
  { unfold isLANHotPathPort in Ep. apply bool_decide_eq_true in Ep. set_unfold in Ep. lia. }
  pose proof (hotPathKey_nonempty p _ Hp Hd) as Hk. apply map_Forall_insert_2; [|done].
  destruct (m !! hotPathKey p (si_DstPort i)) as [h|] eqn:E; simpl.
  - destruct (H _ _ E) as [H1 H2 H3 H4]. by split.
  - split; simpl; done || lia.
Qed.

Lemma run_hot_wf m op : hot_op_ok op -> map_Forall hot_wf m -> map_Forall hot_wf (run_hot m op).
Proof.
  intros Hok H. destruct op as [now p d|now p a path active|p d r|p r|now|now p|now paths]; simpl in *.
  - unfold hotPath. pose proof (prune_hot_wf now m H) as Hp. destruct (_ !! _) as [h|] eqn:E; [|done].
    apply map_Forall_insert_2; [|done]. destruct (Hp _ _ E) as [H1 H2 H3 H4]. by split.
  - unfold remember_hot_paths. case_decide; [done|]. apply (prune_hot_wf now) in H. revert H.
    generalize (pruneHotPathsLocked now m). clear -Hok. induction active as [|i active IH]; intros m H; [done|].
    cbn [fold_left]. apply IH. by apply remember_one_wf.
  - unfold markHotPathFailure. destruct (m !! _) as [h|] eqn:E; [|done].
    destruct (H _ _ E) as [H1 H2 H3 H4]. case_decide as Hf; simpl in *.
    + rewrite H2, delete_insert_eq. by apply map_Forall_delete.
    + apply map_Forall_insert_2; [split; simpl; done || lia|done].
  - intros k h Hk. unfold markHotPathsForPeerFailed in Hk. apply lookup_omap_Some in Hk as (h0 & Hh & Hk).
    pose proof (H _ _ Hk) as [H1 H2 H3 H4]. case_decide; [by simplify_eq|]. case_decide as Hf; [done|].
    simplify_eq. split; simpl in *; done || lia.
  - by apply prune_hot_wf.
  - intros k h Hk. unfold due_keepalives in Hk. cbn [snd] in Hk. rewrite lookup_fmap in Hk.
    apply fmap_Some in Hk as (h0 & Hk & ->). apply (prune_hot_wf now _ H) in Hk as [H1 H2 H3 H4].
    by case_decide; split.
  - unfold LoadLearnedPaths. revert m H. induction Hok as [|path paths Hp Hok IH]; intros m H; [done|].
    cbn [fold_left]. apply IH. unfold load_one. case_decide as Hc; [done|].
    apply Decidable.not_or in Hc as [Hc1 Hc]. apply Decidable.not_or in Hc as [Hc2 _].
    apply map_Forall_insert_2; [|done]. split; simpl; [done|done|apply hotPathKey_nonempty; [done|lia]|done].
Qed.

(** In every history of the hot paths each is filed under the key of its peer and
    port and has failed at most once: a success in between does not forgive, the second
    failure forgets the path, so that the next lookup finds none. *)
Theorem hot_paths_forget_at_second_failure (ops : list hot_op) (peerID reason : string) (port : Z) (now : Time) :
  Forall hot_op_ok ops ->
  let m := fold_left run_hot ops ∅ in
  map_Forall hot_wf m /\
  (forall h, m !! hotPathKey peerID port = Some h -> hp_Failures h = 1 ->
   (hotPath now peerID port (markHotPathFailure peerID port reason m)).1 = None).
Proof.
  intros Hok. cbv zeta.
  assert (Hwf : forall m, map_Forall hot_wf m -> map_Forall hot_wf (fold_left run_hot ops m)).
  { induction Hok as [|op ops Hop Hok IH]; intros m H; [done|]. cbn [fold_left]. apply IH. by apply run_hot_wf. }
  specialize (Hwf ∅ (map_Forall_empty _)). split; [done|]. intros h Hh Hf.
  destruct (Hwf _ _ Hh) as [H1 H2 H3 H4]. unfold markHotPathFailure. rewrite Hh. simpl.
  rewrite decide_True by lia. rewrite H2, delete_insert_eq. unfold hotPath.
  assert (E : pruneHotPathsLocked now (delete (hotPathKey peerID port) (fold_left run_hot ops ∅)) !! hotPathKey peerID port = None).
  { apply map_lookup_filter_None. left. apply lookup_delete_eq. }
  by rewrite E.
Qed.

(* ------------------------------------------------------------------ *)
(** ** Learned paths survive a restart *)

Definition path_key (path : VirtualLearnedPath) : string := hotPathKey (lp_PeerID path) (lp_DstPort path).
Definition loadable (path : VirtualLearnedPath) : Prop :=
  ~ (lp_DstPort path <= 0 \/ TrimSpace (lp_PeerID path) = EmptyString \/
     TrimSpace (lp_PublicAddr path) = EmptyString \/ lp_PreheatEnabled path = false).

Lemma load_lookup_other now paths : forall m k, k ∉ map path_key paths -> LoadLearnedPaths now paths m !! k = m !! k.
Proof.
  unfold LoadLearnedPaths. induction paths as [|path paths IH]; intros m k Hk; [done|]. cbn [fold_left map] in *.
  apply not_elem_of_cons in Hk as [Hne Hk]. rewrite IH by done. unfold load_one. case_decide; [done|].
  by apply lookup_insert_ne.
Qed.

Lemma load_lookup now paths : forall m path,
  NoDup (map path_key paths) -> path ∈ paths -> loadable path ->
  LoadLearnedPaths now paths m !! path_key path = load_one now m path !! path_key path.
Proof.
  induction paths as [|p paths IH]; intros m path Hnd Hin Hl; [by apply not_elem_of_nil in Hin|].
  cbn [map] in Hnd. apply NoDup_cons in Hnd as [Hp Hnd].
  change (LoadLearnedPaths now (p :: paths) m) with (LoadLearnedPaths now paths (load_one now m p)).
  apply elem_of_cons in Hin as [->|Hin]; [by apply load_lookup_other|].
  rewrite IH by done. unfold load_one at 1. unfold loadable in Hl. rewrite decide_False by done.
  unfold load_one at 2. rewrite decide_False by done. unfold path_key. by rewrite !lookup_insert_eq.
Qed.

Lemma snapshot_one_key now dev nid h path : snapshot_one now dev nid h = Some path -> path_key path = hotPathKey (hp_PeerID h) (hp_DstPort h).
Proof. unfold snapshot_one. case_decide; [done|]. by intros [= <-]. Qed.

(** Each path is filed under its key. *)
Definition filed (l : list (string * lanHotPath)) : Prop :=
  Forall (fun e => e.1 = hotPathKey (hp_PeerID e.2) (hp_DstPort e.2)) l.

Lemma snapshot_key_in now dev nid l k : filed l ->
  k ∈ map path_key (omap (snapshot_one now dev nid) (map snd l)) -> k ∈ l.*1.
Proof.
  intros Hf (path & -> & Hp)%list_elem_of_fmap. apply list_elem_of_omap in Hp as (h & Hh & Hs).
  apply list_elem_of_fmap in Hh as (e & -> & Hin). apply list_elem_of_fmap. exists e. split; [|done].
  unfold filed in Hf. rewrite Forall_forall in Hf. rewrite (Hf e Hin). by eapply snapshot_one_key.
Qed.

Lemma snapshot_keys now dev nid l :
  filed l -> NoDup l.*1 -> NoDup (map path_key (omap (snapshot_one now dev nid) (map snd l))).
Proof.
  unfold filed. induction l as [|[k h] l IH]; simpl; [constructor|].
  intros [Hk Hf]%Forall_cons [Hn Hnd]%NoDup_cons. specialize (IH Hf Hnd). simpl in Hk.
  destruct (snapshot_one now dev nid h) as [path|] eqn:E; [|done]. simpl. constructor; [|done].
  rewrite (snapshot_one_key _ _ _ _ _ E), <- Hk. intros Hin. apply Hn. by eapply snapshot_key_in.
Qed.

(** A path that worked survives a restart: what the device reports for it and
    gets back from the server makes the next run find, for the same peer and port, the
    same address, path and counts, until twenty minutes after its last success. *)
Theorem learned_path_survives_restart `{GL : !GoTimeLaws GT} (now later : Time) (deviceID : string) (networkID : Z)
  (m : hotpaths) (h : lanHotPath) :
  map_Forall hot_wf m -> m !! hotPathKey (hp_PeerID h) (hp_DstPort h) = Some h ->
  TrimSpace (hp_PeerID h) <> EmptyString -> 0 < hp_DstPort h -> TrimSpace (hp_PublicAddr h) <> EmptyString ->
  hot_live now h -> (2 <= hp_Successes h \/ hp_Failures h <> 0) ->
  0 < hp_LastSuccess h -> now <= later -> later - hp_LastSuccess h + second <= lanHotPathTTL ->
  let reported := (LearnedPathsSnapshot now deviceID networkID m).1 in
  exists h', (hotPath later (hp_PeerID h) (hp_DstPort h) (LoadLearnedPaths later reported ∅)).1 = Some h' /\
    hp_PeerID h' = hp_PeerID h /\ hp_DstPort h' = hp_DstPort h /\ hp_PublicAddr h' = hp_PublicAddr h /\
    hp_Path h' = hp_Path h /\ hp_Successes h' = hp_Successes h /\ hp_Failures h' = hp_Failures h.
Proof.
  intros Hwf Hm Hpeer Hport Haddr Hlive Hworth Hls Hle Httl reported.
  set (key := hotPathKey (hp_PeerID h) (hp_DstPort h)) in *.
  set (l := map_to_list (pruneHotPathsLocked now m)).
  assert (Hf : filed l).
  { apply Forall_forall. intros [k x] Hk%elem_of_map_to_list. simpl. by apply (prune_hot_wf now m Hwf). }
  assert (Hs : exists path, snapshot_one now deviceID networkID h = Some path /\ loadable path /\
    path_key path = key /\ load_one later ∅ path !! key =
      Some (mkHotPath key (hp_PeerID h) (hp_DstPort h) (hp_PublicAddr h) (hp_Path h)
             (learnedPathQuality (hp_Successes h) (hp_Failures h) (hp_LastFailure h)) (hp_Successes h) (hp_Failures h)
             (parseLANTimeOr (formatLANTime (hp_LastSuccess h)) later) later (time_add later lanHotPathKeepAliveMin)
             (hp_LastFailure h))).
  { unfold snapshot_one. rewrite decide_False by (intros [? ?]; destruct Hworth; [lia|done]).
    eexists. split; [reflexivity|]. assert (Hl : loadable (mkVirtualLearnedPath deviceID (hp_PeerID h) networkID (hp_DstPort h) "tcp"
      (hp_Path h) (hp_PublicAddr h) (hp_Successes h) (hp_Failures h) (formatLANTime (hp_LastSuccess h)) EmptyString
      (hp_LastFailure h) (learnedPathQuality (hp_Successes h) (hp_Failures h) (hp_LastFailure h)) true (formatLANTime now))).
    { unfold loadable. simpl. intros [?|[?|[?|?]]]; done || lia. }
    split; [exact Hl|]. split; [done|]. unfold load_one. unfold loadable in Hl. rewrite decide_False by exact Hl.
    cbn. by rewrite lookup_insert_eq. }
  destruct Hs as (path & Hsnap & Hload & Hkey & Hone).
  assert (Hin : path ∈ reported).
  { apply list_elem_of_omap. exists h. split; [|done]. apply list_elem_of_fmap. exists (key, h).
    split; [done|]. apply elem_of_map_to_list, map_lookup_filter_Some. done. }
  pose proof (load_lookup later reported ∅ path (snapshot_keys _ _ _ _ Hf (NoDup_fst_map_to_list _)) Hin Hload) as Hlk.
  rewrite Hkey, Hone in Hlk. unfold hotPath. fold key.
  set (h1 := mkHotPath _ _ _ _ _ _ _ _ _ _ _ _) in Hlk.
  assert (Hlive1 : hot_live later h1).
  { unfold hot_live, h1. simpl. unfold parseLANTimeOr, formatLANTime, IsZero.
    rewrite bool_decide_eq_false_2 by (unfold time_zero; lia). rewrite format_trimmed.
    destruct (parse_format (hp_LastSuccess h)) as (t' & -> & Ht); [lia|]. simpl.
    unfold lanHotPathTTL, time_sub, minute, second, millisecond in *. lia. }
  assert (E : pruneHotPathsLocked later (LoadLearnedPaths later reported ∅) !! key = Some h1)
    by by apply map_lookup_filter_Some.
  rewrite E. eexists. split; [reflexivity|]. done.
Qed.

End HotOps.

(* ------------------------------------------------------------------ *)
(** ** Examples *)

Definition toy_tcp_syn : RoutedFrame :=
  mkRoutedFrame 1 "a" "b" x01 (replicate 40 x00)
    (mkIPv4Header 20 40 IPv4ProtocolTCP [x0a; x00; x00; x01] [x0a; x00; x00; x02] 5000 445 true 20).
Definition toy_intent : lanSessionIntent :=
  mkIntent (lanFrameSessionKey toy_tcp_syn) "b" "tcp" "10.0.0.1" "10.0.0.2" 5000 445 lanTrafficCritical 7 7 1.
Definition toy_hot : lanHotPath :=
  mkHotPath (hotPathKey "b" 445) "b" 445 "1.2.3.4:5" "p2p_datagram" "critical" 2 1 minute minute minute "late".

Lemma record_intent_bounded_witness :
  let m' := record_intent 7 toy_intent ∅ in
  (size m' <= 257)%nat /\ exists i, m' !! lanFrameSessionKey toy_tcp_syn = Some i /\ si_LastSeen i = 7.
Proof.
  intros m'. assert (H0 : newLANSessionIntent toy_tcp_syn 7 = Some toy_intent) by (vm_compute; reflexivity).
  destruct (record_intent_bounded 7 toy_tcp_syn toy_intent ∅ (lookup_empty _) H0) as (_ & Hs & _ & He & _).
  split; [exact Hs|exact He].
Defined.

Definition toy_hot_ops : list hot_op :=
  [HotRemember minute "b" "1.2.3.4:5" "p2p_datagram" [toy_intent]; HotFailure "b" 445 "late"].

Lemma hot_paths_forget_at_second_failure_witness :
  let m := fold_left (run_hot (GT := bin_time)) toy_hot_ops ∅ in
  hp_Failures <$> m !! hotPathKey "b" 445 = Some 1 /\
  (hotPath minute "b" 445 (markHotPathFailure "b" 445 "lost" m)).1 = None.
Proof.
  intros m. assert (Hok : Forall hot_op_ok toy_hot_ops).
  { apply Forall_cons. split; [vm_compute; discriminate|]. apply Forall_cons. split; [exact I|constructor]. }
  destruct (hot_paths_forget_at_second_failure (GT := bin_time) toy_hot_ops "b" "lost" 445 minute Hok) as [_ H].
  assert (E : hp_Failures <$> m !! hotPathKey "b" 445 = Some 1) by (vm_compute; reflexivity).
  split; [exact E|]. destruct (fmap_Some_1 _ _ _ E) as (h & Hh & Hf). by apply (H h).
Defined.

Lemma learned_path_survives_restart_witness :
  let m : hotpaths := {[ hotPathKey "b" 445 := toy_hot ]} in
  let reported := (LearnedPathsSnapshot (GT := bin_time) (2 * minute) "a" 1 m).1 in
  exists h', (hotPath (5 * minute) "b" 445 (LoadLearnedPaths (GT := bin_time) (5 * minute) reported ∅)).1 = Some h' /\
    hp_PublicAddr h' = "1.2.3.4:5"%string.
Proof.
  intros m reported.
  destruct (learned_path_survives_restart (GT := bin_time) (GL := bin_time_laws) (2 * minute) (5 * minute) "a" 1 m toy_hot)
    as (h' & H1 & _ & _ & H2 & _).
  - apply map_Forall_singleton. by split.
  - apply lookup_singleton_eq.
  - vm_compute. discriminate.
  - reflexivity.
  - vm_compute. discriminate.
  - vm_compute. intros [H|H]; discriminate.
  - left. vm_compute. discriminate.
  - reflexivity.
  - vm_compute. discriminate.
  - vm_compute. discriminate.
  - exists h'. split; [exact H1|exact H2].
Defined.
