(* ===== verification/P2PState.v ===== *)
(** * P2PState: the state of the peer-to-peer path (cmd/UDPTunnelLAN/packet_runtime.go)

    The structs [lanP2PPeer] and [lanP2P]. Peers are never removed, so a pointer to one
    is its id in the map. A UDP address is its text, a KCP connection a number. The
    throughput codecs are the codecs of the peer itself, so only whether the pointer is
    set is kept. [wired] says that the adapter, the router and the link manager are not
    nil. What the runtime sends is appended to [out], the goroutines it starts to [go].
    The setters below stand for the assignments and the atomic stores. *)

From S2P Require Import Prelude GoStrings Store Router Link LanIdentity Pending Paths.
From S2P Require Import Session.

(** [net.Conn] writes, closes and the packets for the TUN device. *)
Inductive p2p_effect : Type :=
  | SendUDP (data : list byte) (dst : string)
  | WriteKCP (conn : nat) (payload : list byte)
  | CloseKCP (conn : nat)
  | ClosePC (peerID : string)
  | CloseSocket
  | FeedPC (peerID : string) (throughput : bool) (data : list byte) (src : string)
  | WritePacket (payload : list byte).

(** The functions the code starts with [go]. The two [GoOpening] are [openTunnel] and
    [openThroughputTunnel] while they wait for the tunnel to open. *)
Inductive goroutine : Type :=
  | GoPunchLoop (peerID : string)
  | GoOpenTunnel (peerID : string)
  | GoOpenThroughput (peerID : string)
  | GoRelayFallback (peerID : string)
  | GoOpenRetry (peerID : string)
  | GoEnableRelay (peerID reason : string)
  | GoRegisterLoop (peerID : string)
  | GoRotate (reason : string)
  | GoReadTunnel (peerID : string) (conn : nat)
  | GoReadThroughput (peerID : string) (conn : nat)
  | GoOpening (peerID : string)
  | GoOpeningThroughput (peerID : string)
  | GoReadLoop (gen : Z)
  | GoRefreshUPnP.

#[export] Instance goroutine_eq_dec : EqDecision goroutine.
Proof. solve_decision. Defined.

Record lanP2PPeer : Type := mkLanPeer {
  peer_id : string; peer_publicKey : string; peer_x25519Pub : string; peer_addr : option string;
  peer_upnpAddr : option string; peer_punched : bool; peer_punching : bool;
  peer_datagramReady : bool; peer_connected : bool; peer_isRelay : bool; peer_longPunching : bool;
  peer_registers : Z; peer_openFailures : Z; peer_punchSignals : Z; peer_relaySince : Z;
  peer_lastTrafficAt : Z; peer_lastTrafficClass : string; peer_tx : option Codec;
  peer_rx : option Codec; peer_throughputTx : bool; peer_throughputRx : bool; peer_pc : bool;
  peer_throughputPC : bool; peer_kcp : option nat; peer_throughputKCP : option nat;
}.

(** [&lanP2PPeer{id: peerID, publicKey: key}]. *)
Definition new_peer (peerID key : string) : lanP2PPeer :=
  mkLanPeer peerID key EmptyString None None false false false false false false 0 0 0 0 0 EmptyString
    None None false false false false None None.

Record lanP2P : Type := mkLanP2P {
  p2p_conn : bool; p2p_upnpMapping : bool; p2p_peers : gmap string lanP2PPeer;
  p2p_peerConv : gmap Z string; p2p_peerConvProfile : gmap Z string; p2p_server : option string;
  p2p_pathPolicy : lanPathPolicyConfig; p2p_tcpFastPath : string; p2p_deviceID : string;
  p2p_identity : Identity; p2p_wired : bool; p2p_router : Router; p2p_link : LinkManager;
  p2p_x25519Priv : list byte; p2p_x25519Pub : string; p2p_upnpAddr : string;
  p2p_registering : gmap string bool; p2p_relayTimers : gmap string bool;
  p2p_openRetries : gmap string bool; p2p_sessionIntents : gmap string lanSessionIntent;
  p2p_hotPaths : gmap string lanHotPath; p2p_pathStateLog : gmap string string; p2p_readLoopGen : Z;
  p2p_rotating : bool; p2p_lastRotation : Z; p2p_rotationCount : Z; p2p_lastRotationReason : string;
  p2p_natType : string; p2p_out : list p2p_effect; p2p_go : list goroutine;
}.

(* ------------------------------------------------------------------ *)
(** ** Assignments to a peer *)

Definition set_publicKey (v : string) (x : lanP2PPeer) : lanP2PPeer :=
  mkLanPeer (peer_id x) v (peer_x25519Pub x) (peer_addr x) (peer_upnpAddr x) (peer_punched x)
    (peer_punching x) (peer_datagramReady x) (peer_connected x) (peer_isRelay x) (peer_longPunching x)
    (peer_registers x) (peer_openFailures x) (peer_punchSignals x) (peer_relaySince x)
    (peer_lastTrafficAt x) (peer_lastTrafficClass x) (peer_tx x) (peer_rx x) (peer_throughputTx x)
    (peer_throughputRx x) (peer_pc x) (peer_throughputPC x) (peer_kcp x) (peer_throughputKCP x).
Definition set_x25519Pub (v : string) (x : lanP2PPeer) : lanP2PPeer :=
  mkLanPeer (peer_id x) (peer_publicKey x) v (peer_addr x) (peer_upnpAddr x) (peer_punched x)
    (peer_punching x) (peer_datagramReady x) (peer_connected x) (peer_isRelay x) (peer_longPunching x)
    (peer_registers x) (peer_openFailures x) (peer_punchSignals x) (peer_relaySince x)
    (peer_lastTrafficAt x) (peer_lastTrafficClass x) (peer_tx x) (peer_rx x) (peer_throughputTx x)
    (peer_throughputRx x) (peer_pc x) (peer_throughputPC x) (peer_kcp x) (peer_throughputKCP x).
Definition set_addr (v : option string) (x : lanP2PPeer) : lanP2PPeer :=
  mkLanPeer (peer_id x) (peer_publicKey x) (peer_x25519Pub x) v (peer_upnpAddr x) (peer_punched x)
    (peer_punching x) (peer_datagramReady x) (peer_connected x) (peer_isRelay x) (peer_longPunching x)
    (peer_registers x) (peer_openFailures x) (peer_punchSignals x) (peer_relaySince x)
    (peer_lastTrafficAt x) (peer_lastTrafficClass x) (peer_tx x) (peer_rx x) (peer_throughputTx x)
    (peer_throughputRx x) (peer_pc x) (peer_throughputPC x) (peer_kcp x) (peer_throughputKCP x).
Definition set_upnpAddr (v : option string) (x : lanP2PPeer) : lanP2PPeer :=
  mkLanPeer (peer_id x) (peer_publicKey x) (peer_x25519Pub x) (peer_addr x) v (peer_punched x)
    (peer_punching x) (peer_datagramReady x) (peer_connected x) (peer_isRelay x) (peer_longPunching x)
    (peer_registers x) (peer_openFailures x) (peer_punchSignals x) (peer_relaySince x)
    (peer_lastTrafficAt x) (peer_lastTrafficClass x) (peer_tx x) (peer_rx x) (peer_throughputTx x)
    (peer_throughputRx x) (peer_pc x) (peer_throughputPC x) (peer_kcp x) (peer_throughputKCP x).
Definition set_punched (v : bool) (x : lanP2PPeer) : lanP2PPeer :=
  mkLanPeer (peer_id x) (peer_publicKey x) (peer_x25519Pub x) (peer_addr x) (peer_upnpAddr x) v
    (peer_punching x) (peer_datagramReady x) (peer_connected x) (peer_isRelay x) (peer_longPunching x)
    (peer_registers x) (peer_openFailures x) (peer_punchSignals x) (peer_relaySince x)
    (peer_lastTrafficAt x) (peer_lastTrafficClass x) (peer_tx x) (peer_rx x) (peer_throughputTx x)
    (peer_throughputRx x) (peer_pc x) (peer_throughputPC x) (peer_kcp x) (peer_throughputKCP x).
Definition set_punching (v : bool) (x : lanP2PPeer) : lanP2PPeer :=
  mkLanPeer (peer_id x) (peer_publicKey x) (peer_x25519Pub x) (peer_addr x) (peer_upnpAddr x)
    (peer_punched x) v (peer_datagramReady x) (peer_connected x) (peer_isRelay x) (peer_longPunching x)
    (peer_registers x) (peer_openFailures x) (peer_punchSignals x) (peer_relaySince x)
    (peer_lastTrafficAt x) (peer_lastTrafficClass x) (peer_tx x) (peer_rx x) (peer_throughputTx x)
    (peer_throughputRx x) (peer_pc x) (peer_throughputPC x) (peer_kcp x) (peer_throughputKCP x).
Definition set_datagramReady (v : bool) (x : lanP2PPeer) : lanP2PPeer :=
  mkLanPeer (peer_id x) (peer_publicKey x) (peer_x25519Pub x) (peer_addr x) (peer_upnpAddr x)
    (peer_punched x) (peer_punching x) v (peer_connected x) (peer_isRelay x) (peer_longPunching x)
    (peer_registers x) (peer_openFailures x) (peer_punchSignals x) (peer_relaySince x)
    (peer_lastTrafficAt x) (peer_lastTrafficClass x) (peer_tx x) (peer_rx x) (peer_throughputTx x)
    (peer_throughputRx x) (peer_pc x) (peer_throughputPC x) (peer_kcp x) (peer_throughputKCP x).
Definition set_connected (v : bool) (x : lanP2PPeer) : lanP2PPeer :=
  mkLanPeer (peer_id x) (peer_publicKey x) (peer_x25519Pub x) (peer_addr x) (peer_upnpAddr x)
    (peer_punched x) (peer_punching x) (peer_datagramReady x) v (peer_isRelay x) (peer_longPunching x)
    (peer_registers x) (peer_openFailures x) (peer_punchSignals x) (peer_relaySince x)
    (peer_lastTrafficAt x) (peer_lastTrafficClass x) (peer_tx x) (peer_rx x) (peer_throughputTx x)
    (peer_throughputRx x) (peer_pc x) (peer_throughputPC x) (peer_kcp x) (peer_throughputKCP x).
Definition set_isRelay (v : bool) (x : lanP2PPeer) : lanP2PPeer :=
  mkLanPeer (peer_id x) (peer_publicKey x) (peer_x25519Pub x) (peer_addr x) (peer_upnpAddr x)
    (peer_punched x) (peer_punching x) (peer_datagramReady x) (peer_connected x) v (peer_longPunching x)
    (peer_registers x) (peer_openFailures x) (peer_punchSignals x) (peer_relaySince x)
    (peer_lastTrafficAt x) (peer_lastTrafficClass x) (peer_tx x) (peer_rx x) (peer_throughputTx x)
    (peer_throughputRx x) (peer_pc x) (peer_throughputPC x) (peer_kcp x) (peer_throughputKCP x).
Definition set_longPunching (v : bool) (x : lanP2PPeer) : lanP2PPeer :=
  mkLanPeer (peer_id x) (peer_publicKey x) (peer_x25519Pub x) (peer_addr x) (peer_upnpAddr x)
    (peer_punched x) (peer_punching x) (peer_datagramReady x) (peer_connected x) (peer_isRelay x) v
    (peer_registers x) (peer_openFailures x) (peer_punchSignals x) (peer_relaySince x)
    (peer_lastTrafficAt x) (peer_lastTrafficClass x) (peer_tx x) (peer_rx x) (peer_throughputTx x)
    (peer_throughputRx x) (peer_pc x) (peer_throughputPC x) (peer_kcp x) (peer_throughputKCP x).
Definition set_registers (v : Z) (x : lanP2PPeer) : lanP2PPeer :=
  mkLanPeer (peer_id x) (peer_publicKey x) (peer_x25519Pub x) (peer_addr x) (peer_upnpAddr x)
    (peer_punched x) (peer_punching x) (peer_datagramReady x) (peer_connected x) (peer_isRelay x)
    (peer_longPunching x) v (peer_openFailures x) (peer_punchSignals x) (peer_relaySince x)
    (peer_lastTrafficAt x) (peer_lastTrafficClass x) (peer_tx x) (peer_rx x) (peer_throughputTx x)
    (peer_throughputRx x) (peer_pc x) (peer_throughputPC x) (peer_kcp x) (peer_throughputKCP x).
Definition set_openFailures (v : Z) (x : lanP2PPeer) : lanP2PPeer :=
  mkLanPeer (peer_id x) (peer_publicKey x) (peer_x25519Pub x) (peer_addr x) (peer_upnpAddr x)
    (peer_punched x) (peer_punching x) (peer_datagramReady x) (peer_connected x) (peer_isRelay x)
    (peer_longPunching x) (peer_registers x) v (peer_punchSignals x) (peer_relaySince x)
    (peer_lastTrafficAt x) (peer_lastTrafficClass x) (peer_tx x) (peer_rx x) (peer_throughputTx x)
    (peer_throughputRx x) (peer_pc x) (peer_throughputPC x) (peer_kcp x) (peer_throughputKCP x).
Definition set_punchSignals (v : Z) (x : lanP2PPeer) : lanP2PPeer :=
  mkLanPeer (peer_id x) (peer_publicKey x) (peer_x25519Pub x) (peer_addr x) (peer_upnpAddr x)
    (peer_punched x) (peer_punching x) (peer_datagramReady x) (peer_connected x) (peer_isRelay x)
    (peer_longPunching x) (peer_registers x) (peer_openFailures x) v (peer_relaySince x)
    (peer_lastTrafficAt x) (peer_lastTrafficClass x) (peer_tx x) (peer_rx x) (peer_throughputTx x)
    (peer_throughputRx x) (peer_pc x) (peer_throughputPC x) (peer_kcp x) (peer_throughputKCP x).
Definition set_relaySince (v : Z) (x : lanP2PPeer) : lanP2PPeer :=
  mkLanPeer (peer_id x) (peer_publicKey x) (peer_x25519Pub x) (peer_addr x) (peer_upnpAddr x)
    (peer_punched x) (peer_punching x) (peer_datagramReady x) (peer_connected x) (peer_isRelay x)
    (peer_longPunching x) (peer_registers x) (peer_openFailures x) (peer_punchSignals x) v
    (peer_lastTrafficAt x) (peer_lastTrafficClass x) (peer_tx x) (peer_rx x) (peer_throughputTx x)
    (peer_throughputRx x) (peer_pc x) (peer_throughputPC x) (peer_kcp x) (peer_throughputKCP x).
Definition set_lastTrafficAt (v : Z) (x : lanP2PPeer) : lanP2PPeer :=
  mkLanPeer (peer_id x) (peer_publicKey x) (peer_x25519Pub x) (peer_addr x) (peer_upnpAddr x)
    (peer_punched x) (peer_punching x) (peer_datagramReady x) (peer_connected x) (peer_isRelay x)
    (peer_longPunching x) (peer_registers x) (peer_openFailures x) (peer_punchSignals x)
    (peer_relaySince x) v (peer_lastTrafficClass x) (peer_tx x) (peer_rx x) (peer_throughputTx x)
    (peer_throughputRx x) (peer_pc x) (peer_throughputPC x) (peer_kcp x) (peer_throughputKCP x).
Definition set_lastTrafficClass (v : string) (x : lanP2PPeer) : lanP2PPeer :=
  mkLanPeer (peer_id x) (peer_publicKey x) (peer_x25519Pub x) (peer_addr x) (peer_upnpAddr x)
    (peer_punched x) (peer_punching x) (peer_datagramReady x) (peer_connected x) (peer_isRelay x)
    (peer_longPunching x) (peer_registers x) (peer_openFailures x) (peer_punchSignals x)
    (peer_relaySince x) (peer_lastTrafficAt x) v (peer_tx x) (peer_rx x) (peer_throughputTx x)
    (peer_throughputRx x) (peer_pc x) (peer_throughputPC x) (peer_kcp x) (peer_throughputKCP x).
Definition set_tx (v : option Codec) (x : lanP2PPeer) : lanP2PPeer :=
  mkLanPeer (peer_id x) (peer_publicKey x) (peer_x25519Pub x) (peer_addr x) (peer_upnpAddr x)
    (peer_punched x) (peer_punching x) (peer_datagramReady x) (peer_connected x) (peer_isRelay x)
    (peer_longPunching x) (peer_registers x) (peer_openFailures x) (peer_punchSignals x)
    (peer_relaySince x) (peer_lastTrafficAt x) (peer_lastTrafficClass x) v (peer_rx x)
    (peer_throughputTx x) (peer_throughputRx x) (peer_pc x) (peer_throughputPC x) (peer_kcp x)
    (peer_throughputKCP x).
Definition set_rx (v : option Codec) (x : lanP2PPeer) : lanP2PPeer :=
  mkLanPeer (peer_id x) (peer_publicKey x) (peer_x25519Pub x) (peer_addr x) (peer_upnpAddr x)
    (peer_punched x) (peer_punching x) (peer_datagramReady x) (peer_connected x) (peer_isRelay x)
    (peer_longPunching x) (peer_registers x) (peer_openFailures x) (peer_punchSignals x)
    (peer_relaySince x) (peer_lastTrafficAt x) (peer_lastTrafficClass x) (peer_tx x) v
    (peer_throughputTx x) (peer_throughputRx x) (peer_pc x) (peer_throughputPC x) (peer_kcp x)
    (peer_throughputKCP x).
Definition set_throughputTx (v : bool) (x : lanP2PPeer) : lanP2PPeer :=
  mkLanPeer (peer_id x) (peer_publicKey x) (peer_x25519Pub x) (peer_addr x) (peer_upnpAddr x)
    (peer_punched x) (peer_punching x) (peer_datagramReady x) (peer_connected x) (peer_isRelay x)
    (peer_longPunching x) (peer_registers x) (peer_openFailures x) (peer_punchSignals x)
    (peer_relaySince x) (peer_lastTrafficAt x) (peer_lastTrafficClass x) (peer_tx x) (peer_rx x) v
    (peer_throughputRx x) (peer_pc x) (peer_throughputPC x) (peer_kcp x) (peer_throughputKCP x).
Definition set_throughputRx (v : bool) (x : lanP2PPeer) : lanP2PPeer :=
  mkLanPeer (peer_id x) (peer_publicKey x) (peer_x25519Pub x) (peer_addr x) (peer_upnpAddr x)
    (peer_punched x) (peer_punching x) (peer_datagramReady x) (peer_connected x) (peer_isRelay x)
    (peer_longPunching x) (peer_registers x) (peer_openFailures x) (peer_punchSignals x)
    (peer_relaySince x) (peer_lastTrafficAt x) (peer_lastTrafficClass x) (peer_tx x) (peer_rx x)
    (peer_throughputTx x) v (peer_pc x) (peer_throughputPC x) (peer_kcp x) (peer_throughputKCP x).
Definition set_pc (v : bool) (x : lanP2PPeer) : lanP2PPeer :=
  mkLanPeer (peer_id x) (peer_publicKey x) (peer_x25519Pub x) (peer_addr x) (peer_upnpAddr x)
    (peer_punched x) (peer_punching x) (peer_datagramReady x) (peer_connected x) (peer_isRelay x)
    (peer_longPunching x) (peer_registers x) (peer_openFailures x) (peer_punchSignals x)
    (peer_relaySince x) (peer_lastTrafficAt x) (peer_lastTrafficClass x) (peer_tx x) (peer_rx x)
    (peer_throughputTx x) (peer_throughputRx x) v (peer_throughputPC x) (peer_kcp x)
    (peer_throughputKCP x).
Definition set_throughputPC (v : bool) (x : lanP2PPeer) : lanP2PPeer :=
  mkLanPeer (peer_id x) (peer_publicKey x) (peer_x25519Pub x) (peer_addr x) (peer_upnpAddr x)
    (peer_punched x) (peer_punching x) (peer_datagramReady x) (peer_connected x) (peer_isRelay x)
    (peer_longPunching x) (peer_registers x) (peer_openFailures x) (peer_punchSignals x)
    (peer_relaySince x) (peer_lastTrafficAt x) (peer_lastTrafficClass x) (peer_tx x) (peer_rx x)
    (peer_throughputTx x) (peer_throughputRx x) (peer_pc x) v (peer_kcp x) (peer_throughputKCP x).
Definition set_kcp (v : option nat) (x : lanP2PPeer) : lanP2PPeer :=
  mkLanPeer (peer_id x) (peer_publicKey x) (peer_x25519Pub x) (peer_addr x) (peer_upnpAddr x)
    (peer_punched x) (peer_punching x) (peer_datagramReady x) (peer_connected x) (peer_isRelay x)
    (peer_longPunching x) (peer_registers x) (peer_openFailures x) (peer_punchSignals x)
    (peer_relaySince x) (peer_lastTrafficAt x) (peer_lastTrafficClass x) (peer_tx x) (peer_rx x)
    (peer_throughputTx x) (peer_throughputRx x) (peer_pc x) (peer_throughputPC x) v
    (peer_throughputKCP x).
Definition set_throughputKCP (v : option nat) (x : lanP2PPeer) : lanP2PPeer :=
  mkLanPeer (peer_id x) (peer_publicKey x) (peer_x25519Pub x) (peer_addr x) (peer_upnpAddr x)
    (peer_punched x) (peer_punching x) (peer_datagramReady x) (peer_connected x) (peer_isRelay x)
    (peer_longPunching x) (peer_registers x) (peer_openFailures x) (peer_punchSignals x)
    (peer_relaySince x) (peer_lastTrafficAt x) (peer_lastTrafficClass x) (peer_tx x) (peer_rx x)
    (peer_throughputTx x) (peer_throughputRx x) (peer_pc x) (peer_throughputPC x) (peer_kcp x) v.

(* ------------------------------------------------------------------ *)
(** ** Assignments to the runtime *)

Definition put_conn (v : bool) (x : lanP2P) : lanP2P :=
  mkLanP2P v (p2p_upnpMapping x) (p2p_peers x) (p2p_peerConv x) (p2p_peerConvProfile x) (p2p_server x)
    (p2p_pathPolicy x) (p2p_tcpFastPath x) (p2p_deviceID x) (p2p_identity x) (p2p_wired x)
    (p2p_router x) (p2p_link x) (p2p_x25519Priv x) (p2p_x25519Pub x) (p2p_upnpAddr x)
    (p2p_registering x) (p2p_relayTimers x) (p2p_openRetries x) (p2p_sessionIntents x) (p2p_hotPaths x)
    (p2p_pathStateLog x) (p2p_readLoopGen x) (p2p_rotating x) (p2p_lastRotation x) (p2p_rotationCount x)
    (p2p_lastRotationReason x) (p2p_natType x) (p2p_out x) (p2p_go x).
Definition put_upnpMapping (v : bool) (x : lanP2P) : lanP2P :=
  mkLanP2P (p2p_conn x) v (p2p_peers x) (p2p_peerConv x) (p2p_peerConvProfile x) (p2p_server x)
    (p2p_pathPolicy x) (p2p_tcpFastPath x) (p2p_deviceID x) (p2p_identity x) (p2p_wired x)
    (p2p_router x) (p2p_link x) (p2p_x25519Priv x) (p2p_x25519Pub x) (p2p_upnpAddr x)
    (p2p_registering x) (p2p_relayTimers x) (p2p_openRetries x) (p2p_sessionIntents x) (p2p_hotPaths x)
    (p2p_pathStateLog x) (p2p_readLoopGen x) (p2p_rotating x) (p2p_lastRotation x) (p2p_rotationCount x)
    (p2p_lastRotationReason x) (p2p_natType x) (p2p_out x) (p2p_go x).
Definition put_peers (v : gmap string lanP2PPeer) (x : lanP2P) : lanP2P :=
  mkLanP2P (p2p_conn x) (p2p_upnpMapping x) v (p2p_peerConv x) (p2p_peerConvProfile x) (p2p_server x)
    (p2p_pathPolicy x) (p2p_tcpFastPath x) (p2p_deviceID x) (p2p_identity x) (p2p_wired x)
    (p2p_router x) (p2p_link x) (p2p_x25519Priv x) (p2p_x25519Pub x) (p2p_upnpAddr x)
    (p2p_registering x) (p2p_relayTimers x) (p2p_openRetries x) (p2p_sessionIntents x) (p2p_hotPaths x)
    (p2p_pathStateLog x) (p2p_readLoopGen x) (p2p_rotating x) (p2p_lastRotation x) (p2p_rotationCount x)
    (p2p_lastRotationReason x) (p2p_natType x) (p2p_out x) (p2p_go x).
Definition put_peerConv (v : gmap Z string) (x : lanP2P) : lanP2P :=
  mkLanP2P (p2p_conn x) (p2p_upnpMapping x) (p2p_peers x) v (p2p_peerConvProfile x) (p2p_server x)
    (p2p_pathPolicy x) (p2p_tcpFastPath x) (p2p_deviceID x) (p2p_identity x) (p2p_wired x)
    (p2p_router x) (p2p_link x) (p2p_x25519Priv x) (p2p_x25519Pub x) (p2p_upnpAddr x)
    (p2p_registering x) (p2p_relayTimers x) (p2p_openRetries x) (p2p_sessionIntents x) (p2p_hotPaths x)
    (p2p_pathStateLog x) (p2p_readLoopGen x) (p2p_rotating x) (p2p_lastRotation x) (p2p_rotationCount x)
    (p2p_lastRotationReason x) (p2p_natType x) (p2p_out x) (p2p_go x).
Definition put_peerConvProfile (v : gmap Z string) (x : lanP2P) : lanP2P :=
  mkLanP2P (p2p_conn x) (p2p_upnpMapping x) (p2p_peers x) (p2p_peerConv x) v (p2p_server x)
    (p2p_pathPolicy x) (p2p_tcpFastPath x) (p2p_deviceID x) (p2p_identity x) (p2p_wired x)
    (p2p_router x) (p2p_link x) (p2p_x25519Priv x) (p2p_x25519Pub x) (p2p_upnpAddr x)
    (p2p_registering x) (p2p_relayTimers x) (p2p_openRetries x) (p2p_sessionIntents x) (p2p_hotPaths x)
    (p2p_pathStateLog x) (p2p_readLoopGen x) (p2p_rotating x) (p2p_lastRotation x) (p2p_rotationCount x)
    (p2p_lastRotationReason x) (p2p_natType x) (p2p_out x) (p2p_go x).
Definition put_router (v : Router) (x : lanP2P) : lanP2P :=
  mkLanP2P (p2p_conn x) (p2p_upnpMapping x) (p2p_peers x) (p2p_peerConv x) (p2p_peerConvProfile x)
    (p2p_server x) (p2p_pathPolicy x) (p2p_tcpFastPath x) (p2p_deviceID x) (p2p_identity x)
    (p2p_wired x) v (p2p_link x) (p2p_x25519Priv x) (p2p_x25519Pub x) (p2p_upnpAddr x)
    (p2p_registering x) (p2p_relayTimers x) (p2p_openRetries x) (p2p_sessionIntents x) (p2p_hotPaths x)
    (p2p_pathStateLog x) (p2p_readLoopGen x) (p2p_rotating x) (p2p_lastRotation x) (p2p_rotationCount x)
    (p2p_lastRotationReason x) (p2p_natType x) (p2p_out x) (p2p_go x).
Definition put_link (v : LinkManager) (x : lanP2P) : lanP2P :=
  mkLanP2P (p2p_conn x) (p2p_upnpMapping x) (p2p_peers x) (p2p_peerConv x) (p2p_peerConvProfile x)
    (p2p_server x) (p2p_pathPolicy x) (p2p_tcpFastPath x) (p2p_deviceID x) (p2p_identity x)
    (p2p_wired x) (p2p_router x) v (p2p_x25519Priv x) (p2p_x25519Pub x) (p2p_upnpAddr x)
    (p2p_registering x) (p2p_relayTimers x) (p2p_openRetries x) (p2p_sessionIntents x) (p2p_hotPaths x)
    (p2p_pathStateLog x) (p2p_readLoopGen x) (p2p_rotating x) (p2p_lastRotation x) (p2p_rotationCount x)
    (p2p_lastRotationReason x) (p2p_natType x) (p2p_out x) (p2p_go x).
Definition put_upnpAddr (v : string) (x : lanP2P) : lanP2P :=
  mkLanP2P (p2p_conn x) (p2p_upnpMapping x) (p2p_peers x) (p2p_peerConv x) (p2p_peerConvProfile x)
    (p2p_server x) (p2p_pathPolicy x) (p2p_tcpFastPath x) (p2p_deviceID x) (p2p_identity x)
    (p2p_wired x) (p2p_router x) (p2p_link x) (p2p_x25519Priv x) (p2p_x25519Pub x) v (p2p_registering x)
    (p2p_relayTimers x) (p2p_openRetries x) (p2p_sessionIntents x) (p2p_hotPaths x) (p2p_pathStateLog x)
    (p2p_readLoopGen x) (p2p_rotating x) (p2p_lastRotation x) (p2p_rotationCount x)
    (p2p_lastRotationReason x) (p2p_natType x) (p2p_out x) (p2p_go x).
Definition put_registering (v : gmap string bool) (x : lanP2P) : lanP2P :=
  mkLanP2P (p2p_conn x) (p2p_upnpMapping x) (p2p_peers x) (p2p_peerConv x) (p2p_peerConvProfile x)
    (p2p_server x) (p2p_pathPolicy x) (p2p_tcpFastPath x) (p2p_deviceID x) (p2p_identity x)
    (p2p_wired x) (p2p_router x) (p2p_link x) (p2p_x25519Priv x) (p2p_x25519Pub x) (p2p_upnpAddr x) v
    (p2p_relayTimers x) (p2p_openRetries x) (p2p_sessionIntents x) (p2p_hotPaths x) (p2p_pathStateLog x)
    (p2p_readLoopGen x) (p2p_rotating x) (p2p_lastRotation x) (p2p_rotationCount x)
    (p2p_lastRotationReason x) (p2p_natType x) (p2p_out x) (p2p_go x).
Definition put_relayTimers (v : gmap string bool) (x : lanP2P) : lanP2P :=
  mkLanP2P (p2p_conn x) (p2p_upnpMapping x) (p2p_peers x) (p2p_peerConv x) (p2p_peerConvProfile x)
    (p2p_server x) (p2p_pathPolicy x) (p2p_tcpFastPath x) (p2p_deviceID x) (p2p_identity x)
    (p2p_wired x) (p2p_router x) (p2p_link x) (p2p_x25519Priv x) (p2p_x25519Pub x) (p2p_upnpAddr x)
    (p2p_registering x) v (p2p_openRetries x) (p2p_sessionIntents x) (p2p_hotPaths x)
    (p2p_pathStateLog x) (p2p_readLoopGen x) (p2p_rotating x) (p2p_lastRotation x) (p2p_rotationCount x)
    (p2p_lastRotationReason x) (p2p_natType x) (p2p_out x) (p2p_go x).
Definition put_openRetries (v : gmap string bool) (x : lanP2P) : lanP2P :=
  mkLanP2P (p2p_conn x) (p2p_upnpMapping x) (p2p_peers x) (p2p_peerConv x) (p2p_peerConvProfile x)
    (p2p_server x) (p2p_pathPolicy x) (p2p_tcpFastPath x) (p2p_deviceID x) (p2p_identity x)
    (p2p_wired x) (p2p_router x) (p2p_link x) (p2p_x25519Priv x) (p2p_x25519Pub x) (p2p_upnpAddr x)
    (p2p_registering x) (p2p_relayTimers x) v (p2p_sessionIntents x) (p2p_hotPaths x)
    (p2p_pathStateLog x) (p2p_readLoopGen x) (p2p_rotating x) (p2p_lastRotation x) (p2p_rotationCount x)
    (p2p_lastRotationReason x) (p2p_natType x) (p2p_out x) (p2p_go x).
Definition put_sessionIntents (v : gmap string lanSessionIntent) (x : lanP2P) : lanP2P :=
  mkLanP2P (p2p_conn x) (p2p_upnpMapping x) (p2p_peers x) (p2p_peerConv x) (p2p_peerConvProfile x)
    (p2p_server x) (p2p_pathPolicy x) (p2p_tcpFastPath x) (p2p_deviceID x) (p2p_identity x)
    (p2p_wired x) (p2p_router x) (p2p_link x) (p2p_x25519Priv x) (p2p_x25519Pub x) (p2p_upnpAddr x)
    (p2p_registering x) (p2p_relayTimers x) (p2p_openRetries x) v (p2p_hotPaths x) (p2p_pathStateLog x)
    (p2p_readLoopGen x) (p2p_rotating x) (p2p_lastRotation x) (p2p_rotationCount x)
    (p2p_lastRotationReason x) (p2p_natType x) (p2p_out x) (p2p_go x).
Definition put_hotPaths (v : gmap string lanHotPath) (x : lanP2P) : lanP2P :=
  mkLanP2P (p2p_conn x) (p2p_upnpMapping x) (p2p_peers x) (p2p_peerConv x) (p2p_peerConvProfile x)
    (p2p_server x) (p2p_pathPolicy x) (p2p_tcpFastPath x) (p2p_deviceID x) (p2p_identity x)
    (p2p_wired x) (p2p_router x) (p2p_link x) (p2p_x25519Priv x) (p2p_x25519Pub x) (p2p_upnpAddr x)
    (p2p_registering x) (p2p_relayTimers x) (p2p_openRetries x) (p2p_sessionIntents x) v
    (p2p_pathStateLog x) (p2p_readLoopGen x) (p2p_rotating x) (p2p_lastRotation x) (p2p_rotationCount x)
    (p2p_lastRotationReason x) (p2p_natType x) (p2p_out x) (p2p_go x).
Definition put_pathStateLog (v : gmap string string) (x : lanP2P) : lanP2P :=
  mkLanP2P (p2p_conn x) (p2p_upnpMapping x) (p2p_peers x) (p2p_peerConv x) (p2p_peerConvProfile x)
    (p2p_server x) (p2p_pathPolicy x) (p2p_tcpFastPath x) (p2p_deviceID x) (p2p_identity x)
    (p2p_wired x) (p2p_router x) (p2p_link x) (p2p_x25519Priv x) (p2p_x25519Pub x) (p2p_upnpAddr x)
    (p2p_registering x) (p2p_relayTimers x) (p2p_openRetries x) (p2p_sessionIntents x) (p2p_hotPaths x)
    v (p2p_readLoopGen x) (p2p_rotating x) (p2p_lastRotation x) (p2p_rotationCount x)
    (p2p_lastRotationReason x) (p2p_natType x) (p2p_out x) (p2p_go x).
Definition put_readLoopGen (v : Z) (x : lanP2P) : lanP2P :=
  mkLanP2P (p2p_conn x) (p2p_upnpMapping x) (p2p_peers x) (p2p_peerConv x) (p2p_peerConvProfile x)
    (p2p_server x) (p2p_pathPolicy x) (p2p_tcpFastPath x) (p2p_deviceID x) (p2p_identity x)
    (p2p_wired x) (p2p_router x) (p2p_link x) (p2p_x25519Priv x) (p2p_x25519Pub x) (p2p_upnpAddr x)
    (p2p_registering x) (p2p_relayTimers x) (p2p_openRetries x) (p2p_sessionIntents x) (p2p_hotPaths x)
    (p2p_pathStateLog x) v (p2p_rotating x) (p2p_lastRotation x) (p2p_rotationCount x)
    (p2p_lastRotationReason x) (p2p_natType x) (p2p_out x) (p2p_go x).
Definition put_rotating (v : bool) (x : lanP2P) : lanP2P :=
  mkLanP2P (p2p_conn x) (p2p_upnpMapping x) (p2p_peers x) (p2p_peerConv x) (p2p_peerConvProfile x)
    (p2p_server x) (p2p_pathPolicy x) (p2p_tcpFastPath x) (p2p_deviceID x) (p2p_identity x)
    (p2p_wired x) (p2p_router x) (p2p_link x) (p2p_x25519Priv x) (p2p_x25519Pub x) (p2p_upnpAddr x)
    (p2p_registering x) (p2p_relayTimers x) (p2p_openRetries x) (p2p_sessionIntents x) (p2p_hotPaths x)
    (p2p_pathStateLog x) (p2p_readLoopGen x) v (p2p_lastRotation x) (p2p_rotationCount x)
    (p2p_lastRotationReason x) (p2p_natType x) (p2p_out x) (p2p_go x).
Definition put_lastRotation (v : Z) (x : lanP2P) : lanP2P :=
  mkLanP2P (p2p_conn x) (p2p_upnpMapping x) (p2p_peers x) (p2p_peerConv x) (p2p_peerConvProfile x)
    (p2p_server x) (p2p_pathPolicy x) (p2p_tcpFastPath x) (p2p_deviceID x) (p2p_identity x)
    (p2p_wired x) (p2p_router x) (p2p_link x) (p2p_x25519Priv x) (p2p_x25519Pub x) (p2p_upnpAddr x)
    (p2p_registering x) (p2p_relayTimers x) (p2p_openRetries x) (p2p_sessionIntents x) (p2p_hotPaths x)
    (p2p_pathStateLog x) (p2p_readLoopGen x) (p2p_rotating x) v (p2p_rotationCount x)
    (p2p_lastRotationReason x) (p2p_natType x) (p2p_out x) (p2p_go x).
Definition put_rotationCount (v : Z) (x : lanP2P) : lanP2P :=
  mkLanP2P (p2p_conn x) (p2p_upnpMapping x) (p2p_peers x) (p2p_peerConv x) (p2p_peerConvProfile x)
    (p2p_server x) (p2p_pathPolicy x) (p2p_tcpFastPath x) (p2p_deviceID x) (p2p_identity x)
    (p2p_wired x) (p2p_router x) (p2p_link x) (p2p_x25519Priv x) (p2p_x25519Pub x) (p2p_upnpAddr x)
    (p2p_registering x) (p2p_relayTimers x) (p2p_openRetries x) (p2p_sessionIntents x) (p2p_hotPaths x)
    (p2p_pathStateLog x) (p2p_readLoopGen x) (p2p_rotating x) (p2p_lastRotation x) v
    (p2p_lastRotationReason x) (p2p_natType x) (p2p_out x) (p2p_go x).
Definition put_lastRotationReason (v : string) (x : lanP2P) : lanP2P :=
  mkLanP2P (p2p_conn x) (p2p_upnpMapping x) (p2p_peers x) (p2p_peerConv x) (p2p_peerConvProfile x)
    (p2p_server x) (p2p_pathPolicy x) (p2p_tcpFastPath x) (p2p_deviceID x) (p2p_identity x)
    (p2p_wired x) (p2p_router x) (p2p_link x) (p2p_x25519Priv x) (p2p_x25519Pub x) (p2p_upnpAddr x)
    (p2p_registering x) (p2p_relayTimers x) (p2p_openRetries x) (p2p_sessionIntents x) (p2p_hotPaths x)
    (p2p_pathStateLog x) (p2p_readLoopGen x) (p2p_rotating x) (p2p_lastRotation x) (p2p_rotationCount x)
    v (p2p_natType x) (p2p_out x) (p2p_go x).
Definition put_natType (v : string) (x : lanP2P) : lanP2P :=
  mkLanP2P (p2p_conn x) (p2p_upnpMapping x) (p2p_peers x) (p2p_peerConv x) (p2p_peerConvProfile x)
    (p2p_server x) (p2p_pathPolicy x) (p2p_tcpFastPath x) (p2p_deviceID x) (p2p_identity x)
    (p2p_wired x) (p2p_router x) (p2p_link x) (p2p_x25519Priv x) (p2p_x25519Pub x) (p2p_upnpAddr x)
    (p2p_registering x) (p2p_relayTimers x) (p2p_openRetries x) (p2p_sessionIntents x) (p2p_hotPaths x)
    (p2p_pathStateLog x) (p2p_readLoopGen x) (p2p_rotating x) (p2p_lastRotation x) (p2p_rotationCount x)
    (p2p_lastRotationReason x) v (p2p_out x) (p2p_go x).
Definition put_out (v : list p2p_effect) (x : lanP2P) : lanP2P :=
  mkLanP2P (p2p_conn x) (p2p_upnpMapping x) (p2p_peers x) (p2p_peerConv x) (p2p_peerConvProfile x)
    (p2p_server x) (p2p_pathPolicy x) (p2p_tcpFastPath x) (p2p_deviceID x) (p2p_identity x)
    (p2p_wired x) (p2p_router x) (p2p_link x) (p2p_x25519Priv x) (p2p_x25519Pub x) (p2p_upnpAddr x)
    (p2p_registering x) (p2p_relayTimers x) (p2p_openRetries x) (p2p_sessionIntents x) (p2p_hotPaths x)
    (p2p_pathStateLog x) (p2p_readLoopGen x) (p2p_rotating x) (p2p_lastRotation x) (p2p_rotationCount x)
    (p2p_lastRotationReason x) (p2p_natType x) v (p2p_go x).
Definition put_go (v : list goroutine) (x : lanP2P) : lanP2P :=
  mkLanP2P (p2p_conn x) (p2p_upnpMapping x) (p2p_peers x) (p2p_peerConv x) (p2p_peerConvProfile x)
    (p2p_server x) (p2p_pathPolicy x) (p2p_tcpFastPath x) (p2p_deviceID x) (p2p_identity x)
    (p2p_wired x) (p2p_router x) (p2p_link x) (p2p_x25519Priv x) (p2p_x25519Pub x) (p2p_upnpAddr x)
    (p2p_registering x) (p2p_relayTimers x) (p2p_openRetries x) (p2p_sessionIntents x) (p2p_hotPaths x)
    (p2p_pathStateLog x) (p2p_readLoopGen x) (p2p_rotating x) (p2p_lastRotation x) (p2p_rotationCount x)
    (p2p_lastRotationReason x) (p2p_natType x) (p2p_out x) v.

Definition emit (e : p2p_effect) (x : lanP2P) : lanP2P := put_out (p2p_out x ++ [e]) x.
Definition spawn (g : goroutine) (x : lanP2P) : lanP2P := put_go (p2p_go x ++ [g]) x.

(** A store through the pointer to a peer. *)
Definition upd (peerID : string) (f : lanP2PPeer -> lanP2PPeer) (x : lanP2P) : lanP2P :=
  put_peers (alter f peerID (p2p_peers x)) x.
