(* ===== verification/P2P.v ===== *)
(** * P2P: the peer-to-peer path of the LAN runtime (cmd/UDPTunnelLAN/packet_runtime.go)

    Sending and receiving frames, punching, the relay mode, the KCP tunnel and the
    rotation of the socket, as functions from the state [lanP2P] to the state. A step
    reads the outside (clock, name resolution, results of writes) from [penv]. Each
    function runs without interruption; what the code starts with [go] is in [p2p_go]
    and runs as a step of its own. Loops over the peers go in the order of
    [map_to_list]. *)

From S2P Require Import Prelude GoStrings Base64 Store Protocol Router Link LanIdentity Pending Paths P2PState.
From S2P Require Import Session Relay.
From S2P Require SecureFrame.

Definition lanPathP2PDatagram : string := "p2p_datagram".
Definition lanPathP2PKCP : string := "p2p_kcp".
Definition lanPathRelayUDP : string := "relay_udp".
Definition lanPathRelayHTTP : string := "relay_http".
Definition lanPunchSignalNone : Z := 0.
Definition lanPunchSignalIncoming : Z := 1.
Definition lanPunchSignalAck : Z := 2.
Definition lanRelayRotateAfter : Z := 3.
Definition lanRelayMaxAge : Duration := 60 * second.
Definition lanRotationCooldown : Duration := 60 * second.
Definition lanLongPunchInterval : Duration := 2 * second.
Definition lanActiveTrafficTTL : Duration := 30 * second.
Definition lanKCPFrameMax : nat := 64 * 1024.
Definition lanDatagramReadyFrame : string := "UDPTunnelLAN-DATAGRAM-READY".
Definition lanKCPReadyFrame : list byte := x00 :: bytes_of "LAN-KCP-READY" ++ [x0a].

(* ------------------------------------------------------------------ *)
(** ** Frames on a KCP stream *)

(** The bytes written, or an error. *)
Definition writeLANFrame (payload : list byte) : option (list byte) :=
  if decide (length payload = 0%nat \/ (lanKCPFrameMax < length payload)%nat) then None
  else Some (be_put 4 (u32 (Z.of_nat (length payload))) ++ payload).

(** The payload and the rest of the stream; [None] is an error, the end of the stream
    or a size out of range. *)
Definition readLANFrame (stream : list byte) : option (list byte * list byte) :=
  if decide (length stream < 4)%nat then None
  else
    let n := be_get (take 4 stream) in
    if decide (n = 0 \/ Z.of_nat lanKCPFrameMax < n) then None
    else if decide (Z.of_nat (length (drop 4 stream)) < n) then None
    else Some (take (Z.to_nat n) (drop 4 stream), drop (Z.to_nat n) (drop 4 stream)).

(** The dialer's end of [confirmLANKCPReady], on what the listener sends. *)
Definition waitLANKCPReadyAck (stream : list byte) : option (list byte) :=
  '(payload, rest) ← readLANFrame stream;
  if decide (payload = lanKCPReadyFrame) then Some rest else None.

(* ------------------------------------------------------------------ *)
(** ** The environment *)

Record penv : Type := mkPEnv {
  e_now : Time;
  e_resolve : string -> option string;          (* net.ResolveUDPAddr *)
  e_udp : string -> bool;                       (* WriteToUDP's error is nil, per destination *)
  e_kcp : nat -> bool;                          (* a write on a KCP connection succeeds *)
}.

(** [UnixNano] and [time.Unix(0, n)]. *)
Definition unix_epoch : Time := 62135596800 * second.
Definition UnixNano (t : Time) : Z := t - unix_epoch.
Definition from_UnixNano (n : Z) : Time := n + unix_epoch.

Definition hasActiveTraffic (now : Time) (peer : lanP2PPeer) (ttl : Duration) : bool :=
  if decide (ttl <= 0) then false
  else if decide (peer_lastTrafficAt peer <= 0) then false
  else bool_decide (time_sub now (from_UnixNano (peer_lastTrafficAt peer)) <= ttl).

Definition the_peer (x : lanP2P) (id : string) : option lanP2PPeer := p2p_peers x !! id.

(** [peer.punchSignals.Store], [punched.Store] and the like on one peer of the map. *)
Definition udp_relay : PeerEndpoint := mkPeerEndpoint EmptyString "udp-relay" EmptyString.
Definition upsert_link (now : Time) (peerID addr : string) (ready : bool) (x : lanP2P) : lanP2P :=
  put_link (UpsertPeer now (p2p_link x) (mkPeerEndpoint peerID addr EmptyString) udp_relay ready).2 x.

Section P2P.
  Context `{GU : GoUnicode} `{ED : Ed25519} `{MJ : MessageJSON} `{SC : SessionCrypto} `{XC : SecureFrame.SecureCrypto}.

(* ------------------------------------------------------------------ *)
(** ** Control messages and codecs *)

(** The write is skipped without a socket; its error is only logged. [dst] is nil
    when the server is. *)
Definition p2p_writeControl (e : penv) (dst : option string) (msg : Message) (x : lanP2P) : lanP2P :=
  match dst with
  | Some d => if p2p_conn x && e_udp e d then emit (SendUDP (Encode msg) d) x else x
  | None => x
  end.

Definition punch_message (x : lanP2P) (kind : string) : Message :=
  mkMessage kind (p2p_deviceID x) "" "" ProfileLANPacket "" "" lanDatagramReadyFrame 0 "".

Definition writeLANRegister (e : penv) (peerID : string) (x : lanP2P) : lanP2P :=
  match the_peer x peerID with
  | None => x
  | Some _ =>
    let ts := UnixNano (e_now e) / second in
    match SignRegisterPayload (p2p_identity x) (p2p_deviceID x) peerID ProfileLANPacket ts (p2p_x25519Pub x) with
    | Err _ => x
    | Ok sig =>
      let msg := mkMessage MsgLANRegister (p2p_deviceID x) "" peerID ProfileLANPacket "" (p2p_upnpAddr x)
                   (p2p_x25519Pub x) ts sig in
      let x := upd peerID (fun p => set_registers (u64 (peer_registers p + 1)) p) x in
      p2p_writeControl e (p2p_server x) msg x
    end
  end.

Definition ensurePeerCodecs (x : lanP2P) (peer : lanP2PPeer) : lanP2PPeer :=
  if decide (peer_tx peer <> None /\ peer_rx peer <> None) then peer
  else if decide (TrimSpace (peer_x25519Pub peer) = EmptyString) then peer
  else
    match lanPeerCodecsFromX25519 (p2p_x25519Priv x) (DecodeString (peer_x25519Pub peer)) (p2p_deviceID x) (peer_id peer) with
    | Err _ => peer
    | Ok (tx, rx) => set_rx rx (set_tx tx peer)
    end.

Definition registerPeerConvs (peerID : string) (x : lanP2P) : lanP2P :=
  if decide (TrimSpace peerID = EmptyString) then x
  else
    let lanConv := SecureFrame.ConvID "" (p2p_deviceID x) peerID ProfileLANPacket in
    let bulkConv := SecureFrame.ConvID "" (p2p_deviceID x) peerID ProfileBulk in
    put_peerConvProfile (<[bulkConv := ProfileBulk]> (<[lanConv := ProfileLANPacket]> (p2p_peerConvProfile x)))
      (put_peerConv (<[bulkConv := peerID]> (<[lanConv := peerID]> (p2p_peerConv x))) x).

(* ------------------------------------------------------------------ *)
(** ** Punching *)

(** [punching.CompareAndSwap(false, true)] and the goroutine. *)
Definition startPunchLoop (peerID : string) (x : lanP2P) : lanP2P :=
  match the_peer x peerID with
  | None => x
  | Some peer =>
    if peer_punching peer then x else spawn (GoPunchLoop peerID) (upd peerID (set_punching true) x)
  end.

(** One tick of the loop: [true] when it goes on. The interval, which only sets the
    time of the next tick, is left out. *)
Definition punch_tick (e : penv) (peerID : string) (x : lanP2P) : bool * lanP2P :=
  match the_peer x peerID with
  | None => (false, x)
  | Some peer =>
    if peer_punched peer then (false, x)
    else match peer_addr peer with
    | None => (true, x)
    | Some addr =>
      let msg := punch_message x MsgPunch in
      let x := p2p_writeControl e (Some addr) msg x in
      let x := match peer_upnpAddr peer with
               | Some u => if decide (u <> addr) then p2p_writeControl e (Some u) msg x else x
               | None => x
               end in
      if peer_longPunching peer && negb (hasActiveTraffic (e_now e) peer lanActiveTrafficTTL)
      then (false, upd peerID (fun p => set_punching false (set_longPunching false p)) x)
      else (true, x)
    end
  end.

Definition enableLongPunching (peerID : string) (x : lanP2P) : lanP2P :=
  match the_peer x peerID with
  | None => x
  | Some peer =>
    if peer_datagramReady peer || peer_connected peer then x
    else startPunchLoop peerID
      (upd peerID (fun p => set_punching false (set_punched false (set_relaySince 0 (set_isRelay false (set_longPunching true p))))) x)
  end.

(** [newPeerPacketConn]: nil without a socket. *)
Definition newPeerPacketConn (x : lanP2P) : bool := p2p_conn x.

Definition enableRelayMode (e : penv) (peerID : string) (x : lanP2P) : lanP2P :=
  if negb (relayAvailable (p2p_pathPolicy x)) then enableLongPunching peerID x
  else match the_peer x peerID with
  | None => x
  | Some peer =>
    if peer_punched peer then x
    else
      let x := upd peerID (fun p =>
        set_punched true
          (set_pc (peer_pc p || newPeerPacketConn x)
            (set_relaySince (UnixNano (e_now e)) (set_isRelay true (set_addr (p2p_server x) (set_longPunching false p)))))) x in
      if negb (RelayOnly (p2p_pathPolicy x)) && p2p_wired x then spawn (GoOpenTunnel peerID) x else x
  end.

Definition resetRelayTimer (peerID : string) (x : lanP2P) : lanP2P :=
  if decide (p2p_relayTimers x !! peerID = Some true) then x
  else spawn (GoRelayFallback peerID) (put_relayTimers (<[peerID := true]> (p2p_relayTimers x)) x).

(** The timer of [relayFallbackTimer] fires. *)
Definition relayFallbackTimer (e : penv) (peerID : string) (x : lanP2P) : lanP2P :=
  let x := put_relayTimers (<[peerID := false]> (p2p_relayTimers x)) x in
  if negb (relayAvailable (p2p_pathPolicy x)) then enableLongPunching peerID x else enableRelayMode e peerID x.

Definition enableRelayForBadNAT (e : penv) (x : lanP2P) : lanP2P :=
  if decide (p2p_natType x <> "symmetric_nat"%string) then x
  else fold_left (fun x id => enableRelayMode e id x) (map_to_list (p2p_peers x)).*1 x.

(** A new peer, or a new key for a known one. *)
Definition upsert_entry (peerID key : string) (x : lanP2P) : lanP2P :=
  match the_peer x peerID with
  | None => put_peers (<[peerID := new_peer peerID key]> (p2p_peers x)) x
  | Some _ => upd peerID (set_publicKey key) x
  end.

(** The relay at once when the policy prefers it, the fallback timer otherwise. *)
Definition upsert_relay (peerID : string) (x : lanP2P) : lanP2P :=
  if PreferRelay (p2p_pathPolicy x) && relayAvailable (p2p_pathPolicy x)
  then spawn (GoEnableRelay peerID (String.append "path_policy_" (pp_Name (p2p_pathPolicy x)))) x
  else if decide (p2p_relayTimers x !! peerID = Some true) then x
  else spawn (GoRelayFallback peerID) (put_relayTimers (<[peerID := true]> (p2p_relayTimers x)) x).

(** One peer of the loop of [UpsertPeers]; the two arguments are its id and key. *)
Definition upsert_one (x : lanP2P) (peer : string * string) : lanP2P :=
  let peerID := TrimSpace peer.1 in
  if decide (peerID = EmptyString \/ peerID = p2p_deviceID x) then x
  else
    let shouldRegister := match the_peer x peerID with
                          | None => true
                          | Some _ => negb (bool_decide (p2p_registering x !! peerID = Some true))
                          end in
    let x := registerPeerConvs peerID (upsert_entry peerID peer.2 x) in
    let x := if (shouldRegister : bool) then put_registering (<[peerID := true]> (p2p_registering x)) x else x in
    let x := upsert_relay peerID x in
    if (shouldRegister : bool) then spawn (GoRegisterLoop peerID) x else x.

Definition UpsertPeers (peers : list (string * string)) (x : lanP2P) : lanP2P := fold_left upsert_one peers x.

(* ------------------------------------------------------------------ *)
(** ** Hot paths *)

(** The guards of [rememberHotPath], then the two maps. *)
Definition rememberHotPath (now : Time) (peerID path : string) (x : lanP2P) : lanP2P :=
  match the_peer x peerID with
  | None => x
  | Some peer =>
    if peer_isRelay peer then x
    else match peer_addr peer with
    | None => x
    | Some addr =>
      let '(active, ints) := activeSessionIntentsForPeer now peerID (p2p_sessionIntents x) in
      put_hotPaths (remember_hot_paths now peerID addr path active (p2p_hotPaths x)) (put_sessionIntents ints x)
    end
  end.

Definition tryUseHotPath (e : penv) (intent : lanSessionIntent) (x : lanP2P) : lanP2P :=
  let peerID := si_PeerID intent in
  if negb (isLANHotPathPort (si_DstPort intent)) || RelayOnly (p2p_pathPolicy x) then x
  else
    let '(hot, m) := hotPath (e_now e) peerID (si_DstPort intent) (p2p_hotPaths x) in
    let x := put_hotPaths m x in
    match hot with
    | None => x
    | Some hot =>
      match e_resolve e (hp_PublicAddr hot) with
      | None => put_hotPaths (markHotPathFailure peerID (si_DstPort intent) "bad_addr" (p2p_hotPaths x)) x
      | Some addr =>
        match the_peer x peerID with
        | Some peer =>
          if peer_datagramReady peer || peer_connected peer then x
          else startPunchLoop peerID
                 (upd peerID (fun p => set_punched false (set_longPunching false (set_addr (Some addr) p))) x)
        | None => x
        end
      end
    end.

Definition RecordSessionIntent (e : penv) (frame : RoutedFrame) (x : lanP2P) : lanP2P :=
  match newLANSessionIntent frame (e_now e) with
  | None => x
  | Some intent =>
    let peerID := si_PeerID intent in
    match the_peer x peerID with
    | None => x
    | Some _ =>
      let x := put_sessionIntents (record_intent (e_now e) intent (p2p_sessionIntents x)) x in
      let x := upd peerID (fun p => set_lastTrafficAt (UnixNano (e_now e)) (set_lastTrafficClass (si_TrafficClass intent) p)) x in
      let x := tryUseHotPath e intent x in
      match the_peer x peerID with
      | Some peer =>
        if negb (peer_datagramReady peer) && negb (peer_connected peer) && negb (RelayOnly (p2p_pathPolicy x)) then
          startPunchLoop peerID
            (upd peerID (fun p => set_punched false
               (if relayAvailable (p2p_pathPolicy x) then p else set_longPunching true p)) x)
        else x
      | None => x
      end
    end
  end.

(** One path of [preheatLearnedPaths]. *)
Definition preheat_one (e : penv) (x : lanP2P) (hot : lanHotPath) : lanP2P :=
  match the_peer x (hp_PeerID hot) with
  | None => x
  | Some peer =>
    if peer_datagramReady peer || RelayOnly (p2p_pathPolicy x) then x
    else match e_resolve e (hp_PublicAddr hot) with
    | None => put_hotPaths (markHotPathFailure (hp_PeerID hot) (hp_DstPort hot) "preheat_bad_addr" (p2p_hotPaths x)) x
    | Some addr =>
      startPunchLoop (hp_PeerID hot) (upd (hp_PeerID hot) (fun p => set_punched false (set_addr (Some addr) p)) x)
    end
  end.

Definition preheatLearnedPaths (e : penv) (x : lanP2P) : lanP2P :=
  fold_left (preheat_one e)
    (filter (fun h => hp_PublicAddr h <> EmptyString) (map snd (map_to_list (p2p_hotPaths x)))) x.

Definition sendDueHotPathKeepAlive (e : penv) (x : lanP2P) (peerID : string) : lanP2P :=
  match the_peer x peerID with
  | None => x
  | Some peer =>
    if negb (peer_datagramReady peer) || peer_isRelay peer then x
    else match peer_addr peer with
    | None => x
    | Some addr =>
      let '(due, m) := due_keepalives (e_now e) peerID (p2p_hotPaths x) in
      let x := put_hotPaths m x in
      if decide (due = []) then x else p2p_writeControl e (Some addr) (punch_message x MsgPunch) x
    end
  end.

Definition sendDueHotPathKeepAlives (e : penv) (x : lanP2P) : lanP2P :=
  fold_left (sendDueHotPathKeepAlive e) (map_to_list (p2p_peers x)).*1 x.

(* ------------------------------------------------------------------ *)
(** ** Sending *)

(** [lantransport.Send] to a peer; the codec advances even if the write fails. *)
Definition datagram_send (e : penv) (peerID : string) (payload : list byte) (x : lanP2P) : bool * lanP2P :=
  match the_peer x peerID with
  | None => (false, x)
  | Some peer =>
    match peer_addr peer with
    | None => (false, x)
    | Some addr =>
      if negb (p2p_conn x) then (false, x)
      else
        let '(r, tx) := transport_Seal (peer_tx peer) payload in
        let x := upd peerID (set_tx tx) x in
        match r with
        | Err _ => (false, x)
        | Ok wire => if e_udp e addr then (true, emit (SendUDP wire addr) x) else (false, x)
        end
    end
  end.

(** [writeLANFrame] on a connection. *)
Definition kcp_write (e : penv) (conn : nat) (payload : list byte) (x : lanP2P) : bool * lanP2P :=
  match writeLANFrame payload with
  | None => (false, x)
  | Some wire => if e_kcp e conn then (true, emit (WriteKCP conn wire) x) else (false, x)
  end.

(** [peer.tx.Seal], through the pointer, then [writeLANFrame]. *)
Definition seal_and_write (e : penv) (peerID : string) (peer : lanP2PPeer) (conn : nat) (payload : list byte) (x : lanP2P)
  : bool * lanP2P :=
  let '(r, tx) := Session.Seal (peer_tx peer) payload in
  let x := upd peerID (set_tx tx) x in
  match r with
  | Err _ => (false, x)
  | Ok sealed => kcp_write e conn sealed x
  end.

Definition sendViaFastPath (e : penv) (frame : RoutedFrame) (peerID : string) (x : lanP2P) : bool * lanP2P :=
  match the_peer x peerID with
  | None => (false, x)
  | Some peer =>
    if negb (isLANTCPFastPathCandidate frame) then (false, x)
    else if EqualFold (TrimSpace (p2p_tcpFastPath x)) "off" || peer_datagramReady peer then (false, x)
    else match peer_throughputKCP peer with
    | None => (false, x)
    | Some conn =>
      if negb (peer_throughputTx peer) then (false, x)
      else seal_and_write e peerID peer conn (rf_Payload frame) x
    end
  end.

(** The KCP half of [Send]. *)
Definition kcp_send (e : penv) (peerID : string) (frame : RoutedFrame) (x : lanP2P) : bool * lanP2P :=
  match the_peer x peerID with
  | None => (false, x)
  | Some peer =>
    if negb (peer_connected peer) then (false, x)
    else match peer_kcp peer with
    | None => (false, x)
    | Some conn =>
      match peer_tx peer with
      | None => kcp_write e conn (rf_Payload frame) x
      | Some _ => seal_and_write e peerID peer conn (rf_Payload frame) x
      end
    end
  end.

(** [Send]: [true] when its error is nil. *)
Definition p2p_Send (e : penv) (frame : RoutedFrame) (x : lanP2P) : bool * lanP2P :=
  let peerID := rf_DstDevice frame in
  match the_peer x peerID with
  | None => (false, x)
  | Some peer =>
    if RelayOnly (p2p_pathPolicy x) then (false, x)
    else
      let x := upd peerID (fun p => set_lastTrafficAt (UnixNano (e_now e)) (set_lastTrafficClass (classifyLANFrame frame) p)) x in
      if PreferRelay (p2p_pathPolicy x) && negb (peer_datagramReady peer) then (false, x)
      else
        let '(ok, x) := sendViaFastPath e frame peerID x in
        if (ok : bool) then (true, x)
        else
          let '(ok, x) := if peer_datagramReady peer then datagram_send e peerID (rf_Payload frame) x else (false, x) in
          if (ok : bool) then (true, x) else kcp_send e peerID frame x
  end.

Definition CanRelay (x : lanP2P) (peerID : string) : bool :=
  match the_peer x peerID with
  | Some peer => bool_decide (peer_tx peer <> None /\ peer_rx peer <> None)
  | None => false
  end.

Definition SendUDPRelayFrame (e : penv) (frame : RoutedFrame) (x : lanP2P) : bool * lanP2P :=
  match p2p_server x with
  | None => (false, x)
  | Some server =>
    if negb (relayAvailable (p2p_pathPolicy x)) then (false, x)
    else match PackRelayFrame (mkRelayFrame (rf_SrcDevice frame) (rf_DstDevice frame) (rf_Payload frame)) with
    | None => (false, x)
    | Some wire =>
      if p2p_conn x && e_udp e server then (true, emit (SendUDP wire server) x) else (false, x)
    end
  end.

Definition with_payload (frame : RoutedFrame) (payload : list byte) : RoutedFrame :=
  mkRoutedFrame (rf_NetworkID frame) (rf_SrcDevice frame) (rf_DstDevice frame) (rf_PacketType frame) payload (rf_Header frame).

(** [None] is the error of a seal; the codecs of the frames before it have advanced. *)
Fixpoint SealRelayFrames (frames : list RoutedFrame) (x : lanP2P) : option (list RoutedFrame) * lanP2P :=
  match frames with
  | [] => (Some [], x)
  | frame :: rest =>
    match the_peer x (rf_DstDevice frame) with
    | None => SealRelayFrames rest x
    | Some peer =>
      match peer_tx peer with
      | None => SealRelayFrames rest x
      | Some _ =>
        let '(r, tx) := Session.Seal (peer_tx peer) (rf_Payload frame) in
        let x := upd (rf_DstDevice frame) (set_tx tx) x in
        match r with
        | Err _ => (None, x)
        | Ok sealed =>
          let '(out, x) := SealRelayFrames rest x in ((fun o => with_payload frame sealed :: o) <$> out, x)
        end
      end
    end
  end.

(* ------------------------------------------------------------------ *)
(** ** Receiving *)

(** A decrypted packet reaches the counters of the router and the link, and the TUN
    device. *)
Definition inbound (e : penv) (networkID : Z) (src dst path : string) (typ : byte) (payload : list byte) (x : lanP2P) : lanP2P :=
  let routed := mkRoutedFrame networkID src dst typ payload (mkIPv4Header 0 0 x00 [] [] 0 0 false 0) in
  let x := put_router (default (p2p_router x) (RecordInbound (Some (p2p_router x)) routed)) x in
  let x := put_link (Receive (e_now e) (p2p_link x) src payload path).2 x in
  emit (WritePacket payload) x.

(** [peer.rx.Open], through the pointer. *)
Definition peer_open (peerID : string) (data : list byte) (x : lanP2P) : result packet_error (list byte) * lanP2P :=
  match the_peer x peerID with
  | None => (Err ErrBadKey, x)
  | Some peer => let '(r, rx) := Session.Open (peer_rx peer) data in (r, upd peerID (set_rx rx) x)
  end.

Definition handleDatagramFrame (e : penv) (peerID : string) (data : list byte) (x : lanP2P) : lanP2P :=
  match the_peer x peerID with
  | None => x
  | Some peer =>
    if bool_decide (peer_rx peer = None) || negb (p2p_wired x) then x
    else match peer_open peerID data x with
    | (Err _, x) => x
    | (Ok payload, x) => inbound e 0 peerID (p2p_deviceID x) LinkPathP2P TypeIPv4 payload x
    end
  end.

Definition handleUDPRelayFrame (e : penv) (data : list byte) (x : lanP2P) : lanP2P :=
  match UnpackRelayFrameView data with
  | None => x
  | Some frame =>
    match the_peer x (SrcDevice frame) with
    | None => x
    | Some peer =>
      if decide (peer_rx peer = None) then x
      else match peer_open (SrcDevice frame) (Payload frame) x with
      | (Err _, x) => x
      | (Ok payload, x) => inbound e 0 (SrcDevice frame) (p2p_deviceID x) LinkPathRelay TypeIPv4 payload x
      end
    end
  end.

Definition OpenRelayFrame (frame : RoutedFrame) (x : lanP2P) : option RoutedFrame * lanP2P :=
  match the_peer x (rf_SrcDevice frame) with
  | None => (None, x)
  | Some peer =>
    if decide (peer_rx peer = None) then (None, x)
    else match peer_open (rf_SrcDevice frame) (rf_Payload frame) x with
    | (Err _, x) => (None, x)
    | (Ok plain, x) => (Some (with_payload frame plain), x)
    end
  end.

(** One frame of the loop of [pollRelayPackets]. *)
Definition poll_frame (e : penv) (x : lanP2P) (frame : lanPacketRelayFrame) : lanP2P :=
  match DecodeString (q_Payload frame) with
  | None => x
  | Some payload =>
    let routed := mkRoutedFrame (q_NetworkID frame) (q_SrcDevice frame) (q_DstDevice frame) (q_Type frame) payload
                    (mkIPv4Header 0 0 x00 [] [] 0 0 false 0) in
    match OpenRelayFrame routed x with
    | (None, x) => x
    | (Some plain, x) =>
      inbound e (rf_NetworkID plain) (rf_SrcDevice plain) (rf_DstDevice plain) LinkPathRelay (rf_PacketType plain)
        (rf_Payload plain) x
    end
  end.

(** A payload read from a KCP connection, in [readTunnelFrames] and
    [readThroughputTunnelFrames]; [has_rx] is whether the codec pointer is set. *)
Definition tunnel_payload (e : penv) (peerID : string) (has_rx : lanP2PPeer -> bool) (path : lanP2PPeer -> string)
  (payload : list byte) (x : lanP2P) : lanP2P :=
  match the_peer x peerID with
  | None => x
  | Some peer =>
    if has_rx peer then
      match peer_open peerID payload x with
      | (Err _, x) => x
      | (Ok plain, x) => inbound e 0 peerID (p2p_deviceID x) (path peer) TypeIPv4 plain x
      end
    else inbound e 0 peerID (p2p_deviceID x) (path peer) TypeIPv4 payload x
  end.

Definition readTunnelFrames_frame (e : penv) (peerID : string) (payload : list byte) (x : lanP2P) : lanP2P :=
  tunnel_payload e peerID (fun p => bool_decide (peer_rx p <> None))
    (fun p => if peer_isRelay p then LinkPathRelay else LinkPathP2P) payload x.

Definition readThroughputTunnelFrames_frame (e : penv) (peerID : string) (payload : list byte) (x : lanP2P) : lanP2P :=
  tunnel_payload e peerID peer_throughputRx (fun _ => LinkPathP2P) payload x.

Definition readTunnelFrames_error (peerID : string) (conn : nat) (x : lanP2P) : lanP2P :=
  match the_peer x peerID with
  | None => x
  | Some peer =>
    let x :=
      if decide (peer_kcp peer = Some conn) then
        let x := upd peerID (fun p =>
          set_punchSignals 0 (set_datagramReady false (set_isRelay false (set_punching false
            (set_punched false (set_connected false (set_kcp None p))))))) x in
        let x := put_hotPaths (markHotPathsForPeerFailed peerID "kcp_read_failed" (p2p_hotPaths x)) x in
        resetRelayTimer peerID x
      else x in
    emit (CloseKCP conn) x
  end.

Definition readThroughputTunnelFrames_error (peerID : string) (conn : nat) (x : lanP2P) : lanP2P :=
  match the_peer x peerID with
  | None => x
  | Some peer =>
    let x := if decide (peer_throughputKCP peer = Some conn)
             then upd peerID (fun p => set_throughputPC false (set_throughputKCP None p)) x else x in
    emit (CloseKCP conn) x
  end.

(* ------------------------------------------------------------------ *)
(** ** The datagram path *)

Definition codecs_set (peer : lanP2PPeer) : bool := bool_decide (peer_tx peer <> None /\ peer_rx peer <> None).

Definition useDatagramFastPath (e : penv) (peerID : string) (x : lanP2P) : bool * lanP2P :=
  match the_peer x peerID with
  | None => (false, x)
  | Some peer =>
    if negb (peer_datagramReady peer) || negb (codecs_set peer) then (false, x)
    else if peer_isRelay peer && RelayOnly (p2p_pathPolicy x) then (false, x)
    else match peer_addr peer with
    | None => (false, x)
    | Some addr =>
      let x := upd peerID (fun p => set_relaySince 0 (set_isRelay false p)) x in
      let x := upsert_link (e_now e) peerID addr true x in
      (true, rememberHotPath (e_now e) peerID lanPathP2PDatagram x)
    end
  end.

Definition markDatagramReadyIfConfirmed (e : penv) (peerID : string) (x : lanP2P) : bool * lanP2P :=
  match the_peer x peerID with
  | None => (false, x)
  | Some peer =>
    if negb (codecs_set peer) then (false, x)
    else if decide (Z.land (peer_punchSignals peer) 3 <> 3) then (false, x)
    else (true, rememberHotPath (e_now e) peerID lanPathP2PDatagram (upd peerID (set_datagramReady true) x))
  end.

Definition markPunchSignal (e : penv) (peerID : string) (signal : Z) (x : lanP2P) : bool * lanP2P :=
  if decide (signal = lanPunchSignalNone) then (false, x)
  else markDatagramReadyIfConfirmed e peerID
         (upd peerID (fun p => set_punchSignals (Z.lor (peer_punchSignals p) signal) p) x).

Definition openTunnelUnlessDatagramReady (e : penv) (peerID : string) (x : lanP2P) : lanP2P :=
  if RelayOnly (p2p_pathPolicy x) then x
  else
    let '(ok, x) := useDatagramFastPath e peerID x in
    if (ok : bool) then x else spawn (GoOpenTunnel peerID) x.

(* ------------------------------------------------------------------ *)
(** ** Relay failures and the rotation of the socket *)

Definition hasReadyPeer (except : string) (x : lanP2P) : bool :=
  existsb (fun e => bool_decide (e.1 <> except) && peer_connected e.2 && bool_decide (peer_kcp e.2 <> None))
    (map_to_list (p2p_peers x)).

Definition maybeRotateSocketAfterRelayFailure (e : penv) (peerID reason : string) (x : lanP2P) : bool * lanP2P :=
  match the_peer x peerID with
  | None => (false, x)
  | Some peer =>
    if negb (peer_isRelay peer) then (false, x)
    else if negb (relayAvailable (p2p_pathPolicy x)) then (false, x)
    else if hasActiveTraffic (e_now e) peer lanActiveTrafficTTL then (false, x)
    else
      let failures := u64 (peer_openFailures peer + 1) in
      let x := upd peerID (set_openFailures failures) x in
      let relayAge := if decide (0 < peer_relaySince peer)
                      then time_sub (e_now e) (from_UnixNano (peer_relaySince peer)) else 0 in
      if decide (failures < lanRelayRotateAfter /\ relayAge < lanRelayMaxAge) then (false, x)
      else if hasReadyPeer peerID x then (false, x)
      else (true, spawn (GoRotate reason) x)
  end.

Definition scheduleOpenRetry (peerID : string) (x : lanP2P) : lanP2P :=
  if decide (p2p_openRetries x !! peerID = Some true) then x
  else spawn (GoOpenRetry peerID) (put_openRetries (<[peerID := true]> (p2p_openRetries x)) x).

(** The goroutine of [scheduleOpenRetry], when its timer fires. *)
Definition openRetry_fires (e : penv) (peerID : string) (x : lanP2P) : lanP2P :=
  let x := put_openRetries (<[peerID := false]> (p2p_openRetries x)) x in
  match the_peer x peerID with
  | None => x
  | Some peer =>
    if peer_connected peer || negb (peer_punched peer) then x
    else
      let '(ok, x) := useDatagramFastPath e peerID x in
      if (ok : bool) then x else spawn (GoOpenTunnel peerID) x
  end.

Definition close_pc (peerID : string) (peer : lanP2PPeer) (x : lanP2P) : lanP2P :=
  if peer_pc peer then emit (ClosePC peerID) x else x.

Definition resetPeerAfterOpenFailure (e : penv) (peerID : string) (kcpConn : option nat) (x : lanP2P) : lanP2P :=
  match the_peer x peerID with
  | None => x
  | Some peer =>
    let x := match kcpConn with Some c => emit (CloseKCP c) x | None => x end in
    let x := close_pc peerID peer x in
    let kcp := if decide (peer_kcp peer = kcpConn) then None else peer_kcp peer in
    if peer_isRelay peer then
      let x := upd peerID (fun p =>
        set_punching false (set_punched true (set_pc (newPeerPacketConn x)
          (set_addr (p2p_server x) (set_connected false (set_kcp kcp p)))))) x in
      let '(rotated, x) := maybeRotateSocketAfterRelayFailure e peerID "relay_open_failed" x in
      if (rotated : bool) then x else scheduleOpenRetry peerID x
    else
      resetRelayTimer peerID (upd peerID (fun p =>
        set_punchSignals 0 (set_datagramReady false (set_punching false (set_punched false
          (set_pc false (set_connected false (set_kcp kcp p))))))) x)
  end.

Definition reset_flags (p : lanP2PPeer) : lanP2PPeer :=
  set_upnpAddr None (set_addr None (set_relaySince 0 (set_openFailures 0 (set_punchSignals 0 (set_longPunching false
    (set_datagramReady false (set_isRelay false (set_punching false (set_punched false (set_connected false
      (set_pc false (set_kcp None p)))))))))))).

(** One peer of [resetAllPeersAfterSocketRotation]. *)
Definition reset_peer (x : lanP2P) (peerID : string) : lanP2P :=
  match the_peer x peerID with
  | None => x
  | Some peer =>
    let x := match peer_kcp peer with Some c => emit (CloseKCP c) x | None => x end in
    let x := close_pc peerID peer x in
    resetRelayTimer peerID (upd peerID reset_flags x)
  end.

Definition resetAllPeersAfterSocketRotation (x : lanP2P) : lanP2P :=
  fold_left reset_peer (map_to_list (p2p_peers x)).*1 (put_openRetries ∅ (put_relayTimers ∅ x)).

Definition startReadLoop (x : lanP2P) : lanP2P :=
  if p2p_conn x then
    let gen := u64 (p2p_readLoopGen x + 1) in spawn (GoReadLoop gen) (put_readLoopGen gen x)
  else x.

Definition reregisterAllPeers (e : penv) (x : lanP2P) : lanP2P :=
  fold_left (fun x id => writeLANRegister e id x) (map_to_list (p2p_peers x)).*1 x.

(** [listen] is the result of [net.ListenUDP], [None] an error, with the address UPnP
    maps it to, if any. *)
Definition rotateSocketAndRestartPunch (e : penv) (listen : option (option string)) (reason : string) (x : lanP2P) : lanP2P :=
  if p2p_rotating x then x
  else if decide (time_sub (e_now e) (from_UnixNano (p2p_lastRotation x)) < lanRotationCooldown /\
                  IsZero (from_UnixNano (p2p_lastRotation x)) = false) then x
  else match listen with
  | None => x
  | Some upnp =>
    let old := p2p_conn x in
    let x := put_conn true (put_upnpMapping (bool_decide (upnp <> None)) (put_upnpAddr (default EmptyString upnp)
               (put_lastRotation (UnixNano (e_now e)) (put_rotationCount (u64 (p2p_rotationCount x + 1))
                 (put_lastRotationReason reason x))))) in
    let x := if (old : bool) then emit CloseSocket x else x in
    let x := startReadLoop (resetAllPeersAfterSocketRotation x) in
    let x := if p2p_upnpMapping x then spawn GoRefreshUPnP x else x in
    reregisterAllPeers e x
  end.

Definition closeCurrentSocket (x : lanP2P) : lanP2P :=
  let old := p2p_conn x in
  let x := put_conn false (put_upnpMapping false (put_upnpAddr EmptyString x)) in
  if (old : bool) then emit CloseSocket x else x.

(* ------------------------------------------------------------------ *)
(** ** The KCP tunnels *)

(** [openTunnel] up to [tunnel.Open]: [true] when it goes on. *)
Definition openTunnel_start (e : penv) (peerID : string) (x : lanP2P) : bool * lanP2P :=
  let '(ok, x) := useDatagramFastPath e peerID x in
  if (ok : bool) then (false, x)
  else match the_peer x peerID with
  | None => (false, x)
  | Some peer =>
    if peer_connected peer then (false, x)
    else if negb (p2p_wired x) then (false, x)
    else (true, upd peerID (fun p => set_pc (peer_pc p || newPeerPacketConn x) (set_connected true p)) x)
  end.

Definition shouldOpenThroughputFastPath (x : lanP2P) : bool := bool_decide (TrimSpace (p2p_tcpFastPath x) <> "off"%string).

Definition valueOrDash (value : string) : string :=
  if decide (TrimSpace value = EmptyString) then "-" else TrimSpace value.

(** [openTunnel] after [tunnel.Open] and [confirmLANKCPReady] succeeded. *)
Definition openTunnel_ready (e : penv) (peerID : string) (conn : nat) (x : lanP2P) : lanP2P :=
  let x := upd peerID (fun p => set_relaySince 0 (set_openFailures 0 (set_kcp (Some conn) p))) x in
  match the_peer x peerID with
  | None => x
  | Some peer =>
    let x := upsert_link (e_now e) peerID
               (valueOrDash (default EmptyString (peer_addr peer)))
               (negb (peer_isRelay peer)) x in
    let x := if peer_isRelay peer then x else rememberHotPath (e_now e) peerID lanPathP2PKCP x in
    let x := spawn (GoReadTunnel peerID conn) x in
    if shouldOpenThroughputFastPath x then spawn (GoOpenThroughput peerID) x else x
  end.

Definition openThroughputTunnel_start (peerID : string) (x : lanP2P) : bool * lanP2P :=
  match the_peer x peerID with
  | None => (false, x)
  | Some peer =>
    if negb (p2p_wired x) then (false, x)
    else
      let pc := peer_throughputPC peer || newPeerPacketConn x in
      (pc, upd peerID (fun p => set_throughputRx (bool_decide (peer_rx p <> None))
             (set_throughputTx (bool_decide (peer_tx p <> None)) (set_throughputPC pc p))) x)
  end.

Definition openThroughputTunnel_ready (peerID : string) (conn : nat) (x : lanP2P) : lanP2P :=
  spawn (GoReadThroughput peerID conn)
    (upd peerID (fun p => set_throughputRx (bool_decide (peer_rx p <> None))
       (set_throughputTx (bool_decide (peer_tx p <> None)) (set_throughputKCP (Some conn) p))) x).

(* ------------------------------------------------------------------ *)
(** ** Received datagrams *)

(** The two punch messages differ in their signal and in the answer. *)
Definition handle_punch (e : penv) (src : string) (msg : Message) (signal : Z) (x : lanP2P) : lanP2P :=
  let peerID := From msg in
  match the_peer x peerID with
  | None => x
  | Some peer =>
    let x := if negb (peer_isRelay peer) || negb (RelayOnly (p2p_pathPolicy x))
             then upd peerID (set_addr (Some src)) x else x in
    let '(confirmed, x) := if decide (msg_Payload msg = lanDatagramReadyFrame) then markPunchSignal e peerID signal x
                           else (false, x) in
    let x :=
      if negb (peer_punched peer) then
        openTunnelUnlessDatagramReady e peerID (upd peerID (set_punched true) x)
      else if peer_isRelay peer && (confirmed : bool) && negb (RelayOnly (p2p_pathPolicy x)) then
        openTunnelUnlessDatagramReady e peerID x
      else x in
    upsert_link (e_now e) peerID src true x
  end.

Definition handle_peer_info (e : penv) (msg : Message) (x : lanP2P) : lanP2P :=
  let peerID := Peer msg in
  match the_peer x peerID with
  | None => x
  | Some peer0 =>
    let x := upd peerID (fun p => ensurePeerCodecs x (set_x25519Pub (msg_Payload msg) p)) x in
    match e_resolve e (Addr msg) with
    | None => x
    | Some addr =>
      let x := if negb (peer_isRelay peer0) || negb (RelayOnly (p2p_pathPolicy x))
               then upd peerID (set_addr (Some addr)) x else x in
      let x := upd peerID (fun p => set_pc (peer_pc p || newPeerPacketConn x) p) x in
      let x := if decide (TrimSpace (UpnpAddr msg) = EmptyString) then x
               else match e_resolve e (UpnpAddr msg) with
                    | None => x
                    | Some u => upd peerID (set_upnpAddr (Some u)) x
                    end in
      let x := match the_peer x peerID with
               | Some p => if codecs_set p then upsert_link (e_now e) peerID addr true x else x
               | None => x
               end in
      let x := startPunchLoop peerID x in
      if negb (peer_isRelay peer0) && peer_punched peer0 && negb (peer_connected peer0)
      then openTunnelUnlessDatagramReady e peerID x else x
    end
  end.

Definition p2p_handleControl (e : penv) (data : list byte) (src : string) (x : lanP2P) : lanP2P :=
  match Decode data with
  | None => x
  | Some msg =>
    if decide (Type_ msg ∉ [MsgPeerInfo; MsgPunch; MsgPunchAck]) then x
    else if decide (NormalizeProfile (msg_Profile msg) <> ProfileLANPacket) then x
    else if decide (Type_ msg = MsgPeerInfo) then handle_peer_info e msg x
    else if decide (Type_ msg = MsgPunch) then
      match the_peer x (From msg) with
      | None => x
      | Some _ =>
        p2p_writeControl e (Some src) (punch_message x MsgPunchAck) (handle_punch e src msg lanPunchSignalIncoming x)
      end
    else handle_punch e src msg lanPunchSignalAck x
  end.

Definition peerIDByAddr (addr : string) (x : lanP2P) : string :=
  match List.find (fun e : string * lanP2PPeer => bool_decide (peer_addr e.2 = Some addr)) (map_to_list (p2p_peers x)) with
  | Some (id, _) => id
  | None => EmptyString
  end.

(** [binary.LittleEndian.Uint32]. *)
Definition peerIDByConv (data : list byte) (x : lanP2P) : string * string :=
  if decide (length data < 4)%nat then (EmptyString, EmptyString)
  else
    let conv := be_get (rev (take 4 data)) in
    (default EmptyString (p2p_peerConv x !! conv), default EmptyString (p2p_peerConvProfile x !! conv)).

(** The id of the peer, when there is one, and the profile. *)
Definition peerForPacket (data : list byte) (addr : string) (x : lanP2P) : option string * string :=
  let known id := match the_peer x id with Some _ => Some id | None => None end in
  let '(id, profile) := peerIDByConv data x in
  if decide (id <> EmptyString) then (known id, profile) else (known (peerIDByAddr addr x), EmptyString).

(** The body of [readLoop]. *)
Definition readLoop_step (e : penv) (data : list byte) (src : string) (x : lanP2P) : lanP2P :=
  if IsRelayFrame data then handleUDPRelayFrame e data x
  else if decide (head data = Some x7b) then p2p_handleControl e data src x
  else match peerForPacket data src x with
  | (None, _) => x
  | (Some peerID, profile) =>
    if IsFrame data then handleDatagramFrame e peerID data x
    else match the_peer x peerID with
    | None => x
    | Some peer =>
      if bool_decide (profile = ProfileBulk) && peer_throughputPC peer then emit (FeedPC peerID true data src) x
      else if peer_pc peer then emit (FeedPC peerID false data src) x else x
    end
  end.

(* ------------------------------------------------------------------ *)
(** ** Status *)

Definition peerDataPath (now : Time) (peerID : string) (x : lanP2P) : string * string :=
  match the_peer x peerID with
  | None => ("", "peer_unavailable")
  | Some peer =>
    if peer_datagramReady peer && negb (peer_isRelay peer) then (lanPathP2PDatagram, "p2p_ready")
    else if peer_connected peer then
      if peer_isRelay peer then (lanPathRelayUDP, "relay_mode") else (lanPathP2PKCP, "kcp_connected")
    else if peer_isRelay peer then
      if negb (relayAvailable (p2p_pathPolicy x)) then ("", "relay_disabled") else (lanPathRelayUDP, "p2p_timeout")
    else if peer_longPunching peer then ("", "long_punching")
    else if peer_punched peer then
      if decide (peer_punchSignals peer <> 0) then ("", "one_way_p2p") else ("", "punched_waiting_tunnel")
    else if negb (relayAvailable (p2p_pathPolicy x)) && negb (hasActiveTraffic now peer lanActiveTrafficTTL)
    then ("", "unreachable")
    else ("", "p2p_connecting")
  end%string.

Definition currentTrafficClass (peerID : string) (x : lanP2P) : string :=
  default EmptyString (peer_lastTrafficClass <$> the_peer x peerID).

(** [true] when the transition is logged. *)
Definition logPathState (peerID dataPath reason : string) (x : lanP2P) : bool * lanP2P :=
  if decide (TrimSpace peerID = EmptyString) then (false, x)
  else
    let key := String.append (TrimSpace dataPath) (String.append "|" (TrimSpace reason)) in
    if decide (default EmptyString (p2p_pathStateLog x !! peerID) = key) then (false, x)
    else (true, put_pathStateLog (<[peerID := key]> (p2p_pathStateLog x)) x).

Definition has_prefix (p s : string) : bool := starts_with (bytes_of p) (bytes_of s).

(** The three functions take a [p2p] that is not nil. *)
Definition lanNATTypeForPeer (peerID dataPath : string) (x : lanP2P) : string :=
  if negb (relayAvailable (p2p_pathPolicy x)) && bool_decide (TrimSpace dataPath = EmptyString) then "relay_disabled"
  else if decide (TrimSpace (p2p_upnpAddr x) <> EmptyString) then "upnp_mapped"
  else if decide (TrimSpace (p2p_natType x) <> EmptyString /\ p2p_natType x <> "unknown"%string) then p2p_natType x
  else if RelayOnly (p2p_pathPolicy x) then "relay_only"
  else if PreferRelay (p2p_pathPolicy x) && has_prefix "relay_" dataPath then "relay_first"
  else match the_peer x peerID with
       | Some peer => if peer_isRelay peer then "relay_required" else "unknown"
       | None => "unknown"
       end.

Definition lanFallbackReason (dataPath pathReason : string) (x : lanP2P) : string :=
  if negb (has_prefix "relay_" dataPath) then
    if negb (relayAvailable (p2p_pathPolicy x)) && bool_decide (TrimSpace pathReason = "relay_disabled"%string)
    then "relay_disabled" else ""
  else if RelayOnly (p2p_pathPolicy x) then "path_policy_relay_only"
  else if PreferRelay (p2p_pathPolicy x) then "path_policy_prefer_relay"
  else if decide (TrimSpace pathReason <> EmptyString) then pathReason
  else "relay_fallback".

Definition lanTCPFastPathState (policy trafficClass : string) : string :=
  let policy := if decide (TrimSpace policy = EmptyString) then "auto"%string else TrimSpace policy in
  if decide (policy = "off"%string) then "off"
  else if decide (policy = "force"%string) then "force_candidate"
  else if decide (trafficClass = lanTrafficThroughput) then "auto_candidate"
  else "auto_idle".

Definition lanDataPathFromSession (session : PeerSession) : string :=
  if decide (Path session = LinkPathP2P) then lanPathP2PKCP
  else if decide (Path session = LinkPathRelay) then lanPathRelayHTTP else "".

Definition lanPathReasonFromSession (session : PeerSession) : string :=
  if decide (Path session = LinkPathP2P) then "link_p2p"
  else if decide (Path session = LinkPathRelay) then "link_relay" else "link_unavailable".

Record lanRuntimeDiagnostics : Type := mkDiagnostics {
  rd_RelayDisabled : bool; rd_SocketRotations : Z; rd_LastRotationAt : string; rd_LastRotationReason : string;
  rd_HotPaths : Z; rd_ActiveSessions : Z;
}.

Definition diagnosticsSnapshot `{GT : GoTime} (now : Time) (x : lanP2P) : lanRuntimeDiagnostics * lanP2P :=
  let '(hot, hs) := hotPathCount now (p2p_hotPaths x) in
  let '(sessions, ints) := sessionIntentCount now (p2p_sessionIntents x) in
  let x := put_sessionIntents ints (put_hotPaths hs x) in
  (mkDiagnostics (negb (relayAvailable (p2p_pathPolicy x))) (p2p_rotationCount x)
     (if decide (0 < p2p_lastRotation x) then RFC3339 (from_UnixNano (p2p_lastRotation x)) else EmptyString)
     (p2p_lastRotationReason x) (Z.of_nat hot) (Z.of_nat sessions), x).

(** One session of a round of [reportLANPeerRuntime]; [peerUnavailable] is the drop
    counter of the router, [prev] the bytes of the last round. *)
Definition report_session `{GT : GoTime} (now : Time) (deviceID : string) (networkID mtu mss : Z) (tcpFastPath : string)
  (peerUnavailable : Z) (prev : Z) (session : PeerSession) (x : lanP2P) : VirtualPeerState * Z * lanP2P :=
  let peerID := PeerID session in
  let total := u64 (s_TxBytes session + s_RxBytes session) in
  let estimatedBps := if decide (prev <= total) then Z.quot (i64 (total - prev)) 10 else 0 in
  let '(dataPath, reason) := peerDataPath now peerID x in
  let x := (logPathState peerID dataPath reason x).2 in
  let dataPath := if decide (dataPath = EmptyString) then lanDataPathFromSession session else dataPath in
  let reason := if decide (reason = EmptyString) then lanPathReasonFromSession session else reason in
  let natType := lanNATTypeForPeer peerID dataPath x in
  let fallbackReason := lanFallbackReason dataPath reason x in
  let trafficClass := currentTrafficClass peerID x in
  let '(diag, x) := diagnosticsSnapshot now x in
  let handshake :=
    if decide (LastSentAt session < LastRecvAt session) then RFC3339 (LastRecvAt session)
    else if IsZero (LastSentAt session) then EmptyString else RFC3339 (LastSentAt session) in
  (mkVirtualPeerState deviceID peerID networkID (State session) (Path session) dataPath reason natType fallbackReason
     trafficClass (lanTCPFastPathState tcpFastPath trafficClass) "up" EmptyString EmptyString mtu mss 0 estimatedBps
     (i64 (s_TxBytes session)) (i64 (s_RxBytes session))
     (if decide (0 < peerUnavailable) then "peer_unavailable"%string else EmptyString) (LastError session)
     (rd_ActiveSessions diag) (rd_HotPaths diag) (rd_RelayDisabled diag) (rd_SocketRotations diag)
     (rd_LastRotationAt diag) (rd_LastRotationReason diag) handshake (RFC3339 (LastSeenAt session)) EmptyString,
   total, x).

(* ------------------------------------------------------------------ *)
(** ** The start *)

(** What [startLANP2P] stores before it touches the peers. [mapping] is the address
    UPnP gives the socket, if any, and [nat] what [detectLANNAT] finds. *)
Definition startLANP2P_state (server deviceID : string) (id : Identity) (priv : list byte) (pub : string)
  (policy : lanPathPolicyConfig) (relay_enabled : bool) (tcpFastPath : string) (mapping : option string) (nat : string)
  (r : Router) (l : LinkManager) : lanP2P :=
  let policy := mkPathPolicy (pp_Name policy) (PreferRelay policy) (RelayOnly policy) relay_enabled true in
  mkLanP2P true (bool_decide (mapping <> None)) ∅ ∅ ∅ (Some server) policy (TrimSpace tcpFastPath) deviceID id true r l
    priv pub (default EmptyString mapping) ∅ ∅ ∅ ∅ ∅ ∅ 0 false 0 0 EmptyString
    (match mapping with Some _ => "upnp_mapped"%string | None => nat end) []
    (match mapping with Some _ => [GoRefreshUPnP] | None => [] end).

Definition startLANP2P `{GT : GoTime} (e : penv) (peers : list (string * string)) (paths : list VirtualLearnedPath)
  (x : lanP2P) : lanP2P :=
  let x := UpsertPeers peers x in
  let x := put_hotPaths (LoadLearnedPaths (e_now e) paths (p2p_hotPaths x)) x in
  startReadLoop (enableRelayForBadNAT e x).

(* ------------------------------------------------------------------ *)
(** ** NAT detection *)

Definition stunPort (addr : string) : Z :=
  match SplitHostPort (TrimSpace addr) with
  | None => 0
  | Some (_, port) => default 0 (Atoi port)
  end.

(** What [detectLANNAT] makes of the answers of the two ports of the server; [None]
    is a request that failed or had an empty answer. *)
Definition detectLANNAT (primary secondary : option string) : string :=
  match primary, secondary with
  | Some a, Some b =>
    if decide (stunPort a <> 0 /\ stunPort b <> 0 /\ stunPort a <> stunPort b) then "symmetric_nat" else "stable_mapping"
  | _, _ => "unknown"
  end.

(** The loop of [requestLANSTUN], over the datagrams read before the deadline. *)
Fixpoint requestLANSTUN (received : list (list byte)) : option string :=
  match received with
  | [] => None
  | data :: rest =>
    match Decode data with
    | None => requestLANSTUN rest
    | Some resp =>
      if decide (Type_ resp <> MsgStunResp) then requestLANSTUN rest
      else if decide (Addr resp = EmptyString) then None else Some (Addr resp)
    end
  end.

End P2P.
