(* ===== verification/P2PInv.v ===== *)
(** * P2PInv: what holds of the peer-to-peer path in every run

    The runtime as a transition system: datagrams, timers, results of [tunnel.Open],
    frames to send and the goroutines that wait in [p2p_go] interleave in any order.
    The invariant ties the flags of a peer together. *)

From S2P Require Import Prelude GoStrings Base64 Store Protocol Router Link LanIdentity Pending Paths P2PState P2P.
From S2P Require Import Session Relay.
From S2P Require SecureFrame.

(* ------------------------------------------------------------------ *)
(** ** The invariant *)

Record peer_inv (pol : lanPathPolicyConfig) (self id : string) (p : lanP2PPeer) : Prop := {
  pi_id : peer_id p = id;
  pi_name : TrimSpace id = id /\ id <> EmptyString /\ id <> self;
  pi_signals : 0 <= peer_punchSignals p <= 3;
  pi_codecs : peer_tx p = None <-> peer_rx p = None;
  pi_confirmed : peer_datagramReady p = true -> codecs_set p = true /\ peer_punchSignals p = 3;
  pi_punched : peer_datagramReady p = true -> peer_punched p = true;
  pi_relay : peer_isRelay p = true -> relayAvailable pol = true;
  pi_relay_only : RelayOnly pol = true ->
    peer_kcp p = None /\ peer_throughputKCP p = None /\ peer_connected p = false;
}.

(** The goroutines that belong to a KCP tunnel. *)
Definition tunnel_token (g : goroutine) : Prop :=
  match g with
  | GoOpenTunnel _ | GoOpenThroughput _ | GoOpening _ | GoOpeningThroughput _ | GoOpenRetry _
  | GoReadTunnel _ _ | GoReadThroughput _ _ => True
  | _ => False
  end.

Definition peers_ok (x : lanP2P) : Prop := map_Forall (peer_inv (p2p_pathPolicy x) (p2p_deviceID x)) (p2p_peers x).
Definition tokens_ok (x : lanP2P) : Prop :=
  RelayOnly (p2p_pathPolicy x) = true -> Forall (fun g => ~ tunnel_token g) (p2p_go x).
Definition ok (x : lanP2P) : Prop := peers_ok x /\ tokens_ok x.

Create HintDb p2p discriminated.

Lemma upd_lookup id f x k : the_peer (upd id f x) k = if decide (k = id) then f <$> the_peer x k else the_peer x k.
Proof. unfold the_peer, upd. simpl. case_decide; subst; [by rewrite lookup_alter_eq|by rewrite lookup_alter_ne]. Qed.

Lemma upd_ok id f x :
  ok x -> (forall p, the_peer x id = Some p -> peer_inv (p2p_pathPolicy x) (p2p_deviceID x) id p ->
           peer_inv (p2p_pathPolicy x) (p2p_deviceID x) id (f p)) -> ok (upd id f x).
Proof.
  intros [Hp Ht] Hf. split; [|exact Ht]. intros k p Hk. change (the_peer (upd id f x) k = Some p) in Hk.
  rewrite upd_lookup in Hk. case_decide; subst; [|by apply Hp].
  apply fmap_Some in Hk as (p0 & Hk & ->). apply Hf; [done|]. by apply Hp.
Qed.

(** A store that keeps the fields the invariant reads. *)
Ltac peer_field := let p := fresh in let H := fresh in
  intros p _ H; destruct H; split; simpl in *; try done; naive_solver.

Lemma spawn_ok g x : ok x -> (RelayOnly (p2p_pathPolicy x) = true -> ~ tunnel_token g) -> ok (spawn g x).
Proof.
  intros [Hp Ht] Hg. split; [exact Hp|]. intros Hr. simpl. apply Forall_app. split; [by apply Ht|].
  constructor; [by apply Hg|constructor].
Qed.

Lemma emit_ok a x : ok x -> ok (emit a x).
Proof. exact id. Qed.
#[export] Hint Resolve emit_ok : p2p.

Section Inv.
  Context `{GU : GoUnicode} `{ED : Ed25519} `{MJ : MessageJSON} `{SC : SessionCrypto} `{XC : SecureFrame.SecureCrypto}.

Lemma writeControl_ok e d m x : ok x -> ok (p2p_writeControl e d m x).
Proof. intros H. unfold p2p_writeControl. destruct d; [|done]. by destruct (_ && _). Qed.

Lemma writeControl_same e d m x :
  p2p_peers (p2p_writeControl e d m x) = p2p_peers x /\ p2p_go (p2p_writeControl e d m x) = p2p_go x.
Proof. unfold p2p_writeControl. destruct d; [|done]. by destruct (_ && _). Qed.

Lemma writeLANRegister_ok e id x : ok x -> ok (writeLANRegister e id x).
Proof.
  intros H. unfold writeLANRegister. destruct (the_peer x id); [|done]. case_match; [|done].
  apply writeControl_ok, upd_ok; [done|peer_field].
Qed.

Lemma startPunchLoop_ok id x : ok x -> ok (startPunchLoop id x).
Proof.
  intros H. unfold startPunchLoop. destruct (the_peer x id) as [p|]; [|done]. destruct (peer_punching p); [done|].
  apply spawn_ok; [|intros _ []]. apply upd_ok; [done|peer_field].
Qed.

Lemma punch_tick_ok e id x : ok x -> ok (punch_tick e id x).2.
Proof.
  intros H. unfold punch_tick. destruct (the_peer x id) as [p|]; [|done]. destruct (peer_punched p); [done|].
  destruct (peer_addr p); [|done].
  set (x1 := p2p_writeControl _ _ _ x). set (x2 := match peer_upnpAddr p with None => _ | _ => _ end).
  assert (ok x2).
  { subst x2 x1. destruct (peer_upnpAddr p); [case_decide|]; repeat apply writeControl_ok; done. }
  clearbody x2. destruct (_ && _); [|done]. apply upd_ok; [done|peer_field].
Qed.

Lemma enableLongPunching_ok id x : ok x -> ok (enableLongPunching id x).
Proof.
  intros H. unfold enableLongPunching. destruct (the_peer x id) as [p|] eqn:E; [|done].
  destruct (peer_datagramReady p) eqn:Er, (peer_connected p) eqn:Ec; try done. cbn [orb].
  apply startPunchLoop_ok, upd_ok; [done|]. intros p' E' Hi. rewrite E in E'. injection E' as <-.
  destruct Hi; split; simpl in *; try done. by rewrite Er.
Qed.

Lemma enableRelayMode_ok e id x : ok x -> ok (enableRelayMode e id x).
Proof.
  intros H. unfold enableRelayMode. destruct (relayAvailable (p2p_pathPolicy x)) eqn:Ea; cbn [negb];
    [|by apply enableLongPunching_ok].
  destruct (the_peer x id) as [p|] eqn:E; [|done]. destruct (peer_punched p); [done|].
  set (x1 := upd id _ x). assert (ok x1).
  { subst x1. apply upd_ok; [done|]. intros p' _ Hi. destruct Hi; split; simpl in *; done. }
  clearbody x1. destruct (RelayOnly (p2p_pathPolicy x1)) eqn:Eo; cbn [negb andb]; [done|].
  destruct (p2p_wired x1); [|done]. apply spawn_ok; [done|]. by rewrite Eo.
Qed.

Lemma resetRelayTimer_ok id x : ok x -> ok (resetRelayTimer id x).
Proof. intros H. unfold resetRelayTimer. case_decide; [done|]. apply spawn_ok; [exact H|intros _ []]. Qed.

Lemma relayFallbackTimer_ok e id x : ok x -> ok (relayFallbackTimer e id x).
Proof.
  intros H. unfold relayFallbackTimer. set (x1 := put_relayTimers _ x). assert (H1 : ok x1) by exact H.
  case_match; [by apply enableLongPunching_ok|by apply enableRelayMode_ok].
Qed.

Lemma fold_ok {A} (f : lanP2P -> A -> lanP2P) l : (forall x a, ok x -> ok (f x a)) -> forall x, ok x -> ok (fold_left f l x).
Proof. intros Hf. induction l as [|a l IH]; intros x H; [done|]. apply IH. by apply Hf. Qed.

Lemma enableRelayForBadNAT_ok e x : ok x -> ok (enableRelayForBadNAT e x).
Proof. intros H. unfold enableRelayForBadNAT. case_decide; [done|]. apply fold_ok; [|done]. intros. by apply enableRelayMode_ok. Qed.

Lemma upsert_one_ok x a : ok x -> ok (upsert_one x a).
Proof.
  intros H. unfold upsert_one. set (id := TrimSpace a.1). case_decide as Hd; [done|]. apply Decidable.not_or in Hd as [Hd1 Hd2].
  assert (H1 : ok (registerPeerConvs id (upsert_entry id a.2 x))).
  { assert (H1 : ok (upsert_entry id a.2 x)); [|unfold registerPeerConvs; by case_decide].
    unfold upsert_entry. destruct (the_peer x id) eqn:E; [apply upd_ok; [done|peer_field]|].
    destruct H as [Hp Ht]. split; [|exact Ht]. intros k p Hk. simpl in Hk.
    apply lookup_insert_Some in Hk as [[<- <-]|[_ Hk]]; [|by apply Hp].
    split; simpl; try done. split; [by apply TrimSpace_idem|done]. }
  revert H1. generalize (registerPeerConvs id (upsert_entry id a.2 x)). intros x1 H1.
  generalize (match the_peer x id with None => true | Some _ => negb (bool_decide (p2p_registering x !! id = Some true)) end).
  intros r. set (x2 := if r then _ else x1). assert (H2 : ok x2) by (subst x2; by destruct r). clearbody x2.
  assert (H3 : ok (upsert_relay id x2)).
  { unfold upsert_relay. destruct (_ && _); [apply spawn_ok; [done|intros _ []]|]. case_decide; [done|].
    apply spawn_ok; [exact H2|intros _ []]. }
  destruct r; [|done]. apply spawn_ok; [done|intros _ []].
Qed.

(* ------------------------------------------------------------------ *)
(** ** Codecs *)

Lemma Seal_none c payload : (Session.Seal c payload).2 = None <-> c = None.
Proof. unfold Session.Seal. destruct c as [c|]; [|done]. by destruct (aead c). Qed.

Lemma Open_none c data : (Session.Open c data).2 = None <-> c = None.
Proof. unfold Session.Open. destruct c as [c|]; [|done]. repeat case_match; by simplify_eq/=. Qed.

Lemma codecs_set_tx tx p : (tx = None <-> peer_tx p = None) -> codecs_set (set_tx tx p) = codecs_set p.
Proof. intros H. apply bool_decide_ext. simpl. naive_solver. Qed.

Lemma codecs_set_rx rx p : (rx = None <-> peer_rx p = None) -> codecs_set (set_rx rx p) = codecs_set p.
Proof. intros H. apply bool_decide_ext. simpl. naive_solver. Qed.

Lemma set_tx_inv pol self id tx p :
  (tx = None <-> peer_tx p = None) -> peer_inv pol self id p -> peer_inv pol self id (set_tx tx p).
Proof. intros Ht []. split; rewrite ?codecs_set_tx by done; simpl; try done. by rewrite Ht. Qed.

Lemma set_rx_inv pol self id rx p :
  (rx = None <-> peer_rx p = None) -> peer_inv pol self id p -> peer_inv pol self id (set_rx rx p).
Proof. intros Ht []. split; rewrite ?codecs_set_rx by done; simpl; try done. by rewrite Ht. Qed.

(** The codec of a peer after a seal. *)
Lemma upd_tx_ok id p payload x :
  the_peer x id = Some p -> ok x -> ok (upd id (set_tx (Session.Seal (peer_tx p) payload).2) x).
Proof.
  intros E H. apply upd_ok; [done|]. intros p' E' Hi. rewrite E in E'. injection E' as <-.
  apply set_tx_inv; [apply Seal_none|done].
Qed.

Lemma peer_open_ok id data x : ok x -> ok (peer_open id data x).2.
Proof.
  intros H. unfold peer_open. destruct (the_peer x id) as [p|] eqn:E; [|done].
  pose proof (Open_none (peer_rx p) data) as Hn. destruct (Session.Open (peer_rx p) data) as [r rx]. simpl in *.
  apply upd_ok; [done|]. intros p' E' Hi. rewrite E in E'. injection E' as <-. by apply set_rx_inv.
Qed.

(* ------------------------------------------------------------------ *)
(** ** Sending and receiving *)

Lemma kcp_write_ok e c w x : ok x -> ok (kcp_write e c w x).2.
Proof. intros H. unfold kcp_write. case_match; [|done]. by destruct (e_kcp e c). Qed.

Lemma seal_and_write_ok e id p c w x : the_peer x id = Some p -> ok x -> ok (seal_and_write e id p c w x).2.
Proof.
  intros E H. unfold seal_and_write. pose proof (upd_tx_ok id p w x E H) as H1.
  destruct (Session.Seal (peer_tx p) w) as [[s|] tx]; [by apply kcp_write_ok|done].
Qed.

Lemma sendViaFastPath_ok e f id x : ok x -> ok (sendViaFastPath e f id x).2.
Proof.
  intros H. unfold sendViaFastPath. destruct (the_peer x id) as [p|] eqn:E; [|done].
  destruct (negb _); [done|]. destruct (_ || _); [done|]. destruct (peer_throughputKCP p); [|done].
  destruct (negb _); [done|]. by apply seal_and_write_ok.
Qed.

Lemma datagram_send_ok e id w x : ok x -> ok (datagram_send e id w x).2.
Proof.
  intros H. unfold datagram_send. destruct (the_peer x id) as [p|] eqn:E; [|done]. destruct (peer_addr p); [|done].
  destruct (negb _); [done|]. pose proof (upd_tx_ok id p w x E H) as H1. unfold transport_Seal.
  destruct (peer_tx p) as [c|] eqn:Ec.
  - destruct (Session.Seal (Some c) w) as [[wire|] tx]; simpl in *; [|done]. by destruct (e_udp e _).
  - simpl in *. done.
Qed.

Lemma kcp_send_ok e id f x : ok x -> ok (kcp_send e id f x).2.
Proof.
  intros H. unfold kcp_send. destruct (the_peer x id) as [p|] eqn:E; [|done]. destruct (negb _); [done|].
  destruct (peer_kcp p); [|done]. destruct (peer_tx p) eqn:Et; [by apply seal_and_write_ok|by apply kcp_write_ok].
Qed.

Lemma p2p_Send_ok e f x : ok x -> ok (p2p_Send e f x).2.
Proof.
  intros H. unfold p2p_Send. destruct (the_peer x (rf_DstDevice f)) as [p|]; [|done].
  destruct (RelayOnly _); [done|]. set (x1 := upd _ _ x).
  assert (H1 : ok x1) by (apply upd_ok; [done|peer_field]). clearbody x1. destruct (_ && _); [done|].
  pose proof (sendViaFastPath_ok e f (rf_DstDevice f) x1 H1) as H2. destruct (sendViaFastPath _ _ _ _) as [[] x2]; [done|].
  simpl in H2. assert (H3 : ok (if peer_datagramReady p then datagram_send e (rf_DstDevice f) (rf_Payload f) x2 else (false, x2)).2).
  { destruct (peer_datagramReady p); [by apply datagram_send_ok|done]. }
  destruct (if peer_datagramReady p then _ else _) as [[] x3]; [done|]. by apply kcp_send_ok.
Qed.

Lemma SendUDPRelayFrame_ok e f x : ok x -> ok (SendUDPRelayFrame e f x).2.
Proof.
  intros H. unfold SendUDPRelayFrame. destruct (p2p_server x); [|done]. destruct (negb _); [done|].
  case_match; [|done]. by destruct (_ && _).
Qed.

Lemma SealRelayFrames_ok fs : forall x, ok x -> ok (SealRelayFrames fs x).2.
Proof.
  induction fs as [|f fs IH]; intros x H; cbn [SealRelayFrames]; [done|].
  destruct (the_peer x _) as [p|] eqn:E; [|by apply IH]. destruct (peer_tx p) as [c|] eqn:Ec; [|by apply IH].
  rewrite <- Ec. pose proof (upd_tx_ok _ p (rf_Payload f) x E H) as H1.
  destruct (Session.Seal (peer_tx p) (rf_Payload f)) as [[s|] tx]; simpl in *; [|done].
  specialize (IH _ H1). by destruct (SealRelayFrames fs _).
Qed.

Lemma inbound_ok e n s d path t w x : ok x -> ok (inbound e n s d path t w x).
Proof. exact id. Qed.

Lemma open_inbound_ok id data (k : list byte -> lanP2P -> lanP2P) x :
  ok x -> (forall w y, ok y -> ok (k w y)) ->
  ok (match peer_open id data x with (Err _, y) => y | (Ok w, y) => k w y end).
Proof. intros H Hk. pose proof (peer_open_ok id data x H) as H1. destruct (peer_open id data x) as [[w|] y]; [by apply Hk|done]. Qed.

Lemma handleDatagramFrame_ok e id data x : ok x -> ok (handleDatagramFrame e id data x).
Proof. intros H. unfold handleDatagramFrame. destruct (the_peer x id); [|done]. destruct (_ || _); [done|]. by apply open_inbound_ok. Qed.

Lemma handleUDPRelayFrame_ok e data x : ok x -> ok (handleUDPRelayFrame e data x).
Proof.
  intros H. unfold handleUDPRelayFrame. destruct (UnpackRelayFrameView data) as [f|]; [|done].
  destruct (the_peer x _); [|done]. case_decide; [done|]. by apply open_inbound_ok.
Qed.

Lemma poll_frame_ok e x f : ok x -> ok (poll_frame e x f).
Proof.
  intros H. unfold poll_frame. destruct (DecodeString _) as [w|]; [|done]. unfold OpenRelayFrame. simpl.
  destruct (the_peer x _); [|done]. case_decide; [done|].
  pose proof (peer_open_ok (q_SrcDevice f) w x H) as H1. by destruct (peer_open _ _ _) as [[]].
Qed.

Lemma tunnel_payload_ok e id h path w x : ok x -> ok (tunnel_payload e id h path w x).
Proof. intros H. unfold tunnel_payload. destruct (the_peer x id) as [p|]; [|done]. destruct (h p); [by apply open_inbound_ok|done]. Qed.

Lemma readTunnelFrames_error_ok id c x : ok x -> ok (readTunnelFrames_error id c x).
Proof.
  intros H. unfold readTunnelFrames_error. destruct (the_peer x id); [|done]. apply emit_ok. case_decide; [|done].
  apply resetRelayTimer_ok. set (x1 := upd id _ x). assert (H1 : ok x1); [|exact H1]. apply upd_ok; [done|].
  intros p' _ []. split; simpl; try done. intros Hr. destruct (pi_relay_only0 Hr) as (_ & ? & _). done.
Qed.

Lemma readThroughputTunnelFrames_error_ok id c x : ok x -> ok (readThroughputTunnelFrames_error id c x).
Proof.
  intros H. unfold readThroughputTunnelFrames_error. destruct (the_peer x id); [|done]. apply emit_ok. case_decide; [|done].
  apply upd_ok; [done|]. intros p' _ []. split; simpl; try done. intros Hr. by destruct (pi_relay_only0 Hr) as (? & _ & ?).
Qed.

(* ------------------------------------------------------------------ *)
(** ** The datagram path *)

Lemma rememberHotPath_same now id path x :
  p2p_peers (rememberHotPath now id path x) = p2p_peers x /\ p2p_pathPolicy (rememberHotPath now id path x) = p2p_pathPolicy x /\
  p2p_deviceID (rememberHotPath now id path x) = p2p_deviceID x /\ p2p_go (rememberHotPath now id path x) = p2p_go x.
Proof.
  unfold rememberHotPath. destruct (the_peer x id) as [p|]; [|done]. destruct (peer_isRelay p); [done|].
  destruct (peer_addr p); [|done]. by destruct (activeSessionIntentsForPeer _ _ _).
Qed.

(** [y] is [x] with [f] applied to one peer, as far as the invariant reads it. *)
Record changes_peer (id : string) (f : lanP2PPeer -> lanP2PPeer) (x y : lanP2P) : Prop := {
  cp_peers : p2p_peers y = alter f id (p2p_peers x);
  cp_policy : p2p_pathPolicy y = p2p_pathPolicy x;
  cp_device : p2p_deviceID y = p2p_deviceID x;
  cp_go : p2p_go y = p2p_go x;
}.

Lemma changes_peer_ok id f x y :
  changes_peer id f x y -> ok x ->
  (forall p, the_peer x id = Some p -> peer_inv (p2p_pathPolicy x) (p2p_deviceID x) id p ->
     peer_inv (p2p_pathPolicy x) (p2p_deviceID x) id (f p)) -> ok y.
Proof.
  intros [H1 H2 H3 H4] H Hf. pose proof (upd_ok id f x H Hf) as [Hp Ht].
  split; [unfold peers_ok|unfold tokens_ok]; rewrite ?H1, ?H2, ?H3, ?H4; [exact Hp|exact Ht].
Qed.

Lemma changes_id x y id : p2p_peers y = p2p_peers x -> p2p_pathPolicy y = p2p_pathPolicy x ->
  p2p_deviceID y = p2p_deviceID x -> p2p_go y = p2p_go x -> changes_peer id (fun p => p) x y.
Proof.
  intros H1 H2 H3 H4. split; try done. rewrite H1. apply map_eq. intros k.
  destruct (decide (k = id)) as [->|]; [rewrite lookup_alter_eq; by destruct (_ !! _)|by rewrite lookup_alter_ne].
Qed.

Lemma rememberHotPath_ok now id path x : ok x -> ok (rememberHotPath now id path x).
Proof.
  intros H. destruct (rememberHotPath_same now id path x) as (H1 & H2 & H3 & H4).
  by apply (changes_peer_ok id (fun p => p) x); [apply changes_id|..].
Qed.

Lemma useDatagramFastPath_ok e id x : ok x -> ok (useDatagramFastPath e id x).2.
Proof.
  intros H. unfold useDatagramFastPath. destruct (the_peer x id) as [p|]; [|done]. destruct (_ || _); [done|].
  destruct (_ && _); [done|]. destruct (peer_addr p); [|done]. simpl. apply rememberHotPath_ok.
  set (x1 := upd id _ x). assert (H1 : ok x1); [|exact H1]. apply upd_ok; [done|]. intros p' _ []. by split.
Qed.

Lemma useDatagramFastPath_policy e id x : p2p_pathPolicy (useDatagramFastPath e id x).2 = p2p_pathPolicy x.
Proof.
  unfold useDatagramFastPath. destruct (the_peer x id) as [p|]; [|done]. destruct (_ || _); [done|].
  destruct (_ && _); [done|]. destruct (peer_addr p) as [addr|]; [|done]. simpl.
  by destruct (rememberHotPath_same (e_now e) id lanPathP2PDatagram
    (upsert_link (e_now e) id addr true (upd id (fun p => set_relaySince 0 (set_isRelay false p)) x))) as (_ & -> & _).
Qed.

(** What a punch signal does to the peer. *)
Definition marked (signal : Z) (p : lanP2PPeer) : lanP2PPeer :=
  let p := set_punchSignals (Z.lor (peer_punchSignals p) signal) p in
  if codecs_set p && bool_decide (Z.land (peer_punchSignals p) 3 = 3) then set_datagramReady true p else p.

Lemma alter_known {A} (f g : A -> A) id (m : gmap string A) p : m !! id = Some p -> f p = g p -> alter f id m = alter g id m.
Proof.
  intros Hm Hf. apply map_eq. intros k. destruct (decide (k = id)) as [->|]; [|by rewrite !lookup_alter_ne].
  rewrite !lookup_alter_eq, Hm. simpl. by rewrite Hf.
Qed.

Lemma alter_twice {A} (f g : A -> A) id (m : gmap string A) : alter g id (alter f id m) = alter (fun p => g (f p)) id m.
Proof.
  apply map_eq. intros k. destruct (decide (k = id)) as [->|]; [|by rewrite !lookup_alter_ne].
  rewrite !lookup_alter_eq. by destruct (m !! id).
Qed.

Lemma markPunchSignal_changes e id s x p :
  s <> lanPunchSignalNone -> the_peer x id = Some p ->
  changes_peer id (marked s) x (markPunchSignal e id s x).2 /\
  (markPunchSignal e id s x).1 = codecs_set p && bool_decide (Z.land (Z.lor (peer_punchSignals p) s) 3 = 3).
Proof.
  intros Hs Hp. unfold markPunchSignal. rewrite decide_False by done. unfold markDatagramReadyIfConfirmed.
  rewrite upd_lookup, decide_True, Hp by done. simpl. change (codecs_set (set_punchSignals _ p)) with (codecs_set p).
  set (x1 := upd id _ x).
  assert (E : forall g, marked s p = g (set_punchSignals (Z.lor (peer_punchSignals p) s) p) ->
    p2p_peers (upd id g x1) = alter (marked s) id (p2p_peers x)).
  { intros g Hg. simpl. rewrite alter_twice. by apply (alter_known _ _ _ _ p). }
  destruct (codecs_set p) eqn:Ec; simpl.
  - case_decide as Hd.
    + rewrite bool_decide_eq_false_2 by done. split; [|done]. split; try done. simpl.
      apply (alter_known _ _ _ _ p); [done|]. unfold marked. simpl. rewrite bool_decide_eq_false_2 by done. by rewrite andb_false_r.
    + rewrite bool_decide_eq_true_2 by done. split; [|done]. simpl.
      destruct (rememberHotPath_same (e_now e) id lanPathP2PDatagram (upd id (set_datagramReady true) x1)) as (H1 & H2 & H3 & H4).
      split; [rewrite H1; apply E|by rewrite H2|by rewrite H3|by rewrite H4].
      unfold marked. simpl. change (codecs_set (set_punchSignals _ p)) with (codecs_set p). rewrite Ec, bool_decide_eq_true_2 by done. done.
  - split; [|done]. split; try done. simpl. apply (alter_known _ _ _ _ p); [done|].
    unfold marked. simpl. change (codecs_set (set_punchSignals _ p)) with (codecs_set p). by rewrite Ec.
Qed.

Lemma lor_signals a b : 0 <= a <= 3 -> b = 1 \/ b = 2 -> 0 <= Z.lor a b <= 3 /\ (Z.land (Z.lor a b) 3 = Z.lor a b).
Proof.
  intros Ha Hb. assert (a = 0 \/ a = 1 \/ a = 2 \/ a = 3) as Ha' by lia.
  destruct Ha' as [->|[->|[->| ->]]], Hb as [->| ->]; vm_compute; split; [split|..]; done.
Qed.

(** A peer that is, or is being, punched. *)
Lemma marked_inv pol self id s p :
  s = 1 \/ s = 2 -> peer_inv pol self id p ->
  peer_inv pol self id (set_punched true (marked s p)) /\
  (peer_punched p = true -> peer_inv pol self id (marked s p)).
Proof.
  intros Hs []. destruct (lor_signals _ _ pi_signals0 Hs) as [Hb Hl]. unfold marked. simpl.
  change (codecs_set (set_punchSignals ?z p)) with (codecs_set p). rewrite Hl.
  assert (Hmono : peer_punchSignals p = 3 -> Z.lor (peer_punchSignals p) s = 3).
  { intros ->. destruct Hs as [->| ->]; reflexivity. }
  destruct (codecs_set p) eqn:Ec; [case_bool_decide|]; simpl;
    (split; [|intros Hp]; split; simpl; try done; naive_solver).
Qed.

Lemma openTunnelUnless_ok e id x : ok x -> ok (openTunnelUnlessDatagramReady e id x).
Proof.
  intros H. unfold openTunnelUnlessDatagramReady. destruct (RelayOnly _) eqn:Er; [done|].
  pose proof (useDatagramFastPath_ok e id x H) as H1.
  pose proof (useDatagramFastPath_policy e id x) as Hpol.
  destruct (useDatagramFastPath e id x) as [[] x1]; [done|]. simpl in *. apply spawn_ok; [done|]. rewrite Hpol, Er. done.
Qed.

Lemma handle_punch_ok e src msg s x : s = 1 \/ s = 2 -> ok x -> ok (handle_punch e src msg s x).
Proof.
  intros Hs H. unfold handle_punch. set (id := From msg). destruct (the_peer x id) as [p|] eqn:E; [|done].
  set (x1 := if negb (peer_isRelay p) || _ then upd id (set_addr (Some src)) x else x).
  assert (H1 : ok x1 /\ exists p1, the_peer x1 id = Some p1 /\ peer_punched p1 = peer_punched p).
  { subst x1. destruct (_ || _); [|by eauto]. split; [apply upd_ok; [done|peer_field]|].
    exists (set_addr (Some src) p). by rewrite upd_lookup, decide_True, E. }
  clearbody x1. destruct H1 as (H1 & p1 & E1 & Ep).
  set (r := if decide (msg_Payload msg = lanDatagramReadyFrame) then markPunchSignal e id s x1 else (false, x1)).
  assert (Hr : (peer_punched p = true -> ok r.2) /\ ok (upd id (set_punched true) r.2)).
  { subst r. case_decide.
    - destruct (markPunchSignal_changes e id s x1 p1) as [Hc _]; [by destruct Hs as [->| ->]|done|]. split.
      + intros Hp. apply (changes_peer_ok id (marked s) x1); [done..|]. intros p' E' Hi. rewrite E1 in E'. injection E' as <-.
        apply marked_inv; [done..|congruence].
      + apply (changes_peer_ok id (fun p => set_punched true (marked s p)) x1); [|done|].
        * destruct Hc as [C1 C2 C3 C4]. split; [|done..]. simpl. by rewrite C1, alter_twice.
        * intros p' E' Hi. by apply marked_inv.
    - simpl. split; [done|]. apply upd_ok; [done|peer_field]. }
  clearbody r. destruct r as [confirmed x2]. destruct Hr as [Hr1 Hr2]. simpl in *.
  match goal with |- ok (upsert_link ?a ?b ?c ?d ?y) => change (ok y) end.
  destruct (peer_punched p); cbn [negb]; [|by apply openTunnelUnless_ok].
  specialize (Hr1 eq_refl). destruct (_ && _); [by apply openTunnelUnless_ok|done].
Qed.

(* ------------------------------------------------------------------ *)
(** ** Sessions, hot paths and peer information *)

(** Clearing [punched] is harmless for a peer that is not on the datagram path. *)
Lemma unpunch_inv pol self id p :
  peer_datagramReady p = false -> peer_inv pol self id p -> peer_inv pol self id (set_punched false p).
Proof. intros Hr []. split; simpl; try done. by rewrite Hr. Qed.

Lemma tryUseHotPath_ok e i x : ok x -> ok (tryUseHotPath e i x).
Proof.
  intros H. unfold tryUseHotPath. destruct (_ || _); [done|]. destruct (hotPath _ _ _ _) as [hot m].
  destruct hot as [hot|]; [|exact H]. destruct (e_resolve e _); [|exact H].
  set (x1 := put_hotPaths m x). assert (H1 : ok x1) by exact H. clearbody x1.
  destruct (the_peer x1 (si_PeerID i)) as [p|] eqn:E; [|done]. destruct (peer_datagramReady p) eqn:Er; [done|]. destruct (peer_connected p); [done|].
  apply startPunchLoop_ok, upd_ok; [done|]. intros p' E' Hi. rewrite E in E'. injection E' as <-.
  apply unpunch_inv; [done|]. destruct Hi; by split.
Qed.

Lemma RecordSessionIntent_ok e f x : ok x -> ok (RecordSessionIntent e f x).
Proof.
  intros H. unfold RecordSessionIntent. destruct (newLANSessionIntent f (e_now e)) as [i|]; [|done].
  destruct (the_peer x _); [|done]. set (x1 := upd _ _ _).
  assert (H1 : ok x1) by (apply upd_ok; [exact H|peer_field]). clearbody x1.
  apply (tryUseHotPath_ok e i) in H1. revert H1. generalize (tryUseHotPath e i x1). intros x2 H2.
  destruct (the_peer x2 (si_PeerID i)) as [p|] eqn:E; [|done]. destruct (peer_datagramReady p) eqn:Er; [done|].
  destruct (peer_connected p); [done|]. destruct (RelayOnly _); [done|]. cbn [negb andb].
  apply startPunchLoop_ok, upd_ok; [done|]. intros p' E' Hi. rewrite E in E'. injection E' as <-.
  destruct (relayAvailable _); (apply unpunch_inv; [done|]); [done|]. destruct Hi; by split.
Qed.

Lemma preheat_one_ok e x h : ok x -> ok (preheat_one e x h).
Proof.
  intros H. unfold preheat_one. destruct (the_peer x _) as [p|] eqn:E; [|done].
  destruct (peer_datagramReady p) eqn:Er; [done|]. destruct (RelayOnly _); [done|]. destruct (e_resolve e _); [|exact H].
  apply startPunchLoop_ok, upd_ok; [done|]. intros p' E' Hi. rewrite E in E'. injection E' as <-.
  apply unpunch_inv; [done|]. destruct Hi; by split.
Qed.

Lemma preheatLearnedPaths_ok e x : ok x -> ok (preheatLearnedPaths e x).
Proof. intros H. apply fold_ok; [|done]. intros. by apply preheat_one_ok. Qed.

Lemma sendDueHotPathKeepAlive_ok e x id : ok x -> ok (sendDueHotPathKeepAlive e x id).
Proof.
  intros H. unfold sendDueHotPathKeepAlive. destruct (the_peer x id) as [p|]; [|done]. destruct (_ || _); [done|].
  destruct (peer_addr p); [|done]. destruct (due_keepalives _ _ _) as [due m]. case_decide; [exact H|].
  apply writeControl_ok. exact H.
Qed.

Lemma sendDueHotPathKeepAlives_ok e x : ok x -> ok (sendDueHotPathKeepAlives e x).
Proof. intros H. apply fold_ok; [|done]. intros. by apply sendDueHotPathKeepAlive_ok. Qed.

(** The codecs of a peer are set together. *)
Lemma NewCodec_some key nid t c : NewCodec key nid t = Ok c -> c <> None.
Proof. unfold NewCodec. destruct (chacha_new key); [|done]. by intros [= <-]. Qed.

Lemma peer_codecs_some priv raw self peer tx rx :
  lanPeerCodecsFromX25519 priv raw self peer = Ok (tx, rx) -> tx <> None /\ rx <> None.
Proof.
  unfold lanPeerCodecsFromX25519. destruct raw as [raw|]; [|done]. case_decide; [done|]. destruct (x25519 priv raw); [|done].
  destruct (DeriveSessionKeys _ _ _ _ _) as [keys|]; [|done]. cbn [mbind result_bind].
  case_decide; destruct (NewCodec (AB keys) 0 TypeIPv4) as [a|] eqn:Ea, (NewCodec (BA keys) 0 TypeIPv4) as [b|] eqn:Eb;
    cbn; try done; intros [= <- <-]; split; by eapply NewCodec_some.
Qed.

Lemma ensurePeerCodecs_inv pol self id x p : peer_inv pol self id p -> peer_inv pol self id (ensurePeerCodecs x p).
Proof.
  intros Hi. unfold ensurePeerCodecs. case_decide as Hd; [done|]. case_decide; [done|].
  destruct (lanPeerCodecsFromX25519 _ _ _ _) as [[tx rx]|] eqn:E; [|done].
  apply peer_codecs_some in E as [Ht Hr]. destruct Hi. split; simpl; try done.
  intros Hready. destruct (pi_confirmed0 Hready) as [Hc ?]. unfold codecs_set in Hc. bools. tauto.
Qed.

Lemma handle_peer_info_ok e msg x : ok x -> ok (handle_peer_info e msg x).
Proof.
  intros H. unfold handle_peer_info. set (id := Peer msg). destruct (the_peer x id) as [p0|]; [|done].
  set (x1 := upd id _ x). assert (H1 : ok x1).
  { apply upd_ok; [done|]. intros p _ Hi. apply ensurePeerCodecs_inv. destruct Hi; by split. }
  clearbody x1. destruct (e_resolve e (Addr msg)) as [addr|]; [|done].
  set (x2 := if negb (peer_isRelay p0) || _ then upd id (set_addr (Some addr)) x1 else x1).
  assert (H2 : ok x2) by (subst x2; destruct (_ || _); [apply upd_ok; [done|peer_field]|done]). clearbody x2.
  set (x3 := upd id _ x2). assert (H3 : ok x3) by (apply upd_ok; [done|peer_field]). clearbody x3.
  set (x4 := if decide (TrimSpace (UpnpAddr msg) = EmptyString) then x3 else _).
  assert (H4 : ok x4).
  { subst x4. case_decide; [done|]. destruct (e_resolve e (UpnpAddr msg)); [|done]. apply upd_ok; [done|peer_field]. }
  clearbody x4. set (x5 := match the_peer x4 id with Some p => _ | None => x4 end).
  assert (H5 : ok x5) by (subst x5; destruct (the_peer x4 id) as [p|]; [by destruct (codecs_set p)|done]). clearbody x5.
  apply (startPunchLoop_ok id) in H5. destruct (_ && _); [by apply openTunnelUnless_ok|done].
Qed.

Lemma handleControl_ok e data src x : ok x -> ok (p2p_handleControl e data src x).
Proof.
  intros H. unfold p2p_handleControl. destruct (Decode data) as [msg|]; [|done]. repeat (case_decide; [try done|]).
  - by apply handle_peer_info_ok.
  - destruct (the_peer x (From msg)); [|done]. apply writeControl_ok, handle_punch_ok; [by left|done].
  - apply handle_punch_ok; [by right|done].
Qed.

Lemma readLoop_step_ok e data src x : ok x -> ok (readLoop_step e data src x).
Proof.
  intros H. unfold readLoop_step. destruct (IsRelayFrame data); [by apply handleUDPRelayFrame_ok|].
  case_decide; [by apply handleControl_ok|]. destruct (peerForPacket data src x) as [[id|] prof]; [|done].
  destruct (IsFrame data); [by apply handleDatagramFrame_ok|]. destruct (the_peer x id) as [p|]; [|done].
  destruct (_ && _); [done|]. by destruct (peer_pc p).
Qed.

(* ------------------------------------------------------------------ *)
(** ** Tunnels and the rotation of the socket *)

Lemma maybeRotate_ok e id r x : ok x -> ok (maybeRotateSocketAfterRelayFailure e id r x).2.
Proof.
  intros H. unfold maybeRotateSocketAfterRelayFailure. destruct (the_peer x id) as [p|]; [|done].
  destruct (negb _); [done|]. destruct (negb _); [done|]. destruct (hasActiveTraffic _ _ _); [done|].
  set (x1 := upd id _ x). assert (H1 : ok x1) by (apply upd_ok; [done|peer_field]). clearbody x1.
  case_decide; [done|]. destruct (hasReadyPeer id x1); [done|]. apply spawn_ok; [done|intros _ []].
Qed.

Definition is_p2p (x : lanP2P) : Prop := RelayOnly (p2p_pathPolicy x) = false.

Lemma openRetry_fires_ok e id x : is_p2p x -> ok x -> ok (openRetry_fires e id x).
Proof.
  intros Hn H. unfold openRetry_fires. set (x1 := put_openRetries _ x). assert (H1 : ok x1) by exact H.
  change (is_p2p x1) in Hn. clearbody x1. destruct (the_peer x1 id) as [p|]; [|done]. destruct (_ || _); [done|].
  pose proof (openTunnelUnless_ok e id x1 H1) as Hk. unfold openTunnelUnlessDatagramReady in Hk.
  unfold is_p2p in Hn. by rewrite Hn in Hk.
Qed.

Lemma close_pc_ok id p x : ok x -> ok (close_pc id p x).
Proof. intros H. unfold close_pc. by destruct (peer_pc p). Qed.

Lemma maybeRotate_policy e id r x :
  p2p_pathPolicy (maybeRotateSocketAfterRelayFailure e id r x).2 = p2p_pathPolicy x.
Proof.
  unfold maybeRotateSocketAfterRelayFailure. destruct (the_peer x id) as [p|]; [|done].
  destruct (negb _); [done|]. destruct (negb _); [done|]. destruct (hasActiveTraffic _ _ _); [done|].
  case_decide; [done|]. by destruct (hasReadyPeer id _).
Qed.

Lemma resetPeerAfterOpenFailure_ok e id c x : is_p2p x -> ok x -> ok (resetPeerAfterOpenFailure e id c x).
Proof.
  intros Hn H. unfold resetPeerAfterOpenFailure. destruct (the_peer x id) as [p|] eqn:E; [|done].
  set (x1 := close_pc id p _). assert (H1 : ok x1 /\ is_p2p x1).
  { subst x1. unfold close_pc. destruct c, (peer_pc p); done. }
  clearbody x1. destruct H1 as (H1 & Hn1). unfold is_p2p in Hn1.
  set (k := if decide (peer_kcp p = c) then None else peer_kcp p).
  destruct (peer_isRelay p) eqn:Erel.
  - set (x2 := upd id _ x1). assert (H2 : ok x2).
    { apply upd_ok; [done|]. intros p' E' []. split; simpl; try done. by rewrite Hn1. }
    pose proof (maybeRotate_ok e id "relay_open_failed" x2 H2) as H3.
    pose proof (maybeRotate_policy e id "relay_open_failed" x2) as Hpol.
    destruct (maybeRotateSocketAfterRelayFailure _ _ _ x2) as [[] x3]; [done|]. simpl in *.
    unfold scheduleOpenRetry. case_decide; [done|]. apply spawn_ok; [exact H3|]. simpl. rewrite Hpol, Hn1. done.
  - apply resetRelayTimer_ok, upd_ok; [done|]. intros p' E' []. split; simpl; try done. by rewrite Hn1.
Qed.

Lemma reset_peer_ok x id : ok x -> ok (reset_peer x id).
Proof.
  intros H. unfold reset_peer. destruct (the_peer x id) as [p|]; [|done].
  apply resetRelayTimer_ok, upd_ok; [apply close_pc_ok; by destruct (peer_kcp p)|].
  intros p' _ Hi. unfold reset_flags. destruct Hi; split; simpl; try done. intros Hr.
  assert (Hr' : RelayOnly (p2p_pathPolicy x) = true) by (revert Hr; unfold close_pc; by destruct (peer_kcp p), (peer_pc p)).
  destruct (pi_relay_only0 Hr) as (_ & ? & _). done.
Qed.

Lemma startReadLoop_ok x : ok x -> ok (startReadLoop x).
Proof. intros H. unfold startReadLoop. destruct (p2p_conn x); [|done]. apply spawn_ok; [exact H|intros _ []]. Qed.

Lemma rotate_ok e l r x : ok x -> ok (rotateSocketAndRestartPunch e l r x).
Proof.
  intros H. unfold rotateSocketAndRestartPunch. destruct (p2p_rotating x); [done|]. case_decide; [done|].
  destruct l as [u|]; [|done]. set (x1 := put_conn true _).
  assert (H1 : ok (if p2p_conn x then emit CloseSocket x1 else x1)) by by destruct (p2p_conn x).
  revert H1. generalize (if p2p_conn x then emit CloseSocket x1 else x1). intros y Hy.
  apply fold_ok; [intros; by apply writeLANRegister_ok|].
  assert (H2 : ok (startReadLoop (resetAllPeersAfterSocketRotation y))).
  { apply startReadLoop_ok, fold_ok; [intros; by apply reset_peer_ok|exact Hy]. }
  destruct (p2p_upnpMapping _); [|done]. apply spawn_ok; [done|intros _ []].
Qed.

Lemma openTunnel_start_ok e id x : is_p2p x -> ok x -> ok (openTunnel_start e id x).2 /\ is_p2p (openTunnel_start e id x).2.
Proof.
  intros Hn H. unfold openTunnel_start. pose proof (useDatagramFastPath_ok e id x H) as H1.
  pose proof (useDatagramFastPath_policy e id x) as Hpol.
  unfold is_p2p in *. rewrite <- Hpol in Hn.
  destruct (useDatagramFastPath e id x) as [[] x1]; [done|]. simpl in *. clear H Hpol.
  destruct (the_peer x1 id) as [p|]; [|done]. destruct (peer_connected p); [done|]. destruct (negb _); [done|].
  split; [|exact Hn]. apply upd_ok; [done|]. intros p' _ []. split; simpl; try done. by rewrite Hn.
Qed.

Lemma openTunnel_ready_ok e id c x : is_p2p x -> ok x -> ok (openTunnel_ready e id c x).
Proof.
  intros Hn H. unfold openTunnel_ready. set (x1 := upd id _ x).
  assert (H1 : ok x1). { apply upd_ok; [done|]. intros p' _ []. split; simpl; try done. unfold is_p2p in Hn. by rewrite Hn. }
  change (is_p2p x1) in Hn. clearbody x1. destruct (the_peer x1 id) as [p|]; [|done].
  set (x2 := upsert_link _ _ _ _ x1). set (x3 := if peer_isRelay p then x2 else _).
  assert (H3 : ok x3 /\ is_p2p x3).
  { subst x3. destruct (peer_isRelay p); [done|]. split; [by apply rememberHotPath_ok|]. unfold is_p2p.
    by destruct (rememberHotPath_same (e_now e) id lanPathP2PKCP x2) as (_ & -> & _). }
  clearbody x3. destruct H3 as [H3 Hn3]. unfold is_p2p in *.
  assert (H4 : ok (spawn (GoReadTunnel id c) x3)) by (apply spawn_ok; [done|by rewrite Hn3]).
  destruct (shouldOpenThroughputFastPath _); [|done]. apply spawn_ok; [done|]. simpl. by rewrite Hn3.
Qed.

Lemma openThroughputTunnel_start_ok id x : is_p2p x -> ok x -> ok (openThroughputTunnel_start id x).2.
Proof.
  intros Hn H. unfold openThroughputTunnel_start. destruct (the_peer x id); [|done]. destruct (negb _); [done|].
  simpl. apply upd_ok; [done|peer_field].
Qed.

Lemma openThroughputTunnel_ready_ok id c x : is_p2p x -> ok x -> ok (openThroughputTunnel_ready id c x).
Proof.
  intros Hn H. unfold is_p2p in Hn. unfold openThroughputTunnel_ready. apply spawn_ok; [|simpl; by rewrite Hn].
  apply upd_ok; [done|]. intros p' _ []. split; simpl; try done. by rewrite Hn.
Qed.

(* ------------------------------------------------------------------ *)
(** ** The transition system *)

(** One goroutine [g] of [x] ends or moves on; [y] is the state without it. *)
Definition take_go (g : goroutine) (x y : lanP2P) : Prop :=
  exists l1 l2, p2p_go x = l1 ++ g :: l2 /\ y = put_go (l1 ++ l2) x.

Definition resume (r : bool * lanP2P) (g : goroutine) : lanP2P := if r.1 then spawn g r.2 else r.2.

Inductive p2p_step `{GT : GoTime} : lanP2P -> lanP2P -> Prop :=
  (* the configuration and the packets of the device *)
  | st_upsert peers x : p2p_step x (UpsertPeers peers x)
  | st_load now paths x : p2p_step x (put_hotPaths (LoadLearnedPaths now paths (p2p_hotPaths x)) x)
  | st_bad_nat e x : p2p_step x (enableRelayForBadNAT e x)
  | st_read_loop x : p2p_step x (startReadLoop x)
  | st_intent e f x : p2p_step x (RecordSessionIntent e f x)
  | st_send e f x : p2p_step x (p2p_Send e f x).2
  | st_seal fs x : p2p_step x (SealRelayFrames fs x).2
  | st_udp_relay e f x : p2p_step x (SendUDPRelayFrame e f x).2
  (* the network *)
  | st_datagram e data src x : p2p_step x (readLoop_step e data src x)
  | st_poll e f x : p2p_step x (poll_frame e x f)
  (* the timers that stay armed *)
  | st_preheat e x : p2p_step x (preheatLearnedPaths e x)
  | st_keepalives e x : p2p_step x (sendDueHotPathKeepAlives e x)
  | st_register e id x : GoRegisterLoop id ∈ p2p_go x -> p2p_step x (writeLANRegister e id x)
  | st_log id path reason x : p2p_step x (logPathState id path reason x).2
  | st_diagnostics now x : p2p_step x (diagnosticsSnapshot now x).2
  | st_close x : p2p_step x (closeCurrentSocket x)
  (* the goroutines *)
  | st_punch e id x y : take_go (GoPunchLoop id) x y -> p2p_step x (resume (punch_tick e id y) (GoPunchLoop id))
  | st_fallback e id x y : take_go (GoRelayFallback id) x y -> p2p_step x (relayFallbackTimer e id y)
  | st_enable_relay e id r x y : take_go (GoEnableRelay id r) x y -> p2p_step x (enableRelayMode e id y)
  | st_rotate e l r x y : take_go (GoRotate r) x y -> p2p_step x (rotateSocketAndRestartPunch e l r y)
  | st_open e id x y : take_go (GoOpenTunnel id) x y -> p2p_step x (resume (openTunnel_start e id y) (GoOpening id))
  | st_open_failed e id c x y : take_go (GoOpening id) x y -> p2p_step x (resetPeerAfterOpenFailure e id c y)
  | st_open_ready e id c x y : take_go (GoOpening id) x y -> p2p_step x (openTunnel_ready e id c y)
  | st_retry e id x y : take_go (GoOpenRetry id) x y -> p2p_step x (openRetry_fires e id y)
  | st_tunnel_frame e id c w x : GoReadTunnel id c ∈ p2p_go x -> p2p_step x (readTunnelFrames_frame e id w x)
  | st_tunnel_error id c x y : take_go (GoReadTunnel id c) x y -> p2p_step x (readTunnelFrames_error id c y)
  | st_throughput id x y :
      take_go (GoOpenThroughput id) x y -> p2p_step x (resume (openThroughputTunnel_start id y) (GoOpeningThroughput id))
  | st_throughput_failed id x y : take_go (GoOpeningThroughput id) x y -> p2p_step x y
  | st_throughput_ready id c x y : take_go (GoOpeningThroughput id) x y -> p2p_step x (openThroughputTunnel_ready id c y)
  | st_throughput_frame e id c w x :
      GoReadThroughput id c ∈ p2p_go x -> p2p_step x (readThroughputTunnelFrames_frame e id w x)
  | st_throughput_error id c x y :
      take_go (GoReadThroughput id c) x y -> p2p_step x (readThroughputTunnelFrames_error id c y).

Lemma take_go_ok g x y : take_go g x y -> ok x -> ok y /\ (tunnel_token g -> is_p2p y).
Proof.
  intros (l1 & l2 & E & ->) [Hp Ht]. split.
  - split; [exact Hp|]. intros Hr. specialize (Ht Hr). rewrite E in Ht. simpl.
    apply Forall_app in Ht as [H1 [_ H2]%Forall_cons]. by apply Forall_app.
  - intros Hg. unfold is_p2p. simpl. destruct (RelayOnly (p2p_pathPolicy x)) eqn:Er; [|done].
    specialize (Ht Er). rewrite E in Ht. by apply Forall_app in Ht as [_ [? _]%Forall_cons].
Qed.

Lemma resume_ok r g : ok r.2 -> (RelayOnly (p2p_pathPolicy r.2) = true -> ~ tunnel_token g) -> ok (resume r g).
Proof. intros H Hg. unfold resume. destruct r.1; [by apply spawn_ok|done]. Qed.

Lemma p2p_step_ok `{GT : GoTime} x y : p2p_step x y -> ok x -> ok y.
Proof.
  intros Hs H.
  destruct Hs;
    try match goal with T : take_go _ _ _ |- _ => destruct (take_go_ok _ _ _ T H) as [Hy Hn]; clear T end.
  - apply fold_ok; [intros; by apply upsert_one_ok|done].
  - exact H.
  - by apply enableRelayForBadNAT_ok.
  - by apply startReadLoop_ok.
  - by apply RecordSessionIntent_ok.
  - by apply p2p_Send_ok.
  - by apply SealRelayFrames_ok.
  - by apply SendUDPRelayFrame_ok.
  - by apply readLoop_step_ok.
  - by apply poll_frame_ok.
  - by apply preheatLearnedPaths_ok.
  - by apply sendDueHotPathKeepAlives_ok.
  - by apply writeLANRegister_ok.
  - unfold logPathState. case_decide; [done|]. by case_decide.
  - exact H.
  - unfold closeCurrentSocket. by destruct (p2p_conn x).
  - apply resume_ok; [by apply punch_tick_ok|intros _ []].
  - by apply relayFallbackTimer_ok.
  - by apply enableRelayMode_ok.
  - by apply rotate_ok.
  - destruct (openTunnel_start_ok e id y (Hn I) Hy) as [H1 H2]. apply resume_ok; [done|]. unfold is_p2p in H2. by rewrite H2.
  - by apply resetPeerAfterOpenFailure_ok; [apply Hn|].
  - by apply openTunnel_ready_ok; [apply Hn|].
  - by apply openRetry_fires_ok; [apply Hn|].
  - by apply tunnel_payload_ok.
  - by apply readTunnelFrames_error_ok.
  - specialize (Hn I). apply resume_ok; [by apply openThroughputTunnel_start_ok|].
    assert (E : p2p_pathPolicy (openThroughputTunnel_start id y).2 = p2p_pathPolicy y).
    { unfold openThroughputTunnel_start. destruct (the_peer y id); [|done]. by destruct (negb _). }
    unfold is_p2p in Hn. by rewrite E, Hn.
  - done.
  - by apply openThroughputTunnel_ready_ok; [apply Hn|].
  - by apply tunnel_payload_ok.
  - by apply readThroughputTunnelFrames_error_ok.
Qed.

Lemma p2p_reachable_ok `{GT : GoTime} x y : rtc p2p_step x y -> ok x -> ok y.
Proof. induction 1 as [|x y z Hs Hr IH]; [done|]. intros H. apply IH. by eapply p2p_step_ok. Qed.

Lemma start_ok server dev idt priv pub policy re fast mapping nat r l :
  ok (startLANP2P_state server dev idt priv pub policy re fast mapping nat r l).
Proof. split; [apply map_Forall_empty|]. intros _. simpl. destruct mapping; repeat constructor; intros []. Qed.


End Inv.

(* ------------------------------------------------------------------ *)
(** ** Witnesses *)

#[export] Instance toy_secure : SecureFrame.SecureCrypto := {|
  SecureFrame.hkdf_sha256 secret info n := Some (be_put n (be_get (secret ++ info)));
  SecureFrame.newX key := Some (toy_aead key);
  SecureFrame.hmac_sha256 key text := be_put 32 (be_get (key ++ text));
|}.

(** A control encoding by the first letter: the peer info of dev-b, its punch, its
    acknowledgement. *)
Definition toy_control_message (kind payload : string) : Message :=
  mkMessage kind "dev-b" "" "dev-b" ProfileLANPacket "2.2.2.2:2" "" payload 0 "".
Definition toy_control : MessageJSON := {|
  Encode m := bytes_of (Type_ m);
  Decode b := match b with
    | [_; x69] => Some (toy_control_message MsgPeerInfo (EncodeToString (be_put 32 9)))
    | [_; x70] => Some (toy_control_message MsgPunch lanDatagramReadyFrame)
    | [_; x61] => Some (toy_control_message MsgPunchAck lanDatagramReadyFrame)
    | _ => None
    end;
|}.

Definition toy_penv : penv := mkPEnv (unix_epoch + 1000 * second) Some (fun _ => true) (fun _ => true).
Definition toy_router (dev : string) : Router := mkRouter 1 dev 1280 ∅ [] ∅ RouterStats_zero.
Definition toy_lan (dev : string) (policy : lanPathPolicyConfig) : lanP2P :=
  startLANP2P_state "9.9.9.9:9" dev toy_identity (be_put 32 5) "pub" policy true "auto" None "unknown"
    (toy_router dev) (NewLinkManager (mkLinkConfig EmptyString false 0 0 0)).
Definition direct_policy : lanPathPolicyConfig := mkPathPolicy "auto" false false true true.

(** dev-a learns of dev-b, gets its key and address, and both punch messages. *)
Definition toy_read (data : list byte) (x : lanP2P) : lanP2P :=
  readLoop_step (GU := ascii_unicode) (MJ := toy_control) toy_penv data "2.2.2.2:2" x.
Definition toy_known : lanP2P := UpsertPeers [("dev-b", "key")] (toy_lan "dev-a" direct_policy).
Definition toy_introduced : lanP2P := toy_read [x7b; x69] toy_known.
Definition toy_half_punched : lanP2P := toy_read [x7b; x70] toy_introduced.
Definition toy_punched : lanP2P := toy_read [x7b; x61] toy_half_punched.

Lemma toy_run :
  rtc (p2p_step (GU := ascii_unicode) (MJ := toy_control) (GT := bin_time)) (toy_lan "dev-a" direct_policy) toy_punched.
Proof.
  refine (rtc_l _ _ toy_known _ (st_upsert _ _) _). refine (rtc_l _ _ toy_introduced _ (st_datagram _ _ _ _) _).
  refine (rtc_l _ _ toy_half_punched _ (st_datagram _ _ _ _) _). refine (rtc_once _ _ (st_datagram _ _ _ _)).
Qed.

