(* ===== verification/P2PTransport.v ===== *)
(** * P2PTransport: the peer-to-peer path behind the sending loop

    The operations of [P2P], with the relay client of packet_runtime.go, implement the
    interface [Transport] of [Replay]: what they report taken is on its way in a packet
    that carries the frame. The sending loop over this runtime loses no frame. *)

From S2P Require Import Prelude GoStrings Base64 Store Protocol Router Link LanIdentity Pending Replay Paths P2PState P2P P2PInv.
From S2P Require Import Session Relay.
From S2P Require SecureFrame.

(** The runtime and the requests [postRelayFrames] got a success answer for. *)
Record relay_client : Type := mkRelayClient { rc_p2p : lanP2P; rc_posted : list (string * list lanPacketRelayFrame) }.

Definition put_p2p (x : lanP2P) (s : relay_client) : relay_client := mkRelayClient x (rc_posted s).

(** [lanRelayFrame] on the wire is [lanPacketRelayFrame] on the server. *)
Definition relay_request_frame (frame : RoutedFrame) : lanPacketRelayFrame :=
  mkRelayEntry (rf_NetworkID frame) (rf_SrcDevice frame) (rf_DstDevice frame) (rf_PacketType frame)
    (EncodeToString (rf_Payload frame)) EmptyString.

(** The [device_id] of the request: the first source that is not empty. *)
Definition relay_request_device (frames : list RoutedFrame) : string :=
  fold_left (fun d f => if decide (d = EmptyString) then rf_SrcDevice f else d) frames EmptyString.

(** [postLANJSON] is [answer]: the number of frames the server accepted, [None] an
    error. *)
Definition postRelayFrames (answer : string -> string -> list lanPacketRelayFrame -> option Z) (serverHTTP : string)
  (frames : list RoutedFrame) (s : relay_client) : bool * relay_client :=
  let url := String.append serverHTTP "/api/lan/packets/send" in
  match answer url (relay_request_device frames) (map relay_request_frame frames) with
  | None => (false, s)
  | Some accepted =>
    if decide (accepted = 0 /\ (0 < length frames)%nat) then (false, s)
    else (true, mkRelayClient (rc_p2p s) (rc_posted s ++ [(url, map relay_request_frame frames)]))
  end.

(** The environment [e] at the time [t]. *)
Definition at_time (e : penv) (t : Time) : penv := mkPEnv t (e_resolve e) (e_udp e) (e_kcp e).

Section Transport.
  Context `{GU : GoUnicode} `{ED : Ed25519} `{MJ : MessageJSON} `{SC : SessionCrypto} `{XC : SecureFrame.SecureCrypto}.
  Variables (e : penv) (answer : string -> string -> list lanPacketRelayFrame -> option Z).

Definition on_p2p (r : bool * lanP2P) (s : relay_client) : bool * relay_client := (r.1, put_p2p r.2 s).

(** What [sendPackets] calls, on one runtime. *)
Definition lan_transport : Transport relay_client :=
  mkTransport
    (fun t s frame => put_p2p (RecordSessionIntent (at_time e t) frame (rc_p2p s)) s)
    (fun t s frame => on_p2p (p2p_Send (at_time e t) frame (rc_p2p s)) s)
    (fun t s peerID payload => put_p2p (put_link (Link.Send t (p2p_link (rc_p2p s)) peerID payload).2 (rc_p2p s)) s)
    (fun s peerID => CanRelay (rc_p2p s) peerID)
    (fun s frames => let r := SealRelayFrames frames (rc_p2p s) in (r.1, put_p2p r.2 s))
    (fun s frame => on_p2p (SendUDPRelayFrame e frame (rc_p2p s)) s)
    (fun s serverHTTP frames => postRelayFrames answer serverHTTP frames s).

(** [wire] is [payload] sealed by some codec. *)
Definition seals (payload wire : list byte) : Prop := exists tx tx', Session.Seal tx payload = (Ok wire, tx').

(** A packet that left the runtime carries [f]: a datagram or a tunnel frame with the
    payload, sealed unless the tunnel has no keys yet, or a relay envelope. *)
Definition carries (f : RoutedFrame) (a : p2p_effect) : Prop :=
  match a with
  | SendUDP wire _ => seals (rf_Payload f) wire \/
      exists s, seals (rf_Payload f) s /\ PackRelayFrame (mkRelayFrame (rf_SrcDevice f) (rf_DstDevice f) s) = Some wire
  | WriteKCP _ wire => exists s, (s = rf_Payload f \/ seals (rf_Payload f) s) /\ writeLANFrame s = Some wire
  | _ => False
  end.

Definition sealed_of (f g : RoutedFrame) : Prop := exists s, seals (rf_Payload f) s /\ g = with_payload f s.
Definition accepted (s : relay_client) (f : RoutedFrame) : Prop :=
  Exists (carries f) (p2p_out (rc_p2p s)) \/
  exists url fs g, (url, fs) ∈ rc_posted s /\ sealed_of f g /\ relay_request_frame g ∈ fs.

(** What no operation of the loop undoes. *)
Record grows (x y : lanP2P) : Prop := {
  gr_out : exists l, p2p_out y = p2p_out x ++ l;
  gr_relay : forall d, CanRelay x d = true -> CanRelay y d = true;
}.

Lemma grows_refl x : grows x x.
Proof. split; [exists []; by rewrite app_nil_r|done]. Qed.

Lemma grows_trans x y z : grows x y -> grows y z -> grows x z.
Proof.
  intros [(l & Hl) Hr] [(l' & Hl') Hr']. split; [|auto]. exists (l ++ l'). by rewrite Hl', Hl, (assoc_L app).
Qed.

Lemma grows_emit a x : grows x (emit a x).
Proof. split; [by exists [a]|done]. Qed.

(** A store keeps a peer relayable when it keeps its codecs set. *)
Lemma grows_upd id f x :
  (forall p, the_peer x id = Some p -> codecs_set p = true -> codecs_set (f p) = true) -> grows x (upd id f x).
Proof.
  intros Hf. split; [exists []; simpl; by rewrite app_nil_r|]. intros d. unfold CanRelay. rewrite upd_lookup.
  case_decide; [|done]. subst. destruct (the_peer x id) as [p|]; [|done]. by apply Hf.
Qed.

Lemma Seal_keeps_codec tx payload : tx <> None -> (Session.Seal tx payload).2 <> None.
Proof. destruct tx as [c|]; [|done]. intros _. unfold Session.Seal. by destruct (Session.aead c). Qed.

Lemma grows_sealed id p payload x :
  the_peer x id = Some p -> grows x (upd id (set_tx (Session.Seal (peer_tx p) payload).2) x).
Proof.
  intros Hp. apply grows_upd. intros p' Hp' Hc. rewrite Hp in Hp'. injection Hp' as <-. unfold codecs_set in *.
  apply bool_decide_eq_true in Hc as [Ht ?]. apply bool_decide_eq_true. split; [by apply Seal_keeps_codec|done].
Qed.

Lemma kcp_write_spec ev conn payload x :
  let r := kcp_write ev conn payload x in
  grows x r.2 /\ (r.1 = true -> exists wire, writeLANFrame payload = Some wire /\ WriteKCP conn wire ∈ p2p_out r.2).
Proof.
  unfold kcp_write. destruct (writeLANFrame payload) as [wire|]; [|split; [apply grows_refl|done]].
  destruct (e_kcp ev conn); [|split; [apply grows_refl|done]]. split; [apply grows_emit|]. intros _. exists wire.
  split; [done|]. simpl. apply elem_of_app. right. by left.
Qed.

(** Each sending operation grows the runtime, and its success is a packet that carries
    the frame. *)
Definition sends (f : RoutedFrame) (x : lanP2P) (r : bool * lanP2P) : Prop :=
  grows x r.2 /\ (r.1 = true -> Exists (carries f) (p2p_out r.2)).

Lemma sends_none f x : sends f x (false, x).
Proof. split; [apply grows_refl|done]. Qed.

Lemma sends_after f x y r : grows x y -> sends f y r -> sends f x r.
Proof. intros H [H1 H2]. split; [by eapply grows_trans|done]. Qed.

Lemma seal_and_write_sends ev id p conn f x :
  the_peer x id = Some p -> sends f x (seal_and_write ev id p conn (rf_Payload f) x).
Proof.
  intros Hp. unfold seal_and_write. pose proof (grows_sealed id p (rf_Payload f) x Hp) as Hg.
  destruct (Session.Seal (peer_tx p) (rf_Payload f)) as [[sealed|] tx'] eqn:Es; simpl in Hg; [|by split].
  eapply sends_after; [exact Hg|]. destruct (kcp_write_spec ev conn sealed (upd id (set_tx tx') x)) as [H1 H2].
  split; [exact H1|]. intros (wire & Hw & Hin)%H2. apply Exists_exists. exists (WriteKCP conn wire). split; [done|].
  exists sealed. split; [right; by exists (peer_tx p), tx'|done].
Qed.

Lemma datagram_send_sends ev f x : sends f x (datagram_send ev (rf_DstDevice f) (rf_Payload f) x).
Proof.
  unfold datagram_send. destruct (the_peer x (rf_DstDevice f)) as [p|] eqn:Hp; [|apply sends_none].
  destruct (peer_addr p) as [addr|]; [|apply sends_none]. destruct (negb (p2p_conn x)); [apply sends_none|].
  unfold transport_Seal. destruct (peer_tx p) as [c|] eqn:Et.
  2: { eapply sends_after; [|apply sends_none]. apply grows_upd. intros p' Hp'. rewrite Hp in Hp'. injection Hp' as <-.
       unfold codecs_set. rewrite Et. intros [? _]%bool_decide_eq_true. done. }
  pose proof (grows_sealed _ p (rf_Payload f) x Hp) as Hg. rewrite Et in Hg.
  destruct (Session.Seal (Some c) (rf_Payload f)) as [[sealed|] tx'] eqn:Es; cbn [snd lift_codec] in *; [|by split].
  eapply sends_after; [exact Hg|]. destruct (e_udp ev addr); [|apply sends_none]. split; [apply grows_emit|]. intros _.
  apply Exists_app. right. apply Exists_cons_hd. left. by exists (Some c), tx'.
Qed.

Lemma kcp_send_sends ev f x : sends f x (kcp_send ev (rf_DstDevice f) f x).
Proof.
  unfold kcp_send. destruct (the_peer x (rf_DstDevice f)) as [p|] eqn:Hp; [|apply sends_none].
  destruct (negb _); [apply sends_none|]. destruct (peer_kcp p) as [conn|]; [|apply sends_none].
  destruct (peer_tx p) eqn:Et; [|].
  - by apply seal_and_write_sends.
  - destruct (kcp_write_spec ev conn (rf_Payload f) x) as [H1 H2]. split; [exact H1|]. intros (wire & Hw & Hin)%H2.
    apply Exists_exists. exists (WriteKCP conn wire). split; [done|]. exists (rf_Payload f). split; [by left|done].
Qed.

Lemma p2p_Send_sends ev f x : sends f x (p2p_Send ev f x).
Proof.
  unfold p2p_Send. destruct (the_peer x (rf_DstDevice f)) as [p|]; [|apply sends_none].
  destruct (RelayOnly _); [apply sends_none|]. cbv zeta. set (x1 := upd _ _ x).
  assert (Hx1 : grows x x1) by (by apply grows_upd). apply (sends_after f x x1 _ Hx1). clearbody x1. clear x Hx1.
  destruct (_ && _); [apply sends_none|].
  assert (H : sends f x1 (sendViaFastPath ev f (rf_DstDevice f) x1)).
  { unfold sendViaFastPath. destruct (the_peer x1 (rf_DstDevice f)) as [q|] eqn:Hq; [|apply sends_none].
    destruct (negb _); [apply sends_none|]. destruct (_ || _); [apply sends_none|].
    destruct (peer_throughputKCP q); [|apply sends_none]. destruct (negb _); [apply sends_none|].
    by apply seal_and_write_sends. }
  destruct (sendViaFastPath ev f (rf_DstDevice f) x1) as [[] x2]; [exact H|]. destruct H as [H _]. simpl in H.
  apply (sends_after f x1 x2 _ H). clear H.
  destruct (peer_datagramReady p); [|apply kcp_send_sends]. pose proof (datagram_send_sends ev f x2) as H.
  destruct (datagram_send ev (rf_DstDevice f) (rf_Payload f) x2) as [[] x3]; [exact H|]. destruct H as [H _].
  apply (sends_after f x2 x3 _ H). apply kcp_send_sends.
Qed.

Lemma SealRelayFrames_spec fs : forall x,
  let '(out, y) := SealRelayFrames fs x in
  grows x y /\
  (Forall (fun f => CanRelay x (rf_DstDevice f) = true) fs -> forall gs, out = Some gs -> Forall2 sealed_of fs gs).
Proof.
  induction fs as [|f fs IH]; intros x; cbn [SealRelayFrames].
  { split; [apply grows_refl|]. intros _ gs [= <-]. constructor. }
  destruct (the_peer x (rf_DstDevice f)) as [p|] eqn:Hp.
  2: { specialize (IH x). destruct (SealRelayFrames fs x) as [out y]. destruct IH as [IH _]. split; [done|].
       intros [Hc _]%Forall_cons. unfold CanRelay in Hc. by rewrite Hp in Hc. }
  destruct (peer_tx p) as [c|] eqn:Et.
  2: { specialize (IH x). destruct (SealRelayFrames fs x) as [out y]. destruct IH as [IH _]. split; [done|].
       intros [Hc _]%Forall_cons. unfold CanRelay in Hc. rewrite Hp, Et in Hc. by apply bool_decide_eq_true in Hc as [? _]. }
  pose proof (grows_sealed _ p (rf_Payload f) x Hp) as Hg. rewrite Et in Hg.
  destruct (Session.Seal (Some c) (rf_Payload f)) as [[sealed|] tx'] eqn:Es; [|by split]. cbn [snd] in Hg.
  specialize (IH (upd (rf_DstDevice f) (set_tx tx') x)).
  destruct (SealRelayFrames fs _) as [out y]. destruct IH as [IH1 IH2]. split; [by eapply grows_trans|].
  intros [_ Hc]%Forall_cons gs E. destruct out as [gs'|]; [|done]. injection E as <-.
  constructor; [exists sealed; split; [by exists (Some c), tx'|done]|]. apply IH2; [|done].
  eapply Forall_impl; [exact Hc|]. intros g. apply (gr_relay _ _ Hg).
Qed.

Lemma SendUDPRelayFrame_spec ev g x :
  let '(ok, y) := SendUDPRelayFrame ev g x in
  grows x y /\ (ok = true -> forall f, sealed_of f g -> Exists (carries f) (p2p_out y)).
Proof.
  unfold SendUDPRelayFrame. destruct (p2p_server x); [|split; [apply grows_refl|done]].
  destruct (negb _); [split; [apply grows_refl|done]|].
  destruct (PackRelayFrame _) as [wire|] eqn:Ep; [|split; [apply grows_refl|done]].
  destruct (_ && _); [|split; [apply grows_refl|done]]. split; [apply grows_emit|]. intros _ f (sealed & Hs & ->).
  apply Exists_app. right. apply Exists_cons_hd. right. by exists sealed.
Qed.

Lemma accepted_grows x y s f : grows x y -> accepted (put_p2p x s) f -> accepted (put_p2p y s) f.
Proof. intros [(l & Hl) _] [H|H]; [left|by right]. simpl. rewrite Hl. apply Exists_app. by left. Qed.

Lemma accepted_put s y f : grows (rc_p2p s) y -> accepted s f -> accepted (put_p2p y s) f.
Proof. destruct s as [x posted]. apply (accepted_grows x y (mkRelayClient x posted)). Qed.

Lemma lan_transport_laws : TransportLaws lan_transport accepted sealed_of.
Proof.
  split; simpl.
  - intros t s f g. apply accepted_put, p2p_Send_sends.
  - intros t s d p g H. exact H.
  - intros s fs g. apply accepted_put. pose proof (SealRelayFrames_spec fs (rc_p2p s)) as H.
    destruct (SealRelayFrames fs (rc_p2p s)). apply H.
  - intros s f g. apply accepted_put. pose proof (SendUDPRelayFrame_spec e f (rc_p2p s)) as H.
    destruct (SendUDPRelayFrame e f (rc_p2p s)). apply H.
  - intros s u fs g. unfold postRelayFrames. destruct (answer _ _ _); [|done]. case_decide; [done|].
    intros [Ha|(url & gs & g' & Hin & Hg)]; [by left|]. right. exists url, gs, g'. split; [|done].
    simpl. apply elem_of_app. by left.
  - intros t s f d. apply (gr_relay _ _ (proj1 (p2p_Send_sends (at_time e t) f (rc_p2p s)))).
  - done.
  - intros t s f H. left. by apply p2p_Send_sends.
  - intros s fs out Hc H. pose proof (SealRelayFrames_spec fs (rc_p2p s)) as Hs.
    destruct (SealRelayFrames fs (rc_p2p s)) as [o y]. by apply Hs.
  - intros s f g Hfg H. left. pose proof (SendUDPRelayFrame_spec e g (rc_p2p s)) as Hs.
    destruct (SendUDPRelayFrame e g (rc_p2p s)) as [ok y]. simpl in *. by apply Hs.
  - intros s u fs gs Hs. unfold postRelayFrames. destruct (answer _ _ _); [|done]. case_decide; [done|]. intros _.
    apply Forall_forall. intros f Hf. apply list_elem_of_lookup in Hf as [i Hi].
    destruct (Forall2_lookup_l _ _ _ _ _ Hs Hi) as (g & Hg & Hfg). right. eexists _, _, g.
    split; [simpl; apply elem_of_app; right; by left|]. split; [done|].
    apply list_elem_of_fmap. exists g. split; [done|]. by eapply list_elem_of_lookup_2.
Qed.

(** Over the peer-to-peer runtime the sending loop loses no frame: while nothing
    expires, each frame that waits when a flush reads the queue is, when it ends, still
    waiting, or carried by a datagram, tunnel frame or relay envelope the runtime
    wrote, or in a request the relay server answered with success; whether sends, seals
    and posts succeed or fail, and whatever state the peers are in. *)
Theorem flush_loses_nothing (serverHTTP : string) (c : flush_clock) (x : sender) (s : relay_client) (it : lanPendingFrame) :
  pending_core (file_batch c x) -> fresh_during c (file_batch c x) -> it ∈ frames (file_batch c x) ->
  let '(x', s') := flush serverHTTP (Some lan_transport) c x s in
  it ∈ frames (pending x') \/ accepted s' (pf_frame it).
Proof. exact (flush_keeps_frames serverHTTP (Some lan_transport) accepted sealed_of lan_transport lan_transport_laws c x s it eq_refl). Qed.

End Transport.

(* ------------------------------------------------------------------ *)
(** ** Witness *)

(** A frame for the confirmed peer of [toy_punched], and one for a device it does not
    know. *)
Definition toy_packet (dst : string) : RoutedFrame :=
  mkRoutedFrame 1 "dev-a" dst TypeIPv4 [x45; x00] (mkIPv4Header 4 20 x06 [] [] 40000 445 false 0).
Definition toy_batch : sender :=
  mkSender [toy_packet "dev-b"; toy_packet "dev-x"]
    (newLANPendingQueue lanPendingMaxFrames lanPendingMaxBytes lanPendingTTL) time_zero None.
Definition toy_client : relay_client := mkRelayClient toy_punched [].

Lemma flush_loses_nothing_witness :
  let it := mkPendingFrame (toy_packet "dev-b") 1 2 1 in
  let '(x', s') := flush "http://relay"
     (Some (lan_transport (GU := ascii_unicode) toy_penv (fun _ _ fs => Some (Z.of_nat (length fs))))) toy_clock toy_batch toy_client in
  it ∈ frames (pending x') \/ accepted s' (pf_frame it).
Proof.
  cbv zeta. apply (flush_loses_nothing (GU := ascii_unicode)).
  - destruct (add_all_wf 1 (batch toy_batch) (pending toy_batch)) as ((Hc & _) & _);
      [by apply new_queue_wf|vm_compute; reflexivity|exact Hc].
  - do 4 (apply Forall_cons; split; [right; apply Forall_forall; decide_now|]). constructor.
  - vm_compute. left.
Defined.
