(* ===== verification/Rotation.v ===== *)
(** * Rotation: a new socket, and the punch loops (cmd/UDPTunnelLAN/packet_runtime.go)

    What [rotateSocketAndRestartPunch] leaves of each peer, and what becomes of the
    punch loops of a peer that cannot be reached while the server does not relay. *)

From S2P Require Import Prelude GoStrings Base64 Store Protocol Router Link LanIdentity Pending Paths P2PState P2P P2PInv.
From S2P Require Import Session Relay.
From S2P Require SecureFrame.

Section Rotation.
  Context `{GU : GoUnicode} `{ED : Ed25519} `{MJ : MessageJSON} `{SC : SessionCrypto} `{XC : SecureFrame.SecureCrypto}.

(* ------------------------------------------------------------------ *)
(** ** The rotation *)

(** One peer in a walk that treats each peer once. *)
Lemma fold_peers_lookup (f : lanP2P -> string -> lanP2P) (g : lanP2PPeer -> lanP2PPeer) ids : forall x,
  (forall x id k, the_peer (f x id) k = if decide (k = id) then g <$> the_peer x k else the_peer x k) ->
  NoDup ids ->
  forall k, the_peer (fold_left f ids x) k = if decide (k ∈ ids) then g <$> the_peer x k else the_peer x k.
Proof.
  induction ids as [|id ids IH]; intros x Hf Hnd k; cbn [fold_left].
  { by rewrite decide_False by apply not_elem_of_nil. }
  apply NoDup_cons in Hnd as [Hni Hnd]. rewrite IH, Hf by done.
  destruct (decide (k = id)) as [->|Hne].
  - rewrite decide_False, decide_True by (done || by left). done.
  - destruct (decide (k ∈ ids)); [rewrite decide_True by (by right)|rewrite decide_False by (by intros [->|?]%elem_of_cons)]; done.
Qed.

Lemma peer_ids x : NoDup (map_to_list (p2p_peers x)).*1 /\
  forall k, k ∈ (map_to_list (p2p_peers x)).*1 <-> the_peer x k <> None.
Proof.
  split; [apply NoDup_fst_map_to_list|]. intros k. rewrite list_elem_of_fmap. split.
  - intros ([k' p] & -> & Hin%elem_of_map_to_list). unfold the_peer. simpl. by rewrite Hin.
  - unfold the_peer. destruct (p2p_peers x !! k) as [p|] eqn:E; [|done]. intros _. exists (k, p). split; [done|].
    by apply elem_of_map_to_list.
Qed.

(** A walk over all the peers applies [g] to each. *)
Lemma fold_all_peers (f : lanP2P -> string -> lanP2P) (g : lanP2PPeer -> lanP2PPeer) x :
  (forall x id k, the_peer (f x id) k = if decide (k = id) then g <$> the_peer x k else the_peer x k) ->
  forall k, the_peer (fold_left f (map_to_list (p2p_peers x)).*1 x) k = g <$> the_peer x k.
Proof.
  intros Hf k. destruct (peer_ids x) as [Hnd Hin]. rewrite (fold_peers_lookup f g) by done.
  case_decide as Hk; [done|]. destruct (the_peer x k) eqn:E; [|done]. destruct Hk. apply Hin. by rewrite E.
Qed.

Lemma the_peer_resetRelayTimer id x k : the_peer (resetRelayTimer id x) k = the_peer x k.
Proof. unfold resetRelayTimer. by case_decide. Qed.

Lemma reset_peer_lookup x id k :
  the_peer (reset_peer x id) k = if decide (k = id) then reset_flags <$> the_peer x k else the_peer x k.
Proof.
  unfold reset_peer. destruct (the_peer x id) as [p|] eqn:Hp.
  2: { case_decide; subst; [by rewrite Hp|done]. }
  rewrite the_peer_resetRelayTimer, upd_lookup. unfold close_pc. by destruct (peer_kcp p), (peer_pc p).
Qed.

Lemma writeControl_peer e d m x k : the_peer (p2p_writeControl e d m x) k = the_peer x k.
Proof. unfold p2p_writeControl. destruct d; [|done]. by destruct (_ && _). Qed.

(** Only the count of registrations changes. *)
Lemma writeLANRegister_peer e id x k :
  the_peer (writeLANRegister e id x) k = the_peer x k \/
  the_peer (writeLANRegister e id x) k = (fun p => set_registers (u64 (peer_registers p + 1)) p) <$> the_peer x k.
Proof.
  unfold writeLANRegister. destruct (the_peer x id); [|by left]. case_match; [|by left].
  rewrite writeControl_peer, upd_lookup. case_decide; [by right|by left].
Qed.

Definition same_but_registers (p q : lanP2PPeer) : Prop := exists n, q = set_registers n p.

Lemma reregister_peer e ids : forall x k p, the_peer x k = Some p ->
  exists q, the_peer (fold_left (fun x id => writeLANRegister e id x) ids x) k = Some q /\ same_but_registers p q.
Proof.
  induction ids as [|id ids IH]; intros x k p Hp; cbn [fold_left].
  { exists p. split; [done|]. exists (peer_registers p). by destruct p. }
  destruct (writeLANRegister_peer e id x k) as [E|E]; rewrite Hp in E; apply IH in E as (q & Hq & n & ->);
    (eexists; split; [exact Hq|]); [by exists n|]. exists n. done.
Qed.

(** What a step adds to what was sent and started. *)
Definition extends (x y : lanP2P) : Prop :=
  (forall a, a ∈ p2p_out x -> a ∈ p2p_out y) /\ (forall g, g ∈ p2p_go x -> g ∈ p2p_go y).

#[local] Instance extends_preorder : PreOrder extends.
Proof. split; [by intros ?|]. intros x y z [H1 H2] [H3 H4]. split; auto. Qed.

Lemma extends_emit a x : extends x (emit a x) /\ a ∈ p2p_out (emit a x).
Proof. split; [split; [|done]; intros b Hb|]; simpl; apply elem_of_app; [by left|right; by left]. Qed.

Lemma extends_spawn g x : extends x (spawn g x) /\ g ∈ p2p_go (spawn g x).
Proof. split; [split; [done|]; intros b Hb|]; simpl; apply elem_of_app; [by left|right; by left]. Qed.

Lemma extends_fold {A} (f : lanP2P -> A -> lanP2P) l : (forall x a, extends x (f x a)) -> forall x, extends x (fold_left f l x).
Proof. intros Hf. induction l as [|a l IH]; intros x; [done|]. simpl. etrans; [apply Hf|apply IH]. Qed.

Lemma extends_writeLANRegister e id x : extends x (writeLANRegister e id x).
Proof.
  unfold writeLANRegister. destruct (the_peer x id); [|done]. case_match; [|done]. unfold p2p_writeControl.
  set (x1 := upd id _ x). assert (H1 : extends x x1) by by split. change (p2p_server x1) with (p2p_server x).
  destruct (p2p_server x); [|done]. destruct (_ && _); [|done]. etrans; [exact H1|]. apply extends_emit.
Qed.

(** Resetting a peer closes its connections and arms its relay timer. *)
Lemma reset_peer_extends x id : extends x (reset_peer x id) /\
  forall p, the_peer x id = Some p ->
    (forall c, peer_kcp p = Some c -> CloseKCP c ∈ p2p_out (reset_peer x id)) /\
    (peer_pc p = true -> ClosePC id ∈ p2p_out (reset_peer x id)) /\
    (p2p_relayTimers x !! id = Some true \/ GoRelayFallback id ∈ p2p_go (reset_peer x id)).
Proof.
  unfold reset_peer. destruct (the_peer x id) as [p|]; [|done].
  set (x1 := match peer_kcp p with None => x | Some c => _ end). set (x2 := close_pc id p x1). set (x3 := upd id reset_flags x2).
  assert (H1 : extends x x1) by (subst x1; destruct (peer_kcp p); [apply extends_emit|done]).
  assert (H2 : extends x1 x2) by (subst x2; unfold close_pc; destruct (peer_pc p); [apply extends_emit|done]).
  assert (H3 : extends x3 (resetRelayTimer id x3)).
  { unfold resetRelayTimer. case_decide; [done|]. split; [done|]. apply (extends_spawn _ x3). }
  assert (H13 : extends x1 (resetRelayTimer id x3)) by (etrans; [exact H2|exact H3]).
  split; [by etrans|]. intros p' [= <-]. split_and!.
  - intros c Hc. apply H13. subst x1. rewrite Hc. apply extends_emit.
  - intros Hc. apply H3. change (ClosePC id ∈ p2p_out x2). subst x2. unfold close_pc. rewrite Hc. apply extends_emit.
  - unfold resetRelayTimer. change (p2p_relayTimers x3) with (p2p_relayTimers x2).
    assert (Et : p2p_relayTimers x2 = p2p_relayTimers x).
    { subst x2 x1. unfold close_pc. by destruct (peer_pc p), (peer_kcp p). }
    rewrite Et. case_decide; [by left|right]. simpl. apply elem_of_app. right. by left.
Qed.

Lemma reset_peer_timers x i id : id <> i -> p2p_relayTimers (reset_peer x i) !! id = p2p_relayTimers x !! id.
Proof.
  intros Hne. unfold reset_peer, resetRelayTimer, close_pc. destruct (the_peer x i) as [p|]; [|done].
  destruct (peer_kcp p), (peer_pc p); case_decide; simpl; try done; by rewrite lookup_insert_ne.
Qed.

Lemma reset_peers_effects ids id p : forall x,
  NoDup ids -> id ∈ ids -> the_peer x id = Some p -> p2p_relayTimers x !! id = None ->
  let y := fold_left reset_peer ids x in
  (forall c, peer_kcp p = Some c -> CloseKCP c ∈ p2p_out y) /\ (peer_pc p = true -> ClosePC id ∈ p2p_out y) /\
  GoRelayFallback id ∈ p2p_go y.
Proof.
  induction ids as [|i ids IH]; intros x Hnd Hin Hp Ht; [by apply not_elem_of_nil in Hin|]. cbn [fold_left].
  apply NoDup_cons in Hnd as [Hi Hnd]. destruct (decide (id = i)) as [<-|Hne].
  - destruct (reset_peer_extends x id) as [_ H]. destruct (H p Hp) as (H1 & H2 & H3).
    assert (Hext : extends (reset_peer x id) (fold_left reset_peer ids (reset_peer x id)))
      by (apply extends_fold; intros; apply reset_peer_extends).
    split_and!; [intros c Hc; apply Hext; auto|intros Hc; apply Hext; auto|]. apply Hext. destruct H3 as [H3|H3]; [congruence|done].
  - apply IH; [done|set_solver|by rewrite reset_peer_lookup, decide_False|by rewrite reset_peer_timers].
Qed.

Lemma startReadLoop_peer x k : the_peer (startReadLoop x) k = the_peer x k.
Proof. unfold startReadLoop. by destruct (p2p_conn x). Qed.

(** What resetting and registering the peers leaves alone. *)
Definition fixed_of (x : lanP2P) := (p2p_conn x, p2p_rotating x, p2p_lastRotation x, p2p_pathPolicy x, p2p_tcpFastPath x).
Definition socket_of (x : lanP2P) := (fixed_of x, p2p_readLoopGen x).

Lemma fold_socket {A} (f : lanP2P -> A -> lanP2P) l : (forall x a, socket_of (f x a) = socket_of x) ->
  forall x, socket_of (fold_left f l x) = socket_of x.
Proof. intros Hf. induction l as [|a l IH]; intros x; [done|]. cbn [fold_left]. by rewrite IH. Qed.

Lemma reset_peer_socket x id : socket_of (reset_peer x id) = socket_of x.
Proof.
  unfold reset_peer, resetRelayTimer, close_pc. destruct (the_peer x id) as [p|]; [|done].
  by destruct (peer_kcp p), (peer_pc p); case_decide.
Qed.

Lemma writeLANRegister_socket e x id : socket_of (writeLANRegister e id x) = socket_of x.
Proof.
  unfold writeLANRegister, p2p_writeControl. destruct (the_peer x id); [|done]. case_match; [|done].
  simpl. destruct (p2p_server x); [|done]. by destruct (_ && _).
Qed.

(** The state with the new socket, the peers not yet reset. *)
Definition new_socket (e : penv) (upnp : option string) (reason : string) (x : lanP2P) : lanP2P :=
  put_conn true (put_upnpMapping (bool_decide (upnp <> None)) (put_upnpAddr (default EmptyString upnp)
    (put_lastRotation (UnixNano (e_now e)) (put_rotationCount (u64 (p2p_rotationCount x + 1)) (put_lastRotationReason reason x))))).

Lemma rotate_eq e upnp reason x :
  p2p_rotating x = false -> lanRotationCooldown <= time_sub (e_now e) (from_UnixNano (p2p_lastRotation x)) ->
  let x1 := if p2p_conn x then emit CloseSocket (new_socket e upnp reason x) else new_socket e upnp reason x in
  let x2 := startReadLoop (resetAllPeersAfterSocketRotation x1) in
  rotateSocketAndRestartPunch e (Some upnp) reason x =
    reregisterAllPeers e (if p2p_upnpMapping x2 then spawn GoRefreshUPnP x2 else x2).
Proof. intros Hrot Hcool. unfold rotateSocketAndRestartPunch. by rewrite Hrot, decide_False by lia. Qed.

Lemma reset_all_spec x : let y := resetAllPeersAfterSocketRotation x in
  (forall k, the_peer y k = reset_flags <$> the_peer x k) /\ extends x y /\
  (forall id p, the_peer x id = Some p ->
     (forall c, peer_kcp p = Some c -> CloseKCP c ∈ p2p_out y) /\ (peer_pc p = true -> ClosePC id ∈ p2p_out y) /\
     GoRelayFallback id ∈ p2p_go y) /\
  socket_of y = socket_of x.
Proof.
  unfold resetAllPeersAfterSocketRotation. set (x0 := put_openRetries ∅ (put_relayTimers ∅ x)).
  change (p2p_peers x) with (p2p_peers x0). split_and!.
  - intros k. apply (fold_all_peers reset_peer reset_flags x0). apply reset_peer_lookup.
  - assert (H0 : extends x x0) by by split. etrans; [exact H0|]. apply extends_fold. intros. apply reset_peer_extends.
  - intros id p Hp. destruct (peer_ids x0) as [Hnd Hin]. apply reset_peers_effects; [done| |done|].
    + apply Hin. change (the_peer x0 id) with (the_peer x id). by rewrite Hp.
    + apply lookup_empty.
  - apply (fold_socket reset_peer _ reset_peer_socket x0).
Qed.

(** The read loop and the registrations after the reset. *)
Lemma restart_spec e x : p2p_conn x = true ->
  let x2 := startReadLoop x in
  let y := reregisterAllPeers e (if p2p_upnpMapping x2 then spawn GoRefreshUPnP x2 else x2) in
  (forall k q, the_peer x k = Some q -> exists n, the_peer y k = Some (set_registers n q)) /\ extends x y /\
  fixed_of y = fixed_of x /\
  GoReadLoop (u64 (p2p_readLoopGen x + 1)) ∈ p2p_go y.
Proof.
  intros Hc. cbv zeta. set (x2 := startReadLoop x). set (x3 := if p2p_upnpMapping x2 then _ else _).
  unfold reregisterAllPeers. set (ids := (map_to_list (p2p_peers x3)).*1).
  assert (E2 : x2 = spawn (GoReadLoop (u64 (p2p_readLoopGen x + 1))) (put_readLoopGen (u64 (p2p_readLoopGen x + 1)) x)).
  { subst x2. unfold startReadLoop. by rewrite Hc. }
  assert (H23 : extends x2 x3) by (subst x3; destruct (p2p_upnpMapping x2); [apply extends_spawn|done]).
  assert (H3y : extends x3 (fold_left (fun x id => writeLANRegister e id x) ids x3))
    by (apply extends_fold; intros; apply extends_writeLANRegister).
  assert (Hg : extends x x2 /\ GoReadLoop (u64 (p2p_readLoopGen x + 1)) ∈ p2p_go x2).
  { rewrite E2. apply (extends_spawn _ (put_readLoopGen (u64 (p2p_readLoopGen x + 1)) x)). }
  assert (Hp3 : forall k, the_peer x3 k = the_peer x k).
  { intros k. subst x3. by destruct (p2p_upnpMapping x2); rewrite E2. }
  split_and!.
  - intros k q Hq. rewrite <- Hp3 in Hq. destruct (reregister_peer e ids x3 k q Hq) as (q' & -> & n & ->). by exists n.
  - etrans; [apply Hg|]. by etrans.
  - pose proof (fold_socket (fun x id => writeLANRegister e id x) ids (writeLANRegister_socket e) x3) as Hs.
    assert (E3 : fixed_of x3 = fixed_of x) by (subst x3; by destruct (p2p_upnpMapping x2); rewrite E2).
    injection Hs as H1 H2 H3 H4 H5 _. unfold fixed_of in *. by rewrite H1, H2, H3, H4, H5.
  - apply H3y, H23. apply Hg.
Qed.

(** A rotation replaces the socket and starts every peer anew: each known peer
    loses its address, flags, confirmations and KCP connection (which is closed), keeps
    its keys and codecs, is registered again with the server and gets a relay timer;
    the old socket is closed, a read loop runs on the new one, and until the cooldown
    is over no other rotation does anything. *)
Theorem rotation_resets_peers (e : penv) (upnp : option string) (reason : string) (x : lanP2P) :
  p2p_rotating x = false -> 0 < e_now e ->
  lanRotationCooldown <= time_sub (e_now e) (from_UnixNano (p2p_lastRotation x)) ->
  let y := rotateSocketAndRestartPunch e (Some upnp) reason x in
  (forall id p, the_peer x id = Some p ->
     (exists n, the_peer y id = Some (set_registers n (reset_flags p))) /\
     (forall c, peer_kcp p = Some c -> CloseKCP c ∈ p2p_out y) /\ (peer_pc p = true -> ClosePC id ∈ p2p_out y) /\
     GoRelayFallback id ∈ p2p_go y) /\
  (p2p_conn x = true -> CloseSocket ∈ p2p_out y) /\ GoReadLoop (u64 (p2p_readLoopGen x + 1)) ∈ p2p_go y /\
  (forall e' listen r, time_sub (e_now e') (e_now e) < lanRotationCooldown -> rotateSocketAndRestartPunch e' listen r y = y).
Proof.
  intros Hrot Hnow Hcool y. subst y. rewrite rotate_eq by done. set (x1 := if p2p_conn x then _ else _).
  assert (Hpeers : forall k, the_peer x1 k = the_peer x k) by (subst x1; by destruct (p2p_conn x)).
  assert (Hs1 : socket_of x1 = (true, p2p_rotating x, UnixNano (e_now e), p2p_pathPolicy x, p2p_tcpFastPath x, p2p_readLoopGen x))
    by (subst x1; by destruct (p2p_conn x)).
  assert (Hclose : p2p_conn x = true -> CloseSocket ∈ p2p_out x1).
  { intros Hc. subst x1. rewrite Hc. apply extends_emit. }
  clearbody x1. destruct (reset_all_spec x1) as (Hxr & Hext1 & Heff & Hsock). set (xr := resetAllPeersAfterSocketRotation x1) in *.
  destruct (restart_spec e xr) as (Hy & Hext2 & Hsock2 & Hloop); [rewrite Hs1 in Hsock; by injection Hsock|].
  set (y := reregisterAllPeers e _) in *. rewrite Hs1 in Hsock. injection Hsock as Hc1 Hrot1 Hlast1 _ _ Hgen1.
  split_and!.
  - intros id p Hp. rewrite <- Hpeers in Hp. destruct (Heff id p Hp) as (H1 & H2 & H3). split_and!; [| | |by apply Hext2].
    + apply Hy. by rewrite Hxr, Hp.
    + intros c Hc. apply Hext2. auto.
    + intros Hc. apply Hext2. auto.
  - intros Hc. apply Hext2, Hext1. auto.
  - by rewrite <- Hgen1.
  - intros e' l r Ht. injection Hsock2 as Hc2 Hrot2 Hlast2 _ _. unfold rotateSocketAndRestartPunch. rewrite Hrot2, Hrot1, Hrot, Hlast2, Hlast1.
    unfold from_UnixNano, UnixNano. replace (e_now e - unix_epoch + unix_epoch) with (e_now e) by lia.
    rewrite decide_True; [done|]. split; [done|]. apply bool_decide_eq_false. unfold time_zero. lia.
Qed.

(** A rotation does not reset the throughput tunnel: its connection, which belongs to
    the socket just closed, stays the one a throughput frame is written to, and the
    send reports success although the peer has no address and no other path. *)
Theorem rotation_keeps_throughput_tunnel (e : penv) (upnp : option string) (reason : string) (x : lanP2P)
  (p : lanP2PPeer) (conn : nat) (f : RoutedFrame) (sealed wire : list byte) (tx' : option Codec) :
  p2p_rotating x = false -> lanRotationCooldown <= time_sub (e_now e) (from_UnixNano (p2p_lastRotation x)) ->
  RelayOnly (p2p_pathPolicy x) = false -> PreferRelay (p2p_pathPolicy x) = false ->
  EqualFold (TrimSpace (p2p_tcpFastPath x)) "off" = false -> isLANTCPFastPathCandidate f = true ->
  the_peer x (rf_DstDevice f) = Some p -> peer_throughputKCP p = Some conn -> peer_throughputTx p = true ->
  Session.Seal (peer_tx p) (rf_Payload f) = (Ok sealed, tx') -> writeLANFrame sealed = Some wire -> e_kcp e conn = true ->
  let y := rotateSocketAndRestartPunch e (Some upnp) reason x in
  exists q z, the_peer y (rf_DstDevice f) = Some q /\ peer_addr q = None /\ peer_kcp q = None /\ peer_connected q = false /\
    p2p_Send e f y = (true, z) /\ WriteKCP conn wire ∈ p2p_out z.
Proof.
  intros Hrot Hcool Hro Hpr Hoff Hcand Hp Hconn Htx Hseal Hwrite Hkcp y. subst y. rewrite rotate_eq by done.
  set (x1 := if p2p_conn x then _ else _).
  assert (Hp1 : the_peer x1 (rf_DstDevice f) = Some p) by (subst x1; by destruct (p2p_conn x)).
  assert (Hs1 : fixed_of x1 = (true, p2p_rotating x, UnixNano (e_now e), p2p_pathPolicy x, p2p_tcpFastPath x))
    by (subst x1; by destruct (p2p_conn x)).
  clearbody x1. destruct (reset_all_spec x1) as (Hxr & _ & _ & Hsock). set (xr := resetAllPeersAfterSocketRotation x1) in *.
  injection Hsock as Hc1 _ _ Hpol1 Hfast1 _. injection Hs1 as Hc _ _ Hpol Hfast.
  destruct (restart_spec e xr) as (Hy & _ & Hsock2 & _); [by rewrite Hc1|]. set (y := reregisterAllPeers e _) in *.
  injection Hsock2 as _ _ _ Hpol2 Hfast2. rewrite Hpol1, Hpol in Hpol2. rewrite Hfast1, Hfast in Hfast2.
  destruct (Hy (rf_DstDevice f) (reset_flags p)) as [n Hq]; [by rewrite Hxr, Hp1|].
  exists (set_registers n (reset_flags p)). unfold p2p_Send. rewrite Hq, Hpol2, Hro.
  set (y1 := upd (rf_DstDevice f) _ y). change (p2p_pathPolicy y1) with (p2p_pathPolicy y). rewrite Hpol2, Hpr. cbn [andb].
  unfold sendViaFastPath. subst y1. rewrite (upd_lookup (rf_DstDevice f)), decide_True, Hq by done. cbn [fmap option_fmap option_map].
  rewrite Hcand. cbn [negb]. set (y1 := upd (rf_DstDevice f) _ y). change (p2p_tcpFastPath y1) with (p2p_tcpFastPath y).
  rewrite Hfast2, Hoff. simpl. rewrite Hconn, Htx. simpl. unfold seal_and_write. simpl. rewrite Hseal.
  unfold kcp_write. rewrite Hwrite, Hkcp. eexists. split_and!; try done. simpl. apply elem_of_app. right. by left.
Qed.

(* ------------------------------------------------------------------ *)
(** ** Punch loops without a relay *)

(** One round of a peer nobody hears from, with the relay disabled: its fallback timer
    fires, and the refresh of the configuration names the peer again. *)
Record lost (id : string) (n : nat) (x : lanP2P) : Prop := {
  lo_policy : relayAvailable (p2p_pathPolicy x) = false;
  lo_name : TrimSpace id = id /\ id <> EmptyString /\ id <> p2p_deviceID x;
  lo_peer : exists p, the_peer x id = Some p /\ peer_addr p = None /\ peer_datagramReady p = false /\
    peer_connected p = false /\ peer_punched p = false;
  lo_timer : GoRelayFallback id ∈ p2p_go x;
  lo_registering : p2p_registering x !! id = Some true;
  lo_loops : length (filter (fun g => g = GoPunchLoop id) (p2p_go x)) = n;
}.

Lemma count_app (P : goroutine -> Prop) `{!forall g, Decision (P g)} l g :
  length (filter P (l ++ [g])) = (length (filter P l) + if decide (P g) then 1 else 0)%nat.
Proof. rewrite filter_app, length_app. simpl. rewrite filter_cons. by case_decide. Qed.

(** The timer fires: another loop starts. *)
Lemma lost_fallback `{GT : GoTime} (e : penv) id n x : lost id n x ->
  exists y, p2p_step x y /\ relayAvailable (p2p_pathPolicy y) = false /\ p2p_deviceID y = p2p_deviceID x /\
    (exists p, the_peer y id = Some p /\ peer_addr p = None /\ peer_datagramReady p = false /\
       peer_connected p = false /\ peer_punched p = false) /\
    p2p_registering y !! id = Some true /\ p2p_relayTimers y !! id = Some false /\
    length (filter (fun g => g = GoPunchLoop id) (p2p_go y)) = S n.
Proof.
  intros [Hpol Hname (p & Hp & Ha & Hr & Hc & _) Hgo Hreg Hn].
  apply list_elem_of_split in Hgo as (l1 & l2 & Hgo). set (x0 := put_go (l1 ++ l2) x).
  exists (relayFallbackTimer e id x0). split; [apply st_fallback; exists l1, l2; by split|].
  unfold relayFallbackTimer. set (x1 := put_relayTimers _ x0). change (p2p_pathPolicy x1) with (p2p_pathPolicy x). rewrite Hpol. cbn [negb].
  assert (Hp1 : the_peer x1 id = Some p) by exact Hp. unfold enableLongPunching. rewrite Hp1, Hr, Hc. cbn [orb].
  unfold startPunchLoop. rewrite upd_lookup, decide_True, Hp1 by done. cbn [fmap option_fmap option_map peer_punching set_punching].
  split_and!; try done.
  - eexists. split; [change (the_peer (spawn ?g ?z) id) with (the_peer z id); rewrite upd_lookup, decide_True, upd_lookup, decide_True, Hp1 by done; reflexivity|done].
  - apply lookup_insert_eq.
  - simpl. rewrite count_app. rewrite decide_True by done. rewrite Hgo in Hn. rewrite filter_app, filter_cons, decide_False in Hn by done.
    rewrite filter_app. lia.
Qed.

Lemma lost_round `{GT : GoTime} (e : penv) id (key : string) n x : lost id n x -> exists y, rtc p2p_step x y /\ lost id (S n) y.
Proof.
  intros H. destruct (lost_fallback e id n x H) as (y & Hs & Hpol & Hdev & (p & Hp & Hflags) & Hreg & Ht & Hn).
  destruct H as [_ (Hid & Hne & Hself) _ _ _ _]. exists (UpsertPeers [(id, key)] y).
  split; [eapply rtc_l; [exact Hs|]; apply rtc_once, st_upsert|].
  unfold UpsertPeers. cbn [fold_left]. unfold upsert_one. cbn [fst snd]. rewrite Hid, Hdev.
  rewrite decide_False by tauto. rewrite Hp, Hreg. rewrite bool_decide_eq_true_2 by done. cbn [negb].
  unfold upsert_entry. rewrite Hp. unfold registerPeerConvs. rewrite Hid, decide_False by done. cbv zeta.
  unfold upsert_relay. simpl. rewrite Hpol, andb_false_r, Ht, decide_False by done.
  split; simpl; try done.
  - by rewrite Hdev.
  - exists (set_publicKey key p). split; [|done]. change (the_peer (upd id (set_publicKey key) y) id = Some (set_publicKey key p)).
    by rewrite upd_lookup, decide_True, Hp.
  - apply elem_of_app. right. by left.
  - rewrite count_app, decide_False by done. lia.
Qed.

(** While the server does not relay, the punch loops of a peer that has not
    answered pile up: for every [n] some run of the runtime has [n] of them at once for
    one peer, and none of them ends, since a loop without an address to punch goes on
    whatever the time and the traffic. *)
Theorem punch_loops_accumulate `{GT : GoTime} (server dev : string) (idt : Identity) (priv : list byte) (pub : string)
  (policy : lanPathPolicyConfig) (fast : string) (mapping : option string) (nat_type : string) (r : Router) (l : LinkManager)
  (e0 : penv) (id key : string) (n : nat) :
  TrimSpace id = id -> id <> EmptyString -> id <> dev ->
  exists x, rtc p2p_step (startLANP2P_state server dev idt priv pub policy false fast mapping nat_type r l) x /\
    length (filter (fun g => g = GoPunchLoop id) (p2p_go x)) = n /\
    forall e, punch_tick e id x = (true, x).
Proof.
  intros Hid Hne Hdev. set (x0 := startLANP2P_state _ _ _ _ _ _ _ _ _ _ _ _).
  assert (H0 : lost id 0 (UpsertPeers [(id, key)] x0)).
  { subst x0. unfold UpsertPeers. cbn [fold_left]. unfold upsert_one. cbn [fst snd]. rewrite Hid.
    rewrite decide_False by tauto. unfold upsert_entry, registerPeerConvs, upsert_relay. rewrite Hid.
    change (the_peer (startLANP2P_state server dev idt priv pub policy false fast mapping nat_type r l) id) with (@None lanP2PPeer).
    rewrite decide_False by done. simpl. rewrite andb_false_r. rewrite lookup_empty, decide_False by done.
    split; simpl; try done.
    - exists (new_peer id key). split; [apply lookup_insert_eq|done].
    - apply elem_of_app. left. apply elem_of_app. right. by left.
    - apply lookup_insert_eq.
    - rewrite !count_app, !decide_False by done. by destruct mapping. }
  assert (Hn : exists x, rtc p2p_step (UpsertPeers [(id, key)] x0) x /\ lost id n x).
  { clear -H0 e0. induction n as [|n (x & Hx & Hl)]; [by eexists; split; [apply rtc_refl|]|].
    destruct (lost_round e0 id key n x Hl) as (y & Hy & Hl'). exists y. split; [by etrans|done]. }
  destruct Hn as (x & Hx & [_ _ (p & Hp & Ha & _ & _ & Hpu) _ _ Hn]). exists x. split; [eapply rtc_l; [apply st_upsert|exact Hx]|].
  split; [done|]. intros e. unfold punch_tick. by rewrite Hp, Hpu, Ha.
Qed.

End Rotation.

(* ------------------------------------------------------------------ *)
(** ** Witnesses *)

(** The confirmed peer of [toy_punched] also has both tunnels. *)
Definition toy_tunnels : lanP2P :=
  upd "dev-b" (fun p => set_throughputTx true (set_throughputKCP (Some 4%nat) (set_kcp (Some 3%nat) (set_connected true p)))) toy_punched.

Lemma rotation_resets_peers_witness :
  let y := rotateSocketAndRestartPunch (MJ := toy_control) toy_penv (Some None) "relay_open_failed" toy_tunnels in
  CloseSocket ∈ p2p_out y /\ GoReadLoop 1 ∈ p2p_go y /\ CloseKCP 3 ∈ p2p_out y /\ GoRelayFallback "dev-b" ∈ p2p_go y.
Proof.
  assert (Ed : peer_kcp <$> the_peer toy_tunnels "dev-b" = Some (Some 3%nat)) by (vm_compute; reflexivity).
  apply fmap_Some in Ed as (p & E & Hk).
  destruct (rotation_resets_peers (MJ := toy_control) toy_penv None "relay_open_failed" toy_tunnels)
    as (Hpeers & Hclose & Hloop & _); [vm_compute; reflexivity|vm_compute; reflexivity|vm_compute; discriminate|].
  destruct (Hpeers "dev-b" p E) as (_ & H1 & _ & H2). 
  assert (Hc : p2p_conn toy_tunnels = true) by (vm_compute; reflexivity).
  assert (Hg : u64 (p2p_readLoopGen toy_tunnels + 1) = 1) by (vm_compute; reflexivity). rewrite Hg in Hloop.
  exact (conj (Hclose Hc) (conj Hloop (conj (H1 3%nat (eq_sym Hk)) H2))).
Defined.

Definition toy_bulk : RoutedFrame :=
  mkRoutedFrame 1 "dev-a" "dev-b" TypeIPv4 (replicate 1200 x00) (mkIPv4Header 20 1200 IPv4ProtocolTCP [] [] 40000 445 false 1160).

Lemma rotation_keeps_throughput_tunnel_witness :
  exists wire z, p2p_Send (GU := ascii_unicode) toy_penv toy_bulk
    (rotateSocketAndRestartPunch (MJ := toy_control) toy_penv (Some None) "relay_open_failed" toy_tunnels) = (true, z) /\
    WriteKCP 4 wire ∈ p2p_out z.
Proof.
  assert (Ed : (fun p => (peer_throughputKCP p, peer_throughputTx p)) <$> the_peer toy_tunnels "dev-b" = Some (Some 4%nat, true))
    by (vm_compute; reflexivity).
  apply fmap_Some in Ed as (p & E & Hk).
  assert (Hs : match the_peer toy_tunnels "dev-b" with
               | Some p => match (Session.Seal (peer_tx p) (rf_Payload toy_bulk)).1 with
                           | Ok sealed => bool_decide (writeLANFrame sealed <> None) | Err _ => false end
               | None => false end = true) by (vm_compute; reflexivity).
  rewrite E in Hs. destruct (Session.Seal (peer_tx p) (rf_Payload toy_bulk)) as [[sealed|] tx'] eqn:Es; [|discriminate Hs].
  apply bool_decide_eq_true in Hs. cbn [fst] in Hs. destruct (writeLANFrame sealed) as [wire|] eqn:Ew; [|destruct (Hs eq_refl)].
  injection Hk as Hk1 Hk2.
  destruct (rotation_keeps_throughput_tunnel (MJ := toy_control) (GU := ascii_unicode) toy_penv None "relay_open_failed" toy_tunnels p 4 toy_bulk sealed wire tx')
    as (q & z & _ & _ & _ & _ & Hsend & Hin);
    [vm_compute; reflexivity|vm_compute; discriminate|vm_compute; reflexivity|vm_compute; reflexivity|vm_compute; reflexivity|vm_compute; reflexivity|exact E|exact (eq_sym Hk1)|exact (eq_sym Hk2)|exact Es|exact Ew|reflexivity|].
  exists wire, z. exact (conj Hsend Hin).
Defined.

Lemma punch_loops_accumulate_witness :
  exists x, length (filter (fun g => g = GoPunchLoop "dev-b") (p2p_go x)) = 3%nat /\
    forall e, punch_tick (MJ := toy_control) e "dev-b" x = (true, x).
Proof.
  destruct (punch_loops_accumulate (MJ := toy_control) (GU := ascii_unicode) (GT := bin_time) "9.9.9.9:9" "dev-a" toy_identity (be_put 32 5) "pub" direct_policy
    "auto" None "unknown" (toy_router "dev-a") (NewLinkManager (mkLinkConfig EmptyString false 0 0 0)) toy_penv "dev-b" "key" 3)
    as (x & _ & Hn & Hloop); [reflexivity|discriminate|discriminate|].
  exists x. exact (conj Hn Hloop).
Defined.
