(* ===== verification/Delivery.v ===== *)
(** * Delivery: what two peers exchange arrives

    The frames of a KCP stream, a packet sent by one runtime and received by another on
    the datagram path, through the UDP relay and through the HTTP relay. *)

From S2P Require Import Prelude GoStrings Base64 Store Protocol Router Link LanIdentity Pending Replay Paths P2PState P2P P2PInv P2PTransport.
From S2P Require Import Session Relay.
From S2P Require SecureFrame ServerUDP.

(* ------------------------------------------------------------------ *)
(** ** KCP streams *)

(** The payloads read until the stream ends or breaks; [fuel] bounds their number. *)
Fixpoint read_frames (fuel : nat) (stream : list byte) : list (list byte) * list byte :=
  match fuel with
  | O => ([], stream)
  | S fuel' =>
    match readLANFrame stream with
    | None => ([], stream)
    | Some (payload, rest) => let '(ps, r) := read_frames fuel' rest in (payload :: ps, r)
    end
  end.

Lemma write_read payload wire rest :
  writeLANFrame payload = Some wire -> readLANFrame (wire ++ rest) = Some (payload, rest).
Proof.
  unfold writeLANFrame. case_decide as Hd; [done|]. intros HW. apply Some_inj in HW. subst wire. apply Decidable.not_or in Hd as [H0 H1].
  assert (Hn : Z.of_nat (length payload) <= 65536) by (unfold lanKCPFrameMax in H1; lia).
  unfold readLANFrame. rewrite <- (assoc_L app). rewrite decide_False by (rewrite length_app, length_be_put; lia).
  rewrite take_app_length', drop_app_length' by (symmetry; apply length_be_put).
  rewrite be_get_put_small by (unfold u32; rewrite Z.mod_small; lia). unfold u32. rewrite Z.mod_small by lia.
  rewrite decide_False by (intros [?|?]; [lia|unfold lanKCPFrameMax in *; lia]).
  rewrite decide_False by (rewrite length_app; lia). rewrite Nat2Z.id, take_app_length, drop_app_length. done.
Qed.

Lemma read_write stream payload rest :
  readLANFrame stream = Some (payload, rest) -> exists wire, writeLANFrame payload = Some wire /\ stream = wire ++ rest.
Proof.
  unfold readLANFrame. case_decide as H4; [done|]. case_decide as Hn; [done|]. case_decide as Hl; [done|].
  intros [= <- <-]. apply Decidable.not_or in Hn as [Hn0 Hn1]. set (n := be_get (take 4 stream)) in *.
  pose proof (be_get_bound (take 4 stream)) as Hb. fold n in Hb. rewrite length_take, Nat.min_l in Hb by lia.
  assert (Hlen : length (take (Z.to_nat n) (drop 4 stream)) = Z.to_nat n) by (rewrite length_take; lia).
  unfold writeLANFrame. rewrite Hlen.
  rewrite decide_False by (unfold lanKCPFrameMax in *; lia). eexists. split; [reflexivity|].
  rewrite Z2Nat.id by lia. unfold u32. rewrite Z.mod_small by lia.
  assert (Hp : be_put 4 n = take 4 stream).
  { pose proof (be_put_get (take 4 stream)) as Hp. rewrite length_take, Nat.min_l in Hp by lia. exact Hp. }
  rewrite Hp, <- (assoc_L app), take_drop, take_drop. done.
Qed.

(** What is written on a KCP stream is what is read: the frames of any list of
    payloads, one after the other and followed by anything, are read back one by one;
    and whatever is read is the frame of its payload, so no other split exists. *)
Theorem kcp_stream_framing (payloads wires : list (list byte)) (rest : list byte) :
  Forall2 (fun p w => writeLANFrame p = Some w) payloads wires ->
  read_frames (length payloads) (concat wires ++ rest) = (payloads, rest) /\
  (forall payload tail, readLANFrame (concat wires ++ rest) = Some (payload, tail) ->
     exists wire, writeLANFrame payload = Some wire /\ concat wires ++ rest = wire ++ tail).
Proof.
  intros H. split; [|intros; by apply read_write]. induction H as [|p w ps ws Hw Hs IH]; [done|].
  simpl. rewrite <- (assoc_L app), (write_read p w) by done. by rewrite IH.
Qed.

(* ------------------------------------------------------------------ *)
(** ** Two runtimes *)

(** The receiver's codec opens what the sender's seals next: they share the cipher and
    the receiver has seen no newer number. *)
Definition in_sync (tx rx : option Codec) (a : cipherAEAD) : Prop :=
  exists ct cr S, tx = Some ct /\ rx = Some cr /\ peers ct cr a /\ win_rel (replay cr) S /\
    rw_max (replay cr) < nextSeq ct /\ is_u64 (nextSeq ct).

(** How many more frames the sender can seal before its counter wraps. *)
Definition seals_left (tx : option Codec) (n : Z) : Prop := match tx with Some c => nextSeq c + n < 2 ^ 64 | None => False end.

Lemma in_sync_step (tx rx : option Codec) (a : cipherAEAD) `{!AEADLaws a} payload n :
  in_sync tx rx a -> 1 <= n -> seals_left tx n ->
  exists wire tx' rx', Session.Seal tx payload = (Ok wire, tx') /\ Session.Open rx wire = (Ok payload, rx') /\
    in_sync tx' rx' a /\ seals_left tx' (n - 1) /\ take 4 wire = Session.magic.
Proof.
  intros (ct & cr & Sn & -> & -> & HP & HR & Hmax & Hu) Hn Hleft. simpl in Hleft.
  rewrite (Seal_eq ct a) by apply HP.
  set (seq := nextSeq ct) in *. pose proof (wr_max _ _ HR) as Hm. unfold is_u64 in *.
  pose proof (Open_sealed ct cr a Sn seq payload _ HP Hu HR) as Ho.
  destruct (Accept_newer (replay cr) Sn seq HR Hu ltac:(lia) Hmax) as (Hadm & _ & HR' & Hmx). rewrite Hadm in Ho.
  eexists _, _, _. split; [reflexivity|]. split; [exact Ho|]. split_and!.
  - eexists _, _, _. split; [reflexivity|]. split; [reflexivity|]. split; [destruct HP; by split|].
    split; [exact HR'|]. simpl. unfold is_u64. rewrite u64_small by lia. split; [lia|lia].
  - simpl. rewrite u64_small by lia. lia.
  - unfold sealed_frame. by destruct (header_fields ct seq (aead_seal a (nonceFrom (networkID ct) seq) payload (header ct seq))) as (-> & _).
Qed.

Section Two.
  Context `{GU : GoUnicode} `{ED : Ed25519} `{MJ : MessageJSON} `{SC : SessionCrypto} `{XC : SecureFrame.SecureCrypto}.

(** The direct path from [xa] to [xb], where [xb] sees [xa] at [src]: the sender is
    confirmed and may use the path, the receiver knows the sender by its address. *)
Record direct (src : string) (a : cipherAEAD) (xa xb : lanP2P) (n : Z) : Prop := {
  di_peer : exists pa pb, the_peer xa (p2p_deviceID xb) = Some pa /\ the_peer xb (p2p_deviceID xa) = Some pb /\
    peer_datagramReady pa = true /\ peer_addr pa <> None /\ peer_addr pb = Some src /\
    in_sync (peer_tx pa) (peer_rx pb) a /\ seals_left (peer_tx pa) n;
  di_sender : p2p_conn xa = true /\ RelayOnly (p2p_pathPolicy xa) = false;
  di_receiver : p2p_wired xb = true /\ p2p_deviceID xa <> EmptyString /\
    p2p_peerConv xb !! be_get (rev Session.magic) = None /\
    forall id p, the_peer xb id = Some p -> peer_addr p = Some src -> id = p2p_deviceID xa;
}.

Lemma peerIDByAddr_known src x id p :
  the_peer x id = Some p -> peer_addr p = Some src ->
  (forall id' p', the_peer x id' = Some p' -> peer_addr p' = Some src -> id' = id) -> peerIDByAddr src x = id.
Proof.
  intros Hp Ha Huniq. unfold peerIDByAddr.
  destruct (List.find _ _) as [[id' p']|] eqn:E.
  - apply List.find_some in E as [Hin Hb%bool_decide_eq_true]. apply list_elem_of_In, elem_of_map_to_list in Hin.
    by apply (Huniq id' p').
  - assert (Hin : (id, p) ∈ map_to_list (p2p_peers x)) by by apply elem_of_map_to_list.
    apply list_elem_of_In in Hin. pose proof (List.find_none _ _ E (id, p) Hin) as Hn. simpl in Hn.
    rewrite bool_decide_eq_true_2 in Hn by done. done.
Qed.

(** A sealed frame from a known address goes to the datagram handler. *)
Lemma readLoop_sealed e wire src x id p :
  take 4 wire = Session.magic -> p2p_peerConv x !! be_get (rev Session.magic) = None ->
  the_peer x id = Some p -> peer_addr p = Some src -> id <> EmptyString ->
  (forall id' p', the_peer x id' = Some p' -> peer_addr p' = Some src -> id' = id) ->
  readLoop_step e wire src x = handleDatagramFrame e id wire x.
Proof.
  intros Hw Hc Hp Ha Hne Huniq. unfold readLoop_step.
  assert (Hlen : (4 <= length wire)%nat). { apply (f_equal length) in Hw. rewrite length_take in Hw. change (length Session.magic) with 4%nat in Hw. lia. }
  unfold IsRelayFrame, IsFrame. rewrite Hw. rewrite bool_decide_eq_false_2 by (vm_compute; discriminate).
  rewrite decide_False by (destruct wire; [done|]; injection Hw as -> _; vm_compute; discriminate).
  unfold peerForPacket, peerIDByConv. rewrite decide_False by lia. rewrite Hw, Hc. simpl.
  rewrite (peerIDByAddr_known src x id p) by done. by rewrite Hp.
Qed.

Lemma upd_same id f x p : the_peer x id = Some p -> the_peer (upd id f x) id = Some (f p).
Proof. intros H. by rewrite upd_lookup, decide_True, H. Qed.

(** A confirmed peer gets the frame as one datagram. *)
Lemma Send_direct e f x p addr wire tx' :
  the_peer x (rf_DstDevice f) = Some p -> peer_datagramReady p = true -> peer_addr p = Some addr ->
  p2p_conn x = true -> RelayOnly (p2p_pathPolicy x) = false -> e_udp e addr = true ->
  Session.Seal (peer_tx p) (rf_Payload f) = (Ok wire, tx') ->
  exists x', p2p_Send e f x = (true, x') /\ p2p_out x' = p2p_out x ++ [SendUDP wire addr] /\
    the_peer x' (rf_DstDevice f) =
      Some (set_tx tx' (set_lastTrafficAt (UnixNano (e_now e)) (set_lastTrafficClass (classifyLANFrame f) p))) /\
    p2p_conn x' = p2p_conn x /\ p2p_pathPolicy x' = p2p_pathPolicy x /\ p2p_deviceID x' = p2p_deviceID x.
Proof.
  intros Hp Hr Ha Hc Ho He Hs. unfold p2p_Send. rewrite Hp, Ho, Hr, andb_false_r. cbv zeta.
  set (x1 := upd (rf_DstDevice f) _ x).
  assert (Hp1 : the_peer x1 (rf_DstDevice f) = Some (set_lastTrafficAt (UnixNano (e_now e)) (set_lastTrafficClass (classifyLANFrame f) p)))
    by (subst x1; rewrite upd_lookup, decide_True, Hp by done; reflexivity).
  assert (Hf : sendViaFastPath e f (rf_DstDevice f) x1 = (false, x1)).
  { unfold sendViaFastPath. rewrite Hp1. destruct (negb _); [done|]. simpl. by rewrite Hr, orb_true_r. }
  rewrite Hf. unfold datagram_send. rewrite Hp1. cbn [peer_addr set_lastTrafficAt set_lastTrafficClass peer_tx]. rewrite Ha.
  change (p2p_conn x1) with (p2p_conn x). rewrite Hc. cbn [negb]. unfold transport_Seal.
  destruct (peer_tx p) as [c|] eqn:Et; [|done]. rewrite Hs. cbn [lift_codec]. rewrite He.
  eexists. split; [reflexivity|]. split; [done|]. split; [|done]. change (the_peer (upd (rf_DstDevice f) (set_tx tx') x1) (rf_DstDevice f) =
    Some (set_tx tx' (set_lastTrafficAt (UnixNano (e_now e)) (set_lastTrafficClass (classifyLANFrame f) p)))).
  by rewrite (upd_same _ _ _ _ Hp1).
Qed.

(** The receiver's handler writes the packet to the TUN device. *)
Lemma handleDatagramFrame_opens e id wire x p payload rx' :
  the_peer x id = Some p -> p2p_wired x = true -> Session.Open (peer_rx p) wire = (Ok payload, rx') -> peer_rx p <> None ->
  p2p_out (handleDatagramFrame e id wire x) = p2p_out x ++ [WritePacket payload] /\
  p2p_peers (handleDatagramFrame e id wire x) = alter (set_rx rx') id (p2p_peers x) /\
  p2p_wired (handleDatagramFrame e id wire x) = p2p_wired x /\
  p2p_deviceID (handleDatagramFrame e id wire x) = p2p_deviceID x /\
  p2p_peerConv (handleDatagramFrame e id wire x) = p2p_peerConv x.
Proof.
  intros Hp Hw Ho Hn. unfold handleDatagramFrame. rewrite Hp, Hw. rewrite bool_decide_eq_false_2 by done. cbn [orb negb].
  unfold peer_open. rewrite Hp, Ho. done.
Qed.

(** The datagrams the sender wrote in one call, delivered to the receiver. *)
Definition deliver (e : penv) (src : string) (effects : list p2p_effect) (x : lanP2P) : lanP2P :=
  fold_left (fun x eff => match eff with SendUDP w _ => readLoop_step e w src x | _ => x end) effects x.

Fixpoint exchange (ea eb : penv) (src : string) (fs : list RoutedFrame) (xa xb : lanP2P) : list bool * lanP2P * lanP2P :=
  match fs with
  | [] => ([], xa, xb)
  | f :: fs' =>
    let '(ok, xa') := p2p_Send ea f xa in
    let xb' := deliver eb src (drop (length (p2p_out xa)) (p2p_out xa')) xb in
    let '(oks, ya, yb) := exchange ea eb src fs' xa' xb' in (ok :: oks, ya, yb)
  end.

Lemma exchange_step ea eb src a `{!AEADLaws a} f xa xb n :
  direct src a xa xb n -> 1 <= n -> (forall d, e_udp ea d = true) -> rf_DstDevice f = p2p_deviceID xb ->
  exists xa' wire addr, p2p_Send ea f xa = (true, xa') /\ p2p_out xa' = p2p_out xa ++ [SendUDP wire addr] /\
    let xb' := readLoop_step eb wire src xb in
    p2p_out xb' = p2p_out xb ++ [WritePacket (rf_Payload f)] /\ p2p_deviceID xb' = p2p_deviceID xb /\
    direct src a xa' xb' (n - 1).
Proof.
  intros [(pa & pb & Hpa & Hpb & Hready & Haddr & Hsrc & Hsync & Hleft) [Hconn Hro] (Hwired & Hne & Hconv & Huniq)] Hn Hudp Hdst.
  destruct (peer_addr pa) as [addr|] eqn:Ea; [|done].
  destruct (in_sync_step _ _ a (rf_Payload f) n Hsync Hn Hleft) as (wire & tx' & rx' & Hseal & Hopen & Hsync' & Hleft' & Hmagic).
  rewrite <- Hdst in Hpa.
  destruct (Send_direct ea f xa pa addr wire tx' Hpa Hready Ea Hconn Hro (Hudp addr) Hseal)
    as (xa' & Hs & Hout & Hpa' & Hconn' & Hpol' & Hdev').
  exists xa', wire, addr. split; [done|]. split; [done|]. cbv zeta.
  rewrite (readLoop_sealed eb wire src xb (p2p_deviceID xa) pb) by done.
  assert (Hrx : peer_rx pb <> None) by (destruct Hsync as (? & ? & ? & _ & -> & _); done).
  destruct (handleDatagramFrame_opens eb (p2p_deviceID xa) wire xb pb _ rx' Hpb Hwired Hopen Hrx) as (O1 & O2 & O3 & O4 & O5).
  split; [done|]. split; [done|].
  assert (Hpb' : the_peer (handleDatagramFrame eb (p2p_deviceID xa) wire xb) (p2p_deviceID xa) = Some (set_rx rx' pb)).
  { unfold the_peer. rewrite O2, lookup_alter_eq. unfold the_peer in Hpb. by rewrite Hpb. }
  split.
  - rewrite O4, Hdev', <- Hdst. eexists _, _. split; [exact Hpa'|]. split; [exact Hpb'|]. simpl. rewrite Ea. by split_and!.
  - by rewrite Hconn', Hpol'.
  - rewrite O3, O5, Hdev'. split_and!; try done. intros id p Hid Hp. unfold the_peer in Hid. rewrite O2 in Hid.
    destruct (decide (id = p2p_deviceID xa)) as [|Hneq]; [done|]. rewrite lookup_alter_ne in Hid by done. by apply (Huniq id p).
Qed.

(** C13. On the confirmed direct path every packet arrives: each send reports success,
    writes one datagram, and the peer that receives those datagrams writes exactly the
    same packets, in order and no others, to its TUN device. *)
Theorem direct_path_delivers (ea eb : penv) (src : string) (a : cipherAEAD) (fs : list RoutedFrame) (xa xb : lanP2P) :
  AEADLaws a -> (forall d, e_udp ea d = true) ->
  Forall (fun f => rf_DstDevice f = p2p_deviceID xb) fs -> direct src a xa xb (Z.of_nat (length fs)) ->
  let '(oks, xa', xb') := exchange ea eb src fs xa xb in
  oks = map (fun _ => true) fs /\ length (p2p_out xa') = (length (p2p_out xa) + length fs)%nat /\
  p2p_out xb' = p2p_out xb ++ map (fun f => WritePacket (rf_Payload f)) fs.
Proof.
  intros HL Hudp Hfs. revert xa xb Hfs. induction fs as [|f fs IH]; intros xa xb Hfs Hd; cbn [exchange].
  { rewrite app_nil_r. split_and!; simpl; done || lia. }
  apply Forall_cons in Hfs as [Hf Hfs].
  destruct (exchange_step ea eb src a f xa xb _ Hd ltac:(simpl length; lia) Hudp Hf) as (xa' & wire & addr & -> & Hout & Hin & Hdev & Hd').
  rewrite Hout, drop_app_length. unfold deliver. cbn [fold_left]. set (xb1 := readLoop_step eb wire src xb) in *.
  specialize (IH xa' xb1). rewrite Hdev in IH. specialize (IH Hfs).
  replace (Z.of_nat (length (f :: fs)) - 1) with (Z.of_nat (length fs)) in Hd' by (simpl length; lia). specialize (IH Hd').
  unfold deliver in IH. destruct (exchange ea eb src fs xa' xb1) as [[oks ya] yb]. destruct IH as (-> & H2 & H3).
  split_and!; [done| |].
  - rewrite H2, Hout, length_app. simpl. lia.
  - rewrite H3, Hin, <- (assoc_L app). done.
Qed.

(* ------------------------------------------------------------------ *)
(** ** Through the relay *)

(** The relay path: both runtimes hold the codecs of the channel, the sender may use
    the relay, and the device names fit the envelope. *)
Record relayed (server : string) (a : cipherAEAD) (xa xb : lanP2P) : Prop := {
  re_peer : exists pa pb, the_peer xa (p2p_deviceID xb) = Some pa /\ the_peer xb (p2p_deviceID xa) = Some pb /\
    in_sync (peer_tx pa) (peer_rx pb) a /\ seals_left (peer_tx pa) 1;
  re_sender : p2p_conn xa = true /\ p2p_server xa = Some server /\ relayAvailable (p2p_pathPolicy xa) = true;
  re_names : forall id, id = p2p_deviceID xa \/ id = p2p_deviceID xb -> id <> EmptyString /\ (String.length id <= 255)%nat;
}.

Lemma handleUDPRelayFrame_opens e data x f p payload rx' :
  UnpackRelayFrameView data = Some f -> the_peer x (SrcDevice f) = Some p -> peer_rx p <> None ->
  Session.Open (peer_rx p) (Payload f) = (Ok payload, rx') ->
  p2p_out (handleUDPRelayFrame e data x) = p2p_out x ++ [WritePacket payload].
Proof.
  intros Hu Hp Hn Ho. unfold handleUDPRelayFrame. rewrite Hu, Hp. rewrite decide_False by done.
  unfold peer_open. by rewrite Hp, Ho.
Qed.

(** C14. Through the relay a packet arrives end to end: the sender seals it for its peer
    and hands the server one envelope, the server forwards that datagram unchanged to
    an address the destination registered from, and the destination, whatever address
    it comes from, writes exactly the packet to its TUN device. The server needs no
    key of the channel. *)
Theorem relay_path_delivers (ea eb : penv) (es : ServerUDP.Env) (app : ServerUDP.App) (server srcA srcS : string)
  (a : cipherAEAD) (f : RoutedFrame) (xa xb : lanP2P) (reg : ServerUDP.peer) :
  AEADLaws a -> relayed server a xa xb -> e_udp ea server = true ->
  rf_SrcDevice f = p2p_deviceID xa -> rf_DstDevice f = p2p_deviceID xb ->
  ServerUDP.LANAllowRelay (ServerUDP.cfg app) = true ->
  ServerUDP.pick es (ServerUDP.peers_with_id (ServerUDP.lanPeers app) (p2p_deviceID xb)) = Some reg ->
  exists sealed wire xa',
    SealRelayFrames [f] xa = (Some [sealed], xa') /\
    (exists xa'', SendUDPRelayFrame ea sealed xa' = (true, xa'') /\
       p2p_out xa'' = p2p_out xa ++ [SendUDP wire server]) /\
    (ServerUDP.runUDP_step es app srcA wire).2 = [ServerUDP.WriteToUDP wire (ServerUDP.p_addr reg)] /\
    p2p_out (readLoop_step eb wire srcS xb) = p2p_out xb ++ [WritePacket (rf_Payload f)].
Proof.
  intros HL [(pa & pb & Hpa & Hpb & Hsync & Hleft) (Hconn & Hserver & Havail) Hnames] Hudp Hsrc Hdst Hallow Hpick.
  destruct (in_sync_step _ _ a (rf_Payload f) 1 Hsync ltac:(lia) Hleft) as (body & tx' & rx' & Hseal & Hopen & _ & _ & Hmagic).
  assert (Htx : exists c, peer_tx pa = Some c) by (destruct Hsync as (c & ? & ? & -> & _); eauto). destruct Htx as [c Htx].
  assert (Hrx : peer_rx pb <> None) by (destruct Hsync as (? & ? & ? & _ & -> & _); done).
  destruct (Hnames (p2p_deviceID xa)) as [Na La]; [by left|]. destruct (Hnames (p2p_deviceID xb)) as [Nb Lb]; [by right|].
  set (env := mkRelayFrame (rf_SrcDevice f) (rf_DstDevice f) body).
  assert (Hpack : exists wire, PackRelayFrame env = Some wire).
  { unfold PackRelayFrame, env. cbn [SrcDevice DstDevice Payload]. rewrite Hsrc, Hdst. rewrite decide_False; [by eexists|].
    intros [?|[?|[?|[?|?]]]]; try done; [|lia..]. by subst body. }
  destruct Hpack as [wire Hpack]. destruct (unpack_pack env wire Hpack) as (Hun & Hrel & _).
  exists (with_payload f body), wire, (upd (rf_DstDevice f) (set_tx tx') xa).
  split_and!.
  - cbn [SealRelayFrames]. rewrite Hdst, Hpa, Htx, <- Htx, Hseal. done.
  - unfold SendUDPRelayFrame. cbn [p2p_server upd put_peers]. rewrite Hserver.
    change (p2p_pathPolicy (upd (rf_DstDevice f) (set_tx tx') xa)) with (p2p_pathPolicy xa). rewrite Havail. cbn [negb].
    cbn [rf_SrcDevice rf_DstDevice rf_Payload with_payload]. fold env. rewrite Hpack.
    change (p2p_conn (upd (rf_DstDevice f) (set_tx tx') xa)) with (p2p_conn xa). rewrite Hconn, Hudp. cbn [andb].
    by eexists.
  - unfold ServerUDP.runUDP_step, ServerUDP.handleLANUDPRelay. rewrite Hrel, Hallow. cbn [negb]. rewrite Hun.
    unfold env. cbn [DstDevice]. rewrite Hdst, Hpick. by destruct (negb (ServerUDP.send_ok es _)).
  - unfold readLoop_step. rewrite Hrel.
    apply (handleUDPRelayFrame_opens eb wire xb env pb (rf_Payload f) rx'); [exact Hun| |done|done].
    unfold env. cbn [SrcDevice]. by rewrite Hsrc.
Qed.
(* ------------------------------------------------------------------ *)
(** ** Through the HTTP relay *)

(** The two runtimes hold the codecs of one channel, good for [n] more frames. *)
Definition shares_channel (a : cipherAEAD) (n : Z) (xa xb : lanP2P) : Prop :=
  exists pa pb, the_peer xa (p2p_deviceID xb) = Some pa /\ the_peer xb (p2p_deviceID xa) = Some pb /\
    in_sync (peer_tx pa) (peer_rx pb) a /\ seals_left (peer_tx pa) n.

(** A receiver that opens [wires] one after the other reads [payloads]. *)
Fixpoint opens (rx : option Codec) (wires payloads : list (list byte)) : Prop :=
  match wires, payloads with
  | [], [] => True
  | w :: ws, p :: ps => exists rx', Session.Open rx w = (Ok p, rx') /\ opens rx' ws ps
  | _, _ => False
  end.

Definition sealed_frame_of (a : cipherAEAD) (f g : RoutedFrame) : Prop :=
  g = with_payload f (rf_Payload g) /\ length (rf_Payload g) = (headerLen + (length (rf_Payload f) + aead_overhead a))%nat.

Lemma in_sync_length (tx rx : option Codec) (a : cipherAEAD) `{!AEADLaws a} payload wire tx' :
  in_sync tx rx a -> Session.Seal tx payload = (Ok wire, tx') ->
  length wire = (headerLen + (length payload + aead_overhead a))%nat.
Proof.
  intros (ct & cr & Sn & -> & _ & HP & _). rewrite (Seal_eq ct a) by apply HP. intros [= <- _].
  unfold sealed_frame. by rewrite length_app, length_header, aead_seal_length.
Qed.

Lemma seal_relay_all (a : cipherAEAD) `{!AEADLaws a} b fs : forall xa pa rx,
  the_peer xa b = Some pa -> in_sync (peer_tx pa) rx a -> seals_left (peer_tx pa) (Z.of_nat (length fs)) ->
  Forall (fun f => rf_DstDevice f = b) fs ->
  exists gs xa', SealRelayFrames fs xa = (Some gs, xa') /\ Forall2 (sealed_frame_of a) fs gs /\
    opens rx (map rf_Payload gs) (map rf_Payload fs).
Proof.
  induction fs as [|f fs IH]; intros xa pa rx Hpa Hsync Hleft Hdst; cbn [SealRelayFrames].
  { by exists [], xa. }
  apply Forall_cons in Hdst as [Hf Hdst]. rewrite Hf, Hpa.
  assert (Htx : exists c, peer_tx pa = Some c) by (destruct Hsync as (c & ? & ? & -> & _); eauto). destruct Htx as [c Htx].
  destruct (in_sync_step _ _ a (rf_Payload f) (Z.of_nat (length (f :: fs))) Hsync ltac:(simpl length; lia) Hleft)
    as (wire & tx' & rx' & Hseal & Hopen & Hsync' & Hleft' & _).
  pose proof (in_sync_length _ _ a _ _ _ Hsync Hseal) as Hlen. rewrite Htx in *. rewrite Hseal.
  destruct (IH (upd b (set_tx tx') xa) (set_tx tx' pa) rx') as (gs & xa' & -> & Hgs & Hops).
  - by rewrite upd_lookup, decide_True, Hpa.
  - done.
  - cbn [peer_tx set_tx]. by replace (Z.of_nat (length fs)) with (Z.of_nat (length (f :: fs)) - 1) by (simpl length; lia).
  - done.
  - exists (with_payload f wire :: gs), xa'. split; [done|]. split; [constructor; [by split|done]|]. simpl. by exists rx'.
Qed.

(** What the server queues for a sealed frame. *)
Definition queued_frame (now : string) (g : RoutedFrame) : lanPacketRelayFrame := with_QueuedAt (relay_request_frame g) now.

Lemma poll_all e now b gs payloads : forall x p,
  the_peer x b = Some p -> Forall (fun g => rf_SrcDevice g = b) gs -> opens (peer_rx p) (map rf_Payload gs) payloads ->
  p2p_out (fold_left (poll_frame e) (map (queued_frame now) gs) x) = p2p_out x ++ map WritePacket payloads.
Proof.
  revert payloads. induction gs as [|g gs IH]; intros [|payload payloads] x p Hp Hsrc Hops; try done.
  { by rewrite app_nil_r. }
  destruct Hops as (rx' & Hopen & Hops). apply Forall_cons in Hsrc as [Hg Hsrc]. cbn [map fold_left].
  assert (Hrx : peer_rx p <> None) by (intros E; rewrite E in Hopen; done).
  set (x' := poll_frame e x (queued_frame now g)).
  assert (Hx' : p2p_out x' = p2p_out x ++ [WritePacket payload] /\ the_peer x' b = Some (set_rx rx' p)).
  { subst x'. unfold poll_frame, queued_frame, relay_request_frame. cbn [with_QueuedAt q_Payload q_NetworkID q_SrcDevice q_DstDevice q_Type].
    rewrite DecodeString_EncodeToString. unfold OpenRelayFrame. cbn [rf_SrcDevice rf_Payload]. rewrite Hg, Hp, decide_False by done.
    unfold peer_open. rewrite Hp, Hopen. split; [done|]. change (the_peer (upd b (set_rx rx') x) b = Some (set_rx rx' p)).
    by rewrite upd_lookup, decide_True, Hp. }
  destruct Hx' as [Hout Hp']. rewrite (IH payloads x' (set_rx rx' p)) by done. by rewrite Hout, <- (assoc_L app).
Qed.

(** Frames that fit the queue of their destination wait there in order. *)
Lemma enqueue_all now d fs : forall r, Forall (fun f => q_DstDevice f = d) fs -> 0 < limit r ->
  Z.of_nat (length (queue r d) + length fs) <= limit r ->
  queue (fold_left (Enqueue now) fs r) d = queue r d ++ map (fun f => with_QueuedAt f now) fs.
Proof.
  induction fs as [|f fs IH]; intros r Hd Hl Hfit; cbn [fold_left]; [by rewrite app_nil_r|].
  apply Forall_cons in Hd as [Hf Hd]. destruct (Enqueue_queue now r f d Hl) as [Hq Hlim].
  rewrite decide_True in Hq by done. rewrite Hf in Hq.
  assert (E : drop (length (queue r d ++ [with_QueuedAt f now]) - Z.to_nat (limit r)) (queue r d ++ [with_QueuedAt f now])
              = queue r d ++ [with_QueuedAt f now]).
  { replace (length _ - _)%nat with 0%nat; [done|]. rewrite length_app. simpl in *. lia. }
  rewrite E in Hq. rewrite IH; rewrite ?Hlim, ?Hq; [|done|done|rewrite length_app; simpl in *; lia].
  by rewrite <- (assoc_L app).
Qed.

Lemma request_device d gs : d <> EmptyString -> Forall (fun g => rf_SrcDevice g = d) gs -> gs <> [] -> relay_request_device gs = d.
Proof.
  intros Hd Hgs Hne. unfold relay_request_device. destruct gs as [|g gs]; [done|]. apply Forall_cons in Hgs as [Hg Hgs].
  cbn [fold_left]. rewrite decide_True, Hg by done. clear Hne Hg g. induction gs as [|g gs IH]; [done|]. cbn [fold_left].
  rewrite decide_False by done. apply IH. by apply Forall_cons in Hgs as [_ ?].
Qed.

Lemma accept_request (a : cipherAEAD) d f g :
  sealed_frame_of a f g -> rf_SrcDevice f = d -> d <> EmptyString -> rf_DstDevice f <> EmptyString -> 0 < rf_NetworkID f ->
  Z.of_nat (headerLen + (length (rf_Payload f) + aead_overhead a)) <= 65536 ->
  accept_frame d (relay_request_frame g) = Some (relay_request_frame g).
Proof.
  intros [Hg Hlen] Hsrc Hd Hdst Hnid Hsize. unfold accept_frame, relay_request_frame. cbn [q_SrcDevice q_DstDevice q_NetworkID q_Payload q_Type q_QueuedAt].
  assert (Es : rf_SrcDevice g = d) by by rewrite Hg. assert (Ed : rf_DstDevice g = rf_DstDevice f) by by rewrite Hg.
  assert (En : rf_NetworkID g = rf_NetworkID f) by by rewrite Hg. rewrite Es, Ed, En, (decide_False (P := d = EmptyString)) by done.
  rewrite decide_False by (intros [?|[?|?]]; [done|done|lia]). rewrite DecodeString_EncodeToString. cbn [mbind option_bind].
  rewrite decide_False; [done|]. unfold lanPacketMaxPayload. intros [E|E]; [rewrite E in Hlen; discriminate Hlen|lia].
Qed.

(** The request of a list of sealed frames, sent and polled. *)
Lemma http_relay_step (now a_src a_dst : string) (app : relay_app) (reqs : list lanPacketRelayFrame) :
  TrimSpace a_src <> EmptyString -> TrimSpace a_dst <> EmptyString -> reqs <> [] -> (length reqs <= 64)%nat ->
  Forall (fun q => accept_frame a_src q = Some q) reqs -> Forall (fun q => q_DstDevice q = a_dst) reqs ->
  queue (lanRelay app) a_dst = [] -> Z.of_nat (length reqs) <= limit (lanRelay app) ->
  exists app' app'', handleLANPacketSend true now app (Some (a_src, reqs)) = (RespAccepted (Z.of_nat (length reqs)), app') /\
    handleLANPacketPoll true [] app' (Some (a_dst, 64)) = (RespFrames (map (fun q => with_QueuedAt q now) reqs), app'').
Proof.
  intros Hsrc Hdst Hne Hlen Hacc Hd Hq Hlim. unfold handleLANPacketSend. cbn [negb]. rewrite decide_False by done.
  pose proof (send_all_accept now a_src reqs app 0) as Hs. destruct (fold_left _ _ _) as [app' n]. destruct Hs as [Hr ->].
  assert (Ha : omap (accept_frame a_src) reqs = reqs).
  { clear -Hacc. induction Hacc as [|q qs Hq _ IH]; [done|]. cbn [omap list_omap]. by rewrite Hq, IH. }
  rewrite Ha in *. exists app'.
  assert (Hqueue : queue (lanRelay app') a_dst = map (fun q => with_QueuedAt q now) reqs).
  { rewrite Hr, enqueue_all, Hq; [done|done|destruct reqs; [done|simpl in *; lia]|rewrite Hq; simpl; lia]. }
  unfold handleLANPacketPoll. cbn [negb]. rewrite decide_False by done. cbn [handleLANPacketPoll_loop].
  unfold handleLANPacketPoll_attempt. destruct (Poll_eq (lanRelay app') a_dst 64) as [Hp _].
  destruct (Poll (lanRelay app') a_dst 64) as [[[frames remaining] drops] r]. cbn [fst snd] in Hp.
  assert (Hf : frames = map (fun q => with_QueuedAt q now) reqs).
  { rewrite Hp, Hqueue. unfold poll_count. rewrite Hqueue, length_map, decide_False by lia.
    rewrite Nat.min_l by lia. rewrite take_ge; [done|]. by rewrite length_map. }
  rewrite Hf, length_map, decide_True by (destruct reqs; [done|simpl; lia]). by eexists.
Qed.

(** Through the HTTP relay packets arrive end to end and in order: the sealed
    frames of one request are all accepted by the server, which holds no key, the
    destination's next poll returns them, and the receiving runtime writes exactly the
    packets that were sealed to its TUN device. *)
Theorem http_relay_path_delivers (eb : penv) (now : string) (app : relay_app) (a : cipherAEAD) (fs : list RoutedFrame) (xa xb : lanP2P) :
  AEADLaws a -> shares_channel a (Z.of_nat (length fs)) xa xb -> fs <> [] -> (length fs <= 64)%nat ->
  TrimSpace (p2p_deviceID xa) <> EmptyString -> TrimSpace (p2p_deviceID xb) <> EmptyString ->
  Forall (fun f => rf_SrcDevice f = p2p_deviceID xa /\ rf_DstDevice f = p2p_deviceID xb /\ 0 < rf_NetworkID f /\
    Z.of_nat (headerLen + (length (rf_Payload f) + aead_overhead a)) <= 65536) fs ->
  queue (lanRelay app) (p2p_deviceID xb) = [] -> Z.of_nat (length fs) <= limit (lanRelay app) ->
  exists gs xa' app' app'' qs,
    SealRelayFrames fs xa = (Some gs, xa') /\
    handleLANPacketSend true now app (Some (relay_request_device gs, map relay_request_frame gs))
      = (RespAccepted (Z.of_nat (length fs)), app') /\
    handleLANPacketPoll true [] app' (Some (p2p_deviceID xb, 64)) = (RespFrames qs, app'') /\
    p2p_out (fold_left (poll_frame eb) qs xb) = p2p_out xb ++ map (fun f => WritePacket (rf_Payload f)) fs.
Proof.
  intros HL (pa & pb & Hpa & Hpb & Hsync & Hleft) Hne Hlen Hta Htb Hfs Hq Hlim.
  assert (Hna : p2p_deviceID xa <> EmptyString) by (intros E; by rewrite E in Hta).
  assert (Hnb : p2p_deviceID xb <> EmptyString) by (intros E; by rewrite E in Htb).
  destruct (seal_relay_all a (p2p_deviceID xb) fs xa pa (peer_rx pb) Hpa Hsync Hleft) as (gs & xa' & Hseal & Hgs & Hops).
  { eapply Forall_impl; [exact Hfs|]. by intros f (_ & ? & _). }
  pose proof (Forall2_length _ _ _ Hgs) as Hl.
  assert (Hall : Forall (fun g => rf_SrcDevice g = p2p_deviceID xa /\ rf_DstDevice g = p2p_deviceID xb /\
      accept_frame (p2p_deviceID xa) (relay_request_frame g) = Some (relay_request_frame g)) gs).
  { apply (Forall2_Forall_r _ _ _ _ Hgs). eapply Forall_impl; [exact Hfs|]. intros f (Hs & Hd & Hn & Hz) g Hg.
    split_and!; [by rewrite (proj1 Hg)|by rewrite (proj1 Hg)|]. apply (accept_request a _ f g); [done|done|done|by rewrite Hd|done|done]. }
  assert (Hgne : gs <> []) by (destruct fs; [done|]; by destruct gs).
  destruct (http_relay_step now (p2p_deviceID xa) (p2p_deviceID xb) app (map relay_request_frame gs))
    as (app' & app'' & Hsend & Hpoll); rewrite ?length_map; [done|done|by destruct gs|lia| | |done|lia|].
  - apply Forall_fmap. eapply Forall_impl; [exact Hall|]. by intros g (_ & _ & ?).
  - apply Forall_fmap. eapply Forall_impl; [exact Hall|]. by intros g (_ & ? & _).
  - exists gs, xa', app', app'', (map (queued_frame now) gs). split; [done|]. split.
    + rewrite (request_device (p2p_deviceID xa) gs); [|done|eapply Forall_impl; [exact Hall|]; by intros g (? & _)|done].
      by rewrite Hsend, length_map, Hl.
    + rewrite Hpoll, map_map. split; [done|].
      rewrite (poll_all eb now (p2p_deviceID xa) gs (map rf_Payload fs) xb pb Hpb); [by rewrite map_map| |done].
      eapply Forall_impl; [exact Hall|]. by intros g (? & _).
Qed.

End Two.

(* ------------------------------------------------------------------ *)
(** ** Witnesses *)

Lemma kcp_stream_framing_witness :
  exists w1 w2, writeLANFrame [x01] = Some w1 /\ writeLANFrame [x02; x03] = Some w2 /\
    read_frames 2 (w1 ++ w2 ++ [x09]) = ([[x01]; [x02; x03]], [x09]).
Proof.
  eexists _, _. split; [reflexivity|]. split; [reflexivity|]. set (w1 := _ ++ [x01]). set (w2 := _ ++ [x02; x03]).
  destruct (kcp_stream_framing [[x01]; [x02; x03]] [w1; w2] [x09]) as [H _].
  - constructor; [reflexivity|]. constructor; [reflexivity|constructor].
  - cbn [concat length] in H. rewrite app_nil_r, <- (assoc_L app) in H. exact H.
Defined.

(** A device whose only peer is [other], confirmed at [addr], with the toy channel. *)
Definition toy_peer (other addr : string) : lanP2PPeer :=
  set_rx (Some toy_codec) (set_tx (Some toy_codec) (set_datagramReady true (set_addr (Some addr) (new_peer other "key")))).
Definition toy_device (self other addr : string) : lanP2P :=
  put_peers {[other := toy_peer other addr]} (toy_lan self direct_policy).
Definition toy_frame (payload : list byte) : RoutedFrame :=
  mkRoutedFrame 1 "dev-a" "dev-b" TypeIPv4 payload (mkIPv4Header 4 20 x06 [] [] 40000 445 false 0).
Definition toy_dev_a : lanP2P := toy_device "dev-a" "dev-b" "2.2.2.2:2".
Definition toy_dev_b : lanP2P := toy_device "dev-b" "dev-a" "1.1.1.1:1".

Lemma toy_in_sync n : 0 <= n < 1000 -> in_sync (Some toy_codec) (Some toy_codec) (toy_aead [x2a]) /\ seals_left (Some toy_codec) n.
Proof.
  intros Hn. split; [|simpl; lia]. exists toy_codec, toy_codec, ∅. split_and!; try reflexivity; [apply toy_peers|apply win_rel_zero|done].
Qed.

Lemma toy_direct : direct "1.1.1.1:1" (toy_aead [x2a]) toy_dev_a toy_dev_b 2.
Proof.
  split.
  - exists (toy_peer "dev-b" "2.2.2.2:2"), (toy_peer "dev-a" "1.1.1.1:1"). destruct (toy_in_sync 2) as [Hs Hl]; [lia|].
    split_and!; try reflexivity; try discriminate; exact Hs.
  - done.
  - split_and!; [reflexivity|discriminate|reflexivity|]. intros id p Hid _.
    change (({["dev-a" := toy_peer "dev-a" "1.1.1.1:1"]} : gmap string lanP2PPeer) !! id = Some p) in Hid. by apply lookup_singleton_Some in Hid as [<- _].
Qed.

Lemma direct_path_delivers_witness :
  let '(oks, _, xb') := exchange (MJ := toy_control) (GU := ascii_unicode) toy_penv toy_penv "1.1.1.1:1"
     [toy_frame [x01]; toy_frame [x02; x03]] toy_dev_a toy_dev_b in
  oks = [true; true] /\ p2p_out xb' = [WritePacket [x01]; WritePacket [x02; x03]].
Proof.
  pose proof (direct_path_delivers (MJ := toy_control) (GU := ascii_unicode) toy_penv toy_penv "1.1.1.1:1" (toy_aead [x2a])
    [toy_frame [x01]; toy_frame [x02; x03]] toy_dev_a toy_dev_b (toy_laws [x2a]) (fun _ => eq_refl)
    ltac:(repeat constructor) toy_direct) as H.
  destruct (exchange _ _ _ _ _ _) as [[oks xa'] xb']. destruct H as (H1 & _ & H2). exact (conj H1 H2).
Defined.

(** A server where dev-b has registered. *)
Definition toy_registration : ServerUDP.peer := ServerUDP.mkPeer "dev-b" "3.3.3.3:3" "" "" "dev-a" ProfileLANPacket 900 0.
Definition toy_server : ServerUDP.App :=
  ServerUDP.mkApp ServerUDP.toy_cfg None 0 0 0 ∅ ∅ ∅ {["dev-b" := {["slot" := toy_registration]}]}.

Lemma relay_path_delivers_witness :
  exists wire, (ServerUDP.runUDP_step (GU := ascii_unicode) (MJ := toy_control) ServerUDP.toy_env toy_server "1.1.1.1:1" wire).2
      = [ServerUDP.WriteToUDP wire "3.3.3.3:3"] /\
    p2p_out (readLoop_step (GU := ascii_unicode) (MJ := toy_control) toy_penv wire "9.9.9.9:9" toy_dev_b) = [WritePacket [x07]].
Proof.
  destruct (relay_path_delivers (GU := ascii_unicode) (MJ := toy_control) toy_penv toy_penv ServerUDP.toy_env toy_server "9.9.9.9:9"
    "1.1.1.1:1" "9.9.9.9:9" (toy_aead [x2a]) (toy_frame [x07]) toy_dev_a toy_dev_b toy_registration (toy_laws [x2a]))
    as (sealed & wire & xa' & _ & _ & Hserver & Hout); try reflexivity.
  - split.
    + exists (toy_peer "dev-b" "2.2.2.2:2"), (toy_peer "dev-a" "1.1.1.1:1"). destruct (toy_in_sync 1) as [Hs Hl]; [lia|].
      split_and!; try reflexivity; exact Hs.
    + split_and!; reflexivity.
    + intros id [-> | ->]; split; (discriminate || (vm_compute; lia)).
  - exists wire. exact (conj Hserver Hout).
Defined.

Lemma http_relay_path_delivers_witness :
  let app := mkRelayApp (newLANPacketRelay 0) 0 in
  exists gs app' app'' qs,
    (handleLANPacketSend true "now" app (Some ("dev-a"%string, map relay_request_frame gs))) = (RespAccepted 2, app') /\
    handleLANPacketPoll true [] app' (Some ("dev-b"%string, 64)) = (RespFrames qs, app'') /\
    p2p_out (fold_left (poll_frame toy_penv) qs toy_dev_b) = [WritePacket [x01]; WritePacket [x02; x03]].
Proof.
  destruct (http_relay_path_delivers toy_penv "now" (mkRelayApp (newLANPacketRelay 0) 0) (toy_aead [x2a])
    [toy_frame [x01]; toy_frame [x02; x03]] toy_dev_a toy_dev_b (toy_laws [x2a]))
    as (gs & xa' & app' & app'' & qs & Hs & Hsend & Hpoll & Hout).
  - exists (toy_peer "dev-b" "2.2.2.2:2"), (toy_peer "dev-a" "1.1.1.1:1"). destruct (toy_in_sync 2) as [Hc Hl]; [lia|].
    split_and!; try reflexivity. exact Hc.
  - discriminate.
  - simpl. lia.
  - vm_compute. discriminate.
  - vm_compute. discriminate.
  - do 2 (apply Forall_cons; split; [split_and!; try reflexivity; vm_compute; discriminate|]). apply Forall_nil_2.
  - reflexivity.
  - vm_compute. discriminate.
  - exists gs, app', app'', qs. assert (Hd : relay_request_device gs = "dev-a"%string).
    { assert (E : relay_request_device <$> (SealRelayFrames [toy_frame [x01]; toy_frame [x02; x03]] toy_dev_a).1 = Some "dev-a"%string)
        by (vm_compute; reflexivity). rewrite Hs in E. by injection E as ->. }
    rewrite Hd in Hsend. exact (conj Hsend (conj Hpoll Hout)).
Defined.
