(* ===== verification/Gorm.v ===== *)
(** * Gorm: tables behind gorm.io/gorm

    The database library and MySQL are not under src/: a table is a value of an abstract
    type, the calls the control store makes on one are the class [Gorm], and what it
    relies on is [GormLaws]: what the documentation of gorm, of the MySQL driver in its
    default mode and of MySQL say of them. How MySQL compares text is [Collation]. A call
    that fails changes nothing. The instance [memory] keeps a table in a list. *)

From S2P Require Import Prelude GoStrings ServerUtil.

(* ------------------------------------------------------------------ *)
(** ** Models and tables *)

(** Equality and order of text columns. *)
Class Collation := { sql_eq : string -> string -> bool; sql_le : string -> string -> bool }.

(** Equality is an equivalence, and the order is total. *)
Class CollationLaws (CO : Collation) : Prop := {
  sql_eq_equiv : Equivalence (fun a b => sql_eq a b = true);
  sql_le_total a b : sql_le a b = true \/ sql_le b a = true;
  sql_le_trans a b c : sql_le a b = true -> sql_le b c = true -> sql_le a c = true;
}.

Section Equal.
  Context `{CL : CollationLaws}.
Lemma sql_refl a : sql_eq a a = true.
Proof. exact (@Equivalence_Reflexive _ _ sql_eq_equiv a). Qed.
Lemma sql_sym a b : sql_eq a b = true -> sql_eq b a = true.
Proof. exact (@Equivalence_Symmetric _ _ sql_eq_equiv a b). Qed.
Lemma sql_trans a b c : sql_eq a b = true -> sql_eq b c = true -> sql_eq a c = true.
Proof. exact (@Equivalence_Transitive _ _ sql_eq_equiv a b c). Qed.
End Equal.

(** What the tags of a struct say of its rows. On insertion gorm gives a column that is
    zero its default ([with_defaults]); MySQL numbers the rows whose primary key is an
    integer ([set_id]); two rows of one table never agree in the primary key or a unique
    index ([clash]). *)
Class Model (R : Type) := {
  with_defaults : R -> R;
  set_id : Z -> R -> R;
  clash : R -> R -> bool;
  row_eq_dec :: EqDecision R;
}.

(** The calls, each on one table: [Find] with a condition and an order, [Create],
    [Create] with [clause.OnConflict] and its assignments, [Updates] and [Delete] with the
    rows affected, and [Transaction], over whatever the function works on. *)
Class Gorm (T : forall R, Model R -> Type) := {
  Find {R} `{M : Model R} : (R -> bool) -> (R -> R -> bool) -> T R M -> result api_error (list R);
  Create {R} `{M : Model R} : R -> T R M -> result api_error R * T R M;
  Upsert {R} `{M : Model R} : R -> (R -> R) -> T R M -> result api_error R * T R M;
  Updates {R} `{M : Model R} : (R -> bool) -> (R -> R) -> T R M -> result api_error Z * T R M;
  Delete {R} `{M : Model R} : (R -> bool) -> T R M -> result api_error Z * T R M;
  Transaction {DB} : (DB -> option api_error * DB) -> DB -> option api_error * DB;
}.

(** The order of an [ORDER BY]. *)
Definition ordered {R} (le : R -> R -> bool) (a b : R) : Prop := le a b = true.

#[export] Instance ordered_dec {R} (le : R -> R -> bool) : RelDecision (ordered le).
Proof. intros a b. unfold ordered. apply _. Defined.

Section Rows.
  Context {R : Type} `{M : Model R}.

Definition update_row (p : R -> bool) (f : R -> R) (r : R) : R := if p r then f r else r.

(** The rows an update changes: MySQL does not count one that keeps its values. *)
Definition changed (p : R -> bool) (f : R -> R) (l : list R) : Z := Z.of_nat (length (filter (fun r => update_row p f r <> r) l)).

(** [r] is what the insertion of [row] stores; MySQL numbers from one. *)
Definition inserted (row r : R) : Prop := exists n, 0 < n /\ r = set_id n (with_defaults row).

Definition no_clash (l : list R) : Prop := forall i j x y, l !! i = Some x -> l !! j = Some y -> clash x y = true -> i = j.
End Rows.

Class GormLaws (T : forall R, Model R -> Type) `{G : !Gorm T} := {
  rows {R} `{M : Model R} : T R M -> list R;
  rows_distinct {R} `{M : Model R} (t : T R M) : no_clash (rows t);
  find_rows {R} `{M : Model R} p le (t : T R M) l : Find p le t = Ok l -> 
    l ≡ₚ filter (fun r => p r = true) (rows t) /\
    ((forall a b, le a b = true \/ le b a = true) -> Sorted (ordered le) l);
  create_rows {R} `{M : Model R} row (t : T R M) r t' : Create row t = (Ok r, t') -> inserted row r /\ rows t' ≡ₚ r :: rows t;
  create_fails {R} `{M : Model R} row (t : T R M) e t' : Create row t = (Err e, t') -> rows t' = rows t;
  upsert_rows {R} `{M : Model R} row f (t : T R M) r t' : Upsert row f t = (Ok r, t') ->
    (inserted row r /\ rows t' ≡ₚ r :: rows t) \/
    (exists ins x l, inserted row ins /\ clash ins x = true /\ rows t ≡ₚ x :: l /\ rows t' ≡ₚ f x :: l);
  upsert_fails {R} `{M : Model R} row f (t : T R M) e t' : Upsert row f t = (Err e, t') -> rows t' = rows t;
  updates_rows {R} `{M : Model R} p f (t : T R M) n t' : Updates p f t = (Ok n, t') ->
    rows t' ≡ₚ map (update_row p f) (rows t) /\ n = changed p f (rows t);
  updates_fails {R} `{M : Model R} p f (t : T R M) e t' : Updates p f t = (Err e, t') -> rows t' = rows t;
  delete_rows {R} `{M : Model R} p (t : T R M) n t' : Delete p t = (Ok n, t') ->
    rows t' ≡ₚ filter (fun r => p r = false) (rows t) /\ n = Z.of_nat (length (filter (fun r => p r = true) (rows t)));
  delete_fails {R} `{M : Model R} p (t : T R M) e t' : Delete p t = (Err e, t') -> rows t' = rows t;
  transaction_commits {DB} (f : DB -> option api_error * DB) s s' : Transaction f s = (None, s') -> f s = (None, s');
  transaction_rolls_back {DB} (f : DB -> option api_error * DB) s e s' : Transaction f s = (Some e, s') -> s' = s;
}.

(* ------------------------------------------------------------------ *)
(** ** Calls made of these *)

Section Calls.
  Context {T : forall R, Model R -> Type} `{G : !Gorm T} {R : Type} `{M : Model R}.

(** [First], [None] for [gorm.ErrRecordNotFound]. *)
Definition First (p : R -> bool) (le : R -> R -> bool) (t : T R M) : result api_error (option R) :=
  l ← Find p le t; Ok (head l).
Definition Limit (n : Z) (l : result api_error (list R)) : result api_error (list R) := l ← l; Ok (take (Z.to_nat n) l).
Definition Count (p : R -> bool) (t : T R M) : result api_error Z := l ← Find p (fun _ _ => true) t; Ok (Z.of_nat (length l)).

(** [.Error] of a call that writes, and [sql.ErrNoRows] when it affected no row. *)
Definition error_of {A} (r : result api_error A * T R M) : option api_error * T R M :=
  match r with (Ok _, t) => (None, t) | (Err e, t) => (Some e, t) end.
Definition affected (r : result api_error Z * T R M) : option api_error * T R M :=
  match r with
  | (Ok n, t) => (if decide (n = 0) then Some ErrNoRows else None, t)
  | (Err e, t) => (Some e, t)
  end.

Context `{L : !GormLaws T}.

Lemma first_found p le (t : T R M) r : First p le t = Ok (Some r) -> r ∈ rows t /\ p r = true.
Proof.
  unfold First. destruct (Find p le t) as [l|e] eqn:E; [|done]. cbn. intros [= H]. apply find_rows in E as [E _].
  destruct l as [|x l]; [done|]. injection H as ->.
  assert (Hin : r ∈ filter (fun r => p r = true) (rows t)) by (rewrite <- E; by left). apply list_elem_of_filter in Hin. tauto.
Qed.

Lemma first_none p le (t : T R M) : First p le t = Ok None -> forall r, r ∈ rows t -> p r = false.
Proof.
  unfold First. destruct (Find p le t) as [l|e] eqn:E; [|done]. cbn. intros [= H] r Hr. apply find_rows in E as [E _].
  destruct l; [|done]. apply not_true_is_false. intros Hp.
  assert (Hin : r ∈ filter (fun r => p r = true) (rows t)) by (by apply list_elem_of_filter). rewrite <- E in Hin. by apply elem_of_nil in Hin.
Qed.

Lemma count_rows p (t : T R M) n : Count p t = Ok n -> n = Z.of_nat (length (filter (fun r => p r = true) (rows t))).
Proof.
  unfold Count. destruct (Find p _ t) as [l|e] eqn:E; [|done]. cbn. intros [= <-]. apply find_rows in E as [E _]. by rewrite E.
Qed.

(** An update that changes no row leaves the table as it is. *)
Lemma changed_none p f (l : list R) : changed p f l = 0 -> map (update_row p f) l = l.
Proof.
  unfold changed. induction l as [|r l IH]; [done|]. destruct (decide (update_row p f r <> r)) as [D|D].
  - rewrite filter_cons_True by done. cbn. lia.
  - rewrite filter_cons_False by done. intros H. cbn. rewrite IH by done. f_equal. apply dec_stable. exact D.
Qed.

Lemma changed_some p f (l : list R) : changed p f l <> 0 -> exists r, r ∈ l /\ p r = true /\ f r <> r.
Proof.
  unfold changed. destruct (filter _ l) as [|r k] eqn:E; [done|]. intros _. exists r.
  assert (Hin : r ∈ filter (fun r => update_row p f r <> r) l) by (rewrite E; by left).
  apply list_elem_of_filter in Hin as [H Hin]. unfold update_row in H. by destruct (p r).
Qed.

Lemma unchanged p f (l : list R) : (forall r, r ∈ l -> p r = true -> f r = r) -> changed p f l = 0.
Proof.
  intros H. unfold changed. destruct (filter _ l) as [|r k] eqn:E; [done|]. exfalso.
  assert (Hin : r ∈ filter (fun r => update_row p f r <> r) l) by (rewrite E; by left).
  apply list_elem_of_filter in Hin as [D Hin]. apply D. unfold update_row. destruct (p r) eqn:Ep; [by apply H|done].
Qed.

(** An update that keeps every row it selects is answered with [sql.ErrNoRows]. *)
Lemma affected_unchanged p f (t : T R M) o t' : (forall r, r ∈ rows t -> p r = true -> f r = r) ->
  affected (Updates p f t) = (o, t') -> (exists e, o = Some e /\ (e = ErrNoRows \/ fst (Updates p f t) = Err e)) /\ rows t' ≡ₚ rows t.
Proof.
  intros H. unfold affected. destruct (Updates p f t) as [[n|e] t1] eqn:E.
  - apply updates_rows in E as [E ->]. rewrite unchanged, decide_True by done. intros [= <- <-].
    split; [by eexists; split; [|left]|]. by rewrite E, changed_none by (by apply unchanged).
  - apply updates_fails in E as E'. intros [= <- <-]. split; [by exists e; split; [|right]|by rewrite E'].
Qed.

Lemma affected_ok p f (t : T R M) t' : affected (Updates p f t) = (None, t') ->
  rows t' ≡ₚ map (update_row p f) (rows t) /\ exists r, r ∈ rows t /\ p r = true.
Proof.
  unfold affected. destruct (Updates p f t) as [[n|e] t1] eqn:E; [|done]. case_decide as D; [done|]. intros [= <-].
  apply updates_rows in E as [E ->]. split; [done|]. apply changed_some in D as (r & ? & ? & _). by exists r.
Qed.

Lemma affected_err p f (t : T R M) e t' : affected (Updates p f t) = (Some e, t') -> rows t' ≡ₚ rows t.
Proof.
  unfold affected. destruct (Updates p f t) as [[n|e'] t1] eqn:E.
  - case_decide as D; [|done]. intros [= _ <-]. apply updates_rows in E as [E ->]. by rewrite E, changed_none.
  - intros [= _ <-]. by apply updates_fails in E as ->.
Qed.
End Calls.

(* ------------------------------------------------------------------ *)
(** ** Tables with a key *)

Section Keyed.
  Context {R : Type} `{M : Model R} (f : R -> string).

Definition keyed (l : list R) : gmap string R := list_to_map (map (fun r => (f r, r)) l).

(** The key is unique in the table. *)
Definition keys_clash : Prop := forall x y, f x = f y -> clash x y = true.

Hypothesis unique : keys_clash.

Lemma keys_nodup l : no_clash l -> NoDup (map f l).
Proof.
  intros H. apply NoDup_alt. intros i j k Hi Hj. change (map f l) with (f <$> l) in *.
  apply list_lookup_fmap_Some in Hi as (x & -> & Hx), Hj as (y & E & Hy). eapply H; [done..|]. by apply unique.
Qed.

Lemma keyed_lookup l k r : no_clash l -> keyed l !! k = Some r <-> r ∈ l /\ f r = k.
Proof.
  intros H%keys_nodup. unfold keyed. rewrite <- elem_of_list_to_map.
  - change (map ?g ?l) with (g <$> l). rewrite list_elem_of_fmap. split.
    + by intros (x & [= -> ->] & Hx).
    + intros [Hr <-]. by exists r.
  - change (map ?g l) with (g <$> l) in *. by rewrite <- list_fmap_compose.
Qed.

Lemma keyed_perm l l' : no_clash l -> l' ≡ₚ l -> keyed l' = keyed l.
Proof.
  intros H%keys_nodup P. unfold keyed. symmetry. apply list_to_map_proper.
  - change (map ?g l) with (g <$> l) in *. by rewrite <- list_fmap_compose.
  - by rewrite P.
Qed.

Lemma keyed_cons r l : keyed (r :: l) = <[f r := r]> (keyed l).
Proof. done. Qed.

Lemma keyed_fresh r l : NoDup (map f (r :: l)) -> keyed l !! f r = None.
Proof.
  intros H. apply not_elem_of_list_to_map. cbn in H. apply NoDup_cons in H as [H _].
  change (map ?g l) with (g <$> l) in *. by rewrite <- list_fmap_compose.
Qed.

Lemma keyed_update p g l : (forall r, f (g r) = f r) -> keyed (map (update_row p g) l) = update_row p g <$> keyed l.
Proof.
  intros Hg. induction l as [|r l IH]; [done|]. cbn [map]. rewrite !keyed_cons, IH, fmap_insert. f_equal.
  unfold update_row. destruct (p r); [apply Hg|done].
Qed.

(** An update of the row of a key. *)
Lemma keyed_update_at p g k l : no_clash l -> (forall r, f (g r) = f r) -> (forall r, p r = bool_decide (f r = k)) ->
  keyed (map (update_row p g) l) = alter g k (keyed l).
Proof.
  intros Hn Hg Hp. rewrite keyed_update by done. apply map_eq. intros i. rewrite lookup_fmap. destruct (keyed l !! i) as [r|] eqn:E.
  - cbn. pose proof E as [_ <-]%keyed_lookup; [|done]. unfold update_row. rewrite Hp. destruct (decide (f r = k)) as [<-|D].
    + rewrite bool_decide_true by done. by rewrite lookup_alter_eq, E.
    + rewrite bool_decide_false by done. by rewrite lookup_alter_ne, E by done.
  - cbn. destruct (decide (i = k)) as [->|]; [by rewrite lookup_alter_eq, E|by rewrite lookup_alter_ne, E by done].
Qed.
(** Storing a row under its key, when the key is all that can clash. *)
Lemma keyed_upsert {T : forall R, Model R -> Type} `{G : !Gorm T} `{L : !GormLaws T} row g (t : T R M) r t' :
  (forall x y, clash x y = true -> f x = f y) -> (forall r, f (g r) = f r) -> (forall r, inserted row r -> f r = f row) ->
  Upsert row g t = (Ok r, t') ->
  exists v, keyed (rows t') = <[f row := v]> (keyed (rows t)) /\
    ((keyed (rows t) !! f row = None /\ inserted row v) \/ (exists x, keyed (rows t) !! f row = Some x /\ v = g x)).
Proof.
  intros Hc Hg Hi H. apply upsert_rows in H as [[Hr P]|(ins & x & l & Hr & C & P & P')].
  - exists r. pose proof (rows_distinct t') as D. rewrite <- (keyed_perm _ _ D (symmetry P)), keyed_cons, (Hi r Hr). split; [done|]. left.
    split; [|done]. rewrite <- (Hi r Hr). apply keyed_fresh. rewrite <- P. by apply keys_nodup.
  - assert (Hx : f x = f row) by (rewrite <- (Hc _ _ C); by apply Hi). exists (g x).
    pose proof (rows_distinct t') as D'. pose proof (rows_distinct t) as D.
    rewrite <- (keyed_perm _ _ D' (symmetry P')), <- (keyed_perm _ _ D (symmetry P)), !keyed_cons, Hg, Hx, insert_insert_eq. split; [done|].
    right. exists x. by rewrite lookup_insert_eq.
Qed.
End Keyed.

(* ------------------------------------------------------------------ *)
(** ** Calls and their errors *)

Section Errors.
  Context {T : forall R, Model R -> Type} `{G : !Gorm T} `{L : !GormLaws T} {R : Type} `{M : Model R}.

Lemma updates_ok p f (t : T R M) t' : error_of (Updates p f t) = (None, t') -> rows t' ≡ₚ map (update_row p f) (rows t).
Proof. unfold error_of. destruct (Updates p f t) as [[n|e] t1] eqn:E; [|done]. intros [= <-]. by apply updates_rows in E as [E _]. Qed.

Lemma updates_err p f (t : T R M) e t' : error_of (Updates p f t) = (Some e, t') -> rows t' = rows t.
Proof. unfold error_of. destruct (Updates p f t) as [[n|e'] t1] eqn:E; [done|]. intros [= _ <-]. by apply updates_fails in E. Qed.

Lemma create_ok row (t : T R M) t' : error_of (Create row t) = (None, t') -> exists r, inserted row r /\ rows t' ≡ₚ r :: rows t.
Proof. unfold error_of. destruct (Create row t) as [[r|e] t1] eqn:E; [|done]. intros [= <-]. apply create_rows in E. by exists r. Qed.

Lemma create_err row (t : T R M) e t' : error_of (Create row t) = (Some e, t') -> rows t' = rows t.
Proof. unfold error_of. destruct (Create row t) as [[r|e'] t1] eqn:E; [done|]. intros [= _ <-]. by apply create_fails in E. Qed.
End Errors.

(* ------------------------------------------------------------------ *)
(** ** A table in memory *)

Section Memory.
  Context {R : Type} `{M : Model R}.

Fixpoint distinct (l : list R) : bool :=
  match l with
  | [] => true
  | x :: l => forallb (fun y => negb (clash x y || clash y x)) l && distinct l
  end.

Lemma distinct_no_clash l : distinct l = true -> no_clash l.
Proof.
  induction l as [|a l IH]; [intros _ i j x y Hi; by rewrite lookup_nil in Hi|]. cbn. rewrite andb_true_iff, forallb_forall.
  intros [Ha Hl] i j x y Hi Hj C.
  assert (HA : forall k z, l !! k = Some z -> clash a z = false /\ clash z a = false).
  { intros k z Hk%list_elem_of_lookup_2. specialize (Ha z). rewrite <- list_elem_of_In, negb_true_iff, orb_false_iff in Ha. by apply Ha. }
  destruct i as [|i], j as [|j]; cbn in Hi, Hj; simplify_eq.
  - done.
  - apply HA in Hj as [? _]. congruence.
  - apply HA in Hi as [_ ?]. congruence.
  - f_equal. by eapply IH.
Qed.

Record memory_table : Type := mkTable { tb_rows : list R; tb_next : positive; tb_distinct : distinct tb_rows = true }.

Definition duplicate : api_error := DBError "Duplicate entry".

(** A change of the rows, refused when it breaks a unique index. *)
Definition put_rows {A} (a : A) (l : list R) (next : positive) (t : memory_table) : result api_error A * memory_table :=
  match bool_dec (distinct l) true with
  | left H => (Ok a, mkTable l next H)
  | right _ => (Err duplicate, t)
  end.
End Memory.
Arguments memory_table R M : clear implicits.

Definition ins_row {R} `{M : Model R} (row : R) (t : memory_table R M) : R := set_id (Z.pos (tb_next t)) (with_defaults row).

#[export] Instance memory : Gorm memory_table := {|
  Find R M p le t := Ok (merge_sort (ordered le) (filter (fun r => p r = true) (tb_rows t)));
  Create R M row t := put_rows (ins_row row t) (ins_row row t :: tb_rows t) (Pos.succ (tb_next t)) t;
  Upsert R M row f t :=
    match List.partition (fun x => clash (ins_row row t) x) (tb_rows t) with
    | ([], _) => put_rows (ins_row row t) (ins_row row t :: tb_rows t) (Pos.succ (tb_next t)) t
    | (x :: xs, l) => put_rows (ins_row row t) (f x :: xs ++ l) (tb_next t) t
    end;
  Updates R M p f t := put_rows (changed p f (tb_rows t)) (map (update_row p f) (tb_rows t)) (tb_next t) t;
  Delete R M p t := put_rows (Z.of_nat (length (filter (fun r => p r = true) (tb_rows t)))) (filter (fun r => p r = false) (tb_rows t)) (tb_next t) t;
  Transaction DB f s := match f s with (None, s') => (None, s') | (Some e, _) => (Some e, s) end;
|}.

Lemma put_rows_ok {R} `{M : Model R} {A} (a b : A) l next (t t' : memory_table R M) :
  put_rows a l next t = (Ok b, t') -> b = a /\ tb_rows t' = l.
Proof. unfold put_rows. destruct (bool_dec _ _); [|done]. by intros [= -> <-]. Qed.

Lemma put_rows_err {R} `{M : Model R} {A} (a : A) l next (t t' : memory_table R M) e :
  put_rows a l next t = (Err e, t') -> t' = t.
Proof. unfold put_rows. destruct (bool_dec _ _); [done|]. by intros [= _ <-]. Qed.

Lemma partition_filter {A} (f : A -> bool) (l xs ys : list A) : List.partition f l = (xs, ys) -> l ≡ₚ xs ++ ys /\ Forall (fun x => f x = true) xs.
Proof.
  revert xs ys. induction l as [|a l IH]; intros xs ys; cbn; [by intros [= <- <-]|]. destruct (List.partition f l) as [p q].
  destruct (IH p q eq_refl) as [E H]. destruct (f a) eqn:Ef; intros [= <- <-].
  - split; [by rewrite E|by constructor].
  - split; [|done]. rewrite E. apply Permutation_middle.
Qed.

#[export] Instance memory_laws : GormLaws memory_table.
Proof.
  unshelve refine {| rows R M t := tb_rows t |}.
  - intros R M t. apply distinct_no_clash, tb_distinct.
  - intros R M p le t l [= <-]. split; [apply merge_sort_Permutation|]. intros Ht. by apply Sorted_merge_sort.
  - intros R M row t r t' H%put_rows_ok. destruct H as [-> ->]. split; [by exists (Z.pos (tb_next t))|done].
  - by intros R M row t e t' ->%put_rows_err.
  - intros R M row f t r t'. cbn. destruct (List.partition _ _) as [[|x xs] l] eqn:E; intros H%put_rows_ok; destruct H as [-> ->].
    + left. split; [by exists (Z.pos (tb_next t))|done].
    + right. apply partition_filter in E as [E [Hx _]%Forall_cons]. exists (ins_row row t), x, (xs ++ l). split_and!; [by exists (Z.pos (tb_next t))|done|done|done].
  - intros R M row f t e t'. cbn. by destruct (List.partition _ _) as [[|x xs] l]; intros ->%put_rows_err.
  - intros R M p f t n t' H%put_rows_ok. by destruct H as [-> ->].
  - by intros R M p f t e t' ->%put_rows_err.
  - intros R M p t n t' H%put_rows_ok. by destruct H as [-> ->].
  - by intros R M p t e t' ->%put_rows_err.
  - intros DB f s s'. cbn. destruct (f s) as [[e|] s1]; [done|]. by intros [= <-].
  - intros DB f s e s'. cbn. destruct (f s) as [[e'|] s1]; [|done]. by intros [= _ <-].
Defined.

(** An upsert by the only key of a table is never refused. *)
Lemma distinct_nodup {R} `{M : Model R} (f : R -> string) (l : list R) :
  (forall x y, clash x y = bool_decide (f x = f y)) -> distinct l = true <-> NoDup (map f l).
Proof.
  intros HC. induction l as [|a l IH]; [split; [intros _; constructor|done]|]. cbn [distinct map].
  rewrite andb_true_iff, IH, NoDup_cons, forallb_forall. apply and_iff_compat_r. change (map f l) with (f <$> l). rewrite list_elem_of_fmap. split.
  - intros H (y & E & Hy). rewrite list_elem_of_In in Hy. apply H in Hy. rewrite !HC, E, bool_decide_true in Hy by done. done.
  - intros H y Hy. rewrite <- list_elem_of_In in Hy. rewrite !HC, !bool_decide_false; [done| |]; intros E; apply H; by exists y.
Qed.

Lemma memory_upsert {R} `{M : Model R} (f : R -> string) row g (t : memory_table R M) :
  (forall x y, clash x y = bool_decide (f x = f y)) -> (forall r, f (g r) = f r) -> (forall n, f (set_id n (with_defaults row)) = f row) ->
  exists r t', Upsert row g t = (Ok r, t').
Proof.
  intros HC Hg Hi. cbn [Upsert memory]. pose proof (proj1 (distinct_nodup f _ HC) (tb_distinct t)) as HN.
  destruct (List.partition _ _) as [xs l] eqn:E. apply partition_filter in E as E'. destruct E' as [P HX].
  assert (HD : distinct (match xs with [] => ins_row row t :: tb_rows t | x :: xs => g x :: xs ++ l end) = true).
  { apply (distinct_nodup f _ HC). destruct xs as [|x xs].
    - cbn [map]. apply NoDup_cons. split; [|done]. change (map f ?l) with (f <$> l). intros (y & Ey & Hy)%list_elem_of_fmap.
      assert (Hn : forall k, List.partition (fun x => clash (ins_row row t) x) k = ([], l) -> forall y, y ∈ k -> clash (ins_row row t) y = false).
      { clear. revert l. intros l k. revert l. induction k as [|a k IH]; intros l H y Hy; [by apply elem_of_nil in Hy|]. cbn in H.
        destruct (List.partition _ k) as [p q]. destruct (clash (ins_row row t) a) eqn:Ea; [done|]. injection H as -> <-.
        apply elem_of_cons in Hy as [->|Hy]; [done|by eapply IH]. }
      apply Hn with (y := y) in E; [|done]. rewrite HC in E. by apply bool_decide_eq_false in E.
    - cbn [map]. rewrite Hg. change (f x :: map f (xs ++ l)) with (map f ((x :: xs) ++ l)). by rewrite <- P. }
  destruct xs as [|x xs]; unfold put_rows; (destruct (bool_dec _ true) as [|F]; [by eexists _, _|by destruct F]).
Qed.

(** Text compared byte by byte. *)
Definition binary_collation : Collation := {| sql_eq a b := bool_decide (a = b); sql_le a b := bool_decide (String.le a b) |}.
Lemma binary_binary a b : @sql_eq binary_collation a b = bool_decide (a = b).
Proof. reflexivity. Qed.

Lemma binary_collation_laws : CollationLaws binary_collation.
Proof.
  split; cbn.
  - split.
    + intros a. by apply bool_decide_eq_true.
    + intros a b H%bool_decide_eq_true. by apply bool_decide_eq_true.
    + intros a b c H%bool_decide_eq_true H'%bool_decide_eq_true. apply bool_decide_eq_true. by rewrite H.
  - intros a b. rewrite !bool_decide_eq_true. apply (total String.le).
  - intros a b c. rewrite !bool_decide_eq_true. apply (transitivity (R := String.le)).
Qed.

Definition no_rows {R} `{M : Model R} : memory_table R M := mkTable [] 1%positive eq_refl.
