(* ===== verification/ControlStore.v ===== *)
(** * ControlStore: the database of the server (internal/controlstore/store.go, models.go)

    Every operation of [MySQLStore] over the tables of [Gorm]. A row that models.go
    declares with the columns of its record in [Store] is that record; where they differ
    the row has a record of its own in the module [Models]. The state also holds what the
    clock will read, [db_clock], of which each [nowString] takes the first. *)

From S2P Require Import Prelude GoStrings Store ServerUtil Gorm.

(* ------------------------------------------------------------------ *)
(** ** Models *)

Module Models.
Record Meta : Type := mkMeta { mt_Key : string; mt_Value : string }.
Record SystemSetting : Type := mkSystemSetting { st_Key : string; st_Value : string; st_UpdatedAt : string }.
Record Device : Type := mkDevice {
  d_ID : string; d_Name : string; d_Addr : string; d_UpnpAddr : string; d_Want : string; d_Online : bool; d_Enabled : bool;
  d_LastSeen : string; d_CreatedAt : string }.
Record DeviceProductState : Type := mkDeviceProductState {
  p_DeviceID : string; p_Product : string; p_Online : bool; p_LastSeenAt : string; p_LastSource : string; p_Version : string;
  p_LastError : string; p_Metadata : string }.
Record ForwardRule : Type := mkForwardRule {
  r_ID : Z; r_Name : string; r_SourceID : string; r_TargetID : string; r_Profile : string; r_LocalPort : Z; r_TargetHost : string;
  r_TargetPort : Z; r_Enabled : bool; r_CreatedAt : string; r_UpdatedAt : string }.
Record VirtualAddress : Type := mkVirtualAddress {
  a_DeviceID : string; a_NetworkID : Z; a_VirtualIP : string; a_Hostname : option string; a_DNSEnabled : bool; a_CreatedAt : string;
  a_UpdatedAt : string }.
End Models.
Import Models.

(** A zero value takes the default of its column; most columns default to zero. *)
Definition dflt (d s : string) : string := if decide (s = EmptyString) then d else s.

Ltac row_model := solve_decision.

#[export] Instance meta_model_eq_dec : EqDecision Meta.
Proof. solve_decision. Defined.
#[export] Instance meta_model `{Collation} : Model Meta := {|
  with_defaults r := r;
  set_id n r := r;
  clash x y := sql_eq (mt_Key x) (mt_Key y) |}.

#[export] Instance setting_model_eq_dec : EqDecision SystemSetting.
Proof. solve_decision. Defined.
#[export] Instance setting_model `{Collation} : Model SystemSetting := {|
  with_defaults r := r;
  set_id n r := r;
  clash x y := sql_eq (st_Key x) (st_Key y) |}.

#[export] Instance device_model_eq_dec : EqDecision Device.
Proof. solve_decision. Defined.
#[export] Instance device_model `{Collation} : Model Device := {|
  with_defaults r := mkDevice (d_ID r) (d_Name r) (d_Addr r) (d_UpnpAddr r) (d_Want r) (d_Online r) true (d_LastSeen r) (d_CreatedAt r);
  set_id n r := r;
  clash x y := sql_eq (d_ID x) (d_ID y) |}.

#[export] Instance product_model_eq_dec : EqDecision DeviceProductState.
Proof. solve_decision. Defined.
#[export] Instance product_model `{Collation} : Model DeviceProductState := {|
  with_defaults r := r;
  set_id n r := r;
  clash x y := sql_eq (p_DeviceID x) (p_DeviceID y) && sql_eq (p_Product x) (p_Product y) |}.

#[export] Instance rule_model_eq_dec : EqDecision ForwardRule.
Proof. solve_decision. Defined.
#[export] Instance rule_model `{Collation} : Model ForwardRule := {|
  with_defaults r := mkForwardRule (r_ID r) (r_Name r) (r_SourceID r) (r_TargetID r) (dflt "interactive" (r_Profile r)) (r_LocalPort r)
    (r_TargetHost r) (r_TargetPort r) true (r_CreatedAt r) (r_UpdatedAt r);
  set_id n r := mkForwardRule n (r_Name r) (r_SourceID r) (r_TargetID r) (r_Profile r) (r_LocalPort r) (r_TargetHost r) (r_TargetPort r) (r_Enabled r)
    (r_CreatedAt r) (r_UpdatedAt r);
  clash x y := r_ID x =? r_ID y |}.

#[export] Instance session_model_eq_dec : EqDecision Store.Session.
Proof. solve_decision. Defined.
#[export] Instance session_model `{Collation} : Model Store.Session := {|
  with_defaults r := mkSession (ses_ID r) (ses_SourceID r) (ses_TargetID r) (dflt "interactive" (ses_Profile r)) (ses_Path r) (ses_RelayBytes r)
    (ses_StartedAt r) (ses_LastSeen r) (ses_EndedAt r);
  set_id n r := mkSession n (ses_SourceID r) (ses_TargetID r) (ses_Profile r) (ses_Path r) (ses_RelayBytes r) (ses_StartedAt r) (ses_LastSeen r) (ses_EndedAt r);
  clash x y := ses_ID x =? ses_ID y |}.

#[export] Instance audit_model_eq_dec : EqDecision AuditEvent.
Proof. solve_decision. Defined.
#[export] Instance audit_model `{Collation} : Model AuditEvent := {|
  with_defaults r := r;
  set_id n r := mkAuditEvent n (ae_Kind r) (ae_Detail r) (ae_CreatedAt r);
  clash x y := ae_ID x =? ae_ID y |}.

#[export] Instance tunnel_model_eq_dec : EqDecision TunnelState.
Proof. solve_decision. Defined.
#[export] Instance tunnel_model `{Collation} : Model TunnelState := {|
  with_defaults r := r;
  set_id n r := r;
  clash x y := sql_eq (ts_DeviceID x) (ts_DeviceID y) && sql_eq (ts_PeerID x) (ts_PeerID y) && sql_eq (ts_Profile x) (ts_Profile y) |}.

#[export] Instance refresh_model_eq_dec : EqDecision AdminRefreshToken.
Proof. solve_decision. Defined.
#[export] Instance refresh_model `{Collation} : Model AdminRefreshToken := {|
  with_defaults r := r;
  set_id n r := mkAdminRefreshToken n (art_UserID r) (art_TokenHash r) (art_ExpiresAt r) (art_RevokedAt r) (art_CreatedAt r) (art_LastUsedAt r)
    (art_UserAgent r) (art_IP r);
  clash x y := (art_ID x =? art_ID y) || sql_eq (art_TokenHash x) (art_TokenHash y) |}.

#[export] Instance admin_model_eq_dec : EqDecision AdminUser.
Proof. solve_decision. Defined.
#[export] Instance admin_model `{Collation} : Model AdminUser := {|
  with_defaults r := mkAdminUser (au_ID r) (au_Username r) (au_Name r) (dflt "admin" (au_Role r)) true
    (if au_PasswordVersion r =? 0 then 1 else au_PasswordVersion r) (au_PasswordHash r) (au_CreatedAt r) (au_UpdatedAt r);
  set_id n r := r;
  clash x y := sql_eq (au_ID x) (au_ID y) || sql_eq (au_Username x) (au_Username y) |}.

#[export] Instance network_model_eq_dec : EqDecision VirtualNetwork.
Proof. solve_decision. Defined.
#[export] Instance network_model `{Collation} : Model VirtualNetwork := {|
  with_defaults r := mkVirtualNetwork (vn_ID r) (vn_Name r) (vn_CIDR r) (vn_MTU r) (vn_MSS r) (dflt "prefer_p2p" (vn_PathPolicy r))
    (dflt "auto" (vn_TCPFastPath r)) true (vn_CreatedAt r) (vn_UpdatedAt r);
  set_id n r := mkVirtualNetwork n (vn_Name r) (vn_CIDR r) (vn_MTU r) (vn_MSS r) (vn_PathPolicy r) (vn_TCPFastPath r) (vn_Enabled r) (vn_CreatedAt r)
    (vn_UpdatedAt r);
  clash x y := (vn_ID x =? vn_ID y) || sql_eq (vn_CIDR x) (vn_CIDR y) |}.

#[export] Instance address_model_eq_dec : EqDecision VirtualAddress.
Proof. solve_decision. Defined.
#[export] Instance address_model `{Collation} : Model VirtualAddress := {|
  with_defaults r := r;
  set_id n r := r;
  clash x y := (a_NetworkID x =? a_NetworkID y) &&
    (sql_eq (a_DeviceID x) (a_DeviceID y) || sql_eq (a_VirtualIP x) (a_VirtualIP y) ||
     match a_Hostname x, a_Hostname y with Some h, Some k => sql_eq h k | _, _ => false end) |}.

#[export] Instance key_model_eq_dec : EqDecision VirtualDeviceKey.
Proof. solve_decision. Defined.
#[export] Instance key_model `{Collation} : Model VirtualDeviceKey := {|
  with_defaults r := r;
  set_id n r := r;
  clash x y := sql_eq (vk_DeviceID x) (vk_DeviceID y) |}.

#[export] Instance group_model_eq_dec : EqDecision VirtualDeviceGroup.
Proof. solve_decision. Defined.
#[export] Instance group_model `{Collation} : Model VirtualDeviceGroup := {|
  with_defaults r := r;
  set_id n r := r;
  clash x y := sql_eq (vg_ID x) (vg_ID y) |}.

#[export] Instance member_model_eq_dec : EqDecision VirtualDeviceGroupMember.
Proof. solve_decision. Defined.
#[export] Instance member_model `{Collation} : Model VirtualDeviceGroupMember := {|
  with_defaults r := r;
  set_id n r := r;
  clash x y := sql_eq (vgm_GroupID x) (vgm_GroupID y) && sql_eq (vgm_DeviceID x) (vgm_DeviceID y) |}.

#[export] Instance acl_model_eq_dec : EqDecision VirtualACLRule.
Proof. solve_decision. Defined.
#[export] Instance acl_model `{Collation} : Model VirtualACLRule := {|
  with_defaults r := mkVirtualACLRule (acl_ID r) (acl_NetworkID r) (acl_SourceDeviceID r) (acl_SourceGroupID r) (acl_TargetDeviceID r)
    (acl_TargetGroupID r) (dflt "tcp" (acl_Protocol r)) (acl_PortStart r) (acl_PortEnd r) (dflt "allow" (acl_Action r)) true
    (acl_CreatedAt r) (acl_UpdatedAt r);
  set_id n r := mkVirtualACLRule n (acl_NetworkID r) (acl_SourceDeviceID r) (acl_SourceGroupID r) (acl_TargetDeviceID r) (acl_TargetGroupID r)
    (acl_Protocol r) (acl_PortStart r) (acl_PortEnd r) (acl_Action r) (acl_Enabled r) (acl_CreatedAt r) (acl_UpdatedAt r);
  clash x y := acl_ID x =? acl_ID y |}.

#[export] Instance route_model_eq_dec : EqDecision VirtualRoute.
Proof. solve_decision. Defined.
#[export] Instance route_model `{Collation} : Model VirtualRoute := {|
  with_defaults r := mkVirtualRoute (vr_ID r) (vr_DeviceID r) (vr_NetworkID r) (vr_CIDR r) (vr_Advertise r) true (vr_CreatedAt r) (vr_UpdatedAt r);
  set_id n r := mkVirtualRoute (if vr_ID r =? 0 then n else vr_ID r) (vr_DeviceID r) (vr_NetworkID r) (vr_CIDR r) (vr_Advertise r) (vr_Accept r)
    (vr_CreatedAt r) (vr_UpdatedAt r);
  clash x y := (vr_ID x =? vr_ID y) ||
    (sql_eq (vr_DeviceID x) (vr_DeviceID y) && (vr_NetworkID x =? vr_NetworkID y) && sql_eq (vr_CIDR x) (vr_CIDR y)) |}.

#[export] Instance peer_model_eq_dec : EqDecision VirtualPeerState.
Proof. solve_decision. Defined.
#[export] Instance peer_model `{Collation} : Model VirtualPeerState := {|
  with_defaults r := r;
  set_id n r := r;
  clash x y := sql_eq (ps_DeviceID x) (ps_DeviceID y) && sql_eq (ps_PeerID x) (ps_PeerID y) && (ps_NetworkID x =? ps_NetworkID y) |}.

#[export] Instance event_model_eq_dec : EqDecision VirtualPeerPathEvent.
Proof. solve_decision. Defined.
#[export] Instance event_model `{Collation} : Model VirtualPeerPathEvent := {|
  with_defaults r := r;
  set_id n r := mkVirtualPeerPathEvent n (pe_DeviceID r) (pe_PeerID r) (pe_NetworkID r) (pe_Path r) (pe_DataPath r) (pe_PathReason r)
    (pe_TrafficClass r) (pe_TxBytes r) (pe_RxBytes r) (pe_CreatedAt r);
  clash x y := pe_ID x =? pe_ID y |}.

#[export] Instance learned_model_eq_dec : EqDecision VirtualLearnedPath.
Proof. solve_decision. Defined.
#[export] Instance learned_model `{Collation} : Model VirtualLearnedPath := {|
  with_defaults r := mkVirtualLearnedPath (lp_DeviceID r) (lp_PeerID r) (lp_NetworkID r) (lp_DstPort r) (dflt "tcp" (lp_Protocol r)) (lp_Path r)
    (lp_PublicAddr r) (lp_SuccessCount r) (lp_FailureCount r) (lp_LastSuccessAt r) (lp_LastFailureAt r) (lp_LastFailure r) (lp_Quality r)
    true (lp_UpdatedAt r);
  set_id n r := r;
  clash x y := sql_eq (lp_DeviceID x) (lp_DeviceID y) && sql_eq (lp_PeerID x) (lp_PeerID y) && (lp_NetworkID x =? lp_NetworkID y) &&
    (lp_DstPort x =? lp_DstPort y) |}.

(* ------------------------------------------------------------------ *)
(** ** The database *)

(** JSON of [map[string]any]: [json.Marshal] and [json.Unmarshal] into an empty map. *)
Class MetadataJSON := { marshal_map : gmap string GoAny -> option string; unmarshal_map : string -> gmap string GoAny }.

Record control_db (T : forall R, Model R -> Type) `{Collation} : Type := mkDB {
  t_meta : T Meta _; t_settings : T SystemSetting _; t_devices : T Device _; t_products : T DeviceProductState _; t_rules : T ForwardRule _; t_sessions : T Store.Session _; t_audit : T AuditEvent _; t_tunnels : T TunnelState _; t_admins : T AdminUser _; t_refresh : T AdminRefreshToken _; t_networks : T VirtualNetwork _; t_addresses : T VirtualAddress _; t_keys : T VirtualDeviceKey _; t_groups : T VirtualDeviceGroup _; t_members : T VirtualDeviceGroupMember _; t_acls : T VirtualACLRule _; t_routes : T VirtualRoute _; t_peers : T VirtualPeerState _; t_events : T VirtualPeerPathEvent _; t_learned : T VirtualLearnedPath _;
  db_clock : nat -> Time }.
Arguments t_meta {T _} _.
Arguments t_settings {T _} _.
Arguments t_devices {T _} _.
Arguments t_products {T _} _.
Arguments t_rules {T _} _.
Arguments t_sessions {T _} _.
Arguments t_audit {T _} _.
Arguments t_tunnels {T _} _.
Arguments t_admins {T _} _.
Arguments t_refresh {T _} _.
Arguments t_networks {T _} _.
Arguments t_addresses {T _} _.
Arguments t_keys {T _} _.
Arguments t_groups {T _} _.
Arguments t_members {T _} _.
Arguments t_acls {T _} _.
Arguments t_routes {T _} _.
Arguments t_peers {T _} _.
Arguments t_events {T _} _.
Arguments t_learned {T _} _.
Arguments db_clock {T _} _ _.
Arguments mkDB {T _}.

Section Tables.
  Context {T : forall R, Model R -> Type} `{CO : Collation}.

(** The result of a call on one table, in the whole database. *)
Definition in_meta {A} (r : A * T Meta _) (s : control_db T) : A * control_db T :=
  (fst r, mkDB (snd r) (t_settings s) (t_devices s) (t_products s) (t_rules s) (t_sessions s) (t_audit s) (t_tunnels s) (t_admins s) (t_refresh s) (t_networks s) (t_addresses s) (t_keys s) (t_groups s) (t_members s) (t_acls s) (t_routes s) (t_peers s) (t_events s) (t_learned s) (db_clock s)).
Definition in_settings {A} (r : A * T SystemSetting _) (s : control_db T) : A * control_db T :=
  (fst r, mkDB (t_meta s) (snd r) (t_devices s) (t_products s) (t_rules s) (t_sessions s) (t_audit s) (t_tunnels s) (t_admins s) (t_refresh s) (t_networks s) (t_addresses s) (t_keys s) (t_groups s) (t_members s) (t_acls s) (t_routes s) (t_peers s) (t_events s) (t_learned s) (db_clock s)).
Definition in_devices {A} (r : A * T Device _) (s : control_db T) : A * control_db T :=
  (fst r, mkDB (t_meta s) (t_settings s) (snd r) (t_products s) (t_rules s) (t_sessions s) (t_audit s) (t_tunnels s) (t_admins s) (t_refresh s) (t_networks s) (t_addresses s) (t_keys s) (t_groups s) (t_members s) (t_acls s) (t_routes s) (t_peers s) (t_events s) (t_learned s) (db_clock s)).
Definition in_products {A} (r : A * T DeviceProductState _) (s : control_db T) : A * control_db T :=
  (fst r, mkDB (t_meta s) (t_settings s) (t_devices s) (snd r) (t_rules s) (t_sessions s) (t_audit s) (t_tunnels s) (t_admins s) (t_refresh s) (t_networks s) (t_addresses s) (t_keys s) (t_groups s) (t_members s) (t_acls s) (t_routes s) (t_peers s) (t_events s) (t_learned s) (db_clock s)).
Definition in_rules {A} (r : A * T ForwardRule _) (s : control_db T) : A * control_db T :=
  (fst r, mkDB (t_meta s) (t_settings s) (t_devices s) (t_products s) (snd r) (t_sessions s) (t_audit s) (t_tunnels s) (t_admins s) (t_refresh s) (t_networks s) (t_addresses s) (t_keys s) (t_groups s) (t_members s) (t_acls s) (t_routes s) (t_peers s) (t_events s) (t_learned s) (db_clock s)).
Definition in_sessions {A} (r : A * T Store.Session _) (s : control_db T) : A * control_db T :=
  (fst r, mkDB (t_meta s) (t_settings s) (t_devices s) (t_products s) (t_rules s) (snd r) (t_audit s) (t_tunnels s) (t_admins s) (t_refresh s) (t_networks s) (t_addresses s) (t_keys s) (t_groups s) (t_members s) (t_acls s) (t_routes s) (t_peers s) (t_events s) (t_learned s) (db_clock s)).
Definition in_audit {A} (r : A * T AuditEvent _) (s : control_db T) : A * control_db T :=
  (fst r, mkDB (t_meta s) (t_settings s) (t_devices s) (t_products s) (t_rules s) (t_sessions s) (snd r) (t_tunnels s) (t_admins s) (t_refresh s) (t_networks s) (t_addresses s) (t_keys s) (t_groups s) (t_members s) (t_acls s) (t_routes s) (t_peers s) (t_events s) (t_learned s) (db_clock s)).
Definition in_tunnels {A} (r : A * T TunnelState _) (s : control_db T) : A * control_db T :=
  (fst r, mkDB (t_meta s) (t_settings s) (t_devices s) (t_products s) (t_rules s) (t_sessions s) (t_audit s) (snd r) (t_admins s) (t_refresh s) (t_networks s) (t_addresses s) (t_keys s) (t_groups s) (t_members s) (t_acls s) (t_routes s) (t_peers s) (t_events s) (t_learned s) (db_clock s)).
Definition in_admins {A} (r : A * T AdminUser _) (s : control_db T) : A * control_db T :=
  (fst r, mkDB (t_meta s) (t_settings s) (t_devices s) (t_products s) (t_rules s) (t_sessions s) (t_audit s) (t_tunnels s) (snd r) (t_refresh s) (t_networks s) (t_addresses s) (t_keys s) (t_groups s) (t_members s) (t_acls s) (t_routes s) (t_peers s) (t_events s) (t_learned s) (db_clock s)).
Definition in_refresh {A} (r : A * T AdminRefreshToken _) (s : control_db T) : A * control_db T :=
  (fst r, mkDB (t_meta s) (t_settings s) (t_devices s) (t_products s) (t_rules s) (t_sessions s) (t_audit s) (t_tunnels s) (t_admins s) (snd r) (t_networks s) (t_addresses s) (t_keys s) (t_groups s) (t_members s) (t_acls s) (t_routes s) (t_peers s) (t_events s) (t_learned s) (db_clock s)).
Definition in_networks {A} (r : A * T VirtualNetwork _) (s : control_db T) : A * control_db T :=
  (fst r, mkDB (t_meta s) (t_settings s) (t_devices s) (t_products s) (t_rules s) (t_sessions s) (t_audit s) (t_tunnels s) (t_admins s) (t_refresh s) (snd r) (t_addresses s) (t_keys s) (t_groups s) (t_members s) (t_acls s) (t_routes s) (t_peers s) (t_events s) (t_learned s) (db_clock s)).
Definition in_addresses {A} (r : A * T VirtualAddress _) (s : control_db T) : A * control_db T :=
  (fst r, mkDB (t_meta s) (t_settings s) (t_devices s) (t_products s) (t_rules s) (t_sessions s) (t_audit s) (t_tunnels s) (t_admins s) (t_refresh s) (t_networks s) (snd r) (t_keys s) (t_groups s) (t_members s) (t_acls s) (t_routes s) (t_peers s) (t_events s) (t_learned s) (db_clock s)).
Definition in_keys {A} (r : A * T VirtualDeviceKey _) (s : control_db T) : A * control_db T :=
  (fst r, mkDB (t_meta s) (t_settings s) (t_devices s) (t_products s) (t_rules s) (t_sessions s) (t_audit s) (t_tunnels s) (t_admins s) (t_refresh s) (t_networks s) (t_addresses s) (snd r) (t_groups s) (t_members s) (t_acls s) (t_routes s) (t_peers s) (t_events s) (t_learned s) (db_clock s)).
Definition in_groups {A} (r : A * T VirtualDeviceGroup _) (s : control_db T) : A * control_db T :=
  (fst r, mkDB (t_meta s) (t_settings s) (t_devices s) (t_products s) (t_rules s) (t_sessions s) (t_audit s) (t_tunnels s) (t_admins s) (t_refresh s) (t_networks s) (t_addresses s) (t_keys s) (snd r) (t_members s) (t_acls s) (t_routes s) (t_peers s) (t_events s) (t_learned s) (db_clock s)).
Definition in_members {A} (r : A * T VirtualDeviceGroupMember _) (s : control_db T) : A * control_db T :=
  (fst r, mkDB (t_meta s) (t_settings s) (t_devices s) (t_products s) (t_rules s) (t_sessions s) (t_audit s) (t_tunnels s) (t_admins s) (t_refresh s) (t_networks s) (t_addresses s) (t_keys s) (t_groups s) (snd r) (t_acls s) (t_routes s) (t_peers s) (t_events s) (t_learned s) (db_clock s)).
Definition in_acls {A} (r : A * T VirtualACLRule _) (s : control_db T) : A * control_db T :=
  (fst r, mkDB (t_meta s) (t_settings s) (t_devices s) (t_products s) (t_rules s) (t_sessions s) (t_audit s) (t_tunnels s) (t_admins s) (t_refresh s) (t_networks s) (t_addresses s) (t_keys s) (t_groups s) (t_members s) (snd r) (t_routes s) (t_peers s) (t_events s) (t_learned s) (db_clock s)).
Definition in_routes {A} (r : A * T VirtualRoute _) (s : control_db T) : A * control_db T :=
  (fst r, mkDB (t_meta s) (t_settings s) (t_devices s) (t_products s) (t_rules s) (t_sessions s) (t_audit s) (t_tunnels s) (t_admins s) (t_refresh s) (t_networks s) (t_addresses s) (t_keys s) (t_groups s) (t_members s) (t_acls s) (snd r) (t_peers s) (t_events s) (t_learned s) (db_clock s)).
Definition in_peers {A} (r : A * T VirtualPeerState _) (s : control_db T) : A * control_db T :=
  (fst r, mkDB (t_meta s) (t_settings s) (t_devices s) (t_products s) (t_rules s) (t_sessions s) (t_audit s) (t_tunnels s) (t_admins s) (t_refresh s) (t_networks s) (t_addresses s) (t_keys s) (t_groups s) (t_members s) (t_acls s) (t_routes s) (snd r) (t_events s) (t_learned s) (db_clock s)).
Definition in_events {A} (r : A * T VirtualPeerPathEvent _) (s : control_db T) : A * control_db T :=
  (fst r, mkDB (t_meta s) (t_settings s) (t_devices s) (t_products s) (t_rules s) (t_sessions s) (t_audit s) (t_tunnels s) (t_admins s) (t_refresh s) (t_networks s) (t_addresses s) (t_keys s) (t_groups s) (t_members s) (t_acls s) (t_routes s) (t_peers s) (snd r) (t_learned s) (db_clock s)).
Definition in_learned {A} (r : A * T VirtualLearnedPath _) (s : control_db T) : A * control_db T :=
  (fst r, mkDB (t_meta s) (t_settings s) (t_devices s) (t_products s) (t_rules s) (t_sessions s) (t_audit s) (t_tunnels s) (t_admins s) (t_refresh s) (t_networks s) (t_addresses s) (t_keys s) (t_groups s) (t_members s) (t_acls s) (t_routes s) (t_peers s) (t_events s) (snd r) (db_clock s)).

(** The clock after a reading. *)
Definition tick (s : control_db T) : control_db T :=
  mkDB (t_meta s) (t_settings s) (t_devices s) (t_products s) (t_rules s) (t_sessions s) (t_audit s) (t_tunnels s) (t_admins s) (t_refresh s) (t_networks s) (t_addresses s) (t_keys s) (t_groups s) (t_members s) (t_acls s) (t_routes s) (t_peers s) (t_events s) (t_learned s) (fun n => db_clock s (S n)).
End Tables.

(* ------------------------------------------------------------------ *)
(** ** Conditions and orders *)

Section Orders.
  Context `{CO : Collation} {R : Type}.

Definition any_order (_ _ : R) : bool := true.
Definition by_id (f : R -> Z) (a b : R) : bool := f a <=? f b.
Definition by_text (f : R -> string) (a b : R) : bool := sql_le (f a) (f b).
Definition desc (le : R -> R -> bool) (a b : R) : bool := le b a.
(** One column, and the next where it is equal. *)
Definition text_then (f : R -> string) (le : R -> R -> bool) (a b : R) : bool :=
  if sql_eq (f a) (f b) then le a b else sql_le (f a) (f b).
Definition id_then (f : R -> Z) (le : R -> R -> bool) (a b : R) : bool := if f a =? f b then le a b else f a <? f b.
End Orders.

Definition sql_lt `{Collation} (a b : string) : bool := negb (sql_le b a).
Definition sql_empty `{Collation} (a : string) : bool := sql_eq a EmptyString.

(** [LIKE], the second argument the pattern. *)
Class Like := { sql_like : string -> string -> bool }.

(** [gorm.ErrMissingWhereClause]. *)
Definition missing_where : api_error := DBError "WHERE conditions required".

(** [sql.ErrNoRows] for a row that was not found. *)
Definition or_no_rows {A B} (f : A -> B) (r : result api_error (option A)) : result api_error B :=
  match r with Ok (Some a) => Ok (f a) | Ok None => Err ErrNoRows | Err e => Err e end.

Definition list_of {A B} (f : A -> B) (r : result api_error (list A)) : result api_error (list B) := l ← r; Ok (map f l).

(** The first argument unless it is empty: an assignment left out of an update. *)
Definition or_keep (v old : string) : string := if decide (v = EmptyString) then old else v.

(* ------------------------------------------------------------------ *)
(** ** Rows as records of [Store] *)

Section ToStore.
  Context `{GU : GoUnicode} `{MJ : MetadataJSON}.

Definition device_toStore (d : Device) : Store.Device :=
  Store.mkDevice (d_ID d) (d_Name d) (d_Addr d) (d_UpnpAddr d) (d_Want d) (d_Online d) (d_Enabled d) (d_LastSeen d) (d_CreatedAt d)
    "" "" [] false "" "" false "" "" "" "" 0 "" "" "" "" 0 0 0 "".

Definition product_toStore (p : DeviceProductState) : Store.DeviceProductState :=
  Store.mkDeviceProductState (p_DeviceID p) (p_Product p) (p_Online p) (p_LastSeenAt p) (p_LastSource p) (p_Version p) (p_LastError p)
    (if decide (TrimSpace (p_Metadata p) = EmptyString) then ∅ else unmarshal_map (p_Metadata p)).

Definition rule_toStore (r : ForwardRule) : Store.ForwardRule :=
  Store.mkForwardRule (r_ID r) (r_Name r) (r_SourceID r) (r_TargetID r) (NormalizeProfile (r_Profile r)) (r_LocalPort r) (r_TargetHost r)
    (r_TargetPort r) (r_Enabled r) (r_CreatedAt r) (r_UpdatedAt r) "" "" "" 0 "".

Definition session_toStore (r : Store.Session) : Store.Session :=
  mkSession (ses_ID r) (ses_SourceID r) (ses_TargetID r) (NormalizeProfile (ses_Profile r)) (ses_Path r) (ses_RelayBytes r)
    (ses_StartedAt r) (ses_LastSeen r) (ses_EndedAt r).

Definition tunnel_toStore (t : TunnelState) : TunnelState :=
  mkTunnelState (ts_DeviceID t) (ts_PeerID t) (NormalizeProfile (ts_Profile t)) (ts_State t) (ts_Via t) (ts_NATType t) (ts_PublicAddr t)
    (ts_ConvID t) (ts_RTTMs t) (ts_LastError t) (ts_Attempt t) (ts_NextRetryAt t) (ts_LastTransitionAt t) (ts_UpdatedAt t).

Definition normalizeVirtualNetworkPathPolicy (policy : string) : string :=
  if decide (policy ∈ ["auto"; "prefer_p2p"; "prefer_relay"; "relay_only"]%string) then policy else "prefer_p2p".
Definition normalizeVirtualNetworkTCPFastPath (value : string) : string :=
  if decide (value ∈ ["auto"; "off"; "force"]%string) then value else "auto".

Definition network_toStore (n : VirtualNetwork) : VirtualNetwork :=
  mkVirtualNetwork (vn_ID n) (vn_Name n) (vn_CIDR n) (vn_MTU n) (vn_MSS n) (normalizeVirtualNetworkPathPolicy (vn_PathPolicy n))
    (normalizeVirtualNetworkTCPFastPath (vn_TCPFastPath n)) (vn_Enabled n) (vn_CreatedAt n) (vn_UpdatedAt n).

Definition address_toStore (a : VirtualAddress) : Store.VirtualAddress :=
  Store.mkVirtualAddress (a_DeviceID a) (a_NetworkID a) (a_VirtualIP a) (default EmptyString (a_Hostname a)) (a_DNSEnabled a)
    (a_CreatedAt a) (a_UpdatedAt a).

Definition nullableString (v : string) : option string := if decide (TrimSpace v = EmptyString) then None else Some v.

Definition learnedPathQuality (successes failures : Z) (lastFailure : string) : string :=
  if decide (successes <= 0 /\ 0 < failures) then "bad"
  else if decide (lastFailure <> EmptyString /\ successes <= failures) then "degraded"
  else if decide (3 <= successes /\ failures = 0) then "good"
  else if decide (failures < successes) then "ok" else "unknown".
End ToStore.

(* ------------------------------------------------------------------ *)
(** ** Operations *)

Section Operations.
  Context `{CO : Collation} `{LK : Like} `{GU : GoUnicode} `{GT : GoTime} `{MJ : MetadataJSON}.
  Context {T : forall R, Model R -> Type} `{G : !Gorm T}.
  Notation DB := (control_db T).

Definition nowString (s : DB) : string := RFC3339 (db_clock s O).

(** *** Settings *)

Definition PutMeta (key value : string) (s : DB) : option api_error * DB :=
  in_meta (error_of (Upsert (mkMeta key value) (fun m => mkMeta (mt_Key m) value) (t_meta s))) s.

Definition GetMeta (key : string) (s : DB) : result api_error string :=
  m ← First (fun m => sql_eq (mt_Key m) key) any_order (t_meta s); Ok (from_option mt_Value EmptyString m).

Definition PutSystemSetting (key value : string) (s : DB) : option api_error * DB :=
  let now := nowString s in
  let s := tick s in
  in_settings (error_of (Upsert (mkSystemSetting key value now) (fun m => mkSystemSetting (st_Key m) value now) (t_settings s))) s.

Definition GetSystemSetting (key : string) (s : DB) : result api_error string :=
  m ← First (fun m => sql_eq (st_Key m) key) any_order (t_settings s); Ok (from_option st_Value EmptyString m).

(** *** Devices *)

Definition UpsertDevice (id name addr upnpAddr want : string) (online : bool) (s : DB) : option api_error * DB :=
  let now := nowString s in
  let s := tick s in
  in_devices (error_of (Upsert (mkDevice id name addr upnpAddr want online true now now)
    (fun d => mkDevice (d_ID d) (or_keep name (d_Name d)) (or_keep addr (d_Addr d)) (or_keep upnpAddr (d_UpnpAddr d))
                (or_keep want (d_Want d)) online (d_Enabled d) now (d_CreatedAt d))
    (t_devices s))) s.

Definition UpsertDeviceProductState (state : Store.DeviceProductState) (s : DB) : option api_error * DB :=
  if decide (TrimSpace (dps_DeviceID state) = EmptyString \/ TrimSpace (dps_Product state) = EmptyString) then (None, s)
  else
    let now := nowString s in
    let s := tick s in
    let LastSeenAt := if decide (dps_LastSeenAt state = EmptyString) then now else dps_LastSeenAt state in
    match (if decide (dps_Metadata state = ∅) then Some "{}"%string else marshal_map (dps_Metadata state)) with
    | None => (Some (DBError "json: unsupported value"), s)
    | Some metadata =>
      let row := mkDeviceProductState (dps_DeviceID state) (dps_Product state) (dps_Online state) LastSeenAt (dps_LastSource state)
                   (dps_Version state) (dps_LastError state) metadata in
      in_products (error_of (Upsert row
        (fun p => mkDeviceProductState (p_DeviceID p) (p_Product p) (p_Online row) (p_LastSeenAt row) (p_LastSource row) (p_Version row)
                    (p_LastError row) (p_Metadata row)) (t_products s))) s
    end.

Definition ListDeviceProductStates (s : DB) : result api_error (list Store.DeviceProductState) :=
  list_of product_toStore (Find (fun _ => true) (text_then p_DeviceID (by_text p_Product)) (t_products s)).

Definition MarkOfflineBefore (cutoff : Time) (s : DB) : option api_error * DB :=
  in_devices (error_of (Updates (fun d => d_Online d && sql_lt (d_LastSeen d) (RFC3339 cutoff))
    (fun d => mkDevice (d_ID d) (d_Name d) (d_Addr d) (d_UpnpAddr d) (d_Want d) false (d_Enabled d) (d_LastSeen d) (d_CreatedAt d))
    (t_devices s))) s.

Definition ListDevices (s : DB) : result api_error (list Store.Device) :=
  list_of device_toStore (Find (fun _ => true) (by_text d_ID) (t_devices s)).

Definition GetDevice (id : string) (s : DB) : result api_error Store.Device :=
  or_no_rows device_toStore (First (fun d => sql_eq (d_ID d) id) any_order (t_devices s)).

Definition SetDeviceEnabled (id : string) (enabled : bool) (s : DB) : option api_error * DB :=
  in_devices (affected (Updates (fun d => sql_eq (d_ID d) id)
    (fun d => mkDevice (d_ID d) (d_Name d) (d_Addr d) (d_UpnpAddr d) (d_Want d) (d_Online d) enabled (d_LastSeen d) (d_CreatedAt d))
    (t_devices s))) s.

(** A model without primary key is no condition. *)
Definition DeleteDevice (id : string) (s : DB) : option api_error * DB :=
  if decide (id = EmptyString) then (Some missing_where, s)
  else in_devices (affected (Delete (fun d => sql_eq (d_ID d) id) (t_devices s))) s.

(** *** Rules *)

Definition references (deviceID : string) (r : ForwardRule) : bool :=
  r_Enabled r && (sql_eq (r_SourceID r) deviceID || sql_eq (r_TargetID r) deviceID).

Definition EnabledRuleReferenceCount (deviceID : string) (s : DB) : result api_error Z := Count (references deviceID) (t_rules s).

Definition ListRules (s : DB) : result api_error (list Store.ForwardRule) :=
  list_of rule_toStore (Find (fun _ => true) (desc (by_id r_ID)) (t_rules s)).

Definition RulesForDevice (deviceID : string) (s : DB) : result api_error (list Store.ForwardRule) :=
  list_of rule_toStore (Find (references deviceID) (by_id r_ID) (t_rules s)).

Definition CreateRule (rule : Store.ForwardRule) (s : DB) : result api_error Store.ForwardRule * DB :=
  let now := nowString s in
  let s := tick s in
  let row := mkForwardRule 0 (fr_Name rule) (fr_SourceID rule) (fr_TargetID rule) (NormalizeProfile (fr_Profile rule)) (fr_LocalPort rule)
               (fr_TargetHost rule) (fr_TargetPort rule) (fr_Enabled rule) now now in
  let '(r, s) := in_rules (Create row (t_rules s)) s in
  (match r with
   | Err e => Err e
   | Ok row => Ok (Store.mkForwardRule (r_ID row) (fr_Name rule) (fr_SourceID rule) (fr_TargetID rule) (r_Profile row) (fr_LocalPort rule)
       (fr_TargetHost rule) (fr_TargetPort rule) (fr_Enabled rule) (r_CreatedAt row) (r_UpdatedAt row) (fr_RuntimeState rule)
       (fr_LastError rule) (fr_LastUpdatedAt rule) (fr_Attempt rule) (fr_NextRetryAt rule))
   end, s).

Definition UpdateRule (id : Z) (rule : Store.ForwardRule) (s : DB) : option api_error * DB :=
  let now := nowString s in
  let s := tick s in
  in_rules (affected (Updates (fun r => r_ID r =? id)
    (fun r => mkForwardRule (r_ID r) (fr_Name rule) (fr_SourceID rule) (fr_TargetID rule) (NormalizeProfile (fr_Profile rule))
                (fr_LocalPort rule) (fr_TargetHost rule) (fr_TargetPort rule) (fr_Enabled rule) (r_CreatedAt r) now) (t_rules s))) s.

Definition DeleteRule (id : Z) (s : DB) : option api_error * DB := in_rules (affected (Delete (fun r => r_ID r =? id) (t_rules s))) s.

Definition LocalPortConflict (sourceID : string) (localPort excludeID : Z) (s : DB) : result api_error bool :=
  n ← Count (fun r => sql_eq (r_SourceID r) sourceID && (r_LocalPort r =? localPort) && r_Enabled r && negb (r_ID r =? excludeID)) (t_rules s);
  Ok (0 <? n).

(** *** Sessions, metrics, tunnels, audit *)

Definition StartSession (sourceID targetID profile path : string) (s : DB) : result api_error Z * DB :=
  let now := nowString s in
  let s := tick s in
  let '(r, s) := in_sessions (Create (mkSession 0 sourceID targetID (NormalizeProfile profile) path 0 now now EmptyString) (t_sessions s)) s in
  (row ← r; Ok (ses_ID row), s).

Definition TouchSession (id relayBytes : Z) (s : DB) : option api_error * DB :=
  let now := nowString s in
  let s := tick s in
  in_sessions (error_of (Updates (fun r => ses_ID r =? id)
    (fun r => mkSession (ses_ID r) (ses_SourceID r) (ses_TargetID r) (ses_Profile r) (ses_Path r) (ses_RelayBytes r + relayBytes)
                (ses_StartedAt r) now (ses_EndedAt r)) (t_sessions s))) s.

Definition UpdateSessionPathForPair (aID bID profile path : string) (s : DB) : option api_error * DB :=
  match First (fun r => sql_empty (ses_EndedAt r) && sql_eq (ses_Profile r) (NormalizeProfile profile) &&
                 ((sql_eq (ses_SourceID r) aID && sql_eq (ses_TargetID r) bID) || (sql_eq (ses_SourceID r) bID && sql_eq (ses_TargetID r) aID)))
          (desc (by_id ses_ID)) (t_sessions s) with
  | Err e => (Some e, s)
  | Ok None => (None, s)
  | Ok (Some row) =>
    let now := nowString s in
    let s := tick s in
    in_sessions (error_of (Updates (fun r => ses_ID r =? ses_ID row)
      (fun r => mkSession (ses_ID r) (ses_SourceID r) (ses_TargetID r) (ses_Profile r) path (ses_RelayBytes r) (ses_StartedAt r) now
                  (ses_EndedAt r)) (t_sessions s))) s
  end.

Definition EndIdleSessions (cutoff : Time) (s : DB) : option api_error * DB :=
  let now := nowString s in
  let s := tick s in
  in_sessions (error_of (Updates (fun r => sql_empty (ses_EndedAt r) && sql_lt (ses_LastSeen r) (RFC3339 cutoff))
    (fun r => mkSession (ses_ID r) (ses_SourceID r) (ses_TargetID r) (ses_Profile r) (ses_Path r) (ses_RelayBytes r) (ses_StartedAt r)
                (ses_LastSeen r) now) (t_sessions s))) s.

Definition ListSessions (s : DB) : result api_error (list Store.Session) :=
  list_of session_toStore (Limit 200 (Find (fun _ => true) (desc (by_id ses_ID)) (t_sessions s))).

Definition Metrics_ (s : DB) : result api_error Metrics :=
  devices ← Count (fun _ => true) (t_devices s);
  online ← Count d_Online (t_devices s);
  rules ← Count (fun _ => true) (t_rules s);
  sessions ← Count (fun r => sql_empty (ses_EndedAt r)) (t_sessions s);
  all ← Find (fun _ => true) any_order (t_sessions s);
  Ok (mkMetrics devices online rules sessions (foldr Z.add 0 (map ses_RelayBytes all))).

Definition PutTunnelState (ts : TunnelState) (s : DB) : option api_error * DB :=
  let now := nowString s in
  let s := tick s in
  let LastTransitionAt := if decide (ts_LastTransitionAt ts = EmptyString) then now else ts_LastTransitionAt ts in
  let row := mkTunnelState (ts_DeviceID ts) (ts_PeerID ts) (NormalizeProfile (ts_Profile ts)) (ts_State ts) (ts_Via ts) (ts_NATType ts)
               (ts_PublicAddr ts) (ts_ConvID ts) (ts_RTTMs ts) (ts_LastError ts) (ts_Attempt ts) (ts_NextRetryAt ts) LastTransitionAt now in
  in_tunnels (error_of (Upsert row
    (fun t => mkTunnelState (ts_DeviceID t) (ts_PeerID t) (ts_Profile t) (ts_State row) (ts_Via row) (ts_NATType row) (ts_PublicAddr row)
                (ts_ConvID row) (ts_RTTMs row) (ts_LastError row) (ts_Attempt row) (ts_NextRetryAt row) (ts_LastTransitionAt row)
                (ts_UpdatedAt row)) (t_tunnels s))) s.

Definition ListTunnelStates (s : DB) : result api_error (list TunnelState) :=
  list_of tunnel_toStore (Limit 200 (Find (fun _ => true) (desc (by_text ts_UpdatedAt)) (t_tunnels s))).

Definition Audit (kind detail : string) (s : DB) : option api_error * DB :=
  let now := nowString s in
  let s := tick s in
  in_audit (error_of (Create (mkAuditEvent 0 kind detail now) (t_audit s))) s.

Definition ListAuditEvents (filter : AuditFilter) (s : DB) : result api_error (list AuditEvent) :=
  let limit := if decide (af_Limit filter <= 0 \/ 500 < af_Limit filter) then 200 else af_Limit filter in
  let given v (p : bool) := if decide (TrimSpace v = EmptyString) then true else p in
  let keyword := ("%" ++ TrimSpace (af_Keyword filter) ++ "%")%string in
  Limit limit (Find (fun e =>
    given (af_Kind filter) (sql_eq (ae_Kind e) (TrimSpace (af_Kind filter))) &&
    given (af_From filter) (sql_le (TrimSpace (af_From filter)) (ae_CreatedAt e)) &&
    given (af_To filter) (sql_le (ae_CreatedAt e) (TrimSpace (af_To filter))) &&
    given (af_Keyword filter) (sql_like (ae_Kind e) keyword || sql_like (ae_Detail e) keyword))
    (desc (by_id ae_ID)) (t_audit s)).

(** *** Administrators and their tokens *)

Definition set_admin (hash : option string) (force : option bool) (version : Z) (now : string) (u : AdminUser) : AdminUser :=
  mkAdminUser (au_ID u) (au_Username u) (au_Name u) (au_Role u) (default (au_ForcePasswordChange u) force) version
    (default (au_PasswordHash u) hash) (au_CreatedAt u) now.

Definition UpsertAdminUser (user : AdminUser) (s : DB) : option api_error * DB :=
  let now := nowString s in
  let s := tick s in
  let CreatedAt := if decide (au_CreatedAt user = EmptyString) then now else au_CreatedAt user in
  let row := mkAdminUser (au_ID user) (au_Username user) (au_Name user) (au_Role user) (au_ForcePasswordChange user) (au_PasswordVersion user)
               (au_PasswordHash user) CreatedAt now in
  in_admins (error_of (Upsert row
    (fun u => mkAdminUser (au_ID u) (au_Username row) (au_Name row) (au_Role row) (au_ForcePasswordChange row) (au_PasswordVersion row)
                (au_PasswordHash row) (au_CreatedAt u) now) (t_admins s))) s.

Definition GetAdminUserByUsername (username : string) (s : DB) : result api_error AdminUser :=
  or_no_rows id (First (fun u => sql_eq (au_Username u) username) any_order (t_admins s)).
Definition GetAdminUserByID (i : string) (s : DB) : result api_error AdminUser :=
  or_no_rows id (First (fun u => sql_eq (au_ID u) i) any_order (t_admins s)).

Definition UpdateAdminPassword (userID passwordHash : string) (s : DB) : option api_error * DB :=
  let now := nowString s in
  let s := tick s in
  in_admins (affected (Updates (fun u => sql_eq (au_ID u) userID)
    (fun u => set_admin (Some passwordHash) None (au_PasswordVersion u + 1) now u) (t_admins s))) s.

Definition ClearAdminPasswordChangeRequired (userID : string) (s : DB) : option api_error * DB :=
  let now := nowString s in
  let s := tick s in
  in_admins (affected (Updates (fun u => sql_eq (au_ID u) userID)
    (fun u => set_admin None (Some false) (au_PasswordVersion u) now u) (t_admins s))) s.

Definition CreateAdminRefreshToken (userID tokenHash : string) (expiresAt : Time) (userAgent ip : string) (s : DB) : option api_error * DB :=
  let now := nowString s in
  let s := tick s in
  in_refresh (error_of (Create (mkAdminRefreshToken 0 userID tokenHash (RFC3339 expiresAt) EmptyString now EmptyString userAgent ip)
    (t_refresh s))) s.

Definition GetAdminRefreshToken (tokenHash : string) (s : DB) : result api_error AdminRefreshToken :=
  or_no_rows id (First (fun t => sql_eq (art_TokenHash t) tokenHash) any_order (t_refresh s)).

Definition revoked (now : string) (t : AdminRefreshToken) : AdminRefreshToken :=
  mkAdminRefreshToken (art_ID t) (art_UserID t) (art_TokenHash t) (art_ExpiresAt t) now (art_CreatedAt t) (art_LastUsedAt t) (art_UserAgent t)
    (art_IP t).

Definition TouchAdminRefreshToken (i : Z) (s : DB) : option api_error * DB :=
  let now := nowString s in
  let s := tick s in
  in_refresh (error_of (Updates (fun t => art_ID t =? i)
    (fun t => mkAdminRefreshToken (art_ID t) (art_UserID t) (art_TokenHash t) (art_ExpiresAt t) (art_RevokedAt t) (art_CreatedAt t) now
                (art_UserAgent t) (art_IP t)) (t_refresh s))) s.

Definition RevokeAdminRefreshToken (tokenHash : string) (s : DB) : option api_error * DB :=
  let now := nowString s in
  let s := tick s in
  in_refresh (error_of (Updates (fun t => sql_eq (art_TokenHash t) tokenHash && sql_empty (art_RevokedAt t)) (revoked now) (t_refresh s))) s.

Definition RevokeAdminRefreshTokensByUser (userID : string) (s : DB) : option api_error * DB :=
  let now := nowString s in
  let s := tick s in
  in_refresh (error_of (Updates (fun t => sql_eq (art_UserID t) userID && sql_empty (art_RevokedAt t)) (revoked now) (t_refresh s))) s.

Definition RevokeExpiredAdminRefreshTokens (cutoff : Time) (s : DB) : option api_error * DB :=
  let now := nowString s in
  let s := tick s in
  in_refresh (error_of (Updates (fun t => sql_empty (art_RevokedAt t) && sql_lt (art_ExpiresAt t) (RFC3339 cutoff)) (revoked now) (t_refresh s))) s.

(** *** Virtual networks and addresses *)

Definition default_cidr : string := "172.16.10.0/24".

Definition EnsureDefaultVirtualNetwork (s : DB) : result api_error VirtualNetwork * DB :=
  let now := nowString s in
  let s := tick s in
  let row := mkVirtualNetwork 0 "Default Network" default_cidr 0 0 "prefer_p2p" "auto" true now now in
  let '(e, s) := in_networks (error_of (Upsert row id (t_networks s))) s in
  match e with
  | Some e => (Err e, s)
  | None =>
    (match First (fun n => sql_eq (vn_CIDR n) default_cidr) any_order (t_networks s) with
     | Ok (Some out) => Ok (network_toStore out)
     | Ok None => Err (DBError "record not found")
     | Err e => Err e
     end, s)
  end.

Definition ListVirtualNetworks (s : DB) : result api_error (list VirtualNetwork) :=
  list_of network_toStore (Find (fun _ => true) (by_id vn_ID) (t_networks s)).

Definition CreateVirtualNetwork (network : VirtualNetwork) (s : DB) : result api_error VirtualNetwork * DB :=
  let now := nowString s in
  let s := tick s in
  let row := mkVirtualNetwork 0 (if decide (vn_Name network = EmptyString) then vn_CIDR network else vn_Name network) (vn_CIDR network)
               (vn_MTU network) (vn_MSS network) (normalizeVirtualNetworkPathPolicy (vn_PathPolicy network)) (normalizeVirtualNetworkTCPFastPath (vn_TCPFastPath network))
               (vn_Enabled network) now now in
  let '(r, s) := in_networks (Create row (t_networks s)) s in
  (row ← r; Ok (network_toStore row), s).

Definition UpdateVirtualNetwork (i : Z) (network : VirtualNetwork) (s : DB) : option api_error * DB :=
  let now := nowString s in
  let s := tick s in
  in_networks (affected (Updates (fun n => vn_ID n =? i)
    (fun n => mkVirtualNetwork (vn_ID n) (vn_Name network) (vn_CIDR network) (vn_MTU network) (vn_MSS network)
                (normalizeVirtualNetworkPathPolicy (vn_PathPolicy network)) (normalizeVirtualNetworkTCPFastPath (vn_TCPFastPath network)) (vn_Enabled network)
                (vn_CreatedAt n) now) (t_networks s))) s.

Definition DeleteVirtualNetwork (i : Z) (s : DB) : option api_error * DB :=
  in_networks (affected (Delete (fun n => vn_ID n =? i) (t_networks s))) s.

(** A condition that is added only for a positive network id, or for text. *)
Definition for_network {R} (f : R -> Z) (networkID : Z) (r : R) : bool := if decide (0 < networkID) then f r =? networkID else true.
Definition for_text {R} (f : R -> string) (v : string) (r : R) : bool := if decide (v <> EmptyString) then sql_eq (f r) v else true.

Definition of_device (networkID : Z) (deviceID : string) (a : VirtualAddress) : bool :=
  (a_NetworkID a =? networkID) && sql_eq (a_DeviceID a) deviceID.

Definition UpsertVirtualAddress (address : Store.VirtualAddress) (s : DB) : option api_error * DB :=
  let now := nowString s in
  let s := tick s in
  let CreatedAt := if decide (va_CreatedAt address = EmptyString) then now else va_CreatedAt address in
  let row := mkVirtualAddress (va_DeviceID address) (va_NetworkID address) (va_VirtualIP address) (nullableString (va_Hostname address))
               (va_DNSEnabled address) CreatedAt now in
  match First (of_device (va_NetworkID address) (va_DeviceID address)) any_order (t_addresses s) with
  | Err e => (Some e, s)
  | Ok None => in_addresses (error_of (Create row (t_addresses s))) s
  | Ok (Some _) =>
    in_addresses (error_of (Updates (of_device (va_NetworkID address) (va_DeviceID address))
      (fun a => mkVirtualAddress (a_DeviceID a) (a_NetworkID a) (a_VirtualIP row) (a_Hostname row) (a_DNSEnabled row) (a_CreatedAt a)
                  (a_UpdatedAt row)) (t_addresses s))) s
  end.

Definition ListVirtualAddresses (networkID : Z) (s : DB) : result api_error (list Store.VirtualAddress) :=
  list_of address_toStore (Find (for_network a_NetworkID networkID) (id_then a_NetworkID (by_text a_VirtualIP)) (t_addresses s)).

Definition GetVirtualAddress (networkID : Z) (deviceID : string) (s : DB) : result api_error Store.VirtualAddress :=
  or_no_rows address_toStore (First (of_device networkID deviceID) any_order (t_addresses s)).

Definition GetVirtualAddressByDevice (deviceID : string) (s : DB) : result api_error Store.VirtualAddress :=
  or_no_rows address_toStore
    (First (fun a => sql_eq (a_DeviceID a) deviceID)
       (fun a b => text_then a_UpdatedAt (text_then a_DeviceID (by_id a_NetworkID)) b a) (t_addresses s)).

Definition DeleteVirtualAddress (networkID : Z) (deviceID : string) (s : DB) : option api_error * DB :=
  in_addresses (affected (Delete (of_device networkID deviceID) (t_addresses s))) s.

(** *** Device keys and groups *)

Definition UpsertVirtualDeviceKey (key : VirtualDeviceKey) (s : DB) : option api_error * DB :=
  let now := nowString s in
  let s := tick s in
  let CreatedAt := if decide (vk_CreatedAt key = EmptyString) then now else vk_CreatedAt key in
  let row := mkVirtualDeviceKey (vk_DeviceID key) (vk_Algorithm key) (vk_PublicKey key) CreatedAt now in
  in_keys (error_of (Upsert row
    (fun k => mkVirtualDeviceKey (vk_DeviceID k) (vk_Algorithm row) (vk_PublicKey row) (vk_CreatedAt k) now) (t_keys s))) s.

Definition GetVirtualDeviceKey (deviceID : string) (s : DB) : result api_error VirtualDeviceKey :=
  or_no_rows id (First (fun k => sql_eq (vk_DeviceID k) deviceID) any_order (t_keys s)).

Definition ListVirtualDeviceKeys (s : DB) : result api_error (list VirtualDeviceKey) := Find (fun _ => true) (by_text vk_DeviceID) (t_keys s).

Definition UpsertVirtualDeviceGroup (group : VirtualDeviceGroup) (s : DB) : result api_error VirtualDeviceGroup * DB :=
  let now := nowString s in
  let s := tick s in
  let CreatedAt := if decide (vg_CreatedAt group = EmptyString) then now else vg_CreatedAt group in
  let row := mkVirtualDeviceGroup (TrimSpace (vg_ID group)) (TrimSpace (vg_Name group)) CreatedAt now in
  let '(e, s) := in_groups (error_of (Upsert row
    (fun g => mkVirtualDeviceGroup (vg_ID g) (vg_Name row) (vg_CreatedAt g) now) (t_groups s))) s in
  (match e with Some e => Err e | None => Ok row end, s).

(** Two calls, the second on the state of the first. *)
Definition and_then (a b : DB -> option api_error * DB) (s : DB) : option api_error * DB :=
  match a s with (None, s) => b s | r => r end.

Definition DeleteVirtualDeviceGroup (i : string) : DB -> option api_error * DB :=
  Transaction (and_then
    (fun s => in_members (error_of (Delete (fun m => sql_eq (vgm_GroupID m) i) (t_members s))) s)
    (fun s => in_groups (affected (Delete (fun g => sql_eq (vg_ID g) i) (t_groups s))) s)).

Definition ListVirtualDeviceGroups (s : DB) : result api_error (list VirtualDeviceGroup) := Find (fun _ => true) (by_text vg_ID) (t_groups s).

Fixpoint create_members (groupID now : string) (deviceIDs : list string) (s : DB) : option api_error * DB :=
  match deviceIDs with
  | [] => (None, s)
  | deviceID :: rest =>
    let deviceID := TrimSpace deviceID in
    if decide (deviceID = EmptyString) then create_members groupID now rest s
    else and_then (fun s => in_members (error_of (Create (mkVirtualDeviceGroupMember groupID deviceID now) (t_members s))) s)
           (create_members groupID now rest) s
  end.

Definition SetVirtualDeviceGroupMembers (groupID : string) (deviceIDs : list string) (s : DB) : option api_error * DB :=
  let now := nowString s in
  let s := tick s in
  Transaction (and_then
    (fun s => in_members (error_of (Delete (fun m => sql_eq (vgm_GroupID m) groupID) (t_members s))) s)
    (create_members groupID now deviceIDs)) s.

Definition ListVirtualDeviceGroupMembers (groupID : string) (s : DB) : result api_error (list VirtualDeviceGroupMember) :=
  Find (for_text vgm_GroupID groupID) (text_then vgm_GroupID (by_text vgm_DeviceID)) (t_members s).

(** *** Access rules and routes *)

Definition CreateVirtualACLRule (rule : VirtualACLRule) (s : DB) : result api_error VirtualACLRule * DB :=
  let now := nowString s in
  let s := tick s in
  let row := mkVirtualACLRule 0 (acl_NetworkID rule) (acl_SourceDeviceID rule) (acl_SourceGroupID rule) (acl_TargetDeviceID rule)
               (acl_TargetGroupID rule) (dflt "tcp" (acl_Protocol rule)) (acl_PortStart rule) (acl_PortEnd rule)
               (dflt "allow" (acl_Action rule)) (acl_Enabled rule) now now in
  in_acls (Create row (t_acls s)) s.

Definition ListVirtualACLRules (networkID : Z) (s : DB) : result api_error (list VirtualACLRule) :=
  Find (for_network acl_NetworkID networkID) (desc (by_id acl_ID)) (t_acls s).

Definition UpdateVirtualACLRule (i : Z) (rule : VirtualACLRule) (s : DB) : option api_error * DB :=
  let now := nowString s in
  let s := tick s in
  in_acls (affected (Updates (fun r => acl_ID r =? i)
    (fun r => mkVirtualACLRule (acl_ID r) (acl_NetworkID rule) (acl_SourceDeviceID rule) (acl_SourceGroupID rule) (acl_TargetDeviceID rule)
                (acl_TargetGroupID rule) (acl_Protocol rule) (acl_PortStart rule) (acl_PortEnd rule) (acl_Action rule) (acl_Enabled rule)
                (acl_CreatedAt r) now) (t_acls s))) s.

Definition DeleteVirtualACLRule (i : Z) (s : DB) : option api_error * DB := in_acls (affected (Delete (fun r => acl_ID r =? i) (t_acls s))) s.

Definition UpsertVirtualRoute (route : VirtualRoute) (s : DB) : option api_error * DB :=
  let now := nowString s in
  let s := tick s in
  let CreatedAt := if decide (vr_CreatedAt route = EmptyString) then now else vr_CreatedAt route in
  let row := mkVirtualRoute (vr_ID route) (vr_DeviceID route) (vr_NetworkID route) (vr_CIDR route) (vr_Advertise route) (vr_Accept route)
               CreatedAt now in
  if decide (0 < vr_ID route) then
    in_routes (affected (Updates (fun r => vr_ID r =? vr_ID route)
      (fun r => mkVirtualRoute (vr_ID r) (vr_DeviceID route) (vr_NetworkID route) (vr_CIDR route) (vr_Advertise route) (vr_Accept route)
                  (vr_CreatedAt r) now) (t_routes s))) s
  else in_routes (error_of (Upsert row
      (fun r => mkVirtualRoute (vr_ID r) (vr_DeviceID r) (vr_NetworkID r) (vr_CIDR r) (vr_Advertise row) (vr_Accept row) (vr_CreatedAt r) now)
      (t_routes s))) s.

Definition ListVirtualRoutes (networkID : Z) (deviceID : string) (s : DB) : result api_error (list VirtualRoute) :=
  Find (fun r => for_network vr_NetworkID networkID r && for_text vr_DeviceID deviceID r)
    (id_then vr_NetworkID (text_then vr_DeviceID (by_text vr_CIDR))) (t_routes s).

Definition DeleteVirtualRoute (i : Z) (s : DB) : option api_error * DB := in_routes (affected (Delete (fun r => vr_ID r =? i) (t_routes s))) s.

(** *** Peer states, path events, learned paths *)

Definition peer_row (state : VirtualPeerState) (lastTransition now : string) : VirtualPeerState :=
  mkVirtualPeerState (ps_DeviceID state) (ps_PeerID state) (ps_NetworkID state) (ps_State state) (ps_Path state) (ps_DataPath state)
    (ps_PathReason state) (ps_NATType state) (ps_FallbackReason state) (ps_TrafficClass state) (ps_TCPFastPath state) (ps_AdapterState state)
    (ps_RouteConflict state) (ps_SelectedCIDR state) (ps_MTU state) (ps_MSS state) (ps_RTTMs state) (ps_EstimatedBps state)
    (ps_TxBytes state) (ps_RxBytes state) (ps_DropReason state) (ps_LastError state) (ps_ActiveSessions state) (ps_HotPaths state)
    (ps_RelayDisabled state) (ps_SocketRotations state) (ps_LastRotationAt state) (ps_LastRotationReason state) (ps_LastHandshakeAt state)
    lastTransition now.

(** The assignments cover every column but the key. *)
Definition peer_assign (row p : VirtualPeerState) : VirtualPeerState :=
  mkVirtualPeerState (ps_DeviceID p) (ps_PeerID p) (ps_NetworkID p) (ps_State row) (ps_Path row) (ps_DataPath row)
    (ps_PathReason row) (ps_NATType row) (ps_FallbackReason row) (ps_TrafficClass row) (ps_TCPFastPath row) (ps_AdapterState row)
    (ps_RouteConflict row) (ps_SelectedCIDR row) (ps_MTU row) (ps_MSS row) (ps_RTTMs row) (ps_EstimatedBps row)
    (ps_TxBytes row) (ps_RxBytes row) (ps_DropReason row) (ps_LastError row) (ps_ActiveSessions row) (ps_HotPaths row)
    (ps_RelayDisabled row) (ps_SocketRotations row) (ps_LastRotationAt row) (ps_LastRotationReason row) (ps_LastHandshakeAt row)
    (ps_LastTransitionAt row) (ps_UpdatedAt row).

Definition of_peer (deviceID peerID : string) (networkID : Z) (p : VirtualPeerState) : bool :=
  sql_eq (ps_DeviceID p) deviceID && sql_eq (ps_PeerID p) peerID && (ps_NetworkID p =? networkID).

Definition same_path (a b : VirtualPeerState) : bool :=
  bool_decide (ps_Path a = ps_Path b) && bool_decide (ps_DataPath a = ps_DataPath b) && bool_decide (ps_PathReason a = ps_PathReason b).

Definition PutVirtualPeerState (state : VirtualPeerState) (s : DB) : option api_error * DB :=
  let now := nowString s in
  let s := tick s in
  let LastTransitionAt := if decide (ps_LastTransitionAt state = EmptyString) then now else ps_LastTransitionAt state in
  match First (of_peer (ps_DeviceID state) (ps_PeerID state) (ps_NetworkID state)) any_order (t_peers s) with
  | Err e => (Some e, s)
  | Ok previous =>
    let row := peer_row state LastTransitionAt now in
    and_then (fun s => in_peers (error_of (Upsert row (peer_assign row) (t_peers s))) s)
      (fun s =>
        if (match previous with Some p => same_path p row | None => false end) then (None, s)
        else in_events (error_of (Create (mkVirtualPeerPathEvent 0 (ps_DeviceID row) (ps_PeerID row) (ps_NetworkID row) (ps_Path row)
               (ps_DataPath row) (ps_PathReason row) (ps_TrafficClass row) (ps_TxBytes row) (ps_RxBytes row) now) (t_events s))) s) s
  end.

Definition ListVirtualPeerStates (networkID : Z) (s : DB) : result api_error (list VirtualPeerState) :=
  Limit 200 (Find (for_network ps_NetworkID networkID) (desc (by_text ps_UpdatedAt)) (t_peers s)).

Definition ListVirtualPeerPathEvents (networkID : Z) (deviceID peerID : string) (limit : Z) (s : DB) : result api_error (list VirtualPeerPathEvent) :=
  let limit := if decide (limit <= 0 \/ 500 < limit) then 200 else limit in
  Limit limit (Find (fun e => for_network pe_NetworkID networkID e && for_text pe_DeviceID (TrimSpace deviceID) e &&
                              for_text pe_PeerID (TrimSpace peerID) e) (desc (by_id pe_ID)) (t_events s)).

Definition learned_row (path : VirtualLearnedPath) (now : string) : VirtualLearnedPath :=
  let protocol := TrimSpace (ToLower (lp_Protocol path)) in
  let SuccessCount := Z.max 0 (lp_SuccessCount path) in
  let FailureCount := Z.max 0 (lp_FailureCount path) in
  mkVirtualLearnedPath (lp_DeviceID path) (lp_PeerID path) (lp_NetworkID path) (lp_DstPort path)
    (if decide (protocol = EmptyString) then "tcp"%string else protocol) (lp_Path path) (lp_PublicAddr path) SuccessCount FailureCount
    (if decide (lp_LastSuccessAt path = EmptyString /\ 0 < SuccessCount) then now else lp_LastSuccessAt path)
    (if decide (lp_LastFailureAt path = EmptyString /\ 0 < FailureCount) then now else lp_LastFailureAt path)
    (lp_LastFailure path)
    (if decide (lp_Quality path = EmptyString) then learnedPathQuality SuccessCount FailureCount (lp_LastFailure path) else lp_Quality path)
    (lp_PreheatEnabled path) now.

Definition UpsertVirtualLearnedPath (path : VirtualLearnedPath) (s : DB) : option api_error * DB :=
  let now := nowString s in
  let s := tick s in
  let row := learned_row path now in
  in_learned (error_of (Upsert row
    (fun p => mkVirtualLearnedPath (lp_DeviceID p) (lp_PeerID p) (lp_NetworkID p) (lp_DstPort p) (lp_Protocol row) (lp_Path row)
                (lp_PublicAddr row) (lp_SuccessCount row) (lp_FailureCount row) (lp_LastSuccessAt row) (lp_LastFailureAt row)
                (lp_LastFailure row) (lp_Quality row) (lp_PreheatEnabled row) now) (t_learned s))) s.

Definition ListVirtualLearnedPaths (networkID : Z) (deviceID : string) (s : DB) : result api_error (list VirtualLearnedPath) :=
  Find (fun p => for_network lp_NetworkID networkID p && for_text lp_DeviceID (TrimSpace deviceID) p) (desc (by_text lp_UpdatedAt)) (t_learned s).

Definition SetVirtualLearnedPathPreheat (networkID : Z) (deviceID peerID : string) (dstPort : Z) (enabled : bool) (s : DB)
  : option api_error * DB :=
  let now := nowString s in
  let s := tick s in
  in_learned (affected (Updates
    (fun p => (lp_NetworkID p =? networkID) && sql_eq (lp_DeviceID p) deviceID && sql_eq (lp_PeerID p) peerID && (lp_DstPort p =? dstPort))
    (fun p => mkVirtualLearnedPath (lp_DeviceID p) (lp_PeerID p) (lp_NetworkID p) (lp_DstPort p) (lp_Protocol p) (lp_Path p) (lp_PublicAddr p)
                (lp_SuccessCount p) (lp_FailureCount p) (lp_LastSuccessAt p) (lp_LastFailureAt p) (lp_LastFailure p) (lp_Quality p) enabled now)
    (t_learned s))) s.
End Operations.

(** A new database in memory. *)
Definition empty_db `{CO : Collation} (clock : nat -> Time) : control_db memory_table :=
  mkDB no_rows no_rows no_rows no_rows no_rows no_rows no_rows no_rows no_rows no_rows no_rows no_rows no_rows no_rows no_rows no_rows no_rows
    no_rows no_rows no_rows clock.

Definition toy_like : Like := {| sql_like a b := bool_decide (a = b) |}.
Definition toy_metadata : MetadataJSON := {| marshal_map _ := Some "{}"%string; unmarshal_map _ := ∅ |}.
