(* ===== verification/LanAlloc.v ===== *)
(** * LanAlloc: virtual addresses (internal/server/handlers_lan.go)

    Walking the addresses of a network, the broadcast address, the choice of a free
    address and host name for a device, and the validation of an address an
    administrator sets. The database is the Go interface [virtualAddressStore]. *)

From S2P Require Import Prelude GoStrings Store ServerUtil Vnet.

(** The loop of [nextIPv4], on the bytes from the last to the first. *)
Fixpoint inc_bytes (l : list byte) : list byte :=
  match l with
  | [] => []
  | b :: rest => let b' := z2b (b2z b + 1) in if decide (b' <> x00) then b' :: rest else b' :: inc_bytes rest
  end.
Definition nextIPv4 (ip : list byte) : list byte :=
  match To4 (Some ip) with None => [] | Some v => rev (inc_bytes (rev v)) end.

Definition isIPv4Broadcast (n : IPNet) (ip : list byte) : bool :=
  match To4 (Some ip), To4 (Some (net_IP n)) with
  | Some v, Some base =>
    forallb (fun i => bool_decide (b2z (at_ v i) = Z.lor (b2z (at_ base i)) (Z.lxor (b2z (at_ (net_Mask n) i)) 255)))
      (seq 0 (length v))
  | _, _ => false
  end.

Definition firstNonEmpty (values : list string) : string :=
  match List.find (fun v => bool_decide (TrimSpace v <> EmptyString)) values with
  | Some v => TrimSpace v
  | None => EmptyString
  end.

(** The loop of [allocateVirtualAddress] up to the address it takes: [None] when the
    fuel runs out, [Some None] when the network is full. *)
Fixpoint alloc_search (fuel : nat) (ipNet : IPNet) (used : list string) (ip : list byte) : option (option (list byte)) :=
  match fuel with
  | O => None
  | S fuel' =>
    if negb (net_Contains ipNet ip) then Some None
    else if isIPv4Broadcast ipNet ip || bool_decide (IPv4_String ip ∈ used) then alloc_search fuel' ipNet used (nextIPv4 ip)
    else Some (Some ip)
  end.

(** The interface [virtualAddressStore], over the state [S] of the database. *)
Record virtualAddressStore (S : Type) : Type := mkVirtualAddressStore {
  vas_List : Z -> S -> result api_error (list VirtualAddress);
  vas_Upsert : VirtualAddress -> S -> option api_error * S;   (* None: nil *)
}.
Arguments mkVirtualAddressStore {S} _ _.
Arguments vas_List {S} _ _ _.
Arguments vas_Upsert {S} _ _ _.

Section Alloc.
  Context {S : Type} (db : virtualAddressStore S).

(** The host name for the new address. *)
Definition alloc_hostname (usedHostnames : list string) (deviceID hostname : string) : string :=
  if decide (TrimSpace hostname = EmptyString \/ TrimSpace hostname ∈ usedHostnames) then deviceID else hostname.

Definition alloc_address (network : VirtualNetwork) (deviceID : string) (ip : list byte) (hostname : string) : VirtualAddress :=
  mkVirtualAddress deviceID (vn_ID network) (IPv4_String ip) hostname false EmptyString EmptyString.

(** Storing the address, with the retry under the name of the device. *)
Definition alloc_store (network : VirtualNetwork) (deviceID : string) (ip : list byte) (hostname : string) (s : S)
  : result api_error VirtualAddress * S :=
  let address := alloc_address network deviceID ip hostname in
  match vas_Upsert db address s with
  | (None, s) => (Ok address, s)
  | (Some err, s) =>
    if decide (TrimSpace hostname <> deviceID) then
      let address := alloc_address network deviceID ip deviceID in
      match vas_Upsert db address s with
      | (None, s) => (Ok address, s)
      | (Some _, s) => (Err err, s)
      end
    else (Err err, s)
  end.

Definition allocateVirtualAddress (fuel : nat) (network : VirtualNetwork) (deviceID hostname : string) (s : S)
  : option (result api_error VirtualAddress * S) :=
  match ParseCIDR (vn_CIDR network) with
  | None => Some (Err ParseError, s)
  | Some ipNet =>
    match To4 (Some (net_IP ipNet)) with
    | None => Some (Err (badRequest "bad_network" "only ipv4 network is supported"), s)
    | Some base =>
      match vas_List db (vn_ID network) s with
      | Err err => Some (Err err, s)
      | Ok addresses =>
        let used := map (fun a => TrimSpace (va_VirtualIP a)) addresses in
        let usedHostnames := filter (fun h => h <> EmptyString) (map (fun a => TrimSpace (va_Hostname a)) addresses) in
        match alloc_search fuel ipNet used (nextIPv4 base) with
        | None => None
        | Some None => Some (Err (badRequest "lan_network_full" "no available virtual ip"), s)
        | Some (Some ip) => Some (alloc_store network deviceID ip (alloc_hostname usedHostnames deviceID hostname) s)
        end
      end
    end
  end.

End Alloc.

Definition validateVirtualAddress (address : VirtualAddress) : result api_error unit :=
  if decide (TrimSpace (va_DeviceID address) = EmptyString \/ va_NetworkID address <= 0 \/
             TrimSpace (va_VirtualIP address) = EmptyString)
  then Err (badRequest "bad_address" "device_id, network_id and virtual_ip are required")
  else match ParseIP (TrimSpace (va_VirtualIP address)) with
  | None => Err (badRequest "bad_address" "virtual_ip is invalid")
  | Some _ => Ok tt
  end.

(** [networks] is the answer of [ListVirtualNetworks]. *)
Definition virtualNetworkByID (networks : list VirtualNetwork) (id : Z) : result api_error VirtualNetwork :=
  match List.find (fun n => bool_decide (vn_ID n = id)) networks with
  | Some n => Ok n
  | None => Err ErrNoRows
  end.

Definition validateVirtualAddressCIDR (networks : list VirtualNetwork) (address : VirtualAddress) : result api_error unit :=
  network ← virtualNetworkByID networks (va_NetworkID address);
  match ParseCIDR (vn_CIDR network) with
  | None => Err ParseError
  | Some ipNet =>
    match To4 (ParseIP (TrimSpace (va_VirtualIP address))) with
    | None => Err (badRequest "address_out_of_cidr" "virtual_ip must be inside network cidr")
    | Some ip =>
      if negb (net_Contains ipNet ip) then Err (badRequest "address_out_of_cidr" "virtual_ip must be inside network cidr")
      else if bool_decide (Some ip = To4 (Some (net_IP ipNet))) || isIPv4Broadcast ipNet ip
      then Err (badRequest "address_reserved" "virtual_ip cannot be network or broadcast address")
      else Ok tt
    end
  end.

(* ------------------------------------------------------------------ *)
(** ** The walk *)

Lemma inc_bytes_length l : length (inc_bytes l) = length l.
Proof. induction l as [|b l IH]; [done|]. cbn [inc_bytes]. case_decide; simpl; congruence. Qed.

(** The next address in numbers, wrapping at the end of the address space. *)
Lemma inc_bytes_value l : be_get (rev (inc_bytes l)) = (be_get (rev l) + 1) mod 256 ^ Z.of_nat (length l).
Proof.
  induction l as [|b l IH]; [done|]. cbn [inc_bytes]. pose proof (b2z_bound b) as Hb. pose proof (be_get_bound (rev l)) as Hl.
  rewrite length_rev in Hl.
  assert (E256 : 256 ^ Z.of_nat (length (b :: l)) = 256 ^ Z.of_nat (length l) * 256).
  { cbn [length]. rewrite Nat2Z.inj_succ, Z.pow_succ_r by lia. lia. }
  rewrite E256. cbn [rev]. rewrite be_get_snoc. set (N := 256 ^ Z.of_nat (length l)) in *.
  case_decide as Hd; cbn [rev]; rewrite be_get_snoc, b2z_z2b.
  - assert (b2z b <> 255).
    { intros E. apply Hd. apply b2z_inj. rewrite b2z_z2b, E. reflexivity. }
    rewrite (Z.mod_small (b2z b + 1)) by lia. rewrite Z.mod_small; nia.
  - assert (E : b2z b = 255).
    { apply (f_equal b2z) in Hd. rewrite b2z_z2b in Hd. change (b2z x00) with 0 in Hd.
      destruct (decide (b2z b = 255)); [done|]. rewrite Z.mod_small in Hd; lia. }
    rewrite IH, E. change ((255 + 1) mod 256) with 0. replace (be_get (rev l) * 256 + 255 + 1) with ((be_get (rev l) + 1) * 256) by lia.
    rewrite Zmult_mod_distr_r. lia.
Qed.

Lemma To4_4 ip : length ip = 4%nat -> To4 (Some ip) = Some ip.
Proof. intros H. unfold To4. cbn [mbind option_bind]. by rewrite decide_True. Qed.

Lemma nextIPv4_spec ip : length ip = 4%nat ->
  length (nextIPv4 ip) = 4%nat /\ be_get (nextIPv4 ip) = (be_get ip + 1) mod 2 ^ 32.
Proof.
  intros H. unfold nextIPv4. rewrite To4_4 by done. split; [by rewrite length_rev, inc_bytes_length, length_rev|].
  rewrite inc_bytes_value, rev_involutive, length_rev, H. done.
Qed.

(** *** The broadcast address *)

Definition lor_not (b m : byte) : byte := z2b (Z.lor (b2z b) (Z.lxor (b2z m) 255)).

Lemma small_bits (f : Z -> Z -> Z) a b : (forall x y, Z.land (f x y) (Z.ones 8) = f (Z.land x (Z.ones 8)) (Z.land y (Z.ones 8))) ->
  0 <= a < 256 -> 0 <= b < 256 -> 0 <= f a b < 256.
Proof.
  intros Hf Ha Hb. assert (E : f a b = Z.land (f a b) (Z.ones 8)).
  { rewrite Hf, !Z.land_ones by lia. change (2 ^ 8) with 256. by rewrite !Z.mod_small by lia. }
  rewrite E, Z.land_ones by lia. by apply Z.mod_pos_bound.
Qed.

Lemma lor_small a b : 0 <= a < 256 -> 0 <= b < 256 -> 0 <= Z.lor a b < 256.
Proof. apply small_bits. intros. apply Z.land_lor_distr_l. Qed.

Lemma lxor_small a b : 0 <= a < 256 -> 0 <= b < 256 -> 0 <= Z.lxor a b < 256.
Proof.
  apply small_bits. intros. apply Z.bits_inj'. intros i Hi. rewrite !Z.land_spec, !Z.lxor_spec, !Z.land_spec.
  by destruct (Z.testbit x i), (Z.testbit y i), (Z.testbit (Z.ones 8) i).
Qed.

Lemma b2z_lor_not b m : b2z (lor_not b m) = Z.lor (b2z b) (Z.lxor (b2z m) 255).
Proof.
  unfold lor_not. rewrite b2z_z2b. apply Z.mod_small, lor_small; [apply b2z_bound|]. apply lxor_small; [apply b2z_bound|lia].
Qed.

Lemma lor_snoc a b x y : 0 <= x < 256 -> 0 <= y < 256 -> Z.lor (a * 256 + x) (b * 256 + y) = Z.lor a b * 256 + Z.lor x y.
Proof.
  intros. apply Z.bits_inj'. intros i Hi. rewrite Z.lor_spec, !testbit_snoc by (done || by apply lor_small).
  case_decide; by rewrite Z.lor_spec.
Qed.

Lemma lxor_snoc a b x y : 0 <= x < 256 -> 0 <= y < 256 -> Z.lxor (a * 256 + x) (b * 256 + y) = Z.lxor a b * 256 + Z.lxor x y.
Proof.
  intros. apply Z.bits_inj'. intros i Hi. rewrite Z.lxor_spec, !testbit_snoc by (done || by apply lxor_small).
  case_decide; by rewrite Z.lxor_spec.
Qed.

Lemma be_get_lor_not l k : length l = length k ->
  be_get (zip_with lor_not l k) = Z.lor (be_get l) (Z.lxor (be_get k) (256 ^ Z.of_nat (length l) - 1)).
Proof.
  revert k. induction l as [|b l IH] using rev_ind; intros k Hk; [by destruct k|].
  destruct k as [|c k _] using rev_ind; [rewrite length_app in Hk; simpl in Hk; lia|].
  rewrite !length_app in Hk. simpl in Hk. rewrite zip_with_app by lia. cbn [zip_with].
  rewrite !be_get_snoc, b2z_lor_not, IH by lia. rewrite length_app. cbn [length].
  replace (256 ^ Z.of_nat (length l + 1) - 1) with ((256 ^ Z.of_nat (length l) - 1) * 256 + 255)
    by (rewrite Nat.add_1_r, Nat2Z.inj_succ, Z.pow_succ_r; lia).
  pose proof (b2z_bound b). pose proof (b2z_bound c).
  rewrite lxor_snoc, lor_snoc; [done|lia|by apply lxor_small|lia|lia].
Qed.

(** The last address of the block. *)
Definition last_of_block (v n : Z) : Z := (block n v + 1) * 2 ^ (32 - n) - 1.

Lemma broadcast_spec v n ip : 0 <= n <= 32 -> 0 <= v < 2 ^ 32 -> length ip = 4%nat ->
  isIPv4Broadcast (prefix4 v n) ip = true <-> be_get ip = last_of_block v n.
Proof.
  intros Hn Hv Hip. destruct (length_prefix4 v n) as [L1 L2].
  assert (E : isIPv4Broadcast (prefix4 v n) ip = true <-> ip = zip_with lor_not (net_IP (prefix4 v n)) (net_Mask (prefix4 v n))).
  { unfold isIPv4Broadcast. rewrite !To4_4 by done. revert L1 L2. generalize (net_IP (prefix4 v n)) (net_Mask (prefix4 v n)).
    intros bs ms L1 L2. do 5 (destruct ip; try done). do 5 (destruct bs; try done). do 5 (destruct ms; try done).
    cbn -[Z.lor Z.lxor]. rewrite !andb_true_iff, !bool_decide_eq_true. split.
    - intros (H1 & H2 & H3 & H4 & _). repeat f_equal; apply b2z_inj; by rewrite b2z_lor_not.
    - intros [= -> -> -> ->]. rewrite !b2z_lor_not. by split_and!. }
  rewrite E. assert (Ev : be_get (zip_with lor_not (net_IP (prefix4 v n)) (net_Mask (prefix4 v n))) = last_of_block v n).
  { rewrite be_get_lor_not by congruence. rewrite prefix4_IP by done. rewrite L1. cbn [prefix4 net_Mask]. rewrite be_get_mask by done.
    change (256 ^ Z.of_nat 4) with (2 ^ 32). rewrite mask_complement by lia.
    rewrite <- Z.add_nocarry_lor by (apply (land_disjoint_low (block n v) (32 - n)); lia). rewrite Z.ones_equiv. unfold last_of_block. lia. }
  split; [by intros ->|]. intros Hb. apply be_get_inj; [|by rewrite Hb].
  rewrite length_zip_with, L1, L2, Hip. done.
Qed.

(* ------------------------------------------------------------------ *)
(** ** Addresses as text *)

Definition all_bytes : list byte := map (fun i => z2b i) (seqZ 0 256).
Definition octet_text (b : byte) : list byte := bytes_of (FormatInt (b2z b)).

(** What the text of an octet is, checked for each of the 256. *)
Lemma octet_text_spec b :
  parse_octet (octet_text b) = Some b /\ octet_text b <> [] /\ Forall (fun c => is_digit c = true) (octet_text b).
Proof.
  assert (H : forallb (fun b => bool_decide (parse_octet (octet_text b) = Some b) && bool_decide (octet_text b <> []) &&
                        forallb is_digit (octet_text b)) all_bytes = true) by (vm_compute; reflexivity).
  rewrite forallb_forall in H. specialize (H b). rewrite !andb_true_iff, !bool_decide_eq_true, forallb_forall in H.
  destruct H as [[H1 H2] H3].
  - apply list_elem_of_In. unfold all_bytes. apply list_elem_of_fmap. exists (b2z b). split; [by rewrite z2b_b2z|].
    apply elem_of_seqZ. pose proof (b2z_bound b). lia.
  - split_and!; [done|done|]. apply Forall_forall. intros c Hc. apply H3. by apply list_elem_of_In.
Qed.

Lemma digit_not c d : is_digit c = true -> is_digit d = false -> c <> d.
Proof. by intros H1 H2 ->; rewrite H1 in H2. Qed.

Lemma octet_text_no b c : is_digit c = false -> c ∉ octet_text b.
Proof.
  intros Hc Hin. destruct (octet_text_spec b) as (_ & _ & H). rewrite Forall_forall in H. specialize (H c Hin). congruence.
Qed.

Lemma IPv4_text a b c d :
  bytes_of (IPv4_String [a; b; c; d]) = octet_text a ++ x2e :: octet_text b ++ x2e :: octet_text c ++ x2e :: octet_text d.
Proof. unfold IPv4_String, Join. cbn [map String.concat]. by rewrite !bytes_of_app. Qed.

Lemma parse_ipv4_String ip : length ip = 4%nat -> parse_ipv4 (bytes_of (IPv4_String ip)) = Some ip.
Proof.
  intros H. do 5 (destruct ip; try done). rewrite IPv4_text. unfold parse_ipv4.
  rewrite !split_bytes_app by by apply octet_text_no. rewrite split_bytes_none by by apply octet_text_no. cbn [map].
  by rewrite !(proj1 (octet_text_spec _)).
Qed.

Lemma find_digits (P : byte -> bool) l rest : (forall c, is_digit c = true -> P c = false) ->
  Forall (fun c => is_digit c = true) l -> List.find P (l ++ rest) = List.find P rest.
Proof. intros HP. induction 1 as [|c l Hc Hl IH]; [done|]. simpl. by rewrite HP. Qed.

Lemma ParseIP_String ip : length ip = 4%nat -> ParseIP (IPv4_String ip) = Some (v4_in_v6_prefix ++ ip).
Proof.
  intros H. unfold ParseIP. rewrite parse_ipv4_String by done. do 5 (destruct ip; try done). rewrite IPv4_text.
  rewrite find_digits; [|intros c Hc; apply bool_decide_eq_false; intros [->|[->| ->]]; discriminate Hc|apply octet_text_spec].
  cbn [List.find]. rewrite bool_decide_eq_true_2 by by left. by rewrite decide_True.
Qed.

(** Text between two digits has no space to trim. *)
Lemma TrimSpace_IPv4 ip : length ip = 4%nat -> TrimSpace (IPv4_String ip) = IPv4_String ip.
Proof.
  intros H. do 5 (destruct ip; try done). rewrite <- (string_of_bytes_of (IPv4_String _)), IPv4_text.
  destruct (octet_text_spec b) as (_ & Hne & Hd). destruct (octet_text_spec b2) as (_ & Hne2 & Hd2).
  destruct (octet_text b) as [|x l]; [done|]. apply Forall_cons in Hd as [Hx _].
  destruct (octet_text b2) as [|y l2 _] using rev_ind; [done|]. apply Forall_app in Hd2 as [_ [Hy _]%Forall_cons].
  eapply (trim_between_plain x _ _ y); [by apply digit_plain|by apply digit_plain|reflexivity|].
  rewrite !app_comm_cons, !(assoc_L app). reflexivity.
Qed.

(* ------------------------------------------------------------------ *)
(** ** The search *)

(** The [j]-th address of the block of [v], 0 the network and the last the broadcast
    address. *)
Definition nth_address (v n j : Z) : list byte := be_put 4 (block n v * 2 ^ (32 - n) + j).

Lemma block_base v n : 0 <= n <= 32 -> 0 <= v < 2 ^ 32 ->
  0 <= block n v * 2 ^ (32 - n) /\ block n v * 2 ^ (32 - n) + 2 ^ (32 - n) <= 2 ^ 32 /\ 0 < 2 ^ (32 - n).
Proof.
  intros Hn Hv. destruct (block_bound n v Hn Hv) as [H1 H2]. assert (0 < 2 ^ (32 - n)) by lia.
  rewrite Z.mul_add_distr_r in H2. split_and!; [by apply Z.mul_nonneg_nonneg; lia|lia|done].
Qed.

Lemma nth_address_spec v n j : 0 <= n <= 32 -> 0 <= v < 2 ^ 32 -> 0 <= j < 2 ^ (32 - n) ->
  length (nth_address v n j) = 4%nat /\ be_get (nth_address v n j) = block n v * 2 ^ (32 - n) + j /\
  net_Contains (prefix4 v n) (nth_address v n j) = true.
Proof.
  intros Hn Hv Hj. destruct (block_base v n Hn Hv) as (H1 & H2 & H3). unfold nth_address. rewrite length_be_put.
  assert (E : be_get (be_put 4 (block n v * 2 ^ (32 - n) + j)) = block n v * 2 ^ (32 - n) + j).
  { apply be_get_put_small. change (256 ^ Z.of_nat 4) with (2 ^ 32). lia. }
  split_and!; [done|done|]. apply Contains_prefix4; [done|done|by rewrite length_be_put|].
  rewrite E. unfold block at 1. rewrite Z.div_add_l by lia. rewrite Z.div_small by lia. lia.
Qed.

(** From the [k]-th address on, the walk stops at the first that is free, or at the end
    of the block; a block of the whole address space has no end. *)
Lemma alloc_search_spec v n used fuel : 1 <= n <= 32 -> 0 <= v < 2 ^ 32 -> forall k,
  1 <= k <= 2 ^ (32 - n) -> 2 ^ (32 - n) - k < Z.of_nat fuel -> forall ip, length ip = 4%nat ->
  be_get ip = (block n v * 2 ^ (32 - n) + k) mod 2 ^ 32 ->
  (alloc_search fuel (prefix4 v n) used ip = Some None /\
     forall j, k <= j < 2 ^ (32 - n) - 1 -> IPv4_String (nth_address v n j) ∈ used) \/
  (exists j, k <= j < 2 ^ (32 - n) - 1 /\ alloc_search fuel (prefix4 v n) used ip = Some (Some (nth_address v n j)) /\
     IPv4_String (nth_address v n j) ∉ used /\ forall i, k <= i < j -> IPv4_String (nth_address v n i) ∈ used).
Proof.
  intros Hn Hv. destruct (block_base v n ltac:(lia) Hv) as (B1 & B2 & B3).
  induction fuel as [|fuel IH]; intros k Hk Hf ip Hip Hval; [lia|]. cbn [alloc_search].
  destruct (decide (k = 2 ^ (32 - n))) as [->|Hne].
  - left. assert (Hc : net_Contains (prefix4 v n) ip = false).
    { apply not_true_iff_false. rewrite Contains_prefix4 by (lia || done). rewrite Hval. unfold block at 1 3. intros Hb.
      assert (P : 2 ^ 32 = 2 ^ n * 2 ^ (32 - n)) by (rewrite <- Z.pow_add_r by lia; f_equal; lia).
      destruct (decide (block n v * 2 ^ (32 - n) + 2 ^ (32 - n) = 2 ^ 32)) as [E|E].
      - rewrite E, Z.mod_same, Z.div_0_l in Hb by lia. fold (block n v) in Hb. rewrite <- Hb in E.
        assert (2 ^ (32 - n) < 2 ^ 32) by (apply Z.pow_lt_mono_r; lia). lia.
      - rewrite Z.mod_small in Hb by lia. fold (block n v) in Hb.
        rewrite Z.div_add_l, Z.div_same in Hb by lia. lia. }
    rewrite Hc. split; [done|]. intros; lia.
  - rewrite Z.mod_small in Hval by lia. destruct (nth_address_spec v n k ltac:(lia) Hv ltac:(lia)) as (L & E & C).
    assert (ip = nth_address v n k) as -> by (apply be_get_inj; congruence). rewrite C. cbn [negb].
    destruct (isIPv4Broadcast (prefix4 v n) (nth_address v n k)) eqn:Hb; cbn [orb].
    + apply broadcast_spec in Hb; [|lia|done|done]. unfold last_of_block in Hb. rewrite E in Hb.
      destruct (nextIPv4_spec (nth_address v n k) L) as [L' E'].
      destruct (IH (k + 1) ltac:(lia) ltac:(lia) _ L' ltac:(rewrite E', E; f_equal; lia)) as [[-> _]|(j & Hj & _)]; [|lia].
      left. split; [done|]. intros; lia.
    + assert (Hlast : k <> 2 ^ (32 - n) - 1).
      { intros Ek. apply not_true_iff_false in Hb. apply Hb, broadcast_spec; [lia|done|done|]. rewrite E. unfold last_of_block. lia. }
      case_bool_decide as Hu; [|right; exists k; split_and!; [lia|lia|done|done|intros; lia]].
      destruct (nextIPv4_spec (nth_address v n k) L) as [L' E'].
      destruct (IH (k + 1) ltac:(lia) ltac:(lia) _ L' ltac:(rewrite E', E; f_equal; lia)) as [[-> Hall]|(j & Hj & -> & Hfree & Hall)].
      * left. split; [done|]. intros j Hj. destruct (decide (j = k)) as [->|]; [done|]. apply Hall. lia.
      * right. exists j. split_and!; [lia|lia|done|done|]. intros i Hi. destruct (decide (i = k)) as [->|]; [done|]. apply Hall. lia.
Qed.

(** C15. Allocation ends and is right: for an IPv4 network of prefix length 1 to 32,
    as many rounds as the network has addresses are enough, and then the device gets the
    lowest address that is neither the network's, nor the broadcast address, nor taken,
    under its name or, when that is empty or taken, its id, exactly as the database
    stored it; the network is reported full only when every such address is taken; and
    the address passes the validation of an address set by an administrator. *)
Theorem allocateVirtualAddress_correct {S} (db : virtualAddressStore S) (fuel : nat) (network : VirtualNetwork)
  (deviceID hostname : string) (s : S) (v n : Z) (addresses : list VirtualAddress) :
  1 <= n <= 32 -> 0 <= v < 2 ^ 32 -> ParseCIDR (vn_CIDR network) = Some (prefix4 v n) ->
  vas_List db (vn_ID network) s = Ok addresses -> 2 ^ (32 - n) <= Z.of_nat fuel ->
  let used := map (fun a => TrimSpace (va_VirtualIP a)) addresses in
  let free j := 1 <= j < 2 ^ (32 - n) - 1 /\ IPv4_String (nth_address v n j) ∉ used in
  (allocateVirtualAddress db fuel network deviceID hostname s
     = Some (Err (badRequest "lan_network_full" "no available virtual ip"), s) /\ forall j, ~ free j) \/
  (exists j name, free j /\ (forall i, free i -> j <= i) /\
     (name = hostname /\ TrimSpace hostname <> EmptyString /\
        Forall (fun a => TrimSpace (va_Hostname a) <> TrimSpace hostname) addresses \/ name = deviceID) /\
     allocateVirtualAddress db fuel network deviceID hostname s
       = Some (alloc_store db network deviceID (nth_address v n j) name s) /\
     forall networks, virtualNetworkByID networks (vn_ID network) = Ok network ->
       validateVirtualAddressCIDR networks (alloc_address network deviceID (nth_address v n j) name) = Ok tt).
Proof.
  intros Hn Hv Hcidr Hlist Hfuel used free. destruct (block_base v n ltac:(lia) Hv) as (B1 & B2 & B3).
  unfold allocateVirtualAddress. rewrite Hcidr. destruct (length_prefix4 v n) as [L1 L2]. rewrite To4_4, Hlist by done.
  destruct (nextIPv4_spec _ L1) as [L3 E3]. rewrite prefix4_IP in E3 by (lia || done). fold used.
  destruct (alloc_search_spec v n used fuel Hn Hv 1 ltac:(lia) ltac:(lia) _ L3 E3) as [[-> Hall]|(j & Hj & -> & Hfree & Hall)].
  - left. split; [done|]. intros j [Hj Hf]. apply Hf, Hall. lia.
  - right. exists j, (alloc_hostname (filter (fun h => h <> EmptyString) (map (fun a => TrimSpace (va_Hostname a)) addresses)) deviceID hostname).
    split; [by split|]. split; [|split; [|split; [done|]]].
    + intros i [Hi Hf]. destruct (decide (i < j)); [|lia]. destruct Hf. apply Hall. lia.
    + unfold alloc_hostname. case_decide as Hd; [by right|left]. apply Decidable.not_or in Hd as [Hd1 Hd2].
      split_and!; [done|done|]. apply Forall_forall. intros a Ha E. apply Hd2, list_elem_of_filter. split; [done|].
      apply list_elem_of_fmap. by exists a.
    + intros networks Hid. unfold validateVirtualAddressCIDR, alloc_address. cbn [va_NetworkID va_VirtualIP].
      rewrite Hid. cbn [mbind result_bind]. rewrite Hcidr.
      destruct (nth_address_spec v n j ltac:(lia) Hv ltac:(lia)) as (L & E & C).
      rewrite TrimSpace_IPv4, ParseIP_String by done.
      assert (T : To4 (Some (v4_in_v6_prefix ++ nth_address v n j)) = Some (nth_address v n j)).
      { unfold To4. cbn [mbind option_bind]. rewrite decide_False by (rewrite length_app, L; done).
        rewrite decide_True; [done|]. rewrite length_app, L. done. }
      rewrite T, C. cbn [negb]. rewrite To4_4 by done. rewrite bool_decide_eq_false_2.
      2: { intros Eb%Some_inj. pose proof (f_equal be_get Eb) as Eg. rewrite E, prefix4_IP in Eg by (lia || done). lia. }
      cbn [orb]. destruct (isIPv4Broadcast _ _) eqn:Hb; [|done]. apply broadcast_spec in Hb; [|lia|done|done].
      unfold last_of_block in Hb. lia.
Qed.

(* ------------------------------------------------------------------ *)
(** ** Witness *)

(** A database of addresses that refuses a taken host name. *)
Definition toy_db : virtualAddressStore (list VirtualAddress) :=
  mkVirtualAddressStore (fun nid s => Ok (filter (fun a => va_NetworkID a = nid) s))
    (fun a s => if decide (va_Hostname a ∈ map va_Hostname s) then (Some (DBError "duplicate"), s) else (None, s ++ [a])).
Definition toy_network : VirtualNetwork :=
  mkVirtualNetwork 1 "lan" "10.1.0.0/29" 1280 1200 "auto" "auto" true EmptyString EmptyString.
Definition toy_taken : list VirtualAddress := [mkVirtualAddress "dev-b" 1 " 10.1.0.1" "pc" false EmptyString EmptyString].

Lemma allocateVirtualAddress_correct_witness :
  exists j name,
    allocateVirtualAddress toy_db 8 toy_network "dev-a" "pc" toy_taken
      = Some (alloc_store toy_db toy_network "dev-a" (nth_address (10 * 2 ^ 24 + 2 ^ 16) 29 j) name toy_taken) /\
    validateVirtualAddressCIDR [toy_network] (alloc_address toy_network "dev-a" (nth_address (10 * 2 ^ 24 + 2 ^ 16) 29 j) name) = Ok tt.
Proof.
  destruct (allocateVirtualAddress_correct toy_db 8 toy_network "dev-a" "pc" toy_taken (10 * 2 ^ 24 + 2 ^ 16) 29 toy_taken)
    as [[H _]|(j & name & _ & _ & _ & H & Hval)];
    [lia|lia|vm_compute; reflexivity|reflexivity|vm_compute; discriminate|vm_compute in H; discriminate H|].
  exists j, name. exact (conj H (Hval [toy_network] eq_refl)).
Defined.
