(* ===== verification/AdminAuth.v ===== *)
(** * AdminAuth: administrators' sessions (internal/server/auth_jwt.go, auth.go)

    Login, refresh, logout, the change of the password and the checks of
    [requireAdmin] and [requireAgent]. An access token is a signed set of claims, a
    refresh token a row of the database under its hash. The database is the class
    [AdminStore], the part of the Go interface [controlstore.Store] these handlers
    use; [AdminStoreLaws] says what its calls do to the two tables. SHA-256, HMAC,
    bcrypt and encoding/json are the class [AuthPrimitives]. A request is served at
    one instant, [rq_now]. *)

From S2P Require Import Prelude GoStrings Base64 Store ServerUtil.

(* ------------------------------------------------------------------ *)
(** ** Interfaces *)

Record adminClaims : Type := mkClaims {
  Subject : string; ClaimRole : string; ClaimPasswordVersion : Z; Issued : Z; Expires : Z }.

#[export] Instance adminClaims_eq_dec : EqDecision adminClaims.
Proof. solve_decision. Defined.

Class AuthPrimitives := {
  hmac_sha256 : list byte -> list byte -> list byte;           (* data, key *)
  sha256 : list byte -> list byte;
  bcrypt_compare : string -> string -> bool;                   (* hash, password *)
  bcrypt_generate : list byte -> string -> option string;      (* randomness, password *)
  marshal_claims : adminClaims -> list byte;
  unmarshal_claims : list byte -> option adminClaims;
}.

Class AuthLaws `{AuthPrimitives} : Prop := {
  unmarshal_marshal c : unmarshal_claims (marshal_claims c) = Some c;
}.

(** The operations of [controlstore.Store] on the tables of administrators and refresh
    tokens; a write answers [None] for a nil error. *)
Class AdminStore (DB : Type) := {
  GetMeta : string -> DB -> result api_error string;
  GetAdminUserByUsername : string -> DB -> result api_error AdminUser;
  GetAdminUserByID : string -> DB -> result api_error AdminUser;
  UpsertAdminUser : AdminUser -> DB -> option api_error * DB;
  UpdateAdminPassword : string -> string -> DB -> option api_error * DB;
  ClearAdminPasswordChangeRequired : string -> DB -> option api_error * DB;
  CreateAdminRefreshToken : string -> string -> Time -> string -> string -> DB -> option api_error * DB;
  GetAdminRefreshToken : string -> DB -> result api_error AdminRefreshToken;
  TouchAdminRefreshToken : Z -> DB -> option api_error * DB;
  RevokeAdminRefreshToken : string -> DB -> option api_error * DB;
  RevokeAdminRefreshTokensByUser : string -> DB -> option api_error * DB;
}.

(** The two tables a database holds, users by id and tokens by hash, and the effect of
    each call on them. A call that fails changes nothing. *)
Class AdminStoreLaws (DB : Type) `{!AdminStore DB} := {
  admins : DB -> gmap string AdminUser;
  tokens : DB -> gmap string AdminRefreshToken;
  get_by_id id s u : GetAdminUserByID id s = Ok u -> admins s !! id = Some u /\ au_ID u = id;
  get_by_name name s u : GetAdminUserByUsername name s = Ok u -> admins s !! au_ID u = Some u /\ au_Username u = name;
  get_token h s t : GetAdminRefreshToken h s = Ok t -> tokens s !! h = Some t;
  write_failed (op : DB -> option api_error * DB) :
    (exists i h, op = UpdateAdminPassword i h) \/ (exists i, op = ClearAdminPasswordChangeRequired i) \/
    (exists i h t a p, op = CreateAdminRefreshToken i h t a p) \/ (exists i, op = TouchAdminRefreshToken i) \/
    (exists h, op = RevokeAdminRefreshToken h) \/ (exists i, op = RevokeAdminRefreshTokensByUser i) ->
    forall s e s', op s = (Some e, s') -> admins s' = admins s /\ tokens s' = tokens s;
  update_password i h s s' : UpdateAdminPassword i h s = (None, s') ->
    tokens s' = tokens s /\ exists u u', admins s !! i = Some u /\ admins s' = <[i := u']> (admins s) /\
    au_ID u' = au_ID u /\ au_PasswordHash u' = h /\ au_PasswordVersion u' = au_PasswordVersion u + 1;
  clear_required i s s' : ClearAdminPasswordChangeRequired i s = (None, s') ->
    tokens s' = tokens s /\ exists u u', admins s !! i = Some u /\ admins s' = <[i := u']> (admins s) /\
    au_ID u' = au_ID u /\ au_PasswordHash u' = au_PasswordHash u /\ au_PasswordVersion u' = au_PasswordVersion u;
  create_token i h t a p s s' : CreateAdminRefreshToken i h t a p s = (None, s') ->
    admins s' = admins s /\ tokens s !! h = None /\
    exists row, tokens s' = <[h := row]> (tokens s) /\ art_UserID row = i /\ art_RevokedAt row = EmptyString;
  touch_token i s s' : TouchAdminRefreshToken i s = (None, s') ->
    admins s' = admins s /\ exists f, tokens s' = f <$> tokens s /\
    forall t, art_UserID (f t) = art_UserID t /\ art_RevokedAt (f t) = art_RevokedAt t;
  revoke_token h s s' : RevokeAdminRefreshToken h s = (None, s') ->
    admins s' = admins s /\ exists f, tokens s' = alter f h (tokens s) /\
    forall t, art_UserID (f t) = art_UserID t /\ art_RevokedAt (f t) <> EmptyString;
  revoke_user i s s' : RevokeAdminRefreshTokensByUser i s = (None, s') ->
    admins s' = admins s /\ exists f, tokens s' = f <$> tokens s /\
    forall t, art_UserID (f t) = art_UserID t /\ (art_RevokedAt t <> EmptyString -> art_RevokedAt (f t) <> EmptyString) /\
              (art_UserID t = i -> art_RevokedAt (f t) <> EmptyString);
}.

(** The fields of [config.Server] the handlers read. *)
Record AuthConfig : Type := mkAuthConfig {
  cfg_PSK : string; cfg_AdminJWTSecret : string; cfg_AdminAccessTokenTTL : Duration; cfg_AdminRefreshTokenTTL : Duration }.

(** What a request brings besides its body: the clock, the bytes of the random source
    ([None] when it fails), and the header fields. *)
Record request : Type := mkRequest {
  rq_Method : string; rq_now : Time; rq_random : option (list byte); rq_salt : list byte;
  rq_UserAgent : string; rq_ForwardedFor : string; rq_RemoteAddr : string }.

Record adminUserView : Type := mkAdminUserView {
  view_id : string; view_username : string; view_name : string; view_role : string; view_force : bool }.

Record tokenResponse : Type := mkTokenResponse {
  AccessToken : string; AccessExpiresAt : string; RefreshToken : string; RefreshExpiresAt : string;
  tr_ForcePasswordChange : bool; tr_PasswordVersion : Z; tr_User : adminUserView }.

Definition defaultAdminUsername : string := "admin".
Definition defaultAdminPassword : string := "admin".

Definition adminUser (user : AdminUser) : adminUserView :=
  let name := if decide (au_Name user = EmptyString) then au_Username user else au_Name user in
  mkAdminUserView (au_ID user) (au_Username user) name (au_Role user) (au_ForcePasswordChange user).

(** [time.Time.Unix]; the model's clock starts on January 1, year 1. *)
Definition Unix (t : Time) : Z := t / second - 62135596800.

(** [hex.EncodeToString]. *)
Definition hex_digit (z : Z) : byte := if z <? 10 then z2b (48 + z) else z2b (87 + z).
Definition hex_encode (l : list byte) : string := string_of (concat (map (fun b => [hex_digit (b2z b / 16); hex_digit (b2z b mod 16)]) l)).

Section Auth.
  Context `{AP : AuthPrimitives} `{GU : GoUnicode} `{GT : GoTime}.
  Context {DB : Type} `{ST : !AdminStore DB}.
  Variable cfg : AuthConfig.

(* ------------------------------------------------------------------ *)
(** ** Tokens *)

Definition adminJWTSecret : list byte :=
  let secret := TrimSpace (cfg_AdminJWTSecret cfg) in
  if decide (secret <> EmptyString) then bytes_of secret
  else if decide (cfg_PSK cfg <> EmptyString) then hmac_sha256 (bytes_of "admin-jwt") (bytes_of (cfg_PSK cfg))
  else bytes_of "udp-tunnel-dev-admin-jwt-secret".

(** [json.Marshal] of the header map, whose keys it sorts. *)
Definition DQ : string := String (Ascii.ascii_of_nat 34) EmptyString.
Definition jwt_header : string :=
  ("{" ++ DQ ++ "alg" ++ DQ ++ ":" ++ DQ ++ "HS256" ++ DQ ++ "," ++ DQ ++ "typ" ++ DQ ++ ":" ++ DQ ++ "JWT" ++ DQ ++ "}")%string.

Definition jwtPart (b : list byte) : string := RawURLEncode b.

Definition signAccessToken (claims : adminClaims) : string :=
  let unsigned := (jwtPart (bytes_of jwt_header) ++ "." ++ jwtPart (marshal_claims claims))%string in
  (unsigned ++ "." ++ jwtPart (hmac_sha256 (bytes_of unsigned) adminJWTSecret))%string.

Definition verifyAccessToken (now : Time) (token : string) : result string adminClaims :=
  match Split token x2e with
  | [p0; p1; p2] =>
    let unsigned := (p0 ++ "." ++ p1)%string in
    let want := jwtPart (hmac_sha256 (bytes_of unsigned) adminJWTSecret) in
    if decide (p2 <> want) then Err "bad signature"%string
    else match RawURLDecode p1 with
    | None => Err "illegal base64 data"%string
    | Some payload =>
      match unmarshal_claims payload with
      | None => Err "invalid json"%string
      | Some claims => if decide (Expires claims <= Unix now) then Err "expired"%string else Ok claims
      end
    end
  | _ => Err "bad token"%string
  end.

Definition bearerToken (Authorization : string) : string :=
  let v := TrimSpace Authorization in
  if decide (v = EmptyString) then EmptyString
  else if decide (String.length v < 7)%nat then EmptyString
  else if negb (EqualFold (string_of (take 7 (bytes_of v))) "Bearer ") then EmptyString
  else TrimSpace (string_of (drop 7 (bytes_of v))).

Definition hashRefreshToken (token : string) : string := hex_encode (sha256 (bytes_of token)).

(** [randomToken(32)] on the bytes read. *)
Definition randomToken (rq : request) : result api_error string :=
  match rq_random rq with Some b => Ok (RawURLEncode b) | None => Err (DBError "random source") end.

Definition unauthorized_ : api_error := unauthorized "unauthorized" "unauthorized".

(* ------------------------------------------------------------------ *)
(** ** Guards *)

(** [requireAgent]: the error, or the request goes on. *)
Definition requireAgent (psk_header : string) : result api_error unit :=
  if decide (cfg_PSK cfg <> EmptyString /\ psk_header <> cfg_PSK cfg) then Err unauthorized_ else Ok tt.

(** [requireAdmin]: the claims it hands to the handler. *)
Definition requireAdmin (Authorization : string) (now : Time) (s : DB) : result api_error adminClaims :=
  let token := bearerToken Authorization in
  if decide (token = EmptyString) then Err unauthorized_
  else match verifyAccessToken now token with
  | Err _ => Err unauthorized_
  | Ok claims =>
    if decide (Subject claims = EmptyString) then Err unauthorized_
    else match GetAdminUserByID (Subject claims) s with
    | Err _ => Err unauthorized_
    | Ok user =>
      if decide (au_PasswordVersion user <> ClaimPasswordVersion claims) then Err unauthorized_ else Ok claims
    end
  end.

(* ------------------------------------------------------------------ *)
(** ** Handlers *)

Definition issueAdminTokenPair (rq : request) (user : AdminUser) (s : DB) : result api_error tokenResponse * DB :=
  let accessTTL := if decide (cfg_AdminAccessTokenTTL cfg <= 0) then hour else cfg_AdminAccessTokenTTL cfg in
  let refreshTTL := if decide (cfg_AdminRefreshTokenTTL cfg <= 0) then 30 * 24 * hour else cfg_AdminRefreshTokenTTL cfg in
  let accessExp := time_add (rq_now rq) accessTTL in
  let refreshExp := time_add (rq_now rq) refreshTTL in
  let access := signAccessToken (mkClaims (au_ID user) (au_Role user) (au_PasswordVersion user) (Unix (rq_now rq)) (Unix accessExp)) in
  match randomToken rq with
  | Err e => (Err e, s)
  | Ok refresh =>
    match CreateAdminRefreshToken (au_ID user) (hashRefreshToken refresh) refreshExp (rq_UserAgent rq)
            (requestIP (rq_ForwardedFor rq) (rq_RemoteAddr rq)) s with
    | (Some err, s) => (Err err, s)
    | (None, s) =>
      (Ok (mkTokenResponse access (RFC3339 accessExp) refresh (RFC3339 refreshExp)
             (au_ForcePasswordChange user) (au_PasswordVersion user) (adminUser user)), s)
    end
  end.

(** A body is [None] when it is not JSON. *)
Definition handleAdminLogin (rq : request) (body : option (string * string)) (s : DB) : result api_error tokenResponse * DB :=
  if decide (rq_Method rq <> "POST"%string) then (Err methodNotAllowed, s)
  else match body with
  | None => (Err (badRequest "bad_json" "bad json"), s)
  | Some (Username, Password) =>
    let username := TrimSpace Username in
    let username := if decide (username = EmptyString) then defaultAdminUsername else username in
    match GetAdminUserByUsername username s with
    | Err _ => (Err unauthorized_, s)
    | Ok user =>
      if negb (bcrypt_compare (au_PasswordHash user) Password) then (Err unauthorized_, s)
      else issueAdminTokenPair rq user s
    end
  end.

(** [handleAdminRefresh] up to its last refusal: the row of the token. *)
Definition refresh_check (rq : request) (hash : string) (s : DB) : result api_error AdminRefreshToken * DB :=
  match GetAdminRefreshToken hash s with
  | Err _ => (Err unauthorized_, s)
  | Ok stored =>
    if decide (art_RevokedAt stored <> EmptyString) then (Err unauthorized_, s)
    else
      let refuse := (Err unauthorized_, snd (RevokeAdminRefreshToken hash s)) in
      match ParseRFC3339 (art_ExpiresAt stored) with
      | None => refuse
      | Some exp => if decide (exp < rq_now rq) then refuse else (Ok stored, s)
      end
  end.

(** The rest: the old token is revoked and a new pair issued. *)
Definition refresh_grant (rq : request) (hash : string) (stored : AdminRefreshToken) (s : DB) : result api_error tokenResponse * DB :=
  let s := snd (TouchAdminRefreshToken (art_ID stored) s) in
  let s := snd (RevokeAdminRefreshToken hash s) in
  match GetAdminUserByID (art_UserID stored) s with
  | Err _ => (Err unauthorized_, s)
  | Ok user => issueAdminTokenPair rq user s
  end.

Definition handleAdminRefresh (rq : request) (body : option string) (s : DB) : result api_error tokenResponse * DB :=
  if decide (rq_Method rq <> "POST"%string) then (Err methodNotAllowed, s)
  else match body with
  | None => (Err (badRequest "bad_json" "bad json"), s)
  | Some token =>
    if decide (TrimSpace token = EmptyString) then (Err (badRequest "bad_json" "bad json"), s)
    else match refresh_check rq (hashRefreshToken token) s with
    | (Err e, s) => (Err e, s)
    | (Ok stored, s) => refresh_grant rq (hashRefreshToken token) stored s
    end
  end.

Definition handleAdminLogout (rq : request) (body : option string) (s : DB) : result api_error unit * DB :=
  if decide (rq_Method rq <> "POST"%string) then (Err methodNotAllowed, s)
  else
    let token := default EmptyString body in
    if decide (TrimSpace token <> EmptyString) then (Ok tt, snd (RevokeAdminRefreshToken (hashRefreshToken token) s))
    else (Ok tt, s).

Definition handleAdminMe (claims : adminClaims) (s : DB) : result api_error adminUserView :=
  user ← GetAdminUserByID (Subject claims) s;
  if decide (au_PasswordVersion user <> ClaimPasswordVersion claims) then Err unauthorized_ else Ok (adminUser user).

(** internal/server/handlers_admin.go; the body is the current and the new password. *)
Definition handleChangePassword (rq : request) (claims : adminClaims) (body : option (string * string)) (s : DB)
  : result api_error unit * DB :=
  if decide (rq_Method rq <> "POST"%string) then (Err methodNotAllowed, s)
  else match body with
  | None => (Err (badRequest "bad_json" "bad json"), s)
  | Some (CurrentPassword, NewPassword) =>
    if decide (String.length NewPassword < 8)%nat
    then (Err (badRequest "password_too_short" "new password must be at least 8 chars"), s)
    else match GetAdminUserByID (Subject claims) s with
    | Err e => (Err e, s)
    | Ok user =>
      if decide (ClaimPasswordVersion claims <> 0 /\ au_PasswordVersion user <> ClaimPasswordVersion claims)
      then (Err unauthorized_, s)
      else if negb (bcrypt_compare (au_PasswordHash user) CurrentPassword)
      then (Err (unauthorized "wrong_current_password" "current password is wrong"), s)
      else match bcrypt_generate (rq_salt rq) NewPassword with
      | None => (Err (DBError "bcrypt"), s)
      | Some next =>
        match UpdateAdminPassword (au_ID user) next s with
        | (Some e, s) => (Err e, s)
        | (None, s) =>
          match ClearAdminPasswordChangeRequired (au_ID user) s with
          | (Some e, s) => (Err e, s)
          | (None, s) =>
            match RevokeAdminRefreshTokensByUser (au_ID user) s with
            | (Some e, s) => (Err e, s)
            | (None, s) => (Ok tt, s)
            end
          end
        end
      end
    end
  end.

(** internal/server/auth.go, at start-up. *)
Definition ensureAdminUser (salt : list byte) (s : DB) : option api_error * DB :=
  let admin hash := mkAdminUser defaultAdminUsername defaultAdminUsername "Administrator" "admin" true 1 hash EmptyString EmptyString in
  match GetAdminUserByUsername defaultAdminUsername s with
  | Ok _ => (None, s)
  | Err e =>
    if decide (e <> ErrNoRows) then (Some e, s)
    else
      let legacy := match GetMeta "admin_password_hash" s with Ok v => v | Err _ => EmptyString end in
      if decide (legacy <> EmptyString) then UpsertAdminUser (admin legacy) s
      else match bcrypt_generate salt defaultAdminPassword with
      | None => (Some (DBError "bcrypt"), s)
      | Some hash => UpsertAdminUser (admin hash) s
      end
  end.

(** The requests of administrators against a running server; a refresh is its two
    steps, which other requests may come between. *)
Inductive admin_step : DB -> DB -> Prop :=
  | step_login rq body s : admin_step s (snd (handleAdminLogin rq body s))
  | step_refresh_check rq hash s : admin_step s (snd (refresh_check rq hash s))
  | step_refresh_grant rq hash stored s : admin_step s (snd (refresh_grant rq hash stored s))
  | step_logout rq body s : admin_step s (snd (handleAdminLogout rq body s))
  | step_change rq claims body s : admin_step s (snd (handleChangePassword rq claims body s)).


(* ------------------------------------------------------------------ *)
(** ** Access tokens *)

Lemma dot_bytes a b : bytes_of (a ++ "." ++ b)%string = bytes_of a ++ x2e :: bytes_of b.
Proof. by rewrite !bytes_of_app. Qed.

Lemma Split_token a b c : x2e ∉ bytes_of a -> x2e ∉ bytes_of b -> x2e ∉ bytes_of c ->
  Split ((a ++ "." ++ b) ++ "." ++ c)%string x2e = [a; b; c].
Proof.
  intros Ha Hb Hc. unfold Split. rewrite dot_bytes, dot_bytes, <- app_assoc. cbn [app].
  rewrite split_bytes_app, split_bytes_app, split_bytes_none by done. cbn [map]. by rewrite !string_of_bytes_of.
Qed.

Lemma verify_sign `{AL : !AuthLaws} (claims : adminClaims) (now : Time) :
  verifyAccessToken now (signAccessToken claims) =
    if decide (Expires claims <= Unix now) then Err "expired"%string else Ok claims.
Proof.
  unfold verifyAccessToken, signAccessToken, jwtPart. rewrite Split_token by apply RawURLEncode_no_dot.
  rewrite decide_False by (intros H; by apply H). by rewrite RawURLDecode_Encode, unmarshal_marshal.
Qed.

Lemma bearer_token (token : string) : token <> EmptyString -> Forall (fun b => is_plain b = true) (bytes_of token) ->
  bearerToken ("Bearer " ++ token)%string = token.
Proof.
  intros Hne Hp. unfold bearerToken.
  assert (T : TrimSpace ("Bearer " ++ token)%string = ("Bearer " ++ token)%string).
  { rewrite <- (string_of_bytes_of ("Bearer " ++ token)), bytes_of_app.
    destruct (bytes_of token) as [|b l] eqn:E.
    { destruct Hne. apply bytes_of_inj. by rewrite E. }
    destruct (exists_last (l := b :: l) ltac:(done)) as (k & c & Ek). rewrite Ek in Hp |- *.
    apply Forall_app in Hp as [_ [Hc _]%Forall_cons].
    apply (trim_between_plain x42 (tail (bytes_of "Bearer " ++ k ++ [c])) _ c (bytes_of "Bearer " ++ k));
      [done|done|reflexivity|by rewrite (assoc_L app)]. }
  rewrite T. rewrite decide_False by done.
  rewrite decide_False by (rewrite <- length_bytes_of, bytes_of_app, length_app; cbn; lia).
  rewrite bytes_of_app. change (take 7 (bytes_of "Bearer " ++ bytes_of token)) with (bytes_of "Bearer ").
  change (drop 7 (bytes_of "Bearer " ++ bytes_of token)) with (bytes_of token).
  rewrite string_of_bytes_of. change (EqualFold "Bearer " "Bearer ") with true. cbn [negb].
  rewrite string_of_bytes_of. by apply TrimSpace_plain.
Qed.

Lemma token_plain (claims : adminClaims) :
  signAccessToken claims <> EmptyString /\ Forall (fun b => is_plain b = true) (bytes_of (signAccessToken claims)).
Proof.
  unfold signAccessToken, jwtPart. split.
  - intros E%(f_equal bytes_of). rewrite dot_bytes, dot_bytes in E. cbn in E. by destruct (bytes_of _).
  - rewrite !dot_bytes, !Forall_app, !Forall_cons.
    split_and!; by apply RawURLEncode_plain || reflexivity.
Qed.

(** What a token that [signAccessToken] made is worth. *)
Lemma requireAdmin_sign `{AL : !AuthLaws} (claims : adminClaims) (now : Time) (s : DB) (user : AdminUser) :
  Subject claims <> EmptyString -> GetAdminUserByID (Subject claims) s = Ok user ->
  requireAdmin ("Bearer " ++ signAccessToken claims) now s =
    if decide (Unix now < Expires claims /\ au_PasswordVersion user = ClaimPasswordVersion claims) then Ok claims else Err unauthorized_.
Proof.
  intros Hs Hu. destruct (token_plain claims) as [Hne Hp]. unfold requireAdmin. rewrite bearer_token by done.
  rewrite decide_False by done. rewrite verify_sign.
  destruct (decide (Expires claims <= Unix now)); [by rewrite decide_False by lia|].
  rewrite decide_False by done. rewrite Hu. destruct (decide (au_PasswordVersion user = ClaimPasswordVersion claims)).
  - rewrite decide_False by tauto. rewrite decide_True by lia. done.
  - rewrite decide_True by done. by rewrite decide_False by tauto.
Qed.

(* ------------------------------------------------------------------ *)
(** ** How the tables evolve *)

Section Laws.
  Context `{SL : !AdminStoreLaws DB}.

Definition revoked (s : DB) (hash : string) : Prop :=
  exists t, tokens s !! hash = Some t /\ art_RevokedAt t <> EmptyString.

(** No token row disappears, changes its owner or is given back; no account
    disappears and its password version never goes down. *)
Definition evolves (s s' : DB) : Prop :=
  (forall h t, tokens s !! h = Some t -> exists t', tokens s' !! h = Some t' /\ art_UserID t' = art_UserID t /\
     (art_RevokedAt t <> EmptyString -> art_RevokedAt t' <> EmptyString)) /\
  (forall i u, admins s !! i = Some u -> exists u', admins s' !! i = Some u' /\ au_PasswordVersion u <= au_PasswordVersion u').

#[export] Instance evolves_po : PreOrder evolves.
Proof.
  split.
  - intros s. split; [intros h t H; by exists t|intros i u H; exists u; split; [done|lia]].
  - intros s1 s2 s3 [A1 B1] [A2 B2]. split.
    + intros h t H. destruct (A1 h t H) as (t' & H' & E & R). destruct (A2 h t' H') as (t'' & H'' & E' & R').
      exists t''. split_and!; [done|congruence|auto].
    + intros i u H. destruct (B1 i u H) as (u' & H' & L). destruct (B2 i u' H') as (u'' & H'' & L').
      exists u''. split; [done|lia].
Qed.

Lemma evolves_same s s' : admins s' = admins s -> tokens s' = tokens s -> evolves s s'.
Proof. intros E1 E2. split; rewrite ?E1, ?E2; [intros h t H; by exists t|intros i u H; exists u; split; [done|lia]]. Qed.

Lemma evolves_rows s s' (f : AdminRefreshToken -> AdminRefreshToken) :
  admins s' = admins s -> tokens s' = f <$> tokens s ->
  (forall t, art_UserID (f t) = art_UserID t /\ (art_RevokedAt t <> EmptyString -> art_RevokedAt (f t) <> EmptyString)) ->
  evolves s s'.
Proof.
  intros E1 E2 Hf. split; rewrite ?E1, ?E2; [|intros i u H; exists u; split; [done|lia]].
  intros h t H. exists (f t). rewrite lookup_fmap, H. by destruct (Hf t).
Qed.

Lemma evolves_account s s' i u u' : tokens s' = tokens s -> admins s !! i = Some u -> admins s' = <[i := u']> (admins s) ->
  au_PasswordVersion u <= au_PasswordVersion u' -> evolves s s'.
Proof.
  intros E1 H E2 Hv. split; rewrite ?E1, ?E2; [intros h t Ht; by exists t|]. intros j w Hw. destruct (decide (i = j)) as [<-|].
  - exists u'. rewrite lookup_insert_eq. split; [done|]. assert (w = u) as -> by congruence. done.
  - exists w. rewrite lookup_insert_ne by done. split; [done|lia].
Qed.

(** A failed write is one of those that change nothing. *)
Ltac failed op := intros; eapply evolves_same; eapply (write_failed op); eauto 20.

Lemma evolves_update i h s r s' : UpdateAdminPassword i h s = (r, s') -> evolves s s'.
Proof.
  destruct r; [failed (UpdateAdminPassword i h)|]. intros (E & u & u' & H & E' & _ & _ & V)%update_password.
  eapply evolves_account; [done..|lia].
Qed.

Lemma evolves_clear i s r s' : ClearAdminPasswordChangeRequired i s = (r, s') -> evolves s s'.
Proof.
  destruct r; [failed (ClearAdminPasswordChangeRequired i)|]. intros (E & u & u' & H & E' & _ & _ & V)%clear_required.
  eapply evolves_account; [done..|lia].
Qed.

Lemma evolves_create i h t a p s r s' : CreateAdminRefreshToken i h t a p s = (r, s') -> evolves s s'.
Proof.
  destruct r; [failed (CreateAdminRefreshToken i h t a p)|]. intros (E & Hn & row & E' & _)%create_token.
  split; rewrite ?E, ?E'; [|intros j u H; exists u; split; [done|lia]].
  intros k w Hw. exists w. rewrite lookup_insert_ne by congruence. done.
Qed.

Lemma evolves_touch i s r s' : TouchAdminRefreshToken i s = (r, s') -> evolves s s'.
Proof.
  destruct r; [failed (TouchAdminRefreshToken i)|]. intros (E & f & E' & Hf)%touch_token.
  eapply evolves_rows; [done..|]. intros t. destruct (Hf t) as [? ->]. done.
Qed.

Lemma evolves_revoke h s r s' : RevokeAdminRefreshToken h s = (r, s') -> evolves s s'.
Proof.
  destruct r; [failed (RevokeAdminRefreshToken h)|]. intros (E & f & E' & Hf)%revoke_token.
  split; rewrite ?E, ?E'; [|intros j u H; exists u; split; [done|lia]].
  intros k t Ht. destruct (decide (h = k)) as [<-|].
  - exists (f t). rewrite lookup_alter_eq, Ht. by destruct (Hf t).
  - exists t. rewrite lookup_alter_ne by done. done.
Qed.

Lemma evolves_revoke_user i s r s' : RevokeAdminRefreshTokensByUser i s = (r, s') -> evolves s s'.
Proof.
  destruct r; [failed (RevokeAdminRefreshTokensByUser i)|]. intros (E & f & E' & Hf)%revoke_user.
  eapply evolves_rows; [done..|]. intros t. by destruct (Hf t) as (? & ? & ?).
Qed.

Lemma evolves_issue rq user s : evolves s (snd (issueAdminTokenPair rq user s)).
Proof.
  unfold issueAdminTokenPair. destruct (randomToken rq); [|done].
  destruct (CreateAdminRefreshToken _ _ _ _ _ s) as [[e|] s'] eqn:E; by eapply evolves_create.
Qed.

Lemma evolves_check rq hash s : evolves s (snd (refresh_check rq hash s)).
Proof.
  unfold refresh_check. destruct (GetAdminRefreshToken hash s); [|done]. case_decide; [done|].
  destruct (RevokeAdminRefreshToken hash s) as [r s'] eqn:E. apply evolves_revoke in E.
  destruct (ParseRFC3339 _); [|done]. by case_decide.
Qed.

Lemma evolves_grant rq hash stored s : evolves s (snd (refresh_grant rq hash stored s)).
Proof.
  unfold refresh_grant. destruct (TouchAdminRefreshToken (art_ID stored) s) as [r s1] eqn:E1. cbn [snd].
  destruct (RevokeAdminRefreshToken hash s1) as [r' s2] eqn:E2. cbn [snd].
  etrans; [by eapply evolves_touch|]. etrans; [by eapply evolves_revoke|].
  destruct (GetAdminUserByID _ s2); [apply evolves_issue|done].
Qed.

Lemma evolves_change rq claims body s : evolves s (snd (handleChangePassword rq claims body s)).
Proof.
  unfold handleChangePassword. case_decide; [done|]. destruct body as [[cur new]|]; [|done]. case_decide; [done|].
  destruct (GetAdminUserByID _ s) as [u|]; [|done]. case_decide; [done|]. destruct (negb _); [done|].
  destruct (bcrypt_generate _ _) as [next|]; [|done].
  destruct (UpdateAdminPassword _ _ s) as [[e|] s1] eqn:E1; apply evolves_update in E1; [done|].
  destruct (ClearAdminPasswordChangeRequired _ s1) as [[e|] s2] eqn:E2; apply evolves_clear in E2; [exact (transitivity E1 E2)|].
  destruct (RevokeAdminRefreshTokensByUser _ s2) as [[e|] s3] eqn:E3; apply evolves_revoke_user in E3;
    exact (transitivity E1 (transitivity E2 E3)).
Qed.

Lemma admin_step_evolves s s' : rtc admin_step s s' -> evolves s s'.
Proof.
  induction 1 as [|s s1 s2 H _ IH]; [done|]. etrans; [|exact IH]. clear IH. destruct H.
  - unfold handleAdminLogin. case_decide; [done|]. destruct body as [[u p]|]; [|done].
    destruct (GetAdminUserByUsername _ s); [|done]. destruct (negb _); [done|apply evolves_issue].
  - apply evolves_check.
  - apply evolves_grant.
  - unfold handleAdminLogout. case_decide; [done|]. case_decide; [|done]. cbn [snd].
    destruct (RevokeAdminRefreshToken _ s) eqn:E. by eapply evolves_revoke.
  - apply evolves_change.
Qed.

Lemma revoked_evolves s s' h : evolves s s' -> revoked s h -> revoked s' h.
Proof. intros [A _] (t & Ht & R). destruct (A h t Ht) as (t' & Ht' & _ & R'). exists t'. auto. Qed.

(** A revoked token is refused. *)
Lemma revoked_refused s rq token : revoked s (hashRefreshToken token) ->
  exists e, handleAdminRefresh rq (Some token) s = (Err e, s).
Proof.
  intros (t & Ht & R). unfold handleAdminRefresh. case_decide; [by eexists|]. case_decide; [by eexists|].
  unfold refresh_check. destruct (GetAdminRefreshToken _ s) as [t'|] eqn:E; [|by eexists].
  apply get_token in E. assert (t' = t) as -> by congruence. rewrite decide_True by done. by eexists.
Qed.

Lemma issue_spec rq user s resp s' : issueAdminTokenPair rq user s = (Ok resp, s') ->
  let ttl := if decide (cfg_AdminAccessTokenTTL cfg <= 0) then hour else cfg_AdminAccessTokenTTL cfg in
  AccessToken resp = signAccessToken (mkClaims (au_ID user) (au_Role user) (au_PasswordVersion user) (Unix (rq_now rq))
    (Unix (time_add (rq_now rq) ttl))) /\
  exists b, rq_random rq = Some b /\ RefreshToken resp = RawURLEncode b /\ admins s' = admins s /\
  tokens s !! hashRefreshToken (RawURLEncode b) = None /\
  exists row, tokens s' = <[hashRefreshToken (RawURLEncode b) := row]> (tokens s) /\
    art_UserID row = au_ID user /\ art_RevokedAt row = EmptyString.
Proof.
  unfold issueAdminTokenPair, randomToken. destruct (rq_random rq) as [b|] eqn:Eb; [|done].
  destruct (CreateAdminRefreshToken _ _ _ _ _ s) as [[e|] s1] eqn:E; intros [= <- <-]. split; [done|].
  apply create_token in E as (E1 & E2 & row & E3 & E4 & E5). exists b. split_and!; [done..|]. by exists row.
Qed.

Lemma refresh_ok_revokes rq token s resp s1 :
  (forall h s, fst (RevokeAdminRefreshToken h s) = None) ->
  handleAdminRefresh rq (Some token) s = (Ok resp, s1) -> revoked s1 (hashRefreshToken token).
Proof.
  intros Hrev. unfold handleAdminRefresh. case_decide; [done|]. case_decide; [done|].
  unfold refresh_check. destruct (GetAdminRefreshToken _ s) as [t|] eqn:Et; [|done]. apply get_token in Et.
  case_decide; [done|]. destruct (ParseRFC3339 _); [|done]. case_decide; [done|]. unfold refresh_grant.
  destruct (TouchAdminRefreshToken (art_ID t) s) as [r1 s2] eqn:E1. cbn [snd].
  destruct (RevokeAdminRefreshToken _ s2) as [r2 s3] eqn:E2. cbn [snd].
  assert (R : revoked s3 (hashRefreshToken token)).
  { specialize (Hrev (hashRefreshToken token) s2). rewrite E2 in Hrev. cbn [fst] in Hrev. subst r2.
    apply evolves_touch in E1 as [A _]. destruct (A _ _ Et) as (t' & Ht' & _ & _).
    apply revoke_token in E2 as (_ & f & E2 & Hf). exists (f t'). rewrite E2, lookup_alter_eq, Ht'. by destruct (Hf t'). }
  destruct (GetAdminUserByID _ s3) as [u|]; [|done]. intros Hi. pose proof (evolves_issue rq u s3) as Ev.
  rewrite Hi in Ev. by eapply revoked_evolves.
Qed.

(** The revocation of the row filed under [k]. *)
Definition revocation (s : DB) (k : string) : option string := art_RevokedAt <$> tokens s !! k.

Lemma touch_revocation i s : let s' := snd (TouchAdminRefreshToken i s) in
  admins s' = admins s /\ forall k, revocation s' k = revocation s k.
Proof.
  destruct (TouchAdminRefreshToken i s) as [[e|] s'] eqn:E; unfold revocation; cbn [snd].
  - destruct (write_failed (TouchAdminRefreshToken i) ltac:(eauto 20) _ _ _ E) as [-> ->]. done.
  - apply touch_token in E as (-> & f & -> & Hf). split; [done|]. intros k. rewrite lookup_fmap.
    destruct (tokens s !! k) as [t|]; [|done]. simpl. by destruct (Hf t) as [_ ->].
Qed.

Lemma revoke_revocation h s : let s' := snd (RevokeAdminRefreshToken h s) in
  admins s' = admins s /\ forall k, k <> h -> revocation s' k = revocation s k.
Proof.
  destruct (RevokeAdminRefreshToken h s) as [[e|] s'] eqn:E; unfold revocation; cbn [snd].
  - destruct (write_failed (RevokeAdminRefreshToken h) ltac:(eauto 20) _ _ _ E) as [-> ->]. done.
  - apply revoke_token in E as (-> & f & -> & _). split; [done|]. intros k Hk. by rewrite lookup_alter_ne.
Qed.

(** A grant on a database that answers: the new token is on file, and nothing else
    changes but the row of the old one. *)
Lemma grant_spec rq hash stored user b s :
  (forall i s u, admins s !! i = Some u -> au_ID u = i -> GetAdminUserByID i s = Ok u) ->
  (forall i h t a p s, tokens s !! h = None -> fst (CreateAdminRefreshToken i h t a p s) = None) ->
  admins s !! art_UserID stored = Some user -> au_ID user = art_UserID stored -> rq_random rq = Some b ->
  let hb := hashRefreshToken (RawURLEncode b) in
  revocation s hb = None -> hb <> hash ->
  exists resp s', refresh_grant rq hash stored s = (Ok resp, s') /\ RefreshToken resp = RawURLEncode b /\
    admins s' = admins s /\ revocation s' hb = Some EmptyString /\
    forall k, k <> hash -> k <> hb -> revocation s' k = revocation s k.
Proof.
  intros Hget Hcreate Hu Hid Hb hb Hn Hne. unfold refresh_grant.
  destruct (touch_revocation (art_ID stored) s) as [A1 R1].
  set (s1 := snd (TouchAdminRefreshToken (art_ID stored) s)) in *.
  destruct (revoke_revocation hash s1) as [A2 R2]. set (s2 := snd (RevokeAdminRefreshToken hash s1)) in *.
  rewrite (Hget _ s2 user) by congruence. unfold issueAdminTokenPair, randomToken. rewrite Hb.
  assert (Hf : tokens s2 !! hb = None).
  { apply (fmap_None art_RevokedAt). change (revocation s2 hb = None). by rewrite R2, R1. }
  destruct (CreateAdminRefreshToken (au_ID user) (hashRefreshToken (RawURLEncode b)) _ _ _ s2) as [r s3] eqn:Ec.
  pose proof (f_equal fst Ec) as Ho. rewrite (Hcreate _ _ _ _ _ s2 Hf) in Ho. cbn [fst] in Ho. subst r.
  apply create_token in Ec as (A3 & _ & row & T3 & _ & R3). do 2 eexists. split; [reflexivity|].
  unfold revocation. rewrite T3. split_and!; [done|congruence| |].
  - fold hb. rewrite lookup_insert_eq. simpl. by rewrite R3.
  - intros k Hk1 Hk2. rewrite lookup_insert_ne by done. change (revocation s2 k = revocation s k). by rewrite R2, R1.
Qed.

(* ------------------------------------------------------------------ *)
(** ** Properties *)

(** A login succeeds only with the password of the account, and opens a session: the
    refresh token is filed unrevoked for the account, and until it expires the access
    token passes the check of every administrator request, exactly as long as the
    password has not been changed. *)
Theorem login_grants_access `{AL : !AuthLaws} (rq : request) (body : option (string * string)) (s : DB) (resp : tokenResponse) (s' : DB) :
  handleAdminLogin rq body s = (Ok resp, s') ->
  let ttl := if decide (cfg_AdminAccessTokenTTL cfg <= 0) then hour else cfg_AdminAccessTokenTTL cfg in
  exists user name password, body = Some (name, password) /\
    admins s !! au_ID user = Some user /\
    au_Username user = (if decide (TrimSpace name = EmptyString) then defaultAdminUsername else TrimSpace name) /\
    bcrypt_compare (au_PasswordHash user) password = true /\
    (exists row, tokens s' !! hashRefreshToken (RefreshToken resp) = Some row /\
       art_UserID row = au_ID user /\ art_RevokedAt row = EmptyString) /\
    forall now s2 u2, au_ID user <> EmptyString -> GetAdminUserByID (au_ID user) s2 = Ok u2 ->
      (is_ok (requireAdmin ("Bearer " ++ AccessToken resp) now s2) = true <->
       Unix now < Unix (time_add (rq_now rq) ttl) /\ au_PasswordVersion u2 = au_PasswordVersion user).
Proof.
  unfold handleAdminLogin. case_decide; [done|]. destruct body as [[name pw]|]; [|done].
  destruct (GetAdminUserByUsername _ s) as [user|] eqn:Eu; [|done]. apply get_by_name in Eu as [Eu En].
  destruct (bcrypt_compare _ _) eqn:Eb; [|done]. cbn [negb]. intros Hi.
  destruct (issue_spec _ _ _ _ _ Hi) as (EA & b & _ & ER & _ & _ & row & Et & Eid & Erev).
  exists user, name, pw. split_and!; [done..| |].
  - exists row. rewrite ER, Et, lookup_insert_eq. done.
  - intros now s2 u2 Hne Hu. rewrite EA, (requireAdmin_sign _ now s2 u2) by done. cbn [Expires ClaimPasswordVersion].
    match goal with |- is_ok (if ?d then _ else _) = true <-> _ => destruct d as [Hd|Hd] end; by split.
Qed.

(** C16. A refresh token works once: when the database does not fail to revoke, a token that
    was exchanged for a new pair is refused ever after, whatever other requests do. *)
Theorem refresh_token_single_use (rq rq' : request) (token : string) (s s1 s2 : DB) (resp : tokenResponse) :
  (forall h s, fst (RevokeAdminRefreshToken h s) = None) ->
  handleAdminRefresh rq (Some token) s = (Ok resp, s1) -> rtc admin_step s1 s2 ->
  exists e, handleAdminRefresh rq' (Some token) s2 = (Err e, s2).
Proof.
  intros Hrev H Hs. apply revoked_refused. eapply revoked_evolves; [by apply admin_step_evolves|].
  by eapply refresh_ok_revokes.
Qed.

(** Unless two requests present it at the same time: when both have passed the check of
    [handleAdminRefresh] before either revoked the token, both get a new pair, and both
    pairs are good. *)
Theorem refresh_race_grants_twice (rq1 rq2 : request) (hash : string) (stored : AdminRefreshToken) (user : AdminUser)
  (b1 b2 : list byte) (s : DB) :
  (forall i s u, admins s !! i = Some u -> au_ID u = i -> GetAdminUserByID i s = Ok u) ->
  (forall i h t a p s, tokens s !! h = None -> fst (CreateAdminRefreshToken i h t a p s) = None) ->
  refresh_check rq1 hash s = (Ok stored, s) -> refresh_check rq2 hash s = (Ok stored, s) ->
  admins s !! art_UserID stored = Some user -> au_ID user = art_UserID stored ->
  rq_random rq1 = Some b1 -> rq_random rq2 = Some b2 ->
  let h1 := hashRefreshToken (RawURLEncode b1) in let h2 := hashRefreshToken (RawURLEncode b2) in
  tokens s !! h1 = None -> tokens s !! h2 = None -> h1 <> h2 ->
  let (r1, s1) := refresh_grant rq1 hash stored s in
  let (r2, s2) := refresh_grant rq2 hash stored s1 in
  exists resp1 resp2 row1 row2, r1 = Ok resp1 /\ r2 = Ok resp2 /\
    tokens s2 !! hashRefreshToken (RefreshToken resp1) = Some row1 /\ art_RevokedAt row1 = EmptyString /\
    tokens s2 !! hashRefreshToken (RefreshToken resp2) = Some row2 /\ art_RevokedAt row2 = EmptyString.
Proof.
  intros Hget Hcreate C1 _ Hu Hid E1 E2 h1 h2 F1 F2 H12.
  assert (Ht : tokens s !! hash = Some stored).
  { unfold refresh_check in C1. destruct (GetAdminRefreshToken hash s) as [t|] eqn:E; [|done]. apply get_token in E.
    case_decide; [done|]. destruct (ParseRFC3339 _); [|done]. case_decide; [done|]. congruence. }
  assert (N1 : h1 <> hash) by congruence. assert (N2 : h2 <> hash) by congruence.
  destruct (grant_spec rq1 hash stored user b1 s Hget Hcreate Hu Hid E1) as (resp1 & s1 & -> & T1 & A1 & V1 & K1);
    [unfold revocation; fold h1; by rewrite F1|done|].
  destruct (grant_spec rq2 hash stored user b2 s1 Hget Hcreate) as (resp2 & s2 & -> & T2 & A2 & V2 & K2);
    [congruence|done|done| |done|].
  { fold h2. rewrite K1 by done. unfold revocation. by rewrite F2. }
  fold h1 in V1. fold h2 in V2, K2. rewrite <- (K2 h1) in V1 by done.
  apply fmap_Some in V1 as (row1 & L1 & R1). apply fmap_Some in V2 as (row2 & L2 & R2).
  exists resp1, resp2, row1, row2. rewrite T1, T2. by split_and!.
Qed.

(** C17. After a change of the password the old sessions of the account are over: no access
    token of an earlier password version passes [requireAdmin] again, and no refresh
    token on file is accepted again. *)
Theorem password_change_ends_sessions (rq : request) (claims : adminClaims) (body : option (string * string)) (s s1 s2 : DB) (user : AdminUser) :
  handleChangePassword rq claims body s = (Ok tt, s1) -> rtc admin_step s1 s2 ->
  admins s !! Subject claims = Some user ->
  (forall header now c, Subject c = Subject claims -> ClaimPasswordVersion c <= au_PasswordVersion user ->
     requireAdmin header now s2 <> Ok c) /\
  (forall rq' token row, tokens s !! hashRefreshToken token = Some row -> art_UserID row = Subject claims ->
     exists e, handleAdminRefresh rq' (Some token) s2 = (Err e, s2)).
Proof.
  unfold handleChangePassword. case_decide; [done|]. destruct body as [[cur new]|]; [|done]. case_decide; [done|].
  destruct (GetAdminUserByID _ s) as [u|] eqn:Eu; [|done]. apply get_by_id in Eu as [Eu Eid]. case_decide; [done|].
  destruct (negb _); [done|]. destruct (bcrypt_generate _ _) as [next|]; [|done]. rewrite Eid.
  destruct (UpdateAdminPassword _ _ s) as [[e|] sa] eqn:E1; [done|]. pose proof (evolves_update _ _ _ _ _ E1) as V1.
  destruct (ClearAdminPasswordChangeRequired _ sa) as [[e|] sb] eqn:E2; [done|]. pose proof (evolves_clear _ _ _ _ E2) as V2.
  destruct (RevokeAdminRefreshTokensByUser _ sb) as [[e|] sc] eqn:E3; [done|]. intros [= <-] Hs Hu.
  pose proof (evolves_revoke_user _ _ _ _ E3) as V3. pose proof (admin_step_evolves _ _ Hs) as Vs.
  split.
  - intros header now c Hc Hv Hreq. apply update_password in E1 as (_ & u0 & u1 & Hu0 & E1 & _ & _ & Ev).
    assert (Ha : admins sa !! Subject claims = Some u1) by by rewrite E1, lookup_insert_eq.
    assert (u0 = user) as -> by congruence.
    destruct (transitivity V2 (transitivity V3 Vs)) as [_ B]. destruct (B _ _ Ha) as (u2 & Hu2 & Hle).
    unfold requireAdmin in Hreq. case_decide; [done|]. destruct (verifyAccessToken _ _) as [c'|]; [|done].
    case_decide; [done|]. destruct (GetAdminUserByID _ s2) as [w|] eqn:Ew; [|done]. case_decide as Hw; [done|].
    injection Hreq as ->. apply get_by_id in Ew as [Ew _]. rewrite Hc in Ew. assert (w = u2) as -> by congruence. lia.
  - intros rq' token row Ht Hr. apply revoked_refused.
    destruct (transitivity V1 V2) as [A _]. destruct (A _ _ Ht) as (t' & Ht' & Eo & _).
    apply revoke_user in E3 as (_ & f & E3 & Hf). apply (revoked_evolves sc); [done|]. exists (f t').
    rewrite E3, lookup_fmap, Ht'. split; [done|]. destruct (Hf t') as (_ & _ & R). apply R. congruence.
Qed.

End Laws.

End Auth.

(* ------------------------------------------------------------------ *)
(** ** Witnesses *)

(** Two tables in memory, and primitives that keep their input. *)
Record toy_adb : Type := mkToyAdb { toy_admins : gmap string AdminUser; toy_tokens : gmap string AdminRefreshToken }.

Definition toy_account (f : AdminUser -> AdminUser) (i : string) (s : toy_adb) : option api_error * toy_adb :=
  match toy_admins s !! i with
  | None => (Some ErrNoRows, s)
  | Some u => (None, mkToyAdb (<[i := f u]> (toy_admins s)) (toy_tokens s))
  end.
Definition toy_password (h : string) (u : AdminUser) : AdminUser :=
  mkAdminUser (au_ID u) (au_Username u) (au_Name u) (au_Role u) (au_ForcePasswordChange u) (au_PasswordVersion u + 1) h
    (au_CreatedAt u) (au_UpdatedAt u).
Definition toy_cleared (u : AdminUser) : AdminUser :=
  mkAdminUser (au_ID u) (au_Username u) (au_Name u) (au_Role u) false (au_PasswordVersion u) (au_PasswordHash u)
    (au_CreatedAt u) (au_UpdatedAt u).
Definition toy_revoke (t : AdminRefreshToken) : AdminRefreshToken :=
  mkAdminRefreshToken (art_ID t) (art_UserID t) (art_TokenHash t) (art_ExpiresAt t)
    (if decide (art_RevokedAt t = EmptyString) then "now" else art_RevokedAt t) (art_CreatedAt t) (art_LastUsedAt t) (art_UserAgent t) (art_IP t).
Definition toy_row (u h : string) (exp : string) : AdminRefreshToken :=
  mkAdminRefreshToken 1 u h exp EmptyString EmptyString EmptyString EmptyString EmptyString.

#[export] Instance toy_auth_time : GoTime := bin_time.
#[export] Instance toy_auth_unicode : GoUnicode := ascii_unicode.

#[export] Instance toy_admin_store : AdminStore toy_adb := {|
  GetMeta _ _ := Ok EmptyString;
  GetAdminUserByUsername n s :=
    match List.find (fun '(k, u) => bool_decide (k = au_ID u /\ au_Username u = n)) (map_to_list (toy_admins s)) with
    | Some (_, u) => Ok u | None => Err ErrNoRows end;
  GetAdminUserByID i s :=
    match toy_admins s !! i with Some u => if decide (au_ID u = i) then Ok u else Err ErrNoRows | None => Err ErrNoRows end;
  UpsertAdminUser u s := (None, mkToyAdb (<[au_ID u := u]> (toy_admins s)) (toy_tokens s));
  UpdateAdminPassword i h := toy_account (toy_password h) i;
  ClearAdminPasswordChangeRequired i := toy_account toy_cleared i;
  CreateAdminRefreshToken i h t a p s :=
    match toy_tokens s !! h with
    | Some _ => (Some (DBError "duplicate"), s)
    | None => (None, mkToyAdb (toy_admins s) (<[h := toy_row i h (RFC3339 t)]> (toy_tokens s)))
    end;
  GetAdminRefreshToken h s := match toy_tokens s !! h with Some t => Ok t | None => Err ErrNoRows end;
  TouchAdminRefreshToken i s := (None, s);
  RevokeAdminRefreshToken h s := (None, mkToyAdb (toy_admins s) (alter toy_revoke h (toy_tokens s)));
  RevokeAdminRefreshTokensByUser i s :=
    (None, mkToyAdb (toy_admins s) ((fun t => if decide (art_UserID t = i) then toy_revoke t else t) <$> toy_tokens s));
|}.

Lemma toy_revoke_spec t : art_UserID (toy_revoke t) = art_UserID t /\ art_RevokedAt (toy_revoke t) <> EmptyString.
Proof. unfold toy_revoke. simpl. split; [done|]. by case_decide. Qed.

Lemma toy_account_spec f i s s' : toy_account f i s = (None, s') ->
  toy_tokens s' = toy_tokens s /\ exists u, toy_admins s !! i = Some u /\ toy_admins s' = <[i := f u]> (toy_admins s).
Proof. unfold toy_account. destruct (toy_admins s !! i) as [u|]; [|done]. intros [= <-]. split; [done|]. by exists u. Qed.

#[export] Instance toy_admin_laws : AdminStoreLaws toy_adb.
Proof.
  refine (Build_AdminStoreLaws toy_adb _ toy_admins toy_tokens _ _ _ _ _ _ _ _ _ _); simpl.
  - intros i s u. case_match; [|done]. case_decide; [|done]. intros [= <-]. done.
  - intros n s u. destruct (List.find _ _) as [[k w]|] eqn:E; [|done]. intros [= <-].
    apply List.find_some in E as [E Hb]. apply bool_decide_eq_true in Hb as [-> Hn].
    split; [|done]. apply elem_of_map_to_list. by apply list_elem_of_In.
  - intros h s t. case_match; [|done]. by intros [= <-].
  - intros op Hop s e s' E.
    destruct Hop as [(i & h & ->)|[(i & ->)|[(i & h & t & a & p & ->)|[(i & ->)|[(h & ->)|(i & ->)]]]]]; cbn in E;
      try (unfold toy_account in E); repeat case_match; by simplify_eq.
  - intros i h s s' (E & u & Hu & Ea)%toy_account_spec. split; [done|]. exists u, (toy_password h u). done.
  - intros i s s' (E & u & Hu & Ea)%toy_account_spec. split; [done|]. exists u, (toy_cleared u). done.
  - intros i h t a p s s'. destruct (toy_tokens s !! h) eqn:Eh; [done|]. intros [= <-]. split_and!; [done..|]. by eexists.
  - intros i s s' [= <-]. split; [done|]. exists id. by rewrite map_fmap_id.
  - intros h s s' [= <-]. split; [done|]. exists toy_revoke. split; [done|]. apply toy_revoke_spec.
  - intros i s s' [= <-]. split; [done|]. eexists. split; [reflexivity|]. intros t.
    destruct (toy_revoke_spec t) as [E R]. case_decide; [|by split_and!]. by split_and!.
Defined.

#[export] Instance claims_countable : Countable adminClaims.
Proof.
  refine (inj_countable' (fun c => (Subject c, ClaimRole c, ClaimPasswordVersion c, Issued c, Expires c))
    (fun '(a, b, c, d, e) => mkClaims a b c d e) _). by intros [].
Defined.

#[export] Instance toy_primitives : AuthPrimitives := {|
  hmac_sha256 data key := key ++ data; sha256 := id;
  bcrypt_compare h p := bool_decide (h = p); bcrypt_generate _ p := Some p;
  marshal_claims c := bin (encode c); unmarshal_claims l := p ← unbin l; decode p;
|}.

#[export] Instance toy_auth_laws : AuthLaws.
Proof. split. intros c. simpl. rewrite unbin_bin. simpl. apply decode_encode. Qed.

Definition toy_auth_config : AuthConfig := mkAuthConfig "psk" EmptyString 0 0.
Definition toy_root : AdminUser := mkAdminUser "admin" "admin" "Administrator" "admin" true 1 "password" EmptyString EmptyString.
Definition toy_adb0 : toy_adb := mkToyAdb {[ "admin"%string := toy_root ]} ∅.
Definition toy_rq (b : byte) : request := mkRequest "POST" 1000 (Some [b]) [] EmptyString EmptyString EmptyString.
Definition toy_logged_in : toy_adb := snd (handleAdminLogin toy_auth_config (toy_rq x01) (Some (""%string, "password"%string)) toy_adb0).
Definition toy_refreshed : toy_adb := snd (handleAdminRefresh toy_auth_config (toy_rq x02) (Some (RawURLEncode [x01])) toy_logged_in).

Lemma login_grants_access_witness :
  exists resp, handleAdminLogin toy_auth_config (toy_rq x01) (Some (""%string, "password"%string)) toy_adb0 = (Ok resp, toy_logged_in) /\
    is_ok (requireAdmin toy_auth_config ("Bearer " ++ AccessToken resp) 2000 toy_logged_in) = true.
Proof.
  destruct (handleAdminLogin toy_auth_config (toy_rq x01) (Some (""%string, "password"%string)) toy_adb0) as [[resp|e] s'] eqn:E;
    [|vm_compute in E; discriminate E].
  assert (Es : s' = toy_logged_in) by (unfold toy_logged_in; rewrite E; reflexivity). subst s'.
  exists resp. split; [reflexivity|].
  destruct (login_grants_access toy_auth_config _ _ _ _ _ E) as (user & name & pw & _ & Hu & _ & _ & _ & H).
  assert (Hr : au_ID user = "admin"%string /\ au_PasswordVersion user = 1).
  { change (({[ "admin"%string := toy_root ]} : gmap string AdminUser) !! au_ID user = Some user) in Hu.
    apply lookup_singleton_Some in Hu as [Hk <-]. split; reflexivity. }
  destruct Hr as [Hi Hv]. apply (H 2000 toy_logged_in toy_root); rewrite ?Hi, ?Hv; [discriminate|vm_compute; reflexivity|].
  split; vm_compute; reflexivity.
Defined.

Lemma refresh_token_single_use_witness :
  exists e, handleAdminRefresh toy_auth_config (toy_rq x03) (Some (RawURLEncode [x01])) toy_refreshed = (Err e, toy_refreshed).
Proof.
  destruct (handleAdminRefresh toy_auth_config (toy_rq x02) (Some (RawURLEncode [x01])) toy_logged_in) as [[resp|e] s'] eqn:E;
    [|vm_compute in E; discriminate E].
  assert (Es : s' = toy_refreshed) by (unfold toy_refreshed; rewrite E; reflexivity). subst s'.
  assert (Hr : forall h (s : toy_adb), fst (RevokeAdminRefreshToken h s) = None) by (intros; reflexivity).
  apply (refresh_token_single_use toy_auth_config (toy_rq x02) (toy_rq x03) (RawURLEncode [x01]) _ _ _ resp Hr E). constructor.
Defined.

Lemma refresh_race_grants_twice_witness :
  exists stored r1 r2, refresh_check (toy_rq x02) (hashRefreshToken (RawURLEncode [x01])) toy_logged_in = (Ok stored, toy_logged_in) /\
    fst (refresh_grant toy_auth_config (toy_rq x02) (hashRefreshToken (RawURLEncode [x01])) stored toy_logged_in) = Ok r1 /\
    fst (refresh_grant toy_auth_config (toy_rq x03) (hashRefreshToken (RawURLEncode [x01])) stored
      (snd (refresh_grant toy_auth_config (toy_rq x02) (hashRefreshToken (RawURLEncode [x01])) stored toy_logged_in))) = Ok r2.
Proof.
  pose (stored := toy_row "admin" (hashRefreshToken (RawURLEncode [x01])) (RFC3339 (1000 + 30 * 24 * hour))).
  exists stored.
  pose proof (refresh_race_grants_twice toy_auth_config (toy_rq x02) (toy_rq x03) (hashRefreshToken (RawURLEncode [x01])) stored toy_root
    [x02] [x03] toy_logged_in) as H.
  destruct (refresh_grant toy_auth_config (toy_rq x02) _ stored toy_logged_in) as [r1 s1] eqn:E1.
  cbn [fst snd]. destruct (refresh_grant toy_auth_config (toy_rq x03) _ stored s1) as [r2 s2] eqn:E2. cbn [fst].
  destruct H as (resp1 & resp2 & row1 & row2 & H1 & H2 & _);
    [|intros; simpl in *; match goal with h : _ !! _ = None |- _ => rewrite h end; reflexivity|vm_compute; reflexivity..|vm_compute; discriminate|].
  { intros i s u Hu Hi. simpl in *. rewrite Hu, decide_True by exact Hi. reflexivity. }
  exists resp1, resp2. split; [vm_compute; reflexivity|]. by split.
Defined.

Definition toy_claims : adminClaims := mkClaims "admin" "admin" 1 0 0.
Definition toy_changed : toy_adb :=
  snd (handleChangePassword (toy_rq x02) toy_claims (Some ("password"%string, "longer password"%string)) toy_logged_in).

Lemma password_change_ends_sessions_witness :
  (forall header now, requireAdmin toy_auth_config header now toy_changed <> Ok toy_claims) /\
  exists e, handleAdminRefresh toy_auth_config (toy_rq x03) (Some (RawURLEncode [x01])) toy_changed = (Err e, toy_changed).
Proof.
  destruct (handleChangePassword (toy_rq x02) toy_claims (Some ("password"%string, "longer password"%string)) toy_logged_in)
    as [[[]|e] s'] eqn:E; [|vm_compute in E; discriminate E].
  assert (Es : s' = toy_changed) by (unfold toy_changed; rewrite E; reflexivity). subst s'.
  destruct (password_change_ends_sessions toy_auth_config _ _ _ _ _ toy_changed toy_root E) as [H1 H2];
    [constructor|vm_compute; reflexivity|]. split.
  - intros header now. apply (H1 header now toy_claims); [reflexivity|]. vm_compute. discriminate.
  - apply (H2 (toy_rq x03) (RawURLEncode [x01]) (toy_row "admin" (hashRefreshToken (RawURLEncode [x01])) (RFC3339 (1000 + 30 * 24 * hour))));
      vm_compute; reflexivity.
Defined.
