(* ===== verification/LanAdmin.v ===== *)
(** * LanAdmin: administration of the virtual networks (internal/server/handlers_lan.go)

    Decoding and validation of networks, groups, access rules and subnet routes, the
    expansion of access rules over groups, the handlers of the administration and their
    use of the database, which is the class [LanStore]: the part of the Go interface
    [controlstore.Store] these handlers call. JSON bodies arrive decoded, [None] for
    what is not JSON; a query is the function from keys to values of [r.URL.Query]. *)

From S2P Require Import Prelude GoStrings Store ServerUtil Vnet Router LanAlloc.

(* ------------------------------------------------------------------ *)
(** ** Requests *)

Record lan_request (B : Type) : Type := mkLanRequest {
  lr_Method : string; lr_Path : string; lr_Query : string -> string; lr_Body : option B }.
Arguments mkLanRequest {B} _ _ _ _.
Arguments lr_Method {B} _.
Arguments lr_Path {B} _.
Arguments lr_Query {B} _ _.
Arguments lr_Body {B} _.

Definition bad_json : api_error := badRequest "bad_json" "bad json".

(** [json.NewDecoder(r.Body).Decode]. *)
Definition decode_body {B} (r : lan_request B) : result api_error B :=
  match lr_Body r with Some b => Ok b | None => Err bad_json end.

Definition TrimPrefix (s prefix : string) : string :=
  if HasPrefix s prefix then string_of (drop (String.length prefix) (bytes_of s)) else s.

Definition parseLANPathID (path prefix : string) : result api_error Z :=
  match Atoi (TrimPrefix path prefix) with
  | Some id => if decide (id <= 0) then Err (badRequest "bad_id" "bad id") else Ok id
  | None => Err (badRequest "bad_id" "bad id")
  end.

(** [optionalInt64Query], and [optionalIntQuery]: an [int] has 64 bits. *)
Definition optionalInt64Query {B} (r : lan_request B) (key : string) : result api_error Z :=
  let raw := TrimSpace (lr_Query r key) in
  if decide (raw = EmptyString) then Ok 0
  else match Atoi raw with
  | Some id => if decide (id < 0) then Err (badRequest ("bad_" ++ key) ("bad " ++ key)) else Ok id
  | None => Err (badRequest ("bad_" ++ key) ("bad " ++ key))
  end.
Definition optionalIntQuery {B} (r : lan_request B) (key : string) : result api_error Z := optionalInt64Query r key.

Definition requiredInt64Query {B} (r : lan_request B) (key : string) : result api_error Z :=
  value ← optionalInt64Query r key;
  if decide (value <= 0) then Err (badRequest ("missing_" ++ key) (key ++ " is required")) else Ok value.

Definition addresses_prefix : string := "/api/admin/lan/addresses/".

Definition parseLANAddressAction (path : string) : string * string :=
  match Split (TrimPrefix path addresses_prefix) x2f with
  | [a; b] => (TrimSpace a, TrimSpace b)
  | _ => (EmptyString, EmptyString)
  end.

(* ------------------------------------------------------------------ *)
(** ** Decoding *)

Definition bad_network (m : string) : result api_error VirtualNetwork := Err (badRequest "bad_network" m).

Definition decodeVirtualNetwork (body : option VirtualNetwork) : result api_error VirtualNetwork :=
  match body with
  | None => Err bad_json
  | Some n =>
    let Name := TrimSpace (vn_Name n) in
    let CIDR := TrimSpace (vn_CIDR n) in
    let PathPolicy := TrimSpace (vn_PathPolicy n) in
    let TCPFastPath := TrimSpace (vn_TCPFastPath n) in
    let MTU := vn_MTU n in
    let MSS := vn_MSS n in
    if decide (Name = EmptyString \/ CIDR = EmptyString) then bad_network "name and cidr are required"
    else match ParseCIDR CIDR with
    | None => bad_network "cidr is invalid"
    | Some _ =>
      if decide (MTU < 0 \/ 9000 < MTU \/ (0 < MTU /\ MTU < 576)) then bad_network "mtu must be 0 or between 576 and 9000"
      else if decide (MSS < 0 \/ DefaultMSS < MSS \/ (0 < MSS /\ MSS < 536)) then bad_network "mss must be 0 or between 536 and 1200"
      else if decide (0 < MTU /\ 0 < MSS /\ MSSForMTU MTU < MSS) then bad_network "mss is too large for mtu"
      else if decide (PathPolicy ∉ [""; "auto"; "prefer_p2p"; "prefer_relay"; "relay_only"]%string) then bad_network "path_policy is invalid"
      else
        let PathPolicy := if decide (PathPolicy = EmptyString) then "prefer_p2p"%string else PathPolicy in
        if decide (TCPFastPath ∉ [""; "auto"; "off"; "force"]%string) then bad_network "tcp_fast_path is invalid"
        else
          let TCPFastPath := if decide (TCPFastPath = EmptyString) then "auto"%string else TCPFastPath in
          Ok (mkVirtualNetwork (vn_ID n) Name CIDR MTU MSS PathPolicy TCPFastPath (vn_Enabled n) (vn_CreatedAt n) (vn_UpdatedAt n))
    end
  end.

(** The body of a group: its id, name and device ids. *)
Record lan_group_body : Type := mkGroupBody { gb_ID : string; gb_Name : string; gb_DeviceIDs : list string }.

(** The loop over the devices, which skips empty and repeated ones. *)
Fixpoint group_members (seen : list string) (ids : list string) : list string :=
  match ids with
  | [] => []
  | id :: rest =>
    let id := TrimSpace id in
    if decide (id = EmptyString \/ id ∈ seen) then group_members seen rest
    else id :: group_members (id :: seen) rest
  end.

Definition decodeLANGroup (body : option lan_group_body) : result api_error (VirtualDeviceGroup * list string) :=
  match body with
  | None => Err bad_json
  | Some req =>
    let group := mkVirtualDeviceGroup (TrimSpace (gb_ID req)) (TrimSpace (gb_Name req)) EmptyString EmptyString in
    if decide (vg_ID group = EmptyString \/ vg_Name group = EmptyString) then Err (badRequest "bad_group" "id and name are required")
    else Ok (group, group_members [] (gb_DeviceIDs req))
  end.

(** The address [net.ParseCIDR] returns beside the network. *)
Definition cidr_address (s : string) : option (list byte) :=
  i ← index_bytes [x2f] (bytes_of s);
  parse_addr (take i (bytes_of s)).

Definition validateSubnetAdvertisement (cidr : string) : result api_error unit :=
  match ParseCIDR cidr with
  | None => Err (badRequest "bad_route" "cidr must be an ipv4 subnet")
  | Some _ =>
    if decide (To4 (cidr_address cidr) = None) then Err (badRequest "bad_route" "cidr must be an ipv4 subnet")
    else if decide (cidr = "0.0.0.0/0"%string) then Err (badRequest "default_route_forbidden" "default route is not supported")
    else Ok tt
  end.

Section Decoding.
  Context `{GU : GoUnicode}.

Definition bad_acl (m : string) : result api_error VirtualACLRule := Err (badRequest "bad_acl" m).

Definition decodeVirtualACLRule (body : option VirtualACLRule) : result api_error VirtualACLRule :=
  match body with
  | None => Err bad_json
  | Some r =>
    let Protocol := ToLower (TrimSpace (acl_Protocol r)) in
    let Action := ToLower (TrimSpace (acl_Action r)) in
    let Protocol := if decide (Protocol = EmptyString) then "tcp"%string else Protocol in
    let Action := if decide (Action = EmptyString) then "allow"%string else Action in
    if decide (acl_NetworkID r <= 0) then bad_acl "network_id is required"
    else if decide (Protocol ∉ ["tcp"; "udp"; "icmp"; "any"]%string) then bad_acl "protocol must be tcp, udp, icmp or any"
    else if decide (Action ∉ ["allow"; "deny"]%string) then bad_acl "action must be allow or deny"
    else if decide (acl_PortStart r < 0 \/ acl_PortEnd r < 0 \/ 65535 < acl_PortStart r \/ 65535 < acl_PortEnd r \/
                    acl_PortEnd r < acl_PortStart r) then bad_acl "invalid port range"
    else Ok (mkVirtualACLRule (acl_ID r) (acl_NetworkID r) (acl_SourceDeviceID r) (acl_SourceGroupID r)
               (acl_TargetDeviceID r) (acl_TargetGroupID r) Protocol (acl_PortStart r) (acl_PortEnd r) Action
               (acl_Enabled r) (acl_CreatedAt r) (acl_UpdatedAt r))
  end.

End Decoding.

(* ------------------------------------------------------------------ *)
(** ** Access rules over groups *)

(** [byGroup] of [expandVirtualACLRules] and of [listLANGroups]. *)
Definition members_by_group (members : list VirtualDeviceGroupMember) : gmap string (list string) :=
  fold_left (fun m x => <[vgm_GroupID x := default [] (m !! vgm_GroupID x) ++ [vgm_DeviceID x]]> m) members ∅.

Definition known_devices (addresses : list VirtualAddress) : gset string := list_to_set (map va_DeviceID addresses).

(** The devices one side of a rule stands for; the order of a Go map is left to
    [elements]. *)
Definition aclDevices (deviceID groupID : string) (byGroup : gmap string (list string)) (known : gset string) : list string :=
  if decide (TrimSpace deviceID <> EmptyString) then [TrimSpace deviceID]
  else if decide (TrimSpace groupID <> EmptyString) then default [] (byGroup !! TrimSpace groupID)
  else elements known.

Definition expanded_rule (rule : VirtualACLRule) (src dst : string) : VirtualACLRule :=
  mkVirtualACLRule (acl_ID rule) (acl_NetworkID rule) src EmptyString dst EmptyString (acl_Protocol rule)
    (acl_PortStart rule) (acl_PortEnd rule) (acl_Action rule) (acl_Enabled rule) (acl_CreatedAt rule) (acl_UpdatedAt rule).

Definition expandVirtualACLRules (members : list VirtualDeviceGroupMember) (rules : list VirtualACLRule) (addresses : list VirtualAddress)
  : list VirtualACLRule :=
  let byGroup := members_by_group members in
  let known := known_devices addresses in
  concat (map (fun rule =>
    let srcs := aclDevices (acl_SourceDeviceID rule) (acl_SourceGroupID rule) byGroup known in
    let dsts := aclDevices (acl_TargetDeviceID rule) (acl_TargetGroupID rule) byGroup known in
    concat (map (fun src => map (fun dst => expanded_rule rule src dst) dsts) srcs)) rules).

(* ------------------------------------------------------------------ *)
(** ** The database *)

(** The operations of [controlstore.Store] on the tables of the virtual networks; a
    write answers [None] for a nil error. *)
Class LanStore (DB : Type) := {
  ListVirtualNetworks : DB -> result api_error (list VirtualNetwork);
  EnsureDefaultVirtualNetwork : DB -> result api_error VirtualNetwork * DB;
  CreateVirtualNetwork : VirtualNetwork -> DB -> result api_error VirtualNetwork * DB;
  UpdateVirtualNetwork : Z -> VirtualNetwork -> DB -> option api_error * DB;
  DeleteVirtualNetwork : Z -> DB -> option api_error * DB;
  ListVirtualAddresses : Z -> DB -> result api_error (list VirtualAddress);
  GetVirtualAddress : Z -> string -> DB -> result api_error VirtualAddress;
  GetVirtualAddressByDevice : string -> DB -> result api_error VirtualAddress;
  UpsertVirtualAddress : VirtualAddress -> DB -> option api_error * DB;
  DeleteVirtualAddress : Z -> string -> DB -> option api_error * DB;
  ListVirtualDeviceKeys : DB -> result api_error (list VirtualDeviceKey);
  UpsertVirtualDeviceKey : VirtualDeviceKey -> DB -> option api_error * DB;
  ListVirtualDeviceGroups : DB -> result api_error (list VirtualDeviceGroup);
  UpsertVirtualDeviceGroup : VirtualDeviceGroup -> DB -> result api_error VirtualDeviceGroup * DB;
  DeleteVirtualDeviceGroup : string -> DB -> option api_error * DB;
  ListVirtualDeviceGroupMembers : string -> DB -> result api_error (list VirtualDeviceGroupMember);
  SetVirtualDeviceGroupMembers : string -> list string -> DB -> option api_error * DB;
  ListVirtualACLRules : Z -> DB -> result api_error (list VirtualACLRule);
  CreateVirtualACLRule : VirtualACLRule -> DB -> result api_error VirtualACLRule * DB;
  UpdateVirtualACLRule : Z -> VirtualACLRule -> DB -> option api_error * DB;
  DeleteVirtualACLRule : Z -> DB -> option api_error * DB;
  ListVirtualRoutes : Z -> string -> DB -> result api_error (list VirtualRoute);
  UpsertVirtualRoute : VirtualRoute -> DB -> option api_error * DB;
  DeleteVirtualRoute : Z -> DB -> option api_error * DB;
  ListVirtualPeerStates : Z -> DB -> result api_error (list VirtualPeerState);
  PutVirtualPeerState : VirtualPeerState -> DB -> option api_error * DB;
  ListVirtualPeerPathEvents : Z -> string -> string -> Z -> DB -> result api_error (list VirtualPeerPathEvent);
  ListVirtualLearnedPaths : Z -> string -> DB -> result api_error (list VirtualLearnedPath);
  UpsertVirtualLearnedPath : VirtualLearnedPath -> DB -> option api_error * DB;
  SetVirtualLearnedPathPreheat : Z -> string -> string -> Z -> bool -> DB -> option api_error * DB;
  LanGetDevice : string -> DB -> result api_error Device;
  LanUpsertDevice : string -> string -> string -> string -> string -> bool -> DB -> option api_error * DB;
  UpsertDeviceProductState : DeviceProductState -> DB -> option api_error * DB;
}.

(** A call that answers a value or an error and may write. *)
Definition calls {DB A} (c : DB -> result api_error A * DB) : handler DB A := fun s => Some (c s).

(** The answers of the administration; [RespOK] is [{"ok": true}]. *)
Inductive lan_response : Type :=
  | RespOK
  | RespNetworks (l : list VirtualNetwork)
  | RespNetwork (n : VirtualNetwork)
  | RespAddresses (l : list VirtualAddress)
  | RespKeys (l : list VirtualDeviceKey)
  | RespGroups (l : list (VirtualDeviceGroup * list string))
  | RespGroup (g : VirtualDeviceGroup) (DeviceIDs : list string)
  | RespRules (l : list VirtualACLRule)
  | RespRule (r : VirtualACLRule)
  | RespRoutes (l : list VirtualRoute)
  | RespRoute (r : VirtualRoute).

Section Handlers.
  Context `{GU : GoUnicode} {DB : Type} `{ST : !LanStore DB}.
  Variable fuel : nat.   (* of the walk over the addresses of a network *)

Definition ok (h : handler DB unit) : handler DB lan_response := _ ← h; mret RespOK.
Definition is_get {B} (r : lan_request B) : bool := bool_decide (lr_Method r = "GET"%string).
Definition is_post {B} (r : lan_request B) : bool := bool_decide (lr_Method r = "POST"%string).
Definition is_patch {B} (r : lan_request B) : bool := bool_decide (lr_Method r = "PATCH"%string).
Definition is_delete {B} (r : lan_request B) : bool := bool_decide (lr_Method r = "DELETE"%string).

(* ------------------------------------------------------------------ *)
(** ** Networks *)

Definition handleAdminLANNetworks (r : lan_request VirtualNetwork) : handler DB lan_response :=
  if is_get r then networks ← reads ListVirtualNetworks; mret (RespNetworks networks)
  else if is_post r then
    network ← pure_ (decodeVirtualNetwork (lr_Body r));
    network ← calls (CreateVirtualNetwork network);
    mret (RespNetwork network)
  else fail methodNotAllowed.

Definition in_use (m : string) : api_error := badRequest "network_in_use" m.

Definition ensureVirtualNetworkEmpty (networkID : Z) : handler DB unit :=
  addresses ← reads (ListVirtualAddresses networkID);
  if decide (addresses <> []) then fail (in_use "network still has virtual addresses")
  else
    acl ← reads (ListVirtualACLRules networkID);
    if decide (acl <> []) then fail (in_use "network still has acl rules")
    else
      routes ← reads (ListVirtualRoutes networkID EmptyString);
      if decide (routes <> []) then fail (in_use "network still has virtual routes")
      else
        states ← reads (ListVirtualPeerStates networkID);
        if decide (states <> []) then fail (in_use "network still has peer states") else mret tt.

Definition handleAdminLANNetwork (r : lan_request VirtualNetwork) : handler DB lan_response :=
  id ← pure_ (parseLANPathID (lr_Path r) "/api/admin/lan/networks/");
  if is_patch r then
    network ← pure_ (decodeVirtualNetwork (lr_Body r));
    ok (writes (UpdateVirtualNetwork id network))
  else if is_delete r then
    _ ← ensureVirtualNetworkEmpty id;
    ok (writes (DeleteVirtualNetwork id))
  else fail methodNotAllowed.

(* ------------------------------------------------------------------ *)
(** ** Addresses *)

Definition handleAdminLANAddresses (r : lan_request unit) : handler DB lan_response :=
  if is_get r then
    networkID ← pure_ (optionalInt64Query r "network_id");
    addresses ← reads (ListVirtualAddresses networkID);
    mret (RespAddresses addresses)
  else fail methodNotAllowed.

Definition handleAdminLANAddress (r : lan_request VirtualAddress) : handler DB lan_response :=
  let deviceID := TrimSpace (TrimPrefix (lr_Path r) addresses_prefix) in
  if decide (deviceID = EmptyString) then fail (badRequest "bad_device_id" "bad device id")
  else if is_patch r then
    address ← pure_ (decode_body r);
    let address := mkVirtualAddress deviceID (va_NetworkID address) (va_VirtualIP address) (va_Hostname address)
                     (va_DNSEnabled address) (va_CreatedAt address) (va_UpdatedAt address) in
    _ ← pure_ (validateVirtualAddress address);
    networks ← reads ListVirtualNetworks;
    _ ← pure_ (validateVirtualAddressCIDR networks address);
    ok (writes (UpsertVirtualAddress address))
  else if is_delete r then
    networkID ← pure_ (requiredInt64Query r "network_id");
    ok (writes (DeleteVirtualAddress networkID deviceID))
  else fail methodNotAllowed.

(** The database as the interface of the allocation. *)
Definition address_store : virtualAddressStore DB := mkVirtualAddressStore ListVirtualAddresses UpsertVirtualAddress.

Definition app_allocate (network : VirtualNetwork) (deviceID hostname : string) : handler DB VirtualAddress :=
  allocateVirtualAddress address_store fuel network deviceID hostname.

Definition network_by_id (id : Z) : handler DB VirtualNetwork :=
  networks ← reads ListVirtualNetworks;
  pure_ (virtualNetworkByID networks id).

(** The call and its error, which the caller looks at itself. *)
Definition attempt {A} (h : handler DB A) : handler DB (result api_error A) := fun s =>
  match h s with Some (r, s') => Some (Ok r, s') | None => None end.

Definition touchVirtualAddress (networkID : Z) (deviceID : string) : handler DB unit :=
  got ← attempt (reads (GetVirtualAddress networkID deviceID));
  match got with
  | Err ErrNoRows =>
    network ← network_by_id networkID;
    _ ← app_allocate network deviceID EmptyString;
    mret tt
  | Err e => fail e
  | Ok address => writes (UpsertVirtualAddress address)
  end.

Definition handleAdminLANAddressAction (r : lan_request unit) : handler DB lan_response :=
  let '(deviceID, action) := parseLANAddressAction (lr_Path r) in
  if decide (deviceID = EmptyString \/ action = EmptyString) then fail (badRequest "bad_path" "bad address action path")
  else if negb (is_post r) then fail methodNotAllowed
  else
    networkID ← pure_ (requiredInt64Query r "network_id");
    if decide (action = "release"%string) then ok (writes (DeleteVirtualAddress networkID deviceID))
    else if decide (action = "reassign"%string) then
      deleted ← attempt (writes (DeleteVirtualAddress networkID deviceID));
      match deleted with
      | Ok _ | Err ErrNoRows =>
        network ← network_by_id networkID;
        ok (_ ← app_allocate network deviceID EmptyString; mret tt)
      | Err e => fail e
      end
    else if decide (action = "bootstrap"%string) then ok (touchVirtualAddress networkID deviceID)
    else fail (badRequest "bad_action" "unsupported address action").

(* ------------------------------------------------------------------ *)
(** ** Keys and groups *)

Definition handleAdminLANDeviceKeys (r : lan_request unit) : handler DB lan_response :=
  if is_get r then keys ← reads ListVirtualDeviceKeys; mret (RespKeys keys) else fail methodNotAllowed.

Definition listLANGroups : handler DB (list (VirtualDeviceGroup * list string)) :=
  groups ← reads ListVirtualDeviceGroups;
  members ← reads (ListVirtualDeviceGroupMembers EmptyString);
  let byGroup := members_by_group members in
  mret (map (fun group => (group, default [] (byGroup !! vg_ID group))) groups).

Definition handleAdminLANGroups (r : lan_request lan_group_body) : handler DB lan_response :=
  if is_get r then groups ← listLANGroups; mret (RespGroups groups)
  else if is_post r then
    gm ← pure_ (decodeLANGroup (lr_Body r));
    group ← calls (UpsertVirtualDeviceGroup gm.1);
    _ ← writes (SetVirtualDeviceGroupMembers (vg_ID group) gm.2);
    mret (RespGroup group gm.2)
  else fail methodNotAllowed.

Definition handleAdminLANGroup (r : lan_request lan_group_body) : handler DB lan_response :=
  let id := TrimSpace (TrimPrefix (lr_Path r) "/api/admin/lan/groups/") in
  if decide (id = EmptyString) then fail (badRequest "bad_group_id" "bad group id")
  else if is_patch r then
    gm ← pure_ (decodeLANGroup (lr_Body r));
    group ← calls (UpsertVirtualDeviceGroup (mkVirtualDeviceGroup id (vg_Name gm.1) (vg_CreatedAt gm.1) (vg_UpdatedAt gm.1)));
    ok (writes (SetVirtualDeviceGroupMembers (vg_ID group) gm.2))
  else if is_delete r then ok (writes (DeleteVirtualDeviceGroup id))
  else fail methodNotAllowed.

(* ------------------------------------------------------------------ *)
(** ** Access rules *)

Definition handleAdminLANACLRules (r : lan_request VirtualACLRule) : handler DB lan_response :=
  if is_get r then
    networkID ← pure_ (optionalInt64Query r "network_id");
    rules ← reads (ListVirtualACLRules networkID);
    mret (RespRules rules)
  else if is_post r then
    rule ← pure_ (decodeVirtualACLRule (lr_Body r));
    rule ← calls (CreateVirtualACLRule rule);
    mret (RespRule rule)
  else fail methodNotAllowed.

Definition handleAdminLANACLRule (r : lan_request VirtualACLRule) : handler DB lan_response :=
  id ← pure_ (parseLANPathID (lr_Path r) "/api/admin/lan/acl/");
  if is_patch r then
    rule ← pure_ (decodeVirtualACLRule (lr_Body r));
    ok (writes (UpdateVirtualACLRule id rule))
  else if is_delete r then ok (writes (DeleteVirtualACLRule id))
  else fail methodNotAllowed.

(* ------------------------------------------------------------------ *)
(** ** Subnet routes *)

Definition set_route_id (id : Z) (route : VirtualRoute) : VirtualRoute :=
  mkVirtualRoute id (vr_DeviceID route) (vr_NetworkID route) (vr_CIDR route) (vr_Advertise route) (vr_Accept route)
    (vr_CreatedAt route) (vr_UpdatedAt route).

Definition decodeVirtualRoute (body : option VirtualRoute) : handler DB VirtualRoute :=
  match body with
  | None => fail bad_json
  | Some r =>
    let route := mkVirtualRoute (vr_ID r) (TrimSpace (vr_DeviceID r)) (vr_NetworkID r) (TrimSpace (vr_CIDR r))
                   (vr_Advertise r) (vr_Accept r) (vr_CreatedAt r) (vr_UpdatedAt r) in
    if decide (vr_NetworkID route <= 0 \/ vr_DeviceID route = EmptyString \/ vr_CIDR route = EmptyString)
    then fail (badRequest "bad_route" "network_id, device_id and cidr are required")
    else
      _ ← pure_ (validateSubnetAdvertisement (vr_CIDR route));
      device ← attempt (reads (LanGetDevice (vr_DeviceID route)));
      match device with
      | Ok _ => mret route
      | Err ErrNoRows => fail (badRequest "device_not_found" "device not found")
      | Err e => fail e
      end
  end.

Definition handleAdminLANRoutes (r : lan_request VirtualRoute) : handler DB lan_response :=
  if is_get r then
    networkID ← pure_ (optionalInt64Query r "network_id");
    routes ← reads (ListVirtualRoutes networkID (TrimSpace (lr_Query r "device_id")));
    mret (RespRoutes routes)
  else if is_post r then
    route ← decodeVirtualRoute (lr_Body r);
    _ ← writes (UpsertVirtualRoute route);
    routes ← reads (ListVirtualRoutes (vr_NetworkID route) (vr_DeviceID route));
    mret (RespRoute (default route (List.find (fun item => bool_decide (vr_CIDR item = vr_CIDR route)) routes)))
  else fail methodNotAllowed.

Definition handleAdminLANRoute (r : lan_request VirtualRoute) : handler DB lan_response :=
  id ← pure_ (parseLANPathID (lr_Path r) "/api/admin/lan/routes/");
  if is_patch r then
    route ← decodeVirtualRoute (lr_Body r);
    ok (writes (UpsertVirtualRoute (set_route_id id route)))
  else if is_delete r then ok (writes (DeleteVirtualRoute id))
  else fail methodNotAllowed.

End Handlers.
