(* ===== verification/ControlLaws.v ===== *)
(** * ControlLaws: what the database of the server does for its handlers

    The tables of [ControlStore] implement the interfaces the handlers are proved
    against, [AdminAuth.AdminStore] with its laws and [LanAdmin.LanStore]; and what the
    handlers do on these tables, defaults of columns and row counts included. *)

From S2P Require Import Prelude GoStrings Store ServerUtil Gorm ControlStore.
From S2P Require AdminAuth LanAdmin.
Import ControlStore.Models.

(* ------------------------------------------------------------------ *)
(** ** Administrators and their tokens *)

Section Admin.
  Context `{CO : Collation} `{GU : GoUnicode} `{GT : GoTime}.
  Context {T : forall R, Model R -> Type} `{G : !Gorm T}.
  Notation DB := (ControlStore.control_db T).

#[export] Instance control_admin_store : AdminAuth.AdminStore DB := {|
  AdminAuth.GetMeta := ControlStore.GetMeta;
  AdminAuth.GetAdminUserByUsername := ControlStore.GetAdminUserByUsername;
  AdminAuth.GetAdminUserByID := ControlStore.GetAdminUserByID;
  AdminAuth.UpsertAdminUser := ControlStore.UpsertAdminUser;
  AdminAuth.UpdateAdminPassword := ControlStore.UpdateAdminPassword;
  AdminAuth.ClearAdminPasswordChangeRequired := ControlStore.ClearAdminPasswordChangeRequired;
  AdminAuth.CreateAdminRefreshToken := ControlStore.CreateAdminRefreshToken;
  AdminAuth.GetAdminRefreshToken := ControlStore.GetAdminRefreshToken;
  AdminAuth.TouchAdminRefreshToken := ControlStore.TouchAdminRefreshToken;
  AdminAuth.RevokeAdminRefreshToken := ControlStore.RevokeAdminRefreshToken;
  AdminAuth.RevokeAdminRefreshTokensByUser := ControlStore.RevokeAdminRefreshTokensByUser;
|}.

  Context `{L : !GormLaws T} `{GL : !GoTimeLaws GT}.
  Hypothesis binary : forall a b, sql_eq a b = bool_decide (a = b).

Definition stored_admins (s : DB) : gmap string AdminUser := keyed au_ID (rows (ControlStore.t_admins s)).
Definition stored_tokens (s : DB) : gmap string AdminRefreshToken := keyed art_TokenHash (rows (ControlStore.t_refresh s)).

Lemma admin_key : keys_clash au_ID.
Proof. intros x y E. cbn. rewrite !binary, bool_decide_true by done. done. Qed.

Lemma token_key : keys_clash art_TokenHash.
Proof. intros x y E. cbn. rewrite !binary, (bool_decide_true (art_TokenHash x = _)) by done. apply orb_true_r. Qed.

(** A write that stops at [sql.ErrNoRows] or another error leaves the administrators. *)
Lemma admin_update_err p f (s : DB) e s' :
  ControlStore.in_admins (affected (Updates p f (ControlStore.t_admins s))) s = (Some e, s') ->
  stored_admins s' = stored_admins s /\ stored_tokens s' = stored_tokens s.
Proof.
  unfold ControlStore.in_admins. destruct (affected _) as [o t'] eqn:E. intros [= -> <-]. apply affected_err in E. split; [|done].
  unfold stored_admins. cbn. apply keyed_perm; [exact admin_key|apply rows_distinct|done].
Qed.

Lemma admin_update_ok g i (s s' : DB) : (forall u, au_ID (g u) = au_ID u) ->
  ControlStore.in_admins (affected (Updates (fun u => sql_eq (au_ID u) i) g (ControlStore.t_admins s))) s = (None, s') ->
  stored_tokens s' = stored_tokens s /\ exists u, stored_admins s !! i = Some u /\ stored_admins s' = <[i := g u]> (stored_admins s).
Proof.
  intros Hg. unfold ControlStore.in_admins. destruct (affected _) as [o t'] eqn:E. intros [= -> <-].
  apply affected_ok in E as (P & r & Hr & Hi). rewrite binary, bool_decide_eq_true in Hi. split; [done|]. exists r.
  assert (HA : stored_admins s !! i = Some r) by (apply keyed_lookup; [exact admin_key|apply rows_distinct|done]).
  split; [exact HA|]. unfold stored_admins in *. cbn.
  rewrite <- (keyed_perm au_ID admin_key (rows t') _ (rows_distinct t') (symmetry P)).
  rewrite (keyed_update_at au_ID admin_key _ _ i); [|apply rows_distinct|done|intros u; by rewrite binary].
  apply map_eq. intros k. destruct (decide (k = i)) as [->|].
  - by rewrite lookup_alter_eq, lookup_insert_eq, HA.
  - by rewrite lookup_alter_ne, lookup_insert_ne by done.
Qed.

Lemma token_update_err p f (s : DB) e s' :
  in_refresh (error_of (Updates p f (t_refresh s))) s = (Some e, s') -> stored_admins s' = stored_admins s /\ stored_tokens s' = stored_tokens s.
Proof.
  unfold in_refresh. destruct (error_of _) as [o t'] eqn:E. intros [= -> <-]. apply updates_err in E. split; [done|].
  unfold stored_tokens. cbn. by rewrite E.
Qed.

Lemma token_update_ok p g (s s' : DB) : (forall t, art_TokenHash (g t) = art_TokenHash t) ->
  in_refresh (error_of (Updates p g (t_refresh s))) s = (None, s') ->
  stored_admins s' = stored_admins s /\ stored_tokens s' = update_row p g <$> stored_tokens s.
Proof.
  intros Hg. unfold in_refresh. destruct (error_of _) as [o t'] eqn:E. intros [= -> <-]. apply updates_ok in E. split; [done|].
  unfold stored_tokens. cbn. rewrite <- (keyed_perm art_TokenHash token_key (rows t') _ (rows_distinct t') (symmetry E)).
  by apply keyed_update.
Qed.

Lemma now_nonempty (s : DB) : nowString s <> EmptyString.
Proof. apply format_nonempty. Qed.

(** The two tables as the maps the sessions of administrators are proved over. *)
#[export] Instance control_admin_laws : AdminAuth.AdminStoreLaws DB.
Proof.
  refine {| AdminAuth.admins := stored_admins; AdminAuth.tokens := stored_tokens |}.
  - intros i s u. cbn. unfold GetAdminUserByID, or_no_rows. destruct (First _ _ _) as [[x|]|] eqn:E; [|done..]. intros [= <-].
    apply first_found in E as [Hx Hi]. rewrite binary, bool_decide_eq_true in Hi. split; [|done].
    by apply keyed_lookup; [exact admin_key|apply rows_distinct|].
  - intros n s u. cbn. unfold GetAdminUserByUsername, or_no_rows. destruct (First _ _ _) as [[x|]|] eqn:E; [|done..]. intros [= <-].
    apply first_found in E as [Hx Hi]. rewrite binary, bool_decide_eq_true in Hi. split; [|done].
    by apply keyed_lookup; [exact admin_key|apply rows_distinct|].
  - intros h s t. cbn. unfold GetAdminRefreshToken, or_no_rows. destruct (First _ _ _) as [[x|]|] eqn:E; [|done..]. intros [= <-].
    apply first_found in E as [Hx Hi]. rewrite binary, bool_decide_eq_true in Hi.
    by apply keyed_lookup; [exact token_key|apply rows_distinct|].
  - intros op Hop s e s'. cbn in Hop. destruct Hop as [(i & h & ->)|[(i & ->)|[(i & h & t & a & p & ->)|[(i & ->)|[(h & ->)|(i & ->)]]]]].
    + apply (admin_update_err _ _ (tick s)).
    + apply (admin_update_err _ _ (tick s)).
    + unfold CreateAdminRefreshToken, in_refresh. destruct (error_of _) as [o t'] eqn:E. intros [= -> <-]. apply create_err in E.
      split; [done|]. unfold stored_tokens. cbn. by rewrite E.
    + apply (token_update_err _ _ (tick s)).
    + apply (token_update_err _ _ (tick s)).
    + apply (token_update_err _ _ (tick s)).
  - intros i h s s' H. apply (admin_update_ok _ i (tick s)) in H as (Ht & u & Hu & Hm); [|done].
    split; [exact Ht|]. exists u. eexists. split; [exact Hu|]. split; [exact Hm|]. done.
  - intros i s s' H. apply (admin_update_ok _ i (tick s)) in H as (Ht & u & Hu & Hm); [|done].
    split; [exact Ht|]. exists u. eexists. split; [exact Hu|]. split; [exact Hm|]. done.
  - intros i h t a p s s'. cbn. unfold CreateAdminRefreshToken, in_refresh. destruct (error_of _) as [o t'] eqn:E. intros [= -> <-].
    apply create_ok in E as (r & (n & _ & ->) & P). split; [done|]. unfold stored_tokens. cbn [t_refresh].
    rewrite <- (keyed_perm art_TokenHash token_key (rows t') _ (rows_distinct t') (symmetry P)). rewrite keyed_cons.
    split; [|by eexists]. match type of P with _ ≡ₚ ?r :: _ => apply (keyed_fresh art_TokenHash r) end.
    rewrite <- P. apply keys_nodup; [exact token_key|apply rows_distinct].
  - intros i s s' H. apply (token_update_ok _ _ (tick s)) in H as [H1 H2]; [|done]. split; [exact H1|].
    eexists. split; [exact H2|]. intros t. unfold update_row. by destruct (_ =? _).
  - intros h s s' H. apply (token_update_ok _ _ (tick s)) in H as [H1 H2]; [|done]. split; [exact H1|].
    exists (update_row (fun t => sql_empty (art_RevokedAt t)) (revoked (nowString s))). split.
    + rewrite H2. apply map_eq. intros k. rewrite lookup_fmap. destruct (stored_tokens s !! k) as [t|] eqn:Ek.
      * change (stored_tokens (tick s)) with (stored_tokens s). rewrite Ek. cbn.
        pose proof Ek as [_ Hk]%(keyed_lookup art_TokenHash token_key _ _ _ (rows_distinct _)). unfold update_row. rewrite binary, Hk.
        destruct (decide (k = h)) as [->|].
        -- rewrite bool_decide_true by done. by rewrite lookup_alter_eq, Ek.
        -- rewrite bool_decide_false by done. by rewrite lookup_alter_ne, Ek by done.
      * change (stored_tokens (tick s)) with (stored_tokens s). rewrite Ek.
        destruct (decide (k = h)) as [->|]; [by rewrite lookup_alter_eq, Ek|by rewrite lookup_alter_ne, Ek by done].
    + intros t. unfold update_row, sql_empty. rewrite binary. case_bool_decide as D; [split; [done|apply now_nonempty]|done].
  - intros i s s' H. apply (token_update_ok _ _ (tick s)) in H as [H1 H2]; [|done]. split; [exact H1|].
    eexists. split; [exact H2|]. intros t. unfold update_row, sql_empty. rewrite !binary. pose proof (now_nonempty s).
    case_bool_decide as D1; case_bool_decide as D2; cbn; split_and!; done.
Defined.


(** MySQL counts the rows an update changes. A change of the password stores the new
    hash, and then clears a flag that every change after the first finds cleared: within
    the same second that changes no row, the store reports [sql.ErrNoRows], and the
    handler answers 404 without revoking a refresh token. Whoever changes a password
    again, because it has leaked, is told that it failed, and the old sessions go on. *)
Theorem second_password_change_is_404 `{AP : AdminAuth.AuthPrimitives} (rq : AdminAuth.request) (claims : AdminAuth.adminClaims)
  (current next hash : string) (u : AdminUser) (s s1 : DB) :
  AdminAuth.rq_Method rq = "POST"%string -> (8 <= String.length next)%nat ->
  GetAdminUserByID (AdminAuth.Subject claims) s = Ok u -> AdminAuth.ClaimPasswordVersion claims = au_PasswordVersion u ->
  AdminAuth.bcrypt_compare (au_PasswordHash u) current = true -> AdminAuth.bcrypt_generate (AdminAuth.rq_salt rq) next = Some hash ->
  au_ForcePasswordChange u = false -> RFC3339 (db_clock s 1%nat) = RFC3339 (db_clock s O) ->
  UpdateAdminPassword (au_ID u) hash s = (None, s1) ->
  (forall e, fst (ClearAdminPasswordChangeRequired (au_ID u) s1) = Some e -> e = ErrNoRows) ->
  exists s2 u', AdminAuth.handleChangePassword rq claims (Some (current, next)) s = (Err ErrNoRows, s2) /\
    @writeJSONOrError unit (Err ErrNoRows) = 404 /\
    stored_admins s2 !! au_ID u = Some u' /\ au_PasswordHash u' = hash /\ stored_tokens s2 = stored_tokens s.
Proof.
  intros Hpost Hlen Hget Hver Hcmp Hgen Hforce Hnow Hup Hclear.
  pose proof Hup as Hup'. apply (admin_update_ok _ _ (tick s)) in Hup' as (Ht & v & Hv & Hm); [|done].
  change (stored_admins (tick s)) with (stored_admins s) in Hv, Hm. change (stored_tokens (tick s)) with (stored_tokens s) in Ht.
  assert (Hg : AdminAuth.GetAdminUserByID (AdminAuth.Subject claims) s = Ok u) by exact Hget.
  apply AdminAuth.get_by_id in Hg as [Hu Hid]. change (AdminAuth.admins s) with (stored_admins s) in Hu. rewrite <- Hid, Hv in Hu. injection Hu as ->.
  assert (Hc1 : db_clock s1 = fun n => db_clock s (S n)).
  { unfold UpdateAdminPassword, in_admins in Hup. by injection Hup as _ <-. }
  destruct (ClearAdminPasswordChangeRequired (au_ID u) s1) as [o s2] eqn:E2.
  assert (HK : exists e, o = Some e).
  { unfold ClearAdminPasswordChangeRequired, in_admins in E2. injection E2 as E2 _. cbn [t_admins tick] in E2.
    destruct (affected _) as [o' t'] eqn:EA in E2. cbn in E2. subst o'.
    apply affected_unchanged in EA as [(e & -> & _) _]; [by exists e|]. intros r Hr Hi. rewrite binary, bool_decide_eq_true in Hi.
    assert (Hr' : stored_admins s1 !! au_ID u = Some r) by (apply keyed_lookup; [exact admin_key|apply rows_distinct|done]).
    rewrite Hm, lookup_insert_eq in Hr'. injection Hr' as <-. unfold set_admin, nowString. cbn. by rewrite Hc1, Hforce, Hnow. }
  destruct HK as [e ->]. assert (e = ErrNoRows) as -> by (by apply Hclear).
  pose proof E2 as E2'. apply (admin_update_err _ _ (tick s1)) in E2' as [Ha2 Ht2].
  exists s2. eexists. split_and!; [|done| | |].
  - unfold AdminAuth.handleChangePassword. rewrite decide_False by (by intros F). rewrite decide_False by lia.
    cbn [AdminAuth.GetAdminUserByID AdminAuth.UpdateAdminPassword AdminAuth.ClearAdminPasswordChangeRequired control_admin_store].
    rewrite Hget, Hcmp, Hgen. rewrite decide_False by (intros [_ F]; congruence). cbn [negb]. by rewrite Hup, E2.
  - rewrite Ha2. change (stored_admins (tick s1)) with (stored_admins s1). rewrite Hm. apply lookup_insert_eq.
  - done.
  - by rewrite Ht2.
Qed.
End Admin.

(* ------------------------------------------------------------------ *)
(** ** Virtual networks *)

Section Lan.
  Context `{CO : Collation} `{LK : Like} `{GU : GoUnicode} `{GT : GoTime} `{MJ : MetadataJSON}.
  Context {T : forall R, Model R -> Type} `{G : !Gorm T}.
  Notation DB := (ControlStore.control_db T).

#[export] Instance control_lan_store : LanAdmin.LanStore DB := {|
  LanAdmin.ListVirtualNetworks := ControlStore.ListVirtualNetworks;
  LanAdmin.EnsureDefaultVirtualNetwork := ControlStore.EnsureDefaultVirtualNetwork;
  LanAdmin.CreateVirtualNetwork := ControlStore.CreateVirtualNetwork;
  LanAdmin.UpdateVirtualNetwork := ControlStore.UpdateVirtualNetwork;
  LanAdmin.DeleteVirtualNetwork := ControlStore.DeleteVirtualNetwork;
  LanAdmin.ListVirtualAddresses := ControlStore.ListVirtualAddresses;
  LanAdmin.GetVirtualAddress := ControlStore.GetVirtualAddress;
  LanAdmin.GetVirtualAddressByDevice := ControlStore.GetVirtualAddressByDevice;
  LanAdmin.UpsertVirtualAddress := ControlStore.UpsertVirtualAddress;
  LanAdmin.DeleteVirtualAddress := ControlStore.DeleteVirtualAddress;
  LanAdmin.ListVirtualDeviceKeys := ControlStore.ListVirtualDeviceKeys;
  LanAdmin.UpsertVirtualDeviceKey := ControlStore.UpsertVirtualDeviceKey;
  LanAdmin.ListVirtualDeviceGroups := ControlStore.ListVirtualDeviceGroups;
  LanAdmin.UpsertVirtualDeviceGroup := ControlStore.UpsertVirtualDeviceGroup;
  LanAdmin.DeleteVirtualDeviceGroup := ControlStore.DeleteVirtualDeviceGroup;
  LanAdmin.ListVirtualDeviceGroupMembers := ControlStore.ListVirtualDeviceGroupMembers;
  LanAdmin.SetVirtualDeviceGroupMembers := ControlStore.SetVirtualDeviceGroupMembers;
  LanAdmin.ListVirtualACLRules := ControlStore.ListVirtualACLRules;
  LanAdmin.CreateVirtualACLRule := ControlStore.CreateVirtualACLRule;
  LanAdmin.UpdateVirtualACLRule := ControlStore.UpdateVirtualACLRule;
  LanAdmin.DeleteVirtualACLRule := ControlStore.DeleteVirtualACLRule;
  LanAdmin.ListVirtualRoutes := ControlStore.ListVirtualRoutes;
  LanAdmin.UpsertVirtualRoute := ControlStore.UpsertVirtualRoute;
  LanAdmin.DeleteVirtualRoute := ControlStore.DeleteVirtualRoute;
  LanAdmin.ListVirtualPeerStates := ControlStore.ListVirtualPeerStates;
  LanAdmin.PutVirtualPeerState := ControlStore.PutVirtualPeerState;
  LanAdmin.ListVirtualPeerPathEvents := ControlStore.ListVirtualPeerPathEvents;
  LanAdmin.ListVirtualLearnedPaths := ControlStore.ListVirtualLearnedPaths;
  LanAdmin.UpsertVirtualLearnedPath := ControlStore.UpsertVirtualLearnedPath;
  LanAdmin.SetVirtualLearnedPathPreheat := ControlStore.SetVirtualLearnedPathPreheat;
  LanAdmin.LanGetDevice := ControlStore.GetDevice;
  LanAdmin.LanUpsertDevice := ControlStore.UpsertDevice;
  LanAdmin.UpsertDeviceProductState := ControlStore.UpsertDeviceProductState;
|}.

  Context `{L : !GormLaws T}.

Lemma decoded_acl b rule : LanAdmin.decodeVirtualACLRule (Some b) = Ok rule ->
  acl_Enabled rule = acl_Enabled b /\ acl_NetworkID rule = acl_NetworkID b /\ 0 < acl_NetworkID b.
Proof.
  unfold LanAdmin.decodeVirtualACLRule, LanAdmin.bad_acl. cbv zeta.
  repeat (match goal with |- (if ?d then _ else _) = _ -> _ => destruct d end; [discriminate|]). intros [= <-]. cbn. split_and!; [done..|lia].
Qed.

Lemma created_acl rule (s s' : DB) row : ControlStore.CreateVirtualACLRule rule s = (Ok row, s') ->
  acl_Enabled row = true /\ acl_NetworkID row = acl_NetworkID rule /\ rows (t_acls s') ≡ₚ row :: rows (t_acls s).
Proof.
  unfold ControlStore.CreateVirtualACLRule, in_acls. cbn [t_acls tick]. destruct (Create _ _) as [[r|e] t'] eqn:E; [|done]. intros H. injection H as <- <-.
  apply create_rows in E as [(n & _ & ->) P]. done.
Qed.

(** An access rule that is created disabled is stored, listed and answered enabled: its
    column has the default [true], which gorm gives to a field that is false. The policy
    of the network changes at once, by a rule that was only to be prepared. *)
Theorem disabled_acl_rule_is_enabled (r : LanAdmin.lan_request VirtualACLRule) (b : VirtualACLRule) (s s' : DB) (resp : LanAdmin.lan_response) :
  LanAdmin.lr_Method r = "POST"%string -> LanAdmin.lr_Body r = Some b -> acl_Enabled b = false ->
  answers (LanAdmin.handleAdminLANACLRules r) s resp s' ->
  exists row, resp = LanAdmin.RespRule row /\ acl_Enabled row = true /\ acl_NetworkID row = acl_NetworkID b /\
    forall l, ControlStore.ListVirtualACLRules (acl_NetworkID b) s' = Ok l -> row ∈ l.
Proof.
  intros HM HB Hb. unfold LanAdmin.handleAdminLANACLRules, LanAdmin.is_get, LanAdmin.is_post. rewrite HM, HB.
  rewrite bool_decide_false, bool_decide_true by done.
  intros (rule & s1 & [E ->]%answers_pure & H)%answers_bind. apply decoded_acl in E as (_ & En & Hp).
  apply answers_bind in H as (row & s2 & HC & [-> ->]%answers_ret). assert (HC' : ControlStore.CreateVirtualACLRule rule s = (Ok row, s2)) by exact (f_equal (default (Ok row, s)) HC).
  apply created_acl in HC' as (He & Hn & P). exists row. split_and!; [done|done|congruence|]. intros l. unfold ControlStore.ListVirtualACLRules.
  intros [Pl _]%find_rows. rewrite Pl. apply list_elem_of_filter. split; [|rewrite P; by left].
  unfold for_network. rewrite decide_True by lia. apply Z.eqb_eq. congruence.
Qed.
End Lan.

(* ------------------------------------------------------------------ *)
(** ** Witnesses *)

Section Witnesses.
  #[local] Existing Instances binary_collation ascii_unicode bin_time bin_time_laws toy_like toy_metadata.


(** An administrator whose password was changed before, and one second. *)
Definition toy_control : control_db memory_table :=
  snd (ControlStore.ClearAdminPasswordChangeRequired "admin" (snd (ControlStore.UpsertAdminUser
    (mkAdminUser "admin" "admin" "Administrator" "admin" true 1 "password" "" "") (empty_db (fun _ => 0))))).

Definition toy_changed : AdminUser := mkAdminUser "admin" "admin" "Administrator" "admin" false 1 "password" (RFC3339 0) (RFC3339 0).

Lemma second_password_change_is_404_witness :
  exists s2 u', AdminAuth.handleChangePassword (AP := AdminAuth.toy_primitives) (AdminAuth.toy_rq x01) (AdminAuth.mkClaims "admin" "admin" 1 1 0)
      (Some ("password", "new-password")%string) toy_control = (Err ErrNoRows, s2) /\
    stored_admins s2 !! "admin"%string = Some u' /\ au_PasswordHash u' = "new-password"%string.
Proof.
  assert (HG : GetAdminUserByID "admin" toy_control = Ok toy_changed) by (vm_compute; reflexivity).
  assert (HU : fst (UpdateAdminPassword "admin" "new-password" toy_control) = None) by (vm_compute; reflexivity).
  assert (HC : fst (ClearAdminPasswordChangeRequired "admin" (snd (UpdateAdminPassword "admin" "new-password" toy_control))) = Some ErrNoRows)
    by (vm_compute; reflexivity).
  destruct (second_password_change_is_404 (AP := AdminAuth.toy_primitives) binary_binary (AdminAuth.toy_rq x01) (AdminAuth.mkClaims "admin" "admin" 1 1 0)
    "password" "new-password" "new-password" toy_changed toy_control (snd (UpdateAdminPassword "admin" "new-password" toy_control)))
    as (s2 & u' & H & _ & Hu & Hh & _).
  - reflexivity.
  - cbn. lia.
  - exact HG.
  - reflexivity.
  - reflexivity.
  - reflexivity.
  - reflexivity.
  - reflexivity.
  - rewrite <- HU. apply surjective_pairing.
  - intros e He. assert (HE : Some e = Some ErrNoRows) by (rewrite <- He; exact HC). by injection HE.
  - exists s2, u'. split; [exact H|]. split; [exact Hu|exact Hh].
Defined.

(** A rule that denies everything, not enabled. *)
Definition toy_acl : VirtualACLRule := mkVirtualACLRule 0 1 "" "" "" "" "any" 0 0 "deny" false "" "".
Definition toy_acl_request : LanAdmin.lan_request VirtualACLRule :=
  {| LanAdmin.lr_Method := "POST"; LanAdmin.lr_Path := "/api/admin/lan/acl"; LanAdmin.lr_Query := fun _ => ""%string; LanAdmin.lr_Body := Some toy_acl |}.

Lemma disabled_acl_rule_is_enabled_witness :
  exists row s', answers (LanAdmin.handleAdminLANACLRules toy_acl_request) toy_control (LanAdmin.RespRule row) s' /\ acl_Enabled row = true.
Proof.
  assert (HR : match LanAdmin.handleAdminLANACLRules toy_acl_request toy_control with Some (Ok _, _) => True | _ => False end) by (vm_compute; exact I).
  destruct (LanAdmin.handleAdminLANACLRules toy_acl_request toy_control) as [[[resp|e] s']|] eqn:E; [|destruct HR|destruct HR].
  destruct (disabled_acl_rule_is_enabled toy_acl_request toy_acl toy_control s' resp eq_refl eq_refl eq_refl E) as (row & -> & He & _).
  exists row, s'. split; [exact E|exact He].
Defined.
End Witnesses.
