(* ===== verification/Settings.v ===== *)
(** * Settings: the configuration of the server (internal/config/config.go, internal/server/settings.go)

    The configuration of a start, from the environment file; the settings an
    administrator changes while the server runs (handlers_admin.go), kept in the
    database; and how a start brings the two together. Durations are printed and parsed
    by the time package, the class [GoDuration]. The loops over maps go in the order of
    the lists the code builds them from. *)

From S2P Require Import Prelude GoStrings ServerUtil Gorm.
From S2P Require ControlStore.

(* ------------------------------------------------------------------ *)
(** ** The configuration *)

Record Server : Type := mkServer {
  sv_UDPListen : string; sv_StunAltListen : string; sv_HTTPListen : string; sv_ControlDatabaseDSN : string; sv_AdminJWTSecret : string;
  sv_AdminAccessTokenTTL : Duration; sv_AdminRefreshTokenTTL : Duration; sv_PSK : string; sv_PeerTTL : Duration; sv_PairTTL : Duration;
  sv_RelayIdleTimeout : Duration; sv_AllowRelay : bool; sv_LANAllowRelay : bool; sv_AllowLegacy : bool; sv_ClientNoUPnP : bool;
  sv_ClientUPnPTimeout : Duration; sv_ClientLogLevel : string; sv_ClientTrayEnabled : bool; sv_ClientPunchTimeout : Duration;
  sv_ClientForceRelay : bool; sv_ClientAllowLegacy : bool; sv_ClientReleaseVersion : string; sv_ClientReleaseURL : string;
  sv_ClientReleaseSHA256 : string; sv_ClientReleasePublishedAt : string; sv_ClientReleaseNotes : string; sv_ClientReleaseMinimumSupported
  : string; sv_ClientReleaseFile : string; sv_LANReleaseVersion : string; sv_LANReleaseURL : string; sv_LANReleaseSHA256 : string;
  sv_LANReleasePublishedAt : string; sv_LANReleaseNotes : string; sv_LANReleaseMinimumSupported : string; sv_LANReleaseFile : string }.

Definition set_UDPListen (v : string) (c : Server) : Server :=
  mkServer v (sv_StunAltListen c) (sv_HTTPListen c) (sv_ControlDatabaseDSN c) (sv_AdminJWTSecret c) (sv_AdminAccessTokenTTL c)
  (sv_AdminRefreshTokenTTL c) (sv_PSK c) (sv_PeerTTL c) (sv_PairTTL c) (sv_RelayIdleTimeout c) (sv_AllowRelay c) (sv_LANAllowRelay c)
  (sv_AllowLegacy c) (sv_ClientNoUPnP c) (sv_ClientUPnPTimeout c) (sv_ClientLogLevel c) (sv_ClientTrayEnabled c) (sv_ClientPunchTimeout c)
  (sv_ClientForceRelay c) (sv_ClientAllowLegacy c) (sv_ClientReleaseVersion c) (sv_ClientReleaseURL c) (sv_ClientReleaseSHA256 c)
  (sv_ClientReleasePublishedAt c) (sv_ClientReleaseNotes c) (sv_ClientReleaseMinimumSupported c) (sv_ClientReleaseFile c)
  (sv_LANReleaseVersion c) (sv_LANReleaseURL c) (sv_LANReleaseSHA256 c) (sv_LANReleasePublishedAt c) (sv_LANReleaseNotes c)
  (sv_LANReleaseMinimumSupported c) (sv_LANReleaseFile c).
Definition set_StunAltListen (v : string) (c : Server) : Server :=
  mkServer (sv_UDPListen c) v (sv_HTTPListen c) (sv_ControlDatabaseDSN c) (sv_AdminJWTSecret c) (sv_AdminAccessTokenTTL c)
  (sv_AdminRefreshTokenTTL c) (sv_PSK c) (sv_PeerTTL c) (sv_PairTTL c) (sv_RelayIdleTimeout c) (sv_AllowRelay c) (sv_LANAllowRelay c)
  (sv_AllowLegacy c) (sv_ClientNoUPnP c) (sv_ClientUPnPTimeout c) (sv_ClientLogLevel c) (sv_ClientTrayEnabled c) (sv_ClientPunchTimeout c)
  (sv_ClientForceRelay c) (sv_ClientAllowLegacy c) (sv_ClientReleaseVersion c) (sv_ClientReleaseURL c) (sv_ClientReleaseSHA256 c)
  (sv_ClientReleasePublishedAt c) (sv_ClientReleaseNotes c) (sv_ClientReleaseMinimumSupported c) (sv_ClientReleaseFile c)
  (sv_LANReleaseVersion c) (sv_LANReleaseURL c) (sv_LANReleaseSHA256 c) (sv_LANReleasePublishedAt c) (sv_LANReleaseNotes c)
  (sv_LANReleaseMinimumSupported c) (sv_LANReleaseFile c).
Definition set_HTTPListen (v : string) (c : Server) : Server :=
  mkServer (sv_UDPListen c) (sv_StunAltListen c) v (sv_ControlDatabaseDSN c) (sv_AdminJWTSecret c) (sv_AdminAccessTokenTTL c)
  (sv_AdminRefreshTokenTTL c) (sv_PSK c) (sv_PeerTTL c) (sv_PairTTL c) (sv_RelayIdleTimeout c) (sv_AllowRelay c) (sv_LANAllowRelay c)
  (sv_AllowLegacy c) (sv_ClientNoUPnP c) (sv_ClientUPnPTimeout c) (sv_ClientLogLevel c) (sv_ClientTrayEnabled c) (sv_ClientPunchTimeout c)
  (sv_ClientForceRelay c) (sv_ClientAllowLegacy c) (sv_ClientReleaseVersion c) (sv_ClientReleaseURL c) (sv_ClientReleaseSHA256 c)
  (sv_ClientReleasePublishedAt c) (sv_ClientReleaseNotes c) (sv_ClientReleaseMinimumSupported c) (sv_ClientReleaseFile c)
  (sv_LANReleaseVersion c) (sv_LANReleaseURL c) (sv_LANReleaseSHA256 c) (sv_LANReleasePublishedAt c) (sv_LANReleaseNotes c)
  (sv_LANReleaseMinimumSupported c) (sv_LANReleaseFile c).
Definition set_ControlDatabaseDSN (v : string) (c : Server) : Server :=
  mkServer (sv_UDPListen c) (sv_StunAltListen c) (sv_HTTPListen c) v (sv_AdminJWTSecret c) (sv_AdminAccessTokenTTL c)
  (sv_AdminRefreshTokenTTL c) (sv_PSK c) (sv_PeerTTL c) (sv_PairTTL c) (sv_RelayIdleTimeout c) (sv_AllowRelay c) (sv_LANAllowRelay c)
  (sv_AllowLegacy c) (sv_ClientNoUPnP c) (sv_ClientUPnPTimeout c) (sv_ClientLogLevel c) (sv_ClientTrayEnabled c) (sv_ClientPunchTimeout c)
  (sv_ClientForceRelay c) (sv_ClientAllowLegacy c) (sv_ClientReleaseVersion c) (sv_ClientReleaseURL c) (sv_ClientReleaseSHA256 c)
  (sv_ClientReleasePublishedAt c) (sv_ClientReleaseNotes c) (sv_ClientReleaseMinimumSupported c) (sv_ClientReleaseFile c)
  (sv_LANReleaseVersion c) (sv_LANReleaseURL c) (sv_LANReleaseSHA256 c) (sv_LANReleasePublishedAt c) (sv_LANReleaseNotes c)
  (sv_LANReleaseMinimumSupported c) (sv_LANReleaseFile c).
Definition set_AdminJWTSecret (v : string) (c : Server) : Server :=
  mkServer (sv_UDPListen c) (sv_StunAltListen c) (sv_HTTPListen c) (sv_ControlDatabaseDSN c) v (sv_AdminAccessTokenTTL c)
  (sv_AdminRefreshTokenTTL c) (sv_PSK c) (sv_PeerTTL c) (sv_PairTTL c) (sv_RelayIdleTimeout c) (sv_AllowRelay c) (sv_LANAllowRelay c)
  (sv_AllowLegacy c) (sv_ClientNoUPnP c) (sv_ClientUPnPTimeout c) (sv_ClientLogLevel c) (sv_ClientTrayEnabled c) (sv_ClientPunchTimeout c)
  (sv_ClientForceRelay c) (sv_ClientAllowLegacy c) (sv_ClientReleaseVersion c) (sv_ClientReleaseURL c) (sv_ClientReleaseSHA256 c)
  (sv_ClientReleasePublishedAt c) (sv_ClientReleaseNotes c) (sv_ClientReleaseMinimumSupported c) (sv_ClientReleaseFile c)
  (sv_LANReleaseVersion c) (sv_LANReleaseURL c) (sv_LANReleaseSHA256 c) (sv_LANReleasePublishedAt c) (sv_LANReleaseNotes c)
  (sv_LANReleaseMinimumSupported c) (sv_LANReleaseFile c).
Definition set_AdminAccessTokenTTL (v : Duration) (c : Server) : Server :=
  mkServer (sv_UDPListen c) (sv_StunAltListen c) (sv_HTTPListen c) (sv_ControlDatabaseDSN c) (sv_AdminJWTSecret c) v
  (sv_AdminRefreshTokenTTL c) (sv_PSK c) (sv_PeerTTL c) (sv_PairTTL c) (sv_RelayIdleTimeout c) (sv_AllowRelay c) (sv_LANAllowRelay c)
  (sv_AllowLegacy c) (sv_ClientNoUPnP c) (sv_ClientUPnPTimeout c) (sv_ClientLogLevel c) (sv_ClientTrayEnabled c) (sv_ClientPunchTimeout c)
  (sv_ClientForceRelay c) (sv_ClientAllowLegacy c) (sv_ClientReleaseVersion c) (sv_ClientReleaseURL c) (sv_ClientReleaseSHA256 c)
  (sv_ClientReleasePublishedAt c) (sv_ClientReleaseNotes c) (sv_ClientReleaseMinimumSupported c) (sv_ClientReleaseFile c)
  (sv_LANReleaseVersion c) (sv_LANReleaseURL c) (sv_LANReleaseSHA256 c) (sv_LANReleasePublishedAt c) (sv_LANReleaseNotes c)
  (sv_LANReleaseMinimumSupported c) (sv_LANReleaseFile c).
Definition set_AdminRefreshTokenTTL (v : Duration) (c : Server) : Server :=
  mkServer (sv_UDPListen c) (sv_StunAltListen c) (sv_HTTPListen c) (sv_ControlDatabaseDSN c) (sv_AdminJWTSecret c) (sv_AdminAccessTokenTTL
  c) v (sv_PSK c) (sv_PeerTTL c) (sv_PairTTL c) (sv_RelayIdleTimeout c) (sv_AllowRelay c) (sv_LANAllowRelay c) (sv_AllowLegacy c)
  (sv_ClientNoUPnP c) (sv_ClientUPnPTimeout c) (sv_ClientLogLevel c) (sv_ClientTrayEnabled c) (sv_ClientPunchTimeout c)
  (sv_ClientForceRelay c) (sv_ClientAllowLegacy c) (sv_ClientReleaseVersion c) (sv_ClientReleaseURL c) (sv_ClientReleaseSHA256 c)
  (sv_ClientReleasePublishedAt c) (sv_ClientReleaseNotes c) (sv_ClientReleaseMinimumSupported c) (sv_ClientReleaseFile c)
  (sv_LANReleaseVersion c) (sv_LANReleaseURL c) (sv_LANReleaseSHA256 c) (sv_LANReleasePublishedAt c) (sv_LANReleaseNotes c)
  (sv_LANReleaseMinimumSupported c) (sv_LANReleaseFile c).
Definition set_PSK (v : string) (c : Server) : Server :=
  mkServer (sv_UDPListen c) (sv_StunAltListen c) (sv_HTTPListen c) (sv_ControlDatabaseDSN c) (sv_AdminJWTSecret c) (sv_AdminAccessTokenTTL
  c) (sv_AdminRefreshTokenTTL c) v (sv_PeerTTL c) (sv_PairTTL c) (sv_RelayIdleTimeout c) (sv_AllowRelay c) (sv_LANAllowRelay c)
  (sv_AllowLegacy c) (sv_ClientNoUPnP c) (sv_ClientUPnPTimeout c) (sv_ClientLogLevel c) (sv_ClientTrayEnabled c) (sv_ClientPunchTimeout c)
  (sv_ClientForceRelay c) (sv_ClientAllowLegacy c) (sv_ClientReleaseVersion c) (sv_ClientReleaseURL c) (sv_ClientReleaseSHA256 c)
  (sv_ClientReleasePublishedAt c) (sv_ClientReleaseNotes c) (sv_ClientReleaseMinimumSupported c) (sv_ClientReleaseFile c)
  (sv_LANReleaseVersion c) (sv_LANReleaseURL c) (sv_LANReleaseSHA256 c) (sv_LANReleasePublishedAt c) (sv_LANReleaseNotes c)
  (sv_LANReleaseMinimumSupported c) (sv_LANReleaseFile c).
Definition set_PeerTTL (v : Duration) (c : Server) : Server :=
  mkServer (sv_UDPListen c) (sv_StunAltListen c) (sv_HTTPListen c) (sv_ControlDatabaseDSN c) (sv_AdminJWTSecret c) (sv_AdminAccessTokenTTL
  c) (sv_AdminRefreshTokenTTL c) (sv_PSK c) v (sv_PairTTL c) (sv_RelayIdleTimeout c) (sv_AllowRelay c) (sv_LANAllowRelay c)
  (sv_AllowLegacy c) (sv_ClientNoUPnP c) (sv_ClientUPnPTimeout c) (sv_ClientLogLevel c) (sv_ClientTrayEnabled c) (sv_ClientPunchTimeout c)
  (sv_ClientForceRelay c) (sv_ClientAllowLegacy c) (sv_ClientReleaseVersion c) (sv_ClientReleaseURL c) (sv_ClientReleaseSHA256 c)
  (sv_ClientReleasePublishedAt c) (sv_ClientReleaseNotes c) (sv_ClientReleaseMinimumSupported c) (sv_ClientReleaseFile c)
  (sv_LANReleaseVersion c) (sv_LANReleaseURL c) (sv_LANReleaseSHA256 c) (sv_LANReleasePublishedAt c) (sv_LANReleaseNotes c)
  (sv_LANReleaseMinimumSupported c) (sv_LANReleaseFile c).
Definition set_PairTTL (v : Duration) (c : Server) : Server :=
  mkServer (sv_UDPListen c) (sv_StunAltListen c) (sv_HTTPListen c) (sv_ControlDatabaseDSN c) (sv_AdminJWTSecret c) (sv_AdminAccessTokenTTL
  c) (sv_AdminRefreshTokenTTL c) (sv_PSK c) (sv_PeerTTL c) v (sv_RelayIdleTimeout c) (sv_AllowRelay c) (sv_LANAllowRelay c)
  (sv_AllowLegacy c) (sv_ClientNoUPnP c) (sv_ClientUPnPTimeout c) (sv_ClientLogLevel c) (sv_ClientTrayEnabled c) (sv_ClientPunchTimeout c)
  (sv_ClientForceRelay c) (sv_ClientAllowLegacy c) (sv_ClientReleaseVersion c) (sv_ClientReleaseURL c) (sv_ClientReleaseSHA256 c)
  (sv_ClientReleasePublishedAt c) (sv_ClientReleaseNotes c) (sv_ClientReleaseMinimumSupported c) (sv_ClientReleaseFile c)
  (sv_LANReleaseVersion c) (sv_LANReleaseURL c) (sv_LANReleaseSHA256 c) (sv_LANReleasePublishedAt c) (sv_LANReleaseNotes c)
  (sv_LANReleaseMinimumSupported c) (sv_LANReleaseFile c).
Definition set_RelayIdleTimeout (v : Duration) (c : Server) : Server :=
  mkServer (sv_UDPListen c) (sv_StunAltListen c) (sv_HTTPListen c) (sv_ControlDatabaseDSN c) (sv_AdminJWTSecret c) (sv_AdminAccessTokenTTL
  c) (sv_AdminRefreshTokenTTL c) (sv_PSK c) (sv_PeerTTL c) (sv_PairTTL c) v (sv_AllowRelay c) (sv_LANAllowRelay c) (sv_AllowLegacy c)
  (sv_ClientNoUPnP c) (sv_ClientUPnPTimeout c) (sv_ClientLogLevel c) (sv_ClientTrayEnabled c) (sv_ClientPunchTimeout c)
  (sv_ClientForceRelay c) (sv_ClientAllowLegacy c) (sv_ClientReleaseVersion c) (sv_ClientReleaseURL c) (sv_ClientReleaseSHA256 c)
  (sv_ClientReleasePublishedAt c) (sv_ClientReleaseNotes c) (sv_ClientReleaseMinimumSupported c) (sv_ClientReleaseFile c)
  (sv_LANReleaseVersion c) (sv_LANReleaseURL c) (sv_LANReleaseSHA256 c) (sv_LANReleasePublishedAt c) (sv_LANReleaseNotes c)
  (sv_LANReleaseMinimumSupported c) (sv_LANReleaseFile c).
Definition set_AllowRelay (v : bool) (c : Server) : Server :=
  mkServer (sv_UDPListen c) (sv_StunAltListen c) (sv_HTTPListen c) (sv_ControlDatabaseDSN c) (sv_AdminJWTSecret c) (sv_AdminAccessTokenTTL
  c) (sv_AdminRefreshTokenTTL c) (sv_PSK c) (sv_PeerTTL c) (sv_PairTTL c) (sv_RelayIdleTimeout c) v (sv_LANAllowRelay c) (sv_AllowLegacy
  c) (sv_ClientNoUPnP c) (sv_ClientUPnPTimeout c) (sv_ClientLogLevel c) (sv_ClientTrayEnabled c) (sv_ClientPunchTimeout c)
  (sv_ClientForceRelay c) (sv_ClientAllowLegacy c) (sv_ClientReleaseVersion c) (sv_ClientReleaseURL c) (sv_ClientReleaseSHA256 c)
  (sv_ClientReleasePublishedAt c) (sv_ClientReleaseNotes c) (sv_ClientReleaseMinimumSupported c) (sv_ClientReleaseFile c)
  (sv_LANReleaseVersion c) (sv_LANReleaseURL c) (sv_LANReleaseSHA256 c) (sv_LANReleasePublishedAt c) (sv_LANReleaseNotes c)
  (sv_LANReleaseMinimumSupported c) (sv_LANReleaseFile c).
Definition set_LANAllowRelay (v : bool) (c : Server) : Server :=
  mkServer (sv_UDPListen c) (sv_StunAltListen c) (sv_HTTPListen c) (sv_ControlDatabaseDSN c) (sv_AdminJWTSecret c) (sv_AdminAccessTokenTTL
  c) (sv_AdminRefreshTokenTTL c) (sv_PSK c) (sv_PeerTTL c) (sv_PairTTL c) (sv_RelayIdleTimeout c) (sv_AllowRelay c) v (sv_AllowLegacy c)
  (sv_ClientNoUPnP c) (sv_ClientUPnPTimeout c) (sv_ClientLogLevel c) (sv_ClientTrayEnabled c) (sv_ClientPunchTimeout c)
  (sv_ClientForceRelay c) (sv_ClientAllowLegacy c) (sv_ClientReleaseVersion c) (sv_ClientReleaseURL c) (sv_ClientReleaseSHA256 c)
  (sv_ClientReleasePublishedAt c) (sv_ClientReleaseNotes c) (sv_ClientReleaseMinimumSupported c) (sv_ClientReleaseFile c)
  (sv_LANReleaseVersion c) (sv_LANReleaseURL c) (sv_LANReleaseSHA256 c) (sv_LANReleasePublishedAt c) (sv_LANReleaseNotes c)
  (sv_LANReleaseMinimumSupported c) (sv_LANReleaseFile c).
Definition set_AllowLegacy (v : bool) (c : Server) : Server :=
  mkServer (sv_UDPListen c) (sv_StunAltListen c) (sv_HTTPListen c) (sv_ControlDatabaseDSN c) (sv_AdminJWTSecret c) (sv_AdminAccessTokenTTL
  c) (sv_AdminRefreshTokenTTL c) (sv_PSK c) (sv_PeerTTL c) (sv_PairTTL c) (sv_RelayIdleTimeout c) (sv_AllowRelay c) (sv_LANAllowRelay c) v
  (sv_ClientNoUPnP c) (sv_ClientUPnPTimeout c) (sv_ClientLogLevel c) (sv_ClientTrayEnabled c) (sv_ClientPunchTimeout c)
  (sv_ClientForceRelay c) (sv_ClientAllowLegacy c) (sv_ClientReleaseVersion c) (sv_ClientReleaseURL c) (sv_ClientReleaseSHA256 c)
  (sv_ClientReleasePublishedAt c) (sv_ClientReleaseNotes c) (sv_ClientReleaseMinimumSupported c) (sv_ClientReleaseFile c)
  (sv_LANReleaseVersion c) (sv_LANReleaseURL c) (sv_LANReleaseSHA256 c) (sv_LANReleasePublishedAt c) (sv_LANReleaseNotes c)
  (sv_LANReleaseMinimumSupported c) (sv_LANReleaseFile c).
Definition set_ClientNoUPnP (v : bool) (c : Server) : Server :=
  mkServer (sv_UDPListen c) (sv_StunAltListen c) (sv_HTTPListen c) (sv_ControlDatabaseDSN c) (sv_AdminJWTSecret c) (sv_AdminAccessTokenTTL
  c) (sv_AdminRefreshTokenTTL c) (sv_PSK c) (sv_PeerTTL c) (sv_PairTTL c) (sv_RelayIdleTimeout c) (sv_AllowRelay c) (sv_LANAllowRelay c)
  (sv_AllowLegacy c) v (sv_ClientUPnPTimeout c) (sv_ClientLogLevel c) (sv_ClientTrayEnabled c) (sv_ClientPunchTimeout c)
  (sv_ClientForceRelay c) (sv_ClientAllowLegacy c) (sv_ClientReleaseVersion c) (sv_ClientReleaseURL c) (sv_ClientReleaseSHA256 c)
  (sv_ClientReleasePublishedAt c) (sv_ClientReleaseNotes c) (sv_ClientReleaseMinimumSupported c) (sv_ClientReleaseFile c)
  (sv_LANReleaseVersion c) (sv_LANReleaseURL c) (sv_LANReleaseSHA256 c) (sv_LANReleasePublishedAt c) (sv_LANReleaseNotes c)
  (sv_LANReleaseMinimumSupported c) (sv_LANReleaseFile c).
Definition set_ClientUPnPTimeout (v : Duration) (c : Server) : Server :=
  mkServer (sv_UDPListen c) (sv_StunAltListen c) (sv_HTTPListen c) (sv_ControlDatabaseDSN c) (sv_AdminJWTSecret c) (sv_AdminAccessTokenTTL
  c) (sv_AdminRefreshTokenTTL c) (sv_PSK c) (sv_PeerTTL c) (sv_PairTTL c) (sv_RelayIdleTimeout c) (sv_AllowRelay c) (sv_LANAllowRelay c)
  (sv_AllowLegacy c) (sv_ClientNoUPnP c) v (sv_ClientLogLevel c) (sv_ClientTrayEnabled c) (sv_ClientPunchTimeout c) (sv_ClientForceRelay
  c) (sv_ClientAllowLegacy c) (sv_ClientReleaseVersion c) (sv_ClientReleaseURL c) (sv_ClientReleaseSHA256 c) (sv_ClientReleasePublishedAt
  c) (sv_ClientReleaseNotes c) (sv_ClientReleaseMinimumSupported c) (sv_ClientReleaseFile c) (sv_LANReleaseVersion c) (sv_LANReleaseURL c)
  (sv_LANReleaseSHA256 c) (sv_LANReleasePublishedAt c) (sv_LANReleaseNotes c) (sv_LANReleaseMinimumSupported c) (sv_LANReleaseFile c).
Definition set_ClientLogLevel (v : string) (c : Server) : Server :=
  mkServer (sv_UDPListen c) (sv_StunAltListen c) (sv_HTTPListen c) (sv_ControlDatabaseDSN c) (sv_AdminJWTSecret c) (sv_AdminAccessTokenTTL
  c) (sv_AdminRefreshTokenTTL c) (sv_PSK c) (sv_PeerTTL c) (sv_PairTTL c) (sv_RelayIdleTimeout c) (sv_AllowRelay c) (sv_LANAllowRelay c)
  (sv_AllowLegacy c) (sv_ClientNoUPnP c) (sv_ClientUPnPTimeout c) v (sv_ClientTrayEnabled c) (sv_ClientPunchTimeout c)
  (sv_ClientForceRelay c) (sv_ClientAllowLegacy c) (sv_ClientReleaseVersion c) (sv_ClientReleaseURL c) (sv_ClientReleaseSHA256 c)
  (sv_ClientReleasePublishedAt c) (sv_ClientReleaseNotes c) (sv_ClientReleaseMinimumSupported c) (sv_ClientReleaseFile c)
  (sv_LANReleaseVersion c) (sv_LANReleaseURL c) (sv_LANReleaseSHA256 c) (sv_LANReleasePublishedAt c) (sv_LANReleaseNotes c)
  (sv_LANReleaseMinimumSupported c) (sv_LANReleaseFile c).
Definition set_ClientTrayEnabled (v : bool) (c : Server) : Server :=
  mkServer (sv_UDPListen c) (sv_StunAltListen c) (sv_HTTPListen c) (sv_ControlDatabaseDSN c) (sv_AdminJWTSecret c) (sv_AdminAccessTokenTTL
  c) (sv_AdminRefreshTokenTTL c) (sv_PSK c) (sv_PeerTTL c) (sv_PairTTL c) (sv_RelayIdleTimeout c) (sv_AllowRelay c) (sv_LANAllowRelay c)
  (sv_AllowLegacy c) (sv_ClientNoUPnP c) (sv_ClientUPnPTimeout c) (sv_ClientLogLevel c) v (sv_ClientPunchTimeout c) (sv_ClientForceRelay
  c) (sv_ClientAllowLegacy c) (sv_ClientReleaseVersion c) (sv_ClientReleaseURL c) (sv_ClientReleaseSHA256 c) (sv_ClientReleasePublishedAt
  c) (sv_ClientReleaseNotes c) (sv_ClientReleaseMinimumSupported c) (sv_ClientReleaseFile c) (sv_LANReleaseVersion c) (sv_LANReleaseURL c)
  (sv_LANReleaseSHA256 c) (sv_LANReleasePublishedAt c) (sv_LANReleaseNotes c) (sv_LANReleaseMinimumSupported c) (sv_LANReleaseFile c).
Definition set_ClientPunchTimeout (v : Duration) (c : Server) : Server :=
  mkServer (sv_UDPListen c) (sv_StunAltListen c) (sv_HTTPListen c) (sv_ControlDatabaseDSN c) (sv_AdminJWTSecret c) (sv_AdminAccessTokenTTL
  c) (sv_AdminRefreshTokenTTL c) (sv_PSK c) (sv_PeerTTL c) (sv_PairTTL c) (sv_RelayIdleTimeout c) (sv_AllowRelay c) (sv_LANAllowRelay c)
  (sv_AllowLegacy c) (sv_ClientNoUPnP c) (sv_ClientUPnPTimeout c) (sv_ClientLogLevel c) (sv_ClientTrayEnabled c) v (sv_ClientForceRelay c)
  (sv_ClientAllowLegacy c) (sv_ClientReleaseVersion c) (sv_ClientReleaseURL c) (sv_ClientReleaseSHA256 c) (sv_ClientReleasePublishedAt c)
  (sv_ClientReleaseNotes c) (sv_ClientReleaseMinimumSupported c) (sv_ClientReleaseFile c) (sv_LANReleaseVersion c) (sv_LANReleaseURL c)
  (sv_LANReleaseSHA256 c) (sv_LANReleasePublishedAt c) (sv_LANReleaseNotes c) (sv_LANReleaseMinimumSupported c) (sv_LANReleaseFile c).
Definition set_ClientForceRelay (v : bool) (c : Server) : Server :=
  mkServer (sv_UDPListen c) (sv_StunAltListen c) (sv_HTTPListen c) (sv_ControlDatabaseDSN c) (sv_AdminJWTSecret c) (sv_AdminAccessTokenTTL
  c) (sv_AdminRefreshTokenTTL c) (sv_PSK c) (sv_PeerTTL c) (sv_PairTTL c) (sv_RelayIdleTimeout c) (sv_AllowRelay c) (sv_LANAllowRelay c)
  (sv_AllowLegacy c) (sv_ClientNoUPnP c) (sv_ClientUPnPTimeout c) (sv_ClientLogLevel c) (sv_ClientTrayEnabled c) (sv_ClientPunchTimeout c)
  v (sv_ClientAllowLegacy c) (sv_ClientReleaseVersion c) (sv_ClientReleaseURL c) (sv_ClientReleaseSHA256 c) (sv_ClientReleasePublishedAt
  c) (sv_ClientReleaseNotes c) (sv_ClientReleaseMinimumSupported c) (sv_ClientReleaseFile c) (sv_LANReleaseVersion c) (sv_LANReleaseURL c)
  (sv_LANReleaseSHA256 c) (sv_LANReleasePublishedAt c) (sv_LANReleaseNotes c) (sv_LANReleaseMinimumSupported c) (sv_LANReleaseFile c).
Definition set_ClientAllowLegacy (v : bool) (c : Server) : Server :=
  mkServer (sv_UDPListen c) (sv_StunAltListen c) (sv_HTTPListen c) (sv_ControlDatabaseDSN c) (sv_AdminJWTSecret c) (sv_AdminAccessTokenTTL
  c) (sv_AdminRefreshTokenTTL c) (sv_PSK c) (sv_PeerTTL c) (sv_PairTTL c) (sv_RelayIdleTimeout c) (sv_AllowRelay c) (sv_LANAllowRelay c)
  (sv_AllowLegacy c) (sv_ClientNoUPnP c) (sv_ClientUPnPTimeout c) (sv_ClientLogLevel c) (sv_ClientTrayEnabled c) (sv_ClientPunchTimeout c)
  (sv_ClientForceRelay c) v (sv_ClientReleaseVersion c) (sv_ClientReleaseURL c) (sv_ClientReleaseSHA256 c) (sv_ClientReleasePublishedAt c)
  (sv_ClientReleaseNotes c) (sv_ClientReleaseMinimumSupported c) (sv_ClientReleaseFile c) (sv_LANReleaseVersion c) (sv_LANReleaseURL c)
  (sv_LANReleaseSHA256 c) (sv_LANReleasePublishedAt c) (sv_LANReleaseNotes c) (sv_LANReleaseMinimumSupported c) (sv_LANReleaseFile c).
Definition set_ClientReleaseVersion (v : string) (c : Server) : Server :=
  mkServer (sv_UDPListen c) (sv_StunAltListen c) (sv_HTTPListen c) (sv_ControlDatabaseDSN c) (sv_AdminJWTSecret c) (sv_AdminAccessTokenTTL
  c) (sv_AdminRefreshTokenTTL c) (sv_PSK c) (sv_PeerTTL c) (sv_PairTTL c) (sv_RelayIdleTimeout c) (sv_AllowRelay c) (sv_LANAllowRelay c)
  (sv_AllowLegacy c) (sv_ClientNoUPnP c) (sv_ClientUPnPTimeout c) (sv_ClientLogLevel c) (sv_ClientTrayEnabled c) (sv_ClientPunchTimeout c)
  (sv_ClientForceRelay c) (sv_ClientAllowLegacy c) v (sv_ClientReleaseURL c) (sv_ClientReleaseSHA256 c) (sv_ClientReleasePublishedAt c)
  (sv_ClientReleaseNotes c) (sv_ClientReleaseMinimumSupported c) (sv_ClientReleaseFile c) (sv_LANReleaseVersion c) (sv_LANReleaseURL c)
  (sv_LANReleaseSHA256 c) (sv_LANReleasePublishedAt c) (sv_LANReleaseNotes c) (sv_LANReleaseMinimumSupported c) (sv_LANReleaseFile c).
Definition set_ClientReleaseURL (v : string) (c : Server) : Server :=
  mkServer (sv_UDPListen c) (sv_StunAltListen c) (sv_HTTPListen c) (sv_ControlDatabaseDSN c) (sv_AdminJWTSecret c) (sv_AdminAccessTokenTTL
  c) (sv_AdminRefreshTokenTTL c) (sv_PSK c) (sv_PeerTTL c) (sv_PairTTL c) (sv_RelayIdleTimeout c) (sv_AllowRelay c) (sv_LANAllowRelay c)
  (sv_AllowLegacy c) (sv_ClientNoUPnP c) (sv_ClientUPnPTimeout c) (sv_ClientLogLevel c) (sv_ClientTrayEnabled c) (sv_ClientPunchTimeout c)
  (sv_ClientForceRelay c) (sv_ClientAllowLegacy c) (sv_ClientReleaseVersion c) v (sv_ClientReleaseSHA256 c) (sv_ClientReleasePublishedAt
  c) (sv_ClientReleaseNotes c) (sv_ClientReleaseMinimumSupported c) (sv_ClientReleaseFile c) (sv_LANReleaseVersion c) (sv_LANReleaseURL c)
  (sv_LANReleaseSHA256 c) (sv_LANReleasePublishedAt c) (sv_LANReleaseNotes c) (sv_LANReleaseMinimumSupported c) (sv_LANReleaseFile c).
Definition set_ClientReleaseSHA256 (v : string) (c : Server) : Server :=
  mkServer (sv_UDPListen c) (sv_StunAltListen c) (sv_HTTPListen c) (sv_ControlDatabaseDSN c) (sv_AdminJWTSecret c) (sv_AdminAccessTokenTTL
  c) (sv_AdminRefreshTokenTTL c) (sv_PSK c) (sv_PeerTTL c) (sv_PairTTL c) (sv_RelayIdleTimeout c) (sv_AllowRelay c) (sv_LANAllowRelay c)
  (sv_AllowLegacy c) (sv_ClientNoUPnP c) (sv_ClientUPnPTimeout c) (sv_ClientLogLevel c) (sv_ClientTrayEnabled c) (sv_ClientPunchTimeout c)
  (sv_ClientForceRelay c) (sv_ClientAllowLegacy c) (sv_ClientReleaseVersion c) (sv_ClientReleaseURL c) v (sv_ClientReleasePublishedAt c)
  (sv_ClientReleaseNotes c) (sv_ClientReleaseMinimumSupported c) (sv_ClientReleaseFile c) (sv_LANReleaseVersion c) (sv_LANReleaseURL c)
  (sv_LANReleaseSHA256 c) (sv_LANReleasePublishedAt c) (sv_LANReleaseNotes c) (sv_LANReleaseMinimumSupported c) (sv_LANReleaseFile c).
Definition set_ClientReleasePublishedAt (v : string) (c : Server) : Server :=
  mkServer (sv_UDPListen c) (sv_StunAltListen c) (sv_HTTPListen c) (sv_ControlDatabaseDSN c) (sv_AdminJWTSecret c) (sv_AdminAccessTokenTTL
  c) (sv_AdminRefreshTokenTTL c) (sv_PSK c) (sv_PeerTTL c) (sv_PairTTL c) (sv_RelayIdleTimeout c) (sv_AllowRelay c) (sv_LANAllowRelay c)
  (sv_AllowLegacy c) (sv_ClientNoUPnP c) (sv_ClientUPnPTimeout c) (sv_ClientLogLevel c) (sv_ClientTrayEnabled c) (sv_ClientPunchTimeout c)
  (sv_ClientForceRelay c) (sv_ClientAllowLegacy c) (sv_ClientReleaseVersion c) (sv_ClientReleaseURL c) (sv_ClientReleaseSHA256 c) v
  (sv_ClientReleaseNotes c) (sv_ClientReleaseMinimumSupported c) (sv_ClientReleaseFile c) (sv_LANReleaseVersion c) (sv_LANReleaseURL c)
  (sv_LANReleaseSHA256 c) (sv_LANReleasePublishedAt c) (sv_LANReleaseNotes c) (sv_LANReleaseMinimumSupported c) (sv_LANReleaseFile c).
Definition set_ClientReleaseNotes (v : string) (c : Server) : Server :=
  mkServer (sv_UDPListen c) (sv_StunAltListen c) (sv_HTTPListen c) (sv_ControlDatabaseDSN c) (sv_AdminJWTSecret c) (sv_AdminAccessTokenTTL
  c) (sv_AdminRefreshTokenTTL c) (sv_PSK c) (sv_PeerTTL c) (sv_PairTTL c) (sv_RelayIdleTimeout c) (sv_AllowRelay c) (sv_LANAllowRelay c)
  (sv_AllowLegacy c) (sv_ClientNoUPnP c) (sv_ClientUPnPTimeout c) (sv_ClientLogLevel c) (sv_ClientTrayEnabled c) (sv_ClientPunchTimeout c)
  (sv_ClientForceRelay c) (sv_ClientAllowLegacy c) (sv_ClientReleaseVersion c) (sv_ClientReleaseURL c) (sv_ClientReleaseSHA256 c)
  (sv_ClientReleasePublishedAt c) v (sv_ClientReleaseMinimumSupported c) (sv_ClientReleaseFile c) (sv_LANReleaseVersion c)
  (sv_LANReleaseURL c) (sv_LANReleaseSHA256 c) (sv_LANReleasePublishedAt c) (sv_LANReleaseNotes c) (sv_LANReleaseMinimumSupported c)
  (sv_LANReleaseFile c).
Definition set_ClientReleaseMinimumSupported (v : string) (c : Server) : Server :=
  mkServer (sv_UDPListen c) (sv_StunAltListen c) (sv_HTTPListen c) (sv_ControlDatabaseDSN c) (sv_AdminJWTSecret c) (sv_AdminAccessTokenTTL
  c) (sv_AdminRefreshTokenTTL c) (sv_PSK c) (sv_PeerTTL c) (sv_PairTTL c) (sv_RelayIdleTimeout c) (sv_AllowRelay c) (sv_LANAllowRelay c)
  (sv_AllowLegacy c) (sv_ClientNoUPnP c) (sv_ClientUPnPTimeout c) (sv_ClientLogLevel c) (sv_ClientTrayEnabled c) (sv_ClientPunchTimeout c)
  (sv_ClientForceRelay c) (sv_ClientAllowLegacy c) (sv_ClientReleaseVersion c) (sv_ClientReleaseURL c) (sv_ClientReleaseSHA256 c)
  (sv_ClientReleasePublishedAt c) (sv_ClientReleaseNotes c) v (sv_ClientReleaseFile c) (sv_LANReleaseVersion c) (sv_LANReleaseURL c)
  (sv_LANReleaseSHA256 c) (sv_LANReleasePublishedAt c) (sv_LANReleaseNotes c) (sv_LANReleaseMinimumSupported c) (sv_LANReleaseFile c).
Definition set_ClientReleaseFile (v : string) (c : Server) : Server :=
  mkServer (sv_UDPListen c) (sv_StunAltListen c) (sv_HTTPListen c) (sv_ControlDatabaseDSN c) (sv_AdminJWTSecret c) (sv_AdminAccessTokenTTL
  c) (sv_AdminRefreshTokenTTL c) (sv_PSK c) (sv_PeerTTL c) (sv_PairTTL c) (sv_RelayIdleTimeout c) (sv_AllowRelay c) (sv_LANAllowRelay c)
  (sv_AllowLegacy c) (sv_ClientNoUPnP c) (sv_ClientUPnPTimeout c) (sv_ClientLogLevel c) (sv_ClientTrayEnabled c) (sv_ClientPunchTimeout c)
  (sv_ClientForceRelay c) (sv_ClientAllowLegacy c) (sv_ClientReleaseVersion c) (sv_ClientReleaseURL c) (sv_ClientReleaseSHA256 c)
  (sv_ClientReleasePublishedAt c) (sv_ClientReleaseNotes c) (sv_ClientReleaseMinimumSupported c) v (sv_LANReleaseVersion c)
  (sv_LANReleaseURL c) (sv_LANReleaseSHA256 c) (sv_LANReleasePublishedAt c) (sv_LANReleaseNotes c) (sv_LANReleaseMinimumSupported c)
  (sv_LANReleaseFile c).
Definition set_LANReleaseVersion (v : string) (c : Server) : Server :=
  mkServer (sv_UDPListen c) (sv_StunAltListen c) (sv_HTTPListen c) (sv_ControlDatabaseDSN c) (sv_AdminJWTSecret c) (sv_AdminAccessTokenTTL
  c) (sv_AdminRefreshTokenTTL c) (sv_PSK c) (sv_PeerTTL c) (sv_PairTTL c) (sv_RelayIdleTimeout c) (sv_AllowRelay c) (sv_LANAllowRelay c)
  (sv_AllowLegacy c) (sv_ClientNoUPnP c) (sv_ClientUPnPTimeout c) (sv_ClientLogLevel c) (sv_ClientTrayEnabled c) (sv_ClientPunchTimeout c)
  (sv_ClientForceRelay c) (sv_ClientAllowLegacy c) (sv_ClientReleaseVersion c) (sv_ClientReleaseURL c) (sv_ClientReleaseSHA256 c)
  (sv_ClientReleasePublishedAt c) (sv_ClientReleaseNotes c) (sv_ClientReleaseMinimumSupported c) (sv_ClientReleaseFile c) v
  (sv_LANReleaseURL c) (sv_LANReleaseSHA256 c) (sv_LANReleasePublishedAt c) (sv_LANReleaseNotes c) (sv_LANReleaseMinimumSupported c)
  (sv_LANReleaseFile c).
Definition set_LANReleaseURL (v : string) (c : Server) : Server :=
  mkServer (sv_UDPListen c) (sv_StunAltListen c) (sv_HTTPListen c) (sv_ControlDatabaseDSN c) (sv_AdminJWTSecret c) (sv_AdminAccessTokenTTL
  c) (sv_AdminRefreshTokenTTL c) (sv_PSK c) (sv_PeerTTL c) (sv_PairTTL c) (sv_RelayIdleTimeout c) (sv_AllowRelay c) (sv_LANAllowRelay c)
  (sv_AllowLegacy c) (sv_ClientNoUPnP c) (sv_ClientUPnPTimeout c) (sv_ClientLogLevel c) (sv_ClientTrayEnabled c) (sv_ClientPunchTimeout c)
  (sv_ClientForceRelay c) (sv_ClientAllowLegacy c) (sv_ClientReleaseVersion c) (sv_ClientReleaseURL c) (sv_ClientReleaseSHA256 c)
  (sv_ClientReleasePublishedAt c) (sv_ClientReleaseNotes c) (sv_ClientReleaseMinimumSupported c) (sv_ClientReleaseFile c)
  (sv_LANReleaseVersion c) v (sv_LANReleaseSHA256 c) (sv_LANReleasePublishedAt c) (sv_LANReleaseNotes c) (sv_LANReleaseMinimumSupported c)
  (sv_LANReleaseFile c).
Definition set_LANReleaseSHA256 (v : string) (c : Server) : Server :=
  mkServer (sv_UDPListen c) (sv_StunAltListen c) (sv_HTTPListen c) (sv_ControlDatabaseDSN c) (sv_AdminJWTSecret c) (sv_AdminAccessTokenTTL
  c) (sv_AdminRefreshTokenTTL c) (sv_PSK c) (sv_PeerTTL c) (sv_PairTTL c) (sv_RelayIdleTimeout c) (sv_AllowRelay c) (sv_LANAllowRelay c)
  (sv_AllowLegacy c) (sv_ClientNoUPnP c) (sv_ClientUPnPTimeout c) (sv_ClientLogLevel c) (sv_ClientTrayEnabled c) (sv_ClientPunchTimeout c)
  (sv_ClientForceRelay c) (sv_ClientAllowLegacy c) (sv_ClientReleaseVersion c) (sv_ClientReleaseURL c) (sv_ClientReleaseSHA256 c)
  (sv_ClientReleasePublishedAt c) (sv_ClientReleaseNotes c) (sv_ClientReleaseMinimumSupported c) (sv_ClientReleaseFile c)
  (sv_LANReleaseVersion c) (sv_LANReleaseURL c) v (sv_LANReleasePublishedAt c) (sv_LANReleaseNotes c) (sv_LANReleaseMinimumSupported c)
  (sv_LANReleaseFile c).
Definition set_LANReleasePublishedAt (v : string) (c : Server) : Server :=
  mkServer (sv_UDPListen c) (sv_StunAltListen c) (sv_HTTPListen c) (sv_ControlDatabaseDSN c) (sv_AdminJWTSecret c) (sv_AdminAccessTokenTTL
  c) (sv_AdminRefreshTokenTTL c) (sv_PSK c) (sv_PeerTTL c) (sv_PairTTL c) (sv_RelayIdleTimeout c) (sv_AllowRelay c) (sv_LANAllowRelay c)
  (sv_AllowLegacy c) (sv_ClientNoUPnP c) (sv_ClientUPnPTimeout c) (sv_ClientLogLevel c) (sv_ClientTrayEnabled c) (sv_ClientPunchTimeout c)
  (sv_ClientForceRelay c) (sv_ClientAllowLegacy c) (sv_ClientReleaseVersion c) (sv_ClientReleaseURL c) (sv_ClientReleaseSHA256 c)
  (sv_ClientReleasePublishedAt c) (sv_ClientReleaseNotes c) (sv_ClientReleaseMinimumSupported c) (sv_ClientReleaseFile c)
  (sv_LANReleaseVersion c) (sv_LANReleaseURL c) (sv_LANReleaseSHA256 c) v (sv_LANReleaseNotes c) (sv_LANReleaseMinimumSupported c)
  (sv_LANReleaseFile c).
Definition set_LANReleaseNotes (v : string) (c : Server) : Server :=
  mkServer (sv_UDPListen c) (sv_StunAltListen c) (sv_HTTPListen c) (sv_ControlDatabaseDSN c) (sv_AdminJWTSecret c) (sv_AdminAccessTokenTTL
  c) (sv_AdminRefreshTokenTTL c) (sv_PSK c) (sv_PeerTTL c) (sv_PairTTL c) (sv_RelayIdleTimeout c) (sv_AllowRelay c) (sv_LANAllowRelay c)
  (sv_AllowLegacy c) (sv_ClientNoUPnP c) (sv_ClientUPnPTimeout c) (sv_ClientLogLevel c) (sv_ClientTrayEnabled c) (sv_ClientPunchTimeout c)
  (sv_ClientForceRelay c) (sv_ClientAllowLegacy c) (sv_ClientReleaseVersion c) (sv_ClientReleaseURL c) (sv_ClientReleaseSHA256 c)
  (sv_ClientReleasePublishedAt c) (sv_ClientReleaseNotes c) (sv_ClientReleaseMinimumSupported c) (sv_ClientReleaseFile c)
  (sv_LANReleaseVersion c) (sv_LANReleaseURL c) (sv_LANReleaseSHA256 c) (sv_LANReleasePublishedAt c) v (sv_LANReleaseMinimumSupported c)
  (sv_LANReleaseFile c).
Definition set_LANReleaseMinimumSupported (v : string) (c : Server) : Server :=
  mkServer (sv_UDPListen c) (sv_StunAltListen c) (sv_HTTPListen c) (sv_ControlDatabaseDSN c) (sv_AdminJWTSecret c) (sv_AdminAccessTokenTTL
  c) (sv_AdminRefreshTokenTTL c) (sv_PSK c) (sv_PeerTTL c) (sv_PairTTL c) (sv_RelayIdleTimeout c) (sv_AllowRelay c) (sv_LANAllowRelay c)
  (sv_AllowLegacy c) (sv_ClientNoUPnP c) (sv_ClientUPnPTimeout c) (sv_ClientLogLevel c) (sv_ClientTrayEnabled c) (sv_ClientPunchTimeout c)
  (sv_ClientForceRelay c) (sv_ClientAllowLegacy c) (sv_ClientReleaseVersion c) (sv_ClientReleaseURL c) (sv_ClientReleaseSHA256 c)
  (sv_ClientReleasePublishedAt c) (sv_ClientReleaseNotes c) (sv_ClientReleaseMinimumSupported c) (sv_ClientReleaseFile c)
  (sv_LANReleaseVersion c) (sv_LANReleaseURL c) (sv_LANReleaseSHA256 c) (sv_LANReleasePublishedAt c) (sv_LANReleaseNotes c) v
  (sv_LANReleaseFile c).
Definition set_LANReleaseFile (v : string) (c : Server) : Server :=
  mkServer (sv_UDPListen c) (sv_StunAltListen c) (sv_HTTPListen c) (sv_ControlDatabaseDSN c) (sv_AdminJWTSecret c) (sv_AdminAccessTokenTTL
  c) (sv_AdminRefreshTokenTTL c) (sv_PSK c) (sv_PeerTTL c) (sv_PairTTL c) (sv_RelayIdleTimeout c) (sv_AllowRelay c) (sv_LANAllowRelay c)
  (sv_AllowLegacy c) (sv_ClientNoUPnP c) (sv_ClientUPnPTimeout c) (sv_ClientLogLevel c) (sv_ClientTrayEnabled c) (sv_ClientPunchTimeout c)
  (sv_ClientForceRelay c) (sv_ClientAllowLegacy c) (sv_ClientReleaseVersion c) (sv_ClientReleaseURL c) (sv_ClientReleaseSHA256 c)
  (sv_ClientReleasePublishedAt c) (sv_ClientReleaseNotes c) (sv_ClientReleaseMinimumSupported c) (sv_ClientReleaseFile c)
  (sv_LANReleaseVersion c) (sv_LANReleaseURL c) (sv_LANReleaseSHA256 c) (sv_LANReleasePublishedAt c) (sv_LANReleaseNotes c)
  (sv_LANReleaseMinimumSupported c) v.

(** [DefaultServer], the client part from [DefaultClient]. *)
Definition DefaultServer : Server :=
  mkServer ":7000" ":7002" ":7001" "" "" hour (30 * 24 * hour) "" (90 * second) (2 * minute) (5 * minute) false false false false (4 *
  second) "info" true (30 * second) false false "" "" "" "" "" "" "" "" "" "" "" "" "" "".

(** A field of the configuration under a key, and the way to assign it. *)
Record field (A : Type) : Type := mkField { f_key : string; f_get : Server -> A; f_set : A -> Server -> Server }.
Arguments mkField {A} _ _ _.
Arguments f_key {A} _.
Arguments f_get {A} _ _.
Arguments f_set {A} _ _ _.

(** The settings kept in the database: the three lists of [applySystemSettingsLocked]. *)
Definition duration_fields : list (field Duration) := [
  mkField "peer_ttl" sv_PeerTTL set_PeerTTL;
  mkField "pair_ttl" sv_PairTTL set_PairTTL;
  mkField "relay_idle_timeout" sv_RelayIdleTimeout set_RelayIdleTimeout;
  mkField "client_upnp_timeout" sv_ClientUPnPTimeout set_ClientUPnPTimeout;
  mkField "client_punch_timeout" sv_ClientPunchTimeout set_ClientPunchTimeout ].

Definition bool_fields : list (field bool) := [
  mkField "allow_relay" sv_AllowRelay set_AllowRelay;
  mkField "lan_allow_relay" sv_LANAllowRelay set_LANAllowRelay;
  mkField "allow_legacy" sv_AllowLegacy set_AllowLegacy;
  mkField "client_no_upnp" sv_ClientNoUPnP set_ClientNoUPnP;
  mkField "client_tray_enabled" sv_ClientTrayEnabled set_ClientTrayEnabled;
  mkField "client_force_relay" sv_ClientForceRelay set_ClientForceRelay;
  mkField "client_allow_legacy" sv_ClientAllowLegacy set_ClientAllowLegacy ].

Definition string_fields : list (field string) := [
  mkField "client_log_level" sv_ClientLogLevel set_ClientLogLevel;
  mkField "client_release_version" sv_ClientReleaseVersion set_ClientReleaseVersion;
  mkField "client_release_url" sv_ClientReleaseURL set_ClientReleaseURL;
  mkField "client_release_sha256" sv_ClientReleaseSHA256 set_ClientReleaseSHA256;
  mkField "client_release_published_at" sv_ClientReleasePublishedAt set_ClientReleasePublishedAt;
  mkField "client_release_notes" sv_ClientReleaseNotes set_ClientReleaseNotes;
  mkField "client_release_minimum_supported_version" sv_ClientReleaseMinimumSupported set_ClientReleaseMinimumSupported;
  mkField "client_release_file" sv_ClientReleaseFile set_ClientReleaseFile;
  mkField "lan_release_version" sv_LANReleaseVersion set_LANReleaseVersion;
  mkField "lan_release_url" sv_LANReleaseURL set_LANReleaseURL;
  mkField "lan_release_sha256" sv_LANReleaseSHA256 set_LANReleaseSHA256;
  mkField "lan_release_published_at" sv_LANReleasePublishedAt set_LANReleasePublishedAt;
  mkField "lan_release_notes" sv_LANReleaseNotes set_LANReleaseNotes;
  mkField "lan_release_minimum_supported_version" sv_LANReleaseMinimumSupported set_LANReleaseMinimumSupported;
  mkField "lan_release_file" sv_LANReleaseFile set_LANReleaseFile ].

(** The body of a change of the settings: the durations are text. *)
Record settings_request : Type := mkSettingsRequest {
  rq_PeerTTL : string; rq_PairTTL : string; rq_RelayIdleTimeout : string; rq_AllowRelay : bool; rq_LANAllowRelay : bool; rq_AllowLegacy :
  bool; rq_ClientNoUPnP : bool; rq_ClientUPnPTimeout : string; rq_ClientLogLevel : string; rq_ClientTrayEnabled : bool;
  rq_ClientPunchTimeout : string; rq_ClientForceRelay : bool; rq_ClientAllowLegacy : bool; rq_ClientReleaseVersion : string;
  rq_ClientReleaseURL : string; rq_ClientReleaseSHA256 : string; rq_ClientReleasePublishedAt : string; rq_ClientReleaseNotes : string;
  rq_ClientReleaseMinimumSupported : string; rq_ClientReleaseFile : string; rq_LANReleaseVersion : string; rq_LANReleaseURL : string;
  rq_LANReleaseSHA256 : string; rq_LANReleasePublishedAt : string; rq_LANReleaseNotes : string; rq_LANReleaseMinimumSupported : string;
  rq_LANReleaseFile : string }.

(** The assignments, with the parsed durations. *)
Definition assign_settings (peerTTL pairTTL relayIdle clientUPnPTimeout clientPunchTimeout : Duration) (req : settings_request) (c : Server) : Server :=
  mkServer (sv_UDPListen c) (sv_StunAltListen c) (sv_HTTPListen c) (sv_ControlDatabaseDSN c) (sv_AdminJWTSecret c) (sv_AdminAccessTokenTTL
  c) (sv_AdminRefreshTokenTTL c) (sv_PSK c) peerTTL pairTTL relayIdle (rq_AllowRelay req) (rq_LANAllowRelay req) (rq_AllowLegacy req)
  (rq_ClientNoUPnP req) clientUPnPTimeout (rq_ClientLogLevel req) (rq_ClientTrayEnabled req) clientPunchTimeout (rq_ClientForceRelay req)
  (rq_ClientAllowLegacy req) (rq_ClientReleaseVersion req) (rq_ClientReleaseURL req) (rq_ClientReleaseSHA256 req)
  (rq_ClientReleasePublishedAt req) (rq_ClientReleaseNotes req) (rq_ClientReleaseMinimumSupported req) (rq_ClientReleaseFile req)
  (rq_LANReleaseVersion req) (rq_LANReleaseURL req) (rq_LANReleaseSHA256 req) (rq_LANReleasePublishedAt req) (rq_LANReleaseNotes req)
  (rq_LANReleaseMinimumSupported req) (rq_LANReleaseFile req).

(* ------------------------------------------------------------------ *)
(** ** The environment file *)

(** [time.Duration.String] and [time.ParseDuration]. *)
Class GoDuration := { DurationString : Duration -> string; ParseDuration : string -> option Duration }.

(** A duration survives being printed; what is parsed is an [int64]; no duration prints
    as the empty text. *)
Class GoDurationLaws (GD : GoDuration) : Prop := {
  parse_string d : - 2 ^ 63 <= d < 2 ^ 63 -> ParseDuration (DurationString d) = Some d;
  parse_range s d : ParseDuration s = Some d -> - 2 ^ 63 <= d < 2 ^ 63;
  string_nonempty d : DurationString d <> EmptyString;
}.

Section Config.
  Context `{GU : GoUnicode} `{GD : GoDuration}.

(** [strings.Trim] with a set of bytes. *)
Fixpoint trim_set_left (set : list byte) (l : list byte) : list byte :=
  match l with
  | [] => []
  | b :: l' => if decide (b ∈ set) then trim_set_left set l' else l
  end.
Definition Trim (s : string) (set : list byte) : string :=
  string_of (rev (trim_set_left set (rev (trim_set_left set (bytes_of s))))).

(** The lines [bufio.Scanner] gives, without their ends, the last only when it is not
    empty; [None] for a line too long for its buffer. *)
Definition MaxScanTokenSize : Z := 64 * 1024.
Definition drop_cr (l : list byte) : list byte :=
  match last l with Some x0d => take (length l - 1) l | _ => l end.
Definition scan_lines (file : list byte) : option (list string) :=
  let parts := split_bytes x0a file in
  let parts := match last parts with Some [] => take (length parts - 1) parts | _ => parts end in
  if forallb (fun l => Z.of_nat (length l) <? MaxScanTokenSize) parts then Some (map (fun l => string_of (drop_cr l)) parts) else None.

Inductive config_error : Type := ErrReadEnv | ErrBadLine (line : string) | ErrEnvDuration (key : string).

Definition HasPrefixDrop (s p : string) : option string := if HasPrefix s p then Some (string_of (drop (String.length p) (bytes_of s))) else None.

(** One line: nothing, or a key and its value. *)
Definition env_line (line : string) : result config_error (option (string * string)) :=
  let line := TrimSpace line in
  if bool_decide (line = EmptyString) || HasPrefix line "#" then Ok None
  else
    let line := match HasPrefixDrop line "export " with Some rest => TrimSpace rest | None => line end in
    match cut_bytes x3d (bytes_of line) with
    | None => Err (ErrBadLine line)
    | Some (key, value) => Ok (Some (TrimSpace (string_of key), Trim (TrimSpace (string_of value)) [x22; x27]))
    end.

Fixpoint env_values (lines : list string) (values : gmap string string) : result config_error (gmap string string) :=
  match lines with
  | [] => Ok values
  | line :: rest =>
    kv ← env_line line;
    env_values rest (match kv with Some (key, value) => <[key := value]> values | None => values end)
  end.

Definition setString (values : gmap string string) (key : string) (set : string -> Server -> Server) (c : Server) : Server :=
  match values !! key with Some v => set v c | None => c end.

Definition setDuration (values : gmap string string) (key : string) (set : Duration -> Server -> Server) (c : Server)
  : result config_error Server :=
  match values !! key with
  | None => Ok c
  | Some v =>
    if decide (v = EmptyString) then Ok c
    else match ParseDuration v with None => Err (ErrEnvDuration key) | Some d => Ok (set d c) end
  end.

Definition applyServerEnv (values : gmap string string) (c : Server) : result config_error Server :=
  let c := setString values "UDP_LISTEN" set_UDPListen c in
  let c := setString values "STUN_ALT_LISTEN" set_StunAltListen c in
  let c := setString values "HTTP_LISTEN" set_HTTPListen c in
  let c := setString values "CONTROL_DATABASE_DSN" set_ControlDatabaseDSN c in
  let c := setString values "ADMIN_JWT_SECRET" set_AdminJWTSecret c in
  let c := setString values "PSK" set_PSK c in
  c ← setDuration values "ADMIN_ACCESS_TOKEN_TTL" set_AdminAccessTokenTTL c;
  setDuration values "ADMIN_REFRESH_TOKEN_TTL" set_AdminRefreshTokenTTL c.

(** [file] is what is read from the path: [None] when there is no file or no path. *)
Definition LoadServerEnv (file : option (list byte)) (c : Server) : result config_error Server :=
  match file with
  | None => Ok c
  | Some file =>
    match scan_lines file with
    | None => Err ErrReadEnv
    | Some lines => values ← env_values lines ∅; applyServerEnv values c
    end
  end.

(** The start of [New], before the stored settings are applied. *)
Definition start_config (c : Server) : Server := if decide (sv_PSK c = EmptyString) then set_AllowLegacy true c else c.

End Config.

(* ------------------------------------------------------------------ *)
(** ** Stored settings *)

Section Stored.
  Context `{CO : Collation} `{GT : GoTime} `{GD : GoDuration}.
  Context {T : forall R, Model R -> Type} `{G : !Gorm T}.
  Notation DB := (ControlStore.control_db T).

Definition ParseBool (s : string) : option bool :=
  if decide (s ∈ ["1"; "t"; "T"; "true"; "TRUE"; "True"]%string) then Some true
  else if decide (s ∈ ["0"; "f"; "F"; "false"; "FALSE"; "False"]%string) then Some false
  else None.

(** The settings of a configuration, as they are stored. *)
Definition settings_of (c : Server) : list (string * string) :=
  map (fun f => (f_key f, DurationString (f_get f c))) duration_fields ++
  map (fun f => (f_key f, FormatBool (f_get f c))) bool_fields ++
  map (fun f => (f_key f, f_get f c)) string_fields.

(** The loop of [ensureDefaultSettings]. *)
Fixpoint ensure_defaults (l : list (string * string)) (s : DB) : option api_error * DB :=
  match l with
  | [] => (None, s)
  | (key, value) :: rest =>
    match ControlStore.GetSystemSetting key s with
    | Err e => (Some e, s)
    | Ok existing =>
      if decide (existing <> EmptyString) then ensure_defaults rest s
      else match ControlStore.GetMeta ("setting_" ++ key) s with
      | Err e => (Some e, s)
      | Ok legacy =>
        match ControlStore.PutSystemSetting key (if decide (legacy <> EmptyString) then legacy else value) s with
        | (Some e, s) => (Some e, s)
        | (None, s) => ensure_defaults rest s
        end
      end
    end
  end.
Definition ensureDefaultSettings (c : Server) : DB -> option api_error * DB := ensure_defaults (settings_of c).

(** One of the three loops of [applySystemSettingsLocked]; [parse] is not called for the
    empty text. *)
Fixpoint apply_fields {A} (parse : string -> option A) (fields : list (field A)) (s : DB) (c : Server) : result api_error Server :=
  match fields with
  | [] => Ok c
  | f :: rest =>
    value ← ControlStore.GetSystemSetting (f_key f) s;
    if decide (value = EmptyString) then apply_fields parse rest s c
    else match parse value with
    | None => Err ParseError
    | Some v => apply_fields parse rest s (f_set f v c)
    end
  end.

(** The loop over the texts assigns the empty text too. *)
Fixpoint apply_strings (fields : list (field string)) (s : DB) (c : Server) : result api_error Server :=
  match fields with
  | [] => Ok c
  | f :: rest => value ← ControlStore.GetSystemSetting (f_key f) s; apply_strings rest s (f_set f value c)
  end.

Definition applySystemSettingsLocked (s : DB) (c : Server) : result api_error Server :=
  c ← apply_fields ParseDuration duration_fields s c;
  c ← apply_fields ParseBool bool_fields s c;
  apply_strings string_fields s c.

Definition applyStoredSettings (c : Server) (s : DB) : result api_error Server * DB :=
  match ensureDefaultSettings c s with
  | (Some e, s) => (Err e, s)
  | (None, s) => (applySystemSettingsLocked s c, s)
  end.

(** [New]: the configuration the server runs with. *)
Definition started (c : Server) (s : DB) : result api_error Server * DB := applyStoredSettings (start_config c) s.

(* ------------------------------------------------------------------ *)
(** ** The handler *)

Fixpoint put_settings (l : list (string * string)) (s : DB) : option api_error * DB :=
  match l with
  | [] => (None, s)
  | (key, value) :: rest =>
    match ControlStore.PutSystemSetting key value s with
    | (Some e, s) => (Some e, s)
    | (None, s) => put_settings rest s
    end
  end.

Definition parsed (code message text : string) : result api_error Duration :=
  match ParseDuration text with Some d => Ok d | None => Err (badRequest code message) end.

(** The checks of a change, in the order of the code. *)
Definition decode_settings (req : settings_request) : result api_error (Server -> Server) :=
  peerTTL ← parsed "bad_peer_ttl" "bad peer_ttl" (rq_PeerTTL req);
  pairTTL ← parsed "bad_pair_ttl" "bad pair_ttl" (rq_PairTTL req);
  relayIdle ← parsed "bad_relay_idle_timeout" "bad relay_idle_timeout" (rq_RelayIdleTimeout req);
  if decide (peerTTL < 10 * second \/ pairTTL < 10 * second \/ relayIdle < 10 * second)
  then Err (badRequest "duration_too_short" "durations must be at least 10s")
  else
    clientUPnPTimeout ← parsed "bad_client_upnp_timeout" "bad client_upnp_timeout" (rq_ClientUPnPTimeout req);
    clientPunchTimeout ← parsed "bad_client_punch_timeout" "bad client_punch_timeout" (rq_ClientPunchTimeout req);
    if decide (clientUPnPTimeout < second \/ clientPunchTimeout < second)
    then Err (badRequest "client_duration_too_short" "client durations must be at least 1s")
    else Ok (assign_settings peerTTL pairTTL relayIdle clientUPnPTimeout clientPunchTimeout req).

(** PATCH: the running configuration changes before anything is stored. *)
Definition handleSettings_PATCH (body : option settings_request) (c : Server) (s : DB) : result api_error unit * Server * DB :=
  match body with
  | None => (Err (badRequest "bad_json" "bad json"), c, s)
  | Some req =>
    match decode_settings req with
    | Err e => (Err e, c, s)
    | Ok assign =>
      let c := assign c in
      match put_settings (settings_of c) s with
      | (Some e, s) => (Err e, c, s)
      | (None, s) => (Ok tt, c, s)
      end
    end
  end.

(** GET: the settings that need a restart, whether the secrets are set, and the others. *)
Definition restart_only_fields : list string := ["udp_listen"; "stun_alt_listen"; "http_listen"; "control_database_dsn"; "psk"].
Definition handleSettings_GET (c : Server) : list (string * string) * (bool * bool) * list (string * string) * list string :=
  ([("udp_listen", sv_UDPListen c); ("stun_alt_listen", sv_StunAltListen c); ("http_listen", sv_HTTPListen c)]%string,
   (bool_decide (sv_ControlDatabaseDSN c <> EmptyString), bool_decide (sv_PSK c <> EmptyString)),
   settings_of c, restart_only_fields).
End Stored.
