(* ===== verification/SettingsLaws.v ===== *)
(** * SettingsLaws: settings across restarts

    What an administrator sets is what the next start runs with, and what a start without
    a pre-shared key leaves behind for the starts after it. *)

From S2P Require Import Prelude GoStrings Protocol ServerUtil Gorm ControlStore Settings.
From S2P Require Base64 LanIdentity SecureFrame Relay ServerUDP.
Import ControlStore.Models.

(** What the UDP side reads of the configuration: [currentPeerTTL] and the others. *)
Definition udp_config (c : Server) : ServerUDP.Config :=
  ServerUDP.mkConfig (sv_PeerTTL c) (sv_PairTTL c) (sv_RelayIdleTimeout c) (sv_AllowRelay c) (sv_LANAllowRelay c) (sv_AllowLegacy c).

(* ------------------------------------------------------------------ *)
(** ** Fields *)

Definition lawful {A} (f : field A) : Prop := forall v c, f_get f (f_set f v c) = v.
Definition apart {A B} (f : field A) (g : field B) : Prop := forall v c, f_get f (f_set g v c) = f_get f c.

(** Different settings are different fields. *)
Definition separate {A} (l : list (field A)) : Prop :=
  Forall (fun f => Forall (fun g => f_key f = f_key g \/ apart f g) l) l.
Definition all_apart {A B} (l : list (field A)) (k : list (field B)) : Prop := Forall (fun f => Forall (fun g => apart f g) k) l.

Ltac field_goal := first [left; reflexivity | right; intros ? ?; reflexivity | intros ? ?; reflexivity].
Ltac forall_list tac := repeat first [apply Forall_nil; exact I | apply Forall_cons; split; [tac|]].
Ltac fields := unfold separate, all_apart, duration_fields, bool_fields, string_fields;
  forall_list ltac:(first [field_goal | forall_list field_goal]).

Lemma lawful_durations : Forall lawful duration_fields. Proof. fields. Qed.
Lemma lawful_bools : Forall lawful bool_fields. Proof. fields. Qed.
Lemma lawful_strings : Forall lawful string_fields. Proof. fields. Qed.
Lemma separate_durations : separate duration_fields. Proof. fields. Qed.
Lemma separate_bools : separate bool_fields. Proof. fields. Qed.
Lemma separate_strings : separate string_fields. Proof. fields. Qed.
Lemma durations_bools : all_apart duration_fields bool_fields. Proof. fields. Qed.
Lemma durations_strings : all_apart duration_fields string_fields. Proof. fields. Qed.
Lemma bools_durations : all_apart bool_fields duration_fields. Proof. fields. Qed.
Lemma bools_strings : all_apart bool_fields string_fields. Proof. fields. Qed.
Lemma strings_durations : all_apart string_fields duration_fields. Proof. fields. Qed.
Lemma strings_bools : all_apart string_fields bool_fields. Proof. fields. Qed.

Lemma all_apart_elem {A B} (l : list (field A)) (k : list (field B)) f : all_apart l k -> f ∈ l -> forall g, g ∈ k -> apart f g.
Proof. intros H Hf g Hg. exact (proj1 (Forall_forall _ _) (proj1 (Forall_forall _ _) H f Hf) g Hg). Qed.

Lemma separate_elem {A} (l : list (field A)) f g : separate l -> f ∈ l -> g ∈ l -> f_key f <> f_key g -> apart f g.
Proof. intros H Hf Hg Hk. destruct (proj1 (Forall_forall _ _) (proj1 (Forall_forall _ _) H f Hf) g Hg); [done|done]. Qed.

Lemma separate_cons {A} (f : field A) l : separate (f :: l) -> separate l.
Proof. unfold separate. intros H. inversion H as [|? ? _ H']; subst. eapply Forall_impl; [exact H'|]. intros g Hg. by inversion Hg. Qed.

(** The keys of all settings are different. *)
Definition setting_keys : list string := map f_key duration_fields ++ map f_key bool_fields ++ map f_key string_fields.
Lemma setting_keys_nodup : NoDup setting_keys. Proof. decide_now. Qed.

Lemma settings_of_keys `{GoDuration} c : map fst (settings_of c) = setting_keys.
Proof. reflexivity. Qed.

(** A start without a key changes one switch. *)
Definition legacy_field : field bool := mkField "allow_legacy" sv_AllowLegacy set_AllowLegacy.
Lemma legacy_field_in : legacy_field ∈ bool_fields.
Proof. unfold bool_fields. do 2 (apply elem_of_cons; right). by left. Qed.

Lemma start_config_strings f c : f ∈ string_fields -> f_get f (start_config c) = f_get f c.
Proof.
  intros Hf. unfold start_config. case_decide; [|done].
  exact (all_apart_elem _ _ f strings_bools Hf legacy_field legacy_field_in true c).
Qed.

Section Laws.
  Context `{CO : Collation} `{GT : GoTime} `{GD : GoDuration}.
  Context {T : forall R, Model R -> Type} `{G : !Gorm T} `{L : !GormLaws T} `{DL : !GoDurationLaws GD}.
  Notation DB := (control_db T).
  Hypothesis binary : forall a b, sql_eq a b = bool_decide (a = b).

(* ------------------------------------------------------------------ *)
(** ** The two tables as maps *)

Definition settings_map (s : DB) : gmap string SystemSetting := keyed st_Key (rows (t_settings s)).
Definition metas_map (s : DB) : gmap string Meta := keyed mt_Key (rows (t_meta s)).

(** What a read of a setting gives: the empty text for none. *)
Definition stored (s : DB) (key : string) : string := from_option st_Value EmptyString (settings_map s !! key).
Definition legacy (s : DB) (key : string) : string := from_option mt_Value EmptyString (metas_map s !! ("setting_" ++ key)%string).

(** The database answers. *)
Definition database_up : Prop :=
  (forall key (s : DB), is_ok (GetSystemSetting key s) = true) /\ (forall key (s : DB), is_ok (GetMeta key s) = true) /\
  (forall key value (s : DB), fst (PutSystemSetting key value s) = None).

Lemma setting_key : keys_clash st_Key.
Proof. intros x y E. cbn. by rewrite binary, bool_decide_true. Qed.
Lemma meta_key : keys_clash mt_Key.
Proof. intros x y E. cbn. by rewrite binary, bool_decide_true. Qed.

Lemma first_keyed {R} `{M : Model R} (f : R -> string) (t : T R M) k r : keys_clash f ->
  First (fun x => sql_eq (f x) k) any_order t = Ok r -> keyed f (rows t) !! k = r.
Proof.
  intros HK H. destruct r as [r|].
  - apply first_found in H as [Hr Hk]. rewrite binary, bool_decide_eq_true in Hk. apply keyed_lookup; [done|apply rows_distinct|done].
  - pose proof (first_none _ _ _ H) as HN. destruct (keyed f (rows t) !! k) as [r|] eqn:E; [|done].
    apply keyed_lookup in E as [Hr Hk]; [|done|apply rows_distinct]. apply HN in Hr. rewrite binary in Hr. by apply bool_decide_eq_false in Hr.
Qed.

Lemma GetSystemSetting_stored key (s : DB) v : GetSystemSetting key s = Ok v -> v = stored s key.
Proof.
  unfold GetSystemSetting, stored, settings_map. destruct (First _ _ _) as [r|] eqn:E; [|done]. intros [= <-].
  by apply first_keyed in E as ->; [|exact setting_key].
Qed.

Lemma GetMeta_legacy key (s : DB) v : GetMeta ("setting_" ++ key) s = Ok v -> v = legacy s key.
Proof.
  unfold GetMeta, legacy, metas_map. destruct (First _ _ _) as [r|] eqn:E; [|done]. intros [= <-].
  by apply first_keyed in E as ->; [|exact meta_key].
Qed.

Lemma read_setting key (s : DB) : database_up -> GetSystemSetting key s = Ok (stored s key).
Proof. intros (H & _). specialize (H key s). destruct (GetSystemSetting key s) eqn:E; [|done]. by rewrite (GetSystemSetting_stored _ _ _ E). Qed.

Lemma read_legacy key (s : DB) : database_up -> GetMeta ("setting_" ++ key) s = Ok (legacy s key).
Proof. intros (_ & H & _). specialize (H ("setting_" ++ key)%string s). destruct (GetMeta _ s) eqn:E; [|done]. by rewrite (GetMeta_legacy _ _ _ E). Qed.

Lemma put_setting key value (s s' : DB) : PutSystemSetting key value s = (None, s') ->
  t_meta s' = t_meta s /\ forall k, stored s' k = if decide (k = key) then value else stored s k.
Proof.
  unfold PutSystemSetting, in_settings. cbn [t_settings tick]. destruct (error_of _) as [o t'] eqn:E. intros [= -> <-]. split; [done|].
  intros k. unfold error_of in E. destruct (Upsert _ _ _) as [[r|] t1] eqn:EU; [|done]. injection E as <-.
  apply (keyed_upsert st_Key setting_key) in EU as (v & Hm & Hv).
  - unfold stored, settings_map. cbn [t_settings]. rewrite Hm. cbn [st_Key]. destruct (decide (k = key)) as [->|D].
    + rewrite lookup_insert_eq. cbn. destruct Hv as [[_ (n & _ & ->)]|(x & _ & ->)]; done.
    + by rewrite lookup_insert_ne by done.
  - intros x y. cbn. by rewrite binary, bool_decide_eq_true.
  - done.
  - by intros r1 (n & _ & ->).
Qed.

Lemma same_legacy (s s' : DB) key : t_meta s' = t_meta s -> legacy s' key = legacy s key.
Proof. unfold legacy, metas_map. by intros ->. Qed.

Lemma put_settings_stored l (s s' : DB) : NoDup (map fst l) -> put_settings l s = (None, s') ->
  t_meta s' = t_meta s /\ (forall k v, (k, v) ∈ l -> stored s' k = v) /\ (forall k, k ∉ map fst l -> stored s' k = stored s k).
Proof.
  revert s. induction l as [|[k v] l IH]; intros s; cbn [put_settings map fst].
  - intros _ [= <-]. split_and!; [done| |done]. intros k v H. by apply elem_of_nil in H.
  - intros [Hk Hl]%NoDup_cons. destruct (PutSystemSetting k v s) as [[e|] s1] eqn:E; [done|]. intros H.
    apply put_setting in E as [Em Es]. apply IH in H as (Hm & Hin & Hout); [|done]. split_and!.
    + by rewrite Hm.
    + intros k' v' [[= -> ->]|H]%elem_of_cons; [|by apply Hin]. rewrite Hout by done. rewrite Es. by rewrite decide_True.
    + intros k' H. apply not_elem_of_cons in H as [H1 H2]. rewrite Hout by done. rewrite Es. by rewrite decide_False.
Qed.

(** What a default writes: the setting of the old table, or the running one. *)
Definition filled (s : DB) (k v : string) : string :=
  if decide (stored s k <> EmptyString) then stored s k else if decide (legacy s k <> EmptyString) then legacy s k else v.

Lemma ensure_defaults_stored l (s : DB) : database_up -> NoDup (map fst l) ->
  exists s', ensure_defaults l s = (None, s') /\ t_meta s' = t_meta s /\
    (forall k v, (k, v) ∈ l -> stored s' k = filled s k v) /\ (forall k, k ∉ map fst l -> stored s' k = stored s k).
Proof.
  intros Hup. revert s. induction l as [|[k v] l IH]; intros s; cbn [ensure_defaults map fst].
  - intros _. exists s. split_and!; [done|done| |done]. intros k v H. by apply elem_of_nil in H.
  - intros [Hk Hl]%NoDup_cons. rewrite read_setting by done.
    assert (HS : exists s1, t_meta s1 = t_meta s /\ (forall k', stored s1 k' = if decide (k' = k) then filled s k v else stored s k') /\
      (if decide (stored s k <> EmptyString) then ensure_defaults l s
       else match GetMeta ("setting_" ++ k) s with
       | Ok legacy => match PutSystemSetting k (if decide (legacy <> EmptyString) then legacy else v) s with
                      | (Some e, s0) => (Some e, s0) | (None, s0) => ensure_defaults l s0 end
       | Err e => (Some e, s)
       end) = ensure_defaults l s1).
    { destruct (decide (stored s k <> EmptyString)) as [D|D] eqn:ED.
      - exists s. split_and!; [done| |done]. intros k'. unfold filled. rewrite ED. by destruct (decide (k' = k)) as [->|].
      - rewrite read_legacy by done. destruct (PutSystemSetting k _ s) as [o s1] eqn:E.
        assert (o = None) as -> by (destruct Hup as (_ & _ & HP); specialize (HP k (if decide (legacy s k <> EmptyString) then legacy s k else v) s); rewrite E in HP; done).
        apply put_setting in E as [Em Es]. exists s1. split_and!; [done| |done]. intros k'. rewrite Es. unfold filled. by rewrite ED. }
    destruct HS as (s1 & Hm1 & Hs1 & ->). destruct (IH s1) as (s' & E & Hm & Hin & Hout); [done|]. exists s'. split_and!; [done| | |].
    + by rewrite Hm.
    + intros k' v' [[= -> ->]|H]%elem_of_cons; [rewrite Hout by done; rewrite Hs1; by rewrite decide_True|].
      rewrite (Hin _ _ H). assert (D : k' <> k) by (intros ->; apply Hk; change (map fst l) with (fst <$> l); apply list_elem_of_fmap; by exists (k, v')).
      unfold filled. rewrite (same_legacy s s1) by done. rewrite (Hs1 k'). by rewrite (decide_False (P := k' = k)) by done.
    + intros k' H. apply not_elem_of_cons in H as [H1 H2]. rewrite Hout by done. rewrite Hs1. by rewrite decide_False.
Qed.

(* ------------------------------------------------------------------ *)
(** ** Applying the stored settings *)

(** The value a field takes from the database, the second argument without one. *)
Definition field_value {A} (parse : string -> option A) (value : string) (old : A) : option A :=
  if decide (value = EmptyString) then Some old else parse value.

Lemma apply_fields_ok {A} (parse : string -> option A) fields (s : DB) c : database_up ->
  Forall lawful fields -> separate fields -> NoDup (map f_key fields) ->
  (forall f, f ∈ fields -> field_value parse (stored s (f_key f)) (f_get f c) <> None) ->
  exists c', apply_fields parse fields s c = Ok c' /\
    (forall f, f ∈ fields -> field_value parse (stored s (f_key f)) (f_get f c) = Some (f_get f c')) /\
    (forall B (h : field B), (forall g, g ∈ fields -> apart h g) -> f_get h c' = f_get h c).
Proof.
  intros Hup. revert c. induction fields as [|f fields IH]; intros c HL HS HN HP; cbn [apply_fields].
  - exists c. split_and!; [done| |done]. intros f H. by apply elem_of_nil in H.
  - rewrite read_setting by done. cbn [mbind result_bind]. cbn [map] in HN. apply NoDup_cons in HN as [Hk HN]. pose proof (HP f ltac:(by left)) as Hf.
    assert (HA : forall g, g ∈ fields -> apart g f /\ apart f g).
    { intros g Hg. assert (f_key g <> f_key f).
      { intros E. apply Hk. rewrite <- E. change (map f_key fields) with (f_key <$> fields). apply list_elem_of_fmap. by exists g. }
      split; (eapply separate_elem; [exact HS|by constructor|by constructor|congruence]). }
    assert (HC : exists c1, (if decide (stored s (f_key f) = EmptyString) then apply_fields parse fields s c
        else match parse (stored s (f_key f)) with Some v => apply_fields parse fields s (f_set f v c) | None => Err ParseError end)
          = apply_fields parse fields s c1 /\
        field_value parse (stored s (f_key f)) (f_get f c) = Some (f_get f c1) /\
        forall B (h : field B), apart h f -> f_get h c1 = f_get h c).
    { unfold field_value in *. destruct (decide (stored s (f_key f) = EmptyString)); [by exists c|]. destruct (parse _) as [v|]; [|done].
      exists (f_set f v c). split_and!; [done| |by intros B h Hh]. inversion HL as [|? ? Hlf _]; subst. by rewrite Hlf. }
    destruct HC as (c1 & -> & Hv & Ho). destruct (IH c1) as (c' & E & Hin & Hout); [by inversion HL|by eapply separate_cons|done| |].
    + intros g Hg. rewrite Ho by (by apply HA). apply HP. by right.
    + exists c'. split_and!; [done| |].
      * intros g [->|Hg]%elem_of_cons.
        -- rewrite Hv. f_equal. symmetry. apply Hout. intros h Hh. by apply HA.
        -- rewrite <- (Hin g Hg). f_equal. symmetry. apply Ho. by apply HA.
      * intros B h Hh. rewrite Hout by (intros g Hg; apply Hh; by right). apply Ho, Hh. by left.
Qed.

Lemma apply_strings_ok fields (s : DB) c : database_up -> Forall lawful fields -> separate fields -> NoDup (map f_key fields) ->
  exists c', apply_strings fields s c = Ok c' /\ (forall f, f ∈ fields -> f_get f c' = stored s (f_key f)) /\
    (forall B (h : field B), (forall g, g ∈ fields -> apart h g) -> f_get h c' = f_get h c).
Proof.
  intros Hup. revert c. induction fields as [|f fields IH]; intros c HL HS HN; cbn [apply_strings].
  - exists c. split_and!; [done| |done]. intros f H. by apply elem_of_nil in H.
  - rewrite read_setting by done. cbn [mbind result_bind]. cbn [map] in HN. apply NoDup_cons in HN as [Hk HN]. inversion HL as [|? ? Hlf HL']; subst.
    destruct (IH (f_set f (stored s (f_key f)) c)) as (c' & E & Hin & Hout); [done|by eapply separate_cons|done|].
    exists c'. split_and!; [done| |].
    + intros g [->|Hg]%elem_of_cons; [|by apply Hin]. rewrite Hout; [apply Hlf|]. intros h Hh.
      eapply separate_elem; [exact HS|by constructor|by constructor|]. intros E'. apply Hk. rewrite E'.
      change (map f_key fields) with (f_key <$> fields). apply list_elem_of_fmap. by exists h.
    + intros B h Hh. rewrite Hout by (intros g Hg; apply Hh; by right). apply Hh. by left.
Qed.
(** A field the database has a usable value or nothing for. *)
Definition usable {A} (parse : string -> option A) (s : DB) (f : field A) : Prop :=
  stored s (f_key f) = EmptyString \/ parse (stored s (f_key f)) <> None.

Lemma usable_value {A} (parse : string -> option A) s f (old : A) : usable parse s f -> field_value parse (stored s (f_key f)) old <> None.
Proof. unfold usable, field_value. intros [H|H]; [by rewrite decide_True|]. by case_decide. Qed.

Lemma apply_settings_ok (s : DB) c : database_up ->
  (forall f, f ∈ duration_fields -> usable ParseDuration s f) -> (forall f, f ∈ bool_fields -> usable ParseBool s f) ->
  exists c', applySystemSettingsLocked s c = Ok c' /\
    (forall f, f ∈ duration_fields -> field_value ParseDuration (stored s (f_key f)) (f_get f c) = Some (f_get f c')) /\
    (forall f, f ∈ bool_fields -> field_value ParseBool (stored s (f_key f)) (f_get f c) = Some (f_get f c')) /\
    (forall f, f ∈ string_fields -> f_get f c' = stored s (f_key f)).
Proof.
  intros Hup HD HB. pose proof setting_keys_nodup as HN. apply NoDup_app in HN as (N1 & _ & HN). apply NoDup_app in HN as (N2 & _ & N3).
  unfold applySystemSettingsLocked.
  destruct (apply_fields_ok ParseDuration duration_fields s c) as (c1 & E1 & V1 & O1);
    [done|exact lawful_durations|exact separate_durations|done|intros f Hf; by apply usable_value, HD|].
  destruct (apply_fields_ok ParseBool bool_fields s c1) as (c2 & E2 & V2 & O2);
    [done|exact lawful_bools|exact separate_bools|done|intros f Hf; by apply usable_value, HB|].
  destruct (apply_strings_ok string_fields s c2) as (c3 & E3 & V3 & O3); [done|exact lawful_strings|exact separate_strings|done|].
  exists c3. rewrite E1. cbn [mbind result_bind]. rewrite E2. cbn [mbind result_bind]. split_and!; [done| | |done].
  - intros f Hf. rewrite (V1 f Hf), (O3 _ f), (O2 _ f); [done| |]; eapply all_apart_elem; [exact durations_bools|done|exact durations_strings|done].
  - intros f Hf. rewrite <- (O1 _ f) by (eapply all_apart_elem; [exact bools_durations|done]).
    rewrite (V2 f Hf), (O3 _ f); [done|]. eapply all_apart_elem; [exact bools_strings|done].
Qed.

Lemma format_bool_nonempty b : FormatBool b <> EmptyString.
Proof. by destruct b. Qed.
Lemma parse_format_bool b : ParseBool (FormatBool b) = Some b.
Proof. by destruct b. Qed.

(** The settings that were stored last. *)
Definition holds (s : DB) (c : Server) : Prop := forall k v, (k, v) ∈ settings_of c -> stored s k = v.

Lemma holds_durations s c f : holds s c -> f ∈ duration_fields -> stored s (f_key f) = DurationString (f_get f c).
Proof.
  intros H Hf. apply H. apply elem_of_app. left. change (map ?g ?l) with (g <$> l). apply list_elem_of_fmap. by exists f.
Qed.
Lemma holds_bools s c f : holds s c -> f ∈ bool_fields -> stored s (f_key f) = FormatBool (f_get f c).
Proof.
  intros H Hf. apply H. apply elem_of_app. right. apply elem_of_app. left. change (map ?g ?l) with (g <$> l). apply list_elem_of_fmap. by exists f.
Qed.
Lemma holds_strings s c f : holds s c -> f ∈ string_fields -> stored s (f_key f) = f_get f c.
Proof.
  intros H Hf. apply H. apply elem_of_app. right. apply elem_of_app. right. change (map ?g ?l) with (g <$> l). apply list_elem_of_fmap. by exists f.
Qed.

(** Every setting is one of the defaults a start fills in. *)
Lemma setting_default c k : k ∈ setting_keys -> exists v, (k, v) ∈ settings_of c.
Proof.
  rewrite <- (settings_of_keys c). change (map ?g ?l) with (g <$> l). rewrite list_elem_of_fmap. intros ([k' v] & -> & H). by exists v.
Qed.

Lemma key_duration f : f ∈ duration_fields -> f_key f ∈ setting_keys.
Proof. intros H. apply elem_of_app. left. change (map ?g ?l) with (g <$> l). by apply list_elem_of_fmap_2. Qed.
Lemma key_bool f : f ∈ bool_fields -> f_key f ∈ setting_keys.
Proof. intros H. apply elem_of_app. right. apply elem_of_app. left. change (map ?g ?l) with (g <$> l). by apply list_elem_of_fmap_2. Qed.

(** A start on the settings of an accepted change, in the terms of the database. *)
Lemma start_on_settings (s : DB) c1 c0 : database_up -> holds s c1 ->
  (forall f, f ∈ duration_fields -> - 2 ^ 63 <= f_get f c1 < 2 ^ 63) ->
  exists c2 s3, started c0 s = (Ok c2, s3) /\
    (forall f, f ∈ duration_fields -> f_get f c2 = f_get f c1) /\ (forall f, f ∈ bool_fields -> f_get f c2 = f_get f c1) /\
    (forall f, f ∈ string_fields -> f_get f c2 = filled s (f_key f) (f_get f c0)).
Proof.
  intros Hup HH HR. unfold started, applyStoredSettings, ensureDefaultSettings.
  destruct (ensure_defaults_stored (settings_of (start_config c0)) s) as (s3 & -> & Hm & Hin & _); [done|rewrite settings_of_keys; exact setting_keys_nodup|].
  assert (HK : forall k, k ∈ setting_keys -> stored s k <> EmptyString -> stored s3 k = stored s k).
  { intros k [v Hv]%(setting_default (start_config c0)) Hne. rewrite (Hin _ _ Hv). unfold filled. by rewrite decide_True. }
  assert (HD : forall f, f ∈ duration_fields -> stored s3 (f_key f) = DurationString (f_get f c1)).
  { intros f Hf. rewrite HK; [by apply holds_durations|by apply key_duration|]. rewrite (holds_durations _ _ _ HH Hf). apply string_nonempty. }
  assert (HB : forall f, f ∈ bool_fields -> stored s3 (f_key f) = FormatBool (f_get f c1)).
  { intros f Hf. rewrite HK; [by apply holds_bools|by apply key_bool|]. rewrite (holds_bools _ _ _ HH Hf). apply format_bool_nonempty. }
  destruct (apply_settings_ok s3 (start_config c0)) as (c2 & E & V1 & V2 & V3); [done| | |].
  - intros f Hf. right. rewrite HD, parse_string by auto. done.
  - intros f Hf. right. rewrite HB, parse_format_bool by done. done.
  - rewrite E. exists c2, s3. split_and!; [done| | |].
    + intros f Hf. specialize (V1 f Hf). unfold field_value in V1. rewrite HD in V1 by done.
      rewrite decide_False, parse_string in V1 by (auto using string_nonempty). congruence.
    + intros f Hf. specialize (V2 f Hf). unfold field_value in V2. rewrite HB in V2 by done.
      rewrite decide_False, parse_format_bool in V2 by apply format_bool_nonempty. congruence.
    + intros f Hf. rewrite (V3 f Hf). rewrite (Hin (f_key f) (f_get f (start_config c0))).
      * by rewrite start_config_strings.
      * apply elem_of_app. right. apply elem_of_app. right. change (map ?g ?l) with (g <$> l). apply list_elem_of_fmap. by exists f.
Qed.

Lemma parsed_bind {A} code message text (f : Duration -> result api_error A) a : (d ← parsed code message text; f d) = Ok a ->
  exists d, ParseDuration text = Some d /\ f d = Ok a.
Proof. unfold parsed. destruct (ParseDuration text) as [d|]; [|discriminate]. cbn. intros H. by exists d. Qed.

Lemma decoded_durations req assign c : decode_settings req = Ok assign -> forall f, f ∈ duration_fields -> - 2 ^ 63 <= f_get f (assign c) < 2 ^ 63.
Proof.
  unfold decode_settings. intros H.
  repeat (apply parsed_bind in H as (? & ? & H); repeat (case_decide; [discriminate H|])).
  injection H as <-. apply Forall_forall. forall_list ltac:(eapply parse_range; eassumption).
Qed.

(** C26. What an administrator sets survives the restart. Every duration and every switch of
    an accepted change is what the next start runs with, whatever its own configuration;
    so is every text but an empty one, which that start takes from the table of an older
    release or from its own configuration: a text that was cleared comes back. *)
Theorem settings_survive_restart (req : settings_request) (c c1 c0 : Server) (s s1 s2 : DB) :
  database_up -> handleSettings_PATCH (Some req) c s = (Ok tt, c1, s1) -> t_settings s2 = t_settings s1 -> t_meta s2 = t_meta s1 ->
  exists c2 s3, started c0 s2 = (Ok c2, s3) /\
    (forall f, f ∈ duration_fields -> f_get f c2 = f_get f c1) /\ (forall f, f ∈ bool_fields -> f_get f c2 = f_get f c1) /\
    (forall f, f ∈ string_fields -> f_get f c2 =
      if decide (f_get f c1 <> EmptyString) then f_get f c1
      else if decide (legacy s1 (f_key f) <> EmptyString) then legacy s1 (f_key f) else f_get f c0).
Proof.
  intros Hup HP Hs Hm. unfold handleSettings_PATCH in HP. destruct (decode_settings req) as [assign|] eqn:ED; [|done].
  destruct (put_settings _ s) as [[e|] s'] eqn:EP; [done|]. injection HP as <- <-.
  apply put_settings_stored in EP as (Em & Hin & _); [|rewrite settings_of_keys; exact setting_keys_nodup].
  assert (HS : forall k, stored s2 k = stored s' k) by (intros k; unfold stored, settings_map; by rewrite Hs).
  assert (HH : holds s2 (assign c)) by (intros k v Hkv; rewrite HS; by apply Hin).
  destruct (start_on_settings s2 (assign c) c0 Hup HH) as (c2 & s3 & E & V1 & V2 & V3); [by eapply decoded_durations|].
  exists c2, s3. split_and!; [done..|]. intros f Hf. rewrite (V3 f Hf). unfold filled. rewrite (holds_strings _ _ _ HH Hf).
  by rewrite (same_legacy s' s2) by done.
Qed.

Lemma apply_fields_usable {A} (parse : string -> option A) fields (s : DB) c c' : database_up ->
  apply_fields parse fields s c = Ok c' -> forall f, f ∈ fields -> usable parse s f.
Proof.
  intros Hup. revert c. induction fields as [|f fields IH]; intros c; cbn [apply_fields].
  - intros _ f Hf. by apply elem_of_nil in Hf.
  - rewrite read_setting by done. cbn [mbind result_bind]. intros H g [->|Hg]%elem_of_cons.
    + unfold usable. case_decide; [by left|]. right. by destruct (parse _).
    + case_decide; [by eapply IH|]. destruct (parse _); [|done]. by eapply IH.
Qed.

(** The first start stores every setting, and those it runs with are usable. *)
Lemma started_stores c0 c1 (s s1 : DB) : database_up -> started c0 s = (Ok c1, s1) ->
  (forall k v, (k, v) ∈ settings_of (start_config c0) -> stored s1 k = filled s k v) /\
  (forall f, f ∈ duration_fields -> usable ParseDuration s1 f) /\ (forall f, f ∈ bool_fields -> usable ParseBool s1 f).
Proof.
  intros Hup. unfold started, applyStoredSettings, ensureDefaultSettings.
  destruct (ensure_defaults_stored (settings_of (start_config c0)) s) as (s' & -> & Hm & Hin & _); [done|rewrite settings_of_keys; exact setting_keys_nodup|].
  intros [= H <-]. split; [done|]. unfold applySystemSettingsLocked in H.
  destruct (apply_fields ParseDuration _ _ _) as [c2|] eqn:E1; [|done]. cbn [mbind result_bind] in H.
  destruct (apply_fields ParseBool _ _ _) as [c3|] eqn:E2; [|done]. split; by eapply apply_fields_usable.
Qed.

Lemma filled_nonempty s k v : v <> EmptyString -> filled s k v <> EmptyString.
Proof. intros H. unfold filled. by repeat case_decide. Qed.

Lemma stored_nonempty c0 c1 (s s1 : DB) f : database_up -> started c0 s = (Ok c1, s1) -> f ∈ map f_key duration_fields ++ map f_key bool_fields ->
  stored s1 f <> EmptyString.
Proof.
  intros Hup (Hin & _ & _)%started_stores; [|done]. change (map ?g ?l) with (g <$> l).
  intros [(g & -> & Hg)%list_elem_of_fmap|(g & -> & Hg)%list_elem_of_fmap]%elem_of_app.
  - rewrite (Hin _ (DurationString (f_get g (start_config c0)))); [apply filled_nonempty, string_nonempty|].
    apply elem_of_app. left. change (map ?g ?l) with (g <$> l). apply list_elem_of_fmap. by exists g.
  - rewrite (Hin _ (FormatBool (f_get g (start_config c0)))); [apply filled_nonempty, format_bool_nonempty|].
    apply elem_of_app. right. apply elem_of_app. left. change (map ?g ?l) with (g <$> l). apply list_elem_of_fmap. by exists g.
Qed.

(** A server that takes packets that are not sealed, and one that starts with a brace. *)
Lemma legacy_register `{GU : GoUnicode} `{MJ : Protocol.MessageJSON} `{ED : LanIdentity.Ed25519} e (a : ServerUDP.App) src data msg :
  ServerUDP.AllowLegacy (ServerUDP.cfg a) = true -> take 1 data = [x7b] -> Protocol.Decode data = Some msg -> Protocol.Type_ msg = Protocol.MsgRegister ->
  ServerUDP.runUDP_step e a src data = ServerUDP.handleRegister e a src msg.
Proof.
  intros HA HB HD HT. assert (H4 : forall m, take 1 m <> [x7b] -> take 4 data <> m).
  { intros m Hm <-. apply Hm. rewrite take_take. exact HB. }
  assert (HR : Relay.IsRelayFrame data = false) by (apply bool_decide_eq_false, H4; done).
  assert (HF : SecureFrame.IsFrame data = false) by (apply bool_decide_eq_false; intros [_ F]; by apply H4 in F).
  assert (HS : ServerUDP.starts_brace data = true) by (by apply bool_decide_eq_true).
  unfold ServerUDP.runUDP_step, ServerUDP.handleLANUDPRelay. rewrite HR. cbn [negb].
  unfold ServerUDP.handleRelay. rewrite HF, HS. cbn [andb negb].
  assert (HO : ServerUDP.openPacket a data = Some (SecureFrame.KindControl, data)) by (unfold ServerUDP.openPacket; by rewrite HF, HA, HS).
  destruct (ServerUDP.AllowRelay _); cbn [negb]; rewrite HO, HD, HT; done.
Qed.

(** A start without a pre-shared key takes packets that are not sealed, which it has to;
    and it stores that as the setting of the database. Every later start keeps it: one
    with a key, whose own configuration refuses such packets, takes them all the same,
    and an unsealed registration is handled like one sealed under the key. *)
Theorem legacy_mode_sticks `{GU : GoUnicode} `{MJ : Protocol.MessageJSON} `{ED : LanIdentity.Ed25519} (c0 c1 c : Server) (s s1 s2 : DB) :
  database_up -> sv_PSK c0 = EmptyString -> stored s "allow_legacy" = EmptyString -> legacy s "allow_legacy" = EmptyString ->
  started c0 s = (Ok c1, s1) -> t_settings s2 = t_settings s1 -> sv_PSK c <> EmptyString -> sv_AllowLegacy c = false ->
  exists c2 s3, started c s2 = (Ok c2, s3) /\ sv_AllowLegacy c2 = true /\
    forall e (a : ServerUDP.App) src data msg, ServerUDP.cfg a = udp_config c2 -> ServerUDP.codec a <> None ->
      take 1 data = [x7b] -> Protocol.Decode data = Some msg -> Protocol.Type_ msg = Protocol.MsgRegister ->
      ServerUDP.runUDP_step e a src data = ServerUDP.handleRegister e a src msg.
Proof.
  intros Hup Hpsk Hs0 Hl0 H0 Hs _ _. pose proof (started_stores _ _ _ _ Hup H0) as (Hin & HD & HB).
  assert (HS : forall k, stored s2 k = stored s1 k) by (intros k; unfold stored, settings_map; by rewrite Hs).
  unfold started, applyStoredSettings, ensureDefaultSettings.
  destruct (ensure_defaults_stored (settings_of (start_config c)) s2) as (s3 & -> & Hm & Hin3 & _); [done|rewrite settings_of_keys; exact setting_keys_nodup|].
  assert (HK : forall k, k ∈ map f_key duration_fields ++ map f_key bool_fields -> stored s3 k = stored s1 k).
  { intros k Hk. destruct (setting_default (start_config c) k) as [v Hv]; [unfold setting_keys; rewrite app_assoc; apply elem_of_app; by left|]. rewrite (Hin3 _ _ Hv). unfold filled.
    rewrite !HS, decide_True; [done|]. by eapply stored_nonempty. }
  assert (Hk1 : forall f, f ∈ duration_fields -> stored s3 (f_key f) = stored s1 (f_key f)).
  { intros f Hf. apply HK, elem_of_app. left. change (map ?g ?l) with (g <$> l). by apply list_elem_of_fmap_2. }
  assert (Hk2 : forall f, f ∈ bool_fields -> stored s3 (f_key f) = stored s1 (f_key f)).
  { intros f Hf. apply HK, elem_of_app. right. change (map ?g ?l) with (g <$> l). by apply list_elem_of_fmap_2. }
  destruct (apply_settings_ok s3 (start_config c)) as (c2 & E & _ & V2 & _); [done| | |].
  - intros f Hf. unfold usable. rewrite Hk1 by done. by apply HD.
  - intros f Hf. unfold usable. rewrite Hk2 by done. by apply HB.
  - rewrite E. assert (HL : sv_AllowLegacy c2 = true).
    { specialize (V2 _ legacy_field_in). rewrite (Hk2 _ legacy_field_in), (Hin _ "true"%string) in V2.
      - replace (filled s (f_key legacy_field) "true") with "true"%string in V2; [by injection V2|].
        unfold filled. change (f_key legacy_field) with "allow_legacy"%string. by rewrite Hs0, Hl0.
      - unfold start_config. rewrite decide_True by done. apply elem_of_app. right. apply elem_of_app. left.
        change (map ?g ?l) with (g <$> l). apply list_elem_of_fmap. exists legacy_field. split; [done|exact legacy_field_in]. }
    exists c2, s3. split_and!; [done|done|]. intros e a src data msg Hc _ HBr HDec HT. apply legacy_register; [by rewrite Hc|done..].
Qed.
End Laws.

(* ------------------------------------------------------------------ *)
(** ** Witnesses *)

(** A duration as the eight bytes of its offset. *)
Definition toy_duration : GoDuration := {|
  DurationString d := string_of (be_put 8 (d + 2 ^ 63));
  ParseDuration s := if decide (String.length s = 8%nat) then Some (be_get (bytes_of s) - 2 ^ 63) else None;
|}.

Lemma toy_duration_laws : GoDurationLaws toy_duration.
Proof.
  split; cbn [ParseDuration DurationString toy_duration].
  - intros d Hd. rewrite <- length_bytes_of, bytes_of_string_of, length_be_put, decide_True by done.
    rewrite be_get_put_small by lia. f_equal. lia.
  - intros s d. case_decide as D; [|done]. intros [= <-]. pose proof (be_get_bound (bytes_of s)) as B.
    rewrite length_bytes_of, D in B. lia.
  - intros d E. apply (f_equal (fun s => length (bytes_of s))) in E. rewrite bytes_of_string_of, length_be_put in E. done.
Qed.

Section Witnesses.
  #[local] Existing Instances binary_collation bin_time bin_time_laws toy_duration toy_duration_laws ascii_unicode.

Lemma memory_up : database_up (T := memory_table).
Proof.
  split_and!; [done|done|]. intros key value s. unfold PutSystemSetting, in_settings. cbn [t_settings tick fst].
  destruct (memory_upsert st_Key (mkSystemSetting key value (nowString s)) (fun m => mkSystemSetting (st_Key m) value (nowString s)) (t_settings s))
    as (r & t' & E); [done|done|done|]. unfold error_of. by rewrite E.
Qed.

Definition toy_db : control_db memory_table := empty_db (fun _ => 0).

(** The settings of a new server, the relay switched off. *)
Definition toy_request : settings_request :=
  let d n := DurationString (n * second) in
  mkSettingsRequest (d 90) (d 60) (d 30) false true false true (d 5) "info" true (d 10) true false "1.2.3" "" "" "" "" "" "" "" "" "" "" "" "" "".

Lemma settings_survive_restart_witness :
  exists c1 s1 c2 s2, handleSettings_PATCH (Some toy_request) DefaultServer toy_db = (Ok tt, c1, s1) /\
    started DefaultServer s1 = (Ok c2, s2) /\ sv_AllowRelay c2 = false /\ sv_PeerTTL c2 = 90 * second /\ sv_ClientReleaseVersion c2 = "1.2.3"%string.
Proof.
  destruct (handleSettings_PATCH (Some toy_request) DefaultServer toy_db) as [[r c1] s1] eqn:E.
  assert (Hr : r = Ok tt /\ sv_AllowRelay c1 = false /\ sv_PeerTTL c1 = 90 * second /\ sv_ClientReleaseVersion c1 = "1.2.3"%string).
  { apply (f_equal fst) in E. vm_compute in E. injection E as <- <-. split_and!; reflexivity. }
  destruct Hr as (-> & H1 & H2 & H3).
  destruct (settings_survive_restart binary_binary toy_request DefaultServer c1 DefaultServer toy_db s1 s1 memory_up E eq_refl eq_refl)
    as (c2 & s2 & E2 & VD & VB & VS).
  exists c1, s1, c2, s2. split_and!; [reflexivity|exact E2| | |].
  - rewrite <- H1. apply (VB (mkField "allow_relay" sv_AllowRelay set_AllowRelay)). left.
  - rewrite <- H2. apply (VD (mkField "peer_ttl" sv_PeerTTL set_PeerTTL)). left.
  - rewrite <- H3. refine (eq_trans (VS (mkField "client_release_version" sv_ClientReleaseVersion set_ClientReleaseVersion) _) _).
    + right. left.
    + cbn [f_get]. rewrite H3. reflexivity.
Defined.

(** A server first started without a key, then with one. *)
Definition toy_secret : Server := set_PSK "secret" DefaultServer.

Lemma legacy_mode_sticks_witness :
  exists c1 s1 c2 s2, started DefaultServer toy_db = (Ok c1, s1) /\ started toy_secret s1 = (Ok c2, s2) /\
    sv_AllowLegacy DefaultServer = false /\ sv_AllowLegacy toy_secret = false /\ sv_AllowLegacy c2 = true.
Proof.
  destruct (started DefaultServer toy_db) as [r s1] eqn:E.
  destruct r as [c1|]; [|apply (f_equal fst) in E; vm_compute in E; discriminate E].
  assert (HS : stored toy_db "allow_legacy" = EmptyString) by (vm_compute; reflexivity).
  assert (HL : legacy toy_db "allow_legacy" = EmptyString) by (vm_compute; reflexivity).
  destruct (legacy_mode_sticks (MJ := ServerUDP.toy_json) (ED := LanIdentity.toy_ed) binary_binary DefaultServer c1 toy_secret toy_db s1 s1 memory_up
    eq_refl HS HL E eq_refl ltac:(discriminate) eq_refl) as (c2 & s2 & E2 & H & _).
  exists c1, s1, c2, s2. split_and!; [reflexivity|exact E2|reflexivity|reflexivity|exact H].
Defined.
End Witnesses.
