(* ===== verification/Machine.v ===== *)
(** * Machine: the id and the name of a device (internal/machineid, internal/lan/device_id.go, cmd/client/main.go)

    Both programs derive a device's id from the machine it runs on. WMI, the host name and
    the files of the system are arguments; SHA-256 is a parameter. *)

From S2P Require Import Prelude GoStrings.

(** [sha256.Sum256]. *)
Class SHA256 := { Sum256 : list byte -> list byte; Sum256_length l : length (Sum256 l) = 32%nat }.

(* ------------------------------------------------------------------ *)
(** ** Base 32, without padding *)

Definition b32_char (i : Z) : byte := z2b (if i <? 26 then 65 + i else 24 + i).

(** Five bytes are eight characters; a shorter group, as many as its bits need. *)
Fixpoint b32_group (n : nat) (v : Z) : list byte := match n with O => [] | S n => b32_group n (v / 32) ++ [b32_char (v mod 32)] end.
Fixpoint b32_encode (l : list byte) : list byte :=
  match l with
  | [] => []
  | [a] => b32_group 2 (be_get [a] * 4)
  | [a; b] => b32_group 4 (be_get [a; b] * 16)
  | [a; b; c] => b32_group 5 (be_get [a; b; c] * 2)
  | [a; b; c; d] => b32_group 7 (be_get [a; b; c; d] * 8)
  | a :: b :: c :: d :: e :: l => b32_group 8 (be_get [a; b; c; d; e]) ++ b32_encode l
  end.

(* ------------------------------------------------------------------ *)
(** ** The machine *)

Definition invalid_uuids : list string :=
  ["FFFFFFFF-FFFF-FFFF-FFFF-FFFFFFFFFFFF"; "00000000-0000-0000-0000-000000000000"; "03000200-0400-0500-0006-000700080009"]%string.

Section Machine.
  Context `{GU : GoUnicode} `{SH : SHA256}.

Definition validUUID (uuid : string) : bool :=
  negb (bool_decide (uuid = EmptyString)) && negb (existsb (EqualFold uuid) invalid_uuids).

(** [rows] is what the query returns; [None] is its error. *)
Definition UUID (rows : option (list string)) : string :=
  match rows with
  | Some (uuid :: _) => let uuid := TrimSpace uuid in if validUUID uuid then uuid else EmptyString
  | _ => EmptyString
  end.

(** The two files of a system that is not Windows, [None] when one cannot be read. *)
Definition machine_id_files (files : list (option string)) : string :=
  let texts := List.filter (fun s => negb (bool_decide (s = EmptyString))) (map (fun f => from_option TrimSpace EmptyString f) files) in
  default EmptyString (head texts).

(** [stableDeviceID] of the client and [StableDeviceID] of the LAN device. *)
Definition StableDeviceID (seed : string) : string :=
  let seed := ToLower (TrimSpace seed) in
  if decide (seed = EmptyString) then EmptyString
  else ("DEV-" ++ string_of (take 16 (b32_encode (Sum256 (bytes_of seed)))))%string.

(** [hostname] is [None] when [os.Hostname] fails. *)
Definition defaultDeviceName (hostname : option string) : string :=
  match hostname with
  | None => "windows-client"%string
  | Some name => if decide (TrimSpace name = EmptyString) then "windows-client"%string else TrimSpace name
  end.

Definition generateDeviceID (uuid : string) (hostname : option string) : string :=
  if decide (StableDeviceID uuid <> EmptyString) then StableDeviceID uuid else StableDeviceID (defaultDeviceName hostname).

(** internal/lan/device_id.go. *)
Definition DeviceID (uuid : string) (hostname : option string) : string :=
  if decide (StableDeviceID uuid <> EmptyString) then StableDeviceID uuid else StableDeviceID (default EmptyString hostname).

(** cmd/UDPTunnelLAN/main.go. *)
Definition lan_defaultDeviceName (uuid : string) (hostname : option string) : string :=
  match hostname with
  | Some name => if decide (TrimSpace name = EmptyString) then DeviceID uuid hostname else TrimSpace name
  | None => DeviceID uuid hostname
  end.

(* ------------------------------------------------------------------ *)
(** ** Laws *)

Lemma StableDeviceID_trim s : StableDeviceID (TrimSpace s) = StableDeviceID s.
Proof. unfold StableDeviceID. by rewrite TrimSpace_idem. Qed.

Lemma b32_group_length n v : length (b32_group n v) = n.
Proof. revert v. induction n as [|n IH]; intros v; simpl; [done|]. rewrite length_app, IH. simpl. lia. Qed.

Lemma b32_char_inj x y : 0 <= x < 32 -> 0 <= y < 32 -> b32_char x = b32_char y -> x = y.
Proof. intros Hx Hy E. unfold b32_char in E. apply z2b_inj_small in E; repeat case_match; lia. Qed.

Lemma b32_group_inj n : forall x y, 0 <= x < 32 ^ Z.of_nat n -> 0 <= y < 32 ^ Z.of_nat n -> b32_group n x = b32_group n y -> x = y.
Proof.
  induction n as [|n IH]; intros x y Hx Hy E; [simpl in *; lia|]. cbn [b32_group] in E. apply app_inj_tail in E as [E1 E2].
  rewrite Nat2Z.inj_succ, Z.pow_succ_r in Hx, Hy by lia.
  apply b32_char_inj in E2; [|apply Z.mod_pos_bound; lia|apply Z.mod_pos_bound; lia].
  assert (D : forall z, 0 <= z < 32 * 32 ^ Z.of_nat n -> 0 <= z / 32 < 32 ^ Z.of_nat n)
    by (intros z Hz; split; [apply Z.div_pos; lia|apply Z.div_lt_upper_bound; lia]).
  apply IH in E1; [|by apply D|by apply D].
  rewrite (Z.div_mod x 32), (Z.div_mod y 32), E1, E2 by lia. done.
Qed.

(** The sixteen characters of an id are the first ten bytes of the sum. *)
Lemma b32_take l : (10 <= length l)%nat -> take 16 (b32_encode l) = b32_group 8 (be_get (take 5 l)) ++ b32_group 8 (be_get (take 5 (drop 5 l))).
Proof.
  intros L. do 10 (destruct l as [|? l]; [simpl in L; lia|]). cbn [b32_encode take drop].
  reflexivity.
Qed.

Lemma be_group_inj l k : length l = 5%nat -> length k = 5%nat -> b32_group 8 (be_get l) = b32_group 8 (be_get k) -> l = k.
Proof.
  intros Hl Hk E. pose proof (be_get_bound l) as Bl. pose proof (be_get_bound k) as Bk. rewrite Hl in Bl. rewrite Hk in Bk.
  apply b32_group_inj in E; [|done..]. rewrite <- (be_put_get l), <- (be_put_get k), E, Hl, Hk. done.
Qed.

Lemma string_app_inj s t u : (s ++ t)%string = (s ++ u)%string -> t = u.
Proof. induction s as [|c s IH]; simpl; intros E; [done|]. injection E as E. by apply IH. Qed.

Definition named (seed : string) : string := ToLower (TrimSpace seed).

Lemma StableDeviceID_empty seed : StableDeviceID seed = EmptyString <-> named seed = EmptyString.
Proof. unfold StableDeviceID, named. case_decide; split; done. Qed.

Lemma StableDeviceID_inj s1 s2 : StableDeviceID s1 = StableDeviceID s2 -> StableDeviceID s1 <> EmptyString ->
  take 10 (Sum256 (bytes_of (named s1))) = take 10 (Sum256 (bytes_of (named s2))).
Proof.
  intros E N. assert (N2 : StableDeviceID s2 <> EmptyString) by congruence. rewrite StableDeviceID_empty in N, N2.
  unfold named in *. unfold StableDeviceID in E. rewrite !decide_False in E by done. apply string_app_inj, string_of_inj in E.
  set (l := Sum256 (bytes_of (ToLower (TrimSpace s1)))) in *. set (k := Sum256 (bytes_of (ToLower (TrimSpace s2)))) in *.
  assert (Ll : length l = 32%nat) by apply Sum256_length. assert (Lk : length k = 32%nat) by apply Sum256_length.
  rewrite !b32_take in E by lia. apply app_inj_1 in E as [E1 E2]; [|by rewrite !b32_group_length].
  apply be_group_inj in E1, E2; [|rewrite ?length_take, ?length_drop; lia..].
  change 10%nat with (5 + 5)%nat. rewrite <- !take_take_drop. by rewrite E1, E2.
Qed.

(** The client and the LAN device of one machine present themselves under one id as
    soon as the machine has a name; without either, the client falls back on a fixed
    one, the same for all such machines, and the LAN device has none. Two machines
    share an id only when the sums of what identifies them start with the same ten bytes. *)
Theorem device_ids_agree (uuid : string) (hostname : option string) :
  (named uuid <> EmptyString \/ named (default EmptyString hostname) <> EmptyString -> generateDeviceID uuid hostname = DeviceID uuid hostname) /\
  (named uuid = EmptyString -> TrimSpace (default EmptyString hostname) = EmptyString ->
    generateDeviceID uuid hostname = StableDeviceID "windows-client" /\ DeviceID uuid hostname = EmptyString) /\
  (forall uuid' hostname', DeviceID uuid hostname = DeviceID uuid' hostname' -> DeviceID uuid hostname <> EmptyString ->
    exists s s', s ∈ [uuid; default EmptyString hostname] /\ s' ∈ [uuid'; default EmptyString hostname'] /\
      take 10 (Sum256 (bytes_of (named s))) = take 10 (Sum256 (bytes_of (named s')))).
Proof.
  split_and!.
  - unfold generateDeviceID, DeviceID. intros H; case_decide as D; [done|]. rewrite StableDeviceID_empty in D.
    destruct hostname as [h|]; cbn [default from_option id] in *; [|destruct H as [H|H]; [tauto|by destruct H]].
    cbn [defaultDeviceName]. case_decide as D2; [|apply StableDeviceID_trim].
    destruct H as [H|H]; [tauto|]. unfold named in H. rewrite D2 in H. by destruct H.
  - intros H1 H2. apply StableDeviceID_empty in H1. unfold generateDeviceID, DeviceID. rewrite !decide_False by tauto.
    split; [|apply StableDeviceID_empty; unfold named; by rewrite H2].
    destruct hostname as [h|]; cbn in *; [by rewrite decide_True|done].
  - intros uuid' hostname' E N. unfold DeviceID in E, N.
    repeat case_decide; (eexists _, _; split_and!; [| |by apply StableDeviceID_inj]; set_solver).
Qed.
End Machine.

(** The sum of a text as its first bytes, filled up. *)
Definition toy_sum (l : list byte) : list byte := take 32 (l ++ replicate 32 x00).
Lemma toy_sum_length l : length (toy_sum l) = 32%nat.
Proof. unfold toy_sum. rewrite length_take, length_app, length_replicate. lia. Qed.
Definition toy_sha : SHA256 := {| Sum256 := toy_sum; Sum256_length := toy_sum_length |}.

Lemma device_ids_agree_witness :
  generateDeviceID (GU := ascii_unicode) (SH := toy_sha) "12345678-ABCD" (Some " Laptop "%string) =
    DeviceID (GU := ascii_unicode) (SH := toy_sha) "12345678-ABCD" (Some " Laptop "%string).
Proof.
  apply (device_ids_agree (GU := ascii_unicode) (SH := toy_sha) "12345678-ABCD" (Some " Laptop "%string)). left. vm_compute. discriminate.
Defined.
