(* ===== verification/ClientConfig.v ===== *)
(** * ClientConfig: the configuration of a client and its file (internal/config/config.go, cmd/client/main.go, config_ui.go)

    The settings a client runs with, what of them its file keeps, the page that edits
    them and the saving through a program started with more rights. Files are a map from
    paths to contents, with what may be read and written. *)

From S2P Require Import Prelude GoStrings WinArgs GoJSON Machine.
From S2P Require Settings SettingsLaws.

(* ------------------------------------------------------------------ *)
(** ** Files *)

Inductive io_error : Type := PermissionDenied | OtherIO.

#[export] Instance io_error_eq_dec : EqDecision io_error.
Proof. solve_decision. Defined.

Inductive file_error : Type := ErrEmptyPath | ErrReadFile | ErrDecodeFile | ErrWriteFile (e : io_error) | ErrElevated.

#[export] Instance file_error_eq_dec : EqDecision file_error.
Proof. solve_decision. Defined.

Record FS : Type := mkFS { fs_files : gmap string (list byte); fs_readable : string -> bool; fs_write_error : string -> option io_error }.

Definition with_files (f : gmap string (list byte)) (fs : FS) : FS := mkFS f (fs_readable fs) (fs_write_error fs).

(** [os.WriteFile]. *)
Definition WriteFile (path : string) (b : list byte) (fs : FS) : result file_error unit * FS :=
  match fs_write_error fs path with
  | Some e => (Err (ErrWriteFile e), fs)
  | None => (Ok tt, with_files (<[path := b]> (fs_files fs)) fs)
  end.

Section Files.
  Context `{GJ : GoJSON}.

(** [LoadJSON] into a value that [unmarshal] decodes. *)
Definition LoadJSON {X} (unmarshal : list byte -> X -> option X) (path : string) (fs : FS) (dst : X) : result file_error X :=
  if decide (path = EmptyString) then Ok dst
  else match fs_files fs !! path with
  | None => Ok dst
  | Some b =>
    if fs_readable fs path then match unmarshal b dst with Some x => Ok x | None => Err ErrDecodeFile end
    else Err ErrReadFile
  end.

(** [SaveJSON] of an object: its text, indented, and a line feed. *)
Definition SaveJSON (path : string) (src : object) (fs : FS) : result file_error unit * FS :=
  if decide (path = EmptyString) then (Err ErrEmptyPath, fs)
  else WriteFile path (Indent (Marshal src) ++ [x0a]) fs.
End Files.

(* ------------------------------------------------------------------ *)
(** ** The settings of a client *)

Record Client : Type := mkClient {
  cc_Server : string; cc_ServerHTTP : string; cc_DeviceID : string; cc_DeviceName : string; cc_PeerID : string; cc_PSK : string;
  cc_NoUPnP : bool; cc_UPnPTimeout : Duration; cc_LogLevel : string; cc_TrayEnabled : bool; cc_PunchTimeout : Duration;
  cc_ForceRelay : bool; cc_AllowLegacy : bool; cc_Forwards : list string }.

Definition DefaultClient : Client :=
  mkClient EmptyString EmptyString EmptyString EmptyString EmptyString EmptyString false (4 * second) "info" true (30 * second) false false [].

Definition set_identity (name id : string) (c : Client) : Client :=
  mkClient (cc_Server c) (cc_ServerHTTP c) id name (cc_PeerID c) (cc_PSK c) (cc_NoUPnP c) (cc_UPnPTimeout c) (cc_LogLevel c)
    (cc_TrayEnabled c) (cc_PunchTimeout c) (cc_ForceRelay c) (cc_AllowLegacy c) (cc_Forwards c).

(** [durationJSON]: the duration and whether there was one. *)
Record durationJSON : Type := mkDurationJSON { dj_Duration : Duration; dj_set : bool }.

(** What [UnmarshalJSON] and [SaveClientLocalJSON] read and write. *)
Record clientJSON : Type := mkClientJSON {
  cj_Server : string; cj_ServerHTTP : string; cj_DeviceName : string; cj_PeerID : string; cj_NoUPnP : option bool; cj_UPnPTimeout : durationJSON;
  cj_LogLevel : string; cj_TrayEnabled : option bool; cj_PunchTimeout : durationJSON; cj_ForceRelay : option bool; cj_AllowLegacy : option bool;
  cj_Forwards : list string }.

Definition client_names : list string :=
  ["server"; "server_http"; "device_name"; "peer_id"; "no_upnp"; "upnp_timeout"; "log_level"; "tray_enabled"; "punch_timeout"; "force_relay";
   "allow_legacy"; "forwards"]%string.

Section Config.
  Context `{GU : GoUnicode} `{GD : Settings.GoDuration} `{GJ : GoJSON}.
  Import Settings.

(** [durationJSON.UnmarshalJSON]: a text is parsed as a duration ([null] is the empty
    text), a number is one of nanoseconds. *)
Definition durationJSON_UnmarshalJSON (v : json) : option durationJSON :=
  match v with
  | JString s => d ← ParseDuration s; Some (mkDurationJSON d true)
  | JNull => d ← ParseDuration EmptyString; Some (mkDurationJSON d true)
  | JNumber l => n ← Atoi l; Some (mkDurationJSON n true)
  | _ => None
  end.
Definition as_duration : list json -> option durationJSON := read_values (fun _ => durationJSON_UnmarshalJSON) (mkDurationJSON 0 false).

Definition decode_clientJSON (o : object) : option clientJSON :=
  let at_ := values client_names o in
  Server ← as_string (at_ "server"%string); ServerHTTP ← as_string (at_ "server_http"%string);
  DeviceName ← as_string (at_ "device_name"%string); PeerID ← as_string (at_ "peer_id"%string);
  NoUPnP ← as_bool_ptr (at_ "no_upnp"%string); UPnPTimeout ← as_duration (at_ "upnp_timeout"%string);
  LogLevel ← as_string (at_ "log_level"%string); TrayEnabled ← as_bool_ptr (at_ "tray_enabled"%string);
  PunchTimeout ← as_duration (at_ "punch_timeout"%string); ForceRelay ← as_bool_ptr (at_ "force_relay"%string);
  AllowLegacy ← as_bool_ptr (at_ "allow_legacy"%string); Forwards ← as_strings (at_ "forwards"%string);
  Some (mkClientJSON Server ServerHTTP DeviceName PeerID NoUPnP UPnPTimeout LogLevel TrayEnabled PunchTimeout ForceRelay AllowLegacy Forwards).

Definition duration_or (d : durationJSON) (old : Duration) : Duration := if dj_set d then dj_Duration d else old.

Definition apply_clientJSON (x : clientJSON) (c : Client) : Client :=
  mkClient (cj_Server x) (cj_ServerHTTP x) (cc_DeviceID c) (cj_DeviceName x) (cj_PeerID x) (cc_PSK c)
    (default (cc_NoUPnP c) (cj_NoUPnP x)) (duration_or (cj_UPnPTimeout x) (cc_UPnPTimeout c))
    (if decide (cj_LogLevel x = EmptyString) then cc_LogLevel c else cj_LogLevel x) (default (cc_TrayEnabled c) (cj_TrayEnabled x))
    (duration_or (cj_PunchTimeout x) (cc_PunchTimeout c)) (default (cc_ForceRelay c) (cj_ForceRelay x))
    (default (cc_AllowLegacy c) (cj_AllowLegacy x)) (cj_Forwards x).

Definition UnmarshalJSON (b : list byte) (c : Client) : option Client :=
  o ← Unmarshal b; x ← decode_clientJSON o; Some (apply_clientJSON x c).

(** [MarshalJSON]. *)
Definition client_object (c : Client) : object :=
  [("server", JString (cc_Server c)); ("server_http", JString (cc_ServerHTTP c))]%string ++
  omit_string "device_id" (cc_DeviceID c) ++ omit_string "device_name" (cc_DeviceName c) ++ omit_string "peer_id" (cc_PeerID c) ++
  [("psk", JString (cc_PSK c)); ("no_upnp", JBool (cc_NoUPnP c)); ("upnp_timeout", JString (DurationString (cc_UPnPTimeout c)));
   ("log_level", JString (cc_LogLevel c)); ("tray_enabled", JBool (cc_TrayEnabled c));
   ("punch_timeout", JString (DurationString (cc_PunchTimeout c))); ("force_relay", JBool (cc_ForceRelay c));
   ("allow_legacy", JBool (cc_AllowLegacy c))]%string ++
  (if decide (cc_Forwards c = []) then [] else [("forwards"%string, JArray (map JString (cc_Forwards c)))]).

Definition local_object (c : Client) : object := ("server_http"%string, JString (cc_ServerHTTP c)) :: omit_string "device_name" (cc_DeviceName c).
Definition SaveClientLocalJSON (path : string) (c : Client) : FS -> result file_error unit * FS := SaveJSON path (local_object c).

Definition load_client (path : string) (fs : FS) (c : Client) : result file_error Client := LoadJSON UnmarshalJSON path fs c.
End Config.

(* ------------------------------------------------------------------ *)
(** ** Identity, the settings page and elevation (cmd/client) *)

Definition set_view (http name : string) (c : Client) : Client :=
  mkClient (cc_Server c) http (cc_DeviceID c) name (cc_PeerID c) (cc_PSK c) (cc_NoUPnP c) (cc_UPnPTimeout c) (cc_LogLevel c)
    (cc_TrayEnabled c) (cc_PunchTimeout c) (cc_ForceRelay c) (cc_AllowLegacy c) (cc_Forwards c).

(** [clearServerManagedConfig]. *)
Definition clearServerManagedConfig (c : Client) : Client :=
  mkClient EmptyString (cc_ServerHTTP c) (cc_DeviceID c) (cc_DeviceName c) EmptyString EmptyString false 0 EmptyString true 0 false false [].

(** What the page's saving may do: [SaveConfig] of the hooks, or the file directly. *)
Definition saver : Type := Client -> FS -> result file_error bool * FS.

Record clientConfigState : Type := mkPage { pg_cfg : Client; pg_path : string; pg_SaveConfig : option saver; pg_OnSaved : bool }.
Definition set_page (c : Client) (s : clientConfigState) : clientConfigState := mkPage c (pg_path s) (pg_SaveConfig s) (pg_OnSaved s).

Definition view_names : list string := ["server_http"; "device_name"]%string.

Section Client.
  Context `{GU : GoUnicode} `{GD : Settings.GoDuration} `{GJ : GoJSON} `{SH : SHA256}.
  (** The machine's UUID and its host name. *)
  Context (uuid : string) (hostname : option string).

Definition ensureRuntimeIdentity (cfg : Client) : bool * Client :=
  let '(changed, cfg) := if decide (TrimSpace (cc_DeviceName cfg) = EmptyString)
    then (true, set_identity (defaultDeviceName hostname) (cc_DeviceID cfg) cfg) else (false, cfg) in
  if decide (cc_PeerID cfg = EmptyString) then (true, set_identity (cc_DeviceName cfg) (generateDeviceID uuid hostname) cfg) else (changed, cfg).

Definition ensureLocalIdentity (cfg : Client) (configPath : string) (fs : FS) : result file_error unit * Client * FS :=
  let '(changed, cfg) := ensureRuntimeIdentity cfg in
  if decide (changed = true /\ configPath <> EmptyString /\ cc_ServerHTTP cfg <> EmptyString) then
    let '(r, fs) := SaveClientLocalJSON configPath cfg fs in (r, cfg, fs)
  else (Ok tt, cfg, fs).

(** [handleConfig]: the status, the JSON answered and whether the process exits. *)
Definition handleConfig (method : string) (body : list byte) (s : clientConfigState) (fs : FS)
  : Z * object * bool * clientConfigState * FS :=
  if decide (method = "GET"%string) then
    (200, [("server_http", JString (cc_ServerHTTP (pg_cfg s))); ("device_name", JString (cc_DeviceName (pg_cfg s)))]%string, false, s, fs)
  else if decide (method = "POST"%string) then
    let req := o ← DecodeFirst body;
               http ← as_string (values view_names o "server_http"); name ← as_string (values view_names o "device_name");
               Some (http, name) in
    match req with
    | None => (400, [], false, s, fs)
    | Some (http, name) =>
      let name := if decide (name = EmptyString) then defaultDeviceName hostname else name in
      let cfg := clearServerManagedConfig (set_view http name (pg_cfg s)) in
      let '(saved, fs) := match pg_SaveConfig s with
        | Some save => save cfg fs
        | None => let '(r, fs) := SaveClientLocalJSON (pg_path s) cfg fs in (_ ← r; Ok false, fs)
        end in
      match saved with
      | Err _ => (500, [], false, set_page cfg s, fs)
      | Ok elevated =>
        let exiting := pg_OnSaved s && negb elevated in
        (200, [("ok", JBool true); ("restart_required", JBool true); ("process_exiting", JBool exiting); ("elevation_required", JBool elevated)]%string,
         exiting, set_page cfg s, fs)
      end
    end
  else (405, [], false, s, fs).

Definition isPermissionDenied (e : file_error) : bool := bool_decide (e = ErrWriteFile PermissionDenied).

Definition apply_args (tmpPath configPath : string) : list string := ["-apply-client-config"; tmpPath; "-config"; configPath]%string.

(** [saveClientConfigWithElevation]. [tmp] is the name of the temporary file, [None]
    when there is none; [shell] is whether the shell starts the program, given its
    command line. *)
Definition saveClientConfigWithElevation (tmp : option string) (shell : string -> bool) (configPath : string) : saver := fun cfg fs =>
  match SaveClientLocalJSON configPath cfg fs with
  | (Ok _, fs) => (Ok false, fs)
  | (Err e, fs) =>
    if negb (isPermissionDenied e) then (Err e, fs)
    else match tmp with
    | None => (Err ErrElevated, fs)
    | Some tmpPath =>
      let remove fs := with_files (delete tmpPath (fs_files fs)) fs in
      match SaveClientLocalJSON tmpPath cfg (with_files (<[tmpPath := []]> (fs_files fs)) fs) with
      | (Err e, fs) => (Err e, remove fs)
      | (Ok _, fs) => if shell (joinWindowsArgs (apply_args tmpPath configPath)) then (Ok true, fs) else (Err ErrElevated, remove fs)
      end
    end
  end.

(** The start of the client with [-apply-client-config]. *)
Definition applyClientConfig (tmpPath configPath : string) (fs : FS) : result file_error unit * FS :=
  match load_client tmpPath fs DefaultClient with
  | Err e => (Err e, fs)
  | Ok next =>
    match SaveClientLocalJSON configPath next fs with
    | (Err e, fs) => (Err e, fs)
    | (Ok _, fs) => (Ok tt, with_files (delete tmpPath (fs_files fs)) fs)
    end
  end.

(* ------------------------------------------------------------------ *)
(** ** What survives a file *)

Context `{DL : !Settings.GoDurationLaws GD} `{JL : !GoJSONLaws GJ}.

Definition local_writable (c : Client) : bool := ValidString (cc_ServerHTTP c) && ValidString (cc_DeviceName c).

Lemma local_object_writable c : local_writable c = true -> writable_object (local_object c) = true.
Proof.
  unfold local_writable, local_object, omit_string. rewrite andb_true_iff. intros [H1 H2].
  unfold writable_object. case_decide; simpl; rewrite ?H1, ?H2; reflexivity.
Qed.

(** A client that starts from nothing but its file. *)
Definition local_client (http name : string) (d : Client) : Client :=
  mkClient EmptyString http (cc_DeviceID d) name EmptyString (cc_PSK d) (cc_NoUPnP d) (cc_UPnPTimeout d) (cc_LogLevel d) (cc_TrayEnabled d)
    (cc_PunchTimeout d) (cc_ForceRelay d) (cc_AllowLegacy d) [].

Lemma decode_local c d :
  (x ← decode_clientJSON (local_object c); Some (apply_clientJSON x d)) = Some (local_client (cc_ServerHTTP c) (cc_DeviceName c) d).
Proof.
  unfold decode_clientJSON, local_object, omit_string. case_decide as D; [rewrite D|]; rewrite !values_exact by reflexivity; reflexivity.
Qed.

Lemma saved_local_loads path c d fs fs' : local_writable c = true -> fs_readable fs path = true ->
  SaveClientLocalJSON path c fs = (Ok tt, fs') -> load_client path fs' d = Ok (local_client (cc_ServerHTTP c) (cc_DeviceName c) d).
Proof.
  intros W R. unfold SaveClientLocalJSON, SaveJSON, WriteFile, load_client, LoadJSON. case_decide as D; [done|].
  destruct (fs_write_error fs path); [done|]. intros [= <-]. cbn [with_files fs_files fs_readable].
  rewrite lookup_insert_eq, R. unfold UnmarshalJSON. rewrite unmarshal_pretty by (by apply local_object_writable). cbn [mbind option_bind].
  by rewrite decode_local.
Qed.

(* ------------------------------------------------------------------ *)
(** ** Restarts *)

(** The start of a client without flags. *)
Definition start_local (path : string) (fs : FS) : result file_error unit * Client * FS :=
  let cfg := match load_client path fs DefaultClient with Ok c => c | Err _ => DefaultClient end in
  ensureLocalIdentity cfg path fs.

Lemma default_name_nonempty : TrimSpace (defaultDeviceName hostname) = defaultDeviceName hostname /\ defaultDeviceName hostname <> EmptyString.
Proof.
  unfold defaultDeviceName. destruct hostname as [h|]; [|split; [reflexivity|discriminate]].
  case_decide; [split; [reflexivity|discriminate]|]. by rewrite TrimSpace_idem.
Qed.

Lemma runtime_identity cfg : cc_PeerID cfg = EmptyString ->
  ensureRuntimeIdentity cfg = (true, set_identity (if decide (TrimSpace (cc_DeviceName cfg) = EmptyString) then defaultDeviceName hostname else cc_DeviceName cfg)
    (generateDeviceID uuid hostname) cfg).
Proof. intros H. unfold ensureRuntimeIdentity. case_decide; simpl; rewrite decide_True by done; reflexivity. Qed.


(** What is saved on the settings page is what the client starts with next, and nothing
    else of what it ran with: an empty name becomes the machine's, other fields are the
    defaults. A page that could not save answers an error and leaves the file. *)
Theorem settings_page_lasts (s s' : clientConfigState) (fs fs' : FS) (body : list byte) (http name : string) (status : Z) (reply : object) (ex : bool) :
  DecodeFirst body = Some [("server_http"%string, JString http); ("device_name"%string, JString name)] ->
  pg_SaveConfig s = None -> fs_readable fs (pg_path s) = true ->
  let kept := if decide (name = EmptyString) then defaultDeviceName hostname else name in
  ValidString http = true -> ValidString kept = true ->
  handleConfig "POST" body s fs = (status, reply, ex, s', fs') ->
  (status = 200 /\ ex = pg_OnSaved s /\ load_client (pg_path s) fs' DefaultClient = Ok (local_client http kept DefaultClient)) \/
  (status = 500 /\ ex = false /\ fs_files fs' = fs_files fs /\ (pg_path s = EmptyString \/ fs_write_error fs (pg_path s) <> None)).
Proof.
  intros Hb Hsv Hr kept V1 V2. unfold handleConfig. rewrite decide_False, decide_True by done. rewrite Hb, Hsv.
  cbn [mbind option_bind]. rewrite !values_exact by reflexivity.
  change (as_string _ ≫= _) with (Some (http, name)). cbv beta iota zeta. fold kept. set (cfg := clearServerManagedConfig (set_view http kept (pg_cfg s))).
  destruct (SaveClientLocalJSON (pg_path s) cfg fs) as [r f] eqn:S. destruct r as [u|e]; cbn [mbind result_bind mret].
  - destruct u. intros [= <- <- <- <- <-]. left. split_and!; [done|by rewrite andb_true_r|].
    rewrite (saved_local_loads _ cfg DefaultClient fs); [done| |done|done]. change (ValidString http && ValidString kept = true). by rewrite V1, V2.
  - intros [= <- <- <- <- <-]. right. revert S. unfold SaveClientLocalJSON, SaveJSON, WriteFile.
    case_decide; [|destruct (fs_write_error fs (pg_path s)) eqn:We; [|done]]; intros [= <- <-]; split_and!; auto.
Qed.
End Client.

(* ------------------------------------------------------------------ *)
(** ** Witnesses *)

Section Witnesses.
  #[local] Existing Instances ascii_unicode toy_gojson toy_gojson_laws toy_sha SettingsLaws.toy_duration SettingsLaws.toy_duration_laws.

Definition toy_fs : FS := mkFS ∅ (fun _ => true) (fun _ => None).
Definition toy_uuid : string := "4C4C4544".
Definition toy_cfg : Client := set_view "http://tunnel.example.com" "laptop" DefaultClient.

(** The first start of a client whose file has a URL and no name. *)
Definition first_fs : FS := (SaveClientLocalJSON "client.json" (set_view "http://tunnel.example.com" EmptyString DefaultClient) toy_fs).2.


Definition toy_page : clientConfigState := mkPage toy_cfg "client.json" None true.
Definition toy_body : list byte := Marshal [("server_http"%string, JString "http://new.example.com"); ("device_name"%string, JString EmptyString)].

Lemma toy_body_decodes : DecodeFirst toy_body = Some [("server_http"%string, JString "http://new.example.com"); ("device_name"%string, JString EmptyString)].
Proof.
  change toy_body with (Marshal [("server_http"%string, JString "http://new.example.com"); ("device_name"%string, JString EmptyString)] ++ []).
  apply (decode_marshal _ 0). vm_compute. reflexivity.
Qed.

Lemma settings_page_lasts_witness :
  let '(status, reply, ex, s', fs') := handleConfig (Some "laptop"%string) "POST" toy_body toy_page toy_fs in
  status = 200 /\ load_client "client.json" fs' DefaultClient = Ok (local_client "http://new.example.com" "laptop" DefaultClient).
Proof.
  destruct (handleConfig (Some "laptop"%string) "POST" toy_body toy_page toy_fs) as [[[[status reply] ex] s'] fs'] eqn:E.
  destruct (settings_page_lasts (Some "laptop"%string) toy_page s' toy_fs fs' toy_body "http://new.example.com" EmptyString status reply ex)
    as [(H1 & _ & H3)|(_ & _ & _ & [H|H])]; [exact toy_body_decodes|reflexivity|reflexivity|vm_compute; reflexivity|vm_compute; reflexivity|exact E| | |].
  - split; [exact H1|exact H3].
  - discriminate H.
  - by destruct H.
Defined.
End Witnesses.
