(* ===== verification/Updates.v ===== *)
(** * Updates: releases and the state shown of them (cmd/client/update.go, version.go)

    Versions are compared number by number; a newer release is downloaded, its checksum
    compared, and its installer launched. The HTTP exchange, the file and the launch are
    arguments. *)

From S2P Require Import Prelude GoStrings WinArgs GoJSON Machine.

(* ------------------------------------------------------------------ *)
(** ** Versions *)

(** [n, _ := strconv.Atoi(s)]: what is no number is 0, what is too large is the nearest
    [int]. *)
Definition atoi_value (s : string) : Z :=
  match Atoi s with
  | Some z => z
  | None =>
    let l := bytes_of s in
    let signed := starts_with [x2b] l || starts_with [x2d] l in
    match digits_value (if signed then drop 1 l else l) with
    | None => 0
    | Some _ => if starts_with [x2d] l then - 2 ^ 63 else 2 ^ 63 - 1
    end
  end.

(** The loop up to the longer of the two: a number that is missing is 0. *)
Fixpoint compare_loop (n : nat) (aa bb : list Z) : Z :=
  match n with
  | O => 0
  | S n =>
    let av := hd 0 aa in let bv := hd 0 bb in
    if decide (av < bv) then -1 else if decide (bv < av) then 1 else compare_loop n (tl aa) (tl bb)
  end.
Definition compare_numbers (aa bb : list Z) : Z := compare_loop (Nat.max (length aa) (length bb)) aa bb.

Section Versions.
  Context `{GU : GoUnicode}.

Definition parse_version (s : string) : list Z :=
  let s := TrimSpace (ToLower s) in
  let s := if HasPrefix s "v" then string_of (drop 1 (bytes_of s)) else s in
  map (fun p => atoi_value (TrimSpace p)) (Split s x2e).

Definition compareVersionStrings (a b : string) : Z := compare_numbers (parse_version a) (parse_version b).

(** The reference: versions as sequences of numbers that end in zeros for ever, the
    first difference decides. *)
Definition number_at (l : list Z) (i : nat) : Z := default 0 (l !! i).
Definition precedes (aa bb : list Z) : Prop := exists i, (forall j, (j < i)%nat -> number_at aa j = number_at bb j) /\ number_at aa i < number_at bb i.
Definition same_numbers (aa bb : list Z) : Prop := forall i, number_at aa i = number_at bb i.

Lemma number_at_head l : hd 0 l = number_at l 0. Proof. by destruct l. Qed.
Lemma number_at_tail l i : number_at (tl l) i = number_at l (S i). Proof. by destruct l. Qed.

Lemma same_or_precedes_tail aa bb : number_at aa 0 = number_at bb 0 ->
  (same_numbers (tl aa) (tl bb) -> same_numbers aa bb) /\ (precedes (tl aa) (tl bb) -> precedes aa bb).
Proof.
  intros E. split.
  - intros S [|i]; [done|]. rewrite <- !number_at_tail. apply S.
  - intros (i & Ei & L). exists (S i). rewrite !number_at_tail in L. split; [|done].
    intros [|j] Hj; [done|]. rewrite <- !number_at_tail. apply Ei. lia.
Qed.

(** The comparison is the reference's: the sign says which comes first. *)
Lemma compare_loop_spec n : forall aa bb, (length aa <= n)%nat -> (length bb <= n)%nat ->
  let c := compare_loop n aa bb in (c = -1 /\ precedes aa bb) \/ (c = 0 /\ same_numbers aa bb) \/ (c = 1 /\ precedes bb aa).
Proof.
  induction n as [|n IH]; intros aa bb Ha Hb; cbn [compare_loop].
  - destruct aa, bb; try (simpl in *; lia). right. left. split; [done|by intros i].
  - rewrite !number_at_head. case_decide as D1; [left; split; [done|]; exists O; split; [lia|done]|].
    case_decide as D2; [right; right; split; [done|]; exists O; split; [lia|done]|].
    assert (E : number_at aa 0 = number_at bb 0) by lia.
    destruct (same_or_precedes_tail aa bb E) as [S1 P1]. destruct (same_or_precedes_tail bb aa (eq_sym E)) as [_ P2].
    destruct (IH (tl aa) (tl bb)) as [[-> P]|[[-> P]|[-> P]]]; [destruct aa; simpl in *; lia|destruct bb; simpl in *; lia| | |]; auto.
Qed.

Lemma compare_spec a b : let c := compareVersionStrings a b in
  (c = -1 /\ precedes (parse_version a) (parse_version b)) \/ (c = 0 /\ same_numbers (parse_version a) (parse_version b)) \/
  (c = 1 /\ precedes (parse_version b) (parse_version a)).
Proof. unfold compareVersionStrings, compare_numbers. apply compare_loop_spec; lia. Qed.

Lemma precedes_trans x y z : precedes x y -> precedes y z -> precedes x z.
Proof.
  intros (i & Ei & Li) (j & Ej & Lj). exists (Nat.min i j). split.
  - intros k Hk. rewrite Ei, Ej by lia. done.
  - destruct (Nat.lt_trichotomy i j) as [H|[->|H]].
    + rewrite Nat.min_l, <- (Ej i) by lia. done.
    + rewrite Nat.min_id. lia.
    + rewrite Nat.min_r, (Ei j) by lia. done.
Qed.

Lemma precedes_irrefl x y : same_numbers x y -> ~ precedes x y.
Proof. intros S (i & _ & L). rewrite S in L. lia. Qed.

Lemma precedes_same_l x y z : same_numbers x y -> precedes y z -> precedes x z.
Proof. intros S (i & E & L). exists i. split; [intros j Hj; rewrite S; by apply E|by rewrite S]. Qed.

Lemma precedes_same_r x y z : precedes x y -> same_numbers y z -> precedes x z.
Proof. intros (i & E & L) S. exists i. split; [intros j Hj; rewrite <- S; by apply E|by rewrite <- S]. Qed.

Lemma precedes_asym x y : precedes x y -> ~ precedes y x.
Proof. intros P Q. apply (precedes_irrefl x x); [by intros i|]. by eapply precedes_trans. Qed.

Lemma same_sym x y : same_numbers x y -> same_numbers y x. Proof. intros S i. by rewrite S. Qed.

Lemma compare_sign a b :
  (compareVersionStrings a b = -1 <-> precedes (parse_version a) (parse_version b)) /\
  (compareVersionStrings a b = 0 <-> same_numbers (parse_version a) (parse_version b)) /\
  (compareVersionStrings a b = 1 <-> precedes (parse_version b) (parse_version a)).
Proof.
  pose proof (precedes_asym (parse_version a) (parse_version b)) as A. pose proof (precedes_irrefl (parse_version a) (parse_version b)) as I.
  pose proof (precedes_irrefl (parse_version b) (parse_version a)) as I'. pose proof (same_sym (parse_version a) (parse_version b)) as S.
  destruct (compare_spec a b) as [[E P]|[[E P]|[E P]]]; rewrite E; split_and!; (split; [intros ?; try done|intros ?; try done]); exfalso; tauto.
Qed.

Lemma compare_cases a b : compareVersionStrings a b = -1 \/ compareVersionStrings a b = 0 \/ compareVersionStrings a b = 1.
Proof. destruct (compare_spec a b) as [[E _]|[[E _]|[E _]]]; auto. Qed.

Lemma not_newer a b : compareVersionStrings a b <= 0 <-> precedes (parse_version a) (parse_version b) \/ same_numbers (parse_version a) (parse_version b).
Proof. destruct (compare_sign a b) as (<- & <- & _). pose proof (compare_cases a b). lia. Qed.

Lemma compare_refl a : compareVersionStrings a a = 0.
Proof. apply compare_sign. by intros i. Qed.

Lemma versions_swap a b : compareVersionStrings b a = - compareVersionStrings a b.
Proof.
  destruct (compare_sign a b) as (A1 & A2 & A3), (compare_sign b a) as (B1 & B2 & B3).
  destruct (compare_cases a b) as [E|[E|E]]; rewrite E; [apply B3, A1, E|apply B2, same_sym, A2, E|apply B1, A3, E].
Qed.

(** Comparing versions is a total order up to zeros at the end: a version equals itself,
    swapping the arguments swaps the sign, and being no newer is transitive; the first
    number that differs decides. *)
Theorem versions_ordered (a b c : string) :
  compareVersionStrings a a = 0 /\ compareVersionStrings b a = - compareVersionStrings a b /\
  (compareVersionStrings a b <= 0 -> compareVersionStrings b c <= 0 -> compareVersionStrings a c <= 0) /\
  (compareVersionStrings a b = 0 <-> same_numbers (parse_version a) (parse_version b)) /\
  (compareVersionStrings a b = 1 <-> precedes (parse_version b) (parse_version a)).
Proof.
  split_and!; [apply compare_refl|apply versions_swap| |apply compare_sign..].
  - rewrite !not_newer. intros [P|S] [Q|T].
    + left. by eapply precedes_trans. + left. by eapply precedes_same_r. + left. by eapply precedes_same_l.
    + right. intros i. by rewrite S.
Qed.
End Versions.

(* ------------------------------------------------------------------ *)
(** ** What the tray shows (version.go) *)

Record runtimeState : Type := mkRuntime {
  rs_logPath : string; rs_serviceStatus : string; rs_updateStatus : string; rs_lastUpdateCheck : string; rs_lastUpdateError : string }.

Definition SetLogPath (path : string) (r : runtimeState) : runtimeState :=
  mkRuntime path (rs_serviceStatus r) (rs_updateStatus r) (rs_lastUpdateCheck r) (rs_lastUpdateError r).
Definition SetServiceStatus (v : string) (r : runtimeState) : runtimeState :=
  mkRuntime (rs_logPath r) v (rs_updateStatus r) (rs_lastUpdateCheck r) (rs_lastUpdateError r).
Definition SetUpdateStatus (status lastCheck lastErr : string) (r : runtimeState) : runtimeState :=
  mkRuntime (rs_logPath r) (rs_serviceStatus r) (if decide (status <> EmptyString) then status else rs_updateStatus r)
    (if decide (lastCheck <> EmptyString) then lastCheck else rs_lastUpdateCheck r) lastErr.

Record clientRuntimeInfo : Type := mkRuntimeInfo {
  ri_Version : string; ri_Commit : string; ri_BuildTime : string; ri_InstallPath : string; ri_LogPath : string; ri_ServiceStatus : string;
  ri_UpdateStatus : string; ri_LastUpdateCheck : string; ri_LastUpdateError : string }.

(** The build's [Version], [Commit] and [BuildTime], and where the program is. *)
Definition currentRuntimeInfo (version commit built installPath : string) (r : runtimeState) : clientRuntimeInfo :=
  mkRuntimeInfo version commit built installPath (rs_logPath r) (rs_serviceStatus r) (rs_updateStatus r) (rs_lastUpdateCheck r) (rs_lastUpdateError r).

(** [updateManager]: [None] outside the service; its channel holds one reason. *)
Record updateManager : Type := mkUpdates { um_trigger : option string }.
Definition newUpdateManager (serviceMode : bool) (r : runtimeState) : option updateManager * runtimeState :=
  if serviceMode then (Some (mkUpdates None), SetUpdateStatus "idle" EmptyString EmptyString r) else (None, r).
Definition Trigger (reason : string) (u : option updateManager) : option updateManager :=
  match u with
  | None => None
  | Some u => Some (mkUpdates (Some (default reason (um_trigger u))))
  end.

(* ------------------------------------------------------------------ *)
(** ** Checking, downloading, launching (update.go) *)

Record releaseInfo : Type := mkReleaseInfo {
  rl_Version : string; rl_URL : string; rl_SHA256 : string; rl_PublishedAt : string; rl_Notes : string; rl_Minimum : string }.

Definition release_names : list string := ["version"; "url"; "sha256"; "published_at"; "notes"; "minimum_supported_version"]%string.

Section Update.
  Context `{GU : GoUnicode} `{GJ : GoJSON} `{SH : SHA256}.
  Variable Version : string.                                       (* of the build *)
  Variable now : string.                                           (* time.Now().Format(time.RFC3339) *)
  Variable fetch : result string (Z * list byte).                  (* the answer of /api/client/release *)
  Variable parse_url : string -> result string (string * string).  (* url.Parse: the URL and the base of its path *)
  Variable get : string -> result string (Z * list byte).          (* http.Get, read to its end *)
  Variable create : string -> option string.                       (* the file in the temporary directory; None: error *)
  Variable launch : string -> option string.                       (* launchUpdater's error *)

Definition decode_release (o : object) : option releaseInfo :=
  let at_ := values release_names o in
  Version ← as_string (at_ "version"%string); URL ← as_string (at_ "url"%string); SHA256 ← as_string (at_ "sha256"%string);
  PublishedAt ← as_string (at_ "published_at"%string); Notes ← as_string (at_ "notes"%string);
  Minimum ← as_string (at_ "minimum_supported_version"%string);
  Some (mkReleaseInfo Version URL SHA256 PublishedAt Notes Minimum).

(** [fetchReleaseInfo] on the answer. *)
Definition fetchReleaseInfo : result string releaseInfo :=
  '(status, body) ← fetch;
  if decide (300 <= status) then Err ("http " ++ FormatInt status)%string
  else match o ← DecodeFirst body; decode_release o with Some r => Ok r | None => Err "decode"%string end.

Definition hex_encode (l : list byte) : string := string_of (concat (map (fun b => hex_digits 2 (b2z b)) l)).

(** The path of the installer and what it holds. *)
Definition downloadReleaseInstaller (rel : releaseInfo) : result string (string * list byte) :=
  '(u, base) ← parse_url (rl_URL rel);
  '(status, body) ← get u;
  if decide (300 <= status) then Err ("download http " ++ FormatInt status)%string
  else
    let name := if decide (base ∈ [EmptyString; "."%string; "/"%string]) then "udp-tunnel-client-setup.exe"%string else base in
    match create name with
    | None => Err "create"%string
    | Some dst =>
      if decide (rl_SHA256 rel <> EmptyString /\ EqualFold (hex_encode (Sum256 body)) (rl_SHA256 rel) = false) then Err "sha256 mismatch"%string
      else Ok (dst, body)
    end.

(** [checkForUpdates]: its result, what the tray shows, and the installers launched. *)
Definition checkForUpdates (requireUpgrade : bool) (r : runtimeState)
  : result string (option releaseInfo) * runtimeState * list (string * list byte) :=
  let r := SetUpdateStatus "checking" now EmptyString r in
  match fetchReleaseInfo with
  | Err e => (Err e, SetUpdateStatus "error" now e r, [])
  | Ok rel =>
    if decide (rl_Version rel = EmptyString \/ rl_URL rel = EmptyString) then
      if requireUpgrade then (Err "release info incomplete"%string, r, [])
      else (Ok None, SetUpdateStatus "idle" now EmptyString r, [])
    else if decide (compareVersionStrings (rl_Version rel) Version <= 0) then (Ok (Some rel), SetUpdateStatus "up-to-date" now EmptyString r, [])
    else match downloadReleaseInstaller rel with
    | Err e => (Err e, SetUpdateStatus "error" now e r, [])
    | Ok (pkgPath, body) =>
      match launch pkgPath with
      | Some e => (Err e, SetUpdateStatus "error" now e r, [])
      | None => (Ok (Some rel), SetUpdateStatus "installing" now EmptyString r, [(pkgPath, body)])
      end
    end
  end.

(** Only a release that names a later version is launched, from a download that
    answered, and whose content has the release's checksum if there is one; without a
    checksum whatever the URL answers is run. *)
Definition launchable (rel : releaseInfo) (path : string) (body : list byte) : Prop :=
  precedes (parse_version Version) (parse_version (rl_Version rel)) /\ rl_Version rel <> EmptyString /\
  (exists u base status, parse_url (rl_URL rel) = Ok (u, base) /\ get u = Ok (status, body) /\ status < 300) /\
  launch path = None /\
  (rl_SHA256 rel = EmptyString \/ EqualFold (hex_encode (Sum256 body)) (rl_SHA256 rel) = true).

Lemma download_ok rel path body : downloadReleaseInstaller rel = Ok (path, body) ->
  (exists u base status, parse_url (rl_URL rel) = Ok (u, base) /\ get u = Ok (status, body) /\ status < 300) /\
  (rl_SHA256 rel = EmptyString \/ EqualFold (hex_encode (Sum256 body)) (rl_SHA256 rel) = true).
Proof.
  unfold downloadReleaseInstaller. destruct (parse_url _) as [[u base]|] eqn:Eu; [|done]. cbn [mbind result_bind].
  destruct (get u) as [[status b]|] eqn:Eg; [|done]. cbn [mbind result_bind]. case_decide as D; [done|].
  destruct (create _) as [dst|]; [|done]. case_decide as D2; [done|]. intros [= <- <-]. split; [exists u, base, status; split_and!; [done..|lia]|].
  destruct (decide (rl_SHA256 rel = EmptyString)) as [?|N]; [by left|]. right. destruct (EqualFold _ _); [done|]. by destruct D2.
Qed.
End Update.

Section UpdateLaws.
  Context `{GU : GoUnicode} `{GJ : GoJSON} `{SH : SHA256}.
  Variables (now : string) (fetch : result string (Z * list byte)) (parse_url : string -> result string (string * string))
    (get : string -> result string (Z * list byte)) (create launch : string -> option string).

(** C29. An update is run only when it is a later version and what was downloaded is what
    the release announced; a check that launches nothing says why, and once the release
    is installed no check launches it again, so updating ends. *)
Theorem updates_checked (Version : string) (require : bool) (r r' : runtimeState) (res : result string (option releaseInfo)) (ran : list (string * list byte)) :
  checkForUpdates Version now fetch parse_url get create launch require r = (res, r', ran) ->
  (ran = [] \/ exists rel path body, ran = [(path, body)] /\ fetchReleaseInfo fetch = Ok rel /\ res = Ok (Some rel) /\
     rs_updateStatus r' = "installing"%string /\ launchable Version parse_url get launch rel path body /\
     (forall require r1, (checkForUpdates (rl_Version rel) now fetch parse_url get create launch require r1).2 = [])) /\
  (ran = [] -> (exists e, res = Err e) \/ res = Ok None \/
     exists rel, res = Ok (Some rel) /\ ~ precedes (parse_version Version) (parse_version (rl_Version rel))).
Proof.
  unfold checkForUpdates at 1. set (r0 := SetUpdateStatus "checking" now EmptyString r).
  destruct (fetchReleaseInfo fetch) as [rel|e] eqn:Ef; [|intros [= <- <- <-]; split; [by left|intros _; left; by eexists]].
  case_decide as D1.
  { destruct require; intros [= <- <- <-]; (split; [by left|]); intros _; [left; by eexists|by right; left]. }
  case_decide as D2.
  { intros [= <- <- <-]. split; [by left|]. intros _. right. right. exists rel. split; [done|]. intros P. apply compare_sign in P.
    pose proof (versions_swap Version (rl_Version rel)). lia. }
  destruct (downloadReleaseInstaller parse_url get create rel) as [[path body]|e] eqn:Ed; [|intros [= <- <- <-]; split; [by left|intros _; left; by eexists]].
  destruct (launch path) as [e|] eqn:El; [intros [= <- <- <-]; split; [by left|intros _; left; by eexists]|].
  intros [= <- <- <-]. split; [|done]. right. exists rel, path, body. apply download_ok in Ed as [Hg Hs].
  assert (N : compareVersionStrings Version (rl_Version rel) = -1).
  { pose proof (versions_swap (rl_Version rel) Version). destruct (compare_cases (rl_Version rel) Version) as [E|[E|E]]; lia. }
  split_and!; [done..| |].
  - split_and!; [by apply (proj1 (compare_sign Version (rl_Version rel)))|by intros E; apply D1; left|done..].
  - intros require' r1. unfold checkForUpdates. rewrite Ef. rewrite decide_False by exact D1.
    rewrite decide_True; [done|]. rewrite compare_refl. lia.
Qed.
End UpdateLaws.

(* ------------------------------------------------------------------ *)
(** ** Witness *)

Section Witness.
  #[local] Existing Instances ascii_unicode toy_gojson toy_gojson_laws toy_sha.

Lemma versions_ordered_witness :
  compareVersionStrings "1.2" "1.10" <= 0 /\ compareVersionStrings "1.10" "v1.10.0" <= 0 /\ compareVersionStrings "1.2" "v1.10.0" <= 0.
Proof.
  assert (A : compareVersionStrings "1.2" "1.10" <= 0) by (vm_compute; congruence).
  assert (B : compareVersionStrings "1.10" "v1.10.0" <= 0) by (vm_compute; congruence).
  split_and!; [exact A|exact B|]. exact (proj1 (proj2 (proj2 (versions_ordered "1.2" "1.10" "v1.10.0"))) A B).
Defined.

Definition toy_release : list byte :=
  Marshal [("version", JString "v1.10"); ("url", JString "http://d/setup.exe"); ("sha256", JString (hex_encode (Sum256 [x01; x02])))]%string.

Lemma updates_checked_witness :
  let '(res, r', ran) := checkForUpdates "1.9.3" "2026" (Ok (200, toy_release)) (fun u => Ok (u, "setup.exe"%string)) (fun _ => Ok (200, [x01; x02]))
    (fun n => Some n) (fun _ => None) false (mkRuntime EmptyString EmptyString EmptyString EmptyString EmptyString) in
  ran = [("setup.exe"%string, [x01; x02])] /\ rs_updateStatus r' = "installing"%string.
Proof.
  destruct (checkForUpdates _ _ _ _ _ _ _ _ _) as [[res r'] ran] eqn:E.
  assert (R : ran = [("setup.exe"%string, [x01; x02])]) by (vm_compute in E; by injection E as <- <- <-). split; [exact R|].
  destruct (updates_checked "2026" (Ok (200, toy_release)) (fun u => Ok (u, "setup.exe"%string)) (fun _ => Ok (200, [x01; x02])) (fun n => Some n) (fun _ => None)
    "1.9.3" false (mkRuntime EmptyString EmptyString EmptyString EmptyString EmptyString) r' res ran E) as [[H|(rel & path & body & _ & _ & _ & H & _)] _];
    [rewrite R in H; discriminate H|exact H].
Defined.
End Witness.
