(* ===== verification/AgentServe.v ===== *)
(** * AgentServe: devices, forwarding rules and agents (internal/server/handlers_agent.go, handlers_admin.go, views.go)

    What agents ask and report and the administration of devices and forwarding rules,
    over the tables of [ControlStore]; the views made of both are in [Views]. JSON bodies arrive
    decoded, [None] for what is not JSON. *)

From S2P Require Import Prelude GoStrings Store ServerUtil Gorm ControlStore LanAdmin.
From S2P Require Settings.

(* ------------------------------------------------------------------ *)
(** ** Requests and answers *)

Record agentTunnelReport : Type := mkReport {
  tr_Peer : string; tr_Profile : string; tr_State : string; tr_Via : string; tr_NATType : string; tr_PublicAddr : string; tr_ConvID : Z;
  tr_RTTMs : Z; tr_LastError : string; tr_Attempt : Z; tr_NextRetryAt : string; tr_LastTransitionAt : string }.

(** The body of a registration and of a heartbeat. *)
Record agent_report : Type := mkAgentReport {
  ar_DeviceID : string; ar_Name : string; ar_Addr : string; ar_UpnpAddr : string; ar_NATType : string; ar_Tunnels : list agentTunnelReport }.

(** The body of a tunnel status: the device, its name, its addresses and the report. *)
Record agent_status : Type := mkAgentStatus {
  as_DeviceID : string; as_Name : string; as_Addr : string; as_UpnpAddr : string; as_Report : agentTunnelReport }.

Record agentBootstrapResponse : Type := mkAgentBootstrap {
  ab_DeviceID : string; ab_DeviceName : string; ab_Server : string; ab_ServerHTTP : string; ab_PSK : string; ab_STUNAltPort : Z;
  ab_NoUPnP : bool; ab_UPnPTimeout : string; ab_LogLevel : string; ab_TrayEnabled : bool; ab_PunchTimeout : string; ab_ForceRelay : bool;
  ab_AllowLegacy : bool }.

Record clientReleaseResponse : Type := mkRelease {
  rel_Version : string; rel_URL : string; rel_SHA256 : string; rel_PublishedAt : string; rel_Notes : string; rel_Minimum : string }.

(** What of a request the handlers read besides the body. *)
Record http_meta : Type := mkHTTPMeta { hm_Method : string; hm_RemoteAddr : string; hm_Host : string; hm_TLS : bool; hm_ForwardedProto : string }.

Section Handlers.
  Context `{CO : Collation} `{LK : Like} `{GU : GoUnicode} `{GT : GoTime} `{MJ : MetadataJSON}.
  Context {T : forall R, Model R -> Type} `{G : !Gorm T}.
  Notation DB := (control_db T).

(** [_ = a.db.Audit(...)]: the error is dropped. *)
Definition audits (kind detail : string) : handler DB unit := fun s => Some (Ok tt, snd (Audit kind detail s)).

(* ------------------------------------------------------------------ *)
(** ** Agents *)

Definition ensureAgentDeviceAllowed (deviceID : string) (s : DB) : result api_error unit :=
  d ← GetDevice deviceID s;
  if dev_Enabled d then Ok tt else Err (badRequest "device_disabled" "device is disabled").

Definition agentOnline (tunnels : list agentTunnelReport) : bool := true.

Definition tunnel_up (state : string) : bool := bool_decide (state = "p2p"%string) || bool_decide (state = "relay"%string).

Definition tunnel_state (deviceID : string) (t : agentTunnelReport) : TunnelState :=
  mkTunnelState deviceID (tr_Peer t) (tr_Profile t) (tr_State t) (tr_Via t) (tr_NATType t) (tr_PublicAddr t) (tr_ConvID t) (tr_RTTMs t)
    (tr_LastError t) (tr_Attempt t) (tr_NextRetryAt t) (tr_LastTransitionAt t) "".

(** A report stored, with the path of the session it is about. *)
Definition put_report (deviceID : string) (t : agentTunnelReport) : handler DB unit :=
  _ ← writes (PutTunnelState (tunnel_state deviceID t));
  if tunnel_up (tr_State t) && bool_decide (tr_Via t <> EmptyString)
  then writes (UpdateSessionPathForPair deviceID (tr_Peer t) (tr_Profile t) (tr_Via t))
  else mret tt.

Fixpoint putTunnelReports (deviceID : string) (tunnels : list agentTunnelReport) : handler DB unit :=
  match tunnels with
  | [] => mret tt
  | t :: rest =>
    if decide (tr_Peer t = EmptyString) then putTunnelReports deviceID rest
    else _ ← put_report deviceID t; putTunnelReports deviceID rest
  end.

(** The loop over the tunnels stops at the first that is up. *)
Fixpoint health_of (acc : string) (tunnels : list agentTunnelReport) : string :=
  match tunnels with
  | [] => acc
  | t :: rest =>
    if tunnel_up (tr_State t) then "至少一条隧道正常"%string
    else health_of (if decide (tr_State t = "backoff"%string) then "回退重试中"%string else acc) rest
  end.

Definition first_tunnel (tunnels : list agentTunnelReport) : string * string :=
  match List.find (fun t => bool_decide (TrimSpace (tr_State t) <> EmptyString)) tunnels with
  | Some t => (tr_State t, tr_Via t)
  | None => (EmptyString, EmptyString)
  end.
Definition first_error (tunnels : list agentTunnelReport) : string :=
  match List.find (fun t => bool_decide (TrimSpace (tr_LastError t) <> EmptyString)) tunnels with
  | Some t => tr_LastError t
  | None => EmptyString
  end.

Definition putAgentProductState (source deviceID addr upnpAddr want natType : string) (online : bool) (tunnels : list agentTunnelReport)
  : handler DB unit :=
  rules ← reads (RulesForDevice deviceID);
  let healthSummary := if decide (length rules = O) then "无规则"%string else health_of "有规则但未建链" tunnels in
  let '(tunnel_state, tunnel_via) := first_tunnel tunnels in
  let metadata : gmap string GoAny := list_to_map [("addr", AnyString addr); ("upnp_addr", AnyString upnpAddr); ("want", AnyString want);
    ("nat_type", AnyString natType); ("tunnel_state", AnyString tunnel_state); ("tunnel_via", AnyString tunnel_via);
    ("health_summary", AnyString healthSummary); ("rule_count", AnyInt (Z.of_nat (length rules)))]%string in
  writes (ControlStore.UpsertDeviceProductState (mkDeviceProductState deviceID "agent" online "" source "" (first_error tunnels) metadata)).

(** [handleAgentRegister] and [handleAgentHeartbeat] differ in the source they record. *)
Definition agent_reports (source : string) (m : http_meta) (body : option agent_report) : handler DB unit :=
  match body with
  | None => fail bad_json
  | Some req =>
    if decide (ar_DeviceID req = EmptyString) then fail bad_json
    else
      _ ← reads (ensureAgentDeviceAllowed (ar_DeviceID req));
      let addr := if decide (ar_Addr req = EmptyString) then requestAddr (hm_RemoteAddr m) else ar_Addr req in
      _ ← writes (UpsertDevice (ar_DeviceID req) (ar_Name req) addr (ar_UpnpAddr req) "" (agentOnline (ar_Tunnels req)));
      _ ← putAgentProductState source (ar_DeviceID req) addr (ar_UpnpAddr req) "" (ar_NATType req) (agentOnline (ar_Tunnels req)) (ar_Tunnels req);
      putTunnelReports (ar_DeviceID req) (ar_Tunnels req)
  end.
Definition handleAgentRegister : http_meta -> option agent_report -> handler DB unit := agent_reports "agent_register".
Definition handleAgentHeartbeat : http_meta -> option agent_report -> handler DB unit := agent_reports "agent_heartbeat".

Definition with_profile (p : string) (t : agentTunnelReport) : agentTunnelReport :=
  mkReport (tr_Peer t) p (tr_State t) (tr_Via t) (tr_NATType t) (tr_PublicAddr t) (tr_ConvID t) (tr_RTTMs t) (tr_LastError t) (tr_Attempt t)
    (tr_NextRetryAt t) (tr_LastTransitionAt t).

Definition handleAgentTunnelStatus (m : http_meta) (body : option agent_status) : handler DB unit :=
  match body with
  | None => fail bad_json
  | Some req =>
    if decide (as_DeviceID req = EmptyString \/ tr_Peer (as_Report req) = EmptyString) then fail bad_json
    else
      let report := with_profile (NormalizeProfile (tr_Profile (as_Report req))) (as_Report req) in
      _ ← reads (ensureAgentDeviceAllowed (as_DeviceID req));
      let addr := if decide (as_Addr req = EmptyString) then requestAddr (hm_RemoteAddr m) else as_Addr req in
      let online := bool_decide (tr_State report = "connecting"%string) || tunnel_up (tr_State report) in
      _ ← writes (UpsertDevice (as_DeviceID req) (as_Name req) addr (as_UpnpAddr req) (tr_Peer report) online);
      _ ← putAgentProductState "agent_heartbeat" (as_DeviceID req) addr (as_UpnpAddr req) (tr_Peer report) (tr_NATType report) online [report];
      put_report (as_DeviceID req) report
  end.

Definition handleAgentRules (deviceID : string) : handler DB (list ForwardRule) :=
  if decide (deviceID = EmptyString) then fail (badRequest "device_id_required" "device_id required")
  else
    _ ← reads (ensureAgentDeviceAllowed deviceID);
    reads (RulesForDevice deviceID).

(* ------------------------------------------------------------------ *)
(** ** Devices *)

Definition device_in_use : api_error := badRequest "device_in_use" "device is still referenced by enabled rules".

(** The answers: a device, or [{"ok": true}]. [body] is [enabled]. *)
Definition handleDeviceByID (method i : string) (body : option bool) : handler DB (option Device) :=
  if decide (method = "GET"%string) then d ← reads (GetDevice i); mret (Some d)
  else if decide (method = "PATCH"%string) then
    match body with
    | None => fail bad_json
    | Some enabled =>
      _ ← writes (SetDeviceEnabled i enabled);
      _ ← audits "device_set_enabled" (i ++ " enabled=" ++ FormatBool enabled);
      mret None
    end
  else if decide (method = "DELETE"%string) then
    n ← reads (EnabledRuleReferenceCount i);
    if decide (0 < n) then fail device_in_use
    else
      _ ← writes (DeleteDevice i);
      _ ← audits "device_delete" i;
      mret None
  else fail methodNotAllowed.

(* ------------------------------------------------------------------ *)
(** ** Forwarding rules *)

Definition decodeRule (body : option ForwardRule) : result api_error ForwardRule :=
  match body with
  | None => Err (DBError "json")
  | Some r => Ok (mkForwardRule (fr_ID r) (fr_Name r) (fr_SourceID r) (fr_TargetID r) (NormalizeProfile (fr_Profile r)) (fr_LocalPort r)
      (fr_TargetHost r) (fr_TargetPort r) (fr_Enabled r) (fr_CreatedAt r) (fr_UpdatedAt r) (fr_RuntimeState r) (fr_LastError r)
      (fr_LastUpdatedAt r) (fr_Attempt r) (fr_NextRetryAt r))
  end.

Definition rule_error_text (e : rule_error) : string :=
  match e with
  | ErrProfile => "profile must be interactive or bulk"
  | ErrIDsRequired => "source_id and target_id are required"
  | ErrIDsEqual => "source_id and target_id must differ"
  | ErrPorts => "ports must be 1..65535"
  | ErrTargetHost => "target_host is required"
  end.

Definition same_device : api_error := badRequest "same_device_forbidden" "source_id and target_id must differ".

Definition normalizeRuleValidationError (r : result rule_error unit) (rule : ForwardRule) : result api_error unit :=
  match r with
  | Ok _ => Ok tt
  | Err e =>
    if decide (fr_SourceID rule = fr_TargetID rule /\ TrimSpace (fr_SourceID rule) <> EmptyString) then Err same_device
    else Err (badRequest "bad_rule" (rule_error_text e))
  end.

Definition agentCapableDevices (s : DB) : result api_error (list string) :=
  states ← ListDeviceProductStates s;
  Ok (map dps_DeviceID (filter (fun st => dps_Product st = "agent"%string /\
    (dps_LastSource st = "agent_register"%string \/ dps_LastSource st = "agent_heartbeat"%string)) states)).

Definition device_not_found (m : string) : api_error := badRequest "device_not_found" m.

Definition rule_device (m i : string) (s : DB) : result api_error Device :=
  match GetDevice i s with
  | Err ErrNoRows => Err (device_not_found m)
  | r => r
  end.

Definition validateRule (rule : ForwardRule) (excludeID : Z) (s : DB) : result api_error unit :=
  if decide (TrimSpace (fr_SourceID rule) = EmptyString \/ TrimSpace (fr_TargetID rule) = EmptyString)
  then Err (device_not_found "source_id and target_id are required")
  else
    source ← rule_device "source device not found" (fr_SourceID rule) s;
    target ← rule_device "target device not found" (fr_TargetID rule) s;
    if decide (dev_ID source = dev_ID target) then Err same_device
    else if negb (dev_Enabled source) || negb (dev_Enabled target) then Err (badRequest "device_disabled" "source or target device is disabled")
    else
      agentCapable ← agentCapableDevices s;
      if decide (dev_ID source ∉ agentCapable) then Err (badRequest "source_not_agent" "source device has no Agent capability")
      else if decide (dev_ID target ∉ agentCapable) then Err (badRequest "target_not_agent" "target device has no Agent capability")
      else if negb (fr_Enabled rule) then Ok tt
      else
        conflict ← LocalPortConflict (fr_SourceID rule) (fr_LocalPort rule) excludeID s;
        if (conflict : bool) then Err (badRequest "local_port_conflict" "same source_id cannot reuse local_port across enabled rules") else Ok tt.

Definition rule_detail (i : Z) (r : ForwardRule) : string :=
  ("#" ++ FormatInt i ++ " " ++ fr_SourceID r ++ "->" ++ fr_TargetID r ++ ":" ++ FormatInt (fr_LocalPort r))%string.

(** The checks of a rule a request brings. *)
Definition checked_rule (body : option ForwardRule) (excludeID : Z) : handler DB ForwardRule :=
  rule ← pure_ (decodeRule body);
  _ ← pure_ (normalizeRuleValidationError (Validate rule) rule);
  _ ← reads (validateRule rule excludeID);
  mret rule.

(** [enrichedRules] answers GET. *)
Definition handleForwards_POST (body : option ForwardRule) : handler DB ForwardRule :=
  rule ← checked_rule body 0;
  rule ← calls (CreateRule rule);
  _ ← audits "rule_create" (rule_detail (fr_ID rule) rule);
  mret rule.

Definition handleForwardByID (method : string) (i : option Z) (body : option ForwardRule) : handler DB unit :=
  match i with
  | None => fail (badRequest "bad_id" "bad id")
  | Some i =>
    if decide (method = "PATCH"%string) then
      rule ← checked_rule body i;
      _ ← writes (UpdateRule i rule);
      audits "rule_update" (rule_detail i rule)
    else if decide (method = "DELETE"%string) then
      _ ← writes (DeleteRule i);
      audits "rule_delete" ("#" ++ FormatInt i)
    else fail methodNotAllowed
  end.

(* ------------------------------------------------------------------ *)
(** ** Bootstrap and releases *)

Context `{GD : Settings.GoDuration}.
Variable cfg : Settings.Server.
Import Settings.

Definition bootstrapConfig (m : http_meta) (deviceID deviceName : string) : agentBootstrapResponse :=
  mkAgentBootstrap deviceID deviceName (externalUDPAddr (hm_Host m) (sv_UDPListen cfg)) (requestBaseURL (hm_TLS m) (hm_ForwardedProto m) (hm_Host m))
    (sv_PSK cfg) (portFromAddr (sv_StunAltListen cfg) 7002) (sv_ClientNoUPnP cfg) (DurationString (sv_ClientUPnPTimeout cfg))
    (sv_ClientLogLevel cfg) (sv_ClientTrayEnabled cfg) (DurationString (sv_ClientPunchTimeout cfg)) (sv_ClientForceRelay cfg)
    (sv_ClientAllowLegacy cfg).

(** [body] is the device and its name. *)
Definition handleAgentBootstrap (m : http_meta) (body : option (string * string)) : handler DB agentBootstrapResponse :=
  if decide (hm_Method m <> "POST"%string) then fail methodNotAllowed
  else match body with
  | None => fail bad_json
  | Some (DeviceID, DeviceName) =>
    if decide (DeviceID = EmptyString) then fail bad_json
    else
      _ ← reads (fun s => match ensureAgentDeviceAllowed DeviceID s with Err ErrNoRows => Ok tt | r => r end);
      let name := TrimSpace DeviceName in
      _ ← writes (ControlStore.UpsertDevice DeviceID name (requestAddr (hm_RemoteAddr m)) "" "" false);
      mret (bootstrapConfig m DeviceID name)
  end.

Definition release_url (m : http_meta) (url file path : string) : string :=
  let url := TrimSpace url in
  if decide (url = EmptyString /\ TrimSpace file <> EmptyString)
  then (requestBaseURL (hm_TLS m) (hm_ForwardedProto m) (hm_Host m) ++ path)%string else url.

Definition clientRelease (m : http_meta) : clientReleaseResponse :=
  mkRelease (sv_ClientReleaseVersion cfg) (release_url m (sv_ClientReleaseURL cfg) (sv_ClientReleaseFile cfg) "/downloads/client/installer")
    (sv_ClientReleaseSHA256 cfg) (sv_ClientReleasePublishedAt cfg) (sv_ClientReleaseNotes cfg) (sv_ClientReleaseMinimumSupported cfg).
Definition lanRelease (m : http_meta) : clientReleaseResponse :=
  mkRelease (sv_LANReleaseVersion cfg) (release_url m (sv_LANReleaseURL cfg) (sv_LANReleaseFile cfg) "/downloads/lan/installer")
    (sv_LANReleaseSHA256 cfg) (sv_LANReleasePublishedAt cfg) (sv_LANReleaseNotes cfg) (sv_LANReleaseMinimumSupported cfg).
End Handlers.
