(* ===== verification/AgentLaws.v ===== *)
(** * AgentLaws: what holds of devices and forwarding rules

    The invariant of the rules table under every request that touches devices or rules,
    and what the default of the column [enabled] does to it. *)

From S2P Require Import Prelude GoStrings Store ServerUtil Gorm ControlStore LanAdmin AgentServe.
From S2P Require Settings SettingsLaws.
Import ControlStore.Models.

(* ------------------------------------------------------------------ *)
(** ** Handlers and relations between states *)

Section Along.
  Context {DB : Type} (R : DB -> DB -> Prop) `{!PreOrder R}.

(** Whatever a handler answers, its states are related. *)
Definition along {A} (h : handler DB A) : Prop := forall s r s', h s = Some (r, s') -> R s s'.

Lemma along_ret {A} (a : A) : along (mret a : handler DB A).
Proof. by intros s r s' [= _ <-]. Qed.
Lemma along_fail {A} e : along (fail e : handler DB A).
Proof. by intros s r s' [= _ <-]. Qed.
Lemma along_reads {A} (f : DB -> result api_error A) : along (reads f).
Proof. by intros s r s' [= _ <-]. Qed.
Lemma along_pure {A} (x : result api_error A) : along (pure_ x : handler DB A).
Proof. by intros s r s' [= _ <-]. Qed.
Lemma along_writes w : (forall s e s', w s = (e, s') -> R s s') -> along (writes w).
Proof. intros H s r s'. unfold writes. destruct (w s) as [[e|] s1] eqn:E; intros [= _ <-]; by eapply H. Qed.
Lemma along_calls {A} (c : DB -> result api_error A * DB) : (forall s r s', c s = (r, s') -> R s s') -> along (calls c).
Proof. intros H s r s' [= E]. by eapply H. Qed.
Lemma along_bind {A B} (h : handler DB A) (f : A -> handler DB B) : along h -> (forall a, along (f a)) -> along (h ≫= f).
Proof.
  intros Hh Hf s r s'. unfold mbind, handler_bind. destruct (h s) as [[[a|e] s1]|] eqn:E; [| |done].
  - intros H. etrans; [by eapply Hh|by eapply Hf].
  - intros [= _ <-]. by eapply Hh.
Qed.
End Along.

(** Walk through a handler; what writes is looked up in the database [states]. *)
Create HintDb states.
Ltac walk := repeat first
  [ solve [eauto 3 with states nocore]
  | apply along_ret; exact _ | apply along_fail; exact _ | apply along_reads; exact _ | apply along_pure; exact _
  | eapply along_bind; [exact _| |intros ?] | case_match | apply along_writes | apply along_calls ].

Lemma filter_fmap_list {A B} (f : A -> B) (P : B -> Prop) `{forall b, Decision (P b)} (l : list A) : filter P (f <$> l) = f <$> filter (fun a => P (f a)) l.
Proof.
  induction l as [|a l IH]; [done|]. cbn [fmap list_fmap]. destruct (decide (P (f a))) as [D|D].
  - rewrite !filter_cons_True by done. cbn. by f_equal.
  - by rewrite !filter_cons_False by done.
Qed.

Section Laws.
  Context `{CO : Collation} `{LK : Like} `{GU : GoUnicode} `{GT : GoTime} `{MJ : MetadataJSON}.
  Context {T : forall R, Model R -> Type} `{G : !Gorm T} `{L : !GormLaws T} `{CL : !CollationLaws CO}.
  Notation DB := (control_db T).

(* ------------------------------------------------------------------ *)
(** ** Calls that leave the rules *)

(** The rules stay, and no device is lost. *)
Definition grows (s s' : DB) : Prop :=
  rows (t_rules s') ≡ₚ rows (t_rules s) /\ forall d, d ∈ rows (t_devices s) -> exists d', d' ∈ rows (t_devices s') /\ d_ID d' = d_ID d.

#[export] Instance grows_preorder : PreOrder grows.
Proof.
  split.
  - intros s. split; [done|]. intros d Hd. by exists d.
  - intros s1 s2 s3 [E1 H1] [E2 H2]. split; [by rewrite E2|]. intros d Hd.
    destruct (H1 d Hd) as (d2 & Hd2 & ?), (H2 d2 Hd2) as (d3 & ? & ?). exists d3. split; [done|congruence].
Qed.

(** A write on other tables. *)
Lemma grows_same (s s' : DB) : t_rules s' = t_rules s -> t_devices s' = t_devices s -> grows s s'.
Proof. intros E1 E2. split; [by rewrite E1|]. rewrite E2. intros d Hd. by exists d. Qed.

Lemma Audit_grows k d : forall (s : DB) e s', Audit k d s = (e, s') -> grows s s'.
Proof. intros s e s' [= _ <-]. by apply grows_same. Qed.

Lemma UpsertDevice_grows id name addr upnp want online : forall (s : DB) e s', ControlStore.UpsertDevice id name addr upnp want online s = (e, s') -> grows s s'.
Proof.
  intros s e s'. unfold ControlStore.UpsertDevice, in_devices. cbn [t_devices tick]. destruct (error_of _) as [o t'] eqn:E. intros [= _ <-].
  split; [done|]. intros d Hd. cbn [t_devices snd]. unfold error_of in E. destruct (Upsert _ _ _) as [[r|e'] t1] eqn:EU; injection E as _ <-.
  - apply upsert_rows in EU as [[_ P]|(ins & x & l & _ & _ & P & P')].
    + exists d. split; [|done]. rewrite P. by right.
    + rewrite P in Hd. apply elem_of_cons in Hd as [->|Hd].
      * eexists. split; [rewrite P'; by left|done].
      * exists d. split; [|done]. rewrite P'. by right.
  - apply upsert_fails in EU as ->. by exists d.
Qed.

(** An update of devices that keeps their ids. *)
Lemma devices_update_grows p g (s s' : DB) n t' : (forall d, d_ID (g d) = d_ID d) -> Updates p g (t_devices s) = (n, t') ->
  t_rules s' = t_rules s -> t_devices s' = t' -> grows s s'.
Proof.
  intros Hg E Er Ed. split; [by rewrite Er|]. rewrite Ed. intros d Hd. destruct n as [n|e].
  - apply updates_rows in E as [P _]. exists (update_row p g d). split.
    + rewrite P. change (map ?f ?l) with (f <$> l). by apply list_elem_of_fmap_2.
    + unfold update_row. by destruct (p d).
  - apply updates_fails in E as ->. by exists d.
Qed.

Lemma SetDeviceEnabled_grows id enabled : forall (s : DB) e s', SetDeviceEnabled id enabled s = (e, s') -> grows s s'.
Proof.
  intros s e s'. unfold SetDeviceEnabled, in_devices, affected. destruct (Updates _ _ _) as [n t1] eqn:E. intros H.
  eapply devices_update_grows; [|exact E| |]; [done|..]; destruct n; injection H as _ <-; done.
Qed.

Lemma MarkOfflineBefore_grows cutoff : forall (s : DB) e s', ControlStore.MarkOfflineBefore cutoff s = (e, s') -> grows s s'.
Proof.
  intros s e s'. unfold ControlStore.MarkOfflineBefore, in_devices, error_of. destruct (Updates _ _ _) as [n t1] eqn:E. intros H.
  eapply devices_update_grows; [|exact E| |]; [done|..]; destruct n; injection H as _ <-; done.
Qed.

Lemma UpsertDeviceProductState_grows st : forall (s : DB) e s', ControlStore.UpsertDeviceProductState st s = (e, s') -> grows s s'.
Proof.
  intros s e s'. unfold ControlStore.UpsertDeviceProductState. case_decide; [by intros [= _ <-]|].
  destruct (if decide _ then _ else _) as [m|]; intros [= _ <-]; by apply grows_same.
Qed.

Lemma PutTunnelState_grows ts : forall (s : DB) e s', PutTunnelState ts s = (e, s') -> grows s s'.
Proof. intros s e s' [= _ <-]. by apply grows_same. Qed.

Lemma UpdateSessionPathForPair_grows a b p v : forall (s : DB) e s', UpdateSessionPathForPair a b p v s = (e, s') -> grows s s'.
Proof.
  intros s e s'. unfold UpdateSessionPathForPair. destruct (First _ _ _) as [[row|]|]; intros [= _ <-]; by apply grows_same.
Qed.

#[local] Hint Resolve Audit_grows UpsertDevice_grows SetDeviceEnabled_grows MarkOfflineBefore_grows UpsertDeviceProductState_grows
  PutTunnelState_grows UpdateSessionPathForPair_grows : states.

Lemma audits_grows k d : along grows (audits k d : handler DB unit).
Proof. intros s r s' [= _ <-]. unfold Audit. by apply grows_same. Qed.

Lemma put_report_grows dev t : along grows (put_report dev t : handler DB unit).
Proof. unfold put_report. walk. Qed.
#[local] Hint Resolve audits_grows put_report_grows : states.

Lemma putTunnelReports_grows dev l : along grows (putTunnelReports dev l : handler DB unit).
Proof. induction l as [|t l IH]; cbn [putTunnelReports]; walk. Qed.

Lemma putAgentProductState_grows src dev a u w n o l : along grows (putAgentProductState src dev a u w n o l : handler DB unit).
Proof. unfold putAgentProductState. walk. Qed.
#[local] Hint Resolve putTunnelReports_grows putAgentProductState_grows : states.

Lemma agent_reports_grows source m body : along grows (agent_reports source m body : handler DB unit).
Proof. unfold agent_reports. walk. Qed.

Lemma handleAgentTunnelStatus_grows m body : along grows (handleAgentTunnelStatus m body : handler DB unit).
Proof. unfold handleAgentTunnelStatus. walk. Qed.

Lemma handleAgentBootstrap_grows GD cfg m body : along grows (handleAgentBootstrap (GD := GD) cfg m body : handler DB agentBootstrapResponse).
Proof. unfold handleAgentBootstrap. walk. Qed.

(* ------------------------------------------------------------------ *)
(** ** The invariant of the rules *)

Definition device_exists (s : DB) (i : string) : Prop := exists d, d ∈ rows (t_devices s) /\ sql_eq (d_ID d) i = true.

Record rules_inv (s : DB) : Prop := {
  ids_positive r : r ∈ rows (t_rules s) -> 0 < r_ID r;
  ports_distinct r r' : r ∈ rows (t_rules s) -> r' ∈ rows (t_rules s) -> r_Enabled r = true -> r_Enabled r' = true ->
    sql_eq (r_SourceID r) (r_SourceID r') = true -> r_LocalPort r = r_LocalPort r' -> r = r';
  devices_exist r : r ∈ rows (t_rules s) -> r_Enabled r = true -> device_exists s (r_SourceID r) /\ device_exists s (r_TargetID r);
}.

Lemma grows_exists s s' i : grows s s' -> device_exists s i -> device_exists s' i.
Proof. intros [_ H] (d & Hd & E). destruct (H d Hd) as (d' & Hd' & Ed). exists d'. by rewrite Ed. Qed.

Lemma rules_inv_grows s s' : grows s s' -> rules_inv s -> rules_inv s'.
Proof.
  intros H [H1 H2 H3]. pose proof H as [E _]. split.
  - intros r. rewrite E. apply H1.
  - intros r r'. rewrite !E. apply H2.
  - intros r. rewrite E. intros Hr He. destruct (H3 r Hr He). split; by eapply grows_exists.
Qed.

Lemma rule_unique (s : DB) r r' : r ∈ rows (t_rules s) -> r' ∈ rows (t_rules s) -> r_ID r = r_ID r' -> r = r'.
Proof.
  intros [i Hi]%list_elem_of_lookup_1 [j Hj]%list_elem_of_lookup_1 E.
  assert (i = j) as -> by (eapply (rows_distinct (t_rules s)); [done|done|cbn; by apply Z.eqb_eq]). congruence.
Qed.

(** What the checks of a request say about its rule. *)
Definition rule_fits (rule : Store.ForwardRule) (excludeID : Z) (s : DB) : Prop :=
  device_exists s (fr_SourceID rule) /\ device_exists s (fr_TargetID rule) /\
  (fr_Enabled rule = true -> forall r, r ∈ rows (t_rules s) -> r_Enabled r = true -> sql_eq (r_SourceID r) (fr_SourceID rule) = true ->
     r_LocalPort r = fr_LocalPort rule -> r_ID r = excludeID).

Lemma rule_device_exists m i (s : DB) d : rule_device m i s = Ok d -> device_exists s i.
Proof.
  unfold rule_device. destruct (GetDevice i s) as [x|e] eqn:E; [|by destruct e]. intros _. unfold GetDevice, or_no_rows in E.
  destruct (First _ _ _) as [[r|]|] eqn:EF; [|done..]. apply first_found in EF as [Hr Hi]. by exists r.
Qed.

Lemma LocalPortConflict_none src port x (s : DB) : LocalPortConflict src port x s = Ok false ->
  forall r, r ∈ rows (t_rules s) -> r_Enabled r = true -> sql_eq (r_SourceID r) src = true -> r_LocalPort r = port -> r_ID r = x.
Proof.
  unfold LocalPortConflict. destruct (Count _ _) as [n|] eqn:E; [|done]. cbn [mbind result_bind]. intros [= Hn] r Hr He Hs Hp. apply count_rows in E.
  destruct (decide (r_ID r = x)) as [|D]; [done|]. exfalso.
  match type of E with _ = Z.of_nat (length ?l) => assert (Hin : r ∈ l) end.
  { apply list_elem_of_filter. split; [|done]. rewrite He, Hs, Hp, Z.eqb_refl. cbn. by apply negb_true_iff, Z.eqb_neq. }
  destruct (filter _ _) as [|y k]; [by apply elem_of_nil in Hin|]. cbn in E. subst n. by apply Z.ltb_ge in Hn.
Qed.

Lemma checked_rule_fits body x (s : DB) rule s' : answers (checked_rule body x) s rule s' -> s' = s /\ rule_fits rule x s /\
  exists b, body = Some b /\ fr_Enabled rule = fr_Enabled b /\ fr_SourceID rule = fr_SourceID b /\ fr_TargetID rule = fr_TargetID b /\
    fr_LocalPort rule = fr_LocalPort b.
Proof.
  unfold checked_rule. intros (r1 & s1 & [E1 ->]%answers_pure & H)%answers_bind. apply answers_bind in H as (? & ? & [_ ->]%answers_pure & H).
  apply answers_bind in H as ([] & ? & [Hv ->]%answers_reads & [-> ->]%answers_ret). split; [done|]. destruct body as [b|]; [|done]. injection E1 as <-.
  split; [|by exists b]. unfold validateRule in Hv. cbn [fr_SourceID fr_TargetID fr_Enabled fr_LocalPort] in *. case_decide; [done|].
  destruct (rule_device _ (fr_SourceID b) s) as [src|] eqn:Es; [|done]. destruct (rule_device _ (fr_TargetID b) s) as [dst|] eqn:Et; [|done].
  cbn [mbind result_bind] in Hv. case_decide; [done|]. destruct (negb _ || negb _); [done|]. destruct (agentCapableDevices s) as [cap|]; [|done].
  cbn [mbind result_bind] in Hv. case_decide; [done|]. case_decide; [done|]. split_and!; [by eapply rule_device_exists..|].
  cbn [fr_Enabled fr_SourceID fr_LocalPort]. intros He. rewrite He in Hv. cbn [negb] in Hv.
  destruct (LocalPortConflict _ _ _ _) as [[]|] eqn:EL; [done| |done]. by apply LocalPortConflict_none.
Qed.

(** A new enabled rule that fits. *)
Lemma CreateRule_inv rule (s : DB) r s' : rules_inv s -> fr_Enabled rule = true -> rule_fits rule 0 s -> CreateRule rule s = (r, s') -> rules_inv s'.
Proof.
  intros I He (Hs & Ht & Hp). unfold CreateRule, in_rules. cbn [t_rules tick]. destruct (Create _ _) as [o t'] eqn:E. intros [= _ <-].
  destruct o as [row|e]; cbn [fst snd].
  2: { apply create_fails in E as E'. apply (rules_inv_grows s); [|done]. split; [cbn; by rewrite E'|intros d Hd; by exists d]. }
  apply create_rows in E as [(n & Hn & ->) P]. destruct I as [H1 H2 H3].
  assert (HX : forall x, x ∈ rows (t_rules s) -> r_Enabled x = true -> sql_eq (r_SourceID x) (fr_SourceID rule) = true -> r_LocalPort x = fr_LocalPort rule -> False).
  { intros x Hx Hex Hsx Hpx. specialize (H1 _ Hx). specialize (Hp He x Hx Hex Hsx Hpx). lia. }
  split; cbn [t_rules].
  - intros x. rewrite P. by intros [->|Hx]%elem_of_cons; [|apply H1].
  - intros x y. rewrite !P. intros [->|Hx]%elem_of_cons [->|Hy]%elem_of_cons Ex Ey Es Ep; [done| | |by apply H2]; exfalso.
    + eapply HX; [exact Hy|done|by apply sql_sym|done].
    + by eapply HX.
  - intros x. rewrite P. intros [->|Hx]%elem_of_cons Ex; [done|by apply H3].
Qed.

(** A change of one rule to one that fits. *)
Lemma UpdateRule_inv i rule (s : DB) e s' : rules_inv s -> rule_fits rule i s -> UpdateRule i rule s = (e, s') -> rules_inv s'.
Proof.
  intros I (Hs & Ht & Hp). unfold UpdateRule, in_rules. cbn [t_rules tick]. destruct (affected _) as [o t'] eqn:E. intros [= _ <-].
  cbn [fst snd]. destruct o as [err|].
  { apply affected_err in E as E'. apply (rules_inv_grows s); [|done]. split; [by cbn|intros d Hd; by exists d]. }
  apply affected_ok in E as [P _]. destruct I as [H1 H2 H3].
  assert (HX : forall x, x ∈ rows t' -> exists y, y ∈ rows (t_rules s) /\ r_ID x = r_ID y /\ ((r_ID y <> i /\ x = y) \/
    (r_ID y = i /\ r_Enabled x = fr_Enabled rule /\ r_SourceID x = fr_SourceID rule /\ r_TargetID x = fr_TargetID rule /\ r_LocalPort x = fr_LocalPort rule))).
  { intros x. rewrite P. change (map ?f ?l) with (f <$> l). intros (y & -> & Hy)%list_elem_of_fmap. exists y. unfold update_row.
    destruct (r_ID y =? i) eqn:Ei; [apply Z.eqb_eq in Ei|apply Z.eqb_neq in Ei]; split_and!; auto 8. }
  split; cbn [t_rules].
  - intros x Hx. destruct (HX x Hx) as (y & Hy & -> & _). by apply H1.
  - intros x x' Hx Hx' Ex Ex' Es Ep. destruct (HX x Hx) as (y & Hy & Ey & D), (HX x' Hx') as (y' & Hy' & Ey' & D').
    assert (r_ID y = r_ID y') as Eid.
    { destruct D as [[Dy ->]|(Dy & B1 & B2 & B3 & B4)], D' as [[Dy' ->]|(Dy' & C1 & C2 & C3 & C4)]; [|exfalso..|congruence].
      - f_equal. by apply H2.
      - apply Dy. eapply Hp; [congruence|done|done|by rewrite <- C2|congruence].
      - apply Dy'. eapply Hp; [congruence|done|done|rewrite <- B2; by apply sql_sym|congruence]. }
    assert (y = y') as <- by (by eapply rule_unique).
    rewrite P in Hx, Hx'. change (map ?f ?l) with (f <$> l) in *. apply list_elem_of_fmap in Hx as (z & -> & Hz), Hx' as (z' & -> & Hz').
    assert (z = z') as <-; [|done]. eapply rule_unique; [done|done|]. revert Ey Ey'. unfold update_row.
    destruct (r_ID z =? i), (r_ID z' =? i); cbn [r_ID]; congruence.
  - intros x Hx Ex. destruct (HX x Hx) as (y & Hy & _ & [[_ ->]|(_ & B1 & B2 & B3 & _)]); [by apply H3|]. by rewrite B2, B3.
Qed.

Lemma DeleteRule_inv i (s : DB) e s' : rules_inv s -> DeleteRule i s = (e, s') -> rules_inv s'.
Proof.
  intros [H1 H2 H3]. unfold DeleteRule, in_rules. destruct (affected _) as [o t'] eqn:E. intros [= _ <-].
  assert (HX : forall x, x ∈ rows t' -> x ∈ rows (t_rules s)).
  { unfold affected in E. destruct (Delete _ _) as [[n|err] t1] eqn:ED.
    - apply delete_rows in ED as [P _]. assert (t' = t1) as -> by (by case_decide; injection E). intros x. rewrite P.
      by intros [_ Hx]%list_elem_of_filter.
    - apply delete_fails in ED. injection E as _ <-. by rewrite ED. }
  split; cbn [fst snd t_rules].
  - intros x Hx. by apply H1, HX.
  - intros x y Hx Hy. apply H2; by apply HX.
  - intros x Hx. by apply H3, HX.
Qed.

(** A device goes only when no enabled rule names it. *)
Lemma DeleteDevice_inv i n (s : DB) e s' : rules_inv s -> EnabledRuleReferenceCount i s = Ok n -> n <= 0 -> DeleteDevice i s = (e, s') -> rules_inv s'.
Proof.
  intros [H1 H2 H3] Hc Hn. unfold DeleteDevice. case_decide; [by intros [= _ <-]|]. unfold in_devices. destruct (affected _) as [o t'] eqn:E. intros [= _ <-].
  unfold EnabledRuleReferenceCount in Hc. apply count_rows in Hc.
  assert (HF : forall x, x ∈ rows (t_rules s) -> references i x = false).
  { intros x Hx. apply not_true_is_false. intros Hr. assert (Hin : x ∈ filter (fun r => references i r = true) (rows (t_rules s))) by (by apply list_elem_of_filter).
    destruct (filter _ _) as [|y k]; [by apply elem_of_nil in Hin|cbn in Hc; lia]. }
  assert (HX : forall d, d ∈ rows (t_devices s) -> sql_eq (d_ID d) i = false -> d ∈ rows t').
  { intros d Hd Hne. unfold affected in E. destruct (Delete _ _) as [[m|err] t1] eqn:ED.
    - apply delete_rows in ED as [P _]. assert (t' = t1) as -> by (by case_decide; injection E). rewrite P. by apply list_elem_of_filter.
    - apply delete_fails in ED. injection E as _ <-. by rewrite ED. }
  assert (HE : forall j, device_exists s j -> sql_eq j i = false -> exists d, d ∈ rows t' /\ sql_eq (d_ID d) j = true).
  { intros j (d & Hd & Hj) Hne. exists d. split; [|done]. apply HX; [done|]. apply not_true_is_false. intros F. revert Hne.
    apply not_false_iff_true. by eapply sql_trans; [apply sql_sym|]. }
  split; cbn [fst snd t_rules]; [done|done|]. intros x Hx Ex. pose proof (HF x Hx) as Hr. unfold references in Hr. rewrite Ex in Hr.
  apply orb_false_iff in Hr as [Hr1 Hr2]. destruct (H3 x Hx Ex). split; by apply HE.
Qed.

(* ------------------------------------------------------------------ *)
(** ** Requests *)

Lemma checked_rule_keeps body x : along eq (checked_rule body x : handler DB _).
Proof. unfold checked_rule. walk. Qed.

(** A handler after the checks of its rule. *)
Lemma after_checks {A} body x (f : Store.ForwardRule -> handler DB A) (s : DB) r s' :
  (rule ← checked_rule body x; f rule) s = Some (r, s') ->
  s' = s \/ exists rule, answers (checked_rule body x) s rule s /\ f rule s = Some (r, s').
Proof.
  unfold mbind, handler_bind. destruct (checked_rule body x s) as [[[rule|e] s1]|] eqn:E; [| |done].
  - intros H. right. exists rule. assert (s = s1) as <- by (by eapply checked_rule_keeps). done.
  - intros [= _ <-]. left. by eapply eq_sym, checked_rule_keeps.
Qed.

(** A call and what follows it, which leaves the rules. *)
Lemma bind_inv {A B} (h : handler DB A) (f : A -> handler DB B) (s : DB) r s' :
  (forall o s1, h s = Some (o, s1) -> rules_inv s1) -> (forall a, along grows (f a)) -> (h ≫= f) s = Some (r, s') -> rules_inv s'.
Proof.
  intros Hh Hf. unfold mbind, handler_bind. destruct (h s) as [[[a|e] s1]|] eqn:E; [| |done].
  - intros H. eapply rules_inv_grows; [by eapply Hf|by eapply Hh].
  - intros [= _ <-]. by eapply Hh.
Qed.

Lemma calls_state {A} (c : DB -> result api_error A * DB) (s : DB) o s1 : calls c s = Some (o, s1) -> c s = (o, s1).
Proof. unfold calls. congruence. Qed.
Lemma writes_state w (s : DB) o s1 : writes w s = Some (o, s1) -> exists e, w s = (e, s1).
Proof. unfold writes. destruct (w s) as [[e|] s2]; intros [= _ <-]; by eexists. Qed.

Lemma handleForwards_POST_inv body (s : DB) r s' : rules_inv s -> (forall b, body = Some b -> fr_Enabled b = true) ->
  handleForwards_POST body s = Some (r, s') -> rules_inv s'.
Proof.
  intros I He [->|(rule & Hc & H)]%after_checks; [done|]. apply checked_rule_fits in Hc as (_ & Hf & b & -> & Eb & _).
  revert H. apply bind_inv; [|intros a; walk]. intros o s1 E%calls_state. eapply CreateRule_inv; [done| |done|exact E]. rewrite Eb. by apply He.
Qed.

Lemma handleForwardByID_inv method i body (s : DB) r s' : rules_inv s -> handleForwardByID method i body s = Some (r, s') -> rules_inv s'.
Proof.
  intros I. unfold handleForwardByID. destruct i as [i|]; [|by intros [= _ <-]]. case_decide; [|case_decide; [|by intros [= _ <-]]].
  - intros [->|(rule & Hc & H')]%after_checks; [done|]. apply checked_rule_fits in Hc as (_ & Hf & _).
    revert H'. apply bind_inv; [|intros a; walk]. intros o s1 [e E]%writes_state. by eapply UpdateRule_inv.
  - apply bind_inv; [|intros a; walk]. intros o s1 [e E]%writes_state. by eapply DeleteRule_inv.
Qed.

Lemma handleDeviceByID_inv method i body (s : DB) r s' : rules_inv s -> handleDeviceByID method i body s = Some (r, s') -> rules_inv s'.
Proof.
  intros I. unfold handleDeviceByID. case_decide; [|case_decide; [|case_decide; [|by intros [= _ <-]]]].
  - apply bind_inv; [by intros o s1 [= _ <-]|intros a; walk].
  - intros H'. eapply rules_inv_grows; [|exact I]. revert s r s' H' I. match goal with |- forall s r s', ?h s = _ -> _ => enough (HA : along grows h) by (intros s r s' H' _; by eapply HA) end.
    destruct body as [enabled|]; walk.
  - unfold mbind at 1, handler_bind at 1, reads. destruct (EnabledRuleReferenceCount i s) as [n|] eqn:En; [|by intros [= _ <-]].
    case_decide; [by intros [= _ <-]|]. apply bind_inv; [|intros a; walk]. intros o s1 [e E]%writes_state. eapply DeleteDevice_inv; [done|exact En|lia|exact E].
Qed.

(** What changes the rules and the devices of a database, one request at a time: the
    requests of administrators, the reports of agents, the registrations the rendezvous
    server and the bootstrap write, the cleanup; and whatever touches neither. *)
Inductive rule_step (s s' : DB) : Prop :=
  | StepCreate body r : (forall b, body = Some b -> fr_Enabled b = true) -> handleForwards_POST body s = Some (r, s') -> rule_step s s'
  | StepRule method i body r : handleForwardByID method i body s = Some (r, s') -> rule_step s s'
  | StepDevice method i body r : handleDeviceByID method i body s = Some (r, s') -> rule_step s s'
  | StepReport source m body r : agent_reports source m body s = Some (r, s') -> rule_step s s'
  | StepBootstrap GD cfg m body r : handleAgentBootstrap (GD := GD) cfg m body s = Some (r, s') -> rule_step s s'
  | StepStatus m body r : handleAgentTunnelStatus m body s = Some (r, s') -> rule_step s s'
  | StepRegister id name addr upnp want online e : ControlStore.UpsertDevice id name addr upnp want online s = (e, s') -> rule_step s s'
  | StepOffline cutoff e : ControlStore.MarkOfflineBefore cutoff s = (e, s') -> rule_step s s'
  | StepOther : t_rules s' = t_rules s -> t_devices s' = t_devices s -> rule_step s s'.

Lemma rule_step_inv s s' : rules_inv s -> rule_step s s' -> rules_inv s'.
Proof.
  intros I []; [by eapply handleForwards_POST_inv|by eapply handleForwardByID_inv|by eapply handleDeviceByID_inv|..];
    (eapply rules_inv_grows; [|exact I]).
  - by eapply agent_reports_grows.
  - by eapply handleAgentBootstrap_grows.
  - by eapply handleAgentTunnelStatus_grows.
  - by eapply UpsertDevice_grows.
  - by eapply MarkOfflineBefore_grows.
  - by apply grows_same.
Qed.

Lemma rules_nodup (s : DB) : NoDup (rows (t_rules s)).
Proof.
  apply NoDup_alt. intros i j x Hi Hj. eapply (rows_distinct (t_rules s)); [done|done|]. cbn. apply Z.eqb_refl.
Qed.


(** What a created rule is stored as. *)
Lemma CreateRule_row rule (s s' : DB) r : CreateRule rule s = (Ok r, s') ->
  exists row, rows (t_rules s') ≡ₚ row :: rows (t_rules s) /\ r_ID row = fr_ID r /\ r_Enabled row = true /\ r_SourceID row = fr_SourceID rule /\
    r_TargetID row = fr_TargetID rule /\ r_LocalPort row = fr_LocalPort rule /\ fr_Enabled r = fr_Enabled rule.
Proof.
  unfold CreateRule, in_rules. cbn [t_rules tick]. destruct (Create _ _) as [[row|e] t'] eqn:E; [|done]. intros H. injection H as <- <-.
  apply create_rows in E as [(n & _ & ->) P]. eexists. split; [exact P|]. by split_and!.
Qed.

Lemma RulesForDevice_elem row dev (s : DB) l : RulesForDevice dev s = Ok l -> row ∈ rows (t_rules s) -> r_Enabled row = true ->
  r_SourceID row = dev -> rule_toStore row ∈ l.
Proof.
  unfold RulesForDevice, list_of. destruct (Find _ _ _) as [k|] eqn:EF; [|done]. intros H Hin He <-. injection H as <-. apply find_rows in EF as [Pk _].
  change (map rule_toStore k) with (rule_toStore <$> k). apply list_elem_of_fmap_2. rewrite Pk. apply list_elem_of_filter. split; [|exact Hin].
  unfold references. by rewrite He, sql_refl.
Qed.

Lemma handleForwards_POST_row b (s s' : DB) r : answers (handleForwards_POST (Some b)) s r s' ->
  exists row, rows (t_rules s') ≡ₚ row :: rows (t_rules s) /\ r_ID row = fr_ID r /\ r_Enabled row = true /\ r_SourceID row = fr_SourceID b /\
    r_TargetID row = fr_TargetID b /\ r_LocalPort row = fr_LocalPort b /\ fr_Enabled r = fr_Enabled b.
Proof.
  unfold handleForwards_POST. intros (rule & s1 & Hc & H)%answers_bind. apply checked_rule_fits in Hc as (-> & _ & b' & Eb' & Eb & Es & Et & Ep).
  injection Eb' as <-. apply answers_bind in H as (r1 & s2 & HC%calls_state & H). apply answers_bind in H as (y & s3 & HA & H).
  apply answers_ret in H as [-> ->]. apply audits_grows in HA as [HP _]. apply CreateRule_row in HC as (row & P & Ei & Ee & Rs & Rt & Rp & Er).
  exists row. rewrite <- Es, <- Et, <- Ep, <- Eb. rewrite HP. by split_and!.
Qed.

(** The checks leave out the port of a rule that is not enabled, and the database
    enables what is created: the column has the default [true], which gorm gives to a
    field that is false. The request is answered with a rule that is not enabled, the
    agent of the source is given it, and so it is on a port that is taken. *)
Theorem disabled_rule_is_enabled (b : Store.ForwardRule) (s s' : DB) (r : Store.ForwardRule) :
  fr_Enabled b = false -> handleForwards_POST (Some b) s = Some (Ok r, s') ->
  fr_Enabled r = false /\
  exists row, row ∈ rows (t_rules s') /\ r_ID row = fr_ID r /\ r_Enabled row = true /\ r_SourceID row = fr_SourceID b /\
    r_TargetID row = fr_TargetID b /\ r_LocalPort row = fr_LocalPort b /\
    (forall l s2, handleAgentRules (fr_SourceID b) s' = Some (Ok l, s2) -> rule_toStore row ∈ l) /\
    (forall x, x ∈ rows (t_rules s) -> r_Enabled x = true -> r_SourceID x = fr_SourceID b -> r_LocalPort x = fr_LocalPort b -> 0 < r_ID x ->
      x ∈ rows (t_rules s') /\ ~ rules_inv s').
Proof.
  intros Hb H. destruct (handleForwards_POST_row b s s' r H) as (row & HP & Ei & Ee & Rs & Rt & Rp & Er).
  assert (Hin : row ∈ rows (t_rules s')) by (rewrite HP; by left). split; [congruence|]. exists row.
  split_and!; [exact Hin|exact Ei|exact Ee|congruence|congruence|congruence| |].
  - clear H. intros l s4 H. unfold handleAgentRules in H. case_decide; [done|].
    apply answers_bind in H as (? & ? & [_ ->]%answers_reads & [H _]%answers_reads). by apply (RulesForDevice_elem row) in H; [|congruence..].
  - intros x Hx Ex Sx Px Ix. assert (Hx' : x ∈ rows (t_rules s')) by (rewrite HP; by right). split; [exact Hx'|]. intros I.
    assert (x = row) as ->.
    { eapply ports_distinct; [exact I|done|done|done|done| |congruence]. rewrite Sx, Rs. apply sql_refl. }
    pose proof (rules_nodup s') as HN. rewrite HP in HN. by apply NoDup_cons in HN as [? _].
Qed.
End Laws.

(* ------------------------------------------------------------------ *)
(** ** Witnesses *)

Section Witnesses.
  #[local] Existing Instances binary_collation binary_collation_laws ascii_unicode bin_time bin_time_laws toy_like toy_metadata.
  Notation DB := (control_db memory_table).

(** The state after a request. *)
Definition after {A} (h : handler DB A) (s : DB) : DB := match h s with Some (_, s') => s' | None => s end.
#[local] Strategy 1000 [after].

Definition toy_http : http_meta := mkHTTPMeta "POST" "10.0.0.1:5000" "control.example" false "".
Definition toy_boot (i : string) : handler DB agentBootstrapResponse :=
  handleAgentBootstrap (GD := SettingsLaws.toy_duration) Settings.DefaultServer toy_http (Some (i, i)).
Definition toy_agent (i : string) : handler DB unit := handleAgentRegister toy_http (Some (mkAgentReport i i "10.0.0.1:7000" "" "full_cone" [])).

(** A rule from one agent to the other, on local port 8080. *)
Definition toy_rule (target : Z) (enabled : bool) : Store.ForwardRule :=
  Store.mkForwardRule 0 "web" "a" "b" "bulk" 8080 "127.0.0.1" target enabled "" "" "" "" "" 0 "".

Definition toy_post (target : Z) (enabled : bool) : handler DB Store.ForwardRule := handleForwards_POST (Some (toy_rule target enabled)).

Definition booted : DB := after (toy_boot "b") (after (toy_boot "a") (empty_db (fun n => Z.of_nat n))).
Definition two_agents : DB := after (toy_agent "b") (after (toy_agent "a") booted).
Definition one_rule : DB := after (toy_post 80 true) two_agents.

Lemma after_some {A} (h : handler DB A) s : match h s with Some _ => true | None => false end = true -> exists r, h s = Some (r, after h s).
Proof. unfold after. destruct (h s) as [[r s']|]; [|done]. intros _. by exists r. Qed.

Lemma one_rule_reached : rtc rule_step (empty_db (fun n => Z.of_nat n)) one_rule.
Proof.
  set (s0 := empty_db (fun n => Z.of_nat n)). set (s1 := after (toy_boot "a") s0). set (s3 := after (toy_agent "a") booted).
  destruct (after_some (toy_boot "a") s0 ltac:(vm_compute; reflexivity)) as [r1 E1].
  destruct (after_some (toy_boot "b") s1 ltac:(vm_compute; reflexivity)) as [r2 E2].
  destruct (after_some (toy_agent "a") booted ltac:(vm_compute; reflexivity)) as [r3 E3].
  destruct (after_some (toy_agent "b") s3 ltac:(vm_compute; reflexivity)) as [r4 E4].
  destruct (after_some (toy_post 80 true) two_agents ltac:(vm_compute; reflexivity)) as [r5 E5].
  apply (rtc_l _ _ s1); [exact (StepBootstrap _ _ SettingsLaws.toy_duration Settings.DefaultServer toy_http (Some ("a", "a")%string) r1 E1)|].
  apply (rtc_l _ _ booted); [exact (StepBootstrap _ _ SettingsLaws.toy_duration Settings.DefaultServer toy_http (Some ("b", "b")%string) r2 E2)|].
  apply (rtc_l _ _ s3); [exact (StepReport _ _ _ _ _ r3 E3)|]. apply (rtc_l _ _ two_agents); [exact (StepReport _ _ _ _ _ r4 E4)|].
  apply rtc_once, (StepCreate _ _ (Some (toy_rule 80 true)) r5); [|exact E5]. by intros b [= <-].
Qed.


(** A second rule on the port, not enabled. *)
Lemma disabled_rule_is_enabled_witness :
  exists r s', (handleForwards_POST (Some (toy_rule 81 false)) : handler DB _) one_rule = Some (Ok r, s') /\ fr_Enabled r = false /\ ~ rules_inv s'.
Proof.
  assert (H : match (handleForwards_POST (Some (toy_rule 81 false)) : handler DB _) one_rule with Some (Ok _, _) => True | _ => False end) by (vm_compute; exact I).
  destruct ((handleForwards_POST (Some (toy_rule 81 false)) : handler DB _) one_rule) as [[[r|e] s']|] eqn:E; [|destruct H|destruct H].
  destruct (disabled_rule_is_enabled (toy_rule 81 false) one_rule s' r eq_refl E) as (Hr & row & _ & _ & _ & _ & _ & _ & _ & HX).
  exists r, s'. split; [reflexivity|]. split; [exact Hr|].
  assert (HR : exists x, x ∈ rows (t_rules one_rule) /\ r_Enabled x = true /\ r_SourceID x = "a"%string /\ r_LocalPort x = 8080 /\ 0 < r_ID x).
  { assert (Hc : match rows (t_rules one_rule) with x :: _ => r_Enabled x = true /\ r_SourceID x = "a"%string /\ r_LocalPort x = 8080 /\ 0 < r_ID x | [] => False end)
      by (vm_compute; auto).
    destruct (rows (t_rules one_rule)) as [|x l]; [destruct Hc|]. exists x. destruct Hc as (? & ? & ? & ?). split_and!; [by left|done..]. }
  destruct HR as (x & H1 & H2 & H3 & H4 & H5). exact (proj2 (HX x H1 H2 H3 H4 H5)).
Defined.
End Witnesses.
