(* ===== verification/Releases.v ===== *)
(** * Releases: publishing an installer (internal/server/handlers_release.go, handlers_agent.go)

    An administrator uploads an installer; it is kept under a name made safe, its path and
    checksum become settings, and the server hands it out to the clients that ask for the
    release. Files are a map from paths to contents; the form of an upload, the outcomes
    of the file operations, the URLs and the requests to them are arguments. Paths are
    those of the Unix path package, the server's system. *)

From S2P Require Import Prelude GoStrings Store ServerUtil Gorm ControlStore LanAdmin AgentServe WinArgs Machine.
From S2P Require Settings SettingsLaws Updates.

(* ------------------------------------------------------------------ *)
(** ** Paths, as the path/filepath package does on Unix *)

Definition slash : byte := x2f.
Definition dot_segment : list byte := [x2e].
Definition dotdot_segment : list byte := [x2e; x2e].

(** The last element of a path without slashes at its end. *)
Fixpoint drop_slashes (rev_path : list byte) : list byte :=
  match rev_path with
  | b :: l => if decide (b = slash) then drop_slashes l else rev_path
  | [] => []
  end.
Definition Base (path : list byte) : list byte :=
  if decide (path = []) then dot_segment
  else
    let path := rev (drop_slashes (rev path)) in
    let base := default [] (last (split_bytes slash path)) in
    if decide (base = []) then [slash] else base.

(** [out] holds the elements kept so far, the last first. *)
Definition clean_element (rooted : bool) (out : list (list byte)) (element : list byte) : list (list byte) :=
  if decide (element = [] \/ element = dot_segment) then out
  else if decide (element = dotdot_segment) then
    match out with
    | top :: rest => if decide (top = dotdot_segment) then element :: out else rest
    | [] => if rooted then [] else [element]
    end
  else element :: out.

Fixpoint join_slash (l : list (list byte)) : list byte :=
  match l with
  | [] => []
  | [x] => x
  | x :: l => x ++ slash :: join_slash l
  end.

Definition Clean (path : list byte) : list byte :=
  if decide (path = []) then dot_segment
  else
    let rooted := bool_decide (head path = Some slash) in
    let out := join_slash (rev (fold_left (clean_element rooted) (split_bytes slash path) [])) in
    if rooted then slash :: out else if decide (out = []) then dot_segment else out.

Fixpoint JoinPath (elem : list (list byte)) : list byte :=
  match elem with
  | [] => []
  | [] :: l => JoinPath l
  | elem => Clean (join_slash elem)
  end.

(** An element the functions above leave alone. *)
Definition plain_element (e : list byte) : Prop := e <> [] /\ e <> dot_segment /\ e <> dotdot_segment /\ slash ∉ e.

#[export] Instance plain_element_dec e : Decision (plain_element e).
Proof. unfold plain_element. apply _. Defined.

Lemma split_join (l : list (list byte)) : l <> [] -> Forall (fun e => slash ∉ e) l -> split_bytes slash (join_slash l) = l.
Proof.
  intros Hne Hl. induction Hl as [|e l He Hl IH]; [done|]. destruct l as [|f l]; [by apply split_bytes_none|].
  change (join_slash (e :: f :: l)) with (e ++ slash :: join_slash (f :: l)). rewrite split_bytes_app by done. by rewrite IH.
Qed.

Lemma clean_elements rooted (l out : list (list byte)) : Forall plain_element l -> fold_left (clean_element rooted) l out = rev l ++ out.
Proof.
  intros H. revert out. induction H as [|e l (E1 & E2 & E3 & _) _ IH]; intros out; [done|]. cbn [fold_left rev].
  rewrite IH, <- app_assoc. f_equal. unfold clean_element. rewrite decide_False by (by intros [?|?]). by rewrite decide_False.
Qed.

Lemma join_slash_head (e : list byte) l : e <> [] -> slash ∉ e -> join_slash (e :: l) <> [] /\ head (join_slash (e :: l)) <> Some slash.
Proof.
  destruct e as [|b e]; [done|]. intros _ H. apply not_elem_of_cons in H as [H _]. destruct l; cbn; split; try done; congruence.
Qed.

Lemma Clean_plain (e : list byte) l : Forall plain_element (e :: l) -> Clean (join_slash (e :: l)) = join_slash (e :: l).
Proof.
  intros H. pose proof (Forall_inv H) as (E1 & _ & _ & E4). destruct (join_slash_head e l E1 E4) as [N1 N2].
  unfold Clean. rewrite decide_False by done. rewrite (bool_decide_eq_false_2 _ N2).
  rewrite split_join, clean_elements, app_nil_r, rev_involutive; [by rewrite decide_False|done|done|].
  eapply Forall_impl; [exact H|]. by intros x (? & ? & ? & ?).
Qed.

Lemma JoinPath_plain (e : list byte) l : Forall plain_element (e :: l) -> JoinPath (e :: l) = join_slash (e :: l).
Proof. intros H. pose proof (Forall_inv H) as (E1 & _). destruct e as [|b e]; [done|]. cbn [JoinPath]. by apply Clean_plain. Qed.

(* ------------------------------------------------------------------ *)
(** ** The name of an upload *)

(** What the mapping keeps of a rune: letters, digits and three signs. *)
Definition safe_byte (b : byte) : bool :=
  in_range b 97 122 || in_range b 65 90 || in_range b 48 57 || bool_decide (b ∈ [x2e; x2d; x5f]).
Definition safe_rune (piece : list byte) : byte := match piece with [b] => if safe_byte b then b else x2d | _ => x2d end.

Definition trim_signs : list byte := [x2e; x2d; x5f].
Definition safeReleaseFilename (name : string) : string :=
  let name := Base (bytes_of (TrimSpace name)) in
  let name := map safe_rune (pieces (length name) name) in
  Settings.Trim (string_of name) trim_signs.

Lemma safe_rune_safe piece : safe_byte (safe_rune piece) = true.
Proof. destruct piece as [|b [|]]; cbn; [done| |done]. destruct (safe_byte b) eqn:E; done. Qed.

Lemma trim_set_left_suffix set l : exists k, l = k ++ Settings.trim_set_left set l.
Proof.
  induction l as [|b l [k IH]]; [by exists []|]. cbn. case_decide; [exists (b :: k); cbn; by rewrite <- IH|by exists []].
Qed.

Lemma trim_set_left_head set l b : head (Settings.trim_set_left set l) = Some b -> b ∉ set.
Proof. induction l as [|c l IH]; cbn; [done|]. case_decide; [done|]. by intros [= ->]. Qed.

Lemma trim_middle s set : exists k m, bytes_of s = k ++ bytes_of (Settings.Trim s set) ++ m.
Proof.
  unfold Settings.Trim. rewrite bytes_of_string_of. destruct (trim_set_left_suffix set (bytes_of s)) as [k E].
  destruct (trim_set_left_suffix set (rev (Settings.trim_set_left set (bytes_of s)))) as [m E2].
  exists k, (rev m). apply (f_equal (@rev byte)) in E2. rewrite rev_involutive, rev_app_distr in E2. by rewrite <- E2.
Qed.

Lemma trim_last s set b : last (bytes_of (Settings.Trim s set)) = Some b -> b ∉ set.
Proof.
  unfold Settings.Trim. rewrite bytes_of_string_of. set (l := Settings.trim_set_left set (rev _)).
  intros H. apply (trim_set_left_head set (rev (Settings.trim_set_left set (bytes_of s)))). fold l.
  destruct l as [|c l]; [done|]. cbn in H. by rewrite last_snoc in H.
Qed.

(** Whatever name a browser sends: the one used has only letters, digits, dots, hyphens
    and underscores, and ends in none of the signs. *)
Lemma safe_name_spec name : Forall (fun b => safe_byte b = true) (bytes_of (safeReleaseFilename name)) /\
  forall b, last (bytes_of (safeReleaseFilename name)) = Some b -> b ∉ trim_signs.
Proof.
  split; [|apply trim_last]. unfold safeReleaseFilename. set (l := map safe_rune _).
  assert (H : Forall (fun b => safe_byte b = true) l).
  { apply Forall_forall. intros b Hb. unfold l in Hb. apply list_elem_of_In, in_map_iff in Hb as (p & <- & _). apply safe_rune_safe. }
  destruct (trim_middle (string_of l) trim_signs) as (k & m & E). rewrite bytes_of_string_of in E. rewrite E in H.
  by apply Forall_app in H as [_ [H _]%Forall_app].
Qed.

Lemma safe_no_slash b : safe_byte b = true -> b <> slash.
Proof. by intros H ->. Qed.

(* ------------------------------------------------------------------ *)
(** ** The handlers *)

Notation Files := (gmap string (list byte)).

(** How the file operations of an upload end: making the directory, opening the new file,
    copying (what was written, and the error if there was one), closing, removing. *)
Record disk : Type := mkDisk {
  dk_mkdir : option string; dk_open : option string; dk_copy : list byte -> list byte * option string; dk_close : option string; dk_remove : bool }.
Definition good_disk : disk := mkDisk None None (fun l => (l, None)) None true.

(** An upload: the path of the request, the form ([None] when there is none or it is longer
    than [maxReleaseUploadBytes], [Some None] when it has no field file), the time as part
    of a name and as text. *)
Record upload : Type := mkUpload {
  up_meta : http_meta; up_Path : string; up_form : option (option (string * list byte)); up_stamp : string; up_now : string }.
Definition maxReleaseUploadBytes : Z := 512 * 2 ^ 20.

Record releaseUploadResponse : Type := mkUploaded { ru_Product : string; ru_File : string; ru_URL : string; ru_SHA256 : string; ru_UploadedAt : string }.

Definition TrimSuffix (s suffix : string) : string :=
  let n := (String.length s - String.length suffix)%nat in
  if decide (String.length suffix <= String.length s /\ drop n (bytes_of s) = bytes_of suffix)%nat then string_of (take n (bytes_of s)) else s.

Definition releases_prefix : string := "/api/admin/releases/".
Definition upload_product (path : string) : string := TrimSuffix (TrimPrefix path releases_prefix) "/upload".

(** Under which keys a product's release is set, with what an upload stores there. *)
Definition release_settings (product path sha : string) : gmap string string :=
  let prefix := if decide (product = "client"%string) then "client_release_"%string else "lan_release_"%string in
  {[ (prefix ++ "file")%string := path; (prefix ++ "url")%string := EmptyString; (prefix ++ "sha256")%string := sha ]}.

Definition set_release (product path sha : string) (c : Settings.Server) : Settings.Server :=
  if decide (product = "client"%string)
  then Settings.set_ClientReleaseSHA256 sha (Settings.set_ClientReleaseURL EmptyString (Settings.set_ClientReleaseFile path c))
  else Settings.set_LANReleaseSHA256 sha (Settings.set_LANReleaseURL EmptyString (Settings.set_LANReleaseFile path c)).

(** [handleClientInstaller] and [handleLANInstaller]: the content of the file, or not found. *)
Definition serve_installer (file : string) (files : Files) : result Z (list byte) :=
  if decide (TrimSpace file = EmptyString) then Err 404 else match files !! file with Some body => Ok body | None => Err 404 end.
Definition handleClientInstaller (c : Settings.Server) : Files -> result Z (list byte) := serve_installer (Settings.sv_ClientReleaseFile c).
Definition handleLANInstaller (c : Settings.Server) : Files -> result Z (list byte) := serve_installer (Settings.sv_LANReleaseFile c).

Section Handlers.
  Context `{CO : Collation} `{GU : GoUnicode} `{GT : GoTime} `{GD : Settings.GoDuration} `{SH : SHA256}.
  Context {T : forall R, Model R -> Type} `{G : !Gorm T}.
  Notation DB := (control_db T).

Definition handleClientRelease (c : Settings.Server) (m : http_meta) : clientReleaseResponse := clientRelease c m.
Definition handleLANRelease (c : Settings.Server) (m : http_meta) : clientReleaseResponse := lanRelease c m.

(** The settings are written one by one; the running configuration has changed before. *)
Definition persistReleaseUpload (product path sha : string) (c : Settings.Server) (s : DB) : option api_error * Settings.Server * DB :=
  let '(e, s) := Settings.put_settings (map_to_list (release_settings product path sha)) s in (e, set_release product path sha c, s).

(** The file opened, written and closed: the sum of the content and the files after it. *)
Definition store_upload (d : disk) (path : string) (content : list byte) (files : Files) : result api_error string * Files :=
  match files !! path, dk_open d with
  | Some _, _ => (Err (DBError "file exists"), files)
  | None, Some e => (Err (DBError e), files)
  | None, None =>
    let '(written, copyErr) := dk_copy d content in
    let left := if dk_remove d then files else <[path := written]> files in
    match copyErr, dk_close d with
    | Some e, _ => (Err (DBError e), left)
    | None, Some e => (Err (DBError e), left)
    | None, None => (Ok (Updates.hex_encode (Sum256 written)), <[path := written]> files)
    end
  end.

Definition upload_path (product stamp name : string) : string :=
  string_of (JoinPath [JoinPath [bytes_of "uploads"; bytes_of "releases"; bytes_of product]; bytes_of (stamp ++ "-" ++ name)]).

Definition handleAdminReleaseUpload (d : disk) (u : upload) (c : Settings.Server) (files : Files) (s : DB)
  : result api_error releaseUploadResponse * Settings.Server * Files * DB :=
  let stop e := (Err e, c, files, s) in
  let m := up_meta u in
  if decide (hm_Method m <> "POST"%string) then stop methodNotAllowed
  else
    let product := upload_product (up_Path u) in
    if decide (product <> "client"%string /\ product <> "lan"%string) then stop (badRequest "bad_product" "product must be client or lan")
    else match up_form u with
    | None => stop (badRequest "bad_upload" "bad upload")
    | Some None => stop (badRequest "file_required" "file is required")
    | Some (Some (filename, content)) =>
      let name := safeReleaseFilename filename in
      if decide (name = EmptyString) then stop (badRequest "bad_filename" "bad filename")
      else match dk_mkdir d with
      | Some e => stop (DBError e)
      | None =>
        let path := upload_path product (up_stamp u) name in
        match store_upload d path content files with
        | (Err e, files) => (Err e, c, files, s)
        | (Ok sha, files) =>
          let path := string_of (Clean (bytes_of path)) in
          let url := (requestBaseURL (hm_TLS m) (hm_ForwardedProto m) (hm_Host m) ++ "/downloads/" ++ product ++ "/installer")%string in
          match persistReleaseUpload product path sha c s with
          | (Some e, c, s) => (Err e, c, files, s)
          | (None, c, s) =>
            (Ok (mkUploaded product path url sha (up_now u)), c, files, snd (Audit "release_upload" (product ++ " " ++ path) s))
          end
        end
      end
    end.

(** [validateDownloadURL]: [parse] is url.Parse, the scheme and the host; [request] whether
    a request to the URL can be made, [ask] the status it is answered with. *)
Definition validateDownloadURL (parse : string -> option (string * string)) (request : string -> string -> bool) (ask : string -> string -> option Z)
  (raw : string) : result api_error unit :=
  let raw := TrimSpace raw in
  let invalid := Err (badRequest "bad_release_url" "release url is invalid") in
  let unreachable := Err (badRequest "release_url_unreachable" "release url is unreachable") in
  let answer res := match res with Some status => if decide (status < 200 \/ 400 <= status) then unreachable else Ok tt | None => unreachable end in
  if decide (raw = EmptyString) then Ok tt
  else match parse raw with
  | Some (scheme, host) =>
    if decide ((scheme <> "http"%string /\ scheme <> "https"%string) \/ host = EmptyString)
    then Err (badRequest "bad_release_url" "release url must be http or https")
    else if negb (request "HEAD"%string raw) then invalid
    else
      let res := ask "HEAD"%string raw in
      if decide (res = None \/ res = Some 405)
      then if negb (request "GET"%string raw) then invalid else answer (ask "GET"%string raw)
      else answer res
  | None => Err (badRequest "bad_release_url" "release url must be http or https")
  end.

Definition handleAdminReleaseValidateURL parse request ask (m : http_meta) (body : option string) : result api_error unit :=
  if decide (hm_Method m <> "POST"%string) then Err methodNotAllowed
  else match body with None => Err bad_json | Some url => validateDownloadURL parse request ask url end.
End Handlers.

(* ------------------------------------------------------------------ *)
(** ** Where an upload is kept *)

Definition digits (s : string) : Prop := s <> EmptyString /\ Forall (fun b => is_digit b = true) (bytes_of s).

Lemma digit_safe b : is_digit b = true -> safe_byte b = true.
Proof. unfold is_digit, safe_byte, in_range. intros ->. by rewrite orb_true_r. Qed.

Lemma upload_name_plain stamp filename : digits stamp -> plain_element (bytes_of (stamp ++ "-" ++ safeReleaseFilename filename)).
Proof.
  intros [N D]. destruct (safe_name_spec filename) as [HS _]. rewrite bytes_of_app. set (rest := bytes_of ("-" ++ _)).
  assert (HR : Forall (fun b => safe_byte b = true) rest) by (apply Forall_cons; split; [done|exact HS]).
  assert (HD : Forall (fun b => safe_byte b = true) (bytes_of stamp)) by (eapply Forall_impl; [exact D|apply digit_safe]).
  destruct (bytes_of stamp) as [|b l] eqn:E; [by apply (f_equal string_of) in E; rewrite string_of_bytes_of in E|].
  split_and!; [done| | |].
  - intros [= -> _]. by apply Forall_inv in D.
  - intros [= -> _]. by apply Forall_inv in D.
  - intros H. apply elem_of_app in H as [H|H]; [eapply (proj1 (Forall_forall _ _) HD) in H|eapply (proj1 (Forall_forall _ _) HR) in H]; by apply safe_no_slash in H.
Qed.

(** Every upload is a new file right below the directory of its product. *)
Lemma upload_path_spec product stamp filename : product = "client"%string \/ product = "lan"%string -> digits stamp ->
  upload_path product stamp (safeReleaseFilename filename) = ("uploads/releases/" ++ product ++ "/" ++ stamp ++ "-" ++ safeReleaseFilename filename)%string /\
  Clean (bytes_of (upload_path product stamp (safeReleaseFilename filename))) = bytes_of (upload_path product stamp (safeReleaseFilename filename)).
Proof.
  intros HP HD. pose proof (upload_name_plain stamp filename HD) as HN. unfold upload_path. set (name := bytes_of (stamp ++ _)) in *.
  assert (HJ : Forall plain_element [bytes_of "uploads"; bytes_of "releases"; bytes_of product]) by (destruct HP as [-> | ->]; decide_now).
  rewrite (JoinPath_plain _ _ HJ).
  assert (HA : Forall plain_element ([bytes_of "uploads"; bytes_of "releases"; bytes_of product] ++ [name])) by (apply Forall_app; by split; [|apply Forall_singleton]).
  assert (E : JoinPath [join_slash [bytes_of "uploads"; bytes_of "releases"; bytes_of product]; name]
    = join_slash ([bytes_of "uploads"; bytes_of "releases"; bytes_of product] ++ [name])) by exact (Clean_plain _ _ HA).
  rewrite E, bytes_of_string_of. split; [|exact (Clean_plain _ _ HA)].
  apply bytes_of_inj. rewrite bytes_of_string_of. subst name. generalize (stamp ++ "-" ++ safeReleaseFilename filename)%string as x. intros x.
  rewrite !bytes_of_app. by destruct HP as [-> | ->].
Qed.

(* ------------------------------------------------------------------ *)
(** ** What an upload does *)

Section Laws.
  Context `{CO : Collation} `{GU : GoUnicode} `{GT : GoTime} `{GD : Settings.GoDuration} `{SH : SHA256}.
  Context {T : forall R, Model R -> Type} `{G : !Gorm T} `{L : !GormLaws T} `{DL : !Settings.GoDurationLaws GD}.
  Notation DB := (control_db T).

(** An accepted upload, step by step. *)
Lemma upload_accepted d u (c : Settings.Server) files (s : DB) r c' files' s' :
  handleAdminReleaseUpload d u c files s = (Ok r, c', files', s') ->
  exists filename content written s1, let product := upload_product (up_Path u) in
  let path := upload_path product (up_stamp u) (safeReleaseFilename filename) in
  (product = "client"%string \/ product = "lan"%string) /\ up_form u = Some (Some (filename, content)) /\ safeReleaseFilename filename <> EmptyString /\
  dk_copy d content = (written, None) /\ files !! path = None /\ files' = <[path := written]> files /\
  Settings.put_settings (map_to_list (release_settings product (string_of (Clean (bytes_of path))) (Updates.hex_encode (Sum256 written)))) s = (None, s1) /\
  c' = set_release product (string_of (Clean (bytes_of path))) (Updates.hex_encode (Sum256 written)) c /\
  s' = snd (Audit "release_upload" (product ++ " " ++ string_of (Clean (bytes_of path))) s1) /\
  ru_SHA256 r = Updates.hex_encode (Sum256 written) /\ ru_File r = string_of (Clean (bytes_of path)).
Proof.
  unfold handleAdminReleaseUpload. case_decide; [done|]. case_decide as DP; [done|].
  destruct (up_form u) as [[[filename content]|]|] eqn:EF; [|done..]. case_decide as DN; [done|]. destruct (dk_mkdir d); [done|].
  unfold store_upload. destruct (files !! _) eqn:EL; [done|]. destruct (dk_open d); [done|]. destruct (dk_copy d content) as [written [e|]] eqn:EC; [done|].
  destruct (dk_close d); [done|]. unfold persistReleaseUpload. destruct (Settings.put_settings _ s) as [[e|] s1] eqn:EP; [done|].
  intros [= <- <- <- <-]. exists filename, content, written, s1. split_and!; [|done..].
  destruct (decide (upload_product (up_Path u) = "client"%string)); [by left|]. destruct (decide (upload_product (up_Path u) = "lan"%string)); [by right|].
  by destruct DP.
Qed.

Hypothesis binary : forall a b, sql_eq a b = bool_decide (a = b).
Notation stored := SettingsLaws.stored.

Lemma release_settings_client path sha k : release_settings "client" path sha !! k =
  if decide (k = "client_release_file"%string) then Some path else if decide (k = "client_release_url"%string) then Some EmptyString
  else if decide (k = "client_release_sha256"%string) then Some sha else None.
Proof.
  unfold release_settings. rewrite decide_True by done. cbn [append].
  rewrite !lookup_insert, lookup_singleton. by repeat case_decide; subst.
Qed.

(** What is stored after an upload: its three settings, and the others as before. *)
Lemma put_release (m : gmap string string) (s s1 : DB) : Settings.put_settings (map_to_list m) s = (None, s1) ->
  t_meta s1 = t_meta s /\ forall k, stored s1 k = default (stored s k) (m !! k).
Proof.
  intros H. apply (SettingsLaws.put_settings_stored binary) in H as (Em & Hin & Hout); [|change (map fst (map_to_list m)) with ((map_to_list m).*1); apply NoDup_fst_map_to_list].
  split; [done|]. intros k. destruct (m !! k) as [v|] eqn:E; cbn.
  - apply Hin. by apply elem_of_map_to_list.
  - apply Hout. change (map fst (map_to_list m)) with ((map_to_list m).*1). intros ([k' v] & -> & H)%list_elem_of_fmap.
    apply elem_of_map_to_list in H. cbn in E. by rewrite E in H.
Qed.

(** The database keeps holding the settings the server runs with. *)
Lemma release_holds path sha (c : Settings.Server) (s s1 : DB) : SettingsLaws.holds s c ->
  Settings.put_settings (map_to_list (release_settings "client" path sha)) s = (None, s1) -> SettingsLaws.holds s1 (set_release "client" path sha c).
Proof.
  intros H [_ Hs]%put_release. unfold SettingsLaws.holds in *.
  assert (F : Forall (fun kv => stored s kv.1 = kv.2) (Settings.settings_of c)) by (apply Forall_forall; intros [k v]; apply H).
  assert (F1 : Forall (fun kv => stored s1 kv.1 = kv.2) (Settings.settings_of (set_release "client" path sha c))).
  { unfold Settings.settings_of, Settings.duration_fields, Settings.bool_fields, Settings.string_fields in *. cbn [map app] in *.
    repeat (apply Forall_cons in F as [? F]).
    SettingsLaws.forall_list ltac:(rewrite Hs, release_settings_client; cbn [fst Settings.f_key]; first [rewrite decide_True by done; reflexivity|
      rewrite decide_False by done; rewrite decide_True by done; reflexivity|rewrite !decide_False by done; first [assumption|rewrite decide_True by done; reflexivity]]). }
  intros k v Hkv. by apply (proj1 (Forall_forall _ _) F1 (k, v)).
Qed.

Lemma safe_plain b : safe_byte b = true -> is_plain b = true.
Proof. by destruct b. Qed.

Lemma upload_path_trimmed product stamp filename : product = "client"%string \/ product = "lan"%string -> digits stamp ->
  TrimSpace (upload_path product stamp (safeReleaseFilename filename)) = upload_path product stamp (safeReleaseFilename filename).
Proof.
  intros HP HD. rewrite (proj1 (upload_path_spec _ _ filename HP HD)). apply TrimSpace_plain. rewrite !bytes_of_app. repeat apply Forall_app_2.
  - decide_now. - destruct HP as [-> | ->]; decide_now. - decide_now. - eapply Forall_impl; [apply HD|apply digit_plain]. - decide_now.
  - eapply Forall_impl; [apply safe_name_spec|apply safe_plain].
Qed.

Lemma installer_served (c : Settings.Server) product stamp filename written files : product = "client"%string \/ product = "lan"%string -> digits stamp ->
  let path := upload_path product stamp (safeReleaseFilename filename) in
  serve_installer path (<[path := written]> files) = Ok written /\ TrimSpace path <> EmptyString.
Proof.
  intros HP HD. cbn zeta. unfold serve_installer. rewrite (upload_path_trimmed _ _ filename HP HD).
  assert (N : upload_path product stamp (safeReleaseFilename filename) <> EmptyString) by by rewrite (proj1 (upload_path_spec _ _ filename HP HD)).
  split; [|done]. rewrite decide_False by done. by rewrite lookup_insert_eq.
Qed.

Definition url_field : Settings.field string := Settings.mkField "client_release_url" Settings.sv_ClientReleaseURL Settings.set_ClientReleaseURL.
Definition sha_field : Settings.field string := Settings.mkField "client_release_sha256" Settings.sv_ClientReleaseSHA256 Settings.set_ClientReleaseSHA256.
Definition file_field : Settings.field string := Settings.mkField "client_release_file" Settings.sv_ClientReleaseFile Settings.set_ClientReleaseFile.

Lemma release_fields : [url_field; sha_field; file_field] ⊆ Settings.string_fields.
Proof. intros f Hf. unfold Settings.string_fields. repeat (apply elem_of_cons in Hf as [->|Hf]); [..|by apply elem_of_nil in Hf]; set_solver. Qed.

Lemma release_durations path sha c f : f ∈ Settings.duration_fields -> Settings.f_get f (set_release "client" path sha c) = Settings.f_get f c.
Proof. revert f. apply Forall_forall. unfold Settings.duration_fields. SettingsLaws.forall_list ltac:(lazy beta; reflexivity). Qed.

Lemma filled_here (s : DB) key v : stored s key <> EmptyString -> SettingsLaws.filled s key v = stored s key.
Proof. intros H. unfold SettingsLaws.filled. by rewrite decide_True. Qed.

Lemma hex_nonempty l : Updates.hex_encode (Sum256 l) <> EmptyString.
Proof.
  intros E%(f_equal bytes_of). unfold Updates.hex_encode in E. rewrite bytes_of_string_of in E. pose proof (Sum256_length l) as HL.
  by destruct (Sum256 l) as [|b k].
Qed.

End Laws.

(* ------------------------------------------------------------------ *)
(** ** Witness *)

Section Witness.
  #[local] Existing Instances binary_collation bin_time bin_time_laws SettingsLaws.toy_duration SettingsLaws.toy_duration_laws ascii_unicode toy_sha.

Definition toy_upload : upload :=
  mkUpload (mkHTTPMeta "POST" "10.0.0.9:1234" "tunnel.example" true EmptyString) "/api/admin/releases/client/upload"
    (Some (Some ("..\../my setup (1).exe"%string, [x4d; x5a]))) "20260102030405" "2026".

End Witness.
