(* ===== verification/LanServe.v ===== *)
(** * LanServe: bootstrap and status of LAN devices (internal/server/handlers_lan.go)

    What a device asks of the server: its network, address, peers and access rules
    ([handleLANBootstrap]), and what it reports ([handleLANStatus]); and the views the
    administration makes of the reports. *)

From S2P Require Import Prelude GoStrings Store ServerUtil LanAlloc LanAdmin.

(* ------------------------------------------------------------------ *)
(** ** Peer states *)

(** Go compares strings byte by byte. *)
Definition str_ge (a b : string) : bool := bool_decide (String.le b a).

Definition lanPeerStateKey (state : VirtualPeerState) : string :=
  if decide (ps_NetworkID state <= 0 \/ TrimSpace (ps_DeviceID state) = EmptyString \/ TrimSpace (ps_PeerID state) = EmptyString)
  then EmptyString
  else (FormatInt (ps_NetworkID state) ++ NUL ++ ps_DeviceID state ++ NUL ++ ps_PeerID state)%string.

(** One round of [latestLANPeerStates]: the map and the order of its keys. *)
Definition latest_step (acc : gmap string VirtualPeerState * list string) (state : VirtualPeerState)
  : gmap string VirtualPeerState * list string :=
  let '(byKey, order) := acc in
  let key := lanPeerStateKey state in
  if decide (TrimSpace key = EmptyString) then acc
  else match byKey !! key with
  | None => (<[key := state]> byKey, order ++ [key])
  | Some previous =>
    if str_ge (ps_UpdatedAt state) (ps_UpdatedAt previous) then (<[key := state]> byKey, order) else acc
  end.

Definition latestLANPeerStates (states : list VirtualPeerState) : list VirtualPeerState :=
  let '(byKey, order) := fold_left latest_step states (∅, []) in
  omap (fun key => byKey !! key) order.

Definition knownLANDevicesByNetwork (addresses : list VirtualAddress) : gmap Z (gset string) :=
  fold_left (fun known address =>
    if decide (TrimSpace (va_DeviceID address) = EmptyString \/ va_NetworkID address <= 0) then known
    else <[va_NetworkID address := {[ va_DeviceID address ]} ∪ default ∅ (known !! va_NetworkID address)]> known) addresses ∅.

Definition known_pair (known : gmap Z (gset string)) (networkID : Z) (deviceID peerID : string) : bool :=
  match known !! networkID with
  | None => false
  | Some devices => bool_decide (deviceID ∈ devices) && bool_decide (peerID ∈ devices)
  end.
Definition knownLANPeerState (known : gmap Z (gset string)) (state : VirtualPeerState) : bool :=
  known_pair known (ps_NetworkID state) (ps_DeviceID state) (ps_PeerID state).

Definition filterLANPeerStates (addresses : list VirtualAddress) (states : list VirtualPeerState) : list VirtualPeerState :=
  let known := knownLANDevicesByNetwork addresses in
  List.filter (knownLANPeerState known) (latestLANPeerStates states).

Definition filterLANPathEvents (addresses : list VirtualAddress) (events : list VirtualPeerPathEvent) : list VirtualPeerPathEvent :=
  let known := knownLANDevicesByNetwork addresses in
  List.filter (fun e => known_pair known (pe_NetworkID e) (pe_DeviceID e) (pe_PeerID e)) events.

(* ------------------------------------------------------------------ *)
(** ** Device states *)

Record lanDeviceState : Type := mkLanDeviceState {
  ds_DeviceID : string; ds_NetworkID : Z; ds_VirtualIP : string; ds_Hostname : string; ds_LANStatus : string;
  ds_AdapterState : string; ds_SelectedCIDR : string; ds_RouteConflict : string; ds_P2PPeers : Z; ds_RelayPeers : Z;
  ds_DownPeers : Z; ds_LastBootstrapAt : string; ds_LastStatusAt : string; ds_LastError : string; ds_RelayDisabled : bool;
  ds_HotPaths : Z; ds_ActiveSessions : Z; ds_SocketRotations : Z; ds_LastRotationReason : string }.

Definition new_device_state (deviceID : string) (networkID : Z) : lanDeviceState :=
  mkLanDeviceState deviceID networkID EmptyString EmptyString EmptyString EmptyString EmptyString EmptyString 0 0 0
    EmptyString EmptyString EmptyString false 0 0 0 EmptyString.

(** One address in the first loop of [lanDeviceStates]. *)
Definition address_state (byDevice : gmap string lanDeviceState) (address : VirtualAddress) : gmap string lanDeviceState :=
  let state := default (new_device_state (va_DeviceID address) (va_NetworkID address)) (byDevice !! va_DeviceID address) in
  <[va_DeviceID address :=
      mkLanDeviceState (ds_DeviceID state) (ds_NetworkID state) (va_VirtualIP address) (va_Hostname address) (ds_LANStatus state)
        (ds_AdapterState state) (ds_SelectedCIDR state) (ds_RouteConflict state) (ds_P2PPeers state) (ds_RelayPeers state)
        (ds_DownPeers state) (va_UpdatedAt address) (ds_LastStatusAt state) (ds_LastError state) (ds_RelayDisabled state)
        (ds_HotPaths state) (ds_ActiveSessions state) (ds_SocketRotations state) (ds_LastRotationReason state)]> byDevice.

Definition or_else (a b : string) : string := if decide (a <> EmptyString) then a else b.

Section Status.
  Context `{GU : GoUnicode} `{GT : GoTime}.

Definition peer_path (peer : VirtualPeerState) : string := ToLower (TrimSpace (ps_Path peer)).

(** One peer state in the second loop. *)
Definition add_peer_state (peer : VirtualPeerState) (s : lanDeviceState) : lanDeviceState :=
  let rotated := bool_decide (ds_SocketRotations s < ps_SocketRotations peer) in
  let path := peer_path peer in
  mkLanDeviceState (ds_DeviceID s) (ds_NetworkID s) (ds_VirtualIP s) (ds_Hostname s) (ds_LANStatus s)
    (or_else (ps_AdapterState peer) (ds_AdapterState s)) (or_else (ps_SelectedCIDR peer) (ds_SelectedCIDR s))
    (or_else (ps_RouteConflict peer) (ds_RouteConflict s))
    (if decide (path = "p2p"%string) then ds_P2PPeers s + 1 else ds_P2PPeers s)
    (if decide (path = "relay"%string) then ds_RelayPeers s + 1 else ds_RelayPeers s)
    (if decide (path <> "p2p"%string /\ path <> "relay"%string) then ds_DownPeers s + 1 else ds_DownPeers s)
    (ds_LastBootstrapAt s)
    (if str_ge (ds_LastStatusAt s) (ps_UpdatedAt peer) then ds_LastStatusAt s else ps_UpdatedAt peer)
    (or_else (ps_LastError peer) (ds_LastError s)) (ps_RelayDisabled peer || ds_RelayDisabled s)
    (Z.max (ds_HotPaths s) (ps_HotPaths peer)) (Z.max (ds_ActiveSessions s) (ps_ActiveSessions peer))
    (if rotated then ps_SocketRotations peer else ds_SocketRotations s)
    (if rotated then ps_LastRotationReason peer else ds_LastRotationReason s).

Definition peer_state_step (known : gmap Z (gset string)) (byDevice : gmap string lanDeviceState) (peer : VirtualPeerState)
  : gmap string lanDeviceState :=
  if negb (knownLANPeerState known peer) then byDevice else alter (add_peer_state peer) (ps_DeviceID peer) byDevice.

Definition lanOnlineTTL : Duration := 60 * second.

Definition lanStatusForDevice (now : Time) (state : lanDeviceState) : string :=
  if bool_decide (ds_LastError state <> EmptyString) || EqualFold (ds_AdapterState state) "error" then "error"
  else if decide (ds_LastStatusAt state = EmptyString) then
    if decide (ds_LastBootstrapAt state <> EmptyString) then "unreported" else "unknown"
  else match ParseRFC3339 (ds_LastStatusAt state) with
  | None => "unknown"
  | Some t => if decide (time_sub now t <= lanOnlineTTL) then "online" else "offline"
  end.

Definition with_status (now : Time) (s : lanDeviceState) : lanDeviceState :=
  mkLanDeviceState (ds_DeviceID s) (ds_NetworkID s) (ds_VirtualIP s) (ds_Hostname s) (lanStatusForDevice now s)
    (ds_AdapterState s) (ds_SelectedCIDR s) (ds_RouteConflict s) (ds_P2PPeers s) (ds_RelayPeers s)
    (ds_DownPeers s) (ds_LastBootstrapAt s) (ds_LastStatusAt s) (ds_LastError s) (ds_RelayDisabled s)
    (ds_HotPaths s) (ds_ActiveSessions s) (ds_SocketRotations s) (ds_LastRotationReason s).

(** The states by device; Go lists them in the order of its map. *)
Definition device_states (now : Time) (addresses : list VirtualAddress) (peers : list VirtualPeerState) : gmap string lanDeviceState :=
  let known := knownLANDevicesByNetwork addresses in
  let byDevice := fold_left address_state addresses ∅ in
  with_status now <$> fold_left (peer_state_step known) (latestLANPeerStates peers) byDevice.

(* ------------------------------------------------------------------ *)
(** ** Handlers *)

Context {DB : Type} `{ST : !LanStore DB}.
Variable fuel : nat.

Definition lanDeviceStates (now : Time) (networkID : Z) : handler DB (gmap string lanDeviceState) :=
  addresses ← reads (ListVirtualAddresses networkID);
  peers ← reads (ListVirtualPeerStates networkID);
  mret (device_states now addresses peers).

Definition lanBootstrapVersion : Z := 1.

Record lanBootstrapPeer : Type := mkBootstrapPeer { bp_DeviceID : string; bp_VirtualIP : string; bp_Hostname : string; bp_PublicKey : string }.

Record lanBootstrapResponse : Type := mkBootstrapResponse {
  br_Version : Z; br_Capabilities : list string; br_ConfigVersion : string; br_Server : string; br_STUNAltPort : Z;
  br_RelayEnabled : bool; br_DeviceID : string; br_DeviceName : string; br_Network : VirtualNetwork; br_Address : VirtualAddress;
  br_Routes : list VirtualRoute; br_ACL : list VirtualACLRule; br_Peers : list lanBootstrapPeer; br_LearnedPaths : list VirtualLearnedPath }.

(** The body of a bootstrap request, and what the server knows besides. *)
Record bootstrap_request : Type := mkBootstrapRequest {
  bq_DeviceID : string; bq_DeviceName : string; bq_PublicKey : string }.
Record bootstrap_env : Type := mkBootstrapEnv {
  be_RemoteAddr : string; be_Host : string; be_UDPListen : string; be_StunAltListen : string; be_AllowRelay : bool }.

Definition lanNetworkAndAddress (deviceID : string) : handler DB (VirtualNetwork * VirtualAddress) :=
  got ← attempt (reads (GetVirtualAddressByDevice deviceID));
  match got with
  | Ok address =>
    networks ← reads ListVirtualNetworks;
    network ← pure_ (virtualNetworkByID networks (va_NetworkID address));
    mret (network, address)
  | Err ErrNoRows =>
    network ← calls EnsureDefaultVirtualNetwork;
    mret (network, mkVirtualAddress EmptyString 0 EmptyString EmptyString false EmptyString EmptyString)
  | Err e => fail e
  end.

Definition lanConfigVersion (network : VirtualNetwork) (addresses : list VirtualAddress) (acl : list VirtualACLRule) (routes : list VirtualRoute)
  : string :=
  Join ([vn_UpdatedAt network; FormatInt (vn_ID network)] ++ map va_UpdatedAt addresses ++ map acl_UpdatedAt acl ++ map vr_UpdatedAt routes) "|".

Definition key_by_device (keys : list VirtualDeviceKey) : gmap string string :=
  fold_left (fun m key => if decide (vk_Algorithm key = "ed25519"%string) then <[vk_DeviceID key := vk_PublicKey key]> m else m) keys ∅.

Definition bootstrap_peers (deviceID : string) (keys : list VirtualDeviceKey) (addresses : list VirtualAddress) : list lanBootstrapPeer :=
  let keyByDevice := key_by_device keys in
  map (fun peer => mkBootstrapPeer (va_DeviceID peer) (va_VirtualIP peer) (va_Hostname peer) (default EmptyString (keyByDevice !! va_DeviceID peer)))
    (filter (fun peer => va_DeviceID peer <> deviceID) addresses).

Definition lan_product (deviceID : string) (online : bool) (source lastError : string) (metadata : gmap string GoAny) : DeviceProductState :=
  mkDeviceProductState deviceID "lan" online EmptyString source EmptyString lastError metadata.

(** The address of the answer: the one on file, or a new one. *)
Definition bootstrap_address (network : VirtualNetwork) (address : VirtualAddress) (req : bootstrap_request) : handler DB VirtualAddress :=
  if decide (TrimSpace (va_DeviceID address) = EmptyString)
  then app_allocate fuel network (bq_DeviceID req) (TrimSpace (bq_DeviceName req))
  else if decide (TrimSpace (va_VirtualIP address) = EmptyString)
  then app_allocate fuel network (bq_DeviceID req) (firstNonEmpty [va_Hostname address; TrimSpace (bq_DeviceName req)])
  else mret address.

Definition handleLANBootstrap (env : bootstrap_env) (body : option bootstrap_request) : handler DB lanBootstrapResponse :=
  match body with
  | None => fail bad_json
  | Some req =>
    if decide (TrimSpace (bq_DeviceID req) = EmptyString) then fail bad_json
    else
      na ← lanNetworkAndAddress (bq_DeviceID req);
      let network := na.1 in
      _ ← writes (LanUpsertDevice (bq_DeviceID req) (TrimSpace (bq_DeviceName req)) (requestAddr (be_RemoteAddr env)) EmptyString EmptyString false);
      _ ← (if decide (TrimSpace (bq_PublicKey req) <> EmptyString)
           then writes (UpsertVirtualDeviceKey (mkVirtualDeviceKey (bq_DeviceID req) "ed25519" (TrimSpace (bq_PublicKey req)) EmptyString EmptyString))
           else mret tt);
      _ ← writes (UpsertDeviceProductState (lan_product (bq_DeviceID req) false "lan_bootstrap" EmptyString
             {[ "network_id"%string := AnyInt (vn_ID network); "virtual_ip"%string := AnyString (va_VirtualIP na.2) ]}));
      address ← bootstrap_address network na.2 req;
      routes ← reads (ListVirtualRoutes (vn_ID network) (bq_DeviceID req));
      acl ← reads (ListVirtualACLRules (vn_ID network));
      addresses ← reads (ListVirtualAddresses (vn_ID network));
      keys ← reads ListVirtualDeviceKeys;
      learnedPaths ← reads (ListVirtualLearnedPaths (vn_ID network) (bq_DeviceID req));
      members ← reads (ListVirtualDeviceGroupMembers EmptyString);
      let acl := expandVirtualACLRules members acl addresses in
      mret (mkBootstrapResponse lanBootstrapVersion ["ipv4"; "tcp"; "rdp"]%string (lanConfigVersion network addresses acl routes)
              (externalUDPAddr (be_Host env) (be_UDPListen env)) (portFromAddr (be_StunAltListen env) 7002) (be_AllowRelay env)
              (bq_DeviceID req) (TrimSpace (bq_DeviceName req)) network address routes acl
              (bootstrap_peers (bq_DeviceID req) keys addresses) learnedPaths)
  end.

Definition lanProductMetadata (now : Time) (req : VirtualPeerState) : handler DB DeviceProductState :=
  states ← lanDeviceStates now (ps_NetworkID req);
  let summary := default (new_device_state (ps_DeviceID req) (ps_NetworkID req)) (states !! ps_DeviceID req) in
  mret (lan_product (ps_DeviceID req) true "lan_status" (firstNonEmpty [ps_LastError req; ds_LastError summary])
    (list_to_map
      [("network_id"%string, AnyInt (ps_NetworkID req)); ("virtual_ip"%string, AnyString (ds_VirtualIP summary));
       ("adapter_state"%string, AnyString (firstNonEmpty [ps_AdapterState req; ds_AdapterState summary]));
       ("selected_cidr"%string, AnyString (firstNonEmpty [ps_SelectedCIDR req; ds_SelectedCIDR summary]));
       ("route_conflict"%string, AnyString (firstNonEmpty [ps_RouteConflict req; ds_RouteConflict summary]));
       ("p2p_peers"%string, AnyInt (ds_P2PPeers summary)); ("relay_peers"%string, AnyInt (ds_RelayPeers summary));
       ("down_peers"%string, AnyInt (ds_DownPeers summary)); ("active_sessions"%string, AnyInt (ds_ActiveSessions summary));
       ("hot_paths"%string, AnyInt (ds_HotPaths summary)); ("socket_rotations"%string, AnyInt (ds_SocketRotations summary));
       ("last_rotation_reason"%string, AnyString (firstNonEmpty [ps_LastRotationReason req; ds_LastRotationReason summary]));
       ("relay_disabled"%string, AnyBool (ps_RelayDisabled req || ds_RelayDisabled summary))])).

(** A learned path of a report, completed, or refused. *)
Definition report_path (req : VirtualPeerState) (path : VirtualLearnedPath) : option VirtualLearnedPath :=
  let dev := if decide (TrimSpace (lp_DeviceID path) = EmptyString) then ps_DeviceID req else lp_DeviceID path in
  let net := if decide (lp_NetworkID path <= 0) then ps_NetworkID req else lp_NetworkID path in
  if decide (dev <> ps_DeviceID req \/ net <> ps_NetworkID req \/ TrimSpace (lp_PeerID path) = EmptyString \/ lp_DstPort path <= 0)
  then None
  else Some (mkVirtualLearnedPath dev (lp_PeerID path) net (lp_DstPort path)
    (if decide (lp_Protocol path = EmptyString) then "tcp" else lp_Protocol path) (lp_Path path) (lp_PublicAddr path)
    (lp_SuccessCount path) (lp_FailureCount path) (lp_LastSuccessAt path) (lp_LastFailureAt path) (lp_LastFailure path)
    (lp_Quality path) (lp_PreheatEnabled path) (lp_UpdatedAt path)).

Fixpoint store_paths (req : VirtualPeerState) (paths : list VirtualLearnedPath) : handler DB unit :=
  match paths with
  | [] => mret tt
  | path :: rest =>
    match report_path req path with
    | None => store_paths req rest
    | Some path => _ ← writes (UpsertVirtualLearnedPath path); store_paths req rest
    end
  end.

Definition handleLANStatus (now : Time) (body : option (VirtualPeerState * list VirtualLearnedPath)) : handler DB unit :=
  match body with
  | None => fail bad_json
  | Some (req, LearnedPaths) =>
    if decide (TrimSpace (ps_DeviceID req) = EmptyString \/ ps_NetworkID req <= 0) then fail bad_json
    else
      _ ← writes (PutVirtualPeerState req);
      deviceState ← lanProductMetadata now req;
      _ ← writes (UpsertDeviceProductState deviceState);
      store_paths req LearnedPaths
  end.

(** The administration's views of the reports. *)
Definition handleAdminLANDeviceStates (now : Time) (r : lan_request unit) : handler DB (gmap string lanDeviceState) :=
  if is_get r then networkID ← pure_ (optionalInt64Query r "network_id"); lanDeviceStates now networkID else fail methodNotAllowed.

Definition handleAdminLANPeerStates (r : lan_request unit) : handler DB (list VirtualPeerState) :=
  if is_get r then
    networkID ← pure_ (optionalInt64Query r "network_id");
    states ← reads (ListVirtualPeerStates networkID);
    addresses ← reads (ListVirtualAddresses networkID);
    mret (filterLANPeerStates addresses states)
  else fail methodNotAllowed.

Definition handleAdminLANPathEvents (r : lan_request unit) : handler DB (list VirtualPeerPathEvent) :=
  if is_get r then
    networkID ← pure_ (optionalInt64Query r "network_id");
    limit ← pure_ (optionalIntQuery r "limit");
    events ← reads (ListVirtualPeerPathEvents networkID (lr_Query r "device_id") (lr_Query r "peer_id") limit);
    addresses ← reads (ListVirtualAddresses networkID);
    mret (filterLANPathEvents addresses events)
  else fail methodNotAllowed.

(** The body of a preheat change. *)
Record preheat_body : Type := mkPreheatBody {
  pb_NetworkID : Z; pb_DeviceID : string; pb_PeerID : string; pb_DstPort : Z; pb_PreheatEnabled : bool }.

Definition handleAdminLANLearnedPaths (r : lan_request preheat_body) : handler DB (list VirtualLearnedPath) :=
  if is_get r then
    networkID ← pure_ (optionalInt64Query r "network_id");
    reads (ListVirtualLearnedPaths networkID (lr_Query r "device_id"))
  else if is_patch r then
    req ← pure_ (decode_body r);
    if decide (pb_NetworkID req <= 0 \/ TrimSpace (pb_DeviceID req) = EmptyString \/ TrimSpace (pb_PeerID req) = EmptyString \/ pb_DstPort req <= 0)
    then fail bad_json
    else _ ← writes (SetVirtualLearnedPathPreheat (pb_NetworkID req) (pb_DeviceID req) (pb_PeerID req) (pb_DstPort req) (pb_PreheatEnabled req)); mret []
  else fail methodNotAllowed.

Record lanDiagnosticsSnapshot_ : Type := mkDiagnostics {
  dg_GeneratedAt : string; dg_NetworkID : Z; dg_Networks : list VirtualNetwork; dg_Addresses : list VirtualAddress;
  dg_DeviceKeys : list VirtualDeviceKey; dg_Groups : list VirtualDeviceGroup; dg_ACL : list VirtualACLRule; dg_Routes : list VirtualRoute;
  dg_PeerStates : list VirtualPeerState; dg_DeviceStates : gmap string lanDeviceState; dg_PathEvents : list VirtualPeerPathEvent;
  dg_LearnedPaths : list VirtualLearnedPath }.

Definition lanDiagnosticsSnapshot (now : Time) (networkID : Z) : handler DB lanDiagnosticsSnapshot_ :=
  Networks ← reads ListVirtualNetworks;
  Addresses ← reads (ListVirtualAddresses networkID);
  DeviceKeys ← reads ListVirtualDeviceKeys;
  Groups ← reads ListVirtualDeviceGroups;
  ACL ← reads (ListVirtualACLRules networkID);
  Routes ← reads (ListVirtualRoutes networkID EmptyString);
  PeerStates ← reads (ListVirtualPeerStates networkID);
  DeviceStates ← lanDeviceStates now networkID;
  PathEvents ← reads (ListVirtualPeerPathEvents networkID EmptyString EmptyString 500);
  LearnedPaths ← reads (ListVirtualLearnedPaths networkID EmptyString);
  mret (mkDiagnostics (RFC3339 now) networkID Networks Addresses DeviceKeys Groups ACL Routes
    (filterLANPeerStates Addresses PeerStates) DeviceStates (filterLANPathEvents Addresses PathEvents) LearnedPaths).

Definition handleAdminLANDiagnostics (now : Time) (r : lan_request unit) : handler DB lanDiagnosticsSnapshot_ :=
  if is_get r then networkID ← pure_ (optionalInt64Query r "network_id"); lanDiagnosticsSnapshot now networkID else fail methodNotAllowed.

End Status.
