(* ===== verification/Views.v ===== *)
(** * Views: devices and rules as the administration shows them (internal/server/views.go)

    The health of a device and the state of a rule, made of the tables of [ControlStore],
    and the requests that answer with them. *)

From S2P Require Import Prelude GoStrings Store ServerUtil Gorm ControlStore LanAdmin AgentServe.
From S2P Require LanServe.

Definition str_gt (a b : string) : bool := negb (bool_decide (String.le a b)).

Record lanPeerSummary : Type := mkSummary {
  sm_p2pPeers : Z; sm_relayPeers : Z; sm_downPeers : Z; sm_adapterState : string; sm_selectedCIDR : string; sm_routeConflict : string;
  sm_lastError : string; sm_activeSessions : Z; sm_hotPaths : Z; sm_socketRotations : Z; sm_lastRotationReason : string; sm_updatedAt : string }.
Definition no_summary : lanPeerSummary := mkSummary 0 0 0 "" "" "" "" 0 0 0 "" "".

(** One turn of the loop of [summarizeLANPeerStates]. *)
Definition summarize_one (sm : lanPeerSummary) (st : VirtualPeerState) : lanPeerSummary :=
  let p2p := if decide (ps_Path st = "p2p"%string) then sm_p2pPeers sm + 1 else sm_p2pPeers sm in
  let relay := if decide (ps_Path st = "relay"%string) then sm_relayPeers sm + 1 else sm_relayPeers sm in
  let down := if decide (ps_Path st <> "p2p"%string /\ ps_Path st <> "relay"%string /\
                         (ps_State st = "down"%string \/ ps_Path st = "down"%string \/ ps_Path st = EmptyString))
              then sm_downPeers sm + 1 else sm_downPeers sm in
  let newer := bool_decide (sm_updatedAt sm = EmptyString) || str_gt (ps_UpdatedAt st) (sm_updatedAt sm) in
  let latest (a b : string) : string := if newer then a else b in
  mkSummary p2p relay down (latest (ps_AdapterState st) (sm_adapterState sm)) (latest (ps_SelectedCIDR st) (sm_selectedCIDR sm))
    (latest (ps_RouteConflict st) (sm_routeConflict sm)) (latest (ps_LastError st) (sm_lastError sm))
    (sm_activeSessions sm + ps_ActiveSessions st) (sm_hotPaths sm + ps_HotPaths st)
    (if sm_socketRotations sm <? ps_SocketRotations st then ps_SocketRotations st else sm_socketRotations sm)
    (latest (ps_LastRotationReason st) (sm_lastRotationReason sm)) (latest (ps_UpdatedAt st) (sm_updatedAt sm)).

Definition summarizeLANPeerStates (states : list VirtualPeerState) : gmap string lanPeerSummary :=
  fold_left (fun out st => <[ps_DeviceID st := summarize_one (default no_summary (out !! ps_DeviceID st)) st]> out) states ∅.

Definition firstString (values : list string) : string := default EmptyString (List.find (fun v => bool_decide (v <> EmptyString)) values).

Definition normalizeRuntimeState (state via : string) : string :=
  if decide (state ∈ ["p2p"; "relay"; "connecting"; "down"; "disabled"; "backoff"]%string) then state
  else if decide (state = "connected"%string) then (if decide (via = "relay"%string) then "relay"%string else "p2p"%string)
  else if decide (state ∈ ["stopped"; ""]%string) then "down"%string
  else if decide (via = "relay"%string) then "relay"%string else state.

Section Views.
  Context `{CO : Collation} `{LK : Like} `{GU : GoUnicode} `{GT : GoTime} `{MJ : MetadataJSON}.
  Context {T : forall R, Model R -> Type} `{G : !Gorm T}.
  Notation DB := (control_db T).

Definition pairStateKey (a b profile : string) : string :=
  if decide (String.le a b) then (a ++ NUL ++ b ++ NUL ++ NormalizeProfile profile)%string
  else (b ++ NUL ++ a ++ NUL ++ NormalizeProfile profile)%string.

Definition first_of_pair (out : gmap string TunnelState) (st : TunnelState) : gmap string TunnelState :=
  let key := pairStateKey (ts_DeviceID st) (ts_PeerID st) (ts_Profile st) in
  match out !! key with Some _ => out | None => <[key := st]> out end.
Definition latestStateByPair (states : list TunnelState) : gmap string TunnelState := fold_left first_of_pair states ∅.

Definition hasBackoff (states : gmap string TunnelState) (deviceID : string) : bool :=
  existsb (fun kv => (bool_decide (ts_DeviceID kv.2 = deviceID) || bool_decide (ts_PeerID kv.2 = deviceID)) && bool_decide (ts_State kv.2 = "backoff"%string))
    (map_to_list states).

Definition recentWithin (now : Time) (value : string) (ttl : Duration) : bool :=
  if decide (value = EmptyString) then false
  else match ParseRFC3339 value with None => false | Some t => bool_decide (time_sub now t <= ttl) end.

Definition applyProductStateToDevice (now : Time) (d : Device) (states : gmap string DeviceProductState) (address : VirtualAddress)
  (lan : lanPeerSummary) (agentTTL : Duration) : Device :=
  let agent := states !! "agent"%string in
  let lanState := states !! "lan"%string in
  let lan_status := match lanState with Some l => bool_decide (dps_LastSource l = "lan_status"%string) | None => false end in
  mkDevice (dev_ID d) (dev_Name d) (dev_Addr d) (dev_UpnpAddr d) (dev_Want d) (dev_Online d) (dev_Enabled d) (dev_LastSeen d) (dev_CreatedAt d)
    (dev_HealthSummary d) (dev_LastError d)
    ((if decide (agent = None) then [] else ["Agent"%string]) ++ (if lan_status then ["UDPTunnelLAN"%string] else []))
    (match agent with Some a => dps_Online a && recentWithin now (dps_LastSeenAt a) agentTTL | None => dev_AgentOnline d end)
    (match agent with Some a => dps_LastSeenAt a | None => dev_LastAgentSeen d end)
    (match agent with Some a => dps_LastSource a | None => dev_AgentLastSource d end)
    (match lanState with Some l => lan_status && recentWithin now (dps_LastSeenAt l) LanServe.lanOnlineTTL | None => dev_LANOnline d end)
    (match lanState with Some l => dps_LastSeenAt l | None => dev_LastLANSeen d end)
    (match lanState with Some l => dps_LastSource l | None => dev_LANLastSource d end)
    (match lanState with Some l => firstString [sm_lastError lan; dps_LastError l] | None => dev_LANLastError d end)
    (va_VirtualIP address) (va_NetworkID address) (sm_adapterState lan) (sm_selectedCIDR lan) (sm_routeConflict lan)
    (if decide (0 < sm_p2pPeers lan + sm_relayPeers lan + sm_downPeers lan)
     then ("P2P " ++ FormatInt (sm_p2pPeers lan) ++ " / Relay " ++ FormatInt (sm_relayPeers lan) ++ " / Down " ++ FormatInt (sm_downPeers lan))%string
     else dev_LANPathSummary d)
    (sm_activeSessions lan) (sm_hotPaths lan) (sm_socketRotations lan) (sm_lastRotationReason lan).

Definition no_address : VirtualAddress := mkVirtualAddress "" 0 "" "" false "" "".

(** The maps [enrichedDevices] builds first; later entries replace earlier ones, but for
    the errors. *)
Definition product_by_device (l : list DeviceProductState) : gmap string (gmap string DeviceProductState) :=
  fold_left (fun out st => <[dps_DeviceID st := <[dps_Product st := st]> (default ∅ (out !! dps_DeviceID st))]> out) l ∅.
Definition address_by_device (l : list VirtualAddress) : gmap string VirtualAddress :=
  fold_left (fun out a => <[va_DeviceID a := a]> out) l ∅.
Definition device_errors (states : list TunnelState) : gmap string string :=
  fold_left (fun out st => if decide (ts_LastError st <> EmptyString /\ default EmptyString (out !! ts_DeviceID st) = EmptyString)
                           then <[ts_DeviceID st := ts_LastError st]> out else out) states ∅.
Definition rule_count (rules : list ForwardRule) : gmap string Z :=
  let incr (i : string) (m : gmap string Z) := <[i := default 0 (m !! i) + 1]> m in
  fold_left (fun out r => if fr_Enabled r then incr (fr_TargetID r) (incr (fr_SourceID r) out) else out) rules ∅.
Definition healthy_devices (stateMap : gmap string TunnelState) (rules : list ForwardRule) : gset string :=
  fold_left (fun out r =>
    if fr_Enabled r then
      match stateMap !! pairStateKey (fr_SourceID r) (fr_TargetID r) (fr_Profile r) with
      | Some st => if tunnel_up (ts_State st) then {[fr_TargetID r]} ∪ ({[fr_SourceID r]} ∪ out) else out
      | None => out
      end
    else out) rules ∅.

Definition with_health (health lastError : string) (d : Device) : Device :=
  mkDevice (dev_ID d) (dev_Name d) (dev_Addr d) (dev_UpnpAddr d) (dev_Want d) (dev_Online d) (dev_Enabled d) (dev_LastSeen d) (dev_CreatedAt d)
    health lastError (dev_ProductCapabilities d) (dev_AgentOnline d) (dev_LastAgentSeen d) (dev_AgentLastSource d) (dev_LANOnline d)
    (dev_LastLANSeen d) (dev_LANLastSource d) (dev_LANLastError d) (dev_LANVirtualIP d) (dev_LANNetworkID d) (dev_LANAdapterState d)
    (dev_LANSelectedCIDR d) (dev_LANRouteConflict d) (dev_LANPathSummary d) (dev_LANActiveSessions d) (dev_LANHotPaths d)
    (dev_LANSocketRotations d) (dev_LANRotationReason d).

Definition health_summary (count : gmap string Z) (healthy : gset string) (stateMap : gmap string TunnelState) (i : string) : string :=
  if decide (default 0 (count !! i) = 0) then "无规则"
  else if decide (i ∈ healthy) then "至少一条隧道正常"
  else if hasBackoff stateMap i then "回退重试中" else "有规则但未建链".

Definition enrichedDevices (now : Time) (peerTTL : Duration) (s : DB) : result api_error (list Device) :=
  devices ← ListDevices s;
  rules ← ListRules s;
  states ← ListTunnelStates s;
  productStates ← ListDeviceProductStates s;
  virtualAddresses ← ControlStore.ListVirtualAddresses 0 s;
  peerStates ← ControlStore.ListVirtualPeerStates 0 s;
  let productByDevice := product_by_device productStates in
  let addressByDevice := address_by_device virtualAddresses in
  let lanByDevice := summarizeLANPeerStates peerStates in
  let stateMap := latestStateByPair states in
  let deviceErrs := device_errors states in
  let ruleCount := rule_count rules in
  let healthy := healthy_devices stateMap rules in
  Ok (map (fun d => let i := dev_ID d in
    applyProductStateToDevice now (with_health (health_summary ruleCount healthy stateMap i) (default EmptyString (deviceErrs !! i)) d)
      (default ∅ (productByDevice !! i)) (default no_address (addressByDevice !! i)) (default no_summary (lanByDevice !! i)) peerTTL) devices).

Definition with_runtime (state lastError updatedAt : string) (attempt : Z) (nextRetry : string) (r : ForwardRule) : ForwardRule :=
  mkForwardRule (fr_ID r) (fr_Name r) (fr_SourceID r) (fr_TargetID r) (fr_Profile r) (fr_LocalPort r) (fr_TargetHost r) (fr_TargetPort r)
    (fr_Enabled r) (fr_CreatedAt r) (fr_UpdatedAt r) state lastError updatedAt attempt nextRetry.

(** The state of one rule. *)
Definition enrich_rule (deviceMap : gmap string Device) (stateMap : gmap string TunnelState) (r : ForwardRule) : ForwardRule :=
  let shown state err := with_runtime state err (fr_UpdatedAt r) (fr_Attempt r) (fr_NextRetryAt r) r in
  if negb (fr_Enabled r) then shown "disabled"%string EmptyString
  else match deviceMap !! fr_SourceID r, deviceMap !! fr_TargetID r with
  | Some src, Some dst =>
    if negb (dev_Enabled src) || negb (dev_Enabled dst) then shown "down"%string "device_disabled"%string
    else match stateMap !! pairStateKey (fr_SourceID r) (fr_TargetID r) (fr_Profile r) with
    | None => shown "down"%string "session_not_established"%string
    | Some st => with_runtime (normalizeRuntimeState (ts_State st) (ts_Via st)) (ts_LastError st) (ts_UpdatedAt st) (ts_Attempt st) (ts_NextRetryAt st) r
    end
  | _, _ => shown "down"%string "device_not_found"%string
  end.

Definition devices_by_id (devices : list Device) : gmap string Device := fold_left (fun out d => <[dev_ID d := d]> out) devices ∅.

Definition enrichedRules (s : DB) : result api_error (list ForwardRule) :=
  rules ← ListRules s;
  devices ← ListDevices s;
  states ← ListTunnelStates s;
  let deviceMap := devices_by_id devices in
  let stateMap := latestStateByPair states in
  Ok (map (enrich_rule deviceMap stateMap) rules).

(** GET of the forwarding rules, and the lists answered as they are. *)
Definition handleForwards_GET : handler DB (list ForwardRule) := reads enrichedRules.
Definition handleDevices (now : Time) (peerTTL : Duration) : handler DB (list Device) := reads (enrichedDevices now peerTTL).
Definition handleSessions : handler DB (list Session) := reads ListSessions.
Definition handleTunnelStates : handler DB (list TunnelState) := reads ListTunnelStates.
Definition handleMetrics : handler DB Metrics := reads Metrics_.

(** [query] gives the parameters of the address; a [limit] that is no number is zero. *)
Definition handleAuditEvents (method : string) (query : string -> string) : handler DB (list AuditEvent) :=
  if decide (method <> "GET"%string) then fail methodNotAllowed
  else reads (ListAuditEvents (mkAuditFilter (TrimSpace (query "kind"%string)) (TrimSpace (query "keyword"%string)) (TrimSpace (query "from"%string))
         (TrimSpace (query "to"%string)) (default 0 (Atoi (query "limit"%string))))).
End Views.

(* ------------------------------------------------------------------ *)
(** ** The state shown of a rule *)

Lemma list_filter_true {A} (f : A -> bool) (l : list A) : (forall a, f a = true) -> filter (fun a => f a = true) l = l.
Proof. intros H. induction l as [|a l IH]; [done|]. rewrite filter_cons_True by done. by rewrite IH. Qed.

Lemma Sorted_map {A B} (R : B -> B -> Prop) (f : A -> B) l : Sorted (fun a b => R (f a) (f b)) l -> Sorted R (map f l).
Proof. induction 1 as [|a l _ IH H]; cbn; constructor; [done|]. destruct H; constructor; done. Qed.

Lemma Sorted_impl {A} (R S : A -> A -> Prop) l : (forall a b, R a b -> S a b) -> Sorted R l -> Sorted S l.
Proof. intros H. induction 1 as [|a l _ IH Ha]; constructor; [done|]. destruct Ha; constructor; auto. Qed.

Section Laws.
  Context `{CO : Collation} `{GU : GoUnicode} `{GT : GoTime} `{MJ : MetadataJSON}.
  Context {T : forall R, Model R -> Type} `{G : !Gorm T} `{L : !GormLaws T} `{CL : !CollationLaws CO}.
  Notation DB := (control_db T).

Definition no_nul (s : string) : Prop := x00 ∉ bytes_of s.

Lemma key_text a b p c d q : no_nul a -> no_nul b -> no_nul c -> no_nul d ->
  (a ++ NUL ++ b ++ NUL ++ p)%string = (c ++ NUL ++ d ++ NUL ++ q)%string -> a = c /\ b = d /\ p = q.
Proof.
  intros Ha Hb Hc Hd E. apply (f_equal bytes_of) in E. rewrite !bytes_of_app in E. change (bytes_of NUL) with [x00] in E. cbn [app] in E.
  apply app_sep_inj in E as [E1 E]; [|done..]. apply app_sep_inj in E as [E2 E3]; [|done..]. by split_and!; apply bytes_of_inj.
Qed.

(** The two ends of a report, in either order, and its profile. *)
Definition about (a b p : string) (st : TunnelState) : Prop :=
  NormalizeProfile (ts_Profile st) = NormalizeProfile p /\ ((ts_DeviceID st = a /\ ts_PeerID st = b) \/ (ts_DeviceID st = b /\ ts_PeerID st = a)).

Definition state_key (st : TunnelState) : string := pairStateKey (ts_DeviceID st) (ts_PeerID st) (ts_Profile st).

Lemma pairStateKey_sym a b p : pairStateKey a b p = pairStateKey b a p.
Proof.
  unfold pairStateKey. destruct (decide (String.le a b)) as [H1|H1], (decide (String.le b a)) as [H2|H2]; [|done|done|].
  - assert (a = b) as -> by (by apply (anti_symm String.le)). done.
  - exfalso. destruct (total String.le a b); auto.
Qed.

Lemma state_key_about a b p st : no_nul a -> no_nul b -> no_nul (ts_DeviceID st) -> no_nul (ts_PeerID st) ->
  state_key st = pairStateKey a b p <-> about a b p st.
Proof.
  intros Ha Hb Hc Hd. unfold state_key, about. split.
  - unfold pairStateKey. do 2 case_decide; intros E; apply key_text in E as (-> & -> & E); auto.
  - intros [E [[-> ->]|[-> ->]]]; [|rewrite (pairStateKey_sym b a)]; unfold pairStateKey; by rewrite E.
Qed.

Lemma latest_lookup l k : latestStateByPair l !! k = List.find (fun st => bool_decide (state_key st = k)) l.
Proof.
  enough (H : forall m, fold_left first_of_pair l m !! k =
    match m !! k with Some x => Some x | None => List.find (fun st => bool_decide (state_key st = k)) l end)
    by (unfold latestStateByPair; by rewrite H, lookup_empty).
  induction l as [|st l IH]; intros m; cbn [fold_left List.find]; [by destruct (m !! k)|].
  rewrite IH. unfold first_of_pair. fold (state_key st). destruct (m !! state_key st) as [x|] eqn:E.
  - destruct (decide (state_key st = k)) as [<-|D]; [by rewrite E|]. by rewrite (bool_decide_false (_ = k)).
  - destruct (decide (state_key st = k)) as [<-|D].
    + by rewrite lookup_insert_eq, E, bool_decide_true.
    + by rewrite lookup_insert_ne, (bool_decide_false (_ = k)) by done.
Qed.

(** The first entry of a sorted list that has a property is a greatest one. *)
Lemma find_greatest {A} (R : A -> A -> Prop) (f : A -> bool) l x (HT : Transitive R) : Sorted R l -> List.find f l = Some x ->
  x ∈ l /\ f x = true /\ forall y, y ∈ l -> f y = true -> y = x \/ R x y.
Proof.
  intros HS%Sorted_StronglySorted; [|exact _]. induction HS as [|a l _ IH Ha]; cbn; [done|]. destruct (f a) eqn:Ef.
  - intros [= ->]. split_and!; [by left|done|]. intros y [->|Hy]%elem_of_cons _; [by left|]. right. by eapply Forall_forall in Ha.
  - intros H. destruct (IH H) as (Hx & Hfx & Hy). split_and!; [by right|done|]. intros y [->|Hy']%elem_of_cons Hfy; [congruence|by apply Hy].
Qed.

Lemma find_no_entry {A} (f : A -> bool) l : List.find f l = None -> forall x, x ∈ l -> f x = false.
Proof. intros H x Hx%list_elem_of_In. by eapply find_none. Qed.

Lemma find_map_compose {A B} (g : A -> B) (f : B -> bool) l : List.find f (map g l) = g <$> List.find (fun a => f (g a)) l.
Proof. induction l as [|a l IH]; [done|]. cbn. by destruct (f (g a)). Qed.

(** The map of devices by id. *)
Lemma device_lookup (l : list Device) i : NoDup (map dev_ID l) -> devices_by_id l !! i = List.find (fun d => bool_decide (dev_ID d = i)) l.
Proof.
  intros HN. enough (H : forall m : gmap string Device, fold_left (fun out d => <[dev_ID d := d]> out) l m !! i =
    match List.find (fun d => bool_decide (dev_ID d = i)) l with Some d => Some d | None => m !! i end).
  { unfold devices_by_id. rewrite H, lookup_empty. by destruct (List.find _ l). }
  induction l as [|d l IH]; intros m; cbn [fold_left List.find]; [done|]. cbn [map] in HN. apply NoDup_cons in HN as [Hd HN].
  rewrite IH by done. destruct (decide (dev_ID d = i)) as [<-|D].
  - rewrite lookup_insert_eq, bool_decide_true by done. destruct (List.find _ l) as [d'|] eqn:E; [|done]. apply find_some in E as [Hin E].
    apply bool_decide_eq_true in E. exfalso. apply Hd. rewrite <- E. change (map dev_ID l) with (dev_ID <$> l). apply list_elem_of_fmap_2. by apply list_elem_of_In.
  - by rewrite lookup_insert_ne, (bool_decide_false (_ = i)) by done.
Qed.

(** The reports the view is made of: all of them, while there are not more than 200. *)
Lemma ListTunnelStates_sorted (s : DB) states : (length (rows (t_tunnels s)) <= 200)%nat -> ListTunnelStates s = Ok states ->
  states ≡ₚ map tunnel_toStore (rows (t_tunnels s)) /\ Sorted (fun a b => sql_le (ts_UpdatedAt b) (ts_UpdatedAt a) = true) states.
Proof.
  intros Hn. unfold ListTunnelStates, Limit, list_of. destruct (Find _ _ _) as [l|] eqn:E; [|done]. cbn [mbind result_bind]. intros H.
  apply find_rows in E as [P S]. rewrite list_filter_true in P by done. assert (Hl : (length l <= 200)%nat) by (by rewrite P).
  rewrite take_ge in H by (change (Z.to_nat 200) with 200%nat; exact Hl). injection H as <-. split; [by rewrite P|].
  apply Sorted_map. eapply Sorted_impl; [|apply S]; [done|]. intros a b. apply sql_le_total.
Qed.

Lemma ListDevices_nodup (s : DB) l : ListDevices s = Ok l -> NoDup (map dev_ID l).
Proof.
  unfold ListDevices, list_of. destruct (Find _ _ _) as [k|] eqn:E; [|done]. intros [= <-]. apply find_rows in E as [P _].
  rewrite list_filter_true in P by done. change (map dev_ID ?x) with (dev_ID <$> x). change (map device_toStore k) with (device_toStore <$> k).
  rewrite <- list_fmap_compose, P. apply NoDup_fmap_2_strong.
  - intros x y Hx Hy Exy. apply list_elem_of_lookup_1 in Hx as [i Hi], Hy as [j Hj].
    assert (i = j) as -> by (eapply (rows_distinct (t_devices s)); [done|done|]; cbn in *; rewrite Exy; apply sql_refl). congruence.
  - apply NoDup_alt. intros i j x Hi Hj. eapply (rows_distinct (t_devices s)); [done|done|]. cbn. apply sql_refl.
Qed.

(** What a rule should be shown as. *)
Definition rule_shown (s : DB) (devices : list Device) (r v : ForwardRule) : Prop :=
  v = with_runtime (fr_RuntimeState v) (fr_LastError v) (fr_LastUpdatedAt v) (fr_Attempt v) (fr_NextRetryAt v) r /\
  if fr_Enabled r then
    let src d := d ∈ devices /\ dev_ID d = fr_SourceID r in let dst d := d ∈ devices /\ dev_ID d = fr_TargetID r in
    ((forall d, ~ src d) \/ (forall d, ~ dst d)) /\ fr_RuntimeState v = "down"%string /\ fr_LastError v = "device_not_found"%string \/
    exists a b, src a /\ dst b /\
      (dev_Enabled a && dev_Enabled b = false /\ fr_RuntimeState v = "down"%string /\ fr_LastError v = "device_disabled"%string \/
       dev_Enabled a && dev_Enabled b = true /\
        let reported st := exists row, row ∈ rows (t_tunnels s) /\ st = tunnel_toStore row /\ about (fr_SourceID r) (fr_TargetID r) (fr_Profile r) st in
        ((forall st, ~ reported st) /\ fr_RuntimeState v = "down"%string /\ fr_LastError v = "session_not_established"%string \/
         exists st, reported st /\ (forall st', reported st' -> sql_le (ts_UpdatedAt st') (ts_UpdatedAt st) = true) /\
           fr_RuntimeState v = normalizeRuntimeState (ts_State st) (ts_Via st) /\ fr_LastError v = ts_LastError st /\
           fr_LastUpdatedAt v = ts_UpdatedAt st))
  else fr_RuntimeState v = "disabled"%string /\ fr_LastError v = EmptyString.

(** The view of the rules: every rule is shown once, in order and unchanged but for its
    state; that is disabled for a rule that is, down with the reason when a device is
    missing or disabled or the two never reported, and otherwise what the newest report
    of either end says. It holds while there are at most 200 reports, the number the
    store reads, and for ids without a NUL. *)
Theorem rule_views_correct (s : DB) (l : list ForwardRule) :
  (length (rows (t_tunnels s)) <= 200)%nat ->
  (forall t, t ∈ rows (t_tunnels s) -> no_nul (ts_DeviceID t) /\ no_nul (ts_PeerID t)) ->
  enrichedRules s = Ok l ->
  exists rules devices, ListRules s = Ok rules /\ ListDevices s = Ok devices /\
    Forall2 (fun r v => no_nul (fr_SourceID r) -> no_nul (fr_TargetID r) -> rule_shown s devices r v) rules l.
Proof.
  intros Hn Hnul. unfold enrichedRules. destruct (ListRules s) as [rules|] eqn:ER; [|done]. cbn [mbind result_bind].
  destruct (ListDevices s) as [devices|] eqn:ED; [|done]. cbn [mbind result_bind]. destruct (ListTunnelStates s) as [states|] eqn:ES; [|done].
  cbn [mbind result_bind]. intros H. injection H as <-. exists rules, devices. split; [done|]. split; [done|].
  apply ListTunnelStates_sorted in ES as [P S]; [|done]. apply ListDevices_nodup in ED.
  apply Forall2_fmap_r, Forall_Forall2_diag, Forall_forall. intros r _ Hs Ht. unfold rule_shown, enrich_rule.
  destruct (fr_Enabled r) eqn:Ee; cbn [negb]; [|done].
  rewrite !device_lookup by done. destruct (List.find _ devices) as [a|] eqn:Ea; cycle 1.
  { split; [done|]. left. split; [|done]. left. intros d [Hd Hi]. eapply find_no_entry in Ea; [|exact Hd]. by apply bool_decide_eq_false in Ea. }
  destruct (List.find (fun d => bool_decide (dev_ID d = fr_TargetID r)) devices) as [b|] eqn:Eb; cycle 1.
  { split; [done|]. left. split; [|done]. right. intros d [Hd Hi]. eapply find_no_entry in Eb; [|exact Hd]. by apply bool_decide_eq_false in Eb. }
  apply find_some in Ea as [Ha Ea%bool_decide_eq_true], Eb as [Hb Eb%bool_decide_eq_true]. rewrite <- list_elem_of_In in Ha, Hb.
  destruct (dev_Enabled a && dev_Enabled b) eqn:Een; cycle 1.
  { rewrite <- negb_andb, Een. cbn [negb]. split; [done|]. right. exists a, b. split; [done|]. split; [done|]. by left. }
  rewrite <- negb_andb, Een. cbn [negb].
  assert (HK : forall st, st ∈ states -> state_key st = pairStateKey (fr_SourceID r) (fr_TargetID r) (fr_Profile r) <->
    about (fr_SourceID r) (fr_TargetID r) (fr_Profile r) st).
  { intros st Hst. rewrite P in Hst. change (map tunnel_toStore ?x) with (tunnel_toStore <$> x) in Hst. apply list_elem_of_fmap in Hst as (row & -> & Hrow).
    destruct (Hnul row Hrow). by apply state_key_about. }
  assert (HM : forall row, row ∈ rows (t_tunnels s) -> tunnel_toStore row ∈ states).
  { intros row Hrow. rewrite P. change (map tunnel_toStore ?x) with (tunnel_toStore <$> x). by apply list_elem_of_fmap_2. }
  assert (HT : Transitive (fun a b => sql_le (ts_UpdatedAt b) (ts_UpdatedAt a) = true)) by (intros x y z Hxy Hyz; by eapply sql_le_trans).
  rewrite latest_lookup. destruct (List.find _ states) as [st|] eqn:EF.
  - split; [done|]. right. exists a, b. split; [done|]. split; [done|]. right. split; [done|]. right. exists st.
    apply (find_greatest _ _ _ _ HT S) in EF as (Hst & Hk & Hmax). apply bool_decide_eq_true in Hk. split.
    + pose proof Hst as Hst'. rewrite P in Hst'. change (map tunnel_toStore ?x) with (tunnel_toStore <$> x) in Hst'.
      apply list_elem_of_fmap in Hst' as (row & -> & Hrow). exists row. split; [done|]. split; [done|]. by apply HK.
    + split; [|done]. intros st' (row & Hrow & -> & Hab). destruct (Hmax (tunnel_toStore row)) as [->|Hle]; [by apply HM| | |exact Hle].
      * by apply bool_decide_eq_true, HK; [apply HM|].
      * destruct (sql_le_total (ts_UpdatedAt st) (ts_UpdatedAt st)); done.
  - split; [done|]. right. exists a, b. split; [done|]. split; [done|]. right. split; [done|]. left. split; [|done].
    intros st (row & Hrow & -> & Hab). eapply find_no_entry in EF; [|by apply HM]. apply bool_decide_eq_false in EF. apply EF. by apply HK; [apply HM|].
Qed.
End Laws.

(* ------------------------------------------------------------------ *)
(** ** Witness *)

Section Witness.
  #[local] Existing Instances binary_collation binary_collation_laws ascii_unicode bin_time bin_time_laws toy_like toy_metadata.

(** Two devices, a rule between them, and a report of its target. *)
Definition toy_views : control_db memory_table :=
  let s := empty_db (fun n => Z.of_nat n) in
  let s := snd (ControlStore.UpsertDevice "a" "a" "" "" "" true s) in
  let s := snd (ControlStore.UpsertDevice "b" "b" "" "" "" true s) in
  let s := snd (CreateRule (mkForwardRule 0 "web" "a" "b" "bulk" 8080 "127.0.0.1" 80 true "" "" "" "" "" 0 "") s) in
  snd (PutTunnelState (mkTunnelState "b" "a" "bulk" "connected" "relay" "" "" 0 0 "" 0 "" "" "") s).

Lemma rule_views_correct_witness :
  exists v rules devices, enrichedRules toy_views = Ok [v] /\ fr_RuntimeState v = "relay"%string /\
    Forall2 (fun r v => no_nul (fr_SourceID r) -> no_nul (fr_TargetID r) -> rule_shown toy_views devices r v) rules [v].
Proof.
  assert (Hn : (length (rows (t_tunnels toy_views)) <=? 200)%nat = true) by (vm_compute; reflexivity). apply Nat.leb_le in Hn.
  assert (Hu : forallb (fun t => bool_decide (x00 ∉ bytes_of (ts_DeviceID t)) && bool_decide (x00 ∉ bytes_of (ts_PeerID t))) (rows (t_tunnels toy_views)) = true)
    by (vm_compute; reflexivity).
  rewrite forallb_forall in Hu.
  assert (Hu' : forall t, t ∈ rows (t_tunnels toy_views) -> no_nul (ts_DeviceID t) /\ no_nul (ts_PeerID t)).
  { intros t Ht. rewrite list_elem_of_In in Ht. apply Hu, andb_true_iff in Ht as [H1 H2]. by apply bool_decide_eq_true in H1, H2. }
  assert (HE : match enrichedRules toy_views with Ok [v] => fr_RuntimeState v = "relay"%string | _ => False end) by (vm_compute; reflexivity).
  destruct (enrichedRules toy_views) as [[|v [|]]|] eqn:E; [destruct HE| |destruct HE|destruct HE].
  destruct (rule_views_correct toy_views [v] Hn Hu' E) as (rules & devices & _ & _ & HF).
  exists v, rules, devices. split; [reflexivity|]. split; [exact HE|exact HF].
Defined.
End Witness.
