(* ===== verification/LanClient.v ===== *)
(** * LanClient: the LAN client around its packet runtime (cmd/UDPTunnelLAN/main.go, internal/wintun/adapter.go)

    From the answer of the server to a router and a link manager: the check of the
    route and the address, the parameters, the peers, the refresh of the configuration
    and the reading of packets off the TUN device. Opening the device is I/O: its
    outcome is an argument. *)

From S2P Require Import Prelude GoStrings Store ServerUtil Vnet Router Link Paths P2PState P2P LanAlloc LanAdmin LanServe.

Definition wintun_DefaultMTU : Z := 1280.

Definition lanNetworkMTU (network : VirtualNetwork) : Z := if decide (0 < vn_MTU network) then vn_MTU network else wintun_DefaultMTU.
Definition lanNetworkMSS (network : VirtualNetwork) (mtu : Z) : Z := if decide (0 < vn_MSS network) then vn_MSS network else MSSForMTU mtu.

(* ------------------------------------------------------------------ *)
(** ** The check before the adapter is configured *)

Record SystemState : Type := mkSystemState { sys_Routes : list Route; sys_Conflict : Conflict; sys_SelectedCIDR : string; sys_MSS : Z }.

(** [InspectSystem] on the routes the system lists; [None] is an error. *)
Definition InspectSystem (preferredCIDR : string) (mtu : Z) (routes : list Route) : option SystemState :=
  conflict ← DetectConflict preferredCIDR routes;
  selected ← NextAvailableCIDR preferredCIDR routes;
  Some (mkSystemState routes conflict selected (MSSForMTU mtu)).

Inductive adapter_error : Type :=
  | ErrInspect | ErrRouteConflict | ErrCIDRMismatch | ErrOutsideCIDR | ErrAdapter (message : string).

Definition validateLANRouteSelection (virtualIP cidr : string) (state : SystemState) : result adapter_error unit :=
  if cf_Conflicts (sys_Conflict state) then Err ErrRouteConflict
  else
    let selected := TrimSpace (sys_SelectedCIDR state) in
    let selected := if decide (selected = EmptyString) then cidr else selected in
    if decide (selected <> cidr) then Err ErrCIDRMismatch
    else match To4 (ParseIP (TrimSpace virtualIP)), ParseCIDR cidr with
    | Some ip, Some network => if net_Contains network ip then Ok tt else Err ErrOutsideCIDR
    | _, _ => Err ErrOutsideCIDR
    end.

Definition lanRouteConflictStatus (conflict : Conflict) : string :=
  if negb (cf_Conflicts conflict) then "none"
  else
    let existing := TrimSpace (rt_CIDR (cf_Existing conflict)) in
    let existing := if decide (existing = EmptyString) then TrimSpace (cf_CIDR conflict) else existing in
    let iface := TrimSpace (rt_Interface (cf_Existing conflict)) in
    if decide (iface = EmptyString) then existing else (existing ++ " via " ++ iface)%string.

(** [configureLANAdapter]: the state it found and the error; [adapter] is the outcome
    of opening and configuring the device. *)
Definition configureLANAdapter (virtualIP cidr : string) (mtu : Z) (routes : list Route) (adapter : option string)
  : option SystemState * result adapter_error unit :=
  match InspectSystem cidr mtu routes with
  | None => (None, Err ErrInspect)
  | Some state =>
    match validateLANRouteSelection virtualIP cidr state with
    | Err e => (Some state, Err e)
    | Ok _ => (Some state, match adapter with Some m => Err (ErrAdapter m) | None => Ok tt end)
    end
  end.

(* ------------------------------------------------------------------ *)
(** ** Router and link manager *)

Definition peer_address (networkID : Z) (peer : lanBootstrapPeer) : VirtualAddress :=
  mkVirtualAddress (bp_DeviceID peer) networkID (bp_VirtualIP peer) (bp_Hostname peer) false EmptyString EmptyString.

Definition runtimeAddresses (resp : lanBootstrapResponse) : list VirtualAddress * gmap string bool :=
  (br_Address resp :: map (peer_address (vn_ID (br_Network resp))) (br_Peers resp),
   fold_left (fun available peer => <[bp_DeviceID peer := true]> available) (br_Peers resp) ∅).

(** A peer the link manager refuses is skipped. *)
Definition upsertLinkPeers (now : Time) (link : LinkManager) (peers : list lanBootstrapPeer) (p2pReady : bool) : LinkManager :=
  fold_left (fun link peer =>
    snd (UpsertPeer now link (mkPeerEndpoint (bp_DeviceID peer) EmptyString EmptyString) (mkPeerEndpoint EmptyString "http-relay" EmptyString) p2pReady))
    peers link.

Definition buildPacketRuntime (now : Time) (resp : lanBootstrapResponse) (deviceID : string) (mtu : Z) : result router_error (Router * LinkManager) :=
  let '(addresses, available) := runtimeAddresses resp in
  router ← NewRouter (mkRouterConfig (vn_ID (br_Network resp)) deviceID mtu addresses (br_ACL resp) available);
  let pathPolicy := newLANPathPolicy (br_Network resp) in
  let link := NewLinkManager (mkLinkConfig deviceID (RelayOnly pathPolicy) 0 0 0) in
  Ok (router, upsertLinkPeers now link (br_Peers resp) false).

(** The path policy of [runPacketForwarding]. *)
Definition runtime_policy (resp : lanBootstrapResponse) : lanPathPolicyConfig :=
  let p := newLANPathPolicy (br_Network resp) in
  mkPathPolicy (pp_Name p) (PreferRelay p) (RelayOnly p) (br_RelayEnabled resp) true.

(* ------------------------------------------------------------------ *)
(** ** Start and refresh *)

(** What [bootstrapAndRun] reports and starts. *)
Record lan_start : Type := mkLanStart {
  st_State : string; st_AdapterState : string; st_RouteConflict : string; st_SelectedCIDR : string; st_MTU : Z; st_MSS : Z;
  st_error : bool; st_runtime : option (Router * LinkManager) }.

Definition bootstrapAndRun (now : Time) (resp : lanBootstrapResponse) (deviceID : string) (routes : list Route) (adapter : option string) : lan_start :=
  let network := br_Network resp in
  let mtu := lanNetworkMTU network in
  let mss := lanNetworkMSS network mtu in
  if decide (va_VirtualIP (br_Address resp) = EmptyString)
  then mkLanStart "bootstrap" "not_configured" "none" (vn_CIDR network) mtu mss false None
  else match configureLANAdapter (va_VirtualIP (br_Address resp)) (vn_CIDR network) mtu routes adapter with
  | (state, Err _) =>
    let conflict := match state with Some s => sys_Conflict s | None => mkConflict EmptyString Route_zero false end in
    mkLanStart "error" "error" (lanRouteConflictStatus conflict) (vn_CIDR network) mtu mss true None
  | (state, Ok _) =>
    let selected := match state with Some s => sys_SelectedCIDR s | None => EmptyString end in
    let mss := if decide (vn_MSS network <= 0) then MSSForMTU mtu else mss in
    match buildPacketRuntime now resp deviceID mtu with
    | Ok rt => mkLanStart "running" "up" "none" selected mtu mss false (Some rt)
    | Err _ => mkLanStart "error" "up" "none" selected mtu mss true None
    end
  end.

(** A tick of [refreshLANPeers] whose bootstrap request was answered. *)
Definition refresh (now : Time) (resp : lanBootstrapResponse) (router : Router) (link : LinkManager) : option Router * LinkManager :=
  let '(addresses, available) := runtimeAddresses resp in
  (UpdateConfig (Some router) addresses (br_ACL resp) available, upsertLinkPeers now link (br_Peers resp) false).

(* ------------------------------------------------------------------ *)
(** ** Reading packets *)

Record lanWintunReadStats : Type := mkReadStats {
  ws_packets : Z; ws_bytes : Z; ws_tcp : Z; ws_udp : Z; ws_icmp : Z; ws_large : Z; ws_noPacket : Z; ws_errors : Z; ws_queueFull : Z;
  ws_lastLog : Time }.

Definition isSupportedTunPacket (pkt : list byte) : bool :=
  match pkt with [] => false | b :: _ => bool_decide (Z.shiftr (b2z b) 4 = 4) end.

Definition maybeLog (now : Time) (s : lanWintunReadStats) : lanWintunReadStats :=
  if decide (time_sub now (ws_lastLog s) < 30 * second) then s
  else mkReadStats (ws_packets s) (ws_bytes s) (ws_tcp s) (ws_udp s) (ws_icmp s) (ws_large s) (ws_noPacket s) (ws_errors s) (ws_queueFull s) now.

Definition recordPacket (now : Time) (pkt : list byte) (s : lanWintunReadStats) : lanWintunReadStats :=
  let bump (b : bool) (n : Z) := if b then u64 (n + 1) else n in
  let proto := match ParseIPv4 pkt with Ok h => Some (Protocol h) | Err _ => None end in
  maybeLog now (mkReadStats (u64 (ws_packets s + 1)) (u64 (ws_bytes s + Z.of_nat (length pkt)))
    (bump (bool_decide (proto = Some IPv4ProtocolTCP)) (ws_tcp s)) (bump (bool_decide (proto = Some IPv4ProtocolUDP)) (ws_udp s))
    (bump (bool_decide (proto = Some IPv4ProtocolICMP)) (ws_icmp s)) (bump (bool_decide (1200 < Z.of_nat (length pkt))) (ws_large s))
    (ws_noPacket s) (ws_errors s) (ws_queueFull s) (ws_lastLog s)).

(** One packet off the device: the statistics, the router, and the frame put on the
    outbound queue, unless that is full. *)
Definition readWintunPackets_packet `{GU : GoUnicode} (now : Time) (pkt : list byte) (queue_full : bool) (s : lanWintunReadStats) (router : option Router)
  : option RoutedFrame * lanWintunReadStats * option Router :=
  let s := recordPacket now pkt s in
  if negb (isSupportedTunPacket pkt) then (None, s, router)
  else match RouteOutbound router pkt with
  | (Err _, router) => (None, s, router)
  | (Ok frame, router) =>
    if queue_full then
      let s := mkReadStats (ws_packets s) (ws_bytes s) (ws_tcp s) (ws_udp s) (ws_icmp s) (ws_large s) (ws_noPacket s) (ws_errors s)
                 (u64 (ws_queueFull s + 1)) (ws_lastLog s) in
      (None, maybeLog now s, router)
    else (Some frame, s, router)
  end.
