(* ===== verification/Wintun.v ===== *)
(** * Wintun: the network adapter of the LAN client (internal/wintun)

    Opening, configuring and cleaning up the adapter, and its routes. The driver, netsh and
    PowerShell are not under src/: their outcomes are arguments, [netsh] the text of its
    error. What the client does with an adapter is in [LanClient] and [LanLoops]. *)

From S2P Require Import Prelude GoStrings Vnet.
From S2P Require LanClient.

Definition DefaultAdapterName : string := "UDP Tunnel LAN".
Definition tunnelType : string := "UDPTunnelLAN".

Record Config : Type := mkConfig { w_Name : string; w_IP : option (list byte); w_CIDR : string; w_MTU : Z }.

Definition normalizeConfig (cfg : Config) : Config :=
  mkConfig (if decide (w_Name cfg = EmptyString) then DefaultAdapterName else w_Name cfg) (w_IP cfg) (w_CIDR cfg)
    (if decide (w_MTU cfg <= 0) then DefaultMTU else w_MTU cfg).

(** The names of the driver's calls, in the order they are made. *)
Inductive driver_call : Type := OpenAdapter (name : string) | CreateAdapter (name type : string) | StartSession | CloseAdapter.

(** Whether each succeeds. *)
Record driver_outcomes : Type := mkDriver { dr_open : bool; dr_create : bool; dr_session : bool }.

Definition openOrCreate (d : driver_outcomes) (cfg : Config) : bool * list driver_call :=
  let cfg := normalizeConfig cfg in
  if negb (dr_open d) && negb (dr_create d) then (false, [OpenAdapter (w_Name cfg); CreateAdapter (w_Name cfg) tunnelType])
  else
    let opened := OpenAdapter (w_Name cfg) :: (if dr_open d then [] else [CreateAdapter (w_Name cfg) tunnelType]) in
    if dr_session d then (true, opened ++ [StartSession]) else (false, opened ++ [StartSession; CloseAdapter]).

(** An adapter that is nil answers [ErrUnsupported]; otherwise the driver answers. *)
Inductive packet_error : Type := ErrUnsupported | ErrNoPacket | ErrDriver (text : string).

Definition ReadPacket (adapter : bool) (received : result packet_error (list byte)) : result packet_error (list byte) * Duration :=
  if negb adapter then (Err ErrUnsupported, 0)
  else match received with
  | Err ErrNoPacket => (Err ErrNoPacket, 500 * millisecond)
  | r => (r, 0)
  end.

Definition WritePacket (adapter : bool) (allocated : option string) (packet : list byte) : result packet_error (list byte) :=
  if negb adapter then Err ErrUnsupported else match allocated with Some e => Err (ErrDriver e) | None => Ok packet end.

Section Adapter.
  Context `{GU : GoUnicode}.

(** [None] is an error. *)
Definition cidrMask (cidr : string) : option string :=
  match ParseCIDR cidr with
  | None => None
  | Some network => if decide ((mask_Size (net_Mask network)).2 <> 32) then None else Some (IPv4_String (net_Mask network))
  end.

Definition isDuplicateRouteError (e : string) : bool :=
  let msg := ToLower e in
  Contains msg "object already exists" || Contains msg "already exists" || Contains msg "file exists" || Contains msg "已存在" || Contains msg "�Ѵ���".

Definition isMissingRouteError (e : string) : bool :=
  let msg := ToLower e in Contains msg "element not found" || Contains msg "找不到" || Contains msg "不存在".

Inductive configure_error : Type := ErrNeedsIPv4 | ErrBadCIDR | ErrNetsh (e : string).

(** The commands run, in order. The error of removing a stale route is ignored. *)
Definition Configure (netsh : list string -> option string) (adapter_name : string) (cfg : Config) : result configure_error unit * list (list string) :=
  let cfg := normalizeConfig cfg in
  let name := if decide (w_Name cfg = EmptyString) then adapter_name else w_Name cfg in
  match To4 (w_IP cfg) with
  | None => (Err ErrNeedsIPv4, [])
  | Some ip =>
    if decide (TrimSpace (w_CIDR cfg) = EmptyString) then (Err ErrNeedsIPv4, [])
    else match cidrMask (w_CIDR cfg) with
    | None => (Err ErrBadCIDR, [])
    | Some mask =>
      let address := ["interface"; "ipv4"; "set"; "address"; "name=" ++ name; "static"; IPv4_String ip; mask]%string in
      let mtu := ["interface"; "ipv4"; "set"; "subinterface"; name; "mtu=" ++ FormatInt (w_MTU cfg); "store=persistent"]%string in
      let stale := ["interface"; "ipv4"; "delete"; "route"; w_CIDR cfg; name]%string in
      let route := ["interface"; "ipv4"; "add"; "route"; w_CIDR cfg; name; IPv4_String ip; "store=active"]%string in
      match netsh address with
      | Some e => (Err (ErrNetsh e), [address])
      | None =>
        match netsh mtu with
        | Some e => (Err (ErrNetsh e), [address; mtu])
        | None =>
          match netsh route with
          | Some e => (if isDuplicateRouteError e then Ok tt else Err (ErrNetsh e), [address; mtu; stale; route])
          | None => (Ok tt, [address; mtu; stale; route])
          end
        end
      end
    end
  end.

Definition cleanup (netsh : list string -> option string) (cfg : Config) : option string :=
  let cfg := normalizeConfig cfg in
  if decide (TrimSpace (w_CIDR cfg) = EmptyString) then None
  else match netsh ["interface"; "ipv4"; "delete"; "route"; w_CIDR cfg; w_Name cfg]%string with
  | Some e => if isMissingRouteError e then None else Some e
  | None => None
  end.

(** [rows]: the table PowerShell prints, its heading first. *)
Definition listRoutes (rows : result string (list (list string))) : result string (list Route) :=
  match rows with
  | Err e => Err e
  | Ok rows => Ok (omap (fun row => match row with cidr :: interface :: _ => Some (mkRoute cidr interface) | _ => None end) (drop 1 rows))
  end.

(** cmd/UDPTunnelLAN/main.go: the trial of the adapter. The address stays when the prefix
    is replaced. *)
Definition runWintunPOC (netsh : list string -> option string) (d : driver_outcomes) (ip cidr : string) (mtu : Z) (routes : list Route) : bool :=
  match LanClient.InspectSystem cidr mtu routes with
  | None => false
  | Some state =>
    let cidr := if cf_Conflicts (LanClient.sys_Conflict state) then LanClient.sys_SelectedCIDR state else cidr in
    let cfg := mkConfig DefaultAdapterName (ParseIP ip) cidr mtu in
    if negb (openOrCreate d cfg).1 then false
    else match (Configure netsh DefaultAdapterName cfg).1 with
    | Err _ => false
    | Ok _ => bool_decide (cleanup netsh (mkConfig DefaultAdapterName None cidr 0) = None)
    end
  end.
End Adapter.

(** The last part of [configureLANAdapter], whose outcome [LanClient.configureLANAdapter]
    takes: the error's text, [None] when the adapter is up. *)
Definition configured `{GU : GoUnicode} (text : configure_error -> string) (netsh : list string -> option string) (d : driver_outcomes)
  (virtualIP cidr : string) (mtu : Z) : option string :=
  let cfg := mkConfig DefaultAdapterName (ParseIP virtualIP) cidr mtu in
  if negb (openOrCreate d cfg).1 then Some "open"%string
  else match (Configure netsh DefaultAdapterName cfg).1 with Err e => Some (text e) | Ok _ => None end.

(* ------------------------------------------------------------------ *)
(** ** When the adapter comes up *)

Section Laws.
  Context `{GU : GoUnicode}.

(** The adapter is up exactly when it has an IPv4 address and prefix, netsh sets the
    address and the MTU, and the route is there, added now or before. A prefix that is
    configured twice is no error, and neither is a route that was not there to remove. *)
Lemma configure_up_iff (netsh : list string -> option string) (name : string) (cfg : Config) :
  is_ok (Configure netsh name cfg).1 = true <->
  exists ip mask, To4 (w_IP cfg) = Some ip /\ TrimSpace (w_CIDR cfg) <> EmptyString /\ cidrMask (w_CIDR cfg) = Some mask /\
    let n := w_Name (normalizeConfig cfg) in
    netsh ["interface"; "ipv4"; "set"; "address"; "name=" ++ n; "static"; IPv4_String ip; mask]%string = None /\
    netsh ["interface"; "ipv4"; "set"; "subinterface"; n; "mtu=" ++ FormatInt (w_MTU (normalizeConfig cfg)); "store=persistent"]%string = None /\
    (forall e, netsh ["interface"; "ipv4"; "add"; "route"; w_CIDR cfg; n; IPv4_String ip; "store=active"]%string = Some e -> isDuplicateRouteError e = true).
Proof.
  assert (HN : w_Name (normalizeConfig cfg) <> EmptyString) by (unfold normalizeConfig; cbn; by case_decide).
  unfold Configure. rewrite decide_False by done. change (w_IP (normalizeConfig cfg)) with (w_IP cfg). change (w_CIDR (normalizeConfig cfg)) with (w_CIDR cfg).
  destruct (To4 (w_IP cfg)) as [ip|]; [|split; [done|intros (? & ? & ? & _); done]].
  case_decide as HT; [split; [done|intros (? & ? & _ & ? & _); done]|].
  destruct (cidrMask (w_CIDR cfg)) as [mask|]; [|split; [done|intros (? & ? & _ & _ & ? & _); done]]. cbv zeta.
  destruct (netsh ["interface"; "ipv4"; "set"; "address"; _; _; _; _]%string) eqn:E1; [split; [done|intros (? & ? & [= <-] & _ & [= <-] & H & _); congruence]|].
  destruct (netsh ["interface"; "ipv4"; "set"; "subinterface"; _; _; _]%string) eqn:E2; [split; [done|intros (? & ? & [= <-] & _ & [= <-] & _ & H & _); congruence]|].
  destruct (netsh ["interface"; "ipv4"; "add"; "route"; _; _; _; _]%string) as [e|] eqn:E3.
  - split.
    + intros Hok. exists ip, mask. split_and!; try done. intros e' He. assert (e' = e) as -> by congruence. by destruct (isDuplicateRouteError e).
    + intros (? & ? & [= <-] & _ & [= <-] & _ & _ & H). cbn. by rewrite (H e E3).
  - split; [intros _|done]. exists ip, mask. split_and!; try done. congruence.
Qed.
End Laws.

Section Examples.
  #[local] Existing Instance ascii_unicode.

(** The mask of a prefix, and what is not one. *)
Example mask_of_prefix : map cidrMask ["172.16.10.0/24"; "10.0.0.0/9"; "fe80::/64"; "172.16.10.0"]%string = [Some "255.255.255.0"; Some "255.128.0.0"; None; None]%string.
Proof. vm_compute. reflexivity. Qed.

(** The trial of the adapter, in a network whose prefix is taken, sets an address outside
    the prefix it routes. *)
Example poc_address_outside_prefix :
  exists state, LanClient.InspectSystem "172.16.10.0/24" 1280 [mkRoute "172.16.10.0/24" "eth0"] = Some state /\
    LanClient.sys_SelectedCIDR state = "172.16.11.0/24"%string /\
    (n ← ParseCIDR (LanClient.sys_SelectedCIDR state); ip ← ParseIP "172.16.10.250"; Some (net_Contains n ip)) = Some false /\
    runWintunPOC (fun _ => None) (mkDriver true false true) "172.16.10.250" "172.16.10.0/24" 1280 [mkRoute "172.16.10.0/24" "eth0"] = true.
Proof. eexists. split; [vm_compute; reflexivity|]. vm_compute. repeat split; reflexivity. Qed.
End Examples.
