(* ===== verification/LanPolicy.v ===== *)
(** * LanPolicy: from the administrator's settings to the routers of the devices

    What the decoders accept is well formed; the access rules over groups decide, end
    to end, which packets the router of a device forwards; a device keeps its address;
    and what a change of the network's prefix does to the devices in it. *)

From S2P Require Import Prelude GoStrings Store ServerUtil Vnet Router Link Paths P2P LanAlloc LanAdmin LanServe LanClient.
From S2P Require ControlStore.

(* ------------------------------------------------------------------ *)
(** ** Well-formed settings *)

Definition trimmed (s : string) : Prop := TrimSpace s = s.

Definition wf_network (n : VirtualNetwork) : Prop :=
  vn_Name n <> EmptyString /\ trimmed (vn_Name n) /\ trimmed (vn_CIDR n) /\ is_Some (ParseCIDR (vn_CIDR n)) /\
  (vn_MTU n = 0 \/ 576 <= vn_MTU n <= 9000) /\ (vn_MSS n = 0 \/ 536 <= vn_MSS n <= MSSForMTU (vn_MTU n)) /\
  vn_PathPolicy n ∈ ["auto"; "prefer_p2p"; "prefer_relay"; "relay_only"]%string /\
  vn_TCPFastPath n ∈ ["auto"; "off"; "force"]%string.

Definition wf_rule (r : VirtualACLRule) : Prop :=
  0 < acl_NetworkID r /\ acl_Protocol r ∈ ["tcp"; "udp"; "icmp"; "any"]%string /\ acl_Action r ∈ ["allow"; "deny"]%string /\
  0 <= acl_PortStart r <= acl_PortEnd r /\ acl_PortEnd r <= 65535.

Definition wf_group (g : VirtualDeviceGroup) (members : list string) : Prop :=
  vg_ID g <> EmptyString /\ vg_Name g <> EmptyString /\ NoDup members /\ Forall (fun d => d <> EmptyString /\ trimmed d) members.

Lemma group_members_spec seen ids :
  NoDup (group_members seen ids) /\
  Forall (fun d => d <> EmptyString /\ trimmed d /\ d ∉ seen) (group_members seen ids).
Proof.
  revert seen. induction ids as [|id ids IH]; intros seen; cbn [group_members]; [by split; constructor|].
  case_decide as Hd; [apply IH|]. apply Decidable.not_or in Hd as [Hd1 Hd2].
  destruct (IH (TrimSpace id :: seen)) as [H1 H2]. split.
  - constructor; [|done]. intros Hin. rewrite Forall_forall in H2. destruct (H2 _ Hin) as (_ & _ & Hn). set_solver.
  - constructor; [split_and!; [done|apply TrimSpace_idem|done]|].
    eapply Forall_impl; [exact H2|]. intros d (? & ? & Hn). split_and!; [done|done|set_solver].
Qed.

Lemma decodeVirtualNetwork_Ok body n' : decodeVirtualNetwork body = Ok n' ->
  wf_network n' /\ decodeVirtualNetwork (Some n') = Ok n'.
Proof.
  destruct body as [n|]; [|done]. cbn [decodeVirtualNetwork]. case_decide as H1; [done|].
  destruct (ParseCIDR (TrimSpace (vn_CIDR n))) as [net|] eqn:Ec; [|done].
  case_decide as H2; [done|]. case_decide as H3; [done|]. case_decide as H4; [done|].
  destruct (decide (_ ∉ _)) as [|H5]; [done|]. destruct (decide (TrimSpace (vn_TCPFastPath n) ∉ _)) as [|H6]; [done|].
  intros E. apply (f_equal (fun r => match r with Ok x => x | Err _ => n end)) in E. subst n'.
  apply dec_stable in H5, H6. apply Decidable.not_or in H1 as [Hn Hc].
  set (pp := if decide (TrimSpace (vn_PathPolicy n) = EmptyString) then "prefer_p2p"%string else TrimSpace (vn_PathPolicy n)).
  set (tf := if decide (TrimSpace (vn_TCPFastPath n) = EmptyString) then "auto"%string else TrimSpace (vn_TCPFastPath n)).
  assert (Hpp : pp ∈ ["auto"; "prefer_p2p"; "prefer_relay"; "relay_only"]%string) by (unfold pp; case_decide; set_solver).
  assert (Htf : tf ∈ ["auto"; "off"; "force"]%string) by (unfold tf; case_decide; set_solver).
  assert (HM : MSSForMTU (vn_MTU n) <= DefaultMSS) by (pose proof (MSSForMTU_bounds (vn_MTU n)); unfold DefaultMSS; lia).
  split.
  - split_and!; cbn [vn_Name vn_CIDR vn_MTU vn_MSS vn_PathPolicy vn_TCPFastPath]; try done; try apply TrimSpace_idem.
    + lia.
    + destruct (decide (vn_MTU n = 0)) as [->|]; [|lia]. change (MSSForMTU 0) with 1200. unfold DefaultMSS in *. lia.
  - cbn [decodeVirtualNetwork vn_Name vn_CIDR vn_MTU vn_MSS vn_PathPolicy vn_TCPFastPath vn_ID vn_Enabled vn_CreatedAt vn_UpdatedAt].
    assert (Tp : TrimSpace pp = pp) by (unfold pp; case_decide; [reflexivity|apply TrimSpace_idem]).
    assert (Tf : TrimSpace tf = tf) by (unfold tf; case_decide; [reflexivity|apply TrimSpace_idem]).
    rewrite !TrimSpace_idem, Tp, Tf, Ec. rewrite decide_False by tauto. rewrite !decide_False by tauto.
    rewrite (decide_False (P := pp ∉ _)) by (intros F; apply F; right; exact Hpp). rewrite (decide_False (P := pp = EmptyString)) by (intros Z; rewrite Z in Hpp; revert Hpp; decide_now).
    rewrite (decide_False (P := tf ∉ _)) by (intros F; apply F; right; exact Htf). rewrite (decide_False (P := tf = EmptyString)) by (intros Z; rewrite Z in Htf; revert Htf; decide_now). done.
Qed.

Lemma lanNetworkMTU_pos n : 0 < lanNetworkMTU n.
Proof. unfold lanNetworkMTU, wintun_DefaultMTU. case_decide; lia. Qed.

Section Policy.
  Context `{GU : GoUnicode}.

Lemma decodeVirtualACLRule_Ok body r : decodeVirtualACLRule body = Ok r -> wf_rule r.
Proof.
  destruct body as [x|]; [|done]. unfold decodeVirtualACLRule, bad_acl.
  set (P := if decide (ToLower (TrimSpace (acl_Protocol x)) = _) then _ else _).
  set (A := if decide (ToLower (TrimSpace (acl_Action x)) = _) then _ else _). cbv zeta.
  case_decide as H1; [done|]. destruct (decide (P ∉ _)) as [|H2]; [done|]. destruct (decide (A ∉ _)) as [|H3]; [done|].
  case_decide as H4; [done|]. intros [= <-]. apply dec_stable in H2, H3. unfold wf_rule; simpl. split_and!; try done; lia.
Qed.

Lemma decodeLANGroup_Ok body g members : decodeLANGroup body = Ok (g, members) -> wf_group g members.
Proof.
  destruct body as [x|]; [|done]. unfold decodeLANGroup. case_decide as H1; [done|].
  apply Decidable.not_or in H1 as [Hi Hn]. intros [= <- <-]. destruct (group_members_spec [] (gb_DeviceIDs x)) as [N F].
  split_and!; [done..|]. eapply Forall_impl; [exact F|]. by intros d (? & ? & _).
Qed.

(* ------------------------------------------------------------------ *)
(** ** Rules over groups *)

(** One side of a rule covers a device: it names it, names a group with it, or names
    neither and the device has an address in the network. *)
Definition rule_covers (members : list VirtualDeviceGroupMember) (addresses : list VirtualAddress) (deviceID groupID d : string) : Prop :=
  if decide (TrimSpace deviceID <> EmptyString) then d = TrimSpace deviceID
  else if decide (TrimSpace groupID <> EmptyString) then
    exists m, m ∈ members /\ vgm_GroupID m = TrimSpace groupID /\ vgm_DeviceID m = d
  else exists a, a ∈ addresses /\ va_DeviceID a = d.

(** An administrator's rule denies the packet [h] from [src] to [dst]. *)
Definition rule_denies (members : list VirtualDeviceGroupMember) (addresses : list VirtualAddress) (networkID : Z) (src dst : string) (h : IPv4Header)
  (rule : VirtualACLRule) : Prop :=
  acl_Enabled rule = true /\ acl_NetworkID rule = networkID /\ EqualFold (TrimSpace (acl_Action rule)) "deny" = true /\
  rule_covers members addresses (acl_SourceDeviceID rule) (acl_SourceGroupID rule) src /\
  rule_covers members addresses (acl_TargetDeviceID rule) (acl_TargetGroupID rule) dst /\
  matchACLRule (expanded_rule rule src dst) networkID src dst h = true.

Lemma members_by_group_lookup members g :
  default [] (members_by_group members !! g) = map vgm_DeviceID (filter (fun m => vgm_GroupID m = g) members).
Proof.
  unfold members_by_group. induction members as [|x l IH] using rev_ind; [reflexivity|].
  rewrite fold_left_app, filter_app, map_app, <- IH. cbn [fold_left]. rewrite filter_cons, filter_nil.
  destruct (decide (vgm_GroupID x = g)) as [E|Hne].
  - rewrite E, lookup_insert_eq. done.
  - rewrite lookup_insert_ne by done. cbn [map]. by rewrite app_nil_r.
Qed.

Lemma aclDevices_covers members addresses deviceID groupID d :
  d ∈ aclDevices deviceID groupID (members_by_group members) (known_devices addresses) <->
  rule_covers members addresses deviceID groupID d.
Proof.
  unfold aclDevices, rule_covers. case_decide; [by rewrite list_elem_of_singleton|]. case_decide.
  - rewrite members_by_group_lookup, list_elem_of_fmap. setoid_rewrite list_elem_of_filter. naive_solver.
  - rewrite elem_of_elements. unfold known_devices. rewrite elem_of_list_to_set, list_elem_of_fmap. naive_solver.
Qed.

Lemma expand_elem members rules addresses x :
  x ∈ expandVirtualACLRules members rules addresses <->
  exists rule src dst, rule ∈ rules /\ x = expanded_rule rule src dst /\
    rule_covers members addresses (acl_SourceDeviceID rule) (acl_SourceGroupID rule) src /\
    rule_covers members addresses (acl_TargetDeviceID rule) (acl_TargetGroupID rule) dst.
Proof.
  unfold expandVirtualACLRules. setoid_rewrite <- aclDevices_covers.
  setoid_rewrite list_elem_of_In. rewrite in_concat. setoid_rewrite in_map_iff. split.
  - intros (l & (rule & <- & Hr) & Hx). apply in_concat in Hx as (l & (src & <- & Hs)%in_map_iff & (dst & <- & Hd)%in_map_iff).
    by exists rule, src, dst.
  - intros (rule & src & dst & Hr & -> & Hs & Hd). eexists. split; [by exists rule|].
    apply in_concat. eexists. split; [apply in_map_iff; by exists src|]. apply in_map_iff. by exists dst.
Qed.

(** No device id is empty: an expanded rule without a device would match every device. *)
Definition no_empty_ids (members : list VirtualDeviceGroupMember) (addresses : list VirtualAddress) : Prop :=
  Forall (fun m => vgm_DeviceID m <> EmptyString) members /\ Forall (fun a => va_DeviceID a <> EmptyString) addresses.

Lemma covers_nonempty members addresses deviceID groupID d :
  no_empty_ids members addresses -> rule_covers members addresses deviceID groupID d -> d <> EmptyString.
Proof.
  intros [Hm Ha]. unfold rule_covers. case_decide; [by intros ->|]. rewrite !Forall_forall in *.
  case_decide; [intros (m & Hin & _ & <-)|intros (a & Hin & <-)]; auto.
Qed.

Lemma match_expanded rule s d networkID src dst h : s <> EmptyString -> d <> EmptyString ->
  matchACLRule (expanded_rule rule s d) networkID src dst h = true ->
  s = src /\ d = dst.
Proof.
  intros Hs Hd. unfold matchACLRule. cbn [expanded_rule acl_SourceDeviceID acl_TargetDeviceID].
  case_decide as H1; [done|]. case_decide as H2; [done|]. intros _. split; apply dec_stable; tauto.
Qed.

(** What the server sends as access rules means what the administrator set. *)
Lemma expand_allow members rules addresses networkID src dst h :
  no_empty_ids members addresses ->
  allowACL (expandVirtualACLRules members rules addresses) networkID src dst h = true <->
  ~ exists rule, rule ∈ rules /\ rule_denies members addresses networkID src dst h rule.
Proof.
  intros Hne. rewrite allowACL_existsb, negb_true_iff, <- not_true_iff_false, existsb_exists. setoid_rewrite <- list_elem_of_In.
  setoid_rewrite expand_elem. apply not_iff_compat. split.
  - intros (x & (rule & s & d & Hr & -> & Hs & Hd) & Hx). unfold denies in Hx. bools.
    pose proof (covers_nonempty _ _ _ _ _ Hne Hs). pose proof (covers_nonempty _ _ _ _ _ Hne Hd).
    match goal with H : matchACLRule _ _ _ _ _ = true |- _ => pose proof H as Hm; apply match_expanded in Hm as [-> ->]; [|done..] end.
    exists rule. split; [done|]. by split_and!.
  - intros (rule & Hr & He & Hn & Ha & Hs & Hd & Hm). exists (expanded_rule rule src dst). split; [by exists rule, src, dst|].
    unfold denies. rewrite !andb_true_iff, bool_decide_eq_true. by split_and!.
Qed.


(* ------------------------------------------------------------------ *)
(** ** The answer of a bootstrap *)

Section Bootstrap.
  Context `{GT : GoTime} {DB : Type} `{ST : !LanStore DB}.
  Variables (fuel : nat) (env : bootstrap_env) (req : bootstrap_request).

Definition bootstrap_response (network : VirtualNetwork) (address : VirtualAddress) (routes : list VirtualRoute) (rules : list VirtualACLRule)
  (addresses : list VirtualAddress) (keys : list VirtualDeviceKey) (learned : list VirtualLearnedPath) (members : list VirtualDeviceGroupMember)
  : lanBootstrapResponse :=
  let acl := expandVirtualACLRules members rules addresses in
  mkBootstrapResponse lanBootstrapVersion ["ipv4"; "tcp"; "rdp"]%string (lanConfigVersion network addresses acl routes)
    (externalUDPAddr (be_Host env) (be_UDPListen env)) (portFromAddr (be_StunAltListen env) 7002) (be_AllowRelay env)
    (bq_DeviceID req) (TrimSpace (bq_DeviceName req)) network address routes acl (bootstrap_peers (bq_DeviceID req) keys addresses) learned.

Lemma bootstrap_answer s resp s' :
  answers (handleLANBootstrap fuel env (Some req)) s resp s' ->
  exists na s1 s2 address routes rules addresses keys learned members,
    answers (lanNetworkAndAddress (bq_DeviceID req)) s na s1 /\
    answers (bootstrap_address fuel na.1 na.2 req) s2 address s' /\
    ListVirtualACLRules (vn_ID na.1) s' = Ok rules /\ ListVirtualAddresses (vn_ID na.1) s' = Ok addresses /\
    ListVirtualDeviceGroupMembers EmptyString s' = Ok members /\ ListVirtualDeviceKeys s' = Ok keys /\
    resp = bootstrap_response na.1 address routes rules addresses keys learned members.
Proof.
  unfold handleLANBootstrap. case_decide; [done|]. intros A.
  apply answers_bind in A as (na & s1 & A1 & A). cbv zeta in A.
  apply answers_bind in A as (? & s2 & _ & A). apply answers_bind in A as (? & s3 & _ & A). apply answers_bind in A as (? & s4 & _ & A).
  apply answers_bind in A as (address & s5 & A2 & A).
  apply answers_bind in A as (routes & ? & [R1 ->]%answers_reads & A). apply answers_bind in A as (rules & ? & [R2 ->]%answers_reads & A).
  apply answers_bind in A as (addresses & ? & [R3 ->]%answers_reads & A). apply answers_bind in A as (keys & ? & [R4 ->]%answers_reads & A).
  apply answers_bind in A as (learned & ? & [R5 ->]%answers_reads & A). apply answers_bind in A as (members & ? & [R6 ->]%answers_reads & A).
  apply answers_ret in A as [-> ->].
  exists na, s1, s4, address, routes, rules, addresses, keys, learned, members. by split_and!.
Qed.

(** The text of an address the routers file it under. *)
Definition address_text (a : VirtualAddress) : option string := IPv4_String <$> To4 (ParseIP (TrimSpace (va_VirtualIP a))).

Lemma runtime_lookup network own rules keys addresses a k acl available mtu :
  a ∈ addresses -> va_DeviceID a <> bq_DeviceID req -> TrimSpace (va_DeviceID a) <> EmptyString -> address_text a = Some k ->
  address_text own <> Some k ->
  Forall (fun b => address_text b = Some k -> va_DeviceID b = va_DeviceID a) addresses ->
  let l := own :: map (peer_address network) (bootstrap_peers (bq_DeviceID req) keys addresses) in
  cfg_ACLRules (mkRouterConfig network (bq_DeviceID req) mtu l acl available) = rules ->
  buildRoutes network l !! k = Some (va_DeviceID a).
Proof.
  intros Ha Hd Ht Hk Ho Hu l _. rewrite buildRoutes_lookup.
  destruct (List.find (routes_to network k) (rev l)) as [x|] eqn:E.
  - apply List.find_some in E as [Hin Hr]. rewrite <- in_rev in Hin. unfold routes_to in Hr. bools. simpl. f_equal.
    destruct Hin as [<-|Hin]; [done|]. apply in_map_iff in Hin as (p & <- & Hin). unfold bootstrap_peers in Hin.
    apply in_map_iff in Hin as (b & <- & Hin). rewrite <- list_elem_of_In, list_elem_of_filter in Hin. destruct Hin as [_ Hin].
    rewrite Forall_forall in Hu. by apply (Hu b Hin).
  - exfalso. pose proof (List.find_none _ _ E) as N.
    specialize (N (peer_address network (mkBootstrapPeer (va_DeviceID a) (va_VirtualIP a) (va_Hostname a)
      (default EmptyString (key_by_device keys !! va_DeviceID a))))).
    assert (Hin : In (peer_address network (mkBootstrapPeer (va_DeviceID a) (va_VirtualIP a) (va_Hostname a)
      (default EmptyString (key_by_device keys !! va_DeviceID a)))) (rev l)).
    { rewrite <- in_rev. right. apply in_map. unfold bootstrap_peers. apply in_map_iff. exists a. split; [done|].
      rewrite <- list_elem_of_In, list_elem_of_filter. done. }
    specialize (N Hin). unfold routes_to in N. cbn [peer_address va_NetworkID va_DeviceID va_VirtualIP bp_DeviceID bp_VirtualIP] in N.
    fold (address_text a) in N. rewrite Hk, (bool_decide_eq_false_2 _ Ht), !bool_decide_eq_true_2 in N by done. done.
Qed.

Lemma available_peers peers d : (fold_left (fun (available : gmap string bool) peer => <[bp_DeviceID peer := true]> available) peers ∅) !! d <> Some false.
Proof.
  assert (K : forall m : gmap string bool, m !! d <> Some false ->
    fold_left (fun available peer => <[bp_DeviceID peer := true]> available) peers m !! d <> Some false).
  { induction peers as [|p l IH]; intros m Hm; [done|]. apply IH. destruct (decide (bp_DeviceID p = d)) as [<-|].
    - by rewrite lookup_insert_eq.
    - by rewrite lookup_insert_ne. }
  apply K. done.
Qed.

(** C19. The policy of the administrator holds end to end: when a device starts from the
    answer of its bootstrap, its router sends a packet for the address of another device
    of the network to that device, exactly when no enabled rule on file denies it, with
    groups standing for their members and an empty side for every device. *)
Theorem provisioned_router_enforces_policy (now : Time) (s s' : DB) (resp : lanBootstrapResponse) (router : Router) (link : LinkManager)
  (rules : list VirtualACLRule) (addresses : list VirtualAddress) (members : list VirtualDeviceGroupMember)
  (a : VirtualAddress) (packet : list byte) (h : IPv4Header) :
  let nid := vn_ID (br_Network resp) in
  let mtu := lanNetworkMTU (br_Network resp) in
  answers (handleLANBootstrap fuel env (Some req)) s resp s' ->
  buildPacketRuntime now resp (bq_DeviceID req) mtu = Ok (router, link) ->
  ListVirtualACLRules nid s' = Ok rules -> ListVirtualAddresses nid s' = Ok addresses ->
  ListVirtualDeviceGroupMembers EmptyString s' = Ok members -> no_empty_ids members addresses ->
  a ∈ addresses -> va_DeviceID a <> bq_DeviceID req -> TrimSpace (va_DeviceID a) <> EmptyString ->
  address_text a = Some (IPv4_String (DestIP h)) -> address_text (br_Address resp) <> Some (IPv4_String (DestIP h)) ->
  Forall (fun b => address_text b = Some (IPv4_String (DestIP h)) -> va_DeviceID b = va_DeviceID a) addresses ->
  Z.of_nat (length packet) <= mtu -> ParseIPv4 packet = Ok h ->
  Protocol h ∈ [IPv4ProtocolTCP; IPv4ProtocolUDP; IPv4ProtocolICMP] ->
  (exists f, (RouteOutbound (Some router) packet).1 = Ok f /\ rf_DstDevice f = va_DeviceID a) <->
  ~ exists rule, rule ∈ rules /\ rule_denies members addresses nid (bq_DeviceID req) (va_DeviceID a) h rule.
Proof.
  intros nid mtu A HB HR HA HM Hne Ha Hd Ht Hk Ho Hu Hlen Hp Hproto.
  apply bootstrap_answer in A as (na & s1 & s2 & address & routes & rules' & addresses' & keys & learned & members' & _ & _ & R1 & R2 & R3 & _ & ->).
  cbn [bootstrap_response br_Network br_Address] in *. unfold nid in *.
  assert (rules' = rules) as -> by congruence. assert (addresses' = addresses) as -> by congruence.
  assert (members' = members) as -> by congruence.
  set (resp := bootstrap_response _ _ _ _ _ _ _ _) in HB. unfold buildPacketRuntime, runtimeAddresses, NewRouter in HB.
  cbn [cfg_NetworkID cfg_SourceDeviceID cfg_MTU cfg_Addresses cfg_ACLRules cfg_PeerAvailable] in HB.
  case_decide; [done|]. case_decide; [done|]. cbn [mbind result_bind] in HB.
  pose proof (lanNetworkMTU_pos na.1) as Hmtu. fold mtu in Hmtu. rewrite decide_False in HB by lia. injection HB as HB _. subst router.
  set (r := mkRouter _ _ _ _ _ _ _).
  assert (Hroute : r_routes r !! IPv4_String (DestIP h) = Some (va_DeviceID a)).
  { unfold r. cbn [r_routes]. by eapply (runtime_lookup _ _ [] keys addresses a _ [] ∅ 0). }
  assert (Hacl : r_acl r = expandVirtualACLRules members rules addresses) by done.
  assert (Hdst : va_DeviceID a <> EmptyString) by (intros E; rewrite E in Ht; done).
  rewrite <- (expand_allow members rules addresses _ _ _ _ Hne).
  destruct (RouteOutbound_cases r packet) as [(h' & dst & HRt & ->)|(e & -> & HN)].
  - destruct HRt as (_ & P' & _ & R' & _ & _ & D'). rewrite Hp in P'. injection P' as <-. rewrite Hroute in R'. injection R' as <-.
    split; [intros _|intros _; by eexists]. rewrite allowACL_existsb, negb_true_iff, <- not_true_iff_false, existsb_exists.
    intros (x & Hx & Hden). apply D'. exists x. rewrite Hacl, list_elem_of_In. done.
  - split; [by intros (f & ? & _)|]. intros Hall. exfalso. apply (HN h (va_DeviceID a)). split_and!; [done..| |].
    + apply available_peers.
    + rewrite allowACL_existsb, negb_true_iff, <- not_true_iff_false, existsb_exists in Hall.
      intros (x & Hx & Hden). apply Hall. exists x. rewrite Hacl, list_elem_of_In in Hx. done.
Qed.

(** A device with an address on file gets it back unchanged, in the network on file. *)
Lemma bootstrap_keeps_address s resp s' addr :
  answers (handleLANBootstrap fuel env (Some req)) s resp s' ->
  GetVirtualAddressByDevice (bq_DeviceID req) s = Ok addr ->
  TrimSpace (va_DeviceID addr) <> EmptyString -> TrimSpace (va_VirtualIP addr) <> EmptyString ->
  br_Address resp = addr /\
  exists ns, ListVirtualNetworks s = Ok ns /\ virtualNetworkByID ns (va_NetworkID addr) = Ok (br_Network resp).
Proof.
  intros A HG Hd Hip.
  apply bootstrap_answer in A as (na & s1 & s2 & address & routes & rules & addresses & keys & learned & members & N & B & _ & _ & _ & _ & ->).
  unfold lanNetworkAndAddress in N. apply answers_bind in N as (got & s0 & Hgot & N).
  unfold answers, attempt, reads in Hgot. injection Hgot as <- <-. rewrite HG in N.
  apply answers_bind in N as (ns & ? & [Hns ->]%answers_reads & N). apply answers_bind in N as (nw & ? & [Hnw ->]%answers_pure & N).
  apply answers_ret in N as [-> ->]. cbn [fst snd] in *. unfold bootstrap_address in B.
  rewrite !decide_False in B by done. apply answers_ret in B as [-> ->]. split; [done|]. by exists ns.
Qed.

(** An administrator can move a network to a prefix its devices are not in: the change
    is accepted, and from then on such a device, whose bootstrap still answers its old
    address, refuses to configure its adapter and has no packet runtime. *)
Theorem network_change_strands_devices (r : lan_request VirtualNetwork) (n : VirtualNetwork) (s s1 s2 s3 : DB)
  (addr : VirtualAddress) (ip : list byte) (net : IPNet) (resp : lanBootstrapResponse) :
  (forall id n s s', UpdateVirtualNetwork id n s = (None, s') ->
     (forall dev, GetVirtualAddressByDevice dev s' = GetVirtualAddressByDevice dev s) /\
     (forall ns, ListVirtualNetworks s' = Ok ns -> exists n', virtualNetworkByID ns id = Ok n' /\ vn_CIDR n' = vn_CIDR n)) ->
  lr_Method r = "PATCH"%string -> lr_Body r = Some n ->
  parseLANPathID (lr_Path r) "/api/admin/lan/networks/" = Ok (va_NetworkID addr) ->
  GetVirtualAddressByDevice (bq_DeviceID req) s = Ok addr -> TrimSpace (va_DeviceID addr) <> EmptyString ->
  To4 (ParseIP (TrimSpace (va_VirtualIP addr))) = Some ip -> ParseCIDR (TrimSpace (vn_CIDR n)) = Some net -> net_Contains net ip = false ->
  answers (handleAdminLANNetwork r) s RespOK s1 ->
  answers (handleLANBootstrap fuel env (Some req)) s1 resp s2 ->
  br_Address resp = addr /\
  forall now routes adapter, let st := bootstrapAndRun now resp (bq_DeviceID req) routes adapter in
    st_AdapterState st = "error"%string /\ st_runtime st = None.
Proof.
  intros Hupd Hm Hb Hid HG Hd Hip Hnet Hout A B.
  unfold handleAdminLANNetwork in A. rewrite Hid in A. apply answers_bind in A as (id & ? & [[= <-] ->]%answers_pure & A).
  unfold is_patch in A. rewrite bool_decide_eq_true_2 in A by done. rewrite Hb in A.
  apply answers_bind in A as (n' & ? & [Hn' ->]%answers_pure & A). unfold LanAdmin.ok in A.
  apply answers_bind in A as (u & s1' & W & [_ ->]%answers_ret). apply answers_writes in W.
  assert (HC : vn_CIDR n' = TrimSpace (vn_CIDR n)).
  { revert Hn'. unfold decodeVirtualNetwork, bad_network. repeat case_match; intros [= <-]; reflexivity. }
  destruct (Hupd _ _ _ _ W) as [HU1 HU2].
  assert (Hv : TrimSpace (va_VirtualIP addr) <> EmptyString) by (intros E; rewrite E in Hip; done).
  destruct (bootstrap_keeps_address _ _ _ addr B) as (EA & ns & Hns & HN); [by rewrite HU1|done|done|].
  destruct (HU2 ns Hns) as (n2 & Hn2 & C2). rewrite Hn2 in HN. injection HN as HN. split; [done|].
  intros now routes adapter. unfold bootstrapAndRun. rewrite EA, decide_False by (intros E; rewrite E in Hv; done).
  rewrite <- HN, C2, HC. unfold configureLANAdapter. destruct (InspectSystem _ _ routes) as [state|]; [|done].
  unfold validateLANRouteSelection. rewrite Hip, Hnet, Hout. destruct (cf_Conflicts _); [done|]. by case_decide.
Qed.

End Bootstrap.

End Policy.

(* ------------------------------------------------------------------ *)
(** ** Witnesses *)

(** A database in memory, of which the networks, addresses, rules, members and keys
    matter. *)
Record toy_lan_db : Type := mkToyLan {
  tl_networks : list VirtualNetwork; tl_addresses : list VirtualAddress; tl_rules : list VirtualACLRule;
  tl_members : list VirtualDeviceGroupMember; tl_keys : list VirtualDeviceKey }.

Definition set_networks (l : list VirtualNetwork) (s : toy_lan_db) : toy_lan_db :=
  mkToyLan l (tl_addresses s) (tl_rules s) (tl_members s) (tl_keys s).
Definition set_addresses (l : list VirtualAddress) (s : toy_lan_db) : toy_lan_db :=
  mkToyLan (tl_networks s) l (tl_rules s) (tl_members s) (tl_keys s).
Definition with_id (id : Z) (n : VirtualNetwork) : VirtualNetwork :=
  mkVirtualNetwork id (vn_Name n) (vn_CIDR n) (vn_MTU n) (vn_MSS n) (vn_PathPolicy n) (vn_TCPFastPath n) (vn_Enabled n) (vn_CreatedAt n) (vn_UpdatedAt n).
Definition found {A} (o : option A) : result api_error A := match o with Some a => Ok a | None => Err ErrNoRows end.

#[export] Instance toy_lan_store : LanStore toy_lan_db := {|
  ListVirtualNetworks s := Ok (tl_networks s);
  EnsureDefaultVirtualNetwork s := (found (head (tl_networks s)), s);
  CreateVirtualNetwork n s := (Ok n, set_networks (tl_networks s ++ [n]) s);
  UpdateVirtualNetwork id n s :=
    match List.find (fun m => bool_decide (vn_ID m = id)) (tl_networks s) with
    | Some _ => (None, set_networks (map (fun m => if decide (vn_ID m = id) then with_id id n else m) (tl_networks s)) s)
    | None => (Some ErrNoRows, s)
    end;
  DeleteVirtualNetwork id s := (None, set_networks (filter (fun m => vn_ID m <> id) (tl_networks s)) s);
  ListVirtualAddresses nid s := Ok (filter (fun a => va_NetworkID a = nid) (tl_addresses s));
  GetVirtualAddress nid d s := found (List.find (fun a => bool_decide (va_NetworkID a = nid /\ va_DeviceID a = d)) (tl_addresses s));
  GetVirtualAddressByDevice d s := found (List.find (fun a => bool_decide (va_DeviceID a = d)) (tl_addresses s));
  UpsertVirtualAddress a s := (None, set_addresses (a :: filter (fun b => va_DeviceID b <> va_DeviceID a) (tl_addresses s)) s);
  DeleteVirtualAddress nid d s := (None, set_addresses (filter (fun b => va_DeviceID b <> d) (tl_addresses s)) s);
  ListVirtualDeviceKeys s := Ok (tl_keys s);
  UpsertVirtualDeviceKey k s := (None, mkToyLan (tl_networks s) (tl_addresses s) (tl_rules s) (tl_members s) (k :: tl_keys s));
  ListVirtualDeviceGroups _ := Ok [];
  UpsertVirtualDeviceGroup g s := (Ok g, s);
  DeleteVirtualDeviceGroup _ s := (None, s);
  ListVirtualDeviceGroupMembers _ s := Ok (tl_members s);
  SetVirtualDeviceGroupMembers _ _ s := (None, s);
  ListVirtualACLRules _ s := Ok (tl_rules s);
  CreateVirtualACLRule r s := (Ok r, s);
  UpdateVirtualACLRule _ _ s := (None, s);
  DeleteVirtualACLRule _ s := (None, s);
  ListVirtualRoutes _ _ _ := Ok [];
  UpsertVirtualRoute _ s := (None, s);
  DeleteVirtualRoute _ s := (None, s);
  ListVirtualPeerStates _ _ := Ok [];
  PutVirtualPeerState _ s := (None, s);
  ListVirtualPeerPathEvents _ _ _ _ _ := Ok [];
  ListVirtualLearnedPaths _ _ _ := Ok [];
  UpsertVirtualLearnedPath _ s := (None, s);
  SetVirtualLearnedPathPreheat _ _ _ _ _ s := (None, s);
  LanGetDevice _ _ := Err ErrNoRows;
  LanUpsertDevice _ _ _ _ _ _ s := (None, s);
  UpsertDeviceProductState _ s := (None, s);
|}.

#[export] Instance toy_lan_unicode : GoUnicode := ascii_unicode.

Definition toy_lan_network : VirtualNetwork :=
  mkVirtualNetwork 1 "lan" "172.16.10.0/24" 0 0 "prefer_p2p" "auto" true EmptyString EmptyString.
(** UDP to the group of dev-b is denied. *)
Definition toy_rule : VirtualACLRule :=
  mkVirtualACLRule 1 1 EmptyString EmptyString EmptyString "servers" "udp" 0 0 "deny" true EmptyString EmptyString.
Definition toy_b_address : VirtualAddress := mkVirtualAddress "dev-b" 1 "172.16.10.2" "b" false EmptyString EmptyString.
Definition toy_lan0 : toy_lan_db :=
  mkToyLan [toy_lan_network] [toy_b_address] [toy_rule] [mkVirtualDeviceGroupMember "servers" "dev-b" EmptyString] [].
Definition toy_bootstrap_env : bootstrap_env := mkBootstrapEnv "198.51.100.7:4000" "server:8080" ":7000" ":7002" true.
Definition toy_bootstrap (d : string) : bootstrap_request := mkBootstrapRequest d EmptyString EmptyString.

Definition toy_answer (d : string) (s : toy_lan_db) : option (lanBootstrapResponse * toy_lan_db) :=
  match handleLANBootstrap 300 toy_bootstrap_env (Some (toy_bootstrap d)) s with Some (Ok r, s') => Some (r, s') | _ => None end.

Lemma toy_answer_spec d s r s' : toy_answer d s = Some (r, s') ->
  answers (handleLANBootstrap 300 toy_bootstrap_env (Some (toy_bootstrap d))) s r s'.
Proof. unfold toy_answer, answers. destruct (handleLANBootstrap _ _ _ s) as [[[x|e] t]|]; by intros [= -> ->]. Qed.

Lemma provisioned_router_enforces_policy_witness :
  exists resp s' router link f, toy_answer "dev-a" toy_lan0 = Some (resp, s') /\
    buildPacketRuntime 0 resp "dev-a" 1280 = Ok (router, link) /\
    (RouteOutbound (Some router) toy_syn).1 = Ok f /\ rf_DstDevice f = "dev-b"%string.
Proof.
  destruct (toy_answer "dev-a" toy_lan0) as [[resp s']|] eqn:E; [|vm_compute in E; discriminate E].
  pose proof (toy_answer_spec _ _ _ _ E) as A.
  assert (En : br_Network resp = toy_lan_network) by (vm_compute in E; injection E as <- <-; reflexivity).
  destruct (buildPacketRuntime 0 resp "dev-a" 1280) as [[router link]|e] eqn:B;
    [|vm_compute in E; injection E as <- <-; vm_compute in B; discriminate B].
  assert (HL : forall l, ListVirtualAddresses 1 s' = Ok l -> l = [mkVirtualAddress "dev-a" 1 "172.16.10.1" "dev-a" false "" ""; toy_b_address]
    /\ br_Address resp = mkVirtualAddress "dev-a" 1 "172.16.10.1" "dev-a" false "" "").
  { vm_compute in E. injection E as <- <-. intros l H. vm_compute in H. injection H as <-. split; reflexivity. }
  destruct (HL _ eq_refl) as [HA HO].
  destruct (provisioned_router_enforces_policy 300 toy_bootstrap_env (toy_bootstrap "dev-a") 0 toy_lan0 s' resp router link
    [toy_rule] [mkVirtualAddress "dev-a" 1 "172.16.10.1" "dev-a" false "" ""; toy_b_address]
    [mkVirtualDeviceGroupMember "servers" "dev-b" EmptyString] toy_b_address toy_syn toy_header A) as [_ H];
    rewrite ?En; try rewrite HO.
  - exact B.
  - vm_compute in E. injection E as <- <-. reflexivity.
  - simpl. f_equal. exact HA.
  - vm_compute in E. injection E as <- <-. reflexivity.
  - split; repeat constructor; discriminate.
  - right. left.
  - discriminate.
  - vm_compute. discriminate.
  - vm_compute. reflexivity.
  - vm_compute. discriminate.
  - repeat constructor. intros Hx. vm_compute in Hx. discriminate Hx.
  - vm_compute. discriminate.
  - vm_compute. reflexivity.
  - vm_compute. left.
  - destruct H as (f & Hf & Hd).
    + intros (rule & Hin & _ & _ & _ & _ & _ & Hm). apply list_elem_of_singleton in Hin as ->. vm_compute in Hm. discriminate Hm.
    + exists resp, s', router, link, f. split; [reflexivity|]. split; [exact B|]. split; [exact Hf|exact Hd].
Defined.

Definition toy_patch : lan_request VirtualNetwork :=
  mkLanRequest "PATCH" "/api/admin/lan/networks/1" (fun _ => EmptyString)
    (Some (mkVirtualNetwork 0 "lan" "10.9.0.0/24" 0 0 EmptyString EmptyString true EmptyString EmptyString)).
Definition toy_moved : toy_lan_db :=
  match handleAdminLANNetwork toy_patch toy_lan0 with Some (_, s) => s | None => toy_lan0 end.

Lemma toy_update id n s s' : UpdateVirtualNetwork id n s = (None, s') ->
  (forall dev, GetVirtualAddressByDevice dev s' = GetVirtualAddressByDevice dev s) /\
  (forall ns, ListVirtualNetworks s' = Ok ns -> exists n', virtualNetworkByID ns id = Ok n' /\ vn_CIDR n' = vn_CIDR n).
Proof.
  simpl. destruct (List.find _ _) as [m|] eqn:F; [|done]. intros [= <-]. split; [done|]. intros ns [= <-]. unfold virtualNetworkByID. simpl.
  revert F. induction (tl_networks s) as [|x l IH]; [done|]. cbn [List.find map].
  destruct (decide (vn_ID x = id)) as [<-|Hne].
  - intros _. simpl. rewrite bool_decide_eq_true_2 by done. by eexists.
  - rewrite !bool_decide_eq_false_2 by done. exact IH.
Qed.

Lemma network_change_strands_devices_witness :
  exists resp s2, toy_answer "dev-b" toy_moved = Some (resp, s2) /\
    forall now routes adapter, st_AdapterState (bootstrapAndRun now resp "dev-b" routes adapter) = "error"%string.
Proof.
  destruct (toy_answer "dev-b" toy_moved) as [[resp s2]|] eqn:E; [|vm_compute in E; discriminate E].
  exists resp, s2. split; [reflexivity|]. intros now routes adapter.
  destruct (network_change_strands_devices 300 toy_bootstrap_env (toy_bootstrap "dev-b") toy_patch
    (mkVirtualNetwork 0 "lan" "10.9.0.0/24" 0 0 EmptyString EmptyString true EmptyString EmptyString) toy_lan0 toy_moved s2 s2 toy_b_address
    [xac; x10; x0a; x02] (prefix4 (10 * 2 ^ 24 + 9 * 2 ^ 16) 24) resp toy_update) as [_ H];
    [vm_compute; reflexivity|reflexivity|vm_compute; reflexivity|vm_compute; reflexivity|vm_compute; discriminate|vm_compute; reflexivity..
    |vm_compute; reflexivity|exact (toy_answer_spec _ _ _ _ E)|].
  exact (proj1 (H now routes adapter)).
Defined.
