(* ===== verification/LanStates.v ===== *)
(** * LanStates: what the administration sees of the reports

    The views of [LanServe]: one state per pair of devices, the newest, of the devices
    that are in the network; and the counters of a device agree with that list. *)

From S2P Require Import Prelude GoStrings Store ServerUtil LanAlloc LanAdmin LanServe.

Definition newer_or_equal (x y : VirtualPeerState) : Prop := String.le (ps_UpdatedAt y) (ps_UpdatedAt x).

(** What the map and the key order hold after the states [seen]. *)
Definition latest_inv (seen : list VirtualPeerState) (acc : gmap string VirtualPeerState * list string) : Prop :=
  NoDup acc.2 /\
  (forall k, k ∈ acc.2 <-> is_Some (acc.1 !! k)) /\
  (forall k x, acc.1 !! k = Some x -> x ∈ seen /\ lanPeerStateKey x = k /\ TrimSpace k <> EmptyString /\
     forall y, y ∈ seen -> lanPeerStateKey y = k -> newer_or_equal x y) /\
  (forall y, y ∈ seen -> TrimSpace (lanPeerStateKey y) <> EmptyString -> lanPeerStateKey y ∈ acc.2).

Lemma latest_step_inv seen acc x : latest_inv seen acc -> latest_inv (seen ++ [x]) (latest_step acc x).
Proof.
  destruct acc as [m order]. intros (N & D & V & C). unfold latest_step.
  assert (Hold : forall y, y ∈ seen ++ [x] -> y ∈ seen \/ y = x) by (intros y; rewrite elem_of_app, list_elem_of_singleton; done).
  destruct (decide (TrimSpace (lanPeerStateKey x) = EmptyString)) as [He|He].
  { refine (conj _ (conj _ (conj _ _))); [done|done| |].
    - intros k y Hy. destruct (V k y Hy) as (? & ? & ? & Hmax). split_and!; [set_solver|done|done|].
      intros z [Hz|Hz]%Hold Ek; [by apply Hmax|]. subst. congruence.
    - intros y [Hy|Hy]%Hold Hk; [by apply C|by subst]. }
  destruct (m !! lanPeerStateKey x) as [prev|] eqn:Hp.
  - destruct (V _ _ Hp) as (Hs & Hk & _ & Hmax). destruct (str_ge (ps_UpdatedAt x) (ps_UpdatedAt prev)) eqn:Hge.
    + unfold str_ge in Hge. apply bool_decide_eq_true in Hge. refine (conj _ (conj _ (conj _ _))); [done| | |].
      * intros k. rewrite D. cbn [fst]. destruct (decide (lanPeerStateKey x = k)) as [<-|]; [|by rewrite lookup_insert_ne].
        rewrite lookup_insert_eq, Hp. split; intros _; by eexists.
      * intros k y. cbn [fst]. rewrite lookup_insert_Some. intros [[<- <-]|[Hne Hy]].
        -- split_and!; [set_solver|done|done|]. intros z [Hz|Hz]%Hold Ek; [|subst; by unfold newer_or_equal]. specialize (Hmax z Hz Ek).
           unfold newer_or_equal in *. by etrans.
        -- destruct (V k y Hy) as (? & ? & ? & Hm). split_and!; [set_solver|done|done|].
           intros z [Hz|Hz]%Hold Ek; [by apply Hm|]. subst. done.
      * intros y [Hy|Hy]%Hold Hky; [by apply C|]. subst. apply D. cbn [fst]. by exists prev.
    + unfold str_ge in Hge. apply bool_decide_eq_false in Hge. refine (conj _ (conj _ (conj _ _))); [done|done| |].
      * intros k y Hy. destruct (V k y Hy) as (? & Hky & ? & Hm). split_and!; [set_solver|done|done|].
        intros z [Hz|Hz]%Hold Ek; [by apply Hm|]. subst z. cbn [fst] in Hy. assert (y = prev) as -> by congruence.
        unfold newer_or_equal. by destruct (total String.le (ps_UpdatedAt x) (ps_UpdatedAt prev)).
      * intros y [Hy|Hy]%Hold Hky; [by apply C|]. subst. apply D. cbn [fst]. by exists prev.
  - assert (Hno : lanPeerStateKey x ∉ order) by (intros Hin%D; cbn [fst] in Hin; rewrite Hp in Hin; by destruct Hin).
    refine (conj _ (conj _ (conj _ _))).
    + apply NoDup_app. split_and!; [done|set_solver|apply NoDup_singleton].
    + intros k. cbn [fst snd]. rewrite elem_of_app, list_elem_of_singleton. destruct (decide (lanPeerStateKey x = k)) as [<-|Hne].
      * rewrite lookup_insert_eq. split; intros _; [by eexists|by right].
      * rewrite lookup_insert_ne by done. rewrite <- D. cbn [snd]. set_solver.
    + intros k y. cbn [fst]. rewrite lookup_insert_Some. intros [[<- <-]|[Hne Hy]].
      * split_and!; [set_solver|done|done|]. intros z [Hz|Hz]%Hold Ek; [|subst; by unfold newer_or_equal].
        exfalso. apply Hno. rewrite <- Ek. apply C; [done|congruence].
      * destruct (V k y Hy) as (? & ? & ? & Hm). split_and!; [set_solver|done|done|].
        intros z [Hz|Hz]%Hold Ek; [by apply Hm|]. by subst.
    + intros y [Hy|Hy]%Hold Hky; cbn [snd]; [|subst; set_solver]. apply elem_of_app. left. by apply C.
Qed.

Lemma latest_fold states : latest_inv states (fold_left latest_step states (∅, [])).
Proof.
  induction states as [|x l IH] using rev_ind.
  - refine (conj _ (conj _ (conj _ _))); cbn; [constructor| |done|set_solver]. intros k. rewrite lookup_empty. split; [set_solver|by intros []].
  - rewrite fold_left_app. by apply latest_step_inv.
Qed.

(** The list of latest states: keys in order, each with its state. *)
Lemma latest_elem states x : x ∈ latestLANPeerStates states <->
  TrimSpace (lanPeerStateKey x) <> EmptyString /\ (fold_left latest_step states (∅, [])).1 !! lanPeerStateKey x = Some x.
Proof.
  unfold latestLANPeerStates. pose proof (latest_fold states) as (N & D & V & C).
  destruct (fold_left latest_step states _) as [m order]. cbn [fst snd] in *. rewrite list_elem_of_omap. split.
  - intros (k & Hk & Hx). destruct (V _ _ Hx) as (_ & <- & ? & _). done.
  - intros [Hne Hx]. exists (lanPeerStateKey x). split; [|done]. apply D. by eexists.
Qed.

Lemma latest_keys_NoDup states : NoDup (map lanPeerStateKey (latestLANPeerStates states)).
Proof.
  unfold latestLANPeerStates. pose proof (latest_fold states) as (N & D & V & _).
  destruct (fold_left latest_step states _) as [m order]. cbn [fst snd] in *. clear D. induction order as [|k l IH]; [constructor|].
  apply NoDup_cons in N as [Hk N]. cbn [omap list_omap]. destruct (m !! k) as [x|] eqn:E; [|by apply IH]. cbn [map].
  constructor; [|by apply IH]. destruct (V _ _ E) as (_ & -> & _). intros Hin. apply list_elem_of_fmap in Hin as (y & Hy & Hin).
  apply list_elem_of_omap in Hin as (k' & Hk' & Hx). destruct (V _ _ Hx) as (_ & E' & _). congruence.
Qed.

Lemma NoDup_map_filter {A B} (f : A -> B) (p : A -> bool) l : NoDup (map f l) -> NoDup (map f (List.filter p l)).
Proof.
  induction l as [|x l IH]; cbn [map List.filter]; [done|]. intros [Hx ND]%NoDup_cons. destruct (p x); [|by apply IH].
  constructor; [|by apply IH]. intros Hin. apply Hx. apply list_elem_of_fmap in Hin as (y & E & Hin).
  apply list_elem_of_fmap. exists y. split; [done|]. rewrite list_elem_of_In, filter_In in Hin. rewrite list_elem_of_In. by destruct Hin.
Qed.

Section Counts.
  Context `{GU : GoUnicode} `{GT : GoTime}.

Definition peer_total (s : lanDeviceState) : Z := ds_P2PPeers s + ds_RelayPeers s + ds_DownPeers s.

Lemma add_peer_total p s : peer_total (add_peer_state p s) = peer_total s + 1.
Proof.
  unfold peer_total, add_peer_state. cbn [ds_P2PPeers ds_RelayPeers ds_DownPeers].
  destruct (decide (peer_path p = "p2p"%string)) as [E|]; destruct (decide (peer_path p = "relay"%string)) as [E'|];
    try (rewrite E in E'; done); case_decide; try tauto; lia.
Qed.

Lemma address_fold addresses d : forall m : gmap string lanDeviceState,
  (forall e s, m !! e = Some s -> peer_total s = 0) ->
  (forall e s, fold_left address_state addresses m !! e = Some s -> peer_total s = 0) /\
  (is_Some (fold_left address_state addresses m !! d) <-> is_Some (m !! d) \/ d ∈ map va_DeviceID addresses).
Proof.
  induction addresses as [|a l IH]; intros m Hm; cbn [fold_left map].
  - split; [done|]. set_solver.
  - set (m' := address_state m a). assert (Hm' : forall e s, m' !! e = Some s -> peer_total s = 0).
    { intros e s. unfold m', address_state. rewrite lookup_insert_Some. intros [[_ <-]|[_ He]]; [|by eapply Hm].
      unfold peer_total. cbn [ds_P2PPeers ds_RelayPeers ds_DownPeers].
      destruct (m !! va_DeviceID a) as [s0|] eqn:E; cbn [default]; [by apply (Hm _ _ E)|done]. }
    destruct (IH m' Hm') as [H1 H2]. split; [done|]. rewrite H2. unfold m', address_state.
    rewrite lookup_insert_is_Some, elem_of_cons. destruct (decide (va_DeviceID a = d)) as [<-|Hne]; [tauto|].
    split; [intros [[?|[_ ?]]|?]; tauto|]. intros [?|[?|?]]; [left; by right|congruence|by right].
Qed.

Lemma peer_fold known peers d : forall m : gmap string lanDeviceState,
  (is_Some (fold_left (peer_state_step known) peers m !! d) <-> is_Some (m !! d)) /\
  forall s s', m !! d = Some s -> fold_left (peer_state_step known) peers m !! d = Some s' ->
    peer_total s' = peer_total s + Z.of_nat (length (filter (fun p => ps_DeviceID p = d) (List.filter (knownLANPeerState known) peers))).
Proof.
  induction peers as [|p l IH]; intros m; cbn [fold_left List.filter].
  - split; [done|]. intros s s' H1 H2. rewrite filter_nil. cbn [length]. assert (s' = s) as -> by congruence. lia.
  - unfold peer_state_step at 2 4. destruct (knownLANPeerState known p); cbn [negb]; [|apply IH].
    destruct (IH (alter (add_peer_state p) (ps_DeviceID p) m)) as [H1 H2]. split.
    + rewrite H1, lookup_alter_is_Some. done.
    + intros s s' Hs Hs'. rewrite filter_cons. destruct (decide (ps_DeviceID p = d)) as [E|Hne].
      * rewrite (H2 (add_peer_state p s) s'); [|by rewrite E, lookup_alter_eq, Hs|done]. rewrite add_peer_total. cbn [length]. lia.
      * rewrite (H2 s s'); [done|by rewrite lookup_alter_ne|done].
Qed.

(** The administration sees one state for each pair of devices of a network: every
    state shown was reported, names two devices with an address in its network, and is
    the newest of its pair, and every such pair is shown; and the devices shown are those
    with an address, each with as many direct, relayed and lost peers, together, as it
    has states. *)
Theorem lan_views_correct (now : Time) (addresses : list VirtualAddress) (states : list VirtualPeerState) :
  let shown := filterLANPeerStates addresses states in
  let known := knownLANDevicesByNetwork addresses in
  NoDup (map lanPeerStateKey shown) /\
  (forall x, x ∈ shown -> x ∈ states /\ knownLANPeerState known x = true /\
     forall y, y ∈ states -> lanPeerStateKey y = lanPeerStateKey x -> newer_or_equal x y) /\
  (forall y, y ∈ states -> TrimSpace (lanPeerStateKey y) <> EmptyString ->
     (forall x, x ∈ states -> lanPeerStateKey x = lanPeerStateKey y -> knownLANPeerState known x = true) ->
     exists x, x ∈ shown /\ lanPeerStateKey x = lanPeerStateKey y) /\
  forall d, (is_Some (device_states now addresses states !! d) <-> d ∈ map va_DeviceID addresses) /\
    forall s, device_states now addresses states !! d = Some s ->
      peer_total s = Z.of_nat (length (filter (fun p => ps_DeviceID p = d) shown)).
Proof.
  intros shown known. pose proof (latest_fold states) as (N & D & V & C).
  assert (HS : forall x, x ∈ shown <-> x ∈ latestLANPeerStates states /\ knownLANPeerState known x = true).
  { intros x. unfold shown, filterLANPeerStates. rewrite !list_elem_of_In, filter_In. done. }
  refine (conj _ (conj _ (conj _ _))).
  - apply NoDup_map_filter, latest_keys_NoDup.
  - intros x [[Hne Hx]%latest_elem Hk]%HS. destruct (V _ _ Hx) as (? & _ & _ & Hm). split_and!; [done|done|exact Hm].
  - intros y Hy Hne Hall. pose proof (C y Hy Hne) as Hin. apply D in Hin as [x Hx]. destruct (V _ _ Hx) as (Hs & Hk & _ & _).
    exists x. split; [|done]. apply HS. split; [|by apply Hall]. apply latest_elem. rewrite Hk. done.
  - intros d. unfold device_states. rewrite lookup_fmap, fmap_is_Some. fold known.
    destruct (address_fold addresses d ∅) as [Z0 A1]; [by intros e s; rewrite lookup_empty|]. rewrite lookup_empty in A1.
    destruct (peer_fold known (latestLANPeerStates states) d (fold_left address_state addresses ∅)) as [P1 P2]. split.
    + rewrite P1, A1. split; [intros [[? ?]|?]; done|by right].
    + intros s Hs. apply fmap_Some in Hs as (s1 & Hs1 & ->). assert (is_Some (fold_left address_state addresses ∅ !! d)) as [s0 Hs0].
      { apply P1. by eexists. }
      change (peer_total (with_status now s1)) with (peer_total s1). rewrite (P2 s0 s1 Hs0 Hs1), (Z0 d s0 Hs0). done.
Qed.

End Counts.
