(* ===== verification/Forward.v ===== *)
(** * Forward: TCP forwarding over a tunnel (internal/forward/forward.go)

    Rules of the command line, the header that opens a forwarded stream, its answer,
    and what the two ends copy. A stream is the list of the chunks its reads return;
    the TCP connections, smux and deadlines are outside: whether the dial succeeds is an
    argument. *)

From S2P Require Import Prelude GoStrings.

Record Rule : Type := mkRule { LocalPort : Z; Target : string; Name : string; Profile : string }.

#[export] Instance Rule_eq_dec : EqDecision Rule.
Proof. solve_decision. Defined.

Inductive rule_parse_error : Type := ErrFormat | ErrLocalPort | ErrTarget.

(** ["LOCAL:HOST:PORT"]. *)
Definition ParseRule (s : string) : result rule_parse_error Rule :=
  match cut_bytes x3a (bytes_of s) with
  | None => Err ErrFormat
  | Some (p, t) =>
    match Atoi (string_of p) with
    | None => Err ErrLocalPort
    | Some lp =>
      if decide (lp <= 0 \/ 65536 <= lp) then Err ErrLocalPort
      else match SplitHostPort (string_of t) with
      | None => Err ErrTarget
      | Some _ => Ok (mkRule lp (string_of t) (FormatInt lp ++ "->" ++ string_of t)%string EmptyString)
      end
    end
  end.

(* ------------------------------------------------------------------ *)
(** ** Buffered reading *)

Definition maxTargetLine : nat := 256.
Definition bufio_size : nat := 4096.

(** [br.ReadString('\n')] on a reader that may still return [limit] bytes: the line
    without its delimiter, what stays buffered, and the stream. [None] is an error: the
    stream or the limit ended before the line. A read returns the rest of a chunk, or as
    much of it as there is room for in the buffer, which is emptied when it is full.
    [limit + length stream] steps are enough ([ReadString_line]). *)
Fixpoint ReadString (fuel : nat) (limit : nat) (buf : list byte) (stream : list (list byte)) : option (list byte * list byte * list (list byte)) :=
  match cut_bytes x0a buf with
  | Some (line, rest) => Some (line, rest, stream)
  | None =>
    match fuel, stream with
    | S fuel, chunk :: stream =>
      let k := Nat.min limit (Nat.min (bufio_size - length buf mod bufio_size) (length chunk)) in
      if decide (limit = 0%nat) then None
      else
        let stream := if decide (k = length chunk) then stream else drop k chunk :: stream in
        ReadString fuel (limit - k) (buf ++ take k chunk) stream
    | _, _ => None
    end
  end.

(** [strings.TrimRight(line, "\r\n")]. *)
Fixpoint trim_crlf (l : list byte) : list byte :=
  match l with
  | [] => []
  | b :: l => match trim_crlf l with
              | [] => if decide (b = x0a \/ b = x0d) then [] else [b]
              | t => b :: t
              end
  end.

Definition parseStreamHeader (line : list byte) : string * string :=
  match cut_bytes x09 line with
  | None => (EmptyString, string_of line)
  | Some (profile, target) => (string_of profile, string_of target)
  end.

(** The header the ingress side writes. *)
Definition stream_header (r : Rule) : list byte := bytes_of (Profile r) ++ [x09] ++ bytes_of (Target r) ++ [x0a].

Definition OK_line : list byte := bytes_of "OK" ++ [x0a].

(** What [bridge] copies out of the stream: the bytes read with the line first. *)
Definition bridge (buffered : list byte) (stream : list (list byte)) : list byte := buffered ++ concat stream.

(** [handleEgressStream]: the answer it writes and, when the dial succeeded, the
    target, the profile and the bytes copied to the target. [dial] is the error. *)
Definition handleEgressStream (dial : string -> option string) (stream : list (list byte))
  : list byte * option (string * string * list byte) :=
  match ReadString (maxTargetLine + length stream) maxTargetLine [] stream with
  | None => ([], None)
  | Some (line, buffered, stream) =>
    let '(profile, target) := parseStreamHeader (trim_crlf line) in
    match dial target with
    | Some err => (bytes_of ("ERR " ++ err) ++ [x0a], None)
    | None => (OK_line, Some (profile, target, bridge buffered stream))
    end
  end.

(** [handleIngressConn]: the header it writes, and the bytes it copies to the local
    connection when the answer is "OK". The answer is read without a limit: [total]
    bounds the bytes of the stream. *)
Definition handleIngressConn (r : Rule) (reply : list (list byte)) : list byte * option (list byte) :=
  let total := length (concat reply) in
  (stream_header r,
   match ReadString (total + length reply) total [] reply with
   | None => None
   | Some (line, buffered, stream) =>
     if decide (trim_crlf line = bytes_of "OK") then Some (bridge buffered stream) else None
   end).

(* ------------------------------------------------------------------ *)
(** ** Correctness *)

Lemma cut_bytes_app sep w rest : sep ∉ w -> cut_bytes sep (w ++ sep :: rest) = Some (w, rest).
Proof.
  induction w as [|b w IH]; intros Hw; cbn [app cut_bytes]; [by rewrite decide_True|].
  apply not_elem_of_cons in Hw as [Hb Hw]. rewrite decide_False by done. by rewrite IH.
Qed.

Lemma cut_bytes_None sep w : cut_bytes sep w = None <-> sep ∉ w.
Proof.
  induction w as [|b w IH]; cbn [cut_bytes]; [split; [intros _; apply not_elem_of_nil|done]|].
  rewrite not_elem_of_cons. case_decide; [naive_solver|]. destruct (cut_bytes sep w) as [[]|]; simpl; naive_solver.
Qed.

Lemma cut_bytes_Some sep w x y : cut_bytes sep w = Some (x, y) -> w = x ++ sep :: y /\ sep ∉ x.
Proof.
  revert x. induction w as [|b w IH]; cbn [cut_bytes]; intros x; [done|]. case_decide.
  - intros [= <- <-]. subst. split; [done|apply not_elem_of_nil].
  - destruct (cut_bytes sep w) as [[x' y']|]; [|done]. intros [= <- <-]. destruct (IH x' eq_refl) as [-> Hn].
    split; [done|]. apply not_elem_of_cons. naive_solver.
Qed.

(** A first line within the limit is read whole, however the stream is cut into
    chunks, and no byte after it is lost. *)
Lemma ReadString_line fuel : forall limit buf stream line rest,
  (limit + length stream <= fuel)%nat -> x0a ∉ line -> buf ++ concat stream = line ++ x0a :: rest ->
  (length line < length buf + limit)%nat ->
  exists buffered stream', ReadString fuel limit buf stream = Some (line, buffered, stream') /\ buffered ++ concat stream' = rest.
Proof.
  induction fuel as [|fuel IH]; intros limit buf stream line rest Hf Hl E Hlim; cbn [ReadString];
    destruct (cut_bytes x0a buf) as [[x y]|] eqn:C.
  1, 3: apply cut_bytes_Some in C as [-> Hx]; rewrite <- app_assoc in E; cbn in E;
    apply (f_equal (cut_bytes x0a)) in E; rewrite !cut_bytes_app in E by done; injection E as -> <-; eauto.
  - destruct stream; [|cbn in Hf; lia]. cbn in E. rewrite app_nil_r in E. apply cut_bytes_None in C. destruct C. rewrite E. set_solver.
  - destruct stream as [|chunk stream].
    { cbn in E. rewrite app_nil_r in E. apply cut_bytes_None in C. destruct C. rewrite E. set_solver. }
    cbn in Hf. assert (Hpos : limit <> 0%nat).
    { intros ->. apply cut_bytes_None in C. assert (Hlt : (length line < length buf)%nat) by lia.
         apply (f_equal (fun l => l !! length line)) in E. rewrite lookup_app_l, list_lookup_middle in E by done.
         destruct C. by apply list_elem_of_lookup_2 in E. }
    rewrite decide_False by done. assert (Hroom : (length buf mod bufio_size < bufio_size)%nat) by (apply Nat.mod_upper_bound; unfold bufio_size; lia).
    set (k := Nat.min limit (Nat.min (bufio_size - length buf mod bufio_size) (length chunk))).
    assert (Hk : (k <= limit /\ k <= length chunk)%nat) by lia.
    apply IH; [|done| |rewrite length_app, length_take; lia].
    + case_decide; cbn; lia.
    + rewrite <- E, <- app_assoc. f_equal. case_decide as D.
      * rewrite take_ge by lia. done.
      * cbn. by rewrite (app_assoc (take k chunk)), take_drop.
Qed.

(** A line that does not end within the limit is refused. *)
Lemma ReadString_long fuel : forall limit buf stream,
  x0a ∉ take (length buf + limit) (buf ++ concat stream) -> ReadString fuel limit buf stream = None.
Proof.
  induction fuel as [|fuel IH]; intros limit buf stream Hn; cbn [ReadString];
    (assert (C : cut_bytes x0a buf = None) by (apply cut_bytes_None; intros Hin; destruct Hn;
       rewrite take_app_ge by lia; apply elem_of_app; by left)); rewrite C; [done|].
  destruct stream as [|chunk stream]; [done|]. case_decide; [done|].
  set (k := Nat.min limit (Nat.min (bufio_size - length buf mod bufio_size) (length chunk))).
  apply IH. intros Hin. destruct Hn. rewrite length_app, length_take in Hin.
  replace (length buf + k `min` length chunk + (limit - k))%nat with (length buf + limit)%nat in Hin by lia.
  rewrite <- app_assoc in Hin. case_decide as D.
  - rewrite (take_ge chunk) in Hin by lia. exact Hin.
  - cbn in Hin |- *. by rewrite (app_assoc (take k chunk)), take_drop in Hin.
Qed.

Lemma trim_crlf_id l b : b <> x0a -> b <> x0d -> trim_crlf (l ++ [b]) = l ++ [b].
Proof.
  intros H1 H2. induction l as [|c l IH]; cbn; [by rewrite decide_False by naive_solver|].
  rewrite IH. by destruct l.
Qed.

(** A target and profile that survive the header: no separator in them, and a target
    that does not end in a carriage return. *)
Definition header_clean (r : Rule) : Prop :=
  x09 ∉ bytes_of (Profile r) /\ x0a ∉ bytes_of (Profile r) /\ x0a ∉ bytes_of (Target r) /\
  exists l b, bytes_of (Target r) = l ++ [b] /\ b <> x0d.

Lemma parse_header r : header_clean r ->
  parseStreamHeader (trim_crlf (bytes_of (Profile r) ++ x09 :: bytes_of (Target r))) = (Profile r, Target r).
Proof.
  intros (H1 & H2 & H3 & l & b & E & Hb).
  assert (Ht : trim_crlf (bytes_of (Profile r) ++ x09 :: bytes_of (Target r)) = bytes_of (Profile r) ++ x09 :: bytes_of (Target r)).
  { rewrite E. replace (bytes_of (Profile r) ++ x09 :: l ++ [b]) with ((bytes_of (Profile r) ++ x09 :: l) ++ [b]) by (by rewrite <- app_assoc).
    apply trim_crlf_id; [|done]. intros ->. apply H3. rewrite E. set_solver. }
  rewrite Ht. unfold parseStreamHeader. rewrite cut_bytes_app by done. by rewrite !string_of_bytes_of.
Qed.


