(* ===== verification/FastPath.v ===== *)
(** * FastPath: the stream header and bridge of internal/lanfastpath/stream.go

    A stream to carry TCP of the LAN client past the packet layer: its header, read with a
    limit, and the bridge between the stream and a TCP connection. No part of the program
    calls the package yet; its reader is the one of [Forward]. *)

From S2P Require Import Prelude GoStrings Store ServerUtil.
From S2P Require Forward.

Definition MaxHeaderLine : nat := 256.

Record Header : Type := mkHeader { h_Profile : string; h_Target : string }.

Inductive header_error : Type := ErrBadTarget | ErrBadHeader | ErrSplitTarget | ErrRead.

#[export] Instance header_error_eq_dec : EqDecision header_error.
Proof. solve_decision. Defined.

Section FastPath.
  Context `{GU : GoUnicode}.

Definition header_profile (profile : string) : string :=
  let profile := NormalizeProfile profile in if decide (profile = EmptyString) then ProfileBulk else profile.

Definition NewHeader (profile host : string) (port : Z) : result header_error Header :=
  if decide (TrimSpace host = EmptyString \/ port <= 0 \/ 65535 < port) then Err ErrBadTarget
  else Ok (mkHeader (header_profile profile) (JoinHostPort (TrimSpace host) (FormatInt port))).

Definition Line (h : Header) : list byte := bytes_of (h_Profile h) ++ [x09] ++ bytes_of (h_Target h) ++ [x0a].

Definition ParseHeaderLine (line : list byte) : result header_error Header :=
  match cut_bytes x09 (Forward.trim_crlf line) with
  | None => Err ErrBadHeader
  | Some (profile, target) =>
    match SplitHostPort (string_of target) with
    | None => Err ErrSplitTarget
    | Some _ => Ok (mkHeader (header_profile (string_of profile)) (string_of target))
    end
  end.

(** The header, with what the reader holds beyond it and the rest of the stream. *)
Definition ReadHeader (stream : list (list byte)) : result header_error Header * list byte * list (list byte) :=
  match Forward.ReadString (MaxHeaderLine + length stream) MaxHeaderLine [] stream with
  | None => (Err ErrRead, [], stream)
  | Some (line, buffered, stream) => (ParseHeaderLine line, buffered, stream)
  end.

(** [Bridge]: the bytes copied to each side, and their numbers. *)
Definition copyWithBuffer (src : list (list byte)) : list byte * Z := (concat src, Z.of_nat (length (concat src))).

Record BridgeStats : Type := mkBridgeStats { ToTCP : Z; ToStream : Z }.

Definition Bridge (buffered : list byte) (stream tcp : list (list byte)) : (list byte * list byte) * BridgeStats :=
  let '(rest, n) := copyWithBuffer stream in
  let '(back, m) := copyWithBuffer tcp in
  ((buffered ++ rest, back), mkBridgeStats (Z.of_nat (length buffered) + n) m).

(** The socket buffers [TuneTCPConn] sets on a TCP connection. *)
Definition TuneTCPConn (is_tcp : bool) (profile : string) : option (Z * Z) :=
  if decide (NormalizeProfile profile <> ProfileBulk) then None
  else if is_tcp then Some (4 * 1024 * 1024, 4 * 1024 * 1024) else None.
End FastPath.

(* ------------------------------------------------------------------ *)
(** ** The header survives, and the stream behind it *)

Section Laws.
  Context `{GU : GoUnicode}.

(** The default the code means to give never applies: a normalised profile is not empty. *)
Lemma header_profile_normalized p : header_profile p = NormalizeProfile p.
Proof. unfold header_profile. rewrite decide_False; [done|apply NormalizeProfile_nonempty]. Qed.

Lemma read_written_header (h : Header) (stream : list (list byte)) (sent : list byte) :
  NormalizeProfile (h_Profile h) = h_Profile h -> x09 ∉ bytes_of (h_Profile h) -> x0a ∉ bytes_of (h_Profile h) -> x0a ∉ bytes_of (h_Target h) ->
  (exists l b, bytes_of (h_Target h) = l ++ [b] /\ b <> x0d) -> is_Some (SplitHostPort (h_Target h)) ->
  (length (Line h) <= MaxHeaderLine)%nat -> concat stream = Line h ++ sent ->
  exists buffered rest, ReadHeader stream = (Ok h, buffered, rest) /\ forall tcp, (Bridge buffered rest tcp).1.1 = sent.
Proof.
  intros HN Ht Hn1 Hn2 (l & b & EB & Hb) [hp HS] Hlen HE. unfold Line in *.
  set (line := bytes_of (h_Profile h) ++ x09 :: bytes_of (h_Target h)) in *.
  assert (EL : bytes_of (h_Profile h) ++ [x09] ++ bytes_of (h_Target h) ++ [x0a] = line ++ [x0a]).
  { subst line. by rewrite <- app_assoc. }
  rewrite EL in *. rewrite length_app in Hlen. change (length [x0a]) with 1%nat in Hlen.
  assert (Hnl : x0a ∉ line) by (subst line; rewrite elem_of_app, elem_of_cons; intros [?|[?|?]]; done).
  destruct (Forward.ReadString_line (MaxHeaderLine + length stream) MaxHeaderLine [] stream line sent) as (buffered & rest & HR & HC);
    [lia|done|rewrite HE; by rewrite <- app_assoc|change (length []) with 0%nat; lia|].
  exists buffered, rest. unfold ReadHeader. rewrite HR. split; [|intros tcp; unfold Bridge, copyWithBuffer; cbn [fst]; exact HC].
  enough (HP : ParseHeaderLine line = Ok h) by (by rewrite HP). unfold ParseHeaderLine.
  assert (HT : Forward.trim_crlf line = line).
  { subst line. rewrite EB. replace (bytes_of (h_Profile h) ++ x09 :: l ++ [b]) with ((bytes_of (h_Profile h) ++ x09 :: l) ++ [b]) by (by rewrite <- app_assoc).
    apply Forward.trim_crlf_id; [|done]. intros ->. apply Hn2. rewrite EB. apply elem_of_app. right. by left. }
  rewrite HT. subst line. rewrite Forward.cut_bytes_app by done. rewrite !string_of_bytes_of, HS, header_profile_normalized, HN. by destruct h.
Qed.
End Laws.
