(* ===== verification/Bootstrap.v ===== *)
(** * Bootstrap: what a client asks the server over HTTP (cmd/client/main.go)

    The client's requests, the settings it receives when it starts and what it makes of
    them, against the server's handlers of [AgentServe]. The exchange itself, through the
    proxy of the system and without it, is an argument. *)

From S2P Require Import Prelude GoStrings WinArgs GoJSON Store ServerUtil Gorm ControlStore AgentServe Machine ClientConfig.
From S2P Require Settings SettingsLaws AdminAuth Forward.

Definition TrimRight (s : string) (set : list byte) : string := string_of (rev (Settings.trim_set_left set (rev (bytes_of s)))).

(* ------------------------------------------------------------------ *)
(** ** Query strings *)

Definition unreserved (b : byte) : bool :=
  is_digit b || in_range b 65 90 || in_range b 97 122 || bool_decide (b ∈ [x2d; x5f; x2e; x7e]).

Definition upper_hex (z : Z) : byte := z2b (if z <? 10 then 48 + z else 55 + z).

(** [url.QueryEscape] and [url.QueryUnescape]. *)
Definition escape_byte (b : byte) : list byte :=
  if unreserved b then [b] else if decide (b = x20) then [x2b] else [x25; upper_hex (b2z b / 16); upper_hex (b2z b mod 16)].
Definition QueryEscape (s : string) : string := string_of (concat (map escape_byte (bytes_of s))).

Fixpoint unescape (l : list byte) : option (list byte) :=
  match l with
  | [] => Some []
  | b :: l =>
    if decide (b = x25) then
      match l with
      | h :: h' :: l => x ← hex_value h; y ← hex_value h'; t ← unescape l; Some (z2b (x * 16 + y) :: t)
      | _ => None
      end
    else t ← unescape l; Some ((if decide (b = x2b) then x20 else b) :: t)
  end.

(** [r.URL.Query().Get(key)]: pairs that do not parse, or hold a semicolon, are left out. *)
Definition query_pair (l : list byte) : option (list byte * list byte) :=
  if decide (l = [] \/ x3b ∈ l) then None
  else
    let '(k, v) := match cut_bytes x3d l with Some kv => kv | None => (l, []) end in
    k ← unescape k; v ← unescape v; Some (k, v).
Definition query_get (query key : string) : string :=
  string_of (default [] (head (omap (fun l => '(k, v) ← query_pair l; if decide (k = bytes_of key) then Some v else None) (split_bytes x26 (bytes_of query))))).

(* ------------------------------------------------------------------ *)
(** ** Requests *)

Record http_request : Type := mkHTTPRequest { hr_Method : string; hr_URL : string; hr_PSK : string; hr_Body : list byte }.

(** Whether [http.NewRequest] takes a URL, and the answers through the proxy and
    directly: a status and a body, or an error's text. *)
Record http_client : Type := mkHTTPClient {
  hc_valid : string -> bool; hc_proxied : http_request -> result string (Z * list byte); hc_direct : http_request -> result string (Z * list byte) }.

(** The client's own record of the answer. *)
Record bootstrapResponse : Type := mkBootstrapResponse {
  br_DeviceID : string; br_DeviceName : string; br_Server : string; br_ServerHTTP : string; br_PSK : string; br_STUNAltPort : Z; br_NoUPnP : bool;
  br_UPnPTimeout : string; br_LogLevel : string; br_TrayEnabled : bool; br_PunchTimeout : string; br_ForceRelay : bool; br_AllowLegacy : bool }.

Definition bootstrap_names : list string :=
  ["device_id"; "device_name"; "server"; "server_http"; "psk"; "stun_alt_port"; "no_upnp"; "upnp_timeout"; "log_level"; "tray_enabled";
   "punch_timeout"; "force_relay"; "allow_legacy"]%string.

Section Client.
  Context `{GU : GoUnicode} `{GD : Settings.GoDuration} `{GJ : GoJSON}.
  Variable net : http_client.

Definition shouldRetryDirect (message : string) : bool :=
  let msg := ToLower message in
  Contains msg "proxyconnect tcp" || (Contains msg "proxy" && Contains msg "connectex") || (Contains msg "proxy" && Contains msg "connection refused").

Definition doAgentHTTPRequest (req : http_request) : result string (Z * list byte) :=
  match hc_proxied net req with
  | Err message => if shouldRetryDirect message then hc_direct net req else Err message
  | r => r
  end.

Definition agent_url (cfg : Client) (path : string) : string := (TrimRight (cc_ServerHTTP cfg) [x2f] ++ path)%string.

Definition answered (r : result string (Z * list byte)) : result string (list byte) :=
  '(status, body) ← r; if decide (300 <= status) then Err ("http " ++ FormatInt status)%string else Ok body.

Definition decode_bootstrap (o : object) : option bootstrapResponse :=
  let at_ := values bootstrap_names o in
  DeviceID ← as_string (at_ "device_id"%string); DeviceName ← as_string (at_ "device_name"%string); Server ← as_string (at_ "server"%string);
  ServerHTTP ← as_string (at_ "server_http"%string); PSK ← as_string (at_ "psk"%string); STUNAltPort ← as_int (at_ "stun_alt_port"%string);
  NoUPnP ← as_bool (at_ "no_upnp"%string); UPnPTimeout ← as_string (at_ "upnp_timeout"%string); LogLevel ← as_string (at_ "log_level"%string);
  TrayEnabled ← as_bool (at_ "tray_enabled"%string); PunchTimeout ← as_string (at_ "punch_timeout"%string);
  ForceRelay ← as_bool (at_ "force_relay"%string); AllowLegacy ← as_bool (at_ "allow_legacy"%string);
  Some (mkBootstrapResponse DeviceID DeviceName Server ServerHTTP PSK STUNAltPort NoUPnP UPnPTimeout LogLevel TrayEnabled PunchTimeout ForceRelay AllowLegacy).

Definition bootstrap_request (cfg : Client) : http_request :=
  mkHTTPRequest "POST" (agent_url cfg "/api/agent/bootstrap") EmptyString
    (Marshal [("device_id", JString (cc_DeviceID cfg)); ("device_name", JString (cc_DeviceName cfg))]%string).

Definition agentBootstrap (cfg : Client) : result string bootstrapResponse :=
  let req := bootstrap_request cfg in
  if negb (hc_valid net (hr_URL req)) then Err "request"%string
  else
    body ← answered (doAgentHTTPRequest req);
    match o ← DecodeFirst body; decode_bootstrap o with Some r => Ok r | None => Err "decode"%string end.

Definition agentPost (cfg : Client) (path : string) (body : list byte) : result string unit :=
  let req := mkHTTPRequest "POST" (agent_url cfg path) (cc_PSK cfg) body in
  if negb (hc_valid net (hr_URL req)) then Err "request"%string else _ ← answered (doAgentHTTPRequest req); Ok tt.

Definition rules_query (cfg : Client) : string := ("device_id=" ++ QueryEscape (cc_DeviceID cfg))%string.
(** [decode] is the decoding of the list of rules. *)
Definition agentRules (decode : list byte -> option (list ForwardRule)) (cfg : Client) : result string (list ForwardRule) :=
  body ← answered (doAgentHTTPRequest (mkHTTPRequest "GET" (agent_url cfg ("/api/agent/rules?" ++ rules_query cfg)) (cc_PSK cfg) []));
  match decode body with Some rules => Ok rules | None => Err "decode"%string end.

Definition mergeBootstrap (local : Client) (resp : bootstrapResponse) : result string Client :=
  match Settings.ParseDuration (br_UPnPTimeout resp) with
  | None => Err "upnp_timeout"%string
  | Some upnpTimeout =>
    match Settings.ParseDuration (br_PunchTimeout resp) with
    | None => Err "punch_timeout"%string
    | Some punchTimeout =>
      Ok (mkClient (br_Server resp) (br_ServerHTTP resp)
        (if decide (br_DeviceID resp <> EmptyString) then br_DeviceID resp else cc_DeviceID local)
        (if decide (br_DeviceName resp <> EmptyString) then br_DeviceName resp else cc_DeviceName local)
        (cc_PeerID local) (br_PSK resp) (br_NoUPnP resp) upnpTimeout (br_LogLevel resp) (br_TrayEnabled resp) punchTimeout
        (br_ForceRelay resp) (br_AllowLegacy resp) (cc_Forwards local))
    end
  end.
End Client.

(* ------------------------------------------------------------------ *)
(** ** The server's end (internal/server) *)

(** The JSON of the answer. *)
Definition bootstrap_object (r : agentBootstrapResponse) : object :=
  [("device_id", JString (ab_DeviceID r)); ("device_name", JString (ab_DeviceName r)); ("server", JString (ab_Server r));
   ("server_http", JString (ab_ServerHTTP r)); ("psk", JString (ab_PSK r)); ("stun_alt_port", JNumber (FormatInt (ab_STUNAltPort r)));
   ("no_upnp", JBool (ab_NoUPnP r)); ("upnp_timeout", JString (ab_UPnPTimeout r)); ("log_level", JString (ab_LogLevel r));
   ("tray_enabled", JBool (ab_TrayEnabled r)); ("punch_timeout", JString (ab_PunchTimeout r)); ("force_relay", JBool (ab_ForceRelay r));
   ("allow_legacy", JBool (ab_AllowLegacy r))]%string.

Section Server.
  Context `{CO : Collation} `{LK : Like} `{GU : GoUnicode} `{GT : GoTime} `{GD : Settings.GoDuration} `{GJ : GoJSON}.
  Context {T : forall R, Model R -> Type} `{G : !Gorm T}.

Definition decode_device (body : list byte) : option (string * string) :=
  o ← DecodeFirst body;
  let at_ := values ["device_id"; "device_name"]%string o in
  i ← as_string (at_ "device_id"%string); n ← as_string (at_ "device_name"%string); Some (i, n).

(** [writeJSON] of the handler's answer; the error's own JSON is not read by the client.
    [None] is a handler that panics. *)
Definition serve_bootstrap (sv : Settings.Server) (m : http_meta) (s : control_db T) (req : http_request) : option (Z * list byte * control_db T) :=
  match handleAgentBootstrap sv m (decode_device (hr_Body req)) s with
  | None => None
  | Some (Ok resp, s) => Some (200, Marshal (bootstrap_object resp) ++ [x0a], s)
  | Some (Err e, s) => Some (writeJSONOrError (A := unit) (Err e), [], s)
  end.
End Server.

(* ------------------------------------------------------------------ *)
(** ** Query strings arrive *)

Lemma unescape_byte b rest : unescape (escape_byte b ++ rest) = (t ← unescape rest; Some (b :: t)).
Proof. destruct b; reflexivity. Qed.

Lemma unescape_escape l : unescape (concat (map escape_byte l)) = Some l.
Proof. induction l as [|b l IH]; [done|]. cbn [map concat]. rewrite unescape_byte, IH. reflexivity. Qed.

Lemma escape_no (c : byte) l : c ∈ [x26; x3b; x3d] -> c ∉ concat (map escape_byte l).
Proof.
  intros Hc. induction l as [|b l IH]; cbn [map concat]; [apply not_elem_of_nil|]. rewrite not_elem_of_app. split; [|exact IH].
  assert (F : forallb (fun c => negb (bool_decide (c ∈ escape_byte b))) [x26; x3b; x3d] = true) by (destruct b; reflexivity).
  rewrite forallb_forall in F. apply list_elem_of_In, F in Hc. apply negb_true_iff, bool_decide_eq_false in Hc. exact Hc.
Qed.

(** The device id of a request for rules is the one the handler is given, whatever
    characters it has. *)
Lemma rules_query_arrives cfg : query_get (rules_query cfg) "device_id" = cc_DeviceID cfg.
Proof.
  unfold query_get, rules_query, QueryEscape. rewrite bytes_of_app, bytes_of_string_of.
  set (v := concat (map escape_byte (bytes_of (cc_DeviceID cfg)))).
  assert (N : x26 ∉ bytes_of "device_id=" ++ v) by (rewrite not_elem_of_app; split; [decide_now|apply escape_no; set_solver]).
  rewrite split_bytes_none by done. cbn [omap list_omap]. unfold query_pair. rewrite decide_False.
  2: { intros [E|E]; [done|]. apply elem_of_app in E as [E|E]; [revert E; decide_now|]. revert E. apply escape_no. set_solver. }
  change (bytes_of "device_id=" ++ v) with (bytes_of "device_id" ++ x3d :: v). rewrite Forward.cut_bytes_app by decide_now.
  unfold v. rewrite unescape_escape. change (unescape (bytes_of "device_id")) with (Some (bytes_of "device_id")).
  cbn [mbind option_bind]. rewrite decide_True by done. cbn. apply string_of_bytes_of.
Qed.

(* ------------------------------------------------------------------ *)
(** ** What the server hands out is what the client runs with *)

Section Laws.
  Context `{CO : Collation} `{LK : Like} `{GU : GoUnicode} `{GT : GoTime} `{GD : Settings.GoDuration} `{GJ : GoJSON}.
  Context {T : forall R, Model R -> Type} `{G : !Gorm T} `{DL : !Settings.GoDurationLaws GD} `{JL : !GoJSONLaws GJ}.
  Variables (sv : Settings.Server) (m : http_meta) (net : http_client) (s : control_db T).

(** The client's request reaches the handler and its answer comes back. *)
Definition delivers (local : Client) : Prop :=
  hc_valid net (agent_url local "/api/agent/bootstrap") = true /\
  hc_proxied net (bootstrap_request local) =
    match serve_bootstrap sv m s (bootstrap_request local) with Some (status, body, _) => Ok (status, body) | None => Err "EOF"%string end.

(** The client the server makes of a local one. *)
Definition served (local : Client) : Client :=
  mkClient (externalUDPAddr (hm_Host m) (Settings.sv_UDPListen sv)) (requestBaseURL (hm_TLS m) (hm_ForwardedProto m) (hm_Host m))
    (cc_DeviceID local) (if decide (TrimSpace (cc_DeviceName local) <> EmptyString) then TrimSpace (cc_DeviceName local) else cc_DeviceName local)
    (cc_PeerID local) (Settings.sv_PSK sv) (Settings.sv_ClientNoUPnP sv) (Settings.sv_ClientUPnPTimeout sv) (Settings.sv_ClientLogLevel sv)
    (Settings.sv_ClientTrayEnabled sv) (Settings.sv_ClientPunchTimeout sv) (Settings.sv_ClientForceRelay sv) (Settings.sv_ClientAllowLegacy sv)
    (cc_Forwards local).

Lemma Atoi_range t z : Atoi t = Some z -> - 2 ^ 63 <= z < 2 ^ 63.
Proof.
  unfold Atoi. destruct (digits_value _); [|done]. cbn [mbind option_bind]. case_decide; [|done]. by intros [= <-].
Qed.

Lemma portFromAddr_range addr : - 2 ^ 63 <= portFromAddr addr 7002 < 2 ^ 63.
Proof.
  unfold portFromAddr. destruct (SplitHostPort addr) as [[h p]|]; [|lia]. destruct (Atoi p) as [z|] eqn:E; cbn [default]; [|lia].
  by apply Atoi_range in E.
Qed.

Lemma decode_device_request local : ValidString (cc_DeviceID local) = true -> ValidString (cc_DeviceName local) = true ->
  decode_device (hr_Body (bootstrap_request local)) = Some (cc_DeviceID local, cc_DeviceName local).
Proof.
  intros V1 V2. unfold decode_device, bootstrap_request. cbn [hr_Body].
  match goal with |- context [DecodeFirst (Marshal ?o)] => assert (E : DecodeFirst (Marshal o) = Some o) end.
  { rewrite <- (app_nil_r (Marshal _)). apply (decode_marshal _ 0). unfold writable_object. cbn [forallb fst snd writable]. by rewrite V1, V2. }
  rewrite E. cbn [mbind option_bind]. rewrite !values_exact by reflexivity. reflexivity.
Qed.

Lemma client_bootstrap_answer body resp s' : answers (handleAgentBootstrap sv m (Some body)) s resp s' ->
  resp = bootstrapConfig sv m body.1 (TrimSpace body.2) /\ body.1 <> EmptyString.
Proof.
  destruct body as [i n]. unfold handleAgentBootstrap. case_decide; [by intros ?%answers_fail|]. case_decide; [by intros ?%answers_fail|].
  rewrite answers_bind. intros (u & s1 & _ & H2). rewrite answers_bind in H2. destruct H2 as (u2 & s2 & _ & H2).
  apply answers_ret in H2 as [-> _]. done.
Qed.

Lemma decode_bootstrap_object r : - 2 ^ 63 <= ab_STUNAltPort r < 2 ^ 63 ->
  decode_bootstrap (bootstrap_object r) = Some (mkBootstrapResponse (ab_DeviceID r) (ab_DeviceName r) (ab_Server r) (ab_ServerHTTP r) (ab_PSK r)
    (ab_STUNAltPort r) (ab_NoUPnP r) (ab_UPnPTimeout r) (ab_LogLevel r) (ab_TrayEnabled r) (ab_PunchTimeout r) (ab_ForceRelay r) (ab_AllowLegacy r)).
Proof.
  intros Hz%Atoi_FormatInt. unfold decode_bootstrap, bootstrap_object. rewrite !values_exact by reflexivity.
  change (as_int _) with (Atoi (FormatInt (ab_STUNAltPort r))). rewrite Hz. reflexivity.
Qed.

Theorem bootstrap_configures (local : Client) (resp : agentBootstrapResponse) (s' : control_db T) (au : AdminAuth.AuthConfig) :
  delivers local -> ValidString (cc_DeviceID local) = true -> ValidString (cc_DeviceName local) = true ->
  answers (handleAgentBootstrap sv m (Some (cc_DeviceID local, cc_DeviceName local))) s resp s' ->
  writable_object (bootstrap_object resp) = true ->
  - 2 ^ 63 <= Settings.sv_ClientUPnPTimeout sv < 2 ^ 63 -> - 2 ^ 63 <= Settings.sv_ClientPunchTimeout sv < 2 ^ 63 ->
  AdminAuth.cfg_PSK au = Settings.sv_PSK sv ->
  exists r, agentBootstrap net local = Ok r /\ br_STUNAltPort r = portFromAddr (Settings.sv_StunAltListen sv) 7002 /\
    mergeBootstrap local r = Ok (served local) /\ AdminAuth.requireAgent au (cc_PSK (served local)) = Ok tt.
Proof.
  intros [Hv Hp] V1 V2 Ha W D1%Settings.parse_string D2%Settings.parse_string Hau.
  destruct (client_bootstrap_answer _ _ _ Ha) as [-> Hid]. cbn [fst snd] in *.
  eexists. split_and!.
  - unfold agentBootstrap. cbn [bootstrap_request hr_URL]. rewrite Hv. cbn [negb].
    unfold doAgentHTTPRequest. rewrite Hp. unfold serve_bootstrap. rewrite decode_device_request by done.
    unfold answers in Ha. rewrite Ha. cbn [answered mbind result_bind]. rewrite decide_False by lia. cbn [mbind result_bind].
    change ([x0a]) with (replicate 1 x0a). rewrite decode_marshal by done. cbn [mbind option_bind].
    rewrite decode_bootstrap_object by (apply portFromAddr_range). reflexivity.
  - reflexivity.
  - unfold mergeBootstrap. cbn. rewrite D1, D2. unfold served. by rewrite (decide_True (P := cc_DeviceID local <> EmptyString)).
  - unfold AdminAuth.requireAgent, served. cbn [cc_PSK]. rewrite Hau. rewrite decide_False; [done|]. by intros [_ ?].
Qed.
End Laws.

(* ------------------------------------------------------------------ *)
(** ** Witness *)

(** Durations as decimal nanoseconds. *)
Definition decimal_duration : Settings.GoDuration := {| Settings.DurationString := FormatInt; Settings.ParseDuration := Atoi |}.

Lemma decimal_duration_laws : Settings.GoDurationLaws decimal_duration.
Proof.
  split; cbn.
  - intros d. apply Atoi_FormatInt.
  - apply Atoi_range.
  - intros [|p|p]; unfold FormatInt; [discriminate| |discriminate]. intros E. pose proof (pretty_value (Npos p)) as V.
    change (pretty (Zpos p)) with (pretty (Npos p)) in E. rewrite E in V. discriminate V.
Qed.

Section Witnesses.
  #[local] Existing Instances binary_collation toy_like ascii_unicode bin_time decimal_duration decimal_duration_laws toy_gojson toy_gojson_laws.

Definition toy_meta : http_meta := mkHTTPMeta "POST" "10.0.0.9:50000" "tunnel.example.com:7001" false EmptyString.
Definition toy_local : Client := set_identity "laptop" "DEV-1" (set_view "http://tunnel.example.com:7001" "laptop" DefaultClient).
Definition toy_server : Settings.Server := Settings.set_PSK "secret" Settings.DefaultServer.
Definition toy_control : control_db memory_table := empty_db (fun _ => 0).
Definition toy_net : http_client := mkHTTPClient (fun _ => true)
  (fun req => match serve_bootstrap toy_server toy_meta toy_control req with Some (status, body, _) => Ok (status, body) | None => Err "EOF"%string end)
  (fun _ => Err "unused"%string).

Definition is_answer {DB A} (h : handler DB A) (s : DB) : bool := match h s with Some (Ok _, _) => true | _ => false end.
Lemma is_answer_some {DB A} (h : handler DB A) (s : DB) : is_answer h s = true -> exists a s', answers h s a s'.
Proof. unfold is_answer, answers. destruct (h s) as [[[a|e] s']|]; [|done..]. intros _. by exists a, s'. Qed.

Lemma toy_bootstrap_answers : exists a s', answers (handleAgentBootstrap toy_server toy_meta (Some ("DEV-1"%string, "laptop"%string))) toy_control a s'.
Proof. apply is_answer_some. vm_compute. reflexivity. Qed.

Lemma bootstrap_configures_witness :
  exists r, agentBootstrap toy_net toy_local = Ok r /\ br_STUNAltPort r = 7002 /\
    mergeBootstrap toy_local r = Ok (served toy_server toy_meta toy_local) /\ cc_PSK (served toy_server toy_meta toy_local) = "secret"%string /\
    cc_Server (served toy_server toy_meta toy_local) = "tunnel.example.com:7000"%string.
Proof.
  destruct toy_bootstrap_answers as (resp & s' & E).
  destruct (bootstrap_configures toy_server toy_meta toy_net toy_control toy_local resp s' (AdminAuth.mkAuthConfig "secret" EmptyString 0 0))
    as (r & H1 & H2 & H3 & _).
  - split; reflexivity.
  - vm_compute. reflexivity.
  - vm_compute. reflexivity.
  - exact E.
  - destruct (client_bootstrap_answer toy_server toy_meta toy_control _ _ _ E) as [-> _]. vm_compute. reflexivity.
  - vm_compute. split; [discriminate|reflexivity].
  - vm_compute. split; [discriminate|reflexivity].
  - reflexivity.
  - exists r. split_and!; [exact H1|rewrite H2; vm_compute; reflexivity|exact H3|reflexivity|vm_compute; reflexivity].
Defined.
End Witnesses.
