(* ===== verification/AgentTunnel.v ===== *)
(** * AgentTunnel: one tunnel of the port-forwarding client (cmd/client/main.go, internal/tunnel, internal/forward)

    The signalling of [runTunnelOnce]: registration, punching, relay mode and the
    dispatch of received datagrams; the packet connection KCP runs on; the header of a
    forwarded stream. A handler, a tick of a timer or a message is one step on the
    record [tun] of the variables the goroutines share. KCP and smux are not under
    src/; how long they take is not modelled. *)

From S2P Require Import Prelude GoStrings Store Protocol Session Relay LanIdentity ServerUDP.
From S2P Require SecureFrame.

(* ------------------------------------------------------------------ *)
(** ** State *)

(** What [runTunnelOnce] is given and has opened: the fields of [config.Client], the
    peer, the normalised profile, the codec, the address of the server and of the UPnP
    mapping, and the result of the NAT probe. *)
Record tun_config : Type := mkTunConfig {
  tc_DeviceID : string; tc_DeviceName : string; tc_PSK : string; tc_ForceRelay : bool; tc_AllowLegacy : bool;
  tc_peerID : string; tc_profile : string; tc_codec : option SecureFrame.Codec;
  tc_srvAddr : string; tc_upnpAddr : string; tc_natForceRelay : bool }.

(** [t_ready]: [punchedCh] is closed; [t_registering], [t_punching], [t_timing]: the
    goroutines that refresh the registration, punch, and wait for the punch timeout
    still run; [t_inbox]: the queue of the [PacketConn]. *)
Record tun : Type := mkTun {
  t_peerAddr : option string; t_peerUpnpAddr : option string; t_punched : bool; t_punchStarted : bool; t_isRelay : bool;
  t_rxCount : Z; t_ready : bool; t_registering : bool; t_punching : bool; t_timing : bool; t_inbox : list (list byte * string) }.

Inductive tun_effect : Type := TunWrite (data : list byte) (dst : string).

(** The random nonces, per destination, and [net.ResolveUDPAddr]. *)
Record tun_env : Type := mkTunEnv { te_nonce : string -> option (list byte); te_resolve : string -> option string }.

Definition packetInboxSize : Z := 16 * 1024.

Definition tun0 : tun := mkTun None None false false false 0 false true false true [].

Definition set_peerAddr (a : option string) (t : tun) : tun :=
  mkTun a (t_peerUpnpAddr t) (t_punched t) (t_punchStarted t) (t_isRelay t) (t_rxCount t) (t_ready t) (t_registering t) (t_punching t) (t_timing t) (t_inbox t).
Definition set_peerUpnpAddr (a : option string) (t : tun) : tun :=
  mkTun (t_peerAddr t) a (t_punched t) (t_punchStarted t) (t_isRelay t) (t_rxCount t) (t_ready t) (t_registering t) (t_punching t) (t_timing t) (t_inbox t).
Definition set_loops (registering punching timing : bool) (t : tun) : tun :=
  mkTun (t_peerAddr t) (t_peerUpnpAddr t) (t_punched t) (t_punchStarted t) (t_isRelay t) (t_rxCount t) (t_ready t) registering punching timing (t_inbox t).
Definition set_inbox (l : list (list byte * string)) (t : tun) : tun :=
  mkTun (t_peerAddr t) (t_peerUpnpAddr t) (t_punched t) (t_punchStarted t) (t_isRelay t) (t_rxCount t) (t_ready t) (t_registering t) (t_punching t) (t_timing t) l.

(* ------------------------------------------------------------------ *)
(** ** Signalling *)

Section Tunnel.
  Context `{GU : GoUnicode} `{MJ : MessageJSON}.
  Variables (e : tun_env) (c : tun_config).

(** [writeControl]: nothing is sent when sealing fails. *)
Definition tun_writeControl (dst : string) (msg : Message) : list tun_effect :=
  match tc_codec c with
  | None => [TunWrite (Encode msg) dst]
  | Some codec =>
    match SecureFrame.Seal (Some codec) (te_nonce e dst) SecureFrame.KindControl (Encode msg) with
    | Err _ => []
    | Ok b => [TunWrite b dst]
    end
  end.

Definition register_message : Message :=
  mkMessage MsgRegister (tc_DeviceID c) (tc_DeviceName c) (tc_peerID c) (tc_profile c) "" (tc_upnpAddr c) "" 0 "".
Definition plain_message (type : string) : Message := mkMessage type (tc_DeviceID c) "" "" (tc_profile c) "" "" "" 0 "".

Definition tun_register : list tun_effect := tun_writeControl (tc_srvAddr c) register_message.

Definition enterRelay (t : tun) : tun :=
  if t_isRelay t then t
  else mkTun (Some (tc_srvAddr c)) (t_peerUpnpAddr t) true (t_punchStarted t) true (t_rxCount t) true
         (t_registering t) (t_punching t) (t_timing t) (t_inbox t).

(** Registration, the start of the goroutines, and relay mode at once when it is forced. *)
Definition tun_start : tun * list tun_effect :=
  (if tc_ForceRelay c || tc_natForceRelay c then enterRelay tun0 else tun0, tun_register).

Definition adoptPeerAddr (src : string) (t : tun) : tun :=
  if decide (t_peerAddr t = Some src) then t else set_peerAddr (Some src) t.
Definition adoptPeerAddrSafe (src : string) (t : tun) : tun := if t_isRelay t then t else adoptPeerAddr src t.

(** [punched.CompareAndSwap] and the closing of [punchedCh]. *)
Definition mark_punched (t : tun) : tun :=
  if t_punched t then t
  else mkTun (t_peerAddr t) (t_peerUpnpAddr t) true (t_punchStarted t) (t_isRelay t) (t_rxCount t) true
         (t_registering t) (t_punching t) (t_timing t) (t_inbox t).

Definition count_rx (t : tun) : tun :=
  mkTun (t_peerAddr t) (t_peerUpnpAddr t) (t_punched t) (t_punchStarted t) (t_isRelay t) (u64 (t_rxCount t + 1)) (t_ready t)
    (t_registering t) (t_punching t) (t_timing t) (t_inbox t).

Definition start_punching (t : tun) : tun :=
  if t_punchStarted t then t
  else mkTun (t_peerAddr t) (t_peerUpnpAddr t) (t_punched t) true (t_isRelay t) (t_rxCount t) (t_ready t)
         (t_registering t) true (t_timing t) (t_inbox t).

(** A control message of the profile of the tunnel. *)
Definition tun_handleControl (t : tun) (src : string) (msg : Message) : tun * list tun_effect :=
  if decide (NormalizeProfile (msg_Profile msg) <> tc_profile c) then (t, [])
  else if decide (Type_ msg = MsgPeerInfo) then
    if t_isRelay t then (t, [])
    else match te_resolve e (Addr msg) with
    | None => (t, [])
    | Some paddr =>
      let t := set_peerAddr (Some paddr) t in
      let t := if decide (UpnpAddr msg <> EmptyString)
               then match te_resolve e (UpnpAddr msg) with Some u => set_peerUpnpAddr (Some u) t | None => t end else t in
      (start_punching t, [])
    end
  else if decide (Type_ msg = MsgPunch) then
    (mark_punched (adoptPeerAddrSafe src (count_rx t)), tun_writeControl src (plain_message MsgPunchAck))
  else if decide (Type_ msg = MsgPunchAck) then (mark_punched (adoptPeerAddrSafe src (count_rx t)), [])
  else (t, []).

(** [PacketConn.Feed] on an open connection: a full queue drops the packet. *)
Definition Feed (data : list byte) (src : string) (t : tun) : tun :=
  if decide (Z.of_nat (length (t_inbox t)) < packetInboxSize) then set_inbox (t_inbox t ++ [(data, src)]) t else t.

(** The read loop, on one datagram. *)
Definition tun_receive (t : tun) (src : string) (data : list byte) : tun * list tun_effect :=
  let control data := match Decode data with None => (t, []) | Some msg => tun_handleControl t src msg end in
  if SecureFrame.IsFrame data then
    match tc_codec c with
    | None => (t, [])
    | Some codec =>
      match SecureFrame.Open (Some codec) data with
      | Err _ => (t, [])
      | Ok (kind, payload) => if decide (kind = SecureFrame.KindKCP) then (Feed payload src t, []) else control payload
      end
    end
  else if negb (tc_AllowLegacy c) && bool_decide (data <> []) && negb (starts_brace data) then (Feed data src t, [])
  else if bool_decide (data <> []) && negb (starts_brace data) then (Feed data src t, [])
  else control data.

(** Ticks of the keep-alive, of the registration and of the punch loop. *)
Definition keepalive_tick (t : tun) : tun * list tun_effect :=
  match t_peerAddr t with
  | Some paddr => (t, if t_punched t then tun_writeControl paddr (plain_message MsgKeepAlive) else [])
  | None => (t, [])
  end.

Definition register_tick (t : tun) : tun * list tun_effect :=
  if negb (t_registering t) then (t, [])
  else if t_punched t then (set_loops false (t_punching t) (t_timing t) t, [])
  else (t, tun_register).

Definition tun_punch_tick (t : tun) : tun * list tun_effect :=
  if negb (t_punching t) then (t, [])
  else if t_punched t then (set_loops (t_registering t) false (t_timing t) t, [])
  else match t_peerAddr t with
  | None => (set_loops (t_registering t) false (t_timing t) t, [])
  | Some paddr =>
    let msg := plain_message MsgPunch in
    (t, tun_writeControl paddr msg ++
        match t_peerUpnpAddr t with
        | Some uaddr => if decide (uaddr <> paddr) then tun_writeControl uaddr msg else []
        | None => []
        end)
  end.

(** The timer of the punch timeout fires, or the goroutine that waits for it sees
    [punchedCh] closed. *)
Definition punch_timeout (t : tun) : tun * list tun_effect :=
  if t_timing t then (enterRelay (set_loops (t_registering t) (t_punching t) false t), []) else (t, []).
Definition punch_wait_ends (t : tun) : tun * list tun_effect :=
  if t_timing t && t_ready t then (set_loops (t_registering t) (t_punching t) false t, []) else (t, []).

(** [PacketConn.WriteTo]: the destination is always the peer address of the moment.
    [None] is an error. *)
Definition WriteTo (t : tun) (b : list byte) : option (list tun_effect) :=
  dst ← t_peerAddr t;
  match tc_codec c with
  | None => Some [TunWrite b dst]
  | Some codec =>
    match SecureFrame.Seal (Some codec) (te_nonce e dst) SecureFrame.KindKCP b with
    | Ok framed => Some [TunWrite framed dst]
    | Err _ => None
    end
  end.

(** [PacketConn.ReadFrom] when a packet is there and no deadline has passed. *)
Definition ReadFrom (t : tun) : option (list byte * string * tun) :=
  match t_inbox t with
  | [] => None
  | (data, src) :: rest => Some (data, src, set_inbox rest t)
  end.

(** What the tunnel is opened with once [punchedCh] is closed. *)
Definition isListener : bool := String.ltb (tc_DeviceID c) (tc_peerID c).
Definition tun_via (t : tun) : string := if t_isRelay t then "relay" else "p2p".
Definition tun_convID `{SC : SecureFrame.SecureCrypto} : Z :=
  SecureFrame.ConvID (tc_PSK c) (tc_DeviceID c) (tc_peerID c) (tc_profile c).

(** The steps of a running tunnel, with what each sends. *)
Inductive tun_step : tun -> list tun_effect -> tun -> Prop :=
  | step_receive t src data t' fx : tun_receive t src data = (t', fx) -> tun_step t fx t'
  | step_keepalive t t' fx : keepalive_tick t = (t', fx) -> tun_step t fx t'
  | step_register t t' fx : register_tick t = (t', fx) -> tun_step t fx t'
  | step_punch t t' fx : tun_punch_tick t = (t', fx) -> tun_step t fx t'
  | step_timeout t t' fx : punch_timeout t = (t', fx) -> tun_step t fx t'
  | step_wait_ends t t' fx : punch_wait_ends t = (t', fx) -> tun_step t fx t'
  | step_write t b fx : WriteTo t b = Some fx -> tun_step t fx t
  | step_read t data src t' : ReadFrom t = Some (data, src, t') -> tun_step t [] t'.

End Tunnel.

(* ------------------------------------------------------------------ *)
(** ** Sealed datagrams *)

Definition good_nonces (f : string -> option (list byte)) : Prop :=
  forall dst, exists n, f dst = Some n /\ length n = SecureFrame.NonceSizeX.

Section Secured.
  Context `{GU : GoUnicode} `{MJ : MessageJSON} `{ED : Ed25519}.
  Variables (a : cipherAEAD).
  Hypothesis laws : AEADLaws a.
  Hypothesis overhead : aead_overhead a = 16%nat.
  Hypothesis json : forall m, Decode (Encode m) = Some m.

Notation key := (SecureFrame.mkCodec a).

(** [d] carries [payload] of a kind, and is no frame of the LAN relay. *)
Definition carries (d : list byte) (kind : byte) (payload : list byte) : Prop :=
  SecureFrame.IsFrame d = true /\ IsRelayFrame d = false /\ SecureFrame.Open (Some key) d = Ok (kind, payload).

Lemma seal_carries n kind p : length n = SecureFrame.NonceSizeX ->
  exists d, SecureFrame.Seal (Some key) (Some n) kind p = Ok d /\ carries d kind p.
Proof.
  intros Hn. destruct (SecureFrame.Open_Seal a n laws overhead Hn kind p) as (d & Hs & Hf & Ho).
  exists d. split; [done|]. unfold carries. split_and!; [done| |done].
  apply bool_decide_eq_false. unfold SecureFrame.IsFrame in Hf. bools.
  match goal with H : _ /\ _ |- _ => destruct H as [_ ->] end. done.
Qed.

Lemma writeControl_carries te c dst msg : tc_codec c = Some key -> good_nonces (te_nonce te) ->
  exists d, tun_writeControl te c dst msg = [TunWrite d dst] /\ carries d SecureFrame.KindControl (Encode msg).
Proof.
  intros Hc Hn. destruct (Hn dst) as (n & En & Ln). destruct (seal_carries n SecureFrame.KindControl (Encode msg) Ln) as (d & Hs & Hd).
  exists d. unfold tun_writeControl. by rewrite Hc, En, Hs.
Qed.

Lemma sendPeer_carries es s to about : codec s = Some key -> good_nonces (nonce_for es) ->
  exists d, sendPeer es s to about = [WriteToUDP d (p_addr to)] /\ carries d SecureFrame.KindControl (Encode (peer_message to about)).
Proof.
  intros Hc Hn. destruct (Hn (p_addr to)) as (n & En & Ln).
  destruct (seal_carries n SecureFrame.KindControl (Encode (peer_message to about)) Ln) as (d & Hs & Hd).
  exists d. unfold sendPeer, writeControl. by rewrite Hc, En, Hs.
Qed.

(** What a tunnel makes of a sealed control message. *)
Lemma receive_carried te c t src d msg : tc_codec c = Some key -> carries d SecureFrame.KindControl (Encode msg) ->
  tun_receive te c t src d = tun_handleControl te c t src msg.
Proof. intros Hc (Hf & _ & Ho). unfold tun_receive. by rewrite Hf, Hc, Ho, decide_False, json by done. Qed.

(** What the server makes of it. *)
Lemma relay_skips es s src d kind payload : codec s = Some key -> carries d kind payload ->
  kind <> SecureFrame.KindKCP \/ pairs s !! src = None ->
  runUDP_step es s src d =
    if decide (kind <> SecureFrame.KindControl) then (s, [])
    else match Decode payload with
    | None => (s, [])
    | Some msg =>
      if decide (Type_ msg = MsgStunReq) then (s, writeControl es s src (stun_response src))
      else if decide (Type_ msg = MsgRegister) then handleRegister es s src msg
      else if decide (Type_ msg = MsgLANRegister) then handleLANRegister es s src msg
      else (s, [])
    end.
Proof.
  intros Hc (Hf & Hr & Ho) Hk. unfold runUDP_step, handleLANUDPRelay. rewrite Hr. cbn [negb].
  assert (HR : handleRelay es s src d = (false, s, [])).
  { unfold handleRelay. destruct (AllowRelay _); [|done]. cbn [negb]. rewrite Hf, Hc. rewrite bool_decide_true by done.
    cbn [andb]. rewrite Ho. case_bool_decide; [|done]. destruct Hk as [?|Hp]; [done|]. by rewrite Hp. }
  rewrite HR. unfold openPacket. by rewrite Hf, Hc, Ho.
Qed.
End Secured.

(* ------------------------------------------------------------------ *)
(** ** Two agents meet *)

Section Meeting.
  Context `{GU : GoUnicode} `{MJ : MessageJSON} `{ED : Ed25519} `{SC : SecureFrame.SecureCrypto}.
  Variables (a : cipherAEAD).
  Hypothesis laws : AEADLaws a.
  Hypothesis overhead : aead_overhead a = 16%nat.
  Hypothesis json : forall m, Decode (Encode m) = Some m.

Notation key := (SecureFrame.mkCodec a).

Lemma handleRegister_codec (e : Env) (s : App) (src : string) (msg : Message) :
  codec (handleRegister e s src msg).1 = codec s.
Proof.
  unfold handleRegister. destruct (file_peer _ _ _) as [ps prs]. destruct (lookup_in ps _ _ _); [|done].
  by destruct (pair_up _ _ _ _ _ _) as [[? ?] ?].
Qed.

Lemma handleRegister_pairs (e : Env) (s : App) (src : string) (msg : Message) (q : peer) :
  lookupPeer s (Peer msg) (From msg) (normalizeRegisterProfile (msg_Profile msg)) = Some q -> Peer msg <> From msg ->
  let self := registered e src msg "" in
  (handleRegister e s src msg).2 =
    UpsertDevice (From msg) (Name msg) src (UpnpAddr msg) (Peer msg) :: sendPeer e s self q ++ sendPeer e s q self.
Proof.
  cbv zeta. intros HL Hne. unfold handleRegister. fold (registered e src msg "").
  pose proof (file_peer_lookup_other (peers (add_counters s 1 0 0)) (pairs (add_counters s 1 0 0))
    (registered e src msg "") (Peer msg) (From msg) (normalizeRegisterProfile (msg_Profile msg)) Hne) as E.
  destruct (file_peer _ _ _) as [ps prs]. simpl in E. unfold lookupPeer in HL. rewrite E, HL.
  by destruct (pair_up _ _ _ _ _ _) as [[ids ps2] prs2].
Qed.

(** Two agents configured for each other, on one key and profile. *)
Definition paired_configs (cA cB : tun_config) : Prop :=
  tc_codec cA = Some key /\ tc_codec cB = Some key /\ tc_PSK cA = tc_PSK cB /\
  tc_peerID cA = tc_DeviceID cB /\ tc_peerID cB = tc_DeviceID cA /\ tc_DeviceID cA <> tc_DeviceID cB /\
  tc_profile cA = tc_profile cB /\ NormalizeProfile (tc_profile cA) = tc_profile cA.

Lemma paired_sym cA cB : paired_configs cA cB -> paired_configs cB cA.
Proof. unfold paired_configs. intros (? & ? & ? & ? & ? & ? & E & ?). rewrite <- E. naive_solver. Qed.

Lemma normalized_register p : NormalizeProfile p = p -> normalizeRegisterProfile p = p.
Proof. unfold normalizeRegisterProfile. intros ->. by case_decide. Qed.

(** A tunnel that has not punched yet and learns the address of its peer. *)
Lemma meets_peer_info te c t src d to about dst :
  tc_codec c = Some key -> carries a d SecureFrame.KindControl (Encode (peer_message to about)) ->
  p_profile to = tc_profile c -> NormalizeProfile (tc_profile c) = tc_profile c ->
  p_addr about = dst -> te_resolve te dst = Some dst -> t_isRelay t = false -> t_punchStarted t = false ->
  let t' := (tun_receive te c t src d).1 in
  t_peerAddr t' = Some dst /\ t_punching t' = true /\ t_punched t' = t_punched t /\ t_isRelay t' = false /\ t_ready t' = t_ready t.
Proof.
  intros Hc Hd Hp Hn Ha Hr Hrel Hst. cbv zeta. rewrite (receive_carried a json te c t src d (peer_message to about) Hc Hd).
  unfold tun_handleControl. cbn [msg_Profile Type_ Addr UpnpAddr peer_message]. rewrite Hp, Hn.
  rewrite decide_False by (intros F; by apply F). rewrite decide_True by done. rewrite Hrel, Ha, Hr.
  set (t1 := set_peerAddr (Some dst) t).
  assert (H1 : t_punchStarted t1 = false /\ t_peerAddr t1 = Some dst /\ t_punched t1 = t_punched t /\ t_isRelay t1 = false /\
    t_ready t1 = t_ready t) by (unfold t1; simpl; split_and!; done).
  clearbody t1. destruct H1 as (A1 & A2 & A3 & A4 & A5).
  case_decide; [destruct (te_resolve te (p_upnpAddr about))|]; unfold start_punching; cbn; rewrite A1; cbn; split_and!; done.
Qed.

(** A sealed punch or its answer reaches a tunnel that is not relayed. *)
Lemma meets_punch te c t src d msg :
  tc_codec c = Some key -> carries a d SecureFrame.KindControl (Encode msg) ->
  NormalizeProfile (msg_Profile msg) = tc_profile c -> Type_ msg = MsgPunch \/ Type_ msg = MsgPunchAck ->
  t_isRelay t = false -> t_ready t = t_punched t ->
  let t' := (tun_receive te c t src d).1 in
  t_peerAddr t' = Some src /\ t_punched t' = true /\ t_ready t' = true /\ t_isRelay t' = false.
Proof.
  intros Hc Hd Hp Hty Hrel Hrd. cbv zeta. rewrite (receive_carried a json te c t src d msg Hc Hd). unfold tun_handleControl.
  rewrite decide_False by (intros F; by apply F).
  assert (HM : t_peerAddr (mark_punched (adoptPeerAddrSafe src (count_rx t))) = Some src /\
    t_punched (mark_punched (adoptPeerAddrSafe src (count_rx t))) = true /\
    t_ready (mark_punched (adoptPeerAddrSafe src (count_rx t))) = true /\
    t_isRelay (mark_punched (adoptPeerAddrSafe src (count_rx t))) = false).
  { unfold adoptPeerAddrSafe. cbn [t_isRelay count_rx]. rewrite Hrel. unfold adoptPeerAddr, mark_punched.
    case_decide; cbn in *; destruct (t_punched t) eqn:E; cbn; rewrite ?E, ?Hrd; done. }
  destruct Hty as [E|E]; rewrite E; rewrite decide_False by done; [by rewrite decide_True|].
  rewrite decide_False by done. by rewrite decide_True.
Qed.

(** C21. Both agents register; the server answers the second registration with the address
    of each to the other; one punches and the other answers: then both tunnels are
    ready, on the direct path, each with the address the server saw of the other, and
    they open one KCP conversation with complementary roles. *)
Theorem agents_meet (es1 es2 : Env) (s : App) (eA eB : tun_env) (cA cB : tun_config) (srcA srcB : string) :
  paired_configs cA cB -> codec s = Some key ->
  good_nonces (nonce_for es1) -> good_nonces (nonce_for es2) -> good_nonces (te_nonce eA) -> good_nonces (te_nonce eB) ->
  te_resolve eA srcB = Some srcB -> te_resolve eB srcA = Some srcA ->
  tc_ForceRelay cA || tc_natForceRelay cA = false -> tc_ForceRelay cB || tc_natForceRelay cB = false ->
  exists regA regB infoA infoB punch ack,
    let tA := (tun_start eA cA).1 in
    let tB := (tun_start eB cB).1 in
    let s1 := (runUDP_step es1 s srcA regA).1 in
    let tA1 := (tun_receive eA cA tA (tc_srvAddr cA) infoA).1 in
    let tB1 := (tun_receive eB cB tB (tc_srvAddr cB) infoB).1 in
    let tB2 := (tun_receive eB cB tB1 srcA punch).1 in
    let tA2 := (tun_receive eA cA tA1 srcB ack).1 in
    (tun_start eA cA).2 = [TunWrite regA (tc_srvAddr cA)] /\ (tun_start eB cB).2 = [TunWrite regB (tc_srvAddr cB)] /\
    (exists db, (runUDP_step es2 s1 srcB regB).2 = [db; WriteToUDP infoB srcB; WriteToUDP infoA srcA]) /\
    TunWrite punch srcB ∈ (tun_punch_tick eA cA tA1).2 /\ (tun_receive eB cB tB1 srcA punch).2 = [TunWrite ack srcA] /\
    t_ready tA2 = true /\ t_ready tB2 = true /\ t_peerAddr tA2 = Some srcB /\ t_peerAddr tB2 = Some srcA /\
    tun_via tA2 = "p2p"%string /\ tun_via tB2 = "p2p"%string /\
    isListener cA = negb (isListener cB) /\ tun_convID cA = tun_convID cB.
Proof.
  intros HP Hs N1 N2 NA NB RA RB FA FB. pose proof (paired_sym _ _ HP) as HP'.
  destruct HP as (CA & CB & Psk & PA & PB & Hid & Prof & Hnorm).
  assert (HnormB : NormalizeProfile (tc_profile cB) = tc_profile cB) by (by rewrite <- Prof).
  destruct (writeControl_carries a laws overhead eA cA (tc_srvAddr cA) (register_message cA) CA NA) as (regA & WA & KA).
  destruct (writeControl_carries a laws overhead eB cB (tc_srvAddr cB) (register_message cB) CB NB) as (regB & WB & KB).
  set (s1 := (runUDP_step es1 s srcA regA).1).
  assert (E1 : s1 = (handleRegister es1 s srcA (register_message cA)).1).
  { unfold s1. rewrite (relay_skips a es1 s srcA regA _ _ Hs KA) by (left; done). by rewrite json. }
  assert (K1 : codec s1 = Some key) by (by rewrite E1, handleRegister_codec).
  destruct (handleRegister_files es1 s srcA (register_message cA)) as (q & Lq & Sq). rewrite <- E1 in Lq.
  cbn [From Peer msg_Profile register_message] in Lq. rewrite normalized_register in Lq by done.
  assert (Aq : p_addr q = srcA /\ p_profile q = tc_profile cA).
  { split; [exact (eq_sym (f_equal p_addr Sq))|]. pose proof (f_equal p_profile Sq) as E. cbn in E.
    rewrite normalized_register in E by done. by rewrite <- E. }
  destruct Aq as [Aq Pq].
  assert (E2 : (runUDP_step es2 s1 srcB regB).2 = (handleRegister es2 s1 srcB (register_message cB)).2).
  { rewrite (relay_skips a es2 s1 srcB regB _ _ K1 KB) by (left; done). by rewrite json. }
  rewrite (handleRegister_pairs es2 s1 srcB (register_message cB) q) in E2.
  2: { cbn. rewrite normalized_register by done. rewrite PB, <- Prof. rewrite PA in Lq. exact Lq. }
  2: { cbn. by rewrite PB. }
  destruct (sendPeer_carries a laws overhead es2 s1 (registered es2 srcB (register_message cB) "") q K1 N2) as (infoB & SB & IB).
  destruct (sendPeer_carries a laws overhead es2 s1 q (registered es2 srcB (register_message cB) "") K1 N2) as (infoA & SA & IA).
  rewrite SA, SB, Aq in E2.
  assert (TA : (tun_start eA cA) = (tun0, [TunWrite regA (tc_srvAddr cA)])) by (unfold tun_start, tun_register; by rewrite FA, WA).
  assert (TB : (tun_start eB cB) = (tun0, [TunWrite regB (tc_srvAddr cB)])) by (unfold tun_start, tun_register; by rewrite FB, WB).
  destruct (meets_peer_info eA cA tun0 (tc_srvAddr cA) infoA q (registered es2 srcB (register_message cB) "") srcB CA IA)
    as (A1 & A2 & A3 & A4 & A5); try done.
  destruct (meets_peer_info eB cB tun0 (tc_srvAddr cB) infoB (registered es2 srcB (register_message cB) "") q srcA CB IB)
    as (B1 & B2 & B3 & B4 & B5); try done.
  { cbn. by rewrite normalized_register. }
  set (tA1 := (tun_receive eA cA tun0 (tc_srvAddr cA) infoA).1) in *.
  set (tB1 := (tun_receive eB cB tun0 (tc_srvAddr cB) infoB).1) in *.
  destruct (writeControl_carries a laws overhead eA cA srcB (plain_message cA MsgPunch) CA NA) as (punch & WP & KP).
  destruct (writeControl_carries a laws overhead eB cB srcA (plain_message cB MsgPunchAck) CB NB) as (ack & WK & KK).
  exists regA, regB, infoA, infoB, punch, ack. cbv zeta. rewrite TA, TB. cbn [fst snd]. fold s1 tA1 tB1.
  destruct (meets_punch eB cB tB1 srcA punch (plain_message cA MsgPunch) CB KP) as (B1' & B2' & B3' & B4');
    [by cbn; rewrite Hnorm|by left|done|by rewrite B5, B3|].
  destruct (meets_punch eA cA tA1 srcB ack (plain_message cB MsgPunchAck) CA KK) as (A1' & A2' & A3' & A4');
    [by cbn; rewrite HnormB|by right|done|by rewrite A5, A3|].
  split_and!; try done.
  - by exists (UpsertDevice (tc_DeviceID cB) (tc_DeviceName cB) srcB (tc_upnpAddr cB) (tc_peerID cB)).
  - unfold tun_punch_tick. rewrite A2, A3, A1. cbn [negb t_punched tun0 snd]. rewrite WP. by left.
  - rewrite (receive_carried a json eB cB tB1 srcA punch _ CB KP). unfold tun_handleControl. cbn [msg_Profile Type_ plain_message].
    rewrite decide_False by (intros F; by rewrite Hnorm in F). rewrite decide_False by done. by rewrite decide_True.
  - unfold tun_via. by rewrite A4'.
  - unfold tun_via. by rewrite B4'.
  - unfold isListener. rewrite PA, PB. rewrite (String_ltb_antisym (tc_DeviceID cA)) by done. by rewrite negb_involutive.
  - unfold tun_convID. rewrite Psk, PA, PB, Prof. exact (proj1 (SecureFrame.ConvID_agrees (tc_PSK cB) (tc_DeviceID cA) (tc_DeviceID cB) (tc_profile cB))).
Qed.
End Meeting.

(* ------------------------------------------------------------------ *)
(** ** What a punched tunnel sends *)

Section Punched.
  Context `{GU : GoUnicode} `{MJ : MessageJSON} `{ED : Ed25519}.
  Variables (a : cipherAEAD).
  Hypothesis laws : AEADLaws a.
  Hypothesis overhead : aead_overhead a = 16%nat.
  Hypothesis json : forall m, Decode (Encode m) = Some m.

Notation key := (SecureFrame.mkCodec a).

(** A datagram that registers nobody: a KCP frame, or a control message of another type. *)
Definition no_registration (d : list byte) : Prop :=
  exists kind payload, carries a d kind payload /\
    (kind = SecureFrame.KindKCP \/
     kind = SecureFrame.KindControl /\ exists msg, Decode payload = Some msg /\
       Type_ msg <> MsgStunReq /\ Type_ msg <> MsgRegister /\ Type_ msg <> MsgLANRegister).

Lemma control_no_registration te c dst msg d dst' : tc_codec c = Some key -> good_nonces (te_nonce te) ->
  Type_ msg <> MsgStunReq -> Type_ msg <> MsgRegister -> Type_ msg <> MsgLANRegister ->
  TunWrite d dst' ∈ tun_writeControl te c dst msg -> no_registration d.
Proof.
  intros Hc Hn H1 H2 H3 Hin. destruct (writeControl_carries a laws overhead te c dst msg Hc Hn) as (f & E & K).
  rewrite E in Hin. apply list_elem_of_singleton in Hin. injection Hin as -> _.
  exists SecureFrame.KindControl, (Encode msg). split; [done|]. right. split; [done|]. exists msg. by rewrite json.
Qed.

Lemma plain_no_registration te c dst ty d dst' : tc_codec c = Some key -> good_nonces (te_nonce te) ->
  ty = MsgPunch \/ ty = MsgPunchAck \/ ty = MsgKeepAlive ->
  TunWrite d dst' ∈ tun_writeControl te c dst (plain_message c ty) -> no_registration d.
Proof. intros Hc Hn Hty. apply control_no_registration; [done|done|..]; destruct Hty as [->|[->| ->]]; discriminate. Qed.

Lemma punched_sends te c t fx t' d dst : tc_codec c = Some key -> good_nonces (te_nonce te) ->
  t_punched t = true -> tun_step te c t fx t' -> TunWrite d dst ∈ fx -> no_registration d.
Proof.
  intros Hc Hn Hp Hstep Hin.
  assert (H0 : forall x : tun, (x, []) = (t', fx) -> no_registration d) by (intros x [= <- <-]; by apply elem_of_nil in Hin).
  destruct Hstep as [t src data t' fx E|t t' fx E|t t' fx E|t t' fx E|t t' fx E|t t' fx E|t b fx E|t data src t' E].
  - assert (HC : forall msg, tun_handleControl te c t src msg = (t', fx) -> no_registration d).
    { intros msg. unfold tun_handleControl. case_decide; [apply H0|].
      destruct (decide (Type_ msg = MsgPeerInfo)).
      - destruct (t_isRelay t); [apply H0|]. destruct (te_resolve te (Addr msg)); [|apply H0]. apply H0.
      - case_decide; [|case_decide; apply H0]. intros [= _ <-]. by eapply (plain_no_registration _ _ _ _ _ _ Hc Hn); [|exact Hin]; auto. }
    revert E. unfold tun_receive. repeat case_match; try apply H0; try apply HC.
  - revert E. unfold keepalive_tick. destruct (t_peerAddr t); [|apply H0]. rewrite Hp.
    intros [= _ <-]. by eapply (plain_no_registration _ _ _ _ _ _ Hc Hn); [|exact Hin]; auto.
  - revert E. unfold register_tick. rewrite Hp. case_match; apply H0.
  - revert E. unfold tun_punch_tick. rewrite Hp. case_match; apply H0.
  - revert E. unfold punch_timeout. case_match; apply H0.
  - revert E. unfold punch_wait_ends. case_match; apply H0.
  - revert E. unfold WriteTo. destruct (t_peerAddr t) as [x|]; [|done]. cbn [mbind option_bind]. rewrite Hc.
    destruct (Hn x) as (n & En & Ln). destruct (seal_carries a laws overhead n SecureFrame.KindKCP b Ln) as (f & E & K).
    rewrite En, E. intros [= <-]. apply list_elem_of_singleton in Hin. injection Hin as ->.
    exists SecureFrame.KindKCP, b. split; [done|]. by left.
  - by apply elem_of_nil in Hin.
Qed.

(** A datagram a punched tunnel with the key sends. *)
Definition from_punched (d : list byte) : Prop :=
  exists te c t fx t' dst, tc_codec c = Some key /\ good_nonces (te_nonce te) /\ t_punched t = true /\
    tun_step te c t fx t' /\ TunWrite d dst ∈ fx.

Lemma from_punched_no_registration d : from_punched d -> no_registration d.
Proof. intros (te & c & t & fx & t' & dst & ? & ? & ? & ? & ?). by eapply punched_sends. Qed.

(** Such a datagram changes neither the registered peers nor which addresses have routes. *)
Definition same_routes (s s' : App) : Prop :=
  codec s' = codec s /\ cfg s' = cfg s /\ peers s' = peers s /\ (forall addr, pairs s' !! addr = None <-> pairs s !! addr = None).

#[export] Instance same_routes_po : PreOrder same_routes.
Proof.
  split; [by intros s|]. intros x y z (A & B & C & D) (A' & B' & C' & D'). unfold same_routes.
  split_and!; [congruence..|]. intros addr. by rewrite D', D.
Qed.

Lemma no_registration_step es s src d : codec s = Some key -> no_registration d ->
  same_routes s (runUDP_step es s src d).1 /\ (pairs s !! src = None -> (runUDP_step es s src d).2 = []).
Proof.
  intros Hc (kind & payload & K & HT).
  assert (Hskip : kind <> SecureFrame.KindKCP \/ pairs s !! src = None -> runUDP_step es s src d = (s, [])).
  { intros Hk. rewrite (relay_skips a es s src d kind payload Hc K Hk).
    destruct HT as [->|(-> & msg & -> & H1 & H2 & H3)]; [by rewrite decide_True|].
    by rewrite decide_False, !decide_False by (done || (intros F; by apply F)). }
  destruct (pairs s !! src) as [route|] eqn:Hp; [|by rewrite Hskip by auto].
  split; [|done]. destruct HT as [->|(-> & _)]; [|by rewrite Hskip by (left; done)].
  destruct K as (Hf & Hr & Ho). unfold runUDP_step, handleLANUDPRelay. rewrite Hr. cbn [negb].
  unfold handleRelay. destruct (AllowRelay (cfg s)); cbn [negb].
  - rewrite Hf, Hc, bool_decide_true by done. cbn [andb]. rewrite Ho, bool_decide_true by done. rewrite Hp.
    destruct (send_ok es (pr_dst route)); [|done]. cbn [fst]. unfold same_routes. split_and!; try done.
    intros addr. cbn. destruct (decide (addr = src)) as [->|]; [by rewrite lookup_insert_eq, Hp|by rewrite lookup_insert_ne].
  - unfold openPacket. rewrite Hf, Hc, Ho. by rewrite decide_True.
Qed.

(** The server after a run of datagrams. *)
Definition udp_run (s : App) (l : list (Env * string * list byte)) : App :=
  fold_left (fun s '(es, src, d) => (runUDP_step es s src d).1) l s.

Lemma no_registration_run l : forall s, codec s = Some key -> Forall (fun x => no_registration x.2) l -> same_routes s (udp_run s l).
Proof.
  induction l as [|[[es src] d] l IH]; intros s Hc Hl; [by apply same_routes_po|].
  apply Forall_cons in Hl as [Hd Hl]. destruct (no_registration_step es s src d Hc Hd) as [Hs _].
  etrans; [exact Hs|]. apply (IH (runUDP_step es s src d).1); [|done]. destruct Hs as (-> & _). done.
Qed.

(** Once punched, relayed or not, an agent registers no more, so its registration ages
    whatever it sends. At the first cleanup after the peer timeout the server drops the
    route of its address, busy or not, and from then on relays nothing of it: every
    datagram the tunnel still sends is lost. *)
Theorem relayed_tunnel_is_cut (s : App) (before after : list (Env * string * list byte)) (t : Time) (from slot : string)
  (bw : gmap string peer) (p : peer) (es : Env) (d : list byte) :
  codec s = Some key -> peers s !! from = Some bw -> bw !! slot = Some p ->
  Forall (fun x => from_punched x.2) before -> Forall (fun x => from_punched x.2) after -> from_punched d ->
  PeerTTL (cfg s) < time_sub t (p_lastSeen p) ->
  let s' := udp_run (cleanup_tick t (udp_run s before)).1 after in
  pairs s' !! p_addr p = None /\ (runUDP_step es s' (p_addr p) d).2 = [].
Proof.
  intros Hc Hb Hs HB HA Hd Ht. cbv zeta.
  assert (HN : forall l : list (Env * string * list byte), Forall (fun x => from_punched x.2) l -> Forall (fun x => no_registration x.2) l)
    by (intros l Hl; eapply Forall_impl; [exact Hl|]; intros x; apply from_punched_no_registration).
  destruct (no_registration_run before s Hc (HN _ HB)) as (C1 & F1 & P1 & _). set (s1 := udp_run s before) in *.
  set (s2 := (cleanup_tick t s1).1).
  assert (H2 : pairs s2 !! p_addr p = None).
  { unfold s2, cleanup_tick. cbn [fst pairs with_maps]. apply map_lookup_filter_None. left. cbn. rewrite !delete_all_lookup.
    case_decide; [done|]. rewrite decide_True; [done|]. apply expired_addrs_elem. exists from, bw, slot, p.
    split_and!; [by rewrite P1|done| |done]. unfold peer_expired. rewrite F1. by apply bool_decide_eq_true. }
  assert (C2 : codec s2 = Some key) by (unfold s2; cbn; congruence).
  destruct (no_registration_run after s2 C2 (HN _ HA)) as (C3 & _ & _ & P3). split; [by apply P3|].
  apply no_registration_step; [congruence|by apply from_punched_no_registration|by apply P3].
Qed.
End Punched.

(* ------------------------------------------------------------------ *)
(** ** Unsealed datagrams *)

(** The two branches of the read loop for unsealed datagrams do the same, whatever
    [AllowLegacy] says, and a JSON text goes on to the control messages: a tunnel with a
    key and legacy packets refused takes an unsealed punch from any sender for its peer,
    counts as punched, and from then on sends its frames to that sender. The server
    refuses the same datagram. *)
Theorem unsealed_punch_accepted `{GU : GoUnicode} `{MJ : MessageJSON} (te : tun_env) (c : tun_config) (t : tun) (src : string)
  (msg : Message) (k : SecureFrame.Codec) :
  tc_codec c = Some k -> tc_AllowLegacy c = false -> t_isRelay t = false -> t_punched t = false ->
  Type_ msg = MsgPunch -> NormalizeProfile (msg_Profile msg) = tc_profile c ->
  Decode (Encode msg) = Some msg -> starts_brace (Encode msg) = true ->
  let t' := (tun_receive te c t src (Encode msg)).1 in
  t_peerAddr t' = Some src /\ t_ready t' = true /\ tun_via t' = "p2p"%string /\
  (forall b fx, WriteTo te c t' b = Some fx -> exists d, fx = [TunWrite d src]) /\
  (forall s : App, codec s = Some k -> AllowLegacy (cfg s) = false -> openPacket s (Encode msg) = None).
Proof.
  intros Hc Hleg Hrel Hp Hty Hprof Hdec Hbr. cbv zeta.
  assert (Hf : SecureFrame.IsFrame (Encode msg) = false).
  { unfold starts_brace in Hbr. bools. apply bool_decide_eq_false. intros [_ H4]. apply (f_equal (take 1)) in H4.
    rewrite take_take in H4. cbn [Nat.min] in H4. rewrite Hbr in H4. discriminate. }
  assert (Hne : Encode msg <> []) by (intros E; by rewrite E in Hbr).
  assert (ER : (tun_receive te c t src (Encode msg)).1 = mark_punched (adoptPeerAddrSafe src (count_rx t))).
  { unfold tun_receive. rewrite Hf, Hleg, Hbr, andb_false_r, andb_false_r, Hdec. unfold tun_handleControl.
    rewrite Hprof, decide_False by (intros F; by apply F). rewrite Hty. rewrite decide_False by done. by rewrite decide_True. }
  rewrite ER. set (t1 := adoptPeerAddrSafe src (count_rx t)).
  assert (H1 : t_peerAddr t1 = Some src /\ t_punched t1 = false /\ t_isRelay t1 = false).
  { unfold t1, adoptPeerAddrSafe. cbn [t_isRelay count_rx]. rewrite Hrel. unfold adoptPeerAddr. by case_decide. }
  clearbody t1. destruct H1 as (A1 & A2 & A3). unfold mark_punched. rewrite A2. cbn [t_peerAddr t_ready].
  split_and!; [done|done|unfold tun_via; cbn; by rewrite A3| |].
  - intros b fx. unfold WriteTo. cbn [t_peerAddr]. rewrite A1. cbn [mbind option_bind]. rewrite Hc.
    destruct (SecureFrame.Seal _ _ _ _); [|done]. intros [= <-]. eauto.
  - intros s Hs Hl. unfold openPacket. by rewrite Hf, Hl.
Qed.

(* ------------------------------------------------------------------ *)
(** ** Opening the stream *)

(** [ConsumeHandshake] on what the first read of at most [len(buf)] bytes returns. *)
Definition handshakeMarker : list byte := x00 :: bytes_of "KCP-HELLO" ++ [x0a].
Definition ConsumeHandshake (first_read : list byte) : bool := bool_decide (take (length handshakeMarker) first_read = handshakeMarker).

(** Window and socket buffer of a KCP session; the version, the keep-alive interval and
    timeout and the two buffers of a smux session. *)
Definition profileConfig (profile : string) : Z * Z :=
  if decide (profile = ProfileBulk) then (8192, 16 * 1024 * 1024)
  else if decide (profile = ProfileLANPacket) then (8192, 16 * 1024 * 1024)
  else (1024, 0).

Definition smuxConfig `{GU : GoUnicode} (profile : string) : Z * Duration * Duration * Z * Z :=
  if decide (NormalizeProfile profile = ProfileBulk) then (2, 10 * second, 30 * second, 16 * 1024 * 1024, 64 * 1024 * 1024)
  else (2, 10 * second, 30 * second, 512 * 1024, 8 * 1024 * 1024).

(* ------------------------------------------------------------------ *)
(** ** Witnesses *)

#[export] Instance message_eq_dec : EqDecision Message.
Proof. solve_decision. Defined.

#[export] Instance message_countable : Countable Message.
Proof.
  refine (inj_countable' (fun m => ((Type_ m, From m, Name m, Peer m, msg_Profile m), (Addr m, UpnpAddr m, msg_Payload m, Timestamp m, Signature m)))
    (fun '((a, b, c, d, e), (f, g, h, i, j)) => mkMessage a b c d e f g h i j) _). by intros [].
Defined.

(** A text for every message, that starts with a brace. *)
Definition bin_json : MessageJSON := {|
  Encode m := x7b :: bin (encode m);
  Decode b := match b with x7b :: l => p ← unbin l; decode p | _ => None end;
|}.

Lemma bin_json_law m : @Decode bin_json (@Encode bin_json m) = Some m.
Proof. simpl. rewrite unbin_bin. simpl. apply decode_encode. Qed.

Definition toy_key : SecureFrame.Codec := SecureFrame.mkCodec (toy_aead [x2a]).
Definition toy_cA : tun_config :=
  mkTunConfig "dev-a" "a" "psk" false false "dev-b" "bulk" (Some toy_key) "9.9.9.9:7000" EmptyString false.
Definition toy_cB : tun_config :=
  mkTunConfig "dev-b" "b" "psk" false false "dev-a" "bulk" (Some toy_key) "9.9.9.9:7000" EmptyString false.
Definition toy_te : tun_env := mkTunEnv (fun _ => Some SecureFrame.toy_nonce) Some.

Lemma toy_nonces : good_nonces (te_nonce toy_te).
Proof. intros dst. by exists SecureFrame.toy_nonce. Defined.

#[export] Instance toy_secure : SecureFrame.SecureCrypto := {|
  SecureFrame.hkdf_sha256 k i n := Some (be_put n (be_get (k ++ i))); SecureFrame.newX k := Some (toy_aead k);
  SecureFrame.hmac_sha256 k d := be_put 32 (be_get (k ++ d)) |}.
Lemma agents_meet_witness :
  exists tA2 tB2, t_ready tA2 = true /\ t_ready tB2 = true /\
    t_peerAddr tA2 = Some "2.2.2.2:2"%string /\ t_peerAddr tB2 = Some "1.1.1.1:1"%string.
Proof.
  destruct (agents_meet (GU := ascii_unicode) (MJ := bin_json) (SC := toy_secure) (toy_aead [x2a]) (toy_laws [x2a]) eq_refl bin_json_law
    toy_env toy_env toy_secure_app toy_te toy_te toy_cA toy_cB "1.1.1.1:1" "2.2.2.2:2") as
    (regA & regB & infoA & infoB & punch & ack & H); try reflexivity.
  - split_and!; try reflexivity. discriminate.
  - exact toy_nonces.
  - exact toy_nonces.
  - exact toy_nonces.
  - exact toy_nonces.
  - destruct H as (_ & _ & _ & _ & _ & R1 & R2 & P1 & P2 & _). do 2 eexists. exact (conj R1 (conj R2 (conj P1 P2))).
Defined.

(** A relayed tunnel, its keep-alive, and a server that last saw it register at 1000. *)
Definition toy_relayed : tun := enterRelay toy_cA tun0.
Definition toy_peer : peer := mkPeer "dev-a" "1.1.1.1:1" EmptyString EmptyString "dev-b" "bulk" 1000 42.
Definition toy_relay_app : App :=
  mkApp toy_cfg (Some toy_key) 0 0 0 {[ "dev-a"%string := {[ "slot"%string := toy_peer ]} ]} ∅
    {[ "1.1.1.1:1"%string := mkPairRoute "2.2.2.2:2" 1000 42 ]} ∅.

Lemma toy_keepalive_sent : exists d, from_punched (GU := ascii_unicode) (MJ := bin_json) (toy_aead [x2a]) d.
Proof.
  destruct (writeControl_carries (MJ := bin_json) (toy_aead [x2a]) (toy_laws [x2a]) eq_refl toy_te toy_cA "9.9.9.9:7000"
    (plain_message toy_cA MsgKeepAlive) eq_refl toy_nonces) as (d & E & _).
  exists d, toy_te, toy_cA, toy_relayed, [TunWrite d "9.9.9.9:7000"], toy_relayed, "9.9.9.9:7000"%string.
  split; [reflexivity|]. split; [exact toy_nonces|]. split; [reflexivity|]. split; [|by left].
  apply step_keepalive. unfold keepalive_tick. cbn [toy_relayed enterRelay t_peerAddr t_punched tun0 t_isRelay tc_srvAddr toy_cA]. by rewrite E.
Defined.

Lemma relayed_tunnel_is_cut_witness :
  exists d, let s' := (cleanup_tick (20 * second) (udp_run (GU := ascii_unicode) (MJ := bin_json) toy_relay_app [(toy_env, "1.1.1.1:1"%string, d)])).1 in
  pairs toy_relay_app !! "1.1.1.1:1"%string <> None /\ pairs s' !! "1.1.1.1:1"%string = None /\
  (runUDP_step (GU := ascii_unicode) (MJ := bin_json) toy_env s' "1.1.1.1:1" d).2 = [].
Proof.
  destruct toy_keepalive_sent as (d & Hd). exists d. split; [discriminate|].
  apply (relayed_tunnel_is_cut (GU := ascii_unicode) (MJ := bin_json) (toy_aead [x2a]) (toy_laws [x2a]) eq_refl bin_json_law
    toy_relay_app [(toy_env, "1.1.1.1:1"%string, d)] [] (20 * second) "dev-a" "slot" {[ "slot"%string := toy_peer ]} toy_peer toy_env d).
  - reflexivity.
  - reflexivity.
  - reflexivity.
  - constructor; [exact Hd|constructor].
  - constructor.
  - exact Hd.
  - vm_compute. reflexivity.
Defined.

Definition toy_punch : Message := mkMessage MsgPunch "mallory" "" "" "bulk" "" "" "" 0 "".

Lemma unsealed_punch_accepted_witness :
  t_peerAddr (tun_receive (GU := ascii_unicode) (MJ := bin_json) toy_te toy_cA tun0 "6.6.6.6:6" (@Encode bin_json toy_punch)).1 = Some "6.6.6.6:6"%string.
Proof.
  apply (unsealed_punch_accepted (GU := ascii_unicode) (MJ := bin_json) toy_te toy_cA tun0 "6.6.6.6:6" toy_punch toy_key);
    reflexivity.
Defined.
