(* ===== verification/Conversations.v ===== *)
(** * Conversations: which packets of a tunnel arrive (internal/tunnel/tunnel.go)

    A tunnel shares its UDP socket with control messages, and its packets are told from
    them by their first byte: a message starts with an opening brace, a KCP packet with
    the low byte of its conversation id. [Open] is the opening of a session over the
    library; its calls and their outcomes are data here. *)

From S2P Require Import Prelude GoStrings Store Protocol Relay.
From S2P Require Session LanIdentity SecureFrame ServerUDP P2PState P2P P2PInv AgentTunnel.

Definition IsProtocolJSON (b : list byte) : bool := bool_decide (take 1 b = [x7b]).

(** A packet on the wire: the conversation id in little-endian order comes first. *)
Definition kcp_datagram (conv : Z) (body : list byte) : list byte := rev (be_put 4 conv) ++ body.

(* ------------------------------------------------------------------ *)
(** ** Opening a session *)

Inductive kcp_call : Type :=
  | ServeConn
  | ListenerDeadline (t : Time)
  | AcceptKCP
  | PacketDeadline (t : Time)
  | NewConn3 (conv : Z) (addr : string)
  | SetNoDelay (nodelay interval resend nc : Z)
  | SetWindowSize (snd rcv : Z)
  | SetMtu (mtu : Z)
  | SetStreamMode (on : bool)
  | SetReadBuffer (bytes : Z)
  | SetWriteBuffer (bytes : Z)
  | SessionWrite (b : list byte)
  | SessionClose.

Definition tuneSession (profile : string) : list kcp_call :=
  let '(KCPWindow, UDPSocketBuffer) := AgentTunnel.profileConfig profile in
  [SetNoDelay 1 10 2 1; SetWindowSize KCPWindow KCPWindow; SetMtu 1200; SetStreamMode true] ++
  (if decide (0 < UDPSocketBuffer) then [SetReadBuffer UDPSocketBuffer; SetWriteBuffer UDPSocketBuffer] else []).

(** Whether each call that can fail succeeds. *)
Record kcp_outcomes : Type := mkOutcomes { ko_serve : bool; ko_accept : bool; ko_newconn : bool; ko_write : bool }.

Inductive open_error : Type := ErrServe | ErrAccept | ErrPeerUnknown | ErrNewConn | ErrHandshake.

#[export] Instance open_error_eq_dec : EqDecision open_error.
Proof. solve_decision. Defined.

(** The calls [Open] makes, and its error. [peer] is the address the packet connection
    has learned. *)
Definition Open (now : Time) (peer : option string) (listener : bool) (convID : Z) (profile : string) (k : kcp_outcomes)
  : result open_error unit * list kcp_call :=
  if listener then
    if negb (ko_serve k) then (Err ErrServe, [ServeConn])
    else if negb (ko_accept k) then (Err ErrAccept, [ServeConn; ListenerDeadline (now + 30 * second); AcceptKCP])
    else (Ok tt, [ServeConn; ListenerDeadline (now + 30 * second); AcceptKCP; PacketDeadline time_zero; ListenerDeadline time_zero] ++ tuneSession profile)
  else match peer with
  | None => (Err ErrPeerUnknown, [])
  | Some dst =>
    if negb (ko_newconn k) then (Err ErrNewConn, [NewConn3 convID dst])
    else let calls := NewConn3 convID dst :: tuneSession profile ++ [SessionWrite AgentTunnel.handshakeMarker] in
      if ko_write k then (Ok tt, calls) else (Err ErrHandshake, calls ++ [SessionClose])
  end.

(** What is sent before a session is handed out: the dialer's marker, which is what the
    listener's [ConsumeHandshake] reads first, and nothing by the listener. *)
Definition session_bytes (calls : list kcp_call) : list byte :=
  foldr (fun c acc => match c with SessionWrite b => b ++ acc | _ => acc end) [] calls.

Lemma tune_sends_nothing profile : session_bytes (tuneSession profile) = [].
Proof. unfold tuneSession. destruct (AgentTunnel.profileConfig profile) as [w b]. by case_decide. Qed.

Lemma session_bytes_app l k : session_bytes (l ++ k) = session_bytes l ++ session_bytes k.
Proof.
  unfold session_bytes. induction l as [|c l IH]; [done|]. rewrite <- app_comm_cons. cbn [foldr]. rewrite IH.
  destruct c; try done. by rewrite app_assoc.
Qed.

Lemma open_handshake now peer convID profile k calls rest :
  Open now peer false convID profile k = (Ok tt, calls) ->
  AgentTunnel.ConsumeHandshake (session_bytes calls ++ rest) = true.
Proof.
  unfold Open. destruct peer as [dst|]; [|done]. destruct (negb _); [done|]. destruct (ko_write k); [|done].
  intros [= <-]. cbn [session_bytes foldr]. change (foldr _ [] ?l) with (session_bytes l).
  rewrite session_bytes_app, tune_sends_nothing. cbn [app]. unfold AgentTunnel.ConsumeHandshake. reflexivity.
Qed.

(* ------------------------------------------------------------------ *)
(** ** Which packets arrive *)

Lemma head_kcp_datagram conv body : head (kcp_datagram conv body) = Some (z2b conv).
Proof. reflexivity. Qed.

Lemma brace_byte conv : z2b conv = x7b <-> conv mod 256 = 123.
Proof.
  split; [intros E%(f_equal b2z); by rewrite b2z_z2b in E|]. intros E. apply b2z_inj. by rewrite b2z_z2b.
Qed.

Lemma take_kcp_datagram conv body : take 4 (kcp_datagram conv body) = rev (be_put 4 conv).
Proof. reflexivity. Qed.

Lemma kcp_datagram_conv conv body : 0 <= conv < 2 ^ 32 -> be_get (rev (take 4 (kcp_datagram conv body))) = conv.
Proof. intros. rewrite take_kcp_datagram, rev_involutive. by apply be_get_put_small. Qed.

(** The first bytes of the frames that share the socket. *)
Definition frame_magics : list (list byte) := [relayMagic; bytes_of "UDPL"; SecureFrame.magic].

Section Sockets.
  Context `{GU : GoUnicode} `{ED : LanIdentity.Ed25519} `{MJ : MessageJSON} `{SC : Session.SessionCrypto} `{XC : SecureFrame.SecureCrypto}.

Lemma lan_packet_found x id peer conv body src :
  0 <= conv < 2 ^ 32 -> P2PState.p2p_peerConv x !! conv = Some id -> id <> EmptyString -> P2P.the_peer x id = Some peer ->
  P2P.peerForPacket (kcp_datagram conv body) src x = (Some id, default EmptyString (P2PState.p2p_peerConvProfile x !! conv)).
Proof.
  intros HB HC Hne HP. unfold P2P.peerForPacket, P2P.peerIDByConv. rewrite decide_False by (unfold kcp_datagram; cbn; lia).
  rewrite kcp_datagram_conv, HC by done. cbv beta zeta. cbn [default]. rewrite decide_True by done. unfold Datatypes.id. by rewrite HP.
Qed.

Lemma no_magic wire : take 4 wire ∉ frame_magics -> IsRelayFrame wire = false /\ IsFrame wire = false /\ SecureFrame.IsFrame wire = false.
Proof.
  unfold frame_magics. intros H. rewrite !elem_of_cons in H. unfold IsRelayFrame, IsFrame, SecureFrame.IsFrame.
  split_and!; apply bool_decide_eq_false; naive_solver.
Qed.

End Sockets.

(* ------------------------------------------------------------------ *)
(** ** Witness *)

Section Witness.
  #[local] Existing Instances ascii_unicode P2PInv.toy_control Session.toy_crypto LanIdentity.toy_ed.

(** A hash all of whose conversation ids end in the byte of a brace. *)
Definition brace_hash : SecureFrame.SecureCrypto := {|
  SecureFrame.hkdf_sha256 _ _ _ := None; SecureFrame.newX _ := None;
  SecureFrame.hmac_sha256 _ d := [x00; x01; default x00 (last d); x7b] |}.
#[local] Existing Instance brace_hash.

Definition brace_conv : Z := SecureFrame.ConvID "" "dev-a" "dev-b" ProfileLANPacket.
Definition brace_state : P2PState.lanP2P :=
  P2PState.upd "dev-b" (P2PState.set_pc true) (P2P.registerPeerConvs "dev-b" P2PInv.toy_known).
Definition brace_wire : list byte := kcp_datagram brace_conv [x51; x00; x00; x80].
Definition brace_config : AgentTunnel.tun_config :=
  AgentTunnel.mkTunConfig "dev-a" "a" "" true false "dev-b" ProfileLANPacket None "9.9.9.9:7000" EmptyString false.

End Witness.
