(* ===== verification/LanLoops.v ===== *)
(** * LanLoops: the loops around the runtime of the LAN client (cmd/UDPTunnelLAN/packet_runtime.go; internal/upnp)

    The turns of the goroutines [runPacketForwarding] starts beside the sending one:
    polling the relay of the server, refreshing the configuration, reporting, reading the
    device, keeping the port mapping; and the start of the peer-to-peer path: its keys
    and the readiness of a stream. The exchanges with the server and the gateway are
    arguments; what the turns do is in [P2P] and [LanClient]. *)

From S2P Require Import Prelude GoStrings Base64 Store Protocol ServerUtil Router Link Relay LanServe LanClient P2PState P2P.
From S2P Require Session LanIdentity SecureFrame Paths Delivery AgentTunnel Conversations P2PInv.

(* ------------------------------------------------------------------ *)
(** ** Requests *)

(** What arrives of an answer: the status, the code and text of an error body as far as
    they decode, and the body decoded for the caller, or the error of the decoder. *)
Record http_answer (A : Type) : Type := mkAnswer { ha_status : Z; ha_code : string; ha_error : string; ha_body : result string A }.
Arguments mkAnswer {A}.
Arguments ha_status {A}.
Arguments ha_code {A}.
Arguments ha_error {A}.
Arguments ha_body {A}.

(** The exchange fails with a text of its own: a URL that is none, no connection. *)
Definition postLANJSON {A} (exchange : result string (http_answer A)) : result string A :=
  match exchange with
  | Err e => Err e
  | Ok a =>
    if decide (300 <= ha_status a) then
      if decide (ha_code a <> EmptyString) then Err ("http " ++ FormatInt (ha_status a) ++ " " ++ ha_code a ++ ": " ++ ha_error a)%string
      else Err ("http " ++ FormatInt (ha_status a))%string
    else ha_body a
  end.

(** The answer of [writeJSONOrError] to a handler of the relay. *)
Definition relay_answer (resp : relay_response) : http_answer (list lanPacketRelayFrame) :=
  match resp with
  | RespBadRequest code message => mkAnswer 400 code message (Ok [])
  | RespAccepted _ => mkAnswer 200 EmptyString EmptyString (Ok [])
  | RespFrames frames => mkAnswer 200 EmptyString EmptyString (Ok frames)
  end.

Definition pollRelayFrames (exchange : string -> string -> Z -> result string (http_answer (list lanPacketRelayFrame))) (serverHTTP deviceID : string) (max : Z)
  : result string (list lanPacketRelayFrame) :=
  postLANJSON (exchange (serverHTTP ++ "/api/lan/packets/poll")%string deviceID max).

Section Loops.
  Context `{GU : GoUnicode} `{ED : LanIdentity.Ed25519} `{MJ : MessageJSON} `{SC : Session.SessionCrypto} `{XC : SecureFrame.SecureCrypto} `{GT : GoTime}.

(** A turn of [pollRelayPackets]: whether the relay is known to be disabled, the pause
    before the next turn, and the runtime. *)
Definition pollRelayPackets_turn (e : penv) (polled : result string (list lanPacketRelayFrame)) (x : lanP2P) : bool * Duration * lanP2P :=
  match polled with
  | Err text => if Contains text "relay_disabled" then (true, 15 * second, x) else (false, second, x)
  | Ok frames => (false, Pending.lanPacketPollInterval, fold_left (poll_frame e) frames x)
  end.

(** A turn of [refreshLANPeers], with the configuration it last logged. [id] is the
    device's identity, of which only the public key is sent. *)
Definition refreshLANPeers_turn (now : Time) (resp : option lanBootstrapResponse) (lastConfig : string) (x : lanP2P) : string * lanP2P :=
  match resp with
  | None => (lastConfig, x)
  | Some resp =>
    let '(router, link) := refresh now resp (p2p_router x) (p2p_link x) in
    let x := put_link link (put_router (default (p2p_router x) router) x) in
    (br_ConfigVersion resp, UpsertPeers (map (fun p => (bp_DeviceID p, bp_PublicKey p)) (br_Peers resp)) x)
  end.

(** [LinkManager.Sessions]. *)
Definition by_peer (a b : PeerSession) : Prop := String.le (PeerID a) (PeerID b).

#[local] Instance by_peer_dec a b : Decision (by_peer a b) := decide_rel String.le (PeerID a) (PeerID b).

Definition Sessions (m : LinkManager) : list PeerSession := merge_sort by_peer (map snd (map_to_list (m_sessions m))).

(** One session of a round of [reportLANPeerRuntime], with the bytes of the round before
    and the learned paths; [post] is whether the report arrives. *)
Definition report_one (now : Time) (networkID mtu mss : Z) (tcpFastPath : string) (peerUnavailable : Z)
  (acc : list (VirtualPeerState * list VirtualLearnedPath) * gmap string Z * lanP2P) (session : PeerSession)
  : list (VirtualPeerState * list VirtualLearnedPath) * gmap string Z * lanP2P :=
  let '(reports, lastBytes, x) := acc in
  let '(st, total, x) := report_session now (p2p_deviceID x) networkID mtu mss tcpFastPath peerUnavailable
    (default 0 (lastBytes !! PeerID session)) session x in
  let '(paths, hs) := Paths.LearnedPathsSnapshot now (p2p_deviceID x) networkID (p2p_hotPaths x) in
  (reports ++ [(st, paths)], <[PeerID session := total]> lastBytes, put_hotPaths hs x).

(** A round, where there are a server and a link manager: the sessions and the statistics
    are read once, at its start. *)
Definition reportLANPeerRuntime_round (now : Time) (resp : lanBootstrapResponse) (networkID : Z) (lastBytes : gmap string Z) (x : lanP2P)
  : list (VirtualPeerState * list VirtualLearnedPath) * gmap string Z * lanP2P :=
  let mtu := lanNetworkMTU (br_Network resp) in
  let mss := lanNetworkMSS (br_Network resp) mtu in
  fold_left (report_one now networkID mtu mss (vn_TCPFastPath (br_Network resp)) (PeerUnavailable (Drops (r_stats (p2p_router x)))))
    (Sessions (p2p_link x)) ([], lastBytes, x).

(* ------------------------------------------------------------------ *)
(** ** The device *)

(** [isWintunNoPacketError] and a turn of [readWintunPackets]: the frame to queue and the
    pause before the next turn. *)
Definition isWintunNoPacketError (err : string) : bool :=
  let msg := ToLower err in Contains msg "no more data" || Contains msg "没有更多数据".

Definition readWintunPackets_turn (now : Time) (read : result string (list byte)) (queue_full : bool)
  (s : lanWintunReadStats) (router : option Router) : option RoutedFrame * Duration * lanWintunReadStats * option Router :=
  match read with
  | Err e =>
    if isWintunNoPacketError e then
      (None, 0, maybeLog now (mkReadStats (ws_packets s) (ws_bytes s) (ws_tcp s) (ws_udp s) (ws_icmp s) (ws_large s) (u64 (ws_noPacket s + 1))
        (ws_errors s) (ws_queueFull s) (ws_lastLog s)), router)
    else (None, 200 * millisecond, mkReadStats (ws_packets s) (ws_bytes s) (ws_tcp s) (ws_udp s) (ws_icmp s) (ws_large s) (ws_noPacket s)
        (u64 (ws_errors s + 1)) (ws_queueFull s) (ws_lastLog s), router)
  | Ok pkt =>
    let '(frame, s, router) := readWintunPackets_packet now pkt queue_full s router in (frame, 0, s, router)
  end.

(* ------------------------------------------------------------------ *)
(** ** Keys and readiness *)

(** The bits X25519 fixes of a private key. *)
Definition clamp (priv : list byte) : list byte :=
  let at_ i := b2z (nth i priv x00) in
  <[31%nat := z2b (Z.lor (Z.land (at_ 31%nat) 127) 64)]> (<[0%nat := z2b (Z.land (at_ 0%nat) 248)]> priv).

(** [random] is what the random source gives for 32 bytes. *)
Definition newX25519Keypair (random : option (list byte)) : option (list byte * string) :=
  priv ← random;
  pub ← Session.x25519 (clamp priv) Session.x25519_base;
  Some (clamp priv, EncodeToString pub).

(** [confirmLANKCPReady]: what the stream gives, what is sent, and the rest of the
    stream; [None] is an error. The first read of the listener returns at most the length
    of the marker, here all of what is there of it. *)
Definition confirmLANKCPReady (listener : bool) (stream : list byte) : option (list byte * list byte) :=
  if listener then
    if negb (AgentTunnel.ConsumeHandshake stream) then None
    else sent ← writeLANFrame lanKCPReadyFrame; Some (sent, drop (length AgentTunnel.handshakeMarker) stream)
  else rest ← waitLANKCPReadyAck stream; Some ([], rest).
End Loops.

(* ------------------------------------------------------------------ *)
(** ** What the turns do *)

Section Laws.
  Context `{GU : GoUnicode} `{ED : LanIdentity.Ed25519} `{MJ : MessageJSON} `{SC : Session.SessionCrypto} `{XC : SecureFrame.SecureCrypto} `{GT : GoTime}.

Lemma poll_loop_frames ticks a deviceID max : exists frames, (handleLANPacketPoll_loop ticks a deviceID max).1 = RespFrames frames.
Proof.
  revert a. induction ticks as [|others ticks IH]; intros a; cbn [handleLANPacketPoll_loop]; unfold handleLANPacketPoll_attempt;
    destruct (Poll _ _ _) as [[[frames remaining] drops] r]; (case_decide; [by exists frames|]); [by exists []|apply IH].
Qed.

(** A poll of the server decides the turn: while the server does not relay, the client
    only waits, fifteen seconds at a time; when it does, the frames it hands out are taken
    in order and the next poll follows at once. *)
Lemma poll_follows_server (e : penv) (allow : bool) ticks (a : relay_app) (x : lanP2P) :
  TrimSpace (p2p_deviceID x) <> EmptyString ->
  let '(resp, _) := handleLANPacketPoll allow ticks a (Some (p2p_deviceID x, 64)) in
  let turn := pollRelayPackets_turn e (pollRelayFrames (fun _ _ _ => Ok (relay_answer resp)) "http://server" (p2p_deviceID x) 64) x in
  if allow then exists frames, resp = RespFrames frames /\ turn = (false, Pending.lanPacketPollInterval, fold_left (poll_frame e) frames x)
  else turn = (true, 15 * second, x).
Proof.
  intros HD. unfold handleLANPacketPoll. destruct allow; cbn [negb].
  - rewrite decide_False by done. destruct (poll_loop_frames ticks a (p2p_deviceID x) 64) as [frames E].
    destruct (handleLANPacketPoll_loop _ _ _ _) as [resp a']. cbn in E. subst resp. by exists frames.
  - unfold pollRelayPackets_turn, pollRelayFrames, postLANJSON, relay_answer. cbn [ha_status ha_code ha_error ha_body].
    rewrite decide_True by lia. rewrite decide_True by done. reflexivity.
Qed.

Lemma length_clamp k : length (clamp k) = length k.
Proof. unfold clamp. by rewrite !length_insert. Qed.

(** The keys two devices make at their start, each from its own random bytes and the text
    the other announces, give codecs that open what the other seals, in both directions;
    the law of X25519 is that it does not matter which of the two scalars multiplies the
    base point first. *)
Lemma fresh_keys_agree (ra rb : list byte) pa pb (ka kb : string) (idA idB : string) tx rx :
  (forall a b pa pb, Session.x25519 a Session.x25519_base = Some pa -> Session.x25519 b Session.x25519_base = Some pb -> Session.x25519 a pb = Session.x25519 b pa) ->
  (forall a p, Session.x25519 a Session.x25519_base = Some p -> length p = 32%nat) ->
  newX25519Keypair (Some ra) = Some (pa, ka) -> newX25519Keypair (Some rb) = Some (pb, kb) -> idA <> idB ->
  Session.lanPeerCodecsFromX25519 pa (DecodeString kb) idA idB = Ok (tx, rx) ->
  Session.lanPeerCodecsFromX25519 pb (DecodeString ka) idB idA = Ok (rx, tx).
Proof.
  intros DH LEN HA HB Hne. unfold newX25519Keypair in HA, HB. cbn [mbind option_bind] in HA, HB.
  destruct (Session.x25519 (clamp ra) _) as [pubA|] eqn:EA; [|done]. destruct (Session.x25519 (clamp rb) _) as [pubB|] eqn:EB; [|done].
  injection HA as <- <-. injection HB as <- <-. rewrite !DecodeString_EncodeToString.
  apply Session.peer_codecs_agree; [|done|by eapply LEN]. by eapply DH.
Qed.

Lemma read_ready_frame rest : readLANFrame (default [] (writeLANFrame lanKCPReadyFrame) ++ rest) = Some (lanKCPReadyFrame, rest).
Proof. apply Delivery.write_read. reflexivity. Qed.

(** The ends of a KCP stream find each other ready: what the dialer sends when it opens
    the session is what the listener waits for, what the listener answers is what the
    dialer waits for, and neither takes more than that from the stream. *)
Lemma ready_both_ends (now : Time) peer conv profile k calls (moreA moreB : list byte) :
  Conversations.Open now peer false conv profile k = (Ok tt, calls) ->
  exists ack, confirmLANKCPReady true (Conversations.session_bytes calls ++ moreA) = Some (ack, moreA) /\
    confirmLANKCPReady false (ack ++ moreB) = Some ([], moreB).
Proof.
  intros HO. assert (HS : Conversations.session_bytes calls = AgentTunnel.handshakeMarker).
  { unfold Conversations.Open in HO. destruct peer as [dst|]; [|done]. destruct (negb _); [done|]. destruct (Conversations.ko_write k); [|done].
    injection HO as <-. cbn [Conversations.session_bytes foldr]. change (foldr _ [] ?l) with (Conversations.session_bytes l).
    by rewrite Conversations.session_bytes_app, Conversations.tune_sends_nothing. }
  exists (default [] (writeLANFrame lanKCPReadyFrame)). split.
  - unfold confirmLANKCPReady. rewrite (Conversations.open_handshake now peer conv profile k) by done. cbn [negb].
    rewrite HS. rewrite drop_app_length. reflexivity.
  - unfold confirmLANKCPReady, waitLANKCPReadyAck. rewrite read_ready_frame. reflexivity.
Qed.
(** A round reports every session once, in the order of the peers, and remembers what
    each had carried. *)
Lemma round_reports_each (now : Time) resp networkID lastBytes x reports lastBytes' x' :
  reportLANPeerRuntime_round now resp networkID lastBytes x = (reports, lastBytes', x') ->
  map (fun r => ps_PeerID r.1) reports = map PeerID (Sessions (p2p_link x)) /\
  (forall s, s ∈ Sessions (p2p_link x) -> is_Some (lastBytes' !! PeerID s)) /\
  Sorted by_peer (Sessions (p2p_link x)).
Proof.
  unfold reportLANPeerRuntime_round. set (f := report_one _ _ _ _ _ _). intros HR.
  assert (H : forall l acc, let '(rs, lb, y) := fold_left f l acc in
    map (fun r => ps_PeerID r.1) rs = map (fun r => ps_PeerID r.1) acc.1.1 ++ map PeerID l /\
    (forall id, is_Some (acc.1.2 !! id) -> is_Some (lb !! id)) /\ (forall s, s ∈ l -> is_Some (lb !! PeerID s))).
  { induction l as [|s l IH]; intros [[rs lb] y].
    - cbn. split_and!; [by rewrite app_nil_r|done|intros s Hs; by apply not_elem_of_nil in Hs].
    - cbn [fold_left]. specialize (IH (f (rs, lb, y) s)).
      assert (E : exists st paths total y', f (rs, lb, y) s = (rs ++ [(st, paths)], <[PeerID s := total]> lb, y') /\ ps_PeerID st = PeerID s).
      { subst f. unfold report_one. destruct (report_session _ _ _ _ _ _ _ _ _ _) as [[st total] y1] eqn:ER.
        destruct (Paths.LearnedPathsSnapshot _ _ _ _) as [paths hs]. eexists _, _, _, _. split; [done|].
        unfold report_session in ER. destruct (peerDataPath _ _ _). destruct (diagnosticsSnapshot _ _). by injection ER as <- _ _. }
      destruct E as (st & paths & total & y' & Ef & Ep). rewrite Ef in *. destruct (fold_left f l _) as [[rs1 lb1] y1]. cbn [fst snd] in *.
      destruct IH as (I1 & I2 & I3). split_and!.
      + rewrite I1, map_app. cbn. by rewrite Ep, <- app_assoc.
      + intros id Hid. apply I2. destruct (decide (id = PeerID s)) as [->|]; [by rewrite lookup_insert_eq|by rewrite lookup_insert_ne].
      + intros s' [->|Hs']%elem_of_cons; [|by apply I3]. apply I2. by rewrite lookup_insert_eq. }
  specialize (H (Sessions (p2p_link x)) ([], lastBytes, x)). rewrite HR in H. destruct H as (H1 & _ & H3). split_and!; [done|done|].
  apply Sorted_merge_sort. intros a b. unfold by_peer. apply (total String.le).
Qed.
End Laws.
