(* ===== verification/Upnp.v ===== *)
(** * Upnp: port mappings (internal/upnp/upnp.go and its callers)

    The gateway and the library that talks to it are not under src/: what the code asks
    of them is the class [Gateway], and that a mapping lives for the lease it was added
    with, [GatewayLaws]. The loops that renew a mapping are the ones of both clients. *)

From S2P Require Import Prelude GoStrings.

(** [maps t p g]: the external port the gateway forwards to the internal port [p] at [t]. *)
Class Gateway (G : Type) := {
  DiscoverGateway : G -> bool;
  GetExternalAddress : G -> option string;
  AddPortMapping : Time -> Z -> string -> Duration -> G -> option Z * G;
  DeletePortMapping : Time -> Z -> G -> bool * G;
  maps : Time -> Z -> G -> option Z;
}.

(** A mapping holds for its lease and no longer, unless it is renewed; an attempt that
    fails changes nothing. *)
Class GatewayLaws (G : Type) (GW : Gateway G) : Prop := {
  added_maps now p desc lease g ext g' t :
    AddPortMapping now p desc lease g = (Some ext, g') -> now <= t < now + lease -> maps t p g' = Some ext;
  added_expires now p desc lease g ext g' t :
    AddPortMapping now p desc lease g = (Some ext, g') -> now + lease <= t -> maps t p g' = None;
  failed_keeps now p desc lease g g' : AddPortMapping now p desc lease g = (None, g') -> g' = g;
}.

Record Mapping : Type := mkMapping { ExternalIP : string; ExternalPort : Z; InternalPort : Z; desc : string }.

Inductive upnp_error : Type := ErrDiscover | ErrExternal | ErrAddMapping | ErrTimeout | ErrCancelled | ErrNilMapping.

#[export] Instance upnp_error_eq_dec : EqDecision upnp_error.
Proof. solve_decision. Defined.

Definition lease : Duration := 2 * hour.

Definition External (m : Mapping) : string := (ExternalIP m ++ ":" ++ FormatInt (ExternalPort m))%string.

(** Which of the three the [select] at the end of [Try] sees first. *)
Inductive try_end : Type := TryDone | TryTimer | TryContext.

Section Upnp.
  Context {G : Type} `{GW : Gateway G}.

Definition Close (now : Time) (m : option Mapping) (g : G) : bool * G :=
  match m with None => (true, g) | Some m => DeletePortMapping now (InternalPort m) g end.

Definition Refresh (now : Time) (m : option Mapping) (g : G) : result upnp_error unit * G :=
  match m with
  | None => (Err ErrNilMapping, g)
  | Some m => let '(r, g) := AddPortMapping now (InternalPort m) (desc m) lease g in (match r with Some _ => Ok tt | None => Err ErrAddMapping end, g)
  end.

(** The goroutine of [Try], which runs to its end even when nobody waits for it. *)
Definition try_mapping (now : Time) (localPort : Z) (d : string) (g : G) : result upnp_error Mapping * G :=
  if negb (DiscoverGateway g) then (Err ErrDiscover, g)
  else match GetExternalAddress g with
  | None => (Err ErrExternal, g)
  | Some ext =>
    match AddPortMapping now localPort d lease g with
    | (None, g) => (Err ErrAddMapping, g)
    | (Some mappedPort, g) => (Ok (mkMapping ext mappedPort localPort d), g)
    end
  end.

Definition Try (now : Time) (localPort : Z) (d : string) (how : try_end) (g : G) : result upnp_error Mapping * G :=
  let '(r, g) := try_mapping now localPort d g in
  (match how with TryDone => r | TryTimer => Err ErrTimeout | TryContext => Err ErrCancelled end, g).

(** cmd/UDPTunnelLAN/packet_runtime.go: the mapping of a socket, when it has a port, and
    the address to announce. *)
Definition tryLANUPnP (now : Time) (localPort : option Z) (deviceID : string) (how : try_end) (g : G) : (option Mapping * string) * G :=
  match localPort with
  | None => (None, EmptyString, g)
  | Some port =>
    if decide (port <= 0) then (None, EmptyString, g)
    else match Try now port ("udp-tunnel-lan " ++ deviceID)%string how g with
    | (Err _, g) => (None, EmptyString, g)
    | (Ok m, g) => (Some m, External m, g)
    end
  end.

(** A tick of [refreshCurrentUPnPMapping]: whether the loop goes on. *)
Definition refreshCurrentUPnPMapping_tick (now : Time) (m : option Mapping) (g : G) : bool * G :=
  match m with None => (false, g) | Some _ => (true, (Refresh now m g).2) end.

(** cmd/client/main.go: [refreshUPnPMapping], whose context is already at its end or not,
    over the ticks of its ticker. *)
Definition refreshUPnPMapping (ended : bool) (m : Mapping) (ticks : list Time) (g : G) : G :=
  if ended then g else fold_left (fun g t => (Refresh t (Some m) g).2) ticks g.

(** The mapping of an agent's run ([runTunnelOnce]): the context of the call to [Try] is
    cancelled as soon as it returns, and then given to the loop. *)
Definition agent_mapping (now : Time) (localPort : Z) (deviceID : string) (how : try_end) (ticks : list Time) (g : G) : option (Mapping * string) * G :=
  match Try now localPort ("udp-tunnel " ++ deviceID)%string how g with
  | (Err _, g) => (None, g)
  | (Ok m, g) => (Some (m, External m), refreshUPnPMapping true m ticks g)
  end.

(** The LAN client's loop on a mapping that stays the current one. *)
Fixpoint lan_refreshes (m : Mapping) (ticks : list Time) (g : G) : G :=
  match ticks with
  | [] => g
  | t :: ticks => let '(on, g) := refreshCurrentUPnPMapping_tick t (Some m) g in if on then lan_refreshes m ticks g else g
  end.

(** The ticks of a ticker of an hour started at [now]. *)
Definition hourly (now : Time) (n : nat) : list Time := map (fun k => now + Z.of_nat (S k) * hour) (seq 0 n).
End Upnp.

(* ------------------------------------------------------------------ *)
(** ** How long a mapping lasts *)

Section Lifetime.
  Context {G : Type} {GW : Gateway G} {L : GatewayLaws G GW}.

(** The gateway grants every renewal of the port. *)
Definition renews (p : Z) : Prop := forall t d (g : G), exists ext, (AddPortMapping t p d lease g).1 = Some ext.

Lemma refresh_maps m t t' (g : G) : renews (InternalPort m) -> t <= t' < t + lease ->
  exists ext, maps t' (InternalPort m) (Refresh t (Some m) g).2 = Some ext.
Proof.
  intros HR Ht. unfold Refresh. destruct (HR t (desc m) g) as [ext E]. destruct (AddPortMapping _ _ _ _ _) as [r g'] eqn:A.
  cbn in E. subst r. exists ext. cbn. by eapply added_maps.
Qed.

Lemma lan_refreshes_snoc m ticks t (g : G) : lan_refreshes m (ticks ++ [t]) g = (Refresh t (Some m) (lan_refreshes m ticks g)).2.
Proof. revert g. induction ticks as [|u ticks IH]; intros g; cbn; [done|]. apply IH. Qed.

Lemma hourly_S now n : hourly now (S n) = hourly now n ++ [now + Z.of_nat (S n) * hour].
Proof. unfold hourly. by rewrite seq_S, map_app. Qed.

(** C39. A mapping of the LAN client holds as long as its loop renews it, with an hour to
    spare after the last renewal. A mapping of an agent does not: its loop is given a
    context that is already cancelled, renews nothing, and after the lease of two hours the
    address the run still announces leads nowhere. *)
Theorem mapping_lifetime (now : Time) (port : Z) (deviceID : string) (n : nat) (t : Time) (ticks : list Time) (g : G) :
  renews port -> 0 < port ->
  (forall m addr g', tryLANUPnP now (Some port) deviceID TryDone g = (Some m, addr, g') ->
    now + Z.of_nat n * hour <= t < now + (Z.of_nat n + 2) * hour ->
    exists ext, maps t port (lan_refreshes m (hourly now n) g') = Some ext) /\
  (forall m addr g', agent_mapping now port deviceID TryDone ticks g = (Some (m, addr), g') ->
    (now <= t < now + 2 * hour -> maps t port g' = Some (ExternalPort m)) /\ (now + 2 * hour <= t -> maps t port g' = None)).
Proof.
  intros HR Hp. split.
  - intros m addr g' HT Ht. unfold tryLANUPnP in HT. rewrite decide_False in HT by lia. unfold Try, try_mapping in HT.
    destruct (negb _); [done|]. destruct (GetExternalAddress g) as [ip|]; [|done].
    destruct (AddPortMapping _ _ _ _ _) as [[ext|] g1] eqn:A; [|done]. injection HT as <- _ <-. destruct n as [|n].
    + exists ext. eapply added_maps; [exact A|]. unfold lease. lia.
    + rewrite hourly_S, lan_refreshes_snoc. apply (refresh_maps (mkMapping ip ext port _)); [exact HR|]. unfold lease. lia.
  - intros m addr g' HT. unfold agent_mapping, Try, try_mapping in HT.
    destruct (negb _); [done|]. destruct (GetExternalAddress g) as [ip|]; [|done].
    destruct (AddPortMapping _ _ _ _ _) as [[ext|] g1] eqn:A; [|done]. injection HT as <- _ <-. cbn [refreshUPnPMapping ExternalPort]. split; intros Ht.
    + by eapply added_maps.
    + by eapply added_expires.
Qed.
End Lifetime.

(* ------------------------------------------------------------------ *)
(** ** Witness *)

(** A gateway that keeps the external port and the end of the lease per internal port. *)
#[export] Instance toy_gateway : Gateway (gmap Z (Z * Time)) := {|
  DiscoverGateway _ := true;
  GetExternalAddress _ := Some "203.0.113.5"%string;
  AddPortMapping now p _ l g := (Some (p + 1000), <[p := (p + 1000, now + l)]> g);
  DeletePortMapping _ p g := (true, delete p g);
  maps t p g := '(ext, until) ← g !! p; if decide (t < until) then Some ext else None;
|}.

#[export] Instance toy_gateway_laws : GatewayLaws (gmap Z (Z * Time)) toy_gateway.
Proof.
  split; intros now p d l g.
  - intros ext g' t [= <- <-] Ht. cbn. rewrite lookup_insert_eq. cbn. by rewrite decide_True by lia.
  - intros ext g' t [= <- <-] Ht. cbn. rewrite lookup_insert_eq. cbn. by rewrite decide_False by lia.
  - done.
Qed.

Lemma mapping_lifetime_witness :
  (exists m addr g', tryLANUPnP 0 (Some 4000) "dev-a" TryDone (∅ : gmap Z (Z * Time)) = (Some m, addr, g') /\
    addr = "203.0.113.5:5000"%string /\ exists ext, maps (11 * hour) 4000 (lan_refreshes m (hourly 0 10) g') = Some ext) /\
  (exists m addr g', agent_mapping 0 4000 "dev-a" TryDone (hourly 0 10) (∅ : gmap Z (Z * Time)) = (Some (m, addr), g') /\
    addr = "203.0.113.5:5000"%string /\ maps (11 * hour) 4000 g' = None).
Proof.
  destruct (mapping_lifetime 0 4000 "dev-a" 10 (11 * hour) (hourly 0 10) (∅ : gmap Z (Z * Time))) as [HL HA].
  - intros t d g. eexists. reflexivity.
  - lia.
  - split.
    + eexists _, _, _. split; [reflexivity|]. split; [vm_compute; reflexivity|]. eapply HL; [reflexivity|unfold hour, minute, second, millisecond; lia].
    + eexists _, _, _. split; [reflexivity|]. split; [vm_compute; reflexivity|]. eapply HA; [reflexivity|unfold hour, minute, second, millisecond; lia].
Defined.
