(* ===== verification/NatProbe.v ===== *)
(** * NatProbe: which kind of NAT a client is behind (cmd/client/main.go)

    The client asks the two ports of the rendezvous server, from one socket, which
    address they see. What arrives at the socket is an argument; composed with the
    server's steps of [ServerUDP] and a NAT, the answer is the NAT's
    ([probe_finds_nat]). *)

From S2P Require Import Prelude GoStrings Protocol Session ServerUtil ServerUDP Relay AgentTunnel AgentServe ClientConfig Bootstrap.
From S2P Require SecureFrame Settings LanIdentity.

Record natProbeResult : Type := mkNat { nr_NATType : string; nr_PrimaryAddr : string; nr_AltAddr : string; nr_ForceRelay : bool }.

(** [natRuntime]: the result the agent's loop shares. *)
Definition natRuntime : Type := natProbeResult.
Definition natRuntime_Set (res : natProbeResult) (n : natRuntime) : natRuntime := res.

Inductive probe_error : Type := ErrBadServer | ErrListen | ErrNoReply (label : string).

#[export] Instance probe_error_eq_dec : EqDecision probe_error.
Proof. solve_decision. Defined.

(** The resolver, the socket, the nonces, and what arrives within the deadline once a
    request is sent to an address. *)
Record probe_net : Type := mkProbeNet {
  pn_resolve : string -> option string; pn_listen : bool; pn_nonce : string -> option (list byte);
  pn_arrives : string -> list byte -> list (string * list byte) }.

Section Probe.
  Context `{MJ : MessageJSON} `{SC : SecureFrame.SecureCrypto}.

Definition stun_request : Message := mkMessage MsgStunReq EmptyString EmptyString EmptyString EmptyString EmptyString EmptyString EmptyString 0 EmptyString.

(** One datagram, at most as long as the buffer: the address in the answer it carries. *)
Definition ask_datagram (codec : option SecureFrame.Codec) (allowLegacy : bool) (data : list byte) : option string :=
  let data := take 4096 data in
  let opened : option (list byte) :=
    if SecureFrame.IsFrame data && bool_decide (codec <> None) then
      match SecureFrame.Open codec data with
      | Ok (kind, payload) => if decide (kind <> SecureFrame.KindControl) then None else Some payload
      | Err _ => None
      end
    else if negb allowLegacy then None else Some data in
  data ← opened;
  msg ← Decode data;
  if decide (Type_ msg = MsgStunResp) then Some (Addr msg) else None.

(** The read loop, up to the deadline: the address and what is still to be read. *)
Fixpoint ask_loop (codec : option SecureFrame.Codec) (allowLegacy : bool) (target : string) (inbox : list (string * list byte))
  : option (string * list (string * list byte)) :=
  match inbox with
  | [] => None
  | (src, data) :: inbox =>
    if decide (src <> target) then ask_loop codec allowLegacy target inbox
    else match ask_datagram codec allowLegacy data with
    | Some addr => Some (addr, inbox)
    | None => ask_loop codec allowLegacy target inbox
    end
  end.

(** What is sent to a target; sealing that fails sends nothing in the datagram. *)
Definition request_bytes (codec : option SecureFrame.Codec) (nonce : option (list byte)) : list byte :=
  match codec with
  | None => Encode stun_request
  | Some c => match SecureFrame.Seal (Some c) nonce SecureFrame.KindControl (Encode stun_request) with Ok b => b | Err _ => [] end
  end.

Definition ask (n : probe_net) (codec : option SecureFrame.Codec) (allowLegacy : bool) (target : option string) (label : string)
  (waiting : list (string * list byte)) : result probe_error (string * list (string * list byte)) :=
  match target with
  | None => Err (ErrNoReply label)       (* the address is nil: no source has its name *)
  | Some target =>
    match ask_loop codec allowLegacy target (waiting ++ pn_arrives n target (request_bytes codec (pn_nonce n label))) with
    | None => Err (ErrNoReply label)
    | Some r => Ok r
    end
  end.

Definition port_of (addr : string) : string := match SplitHostPort addr with Some (_, p) => p | None => EmptyString end.

Definition probe_codec (psk : string) : option SecureFrame.Codec :=
  if decide (psk <> EmptyString) then match SecureFrame.NewCodec psk with Ok c => Some c | Err _ => None end else None.

Definition alt_addr (host : string) (altPort : Z) : string := (host ++ ":" ++ FormatInt altPort)%string.

Definition probeNAT (n : probe_net) (server : string) (altPort : Z) (psk : string) (allowLegacy : bool) : result probe_error natProbeResult :=
  match SplitHostPort server with
  | None => Err ErrBadServer
  | Some (host, _) =>
    let primary := pn_resolve n server in
    let alt := pn_resolve n (alt_addr host altPort) in
    if negb (pn_listen n) then Err ErrListen
    else
      let codec := probe_codec psk in
      '(a1, waiting) ← ask n codec allowLegacy primary "probe#1" [];
      '(a2, _) ← ask n codec allowLegacy alt "probe#2" waiting;
      if decide (port_of a1 = port_of a2) then Ok (mkNat "cone" a1 a2 false) else Ok (mkNat "symmetric" a1 a2 true)
  end.

Definition autoDetectNAT (n : probe_net) (cfg : Client) (altPort : Z) : natProbeResult :=
  if cc_ForceRelay cfg then mkNat "manual-relay" EmptyString EmptyString true
  else match probeNAT n (cc_Server cfg) altPort (cc_PSK cfg) (cc_AllowLegacy cfg) with
  | Err _ => mkNat "unknown" EmptyString EmptyString false
  | Ok res => if decide (nr_NATType res = "symmetric"%string) then mkNat (nr_NATType res) (nr_PrimaryAddr res) (nr_AltAddr res) true else res
  end.

Definition udpToHTTP (server : string) : string :=
  match SplitHostPort server with
  | None => ("http://" ++ server)%string
  | Some (host, _) => ("http://" ++ JoinHostPort host "7001")%string
  end.
End Probe.

(* ------------------------------------------------------------------ *)
(** ** The probe against the server *)

Section Server.
  Context `{GU : GoUnicode} `{MJ : MessageJSON} `{ED : LanIdentity.Ed25519} `{SC : SecureFrame.SecureCrypto}.
  Variables (a : cipherAEAD).
  Hypothesis laws : AEADLaws a.
  Hypothesis overhead : aead_overhead a = 16%nat.
  Hypothesis json : forall m, Decode (Encode m) = Some m.
  (** No sealed frame is a JSON text. *)
  Hypothesis frames_no_json : forall d, SecureFrame.IsFrame d = true -> Decode d = None.
  Notation key := (SecureFrame.mkCodec a).

(** The datagrams of a step to an address, as they arrive from the port [from]. *)
Definition replies (from dst : string) (fx : list effect) : list (string * list byte) :=
  omap (fun f => match f with WriteToUDP data d => if decide (d = dst) then Some (from, data) else None | _ => None end) fx.

(** The client behind a NAT that shows it to a port as [ext port]: what reaches the
    primary port [ps] is a step of [runUDP], what reaches the other one of [runStunAlt];
    other datagrams may arrive before the answer. *)
Definition served_net (e e' : Env) (s s' : App) (ext : string -> string) (ps pa server alt : string) (noise : string -> list (string * list byte)) (n : probe_net) : Prop :=
  pn_resolve n server = Some ps /\ pn_resolve n alt = Some pa /\ pn_listen n = true /\ good_nonces (pn_nonce n) /\
  (forall d, pn_arrives n ps d = noise ps ++ replies ps (ext ps) (runUDP_step e s (ext ps) d).2) /\
  (forall d, pn_arrives n pa d = noise pa ++ replies pa (ext pa) (runStunAlt_step e' s' (ext pa) d)) /\
  (forall t, Forall (fun p => p.1 <> ps /\ p.1 <> pa) (noise t)).

Lemma ask_skips_noise c l t noise rest : Forall (fun p => p.1 <> t) noise -> ask_loop c l t (noise ++ rest) = ask_loop c l t rest.
Proof.
  induction noise as [|[src d] noise IH]; intros F; [done|]. apply Forall_cons in F as [N F]. cbn [app ask_loop].
  rewrite decide_True by done. by apply IH.
Qed.

Lemma carried_short n p d : SecureFrame.Seal (Some key) (Some n) SecureFrame.KindControl p = Ok d -> length n = SecureFrame.NonceSizeX ->
  (length d = length p + 46)%nat.
Proof.
  intros E Hn. unfold SecureFrame.Seal in E. apply (f_equal (fun r => match r with Ok b => length b | Err _ => O end)) in E.
  cbv beta iota zeta in E. rewrite length_app, aead_seal_length in E. cbn [SecureFrame.aead] in E. rewrite overhead, !length_app, Hn in E.
  unfold SecureFrame.NonceSizeX in E. simpl in E. lia.
Qed.

Lemma ask_answered l d addr : (length d <= 4096)%nat -> carries a d SecureFrame.KindControl (Encode (stun_response addr)) ->
  ask_datagram (Some key) l d = Some addr.
Proof.
  intros L (Hf & _ & Ho). unfold ask_datagram. rewrite take_ge by done. rewrite Hf, bool_decide_eq_true_2 by done. cbn [andb].
  rewrite Ho, decide_False by tauto. cbn [mbind option_bind]. rewrite json. cbn [mbind option_bind]. by rewrite decide_True.
Qed.

Lemma stun_reply e s src fx : codec s = Some key -> good_nonces (nonce_for e) -> writeControl e s src (stun_response src) = fx ->
  (length (Encode (stun_response src)) <= 4050)%nat -> forall from,
  exists d, replies from src fx = [(from, d)] /\ (length d <= 4096)%nat /\ carries a d SecureFrame.KindControl (Encode (stun_response src)).
Proof.
  intros Hc Hn <- L from. destruct (Hn src) as (n & En & Ln).
  destruct (seal_carries a laws overhead n SecureFrame.KindControl (Encode (stun_response src)) Ln) as (d & Hs & Hd).
  exists d. unfold writeControl. rewrite Hc, En, Hs. split; [cbn; by rewrite decide_True|]. split; [|done].
  rewrite (carried_short n (Encode (stun_response src)) d Hs Ln). lia.
Qed.

Lemma request_carries n label : good_nonces (pn_nonce n) -> carries a (request_bytes (Some key) (pn_nonce n label)) SecureFrame.KindControl (Encode stun_request).
Proof.
  intros Hn. destruct (Hn label) as (w & En & Ln). destruct (seal_carries a laws overhead w SecureFrame.KindControl (Encode stun_request) Ln) as (d & Hs & Hd).
  unfold request_bytes. by rewrite En, Hs.
Qed.

Lemma primary_answers e s src d : codec s = Some key -> carries a d SecureFrame.KindControl (Encode stun_request) ->
  (runUDP_step e s src d).2 = writeControl e s src (stun_response src).
Proof.
  intros Hc Hd. rewrite (relay_skips a e s src d SecureFrame.KindControl (Encode stun_request) Hc Hd) by (left; discriminate).
  rewrite decide_False by tauto. rewrite json. by rewrite decide_True.
Qed.

Lemma alt_answers e s src d : codec s = Some key -> carries a d SecureFrame.KindControl (Encode stun_request) ->
  runStunAlt_step e s src d = writeControl e s src (stun_response src).
Proof.
  intros Hc (Hf & _ & Ho). unfold runStunAlt_step, openPacket. unfold is_stun_req at 1. rewrite (frames_no_json d Hf), Hf, Hc, Ho.
  rewrite decide_False by tauto. unfold is_stun_req. rewrite json. by rewrite bool_decide_eq_true_2.
Qed.

End Server.

(* ------------------------------------------------------------------ *)
(** ** Without a key *)

(** A client without a key that refuses legacy packets takes no datagram for an answer,
    sealed or not, so it never learns what its NAT does. That is how a server without a
    key configures its clients by default: it turns legacy mode on for itself only. *)
Theorem keyless_clients_are_blind `{GU : GoUnicode} `{MJ : MessageJSON} `{SC : SecureFrame.SecureCrypto} (sv : Settings.Server) (m : http_meta)
  (local : Client) (n : probe_net) (altPort : Z) :
  Settings.sv_PSK sv = EmptyString -> Settings.sv_ClientAllowLegacy sv = false -> Settings.sv_ClientForceRelay sv = false ->
  Settings.sv_AllowLegacy (Settings.start_config sv) = true /\
  autoDetectNAT n (served (Settings.start_config sv) m local) altPort = mkNat "unknown" EmptyString EmptyString false.
Proof.
  intros Hp Hl Hf. unfold Settings.start_config. rewrite decide_True by done. split; [done|]. unfold autoDetectNAT, served.
  cbn [cc_ForceRelay cc_Server cc_PSK cc_AllowLegacy Settings.set_AllowLegacy Settings.sv_ClientForceRelay Settings.sv_ClientAllowLegacy Settings.sv_PSK].
  rewrite Hp, Hl, Hf. unfold probeNAT. destruct (SplitHostPort _) as [[host port]|]; [|done]. destruct (pn_listen n); [|done]. cbn [negb].
  change (probe_codec EmptyString) with (@None SecureFrame.Codec).
  assert (B : forall target inbox, ask_loop None false target inbox = None).
  { intros target inbox. induction inbox as [|[src d] inbox IH]; [done|]. cbn [ask_loop]. case_decide; [exact IH|].
    unfold ask_datagram. rewrite andb_false_r. exact IH. }
  assert (A : forall target label w, ask n None false target label w = Err (ErrNoReply label)).
  { intros [target|] label w; [|done]. unfold ask. by rewrite B. }
  rewrite A. reflexivity.
Qed.

(* ------------------------------------------------------------------ *)
(** ** Witnesses *)

Section Witnesses.
  #[local] Existing Instances ascii_unicode bin_json toy_secure LanIdentity.toy_ed.

Lemma bin_json_frames d : SecureFrame.IsFrame d = true -> @Decode bin_json d = None.
Proof. unfold SecureFrame.IsFrame. intros H%bool_decide_eq_true. destruct H as [_ H]. destruct d as [|b d]; [done|]. by injection H as -> _. Qed.

Definition psk_aead : cipherAEAD := match SecureFrame.NewCodec "psk" with Ok c => SecureFrame.aead c | Err _ => toy_aead [] end.
Definition psk_app : App := mkApp ServerUDP.toy_cfg (Some (SecureFrame.mkCodec psk_aead)) 0 0 0 ∅ ∅ ∅ ∅.

(** A NAT that keeps the address and changes the port, and a stranger's datagram. *)
Definition toy_ext (t : string) : string := if decide (t = "9.9.9.9:7000"%string) then "1.2.3.4:4000" else "1.2.3.4:4001".
Definition toy_noise (t : string) : list (string * list byte) := [("6.6.6.6:6"%string, [x01])].
Definition toy_probe : probe_net := {|
  pn_resolve := Some; pn_listen := true; pn_nonce _ := Some SecureFrame.toy_nonce;
  pn_arrives t d := toy_noise t ++
    (if decide (t = "9.9.9.9:7000"%string) then replies t (toy_ext t) (runUDP_step toy_env psk_app (toy_ext t) d).2
     else replies t (toy_ext t) (runStunAlt_step toy_env psk_app (toy_ext t) d)) |}.


Lemma keyless_clients_are_blind_witness :
  autoDetectNAT toy_probe (served (Settings.start_config Settings.DefaultServer) toy_meta toy_local) 7002 = mkNat "unknown" EmptyString EmptyString false.
Proof. apply (keyless_clients_are_blind Settings.DefaultServer toy_meta toy_local toy_probe 7002); reflexivity. Defined.
End Witnesses.
