(* ===== verification/ClientMain.v ===== *)
(** * ClientMain: how the client starts (cmd/client/main.go)

    The command line, the file, the bootstrap and the probe decide what a client runs:
    [main] is that decision, and [runServiceAgent] the one of the Windows service. What
    the parts then do is in [AgentLoop], [AgentTunnel], [ClientConfig] and [Updates];
    the tray, the service manager and the logs are left out. *)

From S2P Require Import Prelude GoStrings WinArgs GoJSON ServerUtil Gorm ControlStore AgentServe Machine ClientConfig Updates Bootstrap NatProbe.
From S2P Require Settings Store Forward SecureFrame Protocol AdminAuth AgentTunnel LanIdentity SettingsLaws.

(* ------------------------------------------------------------------ *)
(** ** The command line (the flag package) *)

Inductive flag_kind : Type := FlagString | FlagBool | FlagInt | FlagDuration.

Definition client_flags : list (string * flag_kind) := [
  ("config", FlagString); ("server", FlagString); ("server-http", FlagString); ("id", FlagString); ("peer", FlagString); ("psk", FlagString);
  ("probe", FlagBool); ("alt-port", FlagInt); ("punch-timeout", FlagDuration); ("force-relay", FlagBool); ("no-upnp", FlagBool);
  ("upnp-timeout", FlagDuration); ("agent", FlagBool); ("tray", FlagBool); ("service", FlagBool); ("install-service", FlagBool);
  ("uninstall-service", FlagBool); ("start-service", FlagBool); ("stop-service", FlagBool); ("restart-service", FlagBool);
  ("check-updates", FlagBool); ("updater", FlagBool); ("update-package", FlagString); ("apply-client-config", FlagString);
  ("forward", FlagString)]%string.

(** [strconv.ParseInt(s, 0, 64)], whose base is in the text. *)
Class GoInt := { ParseInt0 : string -> option Z }.

Section Flags.
  Context `{GD : Settings.GoDuration} `{GI : GoInt}.

Definition flag_value_ok (k : flag_kind) (v : string) : bool :=
  match k with
  | FlagString => true
  | FlagBool => bool_decide (Settings.ParseBool v <> None)
  | FlagInt => bool_decide (ParseInt0 v <> None)
  | FlagDuration => bool_decide (Settings.ParseDuration v <> None)
  end.

Definition lookup_flag (flags : list (string * flag_kind)) (name : string) : option flag_kind :=
  snd <$> List.find (fun kv => bool_decide (kv.1 = name)) flags.

(** The name of an argument that is a flag, and its value after an equals sign: [None]
    ends the flags, an error is a name that is none. *)
Definition flag_name (arg : string) : option (result unit (string * option string)) :=
  let flag l :=
    match l with
    | [] => Err tt
    | b :: _ =>
      if decide (b = x2d \/ b = x3d) then Err tt
      else match cut_bytes x3d l with Some (n, v) => Ok (string_of n, Some (string_of v)) | None => Ok (string_of l, None) end
    end in
  match bytes_of arg with
  | b :: l =>
    if decide (b <> x2d \/ l = []) then None
    else match l with
    | b' :: l' => if decide (b' = x2d) then (if decide (l' = []) then None else Some (flag l')) else Some (flag l)
    | [] => None
    end
  | [] => None
  end.

(** [fs.Parse]: the values set, in order; [None] is a usage error, which ends the
    program. Each step takes an argument: their number is fuel enough. *)
Fixpoint parse_flags (flags : list (string * flag_kind)) (args : list string) : option (list (string * string)) :=
  match args with
  | [] => Some []
  | arg :: args =>
    match flag_name arg with
    | None => Some []
    | Some (Err _) => None
    | Some (Ok (name, value)) =>
      match lookup_flag flags name with
      | None => None
      | Some FlagBool =>
        let v := default "true"%string value in
        if flag_value_ok FlagBool v then rest ← parse_flags flags args; Some ((name, v) :: rest) else None
      | Some k =>
        match value, args with
        | Some v, _ => if flag_value_ok k v then rest ← parse_flags flags args; Some ((name, v) :: rest) else None
        | None, v :: args => if flag_value_ok k v then rest ← parse_flags flags args; Some ((name, v) :: rest) else None
        | None, [] => None
        end
      end
    end
  end.

(** The value a flag ends up with, and whether it was set. *)
Definition flag_last (fl : list (string * string)) (name : string) : option string :=
  snd <$> last (List.filter (fun kv => bool_decide (kv.1 = name)) fl).
Definition flagSet (fl : list (string * string)) (name : string) : bool := existsb (fun kv => bool_decide (kv.1 = name)) fl.
Definition flag_string (fl : list (string * string)) (name zero : string) : string := default zero (flag_last fl name).
Definition flag_bool (fl : list (string * string)) (name : string) : bool := default false (v ← flag_last fl name; Settings.ParseBool v).
Definition flag_int (fl : list (string * string)) (name : string) (zero : Z) : Z := default zero (v ← flag_last fl name; ParseInt0 v).
(** [multiFlag]. *)
Definition forwards (fl : list (string * string)) : list string := map snd (List.filter (fun kv => bool_decide (kv.1 = "forward"%string)) fl).

(** The flags set on the command line win over the file. *)
Definition apply_flags (fl : list (string * string)) (c : Client) : Client :=
  let str name old := match flag_last fl name with Some v => v | None => old end in
  let dur name old := match v ← flag_last fl name; Settings.ParseDuration v with Some d => d | None => old end in
  let boo name old := match v ← flag_last fl name; Settings.ParseBool v with Some b => b | None => old end in
  mkClient (str "server"%string (cc_Server c)) (str "server-http"%string (cc_ServerHTTP c)) (str "id"%string (cc_DeviceID c)) (cc_DeviceName c)
    (str "peer"%string (cc_PeerID c)) (str "psk"%string (cc_PSK c)) (boo "no-upnp"%string (cc_NoUPnP c))
    (dur "upnp-timeout"%string (cc_UPnPTimeout c)) (cc_LogLevel c) (cc_TrayEnabled c) (dur "punch-timeout"%string (cc_PunchTimeout c))
    (boo "force-relay"%string (cc_ForceRelay c)) (cc_AllowLegacy c) (if decide (forwards fl = []) then cc_Forwards c else forwards fl).
End Flags.

(* ------------------------------------------------------------------ *)
(** ** What is started *)

Inductive service_command : Type := InstallService | UninstallService | StartService | StopService | RestartService.

Inductive start : Type :=
  | UsageError                                                  (* fs.Parse or log.Fatal *)
  | AppliedConfig (r : result file_error unit)
  | TrayHelper (cfg : Client)
  | ServiceCommand (c : service_command)
  | WindowsService (cfg : Client) (altPort : Z)                 (* runServiceAgent under the service manager *)
  | UpdaterHelper (package : string)
  | BootstrapPage (cfg : Client)                                (* runBootstrapConfigMode *)
  | BootstrapTray (cfg : Client)                                (* runBootstrapTrayMode *)
  | ProbeOnly (server : string) (altPort : Z) (psk : string) (allowLegacy : bool)
  | UpdateCheck (cfg : Client)
  | RunAgent (localCfg runtimeCfg : Client) (nat : natProbeResult) (altPort : Z)
  | RunTunnel (cfg : Client) (profile : string) (rules : list Forward.Rule) (nat : natProbeResult).

Definition needsBootstrapConfig (cfg : Client) (probeMode explicitPeer : bool) : bool :=
  if probeMode then false
  else if decide (cc_Server cfg <> EmptyString) then false
  else if decide (explicitPeer = true /\ cc_ServerHTTP cfg = EmptyString) then false
  else bool_decide (TrimSpace (cc_ServerHTTP cfg) = EmptyString).

Definition shouldRunBootstrapTray (agentMode : bool) (cfg : Client) : bool := agentMode && cc_TrayEnabled cfg.

Definition clientMode (cfg : Client) (agent probe tray service : bool) : string :=
  if service then "service" else if tray then "tray" else if probe then "probe"
  else if decide (agent = true \/ (cc_ServerHTTP cfg <> EmptyString /\ cc_PeerID cfg = EmptyString)) then "agent" else "demo".

(** [parseForwardRules]; [None] is [log.Fatal]. *)
Definition parseForwardRules (values : list string) : option (list Forward.Rule) :=
  mapM (fun s => match Forward.ParseRule s with Ok r => Some r | Err _ => None end) values.

Definition set_server_http (http : string) (c : Client) : Client :=
  mkClient (cc_Server c) http (cc_DeviceID c) (cc_DeviceName c) (cc_PeerID c) (cc_PSK c) (cc_NoUPnP c) (cc_UPnPTimeout c) (cc_LogLevel c)
    (cc_TrayEnabled c) (cc_PunchTimeout c) (cc_ForceRelay c) (cc_AllowLegacy c) (cc_Forwards c).

(** What [runAgent] runs its loop with. *)
Definition agent_config (runtimeCfg : Client) : Client :=
  if decide (cc_ServerHTTP runtimeCfg = EmptyString) then set_server_http (udpToHTTP (cc_Server runtimeCfg)) runtimeCfg else runtimeCfg.

Section Start.
  Context `{GU : GoUnicode} `{GD : Settings.GoDuration} `{GJ : GoJSON} `{GI : GoInt} `{SH : SHA256} `{MJ : Protocol.MessageJSON}
    `{SC : SecureFrame.SecureCrypto}.
  Variables (uuid : string) (hostname : option string) (net : http_client) (udp : probe_net).

(** The settings after the bootstrap, if there is one: [None] is a bootstrap that is
    needed and failed, or whose settings are unusable. *)
Definition bootstrapped (cfg : Client) (altPort : Z) : option (Client * Z) :=
  if decide (cc_ServerHTTP cfg = EmptyString) then Some (cfg, altPort)
  else match agentBootstrap net cfg with
  | Err _ => if decide (cc_Server cfg = EmptyString) then None else Some (cfg, altPort)
  | Ok resp => match mergeBootstrap cfg resp with Err _ => None | Ok merged => Some (merged, br_STUNAltPort resp) end
  end.

Definition bootstrap_unavailable (agent : bool) (cfg : Client) : start :=
  if shouldRunBootstrapTray agent cfg then BootstrapTray cfg else BootstrapPage cfg.

(** The end of [main], once there are settings to run with. *)
Definition main_run (fl : list (string * string)) (cfg runtimeCfg : Client) (altPort : Z) : start :=
  if decide (cc_Server runtimeCfg = EmptyString) then bootstrap_unavailable (flag_bool fl "agent") cfg
  else if flag_bool fl "probe" then ProbeOnly (cc_Server runtimeCfg) altPort (cc_PSK runtimeCfg) (cc_AllowLegacy runtimeCfg)
  else
    let nat := autoDetectNAT udp runtimeCfg altPort in
    if flag_bool fl "check-updates" then UpdateCheck runtimeCfg
    else if decide (flag_bool fl "agent" = true \/
      (cc_ServerHTTP runtimeCfg <> EmptyString /\ cc_DeviceID runtimeCfg <> EmptyString /\ cc_PeerID runtimeCfg = EmptyString))
    then RunAgent cfg (agent_config runtimeCfg) nat altPort
    else if decide (cc_DeviceID runtimeCfg = EmptyString \/ cc_PeerID runtimeCfg = EmptyString) then UsageError
    else match parseForwardRules (cc_Forwards runtimeCfg) with
    | None => UsageError
    | Some rules => RunTunnel runtimeCfg Store.ProfileInteractive rules nat
    end.

Definition service_command_of (fl : list (string * string)) : option service_command :=
  if flag_bool fl "install-service" then Some InstallService
  else if flag_bool fl "uninstall-service" then Some UninstallService
  else if flag_bool fl "start-service" then Some StartService
  else if flag_bool fl "stop-service" then Some StopService
  else if flag_bool fl "restart-service" then Some RestartService
  else None.

(** [main]: what is started and the files it leaves. *)
Definition main (args : list string) (fs : FS) : start * FS :=
  match parse_flags client_flags args with
  | None => (UsageError, fs)
  | Some fl =>
    let configPath := flag_string fl "config" "client.json" in
    let apply := flag_string fl "apply-client-config" EmptyString in
    if decide (apply <> EmptyString) then let '(r, fs) := applyClientConfig apply configPath fs in (AppliedConfig r, fs)
    else
      let loaded := match load_client configPath fs DefaultClient with Ok c => c | Err _ => DefaultClient end in
      let cfg := apply_flags fl loaded in
      let altPort := flag_int fl "alt-port" 7002 in
      if flag_bool fl "tray" then (TrayHelper (ensureRuntimeIdentity uuid hostname cfg).2, fs)
      else match service_command_of fl with
      | Some c => (ServiceCommand c, fs)
      | None =>
        match ensureLocalIdentity uuid hostname cfg configPath fs with
        | (Err _, _, fs) => (UsageError, fs)
        | (Ok _, cfg, fs) =>
          if flag_bool fl "service" then (WindowsService cfg altPort, fs)
          else if flag_bool fl "updater" then (UpdaterHelper (flag_string fl "update-package" EmptyString), fs)
          else if needsBootstrapConfig cfg (flag_bool fl "probe") (bool_decide (forwards fl <> []) || flagSet fl "peer") then (BootstrapPage cfg, fs)
          else match bootstrapped cfg altPort with
          | None => (bootstrap_unavailable (flag_bool fl "agent") cfg, fs)
          | Some (runtimeCfg, altPort) => (main_run fl cfg runtimeCfg altPort, fs)
          end
        end
      end
  end.

(** [runServiceAgent]: the settings and the probe the loop runs with, or nothing until
    the service stops. *)
Definition runServiceAgent (cfg : Client) (altPort : Z) : option (Client * natProbeResult * Z) :=
  if needsBootstrapConfig cfg false false then None
  else
    '(runtimeCfg, altPort) ← bootstrapped cfg altPort;
    if decide (cc_Server runtimeCfg = EmptyString) then None
    else Some (runtimeCfg, autoDetectNAT udp runtimeCfg altPort, altPort).
End Start.

(* ------------------------------------------------------------------ *)
(** ** Saving with more rights *)

Section Elevation.
  Context `{GU : GoUnicode} `{GD : Settings.GoDuration} `{GJ : GoJSON} `{GI : GoInt} `{SH : SHA256} `{MJ : Protocol.MessageJSON}
    `{SC : SecureFrame.SecureCrypto} `{JL : !GoJSONLaws GJ}.
  Variables (uuid : string) (hostname : option string) (net : http_client) (udp : probe_net).

Lemma apply_args_parse tmpPath configPath :
  parse_flags client_flags (apply_args tmpPath configPath) = Some [("apply-client-config"%string, tmpPath); ("config"%string, configPath)].
Proof. reflexivity. Qed.

Lemma save_ok path cfg fs fs' : SaveClientLocalJSON path cfg fs = (Ok tt, fs') ->
  path <> EmptyString /\ fs_write_error fs path = None /\ fs' = with_files (<[path := Indent (Marshal (local_object cfg)) ++ [x0a]]> (fs_files fs)) fs.
Proof.
  unfold SaveClientLocalJSON, SaveJSON, WriteFile. case_decide; [done|]. destruct (fs_write_error fs path) eqn:E; [done|].
  intros [= <-]. done.
Qed.

Lemma save_err path cfg fs fs' e : SaveClientLocalJSON path cfg fs = (Err e, fs') -> fs' = fs.
Proof.
  unfold SaveClientLocalJSON, SaveJSON, WriteFile. case_decide; [by intros [= _ <-]|]. destruct (fs_write_error fs path); [by intros [= _ <-]|done].
Qed.

Lemma save_writes path cfg fs : path <> EmptyString -> fs_write_error fs path = None ->
  SaveClientLocalJSON path cfg fs = (Ok tt, with_files (<[path := Indent (Marshal (local_object cfg)) ++ [x0a]]> (fs_files fs)) fs).
Proof. intros Hp Hw. unfold SaveClientLocalJSON, SaveJSON, WriteFile. rewrite decide_False by done. by rewrite Hw. Qed.

End Elevation.

(* ------------------------------------------------------------------ *)
(** ** An agent runs with what its server says *)

Section Agent.
  Context `{CO : Collation} `{LK : Like} `{GU : GoUnicode} `{GT : GoTime} `{GD : Settings.GoDuration} `{GJ : GoJSON} `{GI : GoInt} `{SH : SHA256}
    `{MJ : Protocol.MessageJSON} `{SC : SecureFrame.SecureCrypto}.
  Context {T : forall R, Model R -> Type} `{G : !Gorm T} `{DL : !Settings.GoDurationLaws GD} `{JL : !GoJSONLaws GJ}.
  Variables (uuid : string) (hostname : option string) (net : http_client) (udp : probe_net) (sv : Settings.Server) (m : http_meta) (s : control_db T).

(** The settings [main] has before it asks the server. *)
Definition local_settings (fl : list (string * string)) (fs : FS) : Client :=
  let loaded := match load_client (flag_string fl "config" "client.json") fs DefaultClient with Ok c => c | Err _ => DefaultClient end in
  (ensureRuntimeIdentity uuid hostname (apply_flags fl loaded)).2.

(** The flags that make [main] something else than an agent. *)
Definition agent_only (fl : list (string * string)) : Prop :=
  flag_string fl "apply-client-config" EmptyString = EmptyString /\ flag_bool fl "tray" = false /\ service_command_of fl = None /\
  flag_bool fl "service" = false /\ flag_bool fl "updater" = false /\ flag_bool fl "probe" = false /\ flag_bool fl "check-updates" = false.

Lemma JoinHostPort_nonempty host port : JoinHostPort host port <> EmptyString.
Proof. unfold JoinHostPort. case_decide; [done|]. destruct host; done. Qed.

Lemma served_server local : cc_Server (served sv m local) <> EmptyString.
Proof. unfold served, externalUDPAddr. cbn [cc_Server]. destruct (SplitHostPort (Settings.sv_UDPListen sv)) as [[h p]|]; apply JoinHostPort_nonempty. Qed.

Lemma served_http local : cc_ServerHTTP (served sv m local) <> EmptyString.
Proof.
  unfold served, requestBaseURL. cbn [cc_ServerHTTP]. set (scheme := if decide _ then _ else _). destruct scheme; discriminate.
Qed.

Lemma ensureLocalIdentity_cfg cfg path fs r cfg' fs' : ensureLocalIdentity uuid hostname cfg path fs = (r, cfg', fs') ->
  cfg' = (ensureRuntimeIdentity uuid hostname cfg).2.
Proof.
  unfold ensureLocalIdentity. destruct (ensureRuntimeIdentity uuid hostname cfg) as [ch c]. case_decide; [|by intros [= <- <- <-]].
  destruct (SaveClientLocalJSON path c fs). by intros [= <- <- <-].
Qed.

Lemma bootstrapped_served cfg altPort resp s' : cc_ServerHTTP cfg <> EmptyString -> delivers sv m net s cfg ->
  ValidString (cc_DeviceID cfg) = true -> ValidString (cc_DeviceName cfg) = true ->
  answers (handleAgentBootstrap sv m (Some (cc_DeviceID cfg, cc_DeviceName cfg))) s resp s' -> writable_object (bootstrap_object resp) = true ->
  - 2 ^ 63 <= Settings.sv_ClientUPnPTimeout sv < 2 ^ 63 -> - 2 ^ 63 <= Settings.sv_ClientPunchTimeout sv < 2 ^ 63 ->
  bootstrapped net cfg altPort = Some (served sv m cfg, portFromAddr (Settings.sv_StunAltListen sv) 7002).
Proof.
  intros Hh Hd V1 V2 Ha W D1 D2. unfold bootstrapped. rewrite decide_False by done.
  destruct (bootstrap_configures sv m net s cfg resp s' (AdminAuth.mkAuthConfig (Settings.sv_PSK sv) EmptyString 0 0) Hd V1 V2 Ha W D1 D2 eq_refl)
    as (r & -> & Hp & -> & _). by rewrite Hp.
Qed.

(** C31. An agent, whatever its flags and its file say of them, runs with the settings its
    server hands out, keeps its own id and probes the server's own ports; the settings
    of the command line count for nothing once a server answers. *)
Theorem agent_runs_as_served (args : list string) (fl : list (string * string)) (fs fs' : FS) (started : start)
  (resp : agentBootstrapResponse) (s' : control_db T) :
  parse_flags client_flags args = Some fl -> agent_only fl -> flag_bool fl "agent" = true ->
  let cfg := local_settings fl fs in
  TrimSpace (cc_ServerHTTP cfg) <> EmptyString -> delivers sv m net s cfg ->
  ValidString (cc_DeviceID cfg) = true -> ValidString (cc_DeviceName cfg) = true ->
  answers (handleAgentBootstrap sv m (Some (cc_DeviceID cfg, cc_DeviceName cfg))) s resp s' -> writable_object (bootstrap_object resp) = true ->
  - 2 ^ 63 <= Settings.sv_ClientUPnPTimeout sv < 2 ^ 63 -> - 2 ^ 63 <= Settings.sv_ClientPunchTimeout sv < 2 ^ 63 ->
  (fs_write_error fs (flag_string fl "config" "client.json") = None) ->
  main uuid hostname net udp args fs = (started, fs') ->
  started = RunAgent cfg (served sv m cfg) (autoDetectNAT udp (served sv m cfg) (portFromAddr (Settings.sv_StunAltListen sv) 7002))
    (portFromAddr (Settings.sv_StunAltListen sv) 7002).
Proof.
  intros Hfl (A1 & A2 & A3 & A4 & A5 & A6 & A7) Ag cfg Ht Hd V1 V2 Ha W D1 D2 Hw.
  assert (Hh : cc_ServerHTTP cfg <> EmptyString) by (intros E; rewrite E in Ht; by apply Ht). unfold main. rewrite Hfl, A1, A2, A3.
  rewrite decide_False by tauto.
  set (loaded := match load_client _ _ _ with Ok c => c | Err _ => DefaultClient end).
  destruct (ensureLocalIdentity uuid hostname (apply_flags fl loaded) (flag_string fl "config" "client.json") fs) as [[r c] f] eqn:El.
  pose proof (ensureLocalIdentity_cfg _ _ _ _ _ _ El) as Ec. change (c = cfg) in Ec. subst c.
  assert (Hr : r = Ok tt).
  { revert El. unfold ensureLocalIdentity. destruct (ensureRuntimeIdentity _ _ _) as [ch c]. case_decide as D; [|by intros [= <- _ _]].
    rewrite save_writes by tauto. by intros [= <- _ _]. }
  rewrite Hr, A4, A5, A6. unfold needsBootstrapConfig.
  rewrite (bool_decide_eq_false_2 (TrimSpace (cc_ServerHTTP cfg) = EmptyString)) by done.
  replace (if decide (cc_Server cfg <> EmptyString) then false else _) with false by (by repeat case_decide).
  rewrite (bootstrapped_served cfg _ resp s' Hh Hd V1 V2 Ha W D1 D2). intros [= <- _]. unfold main_run.
  rewrite decide_False by apply served_server. rewrite A6, A7. rewrite decide_True by (by left).
  unfold agent_config. by rewrite decide_False by apply served_http.
Qed.
End Agent.

(* ------------------------------------------------------------------ *)
(** ** Witnesses *)

Section Witnesses.
  #[local] Existing Instances binary_collation toy_like ascii_unicode bin_time decimal_duration decimal_duration_laws toy_gojson toy_gojson_laws
    toy_sha AgentTunnel.bin_json AgentTunnel.toy_secure LanIdentity.toy_ed.

#[local] Instance decimal_int : GoInt := {| ParseInt0 := Atoi |}.

(** Files only an administrator writes, but for the temporary one. *)
Definition toy_user_fs : FS := mkFS {[ "c.json"%string := [x7b] ]} (fun _ => true) (fun p => if decide (p = "c.json"%string) then Some PermissionDenied else None).
Definition toy_saved : result file_error bool * FS := saveClientConfigWithElevation (Some "C:\Temp Dir\x.json"%string) (fun _ => true) "c.json" toy_cfg toy_user_fs.
Definition toy_admin_fs : FS := mkFS (fs_files toy_saved.2) (fun _ => true) (fun _ => None).


(** The file of a client with a URL and a name, and its start as an agent. *)
Definition toy_agent_fs : FS := (SaveClientLocalJSON "client.json" toy_local toy_fs).2.
Definition toy_agent_cfg : Client := local_settings toy_uuid None [("agent", "true"); ("force-relay", "true")]%string toy_agent_fs.
Definition toy_agent_net : http_client := mkHTTPClient (fun _ => true)
  (fun req => match serve_bootstrap toy_server toy_meta toy_control req with Some (status, body, _) => Ok (status, body) | None => Err "EOF"%string end)
  (fun _ => Err "unused"%string).

Lemma toy_agent_answers : exists a s', answers (handleAgentBootstrap toy_server toy_meta (Some (cc_DeviceID toy_agent_cfg, cc_DeviceName toy_agent_cfg))) toy_control a s'.
Proof. apply is_answer_some. vm_compute. reflexivity. Qed.

Lemma agent_runs_as_served_witness :
  exists nat, (main toy_uuid None toy_agent_net toy_probe ["-agent"; "-force-relay"]%string toy_agent_fs).1 =
    RunAgent toy_agent_cfg (served toy_server toy_meta toy_agent_cfg) nat 7002 /\ cc_ForceRelay (served toy_server toy_meta toy_agent_cfg) = false.
Proof.
  destruct toy_agent_answers as (resp & s' & Ha).
  destruct (main toy_uuid None toy_agent_net toy_probe ["-agent"; "-force-relay"]%string toy_agent_fs) as [started fs'] eqn:E.
  eexists. split; [|reflexivity].
  apply (agent_runs_as_served toy_uuid None toy_agent_net toy_probe toy_server toy_meta toy_control ["-agent"; "-force-relay"]%string
    [("agent", "true"); ("force-relay", "true")]%string toy_agent_fs fs' started resp s').
  - reflexivity.
  - split_and!; reflexivity.
  - reflexivity.
  - vm_compute. discriminate.
  - split; reflexivity.
  - vm_compute. reflexivity.
  - vm_compute. reflexivity.
  - exact Ha.
  - destruct (client_bootstrap_answer toy_server toy_meta toy_control _ _ _ Ha) as [-> _]. vm_compute. reflexivity.
  - vm_compute. split; [discriminate|reflexivity].
  - vm_compute. split; [discriminate|reflexivity].
  - reflexivity.
  - exact E.
Defined.
End Witnesses.
