(* ===== verification/ServerMain.v ===== *)
(** * ServerMain: how the server starts and what its HTTP side lets through (cmd/server/main.go, internal/server/server.go, http.go, cors.go)

    The start: flags over the environment file over the defaults, the codec, the account of
    the administrator, the stored settings. The HTTP side: the routes, each with the guard
    before its handler. Which route a path takes is the business of the gin package, the
    class [Gin]; no two of the routes take the same requests, so its laws decide all. *)

From S2P Require Import Prelude GoStrings Store ServerUtil Gorm ControlStore ControlLaws LanAdmin AgentServe Releases.
From S2P Require Settings SettingsLaws SecureFrame AdminAuth ServerUDP AgentTunnel ClientMain.

(* ------------------------------------------------------------------ *)
(** ** Routes *)

Inductive guard : Type := NoGuard | RequireAdmin | RequireAgent.

#[export] Instance guard_eq_dec : EqDecision guard.
Proof. solve_decision. Defined.

(** The handlers, by their names. *)
Inductive endpoint : Type :=
  | handleHealth_ | handlePeers_ | handleAdminLogin_ | handleAdminRefresh_ | handleAdminLogout_ | handleAdminMe_ | handleDevices_
  | handleAdminDevice_ | handleForwards_ | handleAdminForward_ | handleSessions_ | handleTunnelStates_ | handleMetrics_ | handleAuditEvents_
  | handleAdminReleaseUpload_ | handleAdminReleaseValidateURL_ | handleSettings_ | handleChangePassword_ | handleAdminLANNetworks_
  | handleAdminLANNetwork_ | handleAdminLANAddresses_ | handleAdminLANAddressAction_ | handleAdminLANAddress_ | handleAdminLANDeviceKeys_
  | handleAdminLANGroups_ | handleAdminLANGroup_ | handleAdminLANACLRules_ | handleAdminLANACLRule_ | handleAdminLANRoutes_
  | handleAdminLANRoute_ | handleAdminLANDeviceStates_ | handleAdminLANPeerStates_ | handleAdminLANPathEvents_ | handleAdminLANLearnedPaths_
  | handleAdminLANDiagnostics_ | handleAgentBootstrap_ | handleAgentRegister_ | handleAgentHeartbeat_ | handleAgentTunnelStatus_
  | handleAgentRules_ | handleLANBootstrap_ | handleLANStatus_ | handleLANPacketSend_ | handleLANPacketPoll_ | handleLANRelease_
  | handleClientRelease_ | handleClientInstaller_ | handleLANInstaller_.

(** A route: its method, [None] for [Any], the pattern, the guard and the handler. *)
Record route : Type := mkRoute { rt_Method : option string; rt_Pattern : string; rt_Guard : guard; rt_Handler : endpoint }.

Definition anyMethods : list string := ["GET"; "POST"; "PUT"; "PATCH"; "HEAD"; "OPTIONS"; "DELETE"; "CONNECT"; "TRACE"].

(** [httpMux]. *)
Definition any_admin (pattern : string) (h : endpoint) : route := mkRoute None ("/api/admin" ++ pattern) RequireAdmin h.
Definition routes : list route := [
  mkRoute None "/health" NoGuard handleHealth_;
  mkRoute None "/peers" NoGuard handlePeers_;
  mkRoute (Some "POST"%string) "/api/admin/auth/login" NoGuard handleAdminLogin_;
  mkRoute (Some "POST"%string) "/api/admin/auth/refresh" NoGuard handleAdminRefresh_;
  mkRoute (Some "POST"%string) "/api/admin/auth/logout" NoGuard handleAdminLogout_;
  any_admin "/me" handleAdminMe_;
  any_admin "/devices" handleDevices_;
  any_admin "/devices/:id" handleAdminDevice_;
  any_admin "/rules" handleForwards_;
  any_admin "/rules/:id" handleAdminForward_;
  any_admin "/sessions" handleSessions_;
  any_admin "/tunnel-states" handleTunnelStates_;
  any_admin "/metrics" handleMetrics_;
  any_admin "/audit-events" handleAuditEvents_;
  any_admin "/releases/:product/upload" handleAdminReleaseUpload_;
  any_admin "/releases/validate-url" handleAdminReleaseValidateURL_;
  any_admin "/settings" handleSettings_;
  mkRoute (Some "POST"%string) "/api/admin/password" RequireAdmin handleChangePassword_;
  any_admin "/lan/networks" handleAdminLANNetworks_;
  any_admin "/lan/networks/:id" handleAdminLANNetwork_;
  any_admin "/lan/addresses" handleAdminLANAddresses_;
  any_admin "/lan/addresses/:device_id/:action" handleAdminLANAddressAction_;
  any_admin "/lan/addresses/:device_id" handleAdminLANAddress_;
  any_admin "/lan/device-keys" handleAdminLANDeviceKeys_;
  any_admin "/lan/groups" handleAdminLANGroups_;
  any_admin "/lan/groups/:id" handleAdminLANGroup_;
  any_admin "/lan/acl" handleAdminLANACLRules_;
  any_admin "/lan/acl/:id" handleAdminLANACLRule_;
  any_admin "/lan/routes" handleAdminLANRoutes_;
  any_admin "/lan/routes/:id" handleAdminLANRoute_;
  any_admin "/lan/device-states" handleAdminLANDeviceStates_;
  any_admin "/lan/peer-states" handleAdminLANPeerStates_;
  any_admin "/lan/path-events" handleAdminLANPathEvents_;
  any_admin "/lan/learned-paths" handleAdminLANLearnedPaths_;
  any_admin "/lan/diagnostics" handleAdminLANDiagnostics_;
  mkRoute (Some "POST"%string) "/api/agent/bootstrap" NoGuard handleAgentBootstrap_;
  mkRoute (Some "POST"%string) "/api/agent/register" RequireAgent handleAgentRegister_;
  mkRoute (Some "POST"%string) "/api/agent/heartbeat" RequireAgent handleAgentHeartbeat_;
  mkRoute (Some "POST"%string) "/api/agent/tunnel-status" RequireAgent handleAgentTunnelStatus_;
  mkRoute (Some "GET"%string) "/api/agent/rules" RequireAgent handleAgentRules_;
  mkRoute (Some "POST"%string) "/api/lan/bootstrap" NoGuard handleLANBootstrap_;
  mkRoute (Some "POST"%string) "/api/lan/status" NoGuard handleLANStatus_;
  mkRoute (Some "POST"%string) "/api/lan/packets/send" NoGuard handleLANPacketSend_;
  mkRoute (Some "POST"%string) "/api/lan/packets/poll" NoGuard handleLANPacketPoll_;
  mkRoute (Some "GET"%string) "/api/lan/release" NoGuard handleLANRelease_;
  mkRoute (Some "GET"%string) "/api/client/release" RequireAgent handleClientRelease_;
  mkRoute (Some "GET"%string) "/downloads/client/installer" NoGuard handleClientInstaller_;
  mkRoute (Some "GET"%string) "/downloads/lan/installer" NoGuard handleLANInstaller_ ].

(** ** The gin package

    A pattern takes a path when they have the same segments, where one with a colon takes
    any that is not empty. *)

Definition is_param (p : list byte) : bool := bool_decide (head p = Some x3a).
Definition segment_matches (p s : list byte) : bool := if is_param p then bool_decide (s <> []) else bool_decide (p = s).
Fixpoint segments_match (ps ss : list (list byte)) : bool :=
  match ps, ss with
  | [], [] => true
  | p :: ps, s :: ss => segment_matches p s && segments_match ps ss
  | _, _ => false
  end.
Definition segments (path : string) : list (list byte) := split_bytes x2f (bytes_of path).
Definition pattern_matches (pattern path : string) : bool := segments_match (segments pattern) (segments path).
Definition method_matches (m : option string) (method : string) : bool :=
  match m with None => bool_decide (method ∈ anyMethods) | Some m => bool_decide (m = method) end.
Definition takes (r : option string * string) (method path : string) : bool := method_matches r.1 method && pattern_matches r.2 path.

Inductive found : Type := Handle (i : nat) | RedirectSlash | NoRoute.

(** The route it finds, or a redirect to the path with or without the slash at its end. *)
Class Gin := { gin_find : list (option string * string) -> string -> string -> found }.
Class GinLaws (GI : Gin) : Prop := {
  gin_sound l method path i : gin_find l method path = Handle i -> exists r, l !! i = Some r /\ takes r method path = true;
  gin_complete l method path i r : l !! i = Some r -> takes r method path = true -> exists j, gin_find l method path = Handle j;
}.

(* ------------------------------------------------------------------ *)
(** ** What a request reaches *)

(** [setCORSHeaders]: on every answer but a redirect. *)
Definition cors_headers : list (string * string) := [
  ("Access-Control-Allow-Origin", "*"); ("Access-Control-Allow-Methods", "GET,POST,PUT,PATCH,DELETE,HEAD,OPTIONS");
  ("Access-Control-Allow-Headers", "*"); ("Access-Control-Expose-Headers", "*"); ("Access-Control-Max-Age", "86400") ]%string.

Inductive reached : Type :=
  | Redirected
  | Preflight                                                          (* 204 *)
  | NotFound                                                           (* 404 *)
  | Refused (e : api_error)
  | Reached (h : endpoint) (claims : option AdminAuth.adminClaims).    (* of the session, in the context *)

Section Serve.
  Context `{GI : Gin} `{AP : AdminAuth.AuthPrimitives} `{GU : GoUnicode}.
  Context {DB : Type} `{ST : !AdminAuth.AdminStore DB}.
  Variable cfg : AdminAuth.AuthConfig.

(** [requireAdmin] and [requireAgent] around a handler. *)
Definition guarded (r : route) (Authorization psk_header : string) (now : Time) (s : DB) : reached :=
  match rt_Guard r with
  | NoGuard => Reached (rt_Handler r) None
  | RequireAdmin =>
    match AdminAuth.requireAdmin cfg Authorization now s with Ok claims => Reached (rt_Handler r) (Some claims) | Err e => Refused e end
  | RequireAgent =>
    match AdminAuth.requireAgent cfg psk_header with Ok _ => Reached (rt_Handler r) None | Err e => Refused e end
  end.

(** A request up to its handler; [ginCORS] runs for a route and for none. *)
Definition serve (method path Authorization psk_header : string) (now : Time) (s : DB) : reached :=
  match gin_find (map (fun r => (rt_Method r, rt_Pattern r)) routes) method path with
  | RedirectSlash => Redirected
  | found =>
    if decide (method = "OPTIONS"%string) then Preflight
    else match found with
    | Handle i => match routes !! i with Some r => guarded r Authorization psk_header now s | None => NotFound end
    | _ => NotFound
    end
  end.
End Serve.

(** Where anyone gets to, and where the key is asked for. *)
Definition public_paths : list string := ["/health"; "/peers"; "/api/admin/auth/login"; "/api/admin/auth/refresh"; "/api/admin/auth/logout";
  "/api/agent/bootstrap"; "/api/lan/bootstrap"; "/api/lan/status"; "/api/lan/packets/send"; "/api/lan/packets/poll"; "/api/lan/release";
  "/downloads/client/installer"; "/downloads/lan/installer"].
Definition agent_paths : list string := ["/api/agent/register"; "/api/agent/heartbeat"; "/api/agent/tunnel-status"; "/api/agent/rules"; "/api/client/release"].

(* ------------------------------------------------------------------ *)
(** ** No request is taken by two routes *)

(** Two segments of patterns some segment of a path matches. *)
Definition compatible (p q : list byte) : bool := is_param p || is_param q || bool_decide (p = q).
Fixpoint all_compatible (ps qs : list (list byte)) : bool :=
  match ps, qs with [], [] => true | p :: ps, q :: qs => compatible p q && all_compatible ps qs | _, _ => false end.

Lemma compatible_spec p q s : segment_matches p s = true -> segment_matches q s = true -> compatible p q = true.
Proof.
  unfold segment_matches, compatible. destruct (is_param p), (is_param q); try done. intros H1%bool_decide_eq_true H2%bool_decide_eq_true.
  apply bool_decide_eq_true. congruence.
Qed.

Lemma all_compatible_spec ps qs ss : segments_match ps ss = true -> segments_match qs ss = true -> all_compatible ps qs = true.
Proof.
  revert qs ss. induction ps as [|p ps IH]; intros [|q qs] [|s ss]; try done. cbn. rewrite !andb_true_iff. intros [H1 H2] [H3 H4].
  split; [by eapply compatible_spec|by eapply IH].
Qed.

Lemma routes_apart : forallb (fun i => forallb (fun j => bool_decide (i = j) || negb
    (from_option (fun r => from_option (fun r' => all_compatible (segments (rt_Pattern r)) (segments (rt_Pattern r'))) false (routes !! j)) false (routes !! i)))
  (seq 0 (length routes))) (seq 0 (length routes)) = true.
Proof. vm_compute. reflexivity. Qed.

Lemma routes_unique i j r r' path : routes !! i = Some r -> routes !! j = Some r' ->
  pattern_matches (rt_Pattern r) path = true -> pattern_matches (rt_Pattern r') path = true -> i = j.
Proof.
  intros Hi Hj H1 H2. pose proof (all_compatible_spec _ _ _ H1 H2) as HC. pose proof routes_apart as HA. rewrite forallb_forall in HA.
  specialize (HA i ltac:(apply in_seq; apply lookup_lt_Some in Hi; lia)). rewrite forallb_forall in HA.
  specialize (HA j ltac:(apply in_seq; apply lookup_lt_Some in Hj; lia)). rewrite Hi, Hj in HA. cbn [from_option option_rect] in HA.
  apply orb_true_iff in HA as [HA|HA]; [by apply bool_decide_eq_true in HA|]. rewrite HC in HA. done.
Qed.

(** A pattern without parameters takes its own path only. *)
Lemma split_join_id (l : list byte) : join_slash (split_bytes x2f l) = l.
Proof.
  induction l as [|b l IH]; [done|]. cbn [split_bytes]. case_decide as D; destruct (split_bytes x2f l) as [|w ws] eqn:E.
  - by destruct l as [|c l]; [|cbn in E; case_decide; [done|destruct (split_bytes _ l)]].
  - subst b. change (join_slash ([] :: w :: ws)) with (slash :: join_slash (w :: ws)). by rewrite IH.
  - by destruct l as [|c l]; [|cbn in E; case_decide; [done|destruct (split_bytes _ l)]].
  - destruct ws; cbn [join_slash app] in *; by rewrite <- IH.
Qed.

Definition literal (pattern : string) : bool := forallb (fun p => negb (is_param p)) (segments pattern).

Lemma literal_matches pattern path : literal pattern = true -> pattern_matches pattern path = true -> path = pattern.
Proof.
  unfold literal, pattern_matches. intros HL HM. assert (E : segments pattern = segments path).
  { revert HL HM. generalize (segments pattern) (segments path). intros ps. induction ps as [|p ps IH]; intros [|s ss]; try done.
    cbn. rewrite !andb_true_iff. intros [H1 H2] [H3 H4]. f_equal; [|by apply IH].
    unfold segment_matches in H3. destruct (is_param p); [done|]. by apply bool_decide_eq_true in H3. }
  apply (f_equal join_slash) in E. unfold segments in E. rewrite !split_join_id in E. by apply bytes_of_inj.
Qed.

(* ------------------------------------------------------------------ *)
(** ** Who reaches a handler *)

Lemma public_routes r : r ∈ routes -> rt_Guard r = NoGuard -> literal (rt_Pattern r) = true /\ rt_Pattern r ∈ public_paths.
Proof.
  intros Hr HG. assert (HA : Forall (fun r => rt_Guard r = NoGuard -> literal (rt_Pattern r) = true /\ rt_Pattern r ∈ public_paths) routes) by decide_now.
  by apply (proj1 (Forall_forall _ _) HA).
Qed.
Lemma agent_routes r : r ∈ routes -> rt_Guard r = RequireAgent -> literal (rt_Pattern r) = true /\ rt_Pattern r ∈ agent_paths.
Proof.
  intros Hr HG. assert (HA : Forall (fun r => rt_Guard r = RequireAgent -> literal (rt_Pattern r) = true /\ rt_Pattern r ∈ agent_paths) routes) by decide_now.
  by apply (proj1 (Forall_forall _ _) HA).
Qed.

Section Guarded.
  Context `{GI : Gin} `{GL : !GinLaws GI} `{AP : AdminAuth.AuthPrimitives} `{GU : GoUnicode}.
  Context {DB : Type} `{ST : !AdminAuth.AdminStore DB}.

Lemma find_route method path i : gin_find (map (fun r => (rt_Method r, rt_Pattern r)) routes) method path = Handle i ->
  exists r, routes !! i = Some r /\ r ∈ routes /\ method_matches (rt_Method r) method = true /\ pattern_matches (rt_Pattern r) path = true.
Proof.
  intros (mp & Hi & HT)%gin_sound. change (map ?f ?l) with (f <$> l) in Hi. apply list_lookup_fmap_Some in Hi as (r & -> & Hr).
  unfold takes in HT. cbn in HT. apply andb_true_iff in HT as [H1 H2]. exists r. split_and!; [done|by eapply list_elem_of_lookup_2|done..].
Qed.

(** C34. Anyone gets to the public paths and nowhere else: a handler is reached only there, or
    with the key of the server at a path of the agents, or with the session of an
    administrator. Every route is reached: a request it takes is answered by its handler
    or its guard, whatever the other routes. A preflight reaches none. *)
Theorem routes_guarded (cfg : AdminAuth.AuthConfig) (method path Authorization psk_header : string) (now : Time) (s : DB) :
  (forall h claims, serve cfg method path Authorization psk_header now s = Reached h claims ->
     path ∈ public_paths \/ (path ∈ agent_paths /\ (AdminAuth.cfg_PSK cfg = EmptyString \/ psk_header = AdminAuth.cfg_PSK cfg)) \/
     exists c, claims = Some c /\ AdminAuth.requireAdmin cfg Authorization now s = Ok c) /\
  (forall r, r ∈ routes -> method_matches (rt_Method r) method = true -> pattern_matches (rt_Pattern r) path = true -> method <> "OPTIONS"%string ->
     serve cfg method path Authorization psk_header now s = guarded cfg r Authorization psk_header now s) /\
  (method = "OPTIONS"%string -> serve cfg method path Authorization psk_header now s ∈ [Preflight; Redirected]).
Proof.
  unfold serve. split_and!.
  - intros h claims. destruct (gin_find _ _ _) as [i| |] eqn:E; [|done|by case_decide]. case_decide; [done|].
    apply find_route in E as (r & -> & Hr & HM & HP). unfold guarded. destruct (rt_Guard r) eqn:EG.
    + intros _. left. apply public_routes in EG as [HL HI]; [|done]. by rewrite (literal_matches _ _ HL HP).
    + destruct (AdminAuth.requireAdmin _ _ _ _) as [c|] eqn:EA; [|done]. intros [= <- <-]. right. right. by exists c.
    + unfold AdminAuth.requireAgent. case_decide as D; [done|]. intros _. right. left. apply agent_routes in EG as [HL HI]; [|done].
      rewrite (literal_matches _ _ HL HP). split; [done|].
      destruct (decide (AdminAuth.cfg_PSK cfg = EmptyString)); [by left|]. destruct (decide (psk_header = AdminAuth.cfg_PSK cfg)); [by right|]. by destruct D.
  - intros r [i Hi]%list_elem_of_lookup_1 HM HP HO.
    destruct (gin_complete (map (fun r => (rt_Method r, rt_Pattern r)) routes) method path i (rt_Method r, rt_Pattern r)) as [j Ej].
    + change (map ?f ?l) with (f <$> l). by rewrite list_lookup_fmap, Hi.
    + unfold takes. cbn [fst snd]. by rewrite HM, HP.
    + rewrite Ej, decide_False by done. apply find_route in Ej as (r' & Hj & _ & _ & HP'). rewrite Hj.
      assert (i = j) as -> by by eapply routes_unique. by rewrite Hi in Hj; injection Hj as ->.
  - intros ->. destruct (gin_find _ _ _); set_solver.
Qed.
End Guarded.

(* ------------------------------------------------------------------ *)
(** ** Start *)

Inductive start_error : Type :=
  | UsageError                                      (* fs.Parse *)
  | EnvError (e : Settings.config_error)            (* log.Fatal of the environment file *)
  | CodecError (e : SecureFrame.secure_error)
  | StoreError (e : api_error).

(** What the handlers of administrators read of the configuration. *)
Definition auth_config (c : Settings.Server) : AdminAuth.AuthConfig :=
  AdminAuth.mkAuthConfig (Settings.sv_PSK c) (Settings.sv_AdminJWTSecret c) (Settings.sv_AdminAccessTokenTTL c) (Settings.sv_AdminRefreshTokenTTL c).

Definition server_flags : list (string * ClientMain.flag_kind) := [
  ("env", ClientMain.FlagString); ("listen", ClientMain.FlagString); ("stun-alt", ClientMain.FlagString); ("http", ClientMain.FlagString);
  ("mysql-dsn", ClientMain.FlagString); ("psk", ClientMain.FlagString); ("admin-jwt-secret", ClientMain.FlagString);
  ("admin-access-token-ttl", ClientMain.FlagDuration); ("admin-refresh-token-ttl", ClientMain.FlagDuration)]%string.

Section Start.
  Context `{CO : Collation} `{GU : GoUnicode} `{GT : GoTime} `{GD : Settings.GoDuration} `{GO : ClientMain.GoInt}
    `{SC : SecureFrame.SecureCrypto} `{AP : AdminAuth.AuthPrimitives}.
  Context {T : forall R, Model R -> Type} `{G : !Gorm T}.
  Notation DB := (control_db T).

(** A flag that was set wins over the file. *)
Definition apply_server_flags (fl : list (string * string)) (c : Settings.Server) : Settings.Server :=
  let str name (set : string -> Settings.Server -> Settings.Server) c := match ClientMain.flag_last fl name with Some v => set v c | None => c end in
  let dur name (set : Duration -> Settings.Server -> Settings.Server) c := match v ← ClientMain.flag_last fl name; Settings.ParseDuration v with Some d => set d c | None => c end in
  let c := str "listen"%string Settings.set_UDPListen c in
  let c := str "stun-alt"%string Settings.set_StunAltListen c in
  let c := str "http"%string Settings.set_HTTPListen c in
  let c := str "mysql-dsn"%string Settings.set_ControlDatabaseDSN c in
  let c := str "psk"%string Settings.set_PSK c in
  let c := str "admin-jwt-secret"%string Settings.set_AdminJWTSecret c in
  let c := dur "admin-access-token-ttl"%string Settings.set_AdminAccessTokenTTL c in
  dur "admin-refresh-token-ttl"%string Settings.set_AdminRefreshTokenTTL c.

(** [New], with an open database: the configuration it runs with, and the server. *)
Definition New (c : Settings.Server) (salt : list byte) (s : DB) : result start_error (Settings.Server * ServerUDP.App) * DB :=
  let codec := if decide (Settings.sv_PSK c <> EmptyString)
    then match SecureFrame.NewCodec (Settings.sv_PSK c) with Ok k => Ok (Some k) | Err e => Err (CodecError e) end else Ok None in
  match codec with
  | Err e => (Err e, s)
  | Ok codec =>
    match AdminAuth.ensureAdminUser salt s with
    | (Some e, s) => (Err (StoreError e), s)
    | (None, s) =>
      match Settings.started c s with
      | (Err e, s) => (Err (StoreError e), s)
      | (Ok c, s) => (Ok (c, ServerUDP.mkApp (SettingsLaws.udp_config c) codec 0 0 0 ∅ ∅ ∅ ∅), s)
      end
    end
  end.

(** [main]: [read] gives the content of a file, [None] where there is none. *)
Definition main (args : list string) (read : string -> option (list byte)) (salt : list byte) (s : DB)
  : result start_error (Settings.Server * ServerUDP.App) * DB :=
  match ClientMain.parse_flags server_flags args with
  | None => (Err UsageError, s)
  | Some fl =>
    let env := ClientMain.flag_string fl "env" ".env" in
    match Settings.LoadServerEnv (if decide (env = EmptyString) then None else read env) Settings.DefaultServer with
    | Err e => (Err (EnvError e), s)
    | Ok c => New (apply_server_flags fl c) salt s
    end
  end.

(** [handleHealth]: a query that fails leaves the rest of the numbers at zero. *)
Definition metrics_so_far (s : DB) : Metrics :=
  match Count (fun _ => true) (t_devices s) with
  | Err _ => mkMetrics 0 0 0 0 0
  | Ok devices =>
    match Count Models.d_Online (t_devices s) with
    | Err _ => mkMetrics devices 0 0 0 0
    | Ok online =>
      match Count (fun _ => true) (t_rules s) with
      | Err _ => mkMetrics devices online 0 0 0
      | Ok rules =>
        match Count (fun r => sql_empty (Store.ses_EndedAt r)) (t_sessions s) with
        | Err _ => mkMetrics devices online rules 0 0
        | Ok sessions => match Metrics_ s with Ok m => m | Err _ => mkMetrics devices online rules sessions 0 end
        end
      end
    end
  end.

Record health : Type := mkHealth { hl_status : string; hl_uptime : Z; hl_register : Z; hl_paired : Z; hl_relayed : Z; hl_peers : Z; hl_metrics : Metrics; hl_time : string }.
Definition handleHealth (startTime now : Time) (a : ServerUDP.App) (s : DB) : health :=
  let peerCount := foldr Z.add 0 (map (fun kv => Z.of_nat (size kv.2)) (map_to_list (ServerUDP.peers a))) in
  mkHealth "ok" (Z.quot (time_sub now startTime) second) (ServerUDP.totalRegister a) (ServerUDP.totalPaired a) (ServerUDP.totalRelayed a) peerCount (metrics_so_far s) (RFC3339 now).
Definition handlePeers (s : DB) : result api_error (list Device) := ListDevices s.

(** The ids in the paths of devices and rules. *)
Definition handleAdminDevice `{LK : Like} `{MJ : MetadataJSON} (method path : string) (body : option bool) : handler DB (option Device) :=
  handleDeviceByID method (TrimPrefix path "/api/admin/devices/") body.
Definition handleAdminForward `{LK : Like} `{MJ : MetadataJSON} (method path : string) (body : option ForwardRule) : handler DB unit :=
  handleForwardByID method (Atoi (TrimPrefix path "/api/admin/rules/")) body.
End Start.

(* ------------------------------------------------------------------ *)
(** ** A server without its key *)

Section Keyless.
  Context `{GU : GoUnicode} `{ED : LanIdentity.Ed25519} `{MJ : Protocol.MessageJSON}.

(** What a datagram leaves alone on such a server. *)
Definition untouched (a a' : ServerUDP.App) : Prop :=
  ServerUDP.peers a' = ServerUDP.peers a /\ ServerUDP.cfg a' = ServerUDP.cfg a /\ ServerUDP.codec a' = ServerUDP.codec a.

Lemma lan_register_untouched e a src msg : untouched a (ServerUDP.handleLANRegister e a src msg).1.
Proof.
  unfold ServerUDP.handleLANRegister. destruct (ServerUDP.lan_register_ok e msg); cbn [negb]; [|done].
  destruct (ServerUDP.file_peer _ _ _) as [ps prs]. destruct (ServerUDP.lookup_in ps _ _ _); [|done].
  by destruct (ServerUDP.pair_up _ _ _ _ _ _) as [[? ?] ?].
Qed.

Lemma deaf_step e (a : ServerUDP.App) src data : ServerUDP.codec a = None -> ServerUDP.AllowLegacy (ServerUDP.cfg a) = false ->
  untouched a (ServerUDP.runUDP_step e a src data).1.
Proof.
  intros HK HL. unfold ServerUDP.runUDP_step. pose proof (ServerUDP.handleLANUDPRelay_maps e a src data) as H1.
  destruct (ServerUDP.handleLANUDPRelay e a src data) as [[[] a1] fx1]; destruct H1 as (P1 & _ & _ & C1 & K1); [done|].
  pose proof (ServerUDP.handleRelay_maps e a1 src data) as H2.
  destruct (ServerUDP.handleRelay e a1 src data) as [[[] a2] fx2]; destruct H2 as (P2 & _ & C2 & K2); [by split_and!; cbn; congruence|].
  assert (U : untouched a a2) by (by split_and!; congruence). unfold ServerUDP.openPacket. rewrite C2, C1, K2, K1, HK, HL. cbn [andb].
  replace (if SecureFrame.IsFrame data then None else None) with (@None (byte * list byte)) by by destruct (SecureFrame.IsFrame data).
  destruct (Protocol.Decode data) as [msg|]; [|done]. case_decide; [|by case_decide].
  destruct U as (U1 & U2 & U3), (lan_register_untouched e a2 src msg) as (V1 & V2 & V3). split_and!; congruence.
Qed.

Lemma deaf_server c a : ServerUDP.AllowLegacy c = false -> ServerUDP.server_reachable c None a ->
  ServerUDP.cfg a = c /\ ServerUDP.codec a = None /\ ServerUDP.peers a = ∅.
Proof.
  intros HL. induction 1 as [|a e src data HR (HC & HK & HP)|a t HR (HC & HK & HP)]; [done| |].
  - destruct (deaf_step e a src data) as (E1 & E2 & E3); [done|congruence|]. split_and!; congruence.
  - cbn. split_and!; [done..|]. rewrite HP. reflexivity.
Qed.
End Keyless.

Section Laws.
  Context `{CO : Collation} `{GU : GoUnicode} `{GT : GoTime} `{GD : Settings.GoDuration} `{GO : ClientMain.GoInt}
    `{SC : SecureFrame.SecureCrypto} `{AP : AdminAuth.AuthPrimitives}.
  Context {T : forall R, Model R -> Type} `{G : !Gorm T} `{L : !GormLaws T} `{DL : !Settings.GoDurationLaws GD}.
  Notation DB := (control_db T).
  Hypothesis binary : forall a b, sql_eq a b = bool_decide (a = b).
  Notation stored := SettingsLaws.stored.

(** The account of the administrator is not a setting. *)
Lemma ensure_admin_settings salt (s : DB) : t_settings (AdminAuth.ensureAdminUser salt s).2 = t_settings s /\ t_meta (AdminAuth.ensureAdminUser salt s).2 = t_meta s.
Proof.
  assert (HU : forall u (s : DB), t_settings (UpsertAdminUser u s).2 = t_settings s /\ t_meta (UpsertAdminUser u s).2 = t_meta s).
  { intros u s0. unfold UpsertAdminUser, in_admins. by destruct (error_of _). }
  unfold AdminAuth.ensureAdminUser. destruct (AdminAuth.GetAdminUserByUsername _ _) as [|e]; [done|]. case_decide; [done|].
  case_decide; [apply HU|]. destruct (AdminAuth.bcrypt_generate _ _); [apply HU|done].
Qed.

Lemma New_ok (c c2 : Settings.Server) salt (s s' : DB) app : New c salt s = (Ok (c2, app), s') ->
  exists s0, Settings.started c s0 = (Ok c2, s') /\ t_settings s0 = t_settings s /\ t_meta s0 = t_meta s /\
    (Settings.sv_PSK c = EmptyString -> ServerUDP.codec app = None) /\ (Settings.sv_PSK c <> EmptyString -> ServerUDP.codec app <> None) /\
    app = ServerUDP.mkApp (SettingsLaws.udp_config c2) (ServerUDP.codec app) 0 0 0 ∅ ∅ ∅ ∅.
Proof.
  unfold New. set (k := if decide _ then _ else _). destruct k as [codec|] eqn:EK; [|done].
  destruct (AdminAuth.ensureAdminUser salt s) as [[e|] s0] eqn:EA; [done|]. destruct (Settings.started c s0) as [[c3|] s1] eqn:ES; [|done].
  intros [= <- <- <-]. exists s0. pose proof (ensure_admin_settings salt s) as [A1 A2]. rewrite EA in A1, A2. split_and!; [done..| | |done].
  - intros E. cbn. subst k. rewrite decide_False in EK by (by rewrite E; intros []). by injection EK as <-.
  - intros E. cbn. subst k. rewrite decide_True in EK by done. destruct (SecureFrame.NewCodec _); [|done]. by injection EK as <-.
Qed.

(** A switch that is stored is what the server runs with. *)
Lemma started_switch f v (c c2 : Settings.Server) (s s' : DB) : SettingsLaws.database_up -> f ∈ Settings.bool_fields ->
  SettingsLaws.filled s (Settings.f_key f) (FormatBool (Settings.f_get f (Settings.start_config c))) = FormatBool v ->
  Settings.started c s = (Ok c2, s') -> Settings.f_get f c2 = v.
Proof.
  intros Hup Hf HV HS. pose proof (SettingsLaws.started_stores binary _ _ _ _ Hup HS) as (Hin & HD & HB).
  destruct (SettingsLaws.apply_settings_ok binary s' (Settings.start_config c) Hup HD HB) as (c' & E & _ & V2 & _).
  unfold Settings.started, Settings.applyStoredSettings in HS. destruct (Settings.ensureDefaultSettings _ s) as [[e|] s3]; [done|].
  injection HS as HS ->. assert (c' = c2) as -> by congruence. specialize (V2 f Hf).
  rewrite (Hin (Settings.f_key f) (FormatBool (Settings.f_get f (Settings.start_config c)))) in V2.
  - rewrite HV in V2. unfold SettingsLaws.field_value in V2. rewrite decide_False, SettingsLaws.parse_format_bool in V2 by apply SettingsLaws.format_bool_nonempty.
    congruence.
  - apply elem_of_app. right. apply elem_of_app. left. change (map ?g ?l) with (g <$> l). apply list_elem_of_fmap. by exists f.
Qed.


(** What only the command line and the file set: no stored setting reaches it. *)
Definition start_texts : list (Settings.field string) := [
  Settings.mkField "listen" Settings.sv_UDPListen Settings.set_UDPListen; Settings.mkField "stun-alt" Settings.sv_StunAltListen Settings.set_StunAltListen;
  Settings.mkField "http" Settings.sv_HTTPListen Settings.set_HTTPListen; Settings.mkField "mysql-dsn" Settings.sv_ControlDatabaseDSN Settings.set_ControlDatabaseDSN;
  Settings.mkField "psk" Settings.sv_PSK Settings.set_PSK; Settings.mkField "admin-jwt-secret" Settings.sv_AdminJWTSecret Settings.set_AdminJWTSecret ].

Lemma apply_fields_keeps {A B} (parse : string -> option A) (h : Settings.field B) fields (s : DB) c c' :
  Forall (fun g => SettingsLaws.apart h g) fields -> Settings.apply_fields parse fields s c = Ok c' -> Settings.f_get h c' = Settings.f_get h c.
Proof.
  intros HF. revert c. induction HF as [|g fields Hg _ IH]; intros c; cbn [Settings.apply_fields]; [by intros [= <-]|].
  destruct (GetSystemSetting _ s) as [v|]; [|done]. cbn [mbind result_bind]. case_decide; [apply IH|]. destruct (parse v) as [x|]; [|done].
  intros ->%IH. apply Hg.
Qed.

Lemma apply_strings_keeps {B} (h : Settings.field B) fields (s : DB) c c' :
  Forall (fun g => SettingsLaws.apart h g) fields -> Settings.apply_strings fields s c = Ok c' -> Settings.f_get h c' = Settings.f_get h c.
Proof.
  intros HF. revert c. induction HF as [|g fields Hg _ IH]; intros c; cbn [Settings.apply_strings]; [by intros [= <-]|].
  destruct (GetSystemSetting _ s) as [v|]; [|done]. cbn [mbind result_bind]. intros ->%IH. apply Hg.
Qed.

Lemma start_texts_apart : Forall (fun h => Forall (fun g => SettingsLaws.apart h g) Settings.duration_fields /\
  Forall (fun g => SettingsLaws.apart h g) Settings.bool_fields /\ Forall (fun g => SettingsLaws.apart h g) Settings.string_fields) start_texts.
Proof.
  unfold start_texts, Settings.duration_fields, Settings.bool_fields, Settings.string_fields.
  SettingsLaws.forall_list ltac:(split_and!; SettingsLaws.forall_list SettingsLaws.field_goal).
Qed.

Lemma started_keeps h (c c2 : Settings.Server) (s s' : DB) : h ∈ start_texts -> Settings.started c s = (Ok c2, s') -> Settings.f_get h c2 = Settings.f_get h c.
Proof.
  intros Hh. destruct (proj1 (Forall_forall _ _) start_texts_apart h Hh) as (H1 & H2 & H3).
  unfold Settings.started, Settings.applyStoredSettings. destruct (Settings.ensureDefaultSettings _ s) as [[e|] s1]; [done|]. intros [= H _].
  unfold Settings.applySystemSettingsLocked in H. destruct (Settings.apply_fields Settings.ParseDuration _ _ _) as [a|] eqn:E1; [|done]. cbn [mbind result_bind] in H.
  destruct (Settings.apply_fields Settings.ParseBool _ _ _) as [b|] eqn:E2; [|done]. cbn [mbind result_bind] in H.
  rewrite (apply_strings_keeps h _ _ _ _ H3 H), (apply_fields_keeps _ h _ _ _ _ H2 E2), (apply_fields_keeps _ h _ _ _ _ H1 E1).
  unfold Settings.start_config. case_decide; [|done].
  exact (proj1 (Forall_forall _ _) H2 _ SettingsLaws.legacy_field_in true c).
Qed.

Lemma flag_keeps {A B} (h : Settings.field B) (o : option A) set (c : Settings.Server) :
  (forall v c, Settings.f_get h (set v c) = Settings.f_get h c) -> Settings.f_get h (match o with Some v => set v c | None => c end) = Settings.f_get h c.
Proof. intros H. by destruct o. Qed.

(** The addresses, the database, the key and the secret of a server are those of the
    command line, then of the file, then the defaults, whatever is stored; and it seals
    its packets exactly if it has a key. *)
Lemma start_configuration args read salt (s s' : DB) c2 app : main args read salt s = (Ok (c2, app), s') ->
  exists fl c1, ClientMain.parse_flags server_flags args = Some fl /\
    Settings.LoadServerEnv (let env := ClientMain.flag_string fl "env" ".env" in if decide (env = EmptyString) then None else read env) Settings.DefaultServer = Ok c1 /\
    (forall h, h ∈ start_texts -> Settings.f_get h c2 = default (Settings.f_get h c1) (ClientMain.flag_last fl (Settings.f_key h))) /\
    (ServerUDP.codec app <> None <-> Settings.sv_PSK c2 <> EmptyString) /\ ServerUDP.cfg app = SettingsLaws.udp_config c2.
Proof.
  unfold main. destruct (ClientMain.parse_flags _ _) as [fl|] eqn:EF; [|done].
  destruct (Settings.LoadServerEnv _ _) as [c1|] eqn:EE; [|done]. intros (s0 & HS & _ & _ & HN & HK & HA)%New_ok. exists fl, c1.
  assert (HT : forall h, h ∈ start_texts -> Settings.f_get h c2 = default (Settings.f_get h c1) (ClientMain.flag_last fl (Settings.f_key h))).
  { intros h Hh. rewrite (started_keeps h _ _ _ _ Hh HS). revert h Hh. apply Forall_forall. unfold start_texts, apply_server_flags.
    SettingsLaws.forall_list ltac:(lazy beta zeta; cbn [Settings.f_key];
      repeat rewrite flag_keeps by (intros ? ?; reflexivity);
      match goal with |- Settings.f_get _ (match ?o with _ => _ end) = _ => destruct o; [reflexivity|] end;
      repeat rewrite flag_keeps by (intros ? ?; reflexivity); reflexivity). }
  split_and!; [done|done|done| |by rewrite HA].
  assert (E : Settings.sv_PSK c2 = Settings.sv_PSK (apply_server_flags fl c1)).
  { apply (started_keeps (Settings.mkField "psk" Settings.sv_PSK Settings.set_PSK) _ _ _ _ ltac:(unfold start_texts; set_solver) HS). }
  rewrite E. destruct (decide (Settings.sv_PSK (apply_server_flags fl c1) = EmptyString)) as [D|D]; [|tauto]. rewrite (HN D). tauto.
Qed.
End Laws.

(* ------------------------------------------------------------------ *)
(** ** Witnesses *)

(** The first route that takes a request. *)
Definition toy_gin : Gin := {| gin_find l method path :=
  match list_find (fun r => takes r method path = true) l with Some (i, _) => Handle i | None => NoRoute end |}.

Lemma toy_gin_laws : GinLaws toy_gin.
Proof.
  split; cbn [gin_find toy_gin]; intros l method path i.
  - destruct (list_find _ l) as [[j r]|] eqn:E; [|done]. intros [= ->]. apply list_find_Some in E as (H1 & H2 & _). by exists r.
  - intros r Hi HT. destruct (list_find _ l) as [[j r']|] eqn:E; [by exists j|]. rewrite list_find_None in E.
    apply list_elem_of_lookup_2 in Hi. by apply (proj1 (Forall_forall _ _) E) in Hi.
Qed.

Section Witnesses.
  #[local] Existing Instances binary_collation bin_time bin_time_laws SettingsLaws.toy_duration SettingsLaws.toy_duration_laws ascii_unicode
    AgentTunnel.toy_secure AdminAuth.toy_primitives ClientMain.decimal_int toy_gin toy_gin_laws.

(** An address is looked up only with a session; the key opens the rules of an agent. *)
Lemma routes_guarded_witness :
  (forall token, serve AdminAuth.toy_auth_config "GET" "/api/admin/lan/addresses/dev-1" token "psk" 0 SettingsLaws.toy_db = Reached handleAdminLANAddress_ None -> False) /\
  serve AdminAuth.toy_auth_config "GET" "/api/agent/rules" EmptyString "psk" 0 SettingsLaws.toy_db = Reached handleAgentRules_ None.
Proof.
  split.
  - intros token H. destruct (routes_guarded AdminAuth.toy_auth_config "GET" "/api/admin/lan/addresses/dev-1" token "psk" 0 SettingsLaws.toy_db) as [R _].
    destruct (R _ _ H) as [P|[[P _]|(c & P & _)]]; [revert P; apply (bool_decide_unpack (_ ∉ _)); vm_compute; exact I..|discriminate P].
  - destruct (routes_guarded AdminAuth.toy_auth_config "GET" "/api/agent/rules" EmptyString "psk" 0 SettingsLaws.toy_db) as (_ & R & _).
    rewrite (R (mkRoute (Some "GET"%string) "/api/agent/rules" RequireAgent handleAgentRules_)); [reflexivity| |reflexivity|reflexivity|discriminate].
    apply (list_elem_of_lookup_2 _ 39). reflexivity.
Defined.

End Witnesses.
