(* ===== verification/LanMain.v ===== *)
(** * LanMain: how the LAN client starts (cmd/UDPTunnelLAN/main.go, bootstrap.go, config_ui.go, elevate_windows.go; internal/lan/config.go, identity.go)

    Its two files, the settings and the identity; the settings page and the saving through
    a program started with more rights; the two requests of the start; and what a command
    line starts. Files are those of [ClientConfig], the exchanges with the server
    arguments. What runs after the start is in [LanClient] and [P2PInv]. *)

From S2P Require Import Prelude GoStrings Store WinArgs GoJSON Machine Router Link LanServe LanClient.
From S2P Require ClientConfig ClientMain Bootstrap LanIdentity Base64 Settings SettingsLaws.
Import ClientConfig (FS, mkFS, fs_files, fs_readable, fs_write_error, with_files, WriteFile, file_error, ErrEmptyPath, ErrReadFile, ErrDecodeFile, ErrWriteFile, ErrElevated, isPermissionDenied).
#[local] Existing Instances ClientConfig.io_error_eq_dec ClientConfig.file_error_eq_dec.

(* ------------------------------------------------------------------ *)
(** ** The settings and their file (internal/lan/config.go) *)

Record Config : Type := mkConfig { lc_ServerHTTP : string; lc_LogLevel : string }.
Definition no_config : Config := mkConfig EmptyString EmptyString.
Definition trimmed (c : Config) : Config := mkConfig (TrimSpace (lc_ServerHTTP c)) (TrimSpace (lc_LogLevel c)).

Definition config_names : list string := ["server_http"; "log_level"]%string.
Definition config_object (c : Config) : object := ("server_http"%string, JString (lc_ServerHTTP c)) :: omit_string "log_level" (lc_LogLevel c).

Section Files.
  Context `{GU : GoUnicode} `{GJ : GoJSON} `{ED : LanIdentity.Ed25519}.

Definition decode_config (o : object) : option Config :=
  let at_ := values config_names o in
  ServerHTTP ← as_string (at_ "server_http"%string); LogLevel ← as_string (at_ "log_level"%string); Some (mkConfig ServerHTTP LogLevel).

Definition LoadConfig (path : string) (fs : FS) : result file_error Config :=
  if decide (TrimSpace path = EmptyString) then Ok no_config
  else match fs_files fs !! path with
  | None => Ok no_config
  | Some b =>
    if negb (fs_readable fs path) then Err ErrReadFile
    else match o ← Unmarshal b; decode_config o with Some c => Ok (trimmed c) | None => Err ErrDecodeFile end
  end.

Definition config_text (c : Config) : list byte := Indent (Marshal (config_object c)) ++ [x0a].

Definition SaveConfig (path : string) (c : Config) (fs : FS) : result file_error unit * FS :=
  if decide (TrimSpace path = EmptyString) then (Err ErrEmptyPath, fs) else WriteFile path (config_text (trimmed c)) fs.

(* ------------------------------------------------------------------ *)
(** ** The identity and its file (internal/lan/identity.go) *)

Import LanIdentity.

Definition identity_names : list string := ["algorithm"; "private_key"; "public_key"]%string.
Definition identity_object (i : Identity) : object :=
  [("algorithm", JString (id_Algorithm i)); ("private_key", JString (id_PrivateKey i)); ("public_key", JString (id_PublicKey i))]%string.
Definition decode_identity (o : object) : option Identity :=
  let at_ := values identity_names o in
  Algorithm ← as_string (at_ "algorithm"%string); PrivateKey ← as_string (at_ "private_key"%string); PublicKey ← as_string (at_ "public_key"%string);
  Some (mkIdentity Algorithm PrivateKey PublicKey).

Inductive identity_file_error : Type := ErrNotExist | ErrFile (e : file_error) | ErrInvalid (e : identity_error) | ErrGenerate.

#[export] Instance identity_error_eq_dec : EqDecision identity_error.
Proof. solve_decision. Defined.

#[export] Instance identity_file_error_eq_dec : EqDecision identity_file_error.
Proof. solve_decision. Defined.

Definition LoadIdentity (path : string) (fs : FS) : result identity_file_error Identity :=
  match fs_files fs !! path with
  | None => Err ErrNotExist
  | Some b =>
    if negb (fs_readable fs path) then Err (ErrFile ErrReadFile)
    else match o ← Unmarshal b; decode_identity o with
    | None => Err (ErrFile ErrDecodeFile)
    | Some i => match ValidateIdentity i with Ok _ => Ok i | Err e => Err (ErrInvalid e) end
    end
  end.

(** [mkdir] is the error of [os.MkdirAll]. *)
Definition SaveIdentity (mkdir : option file_error) (path : string) (i : Identity) (fs : FS) : result identity_file_error unit * FS :=
  match ValidateIdentity i, mkdir with
  | Err e, _ => (Err (ErrInvalid e), fs)
  | Ok _, Some e => (Err (ErrFile e), fs)
  | Ok _, None =>
    match WriteFile path (Indent (Marshal (identity_object i)) ++ [x0a]) fs with
    | (Err e, fs) => (Err (ErrFile e), fs)
    | (Ok _, fs) => (Ok tt, fs)
    end
  end.

(** [dir] and [join] are [filepath.Dir] and [filepath.Join] of two elements. *)
Definition identityFileName : string := "lan-identity.json".
Definition identityPath (dir : string -> string) (join : string -> string -> string) (configPath : string) : string :=
  if decide (TrimSpace configPath = EmptyString) then identityFileName
  else if decide (dir configPath = "."%string \/ dir configPath = EmptyString) then identityFileName
  else join (dir configPath) identityFileName.

(** [priv] is the key the random source gives, [None] when it fails. The identity is
    returned with the error when it cannot be kept. *)
Definition LoadOrCreateIdentity (mkdir : option file_error) (priv : option (list byte)) (path : string) (fs : FS)
  : result identity_file_error Identity * FS :=
  match LoadIdentity path fs with
  | Ok i => (Ok i, fs)
  | Err e =>
    if decide (e <> ErrNotExist) then (Err e, fs)
    else match priv with
    | None => (Err ErrGenerate, fs)
    | Some k => let '(r, fs) := SaveIdentity mkdir path (GenerateIdentity k) fs in (match r with Ok _ => Ok (GenerateIdentity k) | Err e => Err e end, fs)
    end
  end.
End Files.

(* ------------------------------------------------------------------ *)
(** ** The settings page (config_ui.go) *)

Definition saver : Type := Config -> FS -> result file_error bool * FS.

Record lanRuntimeInfo : Type := mkRuntimeInfo { ri_Version : string; ri_Commit : string; ri_BuildTime : string; ri_InstallPath : string; ri_LogPath : string; ri_ServiceStatus : string }.
Record lanConfigHooks : Type := mkHooks { hk_Runtime : option lanRuntimeInfo; hk_SaveConfig : option saver; hk_RestartService : option (option string) }.
Record lanConfigState : Type := mkPage { pg_cfg : Config; pg_path : string; pg_hooks : lanConfigHooks }.

Definition runtime_object (i : lanRuntimeInfo) : object :=
  [("version", JString (ri_Version i)); ("commit", JString (ri_Commit i)); ("build_time", JString (ri_BuildTime i));
   ("install_path", JString (ri_InstallPath i)); ("log_path", JString (ri_LogPath i)); ("service_status", JString (ri_ServiceStatus i))]%string.

Section Page.
  Context `{GU : GoUnicode} `{GJ : GoJSON}.

(** The status and the JSON of an answer, with the page after it. *)
Definition handleConfig (method : string) (body : list byte) (s : lanConfigState) (fs : FS) : Z * object * lanConfigState * FS :=
  if decide (method = "GET"%string) then (200, config_object (pg_cfg s), s, fs)
  else if decide (method = "POST"%string) then
    match o ← DecodeFirst body; decode_config o with
    | None => (400, [], s, fs)
    | Some req =>
      let s := mkPage req (pg_path s) (pg_hooks s) in
      let '(saved, fs) := match hk_SaveConfig (pg_hooks s) with
        | Some save => save req fs
        | None => let '(r, fs) := SaveConfig (pg_path s) req fs in (_ ← r; Ok false, fs)
        end in
      match saved with
      | Err _ => (500, [], s, fs)
      | Ok elevated => (200, [("ok", JBool true); ("restart_required", JBool true); ("elevation_required", JBool elevated)]%string, s, fs)
      end
    end
  else (405, [], s, fs).

Definition handleRuntime (Version Commit BuildTime : string) (method : string) (s : lanConfigState) : Z * object :=
  if decide (method <> "GET"%string) then (405, [])
  else match hk_Runtime (pg_hooks s) with
  | Some i => (200, runtime_object i)
  | None => (200, runtime_object (mkRuntimeInfo Version Commit BuildTime EmptyString EmptyString EmptyString))
  end.

(** The hook is its outcome: [Some None] restarts the service. *)
Definition handleRestartService (method : string) (s : lanConfigState) : Z * object :=
  if decide (method <> "POST"%string) then (405, [])
  else match hk_RestartService (pg_hooks s) with
  | None => (501, [])
  | Some (Some _) => (500, [])
  | Some None => (200, [("ok"%string, JBool true)])
  end.

(* ------------------------------------------------------------------ *)
(** ** Saving with more rights (elevate_windows.go) *)

Definition apply_args (tmpPath configPath : string) : list string := ["-apply-lan-config"; tmpPath; "-config"; configPath]%string.

Definition saveLANConfigWithElevation (tmp : option string) (shell : string -> bool) (configPath : string) : saver := fun cfg fs =>
  match SaveConfig configPath cfg fs with
  | (Ok _, fs) => (Ok false, fs)
  | (Err e, fs) =>
    if negb (isPermissionDenied e) then (Err e, fs)
    else match tmp with
    | None => (Err ErrElevated, fs)
    | Some tmpPath =>
      let remove fs := with_files (delete tmpPath (fs_files fs)) fs in
      match SaveConfig tmpPath cfg (with_files (<[tmpPath := []]> (fs_files fs)) fs) with
      | (Err e, fs) => (Err e, remove fs)
      | (Ok _, fs) => if shell (joinWindowsArgs (apply_args tmpPath configPath)) then (Ok true, fs) else (Err ErrElevated, remove fs)
      end
    end
  end.

(** The start with [-apply-lan-config]. *)
Definition applyLANConfig (tmpPath configPath : string) (fs : FS) : result file_error unit * FS :=
  match LoadConfig tmpPath fs with
  | Err e => (Err e, fs)
  | Ok next =>
    match SaveConfig configPath next fs with
    | (Err e, fs) => (Err e, fs)
    | (Ok _, fs) => (Ok tt, with_files (delete tmpPath (fs_files fs)) fs)
    end
  end.
End Page.

(* ------------------------------------------------------------------ *)
(** ** The requests of the start (bootstrap.go) *)

Record lanBootstrapRequest : Type := mkLanRequest { lq_DeviceID : string; lq_DeviceName : string; lq_PublicKey : string; lq_Capabilities : list string }.

Inductive request_error : Type := ErrNoServer | ErrBadURL | ErrExchange (e : string) | ErrStatus (status : Z) | ErrDecode | ErrVersion (v : Z).

(** A POST: whether a request can be made to a URL, and the answer of the exchange. *)
Record poster : Type := mkPoster { po_valid : string -> bool; po_Do : string -> list byte -> result string (Z * list byte) }.

Definition server_url (serverHTTP : string) : string := Bootstrap.TrimRight (TrimSpace serverHTTP) [x2f].

Definition post (po : poster) (serverHTTP path : string) (body : list byte) : result request_error (list byte) :=
  let url := server_url serverHTTP in
  if decide (url = EmptyString) then Err ErrNoServer
  else if negb (po_valid po (url ++ path)) then Err ErrBadURL
  else match po_Do po (url ++ path) body with
  | Err e => Err (ErrExchange e)
  | Ok (status, answer) => if decide (status < 200 \/ 300 <= status) then Err (ErrStatus status) else Ok answer
  end.

Definition lanBootstrapVersion : Z := 1.

Section Start.
  Context `{GU : GoUnicode} `{GJ : GoJSON} `{ED : LanIdentity.Ed25519} `{SH : SHA256}.
  (** The encodings of the two bodies and of the answer. *)
  Variable encode_request : lanBootstrapRequest -> list byte.
  Variable decode_response : list byte -> option lanBootstrapResponse.
  Variable encode_report : lan_start -> list byte.
  (** The machine. *)
  Variables (uuid : string) (hostname : option string).

Definition requestLANBootstrap (po : poster) (serverHTTP : string) (req : lanBootstrapRequest) : result request_error lanBootstrapResponse :=
  answer ← post po serverHTTP "/api/lan/bootstrap" (encode_request req);
  match decode_response answer with
  | None => Err ErrDecode
  | Some resp => if decide (lanBootstrapVersion < br_Version resp) then Err (ErrVersion (br_Version resp)) else Ok resp
  end.

Definition reportLANStatus (po : poster) (serverHTTP : string) (st : lan_start) : result request_error unit :=
  _ ← post po serverHTTP "/api/lan/status" (encode_report st); Ok tt.

(** The request of [bootstrapAndRun]. *)
Definition start_request (i : LanIdentity.Identity) : lanBootstrapRequest :=
  mkLanRequest (DeviceID uuid hostname) (lan_defaultDeviceName uuid hostname) (LanIdentity.id_PublicKey i) ["ipv4"; "tcp"; "rdp"; "wintun"]%string.

(** What [bootstrapAndRun] leaves: whether the adapter is up, and the forwarding it
    started. [boot] and [report] are the exchanges of its two requests. *)
Definition bootstrap_and_run (boot report : poster) (now : Time) (routes : list Vnet.Route) (adapter : option string) (c : Config)
  (i : LanIdentity.Identity) : result request_error lan_start * bool * option (Router * LinkManager) :=
  match requestLANBootstrap boot (lc_ServerHTTP c) (start_request i) with
  | Err e => (Err e, false, None)
  | Ok resp =>
    let st := bootstrapAndRun now resp (DeviceID uuid hostname) routes adapter in
    let up := bool_decide (st_AdapterState st = "up"%string) in
    match reportLANStatus report (lc_ServerHTTP c) st with
    | Err e => (Err e, up, None)
    | Ok _ => (Ok st, up, if up then st_runtime st else None)
    end
  end.

Inductive lan_run : Type :=
  | IdentityFailed (e : identity_file_error)
  | POCFailed
  | Waiting (adapter_up : bool) (forwarding : option (Router * LinkManager)).    (* until the context ends *)

(** [runLAN]. [poc] is the outcome of [runWintunPOC] where it is asked for. *)
Definition runLAN (boot report : poster) (now : Time) (routes : list Vnet.Route) (adapter : option string) (mkdir : option file_error)
  (priv : option (list byte)) (poc : option bool) (identity_path : string) (c : Config) (fs : FS) : lan_run * FS :=
  match LoadOrCreateIdentity mkdir priv identity_path fs with
  | (Err e, fs) => (IdentityFailed e, fs)
  | (Ok i, fs) =>
    let '(up, fwd) := if decide (TrimSpace (lc_ServerHTTP c) = EmptyString) then (false, None)
      else let '(_, up, fwd) := bootstrap_and_run boot report now routes adapter c i in (up, fwd) in
    (if decide (poc = Some false) then POCFailed else Waiting up fwd, fs)
  end.

(** The first exchange decides for good: where it fails, or the report after it, nothing
    is forwarded until the program is started again. *)
Lemma failed_start_waits boot report now routes adapter mkdir priv poc path c fs i fs' :
  LoadOrCreateIdentity mkdir priv path fs = (Ok i, fs') -> poc <> Some false ->
  (forall resp, requestLANBootstrap boot (lc_ServerHTTP c) (start_request i) <> Ok resp) \/ (forall st, reportLANStatus report (lc_ServerHTTP c) st <> Ok tt) ->
  exists up, runLAN boot report now routes adapter mkdir priv poc path c fs = (Waiting up None, fs').
Proof.
  intros HI HP H. unfold runLAN. rewrite HI. set (started := if decide (TrimSpace _ = _) then _ else _).
  assert (W : snd started = None).
  { subst started. case_decide; [done|]. unfold bootstrap_and_run. destruct (requestLANBootstrap _ _ _) as [resp|] eqn:E; [|done].
    destruct (reportLANStatus _ _ _) as [[]|] eqn:ER; [|done]. destruct H as [H|H]; [by destruct (H resp)|by apply H in ER]. }
  destruct started as [up fwd]. cbn in W. subst fwd. exists up. by rewrite decide_False.
Qed.

(* ------------------------------------------------------------------ *)
(** ** The command line (main.go) *)

Definition lan_flags : list (string * ClientMain.flag_kind) := [
  ("version", ClientMain.FlagBool); ("config", ClientMain.FlagString); ("server-http", ClientMain.FlagString);
  ("apply-lan-config", ClientMain.FlagString); ("service", ClientMain.FlagBool); ("tray", ClientMain.FlagBool);
  ("install-service", ClientMain.FlagBool); ("uninstall-service", ClientMain.FlagBool); ("start-service", ClientMain.FlagBool);
  ("stop-service", ClientMain.FlagBool); ("restart-service", ClientMain.FlagBool); ("wintun-poc", ClientMain.FlagBool);
  ("wintun-ip", ClientMain.FlagString); ("wintun-cidr", ClientMain.FlagString); ("wintun-mtu", ClientMain.FlagInt)]%string.

Inductive lan_command : Type :=
  | UsageError
  | PrintVersion
  | AppliedConfig (r : result file_error unit)
  | BadConfig (e : file_error)                            (* log.Fatal *)
  | ServiceCommand (c : ClientMain.service_command)
  | TrayHelper (configAbs : string) (c : Config)
  | WindowsService (configAbs : string) (c : Config)      (* runLAN under the service manager *)
  | Interactive (configAbs : string) (c : Config).        (* runLAN until an interrupt *)

Context `{GD : Settings.GoDuration} `{GI : ClientMain.GoInt}.
(** [filepath.IsAbs], [filepath.Join], and the directory of the program. *)
Variables (isAbs : string -> bool) (join : string -> string -> string) (exeDir : option string).

Definition resolveConfigPath (path : string) : string :=
  if isAbs path then path else match exeDir with Some dir => join dir path | None => path end.

Definition modeName (service : bool) : string := if service then "service" else "interactive".

Definition main (args : list string) (fs : FS) : lan_command * FS :=
  match ClientMain.parse_flags lan_flags args with
  | None => (UsageError, fs)
  | Some fl =>
    let set name := ClientMain.flag_bool fl name in
    let str name zero := ClientMain.flag_string fl name zero in
    if set "version"%string then (PrintVersion, fs)
    else
      let configAbs := resolveConfigPath (str "config" "lan.json") in
      let apply := str "apply-lan-config" EmptyString in
      if decide (apply <> EmptyString) then let '(r, fs) := applyLANConfig apply configAbs fs in (AppliedConfig r, fs)
      else match LoadConfig configAbs fs with
      | Err e => (BadConfig e, fs)
      | Ok cfg =>
        let http := str "server-http" EmptyString in
        let cfg := if decide (http <> EmptyString) then mkConfig http (lc_LogLevel cfg) else cfg in
        if set "install-service"%string then (ServiceCommand ClientMain.InstallService, fs)
        else if set "uninstall-service"%string then (ServiceCommand ClientMain.UninstallService, fs)
        else if set "start-service"%string then (ServiceCommand ClientMain.StartService, fs)
        else if set "stop-service"%string then (ServiceCommand ClientMain.StopService, fs)
        else if set "restart-service"%string then (ServiceCommand ClientMain.RestartService, fs)
        else if set "tray"%string then (TrayHelper configAbs cfg, fs)
        else if set "service"%string then (WindowsService configAbs cfg, fs)
        else (Interactive configAbs cfg, fs)
      end
  end.
End Start.

(* ------------------------------------------------------------------ *)
(** ** What lasts *)

Section Laws.
  Context `{GU : GoUnicode} `{GJ : GoJSON} `{ED : LanIdentity.Ed25519} `{GD : Settings.GoDuration} `{GI : ClientMain.GoInt} `{JL : !GoJSONLaws GJ}.

Definition config_writable (c : Config) : bool := ValidString (TrimSpace (lc_ServerHTTP c)) && ValidString (TrimSpace (lc_LogLevel c)).

Lemma config_object_writable c : config_writable c = true -> writable_object (config_object (trimmed c)) = true.
Proof.
  unfold config_writable, config_object, omit_string, trimmed. cbn [lc_ServerHTTP lc_LogLevel]. rewrite andb_true_iff. intros [H1 H2].
  unfold writable_object. case_decide; simpl; rewrite ?H1, ?H2; reflexivity.
Qed.

Lemma trimmed_idem c : trimmed (trimmed c) = trimmed c.
Proof. unfold trimmed. cbn. by rewrite !TrimSpace_idem. Qed.

Lemma decode_config_object c : decode_config (config_object c) = Some c.
Proof. unfold decode_config, config_object, omit_string. destruct c as [h l]. cbn [lc_ServerHTTP lc_LogLevel]. case_decide as D; [subst|]; by rewrite !values_exact by reflexivity. Qed.

(** What was saved is what is loaded, without the blanks around it. *)
Lemma saved_config_loads path c fs : TrimSpace path <> EmptyString -> config_writable c = true -> fs_files fs !! path = Some (config_text (trimmed c)) ->
  fs_readable fs path = true -> LoadConfig path fs = Ok (trimmed c).
Proof.
  intros Hp Hw Hf Hr. unfold LoadConfig. rewrite decide_False, Hf, Hr by done. cbn [negb]. unfold config_text.
  rewrite unmarshal_pretty by (by apply config_object_writable). cbn [mbind option_bind]. by rewrite decode_config_object, trimmed_idem.
Qed.

Lemma lan_save_ok path c fs fs' : SaveConfig path c fs = (Ok tt, fs') ->
  TrimSpace path <> EmptyString /\ fs_write_error fs path = None /\ fs' = with_files (<[path := config_text (trimmed c)]> (fs_files fs)) fs.
Proof. unfold SaveConfig, WriteFile. case_decide; [done|]. destruct (fs_write_error fs path); [done|]. by intros [= <-]. Qed.

Lemma lan_save_err path c fs fs' e : SaveConfig path c fs = (Err e, fs') -> fs' = fs.
Proof. unfold SaveConfig, WriteFile. case_decide; [by intros [= _ <-]|]. destruct (fs_write_error fs path); [by intros [= _ <-]|done]. Qed.

Lemma lan_save_writes path c fs : TrimSpace path <> EmptyString -> fs_write_error fs path = None ->
  SaveConfig path c fs = (Ok tt, with_files (<[path := config_text (trimmed c)]> (fs_files fs)) fs).
Proof. intros Hp Hw. unfold SaveConfig, WriteFile. rewrite decide_False by done. by rewrite Hw. Qed.

(** C36. The settings saved on the page of the tray, which runs without the rights to write the
    file: the answer says that more rights were asked for, and the program the shell is
    given, whatever characters the paths have, leaves the file from which the service
    then starts with what was typed, and no temporary one. *)
Theorem lan_settings_take_effect (isAbs : string -> bool) join exeDir (tmpPath configAbs : string) (shell : string -> bool) (body : list byte)
  (s s' : lanConfigState) (req : Config) (fs fs1 fs2 : FS) (answer : object) :
  (o ← DecodeFirst body; decode_config o) = Some req -> hk_SaveConfig (pg_hooks s) = Some (saveLANConfigWithElevation (Some tmpPath) shell configAbs) ->
  fs_write_error fs configAbs = Some ClientConfig.PermissionDenied -> fs_write_error fs tmpPath = None ->
  ValidString tmpPath = true -> ValidString configAbs = true -> tmpPath <> configAbs -> TrimSpace tmpPath <> EmptyString -> TrimSpace configAbs <> EmptyString ->
  isAbs configAbs = true -> config_writable req = true -> handleConfig "POST" body s fs = (200, answer, s', fs1) ->
  fs_files fs2 = fs_files fs1 -> (forall p, fs_readable fs2 p = true) -> (forall p, fs_write_error fs2 p = None) ->
  answer = [("ok", JBool true); ("restart_required", JBool true); ("elevation_required", JBool true)]%string /\
  fs_files fs1 !! configAbs = fs_files fs !! configAbs /\
  exists line fs3, shell line = true /\ main isAbs join exeDir (commandLineToArgv line) fs2 = (AppliedConfig (Ok tt), fs3) /\
    fs_files fs3 = delete tmpPath (<[configAbs := config_text (trimmed req)]> (fs_files fs)) /\
    (fs_files fs !! tmpPath = None -> main isAbs join exeDir ["-service"; "-config"; configAbs]%string fs3 = (WindowsService configAbs (trimmed req), fs3)).
Proof.
  intros HB HS HD HT V1 V2 Hne Ht Hc HA HW HP F2 R2 W2. unfold handleConfig in HP. rewrite decide_False, decide_True, HB in HP by done. cbn [pg_hooks] in HP.
  rewrite HS in HP. unfold saveLANConfigWithElevation in HP.
  assert (S0 : SaveConfig configAbs req fs = (Err (ErrWriteFile ClientConfig.PermissionDenied), fs)) by (unfold SaveConfig, WriteFile; rewrite decide_False, HD by done; done).
  rewrite S0 in HP. cbn [negb] in HP. change (isPermissionDenied _) with true in HP. cbn [negb] in HP.
  rewrite lan_save_writes in HP by done. destruct (shell _) eqn:Sh; [|done]. injection HP as <- <- <-. split; [done|].
  cbn [with_files fs_files] in *. split; [by rewrite !lookup_insert_ne by done|]. eexists _, _. split; [exact Sh|].
  rewrite elevated_arguments_arrive by (repeat (apply Forall_cons_2; [done || reflexivity|]); apply Forall_nil_2).
  assert (N : tmpPath <> EmptyString) by (by intros ->; apply Ht).
  assert (L : LoadConfig tmpPath fs2 = Ok (trimmed req)) by (apply saved_config_loads; [done|done|by rewrite F2, lookup_insert_eq|done]).
  assert (M : main isAbs join exeDir (apply_args tmpPath configAbs) fs2 =
    (AppliedConfig (Ok tt), with_files (delete tmpPath (<[configAbs := config_text (trimmed req)]> (fs_files fs2))) (with_files (<[configAbs := config_text (trimmed req)]> (fs_files fs2)) fs2))).
  { unfold main. change (ClientMain.parse_flags lan_flags (apply_args tmpPath configAbs)) with (Some [("apply-lan-config", tmpPath); ("config", configAbs)]%string). cbv beta zeta iota.
    change (ClientMain.flag_bool _ "version") with false. cbn iota.
    change (ClientMain.flag_string _ "apply-lan-config" EmptyString) with tmpPath. change (ClientMain.flag_string _ "config" _) with configAbs.
    rewrite decide_True by done. unfold applyLANConfig, resolveConfigPath. rewrite HA, L, lan_save_writes by done. cbn [with_files fs_files]. by rewrite trimmed_idem. }
  split; [exact M|]. cbn [with_files fs_files]. split.
  - rewrite F2, insert_insert_eq, (insert_insert_ne _ configAbs tmpPath), delete_insert_eq by done. done.
  - intros Hfresh. unfold main. change (ClientMain.parse_flags lan_flags ["-service"; "-config"; configAbs]%string) with (Some [("service", "true"); ("config", configAbs)]%string). cbv beta zeta iota.
    change (ClientMain.flag_bool _ "version") with false. cbn iota. change (ClientMain.flag_string _ "apply-lan-config" EmptyString) with EmptyString.
    change (ClientMain.flag_string _ "config" _) with configAbs. rewrite decide_False by (intros E; by apply E). unfold resolveConfigPath. rewrite HA.
    rewrite (saved_config_loads configAbs req).
    + reflexivity. + done. + done. + cbn [fs_files with_files]. by rewrite lookup_delete_ne, lookup_insert_eq by done. + apply R2.
Qed.

Import LanIdentity.

Lemma identity_object_writable i : ValidString (id_Algorithm i) = true -> ValidString (id_PrivateKey i) = true -> ValidString (id_PublicKey i) = true ->
  writable_object (identity_object i) = true.
Proof. intros H1 H2 H3. unfold writable_object. simpl. by rewrite H1, H2, H3. Qed.

Lemma decode_identity_object i : decode_identity (identity_object i) = Some i.
Proof. unfold decode_identity, identity_object. destruct i as [a b c]. cbn [id_Algorithm id_PrivateKey id_PublicKey]. by rewrite !values_exact by reflexivity. Qed.

(** C37. A device keeps its identity: the one a start creates is valid and is what every later
    start loads, whatever its random source gives; a file that is there but no identity
    is an error and stays. *)
Theorem identity_lasts (mkdir mkdir' : option file_error) (priv priv' : option (list byte)) (path : string) (fs fs1 : FS) (i : Identity) :
  LoadOrCreateIdentity mkdir priv path fs = (Ok i, fs1) -> fs_readable fs path = true ->
  ValidString (id_PrivateKey i) = true -> ValidString (id_PublicKey i) = true ->
  ValidateIdentity i = Ok tt /\ LoadOrCreateIdentity mkdir' priv' path fs1 = (Ok i, fs1) /\
  (forall p, p <> path -> fs_files fs1 !! p = fs_files fs !! p) /\
  (fs_files fs !! path <> None -> fs1 = fs).
Proof.
  unfold LoadOrCreateIdentity at 1. destruct (LoadIdentity path fs) as [j|e] eqn:EL.
  - intros [= -> <-] _ _ _. assert (HV : ValidateIdentity i = Ok tt).
    { unfold LoadIdentity in EL. destruct (fs_files fs !! path); [|done]. destruct (negb _); [done|]. destruct (_ ≫= _) as [j|]; [|done].
      destruct (ValidateIdentity j) as [[]|] eqn:EV; [|done]. by injection EL as <-. }
    split_and!; [done| |done|done]. unfold LoadOrCreateIdentity. by rewrite EL.
  - case_decide as De; [done|]. subst e. destruct priv as [k|]; [|done].
    destruct (SaveIdentity mkdir path (GenerateIdentity k) fs) as [r fs'] eqn:ES. unfold SaveIdentity in ES.
    destruct (ValidateIdentity (GenerateIdentity k)) as [[]|] eqn:EV; [|by destruct r; simplify_eq]. destruct mkdir; [by destruct r; simplify_eq|].
    unfold WriteFile in ES. destruct (fs_write_error fs path); [by destruct r; simplify_eq|]. injection ES as <- <-. intros [= <- <-] Hr V1 V2.
    assert (HN : fs_files fs !! path = None).
    { unfold LoadIdentity in EL. destruct (fs_files fs !! path); [|done]. destruct (negb _); [done|]. destruct (_ ≫= _) as [j|]; [|done]. by destruct (ValidateIdentity j). }
    split_and!; [done| | |by rewrite HN].
    + unfold LoadOrCreateIdentity, LoadIdentity. cbn [with_files fs_files fs_readable]. rewrite lookup_insert_eq, Hr. cbn [negb].
      rewrite unmarshal_pretty by (by apply identity_object_writable). cbn [mbind option_bind]. by rewrite decode_identity_object, EV.
    + intros p Hp. cbn. by rewrite lookup_insert_ne.
Qed.
End Laws.

(* ------------------------------------------------------------------ *)
(** ** Witnesses *)

Section Witnesses.
  #[local] Existing Instances ascii_unicode toy_gojson toy_gojson_laws LanIdentity.toy_ed SettingsLaws.toy_duration ClientMain.decimal_int.

Definition toy_path : string := "C:\Program Files\LAN\lan.json".
Definition toy_tmp : string := "C:\Users\a b\x.json".
Definition toy_user_fs : FS := mkFS ∅ (fun _ => true) (fun p => if decide (p = toy_path) then Some ClientConfig.PermissionDenied else None).
Definition toy_page : lanConfigState :=
  mkPage no_config toy_path (mkHooks None (Some (saveLANConfigWithElevation (Some toy_tmp) (fun _ => true) toy_path)) None).
Definition toy_req : Config := mkConfig " http://server.example " "info".
Definition toy_body : list byte := Marshal (config_object toy_req).
Definition toy_saved := handleConfig "POST" toy_body toy_page toy_user_fs.

Lemma lan_settings_take_effect_witness :
  exists line fs3, main (fun _ => true) append None (commandLineToArgv line) (mkFS (fs_files toy_saved.2) (fun _ => true) (fun _ => None)) = (AppliedConfig (Ok tt), fs3) /\
    (main (fun _ => true) append None ["-service"; "-config"; toy_path]%string fs3).1 = WindowsService toy_path (mkConfig "http://server.example" "info").
Proof.
  assert (E1 : toy_saved.1.1 = (200, [("ok", JBool true); ("restart_required", JBool true); ("elevation_required", JBool true)]%string)) by (vm_compute; reflexivity).
  assert (E : toy_saved = (toy_saved.1.1, toy_saved.1.2, toy_saved.2)) by (destruct toy_saved as [[? ?] ?]; reflexivity). rewrite E1 in E.
  assert (D : (o ← DecodeFirst toy_body; decode_config o) = Some toy_req) by (vm_compute; reflexivity).
  destruct (lan_settings_take_effect (fun _ => true) append None toy_tmp toy_path (fun _ => true) toy_body toy_page toy_saved.1.2 toy_req toy_user_fs toy_saved.2
    (mkFS (fs_files toy_saved.2) (fun _ => true) (fun _ => None)) _ D eq_refl eq_refl eq_refl ltac:(vm_compute; reflexivity) ltac:(vm_compute; reflexivity)
    ltac:(discriminate) ltac:(vm_compute; discriminate) ltac:(vm_compute; discriminate) eq_refl ltac:(vm_compute; reflexivity) E eq_refl
    (fun _ => eq_refl) (fun _ => eq_refl)) as (_ & _ & line & fs3 & _ & M & _ & R).
  exists line, fs3. split; [exact M|]. rewrite (R eq_refl). vm_compute. reflexivity.
Defined.

Definition toy_key : list byte := replicate 64 x05.
Definition toy_plain_fs : FS := mkFS ∅ (fun _ => true) (fun _ => None).

Lemma identity_lasts_witness :
  exists i fs1, LoadOrCreateIdentity None (Some toy_key) "lan-identity.json" toy_plain_fs = (Ok i, fs1) /\
    LoadOrCreateIdentity None (Some (replicate 64 x06)) "lan-identity.json" fs1 = (Ok i, fs1).
Proof.
  destruct (LoadOrCreateIdentity None (Some toy_key) "lan-identity.json" toy_plain_fs) as [[i|e] fs1] eqn:E; [|apply (f_equal fst) in E; vm_compute in E; discriminate E].
  assert (I : i = LanIdentity.GenerateIdentity toy_key) by (apply (f_equal fst) in E; vm_compute in E; injection E as <-; vm_compute; reflexivity).
  exists i, fs1. split; [reflexivity|]. subst i.
  apply (identity_lasts None None (Some toy_key) (Some (replicate 64 x06)) "lan-identity.json" toy_plain_fs fs1 _ E); vm_compute; reflexivity.
Defined.
End Witnesses.
