(* ===== verification/Agent.v ===== *)
(** * Agent: the port-forwarding client's control loop (cmd/client/main.go)

    Rules grouped into one tunnel per peer and profile, the worker that keeps a tunnel
    up ([runPeerWorker]), its wake-ups, the reconciliation of workers with the rules
    ([syncRules]) and the heartbeat. A worker is a state machine: each of its blocking
    points is a phase, each way out of one a step. What [runTunnelOnce] returns, the
    clock, the jitter and the answers of the server are arguments. *)

From S2P Require Import Prelude GoStrings Store.
From S2P Require Forward.

(* ------------------------------------------------------------------ *)
(** ** Data *)

Record agentTunnelStatus : Type := mkStatus {
  ts_Peer : string; ts_Profile : string; ts_State : string; ts_Via : string; ts_PublicAddr : string; ts_ConvID : Z; ts_RTTMs : Z;
  ts_NATType : string; ts_LastError : string; ts_Attempt : Z; ts_NextRetryAt : string; ts_LastTransitionAt : string }.

Definition status0 : agentTunnelStatus := mkStatus "" "" "" "" "" 0 0 "" "" 0 "" "".

Record peerRuleSet : Type := mkRuleSet {
  set_Peer : string; set_Profile : string; set_Forward : list Forward.Rule; set_RuleIDs : list Z; set_LocalPorts : list Z }.

Definition ruleSet0 : peerRuleSet := mkRuleSet "" "" [] [] [].

Record natProbeResult : Type := mkNatProbe { nat_NATType : string; nat_PrimaryAddr : string; nat_AltAddr : string; nat_ForceRelay : bool }.

(** Where a worker is: at the head of its loop, in [runTunnelOnce], waiting after a
    failure it retries or one it does not, or returned. *)
Inductive worker_phase : Type := W_top | W_running | W_backoff | W_down | W_done.

#[export] Instance worker_phase_eq_dec : EqDecision worker_phase.
Proof. solve_decision. Defined.

(** [agentPeerSession] with the variables of its worker: [sess_cancelled] is the
    session's context, [sess_runCancelled] that of the current run, [sess_tunnelCancel]
    whether [tunnelCancel] is set, [sess_open_runs] the contexts of finished runs that
    nothing has cancelled. *)
Record agentPeerSession : Type := mkSession {
  sess_peer : string; sess_profile : string; sess_sig : string; sess_rules : peerRuleSet;
  sess_cancelled : bool; sess_wake : option string; sess_status : agentTunnelStatus; sess_addr : string; sess_upnp : string;
  sess_tunnelCancel : bool; sess_runCancelled : bool; sess_attempt : Z; sess_connected : bool; sess_phase : worker_phase;
  sess_open_runs : nat }.

Definition upd_cancelled (b : bool) (s : agentPeerSession) : agentPeerSession :=
  mkSession (sess_peer s) (sess_profile s) (sess_sig s) (sess_rules s) b (sess_wake s) (sess_status s) (sess_addr s) (sess_upnp s)
    (sess_tunnelCancel s) (sess_runCancelled s) (sess_attempt s) (sess_connected s) (sess_phase s) (sess_open_runs s).
Definition upd_wake (w : option string) (s : agentPeerSession) : agentPeerSession :=
  mkSession (sess_peer s) (sess_profile s) (sess_sig s) (sess_rules s) (sess_cancelled s) w (sess_status s) (sess_addr s) (sess_upnp s)
    (sess_tunnelCancel s) (sess_runCancelled s) (sess_attempt s) (sess_connected s) (sess_phase s) (sess_open_runs s).
Definition upd_status (st : agentTunnelStatus) (addr upnp : string) (s : agentPeerSession) : agentPeerSession :=
  mkSession (sess_peer s) (sess_profile s) (sess_sig s) (sess_rules s) (sess_cancelled s) (sess_wake s) st addr upnp
    (sess_tunnelCancel s) (sess_runCancelled s) (sess_attempt s) (sess_connected s) (sess_phase s) (sess_open_runs s).
Definition upd_run (tunnelCancel runCancelled : bool) (s : agentPeerSession) : agentPeerSession :=
  mkSession (sess_peer s) (sess_profile s) (sess_sig s) (sess_rules s) (sess_cancelled s) (sess_wake s) (sess_status s) (sess_addr s)
    (sess_upnp s) tunnelCancel runCancelled (sess_attempt s) (sess_connected s) (sess_phase s) (sess_open_runs s).
Definition upd_loop (attempt : Z) (connected : bool) (phase : worker_phase) (s : agentPeerSession) : agentPeerSession :=
  mkSession (sess_peer s) (sess_profile s) (sess_sig s) (sess_rules s) (sess_cancelled s) (sess_wake s) (sess_status s) (sess_addr s)
    (sess_upnp s) (sess_tunnelCancel s) (sess_runCancelled s) attempt connected phase (sess_open_runs s).
Definition upd_phase (phase : worker_phase) (s : agentPeerSession) : agentPeerSession :=
  upd_loop (sess_attempt s) (sess_connected s) phase s.
Definition upd_open_runs (n : nat) (s : agentPeerSession) : agentPeerSession :=
  mkSession (sess_peer s) (sess_profile s) (sess_sig s) (sess_rules s) (sess_cancelled s) (sess_wake s) (sess_status s) (sess_addr s)
    (sess_upnp s) (sess_tunnelCancel s) (sess_runCancelled s) (sess_attempt s) (sess_connected s) (sess_phase s) n.

(** A request to the server: a status of a tunnel, with the addresses reported beside it. *)
Inductive agent_post : Type :=
  | PostTunnelStatus (st : agentTunnelStatus) (addr upnp : string)
  | PostHeartbeat (addr upnp : string) (tunnels : list agentTunnelStatus).

(* ------------------------------------------------------------------ *)
(** ** Rules *)

Section Grouping.
  Context `{GU : GoUnicode}.

Definition tunnelGroupKey (peer profile : string) : string := (peer ++ NUL ++ NormalizeProfile profile)%string.

Definition forward_rule (r : ForwardRule) : Forward.Rule :=
  Forward.mkRule (fr_LocalPort r) (fr_TargetHost r ++ ":" ++ FormatInt (fr_TargetPort r))%string (fr_Name r) (NormalizeProfile (fr_Profile r)).

(** One round of [groupRulesByPeer]. *)
Definition group_rule (deviceID : string) (grouped : gmap string peerRuleSet) (r : ForwardRule) : gmap string peerRuleSet :=
  if negb (fr_Enabled r) then grouped
  else
    let profile := NormalizeProfile (fr_Profile r) in
    if decide (deviceID = fr_SourceID r) then
      let key := tunnelGroupKey (fr_TargetID r) profile in
      let set := default ruleSet0 (grouped !! key) in
      <[key := mkRuleSet (fr_TargetID r) profile (set_Forward set ++ [forward_rule r]) (set_RuleIDs set ++ [fr_ID r])
                 (set_LocalPorts set ++ [fr_LocalPort r])]> grouped
    else if decide (deviceID = fr_TargetID r) then
      let key := tunnelGroupKey (fr_SourceID r) profile in
      match grouped !! key with
      | Some _ => grouped
      | None => <[key := mkRuleSet (fr_SourceID r) profile [] [] []]> grouped
      end
    else grouped.

Definition groupRulesByPeer (deviceID : string) (rules : list ForwardRule) : gmap string peerRuleSet :=
  fold_left (group_rule deviceID) rules ∅.

(** ["#%d:%s:%s:%d->%s"] *)
Definition rule_part (ruleID : Z) (r : Forward.Rule) : string :=
  ("#" ++ FormatInt ruleID ++ ":" ++ Forward.Profile r ++ ":" ++ Forward.Name r ++ ":" ++ FormatInt (Forward.LocalPort r) ++
   "->" ++ Forward.Target r)%string.

Definition forwardRulesSignature (rules : peerRuleSet) : string :=
  Join (sort_strings (imap (fun i r => rule_part (default 0 (set_RuleIDs rules !! i)) r) (set_Forward rules))) ",".

End Grouping.

(* ------------------------------------------------------------------ *)
(** ** Failures *)

(** An error of [runTunnelOnce]: whether it is [context.Canceled], and its text. *)
Record tunnel_error : Type := mkTunnelError { err_canceled : bool; err_msg : string }.

Definition classifyTunnelError (err : option tunnel_error) : string :=
  match err with
  | None => EmptyString
  | Some err =>
    let msg := err_msg err in
    if err_canceled err then "rule_cancelled"%string
    else if Contains msg "peer_info_timeout" then "peer_info_timeout"
    else if Contains msg "punch_timeout" then "punch_timeout"
    else if Contains msg "register_failed" then "register_failed"
    else if Contains msg "kcp_open_failed" then "kcp_open_failed"
    else if Contains msg "ingress_listen_failed" then "ingress_listen_failed"
    else if Contains msg "local_socket_failed" then "local_socket_failed"
    else if Contains msg "kcp_eof" then "kcp_eof"
    else if Contains msg "i/o timeout" then "io_timeout"
    else msg
  end.

Definition shouldRetryTunnelError (reason : string) : bool :=
  negb (bool_decide (reason ∈ ["rule_cancelled"; "rule_changed"; "ingress_listen_failed"]%string)).

Definition backoff_steps : list Duration := [second; 2 * second; 5 * second; 10 * second; 20 * second; 30 * second; 60 * second].

(** The step without its jitter, and the delay: [jitter] is what is drawn for a base. *)
Definition backoff_base (attempt : Z) : Duration :=
  let idx := attempt - 1 in
  let idx := if decide (7 <= idx) then 6 else idx in
  default 0 (backoff_steps !! Z.to_nat idx).
Definition nextBackoffDelay (jitter : Duration -> Duration) (attempt : Z) : Duration :=
  if decide (attempt <= 0) then second else backoff_base attempt + jitter (backoff_base attempt).

(* ------------------------------------------------------------------ *)
(** ** A session *)

Section Worker.
  Context `{GU : GoUnicode} `{GT : GoTime}.

Definition setStatus (now : Time) (st : agentTunnelStatus) (s : agentPeerSession) : agentPeerSession :=
  let st := if decide (ts_LastTransitionAt st = EmptyString)
            then mkStatus (ts_Peer st) (ts_Profile st) (ts_State st) (ts_Via st) (ts_PublicAddr st) (ts_ConvID st) (ts_RTTMs st) (ts_NATType st)
                   (ts_LastError st) (ts_Attempt st) (ts_NextRetryAt st) (RFC3339 now)
            else st in
  upd_status st (sess_addr s) (sess_upnp s) s.

Definition setDeviceAddrs (addr upnp : string) (s : agentPeerSession) : agentPeerSession :=
  upd_status (sess_status s) (if decide (addr <> EmptyString) then addr else sess_addr s)
    (if decide (upnp <> EmptyString) then upnp else sess_upnp s) s.

(** [trigger]: a wake-up, kept if one is waiting already, and the cancellation of the run. *)
Definition trigger (reason : string) (s : agentPeerSession) : agentPeerSession :=
  let s := upd_wake (match sess_wake s with None => Some reason | w => w end) s in
  if sess_tunnelCancel s then upd_run (sess_tunnelCancel s) true s else s.

(** [sess.cancel()]; the contexts of all runs derive from the session's. *)
Definition cancel_session (s : agentPeerSession) : agentPeerSession := upd_open_runs 0 (upd_cancelled true s).

Definition run_ctx_err (s : agentPeerSession) : bool := sess_cancelled s || sess_runCancelled s.

(** [report] of the worker. *)
Definition report (now : Time) (ts : agentTunnelStatus) (addr upnp : string) (s : agentPeerSession) : agentPeerSession * list agent_post :=
  let ts := mkStatus (set_Peer (sess_rules s)) (NormalizeProfile (set_Profile (sess_rules s))) (ts_State ts) (ts_Via ts) (ts_PublicAddr ts)
              (ts_ConvID ts) (ts_RTTMs ts) (ts_NATType ts) (ts_LastError ts) (ts_Attempt ts) (ts_NextRetryAt ts) (ts_LastTransitionAt ts) in
  (setDeviceAddrs addr upnp (setStatus now ts s),
   if decide (ts_State ts = EmptyString) then [] else [PostTunnelStatus ts addr upnp]).

Definition plain_status (state lastError : string) (attempt : Z) (nextRetry transition : string) : agentTunnelStatus :=
  mkStatus "" "" state "" "" 0 0 "" lastError attempt nextRetry transition.

Definition report_cancelled (now : Time) (s : agentPeerSession) : agentPeerSession * list agent_post :=
  report now (plain_status "disabled" "rule_cancelled" 0 "" "") "" "" (upd_phase W_done s).

(** The head of the loop: [runTunnelOnce] starts unless the session is cancelled. *)
Definition worker_top (now : Time) (s : agentPeerSession) : agentPeerSession * list agent_post :=
  if sess_cancelled s then report_cancelled now s
  else
    let '(s, posts) := report now (plain_status "connecting" "" (sess_attempt s) "" (RFC3339 now)) "" "" s in
    (upd_run true false (upd_loop (sess_attempt s) false W_running s), posts).

(** The status callback of [runTunnelOnce]. *)
Definition worker_status (now : Time) (ts : agentTunnelStatus) (addr upnp : string) (s : agentPeerSession) : agentPeerSession * list agent_post :=
  let s := if decide (ts_State ts = "p2p"%string \/ ts_State ts = "relay"%string) then upd_loop 0 true (sess_phase s) s else s in
  let ts := if decide (ts_LastTransitionAt ts = EmptyString)
            then mkStatus (ts_Peer ts) (ts_Profile ts) (ts_State ts) (ts_Via ts) (ts_PublicAddr ts) (ts_ConvID ts) (ts_RTTMs ts) (ts_NATType ts)
                   (ts_LastError ts) (ts_Attempt ts) (ts_NextRetryAt ts) (RFC3339 now)
            else ts in
  report now ts addr upnp s.

(** A wake-up taken: an attempt count is reset for a change of the network. *)
Definition woken (reason : string) (s : agentPeerSession) : agentPeerSession :=
  let attempt := if decide (reason ∈ ["addr_changed"; "upnp_changed"; "system_resume"]%string) then 0 else sess_attempt s in
  upd_wake None (upd_loop attempt (sess_connected s) W_top s).

(** [runTunnelOnce] has returned. Its context stays open unless something cancelled it. *)
Definition worker_return (now : Time) (jitter : Duration -> Duration) (err : option tunnel_error) (s : agentPeerSession)
  : agentPeerSession * list agent_post :=
  let s := upd_open_runs (if run_ctx_err s then sess_open_runs s else S (sess_open_runs s)) s in
  let s := upd_run false false s in
  if sess_cancelled s then report_cancelled now s
  else match sess_wake s with
  | Some reason => (woken reason s, [])
  | None =>
    let reason := classifyTunnelError err in
    let attempt := if sess_connected s then 0 else sess_attempt s in
    if negb (shouldRetryTunnelError reason)
    then report now (plain_status "down" reason attempt "" (RFC3339 now)) "" "" (upd_loop attempt (sess_connected s) W_down s)
    else
      let attempt := attempt + 1 in
      report now (plain_status "backoff" reason attempt (RFC3339 (time_add now (nextBackoffDelay jitter attempt))) (RFC3339 now)) "" ""
        (upd_loop attempt (sess_connected s) W_backoff s)
  end.

(** The steps of a worker; of several ways out of a [select] any may be taken. A run
    ends with [context.Canceled] only when its context is cancelled. *)
Inductive worker_step : agentPeerSession -> list agent_post -> agentPeerSession -> Prop :=
  | wstep_top now s s' p : sess_phase s = W_top -> worker_top now s = (s', p) -> worker_step s p s'
  | wstep_status now ts addr upnp s s' p : sess_phase s = W_running -> worker_status now ts addr upnp s = (s', p) -> worker_step s p s'
  | wstep_return now jitter err s s' p : sess_phase s = W_running ->
      (forall x, err = Some x -> err_canceled x = true -> run_ctx_err s = true) ->
      worker_return now jitter err s = (s', p) -> worker_step s p s'
  | wstep_cancelled now s s' p : sess_phase s = W_backoff \/ sess_phase s = W_down -> sess_cancelled s = true ->
      report_cancelled now s = (s', p) -> worker_step s p s'
  | wstep_woken reason s : sess_phase s = W_backoff \/ sess_phase s = W_down -> sess_wake s = Some reason -> worker_step s [] (woken reason s)
  | wstep_timer s : sess_phase s = W_backoff -> worker_step s [] (upd_phase W_top s).

(** A session as [syncRules] makes it. *)
Definition new_session (set : peerRuleSet) : agentPeerSession :=
  mkSession (set_Peer set) (set_Profile set) (forwardRulesSignature set) set false None status0 "" "" false false 0 false W_top 0.

(** What can happen to a session: a step of its worker, a wake-up, its cancellation. *)
Inductive session_reachable (set : peerRuleSet) : agentPeerSession -> Prop :=
  | sreach_new : session_reachable set (new_session set)
  | sreach_step s p s' : session_reachable set s -> worker_step s p s' -> session_reachable set s'
  | sreach_trigger reason s : session_reachable set s -> session_reachable set (trigger reason s)
  | sreach_cancel s : session_reachable set s -> session_reachable set (cancel_session s).

End Worker.

(* ------------------------------------------------------------------ *)
(** ** Signatures *)

Section Signature.
  Context `{GU : GoUnicode}.

(** A rule whose fields hold none of the characters the signature separates them with. *)
Definition sig_clean (r : Forward.Rule) : Prop :=
  x2c ∉ bytes_of (Forward.Profile r) ++ bytes_of (Forward.Name r) ++ bytes_of (Forward.Target r) /\
  x3a ∉ bytes_of (Forward.Profile r) /\ x3e ∉ bytes_of (Forward.Target r).

Lemma rule_part_bytes i r : bytes_of (rule_part i r) =
  x23 :: bytes_of (FormatInt i) ++ x3a :: bytes_of (Forward.Profile r) ++ x3a ::
  ((bytes_of (Forward.Name r) ++ x3a :: bytes_of (FormatInt (Forward.LocalPort r)) ++ [x2d]) ++ x3e :: bytes_of (Forward.Target r)).
Proof.
  unfold rule_part. rewrite !bytes_of_app.
  change (bytes_of "#") with [x23]. change (bytes_of ":") with [x3a]. change (bytes_of "->") with [x2d; x3e].
  repeat (cbn [app]; rewrite <- ?app_assoc). done.
Qed.

Lemma rule_part_inj i j r r' : sig_clean r -> sig_clean r' -> rule_part i r = rule_part j r' -> i = j /\ r = r'.
Proof.
  intros (_ & P1 & T1) (_ & P2 & T2) E%(f_equal bytes_of). rewrite !rule_part_bytes in E. injection E as E.
  apply app_sep_inj in E as [E1 E]; [|by apply FormatInt_no_byte..].
  apply app_sep_inj in E as [E2 E]; [|done..].
  apply app_last_sep_inj in E as [E E3]; [|done..].
  apply app_last_sep_inj in E as [E4 E5];
    [|rewrite elem_of_app; intros [H|H%list_elem_of_singleton]; [by apply FormatInt_no_byte in H|discriminate]..].
  apply app_inj_tail in E5 as [E5 _].
  apply bytes_of_inj in E1, E2, E3, E4, E5. apply (inj pretty) in E1, E5. split; [done|].
  destruct r, r'; cbn in *. by subst.
Qed.

Lemma split_concat (sep : byte) (l : list string) : l <> [] -> Forall (fun s => sep ∉ bytes_of s) l ->
  split_bytes sep (bytes_of (Join l (string_of [sep]))) = map bytes_of l.
Proof.
  intros Hne Hl. induction Hl as [|s l Hs Hl IH]; [done|]. destruct l as [|t l].
  { unfold Join. cbn. by rewrite split_bytes_none. }
  assert (E : Join (s :: t :: l) (string_of [sep]) = (s ++ string_of [sep] ++ Join (t :: l) (string_of [sep]))%string) by done.
  rewrite E, !bytes_of_app, bytes_of_string_of. cbn [app]. rewrite split_bytes_app by done. by rewrite IH.
Qed.

Definition rule_parts (rules : peerRuleSet) : list (Z * Forward.Rule) :=
  imap (fun i r => (default 0 (set_RuleIDs rules !! i), r)) (set_Forward rules).

Definition part_text (p : Z * Forward.Rule) : string := rule_part p.1 p.2.

Lemma signature_parts rules :
  forwardRulesSignature rules = Join (sort_strings (map part_text (rule_parts rules))) (string_of [x2c]).
Proof.
  unfold forwardRulesSignature, rule_parts. change (map part_text ?l) with (part_text <$> l). by rewrite fmap_imap.
Qed.

Lemma sorted_parts_nil l : sort_strings (map part_text l) = [] -> l = [].
Proof. intros F%(f_equal length). rewrite sort_strings_perm, length_map in F. by destruct l. Qed.

Lemma signature_empty l : Join (sort_strings (map part_text l)) (string_of [x2c]) = EmptyString -> l = [].
Proof.
  intros E. apply sorted_parts_nil. destruct (sort_strings (map part_text l)) as [|a k] eqn:Es; [done|]. exfalso.
  assert (Hin : a ∈ map part_text l) by (rewrite <- (sort_strings_perm (map part_text l)), Es; by left).
  apply list_elem_of_fmap in Hin as (z & -> & _). apply (f_equal bytes_of) in E. unfold part_text in E. destruct k as [|b k].
  - change (bytes_of (rule_part z.1 z.2) = []) in E. by rewrite rule_part_bytes in E.
  - change (bytes_of (rule_part z.1 z.2 ++ string_of [x2c] ++ Join (b :: k) (string_of [x2c]))%string = []) in E.
    by rewrite bytes_of_app, rule_part_bytes in E.
Qed.

Lemma part_no_comma p : sig_clean p.2 -> x2c ∉ bytes_of (part_text p).
Proof.
  intros (H & _). unfold part_text. rewrite rule_part_bytes. rewrite !elem_of_app in H.
  rewrite elem_of_cons, !elem_of_app, !elem_of_cons, !elem_of_app, !elem_of_cons, !elem_of_app, !elem_of_cons, !elem_of_app, list_elem_of_singleton.
  pose proof (FormatInt_no_byte x2c p.1 eq_refl). pose proof (FormatInt_no_byte x2c (Forward.LocalPort p.2) eq_refl).
  naive_solver.
Qed.

(** Two lists of clean parts with one multiset of texts. *)
Lemma parts_perm (l1 l2 : list (Z * Forward.Rule)) :
  Forall (fun p => sig_clean p.2) l1 -> Forall (fun p => sig_clean p.2) l2 -> map part_text l1 ≡ₚ map part_text l2 -> l1 ≡ₚ l2.
Proof.
  intros H1. revert l2. induction H1 as [|x l1 Hx H1 IH]; intros l2 H2 P.
  - apply Permutation_nil_l in P. by destruct l2.
  - assert (Hin : part_text x ∈ map part_text l2) by (rewrite <- P; by left).
    apply list_elem_of_fmap in Hin as (y & Ey & Hy). apply elem_of_Permutation in Hy as (l & Hl).
    rewrite Hl in H2. apply Forall_cons in H2 as [Hy H2].
    destruct x as [i r], y as [j r']. unfold part_text in Ey. cbn [fst snd] in Ey. apply rule_part_inj in Ey as [-> ->]; [|done..].
    rewrite Hl. constructor. apply IH; [done|]. rewrite Hl in P. cbn [map] in P. by apply Permutation_cons_inv in P.
Qed.

Lemma rule_parts_clean s : Forall sig_clean (set_Forward s) -> Forall (fun p => sig_clean p.2) (rule_parts s).
Proof.
  intros Hs. apply Forall_forall. intros [z r] Hin. apply elem_of_lookup_imap_1 in Hin as (i & x & [= _ ->] & Hx).
  rewrite Forall_lookup in Hs. by apply (Hs i).
Qed.

(** The signature tells rule sets apart: equal signatures mean the same rules, with
    the same ids, up to their order. *)
Lemma signature_inj (s1 s2 : peerRuleSet) :
  Forall sig_clean (set_Forward s1) -> Forall sig_clean (set_Forward s2) ->
  forwardRulesSignature s1 = forwardRulesSignature s2 -> rule_parts s1 ≡ₚ rule_parts s2.
Proof.
  rewrite !signature_parts. intros H1%rule_parts_clean H2%rule_parts_clean.
  set (l1 := rule_parts s1) in *. set (l2 := rule_parts s2) in *. clearbody l1 l2.
  destruct (decide (l1 = [])) as [->|N1]; [intros E; symmetry in E; by rewrite (signature_empty l2)|].
  destruct (decide (l2 = [])) as [->|N2]; [intros E; by rewrite (signature_empty l1)|]. intros E. apply parts_perm; [done|done|].
  assert (Hn : forall l, Forall (fun p : Z * Forward.Rule => sig_clean p.2) l -> Forall (fun s => x2c ∉ bytes_of s) (sort_strings (map part_text l))).
  { intros l Hl. rewrite sort_strings_perm. apply Forall_fmap. eapply Forall_impl; [exact Hl|]. intros p. apply part_no_comma. }
  apply (f_equal (fun s => split_bytes x2c (bytes_of s))) in E.
  rewrite !split_concat in E; [|(intros F; by apply sorted_parts_nil in F) || (by apply Hn)..].
  apply list_fmap_eq_inj in E; [|exact bytes_of_inj]. by rewrite <- (sort_strings_perm (map part_text l1)), E, sort_strings_perm.
Qed.
End Signature.

(* ------------------------------------------------------------------ *)
(** ** What the groups hold *)

Section Groups.
  Context `{GU : GoUnicode}.

(** A rule the server accepted, whose names keep to the separators of the keys. *)
Definition rule_ok (r : ForwardRule) : Prop :=
  ValidProfile (fr_Profile r) = true /\ x00 ∉ bytes_of (fr_SourceID r) /\ x00 ∉ bytes_of (fr_TargetID r) /\
  fr_SourceID r <> fr_TargetID r /\ sig_clean (forward_rule r).

(** A profile as [NormalizeProfile] leaves a valid one. *)
Definition valid_profile (p : string) : Prop := p = ProfileInteractive \/ p = ProfileBulk.

Lemma rule_ok_profile r : rule_ok r -> valid_profile (NormalizeProfile (fr_Profile r)).
Proof. intros (H & _). unfold ValidProfile in H. by bools. Qed.

Lemma valid_normalized p : valid_profile p -> NormalizeProfile p = p.
Proof. by intros [-> | ->]. Qed.

Lemma group_key_inj a p b q : x00 ∉ bytes_of a -> x00 ∉ bytes_of b -> valid_profile p -> valid_profile q ->
  tunnelGroupKey a p = tunnelGroupKey b q -> a = b /\ p = q.
Proof.
  intros Ha Hb Hp Hq E. unfold tunnelGroupKey in E. rewrite !valid_normalized in E by done.
  apply (f_equal bytes_of) in E. rewrite !bytes_of_app in E. change (bytes_of NUL) with [x00] in E. cbn [app] in E.
  apply app_sep_inj in E as [E1%bytes_of_inj E2%bytes_of_inj]; auto.
Qed.

(** The rules a device forwards to a peer, and those that make it serve one. *)
Definition outgoing (d peer profile : string) (r : ForwardRule) : Prop :=
  fr_Enabled r = true /\ fr_SourceID r = d /\ fr_TargetID r = peer /\ NormalizeProfile (fr_Profile r) = profile.
Definition incoming (d peer profile : string) (r : ForwardRule) : Prop :=
  fr_Enabled r = true /\ fr_TargetID r = d /\ fr_SourceID r = peer /\ NormalizeProfile (fr_Profile r) = profile.

#[export] Instance outgoing_dec d peer profile r : Decision (outgoing d peer profile r).
Proof. unfold outgoing. apply _. Defined.

Definition group_of (peer profile : string) (out : list ForwardRule) : peerRuleSet :=
  mkRuleSet peer profile (map forward_rule out) (map fr_ID out) (map fr_LocalPort out).

(** The entry of a key: there is one for exactly the peers and profiles of the enabled
    rules that name the device, and it holds its own rules in their order. *)
Definition group_entry (d : string) (rules : list ForwardRule) (peer profile : string) (g : option peerRuleSet) : Prop :=
  (g = None /\ (forall r, r ∈ rules -> ~ outgoing d peer profile r /\ ~ incoming d peer profile r)) \/
  (g = Some (group_of peer profile (filter (outgoing d peer profile) rules)) /\
   exists r, r ∈ rules /\ (outgoing d peer profile r \/ incoming d peer profile r)).

Lemma group_entry_skip d rules r peer profile g : ~ outgoing d peer profile r -> ~ incoming d peer profile r ->
  group_entry d rules peer profile g -> group_entry d (rules ++ [r]) peer profile g.
Proof.
  intros Ho Hi [[-> H]|[-> (x & Hx & H)]]; [left|right]; split.
  - done.
  - intros x [Hx| ->%list_elem_of_singleton]%elem_of_app; [by apply H|done].
  - rewrite filter_app, filter_cons_False by done. by rewrite app_nil_r.
  - exists x. split; [apply elem_of_app; by left|done].
Qed.

Ltac not_rule := unfold outgoing, incoming; let H := fresh in intros H; destruct_and! H; subst; (done || congruence || tauto).

Lemma groups_spec d rules peer profile : Forall rule_ok rules -> x00 ∉ bytes_of peer -> valid_profile profile ->
  group_entry d rules peer profile (groupRulesByPeer d rules !! tunnelGroupKey peer profile).
Proof.
  intros Hok Hp Hv. induction rules as [|r rules IH] using rev_ind.
  { left. split; [done|]. intros r Hr. by apply elem_of_nil in Hr. }
  apply Forall_app in Hok as [Hok [Hr _]%Forall_cons]. specialize (IH Hok).
  unfold groupRulesByPeer in *. rewrite fold_left_app. cbn [fold_left]. set (g := fold_left (group_rule d) rules ∅) in *.
  pose proof (rule_ok_profile r Hr) as Hv'. destruct Hr as (_ & Hs & Ht & Hst & _). unfold group_rule.
  destruct (fr_Enabled r) eqn:En; cbn [negb].
  2: { apply group_entry_skip; [not_rule..|done]. }
  set (p := NormalizeProfile (fr_Profile r)) in *. case_decide as D1.
  - destruct (decide (fr_TargetID r = peer /\ p = profile)) as [[<- <-]|Hne].
    + rewrite lookup_insert_eq. right. split; [|exists r; split; [set_solver|left; by split_and!]].
      rewrite filter_app, filter_cons_True by (by split_and!). unfold group_of. rewrite !map_app. f_equal.
      destruct IH as [[-> H]|[-> _]]; [|done]. cbn.
      assert (F : filter (outgoing d (fr_TargetID r) p) rules = []).
      { destruct (filter _ rules) as [|x l] eqn:E; [done|].
        assert (Hx : x ∈ filter (outgoing d (fr_TargetID r) p) rules) by (rewrite E; by left).
        apply list_elem_of_filter in Hx as [Ho Hx]. by destruct (H x Hx). }
      by rewrite F.
    + rewrite lookup_insert_ne by (intros E; apply Hne; by apply group_key_inj in E).
      apply group_entry_skip; [not_rule|not_rule|done].
  - case_decide as D2.
    + destruct (decide (fr_SourceID r = peer /\ p = profile)) as [[<- <-]|Hne].
      * assert (Ho : ~ outgoing d (fr_SourceID r) p r) by not_rule.
        right. rewrite filter_app, filter_cons_False, app_nil_r by done. split.
        -- destruct IH as [[E H]|[E _]]; [|by rewrite E]. rewrite E, lookup_insert_eq.
           destruct (filter (outgoing d (fr_SourceID r) p) rules) as [|x l] eqn:F; [done|].
           assert (Hx : x ∈ filter (outgoing d (fr_SourceID r) p) rules) by (rewrite F; by left).
           apply list_elem_of_filter in Hx as [Hx1 Hx2]. by destruct (H x Hx2).
        -- exists r. split; [set_solver|right; by split_and!].
      * apply group_entry_skip; [not_rule|not_rule|].
        destruct (g !! tunnelGroupKey (fr_SourceID r) p); [done|].
        rewrite lookup_insert_ne by (intros E; apply Hne; by apply group_key_inj in E). done.
    + apply group_entry_skip; [not_rule|not_rule|done].
Qed.

(** Every key of the groups is that of a peer and profile of a rule. *)
Lemma groups_keys d rules key set : Forall rule_ok rules -> groupRulesByPeer d rules !! key = Some set ->
  exists r peer, r ∈ rules /\ x00 ∉ bytes_of peer /\ key = tunnelGroupKey peer (NormalizeProfile (fr_Profile r)) /\
    rule_ok r.
Proof.
  intros Hok. revert set. unfold groupRulesByPeer. induction rules as [|r rules IH] using rev_ind; intros set; [cbn; by intros F%lookup_empty_Some|].
  apply Forall_app in Hok as [Hok [Hr _]%Forall_cons]. specialize (IH Hok). rewrite fold_left_app. cbn [fold_left].
  set (g := fold_left (group_rule d) rules ∅) in *.
  assert (HI : g !! key = Some set -> exists r0 peer, r0 ∈ rules ++ [r] /\ x00 ∉ bytes_of peer /\
    key = tunnelGroupKey peer (NormalizeProfile (fr_Profile r0)) /\ rule_ok r0).
  { intros (r0 & peer & H1 & H2)%IH. exists r0, peer. split; [set_solver|done]. }
  pose proof Hr as (_ & Hs & Ht & _). unfold group_rule. destruct (negb _); [done|]. case_decide.
  - destruct (decide (tunnelGroupKey (fr_TargetID r) (NormalizeProfile (fr_Profile r)) = key)) as [<-|];
      [|intros HL; apply HI; by rewrite lookup_insert_ne in HL]. intros _. exists r, (fr_TargetID r). split; [set_solver|done].
  - case_decide; [|done]. destruct (g !! tunnelGroupKey (fr_SourceID r) _) eqn:E; [done|].
    destruct (decide (tunnelGroupKey (fr_SourceID r) (NormalizeProfile (fr_Profile r)) = key)) as [<-|];
      [|intros HL; apply HI; by rewrite lookup_insert_ne in HL]. intros _. exists r, (fr_SourceID r). split; [set_solver|done].
Qed.

Lemma rule_parts_group peer profile out : rule_parts (group_of peer profile out) = map (fun r => (fr_ID r, forward_rule r)) out.
Proof.
  unfold rule_parts, group_of. cbn. apply list_eq. intros i. rewrite list_lookup_imap.
  change (map ?f ?l) with (f <$> l). rewrite !list_lookup_fmap. by destruct (out !! i).
Qed.

(** The group of a key: its peer and profile, and its rules all clean. *)
Lemma groups_at d rules key set : Forall rule_ok rules -> groupRulesByPeer d rules !! key = Some set ->
  exists peer profile, x00 ∉ bytes_of peer /\ valid_profile profile /\ key = tunnelGroupKey peer profile /\
    set = group_of peer profile (filter (outgoing d peer profile) rules) /\ Forall sig_clean (set_Forward set).
Proof.
  intros Hok H. destruct (groups_keys d rules key set Hok H) as (r & peer & Hr & Hp & -> & Hrok).
  pose proof (rule_ok_profile r Hrok) as Hv.
  exists peer, (NormalizeProfile (fr_Profile r)). split_and!; try done.
  - destruct (groups_spec d rules peer _ Hok Hp Hv) as [[E _]|[E _]]; rewrite H in E; [done|by injection E].
  - destruct (groups_spec d rules peer _ Hok Hp Hv) as [[E _]|[E _]]; rewrite H in E; [done|]. injection E as ->.
    cbn. apply Forall_forall. intros x Hx%list_elem_of_fmap. destruct Hx as (y & -> & [_ Hy]%list_elem_of_filter).
    rewrite Forall_forall in Hok. by apply Hok.
Qed.
End Groups.
