(* ===== verification/AgentLoop.v ===== *)
(** * AgentLoop: the agent as a whole (cmd/client/main.go)

    [runAgentLoop]: its sessions, the reconciliation with the rules of the server,
    triggers and heartbeats, and what they do to the workers of [Agent]; then the
    composition with the tunnels of [AgentTunnel]: the two ends of a rule open tunnels
    for each other. *)

From S2P Require Import Prelude GoStrings Store Agent.
From S2P Require Forward AgentTunnel SecureFrame Session.

(* ------------------------------------------------------------------ *)
(** ** The loop *)

Record agent : Type := mkAgent { ag_sessions : gmap string agentPeerSession; ag_lastHeartbeatAddr : string; ag_lastHeartbeatUPnP : string }.

Definition with_sessions (m : gmap string agentPeerSession) (st : agent) : agent :=
  mkAgent m (ag_lastHeartbeatAddr st) (ag_lastHeartbeatUPnP st).

Definition agent0 : agent := mkAgent ∅ EmptyString EmptyString.

Section Loop.
  Context `{GU : GoUnicode} `{GT : GoTime}.

Definition triggerAllPeers (reason : string) (st : agent) : agent := with_sessions (trigger reason <$> ag_sessions st) st.

(** A session goes on when its key is still there with the same signature. *)
Definition keeps (grouped : gmap string peerRuleSet) (kv : string * agentPeerSession) : bool :=
  match grouped !! kv.1 with
  | Some set => bool_decide (sess_sig kv.2 = forwardRulesSignature set)
  | None => false
  end.

(** The status, the report and the cancellation of a session that does not; the loop
    then waits for its worker to return and forgets it. *)
Definition stop_session (now : Time) (s : agentPeerSession) : agentPeerSession * list agent_post :=
  let st := mkStatus (sess_peer s) (sess_profile s) "disabled" "" "" 0 0 "" "rule_changed" 0 "" "" in
  (cancel_session (setStatus now st s), [PostTunnelStatus st "" ""]).

(** [rules] is the answer of the server, [None] when the request failed. *)
Definition syncRules (now : Time) (deviceID : string) (rules : option (list ForwardRule)) (st : agent) : agent * list agent_post :=
  match rules with
  | None => (st, [])
  | Some rules =>
    let grouped := groupRulesByPeer deviceID rules in
    let kept := filter (fun kv => keeps grouped kv = true) (ag_sessions st) in
    let stopped := filter (fun kv => keeps grouped kv = false) (ag_sessions st) in
    (with_sessions (kept ∪ (new_session <$> grouped)) st,
     concat (map (fun kv => snd (stop_session now kv.2)) (map_to_list stopped)))
  end.

Definition first_nonempty (l : list string) : string := default EmptyString (head (filter (fun s => s <> EmptyString) l)).

Definition snapshot_status (s : agentPeerSession) : agentTunnelStatus :=
  let st := sess_status s in
  mkStatus (if decide (ts_Peer st = EmptyString) then sess_peer s else ts_Peer st)
    (if decide (ts_Profile st = EmptyString) then sess_profile s else ts_Profile st)
    (ts_State st) (ts_Via st) (ts_PublicAddr st) (ts_ConvID st) (ts_RTTMs st) (ts_NATType st) (ts_LastError st) (ts_Attempt st)
    (ts_NextRetryAt st) (ts_LastTransitionAt st).

(** Sessions in the order of their keys. *)
Definition sorted_sessions (m : gmap string agentPeerSession) : list agentPeerSession :=
  omap (fun key => m !! key) (sort_strings (map fst (map_to_list m))).

Definition snapshotAgentSessions (m : gmap string agentPeerSession) : string * string * list agentTunnelStatus :=
  let l := sorted_sessions m in
  (first_nonempty (map sess_addr l), first_nonempty (map sess_upnp l), map snapshot_status l).

Definition sendHeartbeat (st : agent) : agent * list agent_post :=
  let '(addr, upnp, tunnels) := snapshotAgentSessions (ag_sessions st) in
  let st :=
    if decide (addr <> EmptyString /\ ag_lastHeartbeatAddr st <> EmptyString /\ addr <> ag_lastHeartbeatAddr st)
    then triggerAllPeers "addr_changed" (mkAgent (ag_sessions st) addr upnp)
    else
      let st := if decide (addr <> EmptyString) then mkAgent (ag_sessions st) addr (ag_lastHeartbeatUPnP st) else st in
      if decide (upnp = EmptyString) then st
      else
        let changed := bool_decide (ag_lastHeartbeatUPnP st <> EmptyString /\ upnp <> ag_lastHeartbeatUPnP st) in
        let st := mkAgent (ag_sessions st) (ag_lastHeartbeatAddr st) upnp in
        if changed then triggerAllPeers "upnp_changed" st else st in
  (st, [PostHeartbeat addr upnp tunnels]).

(** The rounds of the loop, and the steps of the workers between them. *)
Inductive agent_reachable (d : string) : agent -> Prop :=
  | areach_start : agent_reachable d agent0
  | areach_sync now rules st : agent_reachable d st -> (forall l, rules = Some l -> Forall rule_ok l) ->
      agent_reachable d (fst (syncRules now d rules st))
  | areach_heartbeat st : agent_reachable d st -> agent_reachable d (fst (sendHeartbeat st))
  | areach_resume reason st : agent_reachable d st -> agent_reachable d (triggerAllPeers reason st)
  | areach_worker key s p s' st : agent_reachable d st -> ag_sessions st !! key = Some s -> worker_step s p s' ->
      agent_reachable d (with_sessions (<[key := s']> (ag_sessions st)) st).

(* ------------------------------------------------------------------ *)
(** ** Workers *)

(** What no step of a worker changes. *)
Definition static (s : agentPeerSession) : string * string * string * peerRuleSet := (sess_peer s, sess_profile s, sess_sig s, sess_rules s).

Lemma report_spec now ts addr upnp s s' p : report now ts addr upnp s = (s', p) ->
  static s' = static s /\ sess_cancelled s' = sess_cancelled s /\ sess_wake s' = sess_wake s /\ sess_phase s' = sess_phase s /\
  sess_tunnelCancel s' = sess_tunnelCancel s /\ sess_runCancelled s' = sess_runCancelled s /\ sess_open_runs s' = sess_open_runs s /\
  sess_upnp s' = (if decide (upnp <> EmptyString) then upnp else sess_upnp s) /\
  sess_addr s' = (if decide (addr <> EmptyString) then addr else sess_addr s).
Proof. unfold report. intros [= <- _]. done. Qed.

(** The states of a worker that nothing has disturbed: a run is under way exactly when
    it can be cancelled, and one that was cancelled has left a wake-up behind. *)
Definition worker_inv (s : agentPeerSession) : Prop :=
  (sess_tunnelCancel s = true <-> sess_phase s = W_running) /\
  (sess_runCancelled s = true -> sess_phase s = W_running /\ sess_wake s <> None).

Ltac report_inv :=
  repeat match goal with H : report _ _ _ _ _ = (_, _) |- _ => apply report_spec in H; cbn in H; destruct_and! H end.

(** Close the fields of a worker after its reports. *)
Ltac fields :=
  unfold static in *; cbn in *;
  repeat match goal with H : context [decide (EmptyString <> EmptyString)] |- _ => rewrite decide_False in H by (intros F; by apply F) end;
  split_and!; intros; split_and?; congruence.

Lemma worker_top_spec now s s' p : worker_top now s = (s', p) ->
  static s' = static s /\ sess_cancelled s' = sess_cancelled s /\ sess_wake s' = sess_wake s /\ sess_open_runs s' = sess_open_runs s /\
  sess_upnp s' = sess_upnp s /\ sess_addr s' = sess_addr s /\
  (sess_cancelled s = true -> sess_phase s' = W_done /\ sess_tunnelCancel s' = sess_tunnelCancel s /\ sess_runCancelled s' = sess_runCancelled s) /\
  (sess_cancelled s = false -> sess_phase s' = W_running /\ sess_tunnelCancel s' = true /\ sess_runCancelled s' = false).
Proof.
  unfold worker_top, report_cancelled. destruct (sess_cancelled s) eqn:C.
  - intros E. report_inv. fields.
  - destruct (report _ _ _ _ _) as [s1 p1] eqn:E. intros [= <- _]. report_inv. fields.
Qed.

Lemma worker_status_spec now ts addr upnp s s' p : worker_status now ts addr upnp s = (s', p) ->
  static s' = static s /\ sess_cancelled s' = sess_cancelled s /\ sess_wake s' = sess_wake s /\ sess_phase s' = sess_phase s /\
  sess_tunnelCancel s' = sess_tunnelCancel s /\ sess_runCancelled s' = sess_runCancelled s /\ sess_open_runs s' = sess_open_runs s /\
  sess_upnp s' = (if decide (upnp <> EmptyString) then upnp else sess_upnp s) /\
  sess_addr s' = (if decide (addr <> EmptyString) then addr else sess_addr s).
Proof.
  unfold worker_status. intros E.
  match type of E with report _ ?ts _ _ ?s0 = _ => set (ts0 := ts) in E; set (s1 := s0) in E end.
  assert (H1 : static s1 = static s /\ sess_cancelled s1 = sess_cancelled s /\ sess_wake s1 = sess_wake s /\ sess_phase s1 = sess_phase s /\
    sess_tunnelCancel s1 = sess_tunnelCancel s /\ sess_runCancelled s1 = sess_runCancelled s /\ sess_open_runs s1 = sess_open_runs s /\
    sess_upnp s1 = sess_upnp s /\ sess_addr s1 = sess_addr s) by (unfold s1; by case_decide).
  clearbody ts0 s1. apply report_spec in E. destruct_and! H1.
  repeat match goal with H : _ s1 = _ s |- _ => rewrite H in E; clear H end. exact E.
Qed.

Lemma worker_return_spec now jitter err s s' p : worker_return now jitter err s = (s', p) ->
  static s' = static s /\ sess_cancelled s' = sess_cancelled s /\ sess_tunnelCancel s' = false /\ sess_runCancelled s' = false /\
  sess_open_runs s' = (if run_ctx_err s then sess_open_runs s else S (sess_open_runs s)) /\
  sess_upnp s' = sess_upnp s /\ sess_addr s' = sess_addr s /\
  (sess_cancelled s = true -> sess_phase s' = W_done) /\
  (sess_cancelled s = false -> sess_wake s <> None -> sess_phase s' = W_top) /\
  (sess_cancelled s = false -> sess_wake s = None -> sess_wake s' = None /\
     sess_phase s' = if shouldRetryTunnelError (classifyTunnelError err) then W_backoff else W_down).
Proof.
  unfold worker_return, report_cancelled. cbn. destruct (sess_cancelled s) eqn:C.
  - intros E. report_inv. fields.
  - destruct (sess_wake s) as [reason|] eqn:W.
    + intros [= <- _]. fields.
    + destruct (shouldRetryTunnelError _); cbn; intros E; report_inv; fields.
Qed.

Lemma worker_step_static s p s' : worker_step s p s' -> static s' = static s /\ sess_cancelled s' = sess_cancelled s.
Proof.
  destruct 1 as [? ? ? ? _ E|? ? ? ? ? ? ? _ E|? ? ? ? ? ? _ _ E|? ? ? ? _ _ E|? ? _ _|? _].
  - by apply worker_top_spec in E as (? & ? & _).
  - by apply worker_status_spec in E as (? & ? & _).
  - by apply worker_return_spec in E as (? & ? & _).
  - unfold report_cancelled in E. report_inv. done.
  - done.
  - done.
Qed.

Lemma worker_step_inv s p s' : worker_inv s -> worker_step s p s' -> worker_inv s'.
Proof.
  intros [I1 I2]. assert (HF : sess_phase s <> W_running -> sess_tunnelCancel s = false /\ sess_runCancelled s = false).
  { intros H. split; [destruct (sess_tunnelCancel s); naive_solver|destruct (sess_runCancelled s); naive_solver]. }
  unfold worker_inv. destruct 1 as [? ? ? ? Ph E|? ? ? ? ? ? ? Ph E|? ? ? ? ? ? Ph _ E|? ? ? ? Ph _ E|? ? Ph _|? Ph].
  - apply worker_top_spec in E as (_ & _ & _ & _ & _ & _ & H1 & H2). destruct HF as [T R]; [by rewrite Ph|].
    destruct (sess_cancelled s); [destruct H1 as (-> & -> & ->)|destruct H2 as (-> & -> & ->)]; try done. by rewrite T, R.
  - apply worker_status_spec in E as (_ & _ & -> & -> & -> & -> & _). done.
  - apply worker_return_spec in E as (_ & _ & -> & -> & _ & _ & _ & H1 & H2 & H3).
    assert (Hn : sess_phase s' <> W_running); [|by naive_solver].
    destruct (sess_cancelled s); [by rewrite H1|]. destruct (sess_wake s); [by rewrite H2|].
    destruct H3 as [_ ->]; [done..|]. by destruct (shouldRetryTunnelError _).
  - unfold report_cancelled in E. report_inv. destruct HF as [T R]; [by destruct Ph as [-> | ->]|].
    repeat match goal with H : _ = _ |- _ => rewrite H; clear H end. done.
  - destruct HF as [T R]; [by destruct Ph as [-> | ->]|]. cbn. by rewrite T, R.
  - destruct HF as [T R]; [by rewrite Ph|]. cbn. by rewrite T, R.
Qed.

Lemma trigger_inv reason s : worker_inv s -> worker_inv (trigger reason s).
Proof.
  unfold worker_inv, trigger. intros [I1 I2]. cbn. destruct (sess_tunnelCancel s) eqn:T; cbn; rewrite ?T.
  - split; [done|]. intros _. split; [by apply I1|]. by destruct (sess_wake s).
  - split; [done|]. intros H%I2. destruct H as [H1 H2]. split; [done|]. by destruct (sess_wake s).
Qed.

Lemma reachable_inv set s : session_reachable set s -> worker_inv s.
Proof.
  induction 1 as [|s p s' _ IH Hs|reason s _ IH|s _ IH].
  - by split.
  - by eapply worker_step_inv.
  - by apply trigger_inv.
  - exact IH.
Qed.
End Loop.

(* ------------------------------------------------------------------ *)
(** ** Wake-ups and the contexts of runs *)

Section WorkerTheorems.
  Context `{GU : GoUnicode} `{GT : GoTime}.

(** C24. No wake-up is lost. A trigger leaves one behind and cancels the run under way; from
    then on the worker does nothing before it takes it but end its run and start the
    next: it cannot fall into back-off or give up with a wake-up waiting, and a run that
    was interrupted is never counted as a failure. A waiting worker can take it at once. *)
Theorem worker_wakes (set : peerRuleSet) (s : agentPeerSession) : session_reachable set s ->
  (forall reason, sess_wake (trigger reason s) <> None /\ (sess_phase s = W_running -> run_ctx_err (trigger reason s) = true)) /\
  (forall p s', worker_step s p s' ->
     (sess_cancelled s = false -> sess_wake s <> None -> sess_phase s' = W_top \/ (sess_phase s' = W_running /\ sess_wake s' <> None)) /\
     (sess_phase s = W_running -> run_ctx_err s = true -> sess_phase s' <> W_backoff /\ sess_phase s' <> W_down)) /\
  (forall reason, sess_phase s = W_backoff \/ sess_phase s = W_down -> sess_wake s = Some reason -> worker_step s [] (woken reason s)).
Proof.
  intros Hr. pose proof (reachable_inv set s Hr) as [I1 I2]. split_and!.
  - intros reason. split.
    + unfold trigger. cbn. destruct (sess_tunnelCancel s); cbn; by destruct (sess_wake s).
    + intros Hp%I1. unfold trigger, run_ctx_err. cbn. rewrite Hp. cbn. apply orb_true_r.
  - intros p s' Hs. split.
    + intros Hc Hw. destruct Hs as [? ? ? ? Ph E|? ? ? ? ? ? ? Ph E|? ? ? ? ? ? Ph _ E|? ? ? ? Ph C E|? ? Ph _|? Ph].
      * apply worker_top_spec in E as (_ & _ & W & _ & _ & _ & _ & H2). rewrite W. right. by destruct H2.
      * apply worker_status_spec in E as (_ & _ & -> & -> & _). by right.
      * apply worker_return_spec in E as (_ & _ & _ & _ & _ & _ & _ & _ & H2 & _). left. by apply H2.
      * congruence.
      * by left.
      * by left.
    + intros Hp Hrun. destruct Hs as [? ? ? ? Ph E|? ? ? ? ? ? ? Ph E|? ? ? ? ? ? Ph _ E|? ? ? ? Ph C E|? ? Ph _|? Ph]; try congruence.
      * apply worker_status_spec in E as (_ & _ & _ & -> & _). by rewrite Hp.
      * apply worker_return_spec in E as (_ & _ & _ & _ & _ & _ & _ & H1 & H2 & _). unfold run_ctx_err in Hrun.
        destruct (sess_cancelled s) eqn:C; [by rewrite H1|]. cbn in Hrun. apply I2 in Hrun as [_ Hw]. by rewrite H2.
      * destruct Ph; congruence.
      * destruct Ph; congruence.
  - intros reason Hp Hw. by apply wstep_woken.
Qed.

(** A run that ends by itself leaves its context open: nothing cancels it before the
    rule is removed, and until then its keep-alive loop and the goroutines that wait for
    the context live on. An agent whose tunnel keeps failing gathers as many as it has
    had failures. *)
Theorem run_contexts_accumulate (set : peerRuleSet) :
  (forall n : nat, exists s, session_reachable set s /\ sess_cancelled s = false /\ sess_phase s = W_backoff /\ sess_open_runs s = S n) /\
  (forall s p s', worker_step s p s' -> (sess_open_runs s <= sess_open_runs s')%nat) /\
  (forall reason s, sess_open_runs (trigger reason s) = sess_open_runs s).
Proof.
  split; [|split].
  - set (eof := Some (mkTunnelError false "kcp_eof: EOF")).
    assert (R : forall s, session_reachable set s -> sess_cancelled s = false -> sess_phase s = W_top -> sess_wake s = None ->
      exists s', session_reachable set s' /\ sess_cancelled s' = false /\ sess_phase s' = W_backoff /\ sess_wake s' = None /\
        sess_open_runs s' = S (sess_open_runs s)).
    { intros s Hs C P W. destruct (worker_top 0 s) as [s1 p1] eqn:E1.
      pose proof (sreach_step set s p1 s1 Hs (wstep_top 0 s s1 p1 P E1)) as Hs1.
      apply worker_top_spec in E1 as (_ & C1 & W1 & O1 & _ & _ & _ & H1). destruct (H1 C) as (P1 & _ & R1).
      destruct (worker_return 0 id eof s1) as [s2 p2] eqn:E2.
      assert (Hst : worker_step s1 p2 s2) by (eapply wstep_return; [done| |exact E2]; by intros x [= <-]).
      exists s2. split; [by eapply sreach_step|].
      apply worker_return_spec in E2 as (_ & C2 & _ & _ & O2 & _ & _ & _ & _ & H2).
      rewrite C1 in *. destruct (H2 C ltac:(congruence)) as [W2 P2].
      replace (shouldRetryTunnelError (classifyTunnelError eof)) with true in P2 by (vm_compute; reflexivity).
      unfold run_ctx_err in O2. rewrite C1, C, R1 in O2. cbn in O2. split_and!; congruence. }
    intros n. cut (exists s, session_reachable set s /\ sess_cancelled s = false /\ sess_phase s = W_backoff /\ sess_wake s = None /\ sess_open_runs s = S n);
      [naive_solver|].
    induction n as [|n (s & Hs & C & P & W & O)].
    + by apply (R (new_session set)); [constructor|..].
    + destruct (R (upd_phase W_top s)) as (s' & ? & ? & ? & ? & O'); [|done..|].
      * eapply sreach_step; [exact Hs|]. by apply wstep_timer.
      * exists s'. split_and!; try done. by rewrite O', <- O.
  - destruct 1 as [? ? ? ? _ E|? ? ? ? ? ? ? _ E|? ? ? ? ? ? _ _ E|? ? ? ? _ _ E|? ? _ _|? _].
    + apply worker_top_spec in E as (_ & _ & _ & -> & _). done.
    + apply worker_status_spec in E as (_ & _ & _ & _ & _ & _ & -> & _). done.
    + apply worker_return_spec in E as (_ & _ & _ & _ & -> & _). destruct (run_ctx_err s); lia.
    + pose proof (report_spec _ _ _ _ _ _ _ E) as (_ & _ & _ & _ & _ & _ & HO & _). by rewrite HO.
    + done.
    + done.
  - intros reason s. unfold trigger. by destruct (sess_tunnelCancel _).
Qed.
End WorkerTheorems.

(* ------------------------------------------------------------------ *)
(** ** Reconciliation *)

Section Sync.
  Context `{GU : GoUnicode} `{GT : GoTime}.

(** A rule set as [groupRulesByPeer] files it under a key. *)
Definition group_at (key : string) (set : peerRuleSet) : Prop :=
  x00 ∉ bytes_of (set_Peer set) /\ valid_profile (set_Profile set) /\ key = tunnelGroupKey (set_Peer set) (set_Profile set) /\
  Forall sig_clean (set_Forward set).

Definition agent_inv (st : agent) : Prop := forall key s, ag_sessions st !! key = Some s ->
  exists set, group_at key set /\ static s = static (new_session set).

Lemma groups_group_at d rules key set : Forall rule_ok rules -> groupRulesByPeer d rules !! key = Some set -> group_at key set.
Proof. intros Hok H. by destruct (groups_at d rules key set Hok H) as (peer & profile & ? & ? & ? & -> & ?). Qed.

Lemma syncRules_lookup now d rules st key :
  ag_sessions (fst (syncRules now d (Some rules) st)) !! key =
    match groupRulesByPeer d rules !! key with
    | None => None
    | Some set => Some (match ag_sessions st !! key with
                        | Some s => if decide (sess_sig s = forwardRulesSignature set) then s else new_session set
                        | None => new_session set
                        end)
    end.
Proof.
  cbn. rewrite lookup_union, lookup_fmap. unfold keeps.
  destruct (ag_sessions st !! key) as [s|] eqn:Es.
  - destruct (groupRulesByPeer d rules !! key) as [set|] eqn:Eg; cbn.
    + destruct (decide (sess_sig s = forwardRulesSignature set)).
      * rewrite (map_lookup_filter_Some_2 _ _ _ s); [done|done|]. cbn. rewrite Eg. by apply bool_decide_eq_true.
      * rewrite map_lookup_filter_None_2; [done|]. right. intros x Hx. cbn. rewrite Eg. simplify_eq. by rewrite bool_decide_eq_true.
    + rewrite map_lookup_filter_None_2; [done|]. right. intros x Hx. cbn. by rewrite Eg.
  - rewrite map_lookup_filter_None_2 by (by left). by destruct (groupRulesByPeer d rules !! key).
Qed.

Lemma trigger_static reason s : static (trigger reason s) = static s.
Proof. unfold trigger. by destruct (sess_tunnelCancel _). Qed.

Lemma heartbeat_sessions st : ag_sessions (fst (sendHeartbeat st)) = ag_sessions st \/
  exists reason, ag_sessions (fst (sendHeartbeat st)) = trigger reason <$> ag_sessions st.
Proof.
  unfold sendHeartbeat. destruct (snapshotAgentSessions _) as [[addr upnp] tunnels]. cbn [fst].
  case_decide; [right; by exists "addr_changed"%string|].
  repeat case_decide; cbn; repeat case_match; cbn; auto; right; by exists "upnp_changed"%string.
Qed.

Lemma reachable_agent_inv d st : agent_reachable d st -> agent_inv st.
Proof.
  assert (HT : forall reason (m : gmap string agentPeerSession) key s', (trigger reason <$> m) !! key = Some s' ->
    exists s, m !! key = Some s /\ static s' = static s).
  { intros reason m key s' H. apply lookup_fmap_Some in H as (s & <- & Hs). exists s. split; [done|apply trigger_static]. }
  induction 1 as [|now rules st _ IH Hok|st _ IH|reason st _ IH|k s p s' st _ IH Hk Hw].
  - intros key s Hs. cbn in Hs. by apply lookup_empty_Some in Hs.
  - destruct rules as [rules|]; [|exact IH]. intros key s. rewrite syncRules_lookup.
    destruct (groupRulesByPeer d rules !! key) as [set|] eqn:Eg; [|done]. intros [= <-].
    pose proof (groups_group_at d rules key set (Hok rules eq_refl) Eg).
    destruct (ag_sessions st !! key) as [s0|] eqn:Es; [case_decide; [by apply IH|]|]; by exists set.
  - intros key s. destruct (heartbeat_sessions st) as [-> |[reason ->]]; [apply IH|].
    intros (s0 & H0 & ->)%HT. by apply IH.
  - intros key s (s0 & H0 & ->)%HT. by apply IH.
  - intros key s0. cbn. destruct (decide (k = key)) as [->|]; [|rewrite lookup_insert_ne by done; apply IH].
    rewrite lookup_insert_eq. intros [= <-]. apply worker_step_static in Hw as [-> _]. by apply IH.
Qed.

(** A session and the group at its key: the same peer and profile, and the same rules
    when the signatures agree. *)
Lemma group_at_unique key s1 s2 : group_at key s1 -> group_at key s2 -> set_Peer s1 = set_Peer s2 /\ set_Profile s1 = set_Profile s2.
Proof. intros (? & ? & -> & _) (? & ? & E & _). by apply group_key_inj in E. Qed.

Lemma sync_session now d rules st key s : agent_reachable d st -> Forall rule_ok rules ->
  ag_sessions (fst (syncRules now d (Some rules) st)) !! key = Some s ->
  exists set, groupRulesByPeer d rules !! key = Some set /\ sess_peer s = set_Peer set /\ sess_profile s = set_Profile set /\
    set_Peer (sess_rules s) = set_Peer set /\ set_Profile (sess_rules s) = set_Profile set /\
    rule_parts (sess_rules s) ≡ₚ rule_parts set /\ (ag_sessions st !! key = Some s \/ s = new_session set) /\
    (forall s0, ag_sessions st !! key = Some s0 -> rule_parts (sess_rules s0) ≡ₚ rule_parts set -> s = s0).
Proof.
  intros Hr Hok. rewrite syncRules_lookup. destruct (groupRulesByPeer d rules !! key) as [set|] eqn:Eg; [|done].
  intros [= <-]. exists set. split; [done|]. pose proof (groups_group_at d rules key set Hok Eg) as G2.
  destruct (ag_sessions st !! key) as [s0|] eqn:Es; [|split_and!; auto; by intros].
  destruct (reachable_agent_inv d st Hr key s0 Es) as (set0 & G1 & St). destruct (group_at_unique key set0 set G1 G2) as [Ep Ef].
  unfold static in St. cbn in St. injection St as S1 S2 S3 S4.
  case_decide as D.
  - rewrite S1, S2, S4. split_and!; try done; [|by left|by intros ? [= <-]].
    apply signature_inj; [apply G1|apply G2|congruence].
  - split_and!; try done; [by right|]. intros ? [= <-] HP. destruct D. rewrite S3. rewrite S4 in HP.
    rewrite !signature_parts. f_equal. apply sort_strings_unique. by rewrite HP.
Qed.

(** C22. After a pull of the rules the agent runs exactly one worker for each peer and
    profile that an enabled rule connects it with, and that worker forwards exactly the
    rules the agent is the source of. A worker whose rules did not change is left alone. *)
Theorem syncRules_installs (now : Time) (d : string) (rules : list ForwardRule) (st : agent) :
  agent_reachable d st -> Forall rule_ok rules ->
  let st' := fst (syncRules now d (Some rules) st) in
  (forall key s, ag_sessions st' !! key = Some s -> key = tunnelGroupKey (sess_peer s) (sess_profile s)) /\
  (forall peer profile, x00 ∉ bytes_of peer -> valid_profile profile ->
     let wanted := map (fun r => (fr_ID r, forward_rule r)) (filter (outgoing d peer profile) rules) in
     (is_Some (ag_sessions st' !! tunnelGroupKey peer profile) <->
        exists r, r ∈ rules /\ (outgoing d peer profile r \/ incoming d peer profile r)) /\
     (forall s, ag_sessions st' !! tunnelGroupKey peer profile = Some s ->
        sess_peer s = peer /\ sess_profile s = profile /\ rule_parts (sess_rules s) ≡ₚ wanted /\
        (forall s0, ag_sessions st !! tunnelGroupKey peer profile = Some s0 -> rule_parts (sess_rules s0) ≡ₚ wanted -> s = s0))).
Proof.
  intros Hr Hok st'. split.
  - intros key s Hs. destruct (sync_session now d rules st key s Hr Hok Hs) as (set & Hset & -> & -> & _).
    by destruct (groups_group_at d rules key set Hok Hset) as (_ & _ & -> & _).
  - intros peer profile Hp Hv wanted. pose proof (groups_spec d rules peer profile Hok Hp Hv) as HG. split.
    + unfold st'. rewrite syncRules_lookup. destruct HG as [[-> HN]|[-> HE]].
      * split; [by intros []|]. intros (r & Hr1 & Hr2). destruct (HN r Hr1). tauto.
      * split; [done|]. by intros _.
    + intros s Hs. destruct (sync_session now d rules st _ s Hr Hok Hs) as (set & Hset & E1 & E2 & _ & _ & E3 & _ & E4).
      destruct HG as [[HG _]|[HG _]]; rewrite Hset in HG; [done|]. injection HG as ->.
      rewrite rule_parts_group in E3, E4. cbn in E1, E2. done.
Qed.

(** What the worker of a session runs its tunnel with. *)
Definition worker_tunnel (d name psk : string) (forceRelay legacy natRelay : bool) (codec : option SecureFrame.Codec) (srv upnp : string)
  (s : agentPeerSession) : AgentTunnel.tun_config :=
  AgentTunnel.mkTunConfig d name psk forceRelay legacy (set_Peer (sess_rules s))
    (NormalizeProfile (NormalizeProfile (set_Profile (sess_rules s)))) codec srv upnp natRelay.

(** C23. The two devices of an enabled rule open a tunnel for each other: once both have
    pulled it, each has a worker whose tunnel is configured for the other, on one
    profile, and the source's forwards the rule. *)
Theorem rule_pairs_agents (now1 now2 : Time) (r : ForwardRule) (rules1 rules2 : list ForwardRule) (st1 st2 : agent)
  (a : Session.cipherAEAD) (psk name1 name2 srv upnp1 upnp2 : string) (f1 f2 l1 l2 n1 n2 : bool) :
  agent_reachable (fr_SourceID r) st1 -> agent_reachable (fr_TargetID r) st2 ->
  Forall rule_ok rules1 -> Forall rule_ok rules2 -> r ∈ rules1 -> r ∈ rules2 -> fr_Enabled r = true ->
  exists s1 s2,
    ag_sessions (fst (syncRules now1 (fr_SourceID r) (Some rules1) st1)) !! tunnelGroupKey (fr_TargetID r) (NormalizeProfile (fr_Profile r)) = Some s1 /\
    ag_sessions (fst (syncRules now2 (fr_TargetID r) (Some rules2) st2)) !! tunnelGroupKey (fr_SourceID r) (NormalizeProfile (fr_Profile r)) = Some s2 /\
    (fr_ID r, forward_rule r) ∈ rule_parts (sess_rules s1) /\
    AgentTunnel.paired_configs a
      (worker_tunnel (fr_SourceID r) name1 psk f1 l1 n1 (Some (SecureFrame.mkCodec a)) srv upnp1 s1)
      (worker_tunnel (fr_TargetID r) name2 psk f2 l2 n2 (Some (SecureFrame.mkCodec a)) srv upnp2 s2).
Proof.
  intros R1 R2 O1 O2 I1 I2 En. pose proof O1 as Hall. rewrite Forall_forall in Hall. specialize (Hall r I1).
  pose proof (rule_ok_profile r Hall) as Hv. destruct Hall as (_ & Hs & Ht & Hne & _). set (p := NormalizeProfile (fr_Profile r)) in *.
  assert (HE : forall now d rules st peer, agent_reachable d st -> Forall rule_ok rules -> x00 ∉ bytes_of peer ->
    (exists x, x ∈ rules /\ (outgoing d peer p x \/ incoming d peer p x)) ->
    exists s set, ag_sessions (fst (syncRules now d (Some rules) st)) !! tunnelGroupKey peer p = Some s /\
      set = group_of peer p (filter (outgoing d peer p) rules) /\ rule_parts (sess_rules s) ≡ₚ rule_parts set /\
      set_Peer (sess_rules s) = peer /\ set_Profile (sess_rules s) = p).
  { intros now d rules st peer Hr Hok Hp (x & Hx & Hd).
    destruct (groups_spec d rules peer p Hok Hp Hv) as [[_ HN]|[HG _]]; [destruct (HN x Hx); tauto|].
    pose proof (syncRules_lookup now d rules st (tunnelGroupKey peer p)) as HL. rewrite HG in HL.
    match type of HL with _ = Some ?s => exists s end. eexists. split; [exact HL|]. split; [reflexivity|].
    destruct (sync_session now d rules st _ _ Hr Hok HL) as (set & Hset & _ & _ & E1 & E2 & E3 & _).
    rewrite HG in Hset. by injection Hset as <-. }
  destruct (HE now1 (fr_SourceID r) rules1 st1 (fr_TargetID r) R1 O1 Ht) as (s1 & set1 & L1 & -> & P1 & Q1 & F1).
  { exists r. split; [done|]. left. by split_and!. }
  destruct (HE now2 (fr_TargetID r) rules2 st2 (fr_SourceID r) R2 O2 Hs) as (s2 & set2 & L2 & -> & _ & Q2 & F2).
  { exists r. split; [done|]. right. by split_and!. }
  exists s1, s2. split; [exact L1|]. split; [exact L2|]. split.
  - rewrite P1, rule_parts_group. apply list_elem_of_fmap. exists r. split; [done|]. apply list_elem_of_filter. split; [by split_and!|done].
  - unfold AgentTunnel.paired_configs, worker_tunnel. cbn. rewrite Q1, Q2, F1, F2, !(valid_normalized p Hv). done.
Qed.
End Sync.

(* ------------------------------------------------------------------ *)
(** ** Address changes *)

Section Churn.
  Context `{GU : GoUnicode} `{GT : GoTime}.

Definition connecting : agentTunnelStatus := mkStatus "" "" "connecting" "" "" 0 0 "" "" 0 "" "".

(** A cancelled run ends, the next one starts and has the router map a port for its new
    socket: [upnp] is what it reports. *)
Definition reconnect (now : Time) (upnp : string) (s : agentPeerSession) : agentPeerSession :=
  let s := fst (worker_return now id (Some (mkTunnelError true "context canceled")) s) in
  let s := fst (worker_top now s) in
  fst (worker_status now connecting EmptyString upnp s).

(** A heartbeat, and the time until the next: the runs it cancelled start again. *)
Definition heartbeat_round (now : Time) (upnp : string -> string) (st : agent) : agent :=
  let st := fst (sendHeartbeat st) in
  with_sessions (map_imap (fun key s => Some (if sess_runCancelled s then reconnect now (upnp key) s else s)) (ag_sessions st)) st.

Fixpoint heartbeat_rounds (now : nat -> Time) (upnp : nat -> string -> string) (n : nat) (st : agent) : agent :=
  match n with
  | O => st
  | S n => heartbeat_round (now n) (upnp (S n)) (heartbeat_rounds now upnp n st)
  end.

(** A session whose run is under way and has reported the mapping [upnp]. *)
Definition mapped_run (upnp : string) (s : agentPeerSession) : Prop :=
  sess_phase s = W_running /\ sess_cancelled s = false /\ sess_tunnelCancel s = true /\ sess_runCancelled s = false /\
  sess_wake s = None /\ sess_addr s = EmptyString /\ sess_upnp s = upnp.

Definition first_key (m : gmap string agentPeerSession) : option string := head (sort_strings (map fst (map_to_list m))).

Lemma first_key_dom (m1 m2 : gmap string agentPeerSession) : (forall k, is_Some (m1 !! k) <-> is_Some (m2 !! k)) -> first_key m1 = first_key m2.
Proof.
  intros H. unfold first_key. f_equal. apply sort_strings_unique. apply NoDup_Permutation; [apply NoDup_fst_map_to_list..|].
  assert (HK : forall (m : gmap string agentPeerSession) k, k ∈ map fst (map_to_list m) <-> is_Some (m !! k)).
  { intros m k. change (map fst ?l) with (fst <$> l). rewrite list_elem_of_fmap. split.
    - intros ([k' x] & Ek & Hx%elem_of_map_to_list). cbn in Ek. subst. by exists x.
    - intros [x Hx]. exists (k, x). split; [done|]. by apply elem_of_map_to_list. }
  intros k. rewrite !HK. apply H.
Qed.

Lemma sorted_sessions_first m key s : first_key m = Some key -> m !! key = Some s -> exists l, sorted_sessions m = s :: l.
Proof.
  unfold first_key, sorted_sessions. destruct (sort_strings _) as [|k l]; [done|]. cbn. intros [= ->] ->. by eexists.
Qed.

Lemma sorted_sessions_in m s : s ∈ sorted_sessions m -> exists key, m !! key = Some s.
Proof. unfold sorted_sessions. intros (key & _ & H)%list_elem_of_omap. by exists key. Qed.

Lemma first_nonempty_none l : Forall (fun s => s = EmptyString) l -> first_nonempty l = EmptyString.
Proof.
  unfold first_nonempty. induction 1 as [|s l -> _ IH]; [done|]. rewrite filter_cons_False; [done|]. intros F. by apply F.
Qed.

Lemma first_nonempty_head s l : s <> EmptyString -> first_nonempty (s :: l) = s.
Proof. intros H. unfold first_nonempty. by rewrite filter_cons_True. Qed.

(** A heartbeat that finds another mapping than the last disturbs every session. *)
Lemma heartbeat_upnp_changed (upnp : string -> string) st key :
  (forall k s, ag_sessions st !! k = Some s -> mapped_run (upnp k) s) -> first_key (ag_sessions st) = Some key ->
  upnp key <> EmptyString -> ag_lastHeartbeatUPnP st <> EmptyString -> upnp key <> ag_lastHeartbeatUPnP st ->
  fst (sendHeartbeat st) = mkAgent (trigger "upnp_changed" <$> ag_sessions st) (ag_lastHeartbeatAddr st) (upnp key).
Proof.
  intros Hm Hk U1 U2 U3. assert (exists s, ag_sessions st !! key = Some s) as [s Hs].
  { unfold first_key in Hk. destruct (sort_strings _) as [|k l] eqn:E; [done|]. cbn in Hk. injection Hk as ->.
    assert (Hin : key ∈ map fst (map_to_list (ag_sessions st))) by (rewrite <- (sort_strings_perm _), E; by left).
    apply list_elem_of_fmap in Hin as ([k x] & -> & Hx%elem_of_map_to_list). by exists x. }
  destruct (sorted_sessions_first _ _ _ Hk Hs) as [l Hl].
  assert (A : first_nonempty (map sess_addr (sorted_sessions (ag_sessions st))) = EmptyString).
  { apply first_nonempty_none. apply Forall_fmap, Forall_forall. intros x (k & Hx)%sorted_sessions_in. by apply (Hm k). }
  assert (U : first_nonempty (map sess_upnp (sorted_sessions (ag_sessions st))) = upnp key).
  { rewrite Hl. cbn [map]. destruct (Hm key s Hs) as (_ & _ & _ & _ & _ & _ & ->). by apply first_nonempty_head. }
  unfold sendHeartbeat, snapshotAgentSessions. rewrite A, U. cbn [fst]. rewrite decide_False by (intros [F _]; by apply F).
  rewrite (decide_False (P := upnp key = EmptyString)) by done. rewrite !decide_False by (intros F; by apply F).
  by rewrite bool_decide_eq_true_2.
Qed.

Lemma worker_return_woken now jitter err reason s : sess_cancelled s = false -> sess_wake s = Some reason ->
  exists s', worker_return now jitter err s = (s', []) /\ sess_cancelled s' = false /\ sess_wake s' = None /\ sess_addr s' = sess_addr s.
Proof. intros C W. unfold worker_return. cbn. rewrite C, W. by eexists. Qed.

Lemma reconnect_mapped now u v s : u <> EmptyString -> mapped_run v s -> mapped_run u (reconnect now u (trigger "upnp_changed" s)).
Proof.
  intros U (Ph & C & T & R & W & A & _). set (t := trigger "upnp_changed" s).
  assert (Ht : sess_cancelled t = false /\ sess_wake t = Some "upnp_changed"%string /\ sess_addr t = sess_addr s)
    by (unfold t, trigger; cbn; by rewrite T, W).
  clearbody t. destruct Ht as (Ct & Wt & At). unfold reconnect.
  destruct (worker_return_woken now id (Some (mkTunnelError true "context canceled")) _ t Ct Wt) as (s0 & -> & C0 & W0 & A0). cbn [fst].
  destruct (worker_top now s0) as [s1 p1] eqn:E1. apply worker_top_spec in E1 as (_ & C1 & W1 & _ & _ & A1 & _ & H1).
  destruct (H1 C0) as (P1 & T1 & R1). cbn [fst]. destruct (worker_status now connecting "" u s1) as [s2 p2] eqn:E2.
  apply worker_status_spec in E2 as (_ & C2 & W2 & P2 & T2 & R2 & _ & U2 & A2). cbn [fst].
  rewrite decide_True in U2 by done. rewrite decide_False in A2 by (intros F; by apply F). unfold mapped_run. split_and!; congruence.
Qed.

(** A device whose router maps ports tears its tunnels down for ever. The address of a
    mapping belongs to the socket of one run; the heartbeat takes the mapping of the next
    run for a change of the network, cancels the runs of all sessions, and each of them
    asks for a mapping again: no run outlives a heartbeat. *)
Theorem upnp_churn (now : nat -> Time) (upnp : nat -> string -> string) (key : string) (st : agent) :
  (forall n k, upnp n k <> EmptyString) -> (forall n k, upnp (S n) k <> upnp n k) ->
  (forall k s, ag_sessions st !! k = Some s -> mapped_run (upnp O k) s) -> first_key (ag_sessions st) = Some key ->
  ag_lastHeartbeatUPnP st <> EmptyString -> upnp O key <> ag_lastHeartbeatUPnP st ->
  forall n, let stn := heartbeat_rounds now upnp n st in
    (forall k, is_Some (ag_sessions stn !! k) <-> is_Some (ag_sessions st !! k)) /\
    (forall k s, ag_sessions stn !! k = Some s -> mapped_run (upnp n k) s) /\
    (forall k s, ag_sessions (fst (sendHeartbeat stn)) !! k = Some s ->
       sess_phase s = W_running /\ run_ctx_err s = true /\ sess_wake s = Some "upnp_changed"%string).
Proof.
  intros U1 U2 Hm Hk L1 L2. set (P n st := (forall k s, ag_sessions st !! k = Some s -> mapped_run (upnp n k) s) /\
    first_key (ag_sessions st) = Some key /\ ag_lastHeartbeatUPnP st <> EmptyString /\ upnp n key <> ag_lastHeartbeatUPnP st).
  assert (HP : forall n, P n (heartbeat_rounds now upnp n st) /\
    forall k, is_Some (ag_sessions (heartbeat_rounds now upnp n st) !! k) <-> is_Some (ag_sessions st !! k)).
  { induction n as [|n [(I1 & I2 & I3 & I4) ID]]; [done|]. cbn [heartbeat_rounds]. set (sn := heartbeat_rounds now upnp n st) in *.
    pose proof (heartbeat_upnp_changed (upnp n) sn key I1 I2 (U1 n key) I3 I4) as HB.
    assert (HS : forall k, ag_sessions (heartbeat_round (now n) (upnp (S n)) sn) !! k =
      match ag_sessions sn !! k with Some s => Some (reconnect (now n) (upnp (S n) k) (trigger "upnp_changed" s)) | None => None end).
    { intros k. unfold heartbeat_round. rewrite HB. cbn. rewrite map_lookup_imap, lookup_fmap.
      destruct (ag_sessions sn !! k) as [s|] eqn:E; [|done]. cbn. destruct (I1 k s E) as (_ & _ & T & _). unfold trigger. cbn. by rewrite T. }
    assert (HD : forall k, is_Some (ag_sessions (heartbeat_round (now n) (upnp (S n)) sn) !! k) <-> is_Some (ag_sessions sn !! k)).
    { intros k. rewrite HS. destruct (ag_sessions sn !! k); split; intros []; by eexists. }
    split; [split_and!|intros k; by rewrite HD].
    - intros k s. rewrite HS. destruct (ag_sessions sn !! k) as [s0|] eqn:E; [|done]. intros [= <-].
      by apply (reconnect_mapped _ _ (upnp n k)); [apply U1|apply I1].
    - rewrite <- I2. by apply first_key_dom.
    - unfold heartbeat_round. rewrite HB. cbn. apply U1.
    - unfold heartbeat_round. rewrite HB. cbn. apply U2. }
  intros n stn. destruct (HP n) as [(I1 & I2 & I3 & I4) ID]. split; [exact ID|]. split; [exact I1|]. intros k s.
  rewrite (heartbeat_upnp_changed (upnp n) stn key I1 I2 (U1 n key) I3 I4). cbn. intros (s0 & <- & H0)%lookup_fmap_Some.
  destruct (I1 k s0 H0) as (Ph & C & T & R & W & _). unfold trigger, run_ctx_err. cbn. rewrite T, W. cbn. by rewrite orb_true_r.
Qed.
End Churn.

(* ------------------------------------------------------------------ *)
(** ** Witnesses *)

Module AgentExample.
#[export] Instance toy_unicode : GoUnicode := ascii_unicode.
#[export] Instance toy_time : GoTime := bin_time.

Definition ssh_rule : ForwardRule :=
  mkForwardRule 1 "ssh" "dev-a" "dev-b" "interactive" 2222 "127.0.0.1" 22 true "" "" "" "" "" 0 "".
Definition ssh_rules : peerRuleSet := mkRuleSet "dev-b" "interactive" [forward_rule ssh_rule] [1] [2222].

Lemma ssh_rule_ok : Forall rule_ok [ssh_rule].
Proof. repeat constructor; try discriminate; by apply (bool_decide_unpack _); vm_compute. Qed.

(** A run whose mapping the heartbeat has not seen yet. *)
Definition mapped_session : agentPeerSession :=
  let s := fst (worker_top 0 (new_session ssh_rules)) in fst (worker_status 0 connecting "" "203.0.113.7:40000" s).

(** Ports handed out by the router in turn. *)
Definition router_port (n : nat) (_ : string) : string :=
  if Nat.even n then "203.0.113.7:40000"%string else "203.0.113.7:40001"%string.

Lemma router_port_fresh n k : router_port (S n) k <> router_port n k.
Proof. unfold router_port. rewrite Nat.even_succ, <- Nat.negb_even. by destruct (Nat.even n). Qed.
End AgentExample.

Section Witnesses.
Import AgentExample.

Lemma worker_wakes_witness :
  worker_step (upd_wake (Some "system_resume"%string) (upd_phase W_down (new_session ssh_rules))) []
    (woken "system_resume" (upd_wake (Some "system_resume"%string) (upd_phase W_down (new_session ssh_rules)))) /\
  sess_wake (trigger "system_resume" (new_session ssh_rules)) <> None.
Proof.
  split; [apply wstep_woken; [by right|done]|].
  exact (proj1 (proj1 (worker_wakes ssh_rules (new_session ssh_rules) (sreach_new ssh_rules)) "system_resume"%string)).
Defined.

Lemma syncRules_installs_witness :
  exists s, ag_sessions (fst (syncRules 0 "dev-a" (Some [ssh_rule]) agent0)) !! tunnelGroupKey "dev-b" ProfileInteractive = Some s.
Proof.
  destruct (syncRules_installs 0 "dev-a" [ssh_rule] agent0 (areach_start _) ssh_rule_ok) as [_ H].
  destruct (H "dev-b"%string ProfileInteractive) as [[_ H1] _].
  - by apply (bool_decide_unpack _); vm_compute.
  - by left.
  - apply H1. exists ssh_rule. split; [by left|]. left. by split_and!.
Defined.

Lemma rule_pairs_agents_witness :
  exists s, ag_sessions (fst (syncRules 0 "dev-b" (Some [ssh_rule]) agent0)) !! tunnelGroupKey "dev-a" ProfileInteractive = Some s.
Proof.
  destruct (rule_pairs_agents 0 0 ssh_rule [ssh_rule] [ssh_rule] agent0 agent0 (Session.toy_aead [x2a]) "psk" "a" "b" "s" "" ""
    false false false false false false (areach_start _) (areach_start _) ssh_rule_ok ssh_rule_ok) as (s1 & s2 & _ & H & _);
    [by left|by left|done|]. by exists s2.
Defined.

Lemma upnp_churn_witness :
  exists s, ag_sessions (heartbeat_rounds (fun _ => 0) router_port 3 (mkAgent {[ "k"%string := mapped_session ]} "" "203.0.113.7:39999"))
      !! "k"%string = Some s /\ mapped_run (router_port 3 "k") s.
Proof.
  refine (_ (upnp_churn (fun _ => 0) router_port "k" (mkAgent {[ "k"%string := mapped_session ]} "" "203.0.113.7:39999") _ _ _ _ _ _ 3%nat)).
  - intros (D & M & _). destruct (proj2 (D "k"%string)) as [s Hs]; [by exists mapped_session|]. exists s. split; [exact Hs|by apply M].
  - intros n' k'. unfold router_port. by destruct (Nat.even n').
  - intros n' k'. apply router_port_fresh.
  - intros k' s' Hk. cbn [ag_sessions] in Hk. apply lookup_singleton_Some in Hk as [<- <-]. by split_and!.
  - reflexivity.
  - discriminate.
  - discriminate.
Defined.
End Witnesses.
