(* ===== verification/TunnelRun.v ===== *)
(** * TunnelRun: one run of a tunnel, from its socket to its end (runTunnelOnce of cmd/client/main.go; RunIngress, RunEgress of internal/forward)

    What happens before and after the signalling of [AgentTunnel]: the codec, the socket,
    the mapping and the first registration; then the session, the streams over it and the
    listeners. Each call outside is an outcome of [run_world]. The worker of [Agent] is
    what a run reports to and returns to. *)

From S2P Require Import Prelude GoStrings Store Agent.
From S2P Require SecureFrame Forward AgentTunnel Conversations AgentLoop.

(* ------------------------------------------------------------------ *)
(** ** Listeners *)

(** [listen] is the error of [net.Listen] on a local port. The listeners opened before
    the first error stay until the session closes. *)
Fixpoint RunIngress (listen : Z -> option string) (rules : list Forward.Rule) : option string * list Z :=
  match rules with
  | [] => (None, [])
  | r :: rules =>
    match listen (Forward.LocalPort r) with
    | Some e => (Some ("listen " ++ FormatInt (Forward.LocalPort r) ++ ": " ++ e)%string, [])
    | None => let '(err, ports) := RunIngress listen rules in (err, Forward.LocalPort r :: ports)
    end
  end.

(** The connections an accepting loop hands to goroutines until its first error. *)
Fixpoint acceptLocalTCP {C : Type} (accepts : list (option C)) : list C :=
  match accepts with Some c :: rest => c :: acceptLocalTCP rest | _ => [] end.
Fixpoint RunEgress {C : Type} (accepts : list (option C)) : list C :=
  match accepts with Some stream :: rest => stream :: RunEgress rest | _ => [] end.

(** The socket buffers [tuneTCPConn] sets, when the connection is a TCP one. *)
Definition tuneTCPConn (is_tcp : bool) (profile : string) : option (Z * Z) :=
  if decide (profile <> "bulk"%string) then None else if is_tcp then Some (4 * 1024 * 1024, 4 * 1024 * 1024) else None.

(* ------------------------------------------------------------------ *)
(** ** The run *)

Definition tunnelSessionRTT (stats : option Z) : Z :=
  match stats with None => 0 | Some rtt => if decide (rtt < 0) then 0 else rtt end.

Record run_world : Type := mkRunWorld {
  rw_codec_text : SecureFrame.secure_error -> string;
  rw_resolve : string -> result string string;
  rw_socket : option string;                       (* the error of net.ListenUDP *)
  rw_upnp : option string;                         (* the address of the mapping, when one is made *)
  rw_register : option string;                     (* the error of the first registration *)
  rw_ready : option AgentTunnel.tun;               (* when punchedCh closes; None: the context ends first *)
  rw_open : Conversations.kcp_outcomes; rw_open_text : string; rw_now : Time;
  rw_handshake : option string; rw_smux : option string;
  rw_listen : Z -> option string;
  rw_stats : option Z; rw_ticks : list (option Z)  (* the round trip times, at first and every 15 seconds *)
}.

Definition open_text (e : Conversations.open_error) (text : string) : string :=
  match e with
  | Conversations.ErrServe => "kcp serve: " ++ text
  | Conversations.ErrAccept => "kcp accept: " ++ text
  | Conversations.ErrPeerUnknown => "peer address unknown"
  | Conversations.ErrNewConn => "kcp newconn: " ++ text
  | Conversations.ErrHandshake => "kcp handshake send: " ++ text
  end.

Definition run_error (text : string) : tunnel_error := mkTunnelError false text.

(** What a run leaves: its reports in order, the configuration of its tunnel once it has
    one, the ports it listened on until it ended, and its error; it ends with one always. *)
Record run_result : Type := mkRunResult {
  rr_reports : list (agentTunnelStatus * string); rr_config : option AgentTunnel.tun_config; rr_ports : list Z; rr_err : tunnel_error }.

Section Run.
  Context `{GU : GoUnicode} `{GT : GoTime} `{SC : SecureFrame.SecureCrypto}.

Definition run_codec (w : run_world) (psk : string) : result string (option SecureFrame.Codec) :=
  if decide (psk = EmptyString) then Ok None
  else match SecureFrame.NewCodec psk with Ok c => Ok (Some c) | Err e => Err (rw_codec_text w e) end.

Definition run_status (peerID profile state via addr : string) (conv rtt : Z) (nat : string) : agentTunnelStatus :=
  mkStatus peerID profile state via addr conv rtt nat "" 0 "" "".

(** From the closing of [punchedCh] to the end. *)
Definition run_opened (w : run_world) (c : AgentTunnel.tun_config) (t : AgentTunnel.tun) (nat : string) (rules : list Forward.Rule)
  : list (agentTunnelStatus * string) * list Z * tunnel_error :=
  let listener := AgentTunnel.isListener c in
  let conv := AgentTunnel.tun_convID c in
  match (Conversations.Open (rw_now w) (AgentTunnel.t_peerAddr t) listener conv (AgentTunnel.tc_profile c) (rw_open w)).1 with
  | Err e => ([], [], run_error (open_text e (rw_open_text w)))
  | Ok _ =>
    match (if listener then rw_handshake w else None) with
    | Some e => ([], [], run_error e)
    | None =>
      match rw_smux w with
      | Some e => ([], [], run_error e)
      | None =>
        let via := AgentTunnel.tun_via t in
        let status stats := (run_status (AgentTunnel.tc_peerID c) (AgentTunnel.tc_profile c) via via (AgentTunnel.tc_upnpAddr c) conv
                               (tunnelSessionRTT stats) nat, AgentTunnel.tc_upnpAddr c) in
        match (if decide (rules = []) then (None, []) else RunIngress (rw_listen w) rules) with
        | (Some e, ports) => ([status (rw_stats w)], ports, run_error ("ingress_listen_failed: " ++ e)%string)
        | (None, ports) => (status (rw_stats w) :: map status (rw_ticks w), ports, run_error "kcp_eof: EOF")
        end
      end
    end
  end.

Definition runTunnelOnce (w : run_world) (DeviceID DeviceName PSK Server : string) (ForceRelay AllowLegacy : bool)
  (peerID profile : string) (rules : list Forward.Rule) (nat : natProbeResult) : run_result :=
  let profile := NormalizeProfile profile in
  match run_codec w PSK with
  | Err e => mkRunResult [] None [] (run_error e)
  | Ok codec =>
    match rw_resolve w Server with
    | Err e => mkRunResult [] None [] (run_error e)
    | Ok srvAddr =>
      match rw_socket w with
      | Some e => mkRunResult [] None [] (run_error ("local_socket_failed: " ++ e)%string)
      | None =>
        let upnpAddr := default EmptyString (rw_upnp w) in
        let c := AgentTunnel.mkTunConfig DeviceID DeviceName PSK ForceRelay AllowLegacy peerID profile codec srvAddr upnpAddr (nat_ForceRelay nat) in
        let first := (run_status peerID profile "connecting" "" "" 0 0 (nat_NATType nat), upnpAddr) in
        match rw_register w with
        | Some e => mkRunResult [first] (Some c) [] (run_error ("register_failed: " ++ e)%string)
        | None =>
          match rw_ready w with
          | None => mkRunResult [first] (Some c) [] (mkTunnelError true "context canceled")
          | Some t =>
            let '(reports, ports, err) := run_opened w c t (nat_NATType nat) rules in mkRunResult (first :: reports) (Some c) ports err
          end
        end
      end
    end
  end.

(** The worker during and after a run nothing disturbs. *)
Definition worker_through (now : Time) (jitter : Duration -> Duration) (r : run_result) (s : agentPeerSession) : agentPeerSession :=
  (worker_return now jitter (Some (rr_err r)) (fold_left (fun s st => (worker_status now st.1 EmptyString st.2 s).1) (rr_reports r) s)).1.

(** A report that says the tunnel is up. *)
Definition is_open (st : agentTunnelStatus * string) : Prop := (ts_State st.1 = "p2p" \/ ts_State st.1 = "relay")%string.

#[export] Instance is_open_dec st : Decision (is_open st).
Proof. unfold is_open. apply _. Defined.

Definition opened (r : run_result) : bool := bool_decide (Exists is_open (rr_reports r)).
End Run.

(* ------------------------------------------------------------------ *)
(** ** Listeners, and how a run ends for its worker *)

Lemma RunIngress_spec listen rules :
  match RunIngress listen rules with
  | (None, ports) => ports = map Forward.LocalPort rules /\ Forall (fun p => listen p = None) ports
  | (Some _, ports) => exists r rest, map Forward.LocalPort rules = ports ++ Forward.LocalPort r :: rest /\
      is_Some (listen (Forward.LocalPort r)) /\ Forall (fun p => listen p = None) ports
  end.
Proof.
  induction rules as [|r rules IH]; cbn; [by split|]. destruct (listen (Forward.LocalPort r)) as [e|] eqn:E.
  - exists r, (map Forward.LocalPort rules). split_and!; [done|by rewrite E|done].
  - destruct (RunIngress listen rules) as [[e|] ports].
    + destruct IH as (r' & rest & -> & Hl & Hf). exists r', rest. split_and!; [done|done|by constructor].
    + destruct IH as [-> Hf]. split; [done|by constructor].
Qed.

Section Worker.
  Context `{GU : GoUnicode} `{GT : GoTime} `{SC : SecureFrame.SecureCrypto}.

Lemma worker_status_attempt now st s :
  let s' := (worker_status now st.1 EmptyString st.2 s).1 in
  (is_open st -> sess_attempt s' = 0 /\ sess_connected s' = true) /\
  (~ is_open st -> sess_attempt s' = sess_attempt s /\ sess_connected s' = sess_connected s).
Proof. cbv zeta. unfold worker_status, report, is_open. case_decide; cbn; by split; intros H'. Qed.

(** What a run's reports do to a worker: an opened tunnel resets its attempts. *)
Lemma reports_worker now reports s :
  let s' := fold_left (fun s st => (worker_status now st.1 EmptyString st.2 s).1) reports s in
  sess_cancelled s' = sess_cancelled s /\ sess_wake s' = sess_wake s /\
  (Exists is_open reports -> sess_attempt s' = 0 /\ sess_connected s' = true) /\
  (~ Exists is_open reports -> sess_attempt s' = sess_attempt s /\ sess_connected s' = sess_connected s).
Proof.
  induction reports as [|st reports IH] using rev_ind; cbn zeta.
  { split_and!; try done. intros H. by apply Exists_nil in H. }
  rewrite fold_left_app. cbn [fold_left]. set (s1 := fold_left _ reports s) in *. cbn zeta in IH. destruct IH as (C & W & IO & IN).
  destruct (worker_status now st.1 EmptyString st.2 s1) as [s2 p] eqn:E.
  pose proof (worker_status_attempt now st s1) as [AO AN]. rewrite E in AO, AN. cbn [fst] in *.
  apply AgentLoop.worker_status_spec in E as (_ & C2 & W2 & _). rewrite C2, W2. split_and!; [done|done| |].
  - intros [H|[H|H%Exists_nil]%Exists_cons]%Exists_app; [|by apply AO|done].
    destruct (decide (is_open st)) as [Ho|Ho]; [by apply AO|]. destruct (AN Ho) as [-> ->]. by apply IO.
  - intros H. assert (~ is_open st) by (intros Ho; apply H, Exists_app; right; by apply Exists_cons_hd).
    assert (~ Exists is_open reports) by (intros Ho; apply H, Exists_app; by left). destruct AN as [-> ->]; [done|]. by apply IN.
Qed.

Lemma run_opened_shape w c t nat rules reports ports err :
  run_opened w c t nat rules = (reports, ports, err) ->
  (reports = [] /\ ports = []) \/
  (Forall (fun st => ts_State st.1 = AgentTunnel.tun_via t) reports /\ reports <> [] /\
   ((ports = map Forward.LocalPort rules /\ err = run_error "kcp_eof: EOF") \/
    (exists r, r ∈ rules /\ is_Some (rw_listen w (Forward.LocalPort r)) /\ exists text, err = run_error ("ingress_listen_failed: " ++ text)%string))).
Proof.
  unfold run_opened. destruct (Conversations.Open _ _ _ _ _ _).1; [|intros [= <- <- <-]; by left].
  destruct (if AgentTunnel.isListener c then _ else _); [intros [= <- <- <-]; by left|].
  destruct (rw_smux w); [intros [= <- <- <-]; by left|].
  set (f := fun stats : option Z => _). change (_ :: map _ (rw_ticks w)) with (f (rw_stats w) :: map f (rw_ticks w)).
  assert (Hf : forall x, ts_State (f x).1 = AgentTunnel.tun_via t) by done.
  assert (HF : forall l, Forall (fun st => ts_State st.1 = AgentTunnel.tun_via t) (map f l)).
  { intros l. apply Forall_map, Forall_true. exact Hf. }
  clearbody f. case_decide as Hr.
  - intros [= <- <- <-]. right. split; [constructor; [apply Hf|apply HF]|]. split; [done|]. left. by subst rules.
  - pose proof (RunIngress_spec (rw_listen w) rules) as HI. destruct (RunIngress (rw_listen w) rules) as [[e|] ps].
    + intros [= <- <- <-]. right. split; [constructor; [done|constructor]|]. split; [done|]. right.
      destruct HI as (r & rest & HE & Hl & _). assert (Hin : Forward.LocalPort r ∈ map Forward.LocalPort rules) by (rewrite HE; apply elem_of_app; right; by left).
      apply list_elem_of_fmap in Hin as (r' & Hp & Hin). exists r'. split; [done|]. rewrite <- Hp. split; [done|]. by exists e.
    + intros [= <- <- <-]. right. split; [constructor; [apply Hf|apply HF]|]. split; [done|]. left. split; [by destruct HI as [-> _]|done].
Qed.

Lemma tun_via_open t (st : agentTunnelStatus * string) : ts_State st.1 = AgentTunnel.tun_via t -> is_open st.
Proof. unfold AgentTunnel.tun_via, is_open. destruct (AgentTunnel.t_isRelay t); intros ->; [by right|by left]. Qed.

End Worker.

(* ------------------------------------------------------------------ *)
(** ** Witness *)

Section Witness.
  #[local] Existing Instances ascii_unicode bin_time AgentTunnel.toy_secure.

Definition toy_rule : Forward.Rule := Forward.mkRule 8080 "127.0.0.1:80" "web" "bulk".

(** A run over the relay whose local port is taken or free. *)
Definition toy_world (taken : bool) : run_world :=
  mkRunWorld (fun _ => EmptyString) Ok None None None (Some (AgentTunnel.enterRelay AgentTunnel.toy_cA AgentTunnel.tun0))
    (Conversations.mkOutcomes true true true true) EmptyString 1 None None
    (fun _ => if taken then Some "address already in use"%string else None) (Some 20) [Some 25].
Definition toy_run (taken : bool) : run_result :=
  runTunnelOnce (toy_world taken) "dev-a" "a" EmptyString "9.9.9.9:7000" false false "dev-b" "bulk" [toy_rule] (mkNatProbe "unknown" "" "" false).
Definition toy_worker : agentPeerSession :=
  upd_run true false (upd_loop 3 false W_running (new_session (mkRuleSet "dev-b" "bulk" [toy_rule] [1] [8080]))).

End Witness.
