(* ===== verification/ClientPages.v ===== *)
(** * ClientPages: the pages, helpers and events around a running client (cmd/client)

    The settings page beyond its saving, what each mode lets it do (main.go), the helper
    that installs an update (update_windows.go), the monitor of suspended time
    (resume_windows.go), and which event does what in the agent's loop. Starting programs
    and stopping the own one are listed as actions. *)

From S2P Require Import Prelude GoStrings Store GoJSON.
From S2P Require WinService ClientConfig Updates Agent AgentLoop.

(* ------------------------------------------------------------------ *)
(** ** The page *)

Definition runtime_object (i : Updates.clientRuntimeInfo) : object :=
  [("version", JString (Updates.ri_Version i)); ("commit", JString (Updates.ri_Commit i)); ("build_time", JString (Updates.ri_BuildTime i));
   ("install_path", JString (Updates.ri_InstallPath i)); ("log_path", JString (Updates.ri_LogPath i)); ("service_status", JString (Updates.ri_ServiceStatus i));
   ("update_status", JString (Updates.ri_UpdateStatus i)); ("last_update_check", JString (Updates.ri_LastUpdateCheck i));
   ("last_update_error", JString (Updates.ri_LastUpdateError i))]%string.

Definition no_runtime : Updates.clientRuntimeInfo := Updates.mkRuntimeInfo "" "" "" "" "" "" "" "" "".

(** What a saved page, a menu or a helper starts. *)
Inductive action : Type :=
  | StartSelf                                   (* the program again, with its own arguments *)
  | StartElevated (arg : string)                (* itself with more rights *)
  | Exit (code : Z).

#[export] Instance action_eq_dec : EqDecision action.
Proof. solve_decision. Defined.

(** [clientConfigHooks]: what saving does, whether saving may ask for more rights, and the
    errors of the two buttons where they are there ([Some None] is success). *)
Record clientConfigHooks : Type := mkHooks {
  hk_OnSaved : option (list action); hk_SaveConfig : option ClientConfig.saver; hk_Runtime : option Updates.clientRuntimeInfo;
  hk_RestartService : option (option string); hk_CheckUpdates : option (option string) }.

Definition handleRuntime (method : string) (h : clientConfigHooks) : Z * object :=
  if decide (method <> "GET"%string) then (405, [])
  else (200, runtime_object (default no_runtime (hk_Runtime h))).

(** The two buttons. *)
Definition button (method : string) (hook : option (option string)) : Z * object :=
  if decide (method <> "POST"%string) then (405, [])
  else match hook with
  | None => (501, [])
  | Some (Some _) => (500, [])
  | Some None => (200, [("ok"%string, JBool true)])
  end.
Definition handleRestartService (method : string) (h : clientConfigHooks) : Z * object := button method (hk_RestartService h).
Definition handleCheckUpdates (method : string) (h : clientConfigHooks) : Z * object := button method (hk_CheckUpdates h).

(** [executable] and [started]: whether the program finds itself and can be started. *)
Definition restartSelf (executable started : bool) : list action :=
  if executable && started then [StartSelf; Exit 0] else [Exit 0].

(** [spawnServiceCommand] is asked to restart the service; the error is whether it could. *)
Definition spawnServiceCommand (arg : string) : action := StartElevated arg.

(** The hooks of each mode. [elevate] is [saveClientConfigWithElevation] on the file of
    the mode, [restart] and [check] the outcomes of the buttons. *)
Section Modes.
  Variables (executable started : bool) (spawned : bool) (elevate : ClientConfig.saver) (info : Updates.clientRuntimeInfo) (restart check : option string).

Definition runBootstrapConfigMode : clientConfigHooks := mkHooks (Some (restartSelf executable started)) None (Some info) None None.
Definition runBootstrapTrayMode : clientConfigHooks :=
  mkHooks (Some (if spawned then [spawnServiceCommand "-restart-service"; Exit 0] else restartSelf executable started)) (Some elevate) (Some info)
    (Some restart) None.
Definition runAgent : clientConfigHooks := mkHooks (Some (restartSelf executable started)) None (Some info) None None.
Definition runTrayProcess : clientConfigHooks :=
  mkHooks (Some ((if spawned then [spawnServiceCommand "-restart-service"] else []) ++ [Exit 0])) (Some elevate) (Some info) (Some restart) (Some check).
End Modes.

Definition page (h : clientConfigHooks) (cfg : ClientConfig.Client) (path : string) : ClientConfig.clientConfigState :=
  ClientConfig.mkPage cfg path (hk_SaveConfig h) (bool_decide (hk_OnSaved h <> None)).

(** What follows a request to save: [OnSaved], when the answer said the process exits. *)
Definition after_save (exiting : bool) (h : clientConfigHooks) : list action := if exiting then default [] (hk_OnSaved h) else [].

(* ------------------------------------------------------------------ *)
(** ** The service's state on the page *)

(** [runWindowsService]: the state while the program runs, when it does, and the one after
    the manager's loop ([err] is its error); [run] is what the program does to it. *)
Definition runWindowsService (ran : bool) (run : Updates.runtimeState -> Updates.runtimeState) (err : option string) (r : Updates.runtimeState)
  : option string * Updates.runtimeState :=
  let r := Updates.SetServiceStatus "starting" r in
  let r := if ran then Updates.SetServiceStatus "stopped" (run (Updates.SetServiceStatus "running" r)) else r in
  (err, match err with Some _ => Updates.SetServiceStatus "error" r | None => r end).

(* ------------------------------------------------------------------ *)
(** ** The helper that installs an update *)

Section Updater.
  Context {W : Type} `{SM : WinService.ServiceManager W} `{GU : GoUnicode}.

(** Half a second between the polls; other than a restart, one waits thirty seconds. *)
Fixpoint await_update (polls : nat) (w : W) : W :=
  match polls with
  | O => w
  | S polls => if WinService.quiet (WinService.queryWindowsServiceStatus WinService.windowsServiceName w).1 then w
               else await_update polls (WinService.Sleep (500 * millisecond) w)
  end.

(** [installer] is the run of the package: its error. *)
Definition runUpdaterHelper (installer : string -> W -> option string * W) (pkgPath : string) (w : W) : option string * W :=
  if decide (pkgPath = EmptyString) then (Some "missing update package"%string, w)
  else
    let w := await_update 60 (WinService.stopWindowsService WinService.windowsServiceName w).2 in
    match installer pkgPath w with
    | (Some e, w) => (Some ("run installer: " ++ e)%string, (WinService.startWindowsService WinService.windowsServiceName w).2)
    | (None, w) => WinService.startWindowsService WinService.windowsServiceName w
    end.
End Updater.

(* ------------------------------------------------------------------ *)
(** ** Suspended time *)

(** A tick of [startResumeMonitor]: the time of the last tick and the channel, which holds
    one reason. *)
Definition resume_tick (now : Time) (s : Time * option string) : Time * option string :=
  let '(last, ch) := s in
  (now, if decide (45 * second < time_sub now last) then match ch with None => Some "system_resume"%string | c => c end else ch).

(* ------------------------------------------------------------------ *)
(** ** The loop of the agent *)

(** Every 15 s, 5 s and 10 s; an update, every six hours or asked for; a resume. *)
Inductive agent_event : Type :=
  | RulesTick (rules : option (list ForwardRule))
  | HeartbeatTick
  | UpdateTick
  | UpdateTrigger (reason : string)
  | Resume (reason : string).

Section AgentEvents.
  Context `{GU : GoUnicode} `{GT : GoTime}.

(** One turn of the loop of [runAgentLoop] that is not its end, with what it posts and
    whether it checks for updates. *)
Definition agent_turn (deviceID : string) (now : Time) (ev : agent_event) (st : AgentLoop.agent) : AgentLoop.agent * list Agent.agent_post * bool :=
  match ev with
  | RulesTick rules => (AgentLoop.syncRules now deviceID rules st, false)
  | HeartbeatTick => (AgentLoop.sendHeartbeat st, false)
  | UpdateTick | UpdateTrigger _ => (st, [], true)
  | Resume reason => (AgentLoop.triggerAllPeers reason st, [], false)
  end.

Definition signature_part (r : ForwardRule) : string :=
  ("#" ++ FormatInt (fr_ID r) ++ ":" ++ NormalizeProfile (fr_Profile r) ++ ":" ++ fr_SourceID r ++ "->" ++ fr_TargetID r ++ ":" ++ FormatInt (fr_LocalPort r) ++
   "->" ++ fr_TargetHost r ++ ":" ++ FormatInt (fr_TargetPort r) ++ ":en=" ++ FormatBool (fr_Enabled r))%string.

(** [rulesSignature], which only decides what is logged. *)
Definition rulesSignature (rules : list ForwardRule) : string := Join (sort_strings (map signature_part rules)) ",".
End AgentEvents.

(* ------------------------------------------------------------------ *)
(** ** What follows *)

(** A turn of the loop keeps the agent among those whose invariants [AgentLoop] shows. *)
Lemma agent_turn_reachable `{GU : GoUnicode} `{GT : GoTime} d now ev st :
  AgentLoop.agent_reachable d st -> (forall l, ev = RulesTick (Some l) -> Forall Agent.rule_ok l) ->
  AgentLoop.agent_reachable d (agent_turn d now ev st).1.1.
Proof.
  intros HR HO. destruct ev as [rules| | |reason|reason]; cbn; [|by constructor|done|done|by constructor].
  constructor; [done|]. intros l ->. by apply HO.
Qed.

(** A saved page ends its process exactly when the file was written without asking for
    more rights; with them, the answer asks for a restart and nothing restarts. *)
Lemma saved_page_exits `{GU : GoUnicode} `{GD : Settings.GoDuration} `{GJ : GoJSON} (hostname : option string) (h : clientConfigHooks)
  (cfg : ClientConfig.Client) (path : string) (body : list byte) fs status answer exiting s' fs' :
  hk_OnSaved h <> None -> ClientConfig.handleConfig hostname "POST" body (page h cfg path) fs = (status, answer, exiting, s', fs') ->
  status = 200 -> (exiting = true <-> In ("elevation_required"%string, JBool false) answer).
Proof.
  intros HO. unfold ClientConfig.handleConfig. rewrite decide_False, decide_True by done.
  destruct (o ← DecodeFirst body; _) as [[http name]|]; [|by intros [= <- _ _ _ _]].
  match goal with |- (let '(saved, fs) := ?m in _) = _ -> _ => destruct m as [saved fs1] end.
  destruct saved as [elevated|]; [|by intros [= <- _ _ _ _]]. intros [= _ <- <- _ _] _. cbn [page ClientConfig.pg_OnSaved].
  rewrite bool_decide_eq_true_2 by done. destruct elevated; cbn; split; try done; try tauto; intros; naive_solver.
Qed.

(** A program that was suspended for more than 45 seconds between two ticks is told so,
    unless it has not yet taken the last time it was. *)
Lemma resume_reported ticks now last ch :
  45 * second < time_sub now last -> (fold_left (fun s t => resume_tick t s) ticks (resume_tick now (last, ch))).2 <> None.
Proof.
  intros H. assert (H1 : (resume_tick now (last, ch)).2 <> None) by (unfold resume_tick; rewrite decide_True by done; by destruct ch).
  revert H1. generalize (resume_tick now (last, ch)) as s. induction ticks as [|t ticks IH]; intros [l c] Hc; [done|].
  cbn [fold_left]. apply IH. unfold resume_tick. cbn [snd] in Hc. destruct c; [|done]. by case_decide.
Qed.

Section UpdaterLaws.
  Context {W : Type} {SM : WinService.ServiceManager W} `{GU : GoUnicode}.

(** An installer that fails leaves the service started as far as it can be; one that
    succeeds, the helper's answer is that of the start. *)
Lemma updater_starts (installer : string -> W -> option string * W) (pkgPath : string) (w : W) :
  pkgPath <> EmptyString -> exists w0 w1 err, installer pkgPath w0 = (err, w1) /\
    (runUpdaterHelper installer pkgPath w).2 = (WinService.startWindowsService WinService.windowsServiceName w1).2 /\
    ((runUpdaterHelper installer pkgPath w).1 = None -> err = None).
Proof.
  intros Hp. unfold runUpdaterHelper. rewrite decide_False by done. set (w0 := await_update _ _).
  destruct (installer pkgPath w0) as [[e|] w1] eqn:E; exists w0, w1; eexists; (split; [exact E|split; [reflexivity|done]]).
Qed.
End UpdaterLaws.
